(* ===== verification/_CoqProject ===== *)
-Q . S2P
Prelude.v
Bytes.v
Buffer.v
Crc32.v
Bitmap.v
Count.v
FindBit.v
TreeKeys.v
Bnode.v
BnodeRep.v
BnodeDelete.v
BnodeSearch.v
BnodeSplit.v
BnodeMerge.v
BnodeTheorems.v
NodeStore.v
StoreRep.v
Btree.v
BtreeRep.v
BtreeLevel.v
BtreeFind.v
BtreePlace.v
BtreeGrow.v
BtreeRoot.v
BtreeInsert.v
BtreeUpdate.v
BtreeEnv.v
BtreeTheorems.v
BtreeRemove.v
BtreeRemoveTheorems.v
Snapshot.v
SnapshotDisk.v
SnapshotRep.v
SnapshotCow.v
SnapshotTable.v
SnapshotStep.v
SnapshotSeal.v
SnapshotLoad.v
SnapshotCommit.v
SnapshotAtomic.v
SnapshotTheorems.v
RuntimeExtents.v
Ranges.v
Rbtree.v
FsmTree.v
FsmSpace.v
Fsm.v
FsmCounters.v
FsmBuild.v
FsmAlloc.v
FsmRebuild.v
FsmTheorems.v
FileSpace.v
FileMap.v
FileRep.v
FileLookup.v
FileInsert.v
FileAlloc.v
FileFlush.v
FileTrunc.v
FilePlain.v
FileTheorems.v
InodeRec.v
InodeTheorems.v
Orphan.v
OrphanTheorems.v
ToolsSpace.v
ToolsTheorems.v
ToolsIds.v
ToolsPlace.v
ToolsPlaceTheorems.v
MetaWrite.v
MetaRep.v
MetaFiles.v
MetaSign.v
MetaBio.v
MetaLoop.v
MetaPlace.v
MetaCommit.v
MetaTheorems.v
