(* ===== verification/Prelude.v ===== *)
(** * VDFS4: a verification library

    VDFS4 is a file system for flash storage: a Linux driver
    (src/linux/fs/vdfs4/) and userspace tools that make images
    (src/vdfs-tools/). This library models the parts of both that carry the
    program's own logic as executable Rocq functions over the bytes, bitmaps,
    lists and trees the C code works on, and proves what those functions do.

    ** The program

    The volume is an array of blocks. The driver keeps a signed bitmap of used
    blocks, and in memory a free-space manager (fsm.c) with two areas: blocks that
    are free now, and blocks freed since the last commit. Names, extents and
    extended attributes are records of three B-trees (cattree.c, extents.c,
    xattr.c) over common tree code (btree.c) whose nodes are pages of a tree file,
    fetched, allocated and destroyed by bnode.c. A file that grows first reserves
    blocks in a list of runtime extents (extents.c) and gets its real blocks later.
    Metadata is changed copy on write: a table (snapshot.c) maps the chunks of the
    five special files to blocks of the metadata area, a chunk moves before it
    changes, and a commit (data.c) signs and writes the dirty pages, then the table,
    then gives back the blocks that were freed.
    A file that has lost its last name is kept on a list of orphans, in memory and
    in the records of the catalog, until its inode is evicted or the volume is
    mounted again (orphan.c).
    The tools number the files of a source tree, build the trees, place the special
    files of an image in its metadata area and write their nodes with checksums and
    hashes (mkfs.c, inode-id.c, hlink.c, space_manager.c, snapshot.c,
    flush_metadata.c) over bitmaps and checksums of the same formats (bitmap.c,
    bitops.c, crc32.c, utils.c).

    ** Files and the code they model

    - Prelude: machine integers, error numbers, the outcome monad [run] with
      [Bug] and [Fault]; tactics, hint databases and lemmas shared by all files. Bytes, Buffer: byte buffers with bounded reads,
      writes and moves, and little-endian fields. Count, FindBit, Ranges, Rbtree:
      counting in a range, the kernel's bit search, ordered lists of block ranges,
      the kernel's red-black tree. FindBit and Rbtree are interfaces (kernel code,
      not in the repository): type classes of operations and of the documented
      laws, with an executable instance for the witnesses.
    - Crc32: lib/crc32.c and the signing helpers of lib/utils.c.
    - Bitmap: lib/bitmap.c, lib/bitops.c, the bitmap helpers of lib/utils.c, and
      vdfs4_set_bits and vdfs4_clear_bits of the driver's data.c with the bit
      operations of vdfs4.h.
    - RuntimeExtents: the runtime extents of extents.c.
    - FsmTree (heap nodes, the two trees, the hash lists), FsmSpace (invariant,
      adding, committing and choosing ranges), Fsm (the operations over the
      bitmap), FsmCounters, FsmBuild, FsmAlloc, FsmRebuild, FsmTheorems: fsm.c.
    - TreeKeys: the comparison functions of the three trees, as instances of the
      interface [KeyCmp] against which the tree is verified.
    - Bnode (model), BnodeRep (the records a node holds), BnodeDelete,
      BnodeSearch, BnodeSplit, BnodeMerge, BnodeTheorems: the operations of btree.c
      on the bytes of one node or of two neighbours.
    - NodeStore (model) and StoreRep: bnode.c, the table of fetched nodes with
      reference counts, the bitmap of node ids, allocation, destruction and the
      reserve of nodes for splits.
    - Btree (model of search and insertion in btree.c: traverse stack, to-do list,
      splits, index records, new roots), BtreeRep (levels as linked chains of
      nodes), BtreeLevel, BtreeFind, BtreePlace, BtreeGrow, BtreeRoot,
      BtreeInsert, BtreeUpdate, BtreeTheorems: what they do to a tree. BtreeEnv: the
      search when calls fail.
    - BtreeRemove (model of removal in btree.c: index keys, merge, rebalance, the
      loss of a root) and BtreeRemoveTheorems.
    - Snapshot (model of the tables, their bitmaps and the move of a chunk),
      SnapshotDisk (model of writing and loading the tables on a device),
      SnapshotRep, SnapshotCow, SnapshotTable, SnapshotStep, SnapshotSeal,
      SnapshotLoad, SnapshotCommit, SnapshotAtomic, SnapshotTheorems: snapshot.c
      with vdfs4_table_IO of data.c and vdfs4_sync_exsb of super.c.
    - FileSpace (what fsm.c promises to files), FileMap (model of the extents of a
      file, delayed and direct allocation and truncation), FileRep, FileLookup,
      FileInsert, FileAlloc, FileFlush, FileTrunc, FilePlain, FileTheorems: the
      block map of files in inode.c, file.c and extents.c. The tree of overflow
      extents and the metadata area are interfaces, [ExtTree] and [MetaArea], with
      instances in FilePlain.
    - InodeRec (model) and InodeTheorems: the records of inodes, written by
      cattree-helper.c and read by inode.c.
    - Orphan (model) and OrphanTheorems: orphan.c with vdfs4_unlink,
      __vdfs4_write_inode and vdfs4_evict_inode, over the catalog as a map.
    - ToolsSpace (model) and ToolsTheorems: the space manager of the tools.
      ToolsIds: inode-id.c, hlink.c and the numbering in mkfs.c. ToolsPlace (model)
      and ToolsPlaceTheorems: the placement of the special files and the writing of
      tree nodes, with the lookup of the driver that reads them.
    - MetaWrite (model of the dirty pages, their signing, the requests and
      vdfs4_sync_metadata), MetaRep (the page cache and block requests as
      interfaces), MetaFiles, MetaSign, MetaBio, MetaLoop, MetaPlace, MetaCommit,
      MetaTheorems: the write-back of metadata in data.c, with the signing of
      nodes of bnode.c and the page lookup of vdfs4.h.

    ** Conventions

    A w-bit integer is a [Z] that is wrapped where the code stores it. A function
    returns [run]: [Bug] where the code stops the system (VDFS4_BUG,
    VDFS4_BUG_ON), [Fault] where it leaves an object's bounds, follows a null or
    freed pointer, or would never end, so a theorem that a run is [Ok] excludes
    them all. Error codes are negative numbers; a function that returns a pointer
    or an ERR_PTR returns [Val] or [Err].
    Answers that come from outside the modelled code (memory allocation, the page
    cache, the validation of pages) are read from a list of answers in the state,
    the empty list being that every call succeeds. A theorem that needs that says so
    with a hypothesis of its own ([calls_succeed] for trees, [nodes_available] and
    [allocs f = []] for the nodes of the free-space manager, [calm] for files,
    [calls_answered] for orphans); the others hold for every list of answers.

    ** Fuel

    Loops are iterated at most a stated number of times, and running out is a
    [Fault]; since the theorems show [Ok] for all inputs they cover, the numbers
    are enough. They are: the number of blocks of the volume for the scan of the
    bitmap, the 16 orders for the hash lists, the number of nodes of a red-black
    tree for its walks, the number of records for the search and the split of a
    node, 2^16 for moving offsets (a node holds fewer records), the number of pages
    of a tree for the walk along a level, and, for the to-do list of an insertion,
    its length times the height of the tree, 2^16 levels for a removal (the height
    is a 16-bit field). Truncation takes one turn more than the file has overflow
    extents, the flush of delayed blocks one more than there are blocks, the loops
    over a fork its nine extents, and the recovery of orphans one more than
    the catalog has records. The write of dirty pages runs at most
    once more than there are dirty pages, and a page needs at most three attempts to
    find a request.

    ** What the theorems show

    - Trees: search returns the floor of a key, or the error of a call that failed
      with the tree unchanged. When no call fails, insertion refines insertion into a
      sorted list of records, and a record inserted is found again; the
      reserve of nodes makes allocation for splits succeed while a node id is free, and
      destroying a node takes its allocation back. They hold for trees with node size a multiple of
      4096 and for every key order that satisfies [KeyCmp], which the three orders
      of the driver do.
    - Removal: the whole operation is modelled; proved is, for calls that succeed, that an absent key changes
      nothing, and that a record leaves the tree when its leaf keeps its first key,
      or is the whole tree, and is not merged. The data part of a merge is proved on
      the bytes of the nodes. The last record of a tree cannot be removed.
    - Nodes: each operation as an operation on the list of records, with the exact
      free space; node sizes from 64 to 65536 bytes, for the split from 4096 on. A split
      whose right neighbour cannot be fetched loses the new record with code 0.
    - Free space: [fsm_inv] ties trees, counters and bitmap together; building,
      allocating, freeing, committing, rebuilding and discarding keep it, and each
      does to the bitmap what its caller expects. Building and freeing tolerate that
      memory for a node lacks; allocating and rebuilding are proved without that, and
      an example shows the stop of a rebuild.
    - Snapshots: before a chunk changes it gets a place outside the committed
      snapshot; the commit of the tables is atomic and a mount loads the old or the
      new ones; free blocks are counted right.
    - Commit: vdfs4_sync_metadata returns whatever the device answers, and a mount reads
      all metadata pages as they were or all as they are now, provided that the dirty
      chunks could be moved and that the superblock in front of the commit is written
      when the metadata area has grown (the driver does not look at that result); on
      success they are
      the new ones and all components are ready for the next transaction; on a
      device that answers every call it succeeds. A device writes single pages
      atomically, in any request a prefix of its pages before it fails, and keeps
      the order of requests. The theorems are for 4096-byte blocks, nodes that fit a
      batch, a metadata area whose blocks have room for a batch in front of the end
      of the device, and tables areas in which a table and its eight extended tables
      do not fill a half.
    - Files: the map from logical to physical blocks; insertion of an extent adds its
      blocks and no other, a block that is handed out belonged to nobody (with memory
      for the nodes of the free-space manager), truncation
      gives back exactly the blocks behind the new end, delayed blocks are mapped or
      stay delayed; and what is lost when the tree cannot be changed.
    - Inodes: a record that is written and read back gives the inode again, if it has no
      inline data and is not compressed; the
      validation of forks accepts what it says, overflow of a sum included.
    - Orphans: an invariant of unlinking, eviction, fetching and writing, and for
      every reachable volume that a mount removes exactly the orphans, when no call
      fails.
    - Tools: allocation keeps chunks, bitmap and count in step; links of one file and
      only these share an inode number, in a source tree on one device; the placement of the special files is
      consistent and is what the driver reads; nodes are written so that the driver
      trusts them, for nodes of four blocks, and past the hash table for larger ones.
    - Bitmaps, checksums, runtime extents: each operation on every branch, round
      trips, and the reference CRC-32.

    ** Not modelled

    Locks and the memory barriers (every operation runs alone, as under the locks
    its callers hold); the validation of checksums when a page is read, but for the
    hash table of read-only images; growth of the metadata area and of the special
    files; debug dumps and the CONFIG_VDFS4_DEBUG build of the commit;
    [force_insert], which only reaches the tree file; pages of file data, mount
    beyond tables and orphans, the ioctl and option glue, which are calls into the
    kernel; compression, encryption and signatures, which are calls into other
    libraries; the operations that compose keys for the catalog and attribute trees
    and step through their records; the tools' own copy of the tree code, their
    command line, superblocks and disk I/O.

    ** What could follow

    Merge and rebalance proved on whole trees, the catalog and attribute operations
    over the tree, the growth of the metadata area, and the trees of the tools, in
    this order. *)

From Stdlib Require Import ZArith Lia Bool List.
From stdpp Require Import base list gmap.

Open Scope Z_scope.

(** ** Machine integers

    A C integer of width [w] is a [Z] in [0, 2^w); every arithmetic result the
    code stores in such an object is wrapped with one of these. *)

Definition u8 (x : Z) : Z := x mod 2 ^ 8.
Definition u16 (x : Z) : Z := x mod 2 ^ 16.
Definition u32 (x : Z) : Z := x mod 2 ^ 32.
Definition u64 (x : Z) : Z := x mod 2 ^ 64.

(** Two's complement reading of a 32-bit pattern (a cast to [int]). *)
Definition s32 (x : Z) : Z := (x + 2 ^ 31) mod 2 ^ 32 - 2 ^ 31.

Declare Scope vdfs_scope.
Delimit Scope vdfs_scope with vdfs.
Notation "a +64 b" := (u64 (a + b)) (at level 50, left associativity) : vdfs_scope.
Notation "a -64 b" := (u64 (a - b)) (at level 50, left associativity) : vdfs_scope.
Notation "a +32 b" := (u32 (a + b)) (at level 50, left associativity) : vdfs_scope.
Notation "a -32 b" := (u32 (a - b)) (at level 50, left associativity) : vdfs_scope.
Open Scope vdfs_scope.

(** ** Error numbers (asm-generic/errno-base.h) *)

Definition ENOENT : Z := 2.
Definition EIO : Z := 5.
Definition EAGAIN : Z := 11.
Definition ENOMEM : Z := 12.
Definition EFAULT : Z := 14.
Definition EEXIST : Z := 17.
Definition EINVAL : Z := 22.
Definition ENOSPC : Z := 28.

(** ** Outcomes

    [Bug] is a stop of the system (VDFS4_BUG, VDFS4_BUG_ON, assert); [Fault] is
    a memory access outside the object it is made through. Error codes are
    ordinary results. *)

Inductive run (A : Type) : Type :=
| Ok (a : A)
| Bug
| Fault.
Arguments Ok {A} _.
Arguments Bug {A}.
Arguments Fault {A}.

#[export] Instance run_ret : MRet run := fun A a => Ok a.
#[export] Instance run_bind : MBind run := fun A B f m =>
  match m with Ok a => f a | Bug => Bug | Fault => Fault end.

(** VDFS4_BUG_ON(cond) *)
Definition bug_on (c : bool) : run unit := if c then Bug else Ok tt.

(** A result that is a pointer or an ERR_PTR. *)
Inductive res (A : Type) : Type :=
| Err (e : Z)
| Val (a : A).
Arguments Err {A} _.
Arguments Val {A} _.

(** ** Tactics *)

(** Turns boolean comparisons in hypotheses and goal into propositions. *)
Ltac bools :=
  repeat match goal with
  | H : andb _ _ = true |- _ => apply andb_true_iff in H; destruct H
  | H : orb _ _ = false |- _ => apply orb_false_iff in H; destruct H
  | H : negb _ = true |- _ => apply negb_true_iff in H
  | H : negb _ = false |- _ => apply negb_false_iff in H
  | H : Z.eqb _ _ = true |- _ => apply Z.eqb_eq in H
  | H : Z.eqb _ _ = false |- _ => apply Z.eqb_neq in H
  | H : Z.ltb _ _ = true |- _ => apply Z.ltb_lt in H
  | H : Z.ltb _ _ = false |- _ => apply Z.ltb_ge in H
  | H : Z.leb _ _ = true |- _ => apply Z.leb_le in H
  | H : Z.leb _ _ = false |- _ => apply Z.leb_gt in H
  | H : bool_decide _ = true |- _ => apply bool_decide_eq_true in H
  | H : bool_decide _ = false |- _ => apply bool_decide_eq_false in H
  end.

Lemma u64_small (x : Z) : 0 <= x < 2 ^ 64 -> u64 x = x.
Proof. intros; unfold u64; apply Z.mod_small; lia. Qed.

Lemma u32_small (x : Z) : 0 <= x < 2 ^ 32 -> u32 x = x.
Proof. intros; unfold u32; apply Z.mod_small; lia. Qed.

Lemma u16_small (x : Z) : 0 <= x < 2 ^ 16 -> u16 x = x.
Proof. intros; unfold u16; apply Z.mod_small; lia. Qed.

(** Drops the wrap-arounds that the hypotheses show to be the identity. *)
Ltac unwrap1 :=
  match goal with
  | |- context [u64 ?x] => rewrite (u64_small x) by lia
  | |- context [u32 ?x] => rewrite (u32_small x) by lia
  | |- context [u16 ?x] => rewrite (u16_small x) by lia
  | H : context [u64 ?x] |- _ => rewrite (u64_small x) in H by lia
  | H : context [u32 ?x] |- _ => rewrite (u32_small x) in H by lia
  | H : context [u16 ?x] |- _ => rewrite (u16_small x) in H by lia
  end.
Ltac unwrap := repeat unwrap1.

(** Case analysis on every [if] of the goal, recording the tests. *)
Ltac case_if :=
  match goal with
  | |- context [if ?c then _ else _] => destruct c eqn:?
  end.
Ltac cases := repeat case_if; bools.

Create HintDb vdfs.
Create Rewrite HintDb vdfs.
Create Rewrite HintDb bits.

(** ** Lists indexed by [Z] (arrays) *)

Section ZIndex.
Context {A : Type}.

Definition getZ (l : list A) (i : Z) : option A :=
  if i <? 0 then None else l !! Z.to_nat i.

Definition setZ (l : list A) (i : Z) (x : A) : list A :=
  if i <? 0 then l else <[Z.to_nat i := x]> l.

Definition lenZ (l : list A) : Z := Z.of_nat (length l).

Lemma lenZ_nonneg (l : list A) : 0 <= lenZ l.
Proof. unfold lenZ; lia. Qed.

Lemma lenZ_app (l k : list A) : lenZ (l ++ k) = lenZ l + lenZ k.
Proof. unfold lenZ; rewrite length_app; lia. Qed.

Lemma lenZ_cons (x : A) (l : list A) : lenZ (x :: l) = 1 + lenZ l.
Proof. unfold lenZ; cbn; lia. Qed.

Lemma lenZ_setZ (l : list A) (i : Z) (x : A) : lenZ (setZ l i x) = lenZ l.
Proof. unfold lenZ, setZ; case_if; [done|]; by rewrite length_insert. Qed.

Lemma getZ_is_Some (l : list A) (i : Z) :
  0 <= i < lenZ l -> exists x, getZ l i = Some x.
Proof.
  unfold getZ, lenZ; intros; destruct (Z.ltb_spec i 0); [lia|].
  destruct (lookup_lt_is_Some_2 l (Z.to_nat i)) as [x Hx]; [lia|eauto].
Qed.

Lemma getZ_bounds (l : list A) (i : Z) (x : A) :
  getZ l i = Some x -> 0 <= i < lenZ l.
Proof.
  unfold getZ, lenZ; destruct (Z.ltb_spec i 0); [done|].
  intros Hx; apply lookup_lt_Some in Hx; lia.
Qed.

Lemma getZ_None (l : list A) (i : Z) : i < 0 \/ lenZ l <= i -> getZ l i = None.
Proof.
  intros Hi; destruct (getZ l i) eqn:E; [|done].
  apply getZ_bounds in E; lia.
Qed.

Lemma getZ_setZ_eq (l : list A) (i : Z) (x : A) :
  0 <= i < lenZ l -> getZ (setZ l i x) i = Some x.
Proof.
  unfold getZ, setZ, lenZ; intros; destruct (Z.ltb_spec i 0); [lia|].
  apply list_lookup_insert_eq; lia.
Qed.

Lemma getZ_setZ_ne (l : list A) (i j : Z) (x : A) :
  i <> j -> getZ (setZ l i x) j = getZ l j.
Proof.
  unfold getZ, setZ; intros.
  destruct (Z.ltb_spec i 0), (Z.ltb_spec j 0); try done.
  apply list_lookup_insert_ne; lia.
Qed.

Lemma getZ_cons (x : A) (l : list A) (i : Z) :
  0 <= i -> getZ (x :: l) (i + 1) = getZ l i.
Proof.
  unfold getZ; intros; destruct (Z.ltb_spec i 0), (Z.ltb_spec (i + 1) 0); try lia.
  replace (Z.to_nat (i + 1)) with (S (Z.to_nat i)) by lia; done.
Qed.

Lemma getZ_app_l (l k : list A) (i : Z) :
  i < lenZ l -> getZ (l ++ k) i = getZ l i.
Proof.
  unfold getZ, lenZ; intros; destruct (Z.ltb_spec i 0); [done|].
  apply lookup_app_l; lia.
Qed.

Lemma getZ_app_r (l k : list A) (i : Z) :
  lenZ l <= i -> getZ (l ++ k) i = getZ k (i - lenZ l).
Proof.
  unfold getZ, lenZ; intros.
  destruct (Z.ltb_spec i 0), (Z.ltb_spec (i - Z.of_nat (length l)) 0); try lia.
  rewrite lookup_app_r by lia; f_equal; lia.
Qed.

Lemma getZ_ext (l k : list A) :
  lenZ l = lenZ k -> (forall i, 0 <= i < lenZ l -> getZ l i = getZ k i) -> l = k.
Proof.
  unfold lenZ, getZ; intros Hlen Hget; apply list_eq; intros n.
  destruct (decide (n < length l)%nat).
  - specialize (Hget (Z.of_nat n)); rewrite Nat2Z.id in Hget.
    destruct (Z.ltb_spec (Z.of_nat n) 0); [lia|]; apply Hget; lia.
  - rewrite !lookup_ge_None_2 by lia; done.
Qed.

Lemma getZ_elem (l : list A) (i : Z) (x : A) : getZ l i = Some x -> x ∈ l.
Proof.
  unfold getZ; destruct (i <? 0); [done|]; apply list_elem_of_lookup_2.
Qed.

Lemma getZ_Forall (P : A -> Prop) (l : list A) (i : Z) (x : A) :
  Forall P l -> getZ l i = Some x -> P x.
Proof. intros HP Hx; rewrite Forall_forall in HP; eauto using getZ_elem. Qed.

Lemma setZ_Forall (P : A -> Prop) (l : list A) (i : Z) (x : A) :
  Forall P l -> P x -> Forall P (setZ l i x).
Proof. intros; unfold setZ; case_if; [done|]; by apply Forall_insert. Qed.

End ZIndex.

#[export] Hint Rewrite @lenZ_app @lenZ_cons @lenZ_setZ : vdfs.
#[export] Hint Resolve lenZ_nonneg getZ_elem setZ_Forall : vdfs.

(** ** Bitwise extensionality *)

#[export] Hint Rewrite Z.lxor_spec Z.land_spec Z.lor_spec Z.testbit_0_l
  Z.shiftr_spec Z.shiftl_spec Z.ldiff_spec using lia : bits.

Lemma testbit_high (x n i : Z) : 0 <= x < 2 ^ n -> n <= i -> Z.testbit x i = false.
Proof.
  intros Hx Hi; destruct (Z.eq_dec x 0) as [->|]; [apply Z.testbit_0_l|].
  assert (0 <= n) by (destruct (Z.leb_spec 0 n); [done|]; rewrite Z.pow_neg_r in Hx; lia).
  apply Z.bits_above_log2; [lia|].
  apply Z.log2_lt_pow2; [lia|].
  apply Z.lt_le_trans with (2 ^ n); [lia|]; apply Z.pow_le_mono_r; lia.
Qed.

Lemma land_ones_byte (x : Z) : Z.land x 255 = x mod 2 ^ 8.
Proof. change 255 with (Z.ones 8); apply Z.land_ones; lia. Qed.

Lemma lxor_range (n a b : Z) :
  0 <= n -> 0 <= a < 2 ^ n -> 0 <= b < 2 ^ n -> 0 <= Z.lxor a b < 2 ^ n.
Proof.
  intros Hn Ha Hb; assert (0 <= Z.lxor a b) by (apply Z.lxor_nonneg; lia).
  split; [done|]; destruct (Z.eq_dec (Z.lxor a b) 0) as [->|]; [lia|].
  destruct (Z.eq_dec n 0) as [->|]; [assert (a = 0) by lia; assert (b = 0) by lia; subst; done|].
  apply Z.log2_lt_pow2; [lia|].
  apply Z.le_lt_trans with (Z.max (Z.log2 a) (Z.log2 b)); [apply Z.log2_lxor; lia|].
  assert (forall x, 0 <= x < 2 ^ n -> Z.log2 x < n) as HL.
  { intros x Hx; destruct (Z.eq_dec x 0) as [->|]; [cbn; lia|apply Z.log2_lt_pow2; lia]. }
  apply Z.max_lub_lt; auto.
Qed.

(** A byte. *)
Definition is_byte (b : Z) : Prop := 0 <= b < 256.

#[export] Instance is_byte_dec (b : Z) : Decision (is_byte b).
Proof. unfold is_byte; apply _. Defined.
