(* ===== verification/Bytes.v ===== *)
(** Byte buffers: reads, writes and block copies with their bounds, and
    little-endian encodings. A buffer is the list of the bytes of one C object;
    an access outside it is a [Fault]. *)

From Stdlib Require Import ZArith Lia Bool List.
From stdpp Require Import base list.
From S2P Require Import Prelude.

Open Scope Z_scope.

(** [m[i]] *)
Definition rd (m : list Z) (i : Z) : run Z :=
  match getZ m i with Some b => Ok b | None => Fault end.

(** [m[i] = b] *)
Definition wr (m : list Z) (i b : Z) : run (list Z) :=
  match getZ m i with Some _ => Ok (setZ m i b) | None => Fault end.

(** The [len] bytes at [m + off], as read by memcpy, memcmp or a checksum. *)
Definition slice (m : list Z) (off len : Z) : run (list Z) :=
  if (0 <=? off) && (0 <=? len) && (off + len <=? lenZ m)
  then Ok (take (Z.to_nat len) (drop (Z.to_nat off) m)) else Fault.

(** [memcpy(m + off, data, len)] *)
Definition blit (m : list Z) (off : Z) (data : list Z) : run (list Z) :=
  if (0 <=? off) && (off + lenZ data <=? lenZ m)
  then Ok (take (Z.to_nat off) m ++ data ++ drop (Z.to_nat (off + lenZ data)) m) else Fault.

(** The [n] bytes of [x], least significant first. *)
Fixpoint le_bytes (n : nat) (x : Z) : list Z :=
  match n with
  | O => []
  | S n => x mod 256 :: le_bytes n (x / 256)
  end.

(** The number a little-endian byte sequence denotes. *)
Fixpoint le_value (l : list Z) : Z :=
  match l with
  | [] => 0
  | b :: l => b + 256 * le_value l
  end.

Lemma length_le_bytes (n : nat) (x : Z) : length (le_bytes n x) = n.
Proof. revert x; induction n; intros; cbn; auto. Qed.

Lemma lenZ_le_bytes (n : nat) (x : Z) : lenZ (le_bytes n x) = Z.of_nat n.
Proof. unfold lenZ; by rewrite length_le_bytes. Qed.

Lemma le_bytes_byte (n : nat) (x : Z) : Forall is_byte (le_bytes n x).
Proof.
  revert x; induction n; intros; cbn; constructor; auto.
  unfold is_byte; apply Z.mod_pos_bound; lia.
Qed.

Lemma le_value_bytes (n : nat) (x : Z) :
  0 <= x < 256 ^ Z.of_nat n -> le_value (le_bytes n x) = x.
Proof.
  revert x; induction n as [|n IH]; intros x Hx; [cbn in *; lia|].
  cbn [le_bytes le_value]; rewrite Nat2Z.inj_succ, Z.pow_succ_r in Hx by lia.
  rewrite IH; [symmetry; rewrite Z.add_comm; apply Z.div_mod; lia|].
  split; [apply Z.div_pos; lia|apply Z.div_lt_upper_bound; lia].
Qed.

Lemma le_value_range (l : list Z) :
  Forall is_byte l -> 0 <= le_value l < 256 ^ Z.of_nat (length l).
Proof.
  induction 1 as [|b l Hb Hl IH]; [cbn; lia|].
  unfold is_byte in Hb; cbn [le_value length].
  rewrite Nat2Z.inj_succ, Z.pow_succ_r by lia; lia.
Qed.

Lemma le_bytes_value (l : list Z) :
  Forall is_byte l -> le_bytes (length l) (le_value l) = l.
Proof.
  induction 1 as [|b l Hb Hl IH]; [done|]; cbn [length le_value le_bytes].
  unfold is_byte in Hb; rewrite (Z.mul_comm 256), Z.mod_add, Z.div_add by lia.
  rewrite Z.mod_small, Z.div_small by lia; by rewrite Z.add_0_l, IH.
Qed.

Lemma le_bytes_inj (n : nat) (x y : Z) :
  0 <= x < 256 ^ Z.of_nat n -> 0 <= y < 256 ^ Z.of_nat n ->
  le_bytes n x = le_bytes n y -> x = y.
Proof. intros Hx Hy H; rewrite <- (le_value_bytes n x), H, le_value_bytes; auto. Qed.

(** ** Copies and slices *)

Lemma slice_ok (m : list Z) (off len : Z) :
  0 <= off -> 0 <= len -> off + len <= lenZ m ->
  slice m off len = Ok (take (Z.to_nat len) (drop (Z.to_nat off) m)).
Proof. intros; unfold slice; cases; try lia; auto; apply andb_false_iff in Heqb; lia. Qed.

Lemma blit_ok (m : list Z) (off : Z) (data : list Z) :
  0 <= off -> off + lenZ data <= lenZ m ->
  blit m off data
  = Ok (take (Z.to_nat off) m ++ data ++ drop (Z.to_nat (off + lenZ data)) m).
Proof. intros; unfold blit; cases; try lia; auto; apply andb_false_iff in Heqb; lia. Qed.

Lemma lenZ_take (m : list Z) (k : Z) : 0 <= k <= lenZ m -> lenZ (take (Z.to_nat k) m) = k.
Proof. unfold lenZ; intros; rewrite length_take; lia. Qed.

Lemma lenZ_drop (m : list Z) (k : Z) :
  0 <= k <= lenZ m -> lenZ (drop (Z.to_nat k) m) = lenZ m - k.
Proof. unfold lenZ; intros; rewrite length_drop; lia. Qed.

Lemma lenZ_blit (m m' : list Z) (off : Z) (data : list Z) :
  blit m off data = Ok m' -> lenZ m' = lenZ m.
Proof.
  unfold blit; destruct (_ && _) eqn:E; [|done]; intros [= <-].
  apply andb_true_iff in E as [? ?]; bools.
  pose proof (lenZ_nonneg data).
  rewrite !lenZ_app, lenZ_take, lenZ_drop by lia; lia.
Qed.

Lemma Forall_blit (P : Z -> Prop) (m m' : list Z) (off : Z) (data : list Z) :
  Forall P m -> Forall P data -> blit m off data = Ok m' -> Forall P m'.
Proof.
  unfold blit; destruct (_ && _); [|done]; intros ? ? [= <-].
  rewrite !Forall_app; eauto using Forall_take, Forall_drop.
Qed.
