(* ===== verification/Buffer.v ===== *)
(** Fixed-size little-endian fields of a buffer, and how reads, copies and moves
    of byte ranges interact. *)

From Stdlib Require Import ZArith Lia Bool List.
From stdpp Require Import base list.
From S2P Require Import Prelude Bytes.

Open Scope Z_scope.

(** ** Fields *)

Definition rd16 (m : list Z) (i : Z) : run Z := b ← slice m i 2; Ok (le_value b).
Definition rd32 (m : list Z) (i : Z) : run Z := b ← slice m i 4; Ok (le_value b).
Definition wr16 (m : list Z) (i v : Z) : run (list Z) := blit m i (le_bytes 2 v).
Definition wr32 (m : list Z) (i v : Z) : run (list Z) := blit m i (le_bytes 4 v).

(** memmove(m + dst, m + src, len) inside one buffer. *)
Definition memmove (m : list Z) (dst src len : Z) : run (list Z) :=
  s ← slice m src len; blit m dst s.

(** ** Ranges of bytes *)

Definition sub (m : list Z) (o n : Z) : list Z := take (Z.to_nat n) (drop (Z.to_nat o) m).

Lemma slice_sub (m : list Z) (o n : Z) :
  0 <= o -> 0 <= n -> o + n <= lenZ m -> slice m o n = Ok (sub m o n).
Proof. apply slice_ok. Qed.

Lemma lenZ_sub (m : list Z) (o n : Z) : 0 <= o -> 0 <= n -> o + n <= lenZ m -> lenZ (sub m o n) = n.
Proof. unfold sub, lenZ; intros; rewrite length_take, length_drop; lia. Qed.

Lemma getZ_sub (m : list Z) (o n i : Z) : 0 <= o -> 0 <= i < n -> getZ (sub m o n) i = getZ m (o + i).
Proof.
  intros Ho Hi; unfold getZ, sub; destruct (Z.ltb_spec i 0), (Z.ltb_spec (o + i) 0); try lia.
  rewrite lookup_take_lt by lia; rewrite lookup_drop; f_equal; lia.
Qed.

Lemma sub_ext (m m' : list Z) (o o' n : Z) :
  0 <= o -> 0 <= o' -> 0 <= n -> o + n <= lenZ m -> o' + n <= lenZ m' ->
  (forall i, 0 <= i < n -> getZ m (o + i) = getZ m' (o' + i)) -> sub m o n = sub m' o' n.
Proof.
  intros Ho Ho' Hn Hm Hm' Hi; apply getZ_ext; [rewrite !lenZ_sub by lia; done|].
  rewrite lenZ_sub by lia; intros i ?; rewrite !getZ_sub by lia; auto.
Qed.

(** The buffer after memcpy(m + a, v, len). *)
Definition upd_at (m : list Z) (a : Z) (v : list Z) : list Z :=
  take (Z.to_nat a) m ++ v ++ drop (Z.to_nat (a + lenZ v)) m.

Lemma blit_upd (m : list Z) (a : Z) (v : list Z) :
  0 <= a -> a + lenZ v <= lenZ m -> blit m a v = Ok (upd_at m a v).
Proof. apply blit_ok. Qed.

Lemma lenZ_upd_at (m : list Z) (a : Z) (v : list Z) :
  0 <= a -> a + lenZ v <= lenZ m -> lenZ (upd_at m a v) = lenZ m.
Proof. intros; by eapply lenZ_blit, blit_upd. Qed.

Lemma getZ_upd_at (m : list Z) (a : Z) (v : list Z) (i : Z) :
  0 <= a -> a + lenZ v <= lenZ m ->
  getZ (upd_at m a v) i = if (a <=? i) && (i <? a + lenZ v) then getZ v (i - a) else getZ m i.
Proof.
  intros Ha Hl; pose proof (lenZ_nonneg v); unfold upd_at.
  assert (lenZ (take (Z.to_nat a) m) = a) as Et by (apply lenZ_take; lia).
  destruct (Z.leb_spec a i); cbn [andb].
  2: { rewrite getZ_app_l by lia; unfold getZ; destruct (Z.ltb_spec i 0); [done|]; by rewrite lookup_take_lt by lia. }
  rewrite getZ_app_r by lia; rewrite Et; destruct (Z.ltb_spec i (a + lenZ v)).
  - by rewrite getZ_app_l by lia.
  - rewrite getZ_app_r by lia; unfold getZ.
    destruct (Z.ltb_spec (i - a - lenZ v) 0), (Z.ltb_spec i 0); try lia.
    rewrite lookup_drop; f_equal; lia.
Qed.

Lemma sub_upd_out (m : list Z) (a : Z) (v : list Z) (o n : Z) :
  0 <= a -> a + lenZ v <= lenZ m -> 0 <= o -> 0 <= n -> o + n <= lenZ m ->
  o + n <= a \/ a + lenZ v <= o -> sub (upd_at m a v) o n = sub m o n.
Proof.
  intros Ha Hl Ho Hn Hm Hd; apply sub_ext; try lia; [rewrite lenZ_upd_at; lia|].
  intros i Hi; rewrite getZ_upd_at by lia.
  destruct (Z.leb_spec a (o + i)), (Z.ltb_spec (o + i) (a + lenZ v)); done || lia.
Qed.

Lemma sub_upd_in (m : list Z) (a : Z) (v : list Z) (o n : Z) :
  0 <= a -> a + lenZ v <= lenZ m -> 0 <= n -> a <= o -> o + n <= a + lenZ v ->
  sub (upd_at m a v) o n = sub v (o - a) n.
Proof.
  intros Ha Hl Hn Ho Hm; apply sub_ext; try lia; [rewrite lenZ_upd_at; lia|].
  intros i Hi; rewrite getZ_upd_at by lia.
  destruct (Z.leb_spec a (o + i)), (Z.ltb_spec (o + i) (a + lenZ v)); try lia; f_equal; lia.
Qed.

Lemma sub_sub (m : list Z) (a k o n : Z) :
  0 <= a -> 0 <= o -> 0 <= n -> o + n <= k -> a + k <= lenZ m -> sub (sub m a k) o n = sub m (a + o) n.
Proof.
  intros Ha Ho Hn Hk Hm; apply sub_ext; try lia; [rewrite lenZ_sub; lia|].
  intros i Hi; rewrite getZ_sub by lia; f_equal; lia.
Qed.

Lemma sub_all (m : list Z) (n : Z) : lenZ m = n -> sub m 0 n = m.
Proof. intros <-; unfold sub, lenZ; rewrite drop_0, take_ge; [done|lia]. Qed.

Lemma sub_app_l (a b : list Z) (o n : Z) :
  0 <= o -> 0 <= n -> o + n <= lenZ a -> sub (a ++ b) o n = sub a o n.
Proof.
  intros; pose proof (lenZ_nonneg b); apply sub_ext; try lia; [rewrite lenZ_app; lia|].
  intros i Hi; rewrite getZ_app_l by lia; done.
Qed.

Lemma Forall_sub (P : Z -> Prop) (m : list Z) (o n : Z) : Forall P m -> Forall P (sub m o n).
Proof. intros; unfold sub; by apply Forall_take, Forall_drop. Qed.

Lemma Forall_upd_at (P : Z -> Prop) (m v : list Z) (a : Z) :
  Forall P m -> Forall P v -> Forall P (upd_at m a v).
Proof. intros; unfold upd_at; rewrite !Forall_app; auto using Forall_take, Forall_drop. Qed.

(** ** Fields after a change *)

(** The fields of [m] at [i], when they are inside the buffer. *)
Definition get16 (m : list Z) (i : Z) : Z := le_value (sub m i 2).
Definition get32 (m : list Z) (i : Z) : Z := le_value (sub m i 4).

Lemma rd16_ok (m : list Z) (i : Z) : 0 <= i -> i + 2 <= lenZ m -> rd16 m i = Ok (get16 m i).
Proof. intros; unfold rd16; rewrite slice_sub by lia; done. Qed.

Lemma rd32_ok (m : list Z) (i : Z) : 0 <= i -> i + 4 <= lenZ m -> rd32 m i = Ok (get32 m i).
Proof. intros; unfold rd32; rewrite slice_sub by lia; done. Qed.

Lemma wr16_ok (m : list Z) (i v : Z) :
  0 <= i -> i + 2 <= lenZ m -> wr16 m i v = Ok (upd_at m i (le_bytes 2 v)).
Proof. intros; unfold wr16; apply blit_upd; [done|]; rewrite lenZ_le_bytes; lia. Qed.

Lemma wr32_ok (m : list Z) (i v : Z) :
  0 <= i -> i + 4 <= lenZ m -> wr32 m i v = Ok (upd_at m i (le_bytes 4 v)).
Proof. intros; unfold wr32; apply blit_upd; [done|]; rewrite lenZ_le_bytes; lia. Qed.

Lemma memmove_ok (m : list Z) (dst src len : Z) :
  0 <= dst -> 0 <= src -> 0 <= len -> dst + len <= lenZ m -> src + len <= lenZ m ->
  memmove m dst src len = Ok (upd_at m dst (sub m src len)).
Proof.
  intros; unfold memmove; rewrite slice_sub by lia; cbn [mbind run_bind].
  apply blit_upd; [done|]; rewrite lenZ_sub; lia.
Qed.

Lemma get16_upd_out (m : list Z) (a : Z) (v : list Z) (i : Z) :
  0 <= a -> a + lenZ v <= lenZ m -> 0 <= i -> i + 2 <= lenZ m -> i + 2 <= a \/ a + lenZ v <= i ->
  get16 (upd_at m a v) i = get16 m i.
Proof. intros; unfold get16; rewrite sub_upd_out by lia; done. Qed.

Lemma get32_upd_out (m : list Z) (a : Z) (v : list Z) (i : Z) :
  0 <= a -> a + lenZ v <= lenZ m -> 0 <= i -> i + 4 <= lenZ m -> i + 4 <= a \/ a + lenZ v <= i ->
  get32 (upd_at m a v) i = get32 m i.
Proof. intros; unfold get32; rewrite sub_upd_out by lia; done. Qed.

Lemma get16_wr (m : list Z) (a v : Z) :
  0 <= a -> a + 2 <= lenZ m -> 0 <= v < 2 ^ 16 -> get16 (upd_at m a (le_bytes 2 v)) a = v.
Proof.
  intros; unfold get16; rewrite sub_upd_in by (rewrite ?lenZ_le_bytes; lia).
  rewrite Z.sub_diag, sub_all by (by rewrite lenZ_le_bytes); apply le_value_bytes; cbn; lia.
Qed.

Lemma get32_wr (m : list Z) (a v : Z) :
  0 <= a -> a + 4 <= lenZ m -> 0 <= v < 2 ^ 32 -> get32 (upd_at m a (le_bytes 4 v)) a = v.
Proof.
  intros; unfold get32; rewrite sub_upd_in by (rewrite ?lenZ_le_bytes; lia).
  rewrite Z.sub_diag, sub_all by (by rewrite lenZ_le_bytes); apply le_value_bytes; cbn; lia.
Qed.

Lemma get16_range (m : list Z) (i : Z) :
  Forall is_byte m -> 0 <= i -> i + 2 <= lenZ m -> 0 <= get16 m i < 2 ^ 16.
Proof.
  intros Hm Hi Hl; unfold get16; pose proof (le_value_range _ (Forall_sub _ m i 2 Hm)) as Hr.
  pose proof (lenZ_sub m i 2 Hi ltac:(lia) Hl) as El; unfold lenZ in El; rewrite El in Hr; exact Hr.
Qed.

Lemma get32_range (m : list Z) (i : Z) :
  Forall is_byte m -> 0 <= i -> i + 4 <= lenZ m -> 0 <= get32 m i < 2 ^ 32.
Proof.
  intros Hm Hi Hl; unfold get32; pose proof (le_value_range _ (Forall_sub _ m i 4 Hm)) as Hr.
  pose proof (lenZ_sub m i 4 Hi ltac:(lia) Hl) as El; unfold lenZ in El; rewrite El in Hr; exact Hr.
Qed.

(** ** 64-bit fields *)

Definition rd64 (m : list Z) (i : Z) : run Z := b ← slice m i 8; Ok (le_value b).
Definition wr64 (m : list Z) (i v : Z) : run (list Z) := blit m i (le_bytes 8 v).
Definition get64 (m : list Z) (i : Z) : Z := le_value (sub m i 8).

Lemma rd64_ok (m : list Z) (i : Z) : 0 <= i -> i + 8 <= lenZ m -> rd64 m i = Ok (get64 m i).
Proof. intros; unfold rd64; rewrite slice_sub by lia; done. Qed.

Lemma wr64_ok (m : list Z) (i v : Z) :
  0 <= i -> i + 8 <= lenZ m -> wr64 m i v = Ok (upd_at m i (le_bytes 8 v)).
Proof. intros; unfold wr64; apply blit_upd; [done|]; rewrite lenZ_le_bytes; lia. Qed.

Lemma get64_upd_out (m : list Z) (a : Z) (v : list Z) (i : Z) :
  0 <= a -> a + lenZ v <= lenZ m -> 0 <= i -> i + 8 <= lenZ m -> i + 8 <= a \/ a + lenZ v <= i ->
  get64 (upd_at m a v) i = get64 m i.
Proof. intros; unfold get64; rewrite sub_upd_out by lia; done. Qed.

Lemma get64_wr (m : list Z) (a v : Z) :
  0 <= a -> a + 8 <= lenZ m -> 0 <= v < 2 ^ 64 -> get64 (upd_at m a (le_bytes 8 v)) a = v.
Proof.
  intros; unfold get64; rewrite sub_upd_in by (rewrite ?lenZ_le_bytes; lia).
  rewrite Z.sub_diag, sub_all by (by rewrite lenZ_le_bytes); apply le_value_bytes; cbn; lia.
Qed.

Lemma get64_range (m : list Z) (i : Z) :
  Forall is_byte m -> 0 <= i -> i + 8 <= lenZ m -> 0 <= get64 m i < 2 ^ 64.
Proof.
  intros Hm Hi Hl; unfold get64; pose proof (le_value_range _ (Forall_sub _ m i 8 Hm)) as Hr.
  pose proof (lenZ_sub m i 8 Hi ltac:(lia) Hl) as El; unfold lenZ in El; rewrite El in Hr; exact Hr.
Qed.
