(* ===== verification/Crc32.v ===== *)
(** Tools CRC32: src/vdfs-tools/lib/crc32.c and the block signing helpers of
    src/vdfs-tools/lib/utils.c.

    [crc32_body] is the code's slicing-by-4 routine with its four tables;
    [crc_le] is the reflected CRC-32 defined bit by bit. The theorems show that
    the routine computes the reference for every alignment of the buffer, that
    it can be continued chunk by chunk, and that signing a block and validating
    it round-trips and detects any change of one protected byte. *)

From Stdlib Require Import ZArith Lia Bool List Btauto.
From stdpp Require Import base list.
From S2P Require Import Prelude Bytes.

Open Scope Z_scope.

(** ** The tables *)

(** [tab[0]] *)
Definition tab0 : list Z :=
  [
    0x00000000; 0x77073096; 0xee0e612c; 0x990951ba; 0x076dc419; 0x706af48f; 0xe963a535; 0x9e6495a3;
    0x0edb8832; 0x79dcb8a4; 0xe0d5e91e; 0x97d2d988; 0x09b64c2b; 0x7eb17cbd; 0xe7b82d07; 0x90bf1d91;
    0x1db71064; 0x6ab020f2; 0xf3b97148; 0x84be41de; 0x1adad47d; 0x6ddde4eb; 0xf4d4b551; 0x83d385c7;
    0x136c9856; 0x646ba8c0; 0xfd62f97a; 0x8a65c9ec; 0x14015c4f; 0x63066cd9; 0xfa0f3d63; 0x8d080df5;
    0x3b6e20c8; 0x4c69105e; 0xd56041e4; 0xa2677172; 0x3c03e4d1; 0x4b04d447; 0xd20d85fd; 0xa50ab56b;
    0x35b5a8fa; 0x42b2986c; 0xdbbbc9d6; 0xacbcf940; 0x32d86ce3; 0x45df5c75; 0xdcd60dcf; 0xabd13d59;
    0x26d930ac; 0x51de003a; 0xc8d75180; 0xbfd06116; 0x21b4f4b5; 0x56b3c423; 0xcfba9599; 0xb8bda50f;
    0x2802b89e; 0x5f058808; 0xc60cd9b2; 0xb10be924; 0x2f6f7c87; 0x58684c11; 0xc1611dab; 0xb6662d3d;
    0x76dc4190; 0x01db7106; 0x98d220bc; 0xefd5102a; 0x71b18589; 0x06b6b51f; 0x9fbfe4a5; 0xe8b8d433;
    0x7807c9a2; 0x0f00f934; 0x9609a88e; 0xe10e9818; 0x7f6a0dbb; 0x086d3d2d; 0x91646c97; 0xe6635c01;
    0x6b6b51f4; 0x1c6c6162; 0x856530d8; 0xf262004e; 0x6c0695ed; 0x1b01a57b; 0x8208f4c1; 0xf50fc457;
    0x65b0d9c6; 0x12b7e950; 0x8bbeb8ea; 0xfcb9887c; 0x62dd1ddf; 0x15da2d49; 0x8cd37cf3; 0xfbd44c65;
    0x4db26158; 0x3ab551ce; 0xa3bc0074; 0xd4bb30e2; 0x4adfa541; 0x3dd895d7; 0xa4d1c46d; 0xd3d6f4fb;
    0x4369e96a; 0x346ed9fc; 0xad678846; 0xda60b8d0; 0x44042d73; 0x33031de5; 0xaa0a4c5f; 0xdd0d7cc9;
    0x5005713c; 0x270241aa; 0xbe0b1010; 0xc90c2086; 0x5768b525; 0x206f85b3; 0xb966d409; 0xce61e49f;
    0x5edef90e; 0x29d9c998; 0xb0d09822; 0xc7d7a8b4; 0x59b33d17; 0x2eb40d81; 0xb7bd5c3b; 0xc0ba6cad;
    0xedb88320; 0x9abfb3b6; 0x03b6e20c; 0x74b1d29a; 0xead54739; 0x9dd277af; 0x04db2615; 0x73dc1683;
    0xe3630b12; 0x94643b84; 0x0d6d6a3e; 0x7a6a5aa8; 0xe40ecf0b; 0x9309ff9d; 0x0a00ae27; 0x7d079eb1;
    0xf00f9344; 0x8708a3d2; 0x1e01f268; 0x6906c2fe; 0xf762575d; 0x806567cb; 0x196c3671; 0x6e6b06e7;
    0xfed41b76; 0x89d32be0; 0x10da7a5a; 0x67dd4acc; 0xf9b9df6f; 0x8ebeeff9; 0x17b7be43; 0x60b08ed5;
    0xd6d6a3e8; 0xa1d1937e; 0x38d8c2c4; 0x4fdff252; 0xd1bb67f1; 0xa6bc5767; 0x3fb506dd; 0x48b2364b;
    0xd80d2bda; 0xaf0a1b4c; 0x36034af6; 0x41047a60; 0xdf60efc3; 0xa867df55; 0x316e8eef; 0x4669be79;
    0xcb61b38c; 0xbc66831a; 0x256fd2a0; 0x5268e236; 0xcc0c7795; 0xbb0b4703; 0x220216b9; 0x5505262f;
    0xc5ba3bbe; 0xb2bd0b28; 0x2bb45a92; 0x5cb36a04; 0xc2d7ffa7; 0xb5d0cf31; 0x2cd99e8b; 0x5bdeae1d;
    0x9b64c2b0; 0xec63f226; 0x756aa39c; 0x026d930a; 0x9c0906a9; 0xeb0e363f; 0x72076785; 0x05005713;
    0x95bf4a82; 0xe2b87a14; 0x7bb12bae; 0x0cb61b38; 0x92d28e9b; 0xe5d5be0d; 0x7cdcefb7; 0x0bdbdf21;
    0x86d3d2d4; 0xf1d4e242; 0x68ddb3f8; 0x1fda836e; 0x81be16cd; 0xf6b9265b; 0x6fb077e1; 0x18b74777;
    0x88085ae6; 0xff0f6a70; 0x66063bca; 0x11010b5c; 0x8f659eff; 0xf862ae69; 0x616bffd3; 0x166ccf45;
    0xa00ae278; 0xd70dd2ee; 0x4e048354; 0x3903b3c2; 0xa7672661; 0xd06016f7; 0x4969474d; 0x3e6e77db;
    0xaed16a4a; 0xd9d65adc; 0x40df0b66; 0x37d83bf0; 0xa9bcae53; 0xdebb9ec5; 0x47b2cf7f; 0x30b5ffe9;
    0xbdbdf21c; 0xcabac28a; 0x53b39330; 0x24b4a3a6; 0xbad03605; 0xcdd70693; 0x54de5729; 0x23d967bf;
    0xb3667a2e; 0xc4614ab8; 0x5d681b02; 0x2a6f2b94; 0xb40bbe37; 0xc30c8ea1; 0x5a05df1b; 0x2d02ef8d ].

(** [tab[1]] *)
Definition tab1 : list Z :=
  [
    0x00000000; 0x191b3141; 0x32366282; 0x2b2d53c3; 0x646cc504; 0x7d77f445; 0x565aa786; 0x4f4196c7;
    0xc8d98a08; 0xd1c2bb49; 0xfaefe88a; 0xe3f4d9cb; 0xacb54f0c; 0xb5ae7e4d; 0x9e832d8e; 0x87981ccf;
    0x4ac21251; 0x53d92310; 0x78f470d3; 0x61ef4192; 0x2eaed755; 0x37b5e614; 0x1c98b5d7; 0x05838496;
    0x821b9859; 0x9b00a918; 0xb02dfadb; 0xa936cb9a; 0xe6775d5d; 0xff6c6c1c; 0xd4413fdf; 0xcd5a0e9e;
    0x958424a2; 0x8c9f15e3; 0xa7b24620; 0xbea97761; 0xf1e8e1a6; 0xe8f3d0e7; 0xc3de8324; 0xdac5b265;
    0x5d5daeaa; 0x44469feb; 0x6f6bcc28; 0x7670fd69; 0x39316bae; 0x202a5aef; 0x0b07092c; 0x121c386d;
    0xdf4636f3; 0xc65d07b2; 0xed705471; 0xf46b6530; 0xbb2af3f7; 0xa231c2b6; 0x891c9175; 0x9007a034;
    0x179fbcfb; 0x0e848dba; 0x25a9de79; 0x3cb2ef38; 0x73f379ff; 0x6ae848be; 0x41c51b7d; 0x58de2a3c;
    0xf0794f05; 0xe9627e44; 0xc24f2d87; 0xdb541cc6; 0x94158a01; 0x8d0ebb40; 0xa623e883; 0xbf38d9c2;
    0x38a0c50d; 0x21bbf44c; 0x0a96a78f; 0x138d96ce; 0x5ccc0009; 0x45d73148; 0x6efa628b; 0x77e153ca;
    0xbabb5d54; 0xa3a06c15; 0x888d3fd6; 0x91960e97; 0xded79850; 0xc7cca911; 0xece1fad2; 0xf5facb93;
    0x7262d75c; 0x6b79e61d; 0x4054b5de; 0x594f849f; 0x160e1258; 0x0f152319; 0x243870da; 0x3d23419b;
    0x65fd6ba7; 0x7ce65ae6; 0x57cb0925; 0x4ed03864; 0x0191aea3; 0x188a9fe2; 0x33a7cc21; 0x2abcfd60;
    0xad24e1af; 0xb43fd0ee; 0x9f12832d; 0x8609b26c; 0xc94824ab; 0xd05315ea; 0xfb7e4629; 0xe2657768;
    0x2f3f79f6; 0x362448b7; 0x1d091b74; 0x04122a35; 0x4b53bcf2; 0x52488db3; 0x7965de70; 0x607eef31;
    0xe7e6f3fe; 0xfefdc2bf; 0xd5d0917c; 0xcccba03d; 0x838a36fa; 0x9a9107bb; 0xb1bc5478; 0xa8a76539;
    0x3b83984b; 0x2298a90a; 0x09b5fac9; 0x10aecb88; 0x5fef5d4f; 0x46f46c0e; 0x6dd93fcd; 0x74c20e8c;
    0xf35a1243; 0xea412302; 0xc16c70c1; 0xd8774180; 0x9736d747; 0x8e2de606; 0xa500b5c5; 0xbc1b8484;
    0x71418a1a; 0x685abb5b; 0x4377e898; 0x5a6cd9d9; 0x152d4f1e; 0x0c367e5f; 0x271b2d9c; 0x3e001cdd;
    0xb9980012; 0xa0833153; 0x8bae6290; 0x92b553d1; 0xddf4c516; 0xc4eff457; 0xefc2a794; 0xf6d996d5;
    0xae07bce9; 0xb71c8da8; 0x9c31de6b; 0x852aef2a; 0xca6b79ed; 0xd37048ac; 0xf85d1b6f; 0xe1462a2e;
    0x66de36e1; 0x7fc507a0; 0x54e85463; 0x4df36522; 0x02b2f3e5; 0x1ba9c2a4; 0x30849167; 0x299fa026;
    0xe4c5aeb8; 0xfdde9ff9; 0xd6f3cc3a; 0xcfe8fd7b; 0x80a96bbc; 0x99b25afd; 0xb29f093e; 0xab84387f;
    0x2c1c24b0; 0x350715f1; 0x1e2a4632; 0x07317773; 0x4870e1b4; 0x516bd0f5; 0x7a468336; 0x635db277;
    0xcbfad74e; 0xd2e1e60f; 0xf9ccb5cc; 0xe0d7848d; 0xaf96124a; 0xb68d230b; 0x9da070c8; 0x84bb4189;
    0x03235d46; 0x1a386c07; 0x31153fc4; 0x280e0e85; 0x674f9842; 0x7e54a903; 0x5579fac0; 0x4c62cb81;
    0x8138c51f; 0x9823f45e; 0xb30ea79d; 0xaa1596dc; 0xe554001b; 0xfc4f315a; 0xd7626299; 0xce7953d8;
    0x49e14f17; 0x50fa7e56; 0x7bd72d95; 0x62cc1cd4; 0x2d8d8a13; 0x3496bb52; 0x1fbbe891; 0x06a0d9d0;
    0x5e7ef3ec; 0x4765c2ad; 0x6c48916e; 0x7553a02f; 0x3a1236e8; 0x230907a9; 0x0824546a; 0x113f652b;
    0x96a779e4; 0x8fbc48a5; 0xa4911b66; 0xbd8a2a27; 0xf2cbbce0; 0xebd08da1; 0xc0fdde62; 0xd9e6ef23;
    0x14bce1bd; 0x0da7d0fc; 0x268a833f; 0x3f91b27e; 0x70d024b9; 0x69cb15f8; 0x42e6463b; 0x5bfd777a;
    0xdc656bb5; 0xc57e5af4; 0xee530937; 0xf7483876; 0xb809aeb1; 0xa1129ff0; 0x8a3fcc33; 0x9324fd72 ].

(** [tab[2]] *)
Definition tab2 : list Z :=
  [
    0x00000000; 0x01c26a37; 0x0384d46e; 0x0246be59; 0x0709a8dc; 0x06cbc2eb; 0x048d7cb2; 0x054f1685;
    0x0e1351b8; 0x0fd13b8f; 0x0d9785d6; 0x0c55efe1; 0x091af964; 0x08d89353; 0x0a9e2d0a; 0x0b5c473d;
    0x1c26a370; 0x1de4c947; 0x1fa2771e; 0x1e601d29; 0x1b2f0bac; 0x1aed619b; 0x18abdfc2; 0x1969b5f5;
    0x1235f2c8; 0x13f798ff; 0x11b126a6; 0x10734c91; 0x153c5a14; 0x14fe3023; 0x16b88e7a; 0x177ae44d;
    0x384d46e0; 0x398f2cd7; 0x3bc9928e; 0x3a0bf8b9; 0x3f44ee3c; 0x3e86840b; 0x3cc03a52; 0x3d025065;
    0x365e1758; 0x379c7d6f; 0x35dac336; 0x3418a901; 0x3157bf84; 0x3095d5b3; 0x32d36bea; 0x331101dd;
    0x246be590; 0x25a98fa7; 0x27ef31fe; 0x262d5bc9; 0x23624d4c; 0x22a0277b; 0x20e69922; 0x2124f315;
    0x2a78b428; 0x2bbade1f; 0x29fc6046; 0x283e0a71; 0x2d711cf4; 0x2cb376c3; 0x2ef5c89a; 0x2f37a2ad;
    0x709a8dc0; 0x7158e7f7; 0x731e59ae; 0x72dc3399; 0x7793251c; 0x76514f2b; 0x7417f172; 0x75d59b45;
    0x7e89dc78; 0x7f4bb64f; 0x7d0d0816; 0x7ccf6221; 0x798074a4; 0x78421e93; 0x7a04a0ca; 0x7bc6cafd;
    0x6cbc2eb0; 0x6d7e4487; 0x6f38fade; 0x6efa90e9; 0x6bb5866c; 0x6a77ec5b; 0x68315202; 0x69f33835;
    0x62af7f08; 0x636d153f; 0x612bab66; 0x60e9c151; 0x65a6d7d4; 0x6464bde3; 0x662203ba; 0x67e0698d;
    0x48d7cb20; 0x4915a117; 0x4b531f4e; 0x4a917579; 0x4fde63fc; 0x4e1c09cb; 0x4c5ab792; 0x4d98dda5;
    0x46c49a98; 0x4706f0af; 0x45404ef6; 0x448224c1; 0x41cd3244; 0x400f5873; 0x4249e62a; 0x438b8c1d;
    0x54f16850; 0x55330267; 0x5775bc3e; 0x56b7d609; 0x53f8c08c; 0x523aaabb; 0x507c14e2; 0x51be7ed5;
    0x5ae239e8; 0x5b2053df; 0x5966ed86; 0x58a487b1; 0x5deb9134; 0x5c29fb03; 0x5e6f455a; 0x5fad2f6d;
    0xe1351b80; 0xe0f771b7; 0xe2b1cfee; 0xe373a5d9; 0xe63cb35c; 0xe7fed96b; 0xe5b86732; 0xe47a0d05;
    0xef264a38; 0xeee4200f; 0xeca29e56; 0xed60f461; 0xe82fe2e4; 0xe9ed88d3; 0xebab368a; 0xea695cbd;
    0xfd13b8f0; 0xfcd1d2c7; 0xfe976c9e; 0xff5506a9; 0xfa1a102c; 0xfbd87a1b; 0xf99ec442; 0xf85cae75;
    0xf300e948; 0xf2c2837f; 0xf0843d26; 0xf1465711; 0xf4094194; 0xf5cb2ba3; 0xf78d95fa; 0xf64fffcd;
    0xd9785d60; 0xd8ba3757; 0xdafc890e; 0xdb3ee339; 0xde71f5bc; 0xdfb39f8b; 0xddf521d2; 0xdc374be5;
    0xd76b0cd8; 0xd6a966ef; 0xd4efd8b6; 0xd52db281; 0xd062a404; 0xd1a0ce33; 0xd3e6706a; 0xd2241a5d;
    0xc55efe10; 0xc49c9427; 0xc6da2a7e; 0xc7184049; 0xc25756cc; 0xc3953cfb; 0xc1d382a2; 0xc011e895;
    0xcb4dafa8; 0xca8fc59f; 0xc8c97bc6; 0xc90b11f1; 0xcc440774; 0xcd866d43; 0xcfc0d31a; 0xce02b92d;
    0x91af9640; 0x906dfc77; 0x922b422e; 0x93e92819; 0x96a63e9c; 0x976454ab; 0x9522eaf2; 0x94e080c5;
    0x9fbcc7f8; 0x9e7eadcf; 0x9c381396; 0x9dfa79a1; 0x98b56f24; 0x99770513; 0x9b31bb4a; 0x9af3d17d;
    0x8d893530; 0x8c4b5f07; 0x8e0de15e; 0x8fcf8b69; 0x8a809dec; 0x8b42f7db; 0x89044982; 0x88c623b5;
    0x839a6488; 0x82580ebf; 0x801eb0e6; 0x81dcdad1; 0x8493cc54; 0x8551a663; 0x8717183a; 0x86d5720d;
    0xa9e2d0a0; 0xa820ba97; 0xaa6604ce; 0xaba46ef9; 0xaeeb787c; 0xaf29124b; 0xad6fac12; 0xacadc625;
    0xa7f18118; 0xa633eb2f; 0xa4755576; 0xa5b73f41; 0xa0f829c4; 0xa13a43f3; 0xa37cfdaa; 0xa2be979d;
    0xb5c473d0; 0xb40619e7; 0xb640a7be; 0xb782cd89; 0xb2cddb0c; 0xb30fb13b; 0xb1490f62; 0xb08b6555;
    0xbbd72268; 0xba15485f; 0xb853f606; 0xb9919c31; 0xbcde8ab4; 0xbd1ce083; 0xbf5a5eda; 0xbe9834ed ].

(** [tab[3]] *)
Definition tab3 : list Z :=
  [
    0x00000000; 0xb8bc6765; 0xaa09c88b; 0x12b5afee; 0x8f629757; 0x37def032; 0x256b5fdc; 0x9dd738b9;
    0xc5b428ef; 0x7d084f8a; 0x6fbde064; 0xd7018701; 0x4ad6bfb8; 0xf26ad8dd; 0xe0df7733; 0x58631056;
    0x5019579f; 0xe8a530fa; 0xfa109f14; 0x42acf871; 0xdf7bc0c8; 0x67c7a7ad; 0x75720843; 0xcdce6f26;
    0x95ad7f70; 0x2d111815; 0x3fa4b7fb; 0x8718d09e; 0x1acfe827; 0xa2738f42; 0xb0c620ac; 0x087a47c9;
    0xa032af3e; 0x188ec85b; 0x0a3b67b5; 0xb28700d0; 0x2f503869; 0x97ec5f0c; 0x8559f0e2; 0x3de59787;
    0x658687d1; 0xdd3ae0b4; 0xcf8f4f5a; 0x7733283f; 0xeae41086; 0x525877e3; 0x40edd80d; 0xf851bf68;
    0xf02bf8a1; 0x48979fc4; 0x5a22302a; 0xe29e574f; 0x7f496ff6; 0xc7f50893; 0xd540a77d; 0x6dfcc018;
    0x359fd04e; 0x8d23b72b; 0x9f9618c5; 0x272a7fa0; 0xbafd4719; 0x0241207c; 0x10f48f92; 0xa848e8f7;
    0x9b14583d; 0x23a83f58; 0x311d90b6; 0x89a1f7d3; 0x1476cf6a; 0xaccaa80f; 0xbe7f07e1; 0x06c36084;
    0x5ea070d2; 0xe61c17b7; 0xf4a9b859; 0x4c15df3c; 0xd1c2e785; 0x697e80e0; 0x7bcb2f0e; 0xc377486b;
    0xcb0d0fa2; 0x73b168c7; 0x6104c729; 0xd9b8a04c; 0x446f98f5; 0xfcd3ff90; 0xee66507e; 0x56da371b;
    0x0eb9274d; 0xb6054028; 0xa4b0efc6; 0x1c0c88a3; 0x81dbb01a; 0x3967d77f; 0x2bd27891; 0x936e1ff4;
    0x3b26f703; 0x839a9066; 0x912f3f88; 0x299358ed; 0xb4446054; 0x0cf80731; 0x1e4da8df; 0xa6f1cfba;
    0xfe92dfec; 0x462eb889; 0x549b1767; 0xec277002; 0x71f048bb; 0xc94c2fde; 0xdbf98030; 0x6345e755;
    0x6b3fa09c; 0xd383c7f9; 0xc1366817; 0x798a0f72; 0xe45d37cb; 0x5ce150ae; 0x4e54ff40; 0xf6e89825;
    0xae8b8873; 0x1637ef16; 0x048240f8; 0xbc3e279d; 0x21e91f24; 0x99557841; 0x8be0d7af; 0x335cb0ca;
    0xed59b63b; 0x55e5d15e; 0x47507eb0; 0xffec19d5; 0x623b216c; 0xda874609; 0xc832e9e7; 0x708e8e82;
    0x28ed9ed4; 0x9051f9b1; 0x82e4565f; 0x3a58313a; 0xa78f0983; 0x1f336ee6; 0x0d86c108; 0xb53aa66d;
    0xbd40e1a4; 0x05fc86c1; 0x1749292f; 0xaff54e4a; 0x322276f3; 0x8a9e1196; 0x982bbe78; 0x2097d91d;
    0x78f4c94b; 0xc048ae2e; 0xd2fd01c0; 0x6a4166a5; 0xf7965e1c; 0x4f2a3979; 0x5d9f9697; 0xe523f1f2;
    0x4d6b1905; 0xf5d77e60; 0xe762d18e; 0x5fdeb6eb; 0xc2098e52; 0x7ab5e937; 0x680046d9; 0xd0bc21bc;
    0x88df31ea; 0x3063568f; 0x22d6f961; 0x9a6a9e04; 0x07bda6bd; 0xbf01c1d8; 0xadb46e36; 0x15080953;
    0x1d724e9a; 0xa5ce29ff; 0xb77b8611; 0x0fc7e174; 0x9210d9cd; 0x2aacbea8; 0x38191146; 0x80a57623;
    0xd8c66675; 0x607a0110; 0x72cfaefe; 0xca73c99b; 0x57a4f122; 0xef189647; 0xfdad39a9; 0x45115ecc;
    0x764dee06; 0xcef18963; 0xdc44268d; 0x64f841e8; 0xf92f7951; 0x41931e34; 0x5326b1da; 0xeb9ad6bf;
    0xb3f9c6e9; 0x0b45a18c; 0x19f00e62; 0xa14c6907; 0x3c9b51be; 0x842736db; 0x96929935; 0x2e2efe50;
    0x2654b999; 0x9ee8defc; 0x8c5d7112; 0x34e11677; 0xa9362ece; 0x118a49ab; 0x033fe645; 0xbb838120;
    0xe3e09176; 0x5b5cf613; 0x49e959fd; 0xf1553e98; 0x6c820621; 0xd43e6144; 0xc68bceaa; 0x7e37a9cf;
    0xd67f4138; 0x6ec3265d; 0x7c7689b3; 0xc4caeed6; 0x591dd66f; 0xe1a1b10a; 0xf3141ee4; 0x4ba87981;
    0x13cb69d7; 0xab770eb2; 0xb9c2a15c; 0x017ec639; 0x9ca9fe80; 0x241599e5; 0x36a0360b; 0x8e1c516e;
    0x866616a7; 0x3eda71c2; 0x2c6fde2c; 0x94d3b949; 0x090481f0; 0xb1b8e695; 0xa30d497b; 0x1bb12e1e;
    0x43d23e48; 0xfb6e592d; 0xe9dbf6c3; 0x516791a6; 0xccb0a91f; 0x740cce7a; 0x66b96194; 0xde0506f1 ].

(** [tab[k][i]] *)
Definition tab (k : nat) (i : Z) : Z :=
  default 0 (getZ (match k with 0%nat => tab0 | 1%nat => tab1 | 2%nat => tab2 | _ => tab3 end) i).

(** ** crc32_body *)

(** [DO_CRC(x)] *)
Definition DO_CRC (crc x : Z) : Z :=
  Z.lxor (tab 0 (Z.land (Z.lxor crc x) 255)) (Z.shiftr crc 8).

(** [DO_CRC4] *)
Definition DO_CRC4 (crc : Z) : Z :=
  Z.lxor (Z.lxor (Z.lxor (tab 3 (Z.land crc 255))
                         (tab 2 (Z.land (Z.shiftr crc 8) 255)))
                 (tab 1 (Z.land (Z.shiftr crc 16) 255)))
         (tab 0 (Z.land (Z.shiftr crc 24) 255)).

(** "Align it": the do-while that consumes bytes until the address [a] of the
    buffer is a multiple of four or the length is exhausted. *)
Fixpoint align_loop (crc a : Z) (buf : list Z) : Z * list Z :=
  match buf with
  | [] => (crc, [])
  | x :: rest =>
      let crc := DO_CRC crc x in
      match rest with
      | [] => (crc, [])
      | _ :: _ =>
          if Z.land (a + 1) 3 =? 0 then (crc, rest) else align_loop crc (a + 1) rest
      end
  end.

(** A 32-bit load from memory (little-endian host). *)
Definition load32 (b0 b1 b2 b3 : Z) : Z :=
  Z.lor b0 (Z.lor (Z.shiftl b1 8) (Z.lor (Z.shiftl b2 16) (Z.shiftl b3 24))).

(** The word loop; [n] is [len >> 2]. *)
Fixpoint word_loop (n : nat) (crc : Z) (buf : list Z) : Z * list Z :=
  match n, buf with
  | S n, b0 :: b1 :: b2 :: b3 :: rest =>
      word_loop n (DO_CRC4 (Z.lxor crc (load32 b0 b1 b2 b3))) rest
  | _, _ => (crc, buf)
  end.

(** "And the last few bytes"; [n] is [rem_len]. *)
Fixpoint tail_loop (n : nat) (crc : Z) (buf : list Z) : Z :=
  match n, buf with
  | S n, x :: rest => tail_loop n (DO_CRC crc x) rest
  | _, _ => crc
  end.

(** [crc32_body(crc, buf, len)] on the [len] bytes [buf] stored at address [a]. *)
Definition crc32_body (crc a : Z) (buf : list Z) : Z :=
  let '(crc, buf) :=
    if negb (Z.land a 3 =? 0) && negb (lenZ buf =? 0) then align_loop crc a buf
    else (crc, buf) in
  let rem_len := Z.land (lenZ buf) 3 in
  let '(crc, buf) := word_loop (Z.to_nat (Z.shiftr (lenZ buf) 2)) crc buf in
  tail_loop (Z.to_nat rem_len) crc buf.

(** [vdfs4_crc32(buff, len)] *)
Definition vdfs4_crc32 (a : Z) (buf : list Z) : Z := crc32_body 0 a buf.

(** ** calculate_file_crc *)

(** What one [read(2)] call on the file returns. *)
Inductive read_result : Type :=
| Data (bytes : list Z)
| ReadError (err : Z).

Definition BLOCK_SIZE_DEFAULT : Z := 4096.

(** The read loop; [reads] are the results of the successive calls, an empty
    list or an empty block is end of file. The first component of the result is
    the returned checksum, the second [*error]. [a] is the address of [buf]. *)
Fixpoint file_crc_loop (a crc calc_size : Z) (reads : list read_result) : Z * Z :=
  if 0 <? calc_size then
    match reads with
    | [] | Data [] :: _ => (crc, 0)
    | ReadError err :: _ => (0, err)
    | Data d :: reads => file_crc_loop a (crc32_body crc a d) (calc_size - lenZ d) reads
    end
  else (crc, 0).

(** [calculate_file_crc(file_id, calc_last_block, error)]; [st_size] is the
    size [fstat] reports, or the errno it fails with. *)
Definition calculate_file_crc (a : Z) (st_size : Z + Z) (calc_last_block : bool)
    (reads : list read_result) : Z * Z :=
  match st_size with
  | inr err => (0, err)
  | inl st_size =>
      let calc_size := if calc_last_block then st_size else st_size - BLOCK_SIZE_DEFAULT in
      file_crc_loop a 0 calc_size reads
  end.

(** ** Signing of blocks (utils.c) *)

Definition CRC32_SIZE : Z := 4.
Definition UTIL_INVALID_CRC : Z := 2.

(** [util_update_crc(buff, buff_size, magic, magic_len)]; [a] is the address of
    [buff], the result is the buffer and the returned [int]. *)
Definition util_update_crc (a : Z) (buff : list Z) (buff_size : Z)
    (magic : option (list Z)) (magic_len : Z) : run (list Z * Z) :=
  _ ← bug_on (negb (magic_len <? buff_size));
  buff ← match magic with
         | Some mg => d ← slice mg 0 magic_len; blit buff 0 d
         | None => Ok buff
         end;
  d ← slice buff magic_len (u32 (buff_size - (CRC32_SIZE + magic_len)));
  let crc := vdfs4_crc32 (a + magic_len) d in
  buff ← blit buff (buff_size - CRC32_SIZE) (le_bytes 4 crc);
  Ok (buff, s32 crc).

(** [util_validate_crc(buff, buff_size, skip)] *)
Definition util_validate_crc (a : Z) (buff : list Z) (buff_size skip : Z) : run Z :=
  d ← slice buff skip (u32 (buff_size - (CRC32_SIZE + skip)));
  let crc := vdfs4_crc32 (a + skip) d in
  stored ← slice buff (buff_size - CRC32_SIZE) CRC32_SIZE;
  Ok (if decide (stored = le_bytes 4 crc) then 0 else Z.lor 0 UTIL_INVALID_CRC).

(** ** Reference: the reflected CRC-32, one bit at a time *)

Definition poly : Z := 0xEDB88320.

Definition crc_bit (c : Z) : Z :=
  if Z.odd c then Z.lxor (Z.shiftr c 1) poly else Z.shiftr c 1.

Fixpoint crc_bits (n : nat) (c : Z) : Z :=
  match n with O => c | S n => crc_bit (crc_bits n c) end.

Definition crc_byte (c b : Z) : Z := crc_bits 8 (Z.lxor c b).

Definition crc_le (c : Z) (buf : list Z) : Z := foldl crc_byte c buf.

(** ** Algebra of the bit step *)

Definition is_u32 (c : Z) : Prop := 0 <= c < 2 ^ 32.

Lemma crc_bit_lxor (a b : Z) : crc_bit (Z.lxor a b) = Z.lxor (crc_bit a) (crc_bit b).
Proof.
  unfold crc_bit; rewrite <- !Z.bit0_odd, Z.lxor_spec, Z.shiftr_lxor.
  destruct (Z.testbit a 0), (Z.testbit b 0); cbn [xorb];
    apply Z.bits_inj'; intros i Hi; autorewrite with bits; btauto.
Qed.

Lemma crc_bits_lxor (n : nat) (a b : Z) :
  crc_bits n (Z.lxor a b) = Z.lxor (crc_bits n a) (crc_bits n b).
Proof.
  induction n as [|n IH]; cbn [crc_bits]; [done|].
  by rewrite IH, crc_bit_lxor.
Qed.

Lemma crc_bits_add (n m : nat) (c : Z) : crc_bits (n + m) c = crc_bits n (crc_bits m c).
Proof. induction n as [|n IH]; cbn [Nat.add crc_bits]; [done|by rewrite IH]. Qed.

Lemma crc_bits_shiftl (n : nat) (x : Z) :
  crc_bits n (Z.shiftl x (Z.of_nat n)) = x.
Proof.
  induction n as [|n IH]; [apply Z.shiftl_0_r|].
  replace (S n) with (n + 1)%nat at 1 by lia; rewrite crc_bits_add.
  replace (crc_bits 1 (Z.shiftl x (Z.of_nat (S n)))) with (Z.shiftl x (Z.of_nat n)); [done|].
  cbn [crc_bits]; unfold crc_bit.
  rewrite <- Z.bit0_odd, Z.shiftl_spec_low by lia.
  rewrite Z.shiftr_shiftl_l by lia; f_equal; lia.
Qed.

Lemma poly_u32 : is_u32 poly.
Proof. unfold is_u32, poly; lia. Qed.

Lemma shiftr_range (c k : Z) : 0 <= k -> 0 <= c -> 0 <= Z.shiftr c k <= c.
Proof.
  intros; rewrite Z.shiftr_div_pow2 by lia.
  assert (0 < 2 ^ k) by (apply Z.pow_pos_nonneg; lia).
  split; [apply Z.div_pos; lia|apply Z.div_le_upper_bound; nia].
Qed.

Lemma crc_bit_u32 (c : Z) : is_u32 c -> is_u32 (crc_bit c).
Proof.
  intros Hc; pose proof poly_u32; unfold crc_bit, is_u32 in *.
  pose proof (shiftr_range c 1); case_if; [apply lxor_range|]; lia.
Qed.

Lemma crc_bits_u32 (n : nat) (c : Z) : is_u32 c -> is_u32 (crc_bits n c).
Proof.
  intros Hc; induction n; cbn [crc_bits]; [done|by apply crc_bit_u32].
Qed.

(** Splitting off the low byte of a register. *)
Lemma low_byte_split (c : Z) :
  c = Z.lxor (Z.land c 255) (Z.shiftl (Z.shiftr c 8) 8).
Proof.
  apply Z.bits_inj'; intros i Hi; autorewrite with bits.
  change 255 with (Z.ones 8).
  destruct (Z.ltb_spec i 8).
  - rewrite Z.ones_spec_low, (Z.testbit_neg_r _ (i - 8)) by lia; btauto.
  - rewrite Z.ones_spec_high by lia.
    replace (i - 8 + 8) with i by lia; rewrite Z.shiftr_spec by lia.
    replace (i - 8 + 8) with i by lia; btauto.
Qed.

(** ** The tables hold the advanced bytes *)

Definition tables_ok : bool :=
  forallb (fun k => forallb (fun n => tab k (Z.of_nat n) =? crc_bits (8 * (k + 1)) (Z.of_nat n))
                      (seq 0 256)) (seq 0 4).

Lemma tables_ok_true : tables_ok = true.
Proof. vm_compute; reflexivity. Qed.

Lemma tab_spec (k : nat) (i : Z) :
  (k < 4)%nat -> is_byte i -> tab k i = crc_bits (8 * (k + 1)) i.
Proof.
  intros Hk Hi; unfold is_byte in Hi.
  pose proof tables_ok_true as H; unfold tables_ok in H.
  assert (In k (seq 0 4)) as Hk' by (apply in_seq; lia).
  assert (In (Z.to_nat i) (seq 0 256)) as Hi' by (apply in_seq; lia).
  rewrite forallb_forall in H; specialize (H k Hk'); cbv beta in H.
  rewrite forallb_forall in H; specialize (H _ Hi'); cbv beta in H.
  rewrite Z2Nat.id in H by lia; by apply Z.eqb_eq.
Qed.

Lemma byte_of_land (x : Z) : is_byte (Z.land x 255).
Proof. unfold is_byte; rewrite land_ones_byte; apply Z.mod_pos_bound; lia. Qed.

(** Advancing a register by one byte is a table lookup. *)
Lemma crc_bits_8_split (k : nat) (c : Z) :
  (k < 4)%nat -> crc_bits (8 * (k + 1)) c
    = Z.lxor (tab k (Z.land c 255)) (crc_bits (8 * k) (Z.shiftr c 8)).
Proof.
  intros Hk; rewrite (low_byte_split c) at 1; rewrite crc_bits_lxor, tab_spec by auto using byte_of_land.
  f_equal; replace (8 * (k + 1))%nat with (8 * k + 8)%nat by lia.
  rewrite crc_bits_add; f_equal; apply (crc_bits_shiftl 8).
Qed.

Lemma DO_CRC_spec (crc x : Z) : is_byte x -> DO_CRC crc x = crc_byte crc x.
Proof.
  intros Hx; unfold DO_CRC, crc_byte.
  change 8%nat with (8 * (0 + 1))%nat; rewrite (crc_bits_8_split 0) by lia.
  f_equal; cbn [crc_bits Nat.mul]; rewrite Z.shiftr_lxor.
  replace (Z.shiftr x 8) with 0; [by rewrite Z.lxor_0_r|].
  unfold is_byte in Hx; rewrite Z.shiftr_div_pow2, Z.div_small; lia.
Qed.

Lemma DO_CRC4_spec (crc : Z) : is_u32 crc -> DO_CRC4 crc = crc_bits 32 crc.
Proof.
  intros Hc; unfold is_u32 in Hc; unfold DO_CRC4.
  change 32%nat with (8 * (3 + 1))%nat; rewrite (crc_bits_8_split 3) by lia.
  change (8 * 3)%nat with (8 * (2 + 1))%nat; rewrite (crc_bits_8_split 2) by lia.
  change (8 * 2)%nat with (8 * (1 + 1))%nat; rewrite (crc_bits_8_split 1) by lia.
  change (8 * 1)%nat with (8 * (0 + 1))%nat; rewrite (crc_bits_8_split 0) by lia.
  cbn [crc_bits Nat.mul]; rewrite !Z.shiftr_shiftr by lia.
  change (8 + 8) with 16; change (8 + 16) with 24; change (16 + 8) with 24.
  change (24 + 8) with 32; change (8 + 24) with 32.
  replace (Z.shiftr crc 32) with 0; [by rewrite Z.lxor_0_r, !Z.lxor_assoc|].
  rewrite Z.shiftr_div_pow2, Z.div_small; lia.
Qed.

Lemma lor_disjoint_shift (b x : Z) :
  is_byte b -> Z.lor b (Z.shiftl x 8) = Z.lxor b (Z.shiftl x 8).
Proof.
  intros Hb; apply Z.bits_inj'; intros i Hi; autorewrite with bits.
  destruct (Z.ltb_spec i 8).
  - rewrite (Z.testbit_neg_r x) by lia; btauto.
  - rewrite (testbit_high b 8 i) by (unfold is_byte in Hb; lia); btauto.
Qed.

Lemma load32_nested (b0 b1 b2 b3 : Z) :
  load32 b0 b1 b2 b3
  = Z.lor b0 (Z.shiftl (Z.lor b1 (Z.shiftl (Z.lor b2 (Z.shiftl b3 8)) 8)) 8).
Proof.
  unfold load32; rewrite !Z.shiftl_lor, !Z.shiftl_shiftl by lia; done.
Qed.

Lemma crc_byte_shift (c b x : Z) :
  is_byte b -> crc_bits 8 (Z.lxor c (Z.lor b (Z.shiftl x 8))) = Z.lxor (crc_byte c b) x.
Proof.
  intros Hb; rewrite lor_disjoint_shift, <- Z.lxor_assoc, crc_bits_lxor by done.
  unfold crc_byte; f_equal; apply (crc_bits_shiftl 8).
Qed.

(** Four byte steps are one word step on the little-endian word. *)
Lemma crc_word_step (c b0 b1 b2 b3 : Z) :
  is_byte b0 -> is_byte b1 -> is_byte b2 -> is_byte b3 ->
  crc_bits 32 (Z.lxor c (load32 b0 b1 b2 b3)) = crc_le c [b0; b1; b2; b3].
Proof.
  intros; rewrite load32_nested.
  change 32%nat with (8 + (8 + (8 + 8)))%nat; rewrite 3!crc_bits_add.
  rewrite 3!crc_byte_shift by assumption; unfold crc_le, crc_byte; cbn [foldl]; reflexivity.
Qed.

Lemma load32_u32 (b0 b1 b2 b3 : Z) :
  is_byte b0 -> is_byte b1 -> is_byte b2 -> is_byte b3 -> is_u32 (load32 b0 b1 b2 b3).
Proof.
  intros H0 H1 H2 H3; rewrite load32_nested; unfold is_u32, is_byte in *.
  rewrite !lor_disjoint_shift by (unfold is_byte; lia).
  rewrite !Z.shiftl_mul_pow2 by lia.
  assert (0 <= Z.lxor b2 (b3 * 2 ^ 8) < 2 ^ 16) by (apply lxor_range; lia).
  assert (0 <= Z.lxor b1 (Z.lxor b2 (b3 * 2 ^ 8) * 2 ^ 8) < 2 ^ 24) by (apply lxor_range; lia).
  apply lxor_range; lia.
Qed.

Lemma crc_byte_u32 (c b : Z) : is_u32 c -> is_byte b -> is_u32 (crc_byte c b).
Proof.
  intros Hc Hb; apply crc_bits_u32; unfold is_u32, is_byte in *; apply lxor_range; lia.
Qed.

Lemma crc_le_u32 (buf : list Z) (c : Z) :
  Forall is_byte buf -> is_u32 c -> is_u32 (crc_le c buf).
Proof.
  intros Hb; revert c; induction Hb; intros c Hc; cbn; [done|].
  by apply IHHb, crc_byte_u32.
Qed.

Lemma crc_le_app (c : Z) (l k : list Z) : crc_le c (l ++ k) = crc_le (crc_le c l) k.
Proof. apply foldl_app. Qed.

(** ** The loops *)

Lemma tail_loop_spec (buf : list Z) (n : nat) (c : Z) :
  Forall is_byte buf -> (length buf <= n)%nat -> tail_loop n c buf = crc_le c buf.
Proof.
  intros Hb; revert n c; induction Hb as [|x l Hx Hl IH]; intros [|n] c Hn; cbn in *; try done; [lia|].
  rewrite DO_CRC_spec by done; apply IH; lia.
Qed.

Lemma align_loop_spec (buf : list Z) (a c c' : Z) (rest : list Z) :
  Forall is_byte buf -> align_loop c a buf = (c', rest) ->
  exists pre, buf = pre ++ rest /\ c' = crc_le c pre.
Proof.
  intros Hb; revert a c; induction Hb as [|x l Hx Hl IH]; intros a c H; cbn in H.
  { exists []; naive_solver. }
  rewrite DO_CRC_spec in H by done; destruct l as [|y l].
  { exists [x]; naive_solver. }
  destruct (Z.land (a + 1) 3 =? 0).
  { exists [x]; naive_solver. }
  apply IH in H as (pre & Hpre & ->); exists (x :: pre); by rewrite Hpre.
Qed.

Lemma word_loop_spec (n : nat) (buf : list Z) (c : Z) :
  Forall is_byte buf -> is_u32 c -> (4 * n <= length buf)%nat ->
  word_loop n c buf = (crc_le c (take (4 * n) buf), drop (4 * n) buf).
Proof.
  revert buf c; induction n as [|n IH]; intros buf c Hb Hc Hlen; [done|].
  destruct buf as [|b0 [|b1 [|b2 [|b3 buf]]]]; cbn in Hlen; try lia.
  rewrite !Forall_cons in Hb; destruct Hb as (H0 & H1 & H2 & H3 & Hb).
  assert (is_u32 (Z.lxor c (load32 b0 b1 b2 b3)))
    by (apply lxor_range; [lia|exact Hc|by apply load32_u32]).
  cbn [word_loop]; rewrite DO_CRC4_spec, crc_word_step by assumption.
  rewrite IH; [|assumption|apply crc_le_u32; auto|lia].
  replace (4 * S n)%nat with (S (S (S (S (4 * n))))) by lia; done.
Qed.

(** ** Theorems *)

Lemma crc32_body_ref (crc a : Z) (buf : list Z) :
  is_u32 crc -> Forall is_byte buf -> crc32_body crc a buf = crc_le crc buf.
Proof.
  intros Hc Hb; unfold crc32_body.
  set (p := if _ : bool then _ else _).
  assert (exists pre rest, buf = pre ++ rest /\ p = (crc_le crc pre, rest)) as (pre & rest & Hbuf & Hp).
  { unfold p; destruct (_ && _).
    - destruct (align_loop crc a buf) as [c' rest] eqn:E.
      apply align_loop_spec in E as (pre & -> & ->); [eauto|done].
    - by exists [], buf. }
  rewrite Hp; subst buf; rewrite Forall_app in Hb; destruct Hb as [Hpre Hrest].
  pose proof (crc_le_u32 pre crc Hpre Hc); clear p Hp.
  assert (0 <= lenZ rest) by apply lenZ_nonneg.
  set (n := Z.to_nat (Z.shiftr (lenZ rest) 2)).
  assert (Z.of_nat n = lenZ rest / 4) as Hn
    by (unfold n; rewrite Z.shiftr_div_pow2 by lia; apply Z2Nat.id, Z.div_pos; lia).
  assert (lenZ rest mod 4 = lenZ rest - 4 * (lenZ rest / 4)) as Hm by (apply Z.mod_eq; lia).
  change 3 with (Z.ones 2); rewrite Z.land_ones by lia; change (2 ^ 2) with 4.
  pose proof (Z.mod_pos_bound (lenZ rest) 4).
  unfold lenZ in *; rewrite word_loop_spec by (done || lia).
  rewrite tail_loop_spec; [|by apply Forall_drop|rewrite length_drop; lia].
  by rewrite <- crc_le_app, take_drop, crc_le_app.
Qed.

Lemma crc_bit_inj (a b : Z) : is_u32 a -> is_u32 b -> crc_bit a = crc_bit b -> a = b.
Proof.
  intros Ha Hb H.
  assert (forall c, is_u32 c -> Z.testbit (crc_bit c) 31 = Z.odd c) as Htop.
  { intros c Hc; unfold crc_bit; case_if; autorewrite with bits;
      rewrite (testbit_high c 32) by (unfold is_u32 in Hc; lia); done. }
  assert (Z.odd a = Z.odd b) as Ho by (rewrite <- !Htop by done; by rewrite H).
  unfold crc_bit in H; rewrite Ho in H.
  assert (Z.shiftr a 1 = Z.shiftr b 1) as Hs.
  { destruct (Z.odd b); [|done].
    apply (f_equal (fun x => Z.lxor x poly)) in H.
    by rewrite !Z.lxor_assoc, !Z.lxor_nilpotent, !Z.lxor_0_r in H. }
  rewrite <- !Z.div2_spec in Hs.
  rewrite (Z.div2_odd a), (Z.div2_odd b), Ho, Hs; done.
Qed.

Lemma crc_bits_inj (n : nat) (a b : Z) :
  is_u32 a -> is_u32 b -> crc_bits n a = crc_bits n b -> a = b.
Proof.
  induction n as [|n IH]; cbn [crc_bits]; intros Ha Hb H; [done|].
  apply IH; auto; apply crc_bit_inj; auto using crc_bits_u32.
Qed.

Lemma lxor_cancel_l (c x y : Z) : Z.lxor c x = Z.lxor c y -> x = y.
Proof.
  intros H; apply (f_equal (Z.lxor c)) in H.
  by rewrite <- !Z.lxor_assoc, !Z.lxor_nilpotent, !Z.lxor_0_l in H.
Qed.

Lemma lxor_byte_u32 (c b : Z) : is_u32 c -> is_byte b -> is_u32 (Z.lxor c b).
Proof. unfold is_u32, is_byte; intros; apply lxor_range; lia. Qed.

Lemma crc_byte_inj (c d x y : Z) :
  is_u32 c -> is_u32 d -> is_byte x -> is_byte y ->
  crc_byte c x = crc_byte d y -> Z.lxor c x = Z.lxor d y.
Proof. unfold crc_byte; eauto using crc_bits_inj, lxor_byte_u32. Qed.

Lemma crc_le_cons (c b : Z) (l : list Z) : crc_le c (b :: l) = crc_le (crc_byte c b) l.
Proof. reflexivity. Qed.

Lemma crc_le_inj_state (buf : list Z) (c d : Z) :
  Forall is_byte buf -> is_u32 c -> is_u32 d -> crc_le c buf = crc_le d buf -> c = d.
Proof.
  intros Hb; revert c d; induction Hb as [|b l Hx Hl IH]; intros c d Hc Hd H; [done|].
  rewrite !crc_le_cons in H; apply IH in H; auto using crc_byte_u32.
  apply crc_byte_inj in H; auto.
  rewrite !(Z.lxor_comm _ b) in H; by apply lxor_cancel_l in H.
Qed.

(** Two blocks that differ in one byte have different checksums. *)
Lemma crc_le_one_byte (c x y : Z) (l k : list Z) :
  is_u32 c -> Forall is_byte (l ++ k) -> is_byte x -> is_byte y -> x <> y ->
  crc_le c (l ++ x :: k) <> crc_le c (l ++ y :: k).
Proof.
  intros Hc Hlk Hx Hy Hne H; rewrite Forall_app in Hlk; destruct Hlk as [Hl Hk].
  rewrite !crc_le_app, !crc_le_cons in H.
  pose proof (crc_le_u32 l c Hl Hc) as Hs.
  apply crc_le_inj_state in H; auto using crc_byte_u32.
  apply crc_byte_inj in H; auto.
  by apply lxor_cancel_l in H.
Qed.

Lemma vdfs4_crc32_ref (a : Z) (buf : list Z) :
  Forall is_byte buf -> vdfs4_crc32 a buf = crc_le 0 buf.
Proof. intros; unfold vdfs4_crc32; apply crc32_body_ref; [unfold is_u32; lia|done]. Qed.

(** A buffer of [size] bytes seen as magic, protected data and checksum. *)
Lemma split_block (buff : list Z) (size k : Z) :
  lenZ buff = size -> 0 <= k -> k + CRC32_SIZE <= size ->
  exists mg d c, buff = mg ++ d ++ c /\ lenZ mg = k /\ lenZ d = size - CRC32_SIZE - k /\ lenZ c = 4.
Proof.
  unfold CRC32_SIZE; intros Hlen Hk Hs.
  exists (take (Z.to_nat k) buff), (take (Z.to_nat (size - 4 - k)) (drop (Z.to_nat k) buff)),
    (drop (Z.to_nat (size - 4 - k)) (drop (Z.to_nat k) buff)).
  rewrite !take_drop.
  assert (lenZ (drop (Z.to_nat k) buff) = size - k) by (rewrite lenZ_drop; lia).
  split; [done|]; rewrite !lenZ_take, lenZ_drop; lia.
Qed.

Lemma slice_mid (mg d c : list Z) : slice (mg ++ d ++ c) (lenZ mg) (lenZ d) = Ok d.
Proof.
  rewrite slice_ok by (rewrite ?lenZ_app; pose proof (lenZ_nonneg mg);
    pose proof (lenZ_nonneg d); pose proof (lenZ_nonneg c); lia).
  unfold lenZ; rewrite !Nat2Z.id, drop_app_length, take_app_length; done.
Qed.

Lemma slice_tail (mg c : list Z) : slice (mg ++ c) (lenZ mg) (lenZ c) = Ok c.
Proof. pose proof (slice_mid mg c []) as H; by rewrite app_nil_r in H. Qed.

Lemma blit_tail (mg c data : list Z) :
  lenZ data = lenZ c -> blit (mg ++ c) (lenZ mg) data = Ok (mg ++ data).
Proof.
  intros Hd; rewrite blit_ok by (rewrite ?lenZ_app; pose proof (lenZ_nonneg mg); lia).
  unfold lenZ in *; rewrite Nat2Z.id, take_app_length.
  rewrite drop_ge by (rewrite length_app; lia); by rewrite app_nil_r.
Qed.

Lemma blit_head (mg rest data : list Z) :
  lenZ data = lenZ mg -> blit (mg ++ rest) 0 data = Ok (data ++ rest).
Proof.
  intros Hd; rewrite blit_ok by (rewrite ?lenZ_app; pose proof (lenZ_nonneg rest); lia).
  unfold lenZ in *; change (Z.to_nat 0) with 0%nat; rewrite take_0; cbn [app].
  do 2 f_equal; replace (Z.to_nat (0 + Z.of_nat (length data))) with (length mg) by lia.
  apply drop_app_length.
Qed.

(** [util_validate_crc] on a block given by its three parts. *)
Lemma util_validate_crc_parts (a : Z) (mg d c : list Z) :
  Forall is_byte d -> lenZ (mg ++ d ++ c) < 2 ^ 31 -> lenZ c = 4 ->
  util_validate_crc a (mg ++ d ++ c) (lenZ (mg ++ d ++ c)) (lenZ mg)
  = Ok (if decide (c = le_bytes 4 (crc_le 0 d)) then 0 else UTIL_INVALID_CRC).
Proof.
  intros Hd Hs Hc; unfold util_validate_crc, CRC32_SIZE.
  pose proof (lenZ_nonneg mg); pose proof (lenZ_nonneg d).
  replace (lenZ (mg ++ d ++ c) - (4 + lenZ mg)) with (lenZ d) by (rewrite !lenZ_app; lia).
  rewrite u32_small by (rewrite !lenZ_app in Hs; lia).
  rewrite slice_mid; cbn [mbind run_bind].
  replace (slice (mg ++ d ++ c) (lenZ (mg ++ d ++ c) - 4) 4) with (Ok c).
  - cbn [mbind run_bind]; by rewrite vdfs4_crc32_ref.
  - rewrite app_assoc; replace (lenZ ((mg ++ d) ++ c) - 4) with (lenZ (mg ++ d))
      by (rewrite !lenZ_app; lia).
    rewrite <- Hc; symmetry; apply slice_tail.
Qed.

(** [util_update_crc] on a block given by its three parts. *)
Lemma util_update_crc_parts (a : Z) (mg d c mg' : list Z) :
  Forall is_byte d -> lenZ (mg ++ d ++ c) < 2 ^ 31 -> lenZ c = 4 -> lenZ mg <= lenZ mg' ->
  util_update_crc a (mg ++ d ++ c) (lenZ (mg ++ d ++ c)) (Some mg') (lenZ mg)
  = Ok (take (length mg) mg' ++ d ++ le_bytes 4 (crc_le 0 d), s32 (crc_le 0 d)).
Proof.
  intros Hd Hs Hc Hm; unfold util_update_crc, CRC32_SIZE.
  pose proof (lenZ_nonneg mg); pose proof (lenZ_nonneg d).
  assert (lenZ mg < lenZ (mg ++ d ++ c)) as Hlt by (rewrite !lenZ_app; lia).
  apply Z.ltb_lt in Hlt; rewrite Hlt; cbn [negb bug_on mbind run_bind].
  rewrite slice_ok by lia; cbn [mbind run_bind]; change (Z.to_nat 0) with 0%nat.
  rewrite drop_0; replace (Z.to_nat (lenZ mg)) with (length mg) by (unfold lenZ; lia).
  set (pm := take (length mg) mg').
  assert (lenZ pm = lenZ mg) as Hpm by (unfold pm, lenZ in *; rewrite length_take; lia).
  rewrite blit_head by done; cbn [mbind run_bind].
  replace (lenZ (mg ++ d ++ c) - (4 + lenZ mg)) with (lenZ d) by (rewrite !lenZ_app; lia).
  rewrite u32_small by (rewrite !lenZ_app in Hs; lia).
  rewrite <- Hpm, slice_mid; cbn [mbind run_bind]; rewrite vdfs4_crc32_ref by done.
  rewrite app_assoc; replace (lenZ (mg ++ d ++ c) - 4) with (lenZ (pm ++ d))
    by (rewrite !lenZ_app; lia).
  rewrite blit_tail by (rewrite lenZ_le_bytes; lia).
  cbn [mbind run_bind]; by rewrite <- app_assoc.
Qed.

(** ** Properties *)

(** C31: the slicing-by-4 routine with its four tables computes the reflected
    CRC-32 (polynomial 0xEDB88320) of the buffer, for every initial value, every
    length and every alignment of the buffer's address. *)
Theorem crc32_body_correct (crc a : Z) (buf : list Z) :
  is_u32 crc -> Forall is_byte buf -> crc32_body crc a buf = crc_le crc buf.
Proof. apply crc32_body_ref. Qed.

Lemma crc32_body_correct_witness :
  crc32_body 0xFFFFFFFF 3 [49; 50; 51; 52; 53; 54; 55; 56; 57]
  = crc_le 0xFFFFFFFF [49; 50; 51; 52; 53; 54; 55; 56; 57]
  /\ Z.lxor (crc_le 0xFFFFFFFF [49; 50; 51; 52; 53; 54; 55; 56; 57]) 0xFFFFFFFF = 0xCBF43926.
Proof.
  split; [apply crc32_body_correct|vm_compute; reflexivity].
  - unfold is_u32; lia.
  - repeat constructor; unfold is_byte; lia.
Defined.

(** Signing and validating a block. *)
Lemma update_validate_ok (a size magic_len : Z) (buff mg' : list Z) :
  Forall is_byte buff -> lenZ buff = size -> 0 <= magic_len ->
  magic_len + CRC32_SIZE <= size < 2 ^ 31 -> magic_len <= lenZ mg' ->
  exists buff' crc,
    util_update_crc a buff size (Some mg') magic_len = Ok (buff', crc)
    /\ util_validate_crc a buff' size magic_len = Ok 0
    /\ lenZ buff' = size
    /\ take (Z.to_nat magic_len) buff' = take (Z.to_nat magic_len) mg'
    /\ forall i, magic_len <= i < size - CRC32_SIZE -> getZ buff' i = getZ buff i.
Proof.
  intros Hb Hlen Hk Hs Hm.
  destruct (split_block buff size magic_len) as (mg & d & c & -> & Hmg & Hd & Hc); [done|done|lia|].
  unfold CRC32_SIZE in *; subst magic_len; rewrite <- Hlen.
  rewrite !Forall_app in Hb; destruct Hb as (_ & Hbd & _).
  rewrite util_update_crc_parts by (done || lia).
  set (pm := take (length mg) mg').
  assert (lenZ pm = lenZ mg) as Hpm by (unfold pm, lenZ in *; rewrite length_take; lia).
  set (cs := le_bytes 4 (crc_le 0 d)).
  assert (lenZ cs = 4) as Hcs by apply lenZ_le_bytes.
  assert (lenZ (mg ++ d ++ c) = lenZ (pm ++ d ++ cs)) as Hl by (rewrite !lenZ_app; lia).
  eexists _, _; split; [done|]; rewrite Hl, <- Hpm.
  split; [rewrite util_validate_crc_parts by (done || lia); by rewrite decide_True|].
  split; [done|].
  replace (Z.to_nat (lenZ pm)) with (length pm) by (unfold lenZ; lia).
  rewrite take_app_length; split.
  - unfold pm at 1; f_equal; unfold lenZ in Hpm; lia.
  - intros i Hi; rewrite !lenZ_app in Hi.
    rewrite (getZ_app_r pm), (getZ_app_r mg), Hpm by lia.
    rewrite !getZ_app_l by lia; done.
Qed.

(** signing a block and validating it succeeds: [util_update_crc] puts the
    magic first and the checksum last, leaves the data between them as it was,
    and [util_validate_crc] that skips the magic accepts the result. *)
Theorem update_validate_roundtrip (a size magic_len : Z) (buff mg' : list Z) :
  Forall is_byte buff -> lenZ buff = size -> 0 <= magic_len ->
  magic_len + CRC32_SIZE <= size < 2 ^ 31 -> magic_len <= lenZ mg' ->
  exists buff' crc,
    util_update_crc a buff size (Some mg') magic_len = Ok (buff', crc)
    /\ util_validate_crc a buff' size magic_len = Ok 0
    /\ lenZ buff' = size
    /\ take (Z.to_nat magic_len) buff' = take (Z.to_nat magic_len) mg'
    /\ forall i, magic_len <= i < size - CRC32_SIZE -> getZ buff' i = getZ buff i.
Proof. apply update_validate_ok. Qed.

Lemma update_validate_roundtrip_witness :
  exists buff' crc,
    util_update_crc 1 [9; 9; 1; 2; 3; 0; 0; 0; 0] 9 (Some [70; 71]) 2 = Ok (buff', crc)
    /\ util_validate_crc 1 buff' 9 2 = Ok 0.
Proof.
  destruct (update_validate_roundtrip 1 9 2 [9; 9; 1; 2; 3; 0; 0; 0; 0] [70; 71])
    as (b & c & H1 & H2 & _).
  - repeat constructor; unfold is_byte; lia.
  - reflexivity.
  - lia.
  - unfold CRC32_SIZE; lia.
  - vm_compute; discriminate.
  - eauto.
Defined.

(** C32: a valid block stops validating as soon as one byte of its protected
    part is changed: [util_validate_crc] then returns a code that is not 0, the code of
    a valid block. *)
Theorem validate_detects_byte (a size skip i v : Z) (buff : list Z) :
  Forall is_byte buff -> lenZ buff = size -> 0 <= skip -> size < 2 ^ 31 ->
  skip <= i < size - CRC32_SIZE -> is_byte v -> getZ buff i <> Some v ->
  util_validate_crc a buff size skip = Ok 0 ->
  exists code, util_validate_crc a (setZ buff i v) size skip = Ok code /\ code <> 0.
Proof.
  intros Hb Hlen Hk Hs Hi Hv Hne Hok; unfold CRC32_SIZE in *.
  destruct (split_block buff size skip) as (mg & d & c & -> & Hmg & Hd & Hc);
    [done|done|unfold CRC32_SIZE; lia|unfold CRC32_SIZE in Hd].
  subst skip; rewrite <- Hlen in *.
  rewrite !Forall_app in Hb; destruct Hb as (_ & Hbd & _).
  rewrite util_validate_crc_parts in Hok by (done || lia).
  rewrite getZ_app_r, getZ_app_l in Hne by lia.
  destruct (getZ_is_Some d (i - lenZ mg)) as [x Hx]; [lia|].
  assert (setZ (mg ++ d ++ c) i v = mg ++ setZ d (i - lenZ mg) v ++ c) as Hset.
  { apply getZ_ext; [autorewrite with vdfs; lia|]; intros j _.
    destruct (Z.eq_dec i j) as [<-|Hij].
    - rewrite getZ_setZ_eq, getZ_app_r, getZ_app_l by (autorewrite with vdfs; lia).
      rewrite getZ_setZ_eq by lia; done.
    - rewrite getZ_setZ_ne by done.
      destruct (Z.ltb_spec j (lenZ mg)); [by rewrite !getZ_app_l by lia|].
      rewrite !(getZ_app_r mg) by lia.
      destruct (Z.ltb_spec (j - lenZ mg) (lenZ d)).
      + rewrite !getZ_app_l, getZ_setZ_ne by (autorewrite with vdfs; lia); done.
      + rewrite !getZ_app_r by (autorewrite with vdfs; lia); by rewrite lenZ_setZ. }
  rewrite Hset; replace (lenZ (mg ++ d ++ c)) with (lenZ (mg ++ setZ d (i - lenZ mg) v ++ c))
    by (autorewrite with vdfs; lia).
  rewrite util_validate_crc_parts; [|by apply setZ_Forall|autorewrite with vdfs in *; lia|done].
  destruct (decide (c = le_bytes 4 (crc_le 0 d))) as [Hc0|]; [clear Hok|done].
  case_decide as Hdec; [exfalso|by eexists].
  rewrite Hc0 in Hdec.
  assert (forall l, Forall is_byte l -> 0 <= crc_le 0 l < 256 ^ Z.of_nat 4) as Hr
    by (intros l Hl; apply crc_le_u32; [done|unfold is_u32; lia]).
  apply le_bytes_inj in Hdec; [|apply Hr; done|apply Hr; by apply setZ_Forall].
  revert Hdec; unfold getZ, setZ in *; destruct (Z.ltb_spec (i - lenZ mg) 0); [lia|].
  rewrite (insert_take_drop _ (Z.to_nat (i - lenZ mg)) v) by (unfold lenZ in *; lia).
  rewrite <- (take_drop_middle d _ _ Hx) at 1.
  apply crc_le_one_byte; [unfold is_u32; lia| |by eapply Forall_lookup_1|done|congruence].
  rewrite Forall_app; split; [by apply Forall_take|by apply Forall_drop].
Qed.

Lemma validate_detects_byte_witness :
  exists code, util_validate_crc 0 (setZ ([70; 1; 2; 3] ++ le_bytes 4 (crc_le 0 [1; 2; 3])) 2 7) 8 1 = Ok code /\ code <> 0.
Proof.
  apply validate_detects_byte.
  - vm_compute; repeat constructor; discriminate.
  - reflexivity.
  - lia.
  - lia.
  - unfold CRC32_SIZE; lia.
  - unfold is_byte; lia.
  - vm_compute; discriminate.
  - vm_compute; reflexivity.
Defined.

(** the checksum of a file read block by block is the checksum of the
    concatenation of the blocks that make up the counted size; the blocks after
    it (the last one when [calc_last_block] is false) do not contribute. *)
Theorem calculate_file_crc_correct (a st_size : Z) (last : bool)
    (blocks : list (list Z)) (after : list read_result) :
  Forall (fun b => b <> [] /\ Forall is_byte b) blocks ->
  lenZ (concat blocks) = (if last then st_size else st_size - BLOCK_SIZE_DEFAULT) ->
  calculate_file_crc a (inl st_size) last (map Data blocks ++ after)
  = (crc_le 0 (concat blocks), 0).
Proof.
  intros Hb Hsize; cbn [calculate_file_crc]; rewrite <- Hsize; clear Hsize.
  enough (forall c, is_u32 c ->
    file_crc_loop a c (lenZ (concat blocks)) (map Data blocks ++ after)
    = (crc_le c (concat blocks), 0)) as Hloop by (apply Hloop; unfold is_u32; lia).
  induction Hb as [|b bs [Hne Hbb] Hbs IH]; intros c Hc.
  { cbn; destruct after; done. }
  cbn [map app concat]; destruct b as [|x b]; [done|].
  rewrite lenZ_app; pose proof (lenZ_nonneg (concat bs)).
  cbn [file_crc_loop]; destruct (Z.ltb_spec 0 (lenZ (x :: b) + lenZ (concat bs)));
    [|rewrite lenZ_cons in *; pose proof (lenZ_nonneg b); lia].
  rewrite crc32_body_ref by done.
  replace (lenZ (x :: b) + lenZ (concat bs) - lenZ (x :: b)) with (lenZ (concat bs)) by lia.
  rewrite IH by (by apply crc_le_u32); by rewrite crc_le_app.
Qed.

Lemma calculate_file_crc_correct_witness :
  calculate_file_crc 0 (inl 4099) false [Data [1; 2]; Data [3]; Data [0]]
  = (crc_le 0 [1; 2; 3], 0).
Proof.
  apply (calculate_file_crc_correct 0 4099 false [[1; 2]; [3]] [Data [0]]).
  - repeat constructor; try discriminate; unfold is_byte; lia.
  - reflexivity.
Defined.
