(* ===== verification/Bitmap.v ===== *)
(** Bitmaps: src/vdfs-tools/lib/bitmap.c, bitops.c, the bitmap helpers of
    src/vdfs-tools/lib/utils.c and the signed-bitmap updates of
    src/linux/fs/vdfs4/data.c (with the unaligned bit operations of vdfs4.h).

    A signed bitmap is a sequence of blocks, each made of a magic, data bytes
    and a checksum; the bits of the map are those of the data bytes only.
    [bit] reads a buffer as a sequence of bits and [phys] places bit [k] of the
    map in the buffer. The theorems state what each update does to every bit of
    the buffer, so that magic and checksum bytes are covered too. *)

From Stdlib Require Import ZArith Lia Bool List Btauto.
From stdpp Require Import base list sets.
From S2P Require Import Prelude Bytes.

Open Scope Z_scope.

(** ** Single bits *)

(** bitmap.c [set_bit(nr, addr)] *)
Definition set_bit (nr : Z) (m : list Z) : run (list Z) :=
  b ← rd m (nr / 8); wr m (nr / 8) (u8 (Z.lor b (Z.shiftl 1 (nr mod 8)))).

(** bitmap.c [test_bit(nr, addr)] *)
Definition test_bit (nr : Z) (m : list Z) : run Z :=
  b ← rd m (nr / 8); Ok (Z.land b (Z.shiftl 1 (nr mod 8))).

(** utils.c [util_test_bit(buffer + off, addr)] *)
Definition util_test_bit (m : list Z) (off addr : Z) : run Z :=
  b ← rd m (off + Z.shiftr addr 3); Ok (Z.land b (Z.shiftl 1 (addr mod 8))).

(** utils.c [util_set_bits(buffer + off, addr, count)] *)
Fixpoint util_set_bits (m : list Z) (off addr : Z) (count : nat) : run (list Z) :=
  match count with
  | O => Ok m
  | S count =>
      b ← rd m (off + Z.shiftr addr 3);
      m ← wr m (off + Z.shiftr addr 3) (u8 (Z.lor b (Z.shiftl 1 (addr mod 8))));
      util_set_bits m off (u64 (addr + 1)) count
  end.

(** utils.c [util_clear_bits(buffer + off, addr, count)] *)
Fixpoint util_clear_bits (m : list Z) (off addr : Z) (count : nat) : run (list Z) :=
  match count with
  | O => Ok m
  | S count =>
      b ← rd m (off + Z.shiftr addr 3);
      m ← wr m (off + Z.shiftr addr 3) (u8 (Z.land b (Z.lnot (Z.shiftl 1 (addr mod 8)))));
      util_clear_bits m off (u64 (addr + 1)) count
  end.

(** ** Signed bitmaps, tools *)

(** [const int datablock_size]: data bits of one block. *)
Definition datablock_size (block_size magic_len crc_size : Z) : Z :=
  Z.shiftl (block_size - (magic_len + crc_size)) 3.

(** utils.c [util_sign_test_bit] *)
Definition util_sign_test_bit (m : list Z) (buff_size addr block_size magic_len crc_size : Z)
    : run Z :=
  let buffer_range := buff_size - crc_size in
  let start_blck := Z.shiftr addr 3 / (block_size - (magic_len + crc_size)) in
  let int_addr := addr mod datablock_size block_size magic_len crc_size in
  let requested_block := start_blck * block_size in
  if buffer_range <? requested_block + magic_len + Z.shiftr int_addr 3 then Ok (- EINVAL)
  else util_test_bit m (requested_block + magic_len) int_addr.

(** The loop over the blocks that [util_sign_set_bits] and
    [util_sign_clear_bits] share; [op] is [util_set_bits] or
    [util_clear_bits], [n] the number of iterations left. *)
Fixpoint sign_bits_loop (op : list Z -> Z -> Z -> nat -> run (list Z))
    (buff_size addr start_blck block_size magic_len crc_size : Z)
    (n : nat) (cur_blck count : Z) (m : list Z) : run (list Z * Z) :=
  match n with
  | O => Ok (m, 0)
  | S n =>
      let dsize := datablock_size block_size magic_len crc_size in
      let int_addr := if cur_blck =? start_blck then addr mod dsize else 0 in
      let length := u32 (dsize - int_addr) in
      let '(length, count) :=
        if count <? length then (count, count) else (length, u32 (count - length)) in
      let requested_block := cur_blck * block_size in
      if buff_size - crc_size <? requested_block + magic_len + Z.shiftr (int_addr + length) 3
      then Ok (m, - EINVAL)
      else
        m ← op m (cur_blck * block_size + magic_len) int_addr (Z.to_nat length);
        sign_bits_loop op buff_size addr start_blck block_size magic_len crc_size
          n (cur_blck + 1) count m
  end.

(** The common body: [start_blck], [end_blck] and the loop between them. *)
Definition sign_bits (op : list Z -> Z -> Z -> nat -> run (list Z))
    (m : list Z) (buff_size addr count block_size magic_len crc_size : Z) : run (list Z * Z) :=
  if count =? 0 then Ok (m, 0)
  else
    let start_blck := Z.shiftr addr 3 / (block_size - (magic_len + crc_size)) in
    let end_blck := Z.shiftr (u64 (addr + count - 1)) 3 / (block_size - (magic_len + crc_size)) in
    sign_bits_loop op buff_size addr start_blck block_size magic_len crc_size
      (Z.to_nat (end_blck - start_blck + 1)) start_blck count m.

(** utils.c [util_sign_set_bits] *)
Definition util_sign_set_bits := sign_bits util_set_bits.

(** utils.c [util_sign_clear_bits] *)
Definition util_sign_clear_bits := sign_bits util_clear_bits.

(** ** Signed bitmaps, driver *)

(** vdfs4.h [correct_addr_and_bit_unaligned] (BITS_PER_LONG = 64): the aligned
    address and the bit number relative to it. *)
Definition correct_addr_and_bit_unaligned (bit addr : Z) : Z * Z :=
  (bit + Z.shiftl (Z.land addr 7) 3, Z.land addr (Z.lnot 7)).

(** The kernel's [test_and_set_bit(nr, addr)] on a little-endian machine: bit
    [nr] counted from byte [addr]; old value and new memory. *)
Definition test_and_set_bit (nr addr : Z) (m : list Z) : run (bool * list Z) :=
  b ← rd m (addr + nr / 8);
  m ← wr m (addr + nr / 8) (u8 (Z.lor b (Z.shiftl 1 (nr mod 8))));
  Ok (Z.testbit b (nr mod 8), m).

Definition test_and_clear_bit (nr addr : Z) (m : list Z) : run (bool * list Z) :=
  b ← rd m (addr + nr / 8);
  m ← wr m (addr + nr / 8) (u8 (Z.land b (Z.lnot (Z.shiftl 1 (nr mod 8)))));
  Ok (Z.testbit b (nr mod 8), m).

(** vdfs4.h [vdfs4_test_and_set_bit] *)
Definition vdfs4_test_and_set_bit (bit addr : Z) (m : list Z) : run (bool * list Z) :=
  let '(bit, addr) := correct_addr_and_bit_unaligned bit addr in test_and_set_bit bit addr m.

(** vdfs4.h [vdfs4_test_and_clear_bit] *)
Definition vdfs4_test_and_clear_bit (bit addr : Z) (m : list Z) : run (bool * list Z) :=
  let '(bit, addr) := correct_addr_and_bit_unaligned bit addr in test_and_clear_bit bit addr m.

Definition CRC_SIZE : Z := 4.

(** data.c, inner loop of [vdfs4_set_bits]: [n] bits from [cur_position] in the
    block at [cur_blck]. *)
Fixpoint set_bits_block (n : nat) (cur_blck cur_position magic_len blck_size : Z)
    (m : list Z) : run (list Z * Z) :=
  match n with
  | O => Ok (m, 0)
  | S n =>
      if cur_blck + blck_size - CRC_SIZE <? cur_blck + Z.shiftr cur_position 3 + magic_len
      then Ok (m, - EFAULT)
      else
        '(old, m) ← vdfs4_test_and_set_bit cur_position (cur_blck + magic_len) m;
        if (old : bool) then Ok (m, - EFAULT)
        else set_bits_block n cur_blck (u32 (cur_position + 1)) magic_len blck_size m
  end.

(** data.c, outer loop of [vdfs4_set_bits]; [n] iterations left. *)
Fixpoint set_bits_loop (n : nat) (offset start_blck magic_len blck_size : Z)
    (cur_blck count : Z) (m : list Z) : run (list Z * Z) :=
  match n with
  | O => Ok (m, 0)
  | S n =>
      let dsize := datablock_size blck_size magic_len CRC_SIZE in
      let cur_position := if cur_blck =? start_blck then offset mod dsize else 0 in
      let length := u32 (dsize - cur_position) in
      let '(length, count) :=
        if count <? length then (count, count) else (length, u32 (count - length)) in
      '(m, err) ← set_bits_block (Z.to_nat length) cur_blck cur_position magic_len blck_size m;
      if err =? 0
      then set_bits_loop n offset start_blck magic_len blck_size (cur_blck + blck_size) count m
      else Ok (m, err)
  end.

(** data.c [vdfs4_set_bits(buff, buff_size, offset, count, magic_len, blck_size)];
    pointers into [buff] are offsets. *)
Definition vdfs4_set_bits (m : list Z) (offset count magic_len blck_size : Z)
    : run (list Z * Z) :=
  let dsize := datablock_size blck_size magic_len CRC_SIZE in
  let start_blck := u32 (offset / dsize * blck_size) in
  let end_blck := u32 (u32 (offset + count - 1) / dsize * blck_size) in
  set_bits_loop (Z.to_nat ((end_blck - start_blck) / blck_size + 1))
    offset start_blck magic_len blck_size start_blck count m.

(** data.c, inner loop of [vdfs4_clear_bits]; [ret] is the error seen so far. *)
Fixpoint clear_bits_block (n : nat) (cur_blck cur_position magic_len blck_size ret : Z)
    (m : list Z) : run (list Z * Z * bool) :=
  match n with
  | O => Ok (m, ret, false)
  | S n =>
      if cur_blck + blck_size - CRC_SIZE <? cur_blck + Z.shiftr cur_position 3 + magic_len
      then Ok (m, - EFAULT, true)
      else
        '(old, m) ← vdfs4_test_and_clear_bit cur_position (cur_blck + magic_len) m;
        clear_bits_block n cur_blck (u32 (cur_position + 1)) magic_len blck_size
          (if (old : bool) then ret else - EFAULT) m
  end.

(** data.c, outer loop of [vdfs4_clear_bits]. *)
Fixpoint clear_bits_loop (n : nat) (offset start_blck magic_len blck_size : Z)
    (cur_blck count ret : Z) (m : list Z) : run (list Z * Z) :=
  match n with
  | O => Ok (m, ret)
  | S n =>
      let dsize := datablock_size blck_size magic_len CRC_SIZE in
      let cur_position := if cur_blck =? start_blck then offset mod dsize else 0 in
      let length := u32 (dsize - cur_position) in
      let '(length, count) :=
        if count <? length then (count, u32 (count - count)) else (length, u32 (count - length)) in
      '(m, ret, stop) ← clear_bits_block (Z.to_nat length) cur_blck cur_position magic_len
                          blck_size ret m;
      if (stop : bool) then Ok (m, ret)
      else clear_bits_loop n offset start_blck magic_len blck_size (cur_blck + blck_size)
             count ret m
  end.

(** data.c [vdfs4_clear_bits] *)
Definition vdfs4_clear_bits (m : list Z) (offset count magic_len blck_size : Z)
    : run (list Z * Z) :=
  let dsize := datablock_size blck_size magic_len CRC_SIZE in
  let start_blck := u32 (offset / dsize * blck_size) in
  let end_blck := u32 (u32 (offset + count - 1) / dsize * blck_size) in
  clear_bits_loop (Z.to_nat ((end_blck - start_blck) / blck_size + 1))
    offset start_blck magic_len blck_size start_blck count 0 m.

(** ** bitops.c *)

(** One [if ((word & mask) == 0) { num += s; word >>= s; }] of [__ffs]. *)
Definition ffs_halve (s : Z) (st : Z * Z) : Z * Z :=
  let '(num, word) := st in
  if Z.land word (2 ^ s - 1) =? 0 then (num + s, Z.shiftr word s) else (num, word).

(** [__ffs(word)], BITS_PER_LONG undefined in the tools: 32-bit search. *)
Definition ffs (word : Z) : Z :=
  let '(num, word) := ffs_halve 2 (ffs_halve 4 (ffs_halve 8 (ffs_halve 16 (0, word)))) in
  if Z.land word 1 =? 0 then num + 1 else num.

(** [ffz(x)] on a 32-bit [x] *)
Definition ffz (x : Z) : Z := ffs (u32 (Z.lnot x)).

(** [*(p++)] of a 32-bit pointer at byte [p]. *)
Definition load_u32 (m : list Z) (p : Z) : run Z :=
  d ← slice m p 4; Ok (le_value d).

(** The [while (size & ~31)] loop; [n] bounds the iterations. The result is
    the index found, or the place and size where the loop stopped. *)
Fixpoint ffzb_loop (n : nat) (m : list Z) (p result size : Z) : run (Z + Z * Z * Z) :=
  match n with
  | O => Ok (inr (p, result, size))
  | S n =>
      if Z.land size (Z.lnot 31) =? 0 then Ok (inr (p, result, size))
      else
        tmp ← load_u32 m p;
        if u32 (Z.lnot tmp) =? 0 then ffzb_loop n m (p + 4) (result + 32) (size - 32)
        else Ok (inl (result + ffz tmp))
  end.

(** [find_first_zero_bit(addr, size)] *)
Definition find_first_zero_bit (m : list Z) (size : Z) : run Z :=
  st ← ffzb_loop (Z.to_nat (size / 32)) m 0 0 size;
  match st with
  | inl found => Ok found
  | inr (p, result, size) =>
      if size =? 0 then Ok result
      else
        w ← load_u32 m p;
        let tmp := Z.lor w (u32 (Z.shiftl (u32 (Z.lnot 0)) size)) in
        if tmp =? u32 (Z.lnot 0) then Ok (result + size) else Ok (result + ffz tmp)
  end.

(** ** Buffers as sequences of bits *)

Definition bit (m : list Z) (j : Z) : bool :=
  match getZ m (j / 8) with Some b => Z.testbit b (j mod 8) | None => false end.

(** Byte [b] with bit [r] set to [v], as the code computes it. *)
Definition put_byte (b r : Z) (v : bool) : Z :=
  if v then u8 (Z.lor b (Z.shiftl 1 r)) else u8 (Z.land b (Z.lnot (Z.shiftl 1 r))).

Definition put_bit (m : list Z) (j : Z) (v : bool) : list Z :=
  setZ m (j / 8) (put_byte (default 0 (getZ m (j / 8))) (j mod 8) v).

Definition put_bits (m : list Z) (js : list Z) (v : bool) : list Z :=
  foldl (fun m j => put_bit m j v) m js.

(** Setting bits one by one, stopping at the first one already set. *)
Fixpoint set_until (m : list Z) (js : list Z) : list Z * Z :=
  match js with
  | [] => (m, 0)
  | j :: js => if bit m j then (put_bit m j true, - EFAULT) else set_until (put_bit m j true) js
  end.

(** Clearing bits one by one, remembering whether one was already clear. *)
Fixpoint clear_all (m : list Z) (js : list Z) (ret : Z) : list Z * Z :=
  match js with
  | [] => (m, ret)
  | j :: js => clear_all (put_bit m j false) js (if bit m j then ret else - EFAULT)
  end.

(** Place in the buffer of bit [k] of a signed bitmap. *)
Definition phys (block_size magic_len crc_size k : Z) : Z :=
  let d := datablock_size block_size magic_len crc_size in
  8 * (k / d * block_size + magic_len) + k mod d.

(** A buffer of [n] blocks in which block geometry makes sense. *)
Record geometry (m : list Z) (block_size magic_len crc_size n : Z) : Prop := {
  geo_magic : 0 <= magic_len;
  geo_crc : 0 < crc_size;
  geo_data : magic_len + crc_size < block_size;
  geo_blocks : 0 <= n;
  geo_len : lenZ m = n * block_size;
  geo_int : n * block_size < 2 ^ 31;
  geo_bits : block_size < 2 ^ 28
}.

Lemma getZ_byte (m : list Z) (i b : Z) : Forall is_byte m -> getZ m i = Some b -> is_byte b.
Proof. apply getZ_Forall. Qed.

Lemma u8_byte (x : Z) : is_byte (u8 x).
Proof. unfold u8, is_byte; apply Z.mod_pos_bound; lia. Qed.

Lemma put_byte_byte (b r : Z) (v : bool) : is_byte (put_byte b r v).
Proof. unfold put_byte; destruct v; apply u8_byte. Qed.

Lemma testbit_put_byte (b r i : Z) (v : bool) :
  0 <= r < 8 -> 0 <= i < 8 ->
  Z.testbit (put_byte b r v) i = if i =? r then v else Z.testbit b i.
Proof.
  intros Hr Hi; unfold put_byte, u8.
  assert (Z.testbit (Z.shiftl 1 r) i = (i =? r)) as H1.
  { rewrite Z.shiftl_1_l; destruct (Z.eqb_spec i r) as [->|];
      [apply Z.pow2_bits_true|apply Z.pow2_bits_false]; lia. }
  destruct v; rewrite Z.mod_pow2_bits_low by lia.
  - rewrite Z.lor_spec, H1; destruct (i =? r); btauto.
  - rewrite Z.land_spec, Z.lnot_spec, H1 by lia; destruct (i =? r); btauto.
Qed.

Lemma lenZ_put_bit (m : list Z) (j : Z) (v : bool) : lenZ (put_bit m j v) = lenZ m.
Proof. apply lenZ_setZ. Qed.

Lemma put_bit_bytes (m : list Z) (j : Z) (v : bool) :
  Forall is_byte m -> Forall is_byte (put_bit m j v).
Proof. intros; apply setZ_Forall; auto using put_byte_byte. Qed.

Lemma bit_put_bit (m : list Z) (j i : Z) (v : bool) :
  0 <= j < 8 * lenZ m -> bit (put_bit m j v) i = if i =? j then v else bit m i.
Proof.
  intros Hj; unfold bit, put_bit.
  assert (0 <= j / 8 < lenZ m) as Hq
    by (split; [apply Z.div_pos|apply Z.div_lt_upper_bound]; lia).
  pose proof (Z.mod_pos_bound j 8); pose proof (Z.mod_pos_bound i 8).
  pose proof (Z.div_mod i 8); pose proof (Z.div_mod j 8).
  destruct (getZ_is_Some m (j / 8) Hq) as [b Hb].
  destruct (Z.eqb_spec i j) as [->|Hij].
  - rewrite getZ_setZ_eq, testbit_put_byte, Z.eqb_refl by lia; done.
  - destruct (Z.eq_dec (j / 8) (i / 8)) as [E|E].
    + rewrite <- E, getZ_setZ_eq, Hb, testbit_put_byte by lia; cbn [default].
      destruct (Z.eqb_spec (i mod 8) (j mod 8)); [lia|done].
    + by rewrite getZ_setZ_ne.
Qed.

Lemma lenZ_put_bits (js : list Z) (m : list Z) (v : bool) : lenZ (put_bits m js v) = lenZ m.
Proof.
  revert m; induction js as [|j js IH]; intros m; [done|].
  cbn; unfold put_bits in IH; by rewrite IH, lenZ_put_bit.
Qed.

Lemma put_bits_bytes (js : list Z) (m : list Z) (v : bool) :
  Forall is_byte m -> Forall is_byte (put_bits m js v).
Proof.
  revert m; induction js as [|j js IH]; intros m Hm; [done|].
  apply IH, put_bit_bytes, Hm.
Qed.

Lemma put_bits_app (js ks : list Z) (m : list Z) (v : bool) :
  put_bits m (js ++ ks) v = put_bits (put_bits m js v) ks v.
Proof. apply foldl_app. Qed.

Definition in_range (m : list Z) (j : Z) : Prop := 0 <= j < 8 * lenZ m.

Lemma bit_put_bits (js : list Z) (m : list Z) (i : Z) (v : bool) :
  Forall (in_range m) js ->
  bit (put_bits m js v) i = if decide (i ∈ js) then v else bit m i.
Proof.
  revert m; induction js as [|j js IH]; intros m Hr; [done|].
  rewrite Forall_cons in Hr; destruct Hr as [Hj Hr].
  change (put_bits m (j :: js) v) with (put_bits (put_bit m j v) js v).
  rewrite IH by (eapply Forall_impl; [exact Hr|]; intros; unfold in_range; by rewrite lenZ_put_bit).
  rewrite bit_put_bit by exact Hj.
  destruct (Z.eqb_spec i j) as [->|Hij].
  - rewrite (decide_True (P := j ∈ j :: js)) by set_solver; by destruct (decide _).
  - destruct (decide (i ∈ js)); [rewrite decide_True by set_solver|rewrite decide_False by set_solver]; done.
Qed.

(** ** Bits written through the code's byte operations *)

Lemma rd_ok (m : list Z) (i : Z) : 0 <= i < lenZ m -> rd m i = Ok (default 0 (getZ m i)).
Proof. intros H; unfold rd; destruct (getZ_is_Some m i H) as [b ->]; done. Qed.

Lemma wr_ok (m : list Z) (i b : Z) : 0 <= i < lenZ m -> wr m i b = Ok (setZ m i b).
Proof. intros H; unfold wr; destruct (getZ_is_Some m i H) as [x ->]; done. Qed.

Lemma byte_index (off addr : Z) :
  0 <= addr -> off + Z.shiftr addr 3 = (8 * off + addr) / 8 /\ addr mod 8 = (8 * off + addr) mod 8.
Proof.
  intros; rewrite Z.shiftr_div_pow2, Z.mul_comm, Z.add_comm by lia.
  change (2 ^ 3) with 8; rewrite (Z.add_comm (off * 8)), Z.div_add, Z.mod_add by lia; lia.
Qed.

Lemma div8_range (m : list Z) (j : Z) : in_range m j -> 0 <= j / 8 < lenZ m.
Proof. intros []; split; [apply Z.div_pos|apply Z.div_lt_upper_bound]; lia. Qed.

(** The run of [n] bits from bit [addr] of the bytes at [off]. *)
Definition bit_run (off addr : Z) (n : nat) : list Z :=
  map (fun i => 8 * off + i) (seqZ addr (Z.of_nat n)).

Lemma seqZ_S (a : Z) (n : nat) : seqZ a (Z.of_nat (S n)) = a :: seqZ (a + 1) (Z.of_nat n).
Proof. rewrite seqZ_cons by lia; f_equal; f_equal; lia. Qed.

Lemma bit_run_S (off addr : Z) (n : nat) :
  bit_run off addr (S n) = 8 * off + addr :: bit_run off (addr + 1) n.
Proof. unfold bit_run; by rewrite seqZ_S. Qed.

Lemma in_range_put (m : list Z) (j : Z) (v : bool) (js : list Z) :
  Forall (in_range m) js -> Forall (in_range (put_bit m j v)) js.
Proof. intros H; eapply Forall_impl; [exact H|]; unfold in_range; intros; by rewrite lenZ_put_bit. Qed.

Lemma util_set_bits_run (n : nat) (m : list Z) (off addr : Z) :
  0 <= addr -> addr + Z.of_nat n < 2 ^ 64 -> Forall (in_range m) (bit_run off addr n) ->
  util_set_bits m off addr n = Ok (put_bits m (bit_run off addr n) true).
Proof.
  revert m addr; induction n as [|n IH]; intros m addr Ha Hn Hr; [done|].
  rewrite bit_run_S in *; rewrite Forall_cons in Hr; destruct Hr as [Hj Hr].
  destruct (byte_index off addr) as [E1 E2]; [lia|].
  cbn [util_set_bits]; rewrite E1, E2.
  rewrite rd_ok by (by apply div8_range); cbn [mbind run_bind].
  rewrite wr_ok by (by apply div8_range); cbn [mbind run_bind].
  rewrite u64_small by lia.
  apply IH; [lia|lia|by apply (in_range_put m _ true)].
Qed.

Lemma util_clear_bits_run (n : nat) (m : list Z) (off addr : Z) :
  0 <= addr -> addr + Z.of_nat n < 2 ^ 64 -> Forall (in_range m) (bit_run off addr n) ->
  util_clear_bits m off addr n = Ok (put_bits m (bit_run off addr n) false).
Proof.
  revert m addr; induction n as [|n IH]; intros m addr Ha Hn Hr; [done|].
  rewrite bit_run_S in *; rewrite Forall_cons in Hr; destruct Hr as [Hj Hr].
  destruct (byte_index off addr) as [E1 E2]; [lia|].
  cbn [util_clear_bits]; rewrite E1, E2.
  rewrite rd_ok by (by apply div8_range); cbn [mbind run_bind].
  rewrite wr_ok by (by apply div8_range); cbn [mbind run_bind].
  rewrite u64_small by lia.
  apply IH; [lia|lia|by apply (in_range_put m _ false)].
Qed.

(** ** Block arithmetic *)

Section Blocks.
Context (m : list Z) (bs ml cs n : Z).
Context (G : geometry m bs ml cs n).

#[local] Abbreviation D := (datablock_size bs ml cs).

Lemma D_eq : D = 8 * (bs - ml - cs).
Proof. unfold datablock_size; rewrite Z.shiftl_mul_pow2 by lia; lia. Qed.

Lemma D_pos : 0 < D.
Proof. destruct G; rewrite D_eq; lia. Qed.

(** The code divides the byte number by the data bytes of a block. *)
Lemma block_of_addr (k : Z) : 0 <= k -> Z.shiftr k 3 / (bs - (ml + cs)) = k / D.
Proof.
  intros; destruct G; rewrite Z.shiftr_div_pow2 by lia; change (2 ^ 3) with 8.
  rewrite Z.div_div by lia; f_equal; rewrite D_eq; lia.
Qed.

Lemma phys_in_block (b i : Z) : 0 <= i < D -> phys bs ml cs (b * D + i) = 8 * (b * bs + ml) + i.
Proof.
  intros; unfold phys; pose proof D_pos.
  rewrite (Z.add_comm (b * D)), Z.div_add, Z.mod_add by lia.
  rewrite Z.div_small, Z.mod_small by lia; lia.
Qed.

(** A run inside one block is a run of the map. *)
Lemma bit_run_phys (b i : Z) (k : nat) :
  0 <= i -> i + Z.of_nat k <= D ->
  bit_run (b * bs + ml) i k = map (phys bs ml cs) (seqZ (b * D + i) (Z.of_nat k)).
Proof.
  revert i; induction k as [|k IH]; intros i Hi Hk; [done|].
  rewrite bit_run_S, seqZ_S; cbn [map]; rewrite phys_in_block, IH by lia.
  do 3 f_equal; lia.
Qed.

Lemma phys_range (k : Z) : 0 <= k < n * D -> in_range m (phys bs ml cs k).
Proof.
  intros Hk; pose proof D_pos as HD; destruct G as [G1 G2 G3 G4 G5 G6 G7].
  unfold in_range, phys; rewrite G5.
  pose proof (Z.mod_pos_bound k D HD) as Hm.
  assert (0 <= k / D <= n - 1) as Hq
    by (split; [apply Z.div_pos; lia|]; assert (k / D < n) by (apply Z.div_lt_upper_bound; lia); lia).
  rewrite D_eq in *; nia.
Qed.

Lemma phys_inj (k l : Z) : phys bs ml cs k = phys bs ml cs l -> k = l.
Proof.
  intros H; pose proof D_pos as HD; destruct G as [G1 G2 G3 G4 G5 G6 G7].
  unfold phys in H; cbv zeta in H.
  pose proof (Z.mod_pos_bound k D HD); pose proof (Z.mod_pos_bound l D HD).
  pose proof (Z.div_mod k D); pose proof (Z.div_mod l D).
  pose proof D_eq.
  assert (k / D = l / D) by nia.
  assert (k mod D = l mod D) by nia.
  lia.
Qed.

End Blocks.

Lemma geometry_put_bits (m : list Z) (js : list Z) (v : bool) (bs ml cs n : Z) :
  geometry m bs ml cs n -> geometry (put_bits m js v) bs ml cs n.
Proof. intros []; split; rewrite ?lenZ_put_bits; done. Qed.

(** ** The block loop of the tools *)

(** What the two bit-run operations promise to the block loop. *)
Class RunOp (op : list Z -> Z -> Z -> nat -> run (list Z)) (v : bool) : Prop := {
  run_op : forall n m off addr,
    0 <= addr -> addr + Z.of_nat n < 2 ^ 64 -> Forall (in_range m) (bit_run off addr n) ->
    op m off addr n = Ok (put_bits m (bit_run off addr n) v)
}.

#[export] Instance set_bits_run_op : RunOp util_set_bits true.
Proof. split; intros; by apply util_set_bits_run. Qed.

#[export] Instance clear_bits_run_op : RunOp util_clear_bits false.
Proof. split; intros; by apply util_clear_bits_run. Qed.

Lemma map_phys_range (m : list Z) (bs ml cs n a k : Z) :
  geometry m bs ml cs n -> 0 <= a -> a + k <= n * datablock_size bs ml cs ->
  Forall (in_range m) (map (phys bs ml cs) (seqZ a k)).
Proof.
  intros G Ha Hk; apply Forall_map, Forall_forall; intros x Hx.
  apply elem_of_seqZ in Hx; eapply phys_range; [done|lia].
Qed.

Lemma seqZ_split (a j k : Z) : 0 <= j -> 0 <= k -> seqZ a (j + k) = seqZ a j ++ seqZ (a + j) k.
Proof. intros; apply seqZ_app; lia. Qed.

(** Facts shared by every block loop: how much one iteration handles, and how
    many iterations are left after it. *)
Lemma block_step (D pos count cur i : Z) :
  0 < D -> 0 <= i < D -> pos = cur * D + i -> 0 < count ->
  (count < D - i -> (pos + count - 1) / D = cur)
  /\ (D - i <= count -> count - (D - i) = 0 -> (pos + count - 1) / D = cur)
  /\ cur <= (pos + count - 1) / D.
Proof.
  intros HD Hi -> Hc; repeat split; intros.
  - symmetry; apply Z.div_unique with (i + count - 1); lia.
  - symmetry; apply Z.div_unique with (i + count - 1); lia.
  - apply Z.div_le_lower_bound; nia.
Qed.

Section SignLoop.
Context (op : list Z -> Z -> Z -> nat -> run (list Z)) (v : bool) {OP : RunOp op v}.
Context (bs ml cs nb : Z).

#[local] Abbreviation D := (datablock_size bs ml cs).
#[local] Abbreviation P := (phys bs ml cs).

Lemma sign_bits_loop_run (k : nat) (addr start cur count : Z) (m : list Z) :
  let i := if cur =? start then addr mod D else 0 in
  let pos := cur * D + i in
  geometry m bs ml cs nb -> 0 <= start <= cur -> 0 < count < 2 ^ 32 -> pos + count <= nb * D ->
  Z.of_nat k = (pos + count - 1) / D - cur + 1 ->
  sign_bits_loop op (lenZ m) addr start bs ml cs k cur count m
  = Ok (put_bits m (map P (seqZ pos count)) v, 0).
Proof.
  revert cur count m; induction k as [|k IH]; intros cur count m i pos G Hcur Hc Hr Hk.
  all: pose proof (D_pos m bs ml cs nb G) as HD; pose proof (D_eq bs ml cs) as HDe.
  all: assert (0 <= i < D) as Hi by (unfold i; case_if; [apply Z.mod_pos_bound|]; lia).
  all: destruct (block_step D pos count cur i HD Hi eq_refl) as (B1 & B2 & B3); [lia|].
  { lia. }
  pose proof G as [G1 G2 G3 G4 G5 G6 G7].
  cbn [sign_bits_loop]; fold i.
  rewrite (u32_small (D - i)) by lia.
  set (len := Z.min count (D - i)).
  assert ((if count <? D - i then (count, count) else (D - i, u32 (count - (D - i))))
          = (len, if count <? D - i then count else count - len)) as ->.
  { destruct (Z.ltb_spec count (D - i)); [unfold len; f_equal; lia|].
    rewrite u32_small by lia; unfold len; f_equal; lia. }
  assert (Z.shiftr (i + len) 3 <= bs - ml - cs) as Hsh.
  { rewrite Z.shiftr_div_pow2 by lia; change (2 ^ 3) with 8.
    apply Z.div_le_upper_bound; unfold len; lia. }
  assert (cur < nb) as Hcn by (unfold pos in *; nia).
  assert (cur * bs + bs <= nb * bs) as Hcb by nia.
  destruct (Z.ltb_spec (lenZ m - cs) (cur * bs + ml + Z.shiftr (i + len) 3)); [lia|].
  assert (bit_run (cur * bs + ml) i (Z.to_nat len) = map P (seqZ pos len)) as Hrun.
  { rewrite (bit_run_phys m bs ml cs nb G) by (unfold len; lia).
    by rewrite Z2Nat.id by (unfold len; lia). }
  assert (Forall (in_range m) (map P (seqZ pos len))) as Hin.
  { apply (map_phys_range m bs ml cs nb); [done|unfold pos; nia|unfold len; lia]. }
  rewrite (run_op (op := op) (v := v)); [|lia|unfold len; lia|by rewrite Hrun].
  rewrite Hrun; cbn [mbind run_bind].
  destruct (Z.ltb_spec count (D - i)); [|destruct (Z.eq_dec (count - len) 0) as [E|E]].
  - replace len with count by (unfold len; lia).
    specialize (B1 ltac:(lia)); assert (k = 0%nat) as -> by lia; done.
  - replace len with count by (unfold len in *; lia).
    specialize (B2 ltac:(lia) ltac:(unfold len in *; lia)); assert (k = 0%nat) as -> by lia; done.
  - assert (cur + 1 <> start) as Hne by lia; apply Z.eqb_neq in Hne.
    pose proof (IH (cur + 1) (count - len) (put_bits m (map P (seqZ pos len)) v)) as IH'.
    cbv zeta in IH'; rewrite Hne, Z.add_0_r, lenZ_put_bits in IH'.
    assert (len = D - i) as Hlen by (unfold len in *; lia).
    assert (pos + len = (cur + 1) * D) as Hnext by (unfold pos; lia).
    rewrite <- Hnext in IH'.
    rewrite IH'; [|by apply geometry_put_bits|lia|lia|lia|].
    + rewrite <- put_bits_app, <- map_app, <- seqZ_split by (unfold len; lia).
      do 5 f_equal; lia.
    + replace (pos + len + (count - len) - 1) with (pos + count - 1) by lia; lia.
Qed.

Lemma sign_bits_run (addr count : Z) (m : list Z) :
  geometry m bs ml cs nb -> 0 <= addr -> 0 <= count < 2 ^ 32 -> addr + count <= nb * D ->
  sign_bits op m (lenZ m) addr count bs ml cs
  = Ok (put_bits m (map P (seqZ addr count)) v, 0).
Proof.
  intros G Ha Hc Hr; unfold sign_bits.
  pose proof (D_pos m bs ml cs nb G) as HD; pose proof (D_eq bs ml cs); pose proof G as [].
  destruct (Z.eqb_spec count 0) as [->|]; [by rewrite seqZ_nil by lia|].
  rewrite u64_small by nia.
  rewrite !(block_of_addr m bs ml cs nb G) by lia.
  pose proof (sign_bits_loop_run (Z.to_nat ((addr + count - 1) / D - addr / D + 1))
    addr (addr / D) (addr / D) count m) as HL.
  cbv zeta in HL; rewrite Z.eqb_refl in HL.
  replace (addr / D * D + addr mod D) with addr in HL by (pose proof (Z.div_mod addr D); lia).
  assert (addr / D <= (addr + count - 1) / D) by (apply Z.div_le_mono; lia).
  assert (0 <= addr / D) by (apply Z.div_pos; lia).
  apply HL; [done|lia|lia|lia|lia].
Qed.

End SignLoop.

(** ** The driver's loops *)

Lemma correct_addr_spec (b addr : Z) :
  0 <= b -> 0 <= addr ->
  let '(b', addr') := correct_addr_and_bit_unaligned b addr in
  addr' + b' / 8 = (8 * addr + b) / 8 /\ b' mod 8 = (8 * addr + b) mod 8.
Proof.
  intros Hb Ha; unfold correct_addr_and_bit_unaligned.
  change 7 with (Z.ones 3); rewrite <- Z.ldiff_land, Z.ldiff_ones_r, Z.land_ones by lia.
  rewrite !Z.shiftl_mul_pow2, Z.shiftr_div_pow2 by lia; change (2 ^ 3) with 8.
  rewrite (Z.add_comm (8 * addr)), (Z.mul_comm 8 addr), !Z.div_add, !Z.mod_add by lia.
  pose proof (Z.div_mod addr 8); lia.
Qed.

Lemma test_and_set_run (b addr : Z) (m : list Z) :
  0 <= b -> 0 <= addr -> in_range m (8 * addr + b) ->
  vdfs4_test_and_set_bit b addr m
  = Ok (bit m (8 * addr + b), put_bit m (8 * addr + b) true).
Proof.
  intros Hb Ha Hr; pose proof (correct_addr_spec b addr Hb Ha) as H.
  unfold vdfs4_test_and_set_bit, test_and_set_bit.
  destruct (correct_addr_and_bit_unaligned b addr) as [b' addr']; destruct H as [-> ->].
  rewrite rd_ok by (by apply div8_range); cbn [mbind run_bind].
  rewrite wr_ok by (by apply div8_range); cbn [mbind run_bind].
  unfold bit; destruct (getZ_is_Some m _ (div8_range _ _ Hr)) as [x Hx].
  unfold put_bit; rewrite Hx; done.
Qed.

Lemma test_and_clear_run (b addr : Z) (m : list Z) :
  0 <= b -> 0 <= addr -> in_range m (8 * addr + b) ->
  vdfs4_test_and_clear_bit b addr m
  = Ok (bit m (8 * addr + b), put_bit m (8 * addr + b) false).
Proof.
  intros Hb Ha Hr; pose proof (correct_addr_spec b addr Hb Ha) as H.
  unfold vdfs4_test_and_clear_bit, test_and_clear_bit.
  destruct (correct_addr_and_bit_unaligned b addr) as [b' addr']; destruct H as [-> ->].
  rewrite rd_ok by (by apply div8_range); cbn [mbind run_bind].
  rewrite wr_ok by (by apply div8_range); cbn [mbind run_bind].
  unfold bit; destruct (getZ_is_Some m _ (div8_range _ _ Hr)) as [x Hx].
  unfold put_bit; rewrite Hx; done.
Qed.

Lemma set_until_app (js ks : list Z) (m : list Z) :
  set_until m (js ++ ks)
  = let '(m', e) := set_until m js in if e =? 0 then set_until m' ks else (m', e).
Proof.
  revert m; induction js as [|j js IH]; intros m; [done|].
  cbn; destruct (bit m j); [done|apply IH].
Qed.

Lemma lenZ_set_until (js : list Z) (m m' : list Z) (e : Z) :
  set_until m js = (m', e) -> lenZ m' = lenZ m.
Proof.
  revert m; induction js as [|j js IH]; intros m H; cbn in H; [by simplify_eq|].
  destruct (bit m j); [simplify_eq; apply lenZ_put_bit|].
  rewrite (IH _ H); apply lenZ_put_bit.
Qed.

Lemma clear_all_app (js ks : list Z) (m : list Z) (r : Z) :
  clear_all m (js ++ ks) r = let '(m', r') := clear_all m js r in clear_all m' ks r'.
Proof. revert m r; induction js as [|j js IH]; intros m r; [done|]; apply IH. Qed.

Lemma lenZ_clear_all (js : list Z) (m m' : list Z) (r r' : Z) :
  clear_all m js r = (m', r') -> lenZ m' = lenZ m.
Proof.
  revert m r; induction js as [|j js IH]; intros m r H; cbn in H; [by simplify_eq|].
  rewrite (IH _ _ H); apply lenZ_put_bit.
Qed.

Section DriverBlock.
Context (bs ml : Z).
#[local] Abbreviation D := (datablock_size bs ml CRC_SIZE).

Lemma block_bound (cur i : Z) :
  0 <= i < D -> (cur + bs - CRC_SIZE <? cur + Z.shiftr i 3 + ml) = false.
Proof.
  intros Hi; apply Z.ltb_ge; pose proof (D_eq bs ml CRC_SIZE).
  assert (Z.shiftr i 3 < bs - ml - CRC_SIZE); [|lia].
  rewrite Z.shiftr_div_pow2 by lia; apply Z.div_lt_upper_bound; lia.
Qed.

Lemma set_bits_block_run (n : nat) (cur i : Z) (m : list Z) :
  0 <= i -> i + Z.of_nat n <= D < 2 ^ 32 -> 0 <= cur + ml ->
  Forall (in_range m) (bit_run (cur + ml) i n) ->
  set_bits_block n cur i ml bs m = Ok (set_until m (bit_run (cur + ml) i n)).
Proof.
  revert i m; induction n as [|n IH]; intros i m Hi Hn Hc Hr; [done|].
  rewrite bit_run_S in *; rewrite Forall_cons in Hr; destruct Hr as [Hj Hr].
  cbn [set_bits_block set_until]; rewrite block_bound by lia.
  rewrite test_and_set_run by done; cbn [mbind run_bind].
  destruct (bit m _); [done|].
  destruct (decide (n = 0%nat)) as [->|]; [done|].
  rewrite u32_small by lia.
  apply IH; [lia|lia|lia|by apply (in_range_put m _ true)].
Qed.

Lemma clear_bits_block_run (n : nat) (cur i ret : Z) (m : list Z) :
  0 <= i -> i + Z.of_nat n <= D < 2 ^ 32 -> 0 <= cur + ml ->
  Forall (in_range m) (bit_run (cur + ml) i n) ->
  clear_bits_block n cur i ml bs ret m
  = let '(m', r) := clear_all m (bit_run (cur + ml) i n) ret in Ok (m', r, false).
Proof.
  revert i m ret; induction n as [|n IH]; intros i m ret Hi Hn Hc Hr; [done|].
  rewrite bit_run_S in *; rewrite Forall_cons in Hr; destruct Hr as [Hj Hr].
  cbn [clear_bits_block clear_all]; rewrite block_bound by lia.
  rewrite test_and_clear_run by done; cbn [mbind run_bind].
  destruct (decide (n = 0%nat)) as [->|]; [done|].
  rewrite u32_small by lia.
  apply IH; [lia|lia|lia|by apply (in_range_put m _ false)].
Qed.

End DriverBlock.

Lemma geometry_len (m m' : list Z) (bs ml cs n : Z) :
  lenZ m' = lenZ m -> geometry m bs ml cs n -> geometry m' bs ml cs n.
Proof. intros E []; split; rewrite ?E; done. Qed.

Section DriverLoop.
Context (bs ml nb : Z).
#[local] Abbreviation D := (datablock_size bs ml CRC_SIZE).
#[local] Abbreviation P := (phys bs ml CRC_SIZE).
#[local] Abbreviation geo m := (geometry m bs ml CRC_SIZE nb).

(** One iteration of the block loop: the length it handles, the run of bits of
    the map it stands for, and the position where the next block starts. *)
Lemma driver_step (sb b offset count : Z) (m : list Z) :
  let i := if b * bs =? sb * bs then offset mod D else 0 in
  let pos := b * D + i in
  let len := Z.min count (D - i) in
  geo m -> 0 <= sb <= b -> 0 < count < 2 ^ 32 -> pos + count <= nb * D ->
  0 <= i < D /\ 0 < len /\ u32 (D - i) = D - i /\ D < 2 ^ 32
  /\ (b * bs =? sb * bs) = (b =? sb)
  /\ bit_run (b * bs + ml) i (Z.to_nat len) = map P (seqZ pos len)
  /\ Forall (in_range m) (map P (seqZ pos len))
  /\ map P (seqZ pos count) = map P (seqZ pos len) ++ map P (seqZ (pos + len) (count - len))
  /\ (0 < count - len -> len = D - i /\ pos + len = (b + 1) * D
                          /\ ((b + 1) * bs =? sb * bs) = false)
  /\ (count - len = 0 -> (pos + count - 1) / D = b).
Proof.
  intros i pos len G Hb Hc Hr.
  pose proof (D_pos m bs ml CRC_SIZE nb G) as HD; pose proof (D_eq bs ml CRC_SIZE) as HDe.
  pose proof G as [G1 G2 G3 G4 G5 G6 G7].
  assert (0 <= i < D) as Hi by (unfold i; case_if; [apply Z.mod_pos_bound|]; lia).
  destruct (block_step D pos count b i HD Hi eq_refl) as (B1 & B2 & B3); [lia|].
  repeat split; try lia.
  - apply u32_small; lia.
  - destruct (Z.eqb_spec b sb) as [->|]; [apply Z.eqb_refl|apply Z.eqb_neq; nia].
  - rewrite (bit_run_phys m bs ml CRC_SIZE nb G) by (unfold len; lia).
    by rewrite Z2Nat.id by (unfold len; lia).
  - apply (map_phys_range m bs ml CRC_SIZE nb); [done|unfold pos; nia|unfold len; lia].
  - rewrite <- map_app, <- seqZ_split by (unfold len; lia); do 2 f_equal; lia.
  - apply Z.eqb_neq; nia.
Qed.

Lemma set_bits_loop_run (k : nat) (sb b offset count : Z) (m : list Z) :
  let i := if b * bs =? sb * bs then offset mod D else 0 in
  let pos := b * D + i in
  geo m -> 0 <= sb <= b -> 0 < count < 2 ^ 32 -> pos + count <= nb * D ->
  Z.of_nat k = (pos + count - 1) / D - b + 1 ->
  set_bits_loop k offset (sb * bs) ml bs (b * bs) count m
  = Ok (set_until m (map P (seqZ pos count))).
Proof.
  revert b count m; induction k as [|k IH]; intros b count m i pos G Hb Hc Hr Hk;
    destruct (driver_step sb b offset count m G Hb Hc Hr)
      as (Hi & Hl & Hu & HD & Hbs & Hrun & Hin & Hsplit & Hnext & Hlast);
    fold i in Hi, Hl, Hu, Hrun, Hin, Hsplit, Hnext, Hlast;
    fold pos in Hrun, Hin, Hsplit, Hnext, Hlast.
  { assert (b <= (pos + count - 1) / D) by (apply Z.div_le_lower_bound; unfold pos; nia); lia. }
  pose proof (geo_magic _ _ _ _ _ G); pose proof (geo_data _ _ _ _ _ G).
  assert (CRC_SIZE = 4) as HC by done.
  cbn [set_bits_loop]; fold i; rewrite Hu.
  set (len := Z.min count (D - i)) in *.
  assert ((if count <? D - i then (count, count) else (D - i, u32 (count - (D - i))))
          = (len, if count <? D - i then count else count - len)) as ->.
  { destruct (Z.ltb_spec count (D - i)); [unfold len; f_equal; lia|].
    rewrite u32_small by lia; unfold len; f_equal; lia. }
  rewrite set_bits_block_run by (rewrite ?Hrun; try done; unfold len; nia).
  rewrite Hrun, Hsplit, set_until_app; cbn [mbind run_bind].
  destruct (set_until m (map P (seqZ pos len))) as [m' e] eqn:E.
  destruct (Z.eqb_spec e 0); [|done].
  destruct (Z.eq_dec (count - len) 0) as [E0|E0].
  - specialize (Hlast E0); assert (k = 0%nat) as -> by lia.
    rewrite (seqZ_nil _ (count - len)) by lia; cbn; by subst e.
  - destruct Hnext as (Hlen & Hpos & Hne); [unfold len in *; lia|].
    destruct (Z.ltb_spec count (D - i)); [lia|].
    pose proof (IH (b + 1) (count - len) m') as IH'.
    cbv zeta in IH'; rewrite Hne, Z.add_0_r in IH'.
    replace (b * bs + bs) with ((b + 1) * bs) by lia; rewrite Hpos.
    apply IH'; [eapply geometry_len; [by eapply lenZ_set_until|done]|lia|lia|lia|].
    replace ((b + 1) * D + (count - len) - 1) with (pos + count - 1) by lia; lia.
Qed.

Lemma clear_bits_loop_run (k : nat) (sb b offset count ret : Z) (m : list Z) :
  let i := if b * bs =? sb * bs then offset mod D else 0 in
  let pos := b * D + i in
  geo m -> 0 <= sb <= b -> 0 < count < 2 ^ 32 -> pos + count <= nb * D ->
  Z.of_nat k = (pos + count - 1) / D - b + 1 ->
  clear_bits_loop k offset (sb * bs) ml bs (b * bs) count ret m
  = Ok (clear_all m (map P (seqZ pos count)) ret).
Proof.
  revert b count ret m; induction k as [|k IH]; intros b count ret m i pos G Hb Hc Hr Hk;
    destruct (driver_step sb b offset count m G Hb Hc Hr)
      as (Hi & Hl & Hu & HD & Hbs & Hrun & Hin & Hsplit & Hnext & Hlast);
    fold i in Hi, Hl, Hu, Hrun, Hin, Hsplit, Hnext, Hlast;
    fold pos in Hrun, Hin, Hsplit, Hnext, Hlast.
  { assert (b <= (pos + count - 1) / D) by (apply Z.div_le_lower_bound; unfold pos; nia); lia. }
  pose proof (geo_magic _ _ _ _ _ G); pose proof (geo_data _ _ _ _ _ G).
  assert (CRC_SIZE = 4) as HC by done.
  cbn [clear_bits_loop]; fold i; rewrite Hu.
  set (len := Z.min count (D - i)) in *.
  assert ((if count <? D - i then (count, u32 (count - count)) else (D - i, u32 (count - (D - i))))
          = (len, count - len)) as ->.
  { destruct (Z.ltb_spec count (D - i)); rewrite u32_small by lia; unfold len; f_equal; lia. }
  rewrite clear_bits_block_run by (rewrite ?Hrun; try done; unfold len; nia).
  rewrite Hrun, Hsplit, clear_all_app.
  destruct (clear_all m (map P (seqZ pos len)) ret) as [m' r] eqn:E; cbn [mbind run_bind].
  destruct (Z.eq_dec (count - len) 0) as [E0|E0].
  - specialize (Hlast E0); assert (k = 0%nat) as -> by lia.
    rewrite (seqZ_nil _ (count - len)) by lia; done.
  - destruct Hnext as (Hlen & Hpos & Hne); [unfold len in *; lia|].
    pose proof (IH (b + 1) (count - len) r m') as IH'.
    cbv zeta in IH'; rewrite Hne, Z.add_0_r in IH'.
    replace (b * bs + bs) with ((b + 1) * bs) by lia; rewrite Hpos.
    apply IH'; [eapply geometry_len; [by eapply lenZ_clear_all|done]|lia|lia|lia|].
    replace ((b + 1) * D + (count - len) - 1) with (pos + count - 1) by lia; lia.
Qed.

End DriverLoop.

Section Driver.
Context (m : list Z) (bs ml nb offset count : Z).
#[local] Abbreviation D := (datablock_size bs ml CRC_SIZE).
#[local] Abbreviation P := (phys bs ml CRC_SIZE).
Context (G : geometry m bs ml CRC_SIZE nb).
Context (Ho : 0 <= offset) (Hc : 0 < count < 2 ^ 32) (Hr : offset + count <= nb * D).
Context (Hw : offset + count <= 2 ^ 32).

(** The block numbers the driver computes, and the iteration count between them. *)
Lemma driver_bounds :
  u32 (offset / D * bs) = offset / D * bs
  /\ u32 (u32 (offset + count - 1) / D * bs) = (offset + count - 1) / D * bs
  /\ ((offset + count - 1) / D * bs - offset / D * bs) / bs + 1
     = (offset + count - 1) / D - offset / D + 1
  /\ 0 <= offset / D <= (offset + count - 1) / D
  /\ offset / D * D + offset mod D = offset
  /\ count < 2 ^ 32.
Proof using G Ho Hc Hr Hw.
  pose proof (D_pos m bs ml CRC_SIZE nb G) as HD; pose proof (D_eq bs ml CRC_SIZE) as HDe.
  pose proof G as [G1 G2 G3 G4 G5 G6 G7].
  assert (0 <= offset / D) by (apply Z.div_pos; lia).
  assert (offset / D <= (offset + count - 1) / D) by (apply Z.div_le_mono; lia).
  assert ((offset + count - 1) / D < nb) by (apply Z.div_lt_upper_bound; lia).
  assert (0 <= offset / D * bs <= nb * bs) by nia.
  assert (0 <= (offset + count - 1) / D * bs <= nb * bs) by nia.
  pose proof (Z.div_mod offset D).
  rewrite (u32_small (offset + count - 1)), !u32_small by lia.
  repeat split; try lia.
  rewrite <- Z.mul_sub_distr_r, Z.div_mul by lia; done.
Qed.

Lemma vdfs4_set_bits_run :
  vdfs4_set_bits m offset count ml bs = Ok (set_until m (map P (seqZ offset count))).
Proof using G Ho Hc Hr Hw.
  destruct driver_bounds as (E1 & E2 & E3 & Hq & Hd & Hc2).
  unfold vdfs4_set_bits; rewrite E1, E2, E3.
  pose proof (set_bits_loop_run bs ml nb (Z.to_nat ((offset + count - 1) / D - offset / D + 1))
    (offset / D) (offset / D) offset count m) as HL.
  cbv zeta in HL; rewrite Z.eqb_refl, Hd in HL; apply HL; [done|lia|lia|lia|lia].
Qed.

Lemma vdfs4_clear_bits_run :
  vdfs4_clear_bits m offset count ml bs = Ok (clear_all m (map P (seqZ offset count)) 0).
Proof using G Ho Hc Hr Hw.
  destruct driver_bounds as (E1 & E2 & E3 & Hq & Hd & Hc2).
  unfold vdfs4_clear_bits; rewrite E1, E2, E3.
  pose proof (clear_bits_loop_run bs ml nb (Z.to_nat ((offset + count - 1) / D - offset / D + 1))
    (offset / D) (offset / D) offset count 0 m) as HL.
  cbv zeta in HL; rewrite Z.eqb_refl, Hd in HL; apply HL; [done|lia|lia|lia|lia].
Qed.

End Driver.

(** ** Results of the two driver updates on a list of distinct bits *)

Lemma set_until_spec (js : list Z) (m : list Z) :
  NoDup js -> Forall (in_range m) js ->
  exists m' r, set_until m js = (m', r)
    /\ (Forall (fun j => bit m j = false) js -> r = 0 /\ m' = put_bits m js true)
    /\ (~ Forall (fun j => bit m j = false) js -> r = - EFAULT)
    /\ (forall i, i ∉ js -> bit m' i = bit m i).
Proof.
  intros Hnd; revert m; induction Hnd as [|j js Hj Hnd IH]; intros m Hr.
  { exists m, 0; repeat split; auto; intros H; exfalso; by apply H. }
  rewrite Forall_cons in Hr; destruct Hr as [Hrj Hr]; cbn [set_until].
  destruct (bit m j) eqn:E.
  - exists (put_bit m j true), (- EFAULT); split; [done|]; rewrite Forall_cons, E.
    repeat split; [naive_solver..|]; intros i Hi.
    rewrite bit_put_bit by exact Hrj; destruct (Z.eqb_spec i j); [set_solver|done].
  - destruct (IH (put_bit m j true)) as (m' & r & Hs & H1 & H2 & H3); [by apply in_range_put|].
    assert (Forall (fun i => bit (put_bit m j true) i = false) js
            <-> Forall (fun i => bit m i = false) js) as Hiff.
    { rewrite !Forall_forall; split; intros H i Hi; specialize (H i Hi).
      all: rewrite bit_put_bit in * by exact Hrj; destruct (Z.eqb_spec i j); [set_solver|done]. }
    exists m', r; split; [done|]; rewrite Forall_cons, <- Hiff; split; [|split].
    + intros [_ K]; by apply H1.
    + intros K; apply H2; naive_solver.
    + intros i Hi; rewrite H3, bit_put_bit by (exact Hrj || set_solver).
      destruct (Z.eqb_spec i j); [set_solver|done].
Qed.

Lemma clear_all_spec (js : list Z) (m : list Z) (r0 : Z) :
  NoDup js -> Forall (in_range m) js ->
  clear_all m js r0
  = (put_bits m js false,
     if decide (Forall (fun j => bit m j = true) js) then r0 else - EFAULT).
Proof.
  intros Hnd; revert m r0; induction Hnd as [|j js Hj Hnd IH]; intros m r0 Hr; [done|].
  rewrite Forall_cons in Hr; destruct Hr as [Hrj Hr]; cbn [clear_all].
  rewrite IH by (by apply in_range_put).
  change (put_bits m (j :: js) false) with (put_bits (put_bit m j false) js false); f_equal.
  assert (Forall (fun i => bit (put_bit m j false) i = true) js
          <-> Forall (fun i => bit m i = true) js) as Hiff.
  { rewrite !Forall_forall; split; intros H i Hi; specialize (H i Hi).
    all: rewrite bit_put_bit in * by exact Hrj; destruct (Z.eqb_spec i j); [set_solver|done]. }
  destruct (bit m j) eqn:E.
  - destruct (decide (Forall _ js)) as [H|H], (decide (Forall _ (j :: js))) as [K|K]; try done;
      rewrite Forall_cons in K; naive_solver.
  - destruct (decide (Forall _ (j :: js))) as [K|K]; [rewrite Forall_cons in K; destruct K; congruence|].
    by destruct (decide _).
Qed.

Lemma map_phys_NoDup (m : list Z) (bs ml cs n a k : Z) :
  geometry m bs ml cs n -> NoDup (map (phys bs ml cs) (seqZ a k)).
Proof.
  intros G; apply NoDup_fmap_2_strong; [|apply NoDup_seqZ].
  intros x y _ _; apply (phys_inj m bs ml cs n G).
Qed.

Lemma elem_of_map_phys (bs ml cs a k j : Z) :
  j ∈ map (phys bs ml cs) (seqZ a k) <-> exists i, a <= i < a + k /\ j = phys bs ml cs i.
Proof.
  rewrite list_elem_of_fmap; split.
  - intros (i & -> & Hi); apply elem_of_seqZ in Hi; eauto.
  - intros (i & Hi & ->); exists i; split; [done|by apply elem_of_seqZ].
Qed.

Lemma Forall_map_phys (P : Z -> Prop) (bs ml cs a k : Z) :
  Forall P (map (phys bs ml cs) (seqZ a k)) <-> forall i, a <= i < a + k -> P (phys bs ml cs i).
Proof.
  rewrite Forall_forall; split; intros H.
  - intros i Hi; apply H, elem_of_map_phys; eauto.
  - intros j (i & Hi & ->)%elem_of_map_phys; auto.
Qed.

(** Buffers with the same bits are equal. *)
Lemma bit_ext (m m' : list Z) :
  Forall is_byte m -> Forall is_byte m' -> lenZ m = lenZ m' ->
  (forall j, 0 <= j < 8 * lenZ m -> bit m j = bit m' j) -> m = m'.
Proof.
  intros Hb Hb' Hl H; apply getZ_ext; [done|]; intros q Hq.
  destruct (getZ_is_Some m q) as [x Hx]; [lia|].
  destruct (getZ_is_Some m' q) as [y Hy]; [lia|].
  rewrite Hx, Hy; f_equal.
  pose proof (getZ_byte _ _ _ Hb Hx) as Bx; pose proof (getZ_byte _ _ _ Hb' Hy) as By.
  unfold is_byte in *; apply Z.bits_inj'; intros i Hi.
  destruct (Z.ltb_spec i 8); [|rewrite !(testbit_high _ 8) by lia; done].
  specialize (H (8 * q + i) ltac:(lia)); unfold bit in H.
  rewrite (Z.mul_comm 8), Z.div_add_l, (Z.add_comm (q * 8)), Z.mod_add in H by lia.
  rewrite Z.div_small, Z.mod_small, Z.add_0_r, Hx, Hy in H by lia; done.
Qed.

(** ** bitops.c *)

Lemma bit_cons (b : Z) (l : list Z) (i : Z) :
  0 <= i -> bit (b :: l) i = if i <? 8 then Z.testbit b i else bit l (i - 8).
Proof.
  intros Hi; unfold bit; destruct (Z.ltb_spec i 8).
  - rewrite Z.div_small, Z.mod_small by lia; done.
  - assert (i / 8 = (i - 8) / 8 + 1) as -> by (rewrite <- Z.div_add by lia; f_equal; lia).
    assert (i mod 8 = (i - 8) mod 8) as -> by (rewrite <- (Z.mod_add (i - 8) 1) by lia; f_equal; lia).
    rewrite getZ_cons by (apply Z.div_pos; lia); done.
Qed.

Lemma testbit_le_value (l : list Z) (i : Z) :
  Forall is_byte l -> 0 <= i -> Z.testbit (le_value l) i = bit l i.
Proof.
  intros Hl; revert i; induction Hl as [|b l Hb Hl IH]; intros i Hi.
  { unfold bit; rewrite getZ_None by (right; unfold lenZ; cbn; apply Z.div_pos; lia).
    apply Z.testbit_0_l. }
  rewrite bit_cons by done; cbn [le_value]; unfold is_byte in Hb.
  rewrite (Z.mul_comm 256); change 256 with (2 ^ 8).
  destruct (Z.ltb_spec i 8).
  - rewrite <- (Z.mod_pow2_bits_low (b + le_value l * 2 ^ 8) 8 i) by lia.
    rewrite Z.mod_add, Z.mod_small by lia; done.
  - replace i with (i - 8 + 8) at 1 by lia; rewrite <- Z.div_pow2_bits by lia.
    rewrite Z.div_add, Z.div_small by lia; rewrite Z.add_0_l; apply IH; lia.
Qed.

Lemma load_u32_run (m : list Z) (p : Z) :
  Forall is_byte m -> 0 <= p -> p + 4 <= lenZ m ->
  exists w, load_u32 m p = Ok w /\ 0 <= w < 2 ^ 32
    /\ forall i, 0 <= i < 32 -> Z.testbit w i = bit m (8 * p + i).
Proof.
  intros Hm Hp Hl; unfold load_u32; rewrite slice_ok by lia; cbn [mbind run_bind].
  set (d := take _ _).
  assert (Forall is_byte d) as Hd by (apply Forall_take, Forall_drop, Hm).
  assert (length d = 4%nat) as Hlen
    by (unfold d, lenZ in *; rewrite length_take, length_drop; lia).
  exists (le_value d); split; [done|]; split.
  { pose proof (le_value_range d Hd) as H; by rewrite Hlen in H. }
  intros i Hi; rewrite testbit_le_value by lia || done; unfold bit.
  rewrite (Z.mul_comm 8), Z.div_add_l, (Z.add_comm (p * 8)), Z.mod_add by lia.
  assert (0 <= i / 8 < 4) by (split; [apply Z.div_pos|apply Z.div_lt_upper_bound]; lia).
  unfold d, getZ; destruct (Z.ltb_spec (i / 8) 0), (Z.ltb_spec (p + i / 8) 0); try lia.
  rewrite lookup_take_lt, lookup_drop by lia; do 2 f_equal.
  replace (Z.to_nat p + Z.to_nat (i / 8))%nat with (Z.to_nat (p + i / 8)) by lia; done.
Qed.

(** Invariant of the halving steps: the low [num] bits of [w] are clear, [word]
    is the rest, and one of its low [s] bits is set. *)
Definition ffs_inv (w s : Z) (st : Z * Z) : Prop :=
  let '(num, word) := st in
  0 <= num /\ word = Z.shiftr w num
  /\ (forall i, 0 <= i < num -> Z.testbit w i = false) /\ Z.land word (2 ^ s - 1) <> 0.

Lemma land_low_zero (x s i : Z) :
  0 <= s -> Z.land x (2 ^ s - 1) = 0 -> 0 <= i < s -> Z.testbit x i = false.
Proof.
  intros Hs H Hi; apply (f_equal (fun y => Z.testbit y i)) in H.
  replace (2 ^ s - 1) with (Z.ones s) in H by (rewrite Z.ones_equiv; lia).
  rewrite Z.land_spec, Z.ones_spec_low, andb_true_r, Z.testbit_0_l in H by lia; done.
Qed.

Lemma ffs_step (w s : Z) (st : Z * Z) :
  0 < s -> ffs_inv w (2 * s) st -> ffs_inv w s (ffs_halve s st).
Proof.
  destruct st as [num word]; intros Hs (Hn & -> & Hlow & Hnz); cbn [ffs_halve].
  destruct (Z.eqb_spec (Z.land (Z.shiftr w num) (2 ^ s - 1)) 0) as [E|E].
  2: { by repeat split. }
  split; [lia|]; split; [rewrite Z.shiftr_shiftr by lia; done|]; split.
  - intros i Hi; destruct (Z.ltb_spec i num); [apply Hlow; lia|].
    pose proof (land_low_zero _ s (i - num) ltac:(lia) E ltac:(lia)) as K.
    rewrite Z.shiftr_spec in K by lia; by replace (i - num + num) with i in K by lia.
  - intros E2; apply Hnz; apply Z.bits_inj'; intros i Hi; rewrite Z.land_spec, Z.testbit_0_l.
    replace (2 ^ (2 * s) - 1) with (Z.ones (2 * s)) by (rewrite Z.ones_equiv; lia).
    destruct (Z.ltb_spec i s).
    { rewrite (land_low_zero _ s i) by (done || lia); done. }
    destruct (Z.ltb_spec i (2 * s)); [|rewrite Z.ones_spec_high by lia; apply andb_false_r].
    pose proof (land_low_zero _ s (i - s) ltac:(lia) E2 ltac:(lia)) as H1.
    rewrite Z.shiftr_spec in H1 by lia; replace (i - s + s) with i in H1 by lia; by rewrite H1.
Qed.

Lemma ffs_spec (w : Z) :
  0 < w < 2 ^ 32 ->
  0 <= ffs w /\ Z.testbit w (ffs w) = true /\ forall i, 0 <= i < ffs w -> Z.testbit w i = false.
Proof.
  intros Hw; unfold ffs.
  assert (ffs_inv w 32 (0, w)) as H0.
  { repeat split; [lia|lia|].
    replace (2 ^ 32 - 1) with (Z.ones 32) by (rewrite Z.ones_equiv; lia).
    rewrite Z.land_ones, Z.mod_small; lia. }
  pose proof (ffs_step w 2 _ ltac:(lia) (ffs_step w 4 _ ltac:(lia) (ffs_step w 8 _ ltac:(lia)
    (ffs_step w 16 _ ltac:(lia) H0)))) as H2.
  destruct (ffs_halve 2 _) as [num word]; destruct H2 as (Hn & -> & Hlow & Hnz).
  assert (Z.testbit w num = false -> Z.testbit w (num + 1) = true) as Hbit.
  { intros Hb; destruct (Z.testbit w (num + 1)) eqn:E; [done|exfalso; apply Hnz].
    apply Z.bits_inj'; intros i Hi; rewrite Z.land_spec, Z.shiftr_spec, Z.testbit_0_l by lia.
    change (2 ^ 2 - 1) with (Z.ones 2).
    destruct (Z.ltb_spec i 2); [|rewrite Z.ones_spec_high by lia; apply andb_false_r].
    destruct (Z.eq_dec i 0) as [->|]; [rewrite Z.add_0_l, Hb; done|].
    replace i with 1 by lia; by rewrite Z.add_comm, E. }
  assert (Z.land (Z.shiftr w num) 1 = if Z.testbit w num then 1 else 0) as ->.
  { change 1 with (Z.ones 1) at 1; rewrite Z.land_ones by lia; change (2 ^ 1) with 2.
    rewrite Zmod_odd, <- Z.bit0_odd, Z.shiftr_spec, Z.add_0_l by lia; done. }
  destruct (Z.testbit w num) eqn:E; cbn [Z.eqb]; [done|].
  repeat split; [lia|by apply Hbit|]; intros i Hi.
  destruct (Z.eq_dec i num) as [->|]; [done|apply Hlow; lia].
Qed.

Lemma u32_lnot (x : Z) : 0 <= x < 2 ^ 32 -> u32 (Z.lnot x) = 2 ^ 32 - 1 - x.
Proof.
  intros; unfold u32, Z.lnot; replace (Z.pred (- x)) with (2 ^ 32 - 1 - x + (-1) * 2 ^ 32) by lia.
  rewrite Z.mod_add, Z.mod_small by lia; done.
Qed.

Lemma ffz_spec (x : Z) :
  0 <= x < 2 ^ 32 - 1 ->
  0 <= ffz x < 32 /\ Z.testbit x (ffz x) = false
  /\ forall i, 0 <= i < ffz x -> Z.testbit x i = true.
Proof.
  intros Hx; unfold ffz.
  assert (0 < u32 (Z.lnot x) < 2 ^ 32) as Hr by (rewrite u32_lnot; lia).
  destruct (ffs_spec _ Hr) as (H0 & H1 & H2).
  assert (forall i, 0 <= i < 32 -> Z.testbit (u32 (Z.lnot x)) i = negb (Z.testbit x i)) as Hn.
  { intros i Hi; unfold u32; rewrite Z.mod_pow2_bits_low, Z.lnot_spec by lia; done. }
  assert (ffs (u32 (Z.lnot x)) < 32) as Hlt.
  { destruct (Z.ltb_spec (ffs (u32 (Z.lnot x))) 32); [done|].
    rewrite (testbit_high _ 32) in H1 by lia; done. }
  rewrite Hn in H1 by lia; apply negb_true_iff in H1.
  repeat split; [lia|lia|done|]; intros i Hi.
  specialize (H2 i Hi); rewrite Hn in H2 by lia; by apply negb_false_iff in H2.
Qed.

(** First clear bit of the map below [size], as a predicate. *)
Definition first_zero (m : list Z) (size r : Z) : Prop :=
  0 <= r <= size /\ (forall i, 0 <= i < r -> bit m i = true) /\ (r < size -> bit m r = false).

Lemma ffzb_loop_run (n : nat) (m : list Z) (p total : Z) :
  Forall is_byte m -> 0 <= p -> total <= 8 * lenZ m -> 8 * p <= total ->
  Z.of_nat n = (total - 8 * p) / 32 -> (forall i, 0 <= i < 8 * p -> bit m i = true) ->
  (exists f, ffzb_loop n m p (8 * p) (total - 8 * p) = Ok (inl f) /\ first_zero m total f)
  \/ (exists q, ffzb_loop n m p (8 * p) (total - 8 * p) = Ok (inr (q, 8 * q, total - 8 * q))
        /\ p <= q /\ 0 <= total - 8 * q < 32 /\ q mod 4 = p mod 4
        /\ forall i, 0 <= i < 8 * q -> bit m i = true).
Proof.
  intros Hm; revert p; induction n as [|n IH]; intros p Hp Ht Hle Hn Hbits.
  { right; exists p; repeat split; try done; try lia.
    pose proof (Z.div_mod (total - 8 * p) 32); pose proof (Z.mod_pos_bound (total - 8 * p) 32); lia. }
  pose proof (Z.div_mod (total - 8 * p) 32); pose proof (Z.mod_pos_bound (total - 8 * p) 32).
  cbn [ffzb_loop].
  assert (Z.land (total - 8 * p) (Z.lnot 31) <> 0) as Hnz.
  { change 31 with (Z.ones 5); rewrite <- Z.ldiff_land, Z.ldiff_ones_r, Z.shiftr_div_pow2,
      Z.shiftl_mul_pow2 by lia; change (2 ^ 5) with 32; lia. }
  apply Z.eqb_neq in Hnz; rewrite Hnz.
  destruct (load_u32_run m p Hm Hp) as (w & Hw & Hrng & Htb); [lia|].
  rewrite Hw; cbn [mbind run_bind]; rewrite u32_lnot by lia.
  destruct (Z.eqb_spec (2 ^ 32 - 1 - w) 0) as [E|E].
  - replace (8 * p + 32) with (8 * (p + 4)) by lia.
    replace (total - 8 * p - 32) with (total - 8 * (p + 4)) by lia.
    destruct (IH (p + 4)) as [H1|(q & H1 & H2 & H3 & H4 & H5)]; try lia.
    + replace (total - 8 * (p + 4)) with (total - 8 * p + (-1) * 32) by lia.
      rewrite Z.div_add by lia; lia.
    + intros i Hi; destruct (Z.ltb_spec i (8 * p)); [apply Hbits; lia|].
      replace i with (8 * p + (i - 8 * p)) by lia; rewrite <- Htb by lia.
      replace w with (Z.ones 32) by (rewrite Z.ones_equiv; lia); apply Z.ones_spec_low; lia.
    + by left.
    + right; exists q; repeat split; try done; try lia.
      rewrite H4; rewrite <- (Z.mod_add p 1 4) by lia; done.
  - destruct (ffz_spec w) as (F1 & F2 & F3); [lia|].
    left; eexists; split; [done|]; repeat split; try lia.
    + intros i Hi; destruct (Z.ltb_spec i (8 * p)); [apply Hbits; lia|].
      replace i with (8 * p + (i - 8 * p)) by lia; rewrite <- Htb by lia; apply F3; lia.
    + intros _; rewrite <- Htb by lia; done.
Qed.

Lemma find_first_zero_bit_run (m : list Z) (size : Z) :
  Forall is_byte m -> 0 <= size -> (size + 31) / 32 * 4 <= lenZ m ->
  exists r, find_first_zero_bit m size = Ok r /\ first_zero m size r.
Proof.
  intros Hm Hs Hl; unfold find_first_zero_bit.
  pose proof (Z.div_mod (size + 31) 32); pose proof (Z.mod_pos_bound (size + 31) 32).
  destruct (ffzb_loop_run (Z.to_nat (size / 32)) m 0 size) as [(f & Hf & H1)|(q & Hq & H1 & H2 & H3 & H4)];
    try done; try lia.
  { rewrite Z2Nat.id by (apply Z.div_pos; lia); f_equal; lia. }
  { rewrite Z.mul_0_r, Z.sub_0_r in Hf; rewrite Hf; cbn [mbind run_bind]; eauto. }
  rewrite Z.mul_0_r, Z.sub_0_r in Hq; rewrite Hq; cbn [mbind run_bind].
  destruct (Z.eqb_spec (size - 8 * q) 0) as [E|E].
  { exists (8 * q); split; [done|]; repeat split; try lia; auto. }
  assert (q + 4 <= lenZ m) as Hq4.
  { change (0 mod 4) with 0 in H3; pose proof (Z.div_mod q 4); lia. }
  destruct (load_u32_run m q Hm) as (w & Hw & Hrng & Htb); [lia|lia|].
  rewrite Hw; cbn [mbind run_bind].
  set (s := size - 8 * q) in *.
  assert (u32 (Z.lnot 0) = Z.ones 32) as -> by done.
  set (tmp := Z.lor w _).
  assert (forall i, 0 <= i -> Z.testbit tmp i = (Z.testbit w i || ((s <=? i) && (i <? 32)))) as Htmp.
  { intros i Hi; unfold tmp, u32; rewrite Z.lor_spec; f_equal.
    destruct (Z.ltb_spec i 32); [|rewrite Z.mod_pow2_bits_high by lia; by rewrite andb_false_r].
    rewrite Z.mod_pow2_bits_low, Z.shiftl_spec, andb_true_r by lia.
    destruct (Z.leb_spec s i); [apply Z.ones_spec_low; lia|apply Z.testbit_neg_r; lia]. }
  assert (0 <= tmp < 2 ^ 32) as Ht32.
  { split; [apply Z.lor_nonneg; split; [lia|apply Z.mod_pos_bound; lia]|].
    destruct (Z.ltb_spec tmp (2 ^ 32)) as [|Hge]; [done|exfalso].
    assert (0 < tmp) by lia; pose proof (Z.bit_log2 tmp ltac:(lia)) as Hb.
    assert (32 <= Z.log2 tmp) by (apply Z.log2_le_pow2; lia).
    rewrite Htmp, (testbit_high w 32) in Hb by lia.
    destruct (Z.ltb_spec (Z.log2 tmp) 32); [lia|]; by rewrite andb_false_r in Hb. }
  destruct (Z.eqb_spec tmp (Z.ones 32)) as [E1|E1].
  - exists (8 * q + s); split; [done|]; repeat split; try (unfold s; lia).
    intros i Hi; destruct (Z.ltb_spec i (8 * q)); [apply H4; lia|].
    replace i with (8 * q + (i - 8 * q)) by lia; rewrite <- Htb by (unfold s in *; lia).
    pose proof (Htmp (i - 8 * q) ltac:(lia)) as K; rewrite E1, Z.ones_spec_low in K by (unfold s in *; lia).
    destruct (Z.leb_spec s (i - 8 * q)); [lia|]; by rewrite orb_false_r in K.
  - assert (tmp <> 2 ^ 32 - 1) by (rewrite Z.ones_equiv in E1; lia).
    destruct (ffz_spec tmp) as (F1 & F2 & F3); [lia|].
    rewrite Htmp in F2 by lia; apply orb_false_iff in F2 as [F2 F2'].
    assert (ffz tmp < s) as Hlt.
    { destruct (Z.leb_spec s (ffz tmp)), (Z.ltb_spec (ffz tmp) 32); try done; lia. }
    exists (8 * q + ffz tmp); split; [done|]; repeat split; try (unfold s in *; lia).
    + intros i Hi; destruct (Z.ltb_spec i (8 * q)); [apply H4; lia|].
      replace i with (8 * q + (i - 8 * q)) by lia; rewrite <- Htb by lia.
      specialize (F3 (i - 8 * q) ltac:(lia)); rewrite Htmp in F3 by lia.
      destruct (Z.leb_spec s (i - 8 * q)); [lia|]; by rewrite orb_false_r in F3.
    + intros _; rewrite <- Htb by lia; done.
Qed.

(** ** Properties *)

(** setting a range of a signed bitmap that fits in it succeeds, sets the
    bits of the range and leaves every other bit of the buffer, the magic and
    checksum bytes of each block included, as it was. *)
Theorem util_sign_set_bits_correct (m : list Z) (bs ml cs nb addr count : Z) :
  geometry m bs ml cs nb -> 0 <= addr -> 0 <= count < 2 ^ 32 ->
  addr + count <= nb * datablock_size bs ml cs ->
  exists m', util_sign_set_bits m (lenZ m) addr count bs ml cs = Ok (m', 0)
    /\ lenZ m' = lenZ m
    /\ (forall k, addr <= k < addr + count -> bit m' (phys bs ml cs k) = true)
    /\ (forall j, (forall k, addr <= k < addr + count -> j <> phys bs ml cs k) -> bit m' j = bit m j).
Proof.
  intros G Ha Hc Hr; unfold util_sign_set_bits.
  rewrite (sign_bits_run util_set_bits true bs ml cs nb) by done.
  pose proof (map_phys_range m bs ml cs nb addr count G Ha Hr) as Hin.
  eexists; split; [done|]; split; [apply lenZ_put_bits|]; split.
  - intros k Hk; rewrite bit_put_bits, decide_True by (done || apply elem_of_map_phys; eauto); done.
  - intros j Hj; rewrite bit_put_bits, decide_False by (done || rewrite elem_of_map_phys; naive_solver); done.
Qed.

Lemma geometry_witness : geometry (replicate 40 0) 20 12 4 2.
Proof. split; try lia; reflexivity. Defined.

Lemma util_sign_set_bits_correct_witness :
  exists m', util_sign_set_bits (replicate 40 0) 40 30 4 20 12 4 = Ok (m', 0)
    /\ forall k, 30 <= k < 34 -> bit m' (phys 20 12 4 k) = true.
Proof.
  destruct (util_sign_set_bits_correct (replicate 40 0) 20 12 4 2 30 4 geometry_witness)
    as (m' & H1 & H2 & H3 & H4).
  - lia.
  - lia.
  - vm_compute; discriminate.
  - exists m'; split; [exact H1|exact H3].
Defined.

(** clearing a range of a signed bitmap that fits in it succeeds, clears the
    bits of the range and leaves every other bit of the buffer as it was; a bit
    of the range then tests as 0. *)
Theorem util_sign_clear_bits_correct (m : list Z) (bs ml cs nb addr count : Z) :
  geometry m bs ml cs nb -> Forall is_byte m -> 0 <= addr -> 0 <= count < 2 ^ 32 ->
  addr + count <= nb * datablock_size bs ml cs ->
  exists m', util_sign_clear_bits m (lenZ m) addr count bs ml cs = Ok (m', 0)
    /\ (forall k, addr <= k < addr + count ->
          util_sign_test_bit m' (lenZ m') k bs ml cs = Ok 0)
    /\ (forall j, (forall k, addr <= k < addr + count -> j <> phys bs ml cs k) -> bit m' j = bit m j).
Proof.
  intros G Hm Ha Hc Hr; unfold util_sign_clear_bits.
  rewrite (sign_bits_run util_clear_bits false bs ml cs nb) by done.
  pose proof (map_phys_range m bs ml cs nb addr count G Ha Hr) as Hin.
  set (m' := put_bits _ _ _).
  assert (geometry m' bs ml cs nb) as G' by (by apply geometry_put_bits).
  assert (Forall is_byte m') as Hm' by (by apply put_bits_bytes).
  exists m'; split; [done|]; split.
  - intros k Hk.
    assert (bit m' (phys bs ml cs k) = false) as Hb
      by (unfold m'; rewrite bit_put_bits, decide_True by (done || apply elem_of_map_phys; eauto); done).
    pose proof (phys_range m' bs ml cs nb G' k ltac:(lia)) as Hp.
    pose proof (D_pos m' bs ml cs nb G') as HD; pose proof (D_eq bs ml cs).
    pose proof (Z.mod_pos_bound k _ HD) as Hmod.
    assert (0 <= k / datablock_size bs ml cs < nb) as Hq
      by (split; [apply Z.div_pos|apply Z.div_lt_upper_bound]; lia).
    pose proof G' as [G1 G2 G3 G4 G5 G6 G7].
    unfold util_sign_test_bit; rewrite (block_of_addr m' bs ml cs nb G') by lia.
    destruct (Z.ltb_spec (lenZ m' - cs)
      (k / datablock_size bs ml cs * bs + ml + Z.shiftr (k mod datablock_size bs ml cs) 3)) as [Hlt|_].
    { exfalso; rewrite Z.shiftr_div_pow2 in Hlt by lia.
      assert (k mod datablock_size bs ml cs / 2 ^ 3 < bs - ml - cs)
        by (apply Z.div_lt_upper_bound; lia); nia. }
    unfold util_test_bit.
    destruct (byte_index (k / datablock_size bs ml cs * bs + ml) (k mod datablock_size bs ml cs))
      as [-> ->]; [lia|].
    change (8 * (k / datablock_size bs ml cs * bs + ml) + k mod datablock_size bs ml cs)
      with (phys bs ml cs k).
    rewrite rd_ok by (by apply div8_range); cbn [mbind run_bind]; f_equal.
    unfold bit in Hb; destruct (getZ_is_Some m' _ (div8_range _ _ Hp)) as [x Hx].
    rewrite Hx in *; change (default 0 (Some x)) with x; pose proof (Z.mod_pos_bound (phys bs ml cs k) 8).
    apply Z.bits_inj'; intros i Hi; rewrite Z.land_spec, Z.shiftl_1_l, Z.testbit_0_l.
    destruct (Z.eq_dec i (phys bs ml cs k mod 8)) as [->|];
      [by rewrite Hb|rewrite Z.pow2_bits_false by lia; apply andb_false_r].
  - intros j Hj; unfold m'; rewrite bit_put_bits, decide_False by (done || rewrite elem_of_map_phys; naive_solver); done.
Qed.

Lemma util_sign_clear_bits_correct_witness :
  exists m', util_sign_clear_bits (replicate 40 255) 40 30 4 20 12 4 = Ok (m', 0)
    /\ forall k, 30 <= k < 34 -> util_sign_test_bit m' (lenZ m') k 20 12 4 = Ok 0.
Proof.
  destruct (util_sign_clear_bits_correct (replicate 40 255) 20 12 4 2 30 4)
    as (m' & H1 & H2 & H3).
  - split; try lia; reflexivity.
  - vm_compute; repeat constructor; discriminate.
  - lia.
  - lia.
  - vm_compute; discriminate.
  - exists m'; split; [exact H1|exact H2].
Defined.

(** [vdfs4_set_bits] on a range inside the bitmap returns 0 exactly when
    every bit of the range was clear, and then sets those bits and no other bit
    of the buffer; otherwise it returns -EFAULT and still changes no bit outside
    the range. *)
Theorem vdfs4_set_bits_correct (m : list Z) (bs ml nb offset count : Z) :
  geometry m bs ml CRC_SIZE nb -> 0 <= offset -> 0 < count < 2 ^ 32 ->
  offset + count <= nb * datablock_size bs ml CRC_SIZE -> offset + count <= 2 ^ 32 ->
  exists m' r, vdfs4_set_bits m offset count ml bs = Ok (m', r)
    /\ (r = 0 \/ r = - EFAULT)
    /\ (r = 0 <-> forall k, offset <= k < offset + count -> bit m (phys bs ml CRC_SIZE k) = false)
    /\ (r = 0 -> forall k, offset <= k < offset + count -> bit m' (phys bs ml CRC_SIZE k) = true)
    /\ (forall j, (forall k, offset <= k < offset + count -> j <> phys bs ml CRC_SIZE k) ->
          bit m' j = bit m j).
Proof.
  intros G Ho Hc Hr Hw; rewrite (vdfs4_set_bits_run m bs ml nb) by done.
  pose proof (map_phys_range m bs ml CRC_SIZE nb offset count G Ho Hr) as Hin.
  destruct (set_until_spec _ m (map_phys_NoDup m bs ml CRC_SIZE nb offset count G) Hin)
    as (m' & r & -> & H1 & H2 & H3).
  exists m', r; split; [done|]; rewrite <- (Forall_map_phys (fun j => bit m j = false)).
  destruct (decide (Forall (fun j => bit m j = false)
    (map (phys bs ml CRC_SIZE) (seqZ offset count)))) as [Hf|Hf].
  - destruct (H1 Hf) as [-> ->]; split; [by left|]; split; [done|]; split.
    + intros _ k Hk.
      rewrite bit_put_bits, decide_True by (done || apply elem_of_map_phys; eauto); done.
    + intros j Hj; apply H3; rewrite elem_of_map_phys; naive_solver.
  - specialize (H2 Hf); subst r; split; [by right|]; split; [done|]; split; [done|].
    intros j Hj; apply H3; rewrite elem_of_map_phys; naive_solver.
Qed.

Lemma vdfs4_set_bits_correct_witness :
  exists m' r, vdfs4_set_bits (replicate 40 0) 30 4 12 20 = Ok (m', r)
    /\ (r = 0 -> forall k, 30 <= k < 34 -> bit m' (phys 20 12 CRC_SIZE k) = true).
Proof.
  destruct (vdfs4_set_bits_correct (replicate 40 0) 20 12 2 30 4 geometry_witness)
    as (m' & r & H1 & H2 & H3 & H4 & H5).
  - lia.
  - lia.
  - vm_compute; discriminate.
  - lia.
  - exists m', r; split; [exact H1|exact H4].
Defined.

(** [vdfs4_clear_bits] on a range inside the bitmap always clears the whole
    range and no other bit, and reports -EFAULT exactly when some bit of the
    range was already clear. *)
Theorem vdfs4_clear_bits_correct (m : list Z) (bs ml nb offset count : Z) :
  geometry m bs ml CRC_SIZE nb -> 0 <= offset -> 0 < count < 2 ^ 32 ->
  offset + count <= nb * datablock_size bs ml CRC_SIZE -> offset + count <= 2 ^ 32 ->
  exists m' r, vdfs4_clear_bits m offset count ml bs = Ok (m', r)
    /\ (r = 0 \/ r = - EFAULT)
    /\ (r = 0 <-> forall k, offset <= k < offset + count -> bit m (phys bs ml CRC_SIZE k) = true)
    /\ (forall k, offset <= k < offset + count -> bit m' (phys bs ml CRC_SIZE k) = false)
    /\ (forall j, (forall k, offset <= k < offset + count -> j <> phys bs ml CRC_SIZE k) ->
          bit m' j = bit m j).
Proof.
  intros G Ho Hc Hr Hw; rewrite (vdfs4_clear_bits_run m bs ml nb) by done.
  pose proof (map_phys_range m bs ml CRC_SIZE nb offset count G Ho Hr) as Hin.
  rewrite clear_all_spec by (done || by eapply map_phys_NoDup).
  eexists _, _; split; [done|]; rewrite <- (Forall_map_phys (fun j => bit m j = true)).
  split; [destruct (decide _); auto|]; split; [destruct (decide _); done|]; split.
  - intros k Hk; rewrite bit_put_bits, decide_True by (done || apply elem_of_map_phys; eauto); done.
  - intros j Hj; rewrite bit_put_bits, decide_False by (done || rewrite elem_of_map_phys; naive_solver); done.
Qed.

Lemma vdfs4_clear_bits_correct_witness :
  exists m' r, vdfs4_clear_bits (replicate 40 0) 30 4 12 20 = Ok (m', r) /\ (r = 0 \/ r = - EFAULT).
Proof.
  destruct (vdfs4_clear_bits_correct (replicate 40 0) 20 12 2 30 4 geometry_witness)
    as (m' & r & H1 & H2 & _).
  - lia.
  - lia.
  - vm_compute; discriminate.
  - lia.
  - exists m', r; split; [exact H1|exact H2].
Defined.

(** freeing what was just allocated restores the bitmap byte for byte: when
    [vdfs4_set_bits] succeeds on a range, [vdfs4_clear_bits] on the same range
    succeeds and gives back the original buffer. *)
Theorem set_clear_roundtrip (m m' : list Z) (bs ml nb offset count : Z) :
  geometry m bs ml CRC_SIZE nb -> Forall is_byte m -> 0 <= offset -> 0 < count < 2 ^ 32 ->
  offset + count <= nb * datablock_size bs ml CRC_SIZE -> offset + count <= 2 ^ 32 ->
  vdfs4_set_bits m offset count ml bs = Ok (m', 0) ->
  vdfs4_clear_bits m' offset count ml bs = Ok (m, 0).
Proof.
  intros G Hm Ho Hc Hr Hw Hset; rewrite (vdfs4_set_bits_run m bs ml nb) in Hset by done.
  pose proof (map_phys_range m bs ml CRC_SIZE nb offset count G Ho Hr) as Hin.
  pose proof (map_phys_NoDup m bs ml CRC_SIZE nb offset count G) as Hnd.
  destruct (set_until_spec _ m Hnd Hin) as (m2 & r & E & H1 & H2 & H3).
  rewrite E in Hset; simplify_eq.
  set (js := map _ _) in *.
  destruct (decide (Forall (fun j => bit m j = false) js)) as [Hf|Hf]; [|by specialize (H2 Hf)].
  destruct (H1 Hf) as [_ ->].
  assert (geometry (put_bits m js true) bs ml CRC_SIZE nb) as G' by (by apply geometry_put_bits).
  rewrite (vdfs4_clear_bits_run _ bs ml nb) by done; fold js.
  assert (Forall (in_range (put_bits m js true)) js) as Hin'
    by (eapply Forall_impl; [exact Hin|]; unfold in_range; intros; by rewrite lenZ_put_bits).
  rewrite clear_all_spec by done; rewrite decide_True.
  - do 2 f_equal; apply bit_ext; rewrite ?lenZ_put_bits; auto using put_bits_bytes.
    intros j Hj; rewrite !bit_put_bits by done.
    destruct (decide (j ∈ js)); [|done]; rewrite Forall_forall in Hf; symmetry; auto.
  - rewrite Forall_forall; intros j Hj; rewrite bit_put_bits, decide_True by done; done.
Qed.

Lemma set_clear_roundtrip_witness :
  exists m', vdfs4_set_bits (replicate 40 0) 30 4 12 20 = Ok (m', 0)
    /\ vdfs4_clear_bits m' 30 4 12 20 = Ok (replicate 40 0, 0).
Proof.
  eexists; split; [vm_compute; reflexivity|].
  apply (set_clear_roundtrip _ _ 20 12 2); try lia.
  - exact geometry_witness.
  - vm_compute; repeat constructor; discriminate.
  - vm_compute; discriminate.
  - vm_compute; reflexivity.
Defined.

(** [find_first_zero_bit] returns the index of the first clear bit below
    [size], and [size] when there is none; it never reads past the 32-bit words
    that hold the first [size] bits. *)
Theorem find_first_zero_bit_correct (m : list Z) (size : Z) :
  Forall is_byte m -> 0 <= size -> (size + 31) / 32 * 4 <= lenZ m ->
  exists r, find_first_zero_bit m size = Ok r /\ first_zero m size r.
Proof. apply find_first_zero_bit_run. Qed.

Lemma find_first_zero_bit_correct_witness :
  exists r, find_first_zero_bit [255; 255; 255; 255; 127; 0; 0; 0] 45 = Ok r
    /\ first_zero [255; 255; 255; 255; 127; 0; 0; 0] 45 r.
Proof.
  apply find_first_zero_bit_correct.
  - repeat constructor; unfold is_byte; lia.
  - lia.
  - vm_compute; discriminate.
Defined.
