(* ===== verification/Count.v ===== *)
(** Counting the members of a range of numbers: used blocks of an erase block,
    free blocks of the volume, free node ids of a tree. *)

From Stdlib Require Import ZArith Lia Bool List.
From stdpp Require Import base list.
From S2P Require Import Prelude Bitmap.

Open Scope Z_scope.

(** Number of members of the set [U] in [lo, lo+n). *)
Definition count (U : Z -> bool) (lo n : Z) : Z :=
  Z.of_nat (length (filter (fun x => U x = true) (seqZ lo n))).

(** A set with a run of numbers put in or taken out. *)
Definition upd (U : Z -> bool) (b n : Z) (v : bool) : Z -> bool :=
  fun x => if (b <=? x) && (x <? b + n) then v else U x.

Lemma count_ext (U V : Z -> bool) (lo n : Z) :
  (forall x, lo <= x < lo + n -> U x = V x) -> count U lo n = count V lo n.
Proof.
  intros HUV; unfold count; f_equal; f_equal.
  assert (Forall (fun x => U x = V x) (seqZ lo n)) as HF.
  { apply Forall_forall; intros x Hx; apply elem_of_seqZ in Hx; auto. }
  induction HF as [|x l Hx HF IH]; [done|]; rewrite !filter_cons, Hx, IH; done.
Qed.

Lemma count_split (U : Z -> bool) (lo a b : Z) :
  0 <= a -> 0 <= b -> count U lo (a + b) = count U lo a + count U (lo + a) b.
Proof.
  intros; unfold count; rewrite seqZ_split, filter_app, length_app by done; lia.
Qed.

Lemma count_one (U : Z -> bool) (x : Z) : count U x 1 = if U x then 1 else 0.
Proof. unfold count; change (seqZ x 1) with [x]; rewrite filter_cons, filter_nil; by destruct (U x). Qed.

Lemma count_range (U : Z -> bool) (lo n : Z) : 0 <= n -> 0 <= count U lo n <= n.
Proof.
  intros; unfold count; pose proof (length_filter (fun x => U x = true) (seqZ lo n)) as Hl.
  rewrite length_seqZ in Hl; lia.
Qed.

Lemma count_all (U : Z -> bool) (lo n : Z) (v : bool) :
  0 <= n -> (forall x, lo <= x < lo + n -> U x = v) -> count U lo n = if v then n else 0.
Proof.
  intros Hn HU; rewrite (count_ext U (fun _ => v)) by done; clear HU.
  replace n with (Z.of_nat (Z.to_nat n)) by lia; generalize (Z.to_nat n) as k; intros k; clear Hn; revert lo.
  induction k as [|k IH]; intros lo; [by destruct v|].
  replace (Z.of_nat (S k)) with (1 + Z.of_nat k) by lia.
  rewrite count_split, count_one, IH by lia; destruct v; lia.
Qed.

(** Putting one number in or out changes the count of its part by one. *)
Lemma count_upd (U : Z -> bool) (lo n b : Z) (v : bool) :
  0 <= n -> U b = negb v ->
  count (upd U b 1 v) lo n
  = count U lo n + (if (lo <=? b) && (b <? lo + n) then (if v then 1 else -1) else 0).
Proof.
  intros Hn Hb; destruct ((lo <=? b) && (b <? lo + n)) eqn:E; bools.
  - replace n with ((b - lo) + (1 + (n - 1 - (b - lo)))) by lia.
    rewrite !count_split by lia; replace (lo + (b - lo)) with b by lia; rewrite !count_one.
    rewrite (count_ext (upd U b 1 v) U lo), (count_ext (upd U b 1 v) U (b + 1)).
    + unfold upd at 1; rewrite (proj2 (Z.leb_le b b)), (proj2 (Z.ltb_lt b (b + 1))) by lia.
      cbn [andb]; rewrite Hb; destruct v; cbn; lia.
    + intros x Hx; unfold upd; destruct (Z.leb_spec b x), (Z.ltb_spec x (b + 1)); cbn; auto; lia.
    + intros x Hx; unfold upd; destruct (Z.leb_spec b x), (Z.ltb_spec x (b + 1)); cbn; auto; lia.
  - rewrite Z.add_0_r; apply count_ext; intros x Hx; unfold upd.
    apply andb_false_iff in E; rewrite Z.leb_gt, Z.ltb_ge in E.
    destruct (Z.leb_spec b x), (Z.ltb_spec x (b + 1)); cbn; auto; lia.
Qed.

Lemma upd_step (U : Z -> bool) (b n : Z) (v : bool) (x : Z) :
  0 <= n -> upd (upd U b 1 v) (b + 1) n v x = upd U b (n + 1) v x.
Proof.
  intros Hn; unfold upd.
  destruct (Z.leb_spec (b + 1) x), (Z.ltb_spec x (b + 1 + n)), (Z.leb_spec b x),
    (Z.ltb_spec x (b + 1)), (Z.ltb_spec x (b + (n + 1))); cbn; auto; lia.
Qed.
