(* ===== verification/FindBit.v ===== *)
(** The kernel's search for a set or a clear bit of a bitmap, as an interface: the
    free-space manager and the node bitmaps of the trees rely on the documented
    results only. *)

From Stdlib Require Import ZArith Lia Bool List.
From stdpp Require Import base list.
From S2P Require Import Prelude Bitmap.

Open Scope Z_scope.

Class FindBit : Type := {
  find_next_zero_bit : list Z -> Z -> Z -> Z;
  find_next_bit : list Z -> Z -> Z -> Z
}.

(** Documented result: the first bit with the value asked for at or after the
    offset and below the size, or the size. *)
Definition first_from (v : bool) (m : list Z) (size off r : Z) : Prop :=
  off <= r <= size /\ (forall i, off <= i < r -> bit m i = negb v) /\ (r < size -> bit m r = v).

Class FindBitLaws `{FindBit} : Prop := {
  find_next_zero_bit_spec (m : list Z) (size off : Z) :
    0 <= off <= size -> size <= 8 * lenZ m -> first_from false m size off (find_next_zero_bit m size off);
  find_next_bit_spec (m : list Z) (size off : Z) :
    0 <= off <= size -> size <= 8 * lenZ m -> first_from true m size off (find_next_bit m size off)
}.

(** ** A reference instance of the bit search *)

Module PlainFind.

Fixpoint scan (v : bool) (m : list Z) (n : nat) (off : Z) : Z :=
  match n with
  | O => off
  | S n => if Bool.eqb (bit m off) v then off else scan v m n (off + 1)
  end.

#[export] Instance plain_find : FindBit := {
  find_next_zero_bit := fun m size off => scan false m (Z.to_nat (size - off)) off;
  find_next_bit := fun m size off => scan true m (Z.to_nat (size - off)) off
}.

Lemma scan_spec (v : bool) (m : list Z) (n : nat) (off : Z) :
  first_from v m (off + Z.of_nat n) off (scan v m n off).
Proof.
  revert off; induction n as [|n IH]; intros off; cbn [scan].
  { split; [lia|]; split; intros; lia. }
  destruct (Bool.eqb_spec (bit m off) v) as [E|E].
  { split; [lia|]; split; [intros; lia|done]. }
  destruct (IH (off + 1)) as (I1 & I2 & I3); split; [lia|]; split.
  - intros i Hi; destruct (decide (i = off)) as [->|]; [by destruct (bit m off), v|apply I2; lia].
  - intros Hlt; apply I3; lia.
Qed.

#[export] Instance plain_find_laws : FindBitLaws.
Proof.
  split; intros m size off Ho _; cbn.
  - pose proof (scan_spec false m (Z.to_nat (size - off)) off) as Hs.
    replace (off + Z.of_nat (Z.to_nat (size - off))) with size in Hs by lia; done.
  - pose proof (scan_spec true m (Z.to_nat (size - off)) off) as Hs.
    replace (off + Z.of_nat (Z.to_nat (size - off))) with size in Hs by lia; done.
Qed.

End PlainFind.
