(* ===== verification/TreeKeys.v ===== *)
(** The key comparisons of the driver's three B-trees
    (vdfs4_cattree_cmpfn in cattree.c, vdfs4_exttree_cmpfn in extents.c and
    vdfs4_xattrtree_cmpfn in xattr.c, under src/linux/fs/vdfs4/), behind the
    interface [KeyCmp] that the B-tree relies on: each of them compares keys by the
    lexicographic order of a list of numbers.

    Keys are the bytes from the key to the end of the buffer that holds it; a key
    that is complete in its buffer satisfies the [valid] predicate of its tree. *)

From Stdlib Require Import ZArith Lia Bool List.
From stdpp Require Import base list.
From S2P Require Import Prelude Bytes Buffer.

Open Scope Z_scope.

(** ** Lexicographic order *)

Fixpoint lex (a b : list Z) : comparison :=
  match a, b with
  | [], [] => Eq
  | [], _ => Lt
  | _, [] => Gt
  | x :: a, y :: b => match x ?= y with Eq => lex a b | c => c end
  end.

Definition sign_of (c : comparison) : Z := match c with Lt => -1 | Eq => 0 | Gt => 1 end.

Lemma lex_refl (a : list Z) : lex a a = Eq.
Proof. induction a as [|x a IH]; cbn; [done|]; by rewrite Z.compare_refl. Qed.

Lemma lex_eq (a b : list Z) : lex a b = Eq -> a = b.
Proof.
  revert b; induction a as [|x a IH]; intros [|y b]; cbn; try done.
  destruct (Z.compare_spec x y) as [->| |]; try done; intros E; by rewrite (IH b E).
Qed.

Lemma lex_opp (a b : list Z) : lex b a = CompOpp (lex a b).
Proof.
  revert b; induction a as [|x a IH]; intros [|y b]; cbn; try done.
  rewrite Z.compare_antisym; destruct (x ?= y); cbn; auto.
Qed.

Lemma lex_trans (a b c : list Z) : lex a b = Lt -> lex b c <> Gt -> lex a c = Lt.
Proof.
  revert b c; induction a as [|x a IH]; intros [|y b] [|z c]; cbn; try done.
  destruct (Z.compare_spec x y) as [->|Hxy|]; try done.
  - intros Hab; destruct (y ?= z); try done; by apply IH.
  - intros _; destruct (Z.compare_spec y z) as [->|Hyz|]; try done; intros _.
    + by rewrite (proj2 (Z.compare_lt_iff x z)).
    + rewrite (proj2 (Z.compare_lt_iff x z)) by lia; done.
Qed.

(** ** The interface *)

(** [cmp] orders the complete keys like the lists [key_view], and reads nothing
    behind a complete key. A complete key takes up [key_size] bytes, and what it
    is depends on those behind struct vdfs4_generic_key only. *)
Class KeyCmp (cmp : list Z -> list Z -> Z) (valid : list Z -> Prop) : Type := {
  key_view : list Z -> list Z;
  key_size : list Z -> Z;
  key_lex (a b : list Z) : valid a -> valid b -> Z.sgn (cmp a b) = sign_of (lex (key_view a) (key_view b));
  key_local (r x k : list Z) : valid r -> cmp (r ++ x) k = cmp r k;
  key_size_valid (k : list Z) : valid k -> 8 <= key_size k <= lenZ k;
  key_agree (k r : list Z) :
    valid k -> Forall is_byte r -> key_size k <= lenZ r ->
    (forall i, 8 <= i < key_size k -> getZ r i = getZ k i) ->
    valid r /\ key_view r = key_view k /\ key_size r = key_size k
}.

Section Order.
Context {cmp : list Z -> list Z -> Z} {valid : list Z -> Prop} `{KeyCmp cmp valid}.

Lemma cmp_lt (a b : list Z) : valid a -> valid b -> cmp a b < 0 <-> lex (key_view a) (key_view b) = Lt.
Proof.
  intros Ha Hb; pose proof (key_lex a b Ha Hb) as E; destruct (lex _ _); cbn in E; split; try done; lia.
Qed.

Lemma cmp_gt (a b : list Z) : valid a -> valid b -> 0 < cmp a b <-> lex (key_view a) (key_view b) = Gt.
Proof.
  intros Ha Hb; pose proof (key_lex a b Ha Hb) as E; destruct (lex _ _); cbn in E; split; try done; lia.
Qed.

Lemma cmp_eq (a b : list Z) : valid a -> valid b -> cmp a b = 0 <-> key_view a = key_view b.
Proof.
  intros Ha Hb; pose proof (key_lex a b Ha Hb) as E; split.
  - intros E0; rewrite E0 in E; apply lex_eq; destruct (lex _ _); done.
  - intros E0; rewrite E0, lex_refl in E; cbn in E; lia.
Qed.

Lemma cmp_antisym (a b : list Z) : valid a -> valid b -> Z.sgn (cmp b a) = - Z.sgn (cmp a b).
Proof.
  intros Ha Hb; rewrite !key_lex by done; rewrite lex_opp; by destruct (lex (key_view a) (key_view b)).
Qed.

Lemma cmp_trans (a b c : list Z) :
  valid a -> valid b -> valid c -> cmp a b < 0 -> cmp b c <= 0 -> cmp a c < 0.
Proof.
  intros Ha Hb Hc Hab Hbc; apply cmp_lt in Hab; [|done..]; apply cmp_lt; [done..|].
  eapply lex_trans; [exact Hab|]; intros E; apply cmp_gt in E; [lia|done..].
Qed.

End Order.

(** ** Reading keys *)

Definition get8 (m : list Z) (i : Z) : Z := match getZ m i with Some b => b | None => 0 end.
Definition get64 (m : list Z) (i : Z) : Z := le_value (sub m i 8).

(** memcmp *)
Fixpoint memcmp (a b : list Z) (n : nat) {struct n} : Z :=
  match n, a, b with
  | S n, x :: a, y :: b => if x =? y then memcmp a b n else x - y
  | _, _, _ => 0
  end.

(** cmp_2_le64 *)
Definition cmp_2_le64 (a b : Z) : Z := if a =? b then 0 else if b <? a then 1 else -1.

(** ** The three comparisons *)

Definition vdfs4_exttree_cmpfn (key1 key2 : list Z) : Z :=
  if negb (get64 key1 8 =? get64 key2 8) then cmp_2_le64 (get64 key1 8) (get64 key2 8)
  else cmp_2_le64 (get64 key1 16) (get64 key2 16).

Definition vdfs4_cattree_cmpfn (key1 key2 : list Z) : Z :=
  if get64 key1 8 <? get64 key2 8 then -1
  else if get64 key2 8 <? get64 key1 8 then 1
  else
    let len := Z.min (get8 key1 25) (get8 key2 25) in
    let ret := if len =? 0 then 0 else memcmp (drop 26 key1) (drop 26 key2) (Z.to_nat len) in
    if negb (ret =? 0) then ret
    else if negb (get8 key1 25 =? get8 key2 25) then get8 key1 25 - get8 key2 25
    else if get64 key1 16 <? get64 key2 16 then -1
    else if get64 key2 16 <? get64 key1 16 then 1
    else 0.

Definition vdfs4_xattrtree_cmpfn (key1 key2 : list Z) : Z :=
  if get64 key1 8 <? get64 key2 8 then -1
  else if get64 key2 8 <? get64 key1 8 then 1
  else
    let len := Z.min (get8 key1 16) (get8 key2 16) in
    let diff := if len =? 0 then 0 else memcmp (drop 17 key1) (drop 17 key2) (Z.to_nat len) in
    if negb (diff =? 0) then diff
    else get8 key1 16 - get8 key2 16.

(** Complete keys: the fixed fields and the whole name are there. *)
Definition ext_valid (k : list Z) : Prop := 24 <= lenZ k.
Definition cat_valid (k : list Z) : Prop := Forall is_byte k /\ 26 + get8 k 25 <= lenZ k.
Definition xattr_valid (k : list Z) : Prop := Forall is_byte k /\ 17 + get8 k 16 <= lenZ k.

(** ** Their orders *)

Definition name (k : list Z) (at_len at_name : Z) : list Z := sub k at_name (get8 k at_len).

Definition ext_view (k : list Z) : list Z := [get64 k 8; get64 k 16].
Definition cat_view (k : list Z) : list Z := get64 k 8 :: name k 25 26 ++ [-1; get64 k 16].
Definition xattr_view (k : list Z) : list Z := get64 k 8 :: name k 16 17 ++ [-1].

Lemma get64_app (r x : list Z) (i : Z) : 0 <= i -> i + 8 <= lenZ r -> get64 (r ++ x) i = get64 r i.
Proof. intros; unfold get64; by rewrite sub_app_l by lia. Qed.

Lemma get8_app (r x : list Z) (i : Z) : 0 <= i < lenZ r -> get8 (r ++ x) i = get8 r i.
Proof. intros; unfold get8; by rewrite getZ_app_l by lia. Qed.

Lemma get8_byte (k : list Z) (i : Z) : Forall is_byte k -> 0 <= get8 k i < 256.
Proof. intros Hk; unfold get8; destruct (getZ k i) eqn:E; [|lia]; by apply (getZ_Forall _ _ _ _ Hk) in E. Qed.

Lemma memcmp_app (a b x : list Z) (n : nat) : (n <= length a)%nat -> memcmp (a ++ x) b n = memcmp a b n.
Proof.
  revert a b; induction n as [|n IH]; intros a b Hn; [done|].
  destruct a as [|y a]; cbn in Hn; [lia|]; destruct b as [|z b]; [done|]; cbn; destruct (y =? z); [apply IH; lia|done].
Qed.

(** Comparing the first bytes of two names and then their lengths [n] and [m] is
    the lexicographic comparison of the names, each closed by a mark below every
    byte. *)
Lemma memcmp_lex (n m : nat) (a b ta tb : list Z) :
  (n <= length a)%nat -> (m <= length b)%nat -> Forall is_byte a -> Forall is_byte b ->
  sign_of (lex (take n a ++ -1 :: ta) (take m b ++ -1 :: tb))
  = let c := memcmp a b (n `min` m) in
    if negb (c =? 0) then Z.sgn c
    else if negb (Z.of_nat n =? Z.of_nat m) then Z.sgn (Z.of_nat n - Z.of_nat m) else sign_of (lex ta tb).
Proof.
  revert m a b; induction n as [|n IH]; intros [|m] a b Hn Hm Ba Bb.
  - done.
  - destruct b as [|y b]; cbn in Hm; [lia|]; apply Forall_cons in Bb as [Hy _]; unfold is_byte in Hy.
    change (take 0 a) with (@nil Z); cbn [Nat.min firstn app lex memcmp]; rewrite (proj2 (Z.compare_lt_iff (-1) y)) by lia; done.
  - destruct a as [|x a]; cbn in Hn; [lia|]; apply Forall_cons in Ba as [Hx _]; unfold is_byte in Hx.
    change (take 0 b) with (@nil Z); cbn [Nat.min firstn app lex memcmp]; rewrite (proj2 (Z.compare_gt_iff x (-1))) by lia; done.
  - destruct a as [|x a], b as [|y b]; cbn in Hn, Hm; try lia; apply Forall_cons in Ba as [_ Ba], Bb as [_ Bb].
    specialize (IH m a b ltac:(lia) ltac:(lia) Ba Bb); cbn [Nat.min firstn app lex memcmp].
    destruct (Z.compare_spec x y) as [->|Hlt|Hgt].
    + rewrite Z.eqb_refl, IH; cbn zeta; destruct (negb (memcmp a b (n `min` m) =? 0)); [done|].
      replace (Z.of_nat (S n) - Z.of_nat (S m)) with (Z.of_nat n - Z.of_nat m) by lia.
      destruct (Z.eqb_spec (Z.of_nat n) (Z.of_nat m)), (Z.eqb_spec (Z.of_nat (S n)) (Z.of_nat (S m))); done || lia.
    + rewrite (proj2 (Z.eqb_neq x y)) by lia; cbn zeta; rewrite (proj2 (Z.eqb_neq (x - y) 0)) by lia; cbn; lia.
    + rewrite (proj2 (Z.eqb_neq x y)) by lia; cbn zeta; rewrite (proj2 (Z.eqb_neq (x - y) 0)) by lia; cbn; lia.
Qed.

(** The same for the name fields of two keys. *)
Lemma name_cmp (k1 k2 ta tb : list Z) (at_len at_name : Z) :
  Forall is_byte k1 -> Forall is_byte k2 -> 0 <= at_name ->
  at_name + get8 k1 at_len <= lenZ k1 -> at_name + get8 k2 at_len <= lenZ k2 ->
  let len := Z.min (get8 k1 at_len) (get8 k2 at_len) in
  let c := if len =? 0 then 0
           else memcmp (drop (Z.to_nat at_name) k1) (drop (Z.to_nat at_name) k2) (Z.to_nat len) in
  sign_of (lex (name k1 at_len at_name ++ -1 :: ta) (name k2 at_len at_name ++ -1 :: tb))
  = if negb (c =? 0) then Z.sgn c
    else if negb (get8 k1 at_len =? get8 k2 at_len) then Z.sgn (get8 k1 at_len - get8 k2 at_len)
    else sign_of (lex ta tb).
Proof.
  intros B1 B2 Hat H1 H2 len c; pose proof (get8_byte k1 at_len B1) as R1; pose proof (get8_byte k2 at_len B2) as R2.
  unfold name, sub; rewrite memcmp_lex; auto using Forall_drop; try (rewrite length_drop; unfold lenZ in *; lia).
  rewrite !Z2Nat.id by lia; subst c; destruct (Z.eqb_spec len 0) as [E|E].
  - replace (Z.to_nat (get8 k1 at_len) `min` Z.to_nat (get8 k2 at_len))%nat with 0%nat by lia; done.
  - replace (Z.to_nat (get8 k1 at_len) `min` Z.to_nat (get8 k2 at_len))%nat with (Z.to_nat len) by lia; done.
Qed.

Lemma ltb_cases (a b : Z) (x : Z) :
  (if a <? b then -1 else if b <? a then 1 else x)
  = match a ?= b with Lt => -1 | Gt => 1 | Eq => x end.
Proof. destruct (Z.compare_spec a b); destruct (Z.ltb_spec a b), (Z.ltb_spec b a); lia || done. Qed.

Lemma exttree_lex (a b : list Z) :
  ext_valid a -> ext_valid b -> Z.sgn (vdfs4_exttree_cmpfn a b) = sign_of (lex (ext_view a) (ext_view b)).
Proof.
  intros _ _; unfold vdfs4_exttree_cmpfn, cmp_2_le64, ext_view; cbn [lex].
  destruct (Z.compare_spec (get64 a 8) (get64 b 8)) as [->|H8|H8].
  + rewrite Z.eqb_refl; cbn; destruct (Z.compare_spec (get64 a 16) (get64 b 16)) as [->|H16|H16].
    * by rewrite Z.eqb_refl.
    * rewrite (proj2 (Z.eqb_neq _ _)), (proj2 (Z.ltb_ge _ _)) by lia; done.
    * rewrite (proj2 (Z.eqb_neq _ _)), (proj2 (Z.ltb_lt _ _)) by lia; done.
  + rewrite (proj2 (Z.eqb_neq (get64 a 8) _)), (proj2 (Z.ltb_ge _ _)) by lia; done.
  + rewrite (proj2 (Z.eqb_neq (get64 a 8) _)), (proj2 (Z.ltb_lt _ _)) by lia; done.
Qed.

Lemma exttree_local (r x k : list Z) : ext_valid r -> vdfs4_exttree_cmpfn (r ++ x) k = vdfs4_exttree_cmpfn r k.
Proof.
  intros Hr; unfold ext_valid in Hr; unfold vdfs4_exttree_cmpfn; by rewrite !get64_app by lia.
Qed.

(** Fields of two buffers that agree where the field is. *)
Lemma get64_agree (k r : list Z) (i : Z) :
  0 <= i -> i + 8 <= lenZ k -> i + 8 <= lenZ r -> (forall j, i <= j < i + 8 -> getZ r j = getZ k j) -> get64 r i = get64 k i.
Proof. intros; unfold get64; f_equal; apply sub_ext; try lia; intros j Hj; auto with lia. Qed.

Lemma name_agree (k r : list Z) (at_len at_name : Z) :
  Forall is_byte k -> Forall is_byte r -> 0 <= at_len -> at_len < at_name -> at_name + get8 k at_len <= lenZ k ->
  at_name + get8 k at_len <= lenZ r -> (forall j, at_len <= j < at_name + get8 k at_len -> getZ r j = getZ k j) ->
  get8 r at_len = get8 k at_len /\ name r at_len at_name = name k at_len at_name.
Proof.
  intros Bk Br H0 H1 Hk Hr Hag; pose proof (get8_byte k at_len Bk).
  assert (get8 r at_len = get8 k at_len) as E by (unfold get8; rewrite Hag; [done|lia]); split; [done|].
  unfold name; rewrite E; apply sub_ext; try lia; intros j Hj; apply Hag; lia.
Qed.

Lemma exttree_agree (k r : list Z) :
  ext_valid k -> Forall is_byte r -> 24 <= lenZ r -> (forall i, 8 <= i < 24 -> getZ r i = getZ k i) ->
  ext_valid r /\ ext_view r = ext_view k /\ 24 = 24.
Proof.
  unfold ext_valid, ext_view; intros Hk _ Hr Hag; split; [done|]; split; [|done].
  rewrite !(get64_agree k r) by (lia || intros; apply Hag; lia); done.
Qed.

Lemma exttree_size (k : list Z) : ext_valid k -> 8 <= 24 <= lenZ k.
Proof. unfold ext_valid; lia. Qed.

#[export] Instance exttree_cmp : KeyCmp vdfs4_exttree_cmpfn ext_valid :=
  {| key_view := ext_view; key_size := fun _ => 24; key_lex := exttree_lex; key_local := exttree_local;
     key_size_valid := exttree_size; key_agree := exttree_agree |}.

Lemma cattree_lex (a b : list Z) :
  cat_valid a -> cat_valid b -> Z.sgn (vdfs4_cattree_cmpfn a b) = sign_of (lex (cat_view a) (cat_view b)).
Proof.
  intros (Ba & Ha) (Bb & Hb); unfold vdfs4_cattree_cmpfn, cat_view; rewrite ltb_cases; cbn [lex].
  destruct (get64 a 8 ?= get64 b 8); [|done|done].
  rewrite (name_cmp a b _ _ 25 26) by (done || lia); cbn zeta; change (Z.to_nat 26) with 26%nat.
  destruct (negb _); [done|]; destruct (negb _); [done|]; rewrite ltb_cases; cbn.
  by destruct (get64 a 16 ?= get64 b 16).
Qed.

Lemma cattree_local (r x k : list Z) : cat_valid r -> vdfs4_cattree_cmpfn (r ++ x) k = vdfs4_cattree_cmpfn r k.
Proof.
  intros (Br & Hr); pose proof (get8_byte r 25 Br); unfold vdfs4_cattree_cmpfn.
  rewrite !get64_app, !get8_app by lia.
  replace (drop 26 (r ++ x)) with (drop 26 r ++ x) by (rewrite drop_app_le; [done|unfold lenZ in Hr; lia]).
  rewrite memcmp_app by (rewrite length_drop; unfold lenZ in Hr; lia); done.
Qed.

Lemma cattree_agree (k r : list Z) :
  cat_valid k -> Forall is_byte r -> 26 + get8 k 25 <= lenZ r ->
  (forall i, 8 <= i < 26 + get8 k 25 -> getZ r i = getZ k i) ->
  cat_valid r /\ cat_view r = cat_view k /\ 26 + get8 r 25 = 26 + get8 k 25.
Proof.
  intros (Bk & Hk) Br Hr Hag; pose proof (get8_byte k 25 Bk).
  destruct (name_agree k r 25 26) as [E8 En]; try done; try lia; [intros; apply Hag; lia|].
  unfold cat_valid, cat_view; rewrite E8, En; split; [done|]; split; [|done].
  rewrite !(get64_agree k r) by (lia || intros; apply Hag; lia); done.
Qed.

Lemma cattree_size (k : list Z) : cat_valid k -> 8 <= 26 + get8 k 25 <= lenZ k.
Proof. intros (Bk & Hk); pose proof (get8_byte k 25 Bk); lia. Qed.

#[export] Instance cattree_cmp : KeyCmp vdfs4_cattree_cmpfn cat_valid :=
  {| key_view := cat_view; key_size := fun k => 26 + get8 k 25; key_lex := cattree_lex; key_local := cattree_local;
     key_size_valid := cattree_size; key_agree := cattree_agree |}.

Lemma xattrtree_lex (a b : list Z) :
  xattr_valid a -> xattr_valid b -> Z.sgn (vdfs4_xattrtree_cmpfn a b) = sign_of (lex (xattr_view a) (xattr_view b)).
Proof.
  intros (Ba & Ha) (Bb & Hb); unfold vdfs4_xattrtree_cmpfn, xattr_view; rewrite ltb_cases; cbn [lex].
  destruct (get64 a 8 ?= get64 b 8); [|done|done].
  rewrite (name_cmp a b _ _ 16 17) by (done || lia); cbn zeta; change (Z.to_nat 17) with 17%nat.
  destruct (negb _); [done|]; destruct (Z.eqb_spec (get8 a 16) (get8 b 16)) as [->|]; cbn [negb]; [by rewrite Z.sub_diag|done].
Qed.

Lemma xattrtree_local (r x k : list Z) : xattr_valid r -> vdfs4_xattrtree_cmpfn (r ++ x) k = vdfs4_xattrtree_cmpfn r k.
Proof.
  intros (Br & Hr); pose proof (get8_byte r 16 Br); unfold vdfs4_xattrtree_cmpfn.
  rewrite !get64_app, !get8_app by lia.
  replace (drop 17 (r ++ x)) with (drop 17 r ++ x) by (rewrite drop_app_le; [done|unfold lenZ in Hr; lia]).
  rewrite memcmp_app by (rewrite length_drop; unfold lenZ in Hr; lia); done.
Qed.

Lemma xattrtree_agree (k r : list Z) :
  xattr_valid k -> Forall is_byte r -> 17 + get8 k 16 <= lenZ r ->
  (forall i, 8 <= i < 17 + get8 k 16 -> getZ r i = getZ k i) ->
  xattr_valid r /\ xattr_view r = xattr_view k /\ 17 + get8 r 16 = 17 + get8 k 16.
Proof.
  intros (Bk & Hk) Br Hr Hag; pose proof (get8_byte k 16 Bk).
  destruct (name_agree k r 16 17) as [E8 En]; try done; try lia; [intros; apply Hag; lia|].
  unfold xattr_valid, xattr_view; rewrite E8, En; split; [done|]; split; [|done].
  rewrite !(get64_agree k r) by (lia || intros; apply Hag; lia); done.
Qed.

Lemma xattrtree_size (k : list Z) : xattr_valid k -> 8 <= 17 + get8 k 16 <= lenZ k.
Proof. intros (Bk & Hk); pose proof (get8_byte k 16 Bk); lia. Qed.

#[export] Instance xattrtree_cmp : KeyCmp vdfs4_xattrtree_cmpfn xattr_valid :=
  {| key_view := xattr_view; key_size := fun k => 17 + get8 k 16; key_lex := xattrtree_lex; key_local := xattrtree_local;
     key_size_valid := xattrtree_size; key_agree := xattrtree_agree |}.
