(* ===== verification/Bnode.v ===== *)
(** B-tree nodes as the driver keeps them in memory,
    src/linux/fs/vdfs4/btree.c: the offset table, insertion, deletion, search,
    split and merge on the bytes of a node.

    A node is a buffer of [node_size_bytes] bytes:
      [0, 32)        struct vdfs4_gen_node_descr,
      [32, F)        the records, each starting with struct vdfs4_generic_key,
      [F, T)         free space, T - F = free_space,
      [T, size - 4)  the table of recs_count + 1 32-bit offsets, record 0 last and
                     the offset F of the free space first,
      [size - 4, size)  the checksum.
    The key comparison of the tree is the argument [comp_fn]; it gets the bytes
    from the record to the end of the node. *)

From Stdlib Require Import ZArith Lia Bool List.
From stdpp Require Import base list.
From S2P Require Import Prelude Bytes Buffer.

Open Scope Z_scope.

Definition VDFS4_BNODE_FIRST_OFFSET : Z := 4.
Definition VDFS4_INVALID_NODE_ID : Z := 0.
Definition VDFS4_BT_INVALID_OFFSET : Z := 2 ^ 32 - 1.
Definition VDFS4_NODE_DESCR_MAGIC : Z := 0x644E.
Definition VDFS4_MAX_BTREE_KEY_LEN : Z := 288.
Definition VDFS4_MAX_BTREE_REC_LEN : Z := 288 + 312.

(** Offsets of the fields of struct vdfs4_gen_node_descr and its size, and of
    struct vdfs4_generic_key. *)
Definition FREE_SPACE : Z := 12.
Definition RECS_COUNT : Z := 14.
Definition NODE_ID : Z := 16.
Definition PREV_NODE_ID : Z := 20.
Definition NEXT_NODE_ID : Z := 24.
Definition TYPE : Z := 28.
Definition DESCR_SIZE : Z := 32.
Definition KEY_LEN : Z := 4.
Definition RECORD_LEN : Z := 6.

(** What the node operations read of struct vdfs4_btree and its superblock. *)
Record btree : Type := Btree {
  node_size_bytes : Z;
  max_record_len : Z;
  mount_finished : bool;
  debug : bool
}.

(** struct vdfs4_bnode: its bytes, its id, its mode, and the effects of the
    operations outside it: the read-only remount of an error, the dirty mark. *)
Record bnode : Type := Bnode {
  data : list Z;
  node_id : Z;
  rw : bool;
  rdonly : bool;
  dirty : bool
}.

Definition set_data (m : list Z) (b : bnode) : bnode :=
  let '(Bnode _ i w r d) := b in Bnode m i w r d.

(** [vdfs4_dump_panic] *)
Definition vdfs4_dump_panic (b : bnode) : bnode :=
  let '(Bnode m i w _ d) := b in Bnode m i w true d.

(** [vdfs4_mark_bnode_dirty] *)
Definition vdfs4_mark_bnode_dirty (b : bnode) : bnode :=
  let b := if rw b then b else vdfs4_dump_panic b in
  let '(Bnode m i w r _) := b in Bnode m i w r true.

Section Node.
Context (bt : btree) (comp_fn : list Z -> list Z -> Z).

#[local] Abbreviation size := (node_size_bytes bt).

(** ** The offset table *)

(** [vdfs4_get_offset_addr]: the place of the cell inside the node. *)
Definition vdfs4_get_offset_addr (index : Z) : run (res Z) :=
  let ret := size - VDFS4_BNODE_FIRST_OFFSET - 4 * (index +32 1) in
  if size <=? u32 ret then (if mount_finished bt then Bug else Ok (Err (- EFAULT)))
  else Ok (Val ret).

(** [__get_offset] *)
Definition get_offset (b : bnode) (index : Z) : run Z :=
  p ← vdfs4_get_offset_addr index;
  match p with
  | Err _ => Ok VDFS4_BT_INVALID_OFFSET
  | Val a => rd32 (data b) a
  end.

Definition is_offset_correct (offset : Z) : bool := negb (offset =? 0) && (offset <? size).

(** The loop of [check_bnode_offset_area] over [n] records from [i]. *)
Fixpoint check_offsets (b : bnode) (n : nat) (i : Z) : run Z :=
  match n with
  | O => Ok 0
  | S n =>
      offset ← get_offset b i;
      if is_offset_correct offset then check_offsets b n (i + 1) else Ok (-1)
  end.

Definition check_bnode_offset_area (b : bnode) : run Z :=
  recs_count ← rd16 (data b) RECS_COUNT;
  check_offsets b (Z.to_nat recs_count) 0.

(** [get_record] *)
Definition get_record (b : bnode) (index : Z) : run (res Z) :=
  recs_count ← rd16 (data b) RECS_COUNT;
  if recs_count <? index then Ok (Err (- EINVAL))
  else
    offset ← get_offset b (u32 index);
    if is_offset_correct offset then Ok (Val offset) else Ok (Err (- EINVAL)).

(** [check_set_offset] *)
Definition check_set_offset (b : bnode) (index new_val : Z) : run (Z * bnode) :=
  p ← vdfs4_get_offset_addr index;
  match p with
  | Err _ => Ok (- EFAULT, vdfs4_dump_panic b)
  | Val a =>
      if is_offset_correct new_val then
        m ← wr32 (data b) a new_val;
        Ok (0, set_data m b)
      else Ok (- EFAULT, vdfs4_dump_panic b)
  end.

(** ** A new node *)

(** [is_node_full] for a record of [record_len] bytes. *)
Definition is_node_full (b : bnode) (record_len : Z) : run bool :=
  free_space ← rd16 (data b) FREE_SPACE;
  Ok (free_space <? record_len + 4).

(** [vdfs4_init_new_node_descr] *)
Definition vdfs4_init_new_node_descr (b : bnode) (type : Z) : run bnode :=
  m ← wr (data b) 0 (Z.land VDFS4_NODE_DESCR_MAGIC 0xff);
  m ← wr m 1 (Z.land (Z.shiftr VDFS4_NODE_DESCR_MAGIC 8) 0xff);
  m ← wr16 m FREE_SPACE (u16 (size - DESCR_SIZE - 4 - VDFS4_BNODE_FIRST_OFFSET));
  m ← wr16 m RECS_COUNT 0;
  m ← wr32 m TYPE type;
  m ← wr32 m NODE_ID (node_id b);
  m ← wr32 m NEXT_NODE_ID VDFS4_INVALID_NODE_ID;
  m ← wr32 m PREV_NODE_ID VDFS4_INVALID_NODE_ID;
  '(err, b) ← check_set_offset (set_data m b) 0 DESCR_SIZE;
  bug_on (negb (err =? 0));;
  Ok b.

(** ** Insertion *)

(** The move that opens a cell of the table at [insert_pos]; [offset] is the
    cell of the free-space offset. *)
Definition open_cell (b : bnode) (offset recs_count insert_pos : Z) : run bnode :=
  let moving_offsets_num := recs_count - insert_pos in
  if 0 <? moving_offsets_num then
    m ← memmove (data b) offset (offset + 4) (4 * moving_offsets_num);
    Ok (set_data m b)
  else Ok b.

(** [vdfs4_insert_into_node] *)
Definition vdfs4_insert_into_node (b : bnode) (new_record : list Z) (insert_pos : Z)
    : run (Z * bnode) :=
  free ← rd16 (data b) FREE_SPACE;
  record_len ← rd16 new_record RECORD_LEN;
  bug_on (free <? record_len);;
  recs_count ← rd16 (data b) RECS_COUNT;
  p ← vdfs4_get_offset_addr recs_count;
  match p with
  | Err e => Ok (e, b)
  | Val offset =>
      off ← rd32 (data b) offset;
      if negb (is_offset_correct off) then Ok (- EFAULT, b)
      else
        r ← slice new_record 0 record_len;
        m ← blit (data b) off r;
        recs_count ← rd16 m RECS_COUNT;
        b ← open_cell (set_data m b) offset recs_count insert_pos;
        '(err, b) ← check_set_offset b (u32 insert_pos) off;
        if negb (err =? 0) then Ok (err, b)
        else
          free ← rd16 (data b) FREE_SPACE;
          bug_on (free <? record_len + 4);;
          recs_count ← rd16 (data b) RECS_COUNT;
          m ← wr16 (data b) RECS_COUNT (u16 (recs_count + 1));
          free ← rd16 m FREE_SPACE;
          m ← wr16 m FREE_SPACE (u16 (free - (record_len + 4)));
          recs_count ← rd16 m RECS_COUNT;
          check_set_offset (set_data m b) recs_count (off +32 record_len)
  end.

(** [__place_into_node]: the offset of the new record. *)
Definition place_into_node (b : bnode) (new_key : list Z) (new_rec_len insert_pos : Z)
    (place_only_key : bool) : run (res Z * bnode) :=
  data_len ← (if place_only_key then rd16 new_key KEY_LEN else Ok new_rec_len);
  free_space ← rd16 (data b) FREE_SPACE;
  recs_count ← rd16 (data b) RECS_COUNT;
  bug_on (free_space <? u32 new_rec_len + 4);;
  p ← vdfs4_get_offset_addr recs_count;
  match p with
  | Err e => Ok (Err e, b)
  | Val offset =>
      off ← rd32 (data b) offset;
      if negb (is_offset_correct off) then Ok (Err (- EFAULT), b)
      else
        r ← slice new_key 0 data_len;
        m ← blit (data b) off r;
        m ← wr16 m (off + RECORD_LEN) (u16 new_rec_len);
        b ← open_cell (set_data m b) offset recs_count insert_pos;
        '(err, b) ← check_set_offset b (u32 insert_pos) off;
        if negb (err =? 0) then Ok (Err err, b)
        else
          let recs_count := u16 (recs_count + 1) in
          m ← wr16 (data b) RECS_COUNT recs_count;
          let free_space := free_space -32 (u32 new_rec_len + 4) in
          m ← wr16 m FREE_SPACE (u16 free_space);
          '(err, b) ← check_set_offset (set_data m b) recs_count (u32 (off + new_rec_len));
          if negb (err =? 0) then Ok (Err err, b) else Ok (Val off, b)
  end.

(** [append_bnode] *)
Definition append_bnode (b : bnode) (append_record : list Z) : run (Z * bnode) :=
  record_len ← rd16 append_record RECORD_LEN;
  recs_count ← rd16 (data b) RECS_COUNT;
  '(record, b) ← place_into_node b append_record record_len recs_count false;
  match record with
  | Err e => Ok (e, b)
  | Val _ => Ok (0, b)
  end.

(** struct vdfs4_btree_record_info without the node: key, value and position. *)
Record rec_info : Type := RecInfo { ri_key : Z; ri_val : res Z; ri_pos : Z }.

(** [get_value_pointer] *)
Definition get_value_pointer (m : list Z) (key : Z) : run (res Z) :=
  key_len ← rd16 m (key + KEY_LEN);
  Ok (if VDFS4_MAX_BTREE_KEY_LEN <? key_len then Err (- EINVAL) else Val (key + key_len)).

(** [form_gen_record] *)
Definition form_gen_record (b : bnode) (raw_record pos : Z) : run (Z * rec_info) :=
  val ← get_value_pointer (data b) raw_record;
  let err := match val with Err _ => - EINVAL | Val _ => 0 end in
  Ok (err, RecInfo raw_record val pos).

(** [insert_key_into_bnode] *)
Definition insert_key_into_bnode (b : bnode) (new_key : list Z) (new_rec_len insert_pos : Z)
    : run (Z * bnode * option rec_info) :=
  '(raw_record, b) ← place_into_node b new_key new_rec_len insert_pos true;
  match raw_record with
  | Err e => Ok (e, b, None)
  | Val r =>
      '(_, info) ← form_gen_record b r insert_pos;
      Ok (0, b, Some info)
  end.

(** [form_new_adding_record]: the index record for a node in the buffer
    [adding_record]. *)
Definition form_new_adding_record (new_node : bnode) (adding_record : list Z) : run (list Z) :=
  new_key ← get_record new_node 0;
  match new_key with
  | Err _ => Bug
  | Val k =>
      key_len ← rd16 (data new_node) (k + KEY_LEN);
      record_len ← rd16 (data new_node) (k + RECORD_LEN);
      bug_on (max_record_len bt <? record_len);;
      r ← slice (data new_node) k key_len;
      m ← blit adding_record 0 r;
      m ← wr16 m RECORD_LEN (u16 (key_len + 4));
      wr32 m key_len (node_id new_node)
  end.

(** ** Deletion *)

(** The first loop of [delete_from_node] from record [i]: offsets behind the
    deleted record. The number of turns is below 2^16 since recs_count is a
    16-bit field. *)
Fixpoint lower_offsets (fuel : nat) (i del_offset rec_len : Z) (b : bnode) : run (Z * bnode) :=
  recs_count ← rd16 (data b) RECS_COUNT;
  if recs_count <=? i then Ok (0, b)
  else
    match fuel with
    | O => Fault
    | S fuel =>
        cur_offs ← get_offset b i;
        if del_offset <? cur_offs then
          '(err, b) ← check_set_offset b i (cur_offs -32 rec_len);
          if negb (err =? 0) then Ok (err, b) else lower_offsets fuel (i + 1) del_offset rec_len b
        else lower_offsets fuel (i + 1) del_offset rec_len b
    end.

(** The second loop: the cells behind the deleted one move up. *)
Fixpoint shift_offsets (fuel : nat) (i : Z) (b : bnode) : run (Z * bnode) :=
  recs_count ← rd16 (data b) RECS_COUNT;
  if recs_count <=? i then Ok (0, b)
  else
    match fuel with
    | O => Fault
    | S fuel =>
        next_offset ← get_offset b (i + 1);
        '(err, b) ← check_set_offset b (u32 i) next_offset;
        if negb (err =? 0) then Ok (err, b) else shift_offsets fuel (i + 1) b
    end.

Definition turns : nat := Z.to_nat (2 ^ 16).

(** The consistency check and the poisoning of the free space of a debug
    build. *)
Definition poison_free_space (b : bnode) : run (Z * bnode) :=
  recs_count ← rd16 (data b) RECS_COUNT;
  p ← vdfs4_get_offset_addr recs_count;
  match p with
  | Err e => Ok (e, b)
  | Val offset =>
      off ← rd32 (data b) offset;
      if negb (is_offset_correct off) then Ok (- EFAULT, b)
      else
        free_space ← rd16 (data b) FREE_SPACE;
        bug_on (negb (free_space =? offset - off));;
        m ← blit (data b) off (replicate (Z.to_nat free_space) 0xA5);
        Ok (0, set_data m b)
  end.

(** An error that stops a mounted file system. *)
Definition fail_or_bug (b : bnode) : run (Z * bnode) :=
  if mount_finished bt then Bug else Ok (- EFAULT, b).

(** [delete_from_node] *)
Definition delete_from_node (b : bnode) (del_index : Z) : run (Z * bnode) :=
  del_key ← get_record b del_index;
  match del_key with
  | Err _ => fail_or_bug b
  | Val k =>
      rec_len ← rd16 (data b) (k + RECORD_LEN);
      recs_count ← rd16 (data b) RECS_COUNT;
      free_space_offset ← get_offset b recs_count;
      del_offset ← get_offset b (u32 del_index);
      if negb (is_offset_correct free_space_offset) || negb (is_offset_correct del_offset)
      then Ok (- EFAULT, vdfs4_dump_panic b)
      else if VDFS4_MAX_BTREE_REC_LEN <? rec_len then fail_or_bug b
      else
        m ← memmove (data b) k (k + rec_len) (u32 (free_space_offset - del_offset - rec_len));
        '(err, b) ← lower_offsets turns 0 del_offset rec_len (set_data m b);
        if negb (err =? 0) then Ok (err, b)
        else
          '(err, b) ← shift_offsets turns del_index b;
          if negb (err =? 0) then Ok (err, b)
          else
            recs_count ← rd16 (data b) RECS_COUNT;
            m ← wr16 (data b) RECS_COUNT (u16 (recs_count - 1));
            free_space ← rd16 m FREE_SPACE;
            m ← wr16 m FREE_SPACE (u16 (free_space + rec_len + 4));
            recs_count ← rd16 m RECS_COUNT;
            '(err, b) ← check_set_offset (set_data m b) recs_count (free_space_offset -32 rec_len);
            if negb (err =? 0) then Ok (err, b)
            else
              '(err, b) ← (if debug bt then poison_free_space b else Ok (0, b));
              if negb (err =? 0) then Ok (err, b) else Ok (0, vdfs4_mark_bnode_dirty b)
  end.

(** ** Search *)

(** The loop of [binary_search]; its distance [last - first] shrinks in every
    turn. The result is the record and the value left in [*pos]. *)
Fixpoint search_loop (fuel : nat) (b : bnode) (key : list Z) (first last first_record : Z)
    : run (res Z * Z) :=
  if last - 1 <=? first then Ok (Val first_record, first)
  else
    match fuel with
    | O => Fault
    | S fuel =>
        let mid := first + Z.shiftr (last + 1 - first) 1 in
        record ← get_record b mid;
        match record with
        | Err e => Ok (Err e, -1)
        | Val r =>
            let cmp_res := comp_fn (drop (Z.to_nat r) (data b)) key in
            if cmp_res =? 0 then Ok (Val r, mid)
            else if cmp_res <? 0 then search_loop fuel b key mid last r
            else search_loop fuel b key first mid first_record
        end
    end.

(** [binary_search] *)
Definition binary_search (b : bnode) (key : list Z) : run (res Z * Z) :=
  recs_count ← rd16 (data b) RECS_COUNT;
  let last := recs_count - 1 in
  first_record ← get_record b 0;
  match first_record with
  | Err e => Ok (Err e, -1)
  | Val f =>
      let cmp_res := comp_fn (drop (Z.to_nat f) (data b)) key in
      if 0 <? cmp_res then Ok (Err (- ENOENT), -1)
      else if (cmp_res =? 0) || (last =? 0) then Ok (Val f, 0)
      else
        record ← get_record b last;
        match record with
        | Err e => Ok (Err e, -1)
        | Val r =>
            if comp_fn (drop (Z.to_nat r) (data b)) key <=? 0 then Ok (Val r, last)
            else search_loop (Z.to_nat recs_count) b key 0 last f
        end
  end.

(** ** Sanity check *)

(** The loops of [vdfs4_bnode_sanity_check]: the least offset, [None] when an
    offset is broken; *)
Fixpoint sanity_offsets (b : bnode) (n : nat) (count min_offset : Z) : run (option Z) :=
  match n with
  | O => Ok (Some min_offset)
  | S n =>
      offset ← get_offset b count;
      if is_offset_correct offset
      then sanity_offsets b n (count + 1) (if offset <? min_offset then offset else min_offset)
      else Ok None
  end.

(** the end of the records that follow each other from [offset]. *)
Fixpoint sanity_records (b : bnode) (n : nat) (offset : Z) : run (option Z) :=
  match n with
  | O => Ok (Some offset)
  | S n =>
      record_len ← rd16 (data b) (offset + RECORD_LEN);
      let offset := offset +32 record_len in
      if is_offset_correct offset then sanity_records b n offset else Ok None
  end.

(** [vdfs4_bnode_sanity_check] *)
Definition vdfs4_bnode_sanity_check (b : bnode) : run (bool * bnode) :=
  record_count ← rd16 (data b) RECS_COUNT;
  if node_id b =? 0 then Ok (true, b)
  else if record_count =? 0 then
    offset ← get_offset b 0;
    if negb (offset =? DESCR_SIZE) then Ok (false, vdfs4_dump_panic b) else Ok (true, b)
  else
    free_space ← rd16 (data b) FREE_SPACE;
    if size <? free_space then Ok (false, vdfs4_dump_panic b)
    else if 1000 <? record_count then Ok (false, vdfs4_dump_panic b)
    else
      min_offset ← sanity_offsets b (Z.to_nat record_count) 0 size;
      match min_offset with
      | None => Ok (false, vdfs4_dump_panic b)
      | Some offset =>
          offset ← sanity_records b (Z.to_nat record_count) offset;
          match offset with
          | None => Ok (false, vdfs4_dump_panic b)
          | Some offset =>
              free ← get_offset b record_count;
              if offset =? free then Ok (true, b) else Ok (false, vdfs4_dump_panic b)
          end
      end.

(** ** Split *)

(** The loop of [split_bnode]: error, the two nodes, and the record information
    of the new record with the node it went to ([true]: the right one). *)
Fixpoint split_loop (fuel : nat) (orig : bnode) (recs_count : Z) (new_key : list Z)
    (new_rec_len insert_pos i : Z) (inserted part_to_insert : bool) (used_space : Z)
    (left_bnode right_bnode : bnode) (info : option (bool * rec_info))
    : run (Z * bnode * bnode * option (bool * rec_info)) :=
  if (recs_count <=? i) && inserted then Ok (0, left_bnode, right_bnode, info)
  else
    match fuel with
    | O => Fault
    | S fuel =>
        let new_rec_select := (i =? insert_pos) && negb inserted in
        key ← (if new_rec_select then Ok (Val new_key)
               else
                 p ← get_record orig i;
                 Ok (match p with Err e => Err e | Val r => Val (drop (Z.to_nat r) (data orig)) end));
        match key with
        | Err e => Ok (e, left_bnode, right_bnode, info)
        | Val key =>
            record_len ← rd16 key RECORD_LEN;
            let used_space := used_space +32 (record_len + 4) in
            let ins_bnode := if part_to_insert then right_bnode else left_bnode in
            '(err, ins_bnode, info) ←
              (if new_rec_select then
                 pos ← rd16 (data ins_bnode) RECS_COUNT;
                 '(err, ins_bnode, ri) ← insert_key_into_bnode ins_bnode key new_rec_len pos;
                 Ok (err, ins_bnode, match ri with Some ri => Some (part_to_insert, ri) | None => info end)
               else
                 '(err, ins_bnode) ← append_bnode ins_bnode key;
                 Ok (err, ins_bnode, info));
            let '(left_bnode, right_bnode) := if part_to_insert : bool then (left_bnode, ins_bnode) else (ins_bnode, right_bnode) in
            if negb (err =? 0) then Ok (err, left_bnode, right_bnode, info)
            else
              let part_to_insert := if size / 2 <? used_space then true else part_to_insert in
              if new_rec_select
              then split_loop fuel orig recs_count new_key new_rec_len insert_pos i true part_to_insert
                     used_space left_bnode right_bnode info
              else split_loop fuel orig recs_count new_key new_rec_len insert_pos (i + 1) inserted
                     part_to_insert used_space left_bnode right_bnode info
        end
    end.

(** [split_bnode] up to the end of its loop. *)
Definition split_records (left_bnode right_bnode : bnode) (new_key : list Z) (new_rec_len insert_pos : Z)
    : run (Z * bnode * bnode * option (bool * rec_info)) :=
  bnode_type ← rd32 (data left_bnode) TYPE;
  recs_count ← rd16 (data left_bnode) RECS_COUNT;
  right_bnode ← vdfs4_init_new_node_descr right_bnode bnode_type;
  let orig := left_bnode in
  left_bnode ← vdfs4_init_new_node_descr left_bnode bnode_type;
  free_space ← rd16 (data left_bnode) FREE_SPACE;
  bug_on (recs_count =? 0);;
  split_loop (S (Z.to_nat recs_count)) orig recs_count new_key new_rec_len insert_pos 0 false false
    (size -32 free_space) left_bnode right_bnode None.

(** The rest of [split_bnode] after a loop without error: the neighbour links.
    [next] is what __vdfs4_get_bnode returns for the right neighbour, asked for
    when there is one; the last component of the result is that neighbour. *)
Definition split_link (orig left_bnode right_bnode : bnode) (info : option (bool * rec_info)) (next : res bnode)
    : run (Z * bnode * bnode * option (bool * rec_info) * option bnode) :=
  orig_prev ← rd32 (data orig) PREV_NODE_ID;
  orig_next ← rd32 (data orig) NEXT_NODE_ID;
  m ← wr32 (data left_bnode) PREV_NODE_ID orig_prev;
  right_id ← rd32 (data right_bnode) NODE_ID;
  m ← wr32 m NEXT_NODE_ID right_id;
  left_id ← rd32 m NODE_ID;
  n ← wr32 (data right_bnode) PREV_NODE_ID left_id;
  n ← wr32 n NEXT_NODE_ID orig_next;
  let left_bnode := set_data m left_bnode in
  let right_bnode := set_data n right_bnode in
  if orig_next =? VDFS4_INVALID_NODE_ID then Ok (0, left_bnode, right_bnode, info, None)
  else
    match next with
    | Err _ => Ok (0, set_data (data orig) left_bnode, right_bnode, info, None)
    | Val next_right =>
        right_id ← rd32 n NODE_ID;
        k ← wr32 (data next_right) PREV_NODE_ID right_id;
        Ok (0, left_bnode, right_bnode, info, Some (vdfs4_mark_bnode_dirty (set_data k next_right)))
    end.

(** [split_bnode]. Every failure restores the bytes of the left node. *)
Definition split_bnode (left_bnode right_bnode : bnode) (new_key : list Z) (new_rec_len insert_pos : Z)
    (next : res bnode) : run (Z * bnode * bnode * option (bool * rec_info) * option bnode) :=
  let orig := left_bnode in
  '(err, left_bnode, right_bnode, info) ← split_records left_bnode right_bnode new_key new_rec_len insert_pos;
  if negb (err =? 0) then Ok (err, set_data (data orig) left_bnode, right_bnode, info, None)
  else split_link orig left_bnode right_bnode info next.

(** ** Merge *)

(** The loop of [btree_merge]: the offsets of the right node, moved by the start
    of the left free space, behind the offsets of the left node. *)
Fixpoint merge_offsets (n : nat) (i start_offset : Z) (left_bnode right_bnode : bnode) : run (Z * bnode) :=
  match n with
  | O => Ok (0, left_bnode)
  | S n =>
      recs_count ← rd16 (data left_bnode) RECS_COUNT;
      o ← get_offset right_bnode i;
      '(err, left_bnode) ← check_set_offset left_bnode (i +32 recs_count) (u32 (start_offset + o - DESCR_SIZE));
      if negb (err =? 0) then Ok (- EFAULT, vdfs4_dump_panic left_bnode)
      else merge_offsets n (i + 1) start_offset left_bnode right_bnode
  end.

(** The part of [btree_merge] that moves the records of the right node behind
    those of the left node; the flag says whether an error releases the nodes. *)
Definition merge_records (left_bnode right_bnode : bnode) : run (bool * Z * bnode * bnode) :=
  bad_left ← check_bnode_offset_area left_bnode;
  bad_right ← check_bnode_offset_area right_bnode;
  if negb (bad_left =? 0) || negb (bad_right =? 0) then
    let left_bnode := if negb (bad_left =? 0) then vdfs4_dump_panic left_bnode else left_bnode in
    let right_bnode := if negb (bad_right =? 0) then vdfs4_dump_panic right_bnode else right_bnode in
    Ok (true, - EFAULT, left_bnode, right_bnode)
  else
    left_count ← rd16 (data left_bnode) RECS_COUNT;
    p ← vdfs4_get_offset_addr left_count;
    match p with
    | Err e => Ok (true, e, left_bnode, right_bnode)
    | Val a =>
        left_free_space ← rd32 (data left_bnode) a;
        right_count ← rd16 (data right_bnode) RECS_COUNT;
        right_end ← get_offset right_bnode right_count;
        records ← slice (data right_bnode) DESCR_SIZE (right_end - DESCR_SIZE);
        m ← blit (data left_bnode) left_free_space records;
        let left_bnode := set_data m left_bnode in
        left_count ← rd16 (data left_bnode) RECS_COUNT;
        start_offset ← get_offset left_bnode left_count;
        '(err, left_bnode) ← merge_offsets (S (Z.to_nat right_count)) 0 start_offset left_bnode right_bnode;
        if negb (err =? 0) then Ok (false, err, left_bnode, right_bnode)
        else
          free_space ← rd16 (data left_bnode) FREE_SPACE;
          m ← wr16 (data left_bnode) FREE_SPACE
                (u16 (free_space - (right_end - DESCR_SIZE) - right_count * 4));
          left_count ← rd16 m RECS_COUNT;
          m ← wr16 m RECS_COUNT (u16 (left_count + right_count));
          next_id ← rd32 (data right_bnode) NEXT_NODE_ID;
          m ← wr32 m NEXT_NODE_ID next_id;
          Ok (false, 0, set_data m left_bnode, right_bnode)
    end.

(** The part of [btree_merge] that closes the chain. [next] is what
    __vdfs4_get_bnode returns for the right neighbour of the right node, asked for
    when there is one, [right_ptr] the value of PTR_ERR on the pointer to the right
    node. *)
Definition merge_link (left_bnode right_bnode : bnode) (next : res bnode) (right_ptr : Z) : run (Z * bnode * option bnode) :=
  next_id ← rd32 (data right_bnode) NEXT_NODE_ID;
  if next_id =? VDFS4_INVALID_NODE_ID then Ok (0, vdfs4_mark_bnode_dirty left_bnode, None)
  else
    match next with
    | Err _ => Ok (right_ptr, left_bnode, None)
    | Val next_bnode =>
        left_id ← rd32 (data left_bnode) NODE_ID;
        k ← wr32 (data next_bnode) PREV_NODE_ID left_id;
        m ← wr32 (data left_bnode) NEXT_NODE_ID (node_id next_bnode);
        Ok (0, vdfs4_mark_bnode_dirty (set_data m left_bnode), Some (vdfs4_mark_bnode_dirty (set_data k next_bnode)))
    end.

(** Both parts. *)
Definition btree_merge_nodes (left_bnode right_bnode : bnode) (next : res bnode) (right_ptr : Z)
    : run (Z * bnode * bnode * option bnode) :=
  '(_, err, left_bnode, right_bnode) ← merge_records left_bnode right_bnode;
  if negb (err =? 0) then Ok (err, left_bnode, right_bnode, None)
  else
    '(err, left_bnode, next) ← merge_link left_bnode right_bnode next right_ptr;
    Ok (err, left_bnode, right_bnode, next).

End Node.
