(* ===== verification/BnodeRep.v ===== *)
(** The records a node holds: the relation between the bytes of a node and a list
    of records, and what the operations of Bnode.v do to that list. *)

From Stdlib Require Import ZArith Lia Bool List.
From stdpp Require Import base list.
From S2P Require Import Prelude Bytes Buffer Bnode.

Open Scope Z_scope.

(** ** Buffers that differ only inside a range *)

Definition same_out (m m' : list Z) (lo hi : Z) : Prop :=
  lenZ m' = lenZ m /\ forall x, x < lo \/ hi <= x -> getZ m' x = getZ m x.

Lemma same_out_refl (m : list Z) (lo hi : Z) : same_out m m lo hi.
Proof. by split. Qed.

Lemma same_out_trans (m m' m'' : list Z) (lo hi : Z) :
  same_out m m' lo hi -> same_out m' m'' lo hi -> same_out m m'' lo hi.
Proof. intros [L1 G1] [L2 G2]; split; [congruence|]; intros x Hx; rewrite G2, G1 by done; done. Qed.

Lemma same_out_mono (m m' : list Z) (lo hi lo' hi' : Z) :
  same_out m m' lo hi -> lo' <= lo -> hi <= hi' -> same_out m m' lo' hi'.
Proof. intros [L G] Hl Hh; split; [done|]; intros x Hx; apply G; lia. Qed.

Lemma same_out_upd (m v : list Z) (a : Z) :
  0 <= a -> a + lenZ v <= lenZ m -> same_out m (upd_at m a v) a (a + lenZ v).
Proof.
  intros Ha Hv; split; [by apply lenZ_upd_at|]; intros x Hx; rewrite getZ_upd_at by done.
  destruct (Z.leb_spec a x), (Z.ltb_spec x (a + lenZ v)); done || lia.
Qed.

Lemma same_out_sub (m m' : list Z) (lo hi o n : Z) :
  same_out m m' lo hi -> 0 <= o -> 0 <= n -> o + n <= lenZ m -> o + n <= lo \/ hi <= o ->
  sub m' o n = sub m o n.
Proof. intros [L G] Ho Hn Hm Hd; apply sub_ext; try lia; intros i Hi; apply G; lia. Qed.

Lemma same_out_get16 (m m' : list Z) (lo hi i : Z) :
  same_out m m' lo hi -> 0 <= i -> i + 2 <= lenZ m -> i + 2 <= lo \/ hi <= i -> get16 m' i = get16 m i.
Proof. intros; unfold get16; erewrite same_out_sub; eauto; lia. Qed.

Lemma same_out_get32 (m m' : list Z) (lo hi i : Z) :
  same_out m m' lo hi -> 0 <= i -> i + 4 <= lenZ m -> i + 4 <= lo \/ hi <= i -> get32 m' i = get32 m i.
Proof. intros; unfold get32; erewrite same_out_sub; eauto; lia. Qed.

(** A write of a field: the new buffer, its length, what changed, and the field. *)
Lemma wr16_step (m : list Z) (i v : Z) :
  0 <= i -> i + 2 <= lenZ m ->
  exists m', wr16 m i v = Ok m' /\ lenZ m' = lenZ m /\ same_out m m' i (i + 2)
  /\ (0 <= v < 2 ^ 16 -> get16 m' i = v) /\ (Forall is_byte m -> Forall is_byte m').
Proof.
  intros Hi Hm; rewrite wr16_ok by done; eexists; split; [done|]; split; [apply lenZ_upd_at; rewrite ?lenZ_le_bytes; lia|].
  split; [apply (same_out_upd m (le_bytes 2 v) i); rewrite ?lenZ_le_bytes; lia|].
  split; [intros; by apply get16_wr|auto using Forall_upd_at, le_bytes_byte].
Qed.

Lemma wr32_step (m : list Z) (i v : Z) :
  0 <= i -> i + 4 <= lenZ m ->
  exists m', wr32 m i v = Ok m' /\ lenZ m' = lenZ m /\ same_out m m' i (i + 4)
  /\ (0 <= v < 2 ^ 32 -> get32 m' i = v) /\ (Forall is_byte m -> Forall is_byte m').
Proof.
  intros Hi Hm; rewrite wr32_ok by done; eexists; split; [done|]; split; [apply lenZ_upd_at; rewrite ?lenZ_le_bytes; lia|].
  split; [apply (same_out_upd m (le_bytes 4 v) i); rewrite ?lenZ_le_bytes; lia|].
  split; [intros; by apply get32_wr|auto using Forall_upd_at, le_bytes_byte].
Qed.

Lemma wr_step (m : list Z) (i v : Z) :
  0 <= i -> i + 1 <= lenZ m ->
  exists m', wr m i v = Ok m' /\ lenZ m' = lenZ m /\ same_out m m' i (i + 1)
  /\ (is_byte v -> Forall is_byte m -> Forall is_byte m').
Proof.
  intros Hi Hm; unfold wr; destruct (getZ_is_Some m i) as (x & ->); [lia|].
  eexists; split; [done|]; split; [apply lenZ_setZ|]; split; [|auto using setZ_Forall].
  split; [apply lenZ_setZ|]; intros y Hy; apply getZ_setZ_ne; lia.
Qed.

(** ** Records and their places *)

(** A record as the tree stores it: its length is in its key. *)
Definition rec_ok (r : list Z) : Prop :=
  8 <= lenZ r <= VDFS4_MAX_BTREE_REC_LEN /\ get16 r RECORD_LEN = lenZ r /\ Forall is_byte r.

(** Records in physical order, each beginning where the one before ends. *)
Fixpoint chain (a : Z) (P : list (Z * list Z)) (F : Z) : Prop :=
  match P with
  | [] => a = F
  | (o, r) :: P => o = a /\ chain (a + lenZ r) P F
  end.

Lemma chain_app (P Q : list (Z * list Z)) (a F : Z) :
  chain a (P ++ Q) F <-> exists b, chain a P b /\ chain b Q F.
Proof.
  revert a; induction P as [|[o r] P IH]; intros a; cbn.
  - split; [eauto|]; by intros (b & -> & ?).
  - rewrite IH; naive_solver.
Qed.

Lemma chain_le (P : list (Z * list Z)) (a F : Z) :
  Forall (fun s => rec_ok (snd s)) P -> chain a P F -> a + 8 * lenZ P <= F.
Proof.
  revert a; induction P as [|[o r] P IH]; intros a; [cbn; unfold lenZ; cbn; lia|].
  rewrite Forall_cons; cbn; intros [[Hr _] HP] [-> Hc]; specialize (IH _ HP Hc); rewrite lenZ_cons; lia.
Qed.

Lemma chain_elem (P : list (Z * list Z)) (a F o : Z) (r : list Z) :
  Forall (fun s => rec_ok (snd s)) P -> chain a P F -> (o, r) ∈ P -> a <= o /\ o + lenZ r <= F.
Proof.
  intros HP Hc Hin; apply list_elem_of_split in Hin as (A & B & ->).
  apply Forall_app in HP as [HA HB]; apply Forall_cons in HB as [_ HB].
  apply chain_app in Hc as (b & HcA & -> & HcB).
  pose proof (chain_le _ _ _ HA HcA); pose proof (chain_le _ _ _ HB HcB).
  pose proof (lenZ_nonneg A); pose proof (lenZ_nonneg B); lia.
Qed.

(** The sum of the lengths of the records. *)
Definition bytes (R : list (list Z)) : Z := foldr (fun r t => lenZ r + t) 0 R.

Lemma bytes_app (A B : list (list Z)) : bytes (A ++ B) = bytes A + bytes B.
Proof. unfold bytes; induction A; cbn in *; lia. Qed.

Lemma bytes_perm (A B : list (list Z)) : A ≡ₚ B -> bytes A = bytes B.
Proof. unfold bytes; induction 1; cbn in *; lia. Qed.

Lemma chain_bytes (P : list (Z * list Z)) (a F : Z) : chain a P F -> F = a + bytes (map snd P).
Proof.
  unfold bytes; revert a; induction P as [|[o r] P IH]; intros a; cbn in *; [lia|]; intros [-> Hc].
  specialize (IH _ Hc); lia.
Qed.

(** Records at their offsets tile the bytes from the descriptor to [F]. *)
Definition tiles (S : list (Z * list Z)) (F : Z) : Prop := exists P, P ≡ₚ S /\ chain DESCR_SIZE P F.

(** Entry [j] of the offset table: the offset of record [j], or that of the free
    space behind the last record. *)
Definition off_of (S : list (Z * list Z)) (F j : Z) : Z :=
  match getZ S j with Some (o, _) => o | None => F end.

Section Rep.
Context (bt : btree).

#[local] Abbreviation size := (node_size_bytes bt).

(** Node sizes for which free_space fits its field. *)
Definition bt_ok : Prop := 64 <= size <= 65536.

(** The place of entry [j] of the offset table. *)
Definition cell (j : Z) : Z := size - VDFS4_BNODE_FIRST_OFFSET - 4 * (j + 1).

Record layout (m : list Z) (S : list (Z * list Z)) (F : Z) : Prop := {
  ly_len : lenZ m = size;
  ly_bytes : Forall is_byte m;
  ly_tiles : tiles S F;
  ly_recs : Forall (fun s => rec_ok (snd s)) S;
  ly_data : Forall (fun s => sub m (fst s) (lenZ (snd s)) = snd s) S;
  ly_table : forall j, 0 <= j <= lenZ S -> get32 m (cell j) = off_of S F j;
  ly_count : get16 m RECS_COUNT = lenZ S;
  ly_free : get16 m FREE_SPACE = cell (lenZ S) - F;
  ly_fit : F <= cell (lenZ S)
}.

(** The fields of the descriptor that the record operations leave alone: node id,
    neighbours and type. *)
Definition ids (m : list Z) : list Z := sub m NODE_ID 16.

(** The node holds the records [R], in the order of its table. *)
Definition rep (b : bnode) (R : list (list Z)) : Prop :=
  exists S F, layout (data b) S F /\ map snd S = R.

Context (Hbt : bt_ok).

Lemma cell_eq (j : Z) : cell j = size - 8 - 4 * j.
Proof. unfold cell, VDFS4_BNODE_FIRST_OFFSET; lia. Qed.

Lemma layout_bounds (m : list Z) (S : list (Z * list Z)) (F : Z) :
  layout m S F -> DESCR_SIZE + 8 * lenZ S <= F /\ F <= size - 8 - 4 * lenZ S.
Proof.
  intros [_ _ (P & HP & Hc) Hr _ _ _ _ Hf]; rewrite cell_eq in Hf; split; [|lia].
  assert (lenZ S = lenZ P) as -> by (unfold lenZ; by rewrite HP).
  apply chain_le in Hc; [exact Hc|by rewrite HP].
Qed.

Lemma slot_bounds (m : list Z) (S : list (Z * list Z)) (F o : Z) (r : list Z) :
  layout m S F -> (o, r) ∈ S -> DESCR_SIZE <= o /\ o + lenZ r <= F /\ 8 <= lenZ r <= VDFS4_MAX_BTREE_REC_LEN.
Proof.
  intros Hl Hin; pose proof Hl as [_ _ (P & HP & Hc) Hr _ _ _ _ _].
  destruct (chain_elem P DESCR_SIZE F o r) as [H1 H2]; auto.
  - by rewrite HP.
  - by rewrite HP.
  - rewrite Forall_forall in Hr; specialize (Hr _ Hin) as [Hr _]; auto.
Qed.

(** ** The offset table *)

Lemma offset_addr_ok (j : Z) : 0 <= j -> 4 * j + 8 <= size -> vdfs4_get_offset_addr bt j = Ok (Val (cell j)).
Proof using Hbt.
  intros Hj Hs; unfold vdfs4_get_offset_addr, bt_ok in *.
  rewrite (u32_small (j + 1)) by lia; fold (cell j); rewrite cell_eq.
  rewrite (u32_small (size - 8 - 4 * j)), (proj2 (Z.leb_gt _ _)) by lia; done.
Qed.

Lemma off_bounds (m : list Z) (S : list (Z * list Z)) (F j : Z) :
  layout m S F -> 0 <= j <= lenZ S -> DESCR_SIZE <= off_of S F j <= F.
Proof.
  intros Hl Hj; pose proof (layout_bounds _ _ _ Hl) as Hb; pose proof (lenZ_nonneg S); unfold off_of.
  destruct (getZ S j) as [[o r]|] eqn:E; [|lia].
  apply getZ_elem in E; pose proof (slot_bounds _ _ _ _ _ Hl E); lia.
Qed.

Lemma get_offset_ok (b : bnode) (S : list (Z * list Z)) (F j : Z) :
  layout (data b) S F -> 0 <= j <= lenZ S -> get_offset bt b j = Ok (off_of S F j).
Proof using Hbt.
  intros Hl Hj; pose proof (layout_bounds _ _ _ Hl); unfold get_offset, bt_ok, DESCR_SIZE in *.
  rewrite offset_addr_ok by lia; cbn [mbind run_bind].
  rewrite rd32_ok, (ly_table _ _ _ Hl) by (rewrite ?(ly_len _ _ _ Hl), ?cell_eq; lia); done.
Qed.

Lemma offset_correct (x : Z) : DESCR_SIZE <= x < size -> is_offset_correct bt x = true.
Proof.
  unfold is_offset_correct, DESCR_SIZE; intros Hx.
  rewrite (proj2 (Z.eqb_neq x 0)), (proj2 (Z.ltb_lt x _)) by lia; done.
Qed.

Lemma get_record_ok (b : bnode) (S : list (Z * list Z)) (F j : Z) :
  layout (data b) S F -> 0 <= j <= lenZ S -> get_record bt b j = Ok (Val (off_of S F j)).
Proof using Hbt.
  intros Hl Hj; pose proof (layout_bounds _ _ _ Hl); pose proof (off_bounds _ _ _ _ Hl Hj).
  unfold get_record, bt_ok, DESCR_SIZE, RECS_COUNT in *.
  rewrite rd16_ok by (rewrite ?(ly_len _ _ _ Hl); lia); cbn [mbind run_bind]; fold RECS_COUNT; rewrite (ly_count _ _ _ Hl).
  rewrite (proj2 (Z.ltb_ge _ _)), u32_small by lia.
  rewrite (get_offset_ok _ S F) by done; cbn [mbind run_bind].
  rewrite offset_correct by (unfold DESCR_SIZE; lia); done.
Qed.

Lemma set_offset_ok (b : bnode) (j v : Z) :
  lenZ (data b) = size -> 0 <= j -> 4 * j + 8 <= size -> DESCR_SIZE <= v < size ->
  check_set_offset bt b j v = Ok (0, set_data (upd_at (data b) (cell j) (le_bytes 4 v)) b).
Proof using Hbt.
  intros Hl Hj Hs Hv; unfold check_set_offset; rewrite offset_addr_ok by done; cbn [mbind run_bind].
  rewrite offset_correct by done; rewrite wr32_ok by (rewrite ?Hl, cell_eq; lia); done.
Qed.

Lemma data_set (m : list Z) (b : bnode) : data (set_data m b) = m.
Proof. by destruct b. Qed.

Lemma set_set (m m' : list Z) (b : bnode) : set_data m (set_data m' b) = set_data m b.
Proof. by destruct b. Qed.

(** ** Insertion *)

Lemma open_cell_ok (b : bnode) (n pos : Z) :
  lenZ (data b) = size -> 0 <= pos <= n -> 4 * n + 8 <= size ->
  exists m2, open_cell b (cell n) n pos = Ok (set_data m2 b) /\ same_out (data b) m2 (cell n) (cell pos)
  /\ (forall j, pos < j <= n -> get32 m2 (cell j) = get32 (data b) (cell (j - 1)))
  /\ (Forall is_byte (data b) -> Forall is_byte m2).
Proof using Hbt.
  intros Hl Hp Hn; unfold open_cell; destruct (Z.ltb_spec 0 (n - pos)).
  - rewrite memmove_ok by (rewrite ?Hl, ?cell_eq; lia); cbn [mbind run_bind].
    set (v := sub (data b) (cell n + 4) (4 * (n - pos))).
    assert (lenZ v = 4 * (n - pos)) as Ev by (apply lenZ_sub; rewrite ?Hl, ?cell_eq; lia).
    eexists; split; [done|]; split; [|split].
    + replace (cell pos) with (cell n + lenZ v) by (rewrite Ev, !cell_eq; lia).
      apply same_out_upd; rewrite ?Ev, ?Hl, ?cell_eq; lia.
    + intros j Hj; unfold get32; rewrite sub_upd_in by (rewrite ?Ev, ?Hl, ?cell_eq; lia).
      unfold v; rewrite sub_sub by (rewrite ?Hl, ?cell_eq; lia); do 2 f_equal; rewrite !cell_eq; lia.
    + intros Hb; apply Forall_upd_at; [done|by apply Forall_sub].
  - exists (data b); split; [by destruct b|]; split; [apply same_out_refl|]; split; [lia|done].
Qed.

End Rep.

(** [x] at position [pos]. *)
Definition ins {A : Type} (pos : Z) (x : A) (l : list A) : list A :=
  take (Z.to_nat pos) l ++ x :: drop (Z.to_nat pos) l.

Lemma ins_perm {A : Type} (pos : Z) (x : A) (l : list A) : ins pos x l ≡ₚ x :: l.
Proof. unfold ins; by rewrite <- Permutation_middle, take_drop. Qed.

Lemma lenZ_ins {A : Type} (pos : Z) (x : A) (l : list A) : lenZ (ins pos x l) = lenZ l + 1.
Proof. unfold lenZ; rewrite ins_perm; cbn; lia. Qed.

Lemma map_ins {A B : Type} (f : A -> B) (pos : Z) (x : A) (l : list A) : map f (ins pos x l) = ins pos (f x) (map f l).
Proof.
  unfold ins; rewrite map_app; cbn; f_equal; [|f_equal].
  - apply (fmap_take f).
  - apply (fmap_drop f).
Qed.

Lemma getZ_ins {A : Type} (pos : Z) (x : A) (l : list A) (j : Z) :
  0 <= pos <= lenZ l -> 0 <= j ->
  getZ (ins pos x l) j = if j <? pos then getZ l j else if j =? pos then Some x else getZ l (j - 1).
Proof.
  intros Hp Hj; unfold ins, getZ, lenZ in *.
  destruct (Z.ltb_spec j 0); [lia|]; destruct (Z.ltb_spec j pos).
  - rewrite lookup_app_l by (rewrite length_take; lia); apply lookup_take_lt; lia.
  - rewrite lookup_app_r by (rewrite length_take; lia); rewrite length_take.
    destruct (Z.eqb_spec j pos) as [->|].
    + replace (Z.to_nat pos - Z.to_nat pos `min` length l)%nat with 0%nat by lia; done.
    + destruct (Z.ltb_spec (j - 1) 0); [lia|].
      replace (Z.to_nat j - Z.to_nat pos `min` length l)%nat with (S (Z.to_nat (j - 1) - Z.to_nat pos))%nat by lia.
      rewrite lookup_cons, lookup_drop; f_equal; lia.
Qed.

Section Insert.
Context (bt : btree) (Hbt : bt_ok bt).

#[local] Abbreviation size := (node_size_bytes bt).
#[local] Abbreviation cell := (cell bt).

(** The buffer after the offset and the counters of a record of [L] bytes at [F]
    are in place. *)
Definition finished (m3 : list Z) (n F L free : Z) : list Z :=
  upd_at (upd_at (upd_at m3 RECS_COUNT (le_bytes 2 (n + 1))) FREE_SPACE (le_bytes 2 (free - (L + 4))))
    (cell (n + 1)) (le_bytes 4 (F + L)).

Lemma finished_ids (m3 : list Z) (n F L free : Z) :
  lenZ m3 = size -> 0 <= n -> 4 * n + 44 <= size -> ids (finished m3 n F L free) = ids m3.
Proof using Hbt.
  intros Hl Hn Hs; unfold ids, finished, NODE_ID, RECS_COUNT, FREE_SPACE; rewrite cell_eq.
  rewrite !sub_upd_out; rewrite ?lenZ_upd_at; rewrite ?lenZ_upd_at; rewrite ?lenZ_upd_at, ?lenZ_le_bytes; try lia; done.
Qed.

Lemma finished_layout (m m1 m3 : list Z) (S : list (Z * list Z)) (F L pos : Z) :
  layout bt m S F -> same_out m m1 F (F + L) -> F + L + 4 <= cell (lenZ S) ->
  rec_ok (sub m1 F L) -> 0 <= L -> 0 <= pos <= lenZ S ->
  same_out m1 m3 (cell (lenZ S)) (size - 4) -> Forall is_byte m3 ->
  (forall j, 0 <= j <= lenZ S -> get32 m3 (cell j)
     = if j <? pos then off_of S F j else if j =? pos then F else off_of S F (j - 1)) ->
  layout bt (finished m3 (lenZ S) F L (cell (lenZ S) - F)) (ins pos (F, sub m1 F L) S) (F + L).
Proof using Hbt.
  intros Hl H1 Hfit Hr HL Hpos H3 Hby3 Htab; pose proof (layout_bounds bt _ _ _ Hl) as [Hlo Hhi].
  pose proof (lenZ_nonneg S) as Hn; set (n := lenZ S) in *.
  pose proof Hl as [Hlen Hby (P & HP & Hc) Hrecs Hdata Htable Hcount Hfree Hf0].
  assert (lenZ m1 = size) as L1 by (destruct H1; congruence).
  assert (lenZ m3 = size) as L3 by (destruct H3; congruence).
  rewrite cell_eq in *; unfold DESCR_SIZE in Hlo; unfold bt_ok in Hbt.
  unfold finished; set (m4 := upd_at m3 _ _); set (m5 := upd_at m4 _ _).
  assert (same_out m3 m4 14 16) as H4 by (apply same_out_upd; rewrite ?lenZ_le_bytes; unfold RECS_COUNT; lia).
  assert (lenZ m4 = size) as L4 by (destruct H4; congruence).
  assert (same_out m4 m5 12 14) as H5 by (apply same_out_upd; rewrite ?lenZ_le_bytes; unfold FREE_SPACE; lia).
  assert (lenZ m5 = size) as L5 by (destruct H5; congruence).
  set (m6 := upd_at m5 _ _).
  assert (same_out m5 m6 (cell (n + 1)) (cell n)) as H6.
  { replace (cell n) with (cell (n + 1) + lenZ (le_bytes 4 (F + L)))
      by (rewrite lenZ_le_bytes, !cell_eq; lia).
    apply same_out_upd; rewrite ?lenZ_le_bytes, ?cell_eq; lia. }
  assert (lenZ m6 = size) as L6 by (destruct H6; congruence); rewrite !cell_eq in H6.
  assert (forall o k, 32 <= o -> 0 <= k -> o + k <= F + L -> sub m6 o k = sub m1 o k) as Hrec.
  { intros o k Ho Hk He; rewrite (same_out_sub _ _ _ _ o k H6), (same_out_sub _ _ _ _ o k H5), (same_out_sub _ _ _ _ o k H4),
      (same_out_sub _ _ _ _ o k H3) by lia; done. }
  split; auto.
  - unfold m6, m5, m4; auto using Forall_upd_at, le_bytes_byte.
  - exists (P ++ [(F, sub m1 F L)]); split; [by rewrite ins_perm, HP, Permutation_app_comm|].
    apply chain_app; exists F; split; [done|]; cbn; rewrite lenZ_sub; lia.
  - rewrite ins_perm; by constructor.
  - rewrite ins_perm; constructor; cbn [fst snd].
    + rewrite lenZ_sub, Hrec by lia; done.
    + rewrite Forall_forall in Hdata |- *; intros [o r] Hin; specialize (Hdata _ Hin); cbn [fst snd] in *.
      pose proof (slot_bounds bt _ _ _ _ _ Hl Hin) as (Ho1 & Ho2 & Ho3); unfold DESCR_SIZE in Ho1.
      rewrite Hrec, (same_out_sub _ _ _ _ o (lenZ r) H1) by lia; done.
  - rewrite lenZ_ins; fold n; intros j Hj; unfold off_of; rewrite getZ_ins by lia.
    destruct (decide (j = n + 1)) as [->|].
    { unfold m6; rewrite get32_wr by (rewrite ?cell_eq; lia).
      destruct (Z.ltb_spec (n + 1) pos); [lia|]; destruct (Z.eqb_spec (n + 1) pos); [lia|].
      rewrite getZ_None; [done|subst n; lia]. }
    rewrite (same_out_get32 _ _ _ _ (cell j) H6), (same_out_get32 _ _ _ _ (cell j) H5),
      (same_out_get32 _ _ _ _ (cell j) H4), Htab by (rewrite ?cell_eq; lia).
    unfold off_of; destruct (Z.ltb_spec j pos), (Z.eqb_spec j pos); try lia; try done.
    + destruct (getZ_is_Some S j) as ([o r] & ->); [lia|done].
    + destruct (getZ_is_Some S (j - 1)) as ([o r] & ->); [lia|done].
  - unfold RECS_COUNT in *; rewrite lenZ_ins, (same_out_get16 _ _ _ _ 14 H6), (same_out_get16 _ _ _ _ 14 H5) by lia.
    unfold m4; rewrite get16_wr; lia.
  - unfold FREE_SPACE in *; rewrite lenZ_ins, (same_out_get16 _ _ _ _ 12 H6) by lia.
    unfold m5; rewrite get16_wr, !cell_eq by (rewrite ?cell_eq; lia); lia.
  - rewrite lenZ_ins, cell_eq; lia.
Qed.

(** From the record in place to the new layout: the cell is opened and set. *)
Lemma cell_set (b : bnode) (m : list Z) (S : list (Z * list Z)) (F L pos : Z) :
  layout bt m S F -> same_out m (data b) F (F + L) -> 0 <= L -> F + L + 4 <= cell (lenZ S) ->
  rec_ok (sub (data b) F L) -> Forall is_byte (data b) -> 0 <= pos <= lenZ S ->
  exists b2 m3, open_cell b (cell (lenZ S)) (lenZ S) pos = Ok b2
  /\ check_set_offset bt b2 (u32 pos) F = Ok (0, set_data m3 b)
  /\ lenZ m3 = size /\ get16 m3 RECS_COUNT = lenZ S /\ get16 m3 FREE_SPACE = cell (lenZ S) - F
  /\ ids (finished m3 (lenZ S) F L (cell (lenZ S) - F)) = ids m
  /\ layout bt (finished m3 (lenZ S) F L (cell (lenZ S) - F)) (ins pos (F, sub (data b) F L) S) (F + L).
Proof using Hbt.
  intros Hl H1 HL Hfit Hr Hby Hpos; pose proof (layout_bounds bt _ _ _ Hl) as [Hlo Hhi].
  pose proof (lenZ_nonneg S) as Hn; pose proof (ly_len _ _ _ _ Hl) as Hlen; unfold bt_ok, DESCR_SIZE in *.
  assert (lenZ (data b) = size) as L1 by (destruct H1; congruence).
  destruct (open_cell_ok bt Hbt b (lenZ S) pos L1 Hpos ltac:(lia)) as (m2 & E2 & H2 & T2 & B2).
  assert (lenZ m2 = size) as L2 by (destruct H2; congruence).
  rewrite cell_eq in *; exists (set_data m2 b).
  rewrite u32_small, set_offset_ok by (rewrite ?data_set; unfold DESCR_SIZE; done || lia); rewrite data_set, set_set.
  set (m3 := upd_at m2 _ _); exists m3; split; [done|]; split; [done|].
  assert (same_out m2 m3 (cell pos) (cell pos + 4)) as H3
    by (replace 4 with (lenZ (le_bytes 4 F)) by done; apply same_out_upd; rewrite ?lenZ_le_bytes, ?cell_eq; lia).
  assert (lenZ m3 = size) as L3 by (destruct H3; congruence); rewrite !cell_eq in *.
  assert (same_out (data b) m3 (size - 8 - 4 * lenZ S) (size - 4)) as H13
    by (apply same_out_trans with m2; eapply same_out_mono; [exact H2| | |exact H3| |]; lia).
  split; [done|]; split; [|split; [|split]].
  - unfold RECS_COUNT; rewrite (same_out_get16 _ _ _ _ 14 H13), (same_out_get16 _ _ _ _ 14 H1) by lia; apply (ly_count _ _ _ _ Hl).
  - unfold FREE_SPACE; rewrite (same_out_get16 _ _ _ _ 12 H13), (same_out_get16 _ _ _ _ 12 H1) by lia.
    rewrite <- cell_eq; apply (ly_free _ _ _ _ Hl).
  - rewrite finished_ids by lia; unfold ids, NODE_ID.
    rewrite (same_out_sub _ _ _ _ 16 16 H13), (same_out_sub _ _ _ _ 16 16 H1) by lia; done.
  - rewrite <- (cell_eq bt (lenZ S)); eapply finished_layout; rewrite ?cell_eq; try done.
    { unfold m3; auto using Forall_upd_at, le_bytes_byte. }
    intros j Hj; destruct (Z.ltb_spec j pos); [|destruct (Z.eqb_spec j pos) as [->|]].
    + rewrite (same_out_get32 _ _ _ _ (cell j) H3), (same_out_get32 _ _ _ _ (cell j) H2),
        (same_out_get32 _ _ _ _ (cell j) H1) by (rewrite ?cell_eq in *; lia); by apply (ly_table _ _ _ _ Hl).
    + unfold m3; rewrite get32_wr by (rewrite ?cell_eq; lia); done.
    + rewrite (same_out_get32 _ _ _ _ (cell j) H3), T2, (same_out_get32 _ _ _ _ (cell (j - 1)) H1)
        by (rewrite ?cell_eq in *; lia); apply (ly_table _ _ _ _ Hl); lia.
Qed.

(** The bytes of a stored record: [d] bytes of the key, with the record length of
    the new record. *)
Definition stored (key : list Z) (d L : Z) (r : list Z) : Prop :=
  rec_ok r /\ lenZ r = L
  /\ forall i, 0 <= i < d -> ~ RECORD_LEN <= i < RECORD_LEN + 2 -> getZ r i = getZ key i.

(** The record written by [__place_into_node]. *)
Lemma record_stored (m key : list Z) (F d L : Z) :
  lenZ m = size -> Forall is_byte m -> Forall is_byte key -> DESCR_SIZE <= F -> F + L <= size ->
  8 <= L <= VDFS4_MAX_BTREE_REC_LEN -> 8 <= d <= L -> d <= lenZ key ->
  let m1 := upd_at (upd_at m F (sub key 0 d)) (F + RECORD_LEN) (le_bytes 2 L) in
  same_out m m1 F (F + L) /\ Forall is_byte m1 /\ stored key d L (sub m1 F L).
Proof using Hbt.
  intros Hm Bm Bk HF HFL HL Hd Hk m1; unfold DESCR_SIZE, VDFS4_MAX_BTREE_REC_LEN, RECORD_LEN in *.
  assert (lenZ (sub key 0 d) = d) as Es by (apply lenZ_sub; lia).
  pose proof (same_out_upd m (sub key 0 d) F ltac:(lia) ltac:(lia)) as H0; set (m0 := upd_at m F _) in *.
  assert (lenZ m0 = size) as L0 by (destruct H0; congruence).
  pose proof (same_out_upd m0 (le_bytes 2 L) (F + 6) ltac:(lia) ltac:(rewrite lenZ_le_bytes; lia)) as H1; fold m1 in H1.
  rewrite Es in H0; rewrite lenZ_le_bytes in H1; assert (lenZ m1 = size) as L1 by (destruct H1; congruence).
  assert (Forall is_byte m1) as B1
    by (unfold m1, m0; auto using Forall_upd_at, Forall_sub, le_bytes_byte).
  split; [|split; [done|]].
  { apply same_out_trans with m0; eapply same_out_mono; [exact H0| | |exact H1| |]; lia. }
  assert (lenZ (sub m1 F L) = L) as Er by (apply lenZ_sub; lia).
  split; [split; [rewrite Er; unfold VDFS4_MAX_BTREE_REC_LEN; lia|]; split; [|by apply Forall_sub]|].
  - rewrite Er; unfold get16; rewrite sub_sub by (unfold RECORD_LEN; lia); fold (get16 m1 (F + RECORD_LEN)).
    unfold m1, RECORD_LEN; apply get16_wr; lia.
  - split; [done|]; intros i Hi Hx; unfold RECORD_LEN in Hx; rewrite getZ_sub by lia; destruct H1 as [_ G1]; rewrite G1 by lia.
    unfold m0; rewrite getZ_upd_at by lia.
    rewrite (proj2 (Z.leb_le F (F + i))), (proj2 (Z.ltb_lt (F + i) _)) by lia; cbn [andb].
    rewrite getZ_sub by lia; f_equal; lia.
Qed.

Lemma place_into_node_spec (b : bnode) (S : list (Z * list Z)) (F L pos : Z) (key : list Z) (only_key : bool) :
  layout bt (data b) S F -> Forall is_byte key -> 8 <= L <= VDFS4_MAX_BTREE_REC_LEN ->
  F + L + 4 <= cell (lenZ S) -> 0 <= pos <= lenZ S ->
  let d := if only_key then get16 key KEY_LEN else L in
  8 <= d <= L -> d <= lenZ key ->
  exists m' r, place_into_node bt b key L pos only_key = Ok (Val F, set_data m' b)
  /\ layout bt m' (ins pos (F, r) S) (F + L) /\ stored key d L r /\ ids m' = ids (data b).
Proof using Hbt.
  intros Hl Bk HL Hfit Hpos d Hd Hk; pose proof (layout_bounds bt _ _ _ Hl) as [Hlo Hhi].
  pose proof Hl as [Hlen Hby _ _ _ Htable Hcount Hfree _]; pose proof (lenZ_nonneg S) as Hn.
  unfold bt_ok, DESCR_SIZE, VDFS4_MAX_BTREE_REC_LEN in *; rewrite cell_eq in Hfit.
  destruct (record_stored (data b) key F d L) as (H1 & B1 & Hst); unfold DESCR_SIZE; auto; try lia.
  set (m1 := upd_at (upd_at (data b) F (sub key 0 d)) (F + RECORD_LEN) (le_bytes 2 L)) in *.
  destruct (cell_set (set_data m1 b) (data b) S F L pos) as (b2 & m3 & E2 & E3 & L3 & C3 & F3 & I3 & Hl3);
    rewrite ?data_set, ?cell_eq; auto; try lia; [apply Hst|]; rewrite ?data_set, ?set_set in *.
  unfold place_into_node, FREE_SPACE, RECS_COUNT in *.
  replace (if only_key then rd16 key KEY_LEN else Ok L) with (Ok d)
    by (subst d; destruct only_key; [rewrite rd16_ok; unfold KEY_LEN; lia || done|done]).
  cbn [mbind run_bind]; rewrite !rd16_ok by lia; cbn [mbind run_bind]; rewrite Hfree, Hcount, !cell_eq.
  rewrite (u32_small L), (proj2 (Z.ltb_ge _ _)) by lia; cbn [bug_on mbind run_bind].
  rewrite offset_addr_ok by (done || lia); cbn [mbind run_bind].
  rewrite rd32_ok, Htable by (rewrite ?cell_eq; lia); cbn [mbind run_bind].
  unfold off_of; rewrite getZ_None by lia.
  rewrite offset_correct by (unfold DESCR_SIZE; lia); cbn [negb].
  rewrite slice_sub by lia; cbn [mbind run_bind].
  assert (lenZ (sub key 0 d) = d) as Es by (apply lenZ_sub; lia).
  rewrite blit_upd by lia; cbn [mbind run_bind].
  rewrite (u16_small L), wr16_ok by (rewrite ?lenZ_upd_at; unfold RECORD_LEN; lia); cbn [mbind run_bind]; fold m1.
  rewrite E2; cbn [mbind run_bind]; rewrite E3; cbn [mbind run_bind Z.eqb negb]; rewrite data_set.
  rewrite (u16_small (lenZ S + 1)), wr16_ok by lia; cbn [mbind run_bind].
  set (m4 := upd_at m3 14 _); assert (lenZ m4 = size) as L4
    by (unfold m4; rewrite lenZ_upd_at by (rewrite ?lenZ_le_bytes; lia); done).
  rewrite (u32_small (_ - _)), (u16_small (_ - _)), wr16_ok by lia; cbn [mbind run_bind].
  set (m5 := upd_at m4 12 _); assert (lenZ m5 = size) as L5
    by (unfold m5; rewrite lenZ_upd_at by (rewrite ?lenZ_le_bytes; lia); done).
  rewrite (u32_small (F + L)), set_offset_ok by (rewrite ?data_set; unfold DESCR_SIZE; done || lia); cbn [mbind run_bind Z.eqb negb].
  rewrite data_set, !set_set; eexists _, _; split; [done|].
  rewrite (cell_eq bt (lenZ S)) in Hl3, I3; split; [exact Hl3|]; split; [exact Hst|exact I3].
Qed.

Lemma insert_into_node_spec (b : bnode) (S : list (Z * list Z)) (F pos : Z) (r : list Z) :
  layout bt (data b) S F -> rec_ok r -> F + lenZ r + 4 <= cell (lenZ S) -> 0 <= pos <= lenZ S ->
  exists m', vdfs4_insert_into_node bt b r pos = Ok (0, set_data m' b)
  /\ layout bt m' (ins pos (F, r) S) (F + lenZ r) /\ ids m' = ids (data b).
Proof using Hbt.
  intros Hl Hr Hfit Hpos; pose proof (layout_bounds bt _ _ _ Hl) as [Hlo Hhi]; pose proof Hr as (HL & Hrl & Br).
  pose proof Hl as [Hlen Hby _ _ _ Htable Hcount Hfree _]; pose proof (lenZ_nonneg S) as Hn.
  unfold bt_ok, DESCR_SIZE, VDFS4_MAX_BTREE_REC_LEN in *; rewrite cell_eq in Hfit; set (L := lenZ r) in *.
  pose proof (same_out_upd (data b) r F ltac:(lia) ltac:(lia)) as H1; set (m1 := upd_at (data b) F r) in *.
  assert (lenZ m1 = size) as L1 by (destruct H1; congruence).
  assert (sub m1 F L = r) as Esub by (unfold m1; rewrite sub_upd_in by lia; rewrite Z.sub_diag; by apply sub_all).
  destruct (cell_set (set_data m1 b) (data b) S F L pos) as (b2 & m3 & E2 & E3 & L3 & C3 & F3 & I3 & Hl3);
    rewrite ?data_set, ?cell_eq; auto; try lia; [by rewrite Esub|by apply Forall_upd_at|].
  rewrite ?data_set, ?set_set, ?Esub in *.
  unfold vdfs4_insert_into_node, FREE_SPACE, RECS_COUNT in *; rewrite (rd16_ok (data b) 12) by lia.
  cbn [mbind run_bind]; rewrite (rd16_ok r RECORD_LEN) by (unfold RECORD_LEN; lia); cbn [mbind run_bind]; rewrite Hrl, Hfree, cell_eq.
  rewrite (proj2 (Z.ltb_ge _ _)) by lia; cbn [bug_on mbind run_bind].
  rewrite rd16_ok by lia; cbn [mbind run_bind]; rewrite Hcount, offset_addr_ok by (done || lia); cbn [mbind run_bind].
  rewrite rd32_ok, Htable by (rewrite ?cell_eq; lia); cbn [mbind run_bind].
  unfold off_of; rewrite getZ_None by lia.
  rewrite offset_correct by (unfold DESCR_SIZE; lia); cbn [negb].
  rewrite slice_sub, sub_all by (done || lia); cbn [mbind run_bind].
  rewrite blit_upd by lia; cbn [mbind run_bind]; fold m1.
  rewrite rd16_ok, (same_out_get16 _ _ _ _ 14 H1), Hcount by lia; cbn [mbind run_bind].
  rewrite E2; cbn [mbind run_bind]; rewrite E3; cbn [mbind run_bind Z.eqb negb]; rewrite data_set.
  rewrite !rd16_ok by lia; cbn [mbind run_bind]; rewrite F3, C3, cell_eq.
  rewrite (proj2 (Z.ltb_ge _ _)) by lia; cbn [bug_on mbind run_bind].
  rewrite (u16_small (lenZ S + 1)), wr16_ok by lia; cbn [mbind run_bind].
  pose proof (same_out_upd m3 (le_bytes 2 (lenZ S + 1)) 14 ltac:(lia) ltac:(rewrite lenZ_le_bytes; lia)) as H4.
  rewrite lenZ_le_bytes in H4; set (m4 := upd_at m3 14 _) in *; assert (lenZ m4 = size) as L4 by (destruct H4; congruence).
  rewrite rd16_ok, (same_out_get16 _ _ _ _ 12 H4), F3, cell_eq by lia; cbn [mbind run_bind].
  rewrite (u16_small (_ - _)), wr16_ok by lia; cbn [mbind run_bind].
  pose proof (same_out_upd m4 (le_bytes 2 (size - 8 - 4 * lenZ S - F - (L + 4))) 12 ltac:(lia)
    ltac:(rewrite lenZ_le_bytes; lia)) as H5.
  rewrite lenZ_le_bytes in H5; set (m5 := upd_at m4 12 _) in *; assert (lenZ m5 = size) as L5 by (destruct H5; congruence).
  rewrite rd16_ok, (same_out_get16 _ _ _ _ 14 H5) by lia; cbn [mbind run_bind].
  replace (get16 m4 14) with (lenZ S + 1) by (symmetry; unfold m4; apply get16_wr; lia).
  rewrite (u32_small (F + L)), set_offset_ok by (rewrite ?data_set; unfold DESCR_SIZE; done || lia).
  rewrite data_set, !set_set; eexists; split; [done|]; rewrite (cell_eq bt (lenZ S)) in Hl3, I3; split; [exact Hl3|exact I3].
Qed.

Lemma stored_exact (key r : list Z) (L : Z) :
  rec_ok (sub key 0 L) -> 0 <= L <= lenZ key -> stored key L L r -> r = sub key 0 L.
Proof using Hbt.
  intros (HL & Hk & Bk) Hlen ((_ & Hr & Br) & El & Hi); rewrite lenZ_sub in HL, Hk by lia; rewrite El in Hr.
  apply getZ_ext; [by rewrite lenZ_sub by lia|]; rewrite El; intros i Hi0.
  destruct (decide (RECORD_LEN <= i < RECORD_LEN + 2)) as [Hin|Hout].
  2: { rewrite getZ_sub by lia; by apply Hi. }
  assert (forall x, Forall is_byte x -> L <= lenZ x -> sub x RECORD_LEN 2 = le_bytes 2 (get16 x RECORD_LEN)) as Hle.
  { intros x Hx Hlx; unfold get16, RECORD_LEN in *.
    pose proof (lenZ_sub x 6 2 ltac:(lia) ltac:(lia) ltac:(lia)) as Es; unfold lenZ in Es.
    rewrite <- (le_bytes_value (sub x 6 2)) at 1 by (by apply Forall_sub); f_equal; lia. }
  pose proof (Hle r Br ltac:(lia)) as E1; pose proof (Hle _ Bk ltac:(rewrite lenZ_sub; lia)) as E2.
  rewrite Hr in E1; rewrite Hk in E2; rewrite <- E2 in E1; unfold RECORD_LEN in *.
  replace i with (6 + (i - 6)) by lia.
  rewrite <- (getZ_sub r 6 2 (i - 6)), <- (getZ_sub (sub key 0 L) 6 2 (i - 6)), E1 by lia; done.
Qed.

Lemma append_bnode_spec (b : bnode) (S : list (Z * list Z)) (F : Z) (key r : list Z) :
  layout bt (data b) S F -> rec_ok r -> Forall is_byte key -> lenZ r <= lenZ key -> sub key 0 (lenZ r) = r ->
  F + lenZ r + 4 <= cell (lenZ S) ->
  exists m', append_bnode bt b key = Ok (0, set_data m' b)
  /\ layout bt m' (S ++ [(F, r)]) (F + lenZ r) /\ ids m' = ids (data b).
Proof using Hbt.
  intros Hl Hr Bk Hlk Hsub Hfit; pose proof Hr as (HL & Hrl & _); pose proof (lenZ_nonneg S).
  pose proof (layout_bounds bt _ _ _ Hl); pose proof Hl as [Hlen _ _ _ _ _ Hcount _ _]; unfold bt_ok, DESCR_SIZE in *.
  assert (get16 key RECORD_LEN = lenZ r) as Ek.
  { rewrite <- Hrl, <- Hsub at 1; unfold get16; rewrite sub_sub by (unfold RECORD_LEN; lia); done. }
  unfold append_bnode; rewrite (rd16_ok key RECORD_LEN) by (unfold RECORD_LEN; lia); cbn [mbind run_bind]; rewrite Ek.
  rewrite (rd16_ok (data b) RECS_COUNT) by (unfold RECS_COUNT; lia); cbn [mbind run_bind]; rewrite Hcount.
  destruct (place_into_node_spec b S F (lenZ r) (lenZ S) key false Hl Bk HL Hfit) as (m' & r' & -> & Hl' & Hst & Hids);
    [lia|lia|lia|]; cbn [mbind run_bind].
  exists m'; split; [done|]; apply stored_exact in Hst; [|by rewrite Hsub|lia]; rewrite Hsub in Hst; subst r'.
  unfold ins, lenZ in Hl'; rewrite Nat2Z.id, take_ge, drop_ge in Hl' by lia; split; [exact Hl'|exact Hids].
Qed.

Lemma init_spec (b : bnode) (type : Z) :
  lenZ (data b) = size -> Forall is_byte (data b) ->
  exists m', vdfs4_init_new_node_descr bt b type = Ok (set_data m' b) /\ layout bt m' [] DESCR_SIZE
  /\ (0 <= node_id b < 2 ^ 32 -> get32 m' NODE_ID = node_id b) /\ (0 <= type < 2 ^ 32 -> get32 m' TYPE = type)
  /\ get32 m' PREV_NODE_ID = 0 /\ get32 m' NEXT_NODE_ID = 0.
Proof using Hbt.
  intros Hl Hb; unfold bt_ok in *; unfold vdfs4_init_new_node_descr, FREE_SPACE, RECS_COUNT, NODE_ID, PREV_NODE_ID, NEXT_NODE_ID, TYPE.
  destruct (wr_step (data b) 0 (Z.land VDFS4_NODE_DESCR_MAGIC 255)) as (m1 & -> & L1 & H1 & B1); [lia..|]; cbn [mbind run_bind].
  destruct (wr_step m1 1 (Z.land (Z.shiftr VDFS4_NODE_DESCR_MAGIC 8) 255)) as (m2 & -> & L2 & H2 & B2); [lia..|]; cbn [mbind run_bind].
  destruct (wr16_step m2 12 (u16 (size - DESCR_SIZE - 4 - VDFS4_BNODE_FIRST_OFFSET))) as (m3 & -> & L3 & H3 & V3 & B3);
    [lia..|]; cbn [mbind run_bind].
  destruct (wr16_step m3 14 0) as (m4 & -> & L4 & H4 & V4 & B4); [lia..|]; cbn [mbind run_bind].
  destruct (wr32_step m4 28 type) as (m5 & -> & L5 & H5 & V5 & B5); [lia..|]; cbn [mbind run_bind].
  destruct (wr32_step m5 16 (node_id b)) as (m6 & -> & L6 & H6 & V6 & B6); [lia..|]; cbn [mbind run_bind].
  destruct (wr32_step m6 24 VDFS4_INVALID_NODE_ID) as (m7 & -> & L7 & H7 & V7 & B7); [lia..|]; cbn [mbind run_bind].
  destruct (wr32_step m7 20 VDFS4_INVALID_NODE_ID) as (m8 & -> & L8 & H8 & V8 & B8); [lia..|]; cbn [mbind run_bind].
  rewrite set_offset_ok by (rewrite ?data_set; unfold DESCR_SIZE; done || lia); rewrite data_set, set_set.
  cbn [mbind run_bind Z.eqb negb bug_on]; set (m9 := upd_at m8 _ _).
  assert (same_out m8 m9 (size - 8) (size - 4)) as H9.
  { replace (size - 4) with (cell 0 + lenZ (le_bytes 4 DESCR_SIZE)) by (rewrite cell_eq, lenZ_le_bytes; lia).
    replace (size - 8) with (cell 0) by (rewrite cell_eq; lia).
    apply same_out_upd; rewrite ?cell_eq, ?lenZ_le_bytes; lia. }
  unfold VDFS4_INVALID_NODE_ID, DESCR_SIZE, VDFS4_BNODE_FIRST_OFFSET in *.
  exists m9; split; [done|]; split; [split|].
  - destruct H9; lia.
  - apply Forall_upd_at; [|apply le_bytes_byte]; apply B8, B7, B6, B5, B4, B3, B2, B1, Hb; cbv; done.
  - exists []; split; [done|]; cbn; done.
  - constructor.
  - constructor.
  - intros j Hj; change (lenZ []) with 0 in Hj; replace j with 0 by lia; change (off_of [] 32 0) with 32; unfold m9; apply get32_wr; rewrite ?cell_eq; lia.
  - unfold RECS_COUNT; rewrite (same_out_get16 _ _ _ _ 14 H9), (same_out_get16 _ _ _ _ 14 H8), (same_out_get16 _ _ _ _ 14 H7),
      (same_out_get16 _ _ _ _ 14 H6), (same_out_get16 _ _ _ _ 14 H5), V4 by lia; done.
  - unfold FREE_SPACE; rewrite (same_out_get16 _ _ _ _ 12 H9), (same_out_get16 _ _ _ _ 12 H8), (same_out_get16 _ _ _ _ 12 H7),
      (same_out_get16 _ _ _ _ 12 H6), (same_out_get16 _ _ _ _ 12 H5), (same_out_get16 _ _ _ _ 12 H4) by lia.
    rewrite u16_small in V3 by lia; rewrite V3 by lia; rewrite cell_eq; change (lenZ []) with 0; lia.
  - rewrite cell_eq; change (lenZ []) with 0; lia.
  - split; [|split; [|split]].
    + intros Hid; rewrite (same_out_get32 _ _ _ _ 16 H9), (same_out_get32 _ _ _ _ 16 H8), (same_out_get32 _ _ _ _ 16 H7) by lia; auto.
    + intros Ht; rewrite (same_out_get32 _ _ _ _ 28 H9), (same_out_get32 _ _ _ _ 28 H8), (same_out_get32 _ _ _ _ 28 H7),
        (same_out_get32 _ _ _ _ 28 H6) by lia; auto.
    + rewrite (same_out_get32 _ _ _ _ 20 H9) by lia; apply V8; lia.
    + rewrite (same_out_get32 _ _ _ _ 24 H9), (same_out_get32 _ _ _ _ 24 H8) by lia; apply V7; lia.
Qed.

End Insert.
