(* ===== verification/BnodeDelete.v ===== *)
(** Deleting a record of a node (delete_from_node of
    src/linux/fs/vdfs4/btree.c). *)

From Stdlib Require Import ZArith Lia Bool List.
From stdpp Require Import base list.
From S2P Require Import Prelude Bytes Buffer Bnode BnodeRep.

Open Scope Z_scope.

(** The offset of a record after the [L] bytes at [d] are gone. *)
Definition lower (d L o : Z) : Z := if d <? o then o - L else o.

Definition low_slot (d L : Z) (s : Z * list Z) : Z * list Z := (lower d L (fst s), snd s).

Lemma low_before (d L F : Z) (A : list (Z * list Z)) :
  Forall (fun s => rec_ok (snd s)) A -> chain F A d -> map (low_slot d L) A = A.
Proof.
  intros HA Hc; apply list_eq; intros i; change (map (low_slot d L) A) with (low_slot d L <$> A).
  rewrite list_lookup_fmap; destruct (A !! i) as [[o r]|] eqn:E; [|done]; cbn.
  apply list_elem_of_lookup_2 in E; pose proof (chain_elem _ _ _ _ _ HA Hc E) as [_ Ho].
  rewrite Forall_forall in HA; destruct (HA _ E) as ((Hr & _) & _); cbn in Hr.
  unfold low_slot, lower; cbn; destruct (Z.ltb_spec d o); [lia|done].
Qed.

Lemma low_behind (d L a F : Z) (B : list (Z * list Z)) :
  0 < L -> d + L <= a -> chain a B F -> chain (a - L) (map (low_slot d L) B) (F - L).
Proof.
  intros HL; revert a; induction B as [|[o r] B IH]; intros a Ha; cbn; [lia|].
  intros [-> Hc]; split; [unfold lower; destruct (Z.ltb_spec d a); lia|].
  replace (a - L + lenZ r) with (a + lenZ r - L) by lia; apply IH; [|done].
  pose proof (lenZ_nonneg r); lia.
Qed.

(** The physical neighbours of record [i]. *)
Lemma tiles_split (S : list (Z * list Z)) (F k : Z) (r : list Z) (i : nat) :
  tiles S F -> S !! i = Some (k, r) -> Forall (fun s => rec_ok (snd s)) S ->
  exists A B, A ++ B ≡ₚ delete i S /\ chain DESCR_SIZE A k /\ chain (k + lenZ r) B F
  /\ Forall (fun s => rec_ok (snd s)) A /\ Forall (fun s => rec_ok (snd s)) B.
Proof.
  intros (P & HP & Hc) Hi Hr; pose proof (delete_Permutation S i (k, r) Hi) as Hd.
  assert ((k, r) ∈ P) as Hin by (rewrite HP, Hd; apply elem_of_cons; auto).
  apply list_elem_of_split in Hin as (A & B & ->); exists A, B.
  apply chain_app in Hc as (b & HA & Hkb & HB); subst b.
  assert (A ++ B ≡ₚ delete i S) as HAB.
  { apply Permutation_cons_inv with (k, r); by rewrite Permutation_middle, HP. }
  split; [done|]; split; [done|]; split; [done|].
  rewrite <- HP in Hr; apply Forall_app in Hr as [HrA HrB]; apply Forall_cons in HrB as [_ HrB]; done.
Qed.

Lemma tiles_delete (S : list (Z * list Z)) (F k : Z) (r : list Z) (i : nat) :
  tiles S F -> S !! i = Some (k, r) -> Forall (fun s => rec_ok (snd s)) S ->
  tiles (map (low_slot k (lenZ r)) (delete i S)) (F - lenZ r).
Proof.
  intros Ht Hi Hr; destruct (tiles_split _ _ _ _ _ Ht Hi Hr) as (A & B & HAB & HA & HB & RA & RB).
  assert (8 <= lenZ r) as Hlr.
  { rewrite Forall_forall in Hr; apply list_elem_of_lookup_2 in Hi; destruct (Hr _ Hi) as ((Hx & _) & _); exact Hx. }
  exists (A ++ map (low_slot k (lenZ r)) B); split.
  - rewrite <- HAB, map_app, (low_before _ _ DESCR_SIZE A) by done; done.
  - apply chain_app; exists k; split; [done|].
    replace k with (k + lenZ r - lenZ r) at 1 by lia; apply low_behind; done || lia.
Qed.

(** The other records are in front of the deleted one or behind it. *)
Lemma slot_apart (S : list (Z * list Z)) (F k o : Z) (r q : list Z) (i : nat) :
  tiles S F -> S !! i = Some (k, r) -> Forall (fun s => rec_ok (snd s)) S -> (o, q) ∈ delete i S ->
  o + lenZ q <= k \/ (k + lenZ r <= o /\ o + lenZ q <= F).
Proof.
  intros Ht Hi Hr Hin; destruct (tiles_split _ _ _ _ _ Ht Hi Hr) as (A & B & HAB & HA & HB & RA & RB).
  rewrite <- HAB in Hin; apply elem_of_app in Hin as [Hin|Hin].
  - left; by apply (chain_elem _ _ _ _ _ RA HA).
  - right; by apply (chain_elem _ _ _ _ _ RB HB).
Qed.

Section Delete.
Context (bt : btree) (Hbt : bt_ok bt).

#[local] Abbreviation size := (node_size_bytes bt).
#[local] Abbreviation cell := (cell bt).

(** The head of a node of [n] records whose table begins at [cell n]. *)
Definition headed (m : list Z) (n : Z) : Prop :=
  lenZ m = size /\ get16 m RECS_COUNT = n /\ 0 <= n /\ 40 + 4 * n <= size.

Lemma headed_same (m m' : list Z) (n lo hi : Z) :
  headed m n -> same_out m m' lo hi -> 32 <= lo -> headed m' n.
Proof.
  intros (L & C & Hn & Hs) Hm Hlo; split; [destruct Hm; lia|]; split; [|done].
  rewrite <- C; unfold RECS_COUNT; apply (same_out_get16 _ _ _ _ 14 Hm); lia.
Qed.

Lemma headed_get (b : bnode) (n j : Z) :
  headed (data b) n -> 0 <= j <= n -> get_offset bt b j = Ok (get32 (data b) (cell j)).
Proof using Hbt.
  intros (L & C & Hn & Hs) Hj; unfold get_offset; rewrite offset_addr_ok by (done || lia); cbn [mbind run_bind].
  apply rd32_ok; rewrite ?cell_eq; lia.
Qed.

(** One cell of the table is set. *)
Lemma headed_set (b : bnode) (n j v : Z) :
  headed (data b) n -> 0 <= j <= n -> DESCR_SIZE <= v < size ->
  exists m, check_set_offset bt b j v = Ok (0, set_data m b) /\ same_out (data b) m (cell j) (cell j + 4)
  /\ get32 m (cell j) = v /\ headed m n /\ (Forall is_byte (data b) -> Forall is_byte m).
Proof using Hbt.
  intros Hh Hj Hv; pose proof Hh as (L & C & Hn & Hs); unfold bt_ok in Hbt.
  eexists; split; [apply set_offset_ok; done || lia|].
  assert (same_out (data b) (upd_at (data b) (cell j) (le_bytes 4 v)) (cell j) (cell j + 4)) as Hso
    by (apply (same_out_upd (data b) (le_bytes 4 v) (cell j)); rewrite ?lenZ_le_bytes, cell_eq; lia).
  split; [done|]; split; [apply get32_wr; rewrite ?cell_eq; unfold DESCR_SIZE in Hv; lia|]; split.
  - eapply headed_same; [exact Hh|exact Hso|]; rewrite cell_eq; lia.
  - auto using Forall_upd_at, le_bytes_byte.
Qed.

Lemma lower_offsets_spec (fuel : nat) (d L n : Z) (f : Z -> Z) (i : Z) (b : bnode) :
  headed (data b) n -> 0 <= i <= n -> n - i <= Z.of_nat fuel -> 0 <= L ->
  (forall j, i <= j < n -> get32 (data b) (cell j) = f j) ->
  (forall j, i <= j < n -> DESCR_SIZE <= lower d L (f j) < size) ->
  exists m, lower_offsets bt fuel i d L b = Ok (0, set_data m b)
  /\ same_out (data b) m (cell n + 4) (cell i + 4) /\ headed m n
  /\ (forall j, i <= j < n -> get32 m (cell j) = lower d L (f j))
  /\ (Forall is_byte (data b) -> Forall is_byte m).
Proof using Hbt.
  revert i b; induction fuel as [|fuel IH]; intros i b Hh Hi Hfu HL Hf Hlow; cbn [lower_offsets];
    pose proof Hh as (Hl & Hc & Hn & Hs); unfold bt_ok, DESCR_SIZE in *;
    rewrite (rd16_ok (data b) RECS_COUNT) by (unfold RECS_COUNT; lia); cbn [mbind run_bind]; rewrite Hc.
  { rewrite (proj2 (Z.leb_le n i)) by lia; exists (data b); split; [by destruct b|].
    split; [apply same_out_refl|]; split; [done|]; split; [lia|done]. }
  destruct (Z.leb_spec n i).
  { exists (data b); split; [by destruct b|]; split; [apply same_out_refl|]; split; [done|]; split; [lia|done]. }
  rewrite (headed_get b n i Hh) by lia; cbn [mbind run_bind]; rewrite Hf by lia.
  destruct (Z.ltb_spec d (f i)) as [Hd|Hd].
  - pose proof (Hlow i ltac:(lia)) as Hv; unfold lower in Hv; rewrite (proj2 (Z.ltb_lt d (f i))) in Hv by done.
    rewrite u32_small by lia.
    destruct (headed_set b n i (f i - L) Hh ltac:(lia) Hv) as (m1 & -> & H1 & G1 & Hh1 & B1); cbn [mbind run_bind Z.eqb negb].
    destruct (IH (i + 1) (set_data m1 b)) as (m & E & Hm & Hhm & Gm & Bm); rewrite ?data_set; auto; try lia.
    { intros j Hj; rewrite (same_out_get32 _ _ _ _ (cell j) H1) by (rewrite ?cell_eq; lia); apply Hf; lia. }
    { intros j Hj; apply Hlow; lia. }
    rewrite E, set_set; rewrite data_set in Hm, Bm; exists m; split; [done|].
    split; [apply same_out_trans with m1; eapply same_out_mono; [exact H1| | |exact Hm| |]; rewrite ?cell_eq; lia|].
    split; [done|]; split; [|auto]; intros j Hj; destruct (decide (j = i)) as [->|]; [|apply Gm; lia].
    rewrite (same_out_get32 _ _ _ _ (cell i) Hm), G1 by (rewrite ?cell_eq; destruct H1; lia).
    unfold lower; by rewrite (proj2 (Z.ltb_lt d (f i))) by done.
  - destruct (IH (i + 1) b) as (m & E & Hm & Hhm & Gm & Bm); auto; try lia.
    { intros j Hj; apply Hf; lia. }
    { intros j Hj; apply Hlow; lia. }
    exists m; split; [done|]; split; [eapply same_out_mono; [exact Hm| |]; rewrite ?cell_eq; lia|].
    split; [done|]; split; [|done]; intros j Hj; destruct (decide (j = i)) as [->|]; [|apply Gm; lia].
    rewrite (same_out_get32 _ _ _ _ (cell i) Hm), Hf by (rewrite ?cell_eq; lia).
    unfold lower; by rewrite (proj2 (Z.ltb_ge d (f i))) by done.
Qed.

Lemma shift_offsets_spec (fuel : nat) (n : Z) (g : Z -> Z) (i : Z) (b : bnode) :
  headed (data b) n -> 0 <= i <= n -> n - i <= Z.of_nat fuel ->
  (forall j, i <= j <= n -> get32 (data b) (cell j) = g j) ->
  (forall j, i <= j <= n -> DESCR_SIZE <= g j < size) ->
  exists m, shift_offsets bt fuel i b = Ok (0, set_data m b)
  /\ same_out (data b) m (cell n + 4) (cell i + 4) /\ headed m n
  /\ (forall j, i <= j < n -> get32 m (cell j) = g (j + 1))
  /\ (Forall is_byte (data b) -> Forall is_byte m).
Proof using Hbt.
  revert i b; induction fuel as [|fuel IH]; intros i b Hh Hi Hfu Hg Hr; cbn [shift_offsets];
    pose proof Hh as (Hl & Hc & Hn & Hs); unfold bt_ok, DESCR_SIZE in *;
    rewrite (rd16_ok (data b) RECS_COUNT) by (unfold RECS_COUNT; lia); cbn [mbind run_bind]; rewrite Hc.
  { rewrite (proj2 (Z.leb_le n i)) by lia; exists (data b); split; [by destruct b|].
    split; [apply same_out_refl|]; split; [done|]; split; [lia|done]. }
  destruct (Z.leb_spec n i).
  { exists (data b); split; [by destruct b|]; split; [apply same_out_refl|]; split; [done|]; split; [lia|done]. }
  rewrite (headed_get b n (i + 1) Hh) by lia; cbn [mbind run_bind]; rewrite Hg, u32_small by lia.
  destruct (headed_set b n i (g (i + 1)) Hh ltac:(lia)) as (m1 & -> & H1 & G1 & Hh1 & B1); [apply Hr; lia|].
  cbn [mbind run_bind Z.eqb negb].
  destruct (IH (i + 1) (set_data m1 b)) as (m & E & Hm & Hhm & Gm & Bm); rewrite ?data_set; auto; try lia.
  { intros j Hj; rewrite (same_out_get32 _ _ _ _ (cell j) H1) by (rewrite ?cell_eq; lia); apply Hg; lia. }
  { intros j Hj; apply Hr; lia. }
  rewrite E, set_set; rewrite data_set in Hm, Bm; exists m; split; [done|].
  split; [apply same_out_trans with m1; eapply same_out_mono; [exact H1| | |exact Hm| |]; rewrite ?cell_eq; lia|].
  split; [done|]; split; [|auto]; intros j Hj; destruct (decide (j = i)) as [->|]; [|apply Gm; lia].
  rewrite (same_out_get32 _ _ _ _ (cell i) Hm), G1 by (rewrite ?cell_eq; destruct H1; lia); done.
Qed.

(** The table after both loops. *)
Lemma offsets_deleted (fuel : nat) (b : bnode) (m : list Z) (S : list (Z * list Z)) (F k : Z) (r : list Z) (i : Z) :
  2 ^ 16 <= Z.of_nat fuel ->
  layout bt m S F -> getZ S i = Some (k, r) -> same_out m (data b) k F -> Forall is_byte (data b) ->
  exists m2 m3, lower_offsets bt fuel 0 k (lenZ r) b = Ok (0, set_data m2 b)
  /\ shift_offsets bt fuel i (set_data m2 b) = Ok (0, set_data m3 b)
  /\ same_out (data b) m3 (cell (lenZ S) + 4) (size - 4) /\ Forall is_byte m3
  /\ (forall j, 0 <= j < lenZ S - 1 ->
        get32 m3 (cell j) = lower k (lenZ r) (off_of S F (if j <? i then j else j + 1))).
Proof using Hbt.
  intros Hfu Hl Hi Hm1 Hb; pose proof (getZ_bounds _ _ _ Hi) as Hin; pose proof (layout_bounds bt _ _ _ Hl) as [Hlo Hhi].
  pose proof (getZ_elem _ _ _ Hi) as Hel; pose proof (slot_bounds bt _ _ _ _ _ Hl Hel) as (Hk1 & Hk2 & Hk3).
  pose proof (ly_len _ _ _ _ Hl) as Hlen; unfold bt_ok, DESCR_SIZE in *; set (n := lenZ S) in *.
  assert (headed m n) as Hh0 by (repeat split; [done|apply (ly_count _ _ _ _ Hl)|lia..]).
  pose proof (headed_same _ _ _ _ _ Hh0 Hm1 ltac:(lia)) as Hh.
  assert (forall j, 0 <= j <= n -> get32 (data b) (cell j) = off_of S F j) as Hcells.
  { intros j Hj; rewrite (same_out_get32 _ _ _ _ (cell j) Hm1) by (rewrite ?cell_eq; lia); by apply (ly_table _ _ _ _ Hl). }
  assert (forall j, 0 <= j < n -> j <> i -> 32 <= lower k (lenZ r) (off_of S F j) < size) as Hlow.
  { intros j Hj Hne; destruct (getZ_is_Some S j Hj) as ([o q] & Ej); unfold off_of; rewrite Ej.
    pose proof (slot_bounds bt _ _ _ _ _ Hl (getZ_elem _ _ _ Ej)) as (Ho1 & Ho2 & _); unfold DESCR_SIZE in Ho1.
    unfold getZ in Hi, Ej; rewrite (proj2 (Z.ltb_ge i 0)) in Hi by lia; rewrite (proj2 (Z.ltb_ge j 0)) in Ej by lia.
    assert ((o, q) ∈ delete (Z.to_nat i) S) as Hd.
    { apply list_elem_of_lookup; destruct (decide (j < i)) as [Hlt|Hge].
      - exists (Z.to_nat j); rewrite list_lookup_delete_lt by lia; done.
      - exists (Z.to_nat (j - 1)); rewrite list_lookup_delete_ge by lia.
        replace (Datatypes.S (Z.to_nat (j - 1))) with (Z.to_nat j) by lia; done. }
    pose proof (slot_apart _ _ _ _ _ _ _ (ly_tiles _ _ _ _ Hl) Hi (ly_recs _ _ _ _ Hl) Hd) as Hap.
    pose proof (lenZ_nonneg q); unfold lower; destruct (Z.ltb_spec k o); lia. }
  assert (lower k (lenZ r) (off_of S F i) = k) as Hself
    by (unfold off_of, lower; rewrite Hi, (proj2 (Z.ltb_ge k k)) by lia; done).
  assert (forall j, 0 <= j < n -> 32 <= lower k (lenZ r) (off_of S F j) < size) as Hlow'.
  { intros j Hj; destruct (decide (j = i)) as [->|]; [rewrite Hself; lia|by apply Hlow]. }
  destruct (lower_offsets_spec fuel k (lenZ r) n (off_of S F) 0 b Hh) as (m2 & E2 & H2 & Hh2 & G2 & B2);
    auto; try (unfold DESCR_SIZE; lia); [intros; apply Hcells; lia|].
  set (g := fun j => if j <? n then lower k (lenZ r) (off_of S F j) else F).
  destruct (shift_offsets_spec fuel n g i (set_data m2 b)) as (m3 & E3 & H3 & Hh3 & G3 & B3);
    rewrite ?data_set; auto; try lia.
  { intros j Hj; unfold g; destruct (Z.ltb_spec j n); [apply G2; lia|].
    rewrite (same_out_get32 _ _ _ _ (cell j) H2), Hcells by (rewrite ?cell_eq; destruct Hm1; lia).
    unfold off_of; rewrite getZ_None by (subst n; lia); done. }
  { intros j Hj; unfold g, DESCR_SIZE; destruct (Z.ltb_spec j n); [apply Hlow'; lia|lia]. }
  rewrite data_set in H3, B3; rewrite set_set in E3; exists m2, m3; split; [done|]; split; [done|]; split.
  { apply same_out_trans with m2; eapply same_out_mono; [exact H2| | |exact H3| |]; rewrite ?cell_eq; lia. }
  split; [auto|]; intros j Hj; destruct (Z.ltb_spec j i).
  - rewrite (same_out_get32 _ _ _ _ (cell j) H3) by (rewrite ?cell_eq; destruct Hh2; lia); apply G2; lia.
  - rewrite G3 by lia; unfold g; rewrite (proj2 (Z.ltb_lt _ _)) by lia; done.
Qed.

Lemma getZ_map {A B : Type} (f : A -> B) (l : list A) (j : Z) : getZ (map f l) j = f <$> getZ l j.
Proof. unfold getZ; destruct (j <? 0); [done|]; apply list_lookup_fmap. Qed.

Lemma getZ_delete (S : list (Z * list Z)) (i j : Z) :
  0 <= i -> 0 <= j -> getZ (delete (Z.to_nat i) S) j = getZ S (if j <? i then j else j + 1).
Proof.
  intros Hi Hj; unfold getZ; destruct (Z.ltb_spec j 0); [lia|]; destruct (Z.ltb_spec j i).
  - destruct (Z.ltb_spec j 0); [lia|]; apply list_lookup_delete_lt; lia.
  - destruct (Z.ltb_spec (j + 1) 0); [lia|]; rewrite list_lookup_delete_ge by lia; f_equal; lia.
Qed.

(** The node after the table and the counters of the deleted record are
    updated. *)
Lemma deleted_layout (m m1 m3 m6 : list Z) (S : list (Z * list Z)) (F k : Z) (r : list Z) (i : Z) :
  layout bt m S F -> getZ S i = Some (k, r) ->
  m1 = upd_at m k (sub m (k + lenZ r) (F - k - lenZ r)) ->
  same_out m1 m3 (cell (lenZ S) + 4) (size - 4) ->
  (forall j, 0 <= j < lenZ S - 1 ->
     get32 m3 (cell j) = lower k (lenZ r) (off_of S F (if j <? i then j else j + 1))) ->
  lenZ m6 = size -> Forall is_byte m6 ->
  (forall x, DESCR_SIZE <= x < F - lenZ r \/ cell (lenZ S - 2) <= x -> getZ m6 x = getZ m3 x) ->
  get32 m6 (cell (lenZ S - 1)) = F - lenZ r -> get16 m6 RECS_COUNT = lenZ S - 1 ->
  get16 m6 FREE_SPACE = cell (lenZ S - 1) - (F - lenZ r) ->
  layout bt m6 (map (low_slot k (lenZ r)) (delete (Z.to_nat i) S)) (F - lenZ r).
Proof using Hbt.
  intros Hl Hi E1 H3 G3 L6 B6 H6 T6 C6 F6; pose proof (getZ_bounds _ _ _ Hi) as Hin.
  pose proof (layout_bounds bt _ _ _ Hl) as [Hlo Hhi]; pose proof (getZ_elem _ _ _ Hi) as Hel.
  pose proof (slot_bounds bt _ _ _ _ _ Hl Hel) as (Hk1 & Hk2 & Hk3); pose proof Hl as [Hlen Hby Ht Hr Hd Htab _ _ _].
  unfold bt_ok, DESCR_SIZE in *; set (n := lenZ S) in *; rewrite !cell_eq in *.
  assert (S !! Z.to_nat i = Some (k, r)) as Hi' by (unfold getZ in Hi; by rewrite (proj2 (Z.ltb_ge _ _)) in Hi by lia).
  assert (lenZ (sub m (k + lenZ r) (F - k - lenZ r)) = F - k - lenZ r) as Ev by (apply lenZ_sub; lia).
  assert (lenZ m1 = size) as L1 by (rewrite E1, lenZ_upd_at by lia; done).
  assert (lenZ (map (low_slot k (lenZ r)) (delete (Z.to_nat i) S)) = n - 1) as Hlen'.
  { unfold lenZ; rewrite length_map, length_delete by (by eexists); subst n; unfold lenZ in Hin |- *; lia. }
  assert (forall o q, 32 <= o -> 0 <= q -> o + q <= F - lenZ r -> sub m6 o q = sub m1 o q) as Hsub.
  { intros o q Ho Hq He; apply sub_ext; try lia; intros x Hx; rewrite H6 by lia; apply H3; lia. }
  split; auto; rewrite ?Hlen', ?cell_eq; try lia.
  - by apply tiles_delete.
  - apply Forall_map; cbn; by apply Forall_delete.
  - apply Forall_map, Forall_forall; intros [o q] Hoq; cbn [fst snd low_slot].
    assert ((o, q) ∈ S) as HS by (rewrite (delete_Permutation S _ _ Hi'); apply elem_of_cons; auto).
    rewrite Forall_forall in Hd; specialize (Hd _ HS); cbn in Hd; transitivity (sub m o (lenZ q)); [|exact Hd].
    pose proof (slot_bounds bt _ _ _ _ _ Hl HS) as (Ho1 & Ho2 & Ho3); unfold DESCR_SIZE in Ho1.
    destruct (slot_apart _ _ _ _ _ _ _ Ht Hi' Hr Hoq) as [Hap|[Hap _]]; unfold lower.
    + rewrite (proj2 (Z.ltb_ge _ _)), Hsub by lia; rewrite E1; apply sub_upd_out; lia.
    + rewrite (proj2 (Z.ltb_lt _ _)), Hsub, E1 by lia; rewrite sub_upd_in by lia; rewrite sub_sub by lia; f_equal; lia.
  - intros j Hj; destruct (decide (j = n - 1)) as [->|].
    { rewrite cell_eq, T6; unfold off_of; rewrite getZ_None; [done|lia]. }
    replace (get32 m6 (cell j)) with (get32 m3 (cell j)).
    2: { unfold get32; f_equal; apply sub_ext; rewrite ?cell_eq; try (destruct H3; lia).
      intros x Hx; symmetry; apply H6; lia. }
    rewrite G3 by lia; unfold off_of; rewrite getZ_map, getZ_delete by lia.
    destruct (getZ_is_Some S (if j <? i then j else j + 1)) as ([o q] & Eo); [destruct (j <? i); subst n; lia|].
    rewrite Eo; done.
Qed.

(** Poisoning the free space leaves the records and the table alone. *)
Lemma poison_spec (b : bnode) (S : list (Z * list Z)) (F : Z) :
  layout bt (data b) S F ->
  exists m, poison_free_space bt b = Ok (0, set_data m b) /\ layout bt m S F /\ ids m = ids (data b).
Proof using Hbt.
  intros Hl; pose proof (layout_bounds bt _ _ _ Hl) as [Hlo Hhi]; pose proof Hl as [Hlen Hby Ht Hr Hd Htab Hc Hf Hfit].
  pose proof (lenZ_nonneg S) as Hn; unfold bt_ok, DESCR_SIZE, poison_free_space, RECS_COUNT, FREE_SPACE in *; rewrite !cell_eq in *.
  rewrite (rd16_ok (data b) 14) by lia; cbn [mbind run_bind]; rewrite Hc, offset_addr_ok by (done || lia); cbn [mbind run_bind].
  rewrite rd32_ok, Htab by (rewrite ?cell_eq; lia); cbn [mbind run_bind].
  unfold off_of; rewrite getZ_None by lia; rewrite offset_correct by (unfold DESCR_SIZE; lia); cbn [negb].
  rewrite (rd16_ok (data b) 12) by lia; cbn [mbind run_bind]; rewrite Hf, cell_eq, Z.eqb_refl; cbn [negb bug_on mbind run_bind].
  set (v := replicate _ _); assert (lenZ v = size - 8 - 4 * lenZ S - F) as Ev by (unfold v, lenZ in *; rewrite length_replicate; lia).
  rewrite blit_upd by lia; cbn [mbind run_bind]; eexists; split; [done|].
  pose proof (same_out_upd (data b) v F ltac:(lia) ltac:(lia)) as Hm; set (m := upd_at _ _ _) in *.
  split; [|unfold ids, NODE_ID; apply (same_out_sub _ _ _ _ 16 16 Hm); lia]; split; auto; rewrite ?cell_eq.
  - destruct Hm; congruence.
  - apply Forall_upd_at; [done|]; unfold v; apply Forall_replicate; unfold is_byte; lia.
  - rewrite Forall_forall in Hd |- *; intros [o q] Hin; specialize (Hd _ Hin); cbn [fst snd] in *.
    pose proof (slot_bounds bt _ _ _ _ _ Hl Hin) as (Ho1 & Ho2 & Ho3); unfold DESCR_SIZE in Ho1.
    rewrite (same_out_sub _ _ _ _ o (lenZ q) Hm) by lia; done.
  - intros j Hj; rewrite (same_out_get32 _ _ _ _ (cell j) Hm) by (rewrite ?cell_eq; lia); auto.
  - unfold RECS_COUNT; rewrite (same_out_get16 _ _ _ _ 14 Hm) by lia; done.
  - unfold FREE_SPACE; rewrite (same_out_get16 _ _ _ _ 12 Hm) by lia; done.
  - lia.
Qed.

Lemma delete_from_node_full (b : bnode) (S : list (Z * list Z)) (F i k : Z) (r : list Z) :
  layout bt (data b) S F -> getZ S i = Some (k, r) ->
  exists m, delete_from_node bt b i = Ok (0, vdfs4_mark_bnode_dirty (set_data m b))
  /\ layout bt m (map (low_slot k (lenZ r)) (delete (Z.to_nat i) S)) (F - lenZ r) /\ ids m = ids (data b).
Proof using Hbt.
  intros Hl Hi; pose proof (getZ_bounds _ _ _ Hi) as Hin; pose proof (layout_bounds bt _ _ _ Hl) as [Hlo Hhi].
  pose proof (getZ_elem _ _ _ Hi) as Hel; pose proof (slot_bounds bt _ _ _ _ _ Hl Hel) as (Hk1 & Hk2 & Hk3).
  pose proof Hl as [Hlen Hby Ht Hr Hd Htab Hc Hf Hfit]; unfold bt_ok, DESCR_SIZE, VDFS4_MAX_BTREE_REC_LEN in *.
  assert (off_of S F i = k) as Eoff by (unfold off_of; by rewrite Hi).
  assert (get16 (data b) (k + RECORD_LEN) = lenZ r) as Erl.
  { rewrite Forall_forall in Hd, Hr; destruct (Hr _ Hel) as (_ & Er & _); specialize (Hd _ Hel); cbn [fst snd] in *.
    rewrite <- Er, <- Hd; unfold get16; rewrite sub_sub by (unfold RECORD_LEN; rewrite ?Hd; lia); done. }
  assert (2 ^ 16 <= Z.of_nat turns) as Htu by (unfold turns; lia).
  unfold delete_from_node; generalize dependent turns; intros fuel Hfu.
  rewrite (get_record_ok bt Hbt b S F i) by (done || lia); cbn [mbind run_bind]; rewrite Eoff.
  rewrite (rd16_ok (data b) (k + RECORD_LEN)) by (unfold RECORD_LEN; lia); cbn [mbind run_bind]; rewrite Erl.
  rewrite (rd16_ok (data b) RECS_COUNT) by (unfold RECS_COUNT; lia); cbn [mbind run_bind]; rewrite Hc.
  rewrite (get_offset_ok bt Hbt b S F (lenZ S)) by (done || lia); cbn [mbind run_bind].
  assert (off_of S F (lenZ S) = F) as EF by (unfold off_of; by rewrite getZ_None by lia); rewrite EF.
  rewrite (u32_small i), (get_offset_ok bt Hbt b S F i), Eoff by (done || lia); cbn [mbind run_bind].
  rewrite !offset_correct by (unfold DESCR_SIZE; lia); cbn [negb orb].
  rewrite (proj2 (Z.ltb_ge VDFS4_MAX_BTREE_REC_LEN (lenZ r))) by (unfold VDFS4_MAX_BTREE_REC_LEN; lia).
  rewrite (u32_small (F - k - lenZ r)), memmove_ok by lia; cbn [mbind run_bind].
  assert (lenZ (sub (data b) (k + lenZ r) (F - k - lenZ r)) = F - k - lenZ r) as Ev by (apply lenZ_sub; lia).
  pose proof (same_out_upd (data b) (sub (data b) (k + lenZ r) (F - k - lenZ r)) k ltac:(lia) ltac:(lia)) as H1.
  set (m1 := upd_at (data b) k _) in *; assert (lenZ m1 = size) as L1 by (destruct H1; congruence).
  destruct (offsets_deleted fuel (set_data m1 b) (data b) S F k r i Hfu Hl Hi) as (m2 & m3 & E2 & E3 & H3 & B3 & G3); rewrite ?data_set.
  { eapply same_out_mono; [exact H1|lia|lia]. }
  { unfold m1; auto using Forall_upd_at, Forall_sub. }
  rewrite data_set in H3; rewrite !set_set in E2; rewrite !set_set in E3; rewrite E2; cbn [mbind run_bind Z.eqb negb].
  rewrite E3; cbn [mbind run_bind Z.eqb negb]; rewrite data_set.
  assert (lenZ m3 = size) as L3 by (destruct H3; congruence); rewrite cell_eq in H3.
  unfold RECS_COUNT, FREE_SPACE in *; rewrite (rd16_ok m3 14) by lia; cbn [mbind run_bind].
  rewrite (same_out_get16 _ _ _ _ 14 H3), (same_out_get16 _ _ _ _ 14 H1), Hc, (u16_small (_ - 1)) by lia.
  destruct (wr16_step m3 14 (lenZ S - 1)) as (m4 & -> & L4 & H4 & V4 & B4); [lia..|]; cbn [mbind run_bind].
  rewrite (rd16_ok m4 12) by lia; cbn [mbind run_bind].
  rewrite (same_out_get16 _ _ _ _ 12 H4), (same_out_get16 _ _ _ _ 12 H3), (same_out_get16 _ _ _ _ 12 H1), Hf, cell_eq by lia.
  rewrite u16_small by lia; set (free := size - 8 - 4 * lenZ S - F + lenZ r + 4).
  destruct (wr16_step m4 12 free) as (m5 & -> & L5 & H5 & V5 & B5); [lia..|]; cbn [mbind run_bind].
  rewrite (rd16_ok m5 14), (same_out_get16 _ _ _ _ 14 H5), V4 by lia; cbn [mbind run_bind].
  destruct (headed_set (set_data m5 b) (lenZ S - 1) (lenZ S - 1) (F - lenZ r)) as (m6 & E6 & H6 & G6 & Hh6 & B6);
    [unfold headed, RECS_COUNT; rewrite data_set, (same_out_get16 _ _ _ _ 14 H5), V4; lia|lia|unfold DESCR_SIZE; lia|].
  rewrite data_set in H6, B6; rewrite set_set in E6 |- *; rewrite (u32_small (F - lenZ r)), E6 by lia; cbn [mbind run_bind Z.eqb negb].
  rewrite cell_eq in H6.
  assert (layout bt m6 (map (low_slot k (lenZ r)) (delete (Z.to_nat i) S)) (F - lenZ r)) as Hfin.
  { apply (deleted_layout (data b) m1 m3 m6 S F k r i Hl Hi); auto.
    - rewrite cell_eq; exact H3.
    - apply Hh6.
    - intros x Hx; rewrite cell_eq in Hx; unfold DESCR_SIZE in Hx; destruct H6 as [_ H6], H5 as [_ H5], H4 as [_ H4].
      rewrite H6, H5, H4 by lia; done.
    - unfold RECS_COUNT; rewrite (same_out_get16 _ _ _ _ 14 H6), (same_out_get16 _ _ _ _ 14 H5), V4 by lia; done.
    - unfold FREE_SPACE; rewrite (same_out_get16 _ _ _ _ 12 H6), V5, cell_eq by lia; unfold free; lia. }
  assert (ids m6 = ids (data b)) as Hids.
  { unfold ids, NODE_ID; rewrite (same_out_sub _ _ _ _ 16 16 H6), (same_out_sub _ _ _ _ 16 16 H5), (same_out_sub _ _ _ _ 16 16 H4), (same_out_sub _ _ _ _ 16 16 H3) by lia; apply (same_out_sub _ _ _ _ 16 16 H1); lia. }
  destruct (debug bt).
  - destruct (poison_spec (set_data m6 b) _ _ ltac:(by rewrite data_set)) as (m7 & -> & Hl7 & Hi7); cbn [mbind run_bind Z.eqb negb].
    rewrite set_set; exists m7; split; [done|]; split; [done|]; by rewrite Hi7, data_set.
  - cbn [mbind run_bind Z.eqb negb]; eauto.
Qed.

Lemma delete_from_node_spec (b : bnode) (S : list (Z * list Z)) (F i k : Z) (r : list Z) :
  layout bt (data b) S F -> getZ S i = Some (k, r) ->
  exists m, delete_from_node bt b i = Ok (0, vdfs4_mark_bnode_dirty (set_data m b))
  /\ layout bt m (map (low_slot k (lenZ r)) (delete (Z.to_nat i) S)) (F - lenZ r).
Proof using Hbt. intros Hl Hi; destruct (delete_from_node_full b S F i k r Hl Hi) as (m & E & H & _); eauto. Qed.

End Delete.
