(* ===== verification/BnodeSearch.v ===== *)
(** Searching a node and checking it (binary_search and
    vdfs4_bnode_sanity_check of src/linux/fs/vdfs4/btree.c). *)

From Stdlib Require Import ZArith Lia Bool List.
From stdpp Require Import base list.
From S2P Require Import Prelude Bytes Buffer TreeKeys Bnode BnodeRep.

Open Scope Z_scope.

Lemma drop_sub (m : list Z) (o n : Z) :
  0 <= o -> 0 <= n -> drop (Z.to_nat o) m = sub m o n ++ drop (Z.to_nat (o + n)) m.
Proof.
  intros Ho Hn; unfold sub; rewrite <- (take_drop (Z.to_nat n) (drop (Z.to_nat o) m)) at 1; f_equal.
  rewrite drop_drop; f_equal; lia.
Qed.

(** The records are in strictly ascending order as far as [key] can tell: what is
    in front of a record that is not above the key is below the key. *)
Definition ascending (comp_fn : list Z -> list Z -> Z) (key : list Z) (R : list (list Z)) : Prop :=
  forall i j r q, (i < j)%nat -> R !! i = Some r -> R !! j = Some q -> comp_fn q key <= 0 -> comp_fn r key < 0.

(** Position [p] holds the last record that is not above the key. *)
Definition floor_at (comp_fn : list Z -> list Z -> Z) (key : list Z) (R : list (list Z)) (p : Z) : Prop :=
  (exists r, getZ R p = Some r /\ comp_fn r key <= 0)
  /\ forall j r, p < j -> getZ R j = Some r -> 0 < comp_fn r key.

(** Records in strictly ascending order. *)
Definition sorted (comp_fn : list Z -> list Z -> Z) (R : list (list Z)) : Prop :=
  forall i j r q, (i < j)%nat -> R !! i = Some r -> R !! j = Some q -> comp_fn r q < 0.

Lemma sorted_ascending {comp_fn : list Z -> list Z -> Z} {valid : list Z -> Prop} `{KeyCmp comp_fn valid} (R : list (list Z)) (key : list Z) :
  Forall valid R -> valid key -> sorted comp_fn R -> ascending comp_fn key R.
Proof.
  intros Hv Hk Hs i j r q Hij Hr Hq Hle; rewrite Forall_forall in Hv.
  apply cmp_trans with q; eauto using list_elem_of_lookup_2.
Qed.

Section Search.
Context (bt : btree) (Hbt : bt_ok bt) {comp_fn : list Z -> list Z -> Z} {valid : list Z -> Prop} `{Hcmp : KeyCmp comp_fn valid}.

#[local] Abbreviation size := (node_size_bytes bt).

Lemma getZ_snd (S : list (Z * list Z)) (j : Z) : getZ (map snd S) j = snd <$> getZ S j.
Proof. unfold getZ; destruct (j <? 0); [done|]; apply list_lookup_fmap. Qed.

(** The comparison the code makes at the offset of record [j]. *)
Lemma comp_at (m : list Z) (S : list (Z * list Z)) (F j : Z) (key : list Z) :
  layout bt m S F -> Forall valid (map snd S) -> 0 <= j < lenZ S ->
  exists r, getZ (map snd S) j = Some r /\ comp_fn (drop (Z.to_nat (off_of S F j)) m) key = comp_fn r key.
Proof.
  intros Hl Hva Hj; destruct (getZ_is_Some S j Hj) as ([o r] & E); exists r; rewrite getZ_snd, E; split; [done|].
  unfold off_of; rewrite E; apply getZ_elem in E; pose proof (slot_bounds bt _ _ _ _ _ Hl E) as (Ho & _ & Hr).
  pose proof (ly_data _ _ _ _ Hl) as Hd; pose proof (ly_recs _ _ _ _ Hl) as Hrec; rewrite Forall_forall in Hd, Hrec.
  specialize (Hd _ E); specialize (Hrec _ E); cbn in Hd, Hrec; unfold DESCR_SIZE in Ho.
  rewrite (drop_sub m o (lenZ r)), Hd by lia; apply key_local.
  rewrite Forall_forall in Hva; apply Hva; change r with (snd (o, r)); apply (list_elem_of_fmap_2 snd); exact E.
Qed.

Lemma search_loop_spec (fuel : nat) (b : bnode) (S : list (Z * list Z)) (F : Z) (key : list Z) (first last : Z) (f q : list Z) :
  layout bt (data b) S F -> Forall valid (map snd S) -> ascending comp_fn key (map snd S) ->
  0 <= first < last -> last < lenZ S -> last - first <= Z.of_nat fuel ->
  getZ (map snd S) first = Some f -> comp_fn f key <= 0 ->
  getZ (map snd S) last = Some q -> 0 < comp_fn q key ->
  exists p, search_loop bt comp_fn fuel b key first last (off_of S F first) = Ok (Val (off_of S F p), p)
  /\ 0 <= p < lenZ S /\ floor_at comp_fn key (map snd S) p.
Proof using Hbt Hcmp.
  intros Hl Hva Hasc; revert first last f q; induction fuel as [|fuel IH]; intros first last f q Hfl Hlast Hfu Ef Hf Eq Hq; [lia|].
  assert (forall i j r t, i < j -> getZ (map snd S) i = Some r -> getZ (map snd S) j = Some t ->
    comp_fn t key <= 0 -> comp_fn r key < 0) as Hasc'.
  { intros i j r t Hij Ei Ej; pose proof (getZ_bounds _ _ _ Ei); unfold getZ in Ei, Ej.
    rewrite (proj2 (Z.ltb_ge i 0)) in Ei by lia; rewrite (proj2 (Z.ltb_ge j 0)) in Ej by lia.
    apply (Hasc (Z.to_nat i) (Z.to_nat j)); [lia|done|done]. }
  cbn [search_loop]; destruct (Z.leb_spec (last - 1) first).
  { exists first; split; [done|]; split; [lia|]; split; [eauto|]; intros j r Hj Er.
    destruct (decide (j = last)) as [->|]; [congruence|].
    destruct (Z.leb_spec (comp_fn r key) 0) as [Hle|]; [|lia].
    pose proof (Hasc' last j q r ltac:(lia) Eq Er Hle); lia. }
  set (mid := first + Z.shiftr (last + 1 - first) 1).
  assert (first < mid < last) as Hmid.
  { unfold mid; rewrite Z.shiftr_div_pow2 by lia; change (2 ^ 1) with 2.
    pose proof (Z.div_mod (last + 1 - first) 2 ltac:(lia)); pose proof (Z.mod_pos_bound (last + 1 - first) 2 ltac:(lia)); lia. }
  rewrite (get_record_ok bt Hbt b S F mid) by (done || lia); cbn [mbind run_bind].
  destruct (comp_at (data b) S F mid key Hl Hva ltac:(lia)) as (r & Er & ->).
  destruct (Z.eqb_spec (comp_fn r key) 0) as [E0|N0].
  { exists mid; split; [done|]; split; [lia|]; split; [exists r; split; [done|lia]|]; intros j t Hj Et.
    destruct (Z.leb_spec (comp_fn t key) 0) as [Hle|]; [|lia].
    pose proof (Hasc' mid j r t ltac:(lia) Er Et Hle); lia. }
  destruct (Z.ltb_spec (comp_fn r key) 0).
  - apply (IH mid last r q); auto; lia.
  - apply (IH first mid f r); auto; lia.
Qed.

(** [binary_search] finds the floor of the key, or reports -ENOENT when the key is
    below the first record. *)
Lemma binary_search_spec (b : bnode) (S : list (Z * list Z)) (F : Z) (key : list Z) :
  layout bt (data b) S F -> Forall valid (map snd S) -> 0 < lenZ S -> ascending comp_fn key (map snd S) ->
  (exists p, binary_search bt comp_fn b key = Ok (Val (off_of S F p), p)
     /\ 0 <= p < lenZ S /\ floor_at comp_fn key (map snd S) p)
  \/ (binary_search bt comp_fn b key = Ok (Err (- ENOENT), -1)
      /\ Forall (fun r => 0 < comp_fn r key) (map snd S)).
Proof using Hbt Hcmp.
  intros Hl Hva Hn Hasc; pose proof (layout_bounds bt _ _ _ Hl); pose proof (ly_len _ _ _ _ Hl); unfold bt_ok, DESCR_SIZE in *.
  unfold binary_search; rewrite (rd16_ok (data b) RECS_COUNT) by (unfold RECS_COUNT; lia); cbn [mbind run_bind].
  rewrite (ly_count _ _ _ _ Hl), (get_record_ok bt Hbt b S F 0) by (done || lia); cbn [mbind run_bind].
  destruct (comp_at (data b) S F 0 key Hl Hva ltac:(lia)) as (f & Ef & ->).
  assert (map snd S !! 0%nat = Some f) as Ef' by exact Ef.
  destruct (Z.ltb_spec 0 (comp_fn f key)) as [Hf|Hf].
  { right; split; [done|]; apply Forall_lookup; intros i r Hr.
    destruct (decide (i = 0%nat)) as [->|Hi]; [congruence|].
    destruct (Z.leb_spec (comp_fn r key) 0) as [Hle|]; [|lia].
    pose proof (Hasc 0%nat i f r ltac:(lia) Ef' Hr Hle); lia. }
  left; destruct ((comp_fn f key =? 0) || (lenZ S - 1 =? 0)) eqn:E.
  { exists 0; split; [done|]; split; [lia|]; split; [eauto|]; intros j r Hj Er.
    pose proof (getZ_bounds _ _ _ Er) as Hb; assert (lenZ (map snd S) = lenZ S) as El by (unfold lenZ; by rewrite length_map).
    apply orb_true_iff in E as [E|E]; bools; [|lia].
    destruct (Z.leb_spec (comp_fn r key) 0) as [Hle|]; [|lia].
    unfold getZ in Er; rewrite (proj2 (Z.ltb_ge j 0)) in Er by lia.
    pose proof (Hasc 0%nat (Z.to_nat j) f r ltac:(lia) Ef' Er Hle); lia. }
  apply orb_false_iff in E as [_ E]; bools.
  rewrite (get_record_ok bt Hbt b S F (lenZ S - 1)) by (done || lia); cbn [mbind run_bind].
  destruct (comp_at (data b) S F (lenZ S - 1) key Hl Hva ltac:(lia)) as (q & Eq & ->).
  destruct (Z.leb_spec (comp_fn q key) 0) as [Hq|Hq].
  - exists (lenZ S - 1); split; [done|]; split; [lia|]; split; [eauto|]; intros j r Hj Er.
    pose proof (getZ_bounds _ _ _ Er) as Hb; unfold lenZ in *; rewrite length_map in Hb; lia.
  - eapply search_loop_spec; eauto; lia.
Qed.

(** ** The sanity check *)

Lemma sanity_offsets_spec (n : nat) (b : bnode) (S : list (Z * list Z)) (F c mn : Z) :
  layout bt (data b) S F -> 0 <= c -> c + Z.of_nat n = lenZ S ->
  exists x, sanity_offsets bt b n c mn = Ok (Some x) /\ x <= mn
  /\ (forall j, c <= j < lenZ S -> x <= off_of S F j)
  /\ (x = mn \/ exists j, c <= j < lenZ S /\ x = off_of S F j).
Proof using Hbt.
  intros Hl; pose proof (layout_bounds bt _ _ _ Hl); unfold bt_ok in Hbt; revert c mn.
  induction n as [|n IH]; intros c mn Hc Hn; cbn [sanity_offsets].
  { exists mn; split; [done|]; split; [lia|]; split; [intros; lia|auto]. }
  rewrite (get_offset_ok bt Hbt b S F c) by (done || lia); cbn [mbind run_bind].
  pose proof (off_bounds bt _ _ _ c Hl ltac:(lia)) as Ho; rewrite offset_correct by (unfold DESCR_SIZE in *; lia).
  destruct (IH (c + 1) (if off_of S F c <? mn then off_of S F c else mn)) as (x & E & Hx & Hall & Hor); [lia|lia|].
  rewrite E; exists x; split; [done|]; destruct (Z.ltb_spec (off_of S F c) mn) as [Hlt|Hge].
  - split; [lia|]; split; [intros j Hj; destruct (decide (j = c)) as [->|]; [lia|apply Hall; lia]|].
    right; destruct Hor as [->|(j & Hj & ->)]; [exists c|exists j]; split; auto; lia.
  - split; [lia|]; split; [intros j Hj; destruct (decide (j = c)) as [->|]; [lia|apply Hall; lia]|].
    destruct Hor as [->|(j & Hj & ->)]; [by left|right; exists j; split; auto; lia].
Qed.

Lemma sanity_records_spec (b : bnode) (P : list (Z * list Z)) (a F : Z) :
  lenZ (data b) = size -> 32 <= a -> F < size - 4 -> Forall (fun s => rec_ok (snd s)) P ->
  Forall (fun s => sub (data b) (fst s) (lenZ (snd s)) = snd s) P -> chain a P F ->
  sanity_records bt b (length P) a = Ok (Some F).
Proof using Hbt.
  intros Hl Ha HF Hr Hd; revert a Ha; unfold bt_ok in Hbt; induction P as [|[o r] P IH]; intros a Ha; cbn [length sanity_records chain].
  { by intros ->. }
  apply Forall_cons in Hr as [Hr0 Hr], Hd as [Hd0 Hd]; cbn [fst snd] in *; intros [-> Hc]; pose proof Hr0 as (H8 & Hrl & _).
  pose proof (chain_le _ _ _ Hr Hc); pose proof (lenZ_nonneg P).
  rewrite rd16_ok by (unfold RECORD_LEN; lia); cbn [mbind run_bind].
  replace (get16 (data b) (a + RECORD_LEN)) with (lenZ r).
  2: { rewrite <- Hrl, <- Hd0; unfold get16; rewrite sub_sub by (unfold RECORD_LEN; rewrite ?Hd0; lia); done. }
  rewrite u32_small by lia; rewrite offset_correct by (unfold DESCR_SIZE; lia); apply IH; auto; lia.
Qed.

Lemma sanity_check_spec (b : bnode) (S : list (Z * list Z)) (F : Z) :
  layout bt (data b) S F -> lenZ S <= 1000 -> vdfs4_bnode_sanity_check bt b = Ok (true, b).
Proof using Hbt.
  intros Hl Hn; pose proof (layout_bounds bt _ _ _ Hl) as [Hlo Hhi]; pose proof Hl as [Hlen _ (P & HP & Hc) Hr Hd Ht Hcnt Hf _].
  pose proof (lenZ_nonneg S); unfold bt_ok, DESCR_SIZE in *; unfold vdfs4_bnode_sanity_check.
  rewrite (rd16_ok (data b) RECS_COUNT) by (unfold RECS_COUNT; lia); cbn [mbind run_bind]; rewrite Hcnt.
  destruct (node_id b =? 0); [done|]; destruct (Z.eqb_spec (lenZ S) 0) as [E0|N0].
  { rewrite (get_offset_ok bt Hbt b S F 0) by (done || lia); cbn [mbind run_bind].
    destruct S as [|s S]; [|unfold lenZ in E0; cbn in E0; lia].
    apply Permutation_nil_r in HP; subst P; cbn in Hc; subst F; done. }
  rewrite (rd16_ok (data b) FREE_SPACE) by (unfold FREE_SPACE; lia); cbn [mbind run_bind]; rewrite Hf, cell_eq.
  rewrite (proj2 (Z.ltb_ge size _)), (proj2 (Z.ltb_ge 1000 _)) by lia.
  destruct (sanity_offsets_spec (Z.to_nat (lenZ S)) b S F 0 size Hl ltac:(lia) ltac:(lia)) as (x & E & Hx & Hall & Hor).
  rewrite E; cbn [mbind run_bind].
  destruct P as [|[o r] P]; [apply Permutation_nil_l in HP; subst S; done|].
  assert ((o, r) ∈ S) as Hin by (rewrite <- HP; apply elem_of_cons; auto).
  assert (o = 32) as -> by apply Hc.
  assert (x = 32) as ->.
  { apply list_elem_of_lookup in Hin as (i & Ei); assert (off_of S F (Z.of_nat i) = 32) as Eo.
    { unfold off_of, getZ; rewrite (proj2 (Z.ltb_ge _ _)), Nat2Z.id, Ei by lia; done. }
    apply lookup_lt_Some in Ei; pose proof (Hall (Z.of_nat i) ltac:(unfold lenZ; lia)) as Hle; rewrite Eo in Hle.
    destruct Hor as [->|(j & Hj & ->)]; [lia|]; pose proof (off_bounds bt _ _ _ j Hl ltac:(lia)); unfold DESCR_SIZE in *; lia. }
  assert (Z.to_nat (lenZ S) = length ((32, r) :: P)) as -> by (unfold lenZ; rewrite Nat2Z.id, HP; done).
  rewrite (sanity_records_spec b ((32, r) :: P) 32 F) by (done || lia || by rewrite HP); cbn [mbind run_bind].
  rewrite (get_offset_ok bt Hbt b S F (lenZ S)) by (done || lia); cbn [mbind run_bind].
  unfold off_of; rewrite getZ_None, Z.eqb_refl by lia; done.
Qed.

End Search.
