(* ===== verification/BnodeSplit.v ===== *)
(** Splitting a node (split_bnode of src/linux/fs/vdfs4/btree.c). *)

From Stdlib Require Import ZArith Lia Bool List.
From stdpp Require Import base list.
From S2P Require Import Prelude Bytes Buffer Bnode BnodeRep BnodeSearch.

Open Scope Z_scope.

(** Bytes and table entries of a list of records. *)
Definition weight (R : list (list Z)) : Z := bytes R + 4 * lenZ R.

Lemma weight_app (A B : list (list Z)) : weight (A ++ B) = weight A + weight B.
Proof. unfold weight; rewrite bytes_app, lenZ_app; lia. Qed.

Lemma weight_cons (r : list Z) (A : list (list Z)) : weight (r :: A) = lenZ r + 4 + weight A.
Proof. unfold weight; rewrite lenZ_cons; change (bytes (r :: A)) with (lenZ r + bytes A); lia. Qed.

Lemma weight_nonneg (A : list (list Z)) : 0 <= weight A.
Proof. induction A as [|r A IH]; [done|]; rewrite weight_cons; pose proof (lenZ_nonneg r); lia. Qed.

Lemma weight_ins (pos : Z) (r : list Z) (A : list (list Z)) : weight (ins pos r A) = lenZ r + 4 + weight A.
Proof.
  assert (weight (ins pos r A) = weight (r :: A)) as -> by
    (unfold weight; rewrite lenZ_ins, lenZ_cons; rewrite (bytes_perm _ _ (ins_perm pos r A)); lia).
  apply weight_cons.
Qed.

Section Split.
Context (bt : btree) (Hbt : bt_ok bt).

#[local] Abbreviation size := (node_size_bytes bt).
#[local] Abbreviation cell := (cell bt).
#[local] Abbreviation recs := (map (@snd Z (list Z))).

Lemma lenZ_recs (S : list (Z * list Z)) : lenZ (recs S) = lenZ S.
Proof. unfold lenZ; by rewrite length_map. Qed.

(** The free space of a node in terms of its records. *)
Lemma layout_weight (m : list Z) (S : list (Z * list Z)) (F : Z) :
  layout bt m S F -> F = 32 + bytes (recs S) /\ weight (recs S) <= size - 40.
Proof.
  intros Hl; pose proof (layout_bounds bt _ _ _ Hl) as [_ Hhi]; destruct (ly_tiles _ _ _ _ Hl) as (P & HP & Hc).
  apply chain_bytes in Hc; unfold DESCR_SIZE in Hc.
  assert (bytes (recs P) = bytes (recs S)) as Ep by (apply bytes_perm; by rewrite HP).
  rewrite Ep in Hc; split; [done|]; unfold weight; rewrite lenZ_recs; lia.
Qed.

Lemma weight_fits (m : list Z) (S : list (Z * list Z)) (F L : Z) :
  layout bt m S F -> weight (recs S) + L + 4 <= size - 40 -> F + L + 4 <= cell (lenZ S).
Proof.
  intros Hl Hw; destruct (layout_weight _ _ _ Hl) as [-> _]; rewrite cell_eq; unfold weight in Hw; rewrite lenZ_recs in Hw; lia.
Qed.

(** A record of the node seen through the pointer to it. *)
Lemma record_at (m : list Z) (S : list (Z * list Z)) (F j : Z) (r : list Z) :
  layout bt m S F -> getZ (recs S) j = Some r ->
  let key := drop (Z.to_nat (off_of S F j)) m in
  rec_ok r /\ Forall is_byte key /\ lenZ r <= lenZ key /\ sub key 0 (lenZ r) = r /\ get16 key RECORD_LEN = lenZ r.
Proof.
  intros Hl Hj key; rewrite getZ_snd in Hj; destruct (getZ S j) as [[o q]|] eqn:E; [|done]; cbn in Hj; injection Hj as ->.
  subst key; unfold off_of; rewrite E; apply getZ_elem in E.
  pose proof (slot_bounds bt _ _ _ _ _ Hl E) as (Ho & Hor & _); pose proof (layout_bounds bt _ _ _ Hl) as [_ Hhi].
  pose proof Hl as [Hlen Hby _ Hr Hd _ _ _ _]; rewrite Forall_forall in Hr, Hd.
  specialize (Hr _ E); specialize (Hd _ E); cbn in Hr, Hd; pose proof Hr as (H8 & Hrl & Br); pose proof (lenZ_nonneg S).
  unfold DESCR_SIZE in Ho; rewrite (drop_sub m o (lenZ r)), Hd by lia.
  split; [done|]; split.
  { apply Forall_app; split; [done|by apply Forall_drop]. }
  split; [rewrite lenZ_app; pose proof (lenZ_nonneg (drop (Z.to_nat (o + lenZ r)) m)); lia|]; split.
  - rewrite sub_app_l by lia; by apply sub_all.
  - rewrite <- Hrl at 2; unfold get16, RECORD_LEN; rewrite sub_app_l by lia; done.
Qed.

Lemma insert_key_at (b : bnode) (S : list (Z * list Z)) (F L pos : Z) (key : list Z) :
  layout bt (data b) S F -> Forall is_byte key -> 8 <= L <= VDFS4_MAX_BTREE_REC_LEN -> 0 <= pos <= lenZ S ->
  F + L + 4 <= cell (lenZ S) -> 8 <= get16 key KEY_LEN <= L -> get16 key KEY_LEN <= lenZ key ->
  exists m' r ri, insert_key_into_bnode bt b key L pos = Ok (0, set_data m' b, Some ri)
  /\ layout bt m' (ins pos (F, r) S) (F + L) /\ stored key (get16 key KEY_LEN) L r /\ ids m' = ids (data b)
  /\ ri_key ri = F /\ ri_pos ri = pos
  /\ (get16 key KEY_LEN <= VDFS4_MAX_BTREE_KEY_LEN -> ri_val ri = Val (F + get16 key KEY_LEN)).
Proof using Hbt.
  intros Hl Bk HL Hpos Hfit Hd Hk; pose proof (lenZ_nonneg S) as Hn.
  destruct (place_into_node_spec bt Hbt b S F L pos key true Hl Bk HL Hfit Hpos Hd Hk) as (m' & r & E & Hl' & Hst & Hids).
  pose proof (layout_bounds bt _ _ _ Hl) as [Hlo Hhi]; pose proof (layout_bounds bt _ _ _ Hl') as [_ Hhi'].
  rewrite lenZ_ins in Hhi'; pose proof (ly_len _ _ _ _ Hl') as Hlen; unfold DESCR_SIZE in *; destruct Hst as (Hr & Er & Hi).
  assert (sub m' F L = r) as Esub.
  { pose proof (ly_data _ _ _ _ Hl') as Hdat; rewrite ins_perm in Hdat; apply Forall_cons in Hdat as [Hx _].
    cbn [fst snd] in Hx; rewrite Er in Hx; exact Hx. }
  assert (get16 m' (F + KEY_LEN) = get16 key KEY_LEN) as Ekl.
  { unfold get16 at 1, KEY_LEN; rewrite <- (sub_sub m' F L 4 2) by lia; rewrite Esub.
    unfold get16, KEY_LEN in *; f_equal; apply sub_ext; try lia.
    intros x Hx; apply Hi; unfold RECORD_LEN; lia. }
  unfold insert_key_into_bnode; rewrite E; cbn [mbind run_bind]; unfold form_gen_record, get_value_pointer.
  rewrite data_set, rd16_ok by (unfold KEY_LEN; lia); cbn [mbind run_bind]; rewrite Ekl.
  exists m', r; eexists; split; [done|]; split; [done|]; split; [split; [exact Hr|split; [exact Er|exact Hi]]|]; split; [done|]; cbn [ri_key ri_pos ri_val].
  split; [done|]; split; [done|]; intros Hm; rewrite (proj2 (Z.ltb_ge _ _)) by lia; done.
Qed.

Lemma insert_key_spec (b : bnode) (S : list (Z * list Z)) (F L : Z) (key : list Z) :
  layout bt (data b) S F -> Forall is_byte key -> 8 <= L <= VDFS4_MAX_BTREE_REC_LEN ->
  weight (recs S) + L + 4 <= size - 40 -> 8 <= get16 key KEY_LEN <= L -> get16 key KEY_LEN <= lenZ key ->
  exists m' r ri, insert_key_into_bnode bt b key L (lenZ S) = Ok (0, set_data m' b, Some ri)
  /\ layout bt m' (S ++ [(F, r)]) (F + L) /\ stored key (get16 key KEY_LEN) L r /\ ids m' = ids (data b)
  /\ ri_key ri = F /\ ri_pos ri = lenZ S
  /\ (get16 key KEY_LEN <= VDFS4_MAX_BTREE_KEY_LEN -> ri_val ri = Val (F + get16 key KEY_LEN)).
Proof using Hbt.
  intros Hl Bk HL Hw Hd Hk; pose proof (lenZ_nonneg S) as Hn.
  destruct (insert_key_at b S F L (lenZ S) key Hl Bk HL ltac:(lia) (weight_fits _ _ _ _ Hl Hw) Hd Hk) as (m' & r & ri & E & Hl' & Hrest).
  exists m', r, ri; split; [done|]; split; [|done].
  unfold ins, lenZ in Hl'; rewrite Nat2Z.id, take_ge, drop_ge in Hl' by lia; done.
Qed.

(** The links of the descriptor do not matter to the records. *)
Lemma layout_links (m m' : list Z) (S : list (Z * list Z)) (F : Z) :
  layout bt m S F -> same_out m m' 16 32 -> Forall is_byte m' -> layout bt m' S F.
Proof using Hbt.
  intros Hl Hm Hb; pose proof (layout_bounds bt _ _ _ Hl) as [Hlo Hhi]; pose proof Hl as [Hlen _ Ht Hr Hd Htab Hc Hf Hfit].
  pose proof (lenZ_nonneg S); unfold bt_ok, DESCR_SIZE in *; split; auto.
  - destruct Hm; congruence.
  - rewrite Forall_forall in Hd |- *; intros [o q] Hin; specialize (Hd _ Hin); cbn [fst snd] in *.
    pose proof (slot_bounds bt _ _ _ _ _ Hl Hin) as (Ho1 & Ho2 & Ho3); unfold DESCR_SIZE in Ho1.
    rewrite (same_out_sub _ _ _ _ o (lenZ q) Hm) by lia; done.
  - intros j Hj; rewrite (same_out_get32 _ _ _ _ (cell j) Hm) by (rewrite ?cell_eq; lia); auto.
  - unfold RECS_COUNT; rewrite (same_out_get16 _ _ _ _ 14 Hm) by lia; done.
  - unfold FREE_SPACE; rewrite (same_out_get16 _ _ _ _ 12 Hm) by lia; done.
Qed.

Lemma get32_ids (m m' : list Z) (f : Z) :
  ids m' = ids m -> lenZ m = size -> lenZ m' = size -> 16 <= f <= 28 -> get32 m' f = get32 m f.
Proof using Hbt.
  intros Hi Hl Hl' Hf; unfold bt_ok in Hbt; unfold get32; f_equal.
  replace f with (16 + (f - 16)) by lia; rewrite <- !(sub_sub _ 16 16 (f - 16) 4) by lia.
  unfold ids, NODE_ID in Hi; by rewrite Hi.
Qed.

(** ** The loop *)

Context (orig : bnode) (S0 : list (Z * list Z)) (F0 : Z) (key : list Z) (L pos : Z).
Context (Horig : layout bt (data orig) S0 F0) (Bk : Forall is_byte key) (HL : 8 <= L <= VDFS4_MAX_BTREE_REC_LEN).
Context (Hd : 8 <= get16 key KEY_LEN <= L) (Hk : get16 key KEY_LEN <= lenZ key).
Context (Hrl : get16 key RECORD_LEN <= VDFS4_MAX_BTREE_REC_LEN) (Hpos : 0 <= pos <= lenZ S0).
Context (Hsize : 4096 <= size).

(** The records moved when the loop has reached record [i]. *)
Definition moved (i : Z) (inserted : bool) (r : list Z) : list (list Z) :=
  if inserted then ins pos r (take (Z.to_nat i) (recs S0)) else take (Z.to_nat i) (recs S0).

(** The new record is where the record information says. *)
Definition located (inserted : bool) (info : option (bool * rec_info)) (SL SR : list (Z * list Z)) (r : list Z) : Prop :=
  if inserted then
    exists (side : bool) (ri : rec_info), info = Some (side, ri)
    /\ getZ (if side then SR else SL) (ri_pos ri) = Some (ri_key ri, r)
    /\ (get16 key KEY_LEN <= VDFS4_MAX_BTREE_KEY_LEN -> ri_val ri = Val (ri_key ri + get16 key KEY_LEN))
  else True.

Definition slack (inserted : bool) : Z := if inserted then 600 else 0.

Record halfway (i : Z) (inserted part : bool) (used : Z) (left_bnode right_bnode : bnode)
    (info : option (bool * rec_info)) (SL SR : list (Z * list Z)) (FL FR : Z) (r : list Z) : Prop := {
  hw_left : layout bt (data left_bnode) SL FL;
  hw_right : layout bt (data right_bnode) SR FR;
  hw_recs : recs SL ++ recs SR = moved i inserted r;
  hw_part : part = false -> SR = [];
  hw_stored : inserted = true -> stored key (get16 key KEY_LEN) L r;
  hw_used : - slack inserted <= used - 40 - weight (recs SL ++ recs SR) <= slack inserted;
  hw_nonneg : 0 <= used;
  hw_half : part = false -> used <= size / 2;
  hw_low : part = true -> size / 2 - 640 <= weight (recs SL);
  hw_high : weight (recs SL) <= size / 2 + 1200;
  hw_i : 0 <= i <= lenZ S0;
  hw_pos : if inserted then pos <= i else i <= pos;
  hw_info : located inserted info SL SR r
}.

Lemma ins_snoc (r x : list Z) (l : list (list Z)) : pos <= lenZ l -> ins pos r (l ++ [x]) = ins pos r l ++ [x].
Proof using Hpos.
  intros Hl; unfold ins; rewrite take_app_le, drop_app_le by (unfold lenZ in Hl; lia); by rewrite <- app_assoc.
Qed.

Lemma moved_next (i : Z) (inserted : bool) (r x : list Z) :
  0 <= i -> getZ (recs S0) i = Some x -> (if inserted then pos <= i else i <= pos) ->
  moved (i + 1) inserted r = moved i inserted r ++ [x].
Proof using Hpos.
  intros Hi Hx Hp; assert (take (Z.to_nat (i + 1)) (recs S0) = take (Z.to_nat i) (recs S0) ++ [x]) as E.
  { replace (Z.to_nat (i + 1)) with (Datatypes.S (Z.to_nat i)) by lia; apply take_S_r.
    unfold getZ in Hx; by rewrite (proj2 (Z.ltb_ge i 0)) in Hx by lia. }
  unfold moved; rewrite E; destruct inserted; [|done]; apply ins_snoc.
  apply getZ_bounds in Hx; unfold lenZ in Hx |- *; rewrite length_take; lia.
Qed.

Lemma moved_new (r q : list Z) : moved pos true r = moved pos false q ++ [r].
Proof using Hpos.
  unfold moved, ins; rewrite take_ge, drop_ge; [done|..]; rewrite length_take; lia.
Qed.

Lemma weight_take (i : Z) : 0 <= i -> weight (take (Z.to_nat i) (recs S0)) <= weight (recs S0).
Proof.
  intros Hi; rewrite <- (take_drop (Z.to_nat i) (recs S0)) at 2; rewrite weight_app.
  pose proof (weight_nonneg (drop (Z.to_nat i) (recs S0))); lia.
Qed.

(** What has been moved never weighs more than the old records and the new one. *)
Lemma moved_weight (i : Z) (inserted : bool) (r : list Z) :
  0 <= i -> (inserted = true -> lenZ r = L) ->
  weight (moved i inserted r) <= size - 40 + (if inserted then L + 4 else 0).
Proof using Horig.
  intros Hi Hr; pose proof (weight_take i Hi); destruct (layout_weight _ _ _ Horig) as [_ Hw].
  unfold moved; destruct inserted; [rewrite weight_ins, Hr by done|]; lia.
Qed.

(** A record of [k] bytes fits into the node the loop has chosen. *)
Lemma room (i i' : Z) (ins' : bool) (inserted part : bool) (used : Z) (left_bnode right_bnode : bnode)
    (info : option (bool * rec_info)) (SL SR : list (Z * list Z)) (FL FR : Z) (r r' x : list Z) :
  halfway i inserted part used left_bnode right_bnode info SL SR FL FR r ->
  moved i' ins' r' = moved i inserted r ++ [x] -> 0 <= i' -> (ins' = true -> lenZ r' = L) ->
  lenZ x <= VDFS4_MAX_BTREE_REC_LEN ->
  weight (recs (if part then SR else SL)) + lenZ x + 4 <= size - 40.
Proof using Horig HL Hsize.
  intros Hh Hm Hi' Hr' Hx; pose proof (moved_weight i' ins' r' Hi' Hr') as Hw; rewrite Hm, <- (hw_recs _ _ _ _ _ _ _ _ _ _ _ _ Hh) in Hw.
  rewrite !weight_app, weight_cons in Hw; change (weight []) with 0 in Hw.
  pose proof (Z.div_mod size 2 ltac:(lia)); pose proof (Z.mod_pos_bound size 2 ltac:(lia)).
  pose proof (hw_used _ _ _ _ _ _ _ _ _ _ _ _ Hh) as Hu; rewrite weight_app in Hu; unfold slack, VDFS4_MAX_BTREE_REC_LEN in *.
  destruct part.
  - pose proof (hw_low _ _ _ _ _ _ _ _ _ _ _ _ Hh eq_refl); destruct ins'; lia.
  - pose proof (hw_half _ _ _ _ _ _ _ _ _ _ _ _ Hh eq_refl); rewrite (hw_part _ _ _ _ _ _ _ _ _ _ _ _ Hh eq_refl) in *.
    change (weight (recs [])) with 0 in *; destruct inserted; lia.
Qed.

(** One record more in the chosen node. *)
Lemma advance (i i' : Z) (inserted ins' part : bool) (used c : Z) (left_bnode right_bnode : bnode)
    (info info' : option (bool * rec_info)) (SL SR : list (Z * list Z)) (FL FR F' : Z) (r r' x m' : list Z) :
  halfway i inserted part used left_bnode right_bnode info SL SR FL FR r ->
  moved i' ins' r' = moved i inserted r ++ [x] ->
  layout bt m' ((if part then SR else SL) ++ [(if part then FR else FL, x)]) F' ->
  lenZ x <= VDFS4_MAX_BTREE_REC_LEN ->
  0 <= c -> c - lenZ x + slack inserted <= slack ins' ->
  - slack ins' <= c - lenZ x - slack inserted ->
  0 <= i' <= lenZ S0 -> (if ins' then pos <= i' else i' <= pos) ->
  (ins' = true -> stored key (get16 key KEY_LEN) L r') ->
  located ins' info' (if part then SL else SL ++ [(FL, x)]) (if part then SR ++ [(FR, x)] else SR) r' ->
  let used' := used + (c + 4) in
  halfway i' ins' (if size / 2 <? used' then true else part) used'
    (if part then left_bnode else set_data m' left_bnode) (if part then set_data m' right_bnode else right_bnode)
    info' (if part then SL else SL ++ [(FL, x)]) (if part then SR ++ [(FR, x)] else SR)
    (if part then FL else F') (if part then F' else FR) r'.
Proof using Hsize.
  intros Hh Hm Hl' Hx Hc Hc1 Hc2 Hi' Hp' Hst Hloc used'.
  pose proof (hw_used _ _ _ _ _ _ _ _ _ _ _ _ Hh) as Hu; pose proof (hw_recs _ _ _ _ _ _ _ _ _ _ _ _ Hh) as Hr.
  pose proof (hw_nonneg _ _ _ _ _ _ _ _ _ _ _ _ Hh) as Hnn.
  pose proof (hw_high _ _ _ _ _ _ _ _ _ _ _ _ Hh) as Hhi; rewrite weight_app in Hu; unfold VDFS4_MAX_BTREE_REC_LEN in Hx.
  assert (weight [x] = lenZ x + 4) as Ex by (rewrite weight_cons; change (weight []) with 0; lia).
  destruct part.
  - split; auto; try rewrite !map_app; try rewrite !weight_app; rewrite ?data_set; cbn [map snd]; auto.
    + apply (hw_left _ _ _ _ _ _ _ _ _ _ _ _ Hh).
    + by rewrite Hm, app_assoc, Hr.
    + by destruct (size / 2 <? used').
    + rewrite Ex; unfold used'; lia.
    + unfold used'; lia.
    + by destruct (size / 2 <? used').
    + intros _; apply (hw_low _ _ _ _ _ _ _ _ _ _ _ _ Hh eq_refl).
  - pose proof (hw_part _ _ _ _ _ _ _ _ _ _ _ _ Hh eq_refl) as ->; pose proof (hw_half _ _ _ _ _ _ _ _ _ _ _ _ Hh eq_refl) as Hhalf.
    rewrite app_nil_r in Hr; change (weight (recs [])) with 0 in Hu.
    split; auto; try rewrite !map_app; try rewrite !weight_app; rewrite ?data_set; cbn [map snd]; rewrite ?Ex; auto;
      change (weight []) with 0.
    + apply (hw_right _ _ _ _ _ _ _ _ _ _ _ _ Hh).
    + by rewrite app_nil_r, Hm, Hr.
    + unfold used'; lia.
    + unfold used'; lia.
    + destruct (Z.ltb_spec (size / 2) used'); [done|lia].
    + destruct (Z.ltb_spec (size / 2) used'); [|done]; intros _; unfold slack in *; destruct inserted, ins'; unfold used' in *; lia.
    + unfold slack in *; destruct inserted; lia.
Qed.

Lemma set_same (b : bnode) : set_data (data b) b = b.
Proof. by destruct b. Qed.

(** One turn of the loop. *)
Lemma step_spec (i : Z) (inserted part : bool) (used : Z) (left_bnode right_bnode : bnode)
    (info : option (bool * rec_info)) (SL SR : list (Z * list Z)) (FL FR : Z) (r : list Z) :
  halfway i inserted part used left_bnode right_bnode info SL SR FL FR r ->
  (lenZ S0 <=? i) && inserted = false ->
  exists c m' i' ins' info' SL' SR' FL' FR' r',
    (forall fuel,
      split_loop bt (S fuel) orig (lenZ S0) key L pos i inserted part used left_bnode right_bnode info
      = split_loop bt fuel orig (lenZ S0) key L pos i' ins' (if size / 2 <? used + (c + 4) then true else part)
          (used + (c + 4)) (if part then left_bnode else set_data m' left_bnode)
          (if part then set_data m' right_bnode else right_bnode) info')
    /\ halfway i' ins' (if size / 2 <? used + (c + 4) then true else part) (used + (c + 4))
         (if part then left_bnode else set_data m' left_bnode)
         (if part then set_data m' right_bnode else right_bnode) info' SL' SR' FL' FR' r'
    /\ ids m' = ids (data (if part then right_bnode else left_bnode))
    /\ (lenZ S0 - i' + (if ins' then 0 else 1)) + 1 = lenZ S0 - i + (if inserted then 0 else 1).
Proof using Hbt Horig Bk HL Hd Hk Hrl Hpos Hsize.
  intros Hh Estop; pose proof (hw_i _ _ _ _ _ _ _ _ _ _ _ _ Hh) as Hi; pose proof (hw_pos _ _ _ _ _ _ _ _ _ _ _ _ Hh) as Hip.
  set (S := if part then SR else SL); set (F := if part then FR else FL); set (b := if part then right_bnode else left_bnode).
  assert (layout bt (data b) S F) as Hl
    by (subst b S F; destruct part; [apply (hw_right _ _ _ _ _ _ _ _ _ _ _ _ Hh)|apply (hw_left _ _ _ _ _ _ _ _ _ _ _ _ Hh)]).
  pose proof (layout_bounds bt _ _ _ Hl) as [Hlo Hhi]; pose proof (lenZ_nonneg S); unfold DESCR_SIZE in Hlo.
  assert (inserted = true -> lenZ r = L) as Hr0 by (intros Hx; apply (hw_stored _ _ _ _ _ _ _ _ _ _ _ _ Hh Hx)).
  pose proof (moved_weight i inserted r ltac:(lia) Hr0) as Hmw; rewrite <- (hw_recs _ _ _ _ _ _ _ _ _ _ _ _ Hh) in Hmw.
  pose proof (hw_used _ _ _ _ _ _ _ _ _ _ _ _ Hh) as Hu; pose proof (weight_nonneg (recs SL ++ recs SR)) as Hw0.
  pose proof (hw_nonneg _ _ _ _ _ _ _ _ _ _ _ _ Hh) as Hnn; set (part' := fun c => if size / 2 <? used + (c + 4) then true else part).
  assert (used <= size + 1204) as Hub by (unfold slack, VDFS4_MAX_BTREE_REC_LEN in *; destruct inserted; lia).
  assert (lenZ (data b) = size) as Hlen by apply (ly_len _ _ _ _ Hl).
  unfold bt_ok, VDFS4_MAX_BTREE_REC_LEN in *; cbn [split_loop]; destruct ((i =? pos) && negb inserted) eqn:Esel.
  - apply andb_true_iff in Esel as [E1 E2]; destruct inserted; [done|]; bools; subst i.
    pose proof (get16_range key RECORD_LEN Bk ltac:(unfold RECORD_LEN; lia) ltac:(unfold RECORD_LEN; lia)) as Hc.
    set (x0 := replicate (Z.to_nat L) 0); assert (lenZ x0 = L) as Ex0 by (unfold x0, lenZ; rewrite length_replicate; lia).
    pose proof (room pos pos true false part used left_bnode right_bnode info SL SR FL FR r x0 x0 Hh (moved_new x0 r) ltac:(lia)
      (fun _ => Ex0) ltac:(unfold VDFS4_MAX_BTREE_REC_LEN; lia)) as Hroom; rewrite Ex0 in Hroom; fold S in Hroom.
    destruct (insert_key_spec b S F L key Hl Bk HL Hroom Hd Hk) as (m' & r' & ri & E & Hl' & Hst & Hids & Hk1 & Hp1 & Hv1).
    pose proof Hst as (Hrok & Er' & _).
    exists (get16 key RECORD_LEN), m', pos, true, (Some (part, ri)), (if part then SL else SL ++ [(FL, r')]),
      (if part then SR ++ [(FR, r')] else SR), (if part then FL else F + L), (if part then F + L else FR), r'.
    split; [|split; [|split; [exact Hids|lia]]].
    + intros fuel; rewrite Estop; cbn [mbind run_bind]; rewrite (rd16_ok key RECORD_LEN) by (unfold RECORD_LEN; lia); cbn [mbind run_bind].
      fold b; rewrite (rd16_ok (data b) RECS_COUNT) by (unfold RECS_COUNT; lia); cbn [mbind run_bind].
      rewrite (ly_count _ _ _ _ Hl), E; cbn [mbind run_bind]; rewrite u32_small by lia.
      unfold b; destruct part; cbn [Z.eqb negb]; done.
    + apply (advance pos pos false true part used (get16 key RECORD_LEN) left_bnode right_bnode info _ SL SR FL FR (F + L) r r' r' m' Hh);
        unfold slack, VDFS4_MAX_BTREE_REC_LEN; try done; try lia; [apply moved_new|].
      exists part, ri; split; [done|]; rewrite Hk1, Hp1; split; [|exact Hv1]; unfold S, F; destruct part; rewrite getZ_app_r, Z.sub_diag by lia; done.
  - assert (i < lenZ S0) as Hlt.
    { apply andb_false_iff in Estop as [Es| ->]; bools; [done|]; cbn in Esel; rewrite andb_true_r in Esel; bools; lia. }
    destruct (getZ_is_Some (recs S0) i) as (x & Ex); [rewrite lenZ_recs; lia|].
    destruct (record_at _ _ _ _ _ Horig Ex) as (Hrok & Bx & Hlx & Hsx & Hgx); pose proof Hrok as (Hx8 & _ & _).
    set (kx := drop (Z.to_nat (off_of S0 F0 i)) (data orig)) in *.
    pose proof (moved_next i inserted r x ltac:(lia) Ex Hip) as Hmn.
    pose proof (room i (i + 1) inserted inserted part used left_bnode right_bnode info SL SR FL FR r r x Hh Hmn ltac:(lia) Hr0
      ltac:(lia)) as Hroom; fold S in Hroom.
    destruct (append_bnode_spec bt Hbt b S F kx x Hl Hrok Bx Hlx Hsx (weight_fits _ _ _ _ Hl Hroom)) as (m' & E & Hl' & Hids).
    exists (lenZ x), m', (i + 1), inserted, info, (if part then SL else SL ++ [(FL, x)]),
      (if part then SR ++ [(FR, x)] else SR), (if part then FL else F + lenZ x), (if part then F + lenZ x else FR), r.
    unfold VDFS4_MAX_BTREE_REC_LEN in *; split; [|split; [|split; [exact Hids|lia]]].
    + intros fuel; rewrite Estop; rewrite (get_record_ok bt Hbt orig S0 F0 i) by (done || lia); cbn [mbind run_bind]; fold kx.
      rewrite (rd16_ok kx RECORD_LEN) by (unfold RECORD_LEN; lia); cbn [mbind run_bind]; rewrite Hgx, u32_small by lia.
      fold b; rewrite E; cbn [mbind run_bind]; unfold b; destruct part; cbn [Z.eqb negb]; done.
    + apply (advance i (i + 1) inserted inserted part used (lenZ x) left_bnode right_bnode info _ SL SR FL FR (F + lenZ x) r r x m' Hh);
        unfold VDFS4_MAX_BTREE_REC_LEN; try done; try lia.
      * destruct inserted; [lia|]; cbn in Esel; rewrite andb_true_r in Esel; bools; lia.
      * apply (hw_stored _ _ _ _ _ _ _ _ _ _ _ _ Hh).
      * pose proof (hw_info _ _ _ _ _ _ _ _ _ _ _ _ Hh) as Hin; unfold located in *; destruct inserted; [|done].
        destruct Hin as (side & ri & -> & Hg & Hv); exists side, ri; split; [done|]; split; [|exact Hv]; pose proof (getZ_bounds _ _ _ Hg).
        destruct part, side; rewrite ?getZ_app_l by lia; done.
Qed.

Lemma split_loop_spec (fuel : nat) (i : Z) (inserted part : bool) (used : Z) (left_bnode right_bnode : bnode)
    (info : option (bool * rec_info)) (SL SR : list (Z * list Z)) (FL FR : Z) (r : list Z) :
  halfway i inserted part used left_bnode right_bnode info SL SR FL FR r ->
  lenZ S0 - i + (if inserted then 0 else 1) <= Z.of_nat fuel ->
  exists ml mr info' part' used' SL' SR' FL' FR' r',
    split_loop bt fuel orig (lenZ S0) key L pos i inserted part used left_bnode right_bnode info
    = Ok (0, set_data ml left_bnode, set_data mr right_bnode, info')
  /\ halfway (lenZ S0) true part' used' (set_data ml left_bnode) (set_data mr right_bnode) info' SL' SR' FL' FR' r'
  /\ ids ml = ids (data left_bnode) /\ ids mr = ids (data right_bnode).
Proof using Hbt Horig Bk HL Hd Hk Hrl Hpos Hsize.
  revert i inserted part used left_bnode right_bnode info SL SR FL FR r.
  induction fuel as [|fuel IH]; intros i inserted part used left_bnode right_bnode info SL SR FL FR r Hh Hfu;
    pose proof (hw_i _ _ _ _ _ _ _ _ _ _ _ _ Hh) as Hi; pose proof (hw_pos _ _ _ _ _ _ _ _ _ _ _ _ Hh) as Hip.
  { cbn [split_loop]; destruct inserted; [|lia]; assert (i = lenZ S0) as -> by lia; rewrite Z.leb_refl; cbn [andb].
    exists (data left_bnode), (data right_bnode), info, part, used, SL, SR, FL, FR, r.
    rewrite !set_same; auto. }
  destruct ((lenZ S0 <=? i) && inserted) eqn:Estop.
  { cbn [split_loop]; rewrite Estop; apply andb_true_iff in Estop as [E1 ->]; bools; assert (i = lenZ S0) as -> by lia.
    exists (data left_bnode), (data right_bnode), info, part, used, SL, SR, FL, FR, r; rewrite !set_same; auto. }
  pose proof (step_spec i inserted part used left_bnode right_bnode info SL SR FL FR r Hh Estop) as Hstep.
  destruct Hstep as (c & m' & i' & ins' & info' & SL' & SR' & FL' & FR' & r' & Hrun & Hh' & Hids & Hdec).
  rewrite Hrun; clear Hrun.
  destruct (IH i' ins' _ _ _ _ info' SL' SR' FL' FR' r' Hh') as
    (ml & mr & info2 & part2 & used2 & SL2 & SR2 & FL2 & FR2 & r2 & E & Hh2 & Il & Ir); [lia|].
  rewrite E; exists ml, mr, info2, part2, used2, SL2, SR2, FL2, FR2, r2.
  destruct part; rewrite ?set_set, ?data_set in *; (split; [done|]); (split; [exact Hh2|]); split; congruence.
Qed.

(** ** The whole split *)

(** The halves of the node, linked to each other and to the old neighbours. *)
Record split_ok (left_id right_id : Z) (left_bnode right_bnode : bnode) (info : option (bool * rec_info)) : Prop := {
  sp_halves : exists SL SR FL FR r,
    layout bt (data left_bnode) SL FL /\ layout bt (data right_bnode) SR FR
    /\ recs SL ++ recs SR = ins pos r (recs S0)
    /\ stored key (get16 key KEY_LEN) L r /\ located true info SL SR r
    /\ weight (recs SL) <= size / 2 + 1200
    /\ (size - 40 < weight (recs S0) + L + 4 -> SL <> [] /\ SR <> []);
  sp_prev : get32 (data left_bnode) PREV_NODE_ID = get32 (data orig) PREV_NODE_ID;
  sp_next : get32 (data left_bnode) NEXT_NODE_ID = right_id;
  sp_right_prev : get32 (data right_bnode) PREV_NODE_ID = left_id;
  sp_right_next : get32 (data right_bnode) NEXT_NODE_ID = get32 (data orig) NEXT_NODE_ID
}.

Lemma halves (part' : bool) (used' : Z) (lb rb : bnode) (info : option (bool * rec_info))
    (SL SR : list (Z * list Z)) (FL FR : Z) (r : list Z) :
  halfway (lenZ S0) true part' used' lb rb info SL SR FL FR r ->
  recs SL ++ recs SR = ins pos r (recs S0)
  /\ (size - 40 < weight (recs S0) + L + 4 -> SL <> [] /\ SR <> []).
Proof using Hsize HL.
  intros Hh; pose proof (hw_recs _ _ _ _ _ _ _ _ _ _ _ _ Hh) as Hr; unfold moved in Hr.
  rewrite take_ge in Hr by (unfold lenZ; rewrite length_map; lia); split; [done|]; intros Hfull.
  pose proof (hw_stored _ _ _ _ _ _ _ _ _ _ _ _ Hh eq_refl) as (_ & Er & _).
  assert (weight (recs SL) + weight (recs SR) = L + 4 + weight (recs S0)) as Hw
    by (rewrite <- weight_app, Hr, weight_ins; lia).
  pose proof (hw_high _ _ _ _ _ _ _ _ _ _ _ _ Hh) as Hhi; pose proof (hw_low _ _ _ _ _ _ _ _ _ _ _ _ Hh) as Hlow.
  pose proof (hw_used _ _ _ _ _ _ _ _ _ _ _ _ Hh) as Hu; pose proof (hw_half _ _ _ _ _ _ _ _ _ _ _ _ Hh) as Hhalf.
  pose proof (Z.div_mod size 2 ltac:(lia)); pose proof (Z.mod_pos_bound size 2 ltac:(lia)).
  rewrite weight_app in Hu; unfold slack in Hu; unfold VDFS4_MAX_BTREE_REC_LEN in HL.
  split; intros ->; change (weight (recs [])) with 0 in *; [|lia].
  destruct part'; [specialize (Hlow eq_refl); lia|specialize (Hhalf eq_refl)].
  pose proof (hw_part _ _ _ _ _ _ _ _ _ _ _ _ Hh eq_refl) as ->; change (weight (recs [])) with 0 in *; lia.
Qed.

(** The two parts of [split_bnode]: the loop, and the links for any answer to the
    fetch of the right neighbour. *)
Lemma split_parts (right_bnode : bnode) :
  lenZ (data right_bnode) = size -> Forall is_byte (data right_bnode) -> 0 < lenZ S0 ->
  0 <= node_id orig < 2 ^ 32 -> 0 <= node_id right_bnode < 2 ^ 32 ->
  exists ml mr l2 r2 info,
    split_records bt orig right_bnode key L pos = Ok (0, set_data ml orig, set_data mr right_bnode, info)
    /\ split_ok (node_id orig) (node_id right_bnode) (set_data l2 orig) (set_data r2 right_bnode) info
    /\ get32 l2 NODE_ID = node_id orig /\ get32 r2 NODE_ID = node_id right_bnode
    /\ forall next, split_link orig (set_data ml orig) (set_data mr right_bnode) info next
      = if get32 (data orig) NEXT_NODE_ID =? 0 then Ok (0, set_data l2 orig, set_data r2 right_bnode, info, None)
        else match next with
             | Err _ => Ok (0, orig, set_data r2 right_bnode, info, None)
             | Val nx => k ← wr32 (data nx) PREV_NODE_ID (node_id right_bnode);
                 Ok (0, set_data l2 orig, set_data r2 right_bnode, info, Some (vdfs4_mark_bnode_dirty (set_data k nx)))
             end.
Proof using Hbt Horig Bk HL Hd Hk Hrl Hpos Hsize.
  intros Hlr Hbr Hn Hil Hir; pose proof (ly_len _ _ _ _ Horig) as Hlo; pose proof (ly_bytes _ _ _ _ Horig) as Hbo.
  unfold bt_ok in Hbt; set (T := get32 (data orig) TYPE); set (next_id := get32 (data orig) NEXT_NODE_ID).
  destruct (init_spec bt Hbt right_bnode T Hlr Hbr) as (mr & Er & Hlr0 & Ir & _ & _ & _).
  destruct (init_spec bt Hbt orig T Hlo Hbo) as (ml & El & Hll0 & Il & _ & _ & _).
  specialize (Il Hil); specialize (Ir Hir).
  assert (halfway 0 false false 40 (set_data ml orig) (set_data mr right_bnode) None [] [] DESCR_SIZE DESCR_SIZE []) as Hh0.
  { split; rewrite ?data_set; auto; try done; try lia; cbn; try lia.
    - pose proof (Z.div_mod size 2 ltac:(lia)); pose proof (Z.mod_pos_bound size 2 ltac:(lia)); lia.
    - change (weight []) with 0; pose proof (Z.div_mod size 2 ltac:(lia)); pose proof (Z.mod_pos_bound size 2 ltac:(lia)); lia. }
  destruct (split_loop_spec (Datatypes.S (Z.to_nat (lenZ S0))) 0 false false 40 _ _ None [] [] DESCR_SIZE DESCR_SIZE [] Hh0)
    as (ml' & mr' & info & part' & used' & SL & SR & FL & FR & r & Eloop & Hh & IDl & IDr); [lia|].
  rewrite !set_set, ?data_set in *; destruct (halves _ _ _ _ _ _ _ _ _ _ Hh) as [Hrec Hne].
  pose proof (hw_left _ _ _ _ _ _ _ _ _ _ _ _ Hh) as HlL; pose proof (hw_right _ _ _ _ _ _ _ _ _ _ _ _ Hh) as HlR.
  rewrite data_set in HlL, HlR; pose proof (ly_len _ _ _ _ HlL) as Ll; pose proof (ly_len _ _ _ _ HlR) as Lr.
  pose proof (ly_bytes _ _ _ _ HlL) as BL; pose proof (ly_bytes _ _ _ _ HlR) as BR.
  assert (get32 ml' 16 = node_id orig) as Nl by (rewrite (get32_ids ml ml' 16) by (done || apply Hll0 || lia); exact Il).
  assert (get32 mr' 16 = node_id right_bnode) as Nr by (rewrite (get32_ids mr mr' 16) by (done || apply Hlr0 || lia); exact Ir).
  pose proof (get32_range (data orig) 20 Hbo ltac:(lia) ltac:(lia)) as Rp; pose proof (get32_range (data orig) 24 Hbo ltac:(lia) ltac:(lia)) as Rn.
  destruct (wr32_step ml' 20 (get32 (data orig) 20)) as (l1 & El1 & Ll1 & Hl1 & Vl1 & Bl1); [lia..|]; specialize (Vl1 Rp).
  destruct (wr32_step l1 24 (node_id right_bnode)) as (l2 & El2 & Ll2 & Hl2 & Vl2 & Bl2); [lia..|]; specialize (Vl2 Hir).
  destruct (wr32_step mr' 20 (node_id orig)) as (r1 & Er1 & Lr1 & Hr1 & Vr1 & Br1); [lia..|]; specialize (Vr1 Hil).
  destruct (wr32_step r1 24 (get32 (data orig) 24)) as (r2 & Er2 & Lr2 & Hr2 & Vr2 & Br2); [lia..|]; specialize (Vr2 Rn).
  assert (get32 r2 16 = node_id right_bnode) as Nr2
    by (rewrite (same_out_get32 _ _ _ _ 16 Hr2), (same_out_get32 _ _ _ _ 16 Hr1) by lia; done).
  assert (get32 l2 16 = node_id orig) as Nl2
    by (rewrite (same_out_get32 _ _ _ _ 16 Hl2), (same_out_get32 _ _ _ _ 16 Hl1) by lia; done).
  exists ml', mr', l2, r2, info; split; [|split; [|split; [done|split; [done|]]]].
  - unfold split_records; rewrite (rd32_ok (data orig) TYPE) by (unfold TYPE; lia); cbn [mbind run_bind]; fold T.
    rewrite (rd16_ok (data orig) RECS_COUNT) by (unfold RECS_COUNT; lia); cbn [mbind run_bind]; rewrite (ly_count _ _ _ _ Horig).
    rewrite Er; cbn [mbind run_bind]; rewrite El; cbn [mbind run_bind]; rewrite data_set.
    rewrite (rd16_ok ml FREE_SPACE) by (rewrite ?(ly_len _ _ _ _ Hll0); unfold FREE_SPACE; lia); cbn [mbind run_bind].
    rewrite (ly_free _ _ _ _ Hll0), cell_eq; change (lenZ []) with 0; unfold DESCR_SIZE in *.
    replace (size - (size - 8 - 4 * 0 - 32)) with 40 by lia; rewrite (u32_small 40) by lia.
    rewrite (proj2 (Z.eqb_neq (lenZ S0) 0)) by lia; cbn [bug_on mbind run_bind]; rewrite Eloop; done.
  - split; rewrite ?data_set; unfold PREV_NODE_ID, NEXT_NODE_ID; auto.
    + exists SL, SR, FL, FR, r; split; [|split; [|split; [done|split; [|split; [|split; [|done]]]]]].
      * eapply layout_links; [exact HlL| |auto]; apply same_out_trans with l1; eapply same_out_mono; [exact Hl1| | |exact Hl2| |]; lia.
      * eapply layout_links; [exact HlR| |auto]; apply same_out_trans with r1; eapply same_out_mono; [exact Hr1| | |exact Hr2| |]; lia.
      * apply (hw_stored _ _ _ _ _ _ _ _ _ _ _ _ Hh eq_refl).
      * apply (hw_info _ _ _ _ _ _ _ _ _ _ _ _ Hh).
      * apply (hw_high _ _ _ _ _ _ _ _ _ _ _ _ Hh).
    + rewrite (same_out_get32 _ _ _ _ 20 Hl2) by lia; done.
    + rewrite (same_out_get32 _ _ _ _ 20 Hr2) by lia; done.
  - intros next; unfold split_link, PREV_NODE_ID, NEXT_NODE_ID, NODE_ID.
    rewrite (rd32_ok (data orig) 20), (rd32_ok (data orig) 24) by lia; cbn [mbind run_bind].
    rewrite !data_set, El1; cbn [mbind run_bind]; rewrite (rd32_ok mr' 16), Nr by lia; cbn [mbind run_bind].
    rewrite El2; cbn [mbind run_bind]; rewrite (rd32_ok l2 16), Nl2 by lia; cbn [mbind run_bind].
    rewrite Er1; cbn [mbind run_bind]; rewrite Er2; cbn [mbind run_bind]; rewrite !set_set.
    fold NEXT_NODE_ID; fold next_id; unfold VDFS4_INVALID_NODE_ID; destruct (next_id =? 0); [done|]; destruct next; [by destruct orig|].
    rewrite (rd32_ok r2 16), Nr2 by lia; done.
Qed.

Lemma split_bnode_spec (right_bnode : bnode) (next : res bnode) :
  lenZ (data right_bnode) = size -> Forall is_byte (data right_bnode) -> 0 < lenZ S0 ->
  0 <= node_id orig < 2 ^ 32 -> 0 <= node_id right_bnode < 2 ^ 32 ->
  match next with Err _ => True | Val nx => lenZ (data nx) = size end ->
  exists lb rb info nx',
    let next_id := get32 (data orig) NEXT_NODE_ID in
    match next with
    | Err _ =>
        if next_id =? 0 then split_bnode bt orig right_bnode key L pos next = Ok (0, lb, rb, info, None)
          /\ split_ok (node_id orig) (node_id right_bnode) lb rb info
        else split_bnode bt orig right_bnode key L pos next = Ok (0, orig, rb, info, None)
    | Val nx =>
        split_bnode bt orig right_bnode key L pos next
          = Ok (0, lb, rb, info, if next_id =? 0 then None else Some nx')
        /\ split_ok (node_id orig) (node_id right_bnode) lb rb info
        /\ get32 (data nx') PREV_NODE_ID = node_id right_bnode
        /\ same_out (data nx) (data nx') PREV_NODE_ID (PREV_NODE_ID + 4)
    end.
Proof using Hbt Horig Bk HL Hd Hk Hrl Hpos Hsize.
  intros Hlr Hbr Hn Hil Hir Hnext; destruct (split_parts right_bnode Hlr Hbr Hn Hil Hir) as (ml & mr & l2 & r2 & info & Erec & Hok & _ & _ & Elink).
  specialize (Elink next); exists (set_data l2 orig), (set_data r2 right_bnode), info.
  unfold split_bnode; rewrite Erec; cbn [mbind run_bind Z.eqb negb]; rewrite Elink; destruct next as [e|nx].
  - exists orig; cbn zeta; by destruct (_ =? 0).
  - unfold bt_ok, PREV_NODE_ID in *; destruct (wr32_step (data nx) 20 (node_id right_bnode)) as (k & Ek & Lk & Hk' & Vk & _); [lia..|]; specialize (Vk Hir).
    exists (vdfs4_mark_bnode_dirty (set_data k nx)); rewrite Ek; cbn [mbind run_bind]; split; [by destruct (_ =? 0)|].
    split; [done|].
    assert (data (vdfs4_mark_bnode_dirty (set_data k nx)) = k) as -> by (destruct nx as [? ? w ? ?]; by destruct w).
    split; [exact Vk|exact Hk'].
Qed.

End Split.
