(* ===== verification/BnodeMerge.v ===== *)
(** Merging two neighbouring nodes (the part of btree_merge in
    src/linux/fs/vdfs4/btree.c that moves the records). *)

From Stdlib Require Import ZArith Lia Bool List.
From stdpp Require Import base list.
From S2P Require Import Prelude Bytes Buffer Bnode BnodeRep BnodeSearch BnodeSplit.

Open Scope Z_scope.

(** A record moved up by [k] bytes. *)
Definition up_slot (k : Z) (s : Z * list Z) : Z * list Z := (fst s + k, snd s).

Lemma chain_up (k a F : Z) (P : list (Z * list Z)) : chain a P F -> chain (a + k) (map (up_slot k) P) (F + k).
Proof.
  revert a; induction P as [|[o r] P IH]; intros a; cbn; [lia|]; intros [-> Hc]; split; [done|].
  replace (a + k + lenZ r) with (a + lenZ r + k) by lia; by apply IH.
Qed.

Section Merge.
Context (bt : btree) (Hbt : bt_ok bt).

#[local] Abbreviation size := (node_size_bytes bt).
#[local] Abbreviation cell := (cell bt).
#[local] Abbreviation recs := (map (@snd Z (list Z))).

Lemma check_area_spec (n : nat) (b : bnode) (S : list (Z * list Z)) (F i : Z) :
  layout bt (data b) S F -> 0 <= i -> i + Z.of_nat n <= lenZ S -> check_offsets bt b n i = Ok 0.
Proof using Hbt.
  intros Hl; pose proof (layout_bounds bt _ _ _ Hl); unfold bt_ok in Hbt; revert i.
  induction n as [|n IH]; intros i Hi Hn; cbn [check_offsets]; [done|].
  rewrite (get_offset_ok bt Hbt b S F i) by (done || lia); cbn [mbind run_bind].
  pose proof (off_bounds bt _ _ _ i Hl ltac:(lia)); rewrite offset_correct by (unfold DESCR_SIZE in *; lia); apply IH; lia.
Qed.

Lemma check_bnode_offset_area_spec (b : bnode) (S : list (Z * list Z)) (F : Z) :
  layout bt (data b) S F -> check_bnode_offset_area bt b = Ok 0.
Proof using Hbt.
  intros Hl; pose proof (ly_len _ _ _ _ Hl); pose proof (lenZ_nonneg S); unfold bt_ok in *; unfold check_bnode_offset_area.
  rewrite (rd16_ok (data b) RECS_COUNT) by (unfold RECS_COUNT; lia); cbn [mbind run_bind]; rewrite (ly_count _ _ _ _ Hl).
  eapply check_area_spec; [exact Hl|lia|lia].
Qed.

(** The loop over the offsets of the right node. *)
Lemma merge_offsets_spec (n : nat) (i st nL : Z) (l r : bnode) (SR : list (Z * list Z)) (FR : Z) :
  lenZ (data l) = size -> get16 (data l) RECS_COUNT = nL -> 0 <= nL -> layout bt (data r) SR FR ->
  0 <= i -> i + Z.of_nat n = lenZ SR + 1 -> DESCR_SIZE <= st -> st + FR - DESCR_SIZE < size -> 4 * (nL + lenZ SR) + 40 <= size ->
  exists m, merge_offsets bt n i st l r = Ok (0, set_data m l)
  /\ same_out (data l) m (cell (nL + lenZ SR)) (cell (nL + i) + 4)
  /\ (forall j, i <= j <= lenZ SR -> get32 m (cell (nL + j)) = st + off_of SR FR j - DESCR_SIZE)
  /\ (Forall is_byte (data l) -> Forall is_byte m).
Proof using Hbt.
  intros Hl Hc HnL HR; revert i l Hl Hc; unfold bt_ok, DESCR_SIZE in *; induction n as [|n IH]; intros i l Hl Hc Hi Hn Hst Hlim Hs;
    cbn [merge_offsets]; pose proof (lenZ_nonneg SR).
  { exists (data l); split; [by destruct l|]; split; [|split; [intros; lia|done]].
    split; [done|done]. }
  rewrite (rd16_ok (data l) RECS_COUNT) by (unfold RECS_COUNT; lia); cbn [mbind run_bind]; rewrite Hc.
  pose proof (layout_bounds bt _ _ _ HR) as [Hlo Hhi]; pose proof (off_bounds bt _ _ _ i HR ltac:(lia)) as Ho; unfold DESCR_SIZE in *.
  rewrite (get_offset_ok bt Hbt r SR FR i) by (done || lia); cbn [mbind run_bind].
  rewrite (u32_small (i + nL)), (u32_small (_ - 32)) by lia.
  rewrite set_offset_ok by (unfold DESCR_SIZE; done || lia); cbn [mbind run_bind Z.eqb negb].
  set (m1 := upd_at (data l) _ _).
  assert (same_out (data l) m1 (cell (i + nL)) (cell (i + nL) + 4)) as H1
    by (apply (same_out_upd (data l) (le_bytes 4 (st + off_of SR FR i - 32)) (cell (i + nL))); rewrite ?lenZ_le_bytes, cell_eq; lia).
  assert (lenZ m1 = size) as L1 by (destruct H1; congruence).
  destruct (IH (i + 1) (set_data m1 l)) as (m & E & Hm & Gm & Bm); rewrite ?data_set; auto; try lia.
  { unfold RECS_COUNT in *; rewrite (same_out_get16 _ _ _ _ 14 H1) by (rewrite ?cell_eq; lia); done. }
  rewrite data_set in Hm, Bm; rewrite E, set_set; exists m; split; [done|]; split.
  { apply same_out_trans with m1; eapply same_out_mono; [exact H1| | |exact Hm| |]; rewrite ?cell_eq; lia. }
  split; [|intros Hb; apply Bm; unfold m1; auto using Forall_upd_at, le_bytes_byte].
  intros j Hj; destruct (decide (j = i)) as [->|]; [|apply Gm; lia].
  rewrite (same_out_get32 _ _ _ _ (cell (nL + i)) Hm) by (rewrite ?cell_eq; lia).
  unfold m1; replace (nL + i) with (i + nL) by lia; apply get32_wr; rewrite ?cell_eq; lia.
Qed.

(** The merged node: the records of both, the right ones moved. *)
Lemma merged_layout (m m1 m2 m' : list Z) (r : bnode) (SL SR : list (Z * list Z)) (FL FR : Z) :
  layout bt m SL FL -> layout bt (data r) SR FR -> weight (recs SL) + weight (recs SR) <= size - 40 ->
  m1 = upd_at m FL (sub (data r) 32 (FR - 32)) ->
  same_out m1 m2 (cell (lenZ SL + lenZ SR)) (cell (lenZ SL) + 4) ->
  (forall j, 0 <= j <= lenZ SR -> get32 m2 (cell (lenZ SL + j)) = FL + off_of SR FR j - 32) ->
  same_out m2 m' 12 32 -> Forall is_byte m' ->
  get16 m' RECS_COUNT = lenZ SL + lenZ SR -> get16 m' FREE_SPACE = cell (lenZ SL + lenZ SR) - (FL + FR - 32) ->
  layout bt m' (SL ++ map (up_slot (FL - 32)) SR) (FL + FR - 32).
Proof using Hbt.
  intros HL HR Hw E1 H2 G2 H' B' C' F'; destruct (layout_weight bt _ _ _ HL) as [EL _]; destruct (layout_weight bt _ _ _ HR) as [ER _].
  unfold weight in Hw; rewrite !lenZ_recs in Hw; pose proof (layout_bounds bt _ _ _ HL) as [HL1 HL2].
  pose proof (layout_bounds bt _ _ _ HR) as [HR1 HR2]; pose proof (lenZ_nonneg SL); pose proof (lenZ_nonneg SR).
  pose proof HL as [Llen _ (PL & HPL & HcL) RL DL TL _ _ _]; pose proof HR as [Rlen _ (PR & HPR & HcR) RR DR TR _ _ _].
  unfold bt_ok, DESCR_SIZE in *; rewrite !cell_eq in *.
  assert (lenZ (sub (data r) 32 (FR - 32)) = FR - 32) as Ev by (apply lenZ_sub; lia).
  pose proof (same_out_upd m (sub (data r) 32 (FR - 32)) FL ltac:(lia) ltac:(lia)) as H1; rewrite <- E1, Ev in H1.
  assert (lenZ m1 = size) as L1 by (destruct H1; congruence); assert (lenZ m2 = size) as L2 by (destruct H2; congruence).
  assert (lenZ (SL ++ map (up_slot (FL - 32)) SR) = lenZ SL + lenZ SR) as Hlen by (unfold lenZ; rewrite length_app, length_map; lia).
  assert (lenZ m' = size) as L' by (destruct H'; congruence).
  split; rewrite ?Hlen, ?cell_eq; auto; try lia.
  - exists (PL ++ map (up_slot (FL - 32)) PR); split; [by rewrite HPL, HPR|]; apply chain_app; exists FL; split; [done|].
    replace FL with (32 + (FL - 32)) at 1 by lia; replace (FL + FR - 32) with (FR + (FL - 32)) by lia; by apply chain_up.
  - apply Forall_app; split; [done|]; by apply Forall_map.
  - apply Forall_app; split.
    + rewrite Forall_forall in DL |- *; intros [o q] Hin; specialize (DL _ Hin); cbn [fst snd] in *.
      pose proof (slot_bounds bt _ _ _ _ _ HL Hin) as (Ho1 & Ho2 & Ho3); unfold DESCR_SIZE in Ho1.
      rewrite (same_out_sub _ _ _ _ o (lenZ q) H'), (same_out_sub _ _ _ _ o (lenZ q) H2), (same_out_sub _ _ _ _ o (lenZ q) H1) by lia; done.
    + apply Forall_map; rewrite Forall_forall in DR |- *; intros [o q] Hin; specialize (DR _ Hin); cbn [fst snd up_slot] in *.
      pose proof (slot_bounds bt _ _ _ _ _ HR Hin) as (Ho1 & Ho2 & Ho3); unfold DESCR_SIZE in Ho1.
      rewrite (same_out_sub _ _ _ _ _ (lenZ q) H'), (same_out_sub _ _ _ _ _ (lenZ q) H2) by lia.
      rewrite E1, sub_upd_in by lia; rewrite sub_sub by lia; etransitivity; [|exact DR]; f_equal; lia.
  - intros j Hj; rewrite (same_out_get32 _ _ _ _ (cell j) H') by (rewrite ?cell_eq; lia); unfold off_of.
    destruct (Z.ltb_spec j (lenZ SL)).
    + rewrite getZ_app_l by lia; rewrite (same_out_get32 _ _ _ _ (cell j) H2), (same_out_get32 _ _ _ _ (cell j) H1), TL by (rewrite ?cell_eq; lia).
      unfold off_of; destruct (getZ_is_Some SL j) as ([o q] & ->); [lia|done].
    + rewrite getZ_app_r by lia; replace j with (lenZ SL + (j - lenZ SL)) at 1 by lia; rewrite G2 by lia; unfold off_of.
      assert (getZ (map (up_slot (FL - 32)) SR) (j - lenZ SL) = up_slot (FL - 32) <$> getZ SR (j - lenZ SL)) as ->
        by (unfold getZ; destruct (j - lenZ SL <? 0); [done|]; apply list_lookup_fmap).
      destruct (getZ SR (j - lenZ SL)) as [[o q]|]; cbn; lia.
Qed.

Lemma merge_nodes_spec (l r : bnode) (next : res bnode) (right_ptr : Z) (SL SR : list (Z * list Z)) (FL FR : Z) :
  layout bt (data l) SL FL -> layout bt (data r) SR FR -> weight (recs SL) + weight (recs SR) <= size - 40 ->
  exists m, layout bt m (SL ++ map (up_slot (FL - 32)) SR) (FL + FR - 32)
  /\ get32 m NEXT_NODE_ID = get32 (data r) NEXT_NODE_ID
  /\ get32 m PREV_NODE_ID = get32 (data l) PREV_NODE_ID /\ get32 m NODE_ID = get32 (data l) NODE_ID
  /\ btree_merge_nodes bt l r next right_ptr
     = if get32 (data r) NEXT_NODE_ID =? 0 then Ok (0, vdfs4_mark_bnode_dirty (set_data m l), r, None)
       else match next with
            | Err _ => Ok (right_ptr, set_data m l, r, None)
            | Val nx =>
                k ← wr32 (data nx) PREV_NODE_ID (get32 (data l) NODE_ID);
                m ← wr32 m NEXT_NODE_ID (node_id nx);
                Ok (0, vdfs4_mark_bnode_dirty (set_data m l), r, Some (vdfs4_mark_bnode_dirty (set_data k nx)))
            end.
Proof using Hbt.
  intros HL HR Hw; destruct (layout_weight bt _ _ _ HL) as [EL _]; destruct (layout_weight bt _ _ _ HR) as [ER _].
  pose proof (layout_bounds bt _ _ _ HL) as [HL1 HL2]; pose proof (layout_bounds bt _ _ _ HR) as [HR1 HR2].
  pose proof HL as [Llen LB _ _ _ TL CL FLs _]; pose proof HR as [Rlen RB _ _ _ TR CR _ _]; rewrite cell_eq in FLs.
  pose proof (lenZ_nonneg SL); pose proof (lenZ_nonneg SR); pose proof Hw as Hw'; unfold weight in Hw'; rewrite !lenZ_recs in Hw'.
  unfold bt_ok, DESCR_SIZE in *.
  assert (lenZ (sub (data r) 32 (FR - 32)) = FR - 32) as Ev by (apply lenZ_sub; lia).
  pose proof (same_out_upd (data l) (sub (data r) 32 (FR - 32)) FL ltac:(lia) ltac:(lia)) as H1; rewrite Ev in H1.
  set (m1 := upd_at (data l) FL _) in *; assert (lenZ m1 = size) as L1 by (destruct H1; congruence).
  assert (get16 m1 RECS_COUNT = lenZ SL) as C1 by (unfold RECS_COUNT in *; rewrite (same_out_get16 _ _ _ _ 14 H1) by lia; done).
  destruct (merge_offsets_spec (S (Z.to_nat (lenZ SR))) 0 FL (lenZ SL) (set_data m1 l) r SR FR) as (m2 & E2 & H2 & G2 & B2);
    rewrite ?data_set; unfold DESCR_SIZE; auto; try lia.
  rewrite data_set in H2, B2; rewrite set_set in E2; rewrite Z.add_0_r in H2.
  assert (lenZ m2 = size) as L2 by (destruct H2; congruence).
  assert (same_out (data l) m2 FL (size - 4)) as H12
    by (apply same_out_trans with m1; eapply same_out_mono; [exact H1| | |exact H2| |]; rewrite ?cell_eq; lia).
  set (free := size - 8 - 4 * lenZ SL - FL - (FR - 32) - lenZ SR * 4).
  destruct (wr16_step m2 12 free) as (m3 & E3 & L3 & H3 & V3 & B3); [lia..|]; specialize (V3 ltac:(unfold free; lia)).
  destruct (wr16_step m3 14 (lenZ SL + lenZ SR)) as (m4 & E4 & L4 & H4 & V4 & B4); [lia..|]; specialize (V4 ltac:(lia)).
  pose proof (get32_range (data r) 24 RB ltac:(lia) ltac:(lia)) as Rn.
  destruct (wr32_step m4 24 (get32 (data r) 24)) as (m5 & E5 & L5 & H5 & V5 & B5); [lia..|]; specialize (V5 Rn).
  assert (Forall is_byte m2) as Bm2 by (apply B2; unfold m1; auto using Forall_upd_at, Forall_sub).
  exists m5; split; [|split; [exact V5|split; [|split]]].
  - apply (merged_layout (data l) m1 m2 m5 r); auto.
    + apply same_out_trans with m3; [|apply same_out_trans with m4]; eapply same_out_mono; [exact H3| | |exact H4| | |exact H5| |]; lia.
    + unfold RECS_COUNT; rewrite (same_out_get16 _ _ _ _ 14 H5) by lia; done.
    + unfold FREE_SPACE; rewrite (same_out_get16 _ _ _ _ 12 H5), (same_out_get16 _ _ _ _ 12 H4), V3, cell_eq by lia; unfold free; lia.
  - unfold PREV_NODE_ID; rewrite (same_out_get32 _ _ _ _ 20 H5), (same_out_get32 _ _ _ _ 20 H4), (same_out_get32 _ _ _ _ 20 H3),
      (same_out_get32 _ _ _ _ 20 H12) by lia; done.
  - unfold NODE_ID; rewrite (same_out_get32 _ _ _ _ 16 H5), (same_out_get32 _ _ _ _ 16 H4), (same_out_get32 _ _ _ _ 16 H3),
      (same_out_get32 _ _ _ _ 16 H12) by lia; done.
  - assert (get32 m5 16 = get32 (data l) 16) as N5.
    { rewrite (same_out_get32 _ _ _ _ 16 H5), (same_out_get32 _ _ _ _ 16 H4), (same_out_get32 _ _ _ _ 16 H3),
        (same_out_get32 _ _ _ _ 16 H12) by lia; done. }
    unfold btree_merge_nodes, merge_records; rewrite (check_bnode_offset_area_spec l SL FL HL), (check_bnode_offset_area_spec r SR FR HR); cbn [mbind run_bind Z.eqb negb orb].
    rewrite (rd16_ok (data l) RECS_COUNT) by (unfold RECS_COUNT; lia); cbn [mbind run_bind]; rewrite CL.
    rewrite offset_addr_ok by (done || lia); cbn [mbind run_bind].
    rewrite (rd32_ok (data l) (cell (lenZ SL))), TL by (rewrite ?cell_eq; lia); cbn [mbind run_bind].
    assert (off_of SL FL (lenZ SL) = FL) as EoL by (unfold off_of; by rewrite getZ_None by lia); rewrite EoL.
    rewrite (rd16_ok (data r) RECS_COUNT) by (unfold RECS_COUNT; lia); cbn [mbind run_bind]; rewrite CR.
    rewrite (get_offset_ok bt Hbt r SR FR (lenZ SR)) by (done || lia); cbn [mbind run_bind].
    assert (off_of SR FR (lenZ SR) = FR) as EoR by (unfold off_of; by rewrite getZ_None by lia); rewrite EoR; unfold DESCR_SIZE.
    rewrite (slice_sub (data r)) by lia; cbn [mbind run_bind]; rewrite (blit_upd (data l)) by lia; cbn [mbind run_bind]; fold m1; rewrite data_set.
    rewrite (rd16_ok m1 RECS_COUNT) by (unfold RECS_COUNT; lia); cbn [mbind run_bind]; rewrite C1.
    assert (get_offset bt (set_data m1 l) (lenZ SL) = Ok FL) as ->.
    { unfold get_offset; rewrite offset_addr_ok by (done || lia); cbn [mbind run_bind]; rewrite data_set, rd32_ok by (rewrite ?cell_eq; lia).
      rewrite (same_out_get32 _ _ _ _ (cell (lenZ SL)) H1), TL by (rewrite ?cell_eq; lia); unfold off_of; by rewrite getZ_None by lia. }
    cbn [mbind run_bind]; rewrite E2; cbn [mbind run_bind Z.eqb negb]; rewrite data_set; unfold FREE_SPACE, RECS_COUNT, NEXT_NODE_ID, NODE_ID in *.
    rewrite (rd16_ok m2 12), (same_out_get16 _ _ _ _ 12 H12), FLs by lia; cbn [mbind run_bind]; fold free; rewrite u16_small by (unfold free; lia).
    rewrite E3; cbn [mbind run_bind]; rewrite (rd16_ok m3 14), (same_out_get16 _ _ _ _ 14 H3), (same_out_get16 _ _ _ _ 14 H12), CL by lia.
    cbn [mbind run_bind]; rewrite u16_small, E4 by lia; cbn [mbind run_bind].
    rewrite (rd32_ok (data r) 24) by lia; cbn [mbind run_bind]; rewrite E5; cbn [mbind run_bind Z.eqb negb]; rewrite !set_set.
    unfold merge_link; rewrite !data_set; unfold NEXT_NODE_ID, NODE_ID; rewrite (rd32_ok (data r) 24) by lia; cbn [mbind run_bind].
    unfold VDFS4_INVALID_NODE_ID; destruct (get32 (data r) 24 =? 0); [done|]; destruct next as [e|nx]; [done|].
    rewrite (rd32_ok m5 16), N5 by lia; cbn [mbind run_bind]; unfold PREV_NODE_ID.
    destruct (wr32 (data nx) 20 _); [|done|done]; cbn [mbind run_bind]; destruct (wr32 m5 24 _); [|done|done]; cbn [mbind run_bind]; by rewrite set_set.
Qed.

End Merge.
