(* ===== verification/BnodeTheorems.v ===== *)
(** What the node operations of src/linux/fs/vdfs4/btree.c do to the list of
    records a node holds. *)

From Stdlib Require Import ZArith Lia Bool List.
From stdpp Require Import base list.
From S2P Require Import Prelude Bytes Buffer TreeKeys Bnode BnodeRep BnodeDelete BnodeSearch BnodeSplit BnodeMerge.

Open Scope Z_scope.

(** ** From layouts to records *)

(** The test the callers make before they insert. *)
Lemma node_not_full (bt : btree) (b : bnode) (S : list (Z * list Z)) (F L : Z) :
  bt_ok bt -> layout bt (data b) S F ->
  is_node_full b L = Ok (negb (L + 4 <=? cell bt (lenZ S) - F)).
Proof.
  intros Hbt Hl; unfold bt_ok, is_node_full in *.
  rewrite rd16_ok by (rewrite ?(ly_len _ _ _ _ Hl); unfold FREE_SPACE; lia); cbn [mbind run_bind]; rewrite (ly_free _ _ _ _ Hl).
  by rewrite Z.ltb_antisym.
Qed.

Lemma not_full_fits (bt : btree) (b : bnode) (S : list (Z * list Z)) (F L : Z) :
  bt_ok bt -> layout bt (data b) S F -> is_node_full b L = Ok false -> F + L + 4 <= cell bt (lenZ S).
Proof. intros Hbt Hl; rewrite (node_not_full bt b S F) by done; intros [= E]; bools; lia. Qed.


Lemma map_low (k n : Z) (S : list (Z * list Z)) : map snd (map (low_slot k n) S) = map snd S.
Proof. rewrite map_map; done. Qed.

Lemma map_up (k : Z) (S : list (Z * list Z)) : map snd (map (up_slot k) S) = map snd S.
Proof. rewrite map_map; done. Qed.

Lemma map_delete {A B : Type} (f : A -> B) (i : nat) (l : list A) : map f (delete i l) = delete i (map f l).
Proof. revert i; induction l as [|x l IH]; intros [|i]; cbn; f_equal; auto. Qed.

Lemma delete_ins {A : Type} (pos : Z) (x : A) (l : list A) : 0 <= pos <= lenZ l -> delete (Z.to_nat pos) (ins pos x l) = l.
Proof.
  intros Hp; unfold ins; rewrite <- (take_drop (Z.to_nat pos) l) at 3.
  pose proof (delete_middle (take (Z.to_nat pos) l) (drop (Z.to_nat pos) l) x) as E.
  rewrite length_take in E; replace (Z.to_nat pos `min` length l)%nat with (Z.to_nat pos) in E by (unfold lenZ in Hp; lia); done.
Qed.

(** ** A small tree *)

Definition page_tree : btree := Btree 4096 600 true true.

Definition blank_node (id : Z) : bnode := Bnode (replicate (Z.to_nat 4096) 0) id true false false.

(** A record of the extents tree: 24 bytes of key, 16 bytes of value. *)
Definition ext_record (object iblock : Z) : list Z :=
  replicate 4 0 ++ le_bytes 2 24 ++ le_bytes 2 40 ++ le_bytes 8 object ++ le_bytes 8 iblock ++ replicate 16 0.

Lemma page_tree_ok : bt_ok page_tree.
Proof. unfold bt_ok; cbn; lia. Qed.

Lemma ext_record_ok (object iblock : Z) : rec_ok (ext_record object iblock).
Proof.
  split; [unfold VDFS4_MAX_BTREE_REC_LEN, lenZ; cbn; lia|]; split; [done|].
  unfold ext_record; rewrite !Forall_app; repeat split; auto using le_bytes_byte; apply Forall_replicate; unfold is_byte; lia.
Qed.

Lemma blank_bytes (id : Z) : lenZ (data (blank_node id)) = 4096 /\ Forall is_byte (data (blank_node id)).
Proof.
  unfold blank_node; cbn [data]; split.
  - unfold lenZ; rewrite length_replicate; lia.
  - apply Forall_replicate; unfold is_byte; lia.
Qed.

(** A leaf with two records. *)
Lemma two_records :
  exists b S F, layout page_tree (data b) S F /\ map snd S = [ext_record 1 5; ext_record 1 9] /\ node_id b = 7
  /\ get32 (data b) NEXT_NODE_ID = 0 /\ get32 (data b) PREV_NODE_ID = 0 /\ get32 (data b) NODE_ID = 7.
Proof.
  destruct (blank_bytes 7) as [Hl Hb].
  destruct (init_spec page_tree page_tree_ok (blank_node 7) 2 Hl Hb) as (m0 & _ & H0 & Hi0 & _ & Hp0 & Hn0).
  destruct (insert_into_node_spec page_tree page_tree_ok (set_data m0 (blank_node 7)) [] DESCR_SIZE 0 (ext_record 1 5))
    as (m1 & _ & H1 & I1); rewrite ?data_set; auto using ext_record_ok; [by vm_compute|by split|].
  change (lenZ (ext_record 1 5)) with 40 in H1; rewrite data_set in I1.
  destruct (insert_into_node_spec page_tree page_tree_ok (set_data m1 (blank_node 7)) _ _ 1 (ext_record 1 9) H1)
    as (m2 & _ & H2 & I2); auto using ext_record_ok; [by vm_compute|by split|].
  rewrite data_set in I2; exists (set_data m2 (blank_node 7)); eexists _, _; rewrite data_set.
  split; [exact H2|]; split; [done|]; split; [done|].
  assert (ids m2 = ids m0) as E by congruence.
  repeat split; rewrite (get32_ids page_tree page_tree_ok m0 m2) by
    (done || apply H0 || apply H2 || (unfold NEXT_NODE_ID, PREV_NODE_ID, NODE_ID; lia)); try done; by apply Hi0.
Qed.





(** ** Properties *)

(** A freshly initialised node of the right size holds no record, has no
    neighbours and carries its id and type. *)
Theorem node_init_correct (bt : btree) (b : bnode) (type : Z) :
  bt_ok bt -> lenZ (data b) = node_size_bytes bt -> Forall is_byte (data b) ->
  0 <= node_id b < 2 ^ 32 -> 0 <= type < 2 ^ 32 ->
  exists b', vdfs4_init_new_node_descr bt b type = Ok b' /\ rep bt b' [] /\ node_id b' = node_id b
  /\ get32 (data b') NODE_ID = node_id b /\ get32 (data b') TYPE = type
  /\ get32 (data b') PREV_NODE_ID = 0 /\ get32 (data b') NEXT_NODE_ID = 0.
Proof.
  intros Hbt Hl Hb Hi Ht; destruct (init_spec bt Hbt b type Hl Hb) as (m & E & Hm & H1 & H2 & H3 & H4).
  exists (set_data m b); rewrite data_set; split; [done|]; split; [exists [], DESCR_SIZE; by rewrite data_set|].
  split; [by destruct b|auto].
Qed.

Lemma node_init_correct_witness :
  exists b', vdfs4_init_new_node_descr page_tree (blank_node 7) 2 = Ok b' /\ rep page_tree b' [].
Proof.
  destruct (blank_bytes 7) as [Hl Hb].
  destruct (node_init_correct page_tree (blank_node 7) 2 page_tree_ok Hl Hb) as (b' & E & Hr & _); [cbn; lia|lia|].
  exists b'; split; [exact E|exact Hr].
Defined.

(** C33: Inserting a record into a node that is not full for it puts the record at
    the position asked for, in front of the record that was there, and changes no
    other record, nor the id, type or neighbours of the node. *)
Theorem insert_into_node_correct (bt : btree) (b : bnode) (R : list (list Z)) (r : list Z) (pos : Z) :
  bt_ok bt -> rep bt b R -> rec_ok r -> is_node_full b (lenZ r) = Ok false -> 0 <= pos <= lenZ R ->
  exists b', vdfs4_insert_into_node bt b r pos = Ok (0, b') /\ rep bt b' (ins pos r R)
  /\ ids (data b') = ids (data b).
Proof.
  intros Hbt (S & F & Hl & <-) Hr Hfull Hpos; rewrite lenZ_recs in Hpos; pose proof (not_full_fits _ _ _ _ _ Hbt Hl Hfull) as Hfit.
  destruct (insert_into_node_spec bt Hbt b S F pos r Hl Hr Hfit Hpos) as (m & E & Hm & Hi).
  exists (set_data m b); rewrite data_set; split; [done|]; split; [|done].
  exists (ins pos (F, r) S), (F + lenZ r); rewrite data_set, map_ins; done.
Qed.

Lemma insert_into_node_correct_witness :
  exists b b', vdfs4_insert_into_node page_tree b (ext_record 1 7) 1 = Ok (0, b')
  /\ rep page_tree b' [ext_record 1 5; ext_record 1 7; ext_record 1 9].
Proof.
  destruct two_records as (b & S & F & Hl & ER & _).
  destruct (insert_into_node_correct page_tree b (map snd S) (ext_record 1 7) 1 page_tree_ok) as (b' & E & Hr & _).
  - exists S, F; split; [exact Hl|reflexivity].
  - apply ext_record_ok.
  - rewrite (node_not_full page_tree b S F _ page_tree_ok Hl); destruct (layout_weight page_tree _ _ _ Hl) as [EF _].
    rewrite EF, ER, cell_eq, <- lenZ_recs, ER; reflexivity.
  - rewrite ER; by split.
  - exists b, b'; split; [exact E|]; rewrite ER in Hr; exact Hr.
Defined.

(** C34: Deleting record [i] of a node removes exactly that record, keeps the order
    of the others and marks the node dirty. *)
Theorem delete_from_node_correct (bt : btree) (b : bnode) (R : list (list Z)) (i : Z) :
  bt_ok bt -> rep bt b R -> 0 <= i < lenZ R ->
  exists b', delete_from_node bt b i = Ok (0, b') /\ rep bt b' (delete (Z.to_nat i) R) /\ dirty b' = true.
Proof.
  intros Hbt (S & F & Hl & <-) Hi; rewrite lenZ_recs in Hi; destruct (getZ_is_Some S i Hi) as ([k r] & Ei).
  destruct (delete_from_node_spec bt Hbt b S F i k r Hl Ei) as (m & E & Hm).
  eexists; split; [exact E|]; split; [|by destruct b as [? ? [] ? ?]].
  exists (map (low_slot k (lenZ r)) (delete (Z.to_nat i) S)), (F - lenZ r).
  replace (data (vdfs4_mark_bnode_dirty (set_data m b))) with m by (by destruct b as [? ? [] ? ?]).
  split; [done|]; rewrite map_low; apply map_delete.
Qed.

Lemma delete_from_node_correct_witness :
  exists b b', delete_from_node page_tree b 0 = Ok (0, b') /\ rep page_tree b' [ext_record 1 9].
Proof.
  destruct two_records as (b & S & F & Hl & ER & _).
  destruct (delete_from_node_correct page_tree b (map snd S) 0 page_tree_ok) as (b' & E & Hr & _).
  - exists S, F; split; [exact Hl|reflexivity].
  - rewrite ER; by split.
  - exists b, b'; split; [exact E|]; rewrite ER in Hr; exact Hr.
Defined.

(** Deleting the record that was just inserted gives back the records from
    before. *)
Theorem insert_delete_roundtrip (bt : btree) (b : bnode) (R : list (list Z)) (r : list Z) (pos : Z) :
  bt_ok bt -> rep bt b R -> rec_ok r -> is_node_full b (lenZ r) = Ok false -> 0 <= pos <= lenZ R ->
  exists b1 b2, vdfs4_insert_into_node bt b r pos = Ok (0, b1) /\ delete_from_node bt b1 pos = Ok (0, b2)
  /\ rep bt b2 R.
Proof.
  intros Hbt (S & F & Hl & <-) Hr Hfull Hpos; rewrite lenZ_recs in Hpos; pose proof (not_full_fits _ _ _ _ _ Hbt Hl Hfull) as Hfit.
  destruct (insert_into_node_spec bt Hbt b S F pos r Hl Hr Hfit Hpos) as (m & E & Hm & _).
  destruct (delete_from_node_spec bt Hbt (set_data m b) (ins pos (F, r) S) (F + lenZ r) pos F r) as (m' & E' & Hm');
    [by rewrite data_set|rewrite getZ_ins, Z.ltb_irrefl, Z.eqb_refl by lia; done|].
  eexists _, _; split; [exact E|]; split; [exact E'|].
  exists (map (low_slot F (lenZ r)) (delete (Z.to_nat pos) (ins pos (F, r) S))), (F + lenZ r - lenZ r).
  replace (data (vdfs4_mark_bnode_dirty (set_data m' (set_data m b)))) with m' by (by destruct b as [? ? [] ? ?]).
  rewrite map_low, delete_ins by done; split; [|done]; by rewrite delete_ins in Hm' by done.
Qed.

Lemma insert_delete_roundtrip_witness :
  exists b b1 b2, vdfs4_insert_into_node page_tree b (ext_record 1 7) 2 = Ok (0, b1)
  /\ delete_from_node page_tree b1 2 = Ok (0, b2) /\ rep page_tree b2 [ext_record 1 5; ext_record 1 9].
Proof.
  destruct two_records as (b & S & F & Hl & ER & _).
  destruct (insert_delete_roundtrip page_tree b (map snd S) (ext_record 1 7) 2 page_tree_ok) as (b1 & b2 & E1 & E2 & Hr).
  - exists S, F; split; [exact Hl|reflexivity].
  - apply ext_record_ok.
  - rewrite (node_not_full page_tree b S F _ page_tree_ok Hl); destruct (layout_weight page_tree _ _ _ Hl) as [EF _].
    rewrite EF, ER, cell_eq, <- lenZ_recs, ER; reflexivity.
  - rewrite ER; by split.
  - exists b, b1, b2; split; [exact E1|]; split; [exact E2|]; rewrite ER in Hr; exact Hr.
Defined.

(** C35: On a node whose records are in strictly ascending key order the binary
    search returns the last record that is not above the key, with its position,
    and -ENOENT exactly when every record is above the key. It ends for every
    node. *)
Theorem binary_search_correct {comp_fn : list Z -> list Z -> Z} {valid : list Z -> Prop} `{KeyCmp comp_fn valid}
    (bt : btree) (b : bnode) (R : list (list Z)) (key : list Z) :
  bt_ok bt -> rep bt b R -> R <> [] -> Forall valid R -> valid key -> sorted comp_fn R ->
  (exists p o r, binary_search bt comp_fn b key = Ok (Val o, p) /\ getZ R p = Some r
     /\ sub (data b) o (lenZ r) = r /\ comp_fn r key <= 0
     /\ forall j q, p < j -> getZ R j = Some q -> 0 < comp_fn q key)
  \/ (binary_search bt comp_fn b key = Ok (Err (- ENOENT), -1) /\ Forall (fun r => 0 < comp_fn r key) R).
Proof.
  intros Hbt (S & F & Hl & <-) Hne Hv Hk Hs; assert (0 < lenZ S) as Hn by (destruct S; [done|rewrite lenZ_cons; pose proof (lenZ_nonneg S); lia]).
  destruct (binary_search_spec bt Hbt b S F key Hl Hv Hn (sorted_ascending _ _ Hv Hk Hs)) as [(p & E & Hp & Hfl)|[E Hall]]; [left|by right].
  destruct Hfl as ((r & Er & Hr) & Hab); exists p, (off_of S F p), r; split; [done|]; split; [done|]; split; [|done].
  rewrite getZ_snd in Er; unfold off_of; destruct (getZ S p) as [[o q]|] eqn:Ep; [|done]; cbn in Er; injection Er as ->.
  pose proof (ly_data _ _ _ _ Hl) as Hd; rewrite Forall_forall in Hd; exact (Hd _ (getZ_elem _ _ _ Ep)).
Qed.

Lemma binary_search_correct_witness :
  exists b, (exists p o r, binary_search page_tree vdfs4_exttree_cmpfn b (ext_record 1 7) = Ok (Val o, p)
     /\ getZ [ext_record 1 5; ext_record 1 9] p = Some r /\ sub (data b) o (lenZ r) = r
     /\ vdfs4_exttree_cmpfn r (ext_record 1 7) <= 0
     /\ forall j q, p < j -> getZ [ext_record 1 5; ext_record 1 9] j = Some q -> 0 < vdfs4_exttree_cmpfn q (ext_record 1 7))
  \/ (binary_search page_tree vdfs4_exttree_cmpfn b (ext_record 1 7) = Ok (Err (- ENOENT), -1)
      /\ Forall (fun r => 0 < vdfs4_exttree_cmpfn r (ext_record 1 7)) [ext_record 1 5; ext_record 1 9]).
Proof.
  destruct two_records as (b & S & F & Hl & ER & _); exists b.
  apply (binary_search_correct page_tree b [ext_record 1 5; ext_record 1 9] (ext_record 1 7) page_tree_ok).
  - exists S, F; split; [exact Hl|exact ER].
  - discriminate.
  - repeat constructor; vm_compute; discriminate.
  - vm_compute; discriminate.
  - intros i j r q Hij Hr Hq; destruct i as [|[|i]], j as [|[|j]]; try lia; try discriminate Hq.
    cbn in Hr, Hq; injection Hr as <-; injection Hq as <-; vm_compute; reflexivity.
Defined.




(** When the old right neighbour cannot be fetched, the split puts the old
    content of the node back but still reports success: the new record is in
    neither the node nor an error code. *)
Theorem split_next_error_lost (bt : btree) (b right_bnode : bnode) (e : Z) (R : list (list Z)) (key : list Z) (L pos : Z) :
  bt_ok bt -> 4096 <= node_size_bytes bt -> rep bt b R -> R <> [] ->
  lenZ (data right_bnode) = node_size_bytes bt -> Forall is_byte (data right_bnode) ->
  0 <= node_id b < 2 ^ 32 -> 0 <= node_id right_bnode < 2 ^ 32 ->
  Forall is_byte key -> 8 <= L <= VDFS4_MAX_BTREE_REC_LEN -> 8 <= get16 key KEY_LEN <= L -> get16 key KEY_LEN <= lenZ key ->
  get16 key RECORD_LEN <= VDFS4_MAX_BTREE_REC_LEN -> 0 <= pos <= lenZ R -> get32 (data b) NEXT_NODE_ID <> 0 ->
  exists rb info, split_bnode bt b right_bnode key L pos (Err e) = Ok (0, b, rb, info, None).
Proof.
  intros Hbt Hsz (S & F & Hl & <-) Hne Hlr Hbr Hi Hir Bk HL Hd Hk Hrl Hpos Hnext; rewrite lenZ_recs in Hpos.
  assert (0 < lenZ S) as Hn by (destruct S; [done|rewrite lenZ_cons; pose proof (lenZ_nonneg S); lia]).
  destruct (split_bnode_spec bt Hbt b S F key L pos Hl Bk HL Hd Hk Hrl Hpos Hsz right_bnode (Err e) Hlr Hbr Hn Hi Hir I)
    as (lb & rb & info & nb & E); cbn zeta in E; rewrite (proj2 (Z.eqb_neq _ _)) in E by done; eauto.
Qed.

(** A leaf with two records and the right neighbour 9. *)
Lemma linked_records :
  exists b S F, layout page_tree (data b) S F /\ map snd S = [ext_record 1 5; ext_record 1 9] /\ node_id b = 7
  /\ get32 (data b) NEXT_NODE_ID = 9.
Proof.
  destruct two_records as (b & S & F & Hl & ER & Hid & _); pose proof (ly_len _ _ _ _ Hl) as Hlen; cbn in Hlen.
  destruct (wr32_step (data b) 24 9) as (m & _ & _ & Hm & V & B); [lia|lia|].
  exists (set_data m b), S, F; rewrite data_set; split; [|split; [done|split; [by destruct b|apply V; lia]]].
  apply (layout_links page_tree page_tree_ok (data b)); [done| |apply B, (ly_bytes _ _ _ _ Hl)].
  eapply same_out_mono; [exact Hm|lia|lia].
Qed.

Lemma split_next_error_lost_witness :
  exists b rb info, split_bnode page_tree b (blank_node 8) (ext_record 1 7) 40 1 (Err (- EIO)) = Ok (0, b, rb, info, None).
Proof.
  destruct linked_records as (b & S & F & Hl & ER & Hid & Hnx); destruct (blank_bytes 8) as [L8 B8].
  destruct (split_next_error_lost page_tree b (blank_node 8) (- EIO) (map snd S) (ext_record 1 7) 40 1 page_tree_ok)
    as (rb & info & E); try exact L8; try exact B8.
  - vm_compute; discriminate.
  - exists S, F; split; [exact Hl|reflexivity].
  - rewrite ER; discriminate.
  - rewrite Hid; lia.
  - cbn; lia.
  - apply ext_record_ok.
  - vm_compute; split; discriminate.
  - vm_compute; split; discriminate.
  - vm_compute; discriminate.
  - vm_compute; discriminate.
  - rewrite ER; vm_compute; split; discriminate.
  - rewrite Hnx; discriminate.
  - exists b, rb, info; exact E.
Defined.

(** C37: Merging two nodes whose free space adds up to a whole node, the test of
    rebalance, never fails for lack of room: the left node gets the records of the
    right node behind its own, with the right node's next neighbour, and that
    neighbour points back to it. *)
Theorem merge_nodes_correct (bt : btree) (l r nx : bnode) (right_ptr fl fr : Z) (RL RR : list (list Z)) :
  bt_ok bt -> rep bt l RL -> rep bt r RR -> lenZ (data nx) = node_size_bytes bt -> 0 <= node_id nx < 2 ^ 32 ->
  rd16 (data l) FREE_SPACE = Ok fl -> rd16 (data r) FREE_SPACE = Ok fr -> node_size_bytes bt <= fl + fr ->
  exists l' nx', btree_merge_nodes bt l r (Val nx) right_ptr = Ok (0, l', r, nx')
  /\ rep bt l' (RL ++ RR) /\ dirty l' = true
  /\ (if get32 (data r) NEXT_NODE_ID =? 0 then nx' = None /\ get32 (data l') NEXT_NODE_ID = 0
      else get32 (data l') NEXT_NODE_ID = node_id nx
           /\ exists nb, nx' = Some nb /\ get32 (data nb) PREV_NODE_ID = get32 (data l) NODE_ID).
Proof.
  intros Hbt (SL & FL & HL & <-) (SR & FR & HR & <-) Hnx Hid Efl Efr Hroom; pose proof (ly_len _ _ _ _ HL) as LL; pose proof (ly_len _ _ _ _ HR) as LR.
  destruct (layout_weight bt _ _ _ HL) as [EL _]; destruct (layout_weight bt _ _ _ HR) as [ER _]; pose proof Hbt as Hsz; unfold bt_ok in Hsz.
  rewrite rd16_ok, (ly_free _ _ _ _ HL), cell_eq in Efl by (unfold FREE_SPACE; lia).
  rewrite rd16_ok, (ly_free _ _ _ _ HR), cell_eq in Efr by (unfold FREE_SPACE; lia); injection Efl as <-; injection Efr as <-.
  destruct (merge_nodes_spec bt Hbt l r (Val nx) right_ptr SL SR FL FR HL HR) as (m & Hm & Hnext & Hprev & Hnid & E).
  { unfold weight; rewrite !lenZ_recs; lia. }
  pose proof (ly_len _ _ _ _ Hm) as Lm; pose proof (ly_bytes _ _ _ _ HL) as BL.
  assert (forall q w, layout bt q w (FL + FR - 32) -> w = SL ++ map (up_slot (FL - 32)) SR ->
    rep bt (vdfs4_mark_bnode_dirty (set_data q l)) (map snd SL ++ map snd SR)) as Hrep.
  { intros q w Hq ->; exists (SL ++ map (up_slot (FL - 32)) SR), (FL + FR - 32); rewrite map_app, map_up; split; [|done].
    replace (data (vdfs4_mark_bnode_dirty (set_data q l))) with q by (by destruct l as [? ? [] ? ?]); done. }
  destruct (Z.eqb_spec (get32 (data r) NEXT_NODE_ID) 0) as [E0|N0].
  - eexists _, None; split; [exact E|]; split; [by eapply Hrep|]; split; [by destruct l as [? ? [] ? ?]|]; split; [done|].
    replace (data (vdfs4_mark_bnode_dirty (set_data m l))) with m by (by destruct l as [? ? [] ? ?]); congruence.
  - destruct (wr32_step (data nx) 20 (get32 (data l) NODE_ID)) as (k & Ek & _ & _ & Vk & _); [lia..|].
    destruct (wr32_step m 24 (node_id nx)) as (m' & Em & Lm' & Hm' & Vm & Bm); [lia..|].
    unfold PREV_NODE_ID, NEXT_NODE_ID in E; rewrite Ek in E; cbn [mbind run_bind] in E; rewrite Em in E; cbn [mbind run_bind] in E.
    eexists _, _; split; [exact E|]; split.
    { eapply Hrep; [|done]; eapply (layout_links bt Hbt m); [exact Hm| |apply Bm, (ly_bytes _ _ _ _ Hm)].
      eapply same_out_mono; [exact Hm'|lia|lia]. }
    split; [by destruct l as [? ? [] ? ?]|]; split.
    + replace (data (vdfs4_mark_bnode_dirty (set_data m' l))) with m' by (by destruct l as [? ? [] ? ?]); by apply Vm.
    + eexists; split; [done|]; replace (data (vdfs4_mark_bnode_dirty (set_data k nx))) with k by (by destruct nx as [? ? [] ? ?]).
      apply Vk; unfold NODE_ID; apply get32_range; auto; lia.
Qed.

Lemma merge_nodes_correct_witness :
  exists l r l' nx', btree_merge_nodes page_tree l r (Val (blank_node 9)) 0 = Ok (0, l', r, nx')
  /\ rep page_tree l' [ext_record 1 5; ext_record 1 9; ext_record 1 5; ext_record 1 9].
Proof.
  destruct linked_records as (b & S & F & Hl & ER & Hid & Hnx); destruct (blank_bytes 9) as [L9 _].
  destruct (layout_weight page_tree _ _ _ Hl) as [EF _].
  assert (rd16 (data b) FREE_SPACE = Ok (4096 - 8 - 4 * 2 - 112)) as Efree.
  { rewrite rd16_ok by (rewrite ?(ly_len _ _ _ _ Hl); vm_compute; intuition discriminate); f_equal.
    rewrite (ly_free _ _ _ _ Hl), cell_eq, EF, <- lenZ_recs, ER; reflexivity. }
  destruct (merge_nodes_correct page_tree b b (blank_node 9) 0 (4096 - 8 - 4 * 2 - 112) (4096 - 8 - 4 * 2 - 112) (map snd S) (map snd S) page_tree_ok) as (l' & nx' & E & Hr & _);
    try exact L9; try exact Efree; try (cbn; lia); try (exists S, F; split; [exact Hl|reflexivity]).
  exists b, b, l', nx'; split; [exact E|]; rewrite ER in Hr; exact Hr.
Defined.

(** The sanity check that runs before a node is written accepts every node
    that holds at most 1000 records, so no sequence of insertions and deletions
    makes the driver refuse its own node. *)
Theorem sanity_check_accepts (bt : btree) (b : bnode) (R : list (list Z)) :
  bt_ok bt -> rep bt b R -> lenZ R <= 1000 -> vdfs4_bnode_sanity_check bt b = Ok (true, b).
Proof.
  intros Hbt (S & F & Hl & <-) Hn; rewrite lenZ_recs in Hn; exact (sanity_check_spec bt Hbt b S F Hl Hn).
Qed.

Lemma sanity_check_accepts_witness :
  exists b, rep page_tree b [ext_record 1 5; ext_record 1 9] /\ vdfs4_bnode_sanity_check page_tree b = Ok (true, b).
Proof.
  destruct two_records as (b & S & F & Hl & ER & _); exists b.
  assert (rep page_tree b [ext_record 1 5; ext_record 1 9]) as Hr by (exists S, F; split; [exact Hl|exact ER]).
  split; [exact Hr|]; apply (sanity_check_accepts page_tree b _ page_tree_ok Hr); vm_compute; discriminate.
Defined.

(** The catalog comparison is a strict total order of complete keys: it is
    antisymmetric and transitive, and answers 0 exactly for keys with the same
    parent, name and object id. *)
Theorem cattree_cmpfn_order (a b c : list Z) :
  cat_valid a -> cat_valid b -> cat_valid c ->
  Z.sgn (vdfs4_cattree_cmpfn b a) = - Z.sgn (vdfs4_cattree_cmpfn a b)
  /\ (vdfs4_cattree_cmpfn a b < 0 -> vdfs4_cattree_cmpfn b c <= 0 -> vdfs4_cattree_cmpfn a c < 0)
  /\ (vdfs4_cattree_cmpfn a b = 0 <->
      get64 a 8 = get64 b 8 /\ name a 25 26 = name b 25 26 /\ get64 a 16 = get64 b 16).
Proof.
  intros Ha Hb Hc; split; [by apply cmp_antisym|]; split; [by apply cmp_trans|].
  rewrite cmp_eq by done; change (cat_view a = cat_view b <-> get64 a 8 = get64 b 8 /\ name a 25 26 = name b 25 26 /\ get64 a 16 = get64 b 16).
  unfold cat_view; split.
  - intros [= H8 H]; apply app_inj_2 in H as [Hn [= H16]]; done.
  - by intros (-> & -> & ->).
Qed.

Lemma cattree_cmpfn_order_witness :
  let k n := replicate 25 0 ++ [2; 97; n] in
  Z.sgn (vdfs4_cattree_cmpfn (k 99) (k 98)) = - Z.sgn (vdfs4_cattree_cmpfn (k 98) (k 99)).
Proof.
  intros k; apply (cattree_cmpfn_order (k 98) (k 99) (k 99));
    (split; [unfold k; rewrite Forall_app; split; [apply Forall_replicate; unfold is_byte; lia|repeat constructor; unfold is_byte; lia]
            |vm_compute; discriminate]).
Defined.
