(* ===== verification/NodeStore.v ===== *)
(** The nodes of a tree and their ids, src/linux/fs/vdfs4/bnode.c: fetching and
    releasing nodes with reference counts, allocating and freeing node ids, and
    the reserve of nodes for splits.

    A node is named by its id: the hash table of the driver holds at most one
    struct vdfs4_bnode per id, and [cached] is that table with the mode and the
    reference count of each entry. [pages] is the content of the pages of each
    node. Calls out of the file that may fail (kzalloc, kmem_cache_alloc,
    vdfs4_read_or_create_pages with the validation of what was read) take their
    outcome from [env], a list of results; an empty list stands for calls that
    succeed. The theorem on searching leaves [env] open; those on insertion, removal
    and allocation assume [calls_succeed], the empty list.

    Two steps that no theorem depends on are left out: the checksum that
    read_or_create_bnode_data puts into a created node, which is computed again when
    the node is signed, and the growth of the tree file by creating a node inside
    vdfs4_alloc_new_bnode, where [available] stays behind; the reserve has grown the
    file before. *)

From Stdlib Require Import ZArith Lia Bool List.
From stdpp Require Import base list gmap sets.
From S2P Require Import Prelude Bytes Bitmap FindBit Buffer Bnode.

Open Scope Z_scope.

(** struct vdfs4_bnode_bitmap *)
Record bnode_bitmap : Type := BnodeBitmap {
  bits : list Z;
  bits_num : Z;
  first_free_id : Z;
  free_num : Z
}.

(** A tree at run time: struct vdfs4_btree with the fields of its head node
    (struct vdfs4_raw_btree_head), the nodes marked dirty, whether an error has
    remounted the volume read-only, and [available], the number of nodes in the
    table of the tree file (VDFS4_LAST_TABLE_INDEX + 1). *)
Record tree : Type := Tree {
  pages : gmap Z (list Z);
  cached : gmap Z (bool * Z);
  root_bnode_id : Z;
  btree_height : Z;
  bitmap : bnode_bitmap;
  dirty_nodes : gset Z;
  readonly : bool;
  available : Z;
  env : list Z
}.

Definition set_pages (x : gmap Z (list Z)) (t : tree) : tree :=
  Tree x (cached t) (root_bnode_id t) (btree_height t) (bitmap t) (dirty_nodes t) (readonly t) (available t) (env t).
Definition set_cached (x : gmap Z (bool * Z)) (t : tree) : tree :=
  Tree (pages t) x (root_bnode_id t) (btree_height t) (bitmap t) (dirty_nodes t) (readonly t) (available t) (env t).
Definition set_root (x : Z) (t : tree) : tree :=
  Tree (pages t) (cached t) x (btree_height t) (bitmap t) (dirty_nodes t) (readonly t) (available t) (env t).
Definition set_height (x : Z) (t : tree) : tree :=
  Tree (pages t) (cached t) (root_bnode_id t) x (bitmap t) (dirty_nodes t) (readonly t) (available t) (env t).
Definition set_bitmap (x : bnode_bitmap) (t : tree) : tree :=
  Tree (pages t) (cached t) (root_bnode_id t) (btree_height t) x (dirty_nodes t) (readonly t) (available t) (env t).
Definition add_dirty (i : Z) (t : tree) : tree :=
  Tree (pages t) (cached t) (root_bnode_id t) (btree_height t) (bitmap t) ({[i]} ∪ dirty_nodes t) (readonly t) (available t) (env t).
Definition set_readonly (x : bool) (t : tree) : tree :=
  Tree (pages t) (cached t) (root_bnode_id t) (btree_height t) (bitmap t) (dirty_nodes t) x (available t) (env t).
Definition set_available (x : Z) (t : tree) : tree :=
  Tree (pages t) (cached t) (root_bnode_id t) (btree_height t) (bitmap t) (dirty_nodes t) (readonly t) x (env t).
Definition set_env (x : list Z) (t : tree) : tree :=
  Tree (pages t) (cached t) (root_bnode_id t) (btree_height t) (bitmap t) (dirty_nodes t) (readonly t) (available t) x.

(** ** Actions on a tree *)

Definition act (A : Type) : Type := tree -> run (A * tree).

#[export] Instance act_ret : MRet act := fun A a t => Ok (a, t).
#[export] Instance act_bind : MBind act := fun A B f m t =>
  match m t with Ok (a, t) => f a t | Bug => Bug | Fault => Fault end.

Definition lift {A : Type} (m : run A) : act A := fun t => a ← m; Ok (a, t).
Definition state {A : Type} (f : tree -> A) : act A := fun t => Ok (f t, t).
Definition change (f : tree -> tree) : act unit := fun t => Ok (tt, f t).

(** The result of a call that may fail. *)
Definition env_call : act Z := fun t =>
  match env t with [] => Ok (0, t) | e :: es => Ok (e, set_env es t) end.

(** A fetched node, as struct vdfs4_bnode shows it. *)
Definition node_of (t : tree) (id : Z) : run bnode :=
  match pages t !! id, cached t !! id with
  | Some m, Some (w, _) => Ok (Bnode m id w (readonly t) false)
  | _, _ => Fault
  end.

(** What an operation has done to a node. *)
Definition put_back (b : bnode) (t : tree) : tree :=
  let t := set_readonly (readonly t || rdonly b) (set_pages (<[node_id b := data b]> (pages t)) t) in
  if dirty b then add_dirty (node_id b) t else t.

Definition read_node {A : Type} (id : Z) (f : bnode -> run A) : act A := fun t =>
  b ← node_of t id; a ← f b; Ok (a, t).

Definition with_node {A : Type} (id : Z) (f : bnode -> run (A * bnode)) : act A := fun t =>
  b ← node_of t id; '(a, b) ← f b; Ok (a, put_back b t).

(** How often a node that does not validate is read again. *)
Definition VDFS4_META_REREAD_BNODE : nat := 2.

Section Store.
Context `{FindBit} (bt : btree) (fresh : Z -> list Z).

#[local] Abbreviation size := (node_size_bytes bt).

(** vdfs4_dump_panic on the head node. *)
Definition panic_head : act unit := change (set_readonly true).

(** vdfs4_mark_bnode_dirty on the head node, which is held read-write. *)
Definition mark_head_dirty : act unit := change (add_dirty 0).

Definition mark_dirty (id : Z) : act unit := with_node id (fun b => Ok (tt, vdfs4_mark_bnode_dirty b)).

(** [alloc_bnode] without the fields of the new struct: success or -ENOMEM. *)
Definition alloc_bnode : act Z :=
  e ← env_call; mret (if e =? 0 then 0 else - ENOMEM).

(** The content a created node starts with: counting 16-bit words in a debug
    build, else what its pages held. *)
Definition poison : list Z := mjoin (map (le_bytes 2) (seqZ 0 (size / 2))).

Definition created (id : Z) (t : tree) : list Z :=
  if debug bt then poison else match pages t !! id with Some m => m | None => fresh id end.

(** The attempts of [read_or_create_bnode_data] with [n] more to come: reading the
    pages, mapping them, and for an existing node the comparison of magic, version
    and checksum, whose outcomes are calls out of the file. A node that stays
    invalid makes a mounted volume read-only, a failed mapping any volume. *)
Fixpoint read_attempts (n : nat) (id : Z) (create : bool) : act Z :=
  ret ← env_call;
  if negb (ret =? 0) then mret ret
  else
    mapped ← env_call;
    if negb (mapped =? 0) then change (set_readonly true);; mret (- ENOMEM)
    else if create then change (fun t => set_pages (<[id := created id t]> (pages t)) t);; mret 0
    else
      bad ← env_call;
      if bad =? 0 then mret 0
      else match n with
           | S n => read_attempts n id create
           | O => (if mount_finished bt then change (set_readonly true) else mret tt);; mret (- EINVAL)
           end.

(** [read_or_create_bnode_data]: the error, after which the node has no data. *)
Definition read_or_create_bnode_data (id : Z) (create : bool) : act Z := read_attempts VDFS4_META_REREAD_BNODE id create.

(** [vdfs4_put_bnode] *)
Definition vdfs4_put_bnode (id : Z) : act unit :=
  c ← state cached;
  match c !! id with
  | None => lift Fault
  | Some (w, n) =>
      (if n <=? 0 then panic_head else mret tt);;
      if n - 1 =? 0 then change (set_cached (delete id c)) else change (set_cached (<[id := (w, n - 1)]> c))
  end.

(** [vdfs4_get_bnode]; [rw] is the mode VDFS4_BNODE_MODE_RW. *)
Definition vdfs4_get_bnode (id : Z) (rw : bool) : act (res Z) :=
  bm ← state bitmap;
  if negb (id =? 0) && (bits_num bm <=? id) then mret (Err (- ENOENT))
  else if negb (id =? 0) && negb (bit (bits bm) id) then mret (Err (- ENOENT))
  else
    c ← state cached;
    match c !! id with
    | Some (w, n) => change (set_cached (<[id := (rw || w, n + 1)]> c));; mret (Val id)
    | None =>
        e ← alloc_bnode;
        if negb (e =? 0) then mret (Err e)
        else
          change (set_cached (<[id := (rw, 1)]> c));;
          ret ← read_or_create_bnode_data id false;
          if negb (ret =? 0) then vdfs4_put_bnode id;; mret (Err ret) else mret (Val id)
    end.

Definition set_bit_of (id : Z) (v : bool) : act unit :=
  change (fun t => let '(BnodeBitmap m n f c) := bitmap t in set_bitmap (BnodeBitmap (put_bit m id v) n f c) t).

(** [vdfs4_alloc_new_bnode] *)
Definition vdfs4_alloc_new_bnode : act (res Z) :=
  bm ← state bitmap;
  if free_num bm =? 0 then mret (Err (- ENOSPC))
  else
    let id := first_free_id bm in
    if 8 * lenZ (bits bm) <=? id then lift Fault
    else if bit (bits bm) id then panic_head;; mret (Err (- EFAULT))
    else
      set_bit_of id true;;
      e ← alloc_bnode;
      if negb (e =? 0) then set_bit_of id false;; mret (Err e)
      else
        ret ← read_or_create_bnode_data id true;
        if negb (ret =? 0) then set_bit_of id false;; mret (Err ret)
        else
          change (fun t =>
            let '(BnodeBitmap m n f c) := bitmap t in
            set_bitmap (BnodeBitmap m n (u32 (find_next_zero_bit m n f)) (u32 (c - 1))) t);;
          mark_head_dirty;;
          change (fun t => set_cached (<[id := (true, 1)]> (cached t)) t);;
          mret (Val id).

(** [vdfs4_destroy_bnode] *)
Definition vdfs4_destroy_bnode (id : Z) : act Z :=
  if id =? VDFS4_INVALID_NODE_ID then panic_head;; mret (- EINVAL)
  else
    c ← state cached;
    match c !! id with
    | None => lift Fault
    | Some (w, n) =>
        if negb (n - 1 =? 0) then
          change (set_cached (<[id := (w, n - 1)]> c));; panic_head;; mret (- EFAULT)
        else
          change (set_cached (delete id c));;
          bm ← state bitmap;
          '(was, m) ← lift (vdfs4_test_and_clear_bit id 0 (bits bm));
          change (set_bitmap (BnodeBitmap m (bits_num bm) (first_free_id bm) (free_num bm)));;
          if negb was then panic_head;; mret (- EFAULT)
          else
            mark_head_dirty;;
            change (set_bitmap (BnodeBitmap m (bits_num bm) (Z.min (first_free_id bm) id) (u32 (free_num bm + 1))));;
            mret 0
    end.

(** The initialisation of a reserved node; its struct is not in the hash table. *)
Definition init_reserved (id : Z) : act unit := fun t =>
  match pages t !! id with
  | None => Fault
  | Some m =>
      b ← vdfs4_init_new_node_descr bt (Bnode m id true (readonly t) false) 0;
      Ok (tt, put_back (vdfs4_mark_bnode_dirty b) t)
  end.

(** [vdfs4_prealloc_one_bnode_reserve] *)
Definition vdfs4_prealloc_one_bnode_reserve (id : Z) : act Z :=
  e ← alloc_bnode;
  if negb (e =? 0) then mret e
  else
    ret ← read_or_create_bnode_data id true;
    if negb (ret =? 0) then mret ret
    else
      change (fun t => set_available (Z.max (available t) (id + 1)) t);;
      init_reserved id;;
      mret 0.

(** The loop of [vdfs4_check_bnode_reserve] over [n] nodes from [i]. *)
Fixpoint reserve_loop (n : nat) (i : Z) : act Z :=
  match n with
  | O => mret 0
  | S n =>
      ret ← vdfs4_prealloc_one_bnode_reserve (u32 i);
      if negb (ret =? 0) then mret ret else reserve_loop n (i + 1)
  end.

(** [vdfs4_check_bnode_reserve]: the deficit is unsigned, so a reserve that is
    large enough shows as a loop whose end is below its start. *)
Definition vdfs4_check_bnode_reserve : act Z :=
  t ← state (fun t => t);
  let reserve := btree_height t * 4 in
  let available_bnodes := available t in
  let used_bnodes := bits_num (bitmap t) -64 free_num (bitmap t) in
  let free_bnodes := available_bnodes -64 used_bnodes in
  let bnodes_deficit := reserve -64 free_bnodes in
  if bnodes_deficit <=? 0 then mret 0
  else
    let new_bnodes_num := available_bnodes +64 bnodes_deficit in
    reserve_loop (Z.to_nat (new_bnodes_num - available_bnodes)) available_bnodes.

(** ** The head of the tree *)

(** [vdfs4_btree_inc_height] *)
Definition vdfs4_btree_inc_height : act unit :=
  change (fun t => set_height (u16 (btree_height t + 1)) t);; mark_head_dirty.

(** [vdfs4_btree_dec_height] *)
Definition vdfs4_btree_dec_height : act unit :=
  h ← state btree_height;
  lift (bug_on (u16 (h - 1) =? 0));;
  change (set_height (u16 (h - 1)));; mark_head_dirty.

(** [vdfs4_btree_set_root_id] *)
Definition vdfs4_btree_set_root_id (id : Z) : act unit := change (set_root id);; mark_head_dirty.

End Store.
