(* ===== verification/StoreRep.v ===== *)
(** What the operations of NodeStore.v do: reference counts that balance, node ids
    that are fresh, and a reserve that always leaves room for a split. *)

From Stdlib Require Import ZArith Lia Bool List.
From stdpp Require Import base list gmap sets.
From S2P Require Import Prelude Bytes Bitmap Count FindBit Buffer Bnode BnodeRep NodeStore.

Open Scope Z_scope.

(** ** Running actions *)

Lemma act_bind_ok {A B : Type} (m : act A) (f : A -> act B) (t t' : tree) (a : A) :
  m t = Ok (a, t') -> (m ≫= f) t = f a t'.
Proof. intros E; unfold mbind, act_bind; by rewrite E. Qed.

(** Runs the first action of the goal with a fact about it. *)
Ltac act_step H := rewrite (act_bind_ok _ _ _ _ _ H); cbn beta iota; cbn [data node_id Bnode.rw].
(** Runs actions that compute. *)
Ltac act_run := unfold mbind at 1, act_bind at 1; cbn beta iota.

Lemma state_ok {A : Type} (f : tree -> A) (t : tree) : state f t = Ok (f t, t).
Proof. done. Qed.

Lemma ret_bind {A B : Type} (a : A) (f : A -> act B) (t : tree) : (mret a ≫= f) t = f a t.
Proof. done. Qed.

Lemma change_ok (f : tree -> tree) (t : tree) : change f t = Ok (tt, f t).
Proof. done. Qed.

Lemma lift_ok {A : Type} (m : run A) (a : A) (t : tree) : m = Ok a -> lift m t = Ok (a, t).
Proof. by intros ->. Qed.

(** Runs a step of the code that reads or computes without touching the tree. *)
Ltac lift_step H := rewrite (act_bind_ok _ _ _ _ _ (lift_ok _ _ _ H)); cbn beta iota; cbn [data node_id Bnode.rw].

Lemma act_assoc {A B C : Type} (m : act A) (f : A -> act B) (g : B -> act C) (t : tree) :
  ((m ≫= f) ≫= g) t = (m ≫= (fun a => f a ≫= g)) t.
Proof. unfold mbind, act_bind; by destruct (m t) as [[a t']| |]. Qed.

(** ** The hash table of fetched nodes *)

Definition hold (c : gmap Z (bool * Z)) (id : Z) (rw : bool) : gmap Z (bool * Z) :=
  match c !! id with
  | Some (w, n) => <[id := (rw || w, n + 1)]> c
  | None => <[id := (rw, 1)]> c
  end.

(** Fetching the node in this mode changes no mode that another holder sees. *)
Definition loose (c : gmap Z (bool * Z)) (id : Z) (rw : bool) : Prop :=
  match c !! id with Some (w, n) => 0 < n /\ (rw = true -> w = true) | None => True end.

Lemma hold_lookup (c : gmap Z (bool * Z)) (id : Z) (rw : bool) :
  exists n, hold c id rw !! id = Some (rw || match c !! id with Some (w, _) => w | None => false end, n).
Proof.
  unfold hold; destruct (c !! id) as [[w n]|]; rewrite lookup_insert_eq; [eauto|].
  exists 1; by rewrite orb_false_r.
Qed.

Lemma hold_lookup_ne (c : gmap Z (bool * Z)) (id j : Z) (rw : bool) : j <> id -> hold c id rw !! j = c !! j.
Proof. intros Hj; unfold hold; destruct (c !! id) as [[w n]|]; by rewrite lookup_insert_ne by done. Qed.

Lemma hold_comm (c : gmap Z (bool * Z)) (i j : Z) (r s : bool) :
  i <> j -> hold (hold c i r) j s = hold (hold c j s) i r.
Proof.
  intros Hij; unfold hold at 1 3; rewrite !hold_lookup_ne by done; unfold hold.
  destruct (c !! i) as [[w n]|], (c !! j) as [[v m]|]; by rewrite insert_insert_ne by done.
Qed.

Lemma hold_mode (c : gmap Z (bool * Z)) (id : Z) : exists n, hold c id true !! id = Some (true, n).
Proof. destruct (hold_lookup c id true) as (n & ->); eauto. Qed.

Lemma loose_free (c : gmap Z (bool * Z)) (id : Z) (rw : bool) : c !! id = None -> loose c id rw.
Proof. unfold loose; by intros ->. Qed.

Lemma loose_hold_ne (c : gmap Z (bool * Z)) (i j : Z) (r s : bool) : i <> j -> loose c j s -> loose (hold c i r) j s.
Proof. intros Hij; unfold loose; by rewrite hold_lookup_ne by done. Qed.

Lemma put_ok (t : tree) (c : gmap Z (bool * Z)) (id : Z) (rw : bool) :
  cached t = hold c id rw -> loose c id rw -> vdfs4_put_bnode id t = Ok (tt, set_cached c t).
Proof.
  intros E Hl; unfold vdfs4_put_bnode; act_run; unfold state; cbn beta iota; rewrite E.
  unfold loose in Hl; unfold hold; destruct (c !! id) as [[w n]|] eqn:Ec.
  - destruct Hl as [Hn Hw]; rewrite lookup_insert_eq; act_run.
    rewrite (proj2 (Z.leb_gt (n + 1) 0)) by lia; cbn [mret act_ret].
    rewrite (proj2 (Z.eqb_neq (n + 1 - 1) 0)) by lia; unfold change.
    rewrite insert_insert_eq; replace (n + 1 - 1) with n by lia.
    assert ((rw || w) = w) as -> by (destruct rw; [cbn; symmetry; by apply Hw|done]).
    by rewrite insert_id.
  - rewrite lookup_insert_eq; act_run; cbn; by rewrite delete_insert_id.
Qed.

Lemma node_of_ok (t : tree) (id : Z) (m : list Z) (w : bool) (n : Z) :
  pages t !! id = Some m -> cached t !! id = Some (w, n) -> node_of t id = Ok (Bnode m id w (readonly t) false).
Proof. unfold node_of; by intros -> ->. Qed.

Lemma read_ok {A : Type} (t : tree) (id : Z) (f : bnode -> run A) (m : list Z) (w : bool) (n : Z) (a : A) :
  pages t !! id = Some m -> cached t !! id = Some (w, n) ->
  f (Bnode m id w (readonly t) false) = Ok a -> read_node id f t = Ok (a, t).
Proof.
  intros Hm Hc Hf; unfold read_node; rewrite (node_of_ok _ _ _ _ _ Hm Hc); cbn [mbind run_bind]; by rewrite Hf.
Qed.

Lemma with_ok {A : Type} (t : tree) (id : Z) (f : bnode -> run (A * bnode)) (m : list Z) (w : bool) (n : Z) (a : A) (b : bnode) :
  pages t !! id = Some m -> cached t !! id = Some (w, n) ->
  f (Bnode m id w (readonly t) false) = Ok (a, b) -> with_node id f t = Ok (a, put_back b t).
Proof.
  intros Hm Hc Hf; unfold with_node; rewrite (node_of_ok _ _ _ _ _ Hm Hc); cbn [mbind run_bind]; by rewrite Hf.
Qed.

(** ** Node ids *)

(** A node id that is in use. *)
Definition used (t : tree) (id : Z) : Prop := 0 < id < bits_num (bitmap t) /\ bit (bits (bitmap t)) id = true.

(** The bitmap of node ids and its summary: the first clear bit and the number of
    clear bits. Bit 0 belongs to the head node. *)
Record bitmap_ok (bm : bnode_bitmap) : Prop := {
  bo_len : 8 * lenZ (bits bm) = bits_num bm;
  bo_num : 8 <= bits_num bm < 2 ^ 31;
  bo_head : bit (bits bm) 0 = true;
  bo_free : free_num bm = bits_num bm - count (bit (bits bm)) 0 (bits_num bm);
  bo_first : 0 <= first_free_id bm <= bits_num bm;
  bo_below : forall i, 0 <= i < first_free_id bm -> bit (bits bm) i = true;
  bo_clear : first_free_id bm < bits_num bm -> bit (bits bm) (first_free_id bm) = false
}.

(** Nodes are a whole number of pages and fit the 16-bit free_space. *)
Definition paged (bt : btree) : Prop := 4096 <= node_size_bytes bt <= 65536 /\ node_size_bytes bt mod 4096 = 0.

Definition page_ok (bt : btree) (m : list Z) : Prop := lenZ m = node_size_bytes bt /\ Forall is_byte m.

(** No call fails: memory is there, and nodes can be read and are valid. *)
Definition calls_succeed (t : tree) : Prop := env t = [].

(** A tree whose store is sound, in an environment where no call fails. The theorems
    say that of a tree in any environment with [store_sound], and ask for
    [calls_succeed] apart from it. *)
Record store_ok (bt : btree) (t : tree) : Prop := {
  so_bitmap : bitmap_ok (bitmap t);
  so_available : forall i, 0 <= i < bits_num (bitmap t) -> bit (bits (bitmap t)) i = true -> i < available t;
  so_max : 0 <= available t <= bits_num (bitmap t) + 2 ^ 18;
  so_pages : forall id m, pages t !! id = Some m -> page_ok bt m;
  so_height : 1 <= btree_height t < 2 ^ 16;
  so_env : env t = []
}.

Definition store_sound (bt : btree) (t : tree) : Prop := store_ok bt (set_env [] t).

(** Everything a node in use shows, the nodes of [X] apart, is as it was. *)
Record keeps (X : gset Z) (t t' : tree) : Prop := {
  kp_readonly : readonly t' = readonly t;
  kp_bits_num : bits_num (bitmap t') = bits_num (bitmap t);
  kp_used : forall id, used t id -> used t' id;
  kp_pages : forall id, used t id -> id ∉ X -> pages t' !! id = pages t !! id
}.

Lemma keeps_refl (X : gset Z) (t : tree) : keeps X t t.
Proof. by split. Qed.

Lemma keeps_trans (X Y : gset Z) (t t' t'' : tree) : keeps X t t' -> keeps Y t' t'' -> keeps (X ∪ Y) t t''.
Proof.
  intros [R1 B1 U1 P1] [R2 B2 U2 P2]; split; [congruence|congruence|auto|].
  intros id Hu Hx; rewrite P2, P1; set_solver.
Qed.

Lemma keeps_mono (X Y : gset Z) (t t' : tree) : keeps X t t' -> X ⊆ Y -> keeps Y t t'.
Proof. intros [R B U P] HXY; split; auto; intros id Hu Hx; apply P; set_solver. Qed.

Lemma keeps_later (X : gset Z) (t t' t'' : tree) : keeps X t t' -> keeps ∅ t' t'' -> keeps X t t''.
Proof. intros H1 H2; eapply keeps_mono; [eapply keeps_trans; eauto|set_solver]. Qed.

Lemma keeps_cached (X : gset Z) (c : gmap Z (bool * Z)) (t : tree) : keeps X t (set_cached c t).
Proof. by split. Qed.

Lemma store_cached (bt : btree) (c : gmap Z (bool * Z)) (t : tree) : store_ok bt t -> store_ok bt (set_cached c t).
Proof. intros [? ? ? ? ? ?]; by split. Qed.

Lemma env_ok (t : tree) : env t = [] -> env_call t = Ok (0, t).
Proof. unfold env_call; by intros ->. Qed.

Section Store.
Context {find : FindBit} {Hfind : FindBitLaws} (bt : btree) (Hpg : paged bt) (fresh : Z -> list Z) (Hfresh : forall id, page_ok bt (fresh id)).

#[local] Abbreviation size := (node_size_bytes bt).

Lemma paged_ok : bt_ok bt.
Proof using Hpg. destruct Hpg; unfold bt_ok; lia. Qed.

Lemma read_ok_data (t : tree) (id : Z) (create : bool) :
  env t = [] -> read_or_create_bnode_data bt fresh id create t
  = Ok (0, if create then set_pages (<[id := created bt fresh id t]> (pages t)) t else t).
Proof.
  intros He; unfold read_or_create_bnode_data, VDFS4_META_REREAD_BNODE; cbn [read_attempts].
  do 2 (rewrite (act_bind_ok _ _ _ _ _ (env_ok t He)); cbn [Z.eqb negb]).
  destruct create; [done|]; by rewrite (act_bind_ok _ _ _ _ _ (env_ok t He)).
Qed.

Lemma get_ok (t : tree) (id : Z) (rw : bool) :
  env t = [] -> used t id ->
  vdfs4_get_bnode bt fresh id rw t = Ok (Val id, set_cached (hold (cached t) id rw) t).
Proof.
  intros He [Hr Hb]; unfold vdfs4_get_bnode; act_run; unfold state; cbn beta iota.
  rewrite (proj2 (Z.leb_gt _ _)) by lia; rewrite andb_false_r, Hb, andb_false_r.
  act_run; unfold hold; destruct (cached t !! id) as [[w n]|].
  - done.
  - unfold alloc_bnode; rewrite act_assoc; act_step (env_ok t He); act_run; cbn [Z.eqb negb mret act_ret].
    rewrite (act_bind_ok _ _ _ _ _ (change_ok _ _)); act_step (read_ok_data (set_cached (<[id:=(rw, 1)]> (cached t)) t) id false He); done.
Qed.

(** A node that is fetched and released leaves no trace. *)
Lemma put_hold (t : tree) (id : Z) (rw : bool) :
  loose (cached t) id rw -> vdfs4_put_bnode id (set_cached (hold (cached t) id rw) t) = Ok (tt, t).
Proof. intros Hl; rewrite (put_ok _ (cached t) id rw) by done; by destruct t. Qed.

(** ** The bitmap *)

Lemma first_le_count (bm : bnode_bitmap) :
  bitmap_ok bm -> first_free_id bm <= count (bit (bits bm)) 0 (bits_num bm).
Proof.
  intros [_ Hn _ _ Hf Hb _]; replace (bits_num bm) with (first_free_id bm + (bits_num bm - first_free_id bm)) by lia.
  rewrite count_split by lia; rewrite (count_all _ 0 (first_free_id bm) true) by (lia || intros; apply Hb; lia).
  pose proof (count_range (bit (bits bm)) (0 + first_free_id bm) (bits_num bm - first_free_id bm)); lia.
Qed.

Lemma first_clear (bm : bnode_bitmap) : bitmap_ok bm -> 0 < free_num bm -> 0 < first_free_id bm < bits_num bm.
Proof.
  intros [Hl Hn Hh Hf Hff Hb Hc] Hpos; split.
  - destruct (Z.eq_dec (first_free_id bm) 0) as [E|]; [|lia]; rewrite E in Hc; rewrite Hc in Hh; [done|lia].
  - destruct (Z.eq_dec (first_free_id bm) (bits_num bm)) as [E|]; [|lia].
    rewrite (count_all _ 0 (bits_num bm) true) in Hf by (lia || intros; apply Hb; lia); lia.
Qed.

(** The number of used ids is at most the number of nodes of the tree file. *)
Lemma count_le_available (t : tree) :
  store_ok bt t -> count (bit (bits (bitmap t))) 0 (bits_num (bitmap t)) <= available t.
Proof.
  intros [Hbm Ha Hm _ _ _]; pose proof (bo_num _ Hbm) as Hn; set (U := bit (bits (bitmap t))) in *; set (N := bits_num (bitmap t)) in *.
  destruct (Z.leb_spec (available t) N) as [Hle|Hgt].
  - replace N with (available t + (N - available t)) by lia; rewrite count_split by lia.
    rewrite (count_all U (0 + available t) (N - available t) false); [|lia|].
    + pose proof (count_range U 0 (available t) ltac:(lia)); lia.
    + intros x Hx; destruct (U x) eqn:E; [|done]; specialize (Ha x ltac:(lia) E); lia.
  - pose proof (count_range U 0 N ltac:(lia)); lia.
Qed.

Lemma created_ok (t : tree) (id : Z) : store_ok bt t -> page_ok bt (created bt fresh id t).
Proof using Hpg Hfresh.
  intros Hs; unfold created; destruct (debug bt).
  - unfold poison, page_ok; destruct Hpg as [Hr Hm]; set (k := size / 2).
    assert (size = 2 * k) as Ek.
    { unfold k; pose proof (Z.div_mod size 2 ltac:(lia)); pose proof (Z.mod_pos_bound size 2 ltac:(lia)).
      assert ((size mod 4096) mod 2 = 0) as E0 by (by rewrite Hm).
      rewrite Z.mod_mod_divide in E0; [lia|exists 2048; lia]. }
    assert (forall l, lenZ (mjoin (map (le_bytes 2) l)) = 2 * lenZ l /\ Forall is_byte (mjoin (map (le_bytes 2) l))) as Hj.
    { induction l as [|x l [IHl IHb]]; [by split|]; change (mjoin (map (le_bytes 2) (x :: l))) with (le_bytes 2 x ++ mjoin (map (le_bytes 2) l)).
      rewrite lenZ_app, lenZ_cons, lenZ_le_bytes, IHl, Forall_app; split; [lia|]; auto using le_bytes_byte. }
    destruct (Hj (seqZ 0 k)) as [Hl Hb]; split; [|done]; rewrite Hl; unfold lenZ; rewrite length_seqZ; lia.
  - destruct (pages t !! id) eqn:E; [by apply (so_pages _ _ Hs) in E|apply Hfresh].
Qed.

(** The bitmap after the first clear id is taken. *)
Lemma take_first (bm : bnode_bitmap) :
  bitmap_ok bm -> 0 < free_num bm ->
  let m := put_bit (bits bm) (first_free_id bm) true in
  bitmap_ok (BnodeBitmap m (bits_num bm) (u32 (find_next_zero_bit m (bits_num bm) (first_free_id bm))) (u32 (free_num bm - 1)))
  /\ u32 (free_num bm - 1) = free_num bm - 1.
Proof using Hfind.
  intros Hbm Hpos m; pose proof (first_clear bm Hbm Hpos) as Hf; pose proof Hbm as [Hl Hn Hh Hfr _ Hb Hc].
  assert (forall i, bit m i = if i =? first_free_id bm then true else bit (bits bm) i) as Hbit
    by (intros i; apply bit_put_bit; lia).
  assert (8 * lenZ m = bits_num bm) as Hlm by (unfold m; rewrite lenZ_put_bit; done).
  destruct (find_next_zero_bit_spec m (bits_num bm) (first_free_id bm)) as (R & Hbelow & Hz); [lia|lia|].
  pose proof (count_range (bit (bits bm)) 0 (bits_num bm) ltac:(lia)).
  assert (u32 (free_num bm - 1) = free_num bm - 1) as Ef by (apply u32_small; lia).
  split; [|done]; rewrite Ef, u32_small by lia; split; cbn; try done; try lia.
  - rewrite Hbit; by destruct (Z.eqb_spec 0 (first_free_id bm)).
  - rewrite (count_ext (bit m) (upd (bit (bits bm)) (first_free_id bm) 1 true)).
    + rewrite count_upd by (lia || (cbn; apply Hc; lia)).
      rewrite (proj2 (Z.leb_le _ _)), (proj2 (Z.ltb_lt _ _)) by lia; cbn; lia.
    + intros x _; rewrite Hbit; unfold upd.
      destruct (Z.eqb_spec x (first_free_id bm)), (Z.leb_spec (first_free_id bm) x), (Z.ltb_spec x (first_free_id bm + 1)); done || lia.
  - intros i Hi; destruct (Z.ltb_spec i (first_free_id bm)).
    + rewrite Hbit; destruct (Z.eqb_spec i (first_free_id bm)); [done|]; apply Hb; lia.
    + apply Hbelow; lia.
Qed.

(** What the allocation of a node does. *)
Record allocated (t t' : tree) (id : Z) : Prop := {
  al_new : bit (bits (bitmap t)) id = false;
  al_used : used t' id;
  al_page : exists m, pages t' !! id = Some m /\ page_ok bt m;
  al_pages : forall j, j <> id -> pages t' !! j = pages t !! j;
  al_cached : cached t' = <[id := (true, 1)]> (cached t);
  al_root : root_bnode_id t' = root_bnode_id t;
  al_height : btree_height t' = btree_height t;
  al_free : free_num (bitmap t') = free_num (bitmap t) - 1;
  al_available : available t' = available t;
  al_keeps : keeps ∅ t t';
  al_store : store_ok bt t';
  al_ids : forall j, used t' j -> j = id \/ used t j
}.

Lemma alloc_ok (t : tree) :
  store_ok bt t -> 0 < free_num (bitmap t) -> first_free_id (bitmap t) < available t ->
  exists t', vdfs4_alloc_new_bnode bt fresh t = Ok (Val (first_free_id (bitmap t)), t')
  /\ allocated t t' (first_free_id (bitmap t)).
Proof using Hfind Hpg Hfresh.
  intros Hs Hpos Hav; pose proof Hs as [Hbm Ha Hm Hp Hh He]; pose proof (first_clear _ Hbm Hpos) as Hf.
  destruct (take_first _ Hbm Hpos) as [Hbm' Efree]; pose proof (bo_clear _ Hbm ltac:(lia)) as Hclear; pose proof (bo_len _ Hbm) as Hl.
  pose proof (created_ok t (first_free_id (bitmap t)) Hs) as Hcr.
  destruct t as [P C rt h [m n ff fn] d o a e]; cbn in *; subst e.
  assert (forall i, bit (put_bit m ff true) i = if i =? ff then true else bit m i) as Hbit by (intros i; apply bit_put_bit; lia).
  unfold vdfs4_alloc_new_bnode; act_run; unfold state; cbn.
  rewrite (proj2 (Z.eqb_neq fn 0)), (proj2 (Z.leb_gt _ ff)), Hclear by lia; cbn.
  unfold created in Hcr; cbn in Hcr; unfold created; cbn.
  eexists; split; [reflexivity|]; split; cbn; try done.
  - split; cbn; [done|]; by rewrite Hbit, Z.eqb_refl.
  - rewrite lookup_insert_eq; eauto.
  - intros j Hj; by rewrite lookup_insert_ne by done.
  - split; cbn; try done.
    + intros id [Hi Hb]; split; cbn in *; [done|]; rewrite Hbit; by destruct (id =? ff).
    + intros id [Hi Hb] _; cbn in *; rewrite lookup_insert_ne; [done|]; intros ->; congruence.
  - split; cbn; try done.
    + intros i Hi; rewrite Hbit; destruct (Z.eqb_spec i ff) as [->|]; [done|]; by apply Ha.
    + intros id x; destruct (decide (id = ff)) as [->|]; [rewrite lookup_insert_eq; intros [= <-]; exact Hcr|].
      rewrite lookup_insert_ne by done; apply Hp.
  - intros j [Hj Hb]; cbn in *; rewrite Hbit in Hb; destruct (Z.eqb_spec j ff) as [->|]; [by left|right; by split].
Qed.

Lemma alloc_full (t : tree) : free_num (bitmap t) = 0 -> vdfs4_alloc_new_bnode bt fresh t = Ok (Err (- ENOSPC), t).
Proof. intros E; unfold vdfs4_alloc_new_bnode; act_run; unfold state; cbn beta iota; by rewrite E. Qed.

(** ** The reserve *)

(** Nodes that are not in use may change, and the tree file may grow. *)
Record reserved (t t' : tree) : Prop := {
  rv_cached : cached t' = cached t;
  rv_root : root_bnode_id t' = root_bnode_id t;
  rv_height : btree_height t' = btree_height t;
  rv_bitmap : bitmap t' = bitmap t;
  rv_keeps : keeps ∅ t t';
  rv_store : store_ok bt t'
}.

Lemma prealloc_ok (t : tree) (i : Z) :
  store_ok bt t -> available t <= i -> i < bits_num (bitmap t) + 2 ^ 18 ->
  exists t', vdfs4_prealloc_one_bnode_reserve bt fresh i t = Ok (0, t') /\ reserved t t' /\ available t' = i + 1.
Proof using Hpg Hfresh.
  intros Hs Hi Hmax; pose proof Hs as [Hbm Ha Hm Hp Hh He]; pose proof (created_ok t i Hs) as Hcr; pose proof paged_ok as Hbt.
  pose proof (bo_num _ Hbm) as Hn.
  unfold vdfs4_prealloc_one_bnode_reserve, alloc_bnode; rewrite act_assoc; act_step (env_ok t He); act_run; cbn [Z.eqb negb mret act_ret].
  act_step (read_ok_data t i true He); set (t1 := set_pages (<[i := created bt fresh i t]> (pages t)) t); cbn [Z.eqb negb].
  rewrite (act_bind_ok _ _ _ _ _ (change_ok _ _)).
  set (t2 := set_available (available t1 `max` (i + 1)) t1).
  destruct (init_spec bt Hbt (Bnode (created bt fresh i t) i true (readonly t) false) 0) as (m & Em & Hl & _); [apply Hcr..|].
  unfold mbind at 1, act_bind at 1; unfold init_reserved.
  replace (pages t2 !! i) with (Some (created bt fresh i t)) by (unfold t2, t1; cbn; by rewrite lookup_insert_eq).
  change (readonly t2) with (readonly t); rewrite Em; cbn [mbind run_bind].
  assert (page_ok bt m) as Hmok by (split; [apply (ly_len _ _ _ _ Hl)|apply (ly_bytes _ _ _ _ Hl)]).
  eexists; split; [reflexivity|].
  assert (forall id, used t id -> id <> i) as Hne.
  { intros id [Hr Hb] ->; specialize (Ha i ltac:(lia) Hb); lia. }
  split; [|cbn; lia]; unfold t2, t1, put_back; cbn; split; cbn; try done.
  - split; cbn; try done.
    + apply orb_diag.
    + intros id Hu _; by rewrite insert_insert_eq, lookup_insert_ne by (by apply not_eq_sym, Hne).
  - split; cbn; try done; [|lia|].
    + intros j Hj Hb; specialize (Ha j Hj Hb); lia.
    + intros id x; rewrite insert_insert_eq; destruct (decide (id = i)) as [->|]; [rewrite lookup_insert_eq; intros [= <-]; exact Hmok|].
      rewrite lookup_insert_ne by done; apply Hp.
Qed.

Lemma reserved_refl (t : tree) : store_ok bt t -> reserved t t.
Proof. intros Hs; split; auto using keeps_refl. Qed.

Lemma reserved_trans (t t' t'' : tree) : reserved t t' -> reserved t' t'' -> reserved t t''.
Proof.
  intros [C1 R1 H1 B1 K1 S1] [C2 R2 H2 B2 K2 S2]; split; try congruence.
  eapply keeps_mono; [eapply keeps_trans; [exact K1|exact K2]|set_solver].
Qed.

Lemma reserve_loop_ok (n : nat) (t : tree) :
  store_ok bt t -> available t + Z.of_nat n <= bits_num (bitmap t) + 2 ^ 18 ->
  exists t', reserve_loop bt fresh n (available t) t = Ok (0, t') /\ reserved t t' /\ available t' = available t + Z.of_nat n.
Proof using Hpg Hfresh.
  revert t; induction n as [|n IH]; intros t Hs Hmax.
  { exists t; split; [done|]; split; [by apply reserved_refl|lia]. }
  cbn [reserve_loop]; pose proof (so_max _ _ Hs); pose proof (bo_num _ (so_bitmap _ _ Hs)).
  destruct (prealloc_ok t (available t) Hs ltac:(lia) ltac:(lia)) as (t1 & E1 & R1 & A1).
  rewrite u32_small by lia; act_step E1; cbn [Z.eqb negb].
  destruct (IH t1 (rv_store _ _ R1)) as (t2 & E2 & R2 & A2); [rewrite (rv_bitmap _ _ R1); lia|].
  rewrite <- A1, E2; exists t2; split; [done|]; split; [eapply reserved_trans; eauto|lia].
Qed.

(** After the check the tree file has room for four nodes per level beyond the
    nodes in use: the unsigned deficit starts no loop when the room is there. *)
Lemma check_reserve_ok (t : tree) :
  store_ok bt t ->
  exists t', vdfs4_check_bnode_reserve bt fresh t = Ok (0, t') /\ reserved t t'
  /\ bits_num (bitmap t') - free_num (bitmap t') + 4 * btree_height t' <= available t'.
Proof using Hpg Hfresh.
  intros Hs; pose proof Hs as [Hbm Ha Hm Hp Hh He]; pose proof (count_le_available t Hs) as Hc; pose proof (bo_num _ Hbm) as Hn.
  pose proof (bo_free _ Hbm) as Hfr.
  set (C := count (bit (bits (bitmap t))) 0 (bits_num (bitmap t))) in *.
  pose proof (count_range (bit (bits (bitmap t))) 0 (bits_num (bitmap t)) ltac:(lia)) as Hcr; fold C in Hcr.
  unfold vdfs4_check_bnode_reserve; act_run; unfold state; cbn beta iota.
  rewrite (u64_small (bits_num (bitmap t) - free_num (bitmap t))) by lia.
  replace (bits_num (bitmap t) - free_num (bitmap t)) with C by lia; rewrite (u64_small (available t - C)) by lia.
  destruct (Z.leb_spec (btree_height t * 4) (available t - C)) as [Hle|Hgt].
  - exists t; split; [|split; [by apply reserved_refl|lia]].
    destruct (Z.eq_dec (btree_height t * 4) (available t - C)) as [E|N].
    { rewrite E, Z.sub_diag; done. }
    assert (btree_height t * 4 -64 (available t - C) = 2 ^ 64 + (btree_height t * 4 - (available t - C))) as Ed.
    { unfold u64; rewrite <- (Z.mod_add _ 1) by lia; rewrite Z.mod_small; lia. }
    rewrite Ed, (proj2 (Z.leb_gt _ 0)) by lia.
    assert (available t +64 (2 ^ 64 + (btree_height t * 4 - (available t - C))) = btree_height t * 4 + C) as En.
    { unfold u64; rewrite <- (Z.mod_add _ (-1)) by lia; rewrite Z.mod_small; lia. }
    rewrite En; replace (Z.to_nat (btree_height t * 4 + C - available t)) with 0%nat by lia; done.
  - rewrite (u64_small (btree_height t * 4 - (available t - C))), (proj2 (Z.leb_gt _ 0)) by lia.
    rewrite u64_small by lia.
    destruct (reserve_loop_ok (Z.to_nat (available t + (btree_height t * 4 - (available t - C)) - available t)) t Hs)
      as (t' & E & R & A); [lia|].
    exists t'; split; [done|]; split; [done|]; rewrite (rv_bitmap _ _ R), (rv_height _ _ R), A; lia.
Qed.

End Store.
