(* ===== verification/Btree.v ===== *)
(** Search and insertion in a tree, src/linux/fs/vdfs4/btree.c.

    Each level of a tree is a list of nodes linked by next_node_id; the records of
    an index level hold the ids of nodes of the level below. A node that no index
    record points to ("dangling") is found through its left neighbour, and a search
    that meets one puts the missing index record on a to-do list.

    [force_insert] only reaches the table of the tree file, whose answers are part
    of [env], and is left out. *)

From Stdlib Require Import ZArith Lia Bool List.
From stdpp Require Import base list gmap sets.
From S2P Require Import Prelude Bytes Bitmap FindBit Buffer Bnode NodeStore.

Open Scope Z_scope.

Definition VDFS4_BTREE_LEAF_LVL : Z := 1.
Definition VDFS4_NODE_INDEX : Z := 1.

(** struct vdfs4_btree_traverse_stack *)
Record stack_item : Type := StackItem { si_bnode_id : Z; si_pos : Z; si_level : Z }.

(** struct vdfs4_btree_todo_list. A pointer into the traverse stack is the part of
    the stack from there on, NULL the empty list. *)
Record todo_item : Type := TodoItem {
  traverse_data : list stack_item;
  point_to_bnode_id : Z;
  current_root_id : Z
}.

Section Btree.
Context `{FindBit} (bt : btree) (comp_fn : list Z -> list Z -> Z) (fresh : Z -> list Z).

#[local] Abbreviation size := (node_size_bytes bt).

(** The bytes from a record to the end of its node. *)
Definition record_bytes (b : bnode) (off : Z) : list Z := drop (Z.to_nat off) (data b).

(** [vdfs4_get_btree_record], with the bytes of the record. *)
Definition btree_record (id pos : Z) : act (res (Z * list Z)) :=
  read_node id (fun b =>
    r ← get_record bt b pos;
    Ok (match r with Err e => Err e | Val o => Val (o, record_bytes b o) end)).

(** ** Search *)

(** [put_add_index_work] *)
Definition put_add_index_work (todo : list todo_item) (td : list stack_item) (point_to root : Z) : act (list todo_item) :=
  e ← env_call; mret (if e =? 0 then TodoItem td point_to root :: todo else todo).

(** The traverse stack and the to-do list, which a caller gives both or not at
    all. *)
Definition paths : Type := option (list stack_item * list todo_item).

(** The loop of [btree_traverse_level]: on to the right as long as the key may be
    in the next node. The chain of a level has no more nodes than the tree. *)
Fixpoint dangling_loop (fuel : nat) (id pos : Z) (key : list Z) (ps : paths) : act (res Z * Z * paths) :=
  b ← read_node id (fun b => Ok b);
  recs ← lift (rd16 (data b) RECS_COUNT);
  next ← lift (rd32 (data b) NEXT_NODE_ID);
  if (pos =? recs - 1) && negb (next =? 0) then
    match fuel with
    | O => lift Fault
    | S fuel =>
        dang ← vdfs4_get_bnode bt fresh next (rw b);
        match dang with
        | Err e => vdfs4_put_bnode id;; mret (Err e, pos, ps)
        | Val dang =>
            '(record, dang_pos) ← read_node dang (fun b => binary_search bt comp_fn b key);
            match record with
            | Err e =>
                if e =? - ENOENT then vdfs4_put_bnode dang;; mret (Val id, pos, ps)
                else vdfs4_put_bnode dang;; vdfs4_put_bnode id;; mret (Err e, pos, ps)
            | Val _ =>
                vdfs4_put_bnode id;;
                ps ← match ps with
                     | None => mret None
                     | Some (stack, todo) =>
                         root ← state root_bnode_id;
                         todo ← put_add_index_work todo stack dang root;
                         mret (Some (stack, todo))
                     end;
                dangling_loop fuel dang dang_pos key ps
            end
        end
    end
  else mret (Val id, pos, ps).

(** [btree_traverse_level] *)
Definition btree_traverse_level (key : list Z) (start : Z) (rw : bool) (ps : paths) : act (res Z * Z * paths) :=
  b ← vdfs4_get_bnode bt fresh start rw;
  match b with
  | Err e => mret (Err e, 0, ps)
  | Val id =>
      '(record, pos) ← read_node id (fun b => binary_search bt comp_fn b key);
      match record with
      | Err e => vdfs4_put_bnode id;; mret (Err e, pos, ps)
      | Val _ =>
          fuel ← state (fun t => base.size (pages t));
          dangling_loop fuel id pos key ps
      end
  end.

(** [traverse_stack_push] *)
Definition traverse_stack_push (ps : paths) (id pos level : Z) : act (Z * paths) :=
  match ps with
  | None => mret (0, None)
  | Some (stack, todo) =>
      e ← env_call;
      if e =? 0 then mret (0, Some (StackItem id pos level :: stack, todo)) else mret (- ENOMEM, ps)
  end.

(** The loop of [vdfs4_btree_traverse], [n] levels from [level] down to
    [till_level]; without a level the returned pointer is NULL. *)
Fixpoint traverse_loop (n : nat) (level id : Z) (key : list Z) (rw : bool) (ps : paths) (till_level : Z)
    : act (res Z * Z * paths) :=
  match n with
  | O => lift Fault
  | S n =>
      '(b, pos, ps) ← btree_traverse_level key id rw ps;
      match b with
      | Err e => mret (Err e, pos, ps)
      | Val id =>
          '(ret, ps) ← traverse_stack_push ps id pos level;
          if negb (ret =? 0) then mret (Err ret, pos, ps)
          else if till_level <? level then
            record ← btree_record id pos;
            match record with
            | Err e => lift (bug_on (debug bt));; mret (Err e, pos, ps)
            | Val (o, _) =>
                index_val ← read_node id (fun b => get_value_pointer (data b) o);
                match index_val with
                | Err e => mret (Err e, pos, ps)
                | Val v =>
                    child ← read_node id (fun b => rd32 (data b) v);
                    vdfs4_put_bnode id;;
                    traverse_loop n (level - 1) child key rw ps till_level
                end
            end
          else mret (Val id, pos, ps)
      end
  end.

(** [vdfs4_btree_traverse] *)
Definition vdfs4_btree_traverse (key : list Z) (rw : bool) (ps : paths) (till_level : Z) : act (res Z * Z * paths) :=
  root ← state root_bnode_id;
  h ← state btree_height;
  lift (bug_on (debug bt && ((till_level <? VDFS4_BTREE_LEAF_LVL) || (h <? till_level))));;
  traverse_loop (Z.to_nat (h - till_level + 1)) h root key rw ps till_level.

(** [vdfs4_btree_find]: the node, which stays fetched, and the record in it. *)
Definition vdfs4_btree_find (key : list Z) (rw : bool) : act (res (Z * rec_info)) :=
  e ← env_call;
  if negb (e =? 0) then mret (Err (- ENOMEM))
  else
    '(b, pos, _) ← vdfs4_btree_traverse key rw None VDFS4_BTREE_LEAF_LVL;
    match b with
    | Err e => mret (Err e)
    | Val id =>
        record ← btree_record id pos;
        match record with
        | Err e => vdfs4_put_bnode id;; mret (Err e)
        | Val (o, _) =>
            '(err, info) ← read_node id (fun b => form_gen_record b o pos);
            if negb (err =? 0) then vdfs4_put_bnode id;; mret (Err (- EINVAL)) else mret (Val (id, info))
        end
    end.

(** ** Insertion *)

(** [split_bnode] on fetched nodes. *)
Definition split_node (left_id right_id : Z) (key : list Z) (new_rec_len pos : Z) : act (Z * option (bool * rec_info)) :=
  orig ← read_node left_id (fun b => Ok b);
  right_bnode ← read_node right_id (fun b => Ok b);
  '(err, l, r, info) ← lift (split_records bt orig right_bnode key new_rec_len pos);
  change (put_back l);; change (put_back r);;
  if negb (err =? 0) then change (put_back (set_data (data orig) l));; mret (err, info)
  else
    orig_next ← lift (rd32 (data orig) NEXT_NODE_ID);
    next ← (if orig_next =? VDFS4_INVALID_NODE_ID then mret (Err 0) else vdfs4_get_bnode bt fresh orig_next true);
    next_right ← match next with
                 | Err e => mret (Err e)
                 | Val n => read_node n (fun b => Ok (Val b))
                 end;
    '(err, l, r, info, nb) ← lift (split_link orig l r info next_right);
    change (put_back l);; change (put_back r);;
    match nb with
    | None => mret (err, info)
    | Some b => change (put_back b);; vdfs4_put_bnode (node_id b);; mret (err, info)
    end.

(** [place_key_in_bnode]: the record or an error, the node [*__bnode] and the
    to-do list. The next item behind the last one of the traverse stack is not
    there. *)
Definition place_key_in_bnode (td : list stack_item) (id pos : Z) (gen_key : list Z) (new_rec_len : Z)
    (todo : list todo_item) : act (res (Z * rec_info) * Z * list todo_item) :=
  e ← env_call;
  if negb (e =? 0) then mret (Err (- ENOMEM), id, todo)
  else
    raw_record ← btree_record id pos;
    match raw_record with
    | Err e => mret (Err e, id, todo)
    | Val (_, raw_record) =>
        if comp_fn raw_record gen_key =? 0 then mret (Err (- EEXIST), id, todo)
        else
          full ← read_node id (fun b => is_node_full b (u16 new_rec_len));
          if (full : bool) then
            ret ← vdfs4_check_bnode_reserve bt fresh;
            if negb (ret =? 0) then mret (Err ret, id, todo)
            else
              right_bnode ← vdfs4_alloc_new_bnode bt fresh;
              match right_bnode with
              | Err e => mret (Err e, id, todo)
              | Val right_id =>
                  '(ret, info) ← split_node id right_id gen_key new_rec_len (pos + 1);
                  mark_dirty id;; mark_dirty right_id;;
                  if negb (ret =? 0) then vdfs4_destroy_bnode right_id;; mret (Err ret, id, todo)
                  else
                    h ← state btree_height;
                    td ← match td with
                         | [] => lift Fault
                         | item :: up => if si_level item =? h then mret []
                                         else match up with [] => lift Fault | _ => mret up end
                         end;
                    root ← state root_bnode_id;
                    todo ← put_add_index_work todo td right_id root;
                    match info with
                    | None => lift Fault
                    | Some (false, ri) => vdfs4_put_bnode right_id;; mret (Val (id, ri), id, todo)
                    | Some (true, ri) => vdfs4_put_bnode id;; mret (Val (right_id, ri), right_id, todo)
                    end
              end
          else
            '(ret, info) ← with_node id (fun b =>
               '(ret, b, info) ← insert_key_into_bnode bt b gen_key new_rec_len (pos + 1);
               Ok ((ret, info), b));
            mark_dirty id;;
            if negb (ret =? 0) then mret (Err ret, id, todo)
            else match info with None => lift Fault | Some ri => mret (Val (id, ri), id, todo) end
    end.

(** A store through the value pointer of a record. *)
Definition write_value (id : Z) (val : res Z) (v : list Z) : act unit :=
  match val with
  | Err _ => lift Fault
  | Val a => with_node id (fun b => m ← blit (data b) a v; Ok (tt, set_data m b))
  end.

(** The loop of [build_new_root] from the node [curr]: the error, 0 when the new
    root points to every node of the old top level or is full. *)
Fixpoint new_root_loop (fuel : nat) (new_root curr pos : Z) : act Z :=
  match fuel with
  | O => lift Fault
  | S fuel =>
      key ← btree_record curr 0;
      match key with
      | Err e => vdfs4_put_bnode curr;; mret e
      | Val (_, key) =>
          key_len ← lift (rd16 key KEY_LEN);
          record_len ← lift (rd16 key RECORD_LEN);
          full ← read_node new_root (fun b => is_node_full b record_len);
          if (full : bool) then vdfs4_put_bnode curr;; mret 0
          else
            '(err, info) ← with_node new_root (fun b =>
               '(err, b, info) ← insert_key_into_bnode bt b key (key_len + 4) pos;
               Ok ((err, info), b));
            if negb (err =? 0) then mret err
            else
              match info with
              | None => lift Fault
              | Some ri =>
                  write_value new_root (ri_val ri) (le_bytes 4 curr);;
                  b ← read_node curr (fun b => Ok b);
                  next_id ← lift (rd32 (data b) NEXT_NODE_ID);
                  next ← (if next_id =? VDFS4_INVALID_NODE_ID then mret (Err (- ENOENT))
                          else vdfs4_get_bnode bt fresh next_id (rw b));
                  vdfs4_put_bnode curr;;
                  match next with
                  | Err e => if e =? - ENOENT then mret 0 else mret e
                  | Val next => new_root_loop fuel new_root next (pos + 1)
                  end
              end
      end
  end.

(** [build_new_root] *)
Definition build_new_root (current_root : Z) : act Z :=
  root ← state root_bnode_id;
  if negb (current_root =? root) then mret 0
  else
    e ← env_call;
    if negb (e =? 0) then mret (- ENOMEM)
    else
      new_root ← vdfs4_alloc_new_bnode bt fresh;
      match new_root with
      | Err e => mret e
      | Val new_root =>
          with_node new_root (fun b => b ← vdfs4_init_new_node_descr bt b VDFS4_NODE_INDEX; Ok (tt, b));;
          curr ← vdfs4_get_bnode bt fresh root false;
          match curr with
          | Err e => vdfs4_destroy_bnode new_root;; mret e
          | Val curr =>
              next_id ← read_node curr (fun b => rd32 (data b) NEXT_NODE_ID);
              if next_id =? VDFS4_INVALID_NODE_ID then vdfs4_destroy_bnode new_root;; mret 0
              else
                fuel ← state (fun t => base.size (pages t));
                err ← new_root_loop fuel new_root curr 0;
                if negb (err =? 0) then vdfs4_destroy_bnode new_root;; mret err
                else
                  vdfs4_btree_inc_height;;
                  vdfs4_btree_set_root_id new_root;;
                  mark_dirty new_root;; mark_head_dirty;;
                  vdfs4_put_bnode new_root;;
                  mret 0
          end
      end.

(** [place_index_record]: the error and the to-do list. *)
Definition place_index_record (item : todo_item) (todo : list todo_item) : act (Z * list todo_item) :=
  match traverse_data item with
  | [] => err ← build_new_root (current_root_id item); mret (err, todo)
  | above :: _ =>
      point_to ← vdfs4_get_bnode bt fresh (point_to_bnode_id item) false;
      match point_to with
      | Err e => mret (e, todo)
      | Val point_to =>
          gen_key ← btree_record point_to 0;
          match gen_key with
          | Err e => vdfs4_put_bnode point_to;; mret (e, todo)
          | Val (_, gen_key) =>
              '(b, pos, _) ← btree_traverse_level gen_key (si_bnode_id above) true None;
              match b with
              | Err e => vdfs4_put_bnode point_to;; mret (e, todo)
              | Val id =>
                  key_len ← lift (rd16 gen_key KEY_LEN);
                  '(record, id, todo) ← place_key_in_bnode (traverse_data item) id pos gen_key (key_len + 4) todo;
                  vdfs4_put_bnode point_to;;
                  match record with
                  | Err e => vdfs4_put_bnode id;; mret (e, todo)
                  | Val (rid, ri) =>
                      write_value rid (ri_val ri) (le_bytes 4 (point_to_bnode_id item));;
                      mark_dirty rid;; vdfs4_put_bnode rid;;
                      mret (0, todo)
                  end
              end
          end
      end
  end.

(** The loop of [place_data_at_level] over the to-do list. An item adds at most one
    new item, for the level above. *)
Fixpoint todo_loop (fuel : nat) (todo : list todo_item) : act unit :=
  match todo with
  | [] => mret tt
  | item :: todo =>
      match fuel with
      | O => lift Fault
      | S fuel => '(_, todo) ← place_index_record item todo; todo_loop fuel todo
      end
  end.

(** [place_data_at_level] *)
Definition place_data_at_level (gen_key : list Z) (level : Z) : act (res (Z * rec_info)) :=
  '(b, pos, ps) ← vdfs4_btree_traverse gen_key true (Some ([], [])) level;
  match b, ps with
  | Err e, _ => mret (Err e)
  | Val id, None => lift Fault
  | Val id, Some (stack, todo) =>
      record_len ← lift (rd16 gen_key RECORD_LEN);
      '(record, id, todo) ← place_key_in_bnode stack id pos gen_key record_len todo;
      match record with Err _ => vdfs4_put_bnode id | Val _ => mret tt end;;
      todo_loop (length todo * S (length stack)) todo;;
      mret record
  end.

(** [vdfs4_btree_place_data] *)
Definition vdfs4_btree_place_data (gen_key : list Z) : act (res (Z * rec_info)) :=
  place_data_at_level gen_key VDFS4_BTREE_LEAF_LVL.

(** [btree_insert_at_level] *)
Definition btree_insert_at_level (new_data : list Z) (level : Z) : act Z :=
  record ← place_data_at_level new_data level;
  match record with
  | Err e => mret e
  | Val (id, ri) =>
      record_len ← lift (rd16 new_data RECORD_LEN);
      key_len ← lift (rd16 new_data KEY_LEN);
      src ← lift (get_value_pointer new_data 0);
      match src with
      | Err _ => lift Fault
      | Val a =>
          v ← lift (slice new_data a (record_len -32 key_len));
          write_value id (ri_val ri) v;;
          vdfs4_put_bnode id;;
          mret 0
      end
  end.

(** [vdfs4_btree_insert] *)
Definition vdfs4_btree_insert (new_data : list Z) : act Z := btree_insert_at_level new_data VDFS4_BTREE_LEAF_LVL.

End Btree.
