(* ===== verification/BtreeRep.v ===== *)
(** The levels of a tree: chains of linked nodes with sorted records, each index
    record pointing to a node of the level below. *)

From Stdlib Require Import ZArith Lia Bool List.
From stdpp Require Import base list gmap sets.
From S2P Require Import Prelude Bytes Bitmap Count FindBit Buffer TreeKeys Bnode BnodeRep BnodeSearch BnodeSplit NodeStore StoreRep Btree.

Open Scope Z_scope.

(** A node with its records. *)
Definition node : Type := Z * list (list Z).

(** The records of a level, in order. *)
Definition lrecs (l : list node) : list (list Z) := concat (map snd l).

Definition hd_id (l : list node) (q : Z) : Z := match l with [] => q | n :: _ => fst n end.
Definition last_id (p : Z) (l : list node) : Z := match last l with None => p | Some n => fst n end.

Lemma lrecs_app (A B : list node) : lrecs (A ++ B) = lrecs A ++ lrecs B.
Proof. unfold lrecs; by rewrite map_app, concat_app. Qed.

Lemma lrecs_cons (n : node) (B : list node) : lrecs (n :: B) = snd n ++ lrecs B.
Proof. done. Qed.

Lemma elem_of_lrecs (l : list node) (r : list Z) : r ∈ lrecs l <-> exists n, n ∈ l /\ r ∈ snd n.
Proof.
  induction l as [|n l IH]; [cbn; split; [by intros ?%elem_of_nil|by intros (? & ?%elem_of_nil & _)]|].
  rewrite lrecs_cons, elem_of_app, IH; split.
  - intros [Hr|(x & Hx & Hr)]; [exists n|exists x]; set_solver.
  - intros (x & [->|Hx]%elem_of_cons & Hr); [by left|right; eauto].
Qed.

Lemma last_id_snoc (p : Z) (A : list node) (n : node) : last_id p (A ++ [n]) = fst n.
Proof. unfold last_id; by rewrite last_snoc. Qed.

Lemma last_id_cons (p : Z) (A : list node) (n : node) : last_id p (n :: A) = last_id (fst n) A.
Proof. unfold last_id; rewrite last_cons; by destruct (last A). Qed.

(** A level names every node once. *)
Lemma same_id (l : list node) (n n' : node) : NoDup (map fst l) -> n ∈ l -> n' ∈ l -> fst n = fst n' -> n = n'.
Proof.
  induction l as [|x l IH]; cbn; [by intros _ ?%elem_of_nil|]; rewrite NoDup_cons; intros [Hx Hnd] [->|Hn]%elem_of_cons [->|Hn']%elem_of_cons E; auto.
  - exfalso; apply Hx; rewrite E; by apply (list_elem_of_fmap_2 fst).
  - exfalso; apply Hx; rewrite <- E; by apply (list_elem_of_fmap_2 fst).
Qed.

(** ** Order *)

Section Order.
Context {comp_fn : list Z -> list Z -> Z} {valid : list Z -> Prop} `{Hcmp : KeyCmp comp_fn valid}.

Lemma sorted_app (A B : list (list Z)) :
  sorted comp_fn (A ++ B) <->
  sorted comp_fn A /\ sorted comp_fn B /\ (forall a b, a ∈ A -> b ∈ B -> comp_fn a b < 0).
Proof.
  unfold sorted; split.
  - intros Hs; split; [|split].
    + intros i j r q Hij Hr Hq; apply (Hs i j); [done| |]; by rewrite lookup_app_l by (by eapply lookup_lt_Some).
    + intros i j r q Hij Hr Hq; apply (Hs (length A + i)%nat (length A + j)%nat); [lia| |];
        rewrite lookup_app_r by lia; by rewrite Nat.add_comm, Nat.add_sub.
    + intros a b (i & Hi)%list_elem_of_lookup (j & Hj)%list_elem_of_lookup; pose proof (lookup_lt_Some _ _ _ Hi).
      apply (Hs i (length A + j)%nat); [lia| |].
      * by rewrite lookup_app_l by done.
      * rewrite lookup_app_r by lia; by rewrite Nat.add_comm, Nat.add_sub.
  - intros (HA & HB & HAB) i j r q Hij Hr Hq; rewrite lookup_app in Hr, Hq.
    destruct (A !! i) as [x|] eqn:Ei; destruct (A !! j) as [y|] eqn:Ej; simplify_eq.
    + by apply (HA i j).
    + apply HAB; eauto using list_elem_of_lookup_2.
    + apply lookup_ge_None in Ei; apply lookup_lt_Some in Ej; lia.
    + apply lookup_ge_None in Ei, Ej; apply (HB (i - length A)%nat (j - length A)%nat); [lia|done|done].
Qed.

Lemma sorted_one (r : list Z) : sorted comp_fn [r].
Proof. intros [|i] [|j] x y Hij Hx Hy; [lia|done|done|done]. Qed.

Lemma lt_gt (a b : list Z) : valid a -> valid b -> comp_fn a b < 0 <-> 0 < comp_fn b a.
Proof. intros Ha Hb; pose proof (cmp_antisym a b Ha Hb); lia. Qed.

Lemma key_above_trans (k x y : list Z) :
  valid k -> valid x -> valid y -> 0 < comp_fn x k -> comp_fn x y < 0 -> 0 < comp_fn y k.
Proof.
  intros Hk Hx Hy Hxk Hxy; apply lt_gt; [done..|]; apply cmp_trans with x; [done..| |lia]; by apply lt_gt.
Qed.

(** A new key between its floor and what follows keeps the order. *)
Lemma sorted_between (A B : list (list Z)) (r k : list Z) :
  Forall valid (A ++ r :: B) -> valid k -> sorted comp_fn (A ++ r :: B) -> comp_fn r k < 0 ->
  Forall (fun q => 0 < comp_fn q k) B -> sorted comp_fn (A ++ r :: k :: B).
Proof.
  intros Hv Hk Hs Hr HB; rewrite Forall_app, Forall_cons in Hv; destruct Hv as (VA & Vr & VB).
  rewrite Forall_forall in VA, VB, HB.
  apply sorted_app in Hs as (HA & Hs & HAs); change (r :: B) with ([r] ++ B) in Hs; apply sorted_app in Hs as (_ & HsB & HrB).
  change (r :: k :: B) with ([r] ++ [k] ++ B); rewrite !sorted_app; split; [done|]; split; [split; [apply sorted_one|]; split|].
  - split; [apply sorted_one|]; split; [done|]; intros a b ->%list_elem_of_singleton Hb; apply lt_gt; auto.
  - intros a b ->%list_elem_of_singleton [->%list_elem_of_singleton|Hb]%elem_of_app; [done|]; apply HrB; set_solver.
  - intros a b Ha [->%list_elem_of_singleton|[->%list_elem_of_singleton|Hb]%elem_of_app]%elem_of_app.
    + apply HAs; set_solver.
    + apply cmp_trans with r; auto; [|lia]; apply HAs; set_solver.
    + apply HAs; set_solver.
Qed.

End Order.

(** ** Nodes and levels in a tree *)

Section Levels.
Context (bt : btree) {comp_fn : list Z -> list Z -> Z} {valid : list Z -> Prop} `{Hcmp : KeyCmp comp_fn valid}.

(** A record with a complete key of key_len bytes. *)
Definition krec (r : list Z) : Prop :=
  rec_ok r /\ valid r /\ key_size r <= get16 r KEY_LEN <= lenZ r /\ get16 r KEY_LEN <= VDFS4_MAX_BTREE_KEY_LEN.

(** An index record, and the node it points to. *)
Definition irec (r : list Z) : Prop := krec r /\ get16 r KEY_LEN + 4 <= lenZ r.
Definition child (r : list Z) : Z := get32 r (get16 r KEY_LEN).

(** Node [n] of tree [t] between its neighbours [p] and [q]. *)
Record node_ok (t : tree) (p q : Z) (n : node) : Prop := {
  no_used : used t (fst n);
  no_page : exists m S F, pages t !! fst n = Some m /\ layout bt m S F /\ map snd S = snd n
    /\ get32 m NODE_ID = fst n /\ get32 m PREV_NODE_ID = p /\ get32 m NEXT_NODE_ID = q;
  no_recs : Forall krec (snd n);
  no_some : snd n <> []
}.

Fixpoint linked (t : tree) (p : Z) (l : list node) (q : Z) : Prop :=
  match l with
  | [] => True
  | n :: l => node_ok t p (hd_id l q) n /\ linked t (fst n) l q
  end.

Lemma linked_app (t : tree) (p q : Z) (A B : list node) :
  linked t p (A ++ B) q <-> linked t p A (hd_id B q) /\ linked t (last_id p A) B q.
Proof.
  revert p; induction A as [|n A IH]; intros p; [cbn; tauto|].
  rewrite last_id_cons; cbn [linked app]; rewrite IH.
  assert (hd_id (A ++ B) q = hd_id A (hd_id B q)) as -> by (by destruct A); tauto.
Qed.

Lemma linked_elem (t : tree) (p q : Z) (l : list node) (n : node) :
  linked t p l q -> n ∈ l -> exists p' q', node_ok t p' q' n.
Proof.
  revert p; induction l as [|x l IH]; intros p; cbn; [by intros _ ?%elem_of_nil|].
  intros [Hx Hl] [->|Hn]%elem_of_cons; eauto.
Qed.

Lemma node_keeps (X : gset Z) (t t' : tree) (p q : Z) (n : node) :
  keeps X t t' -> fst n ∉ X -> node_ok t p q n -> node_ok t' p q n.
Proof.
  intros Hk Hx [Hu (m & S & F & Hm & Hrest) Hr Hs]; split; auto; [by apply (kp_used _ _ _ Hk)|].
  exists m, S, F; by rewrite (kp_pages _ _ _ Hk).
Qed.

Lemma linked_keeps (X : gset Z) (t t' : tree) (p q : Z) (l : list node) :
  keeps X t t' -> (forall n, n ∈ l -> fst n ∉ X) -> linked t p l q -> linked t' p l q.
Proof.
  intros Hk; revert p; induction l as [|n l IH]; intros p Hx; cbn; [done|]; intros [Hn Hl]; split.
  - eapply node_keeps; eauto; apply Hx; set_solver.
  - apply IH; [|done]; intros x Hin; apply Hx; set_solver.
Qed.

Lemma linked_krec (t : tree) (p q : Z) (l : list node) : linked t p l q -> Forall krec (lrecs l).
Proof.
  intros Hl; apply Forall_forall; intros r (n & Hn & Hr)%elem_of_lrecs.
  destruct (linked_elem _ _ _ _ _ Hl Hn) as (p' & q' & [_ _ Hrs _]); rewrite Forall_forall in Hrs; auto.
Qed.

Lemma krec_valid (R : list (list Z)) : Forall krec R -> Forall valid R.
Proof. intros HR; eapply Forall_impl; [exact HR|]; intros r Hr; apply Hr. Qed.

(** ** Searching a level *)

(** The floor of [key] in a level is record [pos] of [n], with [B] behind. *)
Record found (key : list Z) (n : node) (B : list node) (pos : Z) : Prop := {
  fd_rec : exists r, getZ (snd n) pos = Some r /\ comp_fn r key <= 0;
  fd_after : Forall (fun q => 0 < comp_fn q key) (drop (Z.to_nat (pos + 1)) (snd n));
  fd_right : Forall (fun q => 0 < comp_fn q key) (lrecs B)
}.

Context (Hbt : bt_ok bt).

Lemma search_node (t : tree) (p q : Z) (n : node) (w : bool) (k : Z) (key : list Z) :
  node_ok t p q n -> cached t !! fst n = Some (w, k) -> valid key -> sorted comp_fn (snd n) ->
  (exists o pos r, read_node (fst n) (fun b => binary_search bt comp_fn b key) t = Ok ((Val o, pos), t)
     /\ getZ (snd n) pos = Some r /\ comp_fn r key <= 0
     /\ Forall (fun q => 0 < comp_fn q key) (drop (Z.to_nat (pos + 1)) (snd n)))
  \/ (read_node (fst n) (fun b => binary_search bt comp_fn b key) t = Ok ((Err (- ENOENT), -1), t)
      /\ Forall (fun q => 0 < comp_fn q key) (snd n)).
Proof using Hcmp Hbt.
  intros [_ (m & S & F & Hm & Hl & <- & _) Hr Hs] Hc Hk Hsrt.
  assert (0 < lenZ S) as Hn by (destruct S; [done|rewrite lenZ_cons; pose proof (lenZ_nonneg S); lia]).
  set (b := Bnode m (fst n) w (readonly t) false).
  destruct (binary_search_spec bt Hbt b S F key Hl (krec_valid _ Hr) Hn (sorted_ascending _ _ (krec_valid _ Hr) Hk Hsrt))
    as [(pos & E & Hp & (r & Er & Hle) & Hab)|[E Hall]]; [left|right].
  - exists (off_of S F pos), pos, r; split; [eapply read_ok; eauto|]; split; [done|]; split; [done|].
    apply Forall_lookup; intros i x Hx; rewrite lookup_drop in Hx; apply (Hab (pos + 1 + Z.of_nat i)); [lia|].
    unfold getZ; destruct (Z.ltb_spec (pos + 1 + Z.of_nat i) 0); [lia|]; rewrite <- Hx; f_equal; lia.
  - split; [eapply read_ok; eauto|done].
Qed.

(** What follows a record above the key is above the key. *)
Lemma right_above (t : tree) (p q : Z) (n : node) (B : list node) (key x : list Z) :
  linked t p (n :: B) q -> valid key -> sorted comp_fn (lrecs (n :: B)) -> x ∈ snd n -> 0 < comp_fn x key ->
  Forall (fun q => 0 < comp_fn q key) (lrecs B).
Proof using Hcmp.
  intros Hl Hk Hs Hx Hgt; rewrite lrecs_cons in Hs; apply sorted_app in Hs as (_ & _ & Hnb).
  pose proof (linked_krec _ _ _ _ Hl) as Hkr; rewrite lrecs_cons, Forall_app in Hkr; destruct Hkr as [Kn KB].
  apply krec_valid in Kn, KB; rewrite Forall_forall in Kn, KB |- *; intros y Hy; apply (key_above_trans key x); auto.
Qed.

(** The number of records and the next node, as the loop reads them. *)
Lemma read_links (t : tree) (p q : Z) (n : node) (w : bool) (k : Z) :
  node_ok t p q n -> cached t !! fst n = Some (w, k) ->
  exists m, pages t !! fst n = Some m
  /\ read_node (fst n) (fun b => Ok b) t = Ok (Bnode m (fst n) w (readonly t) false, t)
  /\ rd16 m RECS_COUNT = Ok (lenZ (snd n)) /\ rd32 m NEXT_NODE_ID = Ok q.
Proof using Hbt.
  intros [_ (m & S & F & Hm & Hl & <- & _ & _ & Hq) _ _] Hc; exists m; split; [done|]; split; [eapply read_ok; eauto|].
  unfold bt_ok in Hbt; pose proof (ly_len _ _ _ _ Hl).
  rewrite rd16_ok by (unfold RECS_COUNT; lia); rewrite rd32_ok by (unfold NEXT_NODE_ID; lia).
  rewrite (ly_count _ _ _ _ Hl), Hq; split; [|done]; unfold lenZ; by rewrite length_map.
Qed.

(** A record read through its position. *)
Lemma record_read (t : tree) (p q : Z) (n : node) (w : bool) (k pos : Z) (r : list Z) :
  node_ok t p q n -> cached t !! fst n = Some (w, k) -> getZ (snd n) pos = Some r ->
  exists m S F o x, pages t !! fst n = Some m /\ layout bt m S F /\ map snd S = snd n /\ getZ S pos = Some (o, r)
  /\ Forall is_byte x /\ btree_record bt (fst n) pos t = Ok (Val (o, r ++ x), t)
  /\ read_node (fst n) (fun b => get_value_pointer (data b) o) t = Ok (Val (o + get16 r KEY_LEN), t)
  /\ (irec r -> read_node (fst n) (fun b => rd32 (data b) (o + get16 r KEY_LEN)) t = Ok (child r, t)).
Proof using Hbt.
  intros [_ (m & S & F & Hm & Hl & HS & _) Hk _] Hc Hr.
  assert (krec r) as Kr by (rewrite Forall_forall in Hk; apply Hk; by eapply getZ_elem).
  rewrite <- HS, getZ_snd in Hr; destruct (getZ S pos) as [[o x]|] eqn:Es; [|done]; cbn in Hr; injection Hr as ->.
  pose proof (getZ_bounds _ _ _ Es) as Hpos; pose proof (slot_bounds bt _ _ _ _ _ Hl (getZ_elem _ _ _ Es)) as (Ho & Hof & H8).
  pose proof (layout_bounds bt _ _ _ Hl) as [_ Hhi]; pose proof (lenZ_nonneg S); pose proof (ly_len _ _ _ _ Hl) as Hlen.
  pose proof (ly_data _ _ _ _ Hl) as Hd; rewrite Forall_forall in Hd; specialize (Hd _ (getZ_elem _ _ _ Es)); cbn in Hd; unfold DESCR_SIZE in Ho.
  pose proof Kr as (_ & _ & Hks & Hkm).
  exists m, S, F, o, (drop (Z.to_nat (o + lenZ r)) m); split; [done|]; split; [done|]; split; [done|]; split; [done|].
  split; [apply Forall_drop, (ly_bytes _ _ _ _ Hl)|].
  assert (off_of S F pos = o) as Eo by (unfold off_of; by rewrite Es).
  assert (forall i j, 0 <= i -> 0 <= j -> i + j <= lenZ r -> sub m (o + i) j = sub r i j) as Hsub.
  { intros i j Hi Hj Hij; rewrite <- Hd; rewrite sub_sub by (rewrite ?Hd; lia); done. }
  split; [|split].
  - unfold btree_record; eapply read_ok; [done..|]; rewrite (get_record_ok bt Hbt _ S F pos) by (done || lia).
    cbn [mbind run_bind]; rewrite Eo; unfold record_bytes; cbn [data]; by rewrite (drop_sub m o (lenZ r)), Hd by lia.
  - eapply read_ok; [done..|]; unfold get_value_pointer; cbn [data]; rewrite rd16_ok by (unfold KEY_LEN; lia); cbn [mbind run_bind].
    assert (get16 m (o + KEY_LEN) = get16 r KEY_LEN) as -> by (unfold get16; rewrite Hsub; unfold KEY_LEN; done || lia).
    rewrite (proj2 (Z.ltb_ge _ _)) by lia; done.
  - intros [_ Hi]; eapply read_ok; [done..|]; cbn [data].
    assert (0 <= get16 r KEY_LEN) by (pose proof (key_size_valid r (proj1 (proj2 Kr))); lia).
    rewrite rd32_ok by lia; f_equal; unfold child, get32; f_equal; apply Hsub; lia.
Qed.

End Levels.

(** ** Trees *)

Section Trees.
Context (bt : btree) {comp_fn : list Z -> list Z -> Z} {valid : list Z -> Prop} `{Hcmp : KeyCmp comp_fn valid}.

#[local] Abbreviation linked := (linked bt (comp_fn := comp_fn) (valid := valid)).
#[local] Abbreviation found := (found (comp_fn := comp_fn)).

(** A level has no more nodes than the tree has pages. *)
Lemma level_size (t : tree) (p q : Z) (l : list node) :
  linked t p l q -> NoDup (map fst l) -> (length l <= base.size (pages t))%nat.
Proof.
  intros Hl Hnd; assert (list_to_set (C := gset Z) (map fst l) ⊆ dom (pages t)) as Hsub.
  { intros id; rewrite elem_of_list_to_set, list_elem_of_fmap; intros (n & -> & Hn).
    destruct (linked_elem _ _ _ _ _ _ Hl Hn) as (p' & q' & [_ (m & S & F & Hm & _) _ _]); apply elem_of_dom; eauto. }
  apply subseteq_size in Hsub; rewrite size_list_to_set, length_map, size_dom in Hsub by done; done.
Qed.

(** One level of a tree. *)
Record level_ok (t : tree) (l : list node) : Prop := {
  lo_linked : linked t 0 l 0;
  lo_sorted : sorted comp_fn (lrecs l);
  lo_nodup : NoDup (map fst l);
  lo_some : l <> []
}.

(** The part of a level from one of its nodes on. *)
Lemma level_from (t : tree) (A : list node) (s : node) (B : list node) :
  level_ok t (A ++ s :: B) ->
  exists p, linked t p (s :: B) 0 /\ sorted comp_fn (lrecs (s :: B)) /\ NoDup (map fst (s :: B)).
Proof.
  intros [Hl Hs Hn _]; exists (last_id 0 A); rewrite lrecs_app in Hs; apply linked_app in Hl as [_ Hl]; split; [done|].
  split; [apply sorted_app in Hs; tauto|]; rewrite map_app in Hn; by apply NoDup_app in Hn as (_ & _ & Hn).
Qed.

(** The records of level [up] point to nodes of level [lo] by their first keys, and
    the first record to the first node. *)
Record index_ok (lo up : list node) : Prop := {
  ix_recs : Forall irec (lrecs up);
  ix_child : forall u, u ∈ lrecs up ->
    exists n f, n ∈ lo /\ fst n = child u /\ getZ (snd n) 0 = Some f /\ key_view f = key_view u;
  ix_head : exists u us, lrecs up = u :: us /\ child u = hd_id lo 0
}.

(** A tree with the levels [ls], the leaves first. Nodes may be dangling: not every
    node of a level needs an index record. *)
Record wf (t : tree) (ls : list (list node)) : Prop := {
  wf_store : store_ok bt t;
  wf_height : btree_height t = lenZ ls;
  wf_level : forall i l, ls !! i = Some l -> level_ok t l;
  wf_index : forall i lo up, ls !! i = Some lo -> ls !! S i = Some up -> index_ok lo up;
  wf_root : exists top, last ls = Some top /\ hd_id top 0 = root_bnode_id t;
  wf_sep : forall i j l l' n n', ls !! i = Some l -> ls !! j = Some l' -> n ∈ l -> n' ∈ l' -> fst n = fst n' -> i = j
}.

(** Every node has its index record, and there is one root. *)
Record indexed (ls : list (list node)) : Prop := {
  id_all : forall i lo up n, ls !! i = Some lo -> ls !! S i = Some up -> n ∈ lo -> exists u, u ∈ lrecs up /\ child u = fst n;
  id_root : exists n, last ls = Some [n]
}.

(** The traverse stack from level [S i] up: a node of each level whose first key is
    not above [f], the first key of the node below it. *)
Fixpoint stack_ok (ls : list (list node)) (i : nat) (f : list Z) (stack : list stack_item) : Prop :=
  match stack with
  | [] => i = length ls
  | it :: st =>
      exists (A : list node) (n : node) (B : list node) (g : list Z), ls !! i = Some (A ++ n :: B) /\ si_bnode_id it = fst n /\ si_level it = Z.of_nat (S i)
      /\ getZ (snd n) 0 = Some g /\ comp_fn g f <= 0 /\ stack_ok ls (S i) g st
  end.

Lemma le_trans (a b c : list Z) :
  valid a -> valid b -> valid c -> comp_fn a b <= 0 -> comp_fn b c <= 0 -> comp_fn a c <= 0.
Proof.
  intros Ha Hb Hc Hab Hbc; destruct (Z.eq_dec (comp_fn a b) 0) as [E|N].
  - apply cmp_eq in E; [|done..]; pose proof (key_lex a c Ha Hc) as E1; pose proof (key_lex b c Hb Hc) as E2; rewrite E in E1; lia.
  - assert (comp_fn a b < 0) as Hlt by lia; pose proof (cmp_trans a b c Ha Hb Hc Hlt Hbc); lia.
Qed.

Lemma view_le (a b : list Z) : valid a -> valid b -> key_view a = key_view b -> comp_fn a b <= 0.
Proof. intros Ha Hb E; apply cmp_eq in E; [lia|done..]. Qed.

Lemma wf_valid (t : tree) (ls : list (list node)) (i : nat) (l : list node) (r : list Z) :
  wf t ls -> ls !! i = Some l -> r ∈ lrecs l -> valid r.
Proof.
  intros Hw Hl Hr; pose proof (linked_krec _ _ _ _ _ (lo_linked _ _ (wf_level _ _ Hw _ _ Hl))) as Hk.
  apply krec_valid in Hk; rewrite Forall_forall in Hk; auto.
Qed.

Lemma first_elem (n : node) (l : list node) (f : list Z) : n ∈ l -> getZ (snd n) 0 = Some f -> f ∈ lrecs l.
Proof. intros Hn Hf; apply elem_of_lrecs; exists n; split; [done|by eapply getZ_elem]. Qed.

Lemma stack_mono (t : tree) (ls : list (list node)) (i : nat) (f f' : list Z) (stack : list stack_item) :
  wf t ls -> valid f -> valid f' -> comp_fn f f' <= 0 -> stack_ok ls i f stack -> stack_ok ls i f' stack.
Proof.
  intros Hw Hf Hf' Hle; destruct stack as [|it st]; [done|]; cbn.
  intros (A & n & B & g & Hl & H1 & H2 & Hg & Hgf & Hst); exists A, n, B, g; repeat split; auto.
  apply le_trans with f; auto; apply (wf_valid t ls i _ g Hw Hl); apply (first_elem n); [set_solver|done].
Qed.

(** The first record of a node is not above the others of the node and its right
    neighbours. *)
Lemma first_least (t : tree) (A A' B' : list node) (s n : node) (B : list node) (f : list Z) (r : list Z) :
  level_ok t (A ++ s :: B) -> s :: B = A' ++ n :: B' -> getZ (snd s) 0 = Some f -> r ∈ snd n ->
  comp_fn f r <= 0 /\ (A' <> [] -> comp_fn f r < 0).
Proof.
  intros Hlv Esp Hf Hr; destruct (level_from _ _ _ _ Hlv) as (p & Hl & Hs & _).
  destruct (snd s) as [|f' tl] eqn:Es; [done|]; unfold getZ in Hf; cbn in Hf; injection Hf as ->.
  pose proof (linked_krec _ _ _ _ _ Hl) as Hk; apply krec_valid in Hk; rewrite lrecs_cons, Es in Hk, Hs.
  cbn [app] in Hk, Hs; change (f :: tl ++ lrecs B) with ([f] ++ (tl ++ lrecs B)) in Hs; apply sorted_app in Hs as (_ & _ & Hs).
  apply Forall_cons in Hk as [Hvf _].
  assert (A' <> [] -> comp_fn f r < 0) as Hlt.
  { intros Ne; apply Hs; [set_solver|]; apply elem_of_app; right; destruct A' as [|x A']; [done|]; injection Esp as <- ->.
    apply elem_of_lrecs; exists n; set_solver. }
  split; [|done]; destruct A' as [|x A']; [|pose proof (Hlt ltac:(done)); lia].
  injection Esp as <- <-; rewrite Es in Hr; apply elem_of_cons in Hr as [->|Hr]; [by apply view_le|].
  enough (comp_fn f r < 0) by lia; apply Hs; set_solver.
Qed.

(** A record not above the key is not above the floor of the key. *)
Lemma floor_greatest (t : tree) (A : list node) (n : node) (B : list node) (key r x : list Z) (pos : Z) :
  level_ok t (A ++ n :: B) -> found key n B pos -> getZ (snd n) pos = Some r -> x ∈ lrecs (A ++ n :: B) ->
  comp_fn x key <= 0 -> comp_fn x r <= 0.
Proof.
  intros Hlv [_ Haft Hright] Hr Hx Hle; pose proof (linked_krec _ _ _ _ _ (lo_linked _ _ Hlv)) as Hk; apply krec_valid in Hk.
  pose proof (lo_sorted _ _ Hlv) as Hs; rewrite lrecs_app, lrecs_cons in Hs, Hx, Hk.
  pose proof (getZ_bounds _ _ _ Hr) as Hb; unfold getZ in Hr; rewrite (proj2 (Z.ltb_ge pos 0)) in Hr by lia.
  assert (snd n = take (Z.to_nat pos) (snd n) ++ r :: drop (Z.to_nat (pos + 1)) (snd n)) as En
    by (replace (Z.to_nat (pos + 1)) with (S (Z.to_nat pos)) by lia; by rewrite take_drop_middle).
  rewrite En in Hs, Hx, Hk; rewrite <- app_assoc, <- app_comm_cons in Hs, Hx, Hk; rewrite app_assoc in Hs, Hx, Hk.
  set (before := lrecs A ++ take (Z.to_nat pos) (snd n)) in *.
  apply sorted_app in Hs as (_ & _ & Hs); rewrite Forall_app, Forall_forall in Hk; destruct Hk as [_ Hk].
  cbn [app] in Hk, Hs, Hx; apply Forall_cons in Hk as [Hvr _].
  apply elem_of_app in Hx as [Hx|[->|Hx]%elem_of_cons].
  - enough (comp_fn x r < 0) by lia; apply Hs; set_solver.
  - by apply view_le.
  - rewrite Forall_forall in Haft, Hright; apply elem_of_app in Hx as [Hx|Hx]; [specialize (Haft _ Hx)|specialize (Hright _ Hx)]; lia.
Qed.

End Trees.
