(* ===== verification/BtreeLevel.v ===== *)
(** Changing one level of a tree: writing a node, storing the value of a record,
    and splitting a node. *)

From Stdlib Require Import ZArith Lia Bool List.
From stdpp Require Import base list gmap sets.
From S2P Require Import Prelude Bytes Bitmap Count FindBit Buffer TreeKeys Bnode BnodeRep BnodeSearch BnodeSplit NodeStore StoreRep Btree BtreeRep.

Open Scope Z_scope.

(** ** Writing nodes *)

Lemma put_back_clean (t : tree) (m : list Z) (id : Z) (w : bool) :
  put_back (Bnode m id w (readonly t) false) t = set_pages (<[id := m]> (pages t)) t.
Proof. unfold put_back; cbn; unfold set_readonly, set_pages; cbn; by rewrite orb_diag. Qed.

Lemma mark_dirty_ok (t : tree) (id : Z) (m : list Z) (n : Z) :
  pages t !! id = Some m -> cached t !! id = Some (true, n) -> mark_dirty id t = Ok (tt, add_dirty id t).
Proof.
  intros Hm Hc; unfold mark_dirty; erewrite with_ok; [|exact Hm|exact Hc|reflexivity].
  f_equal; f_equal; unfold put_back, vdfs4_mark_bnode_dirty; cbn; rewrite orb_diag, insert_id by done.
  unfold add_dirty; cbn; by destruct t.
Qed.

(** A tree with one page written. *)
Lemma keeps_page (t : tree) (id : Z) (m : list Z) : keeps {[id]} t (set_pages (<[id := m]> (pages t)) t).
Proof. split; cbn; try done; intros j _ Hj; rewrite lookup_insert_ne; [done|set_solver]. Qed.

Lemma store_page (bt : btree) (t : tree) (id : Z) (m : list Z) :
  store_ok bt t -> page_ok bt m -> store_ok bt (set_pages (<[id := m]> (pages t)) t).
Proof.
  intros [? ? ? Hp ? ?] Hm; split; cbn; try done; intros j x; destruct (decide (j = id)) as [->|].
  - rewrite lookup_insert_eq; by intros [= <-].
  - rewrite lookup_insert_ne by done; apply Hp.
Qed.

Lemma keeps_dirty (X : gset Z) (t : tree) (id : Z) : keeps X t (add_dirty id t).
Proof. by split. Qed.

Lemma store_dirty (bt : btree) (t : tree) (id : Z) : store_ok bt t -> store_ok bt (add_dirty id t).
Proof. intros [? ? ? ? ? ?]; by split. Qed.

Lemma layout_page (bt : btree) (m : list Z) (S : list (Z * list Z)) (F : Z) : layout bt m S F -> page_ok bt m.
Proof. intros Hl; split; [apply (ly_len _ _ _ _ Hl)|apply (ly_bytes _ _ _ _ Hl)]. Qed.

(** ** The value of a record *)

(** Bytes of a record behind its header, written in place. *)
Lemma layout_write (bt : btree) (Hbt : bt_ok bt) (m : list Z) (S1 S2 : list (Z * list Z)) (F o a : Z) (r v : list Z) :
  layout bt m (S1 ++ (o, r) :: S2) F -> 8 <= a -> a + lenZ v <= lenZ r -> Forall is_byte v ->
  exists m', blit m (o + a) v = Ok m' /\ layout bt m' (S1 ++ (o, upd_at r a v) :: S2) F /\ ids m' = ids m.
Proof.
  intros Hl Ha Hv Bv; set (S := S1 ++ (o, r) :: S2) in *; pose proof (lenZ_nonneg v) as Hv0.
  assert ((o, r) ∈ S) as Hin by (apply elem_of_app; right; apply elem_of_cons; by left).
  pose proof (slot_bounds bt _ _ _ _ _ Hl Hin) as (Ho & Hof & H8); pose proof (layout_bounds bt _ _ _ Hl) as [_ Hhi].
  pose proof Hl as [Hlen Hby (P & HP & Hc) Hr Hd Ht Hcnt Hfr Hfit]; pose proof (lenZ_nonneg S) as HS0; unfold bt_ok, DESCR_SIZE in *.
  exists (upd_at m (o + a) v); split; [apply blit_upd; lia|].
  pose proof (same_out_upd m v (o + a) ltac:(lia) ltac:(lia)) as Hso.
  assert (lenZ (upd_at r a v) = lenZ r) as Elen by (apply lenZ_upd_at; lia).
  assert (lenZ (S1 ++ (o, upd_at r a v) :: S2) = lenZ S) as ES by (unfold S; rewrite !lenZ_app, !lenZ_cons; done).
  assert (forall j, off_of (S1 ++ (o, upd_at r a v) :: S2) F j = off_of S F j) as Eoff.
  { intros j; unfold off_of, getZ, S; destruct (j <? 0); [done|]; rewrite !lookup_app.
    destruct (S1 !! Z.to_nat j); [done|]; by destruct (Z.to_nat j - length S1)%nat. }
  assert (sub m o (lenZ r) = r) as Esub by (rewrite Forall_forall in Hd; apply (Hd _ Hin)).
  assert (sub (upd_at m (o + a) v) o (lenZ r) = upd_at r a v) as Enew.
  { apply getZ_ext; rewrite lenZ_sub by (rewrite ?lenZ_upd_at; lia); [done|]; intros i Hi.
    rewrite getZ_sub, !getZ_upd_at by lia; rewrite <- Esub at 1; rewrite getZ_sub by lia.
    destruct (Z.leb_spec (o + a) (o + i)), (Z.leb_spec a i), (Z.ltb_spec (o + i) (o + a + lenZ v)), (Z.ltb_spec i (a + lenZ v));
      cbn [andb]; try lia; try done; f_equal; lia. }
  assert ((o, r) ∈ P) as HinP by (by rewrite HP).
  apply list_elem_of_split in HinP as (P1 & P2 & ->); assert (P1 ++ P2 ≡ₚ S1 ++ S2) as HP'.
  { unfold S in HP; rewrite <- !Permutation_middle in HP; by apply Permutation_cons_inv in HP. }
  apply chain_app in Hc as (b & Hc1 & Hc2); cbn in Hc2; destruct Hc2 as [<- Hc2].
  assert (Forall (fun s => rec_ok (snd s)) (P1 ++ P2)) as HrP.
  { rewrite HP'; unfold S in Hr; rewrite Forall_app, Forall_cons in Hr; rewrite Forall_app; tauto. }
  unfold S in Hr, Hd; rewrite Forall_app, Forall_cons in Hr, Hd; cbn in Hr; destruct Hr as (Hr1 & (_ & Hrl & Br) & Hr2), Hd as (Hd1 & _ & Hd2).
  assert (Forall (fun s => sub (upd_at m (o + a) v) (fst s) (lenZ (snd s)) = snd s) (S1 ++ S2)) as Hother.
  { assert (Forall (fun s => sub m (fst s) (lenZ (snd s)) = snd s) (S1 ++ S2)) as Hd by (by apply Forall_app).
    rewrite <- HP' in Hd |- *; rewrite Forall_forall in Hd |- *; intros [x q] Hx; rewrite <- (Hd _ Hx) at 2; cbn.
    assert (DESCR_SIZE <= x /\ x + lenZ q <= F /\ (x + lenZ q <= o \/ o + lenZ r <= x)) as (Hx1 & Hx2 & Hx3).
    { apply Forall_app in HrP as [HrP1 HrP2]; pose proof (chain_le _ _ _ HrP1 Hc1); pose proof (chain_le _ _ _ HrP2 Hc2).
      pose proof (lenZ_nonneg P1); pose proof (lenZ_nonneg P2); apply elem_of_app in Hx as [Hx|Hx].
      - destruct (chain_elem _ _ _ _ _ HrP1 Hc1 Hx); unfold DESCR_SIZE; lia.
      - destruct (chain_elem _ _ _ _ _ HrP2 Hc2 Hx); unfold DESCR_SIZE; lia. }
    unfold DESCR_SIZE in Hx1; pose proof (lenZ_nonneg q); apply (same_out_sub _ _ _ _ x (lenZ q) Hso); lia. }
  apply Forall_app in Hother as [Ho1 Ho2].
  split; [split|].
  - destruct Hso; lia.
  - auto using Forall_upd_at.
  - exists (P1 ++ (o, upd_at r a v) :: P2); split; [by rewrite <- !Permutation_middle, HP'|].
    apply chain_app; exists o; split; [done|]; cbn; by rewrite Elen.
  - rewrite Forall_app, Forall_cons; cbn; unfold rec_ok; rewrite Elen; repeat split; try done; try lia; [|auto using Forall_upd_at].
    rewrite <- Hrl; apply get16_upd_out; unfold RECORD_LEN; lia.
  - rewrite Forall_app, Forall_cons; cbn; by rewrite Elen.
  - intros j Hj; rewrite Eoff, <- Ht by lia; rewrite ES in Hj; apply (same_out_get32 _ _ _ _ _ Hso); rewrite ?cell_eq; lia.
  - rewrite ES, <- Hcnt; unfold RECS_COUNT; apply (same_out_get16 _ _ _ _ _ Hso); lia.
  - rewrite ES, <- Hfr; unfold FREE_SPACE; apply (same_out_get16 _ _ _ _ _ Hso); lia.
  - by rewrite ES.
  - unfold ids, NODE_ID; apply (same_out_sub _ _ _ _ _ _ Hso); lia.
Qed.

(** Only pages of [X] and the dirty flags have changed. *)
Record wrote (bt : btree) (X : gset Z) (t t' : tree) : Prop := {
  wo_cached : cached t' = cached t;
  wo_root : root_bnode_id t' = root_bnode_id t;
  wo_height : btree_height t' = btree_height t;
  wo_bitmap : bitmap t' = bitmap t;
  wo_readonly : readonly t' = readonly t;
  wo_available : available t' = available t;
  wo_env : env t' = env t;
  wo_pages : forall id, id ∉ X -> pages t' !! id = pages t !! id;
  wo_ok : forall id m, id ∈ X -> pages t' !! id = Some m -> page_ok bt m
}.

Lemma wrote_page (bt : btree) (t : tree) (id : Z) (m : list Z) :
  page_ok bt m -> wrote bt {[id]} t (set_pages (<[id := m]> (pages t)) t).
Proof.
  intros Hm; split; cbn; try done.
  - intros j Hj; rewrite lookup_insert_ne; [done|set_solver].
  - intros j x ->%elem_of_singleton; rewrite lookup_insert_eq; by intros [= <-].
Qed.

Lemma wrote_dirty (bt : btree) (t : tree) (id : Z) : wrote bt ∅ t (add_dirty id t).
Proof. by split. Qed.

Lemma wrote_trans (bt : btree) (X Y : gset Z) (t t' t'' : tree) :
  wrote bt X t t' -> wrote bt Y t' t'' -> wrote bt (X ∪ Y) t t''.
Proof.
  intros [C1 R1 H1 B1 O1 A1 E1 P1 K1] [C2 R2 H2 B2 O2 A2 E2 P2 K2]; split; try congruence.
  - intros id Hx; rewrite P2, P1; set_solver.
  - intros id m Hx Hm; destruct (decide (id ∈ Y)); [eauto|]; rewrite P2 in Hm by done; apply (K1 id); [set_solver|done].
Qed.

Lemma wrote_again (bt : btree) (X : gset Z) (t t' t'' : tree) : wrote bt X t t' -> wrote bt X t' t'' -> wrote bt X t t''.
Proof. intros H1 H2; replace X with (X ∪ X) by set_solver; by eapply wrote_trans. Qed.

Lemma wrote_then (bt : btree) (X : gset Z) (t t' t'' : tree) : wrote bt X t t' -> wrote bt ∅ t' t'' -> wrote bt X t t''.
Proof. intros H1 H2; replace X with (X ∪ ∅) by set_solver; by eapply wrote_trans. Qed.

Lemma wrote_keeps (bt : btree) (X : gset Z) (t t' : tree) : wrote bt X t t' -> keeps X t t'.
Proof.
  intros [C R H B O A E P K]; split; [done|by rewrite B| |auto]; intros id [Hr Hb]; split; by rewrite B.
Qed.

Lemma wrote_store (bt : btree) (X : gset Z) (t t' : tree) : wrote bt X t t' -> store_ok bt t -> store_ok bt t'.
Proof.
  intros [C R H B O A E P K] [S1 S2 S3 S4 S5 S6]; split; rewrite ?B, ?A, ?H, ?E; try done.
  intros id m Hm; destruct (decide (id ∈ X)); [eauto|]; rewrite P in Hm by done; eauto.
Qed.

Section Records.
Context (bt : btree) (Hpg : paged bt) (fresh : Z -> list Z) {comp_fn : list Z -> list Z -> Z} {valid : list Z -> Prop} `{Hcmp : KeyCmp comp_fn valid}.

#[local] Abbreviation linked := (linked bt (comp_fn := comp_fn) (valid := valid)).
#[local] Abbreviation node_ok := (node_ok bt (comp_fn := comp_fn) (valid := valid)).
#[local] Abbreviation krec := (krec (comp_fn := comp_fn) (valid := valid)).

(** Node [id] holds the record [r] at offset [o], between [R1] and [R2]. *)
Definition node_at (t : tree) (p q id : Z) (R1 : list (list Z)) (r : list Z) (R2 : list (list Z)) (o : Z) : Prop :=
  used t id /\ Forall krec (R1 ++ r :: R2)
  /\ exists m S1 S2 F, pages t !! id = Some m /\ layout bt m (S1 ++ (o, r) :: S2) F /\ map snd S1 = R1 /\ map snd S2 = R2
     /\ get32 m NODE_ID = id /\ get32 m PREV_NODE_ID = p /\ get32 m NEXT_NODE_ID = q.

Lemma node_at_node (t : tree) (p q id o : Z) (R1 R2 : list (list Z)) (r : list Z) :
  node_at t p q id R1 r R2 o -> node_ok t p q (id, R1 ++ r :: R2).
Proof.
  intros (Hu & Hk & m & S1 & S2 & F & Hm & Hl & <- & <- & Hids); split; cbn; auto; [|by destruct (map snd S1)].
  exists m, (S1 ++ (o, r) :: S2), F; by rewrite map_app.
Qed.

Lemma node_at_keeps (X : gset Z) (t t' : tree) (p q id o : Z) (R1 R2 : list (list Z)) (r : list Z) :
  keeps X t t' -> id ∉ X -> node_at t p q id R1 r R2 o -> node_at t' p q id R1 r R2 o.
Proof.
  intros Hk Hx (Hu & Hr & m & S1 & S2 & F & Hm & Hrest); split; [by apply (kp_used _ _ _ Hk)|]; split; [done|].
  exists m, S1, S2, F; by rewrite (kp_pages _ _ _ Hk).
Qed.

(** A record that has the key of another one. *)
Lemma krec_like (k r : list Z) :
  valid k -> rec_ok r -> key_size k <= get16 k KEY_LEN <= lenZ r -> get16 k KEY_LEN <= VDFS4_MAX_BTREE_KEY_LEN ->
  (forall i, 0 <= i < get16 k KEY_LEN -> ~ RECORD_LEN <= i < RECORD_LEN + 2 -> getZ r i = getZ k i) ->
  get16 k KEY_LEN <= lenZ k ->
  krec r /\ key_view r = key_view k /\ get16 r KEY_LEN = get16 k KEY_LEN.
Proof.
  intros Hk Hr Hsz Hmax Hi Hlk; pose proof Hr as (Hl & Hrl & Br); pose proof (key_size_valid k Hk) as Hks; unfold RECORD_LEN in Hi.
  destruct (key_agree k r Hk Br) as (Vr & Ev & Es); [lia|intros i Hx; apply Hi; lia|].
  assert (get16 r KEY_LEN = get16 k KEY_LEN) as Ek.
  { unfold get16; f_equal; apply sub_ext; unfold KEY_LEN in *; try lia; intros x Hx; apply Hi; lia. }
  split; [|done]; split; [done|]; split; [done|]; rewrite Ek, Es; lia.
Qed.

(** Storing a value into a record. *)
Lemma write_value_ok (t : tree) (p q id o a k : Z) (R1 R2 : list (list Z)) (r v : list Z) :
  store_ok bt t -> node_at t p q id R1 r R2 o -> cached t !! id = Some (true, k) ->
  get16 r KEY_LEN <= a -> a + lenZ v <= lenZ r -> Forall is_byte v ->
  exists t', write_value id (Val (o + a)) v t = Ok (tt, t') /\ wrote bt {[id]} t t'
  /\ node_at t' p q id R1 (upd_at r a v) R2 o
  /\ key_view (upd_at r a v) = key_view r /\ get16 (upd_at r a v) KEY_LEN = get16 r KEY_LEN.
Proof using Hpg.
  intros Hs (Hu & Hkr & m & S1 & S2 & F & Hm & Hl & <- & <- & I1 & I2 & I3) Hc Ha Hv Bv; pose proof (paged_ok bt Hpg) as Hbt.
  rewrite Forall_app, Forall_cons in Hkr; destruct Hkr as (K1 & Kr & K2); pose proof Kr as (Rr & Vr & Hks & Hkm).
  pose proof (key_size_valid r Vr) as Hksv; pose proof (lenZ_nonneg v) as Hv0.
  destruct (layout_write bt Hbt m S1 S2 F o a r v Hl ltac:(lia) Hv Bv) as (m' & Em & Hl' & Hids).
  exists (set_pages (<[id := m']> (pages t)) t); split.
  { unfold write_value; erewrite with_ok; [rewrite put_back_clean; done|done|done|cbn; rewrite Em; done]. }
  assert (krec (upd_at r a v) /\ key_view (upd_at r a v) = key_view r /\ get16 (upd_at r a v) KEY_LEN = get16 r KEY_LEN) as (K' & Hv' & Hk').
  { assert ((o, upd_at r a v) ∈ S1 ++ (o, upd_at r a v) :: S2) as Hin by (apply elem_of_app; right; apply elem_of_cons; by left).
    apply krec_like; auto; try lia.
    - pose proof (ly_recs _ _ _ _ Hl') as Hr'; rewrite Forall_forall in Hr'; apply (Hr' _ Hin).
    - rewrite lenZ_upd_at by lia; lia.
    - intros i Hi _; rewrite getZ_upd_at, (proj2 (Z.leb_gt a i)) by lia; done. }
  split; [apply wrote_page; by eapply layout_page|]; split; [|done].
  split; [by apply (kp_used _ _ _ (keeps_page t id m'))|]; split; [by rewrite Forall_app, Forall_cons|].
  exists m', S1, S2, F; cbn; rewrite lookup_insert_eq; split; [done|]; split; [done|]; split; [done|]; split; [done|].
  unfold NODE_ID, PREV_NODE_ID, NEXT_NODE_ID in *; pose proof (ly_len _ _ _ _ Hl); pose proof (ly_len _ _ _ _ Hl').
  rewrite <- I2, <- I3; rewrite !(get32_ids bt Hbt m m') by (done || lia); done.
Qed.

(** A key, and the length of the record to make for it. *)
Record key_ok (key : list Z) (L : Z) : Prop := {
  ko_valid : valid key;
  ko_bytes : Forall is_byte key;
  ko_len : 8 <= L <= VDFS4_MAX_BTREE_REC_LEN;
  ko_size : key_size key <= get16 key KEY_LEN <= L;
  ko_key : get16 key KEY_LEN <= lenZ key;
  ko_max : get16 key KEY_LEN <= VDFS4_MAX_BTREE_KEY_LEN;
  ko_rec : get16 key RECORD_LEN <= VDFS4_MAX_BTREE_REC_LEN
}.

Lemma stored_krec (key r : list Z) (L : Z) :
  key_ok key L -> stored key (get16 key KEY_LEN) L r ->
  krec r /\ key_view r = key_view key /\ get16 r KEY_LEN = get16 key KEY_LEN.
Proof. intros [V B HL Hs Hk Hm Hr] (Rr & El & Hi); apply krec_like; auto; lia. Qed.

(** The new record is at offset [ri_key] of node [id], its value behind the key. *)
Record at_record (t : tree) (p q id : Z) (R1 R2 : list (list Z)) (key r : list Z) (L : Z) (ri : rec_info) : Prop := {
  ar_node : node_at t p q id R1 r R2 (ri_key ri);
  ar_stored : stored key (get16 key KEY_LEN) L r;
  ar_val : ri_val ri = Val (ri_key ri + get16 key KEY_LEN)
}.

Lemma place_in_node (t : tree) (p q k L pos : Z) (n : node) (key : list Z) :
  node_ok t p q n -> cached t !! fst n = Some (true, k) -> key_ok key L -> 0 <= pos <= lenZ (snd n) ->
  weight (snd n) + L + 4 <= node_size_bytes bt - 40 ->
  exists t' ri r,
    with_node (fst n) (fun b => '(ret, b, info) ← insert_key_into_bnode bt b key L pos; Ok ((ret, info), b)) t
      = Ok ((0, Some ri), t')
    /\ wrote bt {[fst n]} t t'
    /\ at_record t' p q (fst n) (take (Z.to_nat pos) (snd n)) (drop (Z.to_nat pos) (snd n)) key r L ri.
Proof using Hpg.
  intros [Hu (m & S & F & Hm & Hl & <- & I1 & I2 & I3) Hkr _] Hc Hk Hpos Hw; pose proof (paged_ok bt Hpg) as Hbt.
  pose proof Hk as [V B HL Hs Hkl Hkm Hr]; pose proof (key_size_valid key V) as Hsv; rewrite lenZ_recs in Hpos.
  pose proof (weight_fits bt _ _ _ L Hl Hw) as Hfit.
  destruct (insert_key_at bt Hbt (Bnode m (fst n) true (readonly t) false) S F L pos key) as (m' & r & ri & E & Hl' & Hst & Hids & Ek & Ep & Ev);
    auto; try lia; specialize (Ev Hkm); cbn [data] in Hids.
  exists (set_pages (<[fst n := m']> (pages t)) t), ri, r; split.
  { erewrite with_ok; [rewrite put_back_clean; done|done|done|rewrite E; done]. }
  split; [apply wrote_page; by eapply layout_page|]; destruct (stored_krec _ _ _ Hk Hst) as (Kr & _); split; [|done|by rewrite Ek].
  assert (map snd (take (Z.to_nat pos) S) = take (Z.to_nat pos) (map snd S)
          /\ map snd (drop (Z.to_nat pos) S) = drop (Z.to_nat pos) (map snd S)) as [Et Ed]
    by (split; [apply (fmap_take snd)|apply (fmap_drop snd)]).
  split; [by apply (kp_used _ _ _ (keeps_page t (fst n) m'))|]; split.
  { rewrite Forall_app, Forall_cons; auto using Forall_take, Forall_drop. }
  exists m', (take (Z.to_nat pos) S), (drop (Z.to_nat pos) S), (F + L); cbn; rewrite lookup_insert_eq, Ek.
  split; [done|]; split; [exact Hl'|]; split; [done|]; split; [done|].
  pose proof (ly_len _ _ _ _ Hl); pose proof (ly_len _ _ _ _ Hl'); unfold NODE_ID, PREV_NODE_ID, NEXT_NODE_ID in *.
  rewrite <- I2, <- I3; rewrite !(get32_ids bt Hbt m m') by (done || lia); done.
Qed.

(** ** Splitting a node of a level *)

(** The tree with the pages [P], after some nodes have been marked dirty. *)
Lemma wrote_pages (X : gset Z) (t t' : tree) :
  store_ok bt t -> t' = Tree (pages t') (cached t) (root_bnode_id t) (btree_height t) (bitmap t) (dirty_nodes t') (readonly t) (available t) (env t) ->
  (forall id, id ∉ X -> pages t' !! id = pages t !! id) ->
  (forall id m, id ∈ X -> pages t' !! id = Some m -> pages t !! id = Some m \/ page_ok bt m) -> wrote bt X t t'.
Proof.
  intros Hs E HX Hok; rewrite E; split; cbn; auto; intros id m Hx Hm; destruct (Hok id m Hx Hm); [|done].
  by apply (so_pages _ _ Hs id).
Qed.

Lemma split_run (t : tree) (id rid k k' L pos F : Z) (S : list (Z * list Z)) (m mr key : list Z) :
  store_ok bt t -> pages t !! id = Some m -> layout bt m S F -> pages t !! rid = Some mr -> id <> rid -> used t id -> used t rid ->
  cached t !! id = Some (true, k) -> cached t !! rid = Some (true, k') -> key_ok key L -> 0 <= pos <= lenZ S -> 0 < lenZ S ->
  let q := get32 m NEXT_NODE_ID in
  (q <> 0 -> used t q /\ is_Some (pages t !! q) /\ cached t !! q = None /\ q <> id /\ q <> rid) ->
  exists t' l2 r2 info,
    split_node bt fresh id rid key L pos t = Ok ((0, info), t')
    /\ split_ok bt (Bnode m id true (readonly t) false) S key L pos id rid
         (Bnode l2 id true (readonly t) false) (Bnode r2 rid true (readonly t) false) info
    /\ get32 l2 NODE_ID = id /\ get32 r2 NODE_ID = rid
    /\ pages t' !! id = Some l2 /\ pages t' !! rid = Some r2
    /\ (q <> 0 -> exists mq mq', pages t !! q = Some mq /\ pages t' !! q = Some mq' /\ get32 mq' PREV_NODE_ID = rid
         /\ same_out mq mq' PREV_NODE_ID (PREV_NODE_ID + 4) /\ Forall is_byte mq')
    /\ wrote bt {[id; rid; q]} t t'.
Proof using Hpg.
  intros Hs Hm Hl Hmr Hne Hu Hur Hc Hcr Hk Hpos HS q Hq; pose proof (paged_ok bt Hpg) as Hbt; destruct Hpg as [Hsz _].
  pose proof Hk as [V B HL Hks Hkl Hkm Hr]; pose proof (key_size_valid key V) as Hsv; pose proof (bo_num _ (so_bitmap _ _ Hs)) as Hbn.
  pose proof (so_pages _ _ Hs _ _ Hmr) as [Lr Br]; destruct Hu as [Hu _], Hur as [Hur _].
  set (orig := Bnode m id true (readonly t) false); set (right_bnode := Bnode mr rid true (readonly t) false).
  destruct (split_parts bt Hbt orig S F key L pos Hl B HL ltac:(lia) Hkl Hr Hpos ltac:(lia) right_bnode Lr Br HS)
    as (ml & mr' & l2 & r2 & info & Erec & Hok & Il & Ir & Elink); [cbn; lia..|].
  cbn [set_data node_id orig right_bnode] in *.
  assert (lenZ l2 = node_size_bytes bt /\ Forall is_byte l2 /\ lenZ r2 = node_size_bytes bt /\ Forall is_byte r2) as (Ll2 & Bl2 & Lr2 & Br2).
  { destruct (sp_halves _ _ _ _ _ _ _ _ _ _ _ Hok) as (SL & SR & FL & FR & r & HlL & HlR & _); cbn [data] in HlL, HlR.
    pose proof (ly_len _ _ _ _ HlL); pose proof (ly_len _ _ _ _ HlR); pose proof (ly_bytes _ _ _ _ HlL); pose proof (ly_bytes _ _ _ _ HlR); done. }
  pose proof (ly_len _ _ _ _ Hl) as Lm.
  unfold split_node; act_step (read_ok t id (fun b => Ok b) m true k orig Hm Hc eq_refl).
  act_step (read_ok t rid (fun b => Ok b) mr true k' right_bnode Hmr Hcr eq_refl).
  lift_step Erec; rewrite (act_bind_ok _ _ _ _ _ (change_ok _ _)), put_back_clean, (act_bind_ok _ _ _ _ _ (change_ok _ _)).
  rewrite (put_back_clean (set_pages (<[id:=ml]> (pages t)) t) mr' rid true); cbn [Z.eqb negb].
  lift_step (rd32_ok m NEXT_NODE_ID ltac:(done) ltac:(unfold NEXT_NODE_ID; lia)); fold q.
  set (t1 := set_pages (<[rid:=mr']> (<[id:=ml]> (pages t))) t).
  change (set_pages _ (set_pages _ _)) with t1; unfold VDFS4_INVALID_NODE_ID; change (data orig) with m in Elink; fold q in Elink.
  destruct (Z.eqb_spec q 0) as [E0|N0].
  - rewrite !ret_bind; lift_step (Elink (Err 0)); rewrite !(act_bind_ok _ _ _ _ _ (change_ok _ _)).
    eexists _, l2, r2, info; split; [reflexivity|]; split; [done|]; split; [done|]; split; [done|]; unfold put_back; cbn.
    rewrite !orb_diag; cbn; rewrite lookup_insert_ne, lookup_insert_eq by done; split; [done|]; rewrite lookup_insert_eq; split; [done|].
    split; [done|]; apply wrote_pages; [done|done|..]; cbn.
    + intros x Hx; rewrite !lookup_insert_ne by set_solver; done.
    + intros x y _; rewrite !lookup_insert; repeat case_decide; subst; intros; simplify_eq; auto; right; by split.
  - destruct (Hq N0) as (Huq & (mq & Hmq) & Hcq & Hqi & Hqr).
    assert (pages t1 !! q = Some mq) as Hmq1 by (unfold t1; cbn; by rewrite !lookup_insert_ne by done).
    act_step (get_ok bt fresh t1 q true (so_env _ _ Hs) Huq); set (t2 := set_cached (hold (cached t1) q true) t1).
    assert (cached t2 !! q = Some (true, 1)) as Hcq2 by (unfold t2, hold; cbn; rewrite Hcq; by rewrite lookup_insert_eq).
    act_step (read_ok t2 q (fun b => Ok (Val b)) mq true 1 _ Hmq1 Hcq2 eq_refl).
    pose proof (so_pages _ _ Hs _ _ Hmq) as [Lq Bq].
    destruct (wr32_step mq PREV_NODE_ID rid) as (kq & Ek & Lk & Hso & Vk & Bk); [done|unfold PREV_NODE_ID; lia|].
    specialize (Elink (Val (Bnode mq q true (readonly t2) false))); cbn [data] in Elink; rewrite Ek in Elink; cbn [mbind run_bind] in Elink.
    lift_step Elink; rewrite !(act_bind_ok _ _ _ _ _ (change_ok _ _)).
    set (t3 := put_back _ _).
    assert (vdfs4_put_bnode q t3 = Ok (tt, set_cached (cached t) t3)) as Ep
      by (apply (put_ok t3 (cached t) q true); [done|by apply loose_free]).
    change (node_id _) with q; act_step Ep.
    assert (pages t3 = <[q:=kq]> (<[rid:=r2]> (<[id:=l2]> (<[rid:=mr']> (<[id:=ml]> (pages t)))))) as Ep3 by done.
    eexists _, l2, r2, info; split; [reflexivity|]; split; [done|]; split; [done|]; split; [done|]; cbn [pages set_cached]; rewrite Ep3.
    split; [by rewrite !lookup_insert_ne, lookup_insert_eq by done|]; split; [by rewrite lookup_insert_ne, lookup_insert_eq by done|].
    split; [intros _; exists mq, kq; split; [done|]; rewrite lookup_insert_eq; split; [done|]; split; [apply Vk; lia|]; auto|].
    apply wrote_pages; [done|unfold t3, put_back; cbn; by rewrite !orb_diag|..]; cbn [pages set_cached]; rewrite Ep3.
    + intros x Hx; rewrite !lookup_insert_ne by set_solver; done.
    + intros x y _; rewrite !lookup_insert; repeat case_decide; subst; intros; simplify_eq; auto; right; split; auto; lia.
Qed.

(** The right neighbour with its new link to the left. *)
Lemma relink (t t' : tree) (p p' q : Z) (b : node) (mq mq' : list Z) :
  node_ok t p q b -> pages t !! fst b = Some mq -> pages t' !! fst b = Some mq' -> get32 mq' PREV_NODE_ID = p' ->
  same_out mq mq' PREV_NODE_ID (PREV_NODE_ID + 4) -> Forall is_byte mq' -> used t' (fst b) -> node_ok t' p' q b.
Proof using Hpg.
  intros [_ (m & S & F & Hm & Hl & HS & I1 & I2 & I3) Hk Hne] Hq Hq' Hp Hso Hb Hu; simplify_eq; pose proof (paged_ok bt Hpg) as Hbt.
  pose proof (ly_len _ _ _ _ Hl) as Hlen; unfold bt_ok, PREV_NODE_ID, NODE_ID, NEXT_NODE_ID in *.
  split; auto; exists mq', S, F; split; [done|]; split; [|split; [done|]; split; [|split; [done|]]].
  - eapply layout_links; [exact Hbt|exact Hl|eapply same_out_mono; [exact Hso|lia|lia]|done].
  - rewrite <- I1; unfold NODE_ID; apply (same_out_get32 _ _ _ _ _ Hso); lia.
  - unfold NEXT_NODE_ID; apply (same_out_get32 _ _ _ _ _ Hso); lia.
Qed.

Lemma split_level (t : tree) (p rid k k' L pos : Z) (n : node) (B : list node) (mr key : list Z) :
  store_ok bt t -> linked t p (n :: B) 0 -> NoDup (fst n :: rid :: map fst B) -> used t rid -> pages t !! rid = Some mr ->
  cached t !! fst n = Some (true, k) -> cached t !! rid = Some (true, k') -> (forall b, b ∈ B -> cached t !! fst b = None) ->
  key_ok key L -> 0 <= pos <= lenZ (snd n) -> node_size_bytes bt - 40 < weight (snd n) + L + 4 ->
  exists t' side ri r RL RR R1 R2,
    split_node bt fresh (fst n) rid key L pos t = Ok ((0, Some (side, ri)), t')
    /\ wrote bt {[fst n; rid; hd_id B 0]} t t'
    /\ linked t' p ((fst n, RL) :: (rid, RR) :: B) 0 /\ RL ++ RR = ins pos r (snd n)
    /\ (if side then RR else RL) = R1 ++ r :: R2
    /\ at_record t' (if side then fst n else p) (if side then hd_id B 0 else rid) (if side then rid else fst n) R1 R2 key r L ri.
Proof using Hpg.
  intros Hs [Hn HB] Hnd Hur Hmr Hc Hcr Hun Hk Hpos Hfull; pose proof Hn as [Hu (m & S & F & Hm & Hl & HS & I1 & I2 & I3) Hkr Hne].
  rewrite !NoDup_cons in Hnd; destruct Hnd as (Hn1 & Hn2 & Hnd); rewrite <- HS, lenZ_recs in Hpos.
  assert (fst n <> rid) as Hner by (intros E; apply Hn1; set_solver).
  assert (0 < lenZ S) as HS0 by (destruct S; [by destruct Hne|rewrite lenZ_cons; pose proof (lenZ_nonneg S); lia]).
  destruct (split_run t (fst n) rid k k' L pos F S m mr key Hs Hm Hl Hmr Hner Hu Hur Hc Hcr Hk Hpos HS0)
    as (t' & l2 & r2 & info & Erun & Hok & Il & Ir & Hl2 & Hr2 & Hq & Hwr).
  { rewrite I3; destruct B as [|b B]; [done|]; intros _; cbn [hd_id]; destruct HB as [[Hub (mb & ? & ? & Hmb & _) _ _] _].
    split; [done|]; split; [eauto|]; split; [apply Hun; set_solver|]; split; intros E; [apply Hn1|apply Hn2]; cbn; rewrite <- E; set_solver. }
  rewrite I3 in Hq, Hwr; pose proof (wrote_keeps _ _ _ _ Hwr) as Hkp.
  destruct Hok as [(SL & SR & FL & FR & r & HlL & HlR & Hrec & Hst & Hloc & _ & Hnn) Hp1 Hp2 Hp3 Hp4]; cbn [data] in *.
  rewrite HS in Hrec, Hnn; destruct (Hnn Hfull) as [NL NR]; destruct (stored_krec _ _ _ Hk Hst) as (Kr & _).
  assert (Forall krec (map snd SL) /\ Forall krec (map snd SR)) as [KL KR].
  { apply Forall_app; rewrite Hrec, (ins_perm pos r (snd n)); by apply Forall_cons. }
  destruct Hloc as (side & ri & -> & Hri & Hv); specialize (Hv (ko_max _ _ Hk)).
  assert (exists S1 S2, (if side then SR else SL) = S1 ++ (ri_key ri, r) :: S2) as (S1 & S2 & Esp)
    by (apply getZ_elem, list_elem_of_split in Hri; done).
  assert (map snd (if side then SR else SL) = map snd S1 ++ r :: map snd S2) as Emap by (by rewrite Esp, map_app).
  exists t', side, ri, r, (map snd SL), (map snd SR), (map snd S1), (map snd S2).
  pose proof (kp_used _ _ _ Hkp _ Hu) as Hu'; pose proof (kp_used _ _ _ Hkp _ Hur) as Hur'.
  split; [exact Erun|]; split; [done|]; split; [|split; [done|split]].
  - cbn [linked hd_id fst]; split; [|split].
    + split; cbn; auto; [|by destruct SL]; exists l2, SL, FL; rewrite Hp1; done.
    + split; cbn; auto; [|by destruct SR]; exists r2, SR, FR; rewrite Hp4; done.
    + destruct B as [|b B]; [done|]; cbn [linked hd_id] in *; destruct HB as [Hb HB].
      assert (0 < fst b) as Hb0 by (destruct Hb as [[? _] _ _ _]; lia).
      destruct (Hq ltac:(lia)) as (mq & mq' & E1 & E2 & E3 & E4 & E5); split.
      * eapply relink; eauto; apply (kp_used _ _ _ Hkp); by destruct Hb.
      * eapply linked_keeps; [exact Hkp| |exact HB]; intros x Hx; cbn [map] in *; rewrite !not_elem_of_cons in Hn1, Hn2.
        rewrite NoDup_cons in Hnd; pose proof (list_elem_of_fmap_2 fst _ _ Hx) as Hfx; set_solver.
  - rewrite <- Emap; by destruct side.
  - split; [|done|done]; destruct side; (split; [done|]; split; [by rewrite <- Emap|]).
    + exists r2, S1, S2, FR; rewrite <- Esp, Hp4; done.
    + exists l2, S1, S2, FL; rewrite <- Esp, Hp1; done.
Qed.

End Records.
