(* ===== verification/BtreeFind.v ===== *)
(** Searching a tree: the search of a level follows the chain to the floor of the
    key, and the search of the tree goes down by index records to the floor in the
    leaves. *)

From Stdlib Require Import ZArith Lia Bool List.
From stdpp Require Import base list gmap sets.
From S2P Require Import Prelude Bytes Bitmap Count FindBit Buffer TreeKeys Bnode BnodeRep BnodeSearch BnodeSplit NodeStore StoreRep Btree BtreeRep.

Open Scope Z_scope.

Section Down.
Context (bt : btree) {comp_fn : list Z -> list Z -> Z} {valid : list Z -> Prop} `{Hcmp : KeyCmp comp_fn valid}.

#[local] Abbreviation found := (found (comp_fn := comp_fn)).
#[local] Abbreviation wf := (wf bt (comp_fn := comp_fn) (valid := valid)).

(** In a tree without dangling nodes the child of the floor is the node that holds
    the floor of the next level. *)
Lemma no_dangling (t : tree) (ls : list (list node)) (i : nat) (A B A1 B1 A' B' : list node) (n s n' : node)
    (key u f : list Z) (pos pos' : Z) :
  wf t ls -> indexed ls -> valid key -> ls !! S i = Some (A ++ n :: B) -> found key n B pos -> getZ (snd n) pos = Some u ->
  ls !! i = Some (A1 ++ s :: B1) -> getZ (snd s) 0 = Some f -> key_view f = key_view u ->
  s :: B1 = A' ++ n' :: B' -> found key n' B' pos' -> A' = [].
Proof.
  intros Hw Hix Hk Hup Hfu Hu Hlo Hf Hfv Esp Hfd; destruct A' as [|x A']; [done|]; exfalso.
  pose proof (wf_level _ _ _ Hw _ _ Hlo) as Llo; pose proof (wf_level _ _ _ Hw _ _ Hup) as Lup.
  assert (n' ∈ A1 ++ s :: B1) as Hn' by (rewrite Esp; set_solver).
  destruct (linked_elem _ _ _ _ _ _ (lo_linked _ _ _ Llo) Hn') as (p' & q' & [_ _ _ Hsome]).
  destruct (snd n') as [|g tl] eqn:Eg; [done|].
  destruct (id_all _ Hix i _ _ n' Hlo Hup Hn') as (u' & Hu' & Hc').
  destruct (ix_child _ _ (wf_index _ _ _ Hw _ _ _ Hlo Hup) u' Hu') as (n2 & g2 & Hn2 & E2 & Hg2 & Hv2).
  assert (n2 = n') as ->.
  { apply (same_id (A1 ++ s :: B1)); [apply (lo_nodup _ _ _ Llo)|done|done|congruence]. }
  rewrite Eg in Hg2; unfold getZ in Hg2; cbn in Hg2; injection Hg2 as ->.
  assert (comp_fn f g2 < 0) as Hlt.
  { apply (first_least bt t A1 (x :: A') B' s n' B1 f g2 Llo Esp Hf); [rewrite Eg; set_solver|done]. }
  pose proof (fun r Hr => wf_valid bt t ls i _ r Hw Hlo Hr) as Vlo; pose proof (fun r Hr => wf_valid bt t ls (S i) _ r Hw Hup Hr) as Vup.
  assert (valid f) as Vf by (apply Vlo, (first_elem s); [set_solver|done]).
  assert (valid g2) as Vg by (apply Vlo, (first_elem n'); [done|by rewrite Eg]).
  assert (valid u) as Vu by (apply Vup, elem_of_lrecs; exists n; split; [set_solver|by eapply getZ_elem]).
  assert (valid u') as Vu' by auto.
  assert (comp_fn g2 key <= 0) as Hgk.
  { destruct Hfd as [(r' & Hr' & Hle') _ _]; assert (comp_fn g2 r' <= 0) as Hg'.
    { destruct (first_least bt t (A1 ++ s :: A') [] B' n' n' B' g2 r') as [Hx _]; auto.
      - cbn in Esp; injection Esp as <- ->; by rewrite <- app_assoc.
      - by rewrite Eg.
      - by eapply getZ_elem. }
    apply le_trans with r'; auto; apply Vlo, elem_of_lrecs; exists n'; split; [done|by eapply getZ_elem]. }
  assert (comp_fn u' u <= 0) as Huu.
  { apply (floor_greatest bt t A n B key u u' pos Lup Hfu Hu Hu'); apply le_trans with g2; auto; by apply view_le. }
  assert (comp_fn u' u > 0); [|lia].
  assert (comp_fn u u' < 0) as Hlt2; [|pose proof (cmp_antisym u u' Vu Vu'); lia].
  apply cmp_lt; [done..|]; rewrite <- Hfv, <- Hv2; by apply cmp_lt.
Qed.

End Down.

Section Find.
Context (bt : btree) (Hpg : paged bt) {comp_fn : list Z -> list Z -> Z} {valid : list Z -> Prop} `{Hcmp : KeyCmp comp_fn valid}.
Context (fresh : Z -> list Z).

#[local] Abbreviation linked := (linked bt (comp_fn := comp_fn) (valid := valid)).
#[local] Abbreviation found := (found (comp_fn := comp_fn)).
#[local] Abbreviation level_ok := (level_ok bt (comp_fn := comp_fn) (valid := valid)).
#[local] Abbreviation wf := (wf bt (comp_fn := comp_fn) (valid := valid)).
#[local] Abbreviation stack_ok := (stack_ok (comp_fn := comp_fn)).

(** No node of the level is fetched by a caller. *)
Definition unheld (c : gmap Z (bool * Z)) (l : list node) : Prop := forall n, n ∈ l -> c !! fst n = None.

(** One to-do item for every dangling node the search passes to, when the caller
    has a to-do list. *)
Definition same_paths (ps ps' : paths) : Prop :=
  match ps, ps' with
  | None, None => True
  | Some (stack, todo), Some (stack', todo') =>
      stack' = stack /\ exists more, todo' = more ++ todo /\ Forall (fun i => traverse_data i = stack) more
  | _, _ => False
  end.

Lemma same_paths_refl (ps : paths) : same_paths ps ps.
Proof using Hcmp. destruct ps as [[stack todo]|]; [|done]; split; [done|]; exists []; by split. Qed.

Lemma dangling_loop_spec (B : list node) (n : node) (p : Z) (t : tree) (c : gmap Z (bool * Z)) (rw : bool)
    (key : list Z) (pos : Z) (r : list Z) (ps : paths) (fuel : nat) :
  env t = [] -> linked t p (n :: B) 0 -> sorted comp_fn (lrecs (n :: B)) -> valid key ->
  unheld c (n :: B) -> NoDup (map fst (n :: B)) -> cached t = hold c (fst n) rw -> (length B <= fuel)%nat ->
  getZ (snd n) pos = Some r -> comp_fn r key <= 0 ->
  Forall (fun q => 0 < comp_fn q key) (drop (Z.to_nat (pos + 1)) (snd n)) ->
  exists A' n' B' pos' ps', n :: B = A' ++ n' :: B'
  /\ dangling_loop bt comp_fn fresh fuel (fst n) pos key ps t
     = Ok ((Val (fst n'), pos', ps'), set_cached (hold c (fst n') rw) t)
  /\ found key n' B' pos' /\ (A' = [] -> ps' = ps) /\ same_paths ps ps'.
Proof using Hpg Hcmp.
  revert n p t pos r ps fuel; induction B as [|n2 B IH]; intros n p t pos r ps fuel He Hl Hs Hk Hun Hnd Hc Hfu Hr Hle Haft;
    pose proof (paged_ok bt Hpg) as Hbt; pose proof Hl as [Hn HB].
  all: destruct (read_links bt Hbt t _ _ n (rw || false) 1 Hn) as (m & Em & Eread & Erecs & Enext);
    [rewrite Hc; unfold hold; rewrite (Hun n) by set_solver; by rewrite lookup_insert_eq, orb_false_r|];
    rewrite orb_false_r in *.
  - cbn [hd_id] in *; exists [], n, [], pos, ps; split; [done|].
    split; [|split; [split; [eauto|done|constructor]|split; [done|apply same_paths_refl]]].
    replace (set_cached (hold c (fst n) rw) t) with t by (rewrite <- Hc; by destruct t).
    destruct fuel; cbn [dangling_loop]; act_step Eread; lift_step Erecs; lift_step Enext; rewrite andb_false_r; done.
  - destruct fuel as [|fuel]; [cbn in Hfu; lia|]; cbn [hd_id] in *.
    assert (t = set_cached (hold c (fst n) rw) t) as Et by (rewrite <- Hc; by destruct t).
    assert (used t (fst n2)) as Hu2 by (destruct HB as [[Hu _ _ _] _]; done).
    cbn [dangling_loop]; act_step Eread; lift_step Erecs; lift_step Enext.
    rewrite (proj2 (Z.eqb_neq (fst n2) 0)) by (destruct Hu2; lia); rewrite andb_true_r.
    destruct (Z.eqb_spec pos (lenZ (snd n) - 1)) as [Epos|Npos]; cycle 1.
    { exists [], n, (n2 :: B), pos, ps; rewrite <- Et; split; [done|]; split; [done|].
      split; [|split; [done|apply same_paths_refl]]; split; [eauto|done|].
      pose proof (getZ_bounds _ _ _ Hr); destruct (getZ_is_Some (snd n) (pos + 1)) as (x & Hx); [lia|].
      apply (right_above bt t p 0 n (n2 :: B) key x); auto; [by eapply getZ_elem|].
      rewrite Forall_forall in Haft; apply Haft; apply list_elem_of_lookup; exists 0%nat.
      rewrite lookup_drop, Nat.add_0_r; unfold getZ in Hx; destruct (Z.ltb_spec (pos + 1) 0); [lia|done]. }
    cbn [map] in Hnd; rewrite NoDup_cons in Hnd; destruct Hnd as [Hnd1 Hnd].
    assert (fst n <> fst n2) as Hne by (intros E; apply Hnd1; rewrite E; cbn; set_solver).
    act_step (get_ok bt fresh t (fst n2) rw He Hu2); rewrite Hc.
    set (t2 := set_cached (hold (hold c (fst n) rw) (fst n2) rw) t).
    assert (linked t2 (fst n) (n2 :: B) 0) as HB2 by (eapply linked_keeps; [apply (keeps_cached ∅)|set_solver|done]).
    destruct (hold_lookup (hold c (fst n) rw) (fst n2) rw) as (k2 & Ek2).
    assert (c !! fst n2 = None) as Hc2 by (apply Hun; set_solver).
    rewrite (hold_lookup_ne c (fst n) (fst n2)), Hc2, orb_false_r in Ek2 by congruence.
    rewrite lrecs_cons in Hs; pose proof Hs as Hs0; apply sorted_app in Hs as (_ & Hs2 & _).
    assert (sorted comp_fn (snd n2)) as Hsn2 by (rewrite lrecs_cons in Hs2; apply sorted_app in Hs2; tauto).
    destruct (search_node bt Hbt t2 _ _ n2 rw k2 key (proj1 HB2) Ek2 Hk Hsn2) as [(o & pos2 & r2 & E2 & Hr2 & Hle2 & Haft2)|[E2 Hall]].
    + act_step E2.
      assert (vdfs4_put_bnode (fst n) t2 = Ok (tt, set_cached (hold c (fst n2) rw) t)) as Ep.
      { rewrite (put_ok t2 (hold c (fst n2) rw) (fst n) rw); [done|unfold t2; cbn; by rewrite hold_comm|].
        apply loose_hold_ne; [done|]; apply loose_free, Hun; set_solver. }
      act_step Ep; set (t3 := set_cached (hold c (fst n2) rw) t).
      assert (exists ps2, match ps with
               | Some (stack, todo) =>
                   root ← state root_bnode_id; todo0 ← put_add_index_work todo stack (fst n2) root; mret (Some (stack, todo0))
               | None => mret None
               end t3 = Ok (ps2, t3) /\ same_paths ps ps2) as (ps2 & Eps & Hps2).
      { destruct ps as [[stack todo]|]; [|by exists None].
        eexists; split.
        - act_run; unfold state; cbn beta iota; unfold put_add_index_work; rewrite act_assoc; act_step (env_ok t3 He); done.
        - cbn [Z.eqb]; split; [done|]; eexists [_]; split; [done|]; by repeat constructor. }
      act_step Eps; clear Eps.
      destruct (IH n2 (fst n) t3 pos2 r2 ps2 fuel) as (A' & n' & B' & pos' & ps' & Esp & Erun & Hf & _ & Hps'); auto.
      { eapply linked_keeps; [apply (keeps_cached ∅)|set_solver|done]. }
      { intros x Hx; apply Hun; set_solver. }
      { cbn in Hfu; lia. }
      exists (n :: A'), n', B', pos', ps'; rewrite Esp; split; [done|]; split; [exact Erun|]; split; [done|]; split; [done|].
      destruct ps as [[stack todo]|], ps2 as [[stack2 todo2]|], ps' as [[stack3 todo3]|]; try done.
      destruct Hps2 as (-> & mo & -> & Hmo), Hps' as (-> & mo2 & -> & Hmo2); split; [done|].
      exists (mo2 ++ mo); rewrite app_assoc, Forall_app; done.
    + act_step E2; cbn [Z.eqb].
      change (- ENOENT =? - ENOENT) with true; cbn beta iota.
      assert (vdfs4_put_bnode (fst n2) t2 = Ok (tt, t)) as Ep.
      { unfold t2; rewrite <- Hc at 1; apply put_hold; rewrite Hc; apply loose_hold_ne; [done|]; by apply loose_free. }
      act_step Ep; exists [], n, (n2 :: B), pos, ps; rewrite <- Et; split; [done|]; split; [done|].
      split; [|split; [done|apply same_paths_refl]]; split; [eauto|done|].
      rewrite lrecs_cons, Forall_app; split; [done|].
      destruct HB as [[_ _ _ Hsome] _]; destruct (snd n2) as [|x l] eqn:Ex; [done|].
      apply (right_above bt t2 (fst n) 0 n2 B key x); auto; rewrite ?Ex; [set_solver|by apply Forall_cons in Hall as [? _]].
Qed.

Lemma traverse_level_spec (t : tree) (A : list node) (s : node) (B : list node) (key f : list Z) (rw : bool) (ps : paths) :
  env t = [] -> level_ok t (A ++ s :: B) -> valid key -> unheld (cached t) (s :: B) -> getZ (snd s) 0 = Some f ->
  (0 < comp_fn f key /\ btree_traverse_level bt comp_fn fresh key (fst s) rw ps t = Ok ((Err (- ENOENT), -1, ps), t))
  \/ (comp_fn f key <= 0 /\ exists A' n B' pos ps', s :: B = A' ++ n :: B'
      /\ btree_traverse_level bt comp_fn fresh key (fst s) rw ps t
         = Ok ((Val (fst n), pos, ps'), set_cached (hold (cached t) (fst n) rw) t)
      /\ found key n B' pos /\ (A' = [] -> ps' = ps) /\ same_paths ps ps').
Proof using Hpg Hcmp.
  intros He Hlv Hk Hun Hf; destruct (level_from bt _ _ _ _ Hlv) as (p & Hl & Hs & Hnd); pose proof (paged_ok bt Hpg) as Hbt.
  assert (used t (fst s)) as Hu by (destruct Hl as [[Hu _ _ _] _]; done).
  assert (cached t !! fst s = None) as Hc by (apply Hun; set_solver).
  unfold btree_traverse_level; rewrite (act_bind_ok _ _ _ _ _ (get_ok bt fresh t (fst s) rw He Hu)); cbn beta iota.
  set (t1 := set_cached (hold (cached t) (fst s) rw) t).
  assert (linked t1 p (s :: B) 0) as Hl1 by (eapply linked_keeps; [apply (keeps_cached ∅)|set_solver|done]).
  destruct (hold_lookup (cached t) (fst s) rw) as (k1 & Ek1).
  assert (sorted comp_fn (snd s)) as Hss by (rewrite lrecs_cons in Hs; apply sorted_app in Hs; tauto).
  assert (Forall valid (snd s)) as Hvs by (destruct Hl as [[_ _ Hr _] _]; by apply krec_valid in Hr).
  destruct (search_node bt Hbt t1 _ _ s _ k1 key (proj1 Hl1) Ek1 Hk Hss) as [(o & pos & r & E & Hr & Hle & Haft)|[E Hall]]; act_step E.
  - right; split.
    { destruct (Z.eq_dec pos 0) as [->|N0]; [congruence|].
      pose proof (getZ_bounds _ _ _ Hr) as Hb; unfold getZ in Hf, Hr; rewrite (proj2 (Z.ltb_ge pos 0)) in Hr by lia; cbn in Hf.
      pose proof (sorted_ascending _ key Hvs Hk Hss 0%nat (Z.to_nat pos) f r ltac:(lia) Hf Hr Hle); lia. }
    act_run; unfold state; cbn beta iota.
    destruct (dangling_loop_spec B s p t1 (cached t) rw key pos r ps (base.size (pages t1))) as (A' & n & B' & pos' & ps' & Esp & Erun & Hrest); auto.
    { pose proof (level_size bt t p 0 (s :: B) Hl Hnd) as Hsz; cbn [length] in Hsz; change (pages t1) with (pages t); lia. }
    exists A', n, B', pos', ps'; split; [done|]; split; [|done]; exact Erun.
  - left; split.
    { unfold getZ in Hf; cbn in Hf; rewrite Forall_forall in Hall; apply Hall; by eapply list_elem_of_lookup_2. }
    assert (vdfs4_put_bnode (fst s) t1 = Ok (tt, t)) as Ep by (apply put_hold; by apply loose_free).
    act_step Ep; done.
Qed.

(** ** Down the tree *)

(** No node of the tree from level [ti] up is fetched. *)
Definition idle (ti : nat) (t : tree) (ls : list (list node)) : Prop :=
  forall i l, (ti <= i)%nat -> ls !! i = Some l -> unheld (cached t) l.

(** The paths of a search that has come down to level [S i]. *)
Definition paths_ok (ls : list (list node)) (i : nat) (f : list Z) (ps : paths) : Prop :=
  match ps with None => True | Some (stack, _) => stack_ok ls i f stack end.

(** The result of a search: the stack to it, and no new item on the to-do list of a
    tree without dangling nodes. *)
Definition paths_to (ls : list (list node)) (i : nat) (key : list Z) (id : Z) (ps ps' : paths) : Prop :=
  match ps, ps' with
  | None, None => True
  | Some (_, todo), Some (stack', todo') =>
      stack_ok ls i key stack' /\ (exists it st, stack' = it :: st /\ si_bnode_id it = id) /\ (indexed ls -> todo' = todo)
  | _, _ => False
  end.

Lemma push_ok (t : tree) (ls : list (list node)) (i : nat) (A : list node) (n : node) (B : list node) (g : list Z) (pos : Z) (ps : paths) :
  env t = [] -> ls !! i = Some (A ++ n :: B) -> getZ (snd n) 0 = Some g -> paths_ok ls (S i) g ps ->
  exists ps', traverse_stack_push ps (fst n) pos (Z.of_nat (S i)) t = Ok ((0, ps'), t)
  /\ match ps, ps' with
     | None, None => True
     | Some (st, todo), Some (st', todo') =>
         todo' = todo /\ (exists it, st' = it :: st /\ si_bnode_id it = fst n) /\ (forall f, comp_fn g f <= 0 -> stack_ok ls i f st')
     | _, _ => False
     end.
Proof using Hcmp.
  intros He Hl Hg Hps; destruct ps as [[st todo]|]; [|by exists None]; unfold traverse_stack_push.
  eexists; split; [act_step (env_ok t He); cbn [Z.eqb]; reflexivity|]; cbn; split; [done|]; split; [eauto|].
  intros f' Hf'; exists A, n, B, g; do 4 (split; [done|]); split; [exact Hf'|exact Hps].
Qed.

Lemma traverse_loop_spec (k ti : nat) (t : tree) (ls : list (list node)) (A : list node) (s : node) (B : list node)
    (key f : list Z) (rw : bool) (ps : paths) :
  wf t ls -> idle ti t ls -> valid key -> ls !! (ti + k)%nat = Some (A ++ s :: B) -> getZ (snd s) 0 = Some f -> comp_fn f key <= 0 ->
  paths_ok ls (S (ti + k)) f ps ->
  (indexed ls -> forall A' n B' pos, s :: B = A' ++ n :: B' -> found key n B' pos -> A' = []) ->
  exists A' n B' pos ps', ls !! ti = Some (A' ++ n :: B')
  /\ traverse_loop bt comp_fn fresh (S k) (Z.of_nat (S (ti + k))) (fst s) key rw ps (Z.of_nat (S ti)) t
     = Ok ((Val (fst n), pos, ps'), set_cached (hold (cached t) (fst n) rw) t)
  /\ found key n B' pos /\ paths_to ls ti key (fst n) ps ps'.
Proof using Hpg Hcmp.
  revert A s B f ps; induction k as [|k IH]; intros A s B f ps Hw Hid Hk Hl Hf Hle Hps Hdang; cbn [traverse_loop];
    pose proof (so_env _ _ (wf_store _ _ _ Hw)) as He; pose proof (paged_ok bt Hpg) as Hbt.
  all: pose proof (wf_level _ _ _ Hw _ _ Hl) as Hlv; pose proof (Hid _ _ (Nat.le_add_r ti _) Hl) as Hun.
  all: assert (unheld (cached t) (s :: B)) as Hun' by (intros x Hx; apply Hun, elem_of_app; by right).
  all: destruct (traverse_level_spec t A s B key f rw ps He Hlv Hk Hun' Hf) as [[Hgt _]|(_ & A' & n & B' & pos & ps1 & Esp & Erun & Hfd & Hsame & Hsp)];
    [lia|act_step Erun].
  all: assert (A ++ s :: B = (A ++ A') ++ n :: B') as El by (rewrite Esp; by rewrite app_assoc).
  all: rewrite El in Hl, Hlv, Hun.
  all: pose proof (linked_elem bt _ _ _ _ n (lo_linked _ _ _ Hlv) ltac:(apply elem_of_app; right; apply elem_of_cons; by left)) as (p' & q' & Hnok).
  all: assert (exists g, getZ (snd n) 0 = Some g) as (g & Hg) by (destruct Hnok as [_ _ _ Hsome]; destruct (snd n) as [|g tl]; [done|by exists g]).
  all: assert (n ∈ (A ++ A') ++ n :: B') as Hnin by (apply elem_of_app; right; apply elem_of_cons; by left).
  all: pose proof (fun r Hr => wf_valid bt t ls _ _ r Hw Hl Hr) as Vl.
  all: assert (valid g) as Vg by (apply Vl, (first_elem n); done).
  all: assert (valid f) as Vf by (apply Vl, (first_elem s); [rewrite <- El; apply elem_of_app; right; apply elem_of_cons; by left|done]).
  all: assert (comp_fn f g <= 0) as Hfg by (rewrite <- El in Hlv; apply (first_least bt t A A' B' s n B f g Hlv Esp Hf); by eapply getZ_elem).
  all: assert (comp_fn g key <= 0) as Hgk.
  1, 3: destruct Hfd as [(r & Hr & Hrk) _ _]; apply le_trans with r; auto;
      [apply Vl, elem_of_lrecs; exists n; split; [done|by eapply getZ_elem]|];
      apply (first_least bt t (A ++ A') [] B' n n B' g r Hlv eq_refl Hg); by eapply getZ_elem.
  all: assert (paths_ok ls (S (ti + _)) g ps1) as Hps1 by
    (destruct ps as [[st todo]|], ps1 as [[st1 todo1]|]; try done; destruct Hsp as (-> & _);
     apply (stack_mono bt t ls _ f g _ Hw Vf Vg Hfg Hps)).
  all: set (t1 := set_cached (hold (cached t) (fst n) rw) t).
  all: assert (env t1 = []) as He1 by done.
  - rewrite Nat.add_0_r in *.
    destruct (push_ok t1 ls ti (A ++ A') n B' g pos ps1 He1) as (ps2 & Epush & Hps2); auto.
    act_step Epush; cbn [Z.eqb negb]; rewrite Z.ltb_irrefl.
    exists (A ++ A'), n, B', pos, ps2; split; [done|]; split; [done|]; split; [done|].
    destruct ps as [[st todo]|], ps1 as [[st1 todo1]|], ps2 as [[st2 todo2]|]; try done; cbn in *.
    destruct Hps2 as (-> & (it & -> & Hit) & Hst2), Hsp as (-> & _); split; [by apply Hst2|]; split; [eauto|].
    intros Hix; specialize (Hdang Hix _ _ _ _ Esp Hfd); specialize (Hsame Hdang); congruence.
  - rewrite Nat.add_succ_r in *.
    destruct (push_ok t1 ls (S (ti + k)) (A ++ A') n B' g pos ps1 He1) as (ps2 & Epush & Hps2); auto.
    act_step Epush; cbn [Z.eqb negb]; rewrite (proj2 (Z.ltb_lt _ _)) by lia.
    pose proof Hfd as [(u & Hu & Huk) _ _].
    assert (node_ok bt t1 p' q' n) as Hnok1 by (eapply node_keeps; [apply (keeps_cached ∅)|set_solver|done]).
    destruct (hold_lookup (cached t) (fst n) rw) as (kn & Ekn).
    destruct (record_read bt Hbt t1 p' q' n _ kn pos u Hnok1 Ekn Hu) as (m & S0 & F0 & o & x & _ & _ & _ & _ & _ & Erec & Eval & Echild).
    destruct (lookup_lt_is_Some_2 ls (ti + k)) as (lo & Hlo); [apply lookup_lt_Some in Hl; lia|].
    pose proof (wf_index _ _ _ Hw _ _ _ Hlo Hl) as Hix; assert (u ∈ lrecs ((A ++ A') ++ n :: B')) as Huin
      by (apply elem_of_lrecs; exists n; split; [done|by eapply getZ_elem]).
    assert (irec u) as Hiu by (pose proof (ix_recs _ _ Hix) as Hi; rewrite Forall_forall in Hi; auto).
    act_step Erec; act_step Eval; rewrite (act_bind_ok _ _ _ _ _ (Echild Hiu)); cbn beta iota.
    assert (vdfs4_put_bnode (fst n) t1 = Ok (tt, t)) as Ep by (apply put_hold, loose_free, Hun; done).
    act_step Ep; destruct (ix_child _ _ Hix u Huin) as (n2 & f2 & Hn2 & E2 & Hf2 & Hv2); rewrite <- E2.
    apply list_elem_of_split in Hn2 as (A2 & B2 & ->).
    assert (valid u) as Vu by auto; assert (valid f2) as Vf2
      by (apply (wf_valid bt t ls _ _ f2 Hw Hlo), (first_elem n2); [apply elem_of_app; right; apply elem_of_cons; by left|done]).
    assert (comp_fn g u <= 0) as Hgu by (apply (first_least bt t (A ++ A') [] B' n n B' g u Hlv eq_refl Hg); by eapply getZ_elem).
    assert (comp_fn g f2 <= 0) as Hgf2 by (apply le_trans with u; auto; apply view_le; auto).
    assert (comp_fn f2 key <= 0) as Hf2k by (apply le_trans with u; auto; apply view_le; auto).
    destruct (IH A2 n2 B2 f2 ps2) as (A3 & n3 & B3 & pos3 & ps3 & Hl3 & E3 & Hfd3 & Hto); auto.
    { destruct ps1 as [[st1 todo1]|], ps2 as [[st2 todo2]|]; try done; destruct Hps2 as (_ & _ & Hst2); by apply Hst2. }
    { intros Hind A4 n4 B4 pos4 E4 Hfd4; eapply (no_dangling bt t ls (ti + k)); [exact Hw|exact Hind|exact Hk|exact Hl|exact Hfd|exact Hu|exact Hlo|exact Hf2|exact Hv2|exact E4|exact Hfd4]. }
    exists A3, n3, B3, pos3, ps3; split; [done|]; split; [|split; [done|]].
    { replace (Z.of_nat (S (S (ti + k))) - 1) with (Z.of_nat (S (ti + k))) by lia; exact E3. }
    destruct ps as [[st todo]|], ps1 as [[st1 todo1]|], ps2 as [[st2 todo2]|], ps3 as [[st3 todo3]|]; try done.
    destruct Hps2 as (-> & _ & _), Hto as (H1 & H2 & H3); split; [done|]; split; [done|].
    intros Hind; rewrite (H3 Hind); specialize (Hdang Hind _ _ _ _ Esp Hfd); specialize (Hsame Hdang); congruence.
Qed.

(** ** The search of the tree *)

(** The search down to level [ti]: -ENOENT for a key below the first one of the
    tree, else the floor of the key in the level. *)
Lemma traverse_spec (ti : nat) (t : tree) (ls : list (list node)) (key : list Z) (rw : bool) (ps : paths) :
  wf t ls -> idle ti t ls -> valid key -> (ti < length ls)%nat -> paths_ok ls (length ls) [] ps ->
  (exists top r rs, last ls = Some top /\ lrecs top = r :: rs /\ 0 < comp_fn r key
     /\ vdfs4_btree_traverse bt comp_fn fresh key rw ps (Z.of_nat (S ti)) t = Ok ((Err (- ENOENT), -1, ps), t))
  \/ exists (A : list node) (n : node) (B : list node) pos ps', ls !! ti = Some (A ++ n :: B)
     /\ vdfs4_btree_traverse bt comp_fn fresh key rw ps (Z.of_nat (S ti)) t
        = Ok ((Val (fst n), pos, ps'), set_cached (hold (cached t) (fst n) rw) t)
     /\ found key n B pos /\ paths_to ls ti key (fst n) ps ps'.
Proof using Hpg Hcmp.
  intros Hw Hid Hk Hti Hps; destruct (wf_root _ _ _ Hw) as (top & Htop & Hroot); pose proof (wf_height _ _ _ Hw) as Hh.
  pose proof (so_env _ _ (wf_store _ _ _ Hw)) as He.
  assert (ls !! (ti + (length ls - S ti))%nat = Some top) as Hl by (rewrite last_lookup in Htop; rewrite <- Htop; f_equal; lia).
  pose proof (wf_level _ _ _ Hw _ _ Hl) as Hlv; destruct top as [|s B]; [by destruct (lo_some _ _ _ Hlv)|]; cbn in Hroot.
  destruct (lo_linked _ _ _ Hlv) as [[_ _ _ Hsome] _]; destruct (snd s) as [|f tl] eqn:Es; [done|].
  assert (getZ (snd s) 0 = Some f) as Hf by (by rewrite Es).
  unfold vdfs4_btree_traverse; act_step (state_ok root_bnode_id t); act_step (state_ok btree_height t).
  assert (bug_on (debug bt && ((Z.of_nat (S ti) <? VDFS4_BTREE_LEAF_LVL) || (btree_height t <? Z.of_nat (S ti)))) = Ok tt) as Ebug.
  { unfold lenZ in Hh; unfold VDFS4_BTREE_LEAF_LVL; rewrite !(proj2 (Z.ltb_ge _ _)) by lia; by rewrite andb_false_r. }
  lift_step Ebug.
  replace (Z.to_nat (btree_height t - Z.of_nat (S ti) + 1)) with (S (length ls - S ti)) by (unfold lenZ in Hh; lia).
  replace (btree_height t) with (Z.of_nat (S (ti + (length ls - S ti)))) by (unfold lenZ in Hh; lia); rewrite <- Hroot.
  destruct (Z.leb_spec (comp_fn f key) 0) as [Hle|Hgt].
  - right; apply (traverse_loop_spec _ _ t ls [] s B key f); auto.
    + destruct ps as [[st todo]|]; [|done]; cbn in Hps |- *; replace (S (ti + (length ls - S ti))) with (length ls) by lia.
      destruct st as [|it st]; [done|]; cbn in Hps; destruct Hps as (A & n & B' & g & Hx & _); apply lookup_lt_Some in Hx; by apply Nat.lt_irrefl in Hx.
    + intros Hind A' n B' pos E _; destruct (id_root _ Hind) as (n0 & Hn0); rewrite Htop in Hn0; injection Hn0 as -> ->.
      destruct A' as [|x A']; [done|]; injection E as _ E; by destruct A'.
  - left; exists (s :: B), f, (tl ++ lrecs B); split; [done|]; split; [by rewrite lrecs_cons, Es|]; split; [done|].
    cbn [traverse_loop].
    destruct (traverse_level_spec t [] s B key f rw ps He Hlv Hk (Hid _ _ (Nat.le_add_r ti _) Hl) Hf) as [[_ E]|[Hle _]]; [|lia].
    act_step E; done.
Qed.

End Find.
