(* ===== verification/BtreePlace.v ===== *)
(** Placing a key into a level ([place_key_in_bnode]) and storing its value: the
    record comes behind the floor of its key, in the node that held the floor or in
    one of the two nodes it was split into. *)

From Stdlib Require Import ZArith Lia Bool List.
From stdpp Require Import base list gmap sets.
From S2P Require Import Prelude Bytes Bitmap Count FindBit Buffer TreeKeys Bnode BnodeRep BnodeSearch BnodeSplit NodeStore StoreRep Btree BtreeRep BtreeLevel BtreeFind.

Open Scope Z_scope.

Definition idset (l : list node) : gset Z := list_to_set (map fst l).

Lemma elem_of_idset (l : list node) (id : Z) : id ∈ idset l <-> exists n, n ∈ l /\ fst n = id.
Proof. unfold idset; rewrite elem_of_list_to_set, list_elem_of_fmap; naive_solver. Qed.

Lemma idset_elem (l : list node) (n : node) : n ∈ l -> fst n ∈ idset l.
Proof. intros; apply elem_of_idset; eauto. Qed.

Lemma elem_mid {A : Type} (X Y : list A) (x : A) : x ∈ X ++ x :: Y.
Proof. set_solver. Qed.

Lemma nodup_mid (A B : list node) (n : node) :
  NoDup (map fst (A ++ n :: B)) -> (forall a, a ∈ A -> fst a <> fst n) /\ (forall b, b ∈ B -> fst b <> fst n)
  /\ (forall a b, a ∈ A -> b ∈ B -> fst a <> fst b) /\ NoDup (map fst B).
Proof.
  rewrite map_app; cbn [map]; rewrite NoDup_app, NoDup_cons; intros (_ & HA & HB & Hnd).
  split; [|split; [|split; [|done]]].
  - intros a Ha E; apply (HA (fst a)); [by apply (list_elem_of_fmap_2 fst)|rewrite E; set_solver].
  - intros b Hb E; apply HB; rewrite <- E; by apply (list_elem_of_fmap_2 fst).
  - intros a b Ha Hb E; apply (HA (fst a)); [by apply (list_elem_of_fmap_2 fst)|]; rewrite E; apply elem_of_cons; right.
    by apply (list_elem_of_fmap_2 fst).
Qed.

(** The first record of a node is in front of every place behind a record. *)
Lemma first_take (R : list (list Z)) (pos : Z) (r f : list Z) :
  0 <= pos -> getZ R 0 = Some f -> getZ (take (Z.to_nat (pos + 1)) R ++ r :: drop (Z.to_nat (pos + 1)) R) 0 = Some f.
Proof.
  intros Hp Hf; destruct R as [|g R]; [done|]; replace (Z.to_nat (pos + 1)) with (S (Z.to_nat pos)) by lia; done.
Qed.

Section Place.
Context {find : FindBit} {Hfind : FindBitLaws} (bt : btree) (Hpg : paged bt) (fresh : Z -> list Z) (Hfresh : forall id, page_ok bt (fresh id)).
Context {comp_fn : list Z -> list Z -> Z} {valid : list Z -> Prop} `{Hcmp : KeyCmp comp_fn valid}.

#[local] Abbreviation linked := (linked bt (comp_fn := comp_fn) (valid := valid)).
#[local] Abbreviation node_ok := (node_ok bt (comp_fn := comp_fn) (valid := valid)).
#[local] Abbreviation krec := (krec (comp_fn := comp_fn) (valid := valid)).
#[local] Abbreviation found := (found (comp_fn := comp_fn)).
#[local] Abbreviation level_ok := (level_ok bt (comp_fn := comp_fn) (valid := valid)).
#[local] Abbreviation key_ok := (key_ok (comp_fn := comp_fn) (valid := valid)).
#[local] Abbreviation at_record := (at_record bt (comp_fn := comp_fn) (valid := valid)).

(** A level that has been changed: its nodes keep their ids and first records, new
    nodes have new ids. *)
Record grown (t t' : tree) (l l' : list node) : Prop := {
  gr_ids : forall n', n' ∈ l' -> fst n' ∈ idset l \/ ~ used t (fst n');
  gr_first : forall n f, n ∈ l -> getZ (snd n) 0 = Some f ->
    exists n' f', n' ∈ l' /\ fst n' = fst n /\ getZ (snd n') 0 = Some f' /\ key_view f' = key_view f;
  gr_hd : hd_id l' 0 = hd_id l 0;
  gr_nodup : NoDup (map fst l');
  gr_keeps : keeps (idset l) t t';
  gr_store : store_ok bt t';
  gr_root : root_bnode_id t' = root_bnode_id t;
  gr_height : btree_height t' = btree_height t
}.

Lemma grown_refl (t : tree) (l : list node) : store_ok bt t -> NoDup (map fst l) -> grown t t l l.
Proof. intros Hs Hn; split; auto using keeps_refl; [intros n Hx; left; by apply idset_elem|]; intros n f Hx Hf; exists n, f; auto. Qed.

(** The to-do list after the level has changed: one item more for a new node. *)
Definition spread (t t' : tree) (l l' : list node) (n : node) (key : list Z) (up : list stack_item) (todo todo' : list todo_item) : Prop :=
  (todo' = todo /\ map fst l' = map fst l /\ free_num (bitmap t') = free_num (bitmap t))
  \/ (exists x, x ∈ l' /\ ~ used t (fst x) /\ todo' = TodoItem up (fst x) (root_bnode_id t) :: todo
      /\ length l' = S (length l) /\ (forall y, y ∈ l' -> fst y = fst x \/ fst y ∈ idset l)
      /\ (forall q, q ∈ snd x -> q ∈ snd n \/ key_view q = key_view key)
      /\ free_num (bitmap t') = free_num (bitmap t) - 1 /\ first_free_id (bitmap t') < available t').

(** The new record in its level. *)
Record placed (t : tree) (l l' : list node) (key : list Z) (L rid : Z) (ri : rec_info)
    (A : list node) (R1 : list (list Z)) (r : list Z) (R2 : list (list Z)) (B : list node) : Prop := {
  pl_level : l' = A ++ (rid, R1 ++ r :: R2) :: B;
  pl_old : lrecs l = (lrecs A ++ R1) ++ R2 ++ lrecs B;
  pl_some : lrecs A ++ R1 <> [];
  pl_linked : linked t 0 l' 0;
  pl_sorted : sorted comp_fn (lrecs l');
  pl_record : at_record t (last_id 0 A) (hd_id B 0) rid R1 R2 key r L ri
}.

Lemma at_keeps (X : gset Z) (t t' : tree) (p q id L : Z) (R1 R2 : list (list Z)) (key r : list Z) (ri : rec_info) :
  keeps X t t' -> id ∉ X -> at_record t p q id R1 R2 key r L ri -> at_record t' p q id R1 R2 key r L ri.
Proof using Hcmp. intros Hk Hx [H1 H2 H3]; split; auto; by eapply node_at_keeps. Qed.

(** A key between its floor and what follows. *)
Lemma sorted_new (t : tree) (A B : list node) (n : node) (key r r0 : list Z) (pos L : Z) :
  level_ok t (A ++ n :: B) -> found key n B pos -> getZ (snd n) pos = Some r0 -> comp_fn r0 key < 0 ->
  key_ok key L -> stored key (get16 key KEY_LEN) L r ->
  sorted comp_fn ((lrecs A ++ take (Z.to_nat (pos + 1)) (snd n)) ++ r :: drop (Z.to_nat (pos + 1)) (snd n) ++ lrecs B).
Proof using Hcmp.
  intros Hlv [_ Haft Hright] Hr0 Hlt Hk Hst; destruct (stored_krec key r L Hk Hst) as (Kr & Ev & _); pose proof Kr as (_ & Vr & _).
  pose proof (linked_krec bt _ _ _ _ (lo_linked _ _ _ Hlv)) as Hkr; apply krec_valid in Hkr.
  pose proof (lo_sorted _ _ _ Hlv) as Hs; rewrite lrecs_app, lrecs_cons in Hs, Hkr.
  pose proof (getZ_bounds _ _ _ Hr0) as Hb; unfold getZ in Hr0; rewrite (proj2 (Z.ltb_ge pos 0)) in Hr0 by lia.
  set (N := Z.to_nat (pos + 1)) in *; assert (take N (snd n) = take (Z.to_nat pos) (snd n) ++ [r0]) as Et
    by (unfold N; replace (Z.to_nat (pos + 1)) with (S (Z.to_nat pos)) by lia; by apply take_S_r).
  rewrite <- (take_drop N (snd n)), Et, <- !app_assoc in Hs, Hkr; rewrite Et, <- !app_assoc; cbn [app] in *.
  rewrite app_assoc in Hs, Hkr |- *; apply sorted_between; auto.
  - apply cmp_lt; auto; [|rewrite Ev; apply cmp_lt; auto; [|apply (ko_valid _ _ Hk)]]; rewrite Forall_app, Forall_cons in Hkr; apply Hkr.
  - assert (forall q, valid q -> 0 < comp_fn q key -> 0 < comp_fn q r) as Hgt.
    { intros q Vq Hq; apply cmp_gt; auto; rewrite Ev; apply cmp_gt; auto; apply (ko_valid _ _ Hk). }
    rewrite Forall_app, Forall_cons in Hkr; destruct Hkr as (_ & _ & Vb); rewrite Forall_forall in Vb, Haft, Hright |- *.
    intros q Hq; apply Hgt; auto; apply elem_of_app in Hq as [Hq|Hq]; auto.
Qed.

(** The node in place of the old one, with the others untouched. *)
Lemma relevel (X : gset Z) (t t' : tree) (A B C : list node) (n : node) :
  linked t 0 (A ++ n :: B) 0 -> keeps X t t' -> (forall a, a ∈ A -> fst a ∉ X) -> hd_id C 0 = fst n ->
  linked t' (last_id 0 A) C 0 -> linked t' 0 (A ++ C) 0.
Proof using Hcmp.
  intros Hl Hk HA Hc HC; apply linked_app in Hl as [HlA _]; apply linked_app; split; [|done].
  cbn [hd_id] in HlA; rewrite Hc; by eapply linked_keeps.
Qed.

(** A level in which one node has a record more. *)
Lemma grown_same (t t' : tree) (A B : list node) (n : node) (R : list (list Z)) :
  NoDup (map fst (A ++ n :: B)) -> (forall f, getZ (snd n) 0 = Some f -> getZ R 0 = Some f) ->
  keeps {[fst n]} t t' -> store_ok bt t' -> root_bnode_id t' = root_bnode_id t -> btree_height t' = btree_height t ->
  grown t t' (A ++ n :: B) (A ++ (fst n, R) :: B).
Proof.
  intros Hnd Hf Hk Hs Hr Hh; split; auto.
  - intros n' [Hn'|[->|Hn']%elem_of_cons]%elem_of_app; left; apply elem_of_idset.
    + exists n'; set_solver.
    + exists n; set_solver.
    + exists n'; set_solver.
  - intros x f Hx Hxf; apply elem_of_app in Hx as [Hx|[->|Hx]%elem_of_cons].
    + exists x, f; set_solver.
    + exists (fst n, R), f; cbn; split; [set_solver|auto].
    + exists x, f; set_solver.
  - by destruct A.
  - by rewrite map_app in *.
  - eapply keeps_mono; [exact Hk|]; intros x ->%elem_of_singleton; apply idset_elem; set_solver.
Qed.

Lemma grown_later (t t3 t4 : tree) (l l' : list node) : grown t t3 l l' -> wrote bt ∅ t3 t4 -> grown t t4 l l'.
Proof.
  intros [G1 G2 G3 G4 G5 G6 G7 G8] Hwr; split; auto.
  - eapply keeps_later; [exact G5|apply (wrote_keeps _ _ _ _ Hwr)].
  - by eapply wrote_store.
  - rewrite (wo_root _ _ _ _ Hwr); done.
  - rewrite (wo_height _ _ _ _ Hwr); done.
Qed.

Lemma grown_cached (t t3 : tree) (l l' : list node) (c : gmap Z (bool * Z)) : grown t t3 l l' -> grown t (set_cached c t3) l l'.
Proof.
  intros [G1 G2 G3 G4 G5 G6 G7 G8]; split; auto using store_cached; eapply keeps_later; [exact G5|apply (keeps_cached ∅)].
Qed.

Lemma placed_keeps (t t' : tree) (l l' A' B' : list node) (key : list Z) (L rid : Z) (ri : rec_info) (R1 R2 : list (list Z)) (r : list Z) :
  placed t l l' key L rid ri A' R1 r R2 B' -> keeps ∅ t t' -> placed t' l l' key L rid ri A' R1 r R2 B'.
Proof using Hcmp.
  intros [P1 P2 P3 P4 P5 P6] Hk; split; auto; [eapply linked_keeps; [exact Hk|intros; apply not_elem_of_empty|done]|].
  eapply at_keeps; [exact Hk|apply not_elem_of_empty|done].
Qed.

Context (t : tree) (c : gmap Z (bool * Z)) (A B : list node) (n : node) (key r0 : list Z) (L pos : Z).
Context (Hs : store_ok bt t) (Hlv : level_ok t (A ++ n :: B)) (Hc : cached t = hold c (fst n) true).
Context (Hun : unheld c (A ++ n :: B)) (Hcu : forall id, is_Some (c !! id) -> used t id).
Context (Hk : key_ok key L) (Hfd : found key n B pos) (Hr0 : getZ (snd n) pos = Some r0).
Context (item : stack_item) (up : list stack_item) (Hup : si_level item = btree_height t <-> up = []).

#[local] Abbreviation l := (A ++ n :: B).

(** The outcome of [place_key_in_bnode] on this level. *)
Definition place_result (todo : list todo_item) (res : run (res (Z * rec_info) * Z * list todo_item * tree)) : Prop :=
  (comp_fn r0 key = 0 /\ res = Ok ((Err (- EEXIST), fst n, todo), t))
  \/ (comp_fn r0 key < 0 /\ free_num (bitmap t) = 0 /\ exists t', res = Ok ((Err (- ENOSPC), fst n, todo), t') /\ reserved bt t t')
  \/ (comp_fn r0 key < 0 /\ exists t' l' rid ri A' R1 r R2 B' todo', res = Ok ((Val (rid, ri), rid, todo'), t')
      /\ placed t' l l' key L rid ri A' R1 r R2 B' /\ grown t t' l l' /\ spread t t' l l' n key up todo todo'
      /\ cached t' = hold c rid true /\ lrecs A' ++ R1 = lrecs A ++ take (Z.to_nat (pos + 1)) (snd n)).

Lemma split_mid (pos' : Z) : lrecs l = (lrecs A ++ take (Z.to_nat pos') (snd n)) ++ drop (Z.to_nat pos') (snd n) ++ lrecs B.
Proof.
  rewrite lrecs_app, lrecs_cons, <- !app_assoc; f_equal; by rewrite app_assoc, take_drop.
Qed.

Lemma held_node : cached t !! fst n = Some (true, 1).
Proof using Hc Hun.
  rewrite Hc; unfold hold; rewrite (Hun n (elem_mid _ _ _)); by rewrite lookup_insert_eq.
Qed.

Lemma front_some : lrecs A ++ take (Z.to_nat (pos + 1)) (snd n) <> [].
Proof using Hr0.
  pose proof (getZ_bounds _ _ _ Hr0) as Hb; destruct (snd n) as [|f R]; [change (lenZ []) with 0 in Hb; lia|].
  replace (Z.to_nat (pos + 1)) with (S (Z.to_nat pos)) by lia; cbn; by destruct (lrecs A).
Qed.

Lemma place_same (todo : list todo_item) :
  comp_fn r0 key < 0 -> weight (snd n) + L + 4 <= node_size_bytes bt - 40 ->
  exists t' ri R1 r R2,
    ('(ret, info) ← with_node (fst n) (fun b => '(ret, b, info) ← insert_key_into_bnode bt b key L (pos + 1); Ok ((ret, info), b));
     mark_dirty (fst n);;
     if negb (ret =? 0) then mret (Err ret, fst n, todo)
     else match info with None => lift Fault | Some ri => mret (Val (fst n, ri), fst n, todo) end) t
      = Ok ((Val (fst n, ri), fst n, todo), t')
    /\ placed t' l (A ++ (fst n, R1 ++ r :: R2) :: B) key L (fst n) ri A R1 r R2 B
    /\ grown t t' l (A ++ (fst n, R1 ++ r :: R2) :: B) /\ spread t t' l (A ++ (fst n, R1 ++ r :: R2) :: B) n key up todo todo
    /\ cached t' = hold c (fst n) true /\ R1 = take (Z.to_nat (pos + 1)) (snd n).
Proof using All.
  intros Hlt Hw; pose proof (getZ_bounds _ _ _ Hr0) as Hpos; pose proof (lo_linked _ _ _ Hlv) as Hl; pose proof held_node as Hcn.
  pose proof (proj2 (proj1 (linked_app _ _ _ _ _ _) Hl)) as [Hn HB]; pose proof (nodup_mid _ _ _ (lo_nodup _ _ _ Hlv)) as (HA & HBn & _ & _).
  destruct (place_in_node bt Hpg t _ _ 1 L (pos + 1) n key Hn Hcn Hk ltac:(lia) Hw) as (t1 & ri & r & E & Hwr & Har).
  set (R1 := take (Z.to_nat (pos + 1)) (snd n)) in *; set (R2 := drop (Z.to_nat (pos + 1)) (snd n)) in *.
  assert (exists m, pages t1 !! fst n = Some m) as (m1 & Hm1) by (destruct Har as [(_ & _ & m & ? & ? & ? & Hm & _) _ _]; eauto).
  assert (cached t1 !! fst n = Some (true, 1)) as Hcn1 by (by rewrite (wo_cached _ _ _ _ Hwr)).
  exists (add_dirty (fst n) t1), ri, R1, r, R2; split; [|split; [|split; [|split; [|split; [|done]]]]].
  - act_step E; act_step (mark_dirty_ok t1 (fst n) m1 1 Hm1 Hcn1); done.
  - assert (keeps ∅ t1 (add_dirty (fst n) t1)) as Hkd by apply keeps_dirty.
    pose proof (at_keeps _ _ _ _ _ _ _ _ _ _ _ _ Hkd (not_elem_of_empty _) Har) as Har'.
    assert (keeps {[fst n]} t (add_dirty (fst n) t1)) as Hkt
      by (eapply keeps_mono; [eapply keeps_trans; [apply (wrote_keeps _ _ _ _ Hwr)|exact Hkd]|set_solver]).
    split; auto.
    + apply split_mid.
    + apply front_some.
    + eapply relevel; [exact Hl|exact Hkt| |done|]; [intros a Ha; specialize (HA a Ha); set_solver|].
      cbn [linked hd_id fst]; split; [apply (node_at_node bt _ _ _ _ _ _ _ _ (ar_node _ _ _ _ _ _ _ _ _ _ _ Har'))|].
      eapply linked_keeps; [exact Hkt| |exact HB]; intros b Hb; specialize (HBn b Hb); set_solver.
    + rewrite lrecs_app, lrecs_cons; cbn [snd]; rewrite <- app_assoc, app_assoc, <- app_comm_cons.
      eapply sorted_new; eauto; apply (ar_stored _ _ _ _ _ _ _ _ _ _ _ Har).
  - apply grown_same; [apply (lo_nodup _ _ _ Hlv)| | |..].
    + intros f Hf; apply first_take; [lia|done].
    + eapply keeps_mono; [eapply keeps_trans; [apply (wrote_keeps _ _ _ _ Hwr)|apply (keeps_dirty ∅)]|set_solver].
    + apply store_dirty; by eapply wrote_store.
    + apply (wo_root _ _ _ _ Hwr).
    + apply (wo_height _ _ _ _ Hwr).
  - left; split; [done|]; split; [by rewrite !map_app|]; cbn; by rewrite (wo_bitmap _ _ _ _ Hwr).
  - cbn; by rewrite (wo_cached _ _ _ _ Hwr).
Qed.

(** The state between the allocation of the right node and the split. *)
Record ready (t2 : tree) (rid : Z) : Prop := {
  rd_keeps : keeps ∅ t t2;
  rd_store : store_ok bt t2;
  rd_cached : cached t2 = hold (hold c (fst n) true) rid true;
  rd_new : ~ used t rid;
  rd_used : used t2 rid;
  rd_page : is_Some (pages t2 !! rid);
  rd_root : root_bnode_id t2 = root_bnode_id t;
  rd_height : btree_height t2 = btree_height t;
  rd_free : free_num (bitmap t2) = free_num (bitmap t) - 1
}.

Lemma new_none (rid : Z) : ~ used t rid -> c !! rid = None /\ rid <> fst n /\ rid ∉ idset l.
Proof using All.
  intros Hn; assert (forall x, x ∈ l -> used t (fst x)) as Hu.
  { intros x Hx; by destruct (linked_elem _ _ _ _ _ _ (lo_linked _ _ _ Hlv) Hx) as (? & ? & [? _ _ _]). }
  split; [|split].
  - destruct (c !! rid) eqn:E; [|done]; destruct Hn; apply Hcu; eauto.
  - intros ->; apply Hn, Hu, elem_mid.
  - rewrite elem_of_idset; intros (x & Hx & <-); by apply Hn, Hu.
Qed.

Lemma ready_ok (t1 t2 : tree) (rid : Z) : reserved bt t t1 -> allocated bt t1 t2 rid -> ready t2 rid.
Proof using All.
  intros [C1 R1 H1 B1 K1 S1] [N2 U2 (m & P2 & _) _ C2 R2 H2 F2 _ K2 S2 _].
  assert (~ used t rid) as Hn by (intros [_ Hb]; rewrite B1 in N2; congruence).
  destruct (new_none rid Hn) as (Hcr & Hne & _).
  split; auto; try congruence.
  - eapply keeps_mono; [eapply keeps_trans; eauto|set_solver].
  - rewrite C2, C1, Hc; unfold hold at 2; by rewrite hold_lookup_ne, Hcr by done.
Qed.

Lemma place_split (t2 : tree) (rid : Z) (todo : list todo_item) :
  ready t2 rid -> comp_fn r0 key < 0 -> node_size_bytes bt - 40 < weight (snd n) + L + 4 ->
  exists t3 side ri r RL RR R1 R2,
    split_node bt fresh (fst n) rid key L (pos + 1) t2 = Ok ((0, Some (side, ri)), t3)
    /\ wrote bt {[fst n; rid; hd_id B 0]} t2 t3 /\ keeps (idset l ∪ {[rid]}) t t3
    /\ linked t3 0 (A ++ (fst n, RL) :: (rid, RR) :: B) 0 /\ RL ++ RR = ins (pos + 1) r (snd n)
    /\ (if side then RR else RL) = R1 ++ r :: R2
    /\ at_record t3 (if side then fst n else last_id 0 A) (if side then hd_id B 0 else rid) (if side then rid else fst n) R1 R2 key r L ri.
Proof using All.
  intros [K2 S2 C2 N2 U2 (mr & P2) _ _ _] Hlt Hw; pose proof (getZ_bounds _ _ _ Hr0) as Hpos; pose proof (lo_linked _ _ _ Hlv) as Hl.
  destruct (new_none rid N2) as (Hcr & Hne & Hri); pose proof (nodup_mid _ _ _ (lo_nodup _ _ _ Hlv)) as (HA & HBn & HAB & Hnd).
  assert (linked t2 0 l 0) as Hl2 by (eapply linked_keeps; [exact K2|set_solver|exact Hl]).
  pose proof (proj2 (proj1 (linked_app _ _ _ _ _ _) Hl2)) as HnB.
  assert (forall b, b ∈ B -> fst b <> rid) as HBr by (intros b Hb <-; apply Hri, idset_elem; set_solver).
  assert (forall a, a ∈ A -> fst a <> rid) as HAr by (intros a Ha <-; apply Hri, idset_elem; set_solver).
  destruct (split_level bt Hpg fresh t2 (last_id 0 A) rid 1 1 L (pos + 1) n B mr key) as (t3 & side & ri & r & RL & RR & R1 & R2 & E & Hwr & Hl3 & Hrec & Hsp & Har);
    auto; try lia.
  { rewrite !NoDup_cons, not_elem_of_cons; split; [|split; [|done]].
    - split; [done|]; intros (b & Eb & Hb)%list_elem_of_fmap; by apply (HBn b Hb).
    - intros (b & Eb & Hb)%list_elem_of_fmap; by apply (HBr b Hb). }
  { rewrite C2, hold_comm by done; unfold hold at 1; rewrite hold_lookup_ne by done; rewrite (Hun n (elem_mid _ _ _)); by rewrite lookup_insert_eq. }
  { rewrite C2; unfold hold at 1; rewrite hold_lookup_ne, Hcr by done; by rewrite lookup_insert_eq. }
  { intros b Hb; rewrite C2, !hold_lookup_ne; [apply Hun; set_solver|by apply HBn|by apply HBr]. }
  assert (forall x, x ∈ ({[fst n; rid; hd_id B 0]} : gset Z) -> x = 0 \/ x ∈ idset l ∪ {[rid]}) as Hsub.
  { intros x [[->%elem_of_singleton| ->%elem_of_singleton]%elem_of_union| ->%elem_of_singleton]%elem_of_union.
    - right; apply elem_of_union_l, idset_elem, elem_mid.
    - right; set_solver.
    - destruct B as [|b B']; [by left|]; right; apply elem_of_union_l, idset_elem; cbn; set_solver. }
  exists t3, side, ri, r, RL, RR, R1, R2; split; [done|]; split; [done|]; split; [|split; [|done]].
  - destruct (wrote_keeps _ _ _ _ Hwr) as [Ro Bn Us Pg]; destruct K2 as [Ro2 Bn2 Us2 Pg2]; split; [congruence|congruence|auto|].
    intros id Hid Hx; rewrite Pg, Pg2; auto; [set_solver|]; intros Hin; destruct (Hsub _ Hin) as [->|]; [|done].
    destruct Hid; lia.
  - eapply relevel; [exact Hl2|apply (wrote_keeps _ _ _ _ Hwr)| |done|exact Hl3].
    intros a Ha Hin; apply elem_of_union in Hin as [[E1%elem_of_singleton|E1%elem_of_singleton]%elem_of_union|E1%elem_of_singleton].
    + by apply (HA a Ha).
    + by apply (HAr a Ha).
    + destruct B as [|b B']; cbn in E1.
      * destruct (linked_elem _ _ _ _ _ a Hl) as (? & ? & [[? _] _ _ _]); [set_solver|lia].
      * apply (HAB a b); [done|set_solver|done].
Qed.

(** A record occurs once in a sorted list. *)
Lemma sorted_unique (X Y X' Y' : list (list Z)) (r : list Z) :
  valid r -> sorted comp_fn (X ++ r :: Y) -> X ++ r :: Y = X' ++ r :: Y' -> X = X' /\ Y = Y'.
Proof using Hcmp.
  intros Vr Hsr E; assert (comp_fn r r = 0) as Err by (by apply cmp_eq).
  assert ((X ++ r :: Y) !! length X = Some r) as E1 by (by rewrite list_lookup_middle).
  assert ((X ++ r :: Y) !! length X' = Some r) as E2 by (by rewrite E, list_lookup_middle).
  assert (length X = length X') as El.
  { destruct (lt_eq_lt_dec (length X) (length X')) as [[Hlt|]|Hlt]; auto.
    - pose proof (Hsr _ _ _ _ Hlt E1 E2); lia.
    - pose proof (Hsr _ _ _ _ Hlt E2 E1); lia. }
  apply app_inj_1 in E as [-> E]; [by injection E|done].
Qed.

(** The level after a split. *)
Lemma split_grown (t2 t3 : tree) (rid : Z) (r : list Z) (RL RR : list (list Z)) (X : gset Z) :
  ready t2 rid -> wrote bt X t2 t3 -> keeps (idset l ∪ {[rid]}) t t3 -> linked t3 0 (A ++ (fst n, RL) :: (rid, RR) :: B) 0 ->
  RL ++ RR = ins (pos + 1) r (snd n) -> grown t t3 l (A ++ (fst n, RL) :: (rid, RR) :: B).
Proof using All.
  intros [K2 S2 C2 N2 U2 P2 R2 H2 _] Hwr Hk3 Hl3 Hrec; destruct (new_none rid N2) as (Hcr & Hne & Hri).
  pose proof (getZ_bounds _ _ _ Hr0) as Hpos; pose proof (lo_nodup _ _ _ Hlv) as Hnd; split.
  - intros n' [Hn'|[->|[->|Hn']%elem_of_cons]%elem_of_cons]%elem_of_app.
    + left; apply idset_elem; set_solver.
    + left; apply (idset_elem l n), elem_mid.
    + by right.
    + left; apply idset_elem; set_solver.
  - intros x f Hx Hf; apply elem_of_app in Hx as [Hx|[->|Hx]%elem_of_cons]; [exists x, f; set_solver| |exists x, f; set_solver].
    exists (fst n, RL), f; cbn; split; [set_solver|]; split; [done|].
    apply (first_take (snd n) pos r) in Hf; [|lia]; fold (ins (pos + 1) r (snd n)) in Hf; rewrite <- Hrec in Hf.
    apply linked_app in Hl3 as [_ [[_ _ _ HRL] _]]; cbn in HRL; by destruct RL.
  - by destruct A.
  - assert ((rid, RR) :: A ++ (fst n, RL) :: B ≡ₚ A ++ (fst n, RL) :: (rid, RR) :: B) as <- by (rewrite <- !Permutation_middle; constructor).
    cbn [map fst]; rewrite NoDup_cons, map_app; cbn [map fst]; split; [|by rewrite map_app in Hnd].
    unfold idset in Hri; rewrite elem_of_list_to_set, map_app in Hri; exact Hri.
  - destruct Hk3 as [Ro Bn Us Pg]; split; auto; intros id Hu Hx; apply Pg; [done|]; intros [Hy|Hy%elem_of_singleton]%elem_of_union; [done|].
    by subst.
  - by eapply wrote_store.
  - by rewrite (wo_root _ _ _ _ Hwr).
  - by rewrite (wo_height _ _ _ _ Hwr).
Qed.

(** Where the new record is after a split. *)
Lemma split_placed (t3 : tree) (rid : Z) (side : bool) (ri : rec_info) (r : list Z) (RL RR R1 R2 : list (list Z)) :
  comp_fn r0 key < 0 -> linked t3 0 (A ++ (fst n, RL) :: (rid, RR) :: B) 0 ->
  RL ++ RR = ins (pos + 1) r (snd n) -> (if side then RR else RL) = R1 ++ r :: R2 ->
  at_record t3 (if side then fst n else last_id 0 A) (if side then hd_id B 0 else rid) (if side then rid else fst n) R1 R2 key r L ri ->
  exists A' B', placed t3 l (A ++ (fst n, RL) :: (rid, RR) :: B) key L (if side then rid else fst n) ri A' R1 r R2 B'
  /\ lrecs A' ++ R1 = lrecs A ++ take (Z.to_nat (pos + 1)) (snd n).
Proof using All.
  intros Hlt Hl3 Hrec Hsp Har; pose proof (ar_stored _ _ _ _ _ _ _ _ _ _ _ Har) as Hst.
  pose proof (sorted_new t A B n key r r0 pos L Hlv Hfd Hr0 Hlt Hk Hst) as Hsrt.
  destruct (stored_krec key r L Hk Hst) as ((_ & Vr & _) & _).
  assert (lrecs (A ++ (fst n, RL) :: (rid, RR) :: B)
          = (lrecs A ++ take (Z.to_nat (pos + 1)) (snd n)) ++ r :: drop (Z.to_nat (pos + 1)) (snd n) ++ lrecs B) as Enew.
  { rewrite lrecs_app, !lrecs_cons; cbn [snd]; rewrite (app_assoc RL RR), Hrec; unfold ins; by rewrite <- !app_assoc. }
  set (A' := if side then A ++ [(fst n, RL)] else A); set (B' := if side then B else (rid, RR) :: B).
  assert (A ++ (fst n, RL) :: (rid, RR) :: B = A' ++ (if side then rid else fst n, R1 ++ r :: R2) :: B') as El'
    by (unfold A', B'; destruct side; rewrite <- ?app_assoc; cbn; by rewrite Hsp).
  assert (lrecs A' ++ R1 = lrecs A ++ take (Z.to_nat (pos + 1)) (snd n)
          /\ R2 ++ lrecs B' = drop (Z.to_nat (pos + 1)) (snd n) ++ lrecs B) as [EX EY].
  { apply (sorted_unique _ _ _ _ r Vr); rewrite <- app_assoc in Enew |- *; cbn [app].
    - rewrite El', lrecs_app, lrecs_cons in Enew; cbn [snd] in Enew; rewrite <- app_assoc in Enew; cbn [app] in Enew.
      rewrite Enew, app_assoc; exact Hsrt.
    - rewrite El', lrecs_app, lrecs_cons in Enew; cbn [snd] in Enew; rewrite <- app_assoc in Enew; cbn [app] in Enew.
      by rewrite Enew, app_assoc. }
  exists A', B'; split; [|done]; split; auto.
  - rewrite EX, EY; apply split_mid.
  - rewrite EX; apply front_some.
  - rewrite Enew; exact Hsrt.
  - unfold A', B'; destruct side; [by rewrite last_id_snoc|done].
Qed.

(** The node is full when the record and its table entry do not fit. *)
Lemma node_full : read_node (fst n) (fun b => is_node_full b (u16 L)) t = Ok (node_size_bytes bt - 40 <? weight (snd n) + L + 4, t).
Proof using All.
  pose proof (lo_linked _ _ _ Hlv) as Hl; pose proof (proj2 (proj1 (linked_app _ _ _ _ _ _) Hl)) as [Hn _]; pose proof (paged_ok bt Hpg) as Hbt.
  destruct Hn as [_ (m & S & F & Hm & Hly & HS & _) _ _]; pose proof (ko_len _ _ Hk) as HL; unfold VDFS4_MAX_BTREE_REC_LEN, bt_ok in *.
  pose proof (ly_len _ _ _ _ Hly) as Hlen; eapply read_ok; [exact Hm|exact held_node|]; unfold is_node_full; cbn [data].
  rewrite rd16_ok by (unfold FREE_SPACE; lia); cbn [mbind run_bind]; rewrite (ly_free _ _ _ _ Hly), cell_eq, (u16_small L) by lia.
  destruct (layout_weight bt m S F Hly) as [-> _]; rewrite HS; unfold weight; rewrite <- HS, lenZ_recs.
   destruct (Z.ltb_spec (node_size_bytes bt - 8 - 4 * lenZ S - (32 + bytes (map snd S))) (L + 4)),
    (Z.ltb_spec (node_size_bytes bt - 40) (bytes (map snd S) + 4 * lenZ S + L + 4)); done || lia.
Qed.

(** The stack item above the level, and none above the top. *)
Lemma next_item (t' : tree) : btree_height t' = btree_height t ->
  (if si_level item =? btree_height t' then mret [] else match up with [] => lift Fault | _ => mret up end) t' = Ok (up, t').
Proof using All.
  intros ->; destruct (Z.eqb_spec (si_level item) (btree_height t)) as [E|N]; [by apply Hup in E as ->|].
  destruct up; [by destruct N; apply Hup|done].
Qed.

(** The node that does not hold the record is released. *)
Lemma put_other (t3 : tree) (rid : Z) (side : bool) :
  ~ used t rid -> cached t3 = hold (hold c (fst n) true) rid true ->
  vdfs4_put_bnode (if side then fst n else rid) t3
  = Ok (tt, set_cached (hold c (if side then rid else fst n) true) t3).
Proof using All.
  intros Hn E; destruct (new_none rid Hn) as (Hcr & Hne & _); destruct side.
  - apply (put_ok t3 (hold c rid true) (fst n) true); [by rewrite E, hold_comm by done|].
    apply loose_hold_ne; [done|]; apply loose_free, Hun, elem_mid.
  - apply (put_ok t3 (hold c (fst n) true) rid true); [done|]; apply loose_hold_ne; [done|]; by apply loose_free.
Qed.

Lemma place_full (todo : list todo_item) :
  comp_fn r0 key < 0 -> node_size_bytes bt - 40 < weight (snd n) + L + 4 ->
  place_result todo
    ((ret ← vdfs4_check_bnode_reserve bt fresh;
      if negb (ret =? 0) then mret (Err ret, fst n, todo)
      else
        right_bnode ← vdfs4_alloc_new_bnode bt fresh;
        match right_bnode with
        | Err e => mret (Err e, fst n, todo)
        | Val right_id =>
            '(ret, info) ← split_node bt fresh (fst n) right_id key L (pos + 1);
            mark_dirty (fst n);; mark_dirty right_id;;
            if negb (ret =? 0) then vdfs4_destroy_bnode right_id;; mret (Err ret, fst n, todo)
            else
              h ← state btree_height;
              td ← (if si_level item =? h then mret [] else match up with [] => lift Fault | _ => mret up end);
              root ← state root_bnode_id;
              todo ← put_add_index_work todo td right_id root;
              match info with
              | None => lift Fault
              | Some (false, ri) => vdfs4_put_bnode right_id;; mret (Val (fst n, ri), fst n, todo)
              | Some (true, ri) => vdfs4_put_bnode (fst n);; mret (Val (right_id, ri), right_id, todo)
              end
        end) t).
Proof using All.
  intros Hlt Hw; destruct (check_reserve_ok bt Hpg fresh Hfresh t Hs) as (t1 & E1 & Rv & Hav); act_step E1; cbn [Z.eqb negb].
  pose proof (bo_free _ (so_bitmap _ _ Hs)) as Hf; pose proof (bo_num _ (so_bitmap _ _ Hs)) as Hn.
  pose proof (count_range (bit (bits (bitmap t))) 0 (bits_num (bitmap t)) ltac:(lia)) as Hcr.
  destruct (Z.eq_dec (free_num (bitmap t)) 0) as [E0|N0].
  { right; left; split; [done|]; split; [done|]; exists t1; split; [|done].
    assert (vdfs4_alloc_new_bnode bt fresh t1 = Ok (Err (- ENOSPC), t1)) as Ea by (apply alloc_full; by rewrite (rv_bitmap _ _ _ Rv)).
    act_step Ea; done. }
  pose proof (bo_free _ (so_bitmap _ _ (rv_store _ _ _ Rv))) as Hf1; pose proof (first_le_count _ (so_bitmap _ _ (rv_store _ _ _ Rv))) as Hff1.
  pose proof (so_height _ _ (rv_store _ _ _ Rv)) as Hh1.
  destruct (alloc_ok bt Hpg fresh Hfresh t1 (rv_store _ _ _ Rv)) as (t2 & E2 & Al); [rewrite (rv_bitmap _ _ _ Rv); lia|lia|].
  set (rid := first_free_id (bitmap t1)) in *; pose proof (ready_ok t1 t2 rid Rv Al) as Hrd; act_step E2.
  destruct (place_split t2 rid todo Hrd Hlt Hw) as (t3 & side & ri & r & RL & RR & R1 & R2 & E3 & Hwr & Hk3 & Hl3 & Hrec & Hsp & Har).
  pose proof (split_grown t2 t3 rid r RL RR _ Hrd Hwr Hk3 Hl3 Hrec) as Hg.
  destruct (split_placed t3 rid side ri r RL RR R1 R2 Hlt Hl3 Hrec Hsp Har) as (A' & B' & Hpl & Hfront).
  pose proof Hrd as [K2 S2 C2 N2 U2 P2 Rt2 H2 F2]; destruct (new_none rid N2) as (Hcn & Hne & Hri).
  assert (cached t3 = hold (hold c (fst n) true) rid true) as C3 by (rewrite (wo_cached _ _ _ _ Hwr); done).
  assert (exists m3, pages t3 !! fst n = Some m3) as (m3 & Hm3)
    by (apply linked_app in Hl3 as [_ [[_ (m3 & ? & ? & Hm3 & _) _ _] _]]; eauto).
  assert (exists m4, pages t3 !! rid = Some m4) as (m4 & Hm4)
    by (apply linked_app in Hl3 as [_ [_ [[_ (m4 & ? & ? & Hm4 & _) _ _] _]]]; eauto).
  assert (cached t3 !! fst n = Some (true, 1)) as Hc3.
  { rewrite C3, hold_comm by done; unfold hold at 1; rewrite hold_lookup_ne by done; rewrite (Hun n (elem_mid _ _ _)); by rewrite lookup_insert_eq. }
  assert (cached t3 !! rid = Some (true, 1)) as Hc4 by (rewrite C3; unfold hold at 1; rewrite hold_lookup_ne, Hcn by done; by rewrite lookup_insert_eq).
  set (t4 := add_dirty rid (add_dirty (fst n) t3)); assert (wrote bt ∅ t3 t4) as W4
    by (unfold t4; replace ∅ with (∅ ∪ ∅ : gset Z) by set_solver; eapply wrote_trans; apply wrote_dirty).
  set (t5 := set_cached (hold c (if side then rid else fst n) true) t4).
  assert (keeps ∅ t3 t5) as K5 by (eapply keeps_mono; [eapply keeps_trans; [apply (wrote_keeps _ _ _ _ W4)|apply (keeps_cached ∅)]|set_solver]).
  right; right; split; [done|].
  exists t5, (A ++ (fst n, RL) :: (rid, RR) :: B), (if side then rid else fst n), ri, A', R1, r, R2, B', (TodoItem up rid (root_bnode_id t) :: todo).
  split; [|split; [by eapply placed_keeps|split; [by eapply grown_cached, grown_later|split; [|split; done]]]].
  - act_step E3; act_step (mark_dirty_ok t3 (fst n) m3 1 Hm3 Hc3); act_step (mark_dirty_ok (add_dirty (fst n) t3) rid m4 1 Hm4 Hc4); fold t4.
    cbn [Z.eqb negb]; act_step (state_ok btree_height t4); rewrite (act_bind_ok _ _ _ _ _ (next_item t4 (eq_trans (wo_height _ _ _ _ Hwr) H2))); cbn beta.
    act_step (state_ok root_bnode_id t4); unfold put_add_index_work; rewrite act_assoc.
    assert (env t4 = []) as He4 by (pose proof (wo_env _ _ _ _ Hwr) as E; change (env t4) with (env t3); rewrite E; apply (so_env _ _ S2)).
    act_step (env_ok t4 He4); rewrite ret_bind; cbn [Z.eqb].
    change (root_bnode_id t4) with (root_bnode_id t3); rewrite (wo_root _ _ _ _ Hwr), Rt2.
    pose proof (put_other t4 rid side N2 C3) as Ep; destruct side; act_step Ep; done.
  - right; exists (rid, RR); cbn [fst]; split; [set_solver|]; split; [done|]; split; [done|]; split; [rewrite !length_app; cbn; lia|].
    split; [|split].
    2: { intros q Hq; assert (q ∈ ins (pos + 1) r (snd n)) as Hin by (rewrite <- Hrec; set_solver); rewrite ins_perm in Hin.
         apply elem_of_cons in Hin as [->|Hin]; [right|by left]; apply (stored_krec key r L Hk), (ar_stored _ _ _ _ _ _ _ _ _ _ _ Har). }
    2: { change (bitmap t5) with (bitmap t3); change (available t5) with (available t3); rewrite (wo_bitmap _ _ _ _ Hwr), (wo_available _ _ _ _ Hwr); split; [done|].
         pose proof (first_le_count _ (so_bitmap _ _ S2)); pose proof (bo_free _ (so_bitmap _ _ S2)); pose proof (al_free _ _ _ _ Al) as Haf.
         pose proof (kp_bits_num _ _ _ (al_keeps _ _ _ _ Al)); rewrite (al_available _ _ _ _ Al); lia. }
    intros x [Hx|[->|[->|Hx]%elem_of_cons]%elem_of_cons]%elem_of_app; [right; apply idset_elem; set_solver| |by left|right; apply idset_elem; set_solver].
    right; apply (idset_elem l n), elem_mid.
Qed.

Lemma place_key_spec (todo : list todo_item) :
  place_result todo (place_key_in_bnode bt comp_fn fresh (item :: up) (fst n) pos key L todo t).
Proof using All.
  pose proof (lo_linked _ _ _ Hlv) as Hl; pose proof (proj2 (proj1 (linked_app _ _ _ _ _ _) Hl)) as [Hn _]; pose proof (paged_ok bt Hpg) as Hbt.
  unfold place_key_in_bnode; act_step (env_ok t (so_env _ _ Hs)); cbn [Z.eqb negb].
  destruct (record_read bt Hbt t _ _ n true 1 pos r0 Hn held_node Hr0) as (m & S & F & o & x & _ & _ & _ & _ & _ & Erec & _).
  assert (valid r0) as Vr0 by (destruct Hn as [_ _ Hkr _]; apply krec_valid in Hkr; rewrite Forall_forall in Hkr; apply Hkr; by eapply getZ_elem).
  act_step Erec; rewrite key_local by done; pose proof Hfd as [(r1 & Hr1 & Hle) _ _]; rewrite Hr0 in Hr1; injection Hr1 as <-.
  destruct (Z.eqb_spec (comp_fn r0 key) 0) as [E0|N0]; [by left|].
  act_step node_full; destruct (Z.ltb_spec (node_size_bytes bt - 40) (weight (snd n) + L + 4)) as [Hw|Hw].
  - apply place_full; lia.
  - right; right; split; [lia|]; destruct (place_same todo ltac:(lia) Hw) as (t' & ri & R1 & r & R2 & E & Hpl & Hg & Hsp & Hc' & ER).
    exists t', (A ++ (fst n, R1 ++ r :: R2) :: B), (fst n), ri, A, R1, r, R2, B, todo; split; [exact E|]; by rewrite ER in *.
Qed.

End Place.
