(* ===== verification/BtreeGrow.v ===== *)
(** The tree around a changed level: the value of the new record is stored, the
    levels above and below still fit, and a new root can be added. *)

From Stdlib Require Import ZArith Lia Bool List.
From stdpp Require Import base list gmap sets.
From S2P Require Import Prelude Bytes Bitmap Count FindBit Buffer TreeKeys Bnode BnodeRep BnodeSearch BnodeSplit NodeStore StoreRep Btree BtreeRep BtreeLevel BtreeFind BtreePlace.

Open Scope Z_scope.

Section Grow.
Context (bt : btree) (Hpg : paged bt) {comp_fn : list Z -> list Z -> Z} {valid : list Z -> Prop} `{Hcmp : KeyCmp comp_fn valid}.

#[local] Abbreviation linked := (linked bt (comp_fn := comp_fn) (valid := valid)).
#[local] Abbreviation krec := (krec (comp_fn := comp_fn) (valid := valid)).
#[local] Abbreviation level_ok := (level_ok bt (comp_fn := comp_fn) (valid := valid)).
#[local] Abbreviation index_ok := (index_ok (comp_fn := comp_fn) (valid := valid)).
#[local] Abbreviation wf := (wf bt (comp_fn := comp_fn) (valid := valid)).
#[local] Abbreviation placed := (placed bt (comp_fn := comp_fn) (valid := valid)).
#[local] Abbreviation grown := (grown bt (comp_fn := comp_fn) (valid := valid)).
#[local] Abbreviation key_ok := (key_ok (comp_fn := comp_fn) (valid := valid)).

Lemma level_keeps (X : gset Z) (t t' : tree) (l : list node) :
  keeps X t t' -> (forall n, n ∈ l -> fst n ∉ X) -> level_ok t l -> level_ok t' l.
Proof using Hpg Hcmp. intros Hk Hx [L1 L2 L3 L4]; split; auto; by eapply linked_keeps. Qed.

Lemma wf_used (t : tree) (ls : list (list node)) (i : nat) (l : list node) (n : node) :
  wf t ls -> ls !! i = Some l -> n ∈ l -> used t (fst n).
Proof using Hpg Hcmp.
  intros Hw Hl Hn; by destruct (linked_elem _ _ _ _ _ _ (lo_linked _ _ _ (wf_level _ _ _ Hw _ _ Hl)) Hn) as (? & ? & [? _ _ _]).
Qed.

(** Nothing that a node in use shows has changed. *)
Lemma wf_keeps (t t' : tree) (ls : list (list node)) :
  wf t ls -> keeps ∅ t t' -> store_ok bt t' -> root_bnode_id t' = root_bnode_id t -> btree_height t' = btree_height t -> wf t' ls.
Proof using Hpg Hcmp.
  intros [W1 W2 W3 W4 W5 W6] Hk Hs Hr Hh; split; auto; [by rewrite Hh| |by rewrite Hr].
  intros i l Hl; eapply level_keeps; [exact Hk|intros; apply not_elem_of_empty|eauto].
Qed.

Lemma wf_cached (t : tree) (c : gmap Z (bool * Z)) (ls : list (list node)) : wf t ls -> wf (set_cached c t) ls.
Proof using Hpg Hcmp. intros Hw; eapply wf_keeps; [exact Hw|apply keeps_cached|apply store_cached, (wf_store _ _ _ Hw)|done|done]. Qed.

Lemma index_below (lo lo' up : list node) (t t' : tree) : grown t t' lo lo' -> index_ok lo up -> index_ok lo' up.
Proof using Hpg Hcmp.
  intros Hg [I1 I2 I3]; split; auto.
  - intros u Hu; destruct (I2 u Hu) as (n & f & Hn & E & Hf & Hv); destruct (gr_first _ _ _ _ _ Hg n f Hn Hf) as (n' & f' & Hn' & E' & Hf' & Hv').
    exists n', f'; repeat split; auto; congruence.
  - by rewrite (gr_hd _ _ _ _ _ Hg).
Qed.

(** One level of a tree replaced by a changed one. *)
Lemma wf_grow (t t' : tree) (ls : list (list node)) (i : nat) (l l' : list node) :
  wf t ls -> ls !! i = Some l -> level_ok t' l' -> grown t t' l l' ->
  (forall j lo, i = S j -> ls !! j = Some lo -> index_ok lo l') -> wf t' (<[i := l']> ls).
Proof using Hpg Hcmp.
  intros Hw Hl Hlv Hg Hix; pose proof (lookup_lt_Some _ _ _ Hl) as Hi; pose proof Hw as [W1 W2 W3 W4 W5 W6].
  assert (forall j x n, j <> i -> ls !! j = Some x -> n ∈ x -> fst n ∉ idset l) as Hother.
  { intros j x n Hj Hx Hn (n0 & Hn0 & E)%elem_of_idset; apply Hj; by eapply W6. }
  split.
  - apply (gr_store _ _ _ _ _ Hg).
  - rewrite (gr_height _ _ _ _ _ Hg), W2; unfold lenZ; by rewrite length_insert.
  - intros j x Hx; destruct (decide (j = i)) as [->|Hj]; [rewrite list_lookup_insert_eq in Hx by done; by injection Hx as <-|].
    rewrite list_lookup_insert_ne in Hx by done; eapply level_keeps; [apply (gr_keeps _ _ _ _ _ Hg)| |eauto]; eauto.
  - intros j lo up Hlo Hup; destruct (decide (j = i)) as [->|Hj].
    + rewrite list_lookup_insert_eq in Hlo by done; injection Hlo as <-; rewrite list_lookup_insert_ne in Hup by lia.
      eapply index_below; eauto.
    + rewrite list_lookup_insert_ne in Hlo by done; destruct (decide (S j = i)) as [<-|Hsj].
      * rewrite list_lookup_insert_eq in Hup by done; injection Hup as <-; eauto.
      * rewrite list_lookup_insert_ne in Hup by done; eauto.
  - destruct W5 as (top & Htop & Hroot); rewrite last_lookup in Htop |- *; rewrite length_insert; rewrite (gr_root _ _ _ _ _ Hg), <- Hroot.
    destruct (decide (pred (length ls) = i)) as [<-|Hne].
    + rewrite list_lookup_insert_eq by done; rewrite Hl in Htop; injection Htop as <-; exists l'; split; [done|].
      apply (gr_hd _ _ _ _ _ Hg).
    + rewrite list_lookup_insert_ne by done; eauto.
  - assert (forall j x n n', j <> i -> ls !! j = Some x -> n ∈ x -> n' ∈ l' -> fst n <> fst n') as Hsep.
    { intros j x n n' Hj Hx Hn Hn' E; destruct (gr_ids _ _ _ _ _ Hg n' Hn') as [Hin|Hnu].
      - apply (Hother j x n Hj Hx Hn); by rewrite E.
      - apply Hnu; rewrite <- E; by eapply wf_used. }
    intros j k x y n n' Hx Hy Hn Hn' E; destruct (decide (j = i)) as [->|Hj], (decide (k = i)) as [->|Hk]; auto.
    + rewrite list_lookup_insert_eq in Hx by done; rewrite list_lookup_insert_ne in Hy by done; injection Hx as <-.
      by destruct (Hsep k y n' n Hk Hy Hn' Hn).
    + rewrite list_lookup_insert_eq in Hy by done; rewrite list_lookup_insert_ne in Hx by done; injection Hy as <-.
      by destruct (Hsep j x n n' Hj Hx Hn Hn').
    + rewrite list_lookup_insert_ne in Hx, Hy by done; by eapply W6.
Qed.

(** ** The value of the new record *)

Lemma sorted_view (X Y : list (list Z)) (r r' : list Z) :
  Forall valid (X ++ r :: Y) -> valid r' -> key_view r' = key_view r -> sorted comp_fn (X ++ r :: Y) -> sorted comp_fn (X ++ r' :: Y).
Proof using Hpg Hcmp.
  intros HV V' Ev Hs; rewrite Forall_app, Forall_cons, !Forall_forall in HV; destruct HV as (VX & Vr & VY).
  change (r :: Y) with ([r] ++ Y) in Hs; change (r' :: Y) with ([r'] ++ Y); rewrite !sorted_app in Hs |- *.
  destruct Hs as (HX & (_ & HY & HrY) & HXr); split; [done|]; split; [split; [apply sorted_one|]; split; [done|]|].
  - intros a b ->%list_elem_of_singleton Hb; apply cmp_lt; auto; rewrite Ev; apply cmp_lt; auto; apply HrY; set_solver.
  - intros a b Ha [->%list_elem_of_singleton|Hb]%elem_of_app; [|apply HXr; set_solver].
    apply cmp_lt; auto; rewrite Ev; apply cmp_lt; auto; apply HXr; set_solver.
Qed.

Lemma placed_lrecs (t : tree) (l l' : list node) (key : list Z) (L rid : Z) (ri : rec_info) (A : list node) (R1 R2 : list (list Z)) (r : list Z) (B : list node) :
  placed t l l' key L rid ri A R1 r R2 B -> lrecs l' = (lrecs A ++ R1) ++ r :: R2 ++ lrecs B.
Proof using Hpg Hcmp. intros [-> _ _ _ _ _]; rewrite lrecs_app, lrecs_cons; cbn [snd]; by rewrite <- !app_assoc. Qed.

(** Storing the value of the new record. *)
Lemma level_write (t0 t : tree) (l lg l' : list node) (key v : list Z) (L rid k : Z) (ri : rec_info) (A : list node) (R1 R2 : list (list Z)) (r : list Z) (B : list node) :
  placed t l l' key L rid ri A R1 r R2 B -> grown t0 t lg l' -> key_ok key L -> cached t !! rid = Some (true, k) ->
  get16 key KEY_LEN + lenZ v <= L -> Forall is_byte v ->
  exists t', let r' := upd_at r (get16 key KEY_LEN) v in let l'' := A ++ (rid, R1 ++ r' :: R2) :: B in
    write_value rid (ri_val ri) v t = Ok (tt, t') /\ wrote bt {[rid]} t t' /\ level_ok t' l'' /\ grown t0 t' lg l''
    /\ krec r' /\ key_view r' = key_view key /\ get16 r' KEY_LEN = get16 key KEY_LEN /\ is_Some (pages t' !! rid).
Proof using Hpg Hcmp.
  intros Hp Hg Hk Hc Hv Bv; pose proof Hp as [El Eold Hsome Hl Hs [Hat Hst Hval]].
  destruct (stored_krec key r L Hk Hst) as (Kr & Ev & Ek); pose proof Hst as (_ & Hlen & _).
  destruct (write_value_ok bt Hpg t _ _ rid (ri_key ri) (get16 key KEY_LEN) k R1 R2 r v (gr_store _ _ _ _ _ Hg) Hat Hc) as (t' & E & Hwr & Hat' & Ev' & Ek');
    [lia|lia|done|]; pose proof (wrote_keeps _ _ _ _ Hwr) as Hkp.
  set (r' := upd_at r (get16 key KEY_LEN) v) in *; set (l'' := A ++ (rid, R1 ++ r' :: R2) :: B).
  assert (map fst l'' = map fst l') as Eids by (rewrite El; unfold l''; by rewrite !map_app).
  assert (krec r') as Kr' by (destruct Hat' as (_ & Hkr & _); rewrite Forall_app, Forall_cons in Hkr; apply Hkr).
  pose proof (gr_nodup _ _ _ _ _ Hg) as Hnd; pose proof Hnd as Hnd'; rewrite El in Hnd'; apply nodup_mid in Hnd' as (HA & HB & _).
  exists t'; cbn zeta; fold r'; fold l''; split; [by rewrite Hval|]; split; [done|]; split; [|split; [|split; [done|split; [congruence|split; [congruence|]]]]].
  - split; [| |by rewrite Eids|by destruct A].
    + rewrite El in Hl; eapply relevel; [exact Hl|exact Hkp|intros a Ha; specialize (HA a Ha); set_solver|done|].
      apply linked_app in Hl as [_ [_ HlB]]; cbn [linked hd_id fst]; split; [by eapply node_at_node|].
      eapply linked_keeps; [exact Hkp| |exact HlB]; intros b Hb; specialize (HB b Hb); set_solver.
    + pose proof (linked_krec _ _ _ _ _ Hl) as HV; apply krec_valid in HV; rewrite (placed_lrecs _ _ _ _ _ _ _ _ _ _ _ _ Hp) in Hs, HV.
      unfold l''; rewrite lrecs_app, lrecs_cons; cbn [snd]; rewrite <- app_assoc, app_assoc, <- app_comm_cons.
      eapply sorted_view; [exact HV|apply Kr'|done|done].
  - destruct Hg as [G1 G2 G3 G4 G5 G6 G7 G8]; split; auto.
    + intros n' Hn'; assert (fst n' ∈ map fst l') as Hin by (rewrite <- Eids; by apply (list_elem_of_fmap_2 fst)).
      apply list_elem_of_fmap in Hin as (n2 & -> & Hn2); auto.
    + intros n f Hn Hf; destruct (G2 n f Hn Hf) as (n' & f' & Hn' & E' & Hf' & Hvf); rewrite El in Hn'.
      apply elem_of_app in Hn' as [Hn'|[->|Hn']%elem_of_cons]; [exists n', f'; set_solver| |exists n', f'; set_solver].
      exists (rid, R1 ++ r' :: R2); cbn [snd] in *; destruct R1 as [|q R1]; unfold getZ in Hf' |- *; cbn in Hf' |- *; injection Hf' as ->.
      * exists r'; split; [set_solver|]; split; [done|]; split; [done|]; congruence.
      * exists f'; split; [set_solver|]; done.
    + rewrite <- G3, El; by destruct A.
    + by rewrite Eids.
    + destruct Hkp as [K1 K2 K3 K4], G5 as [K5 K6 K7 K8]; split; [congruence|congruence|auto|]; intros id Hu Hx; rewrite K4, K8; auto.
      destruct (G1 (rid, R1 ++ r :: R2)) as [Hin|Hnu]; [rewrite El; apply elem_mid| |]; intros ->%elem_of_singleton; done.
    + by eapply wrote_store.
    + by rewrite (wo_root _ _ _ _ Hwr).
    + by rewrite (wo_height _ _ _ _ Hwr).
  - destruct Hat' as (_ & _ & m & ? & ? & ? & Hm & _); eauto.
Qed.

End Grow.
