(* ===== verification/BtreeRoot.v ===== *)
(** A new root: [build_new_root] puts one index record for each node of the old top
    level into a new node. *)

From Stdlib Require Import ZArith Lia Bool List.
From stdpp Require Import base list gmap sets.
From S2P Require Import Prelude Bytes Bitmap Count FindBit Buffer TreeKeys Bnode BnodeRep BnodeSearch BnodeSplit NodeStore StoreRep Btree BtreeRep BtreeLevel BtreeFind BtreePlace BtreeGrow.

Open Scope Z_scope.

Section Root.
Context {find : FindBit} {Hfind : FindBitLaws} (bt : btree) (Hpg : paged bt) (fresh : Z -> list Z) (Hfresh : forall id, page_ok bt (fresh id)).
Context {comp_fn : list Z -> list Z -> Z} {valid : list Z -> Prop} `{Hcmp : KeyCmp comp_fn valid}.

#[local] Abbreviation krec := (krec (comp_fn := comp_fn) (valid := valid)).
#[local] Abbreviation irec := (irec (comp_fn := comp_fn) (valid := valid)).
#[local] Abbreviation node_ok := (node_ok bt (comp_fn := comp_fn) (valid := valid)).
#[local] Abbreviation level_ok := (level_ok bt (comp_fn := comp_fn) (valid := valid)).
#[local] Abbreviation wf := (wf bt (comp_fn := comp_fn) (valid := valid)).
#[local] Abbreviation key_ok := (key_ok (comp_fn := comp_fn) (valid := valid)).

(** A record of a node as the key of an index record. *)
Lemma record_key (r x : list Z) :
  krec r -> Forall is_byte x ->
  key_ok (r ++ x) (get16 r KEY_LEN + 4) /\ get16 (r ++ x) KEY_LEN = get16 r KEY_LEN
  /\ get16 (r ++ x) RECORD_LEN = lenZ r /\ key_view (r ++ x) = key_view r /\ valid (r ++ x).
Proof using Hcmp.
  intros ((HL & Hrl & Br) & Vr & Hks & Hkm) Bx; pose proof (key_size_valid r Vr) as Hsv.
  assert (forall i, 0 <= i < lenZ r -> getZ (r ++ x) i = getZ r i) as Hg.
  { intros i Hi; unfold getZ; destruct (i <? 0); [done|]; apply lookup_app_l; unfold lenZ in Hi; lia. }
  assert (Forall is_byte (r ++ x)) as B by (by apply Forall_app); assert (lenZ r <= lenZ (r ++ x)) as Hle by (rewrite lenZ_app; pose proof (lenZ_nonneg x); lia).
  destruct (key_agree r (r ++ x) Vr B) as (V & Ev & Es); [lia|intros i Hi; apply Hg; lia|].
  assert (forall i, 0 <= i -> i + 2 <= lenZ r -> get16 (r ++ x) i = get16 r i) as H16
    by (intros i Hi Hi2; unfold get16; rewrite sub_app_l by lia; done).
  unfold KEY_LEN, RECORD_LEN, VDFS4_MAX_BTREE_KEY_LEN, VDFS4_MAX_BTREE_REC_LEN in *; rewrite !H16 by lia.
  split; [|done]; split; unfold KEY_LEN, RECORD_LEN, VDFS4_MAX_BTREE_KEY_LEN, VDFS4_MAX_BTREE_REC_LEN; auto; rewrite ?H16; lia.
Qed.

(** An index record once the id of its node is stored. *)
Lemma index_value (key r : list Z) (id : Z) :
  key_ok key (get16 key KEY_LEN + 4) -> stored key (get16 key KEY_LEN) (get16 key KEY_LEN + 4) r -> 0 <= id < 2 ^ 32 ->
  let u := upd_at r (get16 key KEY_LEN) (le_bytes 4 id) in
  krec u -> get16 u KEY_LEN = get16 key KEY_LEN -> irec u /\ child u = id.
Proof using Hcmp.
  intros Hk (_ & Hl & _) Hid u Ku Eu; pose proof (key_size_valid key (ko_valid _ _ Hk)) as Hsv; pose proof (ko_size _ _ Hk).
  split; [split; [done|]; rewrite Eu; unfold u; rewrite lenZ_upd_at; rewrite ?lenZ_le_bytes; lia|].
  unfold child; rewrite Eu; unfold u; apply get32_wr; lia.
Qed.

(** The new root with the records [R]. *)
Definition root_part (t : tree) (rid : Z) (R : list (list Z)) : Prop :=
  used t rid /\ exists m S F, pages t !! rid = Some m /\ layout bt m S F /\ map snd S = R
  /\ get32 m NODE_ID = rid /\ get32 m PREV_NODE_ID = 0 /\ get32 m NEXT_NODE_ID = 0.

Lemma root_keeps (X : gset Z) (t t' : tree) (rid : Z) (R : list (list Z)) :
  keeps X t t' -> rid ∉ X -> root_part t rid R -> root_part t' rid R.
Proof.
  intros Hk Hx (Hu & m & S & F & Hm & Hrest); split; [by apply (kp_used _ _ _ Hk)|]; exists m, S, F; by rewrite (kp_pages _ _ _ Hk).
Qed.

(** One index record more in the new root. *)
Lemma root_insert (t : tree) (rid k : Z) (R : list (list Z)) (key : list Z) (id : Z) :
  store_ok bt t -> root_part t rid R -> Forall krec R -> cached t !! rid = Some (true, k) -> key_ok key (get16 key KEY_LEN + 4) ->
  weight R + 300 <= node_size_bytes bt - 40 -> 0 <= id < 2 ^ 32 ->
  exists t1 ri t' u,
    with_node rid (fun b => '(err, b, info) ← insert_key_into_bnode bt b key (get16 key KEY_LEN + 4) (lenZ R); Ok ((err, info), b)) t
      = Ok ((0, Some ri), t1)
    /\ write_value rid (ri_val ri) (le_bytes 4 id) t1 = Ok (tt, t') /\ wrote bt {[rid]} t t'
    /\ root_part t' rid (R ++ [u]) /\ irec u /\ child u = id /\ key_view u = key_view key /\ weight [u] <= 296.
Proof using Hpg Hcmp.
  intros Hs (Hu & m & S & F & Hm & Hl & <- & I1 & I2 & I3) Hkr Hc Hk Hw Hid; pose proof (paged_ok bt Hpg) as Hbt.
  pose proof Hk as [V B HL Hks Hkl Hkm Hr]; pose proof (key_size_valid key V) as Hsv; unfold VDFS4_MAX_BTREE_KEY_LEN in Hkm.
  destruct (insert_key_spec bt Hbt (Bnode m rid true (readonly t) false) S F (get16 key KEY_LEN + 4) key) as (m1 & r & ri & E & Hl1 & Hst & Hids & Ek & Ep & Ev);
    auto; try lia; specialize (Ev Hkm); cbn [data] in Hids.
  set (t1 := set_pages (<[rid := m1]> (pages t)) t); assert (wrote bt {[rid]} t t1) as W1 by (apply wrote_page; by eapply layout_page).
  destruct (stored_krec key r _ Hk Hst) as (Kr & Evr & Ekr); pose proof Hst as (_ & Hlr & _).
  pose proof (ly_len _ _ _ _ Hl); pose proof (ly_len _ _ _ _ Hl1).
  assert (node_at bt t1 0 0 rid (map snd S) r [] F) as Hat.
  { split; [by apply (kp_used _ _ _ (wrote_keeps _ _ _ _ W1))|]; split; [rewrite Forall_app, Forall_cons; auto|].
    exists m1, S, [], (F + (get16 key KEY_LEN + 4)); cbn; rewrite lookup_insert_eq; do 4 (split; [done|]); unfold NODE_ID, PREV_NODE_ID, NEXT_NODE_ID in *.
    rewrite !(get32_ids bt Hbt m m1) by (done || lia); done. }
  destruct (write_value_ok bt Hpg t1 0 0 rid F (get16 key KEY_LEN) k (map snd S) [] r (le_bytes 4 id)) as (t' & E' & W' & Hat' & Ev' & Ek');
    auto; [by eapply wrote_store|lia|rewrite lenZ_le_bytes; lia|apply le_bytes_byte|].
  set (u := upd_at r (get16 key KEY_LEN) (le_bytes 4 id)) in *.
  assert (krec u) as Ku by (destruct Hat' as (_ & Hx & _); rewrite Forall_app, Forall_cons in Hx; apply Hx).
  destruct (index_value key r id Hk Hst Hid Ku (eq_trans Ek' Ekr)) as [Hi Hch].
  exists t1, ri, t', u; split; [|split; [by rewrite Ev|split; [|split; [|split; [done|split; [done|split; [congruence|]]]]]]].
  - erewrite with_ok; [rewrite put_back_clean; done|done|done|]; rewrite lenZ_recs, E; done.
  - by eapply wrote_again.
  - destruct Hat' as (Hu' & _ & m' & S1 & S2 & F' & Hm' & Hl' & E1 & E2 & Hids'); split; [done|].
    exists m', (S1 ++ [(F, u)]), F'; destruct S2; [|done]; rewrite map_app, E1; done.
  - rewrite weight_cons; change (weight []) with 0; unfold u; rewrite lenZ_upd_at by (rewrite ?lenZ_le_bytes; lia); lia.
Qed.

(** One turn of the loop, up to the fetch of the next node. *)
Lemma root_step (t : tree) (rid k k' p q : Z) (w : bool) (R : list (list Z)) (a : node) (f : list Z) (fuel : nat) :
  store_ok bt t -> root_part t rid R -> Forall krec R -> weight R <= 300 -> cached t !! rid = Some (true, k) ->
  node_ok t p q a -> cached t !! fst a = Some (w, k') -> getZ (snd a) 0 = Some f ->
  exists t' u, new_root_loop bt fresh (S fuel) rid (fst a) (lenZ R) t
    = (b ← read_node (fst a) (fun b => Ok b);
       next_id ← lift (rd32 (data b) NEXT_NODE_ID);
       next ← (if next_id =? VDFS4_INVALID_NODE_ID then mret (Err (- ENOENT)) else vdfs4_get_bnode bt fresh next_id (rw b));
       vdfs4_put_bnode (fst a);;
       match next with
       | Err e => if e =? - ENOENT then mret 0 else mret e
       | Val next => new_root_loop bt fresh fuel rid next (lenZ R + 1)
       end) t'
  /\ wrote bt {[rid]} t t' /\ root_part t' rid (R ++ [u]) /\ irec u /\ child u = fst a /\ key_view u = key_view f /\ weight [u] <= 296.
Proof using Hpg Hcmp.
  intros Hs Hrp HR Hw Hc Ha Hca Hf; pose proof (paged_ok bt Hpg) as Hbt; pose proof Hpg as [Hsz _].
  destruct (record_read bt Hbt t p q a w k' 0 f Ha Hca Hf) as (m & S & F & o & x & _ & _ & _ & _ & Bx & Erec & _).
  assert (krec f) as Kf by (destruct Ha as [_ _ Hkr _]; rewrite Forall_forall in Hkr; apply Hkr; by eapply getZ_elem).
  destruct (record_key f x Kf Bx) as (Hk & Ekl & Erl & Ev & V); pose proof Kf as ((Hlf & _) & _ & Hks & Hkm).
  assert (8 <= lenZ (f ++ x)) as Hlx by (rewrite lenZ_app; pose proof (lenZ_nonneg x); lia).
  assert (0 <= fst a < 2 ^ 32) as Hid by (destruct Ha as [[Hu _] _ _ _]; pose proof (bo_num _ (so_bitmap _ _ Hs)); lia).
  rewrite <- Ekl in Hk; destruct (root_insert t rid k R (f ++ x) (fst a) Hs Hrp HR Hc Hk ltac:(lia) Hid) as (t1 & ri & t' & u & E1 & E2 & Hwr & Hrp' & Hi & Hch & Hv & Hwu).
  unfold VDFS4_MAX_BTREE_REC_LEN in *.
  assert (read_node rid (fun b => is_node_full b (lenZ f)) t = Ok (false, t)) as Efull.
  { destruct Hrp as (_ & mr & S0 & F0 & Hmr & Hl0 & HS0 & _); pose proof (ly_len _ _ _ _ Hl0) as Hl0n; eapply read_ok; [exact Hmr|exact Hc|].
    unfold is_node_full; cbn [data]; rewrite rd16_ok by (unfold FREE_SPACE; lia); cbn [mbind run_bind]; rewrite (ly_free _ _ _ _ Hl0), cell_eq.
    destruct (layout_weight bt _ _ _ Hl0) as [-> _]; rewrite <- HS0 in Hw; unfold weight in Hw; rewrite lenZ_recs in Hw.
    rewrite (proj2 (Z.ltb_ge _ _)) by lia; done. }
  exists t', u; split; [|split; [done|split; [done|split; [done|split; [done|split; [congruence|done]]]]]].
  cbn [new_root_loop]; act_step Erec.
  lift_step (rd16_ok (f ++ x) KEY_LEN ltac:(done) ltac:(unfold KEY_LEN; lia)).
  lift_step (rd16_ok (f ++ x) RECORD_LEN ltac:(done) ltac:(unfold RECORD_LEN; lia)); rewrite Erl.
  act_step Efull; act_step E1; cbn [Z.eqb negb]; act_step E2; done.
Qed.

(** The nodes of the old top level, as the loop sees them. *)
Lemma two_nodes (t : tree) (a b : node) :
  level_ok t [a; b] -> exists fa fb, node_ok t 0 (fst b) a /\ node_ok t (fst a) 0 b /\ getZ (snd a) 0 = Some fa /\ getZ (snd b) 0 = Some fb
  /\ comp_fn fa fb < 0 /\ fst a <> fst b /\ valid fa /\ valid fb.
Proof using Hcmp.
  intros [[Ha [Hb _]] Hs Hn _]; cbn [hd_id] in *; pose proof Ha as [_ _ Ka Na]; pose proof Hb as [_ _ Kb Nb].
  destruct (snd a) as [|fa ra] eqn:Ea, (snd b) as [|fb rb] eqn:Eb; try done; exists fa, fb.
  apply krec_valid in Ka, Kb; rewrite Forall_cons in Ka, Kb.
  do 4 (split; [done|]); split; [|split; [|split; [apply Ka|apply Kb]]].
  - unfold lrecs in Hs; cbn in Hs; rewrite Ea, Eb in Hs; apply (sorted_app (fa :: ra)) in Hs as (_ & _ & Hs); apply Hs; apply elem_of_cons; by left.
  - cbn in Hn; rewrite NoDup_cons in Hn; intros E; apply (proj1 Hn); rewrite E; apply elem_of_cons; by left.
Qed.

Lemma root_loop (t : tree) (c : gmap Z (bool * Z)) (rid : Z) (a b : node) (fuel : nat) :
  store_ok bt t -> level_ok t [a; b] -> root_part t rid [] -> cached t = hold (hold c rid true) (fst a) false ->
  c !! rid = None -> (forall id w, loose c id w) -> fst a <> rid -> fst b <> rid ->
  exists t' ua ub, new_root_loop bt fresh (S (S fuel)) rid (fst a) 0 t = Ok (0, t')
  /\ wrote bt {[rid]} (set_cached (hold c rid true) t) t' /\ root_part t' rid [ua; ub] /\ Forall irec [ua; ub] /\ child ua = fst a /\ child ub = fst b
  /\ (forall fa fb, getZ (snd a) 0 = Some fa -> getZ (snd b) 0 = Some fb -> key_view ua = key_view fa /\ key_view ub = key_view fb).
Proof using All.
  intros Hs Hlv Hrp Hc Hcr Hlo Har Hbr; pose proof (paged_ok bt Hpg) as Hbt.
  destruct (two_nodes t a b Hlv) as (fa & fb & Ha & Hb & Hfa & Hfb & _ & Hab & _).
  assert (forall id m, id <> rid -> hold (hold c rid true) id m !! rid = Some (true, 1)) as Hcrid.
  { intros id m Hid; rewrite hold_lookup_ne by congruence; unfold hold; rewrite Hcr; by rewrite lookup_insert_eq. }
  destruct (hold_lookup (hold c rid true) (fst a) false) as (ka & Eka); rewrite <- Hc in Eka; set (mode := false || _) in Eka.
  destruct (root_step t rid 1 ka 0 (fst b) mode [] a fa (S fuel)) as (t1 & ua & E1 & W1 & Hrp1 & Hia & Hcha & Hva & Hwa); auto.
  { change (weight []) with 0; lia. }
  { rewrite Hc; auto. }
  change (lenZ []) with 0 in E1; rewrite E1; clear E1; pose proof (wrote_keeps _ _ _ _ W1) as K1.
  assert (node_ok t1 0 (fst b) a) as Ha1 by (eapply node_keeps; [exact K1|set_solver|exact Ha]).
  pose proof Eka as Eka1; rewrite <- (wo_cached _ _ _ _ W1) in Eka1.
  destruct (read_links bt Hbt t1 _ _ a _ ka Ha1 Eka1) as (ma & _ & Er1 & _ & En1); act_step Er1; lift_step En1.
  assert (used t1 (fst b)) as Hub by (apply (kp_used _ _ _ K1); by destruct Hb).
  unfold VDFS4_INVALID_NODE_ID; rewrite (proj2 (Z.eqb_neq (fst b) 0)) by (destruct Hub; lia).
  assert (env t1 = []) as He1 by (rewrite (wo_env _ _ _ _ W1); apply (so_env _ _ Hs)).
  act_step (get_ok bt fresh t1 (fst b) mode He1 Hub); rewrite (wo_cached _ _ _ _ W1), Hc.
  set (t2 := set_cached (hold (hold c rid true) (fst b) mode) t1).
  assert (vdfs4_put_bnode (fst a) (set_cached (hold (hold (hold c rid true) (fst a) false) (fst b) mode) t1) = Ok (tt, t2)) as Ep1.
  { erewrite (put_ok _ (hold (hold c rid true) (fst b) mode) (fst a) false); [done|cbn; by rewrite hold_comm|].
    apply loose_hold_ne; [done|]; apply loose_hold_ne; auto. }
  act_step Ep1; assert (wrote bt {[rid]} (set_cached (hold (hold c rid true) (fst b) mode) t) t2) as W2 by (destruct W1; by split).
  pose proof (wrote_keeps _ _ _ _ W2) as K2.
  assert (node_ok t2 (fst a) 0 b) as Hb2.
  { eapply node_keeps; [exact K2|set_solver|]; eapply node_keeps; [apply (keeps_cached ∅)|set_solver|exact Hb]. }
  destruct (hold_lookup (hold c rid true) (fst b) mode) as (kb & Ekb); set (mode2 := mode || _) in Ekb.
  destruct (root_step t2 rid 1 kb (fst a) 0 mode2 [ua] b fb fuel) as (t3 & ub & E2 & W3 & Hrp3 & Hib & Hchb & Hvb & Hwb); auto.
  { eapply wrote_store; [exact W2|by apply store_cached]. }
  { constructor; [apply Hia|done]. }
  { lia. }
  { by apply Hcrid. }
  change (lenZ [ua]) with (0 + 1) in E2; rewrite E2; clear E2; pose proof (wrote_keeps _ _ _ _ W3) as K3.
  assert (node_ok t3 (fst a) 0 b) as Hb3 by (eapply node_keeps; [exact K3|set_solver|exact Hb2]).
  assert (cached t3 = hold (hold c rid true) (fst b) mode) as Ec3 by (by rewrite (wo_cached _ _ _ _ W3)).
  rewrite <- Ec3 in Ekb; destruct (read_links bt Hbt t3 _ _ b _ kb Hb3 Ekb) as (mb & _ & Er3 & _ & En3); act_step Er3; lift_step En3.
  unfold VDFS4_INVALID_NODE_ID; cbn [Z.eqb]; rewrite ret_bind.
  assert (vdfs4_put_bnode (fst b) t3 = Ok (tt, set_cached (hold c rid true) t3)) as Ep3.
  { apply (put_ok t3 (hold c rid true) (fst b) mode Ec3); apply loose_hold_ne; auto. }
  act_step Ep3; exists (set_cached (hold c rid true) t3), ua, ub; split; [done|].
  split; [|split; [|split; [auto|split; [done|split; [done|]]]]].
  - pose proof (wrote_again _ _ _ _ _ W2 W3) as [C R H B O A0 E P K]; split; cbn in *; auto.
  - eapply root_keeps; [apply (keeps_cached ∅)|set_solver|exact Hrp3].
  - intros fa' fb' Hfa' Hfb'; by simplify_eq.
Qed.

(** The tree with a new top level of one node. *)
Lemma wf_top (t t' : tree) (ls : list (list node)) (i : nat) (a b n : node) (ua ub : list Z) :
  wf t ls -> ls !! i = Some [a; b] -> S i = length ls -> keeps ∅ t t' -> store_ok bt t' ->
  root_bnode_id t' = fst n -> btree_height t' = btree_height t + 1 -> root_part t' (fst n) (snd n) -> snd n = [ua; ub] -> ~ used t (fst n) ->
  Forall irec [ua; ub] -> child ua = fst a -> child ub = fst b ->
  (forall fa fb, getZ (snd a) 0 = Some fa -> getZ (snd b) 0 = Some fb -> key_view ua = key_view fa /\ key_view ub = key_view fb) ->
  wf t' (ls ++ [[n]]).
Proof using All.
  intros Hw Hl Hi Hk Hs Hr Hh (Hu & m & S & F & Hm & Hly & HS & Hids) En Hnu Hirec Ha Hb Hviews; pose proof Hw as [W1 W2 W3 W4 W5 W6].
  destruct (two_nodes t a b (W3 _ _ Hl)) as (fa & fb & _ & _ & Hfa & Hfb & Hlt & Hab & Va & Vb).
  destruct (Hviews fa fb Hfa Hfb) as [Eva Evb]; pose proof Hirec as Hirec0; rewrite !Forall_cons in Hirec; destruct Hirec as (Ia & Ib & _).
  assert (forall j l, (ls ++ [[n]]) !! j = Some l -> (ls !! j = Some l /\ (j < length ls)%nat) \/ (j = length ls /\ l = [n])) as Hlook.
  { intros j l Hj; destruct (decide (j < length ls)%nat) as [Hlt'|Hge]; [left; by rewrite lookup_app_l in Hj|right].
    rewrite lookup_app_r in Hj by lia; destruct (j - length ls)%nat as [|d] eqn:Ed; [|by destruct d]; cbn in Hj; split; [lia|congruence]. }
  split; auto.
  - rewrite Hh, W2, lenZ_app; done.
  - intros j l Hj; destruct (Hlook j l Hj) as [[Hj' _]|[_ ->]].
    + eapply level_keeps; [exact Hpg|exact Hk|set_solver|eauto].
    + split; [| |cbn; by apply NoDup_singleton|done].
      * cbn; split; [|done]; split; auto; [|rewrite En; eapply Forall_impl; [exact Hirec0|intros r Hr0; apply Hr0]|by rewrite En]; exists m, S, F; auto.
      * unfold lrecs; cbn; rewrite app_nil_r, En; apply (sorted_app [ua] [ub]); split; [apply sorted_one|]; split; [apply sorted_one|].
        intros x y ->%list_elem_of_singleton ->%list_elem_of_singleton; apply cmp_lt; [apply Ia|apply Ib|]; rewrite Eva, Evb; by apply cmp_lt.
  - intros j lo up Hlo Hup; destruct (Hlook j lo Hlo) as [[Hlo' Hjl]|[-> ->]]; destruct (Hlook _ up Hup) as [[Hup' Hul]|[Ej ->]]; try lia; eauto.
    replace j with i in Hlo' by lia; rewrite Hl in Hlo'; injection Hlo' as <-; split; unfold lrecs; cbn; rewrite ?app_nil_r, ?En; auto.
    + intros u [->| ->%list_elem_of_singleton]%elem_of_cons; [exists a, fa|exists b, fb]; repeat split; auto; set_solver.
    + exists ua, [ub]; done.
  - exists [n]; rewrite last_snoc; split; [done|]; cbn; done.
  - intros j k x y n1 n2 Hx Hy Hn1 Hn2 E; destruct (Hlook j x Hx) as [[Hx' Hjl]|[-> ->]], (Hlook k y Hy) as [[Hy' Hkl]|[-> ->]]; auto.
    + by eapply W6.
    + apply list_elem_of_singleton in Hn2 as ->; destruct Hnu; rewrite <- E; by eapply wf_used.
    + apply list_elem_of_singleton in Hn1 as ->; destruct Hnu; rewrite E; by eapply wf_used.
Qed.

Lemma build_ok (t : tree) (ls : list (list node)) (i : nat) (a b : node) :
  wf t ls -> ls !! i = Some [a; b] -> S i = length ls -> lenZ ls + 1 < 2 ^ 16 -> (forall id w, loose (cached t) id w) ->
  (forall id, is_Some (cached t !! id) -> used t id) -> first_free_id (bitmap t) < available t ->
  (free_num (bitmap t) = 0 /\ build_new_root bt fresh (root_bnode_id t) t = Ok (- ENOSPC, t))
  \/ exists t' n, build_new_root bt fresh (root_bnode_id t) t = Ok (0, t') /\ wf t' (ls ++ [[n]]) /\ keeps ∅ t t' /\ cached t' = cached t
     /\ (forall y, y ∈ [a; b] -> exists u, u ∈ lrecs [n] /\ child u = fst y).
Proof using All.
  intros Hw Hl Hi Hh Hlo Hcu Hav; pose proof (wf_store _ _ _ Hw) as Hs; pose proof (paged_ok bt Hpg) as Hbt; pose proof (so_env _ _ Hs) as He.
  unfold build_new_root; act_step (state_ok root_bnode_id t); rewrite Z.eqb_refl; cbn [negb]; act_step (env_ok t He); cbn [Z.eqb negb].
  pose proof (bo_free _ (so_bitmap _ _ Hs)) as Hf; pose proof (bo_num _ (so_bitmap _ _ Hs)) as Hbn.
  pose proof (count_range (bit (bits (bitmap t))) 0 (bits_num (bitmap t)) ltac:(lia)) as Hcr.
  destruct (Z.eq_dec (free_num (bitmap t)) 0) as [E0|N0].
  { left; split; [done|]; act_step (alloc_full bt fresh t E0); done. }
  right; destruct (alloc_ok bt Hpg fresh Hfresh t Hs) as (t1 & E1 & Al); [lia|done|]; set (rid := first_free_id (bitmap t)) in *.
  pose proof Al as [N1 U1 (m1 & P1 & Pm1) Pg1 C1 R1 H1 F1 Av1 K1 S1 _]; act_step E1.
  assert (~ used t rid) as Hnu by (intros [_ Hb]; congruence).
  assert (cached t !! rid = None) as Hcr0 by (destruct (cached t !! rid) eqn:E; [|done]; destruct Hnu; apply Hcu; eauto).
  assert (cached t1 = hold (cached t) rid true) as C1' by (rewrite C1; unfold hold; by rewrite Hcr0).
  destruct (init_spec bt Hbt (Bnode m1 rid true (readonly t1) false) VDFS4_NODE_INDEX) as (m2 & E2 & Hl2 & I1 & _ & I2 & I3); [apply Pm1..|].
  assert (with_node rid (fun b => b0 ← vdfs4_init_new_node_descr bt b VDFS4_NODE_INDEX; Ok (tt, b0)) t1 = Ok (tt, set_pages (<[rid := m2]> (pages t1)) t1)) as E2'.
  { erewrite with_ok; [rewrite put_back_clean; done|exact P1|rewrite C1'; unfold hold; rewrite Hcr0; by rewrite lookup_insert_eq|].
    rewrite E2; done. }
  act_step E2'; set (t2 := set_pages (<[rid := m2]> (pages t1)) t1).
  assert (wrote bt {[rid]} t1 t2) as W2 by (apply wrote_page; by eapply layout_page); pose proof (wrote_keeps _ _ _ _ W2) as K2.
  assert (keeps {[rid]} t t2) as K02 by (eapply keeps_mono; [eapply keeps_trans; [exact K1|exact K2]|set_solver]).
  assert (forall y, y ∈ [a; b] -> used t (fst y) /\ fst y <> rid) as Hy.
  { intros y Hy; assert (used t (fst y)) as Huy by (by eapply wf_used); split; [done|]; by intros <-. }
  destruct (Hy a ltac:(set_solver)) as [Hua Har]; destruct (Hy b ltac:(set_solver)) as [Hub Hbr].
  assert (fst a = root_bnode_id t) as Hroot.
  { destruct (wf_root _ _ _ Hw) as (top & Htop & Hr); rewrite last_lookup, <- Hi in Htop; cbn in Htop; rewrite Hl in Htop; by injection Htop as <-. }
  rewrite <- Hroot; assert (env t2 = []) as He2 by (rewrite (wo_env _ _ _ _ W2); apply (so_env _ _ S1)).
  act_step (get_ok bt fresh t2 (fst a) false He2 (kp_used _ _ _ K02 _ Hua)); change (cached t2) with (cached t1); rewrite C1'.
  set (t3 := set_cached (hold (hold (cached t) rid true) (fst a) false) t2).
  assert (keeps {[rid]} t t3) as K03 by (eapply keeps_later; [exact K02|apply keeps_cached]).
  assert (level_ok t3 [a; b]) as Lv3 by (eapply level_keeps; [exact Hpg|exact K03|intros y Hin; specialize (Hy y Hin); set_solver|by eapply wf_level]).
  destruct (two_nodes t3 a b Lv3) as (_ & _ & Ha3 & _).
  destruct (hold_lookup (hold (cached t) rid true) (fst a) false) as (ka & Eka).
  destruct (read_links bt Hbt t3 _ _ a _ ka Ha3 Eka) as (ma & Pma & _ & _ & En3).
  assert (read_node (fst a) (fun b => rd32 (data b) NEXT_NODE_ID) t3 = Ok (fst b, t3)) as Er3 by (eapply read_ok; [exact Pma|exact Eka|exact En3]).
  act_step Er3; unfold VDFS4_INVALID_NODE_ID; rewrite (proj2 (Z.eqb_neq (fst b) 0)) by (destruct Hub; lia).
  act_step (state_ok (fun t => base.size (pages t)) t3).
  pose proof (level_size bt t3 0 0 [a; b] (lo_linked _ _ _ Lv3) (lo_nodup _ _ _ Lv3)) as Hsz; cbn [length] in Hsz.
  destruct (base.size (pages t3)) as [|[|fuel]] eqn:Esz; try lia.
  assert (root_part t3 rid []) as Hrp.
  { split; [apply (kp_used _ _ _ K2), U1|]; exists m2, [], DESCR_SIZE; cbn; rewrite lookup_insert_eq; do 3 (split; [done|]); split; [|done].
    apply I1; cbn; destruct U1 as [? _]; pose proof (kp_bits_num _ _ _ K1); lia. }
  destruct (root_loop t3 (cached t) rid a b fuel) as (t4 & ua & ub & E4 & W4 & Hrp4 & Hir & Hca & Hcb & Hv); auto.
  { apply store_cached; by eapply wrote_store. }
  act_step E4; cbn [Z.eqb negb]; pose proof (wrote_keeps _ _ _ _ W4) as K4.
  assert (cached t4 = hold (cached t) rid true) as C4 by (by rewrite (wo_cached _ _ _ _ W4)).
  assert (keeps ∅ t t4) as K04.
  { assert (keeps {[rid]} t t4) as [q1 q2 q3 q4] by (eapply keeps_mono; [eapply keeps_trans; [eapply keeps_later; [exact K02|apply (keeps_cached ∅)]|exact K4]|set_solver]).
    split; auto; intros id Hid _; apply q4; [done|]; by intros ->%elem_of_singleton. }
  assert (btree_height t4 = btree_height t /\ root_bnode_id t4 = root_bnode_id t) as [H4 R4]
    by (rewrite (wo_height _ _ _ _ W4), (wo_root _ _ _ _ W4); cbn; by rewrite H1, R1).
  assert (store_ok bt t4) as S4 by (eapply wrote_store; [exact W4|]; apply store_cached, store_cached; by eapply wrote_store).
  pose proof (wf_height _ _ _ Hw) as Hht; pose proof (lenZ_nonneg ls) as Hl0.
  unfold vdfs4_btree_inc_height, vdfs4_btree_set_root_id, mark_head_dirty; rewrite !act_assoc, !(act_bind_ok _ _ _ _ _ (change_ok _ _)).
  rewrite !act_assoc, !(act_bind_ok _ _ _ _ _ (change_ok _ _)).
  set (t5 := add_dirty 0 (set_root rid (add_dirty 0 (set_height (u16 (btree_height t4 + 1)) t4)))).
  destruct Hrp4 as (Hu4 & m4 & S5 & F5 & Hm4 & Hrest4).
  assert (mark_dirty rid t5 = Ok (tt, add_dirty rid t5)) as E5.
  { apply (mark_dirty_ok t5 rid m4 1); [done|]; change (cached t5) with (cached t4); rewrite C4; unfold hold; rewrite Hcr0; by rewrite lookup_insert_eq. }
  act_step E5; rewrite (act_bind_ok _ _ _ _ _ (change_ok _ _)); set (t6 := add_dirty 0 (add_dirty rid t5)).
  assert (vdfs4_put_bnode rid t6 = Ok (tt, set_cached (cached t) t6)) as E6 by (apply (put_ok t6 (cached t) rid true); auto).
  act_step E6; exists (set_cached (cached t) t6), (rid, [ua; ub]); split; [done|].
  assert (u16 (btree_height t4 + 1) = btree_height t + 1) as Eu by (rewrite H4; apply u16_small; lia).
  split; [|split; [|split; [done|]]].
  - eapply (wf_top t _ ls i a b (rid, [ua; ub]) ua ub); cbn; auto.
    + destruct K04; by split.
    + destruct S4; split; cbn; auto; rewrite Eu; lia.
    + split; cbn; [done|]; exists m4, S5, F5; auto.
  - destruct K04; by split.
  - intros y [->| ->%list_elem_of_singleton]%elem_of_cons; unfold lrecs; cbn; [exists ua|exists ub]; set_solver.
Qed.

End Root.
