(* ===== verification/BtreeInsert.v ===== *)
(** Insertion: the index records for split nodes go up the tree, and the new record
    ends up behind the floor of its key. *)

From Stdlib Require Import ZArith Lia Bool List.
From stdpp Require Import base list gmap sets.
From S2P Require Import Prelude Bytes Bitmap Count FindBit Buffer TreeKeys Bnode BnodeRep BnodeSearch BnodeSplit NodeStore StoreRep Btree BtreeRep BtreeLevel BtreeFind BtreePlace BtreeGrow BtreeRoot.

Open Scope Z_scope.

Section Insert.
Context {find : FindBit} {Hfind : FindBitLaws} (bt : btree) (Hpg : paged bt) (fresh : Z -> list Z) (Hfresh : forall id, page_ok bt (fresh id)).
Context {comp_fn : list Z -> list Z -> Z} {valid : list Z -> Prop} `{Hcmp : KeyCmp comp_fn valid}.

#[local] Abbreviation krec := (krec (comp_fn := comp_fn) (valid := valid)).
#[local] Abbreviation irec := (irec (comp_fn := comp_fn) (valid := valid)).
#[local] Abbreviation node_ok := (node_ok bt (comp_fn := comp_fn) (valid := valid)).
#[local] Abbreviation level_ok := (level_ok bt (comp_fn := comp_fn) (valid := valid)).
#[local] Abbreviation index_ok := (index_ok (comp_fn := comp_fn) (valid := valid)).
#[local] Abbreviation stack_ok := (stack_ok (comp_fn := comp_fn)).
#[local] Abbreviation wf := (wf bt (comp_fn := comp_fn) (valid := valid)).
#[local] Abbreviation key_ok := (key_ok (comp_fn := comp_fn) (valid := valid)).
#[local] Abbreviation placed := (placed bt (comp_fn := comp_fn) (valid := valid)).
#[local] Abbreviation grown := (grown bt (comp_fn := comp_fn) (valid := valid)).
#[local] Abbreviation spread := (spread (comp_fn := comp_fn) (valid := valid)).

(** A level with one index record more. *)
Lemma index_above (lo l l' : list node) (X Y : list (list Z)) (u : list Z) (x : node) (f : list Z) :
  index_ok lo l -> lrecs l = X ++ Y -> lrecs l' = X ++ u :: Y -> X <> [] -> irec u -> x ∈ lo -> child u = fst x ->
  getZ (snd x) 0 = Some f -> key_view f = key_view u -> index_ok lo l'.
Proof using Hcmp.
  intros [I1 I2 (u0 & us & E0 & H0)] El El' HX Hu Hx Hc Hf Hv; split.
  - rewrite El', Forall_app, Forall_cons; rewrite El, Forall_app in I1; tauto.
  - intros v Hin; rewrite El' in Hin; apply elem_of_app in Hin as [Hin|[->|Hin]%elem_of_cons].
    + apply I2; rewrite El; apply elem_of_app; by left.
    + exists x, f; auto.
    + apply I2; rewrite El; apply elem_of_app; by right.
  - rewrite El' ; rewrite El in E0; destruct X as [|v X]; [done|]; injection E0 as -> E0; exists u0, (X ++ u :: Y); done.
Qed.

(** Nodes of a level with the same first key are the same. *)
Lemma first_unique (t : tree) (l : list node) (n x : node) (f g : list Z) :
  level_ok t l -> n ∈ l -> x ∈ l -> getZ (snd n) 0 = Some f -> getZ (snd x) 0 = Some g -> key_view f = key_view g -> n = x.
Proof using Hcmp.
  intros Hlv Hn Hx Hf Hg Ev; apply list_elem_of_split in Hn as (A & B & ->).
  assert (forall r, r ∈ lrecs (A ++ n :: B) -> valid r) as HV
    by (pose proof (linked_krec _ _ _ _ _ (lo_linked _ _ _ Hlv)) as Hk; apply krec_valid in Hk; by rewrite Forall_forall in Hk).
  assert (f ∈ lrecs (A ++ n :: B) /\ g ∈ lrecs (A ++ n :: B)) as [Hfi Hgi]
    by (split; [apply (first_elem n _ f (elem_mid _ _ _) Hf)|by apply (first_elem x)]).
  assert (comp_fn f g = 0 /\ comp_fn g f = 0) as [E1 E2] by (split; apply cmp_eq; auto).
  pose proof (lo_sorted _ _ _ Hlv) as Hs; rewrite lrecs_app, lrecs_cons in Hs; apply sorted_app in Hs as (_ & Hs & HA); apply sorted_app in Hs as (_ & _ & HB).
  pose proof (getZ_elem _ _ _ Hf) as Hfn; apply elem_of_app in Hx as [Hx|[->|Hx]%elem_of_cons]; [|done|].
  - assert (comp_fn g f < 0); [|lia]; apply HA; [by apply (first_elem x)|apply elem_of_app; by left].
  - assert (comp_fn f g < 0); [|lia]; apply HB; [done|by apply (first_elem x)].
Qed.

(** ** Pending index records *)

(** A node of level [i] that waits for its index record. *)
Record pending (t : tree) (ls : list (list node)) (i : nat) (x : node) (item : todo_item) : Prop := {
  pd_level : exists l, ls !! i = Some l /\ x ∈ l;
  pd_point : point_to_bnode_id item = fst x;
  pd_root : current_root_id item = root_bnode_id t;
  pd_stack : exists f, getZ (snd x) 0 = Some f /\ stack_ok ls (S i) f (traverse_data item);
  pd_room : first_free_id (bitmap t) < available t
}.

(** What callers hold: nodes in use, read-write, none above level [i]. *)
Record quiet (t : tree) (ls : list (list node)) (i : nat) : Prop := {
  qu_used : forall id, is_Some (cached t !! id) -> used t id;
  qu_mode : forall id w k, cached t !! id = Some (w, k) -> w = true /\ 0 < k;
  qu_above : forall j l, (i < j)%nat -> ls !! j = Some l -> unheld (cached t) l
}.

(** Every node has its index record but [x] of level [i], which may be next to the
    root. *)
Record indexed_but (ls : list (list node)) (i : nat) (x : node) : Prop := {
  ib_all : forall j lo up n, ls !! j = Some lo -> ls !! S j = Some up -> n ∈ lo ->
    (j = i /\ fst n = fst x) \/ exists u, u ∈ lrecs up /\ child u = fst n;
  ib_root : (S i < length ls)%nat /\ (exists n, last ls = Some [n]) \/ S i = length ls /\ exists n y, last ls = Some [n; y] /\ fst y = fst x
}.

Lemma quiet_loose (t : tree) (ls : list (list node)) (i : nat) (id : Z) (w : bool) : quiet t ls i -> loose (cached t) id w.
Proof. intros [_ Hm _]; unfold loose; destruct (cached t !! id) as [[w' k]|] eqn:E; [|done]; apply Hm in E as [-> ?]; auto. Qed.

(** The stack looks only at the levels above. *)
Lemma stack_insert (ls : list (list node)) (i j : nat) (l : list node) (f : list Z) (st : list stack_item) :
  (i < j)%nat -> stack_ok ls j f st -> stack_ok (<[i := l]> ls) j f st.
Proof using Hcmp.
  revert j f; induction st as [|it st IH]; intros j f Hij; cbn; [by rewrite length_insert|].
  intros (A & n & B & g & Hl & H1 & H2 & H3 & H4 & H5); exists A, n, B, g; rewrite list_lookup_insert_ne by lia; repeat split; auto.
Qed.

Lemma stack_inv (ls : list (list node)) (j : nat) (f : list Z) (it : stack_item) (st : list stack_item) :
  stack_ok ls j f (it :: st) ->
  exists (A : list node) (n : node) (B : list node) (g : list Z), ls !! j = Some (A ++ n :: B) /\ si_bnode_id it = fst n /\ si_level it = Z.of_nat (S j)
  /\ getZ (snd n) 0 = Some g /\ comp_fn g f <= 0 /\ stack_ok ls (S j) g st.
Proof. done. Qed.

Lemma stack_top (ls : list (list node)) (t : tree) (j : nat) (g : list Z) (it : stack_item) (up : list stack_item) :
  wf t ls -> ls !! j <> None -> si_level it = Z.of_nat (S j) -> stack_ok ls (S j) g up -> si_level it = btree_height t <-> up = [].
Proof using Hcmp.
  intros Hw Hj Hit Hst; rewrite (wf_height _ _ _ Hw), Hit; unfold lenZ; destruct up as [|it' st]; cbn in Hst; [split; [done|]; lia|].
  destruct Hst as (A & n & B & g' & Hl & _); apply lookup_lt_Some in Hl; split; [intros E%Nat2Z.inj; rewrite E in Hl; by apply Nat.lt_irrefl in Hl|done].
Qed.

(** The waiting node has got its record in the level above, which has grown. *)
Lemma index_all (ls : list (list node)) (i : nat) (x : node) (l l' : list node) :
  indexed_but ls i x -> ls !! S i = Some l -> (forall u, u ∈ lrecs l -> u ∈ lrecs l') -> (exists u, u ∈ lrecs l' /\ child u = fst x) ->
  forall j lo up n, <[S i := l']> ls !! j = Some lo -> <[S i := l']> ls !! S j = Some up -> n ∈ lo ->
    (j = S i /\ fst n ∉ idset l) \/ exists u, u ∈ lrecs up /\ child u = fst n.
Proof using Hcmp.
  intros [Ha _] Hl Hsub Hx j lo up n Hlo Hup Hn; pose proof (lookup_lt_Some _ _ _ Hl) as Hlen.
  destruct (decide (j = S i)) as [->|Hj].
  - rewrite list_lookup_insert_eq in Hlo by done; injection Hlo as <-; rewrite list_lookup_insert_ne in Hup by lia.
    destruct (decide (fst n ∈ idset l)) as [Hin|]; [right|left; done]; apply elem_of_idset in Hin as (n0 & Hn0 & E).
    destruct (Ha (S i) l up n0 Hl Hup Hn0) as [[? _]|(u & Hu & Hc)]; [lia|exists u; by rewrite <- E].
  - rewrite list_lookup_insert_ne in Hlo by done; right; destruct (decide (j = i)) as [->|Hji].
    + rewrite list_lookup_insert_eq in Hup by done; injection Hup as <-.
      destruct (Ha i lo l n Hlo Hl Hn) as [[_ E]|(u & Hu & Hc)]; [by rewrite E|eauto].
    + rewrite list_lookup_insert_ne in Hup by lia; destruct (Ha j lo up n Hlo Hup Hn) as [[? _]|?]; [lia|done].
Qed.

Lemma last_insert (ls : list (list node)) (j : nat) (l l' : list node) :
  ls !! j = Some l -> last (<[j := l']> ls) = if decide (S j = length ls) then Some l' else last ls.
Proof.
  intros Hl; pose proof (lookup_lt_Some _ _ _ Hl); rewrite !last_lookup, length_insert; destruct (decide (S j = length ls)) as [<-|N]; cbn.
  - by rewrite list_lookup_insert_eq.
  - rewrite list_lookup_insert_ne; [done|]; lia.
Qed.

Lemma indexed_same (ls : list (list node)) (i : nat) (x : node) (l l' : list node) :
  indexed_but ls i x -> ls !! S i = Some l -> (forall u, u ∈ lrecs l -> u ∈ lrecs l') -> (exists u, u ∈ lrecs l' /\ child u = fst x) ->
  map fst l' = map fst l -> indexed (<[S i := l']> ls).
Proof using Hcmp.
  intros Hb Hl Hsub Hx E; pose proof (lookup_lt_Some _ _ _ Hl) as Hlen; split.
  - intros j lo up n Hlo Hup Hn; destruct (index_all ls i x l l' Hb Hl Hsub Hx j lo up n Hlo Hup Hn) as [[-> Hnin]|?]; [|done].
    rewrite list_lookup_insert_eq in Hlo by done; injection Hlo as <-; destruct Hnin; unfold idset; rewrite <- E.
    apply elem_of_list_to_set; by apply (list_elem_of_fmap_2 fst).
  - destruct (ib_root _ _ _ Hb) as [[_ (n & Hn)]|[Ht _]]; [|rewrite <- Ht in Hlen; by apply Nat.lt_irrefl in Hlen].
    rewrite (last_insert _ _ _ _ Hl); destruct (decide _) as [Et|]; [|eauto].
    rewrite last_lookup, <- Et in Hn; cbn in Hn; rewrite Hl in Hn; injection Hn as ->; destruct l' as [|a [|b l']]; try done; eauto.
Qed.

Lemma indexed_split (ls : list (list node)) (i : nat) (x y : node) (l l' : list node) :
  indexed_but ls i x -> ls !! S i = Some l -> (forall u, u ∈ lrecs l -> u ∈ lrecs l') -> (exists u, u ∈ lrecs l' /\ child u = fst x) ->
  y ∈ l' -> fst y ∉ idset l -> length l' = S (length l) -> hd_id l' 0 = hd_id l 0 -> (forall n, n ∈ l' -> fst n = fst y \/ fst n ∈ idset l) ->
  indexed_but (<[S i := l']> ls) (S i) y.
Proof using Hcmp.
  intros Hb Hl Hsub Hx Hy Hny Hlen' Hhd Hids; pose proof (lookup_lt_Some _ _ _ Hl) as Hlen; split.
  - intros j lo up n Hlo Hup Hn; destruct (index_all ls i x l l' Hb Hl Hsub Hx j lo up n Hlo Hup Hn) as [[-> Hnin]|?]; [|by right].
    rewrite list_lookup_insert_eq in Hlo by done; injection Hlo as <-; left; destruct (Hids n Hn); done.
  - destruct (ib_root _ _ _ Hb) as [[_ (n & Hn)]|[Ht _]]; [|rewrite <- Ht in Hlen; by apply Nat.lt_irrefl in Hlen].
    rewrite (last_insert _ _ _ _ Hl), length_insert; destruct (decide _) as [Et|Nt].
    + right; split; [done|]; rewrite last_lookup, <- Et in Hn; cbn in Hn; rewrite Hl in Hn; injection Hn as ->.
      destruct l' as [|a [|b [|d l']]]; try done; exists a, b; split; [done|]; cbn in Hhd.
      apply elem_of_cons in Hy as [->| ->%list_elem_of_singleton]; [|done]; destruct Hny; rewrite Hhd; apply (idset_elem [n] n), elem_of_cons; by left.
    + left; split; [apply Nat.le_neq; split; [exact Hlen|exact Nt]|eauto].
Qed.

(** ** Placing one index record *)

Lemma view_cmp (a k k' : list Z) : valid a -> valid k -> valid k' -> key_view k = key_view k' -> comp_fn a k <= 0 -> comp_fn a k' <= 0.
Proof using Hcmp. intros Va Vk Vk' E Hle; pose proof (key_lex a k Va Vk) as E1; pose proof (key_lex a k' Va Vk') as E2; rewrite E in E1; lia. Qed.

(** The node below is released before the one that got the record. *)
Lemma put_below (t : tree) (c : gmap Z (bool * Z)) (p r : Z) :
  cached t = hold (hold c p false) r true -> p <> r -> loose c p false -> vdfs4_put_bnode p t = Ok (tt, set_cached (hold c r true) t).
Proof.
  intros E Hne Hl; apply (put_ok t (hold c r true) p false); [by rewrite E, hold_comm|by apply loose_hold_ne].
Qed.

(** The first keys of the level whose nodes split. *)
Lemma swap_node (l' A B : list node) (rid : Z) (R1 R2 : list (list Z)) (r u : list Z) (y : node) :
  l' = A ++ (rid, R1 ++ r :: R2) :: B -> y ∈ l' ->
  exists y', y' ∈ A ++ (rid, R1 ++ u :: R2) :: B /\ fst y' = fst y /\ forall q, q ∈ snd y' -> q ∈ snd y \/ q = u.
Proof.
  intros -> [Hy|[->|Hy]%elem_of_cons]%elem_of_app; [exists y; set_solver| |exists y; set_solver].
  exists (rid, R1 ++ u :: R2); cbn; split; [apply elem_mid|]; split; [done|]; set_solver.
Qed.

Section Item.
Context (t : tree) (ls : list (list node)) (i : nat) (x : node) (item : todo_item) (above : stack_item) (up : list stack_item).
Context (Hw : wf t ls) (Hq : quiet t ls i) (Hpd : pending t ls i x item) (Htd : traverse_data item = above :: up) (Hib : indexed_but ls i x).

(** What one item does: nothing at the levels below, and at most one new item. *)
Definition item_result (res : run (Z * list todo_item * tree)) : Prop :=
  exists e t' ls' todo', res = Ok ((e, todo'), t') /\ wf t' ls' /\ cached t' = cached t
  /\ (exists X, keeps X t t' /\ forall j l n, (j <= i)%nat -> ls !! j = Some l -> n ∈ l -> fst n ∉ X)
  /\ (forall j, j <> S i -> ls' !! j = ls !! j) /\ length ls' = length ls
  /\ ((todo' = [] /\ (free_num (bitmap t) = 0 \/ indexed ls'))
      \/ exists y item', todo' = [item'] /\ pending t' ls' (S i) y item' /\ traverse_data item' = up
         /\ free_num (bitmap t') = free_num (bitmap t) - 1 /\ indexed_but ls' (S i) y).

(** The end of an item whose record could not be placed. *)
Lemma item_fail (t3 : tree) (n : node) (l : list node) (e : Z) :
  ls !! S i = Some l -> n ∈ l -> cached t3 = hold (hold (cached t) (fst x) false) (fst n) true -> keeps ∅ t t3 -> store_ok bt t3 ->
  root_bnode_id t3 = root_bnode_id t -> btree_height t3 = btree_height t -> (free_num (bitmap t) = 0 \/ indexed ls) ->
  item_result ((vdfs4_put_bnode (fst x);; vdfs4_put_bnode (fst n);; mret (e, [])) t3).
Proof using All.
  intros Hl Hn C3 K3 S3 R3 H3 Hout; destruct (pd_level _ _ _ _ _ Hpd) as (lo & Hlo & Hx).
  assert (fst x <> fst n) as Hne by (intros E; pose proof (wf_sep _ _ _ Hw i (S i) lo l x n Hlo Hl Hx Hn E); lia).
  act_step (put_below t3 (cached t) (fst x) (fst n) C3 Hne (quiet_loose _ _ _ _ _ Hq)).
  assert (vdfs4_put_bnode (fst n) (set_cached (hold (cached t) (fst n) true) t3) = Ok (tt, set_cached (cached t) (set_cached (hold (cached t) (fst n) true) t3))) as Ep
    by (apply (put_ok _ (cached t) (fst n) true); [done|by eapply quiet_loose]).
  act_step Ep; eexists e, _, ls, []; split; [reflexivity|]; split; [|split; [done|split; [|split; [done|split; [done|left; done]]]]].
  - apply wf_cached; [exact Hpg|]; apply wf_cached; [exact Hpg|]; eapply wf_keeps; eauto.
  - exists ∅; split; [|intros; apply not_elem_of_empty]; eapply keeps_later; [|apply keeps_cached]; eapply keeps_later; [exact K3|apply keeps_cached].
Qed.

(** The end of an item whose record has been placed. *)
Lemma item_done (t2 t3 : tree) (n s : node) (A0 B0 A A' B B' : list node) (l' : list node) (key f g : list Z) (rid : Z) (ri : rec_info) (R1 R2 : list (list Z)) (r : list Z) (todo' : list todo_item) :
  let l := (A ++ A0) ++ n :: B0 in let L := get16 key KEY_LEN + 4 in
  ls !! S i = Some l -> s :: B = A0 ++ n :: B0 -> getZ (snd s) 0 = Some g -> getZ (snd x) 0 = Some f -> stack_ok ls (S (S i)) g up ->
  comp_fn g key <= 0 -> key_view key = key_view f -> key_ok key L ->
  keeps ∅ t t2 -> wf t2 ls -> root_bnode_id t2 = root_bnode_id t -> bitmap t2 = bitmap t ->
  placed t3 l l' key L rid ri A' R1 r R2 B' -> grown t2 t3 l l' -> spread t2 t3 l l' n key up [] todo' ->
  cached t3 = hold (hold (cached t) (fst x) false) rid true ->
  item_result ((vdfs4_put_bnode (fst x);;
    (write_value rid (ri_val ri) (le_bytes 4 (fst x));; mark_dirty rid;; vdfs4_put_bnode rid;; mret (0, todo'))) t3).
Proof using All.
  intros l L Hl Esp Hg Hf Hst Hgk Evk Hk K2 W2 R2' B2 Hp Hgr Hsp C3; destruct (pd_level _ _ _ _ _ Hpd) as (lo & Hlo & Hx).
  pose proof (wf_used bt Hpg _ _ _ _ _ Hw Hlo Hx) as Hux; pose proof (kp_used _ _ _ K2 _ Hux) as Hux2.
  assert (rid ∈ idset l \/ ~ used t2 rid) as Hrid.
  { apply (gr_ids _ _ _ _ _ Hgr (rid, R1 ++ r :: R2)); rewrite (pl_level _ _ _ _ _ _ _ _ _ _ _ _ _ Hp); apply elem_mid. }
  assert (forall j y z, (j <= i)%nat -> ls !! j = Some y -> z ∈ y -> fst z ∉ idset l) as Hlow.
  { intros j y z Hj Hy Hz (n0 & Hn0 & E)%elem_of_idset; pose proof (wf_sep _ _ _ Hw (S i) j l y n0 z Hl Hy Hn0 Hz E); lia. }
  assert (fst x <> rid) as Hne.
  { destruct Hrid as [Hin|Hnu]; [|by intros <-]; intros E; apply (Hlow i lo x); auto; by rewrite E. }
  assert (cached t !! rid = None) as Hcr.
  { destruct Hrid as [(n0 & Hn0 & <-)%elem_of_idset|Hnu]; [eapply (qu_above _ _ _ Hq (S i)); eauto|].
    destruct (cached t !! rid) eqn:E; [|done]; destruct Hnu; apply (kp_used _ _ _ K2), (qu_used _ _ _ Hq); eauto. }
  act_step (put_below t3 (cached t) (fst x) rid C3 Hne (quiet_loose _ _ _ _ _ Hq)); set (t4 := set_cached (hold (cached t) rid true) t3).
  assert (placed t4 l l' key L rid ri A' R1 r R2 B') as Hp4 by (eapply placed_keeps; [exact Hp|apply keeps_cached]).
  assert (grown t2 t4 l l') as Hg4 by (by apply grown_cached).
  assert (cached t4 !! rid = Some (true, 1)) as C4 by (unfold t4, hold; cbn; rewrite Hcr; by rewrite lookup_insert_eq).
  assert (0 <= fst x < 2 ^ 32) as Hid by (destruct Hux; pose proof (bo_num _ (so_bitmap _ _ (wf_store _ _ _ Hw))); lia).
  destruct (level_write bt Hpg t2 t4 l l l' key (le_bytes 4 (fst x)) L rid 1 ri A' R1 R2 r B' Hp4 Hg4 Hk C4) as (t5 & E5 & W5 & Lv5 & G5 & Ku & Vu & Klu & (m5 & P5));
    [rewrite lenZ_le_bytes; unfold L; lia|apply le_bytes_byte|].
  set (u := upd_at r (get16 key KEY_LEN) (le_bytes 4 (fst x))) in *; set (l'' := A' ++ (rid, R1 ++ u :: R2) :: B') in *.
  destruct (index_value key r (fst x) Hk (ar_stored _ _ _ _ _ _ _ _ _ _ _ (pl_record _ _ _ _ _ _ _ _ _ _ _ _ _ Hp)) Hid Ku Klu) as [Hiu Hcu].
  act_step E5; assert (cached t5 !! rid = Some (true, 1)) as C5 by (by rewrite (wo_cached _ _ _ _ W5)).
  act_step (mark_dirty_ok t5 rid m5 1 P5 C5); set (t6 := add_dirty rid t5).
  assert (vdfs4_put_bnode rid t6 = Ok (tt, set_cached (cached t) t6)) as E6.
  { apply (put_ok t6 (cached t) rid true); [change (cached t6) with (cached t5); by rewrite (wo_cached _ _ _ _ W5)|by apply loose_free]. }
  act_step E6; set (t7 := set_cached (cached t) t6); assert (keeps ∅ t5 t7) as K57 by (eapply keeps_later; [apply keeps_dirty|apply keeps_cached]).
  pose proof (pl_old _ _ _ _ _ _ _ _ _ _ _ _ _ Hp) as Eold.
  assert (lrecs l'' = (lrecs A' ++ R1) ++ u :: R2 ++ lrecs B') as Enew by (unfold l''; rewrite lrecs_app, lrecs_cons; cbn [snd]; by rewrite <- !app_assoc).
  assert (wf t7 (<[S i := l'']> ls)) as W7.
  { eapply wf_keeps; [exact Hpg| |exact K57|apply store_cached, store_dirty, (gr_store _ _ _ _ _ G5)|done|done].
    eapply wf_grow; eauto; intros j lo' [= <-] Hlo'; rewrite Hlo in Hlo'; injection Hlo' as <-.
    eapply (index_above lo l l'' _ _ u x f (wf_index _ _ _ Hw _ _ _ Hlo Hl) Eold Enew); auto; [apply (pl_some _ _ _ _ _ _ _ _ _ _ _ _ _ Hp)|congruence]. }
  assert (forall v, v ∈ lrecs l -> v ∈ lrecs l'') as Hsub by (intros v; rewrite Eold, Enew; intros [?|?]%elem_of_app; apply elem_of_app; [by left|right; apply elem_of_cons; by right]).
  assert (exists v, v ∈ lrecs l'' /\ child v = fst x) as Hxu by (exists u; split; [rewrite Enew; apply elem_mid|done]).
  pose proof (lookup_lt_Some _ _ _ Hl) as Hlen.
  exists 0, t7, (<[S i := l'']> ls), todo'; split; [done|]; split; [done|]; split; [done|]; split; [|split; [|split; [by rewrite length_insert|]]].
  { exists (∅ ∪ idset l); split; [|intros j y z Hj Hy Hz [Hz'%not_elem_of_empty|Hz']%elem_of_union; [done|by apply (Hlow j y z)]].
    eapply keeps_trans; [exact K2|]; eapply keeps_later; [apply (gr_keeps _ _ _ _ _ G5)|exact K57]. }
  { intros j Hj; by apply list_lookup_insert_ne. }
  assert (map fst l'' = map fst l') as Eids by (rewrite (pl_level _ _ _ _ _ _ _ _ _ _ _ _ _ Hp); unfold l''; by rewrite !map_app).
  destruct Hsp as [(-> & Es & _)|(y & Hy & Hnu & -> & Hlen' & Hids & Hrecs & Hfree & Hroom)].
  { left; split; [done|]; right; eapply indexed_same; eauto; congruence. }
  right; destruct (swap_node l' A' B' rid R1 R2 r u y (pl_level _ _ _ _ _ _ _ _ _ _ _ _ _ Hp) Hy) as (y' & Hy' & Ey & Hqs); fold l'' in Hy'.
  assert (bitmap t7 = bitmap t3 /\ available t7 = available t3 /\ root_bnode_id t7 = root_bnode_id t2) as (Eb7 & Ea7 & Er7).
  { unfold t7, t6; cbn; rewrite (wo_bitmap _ _ _ _ W5), (wo_available _ _ _ _ W5), (wo_root _ _ _ _ W5); cbn; rewrite (gr_root _ _ _ _ _ Hgr); done. }
  exists y', (TodoItem up (fst y) (root_bnode_id t2)); split; [done|]; split; [|split; [done|split; [by rewrite Eb7, Hfree, B2|]]].
  - split; [exists l''; rewrite list_lookup_insert_eq by done; done|exact (eq_sym Ey)|exact (eq_sym Er7)| |rewrite Eb7, Ea7; exact Hroom].
    destruct (linked_elem _ _ _ _ _ _ (lo_linked _ _ _ Lv5) Hy') as (? & ? & [_ _ Ky Ny]); destruct (snd y') as [|f' tl] eqn:Ef; [done|].
    exists f'; split; [done|]; apply stack_insert; [lia|]; apply krec_valid in Ky; rewrite Forall_cons in Ky.
    assert (valid g) as Vg by (apply (wf_valid bt t ls (S i) l g Hw Hl); apply (first_elem s); [|done]; unfold l; rewrite <- app_assoc, <- Esp; apply elem_mid).
    assert (comp_fn g f' <= 0) as Hgf; [|eapply stack_mono; [exact Hw|exact Vg|apply Ky|exact Hgf|exact Hst]].
    assert (f' ∈ snd n \/ key_view f' = key_view key) as [Hfn|Hfk].
    { destruct (Hqs f') as [Hin| ->]; [apply elem_of_cons; by left|by apply Hrecs|by right]. }
    + eapply (first_least bt t A A0 B0 s n B g f'); eauto; rewrite Esp; pose proof (wf_level _ _ _ Hw _ _ Hl) as HlvL; unfold l in HlvL; by rewrite <- app_assoc in HlvL.
    + eapply view_cmp; [exact Vg|apply (ko_valid _ _ Hk)|apply Ky|by symmetry|done].
  - apply (indexed_split ls i x y' l l'' Hib Hl Hsub Hxu Hy'); rewrite ?Ey.
    + intros (n0 & Hn0 & E0)%elem_of_idset; apply Hnu; rewrite <- E0; apply (wf_used bt Hpg t2 ls (S i) l n0 W2 Hl Hn0).
    + rewrite <- Hlen', (pl_level _ _ _ _ _ _ _ _ _ _ _ _ _ Hp); unfold l''; by rewrite !length_app.
    + apply (gr_hd _ _ _ _ _ G5).
    + intros z Hz; assert (fst z ∈ map fst l') as Hz' by (rewrite <- Eids; by apply (list_elem_of_fmap_2 fst)).
      apply list_elem_of_fmap in Hz' as (z' & -> & Hz'); auto.
Qed.

(** An index key that is there already belongs to the waiting node. *)
Lemma already (l : list node) (r0 f : list Z) :
  ls !! S i = Some l -> r0 ∈ lrecs l -> getZ (snd x) 0 = Some f -> key_view r0 = key_view f -> indexed ls.
Proof using All.
  intros Hl Hr0 Hf Ev; destruct (pd_level _ _ _ _ _ Hpd) as (lo & Hlo & Hx).
  destruct (ix_child _ _ (wf_index _ _ _ Hw _ _ _ Hlo Hl) r0 Hr0) as (n & g & Hn & En & Hg & Hv).
  assert (n = x) as -> by (eapply (first_unique t lo n x g f); eauto; [by eapply wf_level|congruence]).
  pose proof (lookup_lt_Some _ _ _ Hl) as Hlen; split.
  - intros j lo' up' y Hlo' Hup' Hy; destruct (ib_all _ _ _ Hib j lo' up' y Hlo' Hup' Hy) as [[-> E]|?]; [|done].
    rewrite Hl in Hup'; injection Hup' as <-; exists r0; split; [done|congruence].
  - destruct (ib_root _ _ _ Hib) as [[_ ?]|[E _]]; [done|]; rewrite <- E in Hlen; by apply Nat.lt_irrefl in Hlen.
Qed.

Lemma index_spec : item_result (place_index_record bt comp_fn fresh item [] t).
Proof using All.
  pose proof Hpd as [(lo & Hlo & Hx) Hpt Hrt (f & Hf & Hst) Hroom]; rewrite Htd in Hst.
  destruct (stack_inv _ _ _ _ _ Hst) as (A & s & B & g & Hl & Eab & Elv & Hg & Hgf & Hst'); pose proof (wf_store _ _ _ Hw) as Hs; pose proof (so_env _ _ Hs) as He.
  pose proof (paged_ok bt Hpg) as Hbt; pose proof (wf_used bt Hpg _ _ _ _ _ Hw Hlo Hx) as Hux.
  unfold place_index_record; rewrite Htd, Hpt, Eab; act_step (get_ok bt fresh t (fst x) false He Hux); set (t1 := set_cached _ t).
  assert (wf t1 ls) as W1 by (by apply wf_cached).
  destruct (linked_elem _ _ _ _ _ _ (lo_linked _ _ _ (wf_level _ _ _ W1 _ _ Hlo)) Hx) as (px & qx & Hnx).
  destruct (hold_lookup (cached t) (fst x) false) as (kx & Ekx).
  destruct (record_read bt Hbt t1 px qx x _ kx 0 f Hnx Ekx Hf) as (m & S0 & F0 & o & xs & _ & _ & _ & _ & Bxs & Erec & _); act_step Erec.
  assert (krec f) as Kf by (destruct Hnx as [_ _ Hkr _]; rewrite Forall_forall in Hkr; apply Hkr; by eapply getZ_elem).
  destruct (record_key f xs Kf Bxs) as (Hk & Ekl & _ & Ev & Vk); rewrite <- Ekl in Hk; set (key := f ++ xs) in *.
  pose proof (wf_level _ _ _ W1 _ _ Hl) as Lv1.
  assert (valid g) as Vg by (apply (wf_valid bt t ls (S i) _ g Hw Hl), (first_elem s); [apply elem_mid|done]).
  assert (comp_fn g key <= 0) as Hgk by (eapply view_cmp; [exact Vg|apply Kf|done|by symmetry|done]).
  assert (forall z, z ∈ A ++ s :: B -> fst z <> fst x) as Hsep.
  { intros z Hz E; pose proof (wf_sep _ _ _ Hw _ _ _ _ _ _ Hl Hlo Hz Hx E); lia. }
  assert (unheld (cached t1) (A ++ s :: B)) as Hun.
  { intros z Hz; unfold t1; cbn; rewrite hold_lookup_ne by auto; eapply (qu_above _ _ _ Hq (S i)); eauto. }
  destruct (traverse_level_spec bt Hpg fresh t1 A s B key g true None He Lv1 Vk) as [[Hgt _]|(_ & A0 & n & B0 & pos & ps' & Esp & Etr & Hfd & _ & Hps)];
    [intros z Hz; apply Hun, elem_of_app; by right|done|lia|].
  destruct ps' as [ps'|]; [done|]; act_step Etr; clear Etr; set (t2 := set_cached _ t1).
  assert (8 <= lenZ key) as Hlk by (pose proof (key_size_valid key Vk); lia).
  lift_step (rd16_ok key KEY_LEN ltac:(done) ltac:(unfold KEY_LEN; lia)).
  assert (A ++ s :: B = (A ++ A0) ++ n :: B0) as El by (by rewrite <- app_assoc, <- Esp); rewrite El in Hl, Lv1, Hun, Hsep.
  assert (n ∈ (A ++ A0) ++ n :: B0) as Hn by apply elem_mid.
  assert (keeps ∅ t t2) as K2 by (eapply keeps_later; apply keeps_cached).
  pose proof Hfd as [(r0 & Hr0 & Hle0) _ _].
  assert (level_ok t2 ((A ++ A0) ++ n :: B0)) as Lv2 by (eapply level_keeps; [exact Hpg|apply (keeps_cached ∅)|intros; apply not_elem_of_empty|exact Lv1]).
  assert (forall id, is_Some (cached t1 !! id) -> used t2 id) as Hcu.
  { intros id Hid; change (used t id); destruct (decide (id = fst x)) as [->|Hid']; [done|].
    unfold t1 in Hid; cbn in Hid; rewrite hold_lookup_ne in Hid by done; by apply (qu_used _ _ _ Hq). }
  assert (ls !! S i <> None) as Hne by (intros E; by rewrite E in Hl).
  destruct (place_key_spec bt Hpg fresh Hfresh t2 (cached t1) (A ++ A0) B0 n key r0 (get16 key KEY_LEN + 4) pos
    (store_cached bt _ _ (store_cached bt _ _ Hs)) Lv2 eq_refl Hun Hcu Hk Hfd Hr0 above up
    (stack_top ls t2 (S i) g above up (wf_cached bt Hpg _ _ _ W1) Hne Elv Hst') [])
    as [[E0 Erun]|[(Hlt & Ef0 & t3 & Erun & Rv)|(Hlt & t3 & l' & rid & ri & A' & R1 & r & R2 & B' & todo' & Erun & Hp & Hgr & Hsp & C3 & _)]]; act_step Erun; clear Erun.
  - eapply item_fail; eauto; [apply store_cached, store_cached; exact Hs|right].
    assert (r0 ∈ lrecs ((A ++ A0) ++ n :: B0)) as Hr0i by (apply elem_of_lrecs; exists n; split; [done|by eapply getZ_elem]).
    eapply already; eauto; rewrite <- Ev; apply cmp_eq; auto; by eapply wf_valid.
  - destruct Rv as [C3 R3 H3 B3 K3 S3]; eapply item_fail; eauto; eapply keeps_later; [exact K2|exact K3].
  - apply (item_done t2 t3 n s A0 B0 A A' B B' l' key f g rid ri R1 R2 r todo'); auto; by apply wf_cached.
Qed.

End Item.

(** ** The to-do list *)

(** The tree with a new root over the two nodes of the old top level. *)
Lemma indexed_top (ls : list (list node)) (i : nat) (x a b n : node) :
  indexed_but ls i x -> ls !! i = Some [a; b] -> S i = length ls -> (forall y, y ∈ [a; b] -> exists u, u ∈ lrecs [n] /\ child u = fst y) ->
  indexed (ls ++ [[n]]).
Proof using Hcmp.
  intros [Ha _] Hl Hi Hn; split; [|exists n; by rewrite last_snoc].
  intros j lo up y Hlo Hup Hy; pose proof (lookup_lt_Some _ _ _ Hup) as Hj; rewrite length_app in Hj; cbn in Hj.
  rewrite lookup_app_l in Hlo by lia; destruct (decide (j = i)) as [->|Hji].
  - rewrite Hl in Hlo; injection Hlo as <-; rewrite lookup_app_r in Hup by lia.
    replace (S i - length ls)%nat with 0%nat in Hup by lia; injection Hup as <-; auto.
  - pose proof (lookup_lt_Some _ _ _ Hlo) as Hjl; rewrite <- Hi in Hjl; rewrite lookup_app_l in Hup by (rewrite <- Hi; lia).
    destruct (Ha j lo up y Hlo Hup Hy) as [[? _]|?]; [lia|done].
Qed.

Lemma todo_spec (td : list stack_item) (i : nat) (x : node) (item : todo_item) (ls : list (list node)) (t : tree) (fuel : nat) :
  traverse_data item = td -> (length td < fuel)%nat -> wf t ls -> quiet t ls i -> pending t ls i x item -> indexed_but ls i x ->
  lenZ ls + 1 < 2 ^ 16 ->
  exists t' ls', todo_loop bt comp_fn fresh fuel [item] t = Ok (tt, t') /\ wf t' ls' /\ cached t' = cached t
  /\ (exists X, keeps X t t' /\ forall j l n, (j <= i)%nat -> ls !! j = Some l -> n ∈ l -> fst n ∉ X)
  /\ (forall j, (j <= i)%nat -> ls' !! j = ls !! j)
  /\ (Z.of_nat (length td) < free_num (bitmap t) -> indexed ls').
Proof using All.
  revert i x item ls t fuel; induction td as [|above up IH]; intros i x item ls t fuel Htd Hfu Hw Hq Hpd Hib Hh; (destruct fuel as [|fuel]; [lia|]); cbn [todo_loop].
  - unfold place_index_record; rewrite Htd, (pd_root _ _ _ _ _ Hpd); rewrite !act_assoc.
    destruct (pd_stack _ _ _ _ _ Hpd) as (f & _ & Hst); rewrite Htd in Hst; change (S i = length ls) in Hst.
    destruct (ib_root _ _ _ Hib) as [[Hlt _]|(_ & a & b & Hlast & Hb)]; [rewrite Hst in Hlt; by apply Nat.lt_irrefl in Hlt|].
    rewrite last_lookup, <- Hst in Hlast; cbn [pred] in Hlast.
    destruct (build_ok bt Hpg fresh Hfresh t ls i a b Hw Hlast Hst Hh (fun id w => quiet_loose _ _ _ _ _ Hq) (qu_used _ _ _ Hq) (pd_room _ _ _ _ _ Hpd))
      as [[E0 E]|(t' & n & E & W' & K' & C' & Hn)]; act_step E; rewrite ret_bind.
    + exists t, ls; cbn [todo_loop]; destruct fuel; cbn [todo_loop]; (split; [done|]; split; [done|]; split; [done|]; split; [|split; [done|cbn; lia]];
        exists ∅; split; [apply keeps_refl|intros; apply not_elem_of_empty]).
    + exists t', (ls ++ [[n]]); split; [by destruct fuel|]; split; [done|]; split; [done|]; split; [|split].
      * exists ∅; split; [done|intros; apply not_elem_of_empty].
      * intros j Hj; apply lookup_app_l; lia.
      * intros _; by eapply indexed_top.
  - destruct (index_spec t ls i x item above up Hw Hq Hpd Htd Hib) as (e & t1 & ls1 & todo1 & E & W1 & C1 & (X & K1 & HX) & Hsame & Hlen & Hout); act_step E.
    destruct Hout as [[-> Hout]|(y & item' & -> & Hpd1 & Htd1 & Hfree & Hib1)].
    + exists t1, ls1; split; [by destruct fuel|]; split; [done|]; split; [done|]; split; [eauto|]; split; [intros j Hj; apply Hsame; lia|].
      intros Hf; destruct Hout as [E0|?]; [cbn in Hf; lia|done].
    + destruct (IH (S i) y item' ls1 t1 fuel) as (t2 & ls2 & E2 & W2 & C2 & (Y & K2 & HY) & Hsame2 & Hind); auto.
      * cbn in Hfu; lia.
      * destruct Hq as [Q1 Q2 Q3]; split; rewrite ?C1; auto.
        -- intros id Hid; apply (kp_used _ _ _ K1); auto.
        -- intros j l Hj Hl; rewrite Hsame in Hl by lia; apply (Q3 j); [lia|done].
      * unfold lenZ in *; by rewrite Hlen.
      * exists t2, ls2; split; [done|]; split; [done|]; split; [congruence|]; split; [|split].
        -- exists (X ∪ Y); split; [by eapply keeps_trans|]; intros j l n Hj Hl Hn [Hin|Hin]%elem_of_union; [by apply (HX j l n)|].
           apply (HY j l n); auto; rewrite Hsame by lia; done.
        -- intros j Hj; rewrite Hsame2 by lia; apply Hsame; lia.
        -- intros Hf; apply Hind; cbn in Hf; lia.
Qed.

(** ** Insertion into the leaves *)

(** The abstract insertion: the record goes in front of the first one that is not
    below it. *)
Fixpoint place_sorted (r : list Z) (R : list (list Z)) : list (list Z) :=
  match R with
  | [] => [r]
  | q :: R => if comp_fn q r <? 0 then q :: place_sorted r R else r :: q :: R
  end.

Lemma place_between (X Y : list (list Z)) (r : list Z) :
  Forall valid (X ++ r :: Y) -> sorted comp_fn (X ++ r :: Y) -> place_sorted r (X ++ Y) = X ++ r :: Y.
Proof using Hcmp.
  intros HV Hs; induction X as [|q X IH]; cbn [app place_sorted].
  - destruct Y as [|q Y]; [done|]; cbn [place_sorted app] in *; rewrite !Forall_cons in HV.
    change (r :: q :: Y) with ([r] ++ q :: Y) in Hs; apply sorted_app in Hs as (_ & _ & Hs).
    assert (comp_fn r q < 0) as Hlt by (apply Hs; apply elem_of_cons; by left); apply lt_gt in Hlt; [|apply HV..].
    by rewrite (proj2 (Z.ltb_ge _ _)) by lia.
  - cbn in HV; rewrite Forall_cons in HV; change ((q :: X) ++ r :: Y) with ([q] ++ X ++ r :: Y) in Hs.
    apply sorted_app in Hs as (_ & Hs & Hq); assert (comp_fn q r < 0) as Hlt by (apply Hq; [apply elem_of_cons; by left|apply elem_mid]).
    rewrite (proj2 (Z.ltb_lt _ _)) by done; f_equal; apply IH; [apply HV|done].
Qed.

(** The stored key and its value are the record. *)
Lemma stored_value (r0 r : list Z) :
  krec r0 -> stored r0 (get16 r0 KEY_LEN) (lenZ r0) r -> krec (upd_at r (get16 r0 KEY_LEN) (sub r0 (get16 r0 KEY_LEN) (lenZ r0 - get16 r0 KEY_LEN))) ->
  upd_at r (get16 r0 KEY_LEN) (sub r0 (get16 r0 KEY_LEN) (lenZ r0 - get16 r0 KEY_LEN)) = r0.
Proof using Hpg Hcmp.
  intros (Hr0 & V0 & Hks & Hkm) (Hr & Hl & Hi) Ku; pose proof (key_size_valid r0 V0) as Hsv; pose proof (paged_ok bt Hpg) as Hbt.
  set (k := get16 r0 KEY_LEN) in *; set (v := sub r0 k (lenZ r0 - k)) in *; assert (lenZ v = lenZ r0 - k) as Ev by (apply lenZ_sub; lia).
  transitivity (sub r0 0 (lenZ r0)); [|by apply sub_all]; apply (stored_exact bt Hbt); [by rewrite sub_all|lia|].
  split; [apply Ku|]; split; [rewrite lenZ_upd_at by lia; done|]; intros j Hj Hx; rewrite getZ_upd_at by lia.
  destruct (Z.leb_spec k j), (Z.ltb_spec j (k + lenZ v)); cbn [andb]; try lia; [|apply Hi; lia].
  unfold v; rewrite getZ_sub by lia; f_equal; lia.
Qed.

(** The leaves of a tree. *)
Definition leaves (ls : list (list node)) (R : list (list Z)) : Prop := exists l, ls !! 0%nat = Some l /\ lrecs l = R.

(** The first records of the levels have the same key. *)
Lemma first_down (t : tree) (ls : list (list node)) (i : nat) (l : list node) (r : list Z) (rs R : list (list Z)) :
  wf t ls -> ls !! i = Some l -> lrecs l = r :: rs -> leaves ls R -> exists f fs, R = f :: fs /\ key_view f = key_view r.
Proof using Hcmp.
  intros Hw; revert l r rs; induction i as [|i IH]; intros l r rs Hl Hr (l0 & Hl0 & <-).
  { rewrite Hl in Hl0; injection Hl0 as <-; eauto. }
  destruct (lookup_lt_is_Some_2 ls i) as (lo & Hlo); [apply lookup_lt_Some in Hl; lia|].
  pose proof (wf_index _ _ _ Hw _ _ _ Hlo Hl) as [_ Hch (u & us & Eu & Hhd)]; rewrite Hr in Eu; injection Eu as <- <-.
  destruct (Hch r) as (n & f & Hn & En & Hf & Ev); [rewrite Hr; apply elem_of_cons; by left|].
  destruct lo as [|n0 lo]; [by apply elem_of_nil in Hn|]; cbn in Hhd.
  assert (n = n0) as -> by (eapply (same_id (n0 :: lo)); [apply (lo_nodup _ _ _ (wf_level _ _ _ Hw _ _ Hlo))|done|apply elem_of_cons; by left|congruence]).
  destruct (snd n0) as [|g tl] eqn:Eg; [done|]; unfold getZ in Hf; cbn in Hf; injection Hf as ->.
  destruct (IH (n0 :: lo) f (tl ++ lrecs lo) Hlo) as (f0 & fs & E0 & Ev0); [by rewrite lrecs_cons, Eg|by exists l0|].
  exists f0, fs; split; [done|congruence].
Qed.

(** The leaf level has grown: either no node is new, or one waits. *)
Lemma indexed_leaf_same (ls : list (list node)) (l l' : list node) :
  indexed ls -> ls !! 0%nat = Some l -> map fst l' = map fst l -> indexed (<[0%nat := l']> ls).
Proof.
  intros [Ha (n & Hn)] Hl E; pose proof (lookup_lt_Some _ _ _ Hl) as Hlen; split.
  - intros [|j] lo up y Hlo Hup Hy.
    + rewrite list_lookup_insert_eq in Hlo by done; injection Hlo as <-; rewrite list_lookup_insert_ne in Hup by done.
      assert (fst y ∈ map fst l) as (y0 & Ey & Hy0)%list_elem_of_fmap by (rewrite <- E; by apply (list_elem_of_fmap_2 fst)).
      destruct (Ha 0%nat l up y0 Hl Hup Hy0) as (u & Hu & Hc); exists u; split; [done|congruence].
    + rewrite list_lookup_insert_ne in Hlo, Hup by done; eauto.
  - rewrite (last_insert _ _ _ _ Hl); destruct (decide _) as [Et|]; [|eauto].
    rewrite last_lookup, <- Et in Hn; cbn in Hn; rewrite Hl in Hn; injection Hn as ->; destruct l' as [|a [|b l']]; try done; eauto.
Qed.

Lemma indexed_leaf_split (ls : list (list node)) (y : node) (l l' : list node) :
  indexed ls -> ls !! 0%nat = Some l -> y ∈ l' -> fst y ∉ idset l -> length l' = S (length l) -> hd_id l' 0 = hd_id l 0 ->
  (forall n, n ∈ l' -> fst n = fst y \/ fst n ∈ idset l) -> indexed_but (<[0%nat := l']> ls) 0 y.
Proof.
  intros [Ha (n & Hn)] Hl Hy Hny Hlen' Hhd Hids; pose proof (lookup_lt_Some _ _ _ Hl) as Hlen; split.
  - intros [|j] lo up z Hlo Hup Hz.
    + rewrite list_lookup_insert_eq in Hlo by done; injection Hlo as <-; rewrite list_lookup_insert_ne in Hup by done.
      destruct (Hids z Hz) as [?|(z0 & Hz0 & Ez)%elem_of_idset]; [by left|right].
      destruct (Ha 0%nat l up z0 Hl Hup Hz0) as (u & Hu & Hc); exists u; split; [done|congruence].
    + rewrite list_lookup_insert_ne in Hlo, Hup by done; right; eauto.
  - rewrite (last_insert _ _ _ _ Hl), length_insert; destruct (decide _) as [Et|Nt].
    + right; split; [done|]; rewrite last_lookup, <- Et in Hn; cbn in Hn; rewrite Hl in Hn; injection Hn as ->.
      destruct l' as [|a [|b [|d l']]]; try done; exists a, b; split; [done|]; cbn in Hhd.
      apply elem_of_cons in Hy as [->| ->%list_elem_of_singleton]; [|done]; destruct Hny; rewrite Hhd; apply (idset_elem [n] n), elem_of_cons; by left.
    + left; split; [apply Nat.le_neq; split; [exact Hlen|exact Nt]|eauto].
Qed.

End Insert.
