(* ===== verification/BtreeUpdate.v ===== *)
(** The insertion of a record ([vdfs4_btree_insert]): the tree as a sorted list of
    records. *)

From Stdlib Require Import ZArith Lia Bool List.
From stdpp Require Import base list gmap sets.
From S2P Require Import Prelude Bytes Bitmap Count FindBit Buffer TreeKeys Bnode BnodeRep BnodeSearch BnodeSplit NodeStore StoreRep Btree BtreeRep BtreeLevel BtreeFind BtreePlace BtreeGrow BtreeRoot BtreeInsert.

Open Scope Z_scope.

Section Update.
Context {find : FindBit} {Hfind : FindBitLaws} (bt : btree) (Hpg : paged bt) (fresh : Z -> list Z) (Hfresh : forall id, page_ok bt (fresh id)).
Context {comp_fn : list Z -> list Z -> Z} {valid : list Z -> Prop} `{Hcmp : KeyCmp comp_fn valid}.

#[local] Abbreviation krec := (krec (comp_fn := comp_fn) (valid := valid)).
#[local] Abbreviation level_ok := (level_ok bt (comp_fn := comp_fn) (valid := valid)).
#[local] Abbreviation wf := (wf bt (comp_fn := comp_fn) (valid := valid)).
#[local] Abbreviation key_ok := (key_ok (comp_fn := comp_fn) (valid := valid)).
#[local] Abbreviation placed := (placed bt (comp_fn := comp_fn) (valid := valid)).
#[local] Abbreviation grown := (grown bt (comp_fn := comp_fn) (valid := valid)).
#[local] Abbreviation spread := (spread (comp_fn := comp_fn) (valid := valid)).
#[local] Abbreviation stack_ok := (stack_ok (comp_fn := comp_fn)).
#[local] Abbreviation place_sorted := (place_sorted (comp_fn := comp_fn)).

Lemma record_ok (r : list Z) : krec r -> key_ok r (lenZ r).
Proof. intros ((Hl & Hrl & B) & V & Hks & Hm); split; auto; rewrite ?Hrl; lia. Qed.

(** The leaf level after its record is placed. *)
Section Leaf.
Context (t t2 t3 : tree) (ls : list (list node)) (A B : list node) (n : node) (r0 : list Z) (stack : list stack_item).
Context (Hw : wf t ls) (Hix : indexed ls) (Hidle : cached t = ∅) (Hh : lenZ ls + 1 < 2 ^ 16) (Kr0 : krec r0).
Context (Et2 : t2 = set_cached (hold (cached t) (fst n) true) t).
Context (Hl : ls !! 0%nat = Some (A ++ n :: B)) (Hst : stack_ok ls 0 r0 stack).
Context (item : stack_item) (up : list stack_item) (Estack : stack = item :: up) (Eitem : si_bnode_id item = fst n).
Context (l' A' B' : list node) (rid : Z) (ri : rec_info) (R1 R2 : list (list Z)) (r : list Z) (todo : list todo_item).
Context (Hp : placed t3 (A ++ n :: B) l' r0 (lenZ r0) rid ri A' R1 r R2 B') (Hgr : grown t2 t3 (A ++ n :: B) l').
Context (Hsp : spread t2 t3 (A ++ n :: B) l' n r0 up [] todo) (C3 : cached t3 = hold (cached t) rid true).

#[local] Abbreviation l := (A ++ n :: B).

Lemma leaf_wf : wf t3 (<[0%nat := l']> ls).
Proof using All.
  eapply (wf_grow bt Hpg t2 t3 ls 0 l l'); [rewrite Et2; by apply wf_cached|done| |done|done].
  split; [apply (pl_linked _ _ _ _ _ _ _ _ _ _ _ _ _ Hp)|apply (pl_sorted _ _ _ _ _ _ _ _ _ _ _ _ _ Hp)|apply (gr_nodup _ _ _ _ _ Hgr)|].
  rewrite (pl_level _ _ _ _ _ _ _ _ _ _ _ _ _ Hp); by destruct A'.
Qed.

Lemma leaf_rid : (rid, R1 ++ r :: R2) ∈ l'.
Proof using All. rewrite (pl_level _ _ _ _ _ _ _ _ _ _ _ _ _ Hp); apply elem_mid. Qed.

Lemma leaf_cached : cached t3 = {[rid := (true, 1)]}.
Proof using All. rewrite C3, Hidle; unfold hold; by rewrite lookup_empty. Qed.

Lemma leaf_quiet : quiet t3 (<[0%nat := l']> ls) 0.
Proof using All.
  pose proof leaf_wf as W3; pose proof leaf_rid as Hrid; pose proof (lookup_lt_Some _ _ _ Hl) as Hlen.
  assert (<[0%nat := l']> ls !! 0%nat = Some l') as Hl0 by (by apply list_lookup_insert_eq).
  split; rewrite leaf_cached.
  - intros id Hid; apply lookup_singleton_is_Some in Hid as <-; apply (wf_used bt Hpg _ _ _ _ _ W3 Hl0 Hrid).
  - intros id w k (<- & E)%lookup_singleton_Some; injection E as <- <-; split; [done|lia].
  - intros j lj Hj Hlj z Hz; apply lookup_singleton_None; intros E.
    pose proof (wf_sep _ _ _ W3 0%nat j l' lj _ z Hl0 Hlj Hrid Hz E); lia.
Qed.

Lemma leaf_todo (fuel : nat) :
  (length up < fuel)%nat ->
  exists t4 ls4, todo_loop bt comp_fn fresh (length todo * fuel) todo t3 = Ok (tt, t4) /\ wf t4 ls4 /\ cached t4 = cached t3
  /\ (exists X, keeps X t3 t4 /\ rid ∉ X) /\ ls4 !! 0%nat = Some l' /\ (btree_height t < free_num (bitmap t) -> indexed ls4).
Proof using All.
  intros Hfu; pose proof leaf_wf as W3; pose proof leaf_quiet as Hqt; pose proof leaf_rid as Hrid; pose proof (lookup_lt_Some _ _ _ Hl) as Hlen.
  assert (<[0%nat := l']> ls !! 0%nat = Some l') as Hl0 by (by apply list_lookup_insert_eq).
  destruct Hsp as [(-> & Es & _)|(y & Hy & Hnu & -> & Hlen' & Hids & Hrecs & Hfree & Hroom)].
  { exists t3, (<[0%nat := l']> ls); split; [done|]; split; [done|]; split; [done|]; split; [|split; [done|]].
    - exists ∅; split; [apply keeps_refl|apply not_elem_of_empty].
    - intros _; by eapply indexed_leaf_same. }
  rewrite Estack in Hst; destruct (stack_inv _ _ _ _ _ Hst) as (A0 & s & B0 & g & Hl1 & Es & Elv & Hg & Hgr0 & Hst').
  assert (A0 ++ s :: B0 = A ++ n :: B) as El by congruence.
  assert (s = n) as -> by (eapply (same_id l); [apply (lo_nodup _ _ _ (wf_level _ _ _ Hw _ _ Hl))|rewrite <- El; apply elem_mid|apply elem_mid|congruence]).
  assert (pending (comp_fn := comp_fn) t3 (<[0%nat := l']> ls) 0 y (TodoItem up (fst y) (root_bnode_id t2))) as Hpd.
  { split; [by exists l'|done|symmetry; apply (gr_root _ _ _ _ _ Hgr)| |done].
    destruct (linked_elem _ _ _ _ _ _ (pl_linked _ _ _ _ _ _ _ _ _ _ _ _ _ Hp) Hy) as (? & ? & [_ _ Ky Ny]); destruct (snd y) as [|f tl] eqn:Ef; [done|].
    exists f; split; [done|]; apply stack_insert; [lia|]; apply krec_valid in Ky; rewrite Forall_cons in Ky.
    assert (valid g) as Vg by (apply (wf_valid bt t ls 0 _ g Hw Hl); apply (first_elem n); [apply elem_mid|done]).
    assert (comp_fn g f <= 0) as Hgf; [|eapply stack_mono; [exact Hw|exact Vg|apply Ky|exact Hgf|exact Hst']].
    destruct (Hrecs f) as [Hfn|Hfk]; [apply elem_of_cons; by left| |].
    - by eapply (first_least bt t A [] B n n B g f (wf_level _ _ _ Hw _ _ Hl) eq_refl Hg).
    - eapply view_cmp; [exact Vg|apply Kr0|apply Ky|by symmetry|done]. }
  assert (indexed_but (<[0%nat := l']> ls) 0 y) as Hib.
  { apply (indexed_leaf_split ls y l l' Hix Hl Hy); [|exact Hlen'|apply (gr_hd _ _ _ _ _ Hgr)|exact Hids]; intros (n0 & Hn0 & E0)%elem_of_idset; apply Hnu; rewrite Et2, <- E0.
    apply (wf_used bt Hpg t ls 0 l n0 Hw Hl Hn0). }
  destruct (todo_spec bt Hpg fresh Hfresh up 0 y (TodoItem up (fst y) (root_bnode_id t2)) (<[0%nat := l']> ls) t3 (length [TodoItem up (fst y) (root_bnode_id t2)] * fuel) eq_refl) as (t4 & ls4 & E4 & W4 & C4 & (X & K4 & HX) & Hsame & Hind);
    auto; [cbn; lia|unfold lenZ in *; by rewrite length_insert|].
  exists t4, ls4; split; [done|]; split; [done|]; split; [done|]; split; [|split].
  - exists X; split; [done|]; by apply (HX 0%nat l' _ ltac:(lia) Hl0 Hrid).
  - rewrite Hsame by lia; done.
  - intros Hf; apply Hind; rewrite Hfree, Et2; cbn; pose proof (wf_height _ _ _ Hw) as Hht.
    assert (Z.of_nat (length up) < lenZ ls) as Hup; [|lia].
    clear - Hst' Hlen Hcmp; unfold lenZ; assert (forall st j f, stack_ok ls j f st -> (j + length st)%nat = length ls) as Hgen.
    { induction st as [|it st IH]; intros j f Hs; [cbn in Hs |- *; rewrite Hs; lia|].
      destruct (stack_inv _ _ _ _ _ Hs) as (? & ? & ? & g0 & _ & _ & _ & _ & _ & Hs'); rewrite <- (IH _ _ Hs'); cbn; lia. }
    rewrite <- (Hgen _ _ _ Hst'); lia.
Qed.

(** The value is stored last. *)
Lemma leaf_value (t4 : tree) (ls4 : list (list node)) :
  wf t4 ls4 -> cached t4 = cached t3 -> (exists X, keeps X t3 t4 /\ rid ∉ X) -> ls4 !! 0%nat = Some l' ->
  exists t5, (write_value rid (ri_val ri) (sub r0 (get16 r0 KEY_LEN) (lenZ r0 - get16 r0 KEY_LEN));; vdfs4_put_bnode rid;; mret 0) t4 = Ok (0, t5)
  /\ wf t5 (<[0%nat := A' ++ (rid, R1 ++ r0 :: R2) :: B']> ls4) /\ cached t5 = ∅.
Proof using All.
  intros W4 C4 (X & K4 & HX) Hl4; pose proof Hp as [El Eold Hsome Hlk Hsrt Har].
  assert (placed t4 l l' r0 (lenZ r0) rid ri A' R1 r R2 B') as Hp4.
  { split; auto; [apply (lo_linked _ _ _ (wf_level _ _ _ W4 _ _ Hl4))|by eapply at_keeps]. }
  assert (cached t4 !! rid = Some (true, 1)) as Hc4 by (rewrite C4, leaf_cached; apply lookup_singleton_eq).
  pose proof (record_ok r0 Kr0) as Hk; pose proof Kr0 as ((Hl0 & Hrl & Br) & V0 & Hks & Hkm); pose proof (key_size_valid r0 V0) as Hsv.
  pose proof (lo_nodup _ _ _ (wf_level _ _ _ W4 _ _ Hl4)) as Hnd.
  destruct (level_write bt Hpg t4 t4 l l' l' r0 (sub r0 (get16 r0 KEY_LEN) (lenZ r0 - get16 r0 KEY_LEN)) (lenZ r0) rid 1 ri A' R1 R2 r B' Hp4
    (grown_refl bt t4 l' (wf_store _ _ _ W4) Hnd) Hk Hc4) as (t5 & E5 & W5 & Lv5 & G5 & Ku & Vu & Klu & _);
    [rewrite lenZ_sub; lia|by apply Forall_sub|].
  rewrite (stored_value bt Hpg r0 r Kr0 (ar_stored _ _ _ _ _ _ _ _ _ _ _ Har) Ku) in *.
  act_step E5; assert (vdfs4_put_bnode rid t5 = Ok (tt, set_cached ∅ t5)) as E6.
  { apply (put_ok t5 ∅ rid true); [|by apply loose_free, lookup_empty]; rewrite (wo_cached _ _ _ _ W5), C4, C3, Hidle; done. }
  act_step E6; exists (set_cached ∅ t5); split; [done|]; split; [|done]; apply wf_cached; [exact Hpg|].
  eapply (wf_grow bt Hpg t4 t5 ls4 0 l'); eauto; done.
Qed.

End Leaf.

(** ** The whole operations *)

(** The tree [t] holds the records [R] in the levels [ls], every node has its index
    record, and no node is fetched. *)
Record holds (t : tree) (ls : list (list node)) (R : list (list Z)) : Prop := {
  ho_wf : wf t ls;
  ho_indexed : indexed ls;
  ho_idle : cached t = ∅;
  ho_leaves : leaves ls R
}.

(** The same of a tree, whatever its calls are going to answer. *)
Definition well_formed (t : tree) (ls : list (list node)) : Prop := wf (set_env [] t) ls.
Definition contains (t : tree) (ls : list (list node)) (R : list (list Z)) : Prop := holds (set_env [] t) ls R.

Lemma no_cache (ti : nat) (t : tree) (ls : list (list node)) : cached t = ∅ -> idle ti t ls.
Proof. intros E i l _ _ n _; rewrite E; apply lookup_empty. Qed.

(** The key is below the first record of the tree. *)
Lemma below_first (t : tree) (ls : list (list node)) (R : list (list Z)) (top : list node) (r key : list Z) (rs : list (list Z)) :
  wf t ls -> leaves ls R -> last ls = Some top -> lrecs top = r :: rs -> valid key -> 0 < comp_fn r key ->
  exists f fs, R = f :: fs /\ 0 < comp_fn f key.
Proof using Hcmp.
  intros Hw Hlv Htop Hr Vk Hgt; rewrite last_lookup in Htop; pose proof Hlv as (l & Hl & HR).
  destruct (first_down bt t ls _ top r rs R Hw Htop Hr Hlv) as (f & fs & -> & Ev); exists f, fs; split; [done|].
  apply cmp_gt; [apply (wf_valid bt t ls 0 l f Hw Hl); rewrite HR; apply elem_of_cons; by left|done|].
  rewrite Ev; apply cmp_gt; [|done|done]; apply (wf_valid bt t ls _ top r Hw Htop); rewrite Hr; apply elem_of_cons; by left.
Qed.

(** The position of the floor in the list of records. *)
Lemma leaf_floor (t : tree) (ls : list (list node)) (A B : list node) (n : node) (key r : list Z) (pos : Z) (R : list (list Z)) :
  wf t ls -> ls !! 0%nat = Some (A ++ n :: B) -> leaves ls R -> found (comp_fn := comp_fn) key n B pos -> getZ (snd n) pos = Some r ->
  exists X Y, R = X ++ r :: Y /\ Forall (fun q => 0 < comp_fn q key) Y.
Proof using Hcmp.
  intros Hw Hl (l & Hl' & <-) [_ Haft Hright] Hr; rewrite Hl in Hl'; injection Hl' as <-; pose proof (getZ_bounds _ _ _ Hr) as Hb.
  exists (lrecs A ++ take (Z.to_nat pos) (snd n)), (drop (Z.to_nat (pos + 1)) (snd n) ++ lrecs B); split; [|by apply Forall_app].
  unfold getZ in Hr; rewrite (proj2 (Z.ltb_ge pos 0)) in Hr by lia; rewrite lrecs_app, lrecs_cons, <- app_assoc; f_equal.
  rewrite <- (take_drop_middle (snd n) (Z.to_nat pos) r) at 1 by done; rewrite <- app_assoc; cbn [app].
  by replace (Z.to_nat (pos + 1)) with (S (Z.to_nat pos)) by lia.
Qed.

(** The outcome of a search for [key] in the records [R]. *)
Definition find_result (t : tree) (ls : list (list node)) (R : list (list Z)) (key : list Z) (w : bool)
    (res : run (res (Z * rec_info) * tree)) : Prop :=
  (exists f fs, R = f :: fs /\ 0 < comp_fn f key /\ res = Ok (Err (- ENOENT), t))
  \/ exists X r Y id ri, R = X ++ r :: Y /\ comp_fn r key <= 0 /\ Forall (fun q => 0 < comp_fn q key) Y
     /\ res = Ok (Val (id, ri), set_cached (hold (cached t) id w) t)
     /\ (exists m, pages t !! id = Some m /\ sub m (ri_key ri) (lenZ r) = r /\ ri_val ri = Val (ri_key ri + get16 r KEY_LEN)).

Lemma find_spec (t : tree) (ls : list (list node)) (R : list (list Z)) (key : list Z) (w : bool) :
  wf t ls -> cached t = ∅ -> leaves ls R -> valid key -> find_result t ls R key w (vdfs4_btree_find bt comp_fn fresh key w t).
Proof using Hpg Hcmp.
  intros Hw Hidle Hlv Vk; pose proof (paged_ok bt Hpg) as Hbt; pose proof Hlv as (l0 & Hl0 & _).
  unfold vdfs4_btree_find; act_step (env_ok t (so_env _ _ (wf_store _ _ _ Hw))); cbn [Z.eqb negb].
  destruct (traverse_spec bt Hpg fresh 0 t ls key w None Hw (no_cache 0 t ls Hidle) Vk ltac:(by eapply lookup_lt_Some) I)
    as [(top & r & rs & Htop & Hr & Hgt & E)|(A & n & B & pos & ps' & Hl & E & Hfd & _)]; change (Z.of_nat 1) with VDFS4_BTREE_LEAF_LVL in E; act_step E.
  { left; destruct (below_first t ls R top r key rs Hw Hlv Htop Hr Vk Hgt) as (f & fs & -> & Hf); exists f, fs; auto. }
  right; pose proof Hfd as [(r & Hr & Hle) _ _]; destruct (leaf_floor t ls A B n key r pos R Hw Hl Hlv Hfd Hr) as (X & Y & -> & HY).
  set (t1 := set_cached _ t); assert (wf t1 ls) as W1 by (by apply wf_cached).
  destruct (linked_elem _ _ _ _ _ n (lo_linked _ _ _ (wf_level _ _ _ W1 _ _ Hl)) (elem_mid _ _ _)) as (p & q & Hn).
  destruct (hold_lookup (cached t) (fst n) w) as (k & Ek); destruct (record_read bt Hbt t1 p q n _ k pos r Hn Ek Hr)
    as (m & S & F & o & x & Hm & Hly & HS & HSo & _ & Erec & Eval & _); act_step Erec.
  assert (krec r) as Kr by (destruct Hn as [_ _ Hkr _]; rewrite Forall_forall in Hkr; apply Hkr; by eapply getZ_elem).
  destruct Kr as ((HL & Hrl & _) & _ & Hks & Hkm); pose proof (slot_bounds bt _ _ _ _ _ Hly (getZ_elem _ _ _ HSo)) as (Ho & Hof & _).
  pose proof (layout_bounds bt _ _ _ Hly) as [_ Hhi]; pose proof (lenZ_nonneg S); pose proof (ly_len _ _ _ _ Hly) as Hlen; unfold DESCR_SIZE in Ho.
  pose proof (ly_data _ _ _ _ Hly) as Hd; rewrite Forall_forall in Hd; specialize (Hd _ (getZ_elem _ _ _ HSo)); cbn [fst snd] in Hd.
  assert (get16 m (o + KEY_LEN) = get16 r KEY_LEN) as Ekl by (unfold get16, KEY_LEN; rewrite <- Hd; rewrite sub_sub by lia; done).
  assert (read_node (fst n) (fun b => form_gen_record b o pos) t1 = Ok ((0, RecInfo o (Val (o + get16 r KEY_LEN)) pos), t1)) as Eform.
  { eapply read_ok; [exact Hm|exact Ek|]; unfold form_gen_record, get_value_pointer; cbn [data].
    rewrite rd16_ok by (unfold KEY_LEN; lia); cbn [mbind run_bind]; rewrite Ekl, (proj2 (Z.ltb_ge _ _)) by lia; done. }
  act_step Eform; cbn [Z.eqb negb]; eexists X, r, Y, _, _; split; [done|]; split; [done|]; split; [done|]; split; [done|].
  exists m; split; [exact Hm|]; done.
Qed.

(** The outcome of the insertion of [r0] into a tree with the records [R]. *)
Definition insert_result (t : tree) (ls : list (list node)) (R : list (list Z)) (r0 : list Z) (res : run (Z * tree)) : Prop :=
  (exists f fs, R = f :: fs /\ 0 < comp_fn f r0 /\ res = Ok (- ENOENT, t))
  \/ (exists r, r ∈ R /\ comp_fn r r0 = 0 /\ res = Ok (- EEXIST, t))
  \/ (exists t', res = Ok (- ENOSPC, t') /\ free_num (bitmap t) = 0 /\ holds t' ls R)
  \/ (exists t' ls', res = Ok (0, t') /\ (forall r, r ∈ R -> comp_fn r r0 <> 0) /\ (forall f fs, R = f :: fs -> comp_fn f r0 <= 0) /\ wf t' ls' /\ cached t' = ∅ /\ leaves ls' (place_sorted r0 R)
      /\ (btree_height t < free_num (bitmap t) -> indexed ls')).

(** Storing the value and releasing the node, as [btree_insert_at_level] does it. *)
Lemma store_value (r0 : list Z) (id : Z) (ri : rec_info) (t : tree) :
  krec r0 ->
  (record_len ← lift (rd16 r0 RECORD_LEN);
   key_len ← lift (rd16 r0 KEY_LEN);
   src ← lift (get_value_pointer r0 0);
   match src with
   | Err _ => lift Fault
   | Val a => v ← lift (slice r0 a (record_len -32 key_len)); write_value id (ri_val ri) v;; vdfs4_put_bnode id;; mret 0
   end) t
  = (write_value id (ri_val ri) (sub r0 (get16 r0 KEY_LEN) (lenZ r0 - get16 r0 KEY_LEN));; vdfs4_put_bnode id;; mret 0) t.
Proof using Hcmp.
  intros ((Hl & Hrl & B) & V & Hks & Hkm); pose proof (key_size_valid r0 V) as Hsv; unfold VDFS4_MAX_BTREE_REC_LEN, VDFS4_MAX_BTREE_KEY_LEN in *.
  lift_step (rd16_ok r0 RECORD_LEN ltac:(done) ltac:(unfold RECORD_LEN; lia)); lift_step (rd16_ok r0 KEY_LEN ltac:(done) ltac:(unfold KEY_LEN; lia)).
  assert (get_value_pointer r0 0 = Ok (Val (get16 r0 KEY_LEN))) as Eg.
  { unfold get_value_pointer; rewrite rd16_ok by (unfold KEY_LEN; lia); cbn [mbind run_bind]; change (0 + KEY_LEN) with KEY_LEN; change (0 + get16 r0 KEY_LEN) with (get16 r0 KEY_LEN).
    unfold VDFS4_MAX_BTREE_KEY_LEN; rewrite (proj2 (Z.ltb_ge _ _)) by lia; done. }
  lift_step Eg; rewrite Hrl, u32_small by lia; by lift_step (slice_sub r0 (get16 r0 KEY_LEN) (lenZ r0 - get16 r0 KEY_LEN) ltac:(lia) ltac:(lia) ltac:(lia)).
Qed.

Lemma insert_spec (t : tree) (ls : list (list node)) (R : list (list Z)) (r0 : list Z) :
  holds t ls R -> krec r0 -> lenZ ls + 1 < 2 ^ 16 -> insert_result t ls R r0 (vdfs4_btree_insert bt comp_fn fresh r0 t).
Proof using All.
  intros [Hw Hix Hidle Hlv] Kr0 Hh; pose proof Hlv as (l0 & Hl0 & _); pose proof Kr0 as ((HL & Hrl & Br) & V0 & _).
  unfold vdfs4_btree_insert, btree_insert_at_level, place_data_at_level; rewrite act_assoc.
  destruct (traverse_spec bt Hpg fresh 0 t ls r0 true (Some ([], [])) Hw (no_cache 0 t ls Hidle) V0 ltac:(by eapply lookup_lt_Some) eq_refl)
    as [(top & r & rs & Htop & Hr & Hgt & E)|(A & n & B & pos & ps' & Hl & E & Hfd & Hto)]; change (Z.of_nat 1) with VDFS4_BTREE_LEAF_LVL in E; act_step E.
  { left; destruct (below_first t ls R top r r0 rs Hw Hlv Htop Hr V0 Hgt) as (f & fs & -> & Hf); exists f, fs; auto. }
  destruct ps' as [[stack todo]|]; [|done]; destruct Hto as (Hst & (item & up & Estack & Eitem) & Htodo); rewrite (Htodo Hix); clear Htodo.
  rewrite act_assoc; lift_step (rd16_ok r0 RECORD_LEN ltac:(done) ltac:(unfold RECORD_LEN; lia)); rewrite Hrl.
  set (t2 := set_cached (hold (cached t) (fst n) true) t); pose proof Hfd as [(r1 & Hr1 & Hle1) _ _].
  destruct (leaf_floor t ls A B n r0 r1 pos R Hw Hl Hlv Hfd Hr1) as (X & Y & ER & HY).
  assert (unheld (cached t) (A ++ n :: B)) as Hun by (intros z _; rewrite Hidle; apply lookup_empty).
  pose proof Hst as Hst0; rewrite Estack in Hst0; destruct (stack_inv _ _ _ _ _ Hst0) as (_ & _ & _ & g & _ & _ & Elv & _ & _ & Hst1).
  assert (level_ok t2 (A ++ n :: B)) as Lv2 by (by eapply (wf_level _ _ _ (wf_cached bt Hpg t _ ls Hw))).
  assert (R = lrecs (A ++ n :: B)) as ER0 by (destruct Hlv as (l1 & Hl1 & <-); rewrite Hl in Hl1; by injection Hl1 as <-).
  assert (forall id, is_Some (cached t !! id) -> used t2 id) as Hcu by (intros id; rewrite Hidle, lookup_empty; by intros [? ?]).
  assert (ls !! 0%nat <> None) as Hne by (by rewrite Hl).
  rewrite act_assoc, Estack.
  destruct (place_key_spec bt Hpg fresh Hfresh t2 (cached t) A B n r0 r1 (lenZ r0) pos (store_cached bt _ _ (wf_store _ _ _ Hw)) Lv2 eq_refl Hun Hcu
    (record_ok r0 Kr0) Hfd Hr1 item up (stack_top bt ls t2 0 g item up (wf_cached bt Hpg _ _ _ Hw) Hne Elv Hst1) [])
    as [[E0 Erun]|[(Hlt & Ef0 & t3 & Erun & Rv)|(Hlt & t3 & l' & rid & ri & A' & R1 & r & R2 & B' & todo' & Erun & Hp & Hgr & Hsp & C3 & Efront)]];
    act_step Erun; clear Erun.
  - right; left; exists r1; split; [rewrite ER; apply elem_mid|]; split; [done|]; rewrite act_assoc.
    assert (vdfs4_put_bnode (fst n) t2 = Ok (tt, t)) as Ep by (apply put_hold; apply loose_free; rewrite Hidle; apply lookup_empty).
    act_step Ep; done.
  - right; right; left; rewrite act_assoc; destruct Rv as [Cr Rr Hr0 Br0 Kr Sr].
    assert (vdfs4_put_bnode (fst n) t3 = Ok (tt, set_cached (cached t) t3)) as Ep
      by (apply (put_ok t3 (cached t) (fst n) true Cr); apply loose_free; rewrite Hidle; apply lookup_empty).
    act_step Ep; eexists; split; [reflexivity|]; split; [done|]; split; [|done|exact Hidle|done].
    apply wf_cached; [exact Hpg|]; eapply wf_keeps; [exact Hpg|apply (wf_cached bt Hpg t (hold (cached t) (fst n) true) ls Hw)|exact Kr|exact Sr|exact Rr|exact Hr0].
  - right; right; right; rewrite act_assoc, ret_bind, act_assoc.
    destruct (leaf_todo t t2 t3 ls A B n r0 stack Hw Hix Hidle Hh Kr0 eq_refl Hl Hst item up Estack Eitem l' A' B' rid ri R1 R2 r todo' Hp Hgr Hsp C3 (S (length (item :: up))))
      as (t4 & ls4 & E4 & W4 & C4 & K4 & Hl4 & Hind); [cbn; lia|].
    act_step E4; rewrite ret_bind; cbn beta iota; rewrite (store_value r0 rid ri t4 Kr0).
    destruct (leaf_value t t2 t3 ls A B n r0 stack Hw Hix Hidle Hh Kr0 eq_refl Hl Hst item up Estack Eitem l' A' B' rid ri R1 R2 r todo' Hp Hgr Hsp C3 t4 ls4 W4 C4 K4 Hl4)
      as (t5 & E5 & W5 & C5).
    set (ls5 := <[0%nat := _]> ls4) in W5; pose proof (lookup_lt_Some _ _ _ Hl4) as Hlen4.
    assert (ls5 !! 0%nat = Some (A' ++ (rid, R1 ++ r0 :: R2) :: B')) as Hl5 by (by apply list_lookup_insert_eq).
    assert (lrecs (A' ++ (rid, R1 ++ r0 :: R2) :: B') = (lrecs A' ++ R1) ++ r0 :: R2 ++ lrecs B') as Enew
      by (rewrite lrecs_app, lrecs_cons; cbn [snd]; by rewrite <- !app_assoc).
    pose proof (wf_level _ _ _ W5 _ _ Hl5) as Lv5; pose proof (lo_sorted _ _ _ Lv5) as Hs5; rewrite Enew in Hs5.
    pose proof (linked_krec _ _ _ _ _ (lo_linked _ _ _ Lv5)) as HV5; apply krec_valid in HV5; rewrite Enew in HV5.
    pose proof (pl_old _ _ _ _ _ _ _ _ _ _ _ _ _ Hp) as Eold.
    exists t5, ls5; split; [exact E5|]; split; [|split; [|split; [done|split; [done|split; [|]]]]].
    + intros q Hq E0; rewrite ER0, Eold in Hq; change (r0 :: R2 ++ lrecs B') with ([r0] ++ R2 ++ lrecs B') in Hs5.
      rewrite Forall_app, Forall_cons, !Forall_forall in HV5; destruct HV5 as (VX & _ & VY).
      apply sorted_app in Hs5 as (_ & Hs5 & HX5); apply sorted_app in Hs5 as (_ & _ & HY5); apply elem_of_app in Hq as [Hq|Hq].
      * specialize (HX5 q r0 Hq ltac:(apply elem_of_app; left; apply elem_of_cons; by left)); lia.
      * specialize (HY5 r0 q ltac:(apply elem_of_cons; by left) Hq); pose proof (cmp_antisym r0 q V0 (VY q Hq)); lia.
    + intros f fs Ef; pose proof (pl_some _ _ _ _ _ _ _ _ _ _ _ _ _ Hp) as Hsome; rewrite <- ER0, Ef in Eold; apply sorted_app in Hs5 as (_ & _ & HX5).
      destruct (lrecs A' ++ R1) as [|f' X']; [done|]; injection Eold as <- _.
      specialize (HX5 f r0 ltac:(apply elem_of_cons; by left) ltac:(apply elem_of_cons; by left)); lia.
    + exists (A' ++ (rid, R1 ++ r0 :: R2) :: B'); split; [done|]; rewrite ER0, Eold, Enew; symmetry; by apply place_between.
    + intros Hf; eapply indexed_leaf_same; [by apply Hind|exact Hl4|rewrite (pl_level _ _ _ _ _ _ _ _ _ _ _ _ _ Hp); by rewrite !map_app].
Qed.

End Update.
