(* ===== verification/BtreeEnv.v ===== *)
(** The search of a tree when calls fail (src/linux/fs/vdfs4/btree.c and bnode.c):
    an allocation, the reading of a node or its validation may answer anything. The
    search then gives the answer it gives when all calls succeed, or the code of
    the call that failed, and no node has changed. *)

From Stdlib Require Import ZArith Lia Bool List.
From stdpp Require Import base list gmap sets.
From S2P Require Import Prelude Bytes Bitmap FindBit Buffer TreeKeys Bnode BnodeRep BnodeSearch NodeStore StoreRep Btree BtreeRep BtreeLevel BtreeFind BtreeInsert BtreeUpdate.

Open Scope Z_scope.

(** The tree on disk is the same: the nodes, their ids, the head and what is dirty. *)
Record nodes_kept (t t' : tree) : Prop := {
  nk_pages : pages t' = pages t;
  nk_bitmap : bitmap t' = bitmap t;
  nk_root : root_bnode_id t' = root_bnode_id t;
  nk_height : btree_height t' = btree_height t;
  nk_dirty : dirty_nodes t' = dirty_nodes t;
  nk_available : available t' = available t
}.

Lemma nodes_refl (t : tree) : nodes_kept t t.
Proof. by split. Qed.

Lemma nodes_trans (t t' t'' : tree) : nodes_kept t t' -> nodes_kept t' t'' -> nodes_kept t t''.
Proof. intros [? ? ? ? ? ?] [? ? ? ? ? ?]; split; congruence. Qed.

#[local] Hint Resolve nodes_refl nodes_trans : core.

(** The tree in an environment where every call succeeds is the tree itself, when
    its calls succeed. *)
Lemma calls_id (t : tree) : calls_succeed t -> set_env [] t = t.
Proof. unfold calls_succeed; destruct t; cbn; by intros ->. Qed.

(** An action that asks nothing of the environment. *)
Definition blind {A : Type} (m : act A) : Prop :=
  forall t es, m (set_env es t) = match m t with Ok (a, u) => Ok (a, set_env es u) | Bug => Bug | Fault => Fault end.

(** An action at [t] that, compared with a run in which every call succeeds, gives the
    same result or an error of [err]; it changes no node in either case. *)
Definition steady {A : Type} (err : A -> tree -> Prop) (m : act A) (t : tree) : Prop :=
  env t = [] -> forall u a, m t = Ok (a, u) ->
  env u = [] /\ nodes_kept t u
  /\ forall es, (exists es', m (set_env es t) = Ok (a, set_env es' u)) \/ exists b u', m (set_env es t) = Ok (b, u') /\ err b u' /\ nodes_kept t u'.

Definition never {A : Type} (a : A) (t : tree) : Prop := False.

Lemma steady_blind {A : Type} (err : A -> tree -> Prop) (m : act A) (t : tree) :
  blind m -> (forall a u, m t = Ok (a, u) -> nodes_kept t u /\ env u = env t) -> steady err m t.
Proof. intros Hb Hk He u a E; destruct (Hk _ _ E) as [Hn Hu]; split; [congruence|]; split; [done|]; intros es; left; exists es; by rewrite Hb, E. Qed.

(** What follows an action: [f] passes its errors on. *)
Lemma steady_bind {A B : Type} (errA : A -> tree -> Prop) (err : B -> tree -> Prop) (m : act A) (f : A -> act B) (t : tree) :
  steady errA m t -> (forall a u, m t = Ok (a, u) -> steady err (f a) u) ->
  (forall b u, errA b u -> nodes_kept t u -> exists c u', f b u = Ok (c, u') /\ err c u' /\ nodes_kept u u') -> steady err (m ≫= f) t.
Proof.
  intros Hm Hf Hx He u a E; unfold mbind, act_bind in *; destruct (m t) as [[b v]| |] eqn:Em; try done.
  destruct (Hm He v b Em) as (Hv & Hn & Hes); destruct (Hf b v eq_refl Hv u a E) as (Hu & Hn' & Hes'); split; [done|]; split; [eauto|].
  intros es; destruct (Hes es) as [(es' & ->)|(c & w & -> & Hc & Hw)].
  - destruct (Hes' es') as [(es2 & E2)|(c & w & E2 & Hc & Hw)]; [by left; exists es2|]; right; exists c, w; eauto.
  - right; destruct (Hx c w Hc Hw) as (x & w' & Ex & Hxx & Hw'); exists x, w'; eauto.
Qed.

Lemma steady_then {A B : Type} (err : B -> tree -> Prop) (m : act A) (f : A -> act B) (t : tree) :
  steady never m t -> (forall a u, m t = Ok (a, u) -> steady err (f a) u) -> steady err (m ≫= f) t.
Proof. intros Hm Hf; apply (steady_bind never); [done|done|by intros b u []]. Qed.

Lemma steady_ret {A : Type} (err : A -> tree -> Prop) (a : A) (t : tree) : steady err (mret a) t.
Proof. apply steady_blind; [done|]; intros b u [= <- <-]; done. Qed.

Lemma steady_lift {A : Type} (err : A -> tree -> Prop) (m : run A) (t : tree) : steady err (lift m) t.
Proof. apply steady_blind; [intros t' es|intros a u]; unfold lift; destruct m as [b| |]; cbn; try done; by intros [= <- <-]. Qed.

Lemma steady_state {A : Type} (err : A -> tree -> Prop) (f : tree -> A) (t : tree) : (forall t es, f (set_env es t) = f t) -> steady err (state f) t.
Proof. intros Hf; apply steady_blind; [intros t' es; unfold state; by rewrite Hf|]; intros a u [= <- <-]; done. Qed.

Lemma steady_read {A : Type} (err : A -> tree -> Prop) (id : Z) (f : bnode -> run A) (t : tree) : steady err (read_node id f) t.
Proof.
  apply steady_blind; [intros t' es|intros a u]; unfold read_node, node_of; cbn [pages cached readonly set_env]; [destruct (pages t' !! id), (cached t' !! id) as [[w n]|]|destruct (pages t !! id), (cached t !! id) as [[w n]|]];
    cbn; try done; destruct (f _); cbn; try done; by intros [= <- <-].
Qed.

Lemma steady_put (err : unit -> tree -> Prop) (id : Z) (t : tree) : steady err (vdfs4_put_bnode id) t.
Proof.
  apply steady_blind; [intros t' es|intros a u]; unfold vdfs4_put_bnode, panic_head, state, change, lift, mbind, act_bind, mret, act_ret; cbn; [destruct (cached t' !! id) as [[w n]|]|destruct (cached t !! id) as [[w n]|]];
    cbn; try done; destruct (n <=? 0), (n - 1 =? 0); cbn; try done; by intros [= <- <-].
Qed.

(** A node that is read is fetched. *)
Lemma read_fetched {A : Type} (id : Z) (f : bnode -> run A) (t u : tree) (a : A) : read_node id f t = Ok (a, u) -> u = t /\ is_Some (cached t !! id).
Proof.
  unfold read_node, node_of; destruct (pages t !! id), (cached t !! id) as [[w n]|]; cbn; try done; destruct (f _); cbn; try done; intros [= <- <-]; eauto.
Qed.

(** A call answers something. *)
Lemma env_any (t : tree) : exists e es, env_call t = Ok (e, set_env es t).
Proof. unfold env_call; destruct (env t) as [|e es] eqn:E; [exists 0, []|by exists e, es]; rewrite <- E; by destruct t. Qed.

Lemma same_flag (es : list Z) (t : tree) : set_env es (set_readonly (readonly t) t) = set_env es t.
Proof. by destruct t. Qed.

(** A node that is fetched can be released. *)
Lemma put_fetched (id : Z) (t : tree) : is_Some (cached t !! id) -> exists t', vdfs4_put_bnode id t = Ok (tt, t') /\ nodes_kept t t'.
Proof.
  intros ([w n] & E); unfold vdfs4_put_bnode, panic_head, state, change, mbind, act_bind, mret, act_ret; rewrite E; destruct (n <=? 0), (n - 1 =? 0); cbn; eexists; split; try reflexivity; by split.
Qed.

(** A node that has just been fetched is gone after its release. *)
Lemma put_fresh (id : Z) (rw : bool) (t : tree) (c : gmap Z (bool * Z)) :
  cached t = <[id := (rw, 1)]> c -> c !! id = None -> exists t', vdfs4_put_bnode id t = Ok (tt, t') /\ nodes_kept t t' /\ cached t' = c.
Proof.
  intros E Hc; unfold vdfs4_put_bnode; act_step (state_ok cached t); rewrite E, lookup_insert_eq; cbn [Z.leb Z.compare]; rewrite ret_bind; change (1 - 1 =? 0) with true; cbn iota.
  eexists; split; [reflexivity|]; split; [by split|]; cbn; by rewrite delete_insert_id.
Qed.

Create HintDb steady.
#[local] Hint Resolve steady_ret steady_lift steady_read steady_put steady_state : steady.

(** Past an action that asks nothing. *)
Ltac steady_step := apply steady_then; [solve [eauto with steady]|].

(** An error code in a result. *)
Definition failed {A : Type} (r : res A) : Prop := exists e, r = Err e /\ e <> 0.

Section Env.
Context {find : FindBit} (bt : btree) (fresh : Z -> list Z) (comp_fn : list Z -> list Z -> Z).

(** ** Fetching a node *)

(** The attempts at reading a node change nothing but the flag of a volume that has
    become read-only, which they leave alone when they succeed. *)
Lemma attempts_any (n : nat) (id : Z) (t : tree) :
  exists ret es ro, read_attempts bt fresh n id false t = Ok (ret, set_env es (set_readonly ro t)) /\ (ret = 0 -> ro = readonly t).
Proof.
  revert t; induction n as [|n IH]; intros t; cbn [read_attempts].
  all: destruct (env_any t) as (a & es1 & E1); act_step E1; destruct (Z.eqb_spec a 0) as [->|Na]; cbn [negb]; [|exists a, es1, (readonly t); split; [by rewrite same_flag|done]].
  all: destruct (env_any (set_env es1 t)) as (b & es2 & E2); act_step E2; destruct (Z.eqb_spec b 0) as [->|Nb]; cbn [negb]; [|by exists (- ENOMEM), es2, true].
  all: destruct (env_any (set_env es2 t)) as (c & es3 & E3); change (set_env es2 (set_env es1 t)) with (set_env es2 t); act_step E3; destruct (Z.eqb_spec c 0) as [->|Nc];
    [exists 0, es3, (readonly t); split; [by rewrite same_flag|done]|].
  - destruct (mount_finished bt); [by exists (- EINVAL), es3, true|]; exists (- EINVAL), es3, (readonly t); split; [by rewrite same_flag|done].
  - destruct (IH (set_env es3 t)) as (ret & es & ro & E & Hr); exists ret, es, ro; split; [exact E|exact Hr].
Qed.

(** Fetching a node: the node, or the code of the call that failed, with the same nodes
    fetched as before. *)
Lemma steady_get (id : Z) (rw : bool) (t : tree) : steady (fun r u => failed r /\ cached u = cached t) (vdfs4_get_bnode bt fresh id rw) t.
Proof.
  intros He u r; unfold vdfs4_get_bnode; act_step (state_ok bitmap t).
  destruct (negb (id =? 0) && (bits_num (bitmap t) <=? id)) eqn:E1; [intros [= <- <-]; split; [done|]; split; [done|]; intros es; left; exists es; act_step (state_ok bitmap (set_env es t)); cbn [bitmap set_env]; by rewrite E1|].
  destruct (negb (id =? 0) && negb (bit (bits (bitmap t)) id)) eqn:E2; [intros [= <- <-]; split; [done|]; split; [done|]; intros es; left; exists es; act_step (state_ok bitmap (set_env es t)); cbn [bitmap set_env]; by rewrite E1, E2|].
  act_step (state_ok cached t); destruct (cached t !! id) as [[w n]|] eqn:Ec; [intros [= <- <-]|].
  { split; [done|]; split; [by split|]; intros es; left; exists es; act_step (state_ok bitmap (set_env es t)); cbn [bitmap set_env]; rewrite E1, E2; act_step (state_ok cached (set_env es t)); cbn [cached set_env]; by rewrite Ec. }
  unfold alloc_bnode; rewrite !act_assoc; act_step (env_ok t He); rewrite !ret_bind; cbn [Z.eqb negb]; set (t1 := set_cached (<[id := (rw, 1)]> (cached t)) t).
  rewrite (act_bind_ok _ _ _ _ _ (change_ok _ _)); fold t1; act_step (read_ok_data bt fresh t1 id false He); cbn [Z.eqb negb]; intros [= <- <-].
  split; [done|]; split; [by split|]; intros es; act_step (state_ok bitmap (set_env es t)); cbn [bitmap set_env]; rewrite E1, E2; act_step (state_ok cached (set_env es t)); cbn [cached set_env]; rewrite Ec.
  rewrite act_assoc; destruct (env_any (set_env es t)) as (e & es1 & E3); act_step E3; rewrite !ret_bind.
  destruct (Z.eqb_spec e 0) as [->|Ne]; cbn [Z.eqb negb]; [|right; eexists _, _; split; [reflexivity|]; split; [split; [by eexists|done]|by split]].
  rewrite (act_bind_ok _ _ _ _ _ (change_ok _ _)); change (set_cached _ (set_env es1 _)) with (set_env es1 t1); unfold read_or_create_bnode_data.
  destruct (attempts_any VDFS4_META_REREAD_BNODE id (set_env es1 t1)) as (ret & es2 & ro & E4 & Hr); act_step E4; destruct (Z.eqb_spec ret 0) as [->|Nr]; cbn [negb].
  - left; exists es2; rewrite (Hr eq_refl); by destruct t.
  - right; destruct (put_fresh id rw (set_env es2 (set_readonly ro t1)) (cached t) eq_refl Ec) as (u' & E5 & Hn & Hc); act_step E5; exists (Err ret), u'; split; [done|]; split; [split; [by exists ret|done]|].
    apply (nodes_trans _ (set_env es2 (set_readonly ro t1))); [by split|done].
Qed.

(** ** The search *)

(** The error of a search. *)
Definition no_node (r : res Z * Z * paths) (u : tree) : Prop := failed (fst (fst r)).

(** A search that has lost its next node releases the one it stands at. *)
Lemma release_failed (id pos : Z) (ps : paths) (e : Z) (u : tree) :
  is_Some (cached u !! id) -> e <> 0 ->
  exists c u', (vdfs4_put_bnode id;; mret (Err e, pos, ps)) u = Ok (c, u') /\ no_node c u' /\ nodes_kept u u'.
Proof. intros Hf Ne; destruct (put_fetched id u Hf) as (u' & E & Hn); act_step E; eexists _, u'; split; [reflexivity|]; split; [by exists e|done]. Qed.

Lemma steady_dangling (fuel : nat) (id pos : Z) (key : list Z) (t : tree) : steady no_node (dangling_loop bt comp_fn fresh fuel id pos key None) t.
Proof.
  revert id pos t; induction fuel as [|fuel IH]; intros id pos t; cbn [dangling_loop]; steady_step; intros b u [-> Hf]%read_fetched; steady_step; intros recs u Er; steady_step; intros next u' En.
  all: assert (u = t /\ u' = u) as [-> ->] by (unfold lift in *; destruct (rd16 _ _), (rd32 _ _); cbn in *; try done; by injection Er as _ ->; injection En as _ ->).
  all: destruct (_ && _); [|by eauto with steady].
  { eauto with steady. }
  apply (steady_bind _ _ _ _ _ (steady_get next (rw b) t)); [|intros r u [(e & -> & Ne) Hc] _; apply release_failed; [by rewrite Hc|done]].
  intros [e|dang] u _; [steady_step; eauto with steady|].
  steady_step; intros [[e|o] dang_pos] u2 _; [destruct (e =? - ENOENT); repeat (steady_step; intros ? ? ?); eauto with steady|].
  steady_step; intros ? ? ?; steady_step; intros ps u4 [= <- <-]; apply IH.
Qed.

Lemma steady_level (key : list Z) (start : Z) (w : bool) (t : tree) : steady no_node (btree_traverse_level bt comp_fn fresh key start w None) t.
Proof.
  unfold btree_traverse_level; apply (steady_bind _ _ _ _ _ (steady_get start w t)); [|intros r u [(e & -> & Ne) _] _; eexists _, _; split; [reflexivity|]; split; [by exists e|done]].
  intros [e|id] u _; [eauto with steady|]; steady_step; intros [[e|o] pos] u2 _; [repeat (steady_step; intros ? ? ?); eauto with steady|].
  steady_step; intros fuel u3 _; apply steady_dangling.
Qed.

(** What the results of an action have in common. *)
Definition yields {A : Type} (P : A -> Prop) (m : act A) : Prop := forall t a u, m t = Ok (a, u) -> P a.

Lemma yields_bind {A B : Type} (P : B -> Prop) (m : act A) (f : A -> act B) : (forall a, yields P (f a)) -> yields P (m ≫= f).
Proof. intros Hf t b u; unfold mbind, act_bind; destruct (m t) as [[a v]| |]; [apply Hf|done|done]. Qed.

Lemma yields_ret {A : Type} (P : A -> Prop) (a : A) : P a -> yields P (mret a).
Proof. by intros Ha t b u [= <- <-]. Qed.

(** A search without paths gives none. *)
Definition no_paths (r : res Z * Z * paths) : Prop := snd r = None.

Lemma dangling_paths (fuel : nat) (id pos : Z) (key : list Z) : yields no_paths (dangling_loop bt comp_fn fresh fuel id pos key None).
Proof.
  revert id pos; induction fuel as [|fuel IH]; intros id pos; cbn [dangling_loop]; do 3 (apply yields_bind; intros ?); (destruct (_ && _); [|by apply yields_ret]); [by intros t r u|].
  apply yields_bind; intros [e|d]; [by apply yields_bind; intros _; apply yields_ret|]; apply yields_bind; intros [[e|o] q].
  - destruct (e =? _); repeat (apply yields_bind; intros ?); by apply yields_ret.
  - apply yields_bind; intros _; intros t r u; rewrite ret_bind; apply IH.
Qed.

Lemma level_paths (key : list Z) (start : Z) (w : bool) : yields no_paths (btree_traverse_level bt comp_fn fresh key start w None).
Proof.
  unfold btree_traverse_level; apply yields_bind; intros [e|id]; [by apply yields_ret|]; apply yields_bind; intros [[e|o] pos].
  - apply yields_bind; intros _; by apply yields_ret.
  - apply yields_bind; intros fuel; apply dangling_paths.
Qed.

Lemma steady_loop (n : nat) (level id : Z) (key : list Z) (w : bool) (till : Z) (t : tree) : steady no_node (traverse_loop bt comp_fn fresh n level id key w None till) t.
Proof.
  revert level id t; induction n as [|n IH]; intros level id t; cbn [traverse_loop]; [eauto with steady|].
  apply (steady_bind _ _ _ _ _ (steady_level key id w t)); [|intros [[r pos] ps] u (e & Er & Ne) _; cbn in Er; subst r; eexists _, u; split; [reflexivity|]; split; [by exists e|done]].
  intros [[[e|nid] pos] ps] u Hps%level_paths; [eauto with steady|]; unfold no_paths in Hps; cbn in Hps; subst ps; cbn [traverse_stack_push]; steady_step; intros [ret ps] u2 [= <- <- <-]; cbn [Z.eqb negb].
  destruct (till <? level); [|eauto with steady]; steady_step; intros [e|[o r]] u3 _; [steady_step; eauto with steady|].
  steady_step; intros [e|v] u4 _; [eauto with steady|]; steady_step; intros child u5 _; steady_step; intros _ u6 _; apply IH.
Qed.

(** The whole search. *)
Lemma steady_find (key : list Z) (w : bool) (t : tree) : steady (fun r _ => failed r) (vdfs4_btree_find bt comp_fn fresh key w) t.
Proof.
  unfold vdfs4_btree_find, vdfs4_btree_traverse; apply (steady_bind (fun e _ => e <> 0)).
  - intros He u a; rewrite env_ok by done; intros [= <- <-]; split; [done|]; split; [done|]; intros es; destruct (env_any (set_env es t)) as (e & es' & E); rewrite E.
    destruct (Z.eq_dec e 0) as [->|Ne]; [by left; exists es'|right; eexists _, _; split; [reflexivity|]; split; [done|by split]].
  - intros e u _; destruct (negb (e =? 0)); [eauto with steady|]; apply (steady_bind no_node).
    + steady_step; intros root u1 _; steady_step; intros h u2 _; steady_step; intros _ u3 _; apply steady_loop.
    + intros [[[e2|id] pos] ps] u1 _; [eauto with steady|]; steady_step; intros [e2|[o r]] u2 _; [steady_step; eauto with steady|].
      steady_step; intros [err info] u3 _; destruct (negb (err =? 0)); [steady_step|]; eauto with steady.
    + intros [[r pos] ps] u1 (e2 & Er & Ne) _; cbn in Er; subst r; eexists _, u1; split; [reflexivity|]; split; [by exists e2|done].
  - intros e u Ne _; rewrite (proj2 (Z.eqb_neq _ _)) by done; eexists _, u; split; [reflexivity|]; split; [by eexists|done].
Qed.

End Env.
