(* ===== verification/BtreeTheorems.v ===== *)
(** What the trees of the driver promise: search, insertion and the allocation of
    nodes (src/linux/fs/vdfs4/btree.c and bnode.c). *)

From Stdlib Require Import ZArith Lia Bool List.
From stdpp Require Import base list gmap sets.
From S2P Require Import Prelude Bytes Bitmap Count FindBit Buffer TreeKeys Bnode BnodeRep BnodeSearch BnodeSplit BnodeTheorems NodeStore StoreRep Btree BtreeRep BtreeLevel BtreeFind BtreePlace BtreeGrow BtreeRoot BtreeInsert BtreeUpdate BtreeEnv.

Open Scope Z_scope.

(** ** The abstract tree *)

(** A tree is a list of records in the order of their keys. The insertion of a
    record with a key that is there fails, and so does one below the first key:
    every tree keeps a least record from its creation on. *)
Definition abs_insert (comp_fn : list Z -> list Z -> Z) (R : list (list Z)) (r : list Z) : Z * list (list Z) :=
  if existsb (fun q => comp_fn q r =? 0) R then (- EEXIST, R)
  else match R with
       | f :: _ => if 0 <? comp_fn f r then (- ENOENT, R) else (0, place_sorted (comp_fn := comp_fn) r R)
       | [] => (- ENOENT, R)
       end.

Section Abs.
Context {comp_fn : list Z -> list Z -> Z} {valid : list Z -> Prop} `{Hcmp : KeyCmp comp_fn valid}.

Lemma abs_exists (R : list (list Z)) (r q : list Z) : q ∈ R -> comp_fn q r = 0 -> abs_insert comp_fn R r = (- EEXIST, R).
Proof.
  intros Hq E; unfold abs_insert; rewrite (proj2 (existsb_exists _ _)); [done|].
  exists q; split; [by apply list_elem_of_In|by rewrite E].
Qed.

Lemma existsb_none (R : list (list Z)) (r : list Z) : (forall q, q ∈ R -> comp_fn q r <> 0) -> existsb (fun q => comp_fn q r =? 0) R = false.
Proof.
  intros Hn; destruct (existsb _ R) eqn:E; [|done]; apply existsb_exists in E as (q & Hq & E); apply Z.eqb_eq in E.
  apply list_elem_of_In in Hq; by destruct (Hn q Hq).
Qed.

(** A key below the first record. *)
Lemma abs_below (R : list (list Z)) (r f : list Z) :
  Forall valid (f :: R) -> valid r -> sorted comp_fn (f :: R) -> 0 < comp_fn f r -> abs_insert comp_fn (f :: R) r = (- ENOENT, f :: R).
Proof using Hcmp.
  intros HV Vr Hs Hgt; rewrite Forall_cons, Forall_forall in HV; destruct HV as [Vf VR].
  unfold abs_insert; rewrite existsb_none; [by rewrite (proj2 (Z.ltb_lt _ _)) by done|].
  intros q [->|Hq]%elem_of_cons; [lia|]; change (f :: R) with ([f] ++ R) in Hs; apply sorted_app in Hs as (_ & _ & Hs).
  assert (0 < comp_fn q r) as Hqr; [|lia]; apply (key_above_trans r f q); auto; apply Hs; [by apply list_elem_of_singleton|done].
Qed.

(** The first record of the result is the old one, so the key was not below it. *)
Lemma abs_placed (R : list (list Z)) (r : list Z) :
  R <> [] -> (forall q, q ∈ R -> comp_fn q r <> 0) -> (forall f fs, R = f :: fs -> comp_fn f r <= 0) ->
  abs_insert comp_fn R r = (0, place_sorted (comp_fn := comp_fn) r R).
Proof.
  intros Hne Hn Hf; unfold abs_insert; rewrite existsb_none by done; destruct R as [|f R]; [done|].
  specialize (Hf f R eq_refl); by rewrite (proj2 (Z.ltb_ge _ _)) by lia.
Qed.

End Abs.

Section Theorems.
Context {find : FindBit} {Hfind : FindBitLaws}.

Section Keys.
Context {comp_fn : list Z -> list Z -> Z} {valid : list Z -> Prop} `{Hcmp : KeyCmp comp_fn valid}.

Lemma wf_calls (bt : btree) (t : tree) (ls : list (list node)) : wf bt (comp_fn := comp_fn) (valid := valid) t ls -> calls_succeed t.
Proof. intros Hw; apply (so_env _ _ (wf_store _ _ _ Hw)). Qed.

Lemma wf_well_formed (bt : btree) (t : tree) (ls : list (list node)) :
  wf bt (comp_fn := comp_fn) (valid := valid) t ls -> well_formed bt (comp_fn := comp_fn) (valid := valid) t ls.
Proof. intros Hw; unfold well_formed; by rewrite (calls_id t (wf_calls _ _ _ Hw)). Qed.

(** C3: vdfs4_btree_find returns for every well-formed tree, also one with nodes that
    have no index record, and whatever the allocation of the key and the reading and
    validation of nodes answer. It gives the floor of the key, that is the greatest
    record that is not above it, with the node fetched and the record and value
    addresses of its bytes, or -ENOENT, with nothing fetched, when every record is above
    the key; or a call has failed, then it gives an error code and no node, node id or
    head of the tree has changed. *)
Theorem find_correct (bt : btree) (fresh : Z -> list Z) (t : tree) (ls : list (list node)) (R : list (list Z)) (key : list Z) (w : bool) :
  paged bt -> well_formed bt (comp_fn := comp_fn) (valid := valid) t ls -> cached t = ∅ -> leaves ls R -> valid key ->
  exists r t', vdfs4_btree_find bt comp_fn fresh key w t = Ok (r, t')
  /\ (find_result (comp_fn := comp_fn) (set_env [] t) ls R key w (Ok (r, set_env [] t'))
      \/ ~ calls_succeed t /\ failed r /\ nodes_kept t t').
Proof using Hcmp.
  intros Hpg Hw Hc Hl Hk; pose proof (find_spec bt Hpg fresh (set_env [] t) ls R key w Hw Hc Hl Hk) as Hf.
  assert (exists r t', vdfs4_btree_find bt comp_fn fresh key w (set_env [] t) = Ok (r, t')) as (r & t' & E) by (destruct Hf as [(? & ? & _ & _ & E)|(? & ? & ? & ? & ? & _ & _ & _ & E & _)]; eauto).
  destruct (steady_find bt fresh comp_fn key w (set_env [] t) eq_refl t' r E) as (He & _ & Hes); rewrite E in Hf.
  destruct (decide (env t = [])) as [Ee|Ne].
  { exists r, t'; rewrite (calls_id t Ee) in E, Hf |- *; split; [exact E|]; left; by rewrite (calls_id t' He). }
  assert (set_env (env t) (set_env [] t) = t) as Et by (by destruct t); destruct (Hes (env t)) as [(es & Eq)|(b & u & Eq & Hb & Hu)]; rewrite Et in Eq.
  - exists r, (set_env es t'); split; [done|]; left; change (set_env [] (set_env es t')) with (set_env [] t'); by rewrite (calls_id t' He).
  - exists b, u; split; [done|]; right; split; [done|]; split; [done|]; destruct Hu; by split.
Qed.

(** C2: When no allocation, reading or validation of a node fails ([calls_succeed]),
    vdfs4_btree_insert refines the insertion into a sorted list of records: it
    answers as the abstract insertion does and the leaves then hold the list it
    gives, or it answers -ENOSPC because no node id is free, with the records as
    they were. The tree stays well-formed, no node stays fetched, and when there
    are more free ids than levels every node has its index record again. (With a
    call that fails it may not: see [split_bnode_correct] for the loss of a record
    when the right neighbour of a node that is split cannot be fetched.) *)
Theorem insert_refines (bt : btree) (fresh : Z -> list Z) (t : tree) (ls : list (list node)) (R : list (list Z)) (r : list Z) :
  paged bt -> (forall id, page_ok bt (fresh id)) -> calls_succeed t -> contains bt (comp_fn := comp_fn) (valid := valid) t ls R ->
  krec (comp_fn := comp_fn) (valid := valid) r -> lenZ ls + 1 < 2 ^ 16 ->
  exists e t' ls' R', vdfs4_btree_insert bt comp_fn fresh r t = Ok (e, t')
  /\ ((e = - ENOSPC /\ R' = R /\ free_num (bitmap t) = 0) \/ (e, R') = abs_insert comp_fn R r)
  /\ well_formed bt (comp_fn := comp_fn) (valid := valid) t' ls' /\ cached t' = ∅ /\ leaves ls' R'
  /\ (btree_height t < free_num (bitmap t) -> indexed ls').
Proof using Hcmp Hfind.
  intros Hpg Hfr Hcs Hco Hr Hlv; assert (holds bt (comp_fn := comp_fn) (valid := valid) t ls R) as Hh by (unfold contains in Hco; by rewrite calls_id in Hco).
  pose proof (insert_spec bt Hpg fresh Hfr t ls R r Hh Hr Hlv) as Hout; pose proof Hh as [Hw Hix Hid (l & Hl & HR)].
  pose proof (wf_level _ _ _ Hw _ _ Hl) as Lv; pose proof (linked_krec _ _ _ _ _ (lo_linked _ _ _ Lv)) as HV; apply krec_valid in HV.
  pose proof (lo_sorted _ _ _ Lv) as Hs; rewrite HR in HV, Hs; assert (valid r) as Vr by apply Hr.
  destruct Hout as [(f & fs & EQ & Hgt & E)|[(q & Hq & E0 & E)|[(t' & E & Hf0 & [Hw' Hix' Hid' Hlv'])|(t' & ls' & E & Hn & Hfst & Hw' & Hid' & Hlv' & Hind)]]].
  - exists (- ENOENT), t, ls, R; split; [done|]; split; [right; rewrite EQ in HV, Hs |- *; by rewrite abs_below|]; split; [by apply wf_well_formed|]; split; [done|]; split; [by exists l|done].
  - exists (- EEXIST), t, ls, R; split; [done|]; split; [right; by erewrite abs_exists|]; split; [by apply wf_well_formed|]; split; [done|]; split; [by exists l|done].
  - exists (- ENOSPC), t', ls, R; split; [done|]; split; [by left|]; split; [by apply wf_well_formed|]; auto.
  - exists 0, t', ls', (place_sorted (comp_fn := comp_fn) r R); split; [done|]; split; [right|split; [by apply wf_well_formed|auto]].
    assert (R <> []) as Hne.
    { rewrite <- HR; destruct l as [|n l]; [by destruct (lo_some _ _ _ Lv)|]; destruct (lo_linked _ _ _ Lv) as [[_ _ _ Hsome] _].
      rewrite lrecs_cons; by destruct (snd n). }
    by rewrite abs_placed.
Qed.

Lemma placed_elem (r : list Z) (R : list (list Z)) : r ∈ place_sorted (comp_fn := comp_fn) r R.
Proof.
  induction R as [|q R IH]; cbn; [by apply list_elem_of_singleton|]; destruct (comp_fn q r <? 0); apply elem_of_cons; [by right|by left].
Qed.

(** C22: When no call fails, a record that was inserted is found by its key, with all
    its bytes. *)
Theorem insert_then_find (bt : btree) (fresh : Z -> list Z) (t t' : tree) (ls : list (list node)) (R : list (list Z)) (r : list Z) (w : bool) :
  paged bt -> (forall id, page_ok bt (fresh id)) -> calls_succeed t -> contains bt (comp_fn := comp_fn) (valid := valid) t ls R ->
  krec (comp_fn := comp_fn) (valid := valid) r -> lenZ ls + 1 < 2 ^ 16 -> vdfs4_btree_insert bt comp_fn fresh r t = Ok (0, t') ->
  exists id ri m, vdfs4_btree_find bt comp_fn fresh r w t' = Ok (Val (id, ri), set_cached {[id := (w, 1)]} t')
  /\ pages t' !! id = Some m /\ sub m (ri_key ri) (lenZ r) = r /\ ri_val ri = Val (ri_key ri + get16 r KEY_LEN).
Proof using Hcmp Hfind.
  intros Hpg Hfr Hcs Hco Hr Hlv Hrun; assert (valid r) as Vr by apply Hr; unfold contains in Hco; rewrite (calls_id t Hcs) in Hco; rename Hco into Hh.
  destruct (insert_spec bt Hpg fresh Hfr t ls R r Hh Hr Hlv)
    as [(? & ? & _ & _ & E)|[(? & _ & _ & E)|[(? & E & _ & _)|(t1 & ls' & E & _ & _ & Hw & Hc & Hl & _)]]]; rewrite Hrun in E; injection E as E'; try done.
  subst t1; pose proof Hl as (l & Hl0 & HR); pose proof (wf_level _ _ _ Hw _ _ Hl0) as Lv; pose proof (linked_krec _ _ _ _ _ (lo_linked _ _ _ Lv)) as HV.
  apply krec_valid in HV; pose proof (lo_sorted _ _ _ Lv) as Hs; rewrite HR in HV, Hs; pose proof (placed_elem r R) as Hin; assert (comp_fn r r = 0) as Err by (by apply cmp_eq).
  destruct (find_spec bt Hpg fresh t' ls' _ r w Hw Hc Hl Vr) as [(f & fs & EQ & Hgt & _)|(X & q & Y & id & ri & EQ & Hle & HY & Efind & m & Hm & Hsub & Hval)];
    rewrite EQ in HV, Hs, Hin.
  - exfalso; change (f :: fs) with ([f] ++ fs) in Hs; apply sorted_app in Hs as (_ & _ & Hs); rewrite Forall_cons, Forall_forall in HV.
    apply elem_of_cons in Hin as [->|Hin]; [lia|]; assert (comp_fn f r < 0); [apply Hs; [by apply list_elem_of_singleton|done]|lia].
  - assert (r = q) as ->.
    { rewrite Forall_app, Forall_cons, !Forall_forall in HV; destruct HV as (VX & Vq & VY); apply elem_of_app in Hin as [Hin|[->|Hin]%elem_of_cons]; [|done|].
      - apply sorted_app in Hs as (_ & _ & Hs); assert (comp_fn r q < 0) as Hlt by (apply Hs; [done|apply elem_of_cons; by left]).
        apply lt_gt in Hlt; auto; lia.
      - rewrite Forall_forall in HY; specialize (HY r Hin); lia. }
    exists id, ri, m; split; [|done]; rewrite Efind, Hc; unfold hold; by rewrite lookup_empty.
Qed.

End Keys.

(** C23: When no allocation and no creation of pages fails, the check of the reserve
    answers 0, and an allocation after it gives a node when an id is free: an id that
    was clear, inside the tree file, with a page of its own, and no node in use
    changes. With every id in use the allocation answers -ENOSPC and changes nothing.
    The unsigned test of the deficit does not matter. *)
Theorem reserve_then_alloc (bt : btree) (fresh : Z -> list Z) (t : tree) :
  paged bt -> (forall id, page_ok bt (fresh id)) -> calls_succeed t -> store_sound bt t ->
  exists t1, vdfs4_check_bnode_reserve bt fresh t = Ok (0, t1) /\ store_sound bt t1 /\ keeps ∅ t t1
  /\ (free_num (bitmap t) = 0 -> vdfs4_alloc_new_bnode bt fresh t1 = Ok (Err (- ENOSPC), t1))
  /\ (free_num (bitmap t) <> 0 -> exists t2 id, vdfs4_alloc_new_bnode bt fresh t1 = Ok (Val id, t2)
      /\ ~ used t id /\ used t2 id /\ id < available t2 /\ cached t2 = <[id := (true, 1)]> (cached t)
      /\ free_num (bitmap t2) = free_num (bitmap t) - 1 /\ keeps ∅ t t2 /\ store_sound bt t2).
Proof using Hfind.
  intros Hpg Hfr Hcs Hs; unfold store_sound in *; rewrite (calls_id t Hcs) in Hs; destruct (check_reserve_ok bt Hpg fresh Hfr t Hs) as (t1 & E1 & Rv & Hav); pose proof Rv as [C1 _ _ B1 K1 S1].
  exists t1; split; [done|]; rewrite (calls_id t1 (so_env _ _ S1)); split; [done|]; split; [done|]; split.
  { intros H0; unfold vdfs4_alloc_new_bnode; act_step (state_ok bitmap t1); by rewrite B1, H0. }
  intros Hf; pose proof (bo_free _ (so_bitmap _ _ S1)); pose proof (first_le_count _ (so_bitmap _ _ S1)); pose proof (so_height _ _ S1).
  pose proof (bo_num _ (so_bitmap _ _ S1)); pose proof (count_range (bit (bits (bitmap t1))) 0 (bits_num (bitmap t1)) ltac:(lia)); rewrite B1 in *.
  destruct (alloc_ok bt Hpg fresh Hfr t1 S1) as (t2 & E2 & [N2 U2 _ _ C2 _ _ F2 A2 K2 S2 _]); [rewrite B1; lia|rewrite B1; lia|].
  exists t2, (first_free_id (bitmap t1)); split; [done|]; split; [intros [_ Hb]; rewrite B1 in N2; rewrite B1 in Hb; congruence|].
  split; [done|]; split; [rewrite A2, B1; lia|]; split; [by rewrite C2, C1|]; split; [by rewrite F2, B1|]; split; [by eapply keeps_later|by rewrite (calls_id t2 (so_env _ _ S2))].
Qed.

(** A node that is freed as soon as it is allocated leaves the bitmap of node
    ids, its summary and the table of fetched nodes as they were. *)
Theorem alloc_destroy_roundtrip (bt : btree) (fresh : Z -> list Z) (t : tree) :
  paged bt -> (forall id, page_ok bt (fresh id)) -> store_ok bt t -> 0 < free_num (bitmap t) -> first_free_id (bitmap t) < available t ->
  cached t !! first_free_id (bitmap t) = None ->
  exists t1 t2 id, vdfs4_alloc_new_bnode bt fresh t = Ok (Val id, t1) /\ vdfs4_destroy_bnode id t1 = Ok (0, t2)
  /\ (forall i, 0 <= i < bits_num (bitmap t) -> bit (bits (bitmap t2)) i = bit (bits (bitmap t)) i) /\ first_free_id (bitmap t2) = first_free_id (bitmap t)
  /\ free_num (bitmap t2) = free_num (bitmap t) /\ cached t2 = cached t.
Proof using Hfind.
  intros Hpg Hfr Hs Hf Hav Hc; destruct (alloc_ok bt Hpg fresh Hfr t Hs Hf Hav) as (t1 & E1 & [N1 U1 _ _ C1 _ _ F1 _ K1 S1 I1]).
  set (id := first_free_id (bitmap t)) in *; pose proof (so_bitmap _ _ Hs) as Hb; pose proof (so_bitmap _ _ S1) as Hb1; pose proof U1 as [Hr1 Hbit1].
  pose proof (kp_bits_num _ _ _ K1) as En; pose proof (bo_num _ Hb) as Hn; pose proof (bo_len _ Hb1) as Hl1.
  assert (id <= first_free_id (bitmap t1)) as Hff.
  { destruct (Z.leb_spec id (first_free_id (bitmap t1))) as [|Hlt]; [done|]; exfalso; pose proof (bo_first _ Hb1); pose proof (bo_clear _ Hb1 ltac:(lia)) as Hcl.
    destruct (Z.eq_dec (first_free_id (bitmap t1)) 0) as [E0|]; [rewrite E0, (bo_head _ Hb1) in Hcl; done|].
    assert (used t (first_free_id (bitmap t1))) as Hu by (split; [lia|]; apply (bo_below _ Hb); lia).
    apply (kp_used _ _ _ K1) in Hu as [_ Hu]; congruence. }
  pose proof (test_and_clear_run id 0 (bits (bitmap t1)) ltac:(lia) ltac:(lia) ltac:(unfold in_range; lia)) as Etc; rewrite Z.mul_0_r, Z.add_0_l, Hbit1 in Etc.
  assert (free_num (bitmap t1) + 1 = free_num (bitmap t)) as Efn by lia.
  pose proof (bo_free _ Hb) as Hfree; pose proof (count_range (bit (bits (bitmap t))) 0 (bits_num (bitmap t)) ltac:(lia)) as Hcr.
  eexists t1, _, id; split; [done|]; split; [|split; [|split; [|split]]].
  - unfold vdfs4_destroy_bnode, VDFS4_INVALID_NODE_ID; rewrite (proj2 (Z.eqb_neq id 0)) by lia; act_step (state_ok cached t1).
    rewrite C1, lookup_insert_eq; change (1 - 1 =? 0) with true; cbn [negb]; rewrite (act_bind_ok _ _ _ _ _ (change_ok _ _)).
    act_step (state_ok bitmap (set_cached (delete id (<[id:=(true, 1)]> (cached t))) t1)); lift_step Etc; cbn [negb].
    rewrite (act_bind_ok _ _ _ _ _ (change_ok _ _)); unfold mark_head_dirty; rewrite !(act_bind_ok _ _ _ _ _ (change_ok _ _)); reflexivity.
  - intros i Hi; cbn; rewrite bit_put_bit by lia; destruct (Z.eqb_spec i id) as [->|Hne]; [done|].
    destruct (Z.eq_dec i 0) as [->|Hi0]; [by rewrite (bo_head _ Hb), (bo_head _ Hb1)|].
    destruct (bit (bits (bitmap t)) i) eqn:E; [apply (kp_used _ _ _ K1); split; [lia|done]|].
    destruct (bit (bits (bitmap t1)) i) eqn:E'; [|done]; destruct (I1 i) as [?|[_ ?]]; [split; [lia|done]|done|congruence].
  - cbn; lia.
  - cbn; rewrite Efn, u32_small by lia; done.
  - cbn; by apply delete_insert_id.
Qed.

End Theorems.

(** ** A small tree *)

Import PlainFind.

Definition zero_page (id : Z) : list Z := replicate (Z.to_nat 4096) 0.

Definition small_tree (m : list Z) : tree :=
  Tree {[7 := m]} ∅ 7 1 (BnodeBitmap [129] 8 1 6) ∅ false 8 [].

Lemma page_tree_paged : paged page_tree.
Proof. split; [cbn; lia|done]. Qed.

Lemma zero_page_ok (id : Z) : page_ok page_tree (zero_page id).
Proof. destruct (blank_bytes id); by split. Qed.

Lemma small_bits (i : Z) : 0 <= i < 8 -> bit [129] i = (i =? 0) || (i =? 7).
Proof.
  intros Hi; assert (i = 0 \/ i = 1 \/ i = 2 \/ i = 3 \/ i = 4 \/ i = 5 \/ i = 6 \/ i = 7) as Hc by lia.
  by destruct Hc as [->|[->|[->|[->|[->|[->|[->| ->]]]]]]].
Qed.

Lemma small_store (m : list Z) : page_ok page_tree m -> store_ok page_tree (small_tree m).
Proof.
  intros Hm; split; cbn; try done; try lia.
  - split; cbn; try done; try lia.
    + intros i Hi; rewrite small_bits by lia; destruct (Z.eqb_spec i 0); [done|lia].
  - intros id x (<- & <-)%lookup_singleton_Some; done.
Qed.

Lemma ext_krec (object iblock : Z) : krec (comp_fn := vdfs4_exttree_cmpfn) (valid := ext_valid) (ext_record object iblock).
Proof.
  split; [apply ext_record_ok|]; assert (lenZ (ext_record object iblock) = 40) as El by done.
  split; [unfold ext_valid; rewrite El; lia|]; change (get16 (ext_record object iblock) KEY_LEN) with 24; rewrite El; cbn; unfold VDFS4_MAX_BTREE_KEY_LEN; lia.
Qed.

Lemma small_holds :
  exists m, holds page_tree (comp_fn := vdfs4_exttree_cmpfn) (valid := ext_valid) (small_tree m)
    [[(7, [ext_record 1 5; ext_record 1 9])]] [ext_record 1 5; ext_record 1 9].
Proof.
  destruct two_records as (b & S & F & Hl & ER & _ & Hn & Hp & Hi); exists (data b).
  assert (page_ok page_tree (data b)) as Hpg by (by eapply layout_page).
  split; [split| |done|by exists [(7, [ext_record 1 5; ext_record 1 9])]].
  - by apply small_store.
  - done.
  - intros [|i] l Hl0; [injection Hl0 as <-|done]; split; [|intros [|[|i]] [|[|j]] x y Hij Hx Hy; try (cbn in Hx, Hy; done || lia); by injection Hx as <-; injection Hy as <-|by apply NoDup_singleton|done].
    split; [|done]; split; cbn [fst snd]; [by split|exists (data b), S, F; split; [apply lookup_singleton_eq|]; done|rewrite !Forall_cons; auto using ext_krec|done].
  - intros [|i] lo up _ Hup; done.
  - by exists [(7, [ext_record 1 5; ext_record 1 9])].
  - intros [|i] [|j] l l' n n' Hl1 Hl2; done.
  - split; [intros [|i] lo up n _ Hup; done|by eexists].
Qed.

Lemma small_contains :
  exists m, contains page_tree (comp_fn := vdfs4_exttree_cmpfn) (valid := ext_valid) (small_tree m)
    [[(7, [ext_record 1 5; ext_record 1 9])]] [ext_record 1 5; ext_record 1 9].
Proof. exact small_holds. Qed.

Lemma find_correct_witness :
  exists m, let R := [ext_record 1 5; ext_record 1 9] in
  (exists r t', vdfs4_btree_find page_tree vdfs4_exttree_cmpfn zero_page (ext_record 1 7) false (small_tree m) = Ok (r, t')
   /\ (find_result (comp_fn := vdfs4_exttree_cmpfn) (small_tree m) [[(7, R)]] R (ext_record 1 7) false (Ok (r, set_env [] t')) \/ ~ calls_succeed (small_tree m) /\ failed r /\ nodes_kept (small_tree m) t'))
  /\ vdfs4_btree_find page_tree vdfs4_exttree_cmpfn zero_page (ext_record 1 7) false (set_env [0; -12] (small_tree m)) = Ok (Err (- ENOMEM), small_tree m).
Proof.
  destruct small_contains as (m & [Hw Hix Hc Hl]); exists m; cbn zeta; split.
  - apply (find_correct page_tree zero_page (small_tree m) _ _ (ext_record 1 7) false page_tree_paged Hw Hc Hl); apply ext_krec.
  - reflexivity.
Defined.

Lemma insert_refines_witness :
  exists m e t' ls' R', vdfs4_btree_insert page_tree vdfs4_exttree_cmpfn zero_page (ext_record 1 7) (small_tree m) = Ok (e, t')
  /\ ((e = - ENOSPC /\ R' = [ext_record 1 5; ext_record 1 9] /\ free_num (bitmap (small_tree m)) = 0)
      \/ (e, R') = (0, [ext_record 1 5; ext_record 1 7; ext_record 1 9]))
  /\ leaves ls' R'.
Proof.
  destruct small_contains as (m & Hh); exists m.
  destruct (insert_refines page_tree zero_page (small_tree m) _ _ (ext_record 1 7) page_tree_paged zero_page_ok eq_refl Hh) as (e & t' & ls' & R' & E & Hr & _ & _ & Hl & _);
    [apply ext_krec|by vm_compute|].
  exists e, t', ls', R'; split; [exact E|]; split; [exact Hr|exact Hl].
Defined.

Lemma insert_then_find_witness :
  exists m t' id ri m', vdfs4_btree_insert page_tree vdfs4_exttree_cmpfn zero_page (ext_record 1 7) (small_tree m) = Ok (0, t')
  /\ vdfs4_btree_find page_tree vdfs4_exttree_cmpfn zero_page (ext_record 1 7) true t' = Ok (Val (id, ri), set_cached {[id := (true, 1)]} t')
  /\ pages t' !! id = Some m' /\ sub m' (ri_key ri) 40 = ext_record 1 7.
Proof.
  destruct small_holds as (m & Hh); exists m.
  assert (exists t', vdfs4_btree_insert page_tree vdfs4_exttree_cmpfn zero_page (ext_record 1 7) (small_tree m) = Ok (0, t')) as (t' & E).
  { destruct (insert_spec page_tree page_tree_paged zero_page zero_page_ok (small_tree m) _ _ (ext_record 1 7) Hh (ext_krec 1 7) ltac:(by vm_compute))
      as [(f & fs & EQ & Hgt & _)|[(q & Hq & E0 & _)|[(t' & _ & Hf & _)|(t' & ls' & E & _)]]]; [| | |by exists t'].
    - injection EQ as <- <-; by vm_compute in Hgt.
    - apply elem_of_cons in Hq as [->| ->%list_elem_of_singleton]; by vm_compute in E0.
    - done. }
  destruct (insert_then_find page_tree zero_page (small_tree m) t' _ _ (ext_record 1 7) true page_tree_paged zero_page_ok eq_refl Hh) as (id & ri & m' & Ef & Hm & Hs & _);
    [apply ext_krec|by vm_compute|exact E|].
  exists t', id, ri, m'; split; [exact E|]; split; [exact Ef|]; split; [exact Hm|exact Hs].
Defined.

Lemma reserve_then_alloc_witness :
  exists t1 t2 id, vdfs4_check_bnode_reserve page_tree zero_page (small_tree (zero_page 7)) = Ok (0, t1)
  /\ vdfs4_alloc_new_bnode page_tree zero_page t1 = Ok (Val id, t2) /\ used t2 id.
Proof.
  destruct (reserve_then_alloc page_tree zero_page (small_tree (zero_page 7)) page_tree_paged zero_page_ok eq_refl (small_store _ (zero_page_ok 7)))
    as (t1 & E1 & _ & _ & _ & H); destruct (H ltac:(by vm_compute)) as (t2 & id & E2 & _ & Hu & _).
  exists t1, t2, id; split; [exact E1|]; split; [exact E2|exact Hu].
Defined.

Lemma alloc_destroy_roundtrip_witness :
  exists t1 t2 id, vdfs4_alloc_new_bnode page_tree zero_page (small_tree (zero_page 7)) = Ok (Val id, t1) /\ vdfs4_destroy_bnode id t1 = Ok (0, t2)
  /\ free_num (bitmap t2) = 6.
Proof.
  destruct (alloc_destroy_roundtrip page_tree zero_page (small_tree (zero_page 7)) page_tree_paged zero_page_ok (small_store _ (zero_page_ok 7)) ltac:(by vm_compute) ltac:(by vm_compute) eq_refl)
    as (t1 & t2 & id & E1 & E2 & _ & _ & Hf & _).
  exists t1, t2, id; split; [exact E1|]; split; [exact E2|exact Hf].
Defined.
