(* ===== verification/BtreeRemove.v ===== *)
(** Removal from a tree, src/linux/fs/vdfs4/btree.c: the deletion of a record at a
    level, the index records that follow it, the merge of nodes that have become
    empty enough, and the loss of a root with one child.

    The functions call each other, each time for the level above. A level above the
    height of the tree stops the system, and the height is a 16-bit field, so
    [remove_fuel] levels are enough. *)

From Stdlib Require Import ZArith Lia Bool List.
From stdpp Require Import base list gmap sets.
From S2P Require Import Prelude Bytes Bitmap FindBit Buffer Bnode NodeStore Btree.

Open Scope Z_scope.

Definition remove_fuel : nat := Z.to_nat (2 ^ 16).

Section Remove.
(** [ptr_err] is PTR_ERR on the address of the struct of a node. *)
Context `{FindBit} (bt : btree) (comp_fn : list Z -> list Z -> Z) (fresh : Z -> list Z) (ptr_err : Z -> Z).

#[local] Abbreviation size := (node_size_bytes bt).

(** [btree_find]: the node, which stays fetched, and the position in it. *)
Definition btree_find (key : list Z) (level : Z) (rw : bool) : act (res Z * Z) :=
  '(b, pos, _) ← vdfs4_btree_traverse bt comp_fn fresh key rw None level; mret (b, pos).

(** [get_child_bnode] for a record of the node [id]. *)
Definition get_child_bnode (id : Z) (record : res Z) (rw : bool) : act (res Z) :=
  match record with
  | Err e => mret (Err e)
  | Val o =>
      child ← read_node id (fun b => key_len ← rd16 (data b) (o + KEY_LEN); rd32 (data b) (o + key_len));
      if child =? 0 then (if mount_finished bt then lift Bug else mret (Err (- EFAULT)))
      else vdfs4_get_bnode bt fresh child rw
  end.

(** [btree_update_key]: the new key, the index record of [point_to]. A record that
    cannot be read leaves its node fetched. *)
Fixpoint btree_update_key (fuel : nat) (key : list Z) (point_to level : Z) : act (res (list Z)) :=
  match fuel with
  | O => lift Fault
  | S fuel =>
      e ← env_call;
      if negb (e =? 0) then mret (Err (- ENOMEM))
      else
        new_data ← read_node point_to (fun b =>
          form_new_adding_record bt b (replicate (Z.to_nat (max_record_len bt)) 0));
        err ← btree_insert_at_level bt comp_fn fresh new_data level;
        if negb (err =? 0) then mret (Err err)
        else
          '(b, pos) ← btree_find key level true;
          match b with
          | Err _ => mret (Err (- EINVAL))
          | Val id =>
              found_key ← btree_record bt id pos;
              match found_key with
              | Err e => mret (Err e)
              | Val (_, found_key) =>
                  if negb (comp_fn key found_key =? 0) then vdfs4_put_bnode id;; mret (Val new_data)
                  else
                    err ← with_node id (fun b => delete_from_node bt b pos);
                    if negb (err =? 0) then vdfs4_put_bnode id;; mret (Err err)
                    else
                      h ← state btree_height;
                      err ← (if (pos =? 0) && (level <? h) then
                               ret ← btree_update_key fuel key id (level + 1);
                               mret (match ret with Err e => e | Val _ => 0 end)
                             else mret 0);
                      vdfs4_put_bnode id;;
                      mret (if negb (err =? 0) then Err err else Val new_data)
              end
          end
  end.

(** The neighbour links around a node that has become empty: a store into
    [prev_node_id] or [next_node_id] of the node [id], if there is one. *)
Definition unlink_neighbour (id field value : Z) : act unit :=
  if id =? VDFS4_INVALID_NODE_ID then mret tt
  else
    b ← vdfs4_get_bnode bt fresh id true;
    match b with
    | Err _ => lift Bug
    | Val id =>
        with_node id (fun b => m ← wr32 (data b) field value; Ok (tt, vdfs4_mark_bnode_dirty (set_data m b)));;
        vdfs4_put_bnode id
    end.

Section Merge.
(** [__btree_remove] on the level above. *)
Context (remove : list Z -> Z -> act Z).

(** [btree_merge] after both nodes were fetched, up to the link to the right
    neighbour: [Some] is the error it returns with. *)
Definition merge_fetched (left_id right_id : Z) : act (option Z) :=
  l ← read_node left_id (fun b => Ok b);
  r ← read_node right_id (fun b => Ok b);
  '(release, err, l, r) ← lift (merge_records bt l r);
  change (put_back l);; change (put_back r);;
  if negb (err =? 0) then
    (if release : bool then vdfs4_put_bnode left_id;; vdfs4_put_bnode right_id else mret tt);; mret (Some err)
  else
    next_id ← lift (rd32 (data r) NEXT_NODE_ID);
    next ← (if next_id =? VDFS4_INVALID_NODE_ID then mret (Err 0) else vdfs4_get_bnode bt fresh next_id true);
    next_bnode ← match next with
                 | Err e => mret (Err e)
                 | Val n => read_node n (fun b => Ok (Val b))
                 end;
    '(err, l, nb) ← lift (merge_link l r next_bnode (ptr_err right_id));
    change (put_back l);;
    match nb with
    | Some b => change (put_back b);; vdfs4_put_bnode (node_id b)
    | None => mret tt
    end;;
    vdfs4_put_bnode left_id;;
    if (next_id =? VDFS4_INVALID_NODE_ID) || (match next with Val _ => true | Err _ => false end) then mret None
    else vdfs4_put_bnode right_id;; mret (Some err).

(** [btree_merge]. The errors between the link and the destruction of the right
    node leave it fetched. *)
Definition btree_merge (left_bnode_id right_bnode_id level : Z) (is_right_dangling : bool) : act Z :=
  left_bnode ← vdfs4_get_bnode bt fresh left_bnode_id true;
  match left_bnode with
  | Err e => mret e
  | Val left_id =>
      right_bnode ← vdfs4_get_bnode bt fresh right_bnode_id true;
      match right_bnode with
      | Err e => vdfs4_put_bnode left_id;; mret e
      | Val right_id =>
          ret ← merge_fetched left_id right_id;
          match ret with
          | Some err => mret err
          | None =>
              err ← (if is_right_dangling then mret 0
                     else
                       record ← btree_record bt right_id 0;
                       match record with
                       | Err e => mret e
                       | Val (_, record) =>
                           key_len ← lift (rd16 record KEY_LEN);
                           e ← env_call;
                           if negb (e =? 0) then mret (- ENOMEM)
                           else
                             key ← lift (slice record 0 key_len);
                             key ← lift (wr16 key RECORD_LEN (u16 (key_len + 4)));
                             remove key (level + 1)
                       end);
              if negb (err =? 0) then mret err else vdfs4_destroy_bnode right_id
          end
      end
  end.

(** [is_bnode_dangling] *)
Definition is_bnode_dangling (parent : bnode) (pos bnode_id : Z) : run bool :=
  record_ptr ← get_record bt parent pos;
  match record_ptr with
  | Err _ => Fault
  | Val o =>
      value ← get_value_pointer (data parent) o;
      match value with
      | Err _ => Fault
      | Val v => id ← rd32 (data parent) v; Ok (negb (id =? bnode_id))
      end
  end.

(** The direction of the merge in [rebalance]: the error, and unless the node is
    left alone whether it is merged with its left neighbour and whether the right
    one of the two nodes is dangling. *)
Definition merge_direction (cur level : Z) (key : list Z) : act (Z * option (bool * bool)) :=
  prev ← read_node cur (fun b => rd32 (data b) PREV_NODE_ID);
  next ← read_node cur (fun b => rd32 (data b) NEXT_NODE_ID);
  h ← state btree_height;
  if level =? h then
    mret (0, if negb (prev =? VDFS4_INVALID_NODE_ID) then Some (true, true)
             else if negb (next =? VDFS4_INVALID_NODE_ID) then Some (false, true)
             else None)
  else
    '(parent, pos) ← btree_find key (level + 1) true;
    match parent with
    | Err e => mret (e, None)
    | Val parent =>
        recs_count ← read_node parent (fun b => rd16 (data b) RECS_COUNT);
        ret ← (if 0 <? pos then
                 dangling ← read_node parent (fun b => is_bnode_dangling b pos cur);
                 mret (Some (true, dangling))
               else if pos <? recs_count - 1 then
                 dangling ← read_node parent (fun b => is_bnode_dangling b (pos + 1) next);
                 mret (Some (false, dangling))
               else mret None);
        vdfs4_put_bnode parent;;
        mret (0, ret)
    end.

(** [rebalance] *)
Definition rebalance (key : list Z) (level bnode_id bnode_free_space : Z) : act Z :=
  cur ← vdfs4_get_bnode bt fresh bnode_id true;
  match cur with
  | Err e => mret e
  | Val cur =>
      '(err, direction) ← merge_direction cur level key;
      match direction with
      | None => vdfs4_put_bnode cur;; mret err
      | Some (merge_with_prev, is_right_dangling) =>
          neigh_id ← read_node cur (fun b => rd32 (data b) (if merge_with_prev : bool then PREV_NODE_ID else NEXT_NODE_ID));
          cur_id ← read_node cur (fun b => rd32 (data b) NODE_ID);
          let left_id := if merge_with_prev : bool then neigh_id else cur_id in
          let right_id := if merge_with_prev : bool then cur_id else neigh_id in
          neigh ← vdfs4_get_bnode bt fresh neigh_id true;
          match neigh with
          | Err e => vdfs4_put_bnode cur;; mret e
          | Val neigh =>
              neigh_free_space ← read_node neigh (fun b => rd16 (data b) FREE_SPACE);
              vdfs4_put_bnode neigh;;
              vdfs4_put_bnode cur;;
              if size <=? bnode_free_space +32 neigh_free_space
              then btree_merge left_id right_id level is_right_dangling
              else mret 0
          end
      end
  end.

End Merge.

(** The end of [__btree_remove] for the node [id], which still has records: a node
    with much free space is rebalanced, a root with one record gives way to its
    only child. *)
Definition remove_shrink (remove : list Z -> Z -> act Z) (id : Z) (key : list Z) (level : Z) : act Z :=
  free_space ← read_node id (fun b => rd16 (data b) FREE_SPACE);
  recs_count ← read_node id (fun b => rd16 (data b) RECS_COUNT);
  root ← state root_bnode_id;
  if size / 3 <? free_space then
    if negb (id =? root) then
      vdfs4_put_bnode id;;
      err ← rebalance remove key level id free_space;
      lift (bug_on (negb (err =? 0) && mount_finished bt));;
      mret err
    else if recs_count =? 1 then
      h ← state btree_height;
      if h <=? 1 then vdfs4_put_bnode id;; mret 0
      else
        record ← read_node id (fun b => get_record bt b 0);
        bnode_n ← get_child_bnode id record true;
        match bnode_n with
        | Err e => vdfs4_put_bnode id;; mret e
        | Val child =>
            vdfs4_btree_set_root_id child;;
            vdfs4_btree_dec_height;;
            vdfs4_put_bnode child;;
            vdfs4_destroy_bnode id
        end
    else vdfs4_put_bnode id;; mret 0
  else vdfs4_put_bnode id;; mret 0.

(** The node [id] has lost its last record: it leaves the chain and the tree, and
    so does its index record, if it has one. *)
Definition remove_empty (remove : list Z -> Z -> act Z) (id : Z) (key : list Z) (level : Z) : act Z :=
  prev ← read_node id (fun b => rd32 (data b) PREV_NODE_ID);
  next ← read_node id (fun b => rd32 (data b) NEXT_NODE_ID);
  unlink_neighbour prev NEXT_NODE_ID next;;
  unlink_neighbour next PREV_NODE_ID prev;;
  root ← state root_bnode_id;
  lift (bug_on (id =? root));;
  err ← vdfs4_destroy_bnode id;
  if negb (err =? 0) then mret err
  else
    h ← state btree_height;
    if negb (level =? h) then
      err ← remove key (level + 1);
      mret (if err =? - ENOENT then 0 else err)
    else mret 0.

(** [__btree_remove] *)
Fixpoint btree_remove_at (fuel : nat) (key : list Z) (level : Z) : act Z :=
  match fuel with
  | O => lift Fault
  | S fuel =>
      h ← state btree_height;
      lift (bug_on (h <? level));;
      '(b, pos) ← btree_find key level true;
      match b with
      | Err e => mret e
      | Val id =>
          record ← btree_record bt id pos;
          match record with
          | Err e => vdfs4_put_bnode id;; mret e
          | Val (_, record) =>
              if negb (comp_fn key record =? 0) then vdfs4_put_bnode id;; mret (- ENOENT)
              else
                err ← with_node id (fun b => delete_from_node bt b pos);
                if negb (err =? 0) then vdfs4_put_bnode id;; mret err
                else
                  recs_count ← read_node id (fun b => rd16 (data b) RECS_COUNT);
                  h ← state btree_height;
                  if recs_count =? 0 then remove_empty (btree_remove_at fuel) id key level
                  else if (pos =? 0) && (level <? h) then
                    new_key ← btree_update_key remove_fuel key id (level + 1);
                    match new_key with
                    | Err e => vdfs4_put_bnode id;; mret e
                    | Val key => remove_shrink (btree_remove_at fuel) id key level
                    end
                  else remove_shrink (btree_remove_at fuel) id key level
          end
      end
  end.

(** [vdfs4_btree_remove] *)
Definition vdfs4_btree_remove (key : list Z) : act Z := btree_remove_at remove_fuel key 1.

End Remove.
