(* ===== verification/BtreeRemoveTheorems.v ===== *)
(** Removal from a tree: what [vdfs4_btree_remove] does to the records when it does
    not merge nodes (src/linux/fs/vdfs4/btree.c). *)

From Stdlib Require Import ZArith Lia Bool List.
From stdpp Require Import base list gmap sets.
From S2P Require Import Prelude Bytes Bitmap Count FindBit Buffer TreeKeys Bnode BnodeRep BnodeDelete BnodeSearch BnodeSplit BnodeTheorems NodeStore StoreRep Btree BtreeRep BtreeLevel BtreeFind BtreePlace BtreeGrow BtreeRoot BtreeInsert BtreeUpdate BtreeEnv BtreeTheorems BtreeRemove.

Open Scope Z_scope.

(** The free space of a node with the records [R]. *)
Definition free_of (bt : btree) (R : list (list Z)) : Z := node_size_bytes bt - 40 - weight R.

(** The leaf [n] between [A] and [B] is not merged: it is filled to two thirds, or
    no neighbour has room for its records. *)
Definition settled (bt : btree) (A B : list node) (R : list (list Z)) : Prop :=
  free_of bt R <= node_size_bytes bt / 3
  \/ forall x, last A = Some x \/ head B = Some x -> free_of bt R + free_of bt (snd x) < node_size_bytes bt.

Section Remove.
Context (bt : btree) (Hpg : paged bt).
Context {comp_fn : list Z -> list Z -> Z} {valid : list Z -> Prop} `{Hcmp : KeyCmp comp_fn valid}.

#[local] Abbreviation krec := (krec (comp_fn := comp_fn) (valid := valid)).
#[local] Abbreviation linked := (linked bt (comp_fn := comp_fn) (valid := valid)).
#[local] Abbreviation node_ok := (node_ok bt (comp_fn := comp_fn) (valid := valid)).
#[local] Abbreviation level_ok := (level_ok bt (comp_fn := comp_fn) (valid := valid)).
#[local] Abbreviation wf := (wf bt (comp_fn := comp_fn) (valid := valid)).
#[local] Abbreviation found := (found (comp_fn := comp_fn)).
#[local] Abbreviation holds := (holds bt (comp_fn := comp_fn) (valid := valid)).
#[local] Abbreviation size := (node_size_bytes bt).

Lemma sorted_without (X Y : list (list Z)) (r : list Z) : sorted comp_fn (X ++ r :: Y) -> sorted comp_fn (X ++ Y).
Proof using Hcmp.
  change (r :: Y) with ([r] ++ Y); rewrite !sorted_app; intros (HX & (_ & HY & _) & HXY); split; [done|]; split; [done|].
  intros a b Ha Hb; apply HXY; [done|]; apply elem_of_app; by right.
Qed.

(** The fields of a node that removal reads. *)
Lemma node_fields (t : tree) (p q : Z) (n : node) (w : bool) (k : Z) :
  node_ok t p q n -> cached t !! fst n = Some (w, k) ->
  read_node (fst n) (fun b => rd16 (data b) FREE_SPACE) t = Ok (free_of bt (snd n), t)
  /\ read_node (fst n) (fun b => rd16 (data b) RECS_COUNT) t = Ok (lenZ (snd n), t)
  /\ read_node (fst n) (fun b => rd32 (data b) PREV_NODE_ID) t = Ok (p, t)
  /\ read_node (fst n) (fun b => rd32 (data b) NEXT_NODE_ID) t = Ok (q, t)
  /\ read_node (fst n) (fun b => rd32 (data b) NODE_ID) t = Ok (fst n, t).
Proof using Hpg.
  intros [_ (m & S & F & Hm & Hl & HS & I1 & I2 & I3) _ _] Hc; pose proof (paged_ok bt Hpg) as Hbt; unfold bt_ok in Hbt.
  pose proof (ly_len _ _ _ _ Hl) as Hlen; destruct (layout_weight bt _ _ _ Hl) as [EF _]; pose proof (ly_free _ _ _ _ Hl) as Hf.
  pose proof (ly_count _ _ _ _ Hl) as Hn; rewrite cell_eq in Hf.
  repeat split; (eapply read_ok; [exact Hm|exact Hc|]); cbn [data].
  - rewrite rd16_ok by (unfold FREE_SPACE; lia); f_equal; rewrite Hf, EF; unfold free_of, weight; rewrite <- HS, lenZ_recs; lia.
  - rewrite rd16_ok by (unfold RECS_COUNT; lia); f_equal; rewrite Hn, <- HS; by rewrite lenZ_recs.
  - rewrite rd32_ok by (unfold PREV_NODE_ID; lia); by rewrite I2.
  - rewrite rd32_ok by (unfold NEXT_NODE_ID; lia); by rewrite I3.
  - rewrite rd32_ok by (unfold NODE_ID; lia); by rewrite I1.
Qed.

(** A record deleted from a node. *)
Lemma delete_in_node (t : tree) (p q k : Z) (n : node) (P Q : list (list Z)) (r : list Z) :
  node_ok t p q n -> cached t !! fst n = Some (true, k) -> snd n = P ++ r :: Q ->
  exists t' m, with_node (fst n) (fun b => delete_from_node bt b (lenZ P)) t = Ok (0, t') /\ wrote bt {[fst n]} t t'
  /\ pages t' !! fst n = Some m /\ get16 m RECS_COUNT = lenZ (P ++ Q) /\ get32 m PREV_NODE_ID = p /\ get32 m NEXT_NODE_ID = q /\ lenZ m = size
  /\ (P ++ Q <> [] -> node_ok t' p q (fst n, P ++ Q)).
Proof using Hpg.
  intros [Hu (m & S & F & Hm & Hl & HS & I1 & I2 & I3) Hk Hs] Hc En; pose proof (paged_ok bt Hpg) as Hbt.
  assert (getZ (snd n) (lenZ P) = Some r) as Hr.
  { rewrite En; unfold getZ, lenZ; rewrite (proj2 (Z.ltb_ge _ _)) by lia; rewrite Nat2Z.id; by apply list_lookup_middle. }
  rewrite <- HS, getZ_snd in Hr; destruct (getZ S (lenZ P)) as [[o x]|] eqn:Es; [|done]; cbn in Hr; injection Hr as ->.
  destruct (delete_from_node_full bt Hbt (Bnode m (fst n) true (readonly t) false) S F (lenZ P) o r Hl Es) as (m' & E & Hl' & Hi); cbn [data] in Hi.
  set (S' := map (low_slot o (lenZ r)) (delete (Z.to_nat (lenZ P)) S)) in *.
  assert (map snd S' = P ++ Q) as ES'.
  { unfold S'; rewrite map_map; cbn [snd low_slot]; change (map snd (delete (Z.to_nat (lenZ P)) S) = P ++ Q).
    unfold lenZ; rewrite Nat2Z.id; change (map snd (delete (length P) S)) with (snd <$> delete (length P) S).
    assert (forall j (L : list (Z * list Z)), snd <$> delete j L = delete j (snd <$> L)) as Hdel
      by (induction j as [|j IH]; intros [|y L]; cbn; try done; f_equal; apply IH).
    rewrite Hdel; change (snd <$> S) with (map snd S); rewrite HS, En, delete_middle; done. }
  pose proof (ly_len _ _ _ _ Hl) as Hlen; pose proof (ly_len _ _ _ _ Hl') as Hlen'.
  eexists _, m'; split; [eapply with_ok; [exact Hm|exact Hc|exact E]|].
  assert (forall f, 16 <= f <= 28 -> get32 m' f = get32 m f) as Hids by (intros f Hf; by apply (get32_ids bt Hbt)).
  assert (put_back (vdfs4_mark_bnode_dirty (set_data m' (Bnode m (fst n) true (readonly t) false))) t
    = add_dirty (fst n) (set_pages (<[fst n := m']> (pages t)) t)) as Ep.
  { unfold put_back, vdfs4_mark_bnode_dirty; cbn; unfold set_readonly, set_pages; cbn; by rewrite orb_diag. }
  rewrite Ep; split; [eapply wrote_then; [apply wrote_page; by eapply layout_page|apply wrote_dirty]|].
  cbn [pages add_dirty set_pages]; split; [apply lookup_insert_eq|]; split; [rewrite (ly_count _ _ _ _ Hl'), <- ES'; by rewrite lenZ_recs|].
  unfold PREV_NODE_ID, NEXT_NODE_ID, NODE_ID in *; rewrite !Hids by lia; split; [done|]; split; [done|]; split; [done|]; intros Hne.
  split; cbn [fst snd]; [done| |rewrite En, Forall_app, Forall_cons in Hk; apply Forall_app; tauto|done].
  exists m', S', (F - lenZ r); cbn; rewrite lookup_insert_eq; split; [done|]; split; [done|]; split; [done|].
  unfold PREV_NODE_ID, NEXT_NODE_ID, NODE_ID; by rewrite !Hids by lia.
Qed.

(** The leaf level without the record. *)
Section Leaf.
Context (t t' : tree) (ls : list (list node)) (A B : list node) (n : node) (P Q : list (list Z)) (r : list Z).
Context (Hw : wf t ls) (Hix : indexed ls) (Hl : ls !! 0%nat = Some (A ++ n :: B)) (En : snd n = P ++ r :: Q) (Hne : P ++ Q <> []).
Context (Hwr : wrote bt {[fst n]} t t') (Hn : node_ok t' (last_id 0 A) (hd_id B 0) (fst n, P ++ Q)).

#[local] Abbreviation l' := (A ++ (fst n, P ++ Q) :: B).

Lemma cut_level : level_ok t' l'.
Proof using All.
  pose proof (wf_level _ _ _ Hw _ _ Hl) as [L1 L2 L3 _]; pose proof (nodup_mid _ _ _ L3) as (HA & HB & _); pose proof (wrote_keeps _ _ _ _ Hwr) as Hkp.
  split.
  - eapply relevel; [exact L1|exact Hkp|intros a Ha; specialize (HA a Ha); set_solver|done|].
    apply linked_app in L1 as [_ [_ LB]]; cbn [BtreeRep.linked hd_id fst]; split; [done|].
    eapply linked_keeps; [exact Hkp| |exact LB]; intros b Hb; specialize (HB b Hb); set_solver.
  - rewrite lrecs_app, lrecs_cons, En in L2; rewrite lrecs_app, lrecs_cons; cbn [snd].
    rewrite <- app_assoc, app_assoc in L2 |- *; by apply sorted_without in L2.
  - rewrite map_app in L3 |- *; exact L3.
  - by destruct A.
Qed.

(** The first key of the leaf is still there. *)
Lemma cut_grown : P <> [] -> grown bt (comp_fn := comp_fn) (valid := valid) t t' (A ++ n :: B) l'.
Proof using All.
  intros HP; pose proof (wf_level _ _ _ Hw _ _ Hl) as [L1 L2 L3 _]; pose proof (wrote_keeps _ _ _ _ Hwr) as Hkp; split.
  - intros n' [Hn'|[->|Hn']%elem_of_cons]%elem_of_app; left; [|apply (idset_elem _ n), elem_mid|]; apply idset_elem; set_solver.
  - intros x f [Hx|[->|Hx]%elem_of_cons]%elem_of_app Hf; [exists x, f; set_solver| |exists x, f; set_solver].
    exists (fst n, P ++ Q), f; split; [apply elem_mid|]; split; [done|]; split; [|done]; rewrite En in Hf; destruct P as [|g P0]; [done|]; exact Hf.
  - by destruct A.
  - rewrite map_app in L3 |- *; exact L3.
  - eapply keeps_mono; [exact Hkp|]; intros id ->%elem_of_singleton; apply idset_elem, elem_mid.
  - eapply wrote_store; [exact Hwr|apply (wf_store _ _ _ Hw)].
  - apply (wo_root _ _ _ _ Hwr).
  - apply (wo_height _ _ _ _ Hwr).
Qed.

Lemma cut_wf : P <> [] \/ length ls = 1%nat -> wf t' (<[0%nat := l']> ls).
Proof using All.
  intros [HP|H1].
  - eapply wf_grow; [exact Hpg|exact Hw|exact Hl|apply cut_level|by apply cut_grown|done].
  - pose proof cut_level as Hc; pose proof Hw as [W1 W2 _ _ W5 _]; destruct ls as [|l0 [|]]; try done; cbn in Hl; injection Hl as ->; cbn [insert list_insert].
    split.
    + eapply wrote_store; [exact Hwr|done].
    + by rewrite (wo_height _ _ _ _ Hwr), W2.
    + intros [|i] x Hx; [|done]; by injection Hx as <-.
    + by intros [|i] lo up.
    + exists l'; split; [done|]; rewrite (wo_root _ _ _ _ Hwr); destruct W5 as (top & Htop & Hr); injection Htop as <-; rewrite <- Hr; by destruct A.
    + by intros [|i] [|j] x y n1 n2.
Qed.

Lemma cut_leaves : leaves (<[0%nat := l']> ls) (lrecs A ++ P ++ Q ++ lrecs B).
Proof using All.
  exists l'; split; [apply list_lookup_insert_eq; by eapply lookup_lt_Some|]; rewrite lrecs_app, lrecs_cons; cbn [snd]; by rewrite <- app_assoc.
Qed.

Lemma cut_indexed : indexed (<[0%nat := l']> ls).
Proof using All. eapply indexed_leaf_same; [exact Hix|exact Hl|by rewrite !map_app]. Qed.

End Leaf.

(** ** The index record of a leaf *)

Lemma split_unique (A B A' B' : list node) (n n' : node) :
  NoDup (map fst (A ++ n :: B)) -> A ++ n :: B = A' ++ n' :: B' -> fst n = fst n' -> A = A' /\ n = n' /\ B = B'.
Proof using.
  revert A'; induction A as [|a A IH]; intros [|a' A'] Hnd E En; cbn in *; injection E as -> E; rewrite NoDup_cons in Hnd; destruct Hnd as [Hx Hnd].
  - done.
  - exfalso; apply Hx; rewrite En, E, map_app; apply elem_mid.
  - exfalso; apply Hx; rewrite <- En, map_app; apply elem_mid.
  - destruct (IH A' Hnd E En) as (-> & -> & ->); done.
Qed.

Section Parent.
Context (t : tree) (ls : list (list node)) (A B A2 B2 : list node) (n n2 : node) (key u : list Z) (pos pos2 : Z).
Context (Hw : wf t ls) (Hix : indexed ls) (Vk : valid key) (Hl : ls !! 0%nat = Some (A ++ n :: B)) (Hl2 : ls !! 1%nat = Some (A2 ++ n2 :: B2)).
Context (Hfd : found key n B pos) (Hfd2 : found key n2 B2 pos2) (Hu : getZ (snd n2) pos2 = Some u).

Lemma up_elem (i : Z) (x : list Z) : getZ (snd n2) i = Some x -> x ∈ lrecs (A2 ++ n2 :: B2).
Proof using. intros Hx; apply elem_of_lrecs; exists n2; split; [apply elem_mid|by eapply getZ_elem]. Qed.

(** A record of the parent with the leaf it points to. *)
Lemma up_child (i : Z) (x : list Z) : getZ (snd n2) i = Some x ->
  irec (comp_fn := comp_fn) (valid := valid) x /\ exists s f, s ∈ A ++ n :: B /\ fst s = child x /\ getZ (snd s) 0 = Some f /\ key_view f = key_view x
  /\ valid f /\ valid x.
Proof using All.
  intros Hx%up_elem; destruct (wf_index _ _ _ Hw _ _ _ Hl Hl2) as [I1 I2 _]; rewrite Forall_forall in I1; split; [auto|].
  destruct (I2 x Hx) as (s & f & Hs & E & Hf & Hv); exists s, f; split; [done|]; split; [done|]; split; [done|]; split; [done|]; split.
  - apply (wf_valid bt t ls 0 _ f Hw Hl), (first_elem s); done.
  - by apply (wf_valid bt t ls 1 _ x Hw Hl2).
Qed.

Lemma leaf_first : exists f, getZ (snd n) 0 = Some f.
Proof using All.
  destruct Hfd as [(r & Hr & _) _ _]; pose proof (getZ_bounds _ _ _ Hr); destruct (snd n) as [|f tl]; [unfold lenZ in *; cbn in *; lia|by exists f].
Qed.

(** The floor of the key in the index points to the leaf with the floor. *)
Lemma parent_child : child u = fst n.
Proof using All.
  destruct (up_child pos2 u Hu) as (_ & s & f & Hs & Es & Hf & Hv & Vf & Vu); pose proof Hfd as [(r & Hr & Hle) _ _].
  pose proof (wf_level _ _ _ Hw _ _ Hl) as Lv; assert (r ∈ lrecs (A ++ n :: B)) as Hrin by (apply elem_of_lrecs; exists n; split; [apply elem_mid|by eapply getZ_elem]).
  assert (valid r) as Vr by (by apply (wf_valid bt t ls 0 _ r Hw Hl)).
  assert (comp_fn f key <= 0) as Hfk.
  { destruct Hfd2 as [(u' & Hu' & Hle') _ _]; rewrite Hu in Hu'; injection Hu' as <-; apply (le_trans f u key); auto; by apply view_le. }
  assert (comp_fn f r <= 0) as Hfr by (apply (floor_greatest bt t A n B key r f pos Lv Hfd Hr); [apply (first_elem s); done|done]).
  apply list_elem_of_split in Hs as (A1 & B1 & El); assert (n ∈ A1 \/ n ∈ s :: B1) as [HnA|HnB] by (apply (elem_of_app A1 (s :: B1) n); rewrite <- El; apply elem_mid).
  - exfalso; pose proof (lo_sorted _ _ _ Lv) as Hs; rewrite El, lrecs_app in Hs; apply sorted_app in Hs as (_ & _ & Hs).
    assert (comp_fn r f < 0) as Hlt; [|pose proof (cmp_antisym r f Vr Vf); lia].
    apply Hs; [apply elem_of_lrecs; exists n; split; [done|by eapply getZ_elem]|apply (first_elem s); [apply elem_of_cons; by left|done]].
  - apply list_elem_of_split in HnB as (A' & B' & E'); rewrite E' in El; rewrite app_assoc in El.
    destruct (split_unique _ _ _ _ _ _ (lo_nodup _ _ _ Lv) El eq_refl) as (_ & _ & <-).
    assert (A' = []) as ->; [|injection E' as -> _; done].
    assert (ls !! 0%nat = Some (A1 ++ s :: B1)) as Hl1 by (by rewrite E', app_assoc, <- El).
    exact (no_dangling bt t ls 0 A2 B2 A1 B1 A' B n2 s n key u f pos2 pos Hw Hix Vk Hl2 Hfd2 Hu Hl1 Hf Hv E' Hfd).
Qed.

Lemma up_order (i j : Z) (x y : list Z) : getZ (snd n2) i = Some x -> getZ (snd n2) j = Some y -> i < j -> comp_fn x y < 0.
Proof using All.
  intros Hx Hy Hij; pose proof (getZ_bounds _ _ _ Hx); pose proof (getZ_bounds _ _ _ Hy).
  pose proof (lo_sorted _ _ _ (wf_level _ _ _ Hw _ _ Hl2)) as Hs; rewrite lrecs_app, lrecs_cons, !sorted_app in Hs; destruct Hs as (_ & (Hs & _) & _).
  unfold getZ in Hx, Hy; rewrite (proj2 (Z.ltb_ge _ _)) in Hx by lia; rewrite (proj2 (Z.ltb_ge _ _)) in Hy by lia; eapply Hs; [|exact Hx|exact Hy]; lia.
Qed.

(** A leaf whose index record is not the first one of the parent has a left
    neighbour, one whose index record is not the last one a right neighbour. *)
Lemma parent_left : 0 < pos2 -> A <> [].
Proof using All.
  intros Hp HA; pose proof (getZ_bounds _ _ _ Hu); destruct (getZ_is_Some (snd n2) (pos2 - 1)) as (v & Hv); [lia|].
  pose proof (up_order _ _ _ _ Hv Hu ltac:(lia)) as Hlt; destruct (up_child _ _ Hv) as (_ & s & g & Hs & _ & Hg & Vg & Vg' & Vv).
  destruct (up_child _ _ Hu) as (_ & s' & f & Hs' & Es' & Hf & Vf & Vf' & Vu); rewrite parent_child in Es'.
  pose proof (wf_level _ _ _ Hw _ _ Hl) as Lv; assert (s' = n) as -> by (apply (same_id (A ++ n :: B)); [apply (lo_nodup _ _ _ Lv)|done|apply elem_mid|done]).
  apply list_elem_of_split in Hs as (A1 & B1 & El); rewrite HA in El, Lv; cbn [app] in El, Lv.
  destruct (first_least bt t [] A1 B1 n s B f g Lv El Hf ltac:(by eapply getZ_elem)) as [Hle _].
  assert (comp_fn g f < 0) as Hgf by (apply cmp_lt; [done..|]; rewrite Vg, Vf; by apply cmp_lt); pose proof (cmp_antisym g f Vg' Vf'); lia.
Qed.

Lemma parent_right : pos2 < lenZ (snd n2) - 1 -> B <> [].
Proof using All.
  intros Hp HB; pose proof (getZ_bounds _ _ _ Hu); destruct (getZ_is_Some (snd n2) (pos2 + 1)) as (v & Hv); [lia|].
  pose proof (up_order _ _ _ _ Hu Hv ltac:(lia)) as Hlt; destruct (up_child _ _ Hv) as (_ & s & g & Hs & _ & Hg & Vg & Vg' & Vv).
  destruct (up_child _ _ Hu) as (_ & s' & f & Hs' & Es' & Hf & Vf & Vf' & Vu); rewrite parent_child in Es'.
  pose proof (wf_level _ _ _ Hw _ _ Hl) as Lv; assert (s' = n) as -> by (apply (same_id (A ++ n :: B)); [apply (lo_nodup _ _ _ Lv)|done|apply elem_mid|done]).
  assert (comp_fn f g < 0) as Hgf by (apply cmp_lt; [done..|]; rewrite Vg, Vf; by apply cmp_lt).
  rewrite HB in Hs, Lv; pose proof (lo_sorted _ _ _ Lv) as Hsrt; rewrite lrecs_app in Hsrt; apply sorted_app in Hsrt as (_ & _ & Hsrt).
  apply elem_of_app in Hs as [Hs| ->%list_elem_of_singleton]; [|rewrite Hf in Hg; injection Hg as <-; assert (comp_fn f f = 0) by (by apply cmp_eq); lia].
  assert (comp_fn g f < 0); [|pose proof (cmp_antisym g f Vg' Vf'); lia].
  apply Hsrt; [by apply (first_elem s)|apply (first_elem n); [by apply list_elem_of_singleton|done]].
Qed.

End Parent.

(** ** Nodes that stay as they are *)

Context {find : FindBit} (fresh : Z -> list Z) (ptr_err : Z -> Z).

Lemma dangling_read (t : tree) (p q : Z) (n : node) (w : bool) (k i z : Z) (x : list Z) :
  node_ok t p q n -> cached t !! fst n = Some (w, k) -> getZ (snd n) i = Some x -> irec (comp_fn := comp_fn) (valid := valid) x ->
  exists d, read_node (fst n) (fun b => is_bnode_dangling bt b i z) t = Ok (d, t).
Proof using Hpg.
  intros Hn Hc Hx Hi; pose proof (paged_ok bt Hpg) as Hbt.
  destruct (record_read bt Hbt t p q n w k i x Hn Hc Hx) as (m & S & F & o & y & Hm & Hl & _ & HS & _ & _ & Ev & Ec); specialize (Ec Hi).
  unfold read_node in Ev, Ec |- *; rewrite (node_of_ok _ _ _ _ _ Hm Hc) in Ev, Ec |- *; cbn [mbind run_bind data] in Ev, Ec |- *.
  pose proof (getZ_bounds _ _ _ HS); unfold is_bnode_dangling; rewrite (get_record_ok bt Hbt _ S F i) by (done || lia); cbn [mbind run_bind data].
  assert (off_of S F i = o) as -> by (unfold off_of; by rewrite HS).
  destruct (get_value_pointer m o) as [v| |]; [|done|done]; cbn in Ev; injection Ev as ->; cbn [mbind run_bind].
  destruct (rd32 m _) as [c| |]; [|done|done]; cbn; eauto.
Qed.

Section Still.
Context (t : tree) (ls : list (list node)) (A B : list node) (n : node) (key : list Z) (pos : Z).
Context (Hw : wf t ls) (Hix : indexed ls) (Vk : valid key) (Hl : ls !! 0%nat = Some (A ++ n :: B)) (Hup : (1 < length ls)%nat).
Context (Hfd : found key n B pos) (Hidle : cached t = ∅).

#[local] Abbreviation t1 := (set_cached (hold (cached t) (fst n) true) t).

Lemma still_idle : idle 1 t1 ls.
Proof using All.
  intros i l Hi Hli x Hx; cbn [cached set_cached]; rewrite hold_lookup_ne, Hidle by (intros E; pose proof (wf_sep _ _ _ Hw _ _ _ _ _ _ Hl Hli (elem_mid A B n) Hx (eq_sym E)); lia).
  apply lookup_empty.
Qed.

(** The key of a record of the leaf is not below the first key of the tree. *)
Lemma still_above (top : list node) (r : list Z) (rs : list (list Z)) : last ls = Some top -> lrecs top = r :: rs -> comp_fn r key <= 0.
Proof using All.
  intros Htop Hr; destruct (Z.leb_spec (comp_fn r key) 0) as [|Hgt]; [done|exfalso].
  destruct (below_first bt t ls (lrecs (A ++ n :: B)) top r key rs Hw ltac:(by exists (A ++ n :: B)) Htop Hr Vk Hgt) as (f & fs & ER & Hf).
  destruct Hfd as [(x & Hx & Hle) _ _]; assert (x ∈ lrecs (A ++ n :: B)) as Hin by (apply elem_of_lrecs; exists n; split; [apply elem_mid|by eapply getZ_elem]).
  pose proof (lo_sorted _ _ _ (wf_level _ _ _ Hw _ _ Hl)) as Hs; pose proof (fun y => wf_valid bt t ls 0 _ y Hw Hl) as V; rewrite ER in Hin, Hs, V.
  apply elem_of_cons in Hin as [->|Hin]; [lia|]; change (f :: fs) with ([f] ++ fs) in Hs; apply sorted_app in Hs as (_ & _ & Hs).
  assert (comp_fn f x < 0) as Hlt by (apply Hs; [by apply list_elem_of_singleton|done]).
  assert (comp_fn f key <= 0); [|lia]; apply (le_trans f x key); [apply V, elem_of_cons; by left|apply V, elem_of_cons; by right|done|lia|done].
Qed.

Lemma direction_spec :
  exists d, merge_direction bt comp_fn fresh (fst n) 1 key t1 = Ok ((0, d), t1)
  /\ match d with Some (true, _) => A <> [] | Some (false, _) => B <> [] | None => True end.
Proof using All.
  pose proof (paged_ok bt Hpg) as Hbt; assert (wf t1 ls) as W1 by (by apply wf_cached).
  pose proof (wf_level _ _ _ W1 _ _ Hl) as Lv; pose proof (lo_linked _ _ _ Lv) as HL; apply linked_app in HL as [_ [Hn _]].
  destruct (hold_mode (cached t) (fst n)) as (k & Ek); destruct (node_fields t1 _ _ n true k Hn Ek) as (_ & _ & Ep & Eq & _).
  unfold merge_direction; act_step Ep; act_step Eq; act_step (state_ok btree_height t1).
  rewrite (wf_height _ _ _ W1), (proj2 (Z.eqb_neq _ _)) by (unfold lenZ; lia); unfold btree_find; rewrite act_assoc.
  destruct (traverse_spec bt Hpg fresh 1 t1 ls key true None W1 still_idle Vk Hup I)
    as [(top & r & rs & Htop & Hr & Hgt & _)|(A2 & n2 & B2 & pos2 & ps' & Hl2 & E & Hfd2 & _)]; [pose proof (still_above top r rs Htop Hr); lia|].
  change (Z.of_nat 2) with (1 + 1) in E; act_step E; rewrite ret_bind; cbn beta iota; set (t2 := set_cached _ t1).
  pose proof Hfd2 as [(u & Hu & _) _ _]; assert (wf t2 ls) as W2 by (by apply wf_cached).
  destruct (linked_elem _ _ _ _ _ n2 (lo_linked _ _ _ (wf_level _ _ _ W2 _ _ Hl2)) (elem_mid _ _ _)) as (p2 & q2 & Hn2).
  destruct (hold_mode (cached t1) (fst n2)) as (k2 & Ek2); destruct (node_fields t2 _ _ n2 true k2 Hn2 Ek2) as (_ & Ec & _); act_step Ec.
  assert (vdfs4_put_bnode (fst n2) t2 = Ok (tt, t1)) as Eput
    by (apply put_hold, loose_free; apply (still_idle 1%nat _ ltac:(lia) Hl2 n2), elem_mid).
  pose proof (getZ_bounds _ _ _ Hu) as Hb2; destruct (Z.ltb_spec 0 pos2) as [Hpos|Hpos].
  - destruct (up_child t2 ls A B A2 B2 n n2 key u pos pos2 W2 Hix Vk Hl Hl2 Hfd Hfd2 Hu _ _ Hu) as (Iu & _).
    destruct (dangling_read t2 p2 q2 n2 true k2 pos2 (fst n) u Hn2 Ek2 Hu Iu) as (d & Ed); rewrite act_assoc; act_step Ed; rewrite ret_bind; act_step Eput.
    eexists; split; [reflexivity|]; by apply (parent_left t2 ls A B A2 B2 n n2 key u pos pos2 W2 Hix Vk Hl Hl2 Hfd Hfd2 Hu).
  - destruct (Z.ltb_spec pos2 (lenZ (snd n2) - 1)) as [Hlt|Hge].
    + destruct (getZ_is_Some (snd n2) (pos2 + 1)) as (v & Hv); [lia|].
      destruct (up_child t2 ls A B A2 B2 n n2 key u pos pos2 W2 Hix Vk Hl Hl2 Hfd Hfd2 Hu _ _ Hv) as (Iv & _).
      destruct (dangling_read t2 p2 q2 n2 true k2 (pos2 + 1) (hd_id B 0) v Hn2 Ek2 Hv Iv) as (d & Ed); rewrite act_assoc; act_step Ed; rewrite ret_bind; act_step Eput.
      eexists; split; [reflexivity|]; by apply (parent_right t2 ls A B A2 B2 n n2 key u pos pos2 W2 Hix Vk Hl Hl2 Hfd Hfd2 Hu).
    + rewrite ret_bind; act_step Eput; eexists; split; [reflexivity|done].
Qed.

(** The neighbour in the direction of a merge. *)
Lemma neighbour (left : bool) :
  (if left then A <> [] else B <> []) ->
  exists x p q, (last A = Some x \/ head B = Some x) /\ x ∈ A ++ n :: B /\ fst x = (if left then last_id 0 A else hd_id B 0) /\ fst x <> fst n /\ node_ok t p q x.
Proof using All.
  intros Hne; pose proof (wf_level _ _ _ Hw _ _ Hl) as [HL _ Hnd _]; destruct (nodup_mid _ _ _ Hnd) as (HA & HB & _).
  assert (exists x, (last A = Some x \/ head B = Some x) /\ x ∈ A ++ n :: B /\ fst x = (if left then last_id 0 A else hd_id B 0) /\ fst x <> fst n) as (x & H1 & Hx & H3 & H4).
  { destruct left.
    - destruct (last A) as [x|] eqn:E; [|by apply last_None in E]; exists x; unfold last_id; rewrite E.
      pose proof (last_Some_elem_of _ _ E) as Hx; split; [by left|]; split; [apply elem_of_app; by left|]; split; [done|by apply HA].
    - destruct B as [|x B0]; [done|]; exists x; split; [by right|]; split; [set_solver|]; split; [done|]; apply HB; set_solver. }
  destruct (linked_elem _ _ _ _ _ x HL Hx) as (p & q & Hn); exists x, p, q; auto.
Qed.

Lemma rebalance_spec (remove : list Z -> Z -> act Z) :
  (forall x, last A = Some x \/ head B = Some x -> free_of bt (snd n) + free_of bt (snd x) < size) ->
  rebalance bt comp_fn fresh ptr_err remove key 1 (fst n) (free_of bt (snd n)) t = Ok (0, t).
Proof using All.
  intros Hroom; pose proof (so_env _ _ (wf_store _ _ _ Hw)) as He; pose proof (wf_level _ _ _ Hw _ _ Hl) as Lv; pose proof (elem_mid A B n) as Hin.
  unfold rebalance; act_step (get_ok bt fresh t (fst n) true He (wf_used bt Hpg t ls 0 _ n Hw Hl Hin)).
  destruct direction_spec as (d & Ed & Hd); act_step Ed.
  assert (vdfs4_put_bnode (fst n) t1 = Ok (tt, t)) as Eput by (apply put_hold, loose_free; rewrite Hidle; apply lookup_empty).
  destruct d as [[left dang]|]; [|by act_step Eput].
  assert (wf t1 ls) as W1 by (by apply wf_cached); pose proof (wf_level _ _ _ W1 _ _ Hl) as Lv1.
  pose proof (lo_linked _ _ _ Lv1) as HL; apply linked_app in HL as [_ [Hn _]]; destruct (hold_mode (cached t) (fst n)) as (k & Ek).
  destruct (node_fields t1 _ _ n true k Hn Ek) as (_ & _ & Ep & Eq & Ei).
  destruct (neighbour left ltac:(by destruct left)) as (x & p & q & Hx & Hxin & Ex & Hxn & Hnx).
  assert (read_node (fst n) (fun b => rd32 (data b) (if left then PREV_NODE_ID else NEXT_NODE_ID)) t1 = Ok (fst x, t1)) as En
    by (rewrite Ex; by destruct left).
  act_step En; act_step Ei; cbn zeta.
  act_step (get_ok bt fresh t1 (fst x) true He (wf_used bt Hpg t1 ls 0 _ x W1 Hl Hxin)); set (t2 := set_cached _ t1).
  assert (node_ok t2 p q x) as Hnx2 by (eapply node_keeps; [apply (keeps_cached ∅)|set_solver|eapply node_keeps; [apply (keeps_cached ∅)|set_solver|exact Hnx]]).
  destruct (hold_mode (cached t1) (fst x)) as (kx & Ekx); destruct (node_fields t2 _ _ x true kx Hnx2 Ekx) as (Ef & _); act_step Ef.
  assert (vdfs4_put_bnode (fst x) t2 = Ok (tt, t1)) as Eput2
    by (apply put_hold, loose_free; cbn [cached set_cached]; rewrite hold_lookup_ne, Hidle by done; apply lookup_empty).
  act_step Eput2; act_step Eput; specialize (Hroom x Hx).
  pose proof (weight_nonneg (snd n)); pose proof (weight_nonneg (snd x)); unfold paged, free_of in *.
  assert (weight (snd n) <= size - 40 /\ weight (snd x) <= size - 40) as [Hw1 Hw2].
  { destruct Hn as [_ (mn & S & F & _ & Hln & <- & _) _ _], Hnx as [_ (mx & Sx & Fx & _ & Hlx & <- & _) _ _].
    split; [apply (layout_weight bt mn S F Hln)|apply (layout_weight bt mx Sx Fx Hlx)]. }
  rewrite u32_small by lia; rewrite (proj2 (Z.leb_gt _ _)) by lia; done.
Qed.

End Still.

(** ** The removal *)

(** The search of [__btree_remove] in the leaves ends at a record with the key or
    there is none. *)
Lemma same_key (r x key : list Z) : krec r -> Forall is_byte x -> valid key -> comp_fn key (r ++ x) = 0 <-> comp_fn r key = 0.
Proof using Hpg Hcmp.
  intros Kr Bx Vk; destruct (record_key r x Kr Bx) as (_ & _ & _ & Ev & Vrx); assert (valid r) as Vr by apply Kr.
  rewrite !cmp_eq, Ev by done; split; congruence.
Qed.

(** The floor of a key that is there is its record. *)
Lemma floor_is (t : tree) (A B A' B' : list node) (n n' : node) (P Q : list (list Z)) (r key : list Z) (pos : Z) :
  level_ok t (A ++ n :: B) -> A ++ n :: B = A' ++ n' :: B' -> snd n = P ++ r :: Q -> valid key -> comp_fn r key = 0 -> found key n' B' pos ->
  A' = A /\ n' = n /\ B' = B /\ pos = lenZ P.
Proof using Hcmp.
  intros Lv El En Vk E0 Hfd; pose proof Hfd as [(r' & Hr' & Hle) _ _].
  pose proof (linked_krec _ _ _ _ _ (lo_linked _ _ _ Lv)) as HV; apply krec_valid in HV; rewrite Forall_forall in HV.
  assert (r ∈ lrecs (A ++ n :: B)) as Hrin by (apply elem_of_lrecs; exists n; split; [apply elem_mid|rewrite En; apply elem_mid]).
  assert (r' ∈ snd n') as Hrn' by (by eapply getZ_elem).
  assert (r' ∈ lrecs (A ++ n :: B)) as Hrin' by (rewrite El; apply elem_of_lrecs; exists n'; split; [apply elem_mid|done]).
  pose proof (HV _ Hrin) as Vr; pose proof (HV _ Hrin') as Vr'.
  assert (comp_fn r r' <= 0) as H1 by (rewrite El in Lv, Hrin; apply (floor_greatest bt t A' n' B' key r' r pos Lv Hfd Hr' Hrin); lia).
  assert (comp_fn r' r <= 0) as H2.
  { apply (le_trans r' key r); [done..|]; apply view_le; [done..|]; symmetry; by apply cmp_eq. }
  pose proof (cmp_antisym r r' Vr Vr') as Ha; pose proof (lo_sorted _ _ _ Lv) as Hs; rewrite lrecs_app, lrecs_cons, !sorted_app in Hs.
  destruct Hs as (_ & (Hsn & _ & HnB) & HA); assert (r ∈ snd n) as Hrn by (rewrite En; apply elem_mid).
  assert (n' = n) as ->.
  { assert (n' ∈ A ++ n :: B) as Hin by (rewrite El; apply elem_mid); apply elem_of_app in Hin as [Hin|[->|Hin]%elem_of_cons]; [exfalso|done|exfalso].
    - assert (comp_fn r' r < 0); [|lia]; apply HA; [apply elem_of_lrecs; eauto|apply elem_of_app; by left].
    - assert (comp_fn r r' < 0); [|lia]; apply HnB; [done|apply elem_of_lrecs; eauto]. }
  destruct (split_unique _ _ _ _ _ _ (lo_nodup _ _ _ Lv) El eq_refl) as (-> & _ & ->); do 3 (split; [done|]).
  pose proof (getZ_bounds _ _ _ Hr') as Hb; unfold getZ in Hr'; rewrite (proj2 (Z.ltb_ge _ _)) in Hr' by lia.
  assert (snd n !! length P = Some r) as Hr by (rewrite En; by apply list_lookup_middle).
  unfold lenZ; destruct (Z.lt_trichotomy pos (Z.of_nat (length P))) as [Hlt|[->|Hgt]]; [exfalso|done|exfalso].
  - assert (comp_fn r' r < 0); [|lia]; eapply Hsn; [|exact Hr'|exact Hr]; lia.
  - assert (comp_fn r r' < 0); [|lia]; eapply Hsn; [|exact Hr|exact Hr']; lia.
Qed.

Section Whole.
Context (t : tree) (ls : list (list node)) (R : list (list Z)) (key : list Z).
Context (Hh : holds t ls R) (Vk : valid key).

Lemma fuel_some : exists f, remove_fuel = S f.
Proof using. destruct remove_fuel eqn:E; [|eauto]; apply (f_equal Z.of_nat) in E; unfold remove_fuel in E; rewrite Z2Nat.id in E by lia; cbn in E; lia. Qed.

(** The start of a removal, up to the comparison of the keys. *)
Lemma remove_start :
  (exists f fs, R = f :: fs /\ 0 < comp_fn f key /\ vdfs4_btree_remove bt comp_fn fresh ptr_err key t = Ok (- ENOENT, t))
  \/ exists A n B pos r x fuel, ls !! 0%nat = Some (A ++ n :: B) /\ found key n B pos /\ getZ (snd n) pos = Some r /\ krec r /\ Forall is_byte x
     /\ vdfs4_btree_remove bt comp_fn fresh ptr_err key t
        = (if negb (comp_fn key (r ++ x) =? 0) then vdfs4_put_bnode (fst n);; mret (- ENOENT)
           else
             err ← with_node (fst n) (fun b => delete_from_node bt b pos);
             if negb (err =? 0) then vdfs4_put_bnode (fst n);; mret err
             else
               recs_count ← read_node (fst n) (fun b => rd16 (data b) RECS_COUNT);
               h ← state btree_height;
               if recs_count =? 0 then remove_empty bt fresh (btree_remove_at bt comp_fn fresh ptr_err fuel) (fst n) key 1
               else if (pos =? 0) && (1 <? h) then
                 new_key ← btree_update_key bt comp_fn fresh remove_fuel key (fst n) (1 + 1);
                 match new_key with
                 | Err e => vdfs4_put_bnode (fst n);; mret e
                 | Val key => remove_shrink bt comp_fn fresh ptr_err (btree_remove_at bt comp_fn fresh ptr_err fuel) (fst n) key 1
                 end
               else remove_shrink bt comp_fn fresh ptr_err (btree_remove_at bt comp_fn fresh ptr_err fuel) (fst n) key 1)
            (set_cached (hold (cached t) (fst n) true) t).
Proof using All.
  pose proof Hh as [Hw Hix Hidle Hlv]; pose proof (paged_ok bt Hpg) as Hbt; pose proof Hlv as (l0 & Hl0 & _); pose proof (lookup_lt_Some _ _ _ Hl0) as Hpos.
  destruct fuel_some as (fuel & Ef); assert (vdfs4_btree_remove bt comp_fn fresh ptr_err key t = btree_remove_at bt comp_fn fresh ptr_err (S fuel) key 1 t) as -> by (unfold vdfs4_btree_remove; by rewrite Ef).
  cbn [btree_remove_at]; act_step (state_ok btree_height t).
  assert (bug_on (btree_height t <? 1) = Ok tt) as Eb by (rewrite (wf_height _ _ _ Hw), (proj2 (Z.ltb_ge _ _)) by (unfold lenZ; lia); done).
  lift_step Eb; unfold btree_find; rewrite !act_assoc.
  destruct (traverse_spec bt Hpg fresh 0 t ls key true None Hw (no_cache 0 t ls Hidle) Vk Hpos I)
    as [(top & r & rs & Htop & Hr & Hgt & E)|(A & n & B & pos & ps' & Hl & E & Hfd & _)]; change (Z.of_nat 1) with 1 in E.
  { left; destruct (below_first bt t ls R top r key rs Hw Hlv Htop Hr Vk Hgt) as (f & fs & -> & Hf); exists f, fs; split; [done|]; split; [done|].
    act_step E; rewrite ret_bind; done. }
  right; pose proof Hfd as [(r & Hr & Hle) _ _]; set (t1 := set_cached _ t) in *; assert (wf t1 ls) as W1 by (by apply wf_cached).
  destruct (linked_elem _ _ _ _ _ n (lo_linked _ _ _ (wf_level _ _ _ W1 _ _ Hl)) (elem_mid _ _ _)) as (p & q & Hn).
  destruct (hold_lookup (cached t) (fst n) true) as (k & Ek); destruct (record_read bt Hbt t1 p q n _ k pos r Hn Ek Hr)
    as (m & S & F & o & x & _ & _ & _ & _ & Bx & Erec & _).
  assert (krec r) as Kr by (destruct Hn as [_ _ Hkr _]; rewrite Forall_forall in Hkr; apply Hkr; by eapply getZ_elem).
  exists A, n, B, pos, r, x, fuel; do 5 (split; [done|]); act_step E; rewrite ret_bind; cbn beta iota; act_step Erec; done.
Qed.

Lemma remove_absent : Forall (fun r => comp_fn r key <> 0) R -> vdfs4_btree_remove bt comp_fn fresh ptr_err key t = Ok (- ENOENT, t).
Proof using All.
  intros HR; destruct remove_start as [(f & fs & _ & _ & E)|(A & n & B & pos & r & x & fuel & Hl & Hfd & Hr & Kr & Bx & ->)]; [done|].
  destruct Hh as [Hw _ Hidle (l & Hl' & <-)]; rewrite Hl in Hl'; injection Hl' as <-.
  assert (comp_fn key (r ++ x) <> 0) as Hne.
  { rewrite (same_key r x key) by done; rewrite Forall_forall in HR; apply HR, elem_of_lrecs; exists n; split; [apply elem_mid|by eapply getZ_elem]. }
  rewrite (proj2 (Z.eqb_neq _ _)) by done; cbn [negb].
  assert (vdfs4_put_bnode (fst n) (set_cached (hold (cached t) (fst n) true) t) = Ok (tt, t)) as Ep
    by (apply put_hold, loose_free; rewrite Hidle; apply lookup_empty).
  by act_step Ep.
Qed.

Section Present.
Context (A B : list node) (n : node) (P Q : list (list Z)) (r : list Z).
Context (Hl : ls !! 0%nat = Some (A ++ n :: B)) (En : snd n = P ++ r :: Q) (E0 : comp_fn r key = 0).

(** The deletion, with what follows it. *)
Lemma remove_deletes :
  exists t2 m fuel, wrote bt {[fst n]} t t2 /\ cached t2 = cached t
  /\ (forall t3, t3 = set_cached (hold (cached t) (fst n) true) t2 -> pages t3 !! fst n = Some m)
  /\ lenZ m = size /\ get16 m RECS_COUNT = lenZ (P ++ Q) /\ get32 m PREV_NODE_ID = last_id 0 A /\ get32 m NEXT_NODE_ID = hd_id B 0
  /\ found key n B (lenZ P) /\ (P ++ Q <> [] -> node_ok t2 (last_id 0 A) (hd_id B 0) (fst n, P ++ Q))
  /\ vdfs4_btree_remove bt comp_fn fresh ptr_err key t
     = (if lenZ (P ++ Q) =? 0 then remove_empty bt fresh (btree_remove_at bt comp_fn fresh ptr_err fuel) (fst n) key 1
        else if (lenZ P =? 0) && (1 <? btree_height t) then
          new_key ← btree_update_key bt comp_fn fresh remove_fuel key (fst n) (1 + 1);
          match new_key with
          | Err e => vdfs4_put_bnode (fst n);; mret e
          | Val key => remove_shrink bt comp_fn fresh ptr_err (btree_remove_at bt comp_fn fresh ptr_err fuel) (fst n) key 1
          end
        else remove_shrink bt comp_fn fresh ptr_err (btree_remove_at bt comp_fn fresh ptr_err fuel) (fst n) key 1)
         (set_cached (hold (cached t) (fst n) true) t2).
Proof using All.
  pose proof Hh as [Hw _ Hidle (l & Hl' & HR)]; rewrite Hl in Hl'; injection Hl' as <-; pose proof (wf_level _ _ _ Hw _ _ Hl) as Lv.
  assert (r ∈ lrecs (A ++ n :: B)) as Hrin by (apply elem_of_lrecs; exists n; split; [apply elem_mid|rewrite En; apply elem_mid]).
  destruct remove_start as [(f & fs & ER & Hgt & _)|(A' & n' & B' & pos & r' & x & fuel & Hl' & Hfd & Hr' & Kr & Bx & ->)].
  { exfalso; pose proof (lo_sorted _ _ _ Lv) as Hs; pose proof (fun y => wf_valid bt t ls 0 _ y Hw Hl) as V; rewrite HR, ER in Hrin, Hs; rewrite HR, ER in V.
    apply elem_of_cons in Hrin as [->|Hin]; [lia|]; change (f :: fs) with ([f] ++ fs) in Hs; apply sorted_app in Hs as (_ & _ & Hs).
    assert (comp_fn f r < 0) as Hlt by (apply Hs; [by apply list_elem_of_singleton|done]).
    assert (comp_fn f key < 0); [|lia]; apply (cmp_trans f r key); [apply V, elem_of_cons; by left|apply V, elem_of_cons; by right|done|done|lia]. }
  assert (A ++ n :: B = A' ++ n' :: B') as El by congruence; destruct (floor_is t A B A' B' n n' P Q r key pos Lv El En Vk E0 Hfd) as (-> & -> & -> & ->).
  assert (r' = r) as ->.
  { rewrite En in Hr'; unfold getZ, lenZ in Hr'; rewrite (proj2 (Z.ltb_ge _ _)), Nat2Z.id, list_lookup_middle in Hr' by (done || lia); by injection Hr' as ->. }
  set (t1 := set_cached _ t); rewrite (proj2 (Z.eqb_eq _ _)) by (by apply same_key); cbn [negb].
  assert (wf t1 ls) as W1 by (by apply wf_cached); pose proof (lo_linked _ _ _ (wf_level _ _ _ W1 _ _ Hl)) as HL; apply linked_app in HL as [_ [Hn _]].
  destruct (hold_mode (cached t) (fst n)) as (k & Ek); destruct (delete_in_node t1 _ _ k n P Q r Hn Ek En) as (t2 & m & E & Hwr & Hm & Hc & I2 & I3 & Hlen & Hn2).
  act_step E; cbn [Z.eqb negb]; pose proof (wo_cached _ _ _ _ Hwr) as C2; cbn in C2.
  assert (cached t2 !! fst n = Some (true, k)) as Ek2 by (by rewrite C2).
  assert (read_node (fst n) (fun b => rd16 (data b) RECS_COUNT) t2 = Ok (lenZ (P ++ Q), t2)) as Erd.
  { eapply read_ok; [exact Hm|exact Ek2|]; cbn [data]; destruct Hpg; rewrite rd16_ok by (unfold RECS_COUNT; lia); by rewrite Hc. }
  act_step Erd; act_step (state_ok btree_height t2); rewrite (wo_height _ _ _ _ Hwr); change (btree_height t1) with (btree_height t).
  assert (t2 = set_cached (hold (cached t) (fst n) true) (set_cached (cached t) t2)) as Et2 by (destruct t2; cbn in C2 |- *; by rewrite C2).
  exists (set_cached (cached t) t2), m, fuel; rewrite <- Et2; split; [|split; [done|split; [by intros t3 ->|]]].
  { destruct Hwr as [? ? ? ? ? ? ? ? ?]; by split. }
  do 5 (split; [done|]); split; [|done]; intros Hne; eapply node_keeps; [apply (keeps_cached ∅)|set_solver|by apply Hn2].
Qed.

(** The floor of the removed key is the record in front of it. *)
Lemma found_before : P <> [] -> found key n B (lenZ P) -> found key (fst n, P ++ Q) B (lenZ P - 1).
Proof using All.
  intros HP [_ Ha Hb]; destruct Hh as [Hw _ _ _]; pose proof (wf_level _ _ _ Hw _ _ Hl) as Lv; destruct (exists_last HP) as (P0 & r0 & EP).
  assert (lenZ P - 1 = Z.of_nat (length P0)) as Elen by (rewrite EP; unfold lenZ; rewrite length_app; cbn; lia); split; cbn [snd].
  - exists r0; split.
    + unfold getZ; rewrite Elen, (proj2 (Z.ltb_ge _ _)), Nat2Z.id, EP, <- app_assoc by lia; by apply list_lookup_middle.
    + pose proof (lo_sorted _ _ _ Lv) as Hs; rewrite lrecs_app, lrecs_cons, En, EP, !sorted_app in Hs; destruct Hs as (_ & ((_ & _ & Hs) & _) & _).
      pose proof (fun y => wf_valid bt t ls 0 _ y Hw Hl) as V; assert (forall y, y ∈ P ++ r :: Q -> valid y) as V'
        by (intros y Hy; apply V, elem_of_lrecs; exists n; split; [apply elem_mid|by rewrite En]).
      assert (comp_fn r0 r < 0) as Hlt by (apply Hs; [apply elem_of_app; right; by apply list_elem_of_singleton|apply elem_of_cons; by left]).
      assert (comp_fn r0 key < 0); [|lia]; apply (cmp_trans r0 r key); [|apply V', elem_mid|done|done|lia].
      apply V'; rewrite EP; apply elem_of_app; left; apply elem_of_app; right; by apply list_elem_of_singleton.
  - replace (Z.to_nat (lenZ P - 1 + 1)) with (length P) by (unfold lenZ; lia); rewrite drop_app_length.
    replace (Z.to_nat (lenZ P + 1)) with (length (P ++ [r])) in Ha by (unfold lenZ; rewrite length_app; cbn; lia).
    rewrite En in Ha; change (P ++ r :: Q) with (P ++ [r] ++ Q) in Ha; rewrite app_assoc, drop_app_length in Ha; done.
  - done.
Qed.

(** A leaf that is the root is the whole tree, and a tree of one level is that
    leaf. *)
Lemma root_leaf : fst n = root_bnode_id t <-> length ls = 1%nat.
Proof using All.
  destruct Hh as [Hw [_ (n0 & Hn0)] _ _]; destruct (wf_root _ _ _ Hw) as (top & Htop & Hroot); rewrite Htop in Hn0; injection Hn0 as ->; cbn in Hroot.
  rewrite last_lookup in Htop; pose proof (lookup_lt_Some _ _ _ Hl) as Hpos; split.
  - intros E; pose proof (wf_sep _ _ _ Hw _ _ _ _ n n0 Hl Htop (elem_mid _ _ _) ltac:(by apply list_elem_of_singleton) ltac:(congruence)); lia.
  - intros E1; rewrite E1 in Htop; cbn in Htop; rewrite Hl in Htop; injection Htop as Et; destruct A as [|a A']; [injection Et as -> _; done|].
    injection Et as _ Et; by destruct A'.
Qed.

Lemma remove_kept :
  P <> [] \/ length ls = 1%nat -> P ++ Q <> [] -> length ls = 1%nat \/ settled bt A B (P ++ Q) ->
  exists t', vdfs4_btree_remove bt comp_fn fresh ptr_err key t = Ok (0, t')
  /\ holds t' (<[0%nat := A ++ (fst n, P ++ Q) :: B]> ls) (lrecs A ++ P ++ Q ++ lrecs B).
Proof using All.
  intros HP Hne Hset; pose proof Hh as [Hw Hix Hidle _]; destruct remove_deletes as (t2 & m & fuel & Hwr & C2 & _ & _ & _ & _ & _ & Hfd & Hn2 & ->); specialize (Hn2 Hne).
  pose proof (cut_wf t t2 ls A B n P Q r Hw Hix Hl En Hne Hwr Hn2 HP) as W2; pose proof (cut_leaves t t2 ls A B n P Q r Hw Hix Hl En Hne Hwr Hn2) as L2.
  pose proof (cut_indexed t t2 ls A B n P Q r Hw Hix Hl En Hne Hwr Hn2) as I2; set (ls' := <[0%nat := _]> ls) in *.
  assert (0 < lenZ (P ++ Q)) as Hlen by (destruct (P ++ Q) as [|y Y]; [done|rewrite lenZ_cons; pose proof (lenZ_nonneg Y); lia]).
  rewrite (proj2 (Z.eqb_neq (lenZ (P ++ Q)) 0)) by lia.
  assert ((lenZ P =? 0) && (1 <? btree_height t) = false) as ->.
  { rewrite (wf_height _ _ _ Hw); destruct HP as [HP|HP]; [|unfold lenZ at 2; rewrite HP; apply andb_false_r].
    rewrite (proj2 (Z.eqb_neq _ _)); [done|]; destruct P as [|y Y]; [done|]; rewrite lenZ_cons; pose proof (lenZ_nonneg Y); lia. }
  exists t2; split; [|split; [done|done|by rewrite C2|done]]; set (t3 := set_cached _ t2).
  assert (vdfs4_put_bnode (fst n) t3 = Ok (tt, t2)) as Eput.
  { unfold t3; rewrite <- C2; apply put_hold, loose_free; rewrite C2, Hidle; apply lookup_empty. }
  destruct (hold_mode (cached t) (fst n)) as (k & Ek); assert (node_ok t3 (last_id 0 A) (hd_id B 0) (fst n, P ++ Q)) as Hn3
    by (eapply node_keeps; [apply (keeps_cached ∅)|set_solver|exact Hn2]).
  destruct (node_fields t3 _ _ (fst n, P ++ Q) true k Hn3 Ek) as (Ef & Ec & _); cbn [fst snd] in Ef, Ec.
  unfold remove_shrink; act_step Ef; act_step Ec; act_step (state_ok root_bnode_id t3).
  destruct (Z.ltb_spec (size / 3) (free_of bt (P ++ Q))) as [Hbig|]; [|by act_step Eput].
  change (root_bnode_id t3) with (root_bnode_id t2); rewrite (wo_root _ _ _ _ Hwr); destruct (Z.eqb_spec (fst n) (root_bnode_id t)) as [Er|Er]; cbn [negb].
  - destruct (_ =? 1); [|by act_step Eput]; act_step (state_ok btree_height t3); change (btree_height t3) with (btree_height t2).
    rewrite (wo_height _ _ _ _ Hwr), (wf_height _ _ _ Hw); unfold lenZ; rewrite (proj1 root_leaf Er); change (Z.of_nat 1 <=? 1) with true; cbn iota.
    by act_step Eput.
  - destruct HP as [HP|HP]; [|by destruct Er; apply root_leaf]; destruct Hset as [Hone|[Hs|Hs]]; [by destruct Er; apply root_leaf|lia|].
    act_step Eput; assert (1 < length ls')%nat as Hup.
    { unfold ls'; rewrite length_insert; pose proof (lookup_lt_Some _ _ _ Hl); destruct (decide (length ls = 1%nat)); [by destruct Er; apply root_leaf|lia]. }
    assert (ls' !! 0%nat = Some (A ++ (fst n, P ++ Q) :: B)) as Hl' by (apply list_lookup_insert_eq; by eapply lookup_lt_Some).
    assert (cached t2 = ∅) as Hidle2 by (by rewrite C2).
    pose proof (rebalance_spec t2 ls' A B (fst n, P ++ Q) key _ W2 I2 Vk Hl' Hup (found_before HP Hfd) Hidle2
      (btree_remove_at bt comp_fn fresh ptr_err fuel) Hs) as Ereb; cbn [fst snd] in Ereb; act_step Ereb; done.
Qed.

(** The last record of a tree. *)
Lemma remove_last : P = [] -> Q = [] -> length ls = 1%nat -> vdfs4_btree_remove bt comp_fn fresh ptr_err key t = Bug.
Proof using All.
  intros HP HQ H1; pose proof Hh as [Hw Hix Hidle _]; destruct remove_deletes as (t2 & m & fuel & Hwr & C2 & Hm & Hlen & _ & I2 & I3 & _ & _ & ->).
  rewrite HP, HQ; cbn [app]; change (lenZ (@nil (list Z)) =? 0) with true; cbn iota; set (t3 := set_cached _ t2); specialize (Hm t3 eq_refl).
  destruct (hold_mode (cached t) (fst n)) as (k & Ek); pose proof (paged_ok bt Hpg) as Hbt; unfold bt_ok in Hbt.
  assert (A = [] /\ B = []) as [EA EB].
  { destruct Hix as [_ (n0 & Hn0)]; rewrite last_lookup, H1 in Hn0; cbn in Hn0; rewrite Hl in Hn0; injection Hn0 as Et.
    destruct A as [|a A']; [by injection Et as _ ->|]; injection Et as _ Et; by destruct A'. }
  assert (read_node (fst n) (fun b => rd32 (data b) PREV_NODE_ID) t3 = Ok (0, t3)) as Ep
    by (eapply read_ok; [exact Hm|exact Ek|]; cbn [data]; rewrite rd32_ok by (unfold PREV_NODE_ID; lia); by rewrite I2, EA).
  assert (read_node (fst n) (fun b => rd32 (data b) NEXT_NODE_ID) t3 = Ok (0, t3)) as Eq
    by (eapply read_ok; [exact Hm|exact Ek|]; cbn [data]; rewrite rd32_ok by (unfold NEXT_NODE_ID; lia); by rewrite I3, EB).
  unfold remove_empty; act_step Ep; act_step Eq; unfold unlink_neighbour; cbn [Z.eqb VDFS4_INVALID_NODE_ID]; rewrite !ret_bind.
  act_step (state_ok root_bnode_id t3); change (root_bnode_id t3) with (root_bnode_id t2); rewrite (wo_root _ _ _ _ Hwr), (proj2 root_leaf H1), Z.eqb_refl; done.
Qed.

End Present.

End Whole.

End Remove.

(** ** What a removal promises *)

Section Theorems.
Context {find : FindBit} {comp_fn : list Z -> list Z -> Z} {valid : list Z -> Prop} `{Hcmp : KeyCmp comp_fn valid}.

(** C4: Let no allocation, reading or validation of a node fail ([calls_succeed]).
    Then vdfs4_btree_remove answers -ENOENT for a key that is not in the tree and
    leaves the tree as it was. A record that is not the first one of its leaf, or
    any record of a tree of one leaf that holds another one, is removed: the answer
    is 0, the leaves hold the other records in their order, the tree is well-formed
    with an index record for every node, and no node stays fetched. The leaf is
    left with its neighbours: it is filled to two thirds, or no neighbour has room
    for what it holds. (In the last case the neighbours are fetched, and a failure of
    that is answered with VDFS4_BUG on a mounted volume, after the deletion.) *)
Theorem remove_correct (bt : btree) (fresh : Z -> list Z) (ptr_err : Z -> Z) (t : tree) (ls : list (list node)) (R : list (list Z)) (key : list Z) :
  paged bt -> calls_succeed t -> contains bt (comp_fn := comp_fn) (valid := valid) t ls R -> valid key ->
  (Forall (fun r => comp_fn r key <> 0) R -> vdfs4_btree_remove bt comp_fn fresh ptr_err key t = Ok (- ENOENT, t))
  /\ (forall A n B P r Q, ls !! 0%nat = Some (A ++ n :: B) -> snd n = P ++ r :: Q -> comp_fn r key = 0 ->
      P <> [] \/ length ls = 1%nat -> P ++ Q <> [] -> length ls = 1%nat \/ settled bt A B (P ++ Q) ->
      exists t', vdfs4_btree_remove bt comp_fn fresh ptr_err key t = Ok (0, t')
      /\ contains bt (comp_fn := comp_fn) (valid := valid) t' (<[0%nat := A ++ (fst n, P ++ Q) :: B]> ls) (lrecs A ++ P ++ Q ++ lrecs B)).
Proof using Hcmp.
  intros Hpg Hcs Hh Vk; unfold contains in *; rewrite (calls_id t Hcs) in Hh; split; [exact (remove_absent bt Hpg fresh ptr_err t ls R key Hh Vk)|].
  intros A n B P r Q Hl En E0 HP Hne Hse; destruct (remove_kept bt Hpg fresh ptr_err t ls R key Hh Vk A B n P Q r Hl En E0 HP Hne Hse) as (t' & E & Hh').
  exists t'; split; [exact E|]; rewrite (calls_id t'); [exact Hh'|]; eapply wf_calls, Hh'.
Qed.

(** The removal of the only record of a tree stops the system: the root becomes
    empty, and an empty node is destroyed unless it is the root. *)
Theorem remove_only_record (bt : btree) (fresh : Z -> list Z) (ptr_err : Z -> Z) (t : tree) (n : node) (r key : list Z) :
  paged bt -> holds bt (comp_fn := comp_fn) (valid := valid) t [[n]] [r] -> snd n = [r] -> valid key -> comp_fn r key = 0 ->
  vdfs4_btree_remove bt comp_fn fresh ptr_err key t = Bug.
Proof using Hcmp.
  intros Hpg Hh En Vk E0; exact (remove_last bt Hpg fresh ptr_err t [[n]] [r] key Hh Vk [] [] n [] [] r eq_refl En E0 eq_refl eq_refl eq_refl).
Qed.

End Theorems.

Import PlainFind.

Lemma remove_correct_witness :
  exists m, vdfs4_btree_remove page_tree vdfs4_exttree_cmpfn zero_page (fun _ => 0) (ext_record 1 7) (small_tree m) = Ok (- ENOENT, small_tree m)
  /\ exists t', vdfs4_btree_remove page_tree vdfs4_exttree_cmpfn zero_page (fun _ => 0) (ext_record 1 9) (small_tree m) = Ok (0, t')
  /\ contains page_tree (comp_fn := vdfs4_exttree_cmpfn) (valid := ext_valid) t' [[(7, [ext_record 1 5])]] [ext_record 1 5].
Proof.
  destruct small_contains as (m & Hh); exists m; split.
  - apply (remove_correct page_tree zero_page (fun _ => 0) (small_tree m) _ _ (ext_record 1 7) page_tree_paged eq_refl Hh); [apply ext_krec|].
    rewrite !Forall_cons; split; [by vm_compute|]; split; [by vm_compute|]; by apply Forall_nil.
  - destruct (remove_correct page_tree zero_page (fun _ => 0) (small_tree m) _ _ (ext_record 1 9) page_tree_paged eq_refl Hh) as [_ H]; [apply ext_krec|].
    destruct (H [] (7, [ext_record 1 5; ext_record 1 9]) [] [ext_record 1 5] (ext_record 1 9) []) as (t' & E & Hh'); [done|done|by vm_compute|by left|done|by left|].
    exists t'; split; [exact E|exact Hh'].
Defined.
