(* ===== verification/Snapshot.v ===== *)
(** Copy-on-write metadata, src/linux/fs/vdfs4/snapshot.c.

    The special files of the volume (three trees and two bitmaps) live in a
    metadata area. The base table translates each chunk of a special file to its
    place in the area; a chunk that is changed for the first time in a transaction
    moves to a free place, and the commit writes the changed entries as an extended
    table, or the whole base table into the other half of the tables area.

    The base table is the byte buffer the driver keeps ([base_t]), the extended
    table a page. The bitmaps are kernel bitmaps; the kernel's search for a free
    area is the interface [ZeroArea]. [disk] holds the pages of the tables area by
    their sector; the outcome of a call out of the file (I/O, allocation) is read
    from [answers], the empty list being that all succeed. *)

From Stdlib Require Import ZArith Lia Bool List.
From stdpp Require Import base list gmap.
From S2P Require Import Prelude Bytes Bitmap FindBit Buffer.

Open Scope Z_scope.

(** ** Kernel bitmaps *)

Definition bitmap_put (v : bool) (m : list Z) (start n : Z) : run (list Z) :=
  if (0 <=? start) && (0 <=? n) && (start + n <=? 8 * lenZ m) then Ok (put_bits m (seqZ start n) v) else Fault.
Definition bitmap_set := bitmap_put true.
Definition bitmap_clear := bitmap_put false.

(** bitmap_zero and bitmap_copy of [nbits] bits: whole words are written. *)
Definition words (nbits : Z) : Z := 8 * ((nbits + 63) / 64).
Definition bitmap_zero (m : list Z) (nbits : Z) : run (list Z) := blit m 0 (replicate (Z.to_nat (words nbits)) 0).
Definition bitmap_copy (dst src : list Z) (nbits : Z) : run (list Z) := s ← slice src 0 (words nbits); blit dst 0 s.

Definition test_bitmap (m : list Z) (i : Z) : run bool :=
  if (0 <=? i) && (i <? 8 * lenZ m) then Ok (bit m i) else Fault.

(** bitmap_find_next_zero_area(map, size, start, nr, align_mask) *)
Class ZeroArea : Type := {
  bitmap_find_next_zero_area : list Z -> Z -> Z -> Z -> Z -> Z
}.

(** ** Layout constants *)

Definition PAGE_SHIFT : Z := 12.
Definition PAGE_SIZE : Z := 4096.
Definition SECTOR_SIZE_SHIFT : Z := 9.
Definition CRC32_SIZE : Z := 4.

Definition VDFS4_CAT_TREE_INO : Z := 2.
Definition VDFS4_SPACE_BITMAP_INO : Z := 3.
Definition VDFS4_EXTENTS_TREE_INO : Z := 4.
Definition VDFS4_FREE_INODE_BITMAP_INO : Z := 5.
Definition VDFS4_XATTR_TREE_INO : Z := 6.
Definition VDFS4_FSFILE : Z := VDFS4_CAT_TREE_INO.
Definition VDFS4_LSFILE : Z := VDFS4_XATTR_TREE_INO.
Definition VDFS4_SNAPSHOT_EXT_SIZE : Z := 4096.
Definition VDFS4_SNAPSHOT_EXT_TABLES : Z := 8.
Definition VDFS4_META_BTREE_EXTENTS : Z := 96.

(** The special files, in the order of their numbers. *)
Definition special_files : list Z := [2; 3; 4; 5; 6].

Definition is_tree (ino : Z) : bool :=
  (ino =? VDFS4_CAT_TREE_INO) || (ino =? VDFS4_EXTENTS_TREE_INO) || (ino =? VDFS4_XATTR_TREE_INO).

(** struct vdfs4_snapshot_descriptor and the structures that start with it. *)
Definition SYNC_COUNT : Z := 4.
Definition MOUNT_COUNT : Z := 8.
Definition CHECKSUM_OFFSET : Z := 16.
Definition LAST_PAGE_INDEX : Z := 24.
Definition TABLE_OFFSETS : Z := 64.
Definition BASE_TABLE_SIZE : Z := 104.
Definition RECORDS_COUNT : Z := 24.
Definition EXT_TABLE_SIZE : Z := 32.

(** struct vdfs4_base_table_record and struct vdfs4_extended_record. *)
Definition BASE_RECORD : Z := 16.
Definition REC_SYNC : Z := 8.
Definition REC_MOUNT : Z := 12.
Definition EXT_RECORD : Z := 24.
Definition EXT_TABLE_INDEX : Z := 8.
Definition EXT_META_IBLOCK : Z := 16.

Definition VDFS4_SNAPSHOT_BASE_TABLE : list Z := [67; 111; 87; 66].
Definition VDFS4_SNAPSHOT_EXTENDED_TABLE : list Z := [67; 111; 87; 69].

(** ** State *)

(** The bitmaps of struct vdfs4_snapshot_info. *)
Record maps : Type := Maps {
  snapshot_bitmap : list Z;
  next_snapshot_bitmap : list Z;
  moved_iblock : list Z;
  cow_blocks : Z;
  bitmap_size_in_bits : Z;
  hint_btree : Z;
  hint_bitmaps : Z
}.

(** Its tables. *)
Record tables : Type := Tables {
  base_t : list Z;
  extended_table : list Z;
  iblock : Z;
  sync_count : Z;
  dirty_pages_count : Z;
  use_base_table : bool;
  exteneded_table_count : Z
}.

(** What the file reads of the superblock and of the mount. *)
Record geom : Type := Geom {
  log_blocks_in_leb : Z;
  log_blocks_in_page : Z;
  block_size_shift : Z;
  log_super_page_size : Z;
  bdev_nr_bytes : Z;
  tables_begin : Z;
  tables_length : Z;
  do_not_check_sign : bool;
  basetable_checksum : Z
}.

(** The parts of the extended superblock that change. *)
Record exsb : Type := Exsb {
  mount_counter : Z;
  sync_counter : Z;
  meta : list (Z * Z);
  meta_tbc : Z
}.

Section Snapshot.
Context `{ZeroArea} `{FindBit} (g : geom) (crc32 : list Z -> Z).

(** ** The base table *)

(** A field of 64 bits in an array with one element for each special file. *)
Definition sf_field (array : Z) (m : list Z) (ino : Z) : run Z :=
  if (VDFS4_FSFILE <=? ino) && (ino <=? VDFS4_LSFILE) then rd64 m (array + 8 * (ino - VDFS4_FSFILE)) else Fault.

(** VDFS4_LAST_TABLE_INDEX *)
Definition last_table_index (m : list Z) (ino : Z) : run Z := sf_field LAST_PAGE_INDEX m ino.

(** [vdfs4_get_table], VDFS4_GET_TABLE_OFFSET: the place of the first record. *)
Definition vdfs4_get_table (m : list Z) (ino : Z) : run Z := o ← sf_field TABLE_OFFSETS m ino; Ok (u32 o).

(** GET_TABLE_INDEX *)
Definition get_table_index (ino page_index : Z) : Z :=
  if is_tree ino then Z.shiftr page_index (log_blocks_in_leb g + block_size_shift g - PAGE_SHIFT) else page_index.

(** [vdfs4_get_meta_iblock] *)
Definition vdfs4_get_meta_iblock (m : list Z) (ino page_index : Z) : run (res Z) :=
  last_page_index ← last_table_index m ino;
  let table_page_index := get_table_index ino page_index in
  if last_page_index <? table_page_index then Ok (Err (- EINVAL))
  else
    table ← vdfs4_get_table m ino;
    v ← rd64 m (table + BASE_RECORD * table_page_index);
    Ok (Val v).

(** [vdfs4_get_page_version] *)
Definition vdfs4_get_page_version (m : list Z) (ino page_index : Z) : run Z :=
  table ← vdfs4_get_table m ino;
  let r := table + BASE_RECORD * get_table_index ino page_index in
  mount ← rd32 m (r + REC_MOUNT);
  sync ← rd32 m (r + REC_SYNC);
  Ok (Z.lor (Z.shiftl mount 32) sync).

(** [vdfs4_special_file_size] *)
Definition vdfs4_special_file_size (m : list Z) (ino : Z) : run Z :=
  last_page_index ← last_table_index m ino;
  Ok (if is_tree ino then Z.shiftl 1 (log_super_page_size g) * (last_page_index + 1)
      else PAGE_SIZE * (last_page_index + 1)).

(** VDFS4_SNAPSHOT_VERSION *)
Definition snapshot_version (m : list Z) : run Z :=
  mount ← rd64 m MOUNT_COUNT;
  sync ← rd32 m SYNC_COUNT;
  Ok (Z.lor (Z.shiftl (u32 mount) 32) sync).

(** ** Moving a chunk *)

(** log2 of the number of blocks of a chunk. *)
Definition order (ino : Z) : Z := if is_tree ino then log_blocks_in_leb g else log_blocks_in_page g.

Definition set_hint (ino hint : Z) (s : maps) : maps :=
  let '(Maps a b c d e f h) := s in
  if is_tree ino then Maps a b c d e hint h else Maps a b c d e f hint.

(** [get_new_meta_iblock] *)
Definition get_new_meta_iblock (s : maps) (ino : Z) : run (res Z * maps) :=
  let alignment := order ino in
  let nr := Z.shiftl 1 alignment in
  let hint := if is_tree ino then hint_btree s else hint_bitmaps s in
  let size := bitmap_size_in_bits s in
  let align_mask := Z.shiftl 1 alignment - 1 in
  let position := bitmap_find_next_zero_area (snapshot_bitmap s) size hint nr align_mask in
  let position := if size <? position
                  then bitmap_find_next_zero_area (snapshot_bitmap s) size 0 nr align_mask else position in
  if size <? position then Ok (Err (- ENOSPC), set_hint ino 0 s)
  else
    a ← bitmap_set (snapshot_bitmap s) (u32 position) nr;
    b ← bitmap_set (next_snapshot_bitmap s) (u32 position) nr;
    c ← bitmap_set (moved_iblock s) (u32 position) nr;
    let s := Maps a b c (cow_blocks s) (bitmap_size_in_bits s) (hint_btree s) (hint_bitmaps s) in
    Ok (Val position, set_hint ino (position +64 nr) s).

(** [move_iblock]: the new place, the bitmaps and the base table. *)
Definition move_iblock (s : maps) (m : list Z) (ino current_iblock page_index : Z) : run (Z * maps * list Z) :=
  table ← vdfs4_get_table m ino;
  last ← last_table_index m ino;
  let nr := Z.shiftl 1 (order ino) in
  let table_index := get_table_index ino page_index in
  bug_on (last <? table_index);;
  '(ret, s) ← get_new_meta_iblock s ino;
  '(new_position, s) ←
    match ret with
    | Val p =>
        next ← bitmap_clear (next_snapshot_bitmap s) (u32 current_iblock) nr;
        Ok (p, Maps (snapshot_bitmap s) next (moved_iblock s) (cow_blocks s +64 nr) (bitmap_size_in_bits s) (hint_btree s) (hint_bitmaps s))
    | Err _ =>
        moved ← bitmap_set (moved_iblock s) (u32 current_iblock) nr;
        Ok (current_iblock, Maps (snapshot_bitmap s) (next_snapshot_bitmap s) moved (cow_blocks s) (bitmap_size_in_bits s) (hint_btree s) (hint_bitmaps s))
    end;
  m ← wr64 m (table + BASE_RECORD * table_index) new_position;
  Ok (new_position, s, m).

(** [update_extended_table] *)
Definition update_extended_table (t : tables) (ino page_index new_iblock : Z) : run tables :=
  rec_count ← rd32 (extended_table t) RECORDS_COUNT;
  let table_index := get_table_index ino page_index in
  if use_base_table t then Ok t
  else
    let new_table_size := (rec_count +32 1) * EXT_RECORD + EXT_TABLE_SIZE + CRC32_SIZE in
    if PAGE_SIZE <? new_table_size then
      Ok (Tables (base_t t) (extended_table t) (iblock t) (sync_count t) (dirty_pages_count t) true (exteneded_table_count t))
    else
      let record := EXT_TABLE_SIZE + rec_count * EXT_RECORD in
      e ← wr64 (extended_table t) (record + EXT_META_IBLOCK) new_iblock;
      e ← wr64 e record ino;
      e ← wr64 e (record + EXT_TABLE_INDEX) table_index;
      e ← wr32 e RECORDS_COUNT (rec_count +32 1);
      Ok (Tables (base_t t) e (iblock t) (sync_count t) (dirty_pages_count t) (use_base_table t) (exteneded_table_count t)).

(** [vdfs4_add_chunk_no_lock] *)
Definition vdfs4_add_chunk_no_lock (s : maps) (t : tables) (object_id page_index : Z) : run (maps * tables) :=
  bug_on ((object_id <? VDFS4_FSFILE) || (VDFS4_LSFILE <? object_id));;
  ret ← vdfs4_get_meta_iblock (base_t t) object_id page_index;
  match ret with
  | Err _ => Bug
  | Val meta_iblock =>
      moved ← test_bitmap (moved_iblock s) (u32 meta_iblock);
      if (moved : bool) then Ok (s, t)
      else
        '(new_iblock, s, m) ← move_iblock s (base_t t) object_id meta_iblock page_index;
        let t := Tables m (extended_table t) (iblock t) (sync_count t) (dirty_pages_count t) (use_base_table t) (exteneded_table_count t) in
        (if is_tree object_id
         then bug_on (negb (Z.land new_iblock (Z.shiftl 1 (log_blocks_in_leb g) - 1) =? 0)) else Ok tt);;
        t ← update_extended_table t object_id page_index new_iblock;
        let n := if is_tree object_id then Z.shiftl 1 (log_blocks_in_leb g) else 1 in
        Ok (s, Tables (base_t t) (extended_table t) (iblock t) (sync_count t) (dirty_pages_count t +32 n) (use_base_table t) (exteneded_table_count t))
  end.

(** [vdfs4_update_bitmaps]; [debug] is CONFIG_VDFS4_DEBUG. *)
Definition vdfs4_update_bitmaps (debug : bool) (s : maps) : run maps :=
  let nbits := u32 (bitmap_size_in_bits s) in
  bug_on (debug && existsb (bit (moved_iblock s)) (seqZ 0 nbits));;
  moved ← bitmap_zero (moved_iblock s) nbits;
  snap ← bitmap_copy (snapshot_bitmap s) (next_snapshot_bitmap s) nbits;
  Ok (Maps snap (next_snapshot_bitmap s) moved 0 (bitmap_size_in_bits s) (hint_btree s) (hint_bitmaps s)).

(** ** Free space of the metadata area *)

(** The loop of [free_blocks_in_bitmap_contig_check]; every turn passes a clear
    bit. [contig] is the length asked for, [found] whether a run of it was seen. *)
Fixpoint free_blocks_loop (fuel : nat) (m : list Z) (size contig position free_blocks : Z) (found : bool) : run (Z * bool) :=
  if position <? size then
    match fuel with
    | O => Fault
    | S fuel =>
        let next_position := find_next_bit m size position in
        if size <? next_position then
          let n := next_position - 1 - position in Ok (free_blocks +64 n, found || (contig <=? n))
        else
          let n := next_position - position in
          free_blocks_loop fuel m size contig (find_next_zero_bit m size next_position) (free_blocks +64 n) (found || (contig <=? n))
    end
  else Ok (free_blocks, found).

(** [free_blocks_in_bitmap_contig_check] *)
Definition free_blocks_in_bitmap_contig_check (m : list Z) (size contig_len : Z) : run (Z * bool) :=
  free_blocks_loop (Z.to_nat size) m size contig_len (find_next_zero_bit m size 0) 0 false.

(** [free_blocks_in_bitmap] is the same loop without the check. *)
Definition free_blocks_in_bitmap (m : list Z) (size : Z) : run Z :=
  '(n, _) ← free_blocks_in_bitmap_contig_check m size 0; Ok n.

(** The loop of [meta_area_free_blocks]. *)
Fixpoint meta_free_loop (m : list Z) (inos : list Z) (free_blocks : Z) : run Z :=
  match inos with
  | [] => Ok free_blocks
  | ino :: inos =>
      let blocks_per_node := Z.shiftl 1 (if is_tree ino then log_blocks_in_page g + log_blocks_in_leb g else log_blocks_in_page g) in
      last ← last_table_index m ino;
      let node_count := u32 last +32 1 in
      meta_free_loop m inos (u32 (free_blocks - blocks_per_node * node_count))
  end.

(** [meta_area_free_blocks] *)
Definition meta_area_free_blocks (m : list Z) (tbc : Z) : run Z := meta_free_loop m special_files tbc.

(** [is_lackage_meta_free_blocks_to_use] *)
Definition is_lackage_meta_free_blocks_to_use (s : maps) (m : list Z) (tbc threshold : Z) : run bool :=
  free_blocks ← meta_area_free_blocks m tbc;
  if free_blocks <? cow_blocks s then Ok false
  else
    let free_to_use := free_blocks - cow_blocks s in
    let threshold_in_blocks := u64 (free_blocks / 100 * threshold) in
    Ok (free_to_use <? threshold_in_blocks).

(** [is_commit_required]; [free_blocks_count] and [next_free_blocks] are the
    counts of the free-space manager. *)
Definition is_commit_required (s : maps) (m : list Z) (tbc free_blocks_count next_free_blocks : Z) : run bool :=
  if (free_blocks_count =? 0) && negb (next_free_blocks =? 0) then Ok true
  else is_lackage_meta_free_blocks_to_use s m tbc 5.

(** [vdfs4_is_enospc] *)
Definition vdfs4_is_enospc (s : maps) (m : list Z) (tbc threshold : Z) : run Z :=
  if (threshold <? 0) || (100 <? threshold) then Ok 1
  else
    free_blocks ← meta_area_free_blocks m tbc;
    if tbc / 3 <? free_blocks then Ok 0
    else
      free_to_use ← free_blocks_in_bitmap (snapshot_bitmap s) (bitmap_size_in_bits s);
      let threshold_in_blocks := s32 (s32 (tbc / 100) * threshold) in
      Ok (if free_to_use <? u64 threshold_in_blocks then 1 else 0).

End Snapshot.
