(* ===== verification/SnapshotDisk.v ===== *)
(** Writing and loading the translation tables, src/linux/fs/vdfs4/snapshot.c with
    vdfs4_table_IO of data.c and vdfs4_sync_exsb of super.c.

    A device is the pages of the tables area by their first sector, the two copies
    of the extended superblock, and the outcomes of the calls to come: [(0, _)] is
    success, [(e, k)] the error [e] after [k] pages have been written. *)

From Stdlib Require Import ZArith Lia Bool List.
From stdpp Require Import base list gmap.
From S2P Require Import Prelude Bytes Bitmap FindBit Buffer Snapshot.

Open Scope Z_scope.

Record device : Type := Device {
  disk : gmap Z (list Z);
  exsb_disk : exsb * exsb;
  answers : list (Z * nat)
}.

Definition answer (d : device) : (Z * nat) * device :=
  match answers d with
  | [] => ((0, O), d)
  | a :: rest => (a, Device (disk d) (exsb_disk d) rest)
  end.

(** A page that has not been written reads as zeros. *)
Definition page_at (d : device) (sector : Z) : list Z :=
  match disk d !! sector with Some p => p | None => replicate (Z.to_nat PAGE_SIZE) 0 end.

Definition SECTORS_PER_PAGE : Z := Z.shiftl 1 (PAGE_SHIFT - SECTOR_SIZE_SHIFT).

Fixpoint put_pages (n : nat) (buffer : list Z) (off sector : Z) (d : gmap Z (list Z)) : gmap Z (list Z) :=
  match n with
  | O => d
  | S n => put_pages n buffer (off + PAGE_SIZE) (sector + SECTORS_PER_PAGE) (<[sector := sub buffer off PAGE_SIZE]> d)
  end.

Fixpoint get_pages (n : nat) (sector : Z) (d : device) : list Z :=
  match n with
  | O => []
  | S n => page_at d sector ++ get_pages n (sector + SECTORS_PER_PAGE) d
  end.

Definition DIV_ROUND_UP (n d : Z) : Z := (n + d - 1) / d.

Section Disk.
Context `{ZeroArea} `{FindBit} (g : geom) (crc32 : list Z -> Z).

(** [vdfs4_get_table_sector] *)
Definition vdfs4_get_table_sector (iblock : Z) : res Z :=
  let max_size := Z.shiftr (bdev_nr_bytes g) SECTOR_SIZE_SHIFT in
  if tables_length g <? iblock then Err (- EINVAL)
  else
    let result := u64 (Z.shiftl (tables_begin g +64 iblock) (block_size_shift g - SECTOR_SIZE_SHIFT)) in
    if max_size <=? result then Err (- EINVAL) else Val result.

(** [vdfs4_table_IO] for writing [size] bytes from [off] of the buffer: the error
    and the place behind what was written. *)
Definition table_write (buffer : list Z) (off size iblock : Z) (d : device) : run (Z * Z * device) :=
  let pages_count := u32 (DIV_ROUND_UP size PAGE_SIZE) in
  match vdfs4_get_table_sector iblock with
  | Err e => Ok (e, iblock, d)
  | Val start_sector =>
      bug_on (lenZ buffer <? off + PAGE_SIZE * pages_count);;
      if pages_count =? 0 then Fault
      else
        let '((e, k), d) := answer d in
        let n := if e =? 0 then Z.to_nat pages_count else Nat.min k (Z.to_nat pages_count) in
        let d := Device (put_pages n buffer off start_sector (disk d)) (exsb_disk d) (answers d) in
        Ok (e, if e =? 0 then iblock +64 pages_count else iblock, d)
  end.

(** [vdfs4_table_IO] for reading. *)
Definition table_read (size iblock : Z) (d : device) : run (res (list Z) * Z * device) :=
  let pages_count := u32 (DIV_ROUND_UP size PAGE_SIZE) in
  match vdfs4_get_table_sector iblock with
  | Err e => Ok (Err e, iblock, d)
  | Val start_sector =>
      if pages_count =? 0 then Fault
      else
        let '((e, _), d) := answer d in
        if e =? 0 then Ok (Val (get_pages (Z.to_nat pages_count) start_sector d), iblock +64 pages_count, d)
        else Ok (Err e, iblock, d)
  end.

Definition VDFS4_1ST_EXSB_ADDR : Z := 3.
Definition VDFS4_2ND_EXSB_ADDR : Z := 11.

(** [vdfs4_sync_exsb] with [vdfs4_write_page] on a volume that is writable; [copy]
    for the second superblock. A write that fails is not reported. The checksum of
    the extended superblock and its statistics are not part of [exsb]. *)
Definition vdfs4_sync_exsb (e : exsb) (sync_count : Z) (copy : bool) (d : device) : Z * exsb * device :=
  let e := Exsb (mount_counter e) sync_count (meta e) (meta_tbc e) in
  let sector := if copy then VDFS4_2ND_EXSB_ADDR else VDFS4_1ST_EXSB_ADDR in
  if Z.shiftr (bdev_nr_bytes g) SECTOR_SIZE_SHIFT <? sector + SECTORS_PER_PAGE then (- EFAULT, e, d)
  else
    let '((ret, _), d) := answer d in
    (0, e, if ret =? 0 then Device (disk d) (if copy then (fst (exsb_disk d), e) else (e, snd (exsb_disk d))) (answers d) else d).

(** ** Writing the tables *)

(** The sum over the special files in [fill_descriptor_and_calculate_crc]. *)
Fixpoint checksum_sum (m : list Z) (inos : list Z) (sum : Z) : run Z :=
  match inos with
  | [] => Ok sum
  | ino :: inos =>
      last ← last_table_index m ino;
      checksum_sum m inos (sum +64 BASE_RECORD * (last +64 1))
  end.

(** [fill_descriptor_and_calculate_crc]; [base] selects SNAPSHOT_BASE_TABLE. *)
Definition fill_descriptor_and_calculate_crc (base : bool) (mount sync : Z) (m : list Z) : run (list Z) :=
  m ← (if base then
         m ← blit m 0 VDFS4_SNAPSHOT_BASE_TABLE;
         sum ← checksum_sum m special_files 0;
         wr64 m CHECKSUM_OFFSET (u32 (sum +64 BASE_TABLE_SIZE))
       else
         m ← blit m 0 VDFS4_SNAPSHOT_EXTENDED_TABLE;
         n ← rd32 m RECORDS_COUNT;
         wr64 m CHECKSUM_OFFSET (EXT_TABLE_SIZE + EXT_RECORD * n));
  m ← wr64 m MOUNT_COUNT mount;
  m ← wr32 m SYNC_COUNT sync;
  co ← rd64 m CHECKSUM_OFFSET;
  data ← slice m 0 co;
  wr32 m co (crc32 data).

(** A write with [retry] more attempts. *)
Fixpoint write_retry (retry : nat) (buffer : list Z) (off size iblock : Z) (d : device) : run (Z * Z * nat * device) :=
  '(ret, b, d) ← table_write buffer off size iblock d;
  if ret =? 0 then Ok (0, b, retry, d)
  else match retry with
       | O => Ok (ret, b, O, d)
       | S retry => write_retry retry buffer off size iblock d
       end.

Definition VDFS4_SNAPSHOT_TABLES_COUNT : Z := 8.

(** [vdfs4_update_translation_tables] *)
Definition vdfs4_update_translation_tables (mount : Z) (t : tables) (d : device) : run (Z * tables * device) :=
  let base := (VDFS4_SNAPSHOT_TABLES_COUNT <=? exteneded_table_count t) || use_base_table t in
  let half := Z.shiftr (tables_length g) 1 in
  let ib := if base then (if half <=? iblock t then 0 else half) else iblock t in
  table ← fill_descriptor_and_calculate_crc base mount (sync_count t) (if base then base_t t else extended_table t);
  let t := if base then Tables table (extended_table t) (iblock t) (sync_count t) (dirty_pages_count t) false 0
           else Tables (base_t t) table (iblock t) (sync_count t) (dirty_pages_count t) (use_base_table t) (u8 (exteneded_table_count t + 1)) in
  co ← rd64 table CHECKSUM_OFFSET;
  let table_size := co +64 CRC32_SIZE in
  bug_on ((PAGE_SIZE <? table_size) && negb base);;
  '(ret, s_iblock, retry, d) ←
    (if (PAGE_SIZE <? table_size) && base
     then write_retry 3 table PAGE_SIZE (table_size - PAGE_SIZE) (ib +64 1) d
     else Ok (0, 0, 3%nat, d));
  if negb (ret =? 0) then Ok (ret, t, d)
  else
    '(ret, ib, _, d) ← write_retry retry table 0 PAGE_SIZE ib d;
    if negb (ret =? 0) then Ok (ret, t, d)
    else
      let e := replicate (Z.to_nat PAGE_SIZE) 0 in
      e ← blit (extended_table t) 0 e;
      Ok (0, Tables (base_t t) e (if s_iblock =? 0 then ib else s_iblock) (sync_count t) 0 (use_base_table t) (exteneded_table_count t), d).

(** ** Loading the tables *)

Definition has_signature (m sig : list Z) : run bool :=
  s ← slice m 0 4; Ok (bool_decide (s = sig)).

(** [validate_base_table]: the version, or 0. *)
Definition validate_base_table (m : list Z) : run Z :=
  co ← rd64 m CHECKSUM_OFFSET;
  checksum_on_basetable ← rd32 m (u32 co);
  sig ← has_signature m VDFS4_SNAPSHOT_BASE_TABLE;
  if negb sig then Ok 0
  else
    data ← slice m 0 (u32 co);
    let checksum := crc32 data in
    if do_not_check_sign g then (if checksum =? checksum_on_basetable then snapshot_version m else Ok 0)
    else if negb (checksum =? basetable_checksum g) then Ok 0 else snapshot_version m.

(** [validate_extended_table] *)
Definition validate_extended_table (e : list Z) : run Z :=
  sig ← has_signature e VDFS4_SNAPSHOT_EXTENDED_TABLE;
  if negb sig then Ok 0
  else
    co ← rd64 e CHECKSUM_OFFSET;
    on_disk_checksum ← rd32 e (u32 co);
    data ← slice e 0 (u32 co);
    if negb (crc32 data =? on_disk_checksum) then Ok 0 else snapshot_version e.

(** The loop of [parse_extended_table] over [n] records from [count]. *)
Fixpoint parse_records (n : nat) (count : Z) (e m : list Z) : run (list Z) :=
  match n with
  | O => Ok m
  | S n =>
      let record := EXT_TABLE_SIZE + EXT_RECORD * count in
      table_idx ← rd64 e (record + EXT_TABLE_INDEX);
      obj_id ← rd64 e record;
      table ← vdfs4_get_table m obj_id;
      last ← last_table_index m obj_id;
      bug_on (last <? table_idx);;
      let r := table + BASE_RECORD * table_idx in
      meta_iblock ← rd64 e (record + EXT_META_IBLOCK);
      m ← wr64 m r meta_iblock;
      mount ← rd64 e MOUNT_COUNT;
      m ← wr32 m (r + REC_MOUNT) (u32 mount);
      sync ← rd32 e SYNC_COUNT;
      m ← wr32 m (r + REC_SYNC) sync;
      parse_records n (count + 1) e m
  end.

(** [parse_extended_table] *)
Definition parse_extended_table (m e : list Z) : run (list Z) :=
  rec_count ← rd32 e RECORDS_COUNT;
  m ← parse_records (Z.to_nat rec_count) 0 e m;
  mount ← rd64 e MOUNT_COUNT;
  m ← wr64 m MOUNT_COUNT mount;
  sync ← rd32 e SYNC_COUNT;
  wr32 m SYNC_COUNT sync.

(** The loops of [build_snapshot_bitmaps]. *)
Fixpoint set_places (n : nat) (m : list Z) (table nr : Z) (bitmap : list Z) : run (list Z) :=
  match n with
  | O => Ok bitmap
  | S n =>
      pos ← rd64 m table;
      bitmap ← bitmap_set bitmap (u32 pos) nr;
      set_places n m (table + BASE_RECORD) nr bitmap
  end.

Fixpoint set_files (inos : list Z) (m bitmap : list Z) : run (list Z) :=
  match inos with
  | [] => Ok bitmap
  | ino :: inos =>
      table ← vdfs4_get_table m ino;
      if table =? 0 then set_files inos m bitmap
      else
        last ← last_table_index m ino;
        bitmap ← set_places (Z.to_nat (last + 1)) m table (Z.shiftl 1 (order g ino)) bitmap;
        set_files inos m bitmap
  end.

(** [build_snapshot_bitmaps] on the bitmap just allocated. *)
Definition build_snapshot_bitmaps (m : list Z) (s : maps) : run maps :=
  a ← set_files special_files m (snapshot_bitmap s);
  b ← bitmap_copy (next_snapshot_bitmap s) a (u32 (bitmap_size_in_bits s));
  Ok (Maps a b (moved_iblock s) (cow_blocks s) (bitmap_size_in_bits s) (hint_btree s) (hint_bitmaps s)).

(** VDFS4_EXSB_VERSION *)
Definition exsb_version (e : exsb) : Z := Z.lor (Z.shiftl (mount_counter e) 32) (sync_counter e).

(** [restore_exsb]: the error, both superblocks in memory. [sync_count] of the
    manager that is being built is 0. *)
Definition restore_exsb (rdonly : bool) (version : Z) (e copy : exsb) (d : device) : Z * exsb * exsb * device :=
  if exsb_version e =? exsb_version copy then (0, e, copy, d)
  else if negb (version =? exsb_version copy) then
    let copy := e in
    if rdonly then (0, e, copy, d)
    else let '(ret, e, d) := vdfs4_sync_exsb e 0 true d in (ret, e, copy, d)
  else
    let e := copy in
    if rdonly then (0, e, copy, d)
    else let '(ret, e, d) := vdfs4_sync_exsb e 0 false d in (ret, e, copy, d).

(** [get_table_version]: version and size of the table at [iblock]. *)
Definition get_table_version (iblock : Z) (d : device) : run (res (Z * Z) * device) :=
  match vdfs4_get_table_sector iblock with
  | Err e => Ok (Err e, d)
  | Val start_sector =>
      let '((e, _), d) := answer d in
      if negb (e =? 0) then Ok (Err e, d)
      else
        let page := page_at d start_sector in
        sig ← has_signature page VDFS4_SNAPSHOT_BASE_TABLE;
        if negb sig then Ok (Val (0, 0), d)
        else
          v ← snapshot_version page;
          co ← rd64 page CHECKSUM_OFFSET;
          Ok (Val (v, co +64 CRC32_SIZE), d)
  end.

(** [load_base_table] from [read_basetable] on, with the versions and sizes of the
    two tables: the table, its version and the place behind it. *)
Definition read_basetable (v1 s1 v2 s2 : Z) (opposite : bool) (d : device) : run (res (option (list Z * Z * Z)) * device) :=
  let first := xorb (v2 <? v1) opposite in
  let table_version := if first then v1 else v2 in
  let tables_size_in_bytes := if first then s1 else s2 in
  let table_start := if first then 0 else Z.shiftr (tables_length g) 1 in
  if (table_version =? 0) || (tables_size_in_bytes =? 0) then Ok (Err (- EINVAL), d)
  else
    let '((e, _), d) := answer d in
    if negb (e =? 0) then Ok (Err (- ENOMEM), d)
    else
      '(r, start, d) ← table_read tables_size_in_bytes table_start d;
      match r with
      | Err e => Ok (Err e, d)
      | Val table =>
          checked ← validate_base_table table;
          if checked =? 0 then Ok (Val None, d) else Ok (Val (Some (table, table_version, start)), d)
      end.

(** [load_base_table]: a table that does not validate makes it try the other one. *)
Definition load_base_table (rdonly : bool) (e copy : exsb) (d : device) : run (res (list Z * Z * Z) * exsb * exsb * device) :=
  '(r1, d) ← get_table_version 0 d;
  match r1 with
  | Err x => Ok (Err x, e, copy, d)
  | Val (v1, s1) =>
      '(r2, d) ← get_table_version (Z.shiftr (tables_length g) 1) d;
      match r2 with
      | Err x => Ok (Err x, e, copy, d)
      | Val (v2, s2) =>
          '(r, d) ← read_basetable v1 s1 v2 s2 false d;
          '(r, d) ← match r with Val None => read_basetable v1 s1 v2 s2 true d | _ => Ok (r, d) end;
          match r with
          | Err x => Ok (Err x, e, copy, d)
          | Val None => Ok (Err (- EFAULT), e, copy, d)
          | Val (Some (table, version, start)) =>
              let '(ret, e, copy, d) := restore_exsb rdonly version e copy d in
              if negb (ret =? 0) then Ok (Err ret, e, copy, d) else Ok (Val (table, version, start), e, copy, d)
          end
      end
  end.

(** VDFS4_MOUNT_COUNT and VDFS4_SYNC_COUNT *)
Definition version_mount (v : Z) : Z := u32 (Z.shiftr v 32).
Definition version_sync (v : Z) : Z := u32 v.

(** The loop of [vdfs4_build_snapshot_manager] over [n] more extended tables: the
    base table, the page last read, the next place and the number of tables. *)
Fixpoint load_extended (n : nat) (m e : list Z) (version iblock count : Z) (d : device)
    : run (res (list Z * list Z * Z * Z) * device) :=
  match n with
  | O => Ok (Val (m, e, iblock, count), d)
  | S n =>
      '(r, _, d) ← table_read PAGE_SIZE iblock d;
      match r with
      | Err x => Ok (Err x, d)
      | Val e =>
          ext_version ← validate_extended_table e;
          if negb (version_mount ext_version =? version_mount version)
             || negb (version_sync ext_version =? version_sync version +32 1)
          then Ok (Val (m, e, iblock, count), d)
          else
            m ← parse_extended_table m e;
            version ← snapshot_version m;
            load_extended n m e version (iblock +64 1) (u8 (count + 1)) d
      end
  end.

(** [vdfs4_build_snapshot_manager], without the failures of its allocations. *)
Definition vdfs4_build_snapshot_manager (rdonly : bool) (e copy : exsb) (d : device)
    : run (res (maps * tables) * exsb * exsb * device) :=
  '(r, e, copy, d) ← load_base_table rdonly e copy d;
  match r with
  | Err x => Ok (Err x, e, copy, d)
  | Val (m, version, start) =>
      let zero := replicate (Z.to_nat (words (meta_tbc e))) 0 in
      let page := replicate (Z.to_nat PAGE_SIZE) 0 in
      '(r, d) ← load_extended (Z.to_nat VDFS4_SNAPSHOT_EXT_TABLES) m page version start 0 d;
      match r with
      | Err x => Ok (Err x, e, copy, d)
      | Val (m, _, ib, count) =>
          s ← build_snapshot_bitmaps m (Maps zero zero zero 0 (meta_tbc e) 0 0);
          Ok (Val (s, Tables m page ib 0 0 false count), e, copy, d)
      end
  end.

End Disk.
