(* ===== verification/SnapshotRep.v ===== *)
(** The places of metadata chunks: the base table as a map from chunks to blocks,
    and the invariant that ties it to the bitmaps of a transaction
    (src/linux/fs/vdfs4/snapshot.c). *)

From Stdlib Require Import ZArith Lia Bool List.
From stdpp Require Import base list gmap.
From S2P Require Import Prelude Bytes Bitmap FindBit Buffer Snapshot.

Open Scope Z_scope.

(** ** Kernel bitmaps *)

Lemma bitmap_put_ok (v : bool) (m : list Z) (start n : Z) :
  0 <= start -> 0 <= n -> start + n <= 8 * lenZ m ->
  exists m', bitmap_put v m start n = Ok m' /\ lenZ m' = lenZ m
  /\ forall b, bit m' b = if (start <=? b) && (b <? start + n) then v else bit m b.
Proof.
  intros Hs Hn Hl; exists (put_bits m (seqZ start n) v); unfold bitmap_put.
  rewrite !(proj2 (Z.leb_le _ _)) by lia; split; [done|]; split; [apply lenZ_put_bits|].
  intros b; rewrite bit_put_bits.
  - destruct (decide (b ∈ seqZ start n)) as [Hb|Hb]; rewrite elem_of_seqZ in Hb;
      destruct (Z.leb_spec start b), (Z.ltb_spec b (start + n)); cbn; done || lia.
  - apply Forall_forall; intros j Hj; apply elem_of_seqZ in Hj; unfold in_range; lia.
Qed.

Lemma bit_outside (m : list Z) (b : Z) : b < 0 \/ 8 * lenZ m <= b -> bit m b = false.
Proof.
  intros Hb; unfold bit; destruct (getZ m (b / 8)) as [x|] eqn:E; [|done].
  apply getZ_bounds in E; pose proof (Z.div_mod b 8); pose proof (Z.mod_pos_bound b 8); lia.
Qed.

(** A bitmap of the size that kzalloc gave it. *)
Lemma words_fit (n : Z) : 0 <= n -> n <= 8 * words n.
Proof. intros; unfold words; pose proof (Z.div_mod (n + 63) 64); pose proof (Z.mod_pos_bound (n + 63) 64); lia. Qed.

Lemma words_nonneg (n : Z) : 0 <= n -> 0 <= words n.
Proof. intros; unfold words; pose proof (Z.div_pos (n + 63) 64); lia. Qed.

Lemma blit_whole (m d : list Z) : lenZ d = lenZ m -> blit m 0 d = Ok d.
Proof.
  intros E; rewrite blit_upd by lia; unfold upd_at; rewrite take_0; cbn [app].
  rewrite drop_ge by (unfold lenZ in *; lia); by rewrite app_nil_r.
Qed.

(** ** The search for a free area *)

(** Documented result for an area of [2^a] bits aligned to its size: the first one
    from [start] on that is clear, or a number above [size] when there is none. *)
Class ZeroAreaLaws `{ZeroArea} : Prop := {
  find_zero_area_spec (m : list Z) (size start a : Z) :
    0 <= start -> 0 <= a -> 0 <= size <= 8 * lenZ m ->
    let r := bitmap_find_next_zero_area m size start (2 ^ a) (2 ^ a - 1) in
    (size < r /\ forall p, start <= p -> p mod 2 ^ a = 0 -> p + 2 ^ a <= size -> exists i, p <= i < p + 2 ^ a /\ bit m i = true)
    \/ (start <= r /\ r mod 2 ^ a = 0 /\ r + 2 ^ a <= size /\ forall i, r <= i < r + 2 ^ a -> bit m i = false)
}.

(** A reference instance: the aligned areas one by one. *)
Module PlainArea.

Fixpoint scan_area (n : nat) (m : list Z) (size nr p : Z) : Z :=
  if size <? p + nr then size + 1
  else if existsb (bit m) (seqZ p nr) then match n with O => size + 1 | S n => scan_area n m size nr (p + nr) end
  else p.

#[export] Instance plain_area : ZeroArea := {
  bitmap_find_next_zero_area := fun m size start nr mask =>
    scan_area (Z.to_nat size) m size nr ((start + mask) / (mask + 1) * (mask + 1))
}.

Lemma scan_area_spec (n : nat) (m : list Z) (size nr p : Z) :
  0 < nr -> 0 <= p -> p mod nr = 0 -> size < p + Z.of_nat n * nr + nr ->
  (size < scan_area n m size nr p /\ forall q, p <= q -> q mod nr = 0 -> q + nr <= size -> exists i, q <= i < q + nr /\ bit m i = true)
  \/ (p <= scan_area n m size nr p /\ scan_area n m size nr p mod nr = 0 /\ scan_area n m size nr p + nr <= size
      /\ forall i, scan_area n m size nr p <= i < scan_area n m size nr p + nr -> bit m i = false).
Proof.
  intros Hnr; revert p; induction n as [|n IH]; intros p Hp Hal Hn; cbn [scan_area]; destruct (Z.ltb_spec size (p + nr)) as [Hlt|Hge]; try lia.
  1, 2: left; split; [lia|]; intros; lia.
  destruct (existsb (bit m) (seqZ p nr)) eqn:E.
  - apply existsb_exists in E as (i & Hi%list_elem_of_In & Hb); apply elem_of_seqZ in Hi.
    assert (forall q, p <= q -> q mod nr = 0 -> q < p + nr -> q = p) as Hq.
    { intros q H1 H2 H3; apply Z.mod_divide in Hal as [x ->], H2 as [y ->]; try lia; assert (y = x) by nia; nia. }
    destruct (IH (p + nr)) as [[H1 H2]|(H1 & H2 & H3 & H4)]; try lia.
    { rewrite <- Z.add_mod_idemp_r, Z.mod_same, Z.add_0_r by lia; done. }
    + left; split; [done|]; intros q Hpq Hqa Hqs; destruct (Z.ltb_spec q (p + nr)) as [Hc|Hc]; [|by apply H2].
      rewrite (Hq q) by done; exists i; auto.
    + right; split; [lia|]; auto.
  - right; split; [lia|]; split; [done|]; split; [lia|]; intros i Hi; destruct (bit m i) eqn:Eb; [|done].
    assert (existsb (bit m) (seqZ p nr) = true) as Ex; [|congruence]; apply existsb_exists; exists i; split; [|done].
    apply list_elem_of_In, elem_of_seqZ; lia.
Qed.

#[export] Instance plain_area_laws : ZeroAreaLaws.
Proof.
  split; intros m size start a Hs Ha Hsz r; unfold r; cbn.
  assert (0 < 2 ^ a) as H2 by (by apply Z.pow_pos_nonneg); replace (2 ^ a - 1 + 1) with (2 ^ a) by lia.
  set (p := (start + (2 ^ a - 1)) / 2 ^ a * 2 ^ a).
  assert (start <= p < start + 2 ^ a) as Hp.
  { unfold p; pose proof (Z.div_mod (start + (2 ^ a - 1)) (2 ^ a)); pose proof (Z.mod_pos_bound (start + (2 ^ a - 1)) (2 ^ a)); lia. }
  assert (p mod 2 ^ a = 0) as Hal by (unfold p; by apply Z_mod_mult).
  destruct (scan_area_spec (Z.to_nat size) m size (2 ^ a) p) as [[H3 H4]|(H3 & H4 & H5 & H6)]; try done; try lia.
  { assert (size <= size * 2 ^ a) by nia; lia. }
  - left; split; [done|]; intros q Hq Hqa Hqs; apply H4; auto.
    apply Z.mod_divide in Hal as [x Ex], Hqa as [y ->]; try lia; rewrite Ex in *.
    apply Z.mul_le_mono_nonneg_r; [lia|]; assert (x < y + 1) as Hxy; [|lia]; apply (Z.mul_lt_mono_pos_r (2 ^ a)); lia.
  - right; split; [lia|]; auto.
Qed.

End PlainArea.

(** ** The base table *)

(** A chunk: a special file and an index of its table. *)
Abbreviation chunk := (Z * Z)%type.

Definition special (ino : Z) : Prop := VDFS4_FSFILE <= ino <= VDFS4_LSFILE.

Definition off (m : list Z) (ino : Z) : Z := get64 m (TABLE_OFFSETS + 8 * (ino - VDFS4_FSFILE)).
Definition cnt (m : list Z) (ino : Z) : Z := get64 m (LAST_PAGE_INDEX + 8 * (ino - VDFS4_FSFILE)) + 1.

Definition is_chunk (m : list Z) (c : chunk) : Prop := special (fst c) /\ 0 <= snd c < cnt m (fst c).

(** The place of a chunk in the metadata area. *)
Definition place (m : list Z) (c : chunk) : Z := get64 m (off m (fst c) + BASE_RECORD * snd c).

(** The size of the table without its checksum. *)
Definition total (m : list Z) : Z := BASE_TABLE_SIZE + BASE_RECORD * (cnt m 2 + cnt m 3 + cnt m 4 + cnt m 5 + cnt m 6).

(** The tables of the special files follow the header, in any order, without
    overlap. *)
Record base_ok (m : list Z) : Prop := {
  bs_bytes : Forall is_byte m;
  bs_total : total m + CRC32_SIZE <= lenZ m < 2 ^ 32;
  bs_area : forall ino, special ino -> BASE_TABLE_SIZE <= off m ino /\ off m ino + BASE_RECORD * cnt m ino <= total m /\ 1 <= cnt m ino;
  bs_apart : forall i j, special i -> special j -> i <> j ->
    off m i + BASE_RECORD * cnt m i <= off m j \/ off m j + BASE_RECORD * cnt m j <= off m i
}.

(** Two tables that differ only in places. *)
Definition same_shape (m m' : list Z) : Prop := forall ino, special ino -> off m' ino = off m ino /\ cnt m' ino = cnt m ino.

Section Base.
Context (m : list Z) (Hm : base_ok m).

Lemma total_header : BASE_TABLE_SIZE + 5 * BASE_RECORD <= total m.
Proof using Hm.
  pose proof (bs_area _ Hm) as Ha; unfold special, VDFS4_FSFILE, VDFS4_LSFILE, VDFS4_CAT_TREE_INO, VDFS4_XATTR_TREE_INO in Ha.
  pose proof (Ha 2 ltac:(lia)); pose proof (Ha 3 ltac:(lia)); pose proof (Ha 4 ltac:(lia)); pose proof (Ha 5 ltac:(lia)); pose proof (Ha 6 ltac:(lia)).
  unfold total, BASE_RECORD in *; lia.
Qed.

Lemma last_index_ok (ino : Z) : special ino -> last_table_index m ino = Ok (cnt m ino - 1).
Proof using Hm.
  intros [H1 H2]; unfold last_table_index, sf_field; rewrite !(proj2 (Z.leb_le _ _)) by done; cbn [andb].
  pose proof total_header as Ht; pose proof (bs_total _ Hm) as Hl; unfold CRC32_SIZE, BASE_TABLE_SIZE, BASE_RECORD, LAST_PAGE_INDEX, VDFS4_FSFILE, VDFS4_CAT_TREE_INO in *.
  unfold VDFS4_LSFILE, VDFS4_XATTR_TREE_INO in *; rewrite rd64_ok by lia; unfold cnt, LAST_PAGE_INDEX, VDFS4_FSFILE, VDFS4_CAT_TREE_INO; f_equal; lia.
Qed.

Lemma get_table_ok (ino : Z) : special ino -> vdfs4_get_table m ino = Ok (off m ino).
Proof using Hm.
  intros Hs; pose proof (bs_area _ Hm ino Hs) as (H1 & H2 & H3); destruct Hs as [Hs1 Hs2]; unfold vdfs4_get_table, sf_field.
  rewrite !(proj2 (Z.leb_le _ _)) by done; cbn [andb]; pose proof total_header as Ht; pose proof (bs_total _ Hm) as Hl.
  unfold CRC32_SIZE, BASE_TABLE_SIZE, BASE_RECORD, VDFS4_FSFILE, VDFS4_CAT_TREE_INO, VDFS4_LSFILE, VDFS4_XATTR_TREE_INO in *.
  rewrite rd64_ok by (unfold TABLE_OFFSETS; lia); cbn [mbind run_bind]; fold (off m ino); f_equal; unfold off in *.
  unfold VDFS4_FSFILE, VDFS4_CAT_TREE_INO in *; apply u32_small; lia.
Qed.

Lemma place_bounds (c : chunk) :
  is_chunk m c -> BASE_TABLE_SIZE <= off m (fst c) + BASE_RECORD * snd c
  /\ off m (fst c) + BASE_RECORD * snd c + BASE_RECORD <= total m.
Proof using Hm.
  intros [Hs Hi]; destruct (bs_area _ Hm _ Hs) as (H1 & H2 & H3); unfold BASE_RECORD, BASE_TABLE_SIZE in *; lia.
Qed.

Lemma place_ok (c : chunk) : is_chunk m c -> rd64 m (off m (fst c) + BASE_RECORD * snd c) = Ok (place m c).
Proof using Hm.
  intros Hc; destruct (place_bounds c Hc) as [H1 H2]; pose proof (bs_total _ Hm); unfold BASE_RECORD, BASE_TABLE_SIZE, CRC32_SIZE in *.
  rewrite rd64_ok by lia; done.
Qed.

(** Different chunks have different records. *)
Lemma records_apart (c d : chunk) :
  is_chunk m c -> is_chunk m d -> c <> d ->
  off m (fst c) + BASE_RECORD * snd c + BASE_RECORD <= off m (fst d) + BASE_RECORD * snd d
  \/ off m (fst d) + BASE_RECORD * snd d + BASE_RECORD <= off m (fst c) + BASE_RECORD * snd c.
Proof using Hm.
  intros [Hc Hci] [Hd Hdi] Hne; destruct (Z.eq_dec (fst c) (fst d)) as [E|N].
  - assert (snd c <> snd d) as Hs by (intros E'; apply Hne; destruct c, d; cbn in *; congruence); rewrite E; unfold BASE_RECORD; lia.
  - destruct (bs_apart _ Hm _ _ Hc Hd N); unfold BASE_RECORD in *; lia.
Qed.

(** Bytes of one record written. *)
Lemma write_record (c : chunk) (a : Z) (v : list Z) :
  is_chunk m c -> 0 <= a -> a + lenZ v <= BASE_RECORD -> Forall is_byte v ->
  let r := off m (fst c) + BASE_RECORD * snd c in let m' := upd_at m (r + a) v in
  blit m (r + a) v = Ok m' /\ base_ok m' /\ same_shape m m' /\ sub m' 0 BASE_TABLE_SIZE = sub m 0 BASE_TABLE_SIZE
  /\ lenZ m' = lenZ m /\ (forall d, is_chunk m d -> d <> c -> place m' d = place m d).
Proof using Hm.
  intros Hc Ha Hv Bv r m'; destruct (place_bounds c Hc) as [H1 H2]; fold r in H1, H2; pose proof (bs_total _ Hm) as Hl; pose proof (lenZ_nonneg v) as Hv0.
  assert (lenZ m' = lenZ m) as El by (unfold m'; apply lenZ_upd_at; unfold BASE_TABLE_SIZE, BASE_RECORD, CRC32_SIZE in *; lia).
  assert (sub m' 0 BASE_TABLE_SIZE = sub m 0 BASE_TABLE_SIZE) as Eh.
  { unfold m'; apply sub_upd_out; unfold BASE_TABLE_SIZE, BASE_RECORD, CRC32_SIZE in *; lia. }
  assert (forall i, 0 <= i -> i + 8 <= BASE_TABLE_SIZE -> get64 m' i = get64 m i) as E64.
  { intros i Hi Hi8; unfold get64; pose proof total_header; pose proof (sub_sub m' 0 BASE_TABLE_SIZE i 8) as E1; pose proof (sub_sub m 0 BASE_TABLE_SIZE i 8) as E2.
    rewrite (Z.add_0_l i) in E1, E2; unfold BASE_TABLE_SIZE, BASE_RECORD, CRC32_SIZE in *; rewrite <- E1, <- E2, Eh by lia; done. }
  assert (same_shape m m') as Hsh.
  { intros ino [Hi1 Hi2]; unfold VDFS4_FSFILE, VDFS4_LSFILE, VDFS4_CAT_TREE_INO, VDFS4_XATTR_TREE_INO in *.
    unfold off, cnt, TABLE_OFFSETS, LAST_PAGE_INDEX, VDFS4_FSFILE, VDFS4_CAT_TREE_INO; rewrite !E64 by (unfold BASE_TABLE_SIZE; lia); done. }
  assert (total m' = total m) as Et.
  { unfold total; unfold same_shape, special, VDFS4_FSFILE, VDFS4_LSFILE, VDFS4_CAT_TREE_INO, VDFS4_XATTR_TREE_INO in Hsh.
    rewrite (proj2 (Hsh 2 ltac:(lia))), (proj2 (Hsh 3 ltac:(lia))), (proj2 (Hsh 4 ltac:(lia))), (proj2 (Hsh 5 ltac:(lia))), (proj2 (Hsh 6 ltac:(lia))); done. }
  split; [apply blit_upd; unfold BASE_TABLE_SIZE, BASE_RECORD, CRC32_SIZE in *; lia|]; split; [split|].
  - apply Forall_upd_at; [apply (bs_bytes _ Hm)|done].
  - rewrite Et, El; done.
  - intros ino Hs; destruct (Hsh ino Hs) as [-> ->]; rewrite Et; by apply (bs_area _ Hm).
  - intros i j Hi Hj Hij; destruct (Hsh i Hi) as [-> ->], (Hsh j Hj) as [-> ->]; by apply (bs_apart _ Hm).
  - split; [done|]; split; [done|]; split; [done|]; intros d Hd Hne; unfold place; destruct (Hsh (fst d) (proj1 Hd)) as [-> _].
    destruct (place_bounds d Hd) as [Hd1 Hd2]; pose proof (records_apart c d Hc Hd ltac:(congruence)) as Hap; fold r in Hap.
    unfold m'; apply get64_upd_out; unfold BASE_TABLE_SIZE, BASE_RECORD, CRC32_SIZE in *; lia.
Qed.

(** A new place for a chunk. *)
Lemma write_place (c : chunk) (v : Z) :
  is_chunk m c -> 0 <= v < 2 ^ 64 ->
  exists m', wr64 m (off m (fst c) + BASE_RECORD * snd c) v = Ok m' /\ base_ok m' /\ same_shape m m'
  /\ sub m' 0 BASE_TABLE_SIZE = sub m 0 BASE_TABLE_SIZE /\ lenZ m' = lenZ m
  /\ place m' c = v /\ (forall d, is_chunk m d -> d <> c -> place m' d = place m d).
Proof using Hm.
  intros Hc Hv; destruct (write_record c 0 (le_bytes 8 v) Hc ltac:(lia)) as (E & Hb & Hsh & Eh & El & Hd);
    [rewrite lenZ_le_bytes; unfold BASE_RECORD; lia|apply le_bytes_byte|].
  set (r := off m (fst c) + BASE_RECORD * snd c) in *; rewrite Z.add_0_r in *; eexists; split; [exact E|]; split; [done|]; split; [done|].
  split; [done|]; split; [done|]; split; [|done].
  unfold place; rewrite (proj1 (Hsh (fst c) (proj1 Hc))); fold r; destruct (place_bounds c Hc) as [H1 H2]; fold r in H1, H2.
  pose proof (bs_total _ Hm); apply get64_wr; unfold BASE_TABLE_SIZE, BASE_RECORD, CRC32_SIZE in *; lia.
Qed.

End Base.

Lemma same_chunk (m m' : list Z) (c : chunk) : same_shape m m' -> is_chunk m' c <-> is_chunk m c.
Proof. intros Hs; unfold is_chunk; split; intros [H1 H2]; (split; [done|]); destruct (Hs (fst c) H1) as [_ E]; rewrite E in *; done. Qed.
