(* ===== verification/SnapshotCow.v ===== *)
(** The invariant of a metadata transaction and what moving a chunk does to it
    (get_new_meta_iblock, move_iblock, vdfs4_add_chunk_no_lock and
    vdfs4_update_bitmaps of src/linux/fs/vdfs4/snapshot.c). *)

From Stdlib Require Import ZArith Lia Bool List.
From stdpp Require Import base list gmap.
From S2P Require Import Prelude Bytes Bitmap FindBit Buffer Snapshot SnapshotRep.

Open Scope Z_scope.

Record geom_ok (g : geom) : Prop := {
  ge_leb : 0 <= log_blocks_in_leb g < 32;
  ge_page : 0 <= log_blocks_in_page g < 32;
  ge_node : PAGE_SHIFT <= log_blocks_in_leb g + block_size_shift g
}.

Section Cow.
Context {area : ZeroArea} {Harea : ZeroAreaLaws} (g : geom) (Hg : geom_ok g).

(** The number of blocks of a chunk, and the blocks of chunk [c] at place [p]. *)
Definition blocks (ino : Z) : Z := 2 ^ order g ino.
Definition at_place (c : chunk) (p b : Z) : Prop := p <= b < p + blocks (fst c).
Definition covers (m : list Z) (c : chunk) (b : Z) : Prop := at_place c (place m c) b.

Lemma order_range (ino : Z) : 0 <= order g ino < 32.
Proof using Hg. destruct Hg; unfold order; by destruct (is_tree ino). Qed.

Lemma blocks_range (ino : Z) : 1 <= blocks ino < 2 ^ 32.
Proof using Hg.
  pose proof (order_range ino) as Ho; unfold blocks; split; [|by apply Z.pow_lt_mono_r; lia].
  pose proof (Z.pow_pos_nonneg 2 (order g ino)); lia.
Qed.

Lemma shiftl_blocks (ino : Z) : Z.shiftl 1 (order g ino) = blocks ino.
Proof. apply Z.shiftl_1_l. Qed.

(** The bitmaps have the size their allocation gave them. *)
Record sized (s : maps) : Prop := {
  sz_size : 0 <= bitmap_size_in_bits s < 2 ^ 31;
  sz_snap : lenZ (snapshot_bitmap s) = words (bitmap_size_in_bits s);
  sz_next : lenZ (next_snapshot_bitmap s) = words (bitmap_size_in_bits s);
  sz_moved : lenZ (moved_iblock s) = words (bitmap_size_in_bits s);
  sz_btree : 0 <= hint_btree s;
  sz_bitmaps : 0 <= hint_bitmaps s
}.

(** A transaction: [C] are the blocks of the snapshot that was committed last. The
    chunks lie in the area without overlap; the next snapshot is made of their
    blocks, the snapshot bitmap of these and the committed ones; a chunk has moved
    as a whole or not at all, and one that has not is where it was committed. *)
Record snap_ok (C : Z -> Prop) (s : maps) (m : list Z) : Prop := {
  sn_base : base_ok m;
  sn_sized : sized s;
  sn_in : forall c, is_chunk m c -> 0 <= place m c /\ place m c + blocks (fst c) <= bitmap_size_in_bits s;
  sn_align : forall c, is_chunk m c -> place m c mod blocks (fst c) = 0;
  sn_apart : forall c d, is_chunk m c -> is_chunk m d -> c <> d ->
    place m c + blocks (fst c) <= place m d \/ place m d + blocks (fst d) <= place m c;
  sn_next : forall b, 0 <= b < bitmap_size_in_bits s -> bit (next_snapshot_bitmap s) b = true <-> exists c, is_chunk m c /\ covers m c b;
  sn_snap : forall b, 0 <= b < bitmap_size_in_bits s -> bit (snapshot_bitmap s) b = true <-> C b \/ bit (next_snapshot_bitmap s) b = true;
  sn_moved : forall c b, is_chunk m c -> covers m c b -> bit (moved_iblock s) b = bit (moved_iblock s) (place m c);
  sn_old : forall c b, is_chunk m c -> bit (moved_iblock s) (place m c) = false -> covers m c b -> C b
}.

(** No aligned area for a chunk of [ino] is clear. *)
Definition no_room (s : maps) (ino : Z) : Prop :=
  forall p, 0 <= p -> p mod blocks ino = 0 -> p + blocks ino <= bitmap_size_in_bits s ->
    exists i, p <= i < p + blocks ino /\ bit (snapshot_bitmap s) i = true.

(** What has changed between two states of the bitmaps: the bits of [p .. p+n) of
    one of them. *)
Definition bits_set (m m' : list Z) (p n : Z) (v : bool) : Prop :=
  lenZ m' = lenZ m /\ forall b, bit m' b = if (p <=? b) && (b <? p + n) then v else bit m b.

Lemma new_iblock_spec (s : maps) (ino : Z) :
  sized s ->
  (no_room s ino /\ get_new_meta_iblock g s ino = Ok (Err (- ENOSPC), set_hint ino 0 s))
  \/ exists p s', get_new_meta_iblock g s ino = Ok (Val p, s')
     /\ 0 <= p /\ p mod blocks ino = 0 /\ p + blocks ino <= bitmap_size_in_bits s
     /\ (forall b, p <= b < p + blocks ino -> bit (snapshot_bitmap s) b = false)
     /\ bits_set (snapshot_bitmap s) (snapshot_bitmap s') p (blocks ino) true
     /\ bits_set (next_snapshot_bitmap s) (next_snapshot_bitmap s') p (blocks ino) true
     /\ bits_set (moved_iblock s) (moved_iblock s') p (blocks ino) true
     /\ cow_blocks s' = cow_blocks s /\ bitmap_size_in_bits s' = bitmap_size_in_bits s /\ sized s'.
Proof using Harea Hg.
  intros [Hsz L1 L2 L3 Hh1 Hh2]; unfold get_new_meta_iblock; rewrite shiftl_blocks; pose proof (blocks_range ino) as Hn; pose proof (order_range ino) as Ho.
  pose proof (words_fit (bitmap_size_in_bits s) ltac:(lia)) as Hw.
  set (hint := if is_tree ino then hint_btree s else hint_bitmaps s); assert (0 <= hint) as Hh by (unfold hint; by destruct (is_tree ino)).
  set (size := bitmap_size_in_bits s) in *; set (find := bitmap_find_next_zero_area (snapshot_bitmap s) size).
  assert (0 <= size <= 8 * lenZ (snapshot_bitmap s)) as Hs8 by lia.
  set (pos := if size <? find hint (blocks ino) (blocks ino - 1) then find 0 (blocks ino) (blocks ino - 1) else find hint (blocks ino) (blocks ino - 1)).
  assert ((size < pos /\ no_room s ino) \/ (0 <= pos /\ pos mod blocks ino = 0 /\ pos + blocks ino <= size
    /\ forall b, pos <= b < pos + blocks ino -> bit (snapshot_bitmap s) b = false)) as Hpos.
  { pose proof (find_zero_area_spec (snapshot_bitmap s) size hint (order g ino) Hh ltac:(lia) Hs8) as H1.
    pose proof (find_zero_area_spec (snapshot_bitmap s) size 0 (order g ino) ltac:(lia) ltac:(lia) Hs8) as H2.
    cbn zeta in H1, H2; change (2 ^ order g ino) with (blocks ino) in H1, H2; fold (find hint) in H1; fold (find 0) in H2; unfold pos.
    destruct H1 as [[H1 _]|(H1 & H1a & H1s & H1b)].
    - rewrite (proj2 (Z.ltb_lt _ _)) by done; destruct H2 as [[H2 H2n]|(H2 & H2a & H2s & H2b)]; [left|right]; split; auto.
    - rewrite (proj2 (Z.ltb_ge _ _)) by lia; right; split; [lia|]; auto. }
  destruct Hpos as [[Hpos Hno]|(Hp0 & Hpa & Hps & Hpc)].
  { left; split; [done|]; cbn zeta; fold size find pos; by rewrite (proj2 (Z.ltb_lt _ _)) by done. }
  right; cbn zeta; fold size find pos; rewrite (proj2 (Z.ltb_ge _ _)) by lia; rewrite u32_small by lia.
  destruct (bitmap_put_ok true (snapshot_bitmap s) pos (blocks ino)) as (a & Ea & La & Ba); try lia.
  destruct (bitmap_put_ok true (next_snapshot_bitmap s) pos (blocks ino)) as (b & Eb & Lb & Bb); try lia.
  destruct (bitmap_put_ok true (moved_iblock s) pos (blocks ino)) as (c & Ec & Lc & Bc); try lia.
  unfold bitmap_set; rewrite Ea; cbn [mbind run_bind]; rewrite Eb; cbn [mbind run_bind]; rewrite Ec; cbn [mbind run_bind].
  eexists pos, _; split; [reflexivity|]; split; [done|]; split; [done|]; split; [done|]; split; [done|].
  assert (0 <= pos +64 blocks ino) as Hu by (unfold u64; apply Z.mod_pos_bound; lia).
  unfold set_hint, bits_set; destruct (is_tree ino); cbn; (split; [done|]; split; [done|]; split; [done|]; split; [done|]; split; [done|]); by split; cbn; try congruence.
Qed.

(** Changing the place of chunk [c] from [p] to the clear area [q]. *)
Lemma moved_ok (C : Z -> Prop) (s s' : maps) (m m' : list Z) (c : chunk) (q : Z) :
  snap_ok C s m -> base_ok m' -> same_shape m m' -> is_chunk m c -> bit (moved_iblock s) (place m c) = false ->
  place m' c = q -> (forall d, is_chunk m d -> d <> c -> place m' d = place m d) ->
  0 <= q -> q mod blocks (fst c) = 0 -> q + blocks (fst c) <= bitmap_size_in_bits s ->
  (forall b, q <= b < q + blocks (fst c) -> bit (snapshot_bitmap s) b = false) ->
  sized s' -> bitmap_size_in_bits s' = bitmap_size_in_bits s ->
  bits_set (snapshot_bitmap s) (snapshot_bitmap s') q (blocks (fst c)) true ->
  (forall b, bit (next_snapshot_bitmap s') b =
     if (place m c <=? b) && (b <? place m c + blocks (fst c)) then false
     else if (q <=? b) && (b <? q + blocks (fst c)) then true else bit (next_snapshot_bitmap s) b) ->
  bits_set (moved_iblock s) (moved_iblock s') q (blocks (fst c)) true ->
  snap_ok C s' m'.
Proof using Hg.
  intros Hok Hb' Hsh Hc Hm0 Hq Hoth Hq0 Hqa Hqs Hfree Hsz' Esz [_ Bsn] Bnx [_ Bmv]; pose proof Hok as [Hb Hsz Hin Hal Hap Hnx Hsn Hmv Hold].
  set (p := place m c) in *; set (n := blocks (fst c)) in *; pose proof (blocks_range (fst c)) as Hn; fold n in Hn.
  pose proof (Hin c Hc) as Hp; fold p n in Hp.
  assert (forall d, is_chunk m' d <-> is_chunk m d) as Hck by (intros d; by apply same_chunk).
  assert (forall d, is_chunk m d -> q + n <= place m d \/ place m d + blocks (fst d) <= q) as Hqap.
  { intros d Hd; pose proof (blocks_range (fst d)); pose proof (Hin d Hd); destruct (Z.le_gt_cases (q + n) (place m d)); [by left|].
    destruct (Z.le_gt_cases (place m d + blocks (fst d)) q); [by right|]; exfalso; set (x := Z.max q (place m d)).
    assert (bit (snapshot_bitmap s) x = true) as Ht; [|rewrite Hfree in Ht by lia; done].
    apply Hsn; [lia|]; right; apply Hnx; [lia|]; exists d; split; [done|]; unfold covers, at_place; lia. }
  pose proof (Hqap c Hc) as Hpq; fold p n in Hpq.
  assert (forall d b, is_chunk m d -> d <> c -> covers m d b -> b < p \/ p + n <= b) as Hpd.
  { intros d b Hd Hne; unfold covers, at_place; pose proof (Hap c d Hc Hd ltac:(congruence)) as Ha; fold p n in Ha; lia. }
  split; auto; rewrite ?Esz.
  - intros d Hd; apply Hck in Hd; destruct (decide (d = c)) as [->|N]; [rewrite Hq; lia|rewrite Hoth by done; auto].
  - intros d Hd; apply Hck in Hd; destruct (decide (d = c)) as [->|N]; [rewrite Hq; done|rewrite Hoth by done; auto].
  - intros d e Hd He Hne; apply Hck in Hd, He; destruct (decide (d = c)) as [->|Nd], (decide (e = c)) as [->|Ne]; try done;
      rewrite ?Hq, ?Hoth by done; fold n; [pose proof (Hqap e He)|pose proof (Hqap d Hd)|auto]; tauto.
  - intros b Hbr; rewrite Bnx; split.
    + destruct (Z.leb_spec p b), (Z.ltb_spec b (p + n)); cbn [andb]; try done;
        (destruct (Z.leb_spec q b), (Z.ltb_spec b (q + n)); cbn [andb];
         first [intros _; exists c; split; [by apply Hck|]; unfold covers, at_place; rewrite Hq; fold n; lia
               |intros Hx; apply Hnx in Hx as (d & Hd & Hcv); [|lia];
                assert (d <> c) as Hdc by (intros ->; unfold covers, at_place in Hcv; fold p n in Hcv; lia);
                exists d; split; [by apply Hck|]; unfold covers; by rewrite Hoth]).
    + intros (d & Hd & Hcv); apply Hck in Hd; unfold covers, at_place in Hcv; destruct (decide (d = c)) as [->|Nd].
      * rewrite Hq in Hcv; fold n in Hcv; rewrite (proj2 (Z.leb_le q b)), (proj2 (Z.ltb_lt b (q + n))) by lia; cbn [andb].
        destruct (Z.leb_spec p b), (Z.ltb_spec b (p + n)); cbn [andb]; try done; lia.
      * rewrite Hoth in Hcv by done; pose proof (Hpd d b Hd Nd Hcv); assert (bit (next_snapshot_bitmap s) b = true) as -> by (apply Hnx; [lia|]; eauto).
        destruct (Z.leb_spec p b), (Z.ltb_spec b (p + n)); cbn [andb]; try lia; by destruct (_ && _).
  - intros b Hbr; rewrite Bsn, Bnx; destruct (Z.leb_spec q b), (Z.ltb_spec b (q + n)); cbn [andb]; split; try done.
    + intros _; right; destruct (Z.leb_spec p b), (Z.ltb_spec b (p + n)); cbn [andb]; try done; lia.
    + intros Hx; apply Hsn in Hx as [Hx|Hx]; [by left| |lia]; destruct (Z.leb_spec p b), (Z.ltb_spec b (p + n)); cbn [andb]; auto.
      left; apply (Hold c); auto; unfold covers, at_place; fold p n; lia.
    + intros [Hx|Hx]; apply Hsn; try lia; [by left|]; destruct ((p <=? b) && (b <? p + n)); [done|by right].
    + intros Hx; apply Hsn in Hx as [Hx|Hx]; [by left| |lia]; destruct (Z.leb_spec p b), (Z.ltb_spec b (p + n)); cbn [andb]; auto.
      left; apply (Hold c); auto; unfold covers, at_place; fold p n; lia.
    + intros [Hx|Hx]; apply Hsn; try lia; [by left|]; destruct ((p <=? b) && (b <? p + n)); [done|by right].
    + lia.
    + lia.
  - intros d b Hd; apply Hck in Hd; unfold covers, at_place; rewrite !Bmv; destruct (decide (d = c)) as [->|Nd].
    + rewrite Hq; fold n; intros Hbr; rewrite !(proj2 (Z.leb_le q _)), !(proj2 (Z.ltb_lt _ (q + n))) by lia; done.
    + rewrite Hoth by done; intros Hbr; pose proof (Hqap d Hd); pose proof (blocks_range (fst d)).
      destruct (Z.leb_spec q b), (Z.ltb_spec b (q + n)), (Z.leb_spec q (place m d)), (Z.ltb_spec (place m d) (q + n)); cbn [andb]; try lia; by apply Hmv.
  - intros d b Hd; apply Hck in Hd; unfold covers, at_place; rewrite Bmv; destruct (decide (d = c)) as [->|Nd].
    + rewrite Hq, Z.leb_refl, (proj2 (Z.ltb_lt _ _)) by lia; done.
    + rewrite Hoth by done; pose proof (Hqap d Hd); pose proof (blocks_range (fst d)).
      destruct (Z.leb_spec q (place m d)), (Z.ltb_spec (place m d) (q + n)); cbn [andb]; try lia; intros Hx Hbr; by apply (Hold d).
Qed.

(** A chunk that stays where it is for lack of room. *)
Lemma kept_ok (C : Z -> Prop) (s s' : maps) (m m' : list Z) (c : chunk) :
  snap_ok C s m -> base_ok m' -> same_shape m m' -> is_chunk m c -> (forall d, is_chunk m d -> place m' d = place m d) ->
  sized s' -> bitmap_size_in_bits s' = bitmap_size_in_bits s -> snapshot_bitmap s' = snapshot_bitmap s ->
  next_snapshot_bitmap s' = next_snapshot_bitmap s -> bits_set (moved_iblock s) (moved_iblock s') (place m c) (blocks (fst c)) true ->
  snap_ok C s' m'.
Proof using Hg.
  intros [Hb Hsz Hin Hal Hap Hnx Hsn Hmv Hold] Hb' Hsh Hc Hpl Hsz' Esz Es En [_ Bmv].
  assert (forall d, is_chunk m' d <-> is_chunk m d) as Hck by (intros d; by apply same_chunk).
  split; auto; rewrite ?Esz, ?Es, ?En; auto.
  - intros d Hd; apply Hck in Hd; rewrite Hpl by done; auto.
  - intros d Hd; apply Hck in Hd; rewrite Hpl by done; auto.
  - intros d e Hd He Hne; apply Hck in Hd, He; rewrite !Hpl by done; auto.
  - intros b Hbr; rewrite Hnx by done; split; intros (d & Hd & Hcv); exists d; unfold covers in *.
    + rewrite Hpl by done; split; [by apply Hck|done].
    + apply Hck in Hd; rewrite Hpl in Hcv by done; done.
  - intros d b Hd; apply Hck in Hd; unfold covers, at_place; rewrite Hpl, !Bmv by done; intros Hbr; destruct (decide (d = c)) as [->|Nd].
    + pose proof (blocks_range (fst c)); rewrite !(proj2 (Z.leb_le (place m c) _)), !(proj2 (Z.ltb_lt _ (place m c + _))) by lia; done.
    + pose proof (Hap d c Hd Hc Nd); pose proof (blocks_range (fst d)); pose proof (blocks_range (fst c)).
      destruct (Z.leb_spec (place m c) b), (Z.ltb_spec b (place m c + blocks (fst c))), (Z.leb_spec (place m c) (place m d)),
        (Z.ltb_spec (place m d) (place m c + blocks (fst c))); cbn [andb]; try lia; by apply Hmv.
  - intros d b Hd; apply Hck in Hd; unfold covers, at_place; rewrite Hpl, Bmv by done; destruct (decide (d = c)) as [->|Nd].
    + pose proof (blocks_range (fst c)); rewrite Z.leb_refl, (proj2 (Z.ltb_lt _ _)) by lia; done.
    + pose proof (Hap d c Hd Hc Nd); pose proof (blocks_range (fst d)); pose proof (blocks_range (fst c)).
      destruct (Z.leb_spec (place m c) (place m d)), (Z.ltb_spec (place m d) (place m c + blocks (fst c))); cbn [andb]; try lia; intros Hx Hbr; by apply (Hold d).
Qed.

End Cow.
