(* ===== verification/SnapshotTable.v ===== *)
(** Recording the moves of a transaction in the extended table and replaying them
    (update_extended_table, vdfs4_add_chunk_no_lock and parse_extended_table of
    src/linux/fs/vdfs4/snapshot.c). *)

From Stdlib Require Import ZArith Lia Bool List.
From stdpp Require Import base list gmap.
From S2P Require Import Prelude Bytes Bitmap FindBit Buffer Snapshot SnapshotDisk SnapshotRep SnapshotCow.

Open Scope Z_scope.

(** ** The extended table as a list of moves *)

Abbreviation moves := (list (Z * Z * Z)).

(** Places after some moves. *)
Fixpoint replay (L : moves) (P : chunk -> Z) : chunk -> Z :=
  match L with
  | [] => P
  | (c, v) :: L => replay L (fun d => if decide (d = c) then v else P d)
  end.

Lemma replay_snoc (L : moves) (P : chunk -> Z) (c d : chunk) (v : Z) :
  replay (L ++ [(c, v)]) P d = if decide (d = c) then v else replay L P d.
Proof. revert P; induction L as [|[c' v'] L IH]; intros P; [done|]; cbn; apply IH. Qed.

Lemma replay_ext (L : moves) (P Q : chunk -> Z) (c : chunk) : P c = Q c -> replay L P c = replay L Q c.
Proof. revert P Q; induction L as [|[d v] L IH]; intros P Q E; [done|]; cbn; apply IH; by destruct (decide (c = d)). Qed.

Record ext_rep (e : list Z) (L : moves) : Prop := {
  ex_len : lenZ e = PAGE_SIZE;
  ex_bytes : Forall is_byte e;
  ex_count : get32 e RECORDS_COUNT = lenZ L;
  ex_fit : EXT_TABLE_SIZE + EXT_RECORD * lenZ L + CRC32_SIZE <= PAGE_SIZE;
  ex_rec : forall i c v, L !! i = Some (c, v) ->
    let r := EXT_TABLE_SIZE + EXT_RECORD * Z.of_nat i in
    get64 e r = fst c /\ get64 e (r + EXT_TABLE_INDEX) = snd c /\ get64 e (r + EXT_META_IBLOCK) = v
}.

(** What the writes of a record and of the descriptor leave alone. *)
Lemma get64_upd64 (e : list Z) (a i v : Z) :
  0 <= a -> a + 8 <= lenZ e -> 0 <= i -> i + 8 <= lenZ e -> i + 8 <= a \/ a + 8 <= i ->
  get64 (upd_at e a (le_bytes 8 v)) i = get64 e i.
Proof. intros; apply get64_upd_out; rewrite ?lenZ_le_bytes; lia. Qed.

Lemma ext_header (e e' : list Z) (L : moves) :
  ext_rep e L -> lenZ e' = lenZ e -> Forall is_byte e' -> get32 e' RECORDS_COUNT = get32 e RECORDS_COUNT ->
  (forall i, EXT_TABLE_SIZE <= i -> i + 8 <= EXT_TABLE_SIZE + EXT_RECORD * lenZ L -> get64 e' i = get64 e i) -> ext_rep e' L.
Proof.
  intros [H1 H2 H3 H4 H5] El Hb Hc Hi; split; auto; [congruence|congruence|].
  intros i c v Hl; pose proof (lookup_lt_Some _ _ _ Hl) as Hlt; cbn zeta; unfold lenZ, EXT_RECORD, EXT_TABLE_SIZE, EXT_TABLE_INDEX, EXT_META_IBLOCK in *.
  rewrite !Hi by lia; by apply (H5 i).
Qed.

Lemma ext_zero : ext_rep (replicate (Z.to_nat PAGE_SIZE) 0) [].
Proof.
  split; [done|..].
  - apply Forall_replicate; unfold is_byte; lia.
  - reflexivity.
  - done.
  - intros i c v Hl; by rewrite lookup_nil in Hl.
Qed.

Lemma ext_append (g : geom) (t : tables) (L : moves) (ino page v : Z) :
  use_base_table t = false -> ext_rep (extended_table t) L -> 0 <= v < 2 ^ 64 -> 0 <= ino < 2 ^ 64 -> 0 <= get_table_index g ino page < 2 ^ 64 ->
  (exists e, update_extended_table g t ino page v
     = Ok (Tables (base_t t) e (iblock t) (sync_count t) (dirty_pages_count t) false (exteneded_table_count t))
     /\ ext_rep e (L ++ [((ino, get_table_index g ino page), v)]))
  \/ update_extended_table g t ino page v
     = Ok (Tables (base_t t) (extended_table t) (iblock t) (sync_count t) (dirty_pages_count t) true (exteneded_table_count t)).
Proof.
  intros Hu [H1 H2 H3 H4 H5] Hv Hi Hx; unfold update_extended_table, RECORDS_COUNT, EXT_RECORD, EXT_TABLE_SIZE, CRC32_SIZE, PAGE_SIZE, EXT_TABLE_INDEX, EXT_META_IBLOCK in *.
  set (idx := get_table_index g ino page) in *; rewrite rd32_ok by lia; cbn [mbind run_bind]; rewrite H3, Hu; pose proof (lenZ_nonneg L) as HL0.
  rewrite (u32_small (lenZ L + 1)) by lia; destruct (Z.ltb_spec 4096 ((lenZ L + 1) * 24 + 32 + 4)) as [Hbig|Hfit]; [right; done|left].
  set (r := 32 + lenZ L * 24) in *; set (e := extended_table t) in *.
  rewrite wr64_ok by (subst r; lia); cbn [mbind run_bind]; set (e1 := upd_at e (r + 16) (le_bytes 8 v)).
  assert (lenZ e1 = 4096) as L1 by (unfold e1; rewrite lenZ_upd_at; rewrite ?lenZ_le_bytes; subst r; lia).
  rewrite wr64_ok by (subst r; lia); cbn [mbind run_bind]; set (e2 := upd_at e1 r (le_bytes 8 ino)).
  assert (lenZ e2 = 4096) as L2 by (unfold e2; rewrite lenZ_upd_at; rewrite ?lenZ_le_bytes; subst r; lia).
  rewrite wr64_ok by (subst r; lia); cbn [mbind run_bind]; set (e3 := upd_at e2 (r + 8) (le_bytes 8 idx)).
  assert (lenZ e3 = 4096) as L3 by (unfold e3; rewrite lenZ_upd_at; rewrite ?lenZ_le_bytes; subst r; lia).
  rewrite wr32_ok by lia; cbn [mbind run_bind]; set (e4 := upd_at e3 24 (le_bytes 4 (lenZ L + 1))).
  assert (lenZ e4 = 4096) as L4 by (unfold e4; rewrite lenZ_upd_at; rewrite ?lenZ_le_bytes; lia).
  eexists; split; [reflexivity|]; split; unfold RECORDS_COUNT, EXT_RECORD, EXT_TABLE_SIZE, CRC32_SIZE, PAGE_SIZE, EXT_TABLE_INDEX, EXT_META_IBLOCK; rewrite ?lenZ_app; try done.
  - unfold e4, e3, e2, e1; auto 10 using Forall_upd_at, le_bytes_byte.
  - unfold e4; rewrite get32_wr by lia; done.
  - change (lenZ [(ino, idx, v)]) with 1; lia.
  - assert (forall i, 32 <= i -> i + 8 <= 4096 -> get64 e4 i = get64 e3 i) as E4
      by (intros i Hi1 Hi2; unfold e4; apply get64_upd_out; rewrite ?lenZ_le_bytes; lia).
    intros i c w Hl; cbn zeta; apply lookup_app_Some in Hl as [Hl|[Hge Hl]].
    + pose proof (lookup_lt_Some _ _ _ Hl) as Hlt; assert (Z.of_nat i < lenZ L) as Hil by (unfold lenZ; lia).
      rewrite !E4 by lia; unfold e3, e2, e1; rewrite !get64_upd64 by (fold e1 e2; subst r; lia); by apply (H5 i).
    + assert (i = length L) as -> by (destruct (i - length L)%nat eqn:E; [lia|done]); rewrite Nat.sub_diag in Hl; injection Hl as <- <-.
      replace (32 + 24 * Z.of_nat (length L)) with r by (subst r; unfold lenZ; lia); rewrite !E4 by (subst r; lia); cbn [fst snd].
      unfold e3; rewrite (get64_wr e2 (r + 8)) by (subst r; lia); rewrite !get64_upd64 by (subst r; lia); unfold e2.
      rewrite (get64_wr e1 r) by (subst r; lia); rewrite get64_upd64 by (subst r; lia); unfold e1; rewrite get64_wr by (subst r; lia); done.
Qed.

(** ** Replaying the moves *)

(** Two writes into the record of a chunk behind its place. *)
Lemma write_counts (m : list Z) (c : chunk) (a v : Z) :
  base_ok m -> is_chunk m c -> 8 <= a <= 12 ->
  exists m', wr32 m (off m (fst c) + BASE_RECORD * snd c + a) v = Ok m' /\ base_ok m' /\ same_shape m m'
  /\ sub m' 0 BASE_TABLE_SIZE = sub m 0 BASE_TABLE_SIZE /\ lenZ m' = lenZ m /\ forall d, is_chunk m d -> place m' d = place m d.
Proof.
  intros Hm Hc Ha; destruct (write_record m Hm c a (le_bytes 4 v) Hc ltac:(lia)) as (E & Hb & Hsh & Eh & El & Hd);
    [rewrite lenZ_le_bytes; unfold BASE_RECORD; lia|apply le_bytes_byte|].
  set (r := off m (fst c) + BASE_RECORD * snd c) in *; eexists; split; [exact E|]; do 4 (split; [done|]).
  intros d Hcd; destruct (decide (d = c)) as [->|N]; [|auto]; unfold place; rewrite (proj1 (Hsh (fst c) (proj1 Hc))); fold r.
  destruct (place_bounds m Hm c Hc) as [H1 H2]; fold r in H1, H2; pose proof (bs_total _ Hm).
  apply get64_upd_out; rewrite ?lenZ_le_bytes; unfold BASE_TABLE_SIZE, BASE_RECORD, CRC32_SIZE in *; lia.
Qed.

Lemma shape_trans (m1 m2 m3 : list Z) : same_shape m1 m2 -> same_shape m2 m3 -> same_shape m1 m3.
Proof. intros H1 H2 ino Hs; destruct (H1 ino Hs), (H2 ino Hs); split; congruence. Qed.

Lemma parse_records_spec (k : nat) (L : moves) (e m : list Z) (i : nat) :
  ext_rep e L -> (i + k = length L)%nat -> base_ok m -> Forall (fun x => is_chunk m (fst x) /\ 0 <= snd x < 2 ^ 64) L ->
  exists m', parse_records k (Z.of_nat i) e m = Ok m' /\ base_ok m' /\ same_shape m m'
  /\ sub m' 0 BASE_TABLE_SIZE = sub m 0 BASE_TABLE_SIZE /\ lenZ m' = lenZ m
  /\ forall c, is_chunk m c -> place m' c = replay (drop i L) (place m) c.
Proof.
  intros He; pose proof He as [E1 E2 E3 E4 E5]; revert i m; induction k as [|k IH]; intros i m Hik Hm HL.
  { exists m; split; [done|]; split; [done|]; split; [done|]; split; [done|]; split; [done|]; intros c Hc; by rewrite drop_ge by lia. }
  destruct (lookup_lt_is_Some_2 L i ltac:(lia)) as ([c v] & Hl); destruct (E5 i c v Hl) as (R1 & R2 & R3); rewrite Forall_forall in HL.
  destruct (HL (c, v) ltac:(by eapply list_elem_of_lookup_2)) as [Hc Hv]; cbn [fst snd] in Hc, Hv; pose proof Hc as [Hs Hi].
  assert (Z.of_nat i < lenZ L) as Hil by (unfold lenZ; lia); unfold PAGE_SIZE in E1.
  cbn [parse_records]; set (r := EXT_TABLE_SIZE + EXT_RECORD * Z.of_nat i) in *.
  assert (0 <= r /\ r + 24 <= 4096) as Hr by (subst r; unfold EXT_TABLE_SIZE, EXT_RECORD, CRC32_SIZE, PAGE_SIZE in *; lia).
  rewrite (rd64_ok e (r + EXT_TABLE_INDEX)) by (unfold EXT_TABLE_INDEX; lia); cbn [mbind run_bind]; rewrite R2, (rd64_ok e r) by lia; cbn [mbind run_bind]; rewrite R1.
  rewrite (get_table_ok m Hm) by done; cbn [mbind run_bind]; rewrite (last_index_ok m Hm) by done; cbn [mbind run_bind].
  unfold bug_on; rewrite (proj2 (Z.ltb_ge _ _)) by lia; cbn [mbind run_bind]; rewrite (rd64_ok e (r + EXT_META_IBLOCK)) by (unfold EXT_META_IBLOCK; lia); cbn [mbind run_bind]; rewrite R3.
  destruct (write_place m Hm c v Hc Hv) as (m1 & W1 & B1 & S1 & Hd1 & Ln1 & P1 & Q1); rewrite W1; cbn [mbind run_bind].
  rewrite (rd64_ok e MOUNT_COUNT) by (unfold MOUNT_COUNT; lia); cbn [mbind run_bind].
  pose proof (proj2 (same_chunk m m1 c S1) Hc) as Hc1; destruct (write_counts m1 c REC_MOUNT (u32 (get64 e MOUNT_COUNT)) B1 Hc1) as (m2 & W2 & B2 & S2 & Hd2 & Ln2 & P2); [unfold REC_MOUNT; lia|].
  rewrite (proj1 (S1 (fst c) Hs)) in W2; rewrite W2; cbn [mbind run_bind]; rewrite (rd32_ok e SYNC_COUNT) by (unfold SYNC_COUNT; lia); cbn [mbind run_bind].
  pose proof (proj2 (same_chunk m1 m2 c S2) Hc1) as Hc2; destruct (write_counts m2 c REC_SYNC (get32 e SYNC_COUNT) B2 Hc2) as (m3 & W3 & B3 & S3 & Hd3 & Ln3 & P3); [unfold REC_SYNC; lia|].
  rewrite (proj1 (S2 (fst c) Hs)), (proj1 (S1 (fst c) Hs)) in W3; rewrite W3; cbn [mbind run_bind].
  pose proof (shape_trans _ _ _ S1 (shape_trans _ _ _ S2 S3)) as S13.
  destruct (IH (S i) m3) as (m' & E' & B' & S' & Hd' & Ln' & P'); [lia|done| |].
  { apply Forall_forall; intros x Hx; destruct (HL x Hx); split; [by apply (same_chunk m m3)|done]. }
  exists m'; replace (Z.of_nat i + 1) with (Z.of_nat (S i)) by lia; split; [exact E'|]; split; [done|]; split; [by eapply shape_trans|].
  split; [congruence|]; split; [congruence|]; intros d Hd.
  rewrite (drop_S L (c, v) i Hl); cbn [replay]; rewrite P' by (by apply (same_chunk m m3)); apply replay_ext.
  rewrite P3 by (apply (same_chunk m1 m2); [done|by apply (same_chunk m m1)]); rewrite P2 by (by apply (same_chunk m m1)).
  destruct (decide (d = c)) as [->|N]; [done|by apply Q1].
Qed.

(** A write into the descriptor changes no place. *)
Lemma header_write (m : list Z) (a : Z) (v : list Z) :
  base_ok m -> 0 <= a -> a + lenZ v <= LAST_PAGE_INDEX -> Forall is_byte v ->
  blit m a v = Ok (upd_at m a v) /\ base_ok (upd_at m a v) /\ same_shape m (upd_at m a v) /\ lenZ (upd_at m a v) = lenZ m
  /\ forall d, is_chunk m d -> place (upd_at m a v) d = place m d.
Proof.
  intros Hm Ha Hv Bv; pose proof (total_header m Hm) as Ht; pose proof (bs_total _ Hm) as Hl; pose proof (lenZ_nonneg v).
  unfold LAST_PAGE_INDEX, BASE_TABLE_SIZE, BASE_RECORD, CRC32_SIZE in *; set (m' := upd_at m a v).
  assert (lenZ m' = lenZ m) as El by (apply lenZ_upd_at; lia).
  assert (forall i, 24 <= i -> i + 8 <= lenZ m -> get64 m' i = get64 m i) as E64 by (intros i H1 H2; apply get64_upd_out; lia).
  assert (same_shape m m') as Hsh.
  { intros ino [H1 H2]; unfold VDFS4_FSFILE, VDFS4_LSFILE, VDFS4_CAT_TREE_INO, VDFS4_XATTR_TREE_INO in *.
    unfold off, cnt, TABLE_OFFSETS, LAST_PAGE_INDEX, VDFS4_FSFILE, VDFS4_CAT_TREE_INO; rewrite !E64 by lia; done. }
  assert (total m' = total m) as Et.
  { unfold total; unfold same_shape, special, VDFS4_FSFILE, VDFS4_LSFILE, VDFS4_CAT_TREE_INO, VDFS4_XATTR_TREE_INO in Hsh.
    rewrite (proj2 (Hsh 2 ltac:(lia))), (proj2 (Hsh 3 ltac:(lia))), (proj2 (Hsh 4 ltac:(lia))), (proj2 (Hsh 5 ltac:(lia))), (proj2 (Hsh 6 ltac:(lia))); done. }
  split; [apply blit_upd; lia|]; split; [split|].
  - apply Forall_upd_at; [apply (bs_bytes _ Hm)|done].
  - rewrite Et, El; unfold CRC32_SIZE; done.
  - intros ino Hs; destruct (Hsh ino Hs) as [-> ->]; rewrite Et; by apply (bs_area _ Hm).
  - intros i j Hi Hj Hij; destruct (Hsh i Hi) as [-> ->], (Hsh j Hj) as [-> ->]; by apply (bs_apart _ Hm).
  - split; [done|]; split; [done|]; intros d Hd; unfold place; rewrite (proj1 (Hsh _ (proj1 Hd))).
    destruct (place_bounds m Hm d Hd) as [H1 H2]; unfold BASE_TABLE_SIZE, BASE_RECORD in *; apply E64; lia.
Qed.

(** [parse_extended_table] replays the moves and takes over the version. *)
Lemma parse_extended_spec (L : moves) (e m : list Z) :
  ext_rep e L -> base_ok m -> Forall (fun x => is_chunk m (fst x) /\ 0 <= snd x < 2 ^ 64) L ->
  exists m', parse_extended_table m e = Ok m' /\ base_ok m' /\ same_shape m m' /\ lenZ m' = lenZ m
  /\ get64 m' MOUNT_COUNT = get64 e MOUNT_COUNT /\ get32 m' SYNC_COUNT = get32 e SYNC_COUNT
  /\ forall c, is_chunk m c -> place m' c = replay L (place m) c.
Proof.
  intros He Hm HL; pose proof He as [E1 E2 E3 E4 E5]; unfold parse_extended_table; unfold PAGE_SIZE in E1.
  rewrite (rd32_ok e RECORDS_COUNT) by (unfold RECORDS_COUNT; lia); cbn [mbind run_bind]; rewrite E3.
  destruct (parse_records_spec (length L) L e m 0 He eq_refl Hm HL) as (m1 & P1 & B1 & S1 & Hd1 & Ln1 & Pl1).
  unfold lenZ at 1; rewrite Nat2Z.id; change 0 with (Z.of_nat 0) at 1; rewrite P1; cbn [mbind run_bind].
  rewrite (rd64_ok e MOUNT_COUNT) by (unfold MOUNT_COUNT; lia); cbn [mbind run_bind]; unfold wr64.
  destruct (header_write m1 MOUNT_COUNT (le_bytes 8 (get64 e MOUNT_COUNT)) B1) as (W2 & B2 & S2 & Ln2 & Pl2);
    [unfold MOUNT_COUNT; lia|rewrite lenZ_le_bytes; unfold MOUNT_COUNT, LAST_PAGE_INDEX; lia|apply le_bytes_byte|].
  set (m2 := upd_at m1 MOUNT_COUNT _) in *; rewrite W2; cbn [mbind run_bind]; rewrite (rd32_ok e SYNC_COUNT) by (unfold SYNC_COUNT; lia); cbn [mbind run_bind]; unfold wr32.
  destruct (header_write m2 SYNC_COUNT (le_bytes 4 (get32 e SYNC_COUNT)) B2) as (W3 & B3 & S3 & Ln3 & Pl3);
    [unfold SYNC_COUNT; lia|rewrite lenZ_le_bytes; unfold SYNC_COUNT, LAST_PAGE_INDEX; lia|apply le_bytes_byte|].
  set (m3 := upd_at m2 SYNC_COUNT _) in *; rewrite W3; exists m3; split; [done|]; split; [done|].
  pose proof (shape_trans _ _ _ S1 S2) as S12; split; [by eapply shape_trans|]; split; [lia|].
  pose proof (total_header m1 B1); pose proof (bs_total _ B1); unfold BASE_TABLE_SIZE, BASE_RECORD, CRC32_SIZE, MOUNT_COUNT, SYNC_COUNT in *.
  split; [|split].
  - unfold m3; rewrite get64_upd_out by (rewrite ?lenZ_le_bytes; lia); unfold m2; apply get64_wr; try lia; apply get64_range; try lia; done.
  - unfold m3; apply get32_wr; try lia; apply get32_range; try lia; done.
  - intros c Hc; rewrite Pl3 by (by apply (same_chunk m m2)); rewrite Pl2 by (by apply (same_chunk m m1)); by apply Pl1.
Qed.
