(* ===== verification/SnapshotStep.v ===== *)
(** One step of a metadata transaction: a chunk is about to be changed
    (vdfs4_add_chunk_no_lock), and the end of the transaction
    (vdfs4_update_bitmaps), src/linux/fs/vdfs4/snapshot.c. *)

From Stdlib Require Import ZArith Lia Bool List.
From stdpp Require Import base list gmap.
From S2P Require Import Prelude Bytes Bitmap FindBit Buffer Snapshot SnapshotDisk SnapshotRep SnapshotCow SnapshotTable.

Open Scope Z_scope.

(** The extended table records what has moved since the table [mc] was committed,
    unless the whole base table is going to be written. *)
Definition tab_ok (mc : list Z) (t : tables) : Prop :=
  use_base_table t = false -> same_shape mc (base_t t) /\ exists L, ext_rep (extended_table t) L
  /\ Forall (fun x => is_chunk mc (fst x) /\ 0 <= snd x < 2 ^ 64) L
  /\ forall c, is_chunk mc c -> place (base_t t) c = replay L (place mc) c.

Section Step.
Context {area : ZeroArea} {Harea : ZeroAreaLaws} (g : geom) (Hg : geom_ok g).

Lemma sized_hint (s : maps) (ino : Z) : sized s -> sized (set_hint ino 0 s).
Proof. intros [? ? ? ? ? ?]; destruct s; unfold set_hint; cbn in *; destruct (is_tree ino); split; cbn; auto; lia. Qed.

(** A place is an unsigned 32-bit number that is inside the bitmaps. *)
Lemma place_small (C : Z -> Prop) (s : maps) (m : list Z) (c : chunk) :
  snap_ok g C s m -> is_chunk m c ->
  0 <= place m c /\ place m c + blocks g (fst c) <= bitmap_size_in_bits s /\ place m c < 2 ^ 31 /\ u32 (place m c) = place m c
  /\ bitmap_size_in_bits s <= 8 * words (bitmap_size_in_bits s).
Proof using Hg.
  intros Hok Hc; destruct (sn_in _ _ _ _ Hok c Hc) as [H1 H2]; pose proof (sz_size _ (sn_sized _ _ _ _ Hok)); pose proof (blocks_range g Hg (fst c)).
  pose proof (words_fit (bitmap_size_in_bits s) ltac:(lia)); split; [done|]; split; [done|]; split; [lia|]; split; [apply u32_small; lia|done].
Qed.

(** What moving chunk [c] has done. *)
Record moved_to (C : Z -> Prop) (s : maps) (m : list Z) (c : chunk) (q : Z) (s' : maps) (m' : list Z) : Prop := {
  mt_ok : snap_ok g C s' m';
  mt_shape : same_shape m m';
  mt_place : place m' c = q;
  mt_other : forall d, is_chunk m d -> d <> c -> place m' d = place m d;
  mt_moved : bit (moved_iblock s') q = true;
  mt_free : (forall b, at_place g c q b -> ~ C b /\ forall d, is_chunk m d -> ~ covers g m d b)
            \/ (q = place m c /\ no_room g s (fst c))
}.

Lemma move_spec (C : Z -> Prop) (s : maps) (m : list Z) (ino page : Z) :
  let c := (ino, get_table_index g ino page) in
  snap_ok g C s m -> is_chunk m c -> bit (moved_iblock s) (place m c) = false ->
  exists q s' m', move_iblock g s m ino (place m c) page = Ok (q, s', m') /\ moved_to C s m c q s' m'.
Proof using Harea Hg.
  intros c Hok Hc Hm0; pose proof Hok as [Hb Hsz Hin Hal Hap Hnx Hsn Hmv Hold]; pose proof Hc as [Hs Hi]; cbn [fst snd c] in Hs, Hi.
  destruct (place_small C s m c Hok Hc) as (Hp0 & Hps & Hp31 & Ep & Hw); pose proof (blocks_range g Hg ino) as Hn; pose proof Hsz as [Hsz0 L1 L2 L3 _ _].
  cbn [fst c] in Hps; unfold move_iblock; rewrite (get_table_ok m Hb) by done; cbn [mbind run_bind]; rewrite (last_index_ok m Hb) by done; cbn [mbind run_bind].
  unfold bug_on; rewrite (proj2 (Z.ltb_ge _ _)) by lia; cbn [mbind run_bind]; rewrite shiftl_blocks, Ep.
  destruct (new_iblock_spec g Hg s ino Hsz) as [[Hno E]|(q & s1 & E & Hq0 & Hqa & Hqs & Hfree & Bs & Bn & Bm & Ec & Esz & Hsz1)]; rewrite E; cbn [mbind run_bind].
  - destruct (bitmap_put_ok true (moved_iblock (set_hint ino 0 s)) (place m c) (blocks g ino)) as (mv & Emv & Lmv & Bmv).
    { done. } { lia. } { destruct s; unfold set_hint; destruct (is_tree ino); cbn in *; lia. }
    unfold bitmap_set; rewrite Emv; cbn [mbind run_bind].
    destruct (write_place m Hb c (place m c) Hc ltac:(lia)) as (m' & W & B' & Sh & _ & _ & Pc & Po); cbn [fst snd c] in W; rewrite W; cbn [mbind run_bind].
    assert (snapshot_bitmap (set_hint ino 0 s) = snapshot_bitmap s /\ next_snapshot_bitmap (set_hint ino 0 s) = next_snapshot_bitmap s
      /\ moved_iblock (set_hint ino 0 s) = moved_iblock s /\ bitmap_size_in_bits (set_hint ino 0 s) = bitmap_size_in_bits s) as (Q1 & Q2 & Q3 & Q4)
      by (destruct s; unfold set_hint; by destruct (is_tree ino)).
    pose proof (sized_hint s ino Hsz) as Hszh; eexists _, _, _; split; [reflexivity|]; split; auto.
    + eapply (kept_ok g Hg C s _ m m' c); eauto; cbn.
      * intros d Hd; destruct (decide (d = c)) as [->|]; [done|auto].
      * destruct Hszh as [Z1 Z2 Z3 Z4 Z5 Z6]; split; cbn; auto; lia.
      * split; [by rewrite Lmv, Q3|]; intros b; by rewrite Bmv, Q3.
    + cbn; rewrite Bmv; cbn [fst c]; rewrite Z.leb_refl, (proj2 (Z.ltb_lt _ _)) by lia; done.
  - pose proof Bn as [Ln Bn']; destruct (bitmap_put_ok false (next_snapshot_bitmap s1) (place m c) (blocks g ino)) as (nx & Enx & Lnx & Bnx); [lia|lia|lia|].
    unfold bitmap_clear; rewrite Enx; cbn [mbind run_bind].
    destruct (write_place m Hb c q Hc ltac:(lia)) as (m' & W & B' & Sh & _ & _ & Pc & Po); cbn [fst snd c] in W; rewrite W; cbn [mbind run_bind].
    eexists q, _, m'; split; [reflexivity|]; split; auto.
    + eapply (moved_ok g Hg C s _ m m' c q); eauto; cbn.
      * destruct Hsz1 as [Z1 Z2 Z3 Z4 Z5 Z6]; split; cbn; auto; lia.
      * intros b; rewrite Bnx, Bn'; done.
    + cbn; destruct Bm as [_ Bm]; rewrite Bm, Z.leb_refl, (proj2 (Z.ltb_lt _ _)) by lia; done.
    + left; intros b Hbq; unfold at_place in Hbq; cbn [fst c] in Hbq; assert (bit (snapshot_bitmap s) b = false) as Hf by (apply Hfree; lia).
      split; [intros HC|intros d Hd Hcv]; (assert (bit (snapshot_bitmap s) b = true); [|congruence]; apply Hsn; [lia|]); [by left|].
      right; apply Hnx; [lia|]; eauto.
Qed.

Lemma page_index_small (m : list Z) (c : chunk) : base_ok m -> is_chunk m c -> 0 <= fst c < 2 ^ 64 /\ 0 <= snd c < 2 ^ 64.
Proof.
  intros Hb [Hs Hi]; destruct (bs_area _ Hb _ Hs) as (H1 & H2 & _); pose proof (bs_total _ Hb); destruct Hs.
  unfold BASE_TABLE_SIZE, BASE_RECORD, CRC32_SIZE, VDFS4_FSFILE, VDFS4_LSFILE, VDFS4_CAT_TREE_INO, VDFS4_XATTR_TREE_INO in *; lia.
Qed.

(** The record of the move in the extended table. *)
Lemma record_spec (mc m' : list Z) (t : tables) (ino page q : Z) :
  let c := (ino, get_table_index g ino page) in
  tab_ok mc t -> same_shape (base_t t) m' -> is_chunk (base_t t) c -> base_ok (base_t t) -> 0 <= q < 2 ^ 64 -> place m' c = q ->
  (forall d, is_chunk (base_t t) d -> d <> c -> place m' d = place (base_t t) d) -> lenZ (extended_table t) = PAGE_SIZE ->
  let t1 := Tables m' (extended_table t) (iblock t) (sync_count t) (dirty_pages_count t) (use_base_table t) (exteneded_table_count t) in
  exists e ub, update_extended_table g t1 ino page q
    = Ok (Tables m' e (iblock t) (sync_count t) (dirty_pages_count t) ub (exteneded_table_count t)) /\ lenZ e = PAGE_SIZE
  /\ tab_ok mc (Tables m' e (iblock t) (sync_count t) (dirty_pages_count t) ub (exteneded_table_count t)).
Proof.
  intros c Ht Sh Hc Hb Hq Pc Po Hle t1; destruct (page_index_small _ _ Hb Hc) as [Hi Hx]; cbn [fst snd c] in Hi, Hx.
  destruct (use_base_table t) eqn:Eu.
  - eexists (extended_table t), true; split; [|split; [done|by intros ?]].
    unfold update_extended_table, t1; cbn; rewrite rd32_ok by (rewrite ?Hle; unfold RECORDS_COUNT, PAGE_SIZE; lia); done.
  - destruct (Ht Eu) as (Sc & L & HL & Hch & Hrep).
    destruct (ext_append g t1 L ino page q) as [(e & E & He)|E]; [by unfold t1|done|done|done|done| |].
    + unfold t1 in E; cbn in E; exists e, false; split; [exact E|]; split; [apply (ex_len _ _ He)|]; intros _; cbn.
      split; [by eapply shape_trans|]; exists (L ++ [(c, q)]); split; [done|]; split.
      * apply Forall_app; split; [done|]; apply Forall_singleton; cbn; split; [by apply (same_chunk mc (base_t t))|done].
      * intros d Hd; rewrite replay_snoc; destruct (decide (d = c)) as [->|N]; [done|].
        rewrite Po by (try done; by apply (same_chunk mc (base_t t))); by apply Hrep.
    + unfold t1 in E; cbn in E; exists (extended_table t), true; split; [exact E|]; split; [done|by intros ?].
Qed.

(** What [vdfs4_add_chunk_no_lock] has done to chunk [c]. *)
Record added (C : Z -> Prop) (mc : list Z) (s : maps) (t : tables) (c : chunk) (s' : maps) (t' : tables) : Prop := {
  ad_ok : snap_ok g C s' (base_t t');
  ad_tab : tab_ok mc t';
  ad_shape : same_shape (base_t t) (base_t t');
  ad_moved : bit (moved_iblock s') (place (base_t t') c) = true;
  ad_other : forall d, is_chunk (base_t t) d -> d <> c -> place (base_t t') d = place (base_t t) d;
  ad_place : (bit (moved_iblock s) (place (base_t t) c) = true /\ s' = s /\ t' = t)
    \/ (forall b, covers g (base_t t') c b -> ~ C b /\ forall d, is_chunk (base_t t) d -> ~ covers g (base_t t) d b)
    \/ (place (base_t t') c = place (base_t t) c /\ no_room g s (fst c));
  ad_len : lenZ (extended_table t') = PAGE_SIZE;
  ad_rest : iblock t' = iblock t /\ sync_count t' = sync_count t /\ exteneded_table_count t' = exteneded_table_count t
}.

Lemma add_chunk_spec (C : Z -> Prop) (mc : list Z) (s : maps) (t : tables) (ino page : Z) :
  let c := (ino, get_table_index g ino page) in
  snap_ok g C s (base_t t) -> tab_ok mc t -> lenZ (extended_table t) = PAGE_SIZE -> is_chunk (base_t t) c ->
  exists s' t', vdfs4_add_chunk_no_lock g s t ino page = Ok (s', t') /\ added C mc s t c s' t'.
Proof using Harea Hg.
  intros c Hok Ht Hle Hc; pose proof (sn_base _ _ _ _ Hok) as Hb; pose proof Hc as [Hs Hi]; pose proof Hs as [Hs1 Hs2]; cbn [fst snd c] in Hs1, Hs2, Hi.
  destruct (place_small C s _ c Hok Hc) as (Hp0 & Hps & Hp31 & Ep & Hw); pose proof (sn_sized _ _ _ _ Hok) as [Hsz0 L1 L2 L3 _ _]; pose proof (blocks_range g Hg ino) as Hn.
  unfold vdfs4_add_chunk_no_lock, bug_on; rewrite !(proj2 (Z.ltb_ge _ _)) by done; cbn [orb mbind run_bind]; unfold vdfs4_get_meta_iblock.
  rewrite (last_index_ok _ Hb) by done; cbn [mbind run_bind]; rewrite (proj2 (Z.ltb_ge _ _)) by lia; rewrite (get_table_ok _ Hb) by done; cbn [mbind run_bind].
  pose proof (place_ok _ Hb c Hc) as Er; cbn [fst snd c] in Er; rewrite Er; cbn [mbind run_bind]; rewrite Ep; unfold test_bitmap.
  rewrite (proj2 (Z.leb_le _ _)), (proj2 (Z.ltb_lt _ _)) by (cbn [fst c] in Hps; lia); cbn [andb mbind run_bind]; fold c.
  destruct (bit (moved_iblock s) (place (base_t t) c)) eqn:Em.
  { exists s, t; split; [done|]; split; auto; by intros ? ?. }
  destruct (move_spec C s (base_t t) ino page Hok Hc Em) as (q & s' & m' & Emv & [M1 M2 M3 M4 M5 M6]); fold c in Emv, M3, M4; rewrite Emv; cbn [mbind run_bind].
  pose proof (proj2 (same_chunk _ _ c M2) Hc) as Hc'; destruct (place_small C s' m' c M1 Hc') as (Hq0 & Hqs & Hq31 & _); rewrite M3 in Hq0, Hqs, Hq31.
  assert ((if is_tree ino then (if negb (Z.land q (Z.shiftl 1 (log_blocks_in_leb g) - 1) =? 0) then Bug else Ok tt) else Ok tt) = Ok tt) as Ebug.
  { destruct (is_tree ino) eqn:Et; [|done]; assert (Z.land q (Z.shiftl 1 (log_blocks_in_leb g) - 1) = 0) as ->; [|done].
    pose proof (sn_align _ _ _ _ M1 c Hc') as Ha; rewrite M3 in Ha; unfold blocks, order in Ha; cbn [fst c] in Ha; rewrite Et in Ha; destruct Hg as [Hl _ _].
    replace (Z.shiftl 1 (log_blocks_in_leb g) - 1) with (Z.ones (log_blocks_in_leb g)) by (rewrite Z.ones_equiv, Z.shiftl_1_l; lia); by rewrite Z.land_ones by lia. }
  rewrite Ebug; cbn [mbind run_bind].
  destruct (record_spec mc m' t ino page q Ht M2 Hc Hb ltac:(lia) M3 M4 Hle) as (e & ub & E & Hle' & Ht'); rewrite E; cbn [mbind run_bind].
  eexists s', _; split; [reflexivity|]; split; cbn; auto; [by rewrite M3|].
  destruct M6 as [Hf|[Hq Hno]]; [right; left|right; right]; unfold covers; rewrite M3; [|done].
  intros b Hbq; by apply Hf.
Qed.

(** The end of the transaction: the snapshot is the table. *)
Lemma update_bitmaps_spec (debug : bool) (C : Z -> Prop) (s : maps) (m : list Z) :
  snap_ok g C s m -> (debug = true -> forall b, bit (moved_iblock s) b = false) ->
  exists s', vdfs4_update_bitmaps debug s = Ok s' /\ bitmap_size_in_bits s' = bitmap_size_in_bits s /\ cow_blocks s' = 0
  /\ snapshot_bitmap s' = next_snapshot_bitmap s /\ next_snapshot_bitmap s' = next_snapshot_bitmap s
  /\ snap_ok g (fun b => exists c, is_chunk m c /\ covers g m c b) s' m.
Proof using Hg.
  intros [Hb Hsz Hin Hal Hap Hnx Hsn Hmv Hold] Hdb; pose proof Hsz as [Hsz0 L1 L2 L3 Hh1 Hh2].
  unfold vdfs4_update_bitmaps; rewrite u32_small by lia.
  assert (bug_on (debug && existsb (bit (moved_iblock s)) (seqZ 0 (bitmap_size_in_bits s))) = Ok tt) as ->.
  { destruct debug; [|done]; destruct (existsb _ _) eqn:E; [|done]; apply existsb_exists in E as (x & _ & Ex); by rewrite Hdb in Ex. }
  cbn [mbind run_bind]; unfold bitmap_zero, bitmap_copy; pose proof (words_nonneg (bitmap_size_in_bits s) ltac:(lia)) as Hw0.
  rewrite blit_whole by (rewrite L3; unfold lenZ; rewrite length_replicate; lia); cbn [mbind run_bind].
  rewrite slice_sub by lia; rewrite sub_all by done; cbn [mbind run_bind]; rewrite blit_whole by lia; cbn [mbind run_bind].
  eexists; split; [reflexivity|]; do 4 (split; [done|]).
  assert (forall b, bit (replicate (Z.to_nat (words (bitmap_size_in_bits s))) 0) b = false) as Hz.
  { intros b; unfold bit; destruct (getZ _ _) as [x|] eqn:E; [|done]; apply getZ_elem, elem_of_replicate in E as [-> _]; apply Z.bits_0. }
  split; cbn; auto.
  - split; cbn; auto; unfold lenZ; rewrite length_replicate; lia.
  - intros b Hbr; rewrite Hnx by done; tauto.
  - intros; by rewrite !Hz.
  - intros c b Hc _ Hcv; eauto.
Qed.

End Step.
