(* ===== verification/SnapshotSeal.v ===== *)
(** The descriptor and the checksum of a translation table: what
    fill_descriptor_and_calculate_crc writes, the validation accepts
    (src/linux/fs/vdfs4/snapshot.c). *)

From Stdlib Require Import ZArith Lia Bool List.
From stdpp Require Import base list gmap.
From S2P Require Import Prelude Bytes Bitmap FindBit Buffer Snapshot SnapshotDisk SnapshotRep SnapshotCow SnapshotTable.

Open Scope Z_scope.

(** ** Versions *)

Definition version (mount sync : Z) : Z := mount * 2 ^ 32 + sync.

Lemma lor_version (mount sync : Z) : 0 <= sync < 2 ^ 32 -> Z.lor (Z.shiftl mount 32) sync = version mount sync.
Proof.
  intros Hs; assert (Z.land (Z.shiftl mount 32) sync = 0) as E.
  { apply Z.bits_inj'; intros n Hn; rewrite Z.land_spec, Z.bits_0, Z.shiftl_spec by done; destruct (Z.ltb_spec n 32).
    - by rewrite Z.testbit_neg_r by lia.
    - apply andb_false_iff; right.
      apply (Z.bits_above_log2 sync n); [lia|]; destruct (Z.eq_dec sync 0) as [->|]; [cbn; lia|].
      apply Z.log2_lt_pow2; [lia|]; apply Z.lt_le_trans with (2 ^ 32); [lia|]; apply Z.pow_le_mono_r; lia. }
  rewrite <- Z.lxor_lor, <- Z.add_nocarry_lxor by done; unfold version; rewrite Z.shiftl_mul_pow2 by lia; done.
Qed.

Lemma version_fields (mount sync : Z) :
  0 <= mount < 2 ^ 32 -> 0 <= sync < 2 ^ 32 -> version_mount (version mount sync) = mount /\ version_sync (version mount sync) = sync.
Proof.
  intros Hm Hs; unfold version_mount, version_sync, version, u32; rewrite Z.shiftr_div_pow2 by lia; split.
  - rewrite Z.div_add_l, (Z.div_small sync) by lia; rewrite Z.add_0_r; apply Z.mod_small; lia.
  - rewrite Z.add_comm, Z_mod_plus_full; apply Z.mod_small; lia.
Qed.

(** A version that is followed by no table of the next sync. *)
Lemma older_stops (v mount sync : Z) :
  v <= version mount sync -> 0 <= mount < 2 ^ 32 -> 0 <= sync -> sync + 1 < 2 ^ 32 -> 0 <= v ->
  negb (version_mount v =? mount) || negb (version_sync v =? u32 (sync + 1)) = true.
Proof.
  intros Hle Hm Hs Hs1 Hv; destruct (Z.eqb_spec (version_mount v) mount) as [E1|]; [|done]; destruct (Z.eqb_spec (version_sync v) (u32 (sync + 1))) as [E2|]; [|done].
  exfalso; rewrite (u32_small (sync + 1)) in E2 by lia; unfold version_mount, version_sync, version, u32 in *; rewrite Z.shiftr_div_pow2 in E1 by lia.
  pose proof (Z.div_mod v (2 ^ 32) ltac:(lia)) as D; assert (v / 2 ^ 32 < 2 ^ 32) as Hq by (apply Z.div_lt_upper_bound; lia).
  pose proof (Z.div_pos v (2 ^ 32) Hv ltac:(lia)); rewrite Z.mod_small in E1 by lia; lia.
Qed.

Lemma snapshot_version_ok (m : list Z) :
  Forall is_byte m -> 24 <= lenZ m -> snapshot_version m = Ok (version (u32 (get64 m MOUNT_COUNT)) (get32 m SYNC_COUNT)).
Proof.
  intros Hb Hl; unfold snapshot_version; rewrite rd64_ok by (unfold MOUNT_COUNT; lia); cbn [mbind run_bind].
  rewrite rd32_ok by (unfold SYNC_COUNT; lia); cbn [mbind run_bind]; rewrite lor_version; [done|].
  apply get32_range; [done|unfold SYNC_COUNT; lia|unfold SYNC_COUNT; lia].
Qed.

(** ** Tables with a checksum *)

Section Seal.
Context (crc32 : list Z -> Z) (Hcrc : forall l, 0 <= crc32 l < 2 ^ 32).

(** A table of [co] bytes with a signature, a version and its checksum. *)
Record sealed (sig : list Z) (co mount sync : Z) (m : list Z) : Prop := {
  se_sig : sub m 0 4 = sig;
  se_co : get64 m CHECKSUM_OFFSET = co;
  se_mount : get64 m MOUNT_COUNT = mount;
  se_sync : get32 m SYNC_COUNT = sync;
  se_crc : get32 m co = crc32 (sub m 0 co);
  se_bytes : Forall is_byte m;
  se_len : co + 4 <= lenZ m;
  se_range : 24 <= co < 2 ^ 32 /\ 0 <= mount < 2 ^ 32 /\ 0 <= sync < 2 ^ 32
}.

Lemma sealed_version (sig m : list Z) (co mount sync : Z) :
  sealed sig co mount sync m -> snapshot_version m = Ok (version mount sync).
Proof.
  intros [H1 H2 H3 H4 H5 H6 H7 (H8 & H9 & H10)]; rewrite snapshot_version_ok by (done || lia); rewrite H3, H4, u32_small by lia; done.
Qed.

Lemma signature_ok (m sig : list Z) : 4 <= lenZ m -> has_signature m sig = Ok (bool_decide (sub m 0 4 = sig)).
Proof. intros; unfold has_signature; rewrite slice_sub by lia; done. Qed.

Lemma validate_base_ok (g : geom) (m : list Z) (co mount sync : Z) :
  do_not_check_sign g = true -> sealed VDFS4_SNAPSHOT_BASE_TABLE co mount sync m -> validate_base_table g crc32 m = Ok (version mount sync).
Proof.
  intros Hg Hs; pose proof Hs as [H1 H2 H3 H4 H5 H6 H7 (H8 & H9 & H10)]; unfold validate_base_table.
  rewrite rd64_ok by (unfold CHECKSUM_OFFSET; lia); cbn [mbind run_bind]; rewrite H2, (u32_small co) by lia.
  rewrite rd32_ok by lia; cbn [mbind run_bind]; rewrite signature_ok, H1, bool_decide_true by (done || lia); cbn [mbind run_bind negb].
  rewrite slice_sub by lia; cbn [mbind run_bind]; rewrite Hg, H5, Z.eqb_refl; by apply (sealed_version VDFS4_SNAPSHOT_BASE_TABLE _ co).
Qed.

Lemma validate_ext_ok (e : list Z) (co mount sync : Z) :
  sealed VDFS4_SNAPSHOT_EXTENDED_TABLE co mount sync e -> validate_extended_table crc32 e = Ok (version mount sync).
Proof.
  intros Hs; pose proof Hs as [H1 H2 H3 H4 H5 H6 H7 (H8 & H9 & H10)]; unfold validate_extended_table.
  rewrite signature_ok, H1, bool_decide_true by (done || lia); cbn [mbind run_bind negb].
  rewrite rd64_ok by (unfold CHECKSUM_OFFSET; lia); cbn [mbind run_bind]; rewrite H2, (u32_small co) by lia.
  rewrite rd32_ok by lia; cbn [mbind run_bind]; rewrite slice_sub by lia; cbn [mbind run_bind]; rewrite H5, Z.eqb_refl; cbn [negb].
  by apply (sealed_version VDFS4_SNAPSHOT_EXTENDED_TABLE _ co).
Qed.

(** The descriptor written by the last steps of
    [fill_descriptor_and_calculate_crc], from the signature and the offset of the
    checksum on. *)
Lemma seal_ok (sig m : list Z) (co mount sync : Z) :
  lenZ sig = 4 -> Forall is_byte sig -> Forall is_byte m -> 24 <= co < 2 ^ 32 -> co + 4 <= lenZ m -> 0 <= mount < 2 ^ 32 -> 0 <= sync < 2 ^ 32 ->
  let m1 := upd_at m 0 sig in
  exists m', (m2 ← wr64 m1 CHECKSUM_OFFSET co;
              m3 ← wr64 m2 MOUNT_COUNT mount;
              m4 ← wr32 m3 SYNC_COUNT sync;
              co ← rd64 m4 CHECKSUM_OFFSET;
              data ← slice m4 0 co;
              wr32 m4 co (crc32 data)) = Ok m'
  /\ sealed sig co mount sync m' /\ lenZ m' = lenZ m
  /\ (forall i n, 24 <= i -> 0 <= n -> i + n <= co \/ co + 4 <= i -> i + n <= lenZ m -> sub m' i n = sub m i n).
Proof using Hcrc.
  intros Hsig Bsig Bm Hco Hl Hmt Hsy m1; unfold CHECKSUM_OFFSET, MOUNT_COUNT, SYNC_COUNT.
  assert (lenZ m1 = lenZ m) as L1 by (apply lenZ_upd_at; lia); rewrite wr64_ok by lia; cbn [mbind run_bind].
  set (m2 := upd_at m1 16 (le_bytes 8 co)); assert (lenZ m2 = lenZ m) as L2 by (unfold m2; rewrite lenZ_upd_at; rewrite ?lenZ_le_bytes; lia).
  rewrite wr64_ok by lia; cbn [mbind run_bind]; set (m3 := upd_at m2 8 (le_bytes 8 mount)).
  assert (lenZ m3 = lenZ m) as L3 by (unfold m3; rewrite lenZ_upd_at; rewrite ?lenZ_le_bytes; lia).
  rewrite wr32_ok by lia; cbn [mbind run_bind]; set (m4 := upd_at m3 4 (le_bytes 4 sync)).
  assert (lenZ m4 = lenZ m) as L4 by (unfold m4; rewrite lenZ_upd_at; rewrite ?lenZ_le_bytes; lia).
  assert (Forall is_byte m4) as B4 by (unfold m4, m3, m2, m1; auto 10 using Forall_upd_at, le_bytes_byte).
  assert (sub m4 0 4 = sig /\ get64 m4 16 = co /\ get64 m4 8 = mount /\ get32 m4 4 = sync) as (F1 & F2 & F3 & F4).
  { split; [|split; [|split]].
    - unfold m4, m3, m2; rewrite !sub_upd_out by (fold m2 m3; rewrite ?lenZ_le_bytes; lia); unfold m1; rewrite sub_upd_in by lia; by rewrite Z.sub_diag, sub_all.
    - unfold m4, m3; rewrite !get64_upd_out by (fold m3; rewrite ?lenZ_le_bytes; lia); unfold m2; apply get64_wr; lia.
    - unfold m4; rewrite get64_upd_out by (rewrite ?lenZ_le_bytes; lia); unfold m3; apply get64_wr; lia.
    - unfold m4; apply get32_wr; lia. }
  assert (forall i n, 24 <= i -> 0 <= n -> i + n <= lenZ m -> sub m4 i n = sub m i n) as F5.
  { intros i n Hi Hn Hin; unfold m4, m3, m2, m1; rewrite !sub_upd_out by (fold m1 m2 m3; rewrite ?lenZ_le_bytes; lia); done. }
  rewrite rd64_ok by lia; cbn [mbind run_bind]; rewrite F2, slice_sub by lia; cbn [mbind run_bind]; rewrite wr32_ok by lia.
  pose proof (Hcrc (sub m4 0 co)) as Hc; set (m5 := upd_at m4 co (le_bytes 4 (crc32 (sub m4 0 co)))).
  assert (forall i n, 0 <= i -> 0 <= n -> i + n <= co -> sub m5 i n = sub m4 i n) as F6 by (intros; unfold m5; apply sub_upd_out; rewrite ?lenZ_le_bytes; lia).
  exists m5; split; [done|]; assert (lenZ m5 = lenZ m) as L5 by (unfold m5; rewrite lenZ_upd_at; rewrite ?lenZ_le_bytes; lia).
  split; [|split; [done|]].
  - split; auto; unfold CHECKSUM_OFFSET, MOUNT_COUNT, SYNC_COUNT; try lia.
    + rewrite F6 by lia; done.
    + unfold get64; rewrite F6 by lia; done.
    + unfold get64; rewrite F6 by lia; done.
    + unfold get32; rewrite F6 by lia; done.
    + rewrite F6 by lia; unfold m5; apply get32_wr; lia.
    + unfold m5; auto using Forall_upd_at, le_bytes_byte.
  - intros i n Hi Hn Hd Hin; unfold m5; rewrite sub_upd_out by (rewrite ?lenZ_le_bytes; lia); by apply F5.
Qed.

Lemma checksum_sum_spec (m inos : list Z) (s : Z) :
  base_ok m -> Forall special inos -> 0 <= s -> s + 16 * foldr (fun ino a => cnt m ino + a) 0 inos < 2 ^ 64 ->
  checksum_sum m inos s = Ok (s + 16 * foldr (fun ino a => cnt m ino + a) 0 inos).
Proof.
  intros Hm; revert s; induction inos as [|ino inos IH]; intros s Hs H0 Hb; cbn [checksum_sum foldr] in *; [f_equal; lia|].
  apply Forall_cons in Hs as [Hi Hs]; rewrite (last_index_ok m Hm) by done; cbn [mbind run_bind]; destruct (bs_area _ Hm _ Hi) as (_ & _ & H1).
  assert (forall l, Forall special l -> 0 <= foldr (fun ino a => cnt m ino + a) 0 l) as Hnn.
  { induction 1 as [|x l Hx _ IHl]; cbn; [lia|]; destruct (bs_area _ Hm _ Hx) as (_ & _ & ?); lia. }
  specialize (Hnn _ Hs); unfold BASE_RECORD; rewrite Z.sub_add, (u64_small (cnt m ino)), u64_small by lia; rewrite IH by (done || lia); f_equal; lia.
Qed.

(** The base table with its descriptor. *)
Lemma fill_base_spec (m : list Z) (mount sync : Z) :
  base_ok m -> 0 <= mount < 2 ^ 32 -> 0 <= sync < 2 ^ 32 ->
  exists m', fill_descriptor_and_calculate_crc crc32 true mount sync m = Ok m'
  /\ sealed VDFS4_SNAPSHOT_BASE_TABLE (total m) mount sync m' /\ base_ok m' /\ same_shape m m' /\ lenZ m' = lenZ m
  /\ forall c, is_chunk m c -> place m' c = place m c.
Proof using Hcrc.
  intros Hm Hmt Hsy; pose proof (total_header m Hm) as Ht; pose proof (bs_total _ Hm) as Hl; pose proof (bs_bytes _ Hm) as Bm.
  assert (Forall is_byte VDFS4_SNAPSHOT_BASE_TABLE) as Bsig by (repeat constructor; unfold is_byte; lia).
  destruct (header_write m 0 VDFS4_SNAPSHOT_BASE_TABLE Hm ltac:(lia) ltac:(done) Bsig) as (W1 & B1 & S1 & L1 & P1).
  unfold fill_descriptor_and_calculate_crc; rewrite W1; cbn [mbind run_bind].
  assert (total (upd_at m 0 VDFS4_SNAPSHOT_BASE_TABLE) = total m) as Et.
  { unfold total; unfold same_shape, special, VDFS4_FSFILE, VDFS4_LSFILE, VDFS4_CAT_TREE_INO, VDFS4_XATTR_TREE_INO in S1.
    rewrite (proj2 (S1 2 ltac:(lia))), (proj2 (S1 3 ltac:(lia))), (proj2 (S1 4 ltac:(lia))), (proj2 (S1 5 ltac:(lia))), (proj2 (S1 6 ltac:(lia))); done. }
  set (m1 := upd_at m 0 VDFS4_SNAPSHOT_BASE_TABLE) in *.
  assert (checksum_sum m1 special_files 0 = Ok (total m - BASE_TABLE_SIZE)) as Es.
  { rewrite <- Et; unfold total in *; unfold BASE_TABLE_SIZE, BASE_RECORD, CRC32_SIZE in *.
    rewrite (checksum_sum_spec m1 special_files 0 B1); [f_equal; cbn; lia| |lia|cbn; lia].
    repeat constructor; unfold special, VDFS4_FSFILE, VDFS4_LSFILE, VDFS4_CAT_TREE_INO, VDFS4_XATTR_TREE_INO; lia. }
  rewrite Es; cbn [mbind run_bind]; unfold BASE_TABLE_SIZE, BASE_RECORD, CRC32_SIZE in *; rewrite Z.sub_add, u64_small, u32_small by lia.
  destruct (seal_ok VDFS4_SNAPSHOT_BASE_TABLE m (total m) mount sync) as (m' & E & Hsl & L' & Hsub); try done; try lia; fold m1 in E.
  exists m'; split; [unfold mbind, run_bind in E |- *; destruct (wr64 m1 CHECKSUM_OFFSET (total m)); exact E|]; split; [done|].
  assert (forall i, 24 <= i -> i + 8 <= total m -> get64 m' i = get64 m i) as E64 by (intros i H1 H2; unfold get64; rewrite Hsub by lia; done).
  assert (same_shape m m') as Hsh.
  { intros ino [H1 H2]; unfold VDFS4_FSFILE, VDFS4_LSFILE, VDFS4_CAT_TREE_INO, VDFS4_XATTR_TREE_INO in *.
    unfold off, cnt, TABLE_OFFSETS, LAST_PAGE_INDEX, VDFS4_FSFILE, VDFS4_CAT_TREE_INO; rewrite !E64 by lia; done. }
  assert (total m' = total m) as Et'.
  { unfold total; unfold same_shape, special, VDFS4_FSFILE, VDFS4_LSFILE, VDFS4_CAT_TREE_INO, VDFS4_XATTR_TREE_INO in Hsh.
    rewrite (proj2 (Hsh 2 ltac:(lia))), (proj2 (Hsh 3 ltac:(lia))), (proj2 (Hsh 4 ltac:(lia))), (proj2 (Hsh 5 ltac:(lia))), (proj2 (Hsh 6 ltac:(lia))); done. }
  split; [split|split; [done|split; [done|]]].
  - apply (se_bytes _ _ _ _ _ Hsl).
  - rewrite Et', L'; unfold CRC32_SIZE; done.
  - intros ino Hs; destruct (Hsh ino Hs) as [-> ->]; rewrite Et'; by apply (bs_area _ Hm).
  - intros i j Hi Hj Hij; destruct (Hsh i Hi) as [-> ->], (Hsh j Hj) as [-> ->]; by apply (bs_apart _ Hm).
  - intros d Hd; unfold place; rewrite (proj1 (Hsh _ (proj1 Hd))); destruct (place_bounds m Hm d Hd) as [H1 H2].
    unfold BASE_TABLE_SIZE, BASE_RECORD in *; apply E64; lia.
Qed.

(** The extended table with its descriptor. *)
Lemma fill_ext_spec (e : list Z) (L : moves) (mount sync : Z) :
  ext_rep e L -> 0 <= mount < 2 ^ 32 -> 0 <= sync < 2 ^ 32 ->
  exists e', fill_descriptor_and_calculate_crc crc32 false mount sync e = Ok e'
  /\ sealed VDFS4_SNAPSHOT_EXTENDED_TABLE (EXT_TABLE_SIZE + EXT_RECORD * lenZ L) mount sync e' /\ ext_rep e' L.
Proof using Hcrc.
  intros He Hmt Hsy; pose proof He as [E1 E2 E3 E4 E5]; pose proof (lenZ_nonneg L) as HL; unfold EXT_TABLE_SIZE, EXT_RECORD, CRC32_SIZE, PAGE_SIZE in *.
  assert (Forall is_byte VDFS4_SNAPSHOT_EXTENDED_TABLE) as Bsig by (repeat constructor; unfold is_byte; lia).
  assert (lenZ VDFS4_SNAPSHOT_EXTENDED_TABLE = 4) as Ls by done.
  unfold fill_descriptor_and_calculate_crc, EXT_TABLE_SIZE, EXT_RECORD; rewrite blit_upd by lia; cbn [mbind run_bind].
  set (e1 := upd_at e 0 VDFS4_SNAPSHOT_EXTENDED_TABLE); assert (lenZ e1 = 4096) as L1 by (unfold e1; rewrite lenZ_upd_at; lia).
  rewrite rd32_ok by (unfold RECORDS_COUNT; lia); cbn [mbind run_bind].
  assert (get32 e1 RECORDS_COUNT = lenZ L) as -> by (unfold e1; rewrite get32_upd_out by (unfold RECORDS_COUNT; lia); done).
  destruct (seal_ok VDFS4_SNAPSHOT_EXTENDED_TABLE e (32 + 24 * lenZ L) mount sync) as (e' & E & Hsl & L' & Hsub); try done; try lia; fold e1 in E.
  exists e'; split; [unfold mbind, run_bind in E |- *; destruct (wr64 e1 CHECKSUM_OFFSET (32 + 24 * lenZ L)); exact E|]; split; [done|].
  eapply ext_header; [exact He|lia|apply (se_bytes _ _ _ _ _ Hsl)| |].
  - unfold get32; rewrite Hsub; unfold RECORDS_COUNT; done || lia.
  - unfold EXT_TABLE_SIZE, EXT_RECORD; intros i H1 H2; unfold get64; rewrite Hsub by lia; done.
Qed.

End Seal.
