(* ===== verification/SnapshotLoad.v ===== *)
(** Loading the translation tables at mount (load_base_table,
    vdfs4_build_snapshot_manager and build_snapshot_bitmaps of
    src/linux/fs/vdfs4/snapshot.c): a device that holds a base table and a chain of
    extended tables loads as the base table with their moves replayed. *)

From Stdlib Require Import ZArith Lia Bool List.
From stdpp Require Import base list gmap.
From S2P Require Import Prelude Bytes Bitmap FindBit Buffer Snapshot SnapshotDisk SnapshotRep SnapshotCow SnapshotTable SnapshotStep SnapshotSeal.

Open Scope Z_scope.

(** Pages of a table with its checksum. *)
Definition np (m : list Z) : Z := DIV_ROUND_UP (total m + CRC32_SIZE) PAGE_SIZE.

Lemma round_up (n : Z) : 0 < n -> 0 < DIV_ROUND_UP n PAGE_SIZE /\ n <= PAGE_SIZE * DIV_ROUND_UP n PAGE_SIZE < n + PAGE_SIZE.
Proof.
  intros Hn; unfold DIV_ROUND_UP, PAGE_SIZE; pose proof (Z.div_mod (n + 4096 - 1) 4096 ltac:(lia)); pose proof (Z.mod_pos_bound (n + 4096 - 1) 4096 ltac:(lia)); lia.
Qed.

Record disk_ok (g : geom) : Prop := {
  dk_shift : block_size_shift g = 12;
  dk_begin : 0 <= tables_begin g;
  dk_length : 0 <= tables_length g;
  dk_max : 8 * (tables_begin g + tables_length g + 1) <= Z.shiftr (bdev_nr_bytes g) SECTOR_SIZE_SHIFT;
  dk_small : 8 * (tables_begin g + tables_length g + 1) < 2 ^ 60;
  dk_sign : do_not_check_sign g = true
}.

Section Load.
Context {area : ZeroArea} (g : geom) (Hg : geom_ok g) (Hd : disk_ok g) (crc32 : list Z -> Z).

Definition sec (b : Z) : Z := 8 * (tables_begin g + b).
Definition page (d : device) (b : Z) : list Z := page_at d (sec b).
Definition half : Z := Z.shiftr (tables_length g) 1.

Lemma half_range : 0 <= half /\ 2 * half <= tables_length g.
Proof using Hd.
  destruct Hd as [_ _ Hl _ _ _]; unfold half; rewrite Z.shiftr_div_pow2 by lia; change (2 ^ 1) with 2.
  pose proof (Z.div_mod (tables_length g) 2 ltac:(lia)); pose proof (Z.mod_pos_bound (tables_length g) 2 ltac:(lia)); lia.
Qed.

Lemma sector_ok (b : Z) : 0 <= b <= tables_length g -> vdfs4_get_table_sector g b = Val (sec b).
Proof using Hd.
  intros Hb; destruct Hd as [H1 H2 H3 H4 H5 _]; unfold vdfs4_get_table_sector; rewrite (proj2 (Z.ltb_ge _ _)) by lia; rewrite H1; unfold SECTOR_SIZE_SHIFT in *.
  rewrite (u64_small (tables_begin g + b)) by lia; change (12 - 9) with 3; rewrite Z.shiftl_mul_pow2 by lia; change (2 ^ 3) with 8.
  rewrite u64_small by lia; rewrite (proj2 (Z.leb_gt _ _)) by lia; unfold sec; f_equal; lia.
Qed.

(** ** Pages *)

Lemma get_pages_sub (n : nat) (m : list Z) (d : device) (b k : Z) :
  (forall j, k <= j < k + Z.of_nat n -> page d (b + j) = sub m (PAGE_SIZE * j) PAGE_SIZE) -> 0 <= k -> PAGE_SIZE * (k + Z.of_nat n) <= lenZ m ->
  get_pages n (sec (b + k)) d = sub m (PAGE_SIZE * k) (PAGE_SIZE * Z.of_nat n).
Proof.
  unfold PAGE_SIZE; revert k; induction n as [|n IH]; intros k Hp Hk Hl; cbn [get_pages].
  { unfold sub; by rewrite Z.mul_0_r. }
  change (page_at d (sec (b + k))) with (page d (b + k)); rewrite Hp by lia.
  replace (sec (b + k) + SECTORS_PER_PAGE) with (sec (b + (k + 1))) by (change SECTORS_PER_PAGE with 8; unfold sec; lia).
  rewrite IH by (try lia; intros j Hj; apply Hp; lia); apply getZ_ext; rewrite ?lenZ_app, !lenZ_sub by lia; [lia|].
  intros i Hi; rewrite (getZ_sub m) by lia; destruct (Z.ltb_spec i 4096).
  - rewrite getZ_app_l by (rewrite lenZ_sub by lia; lia); rewrite getZ_sub by lia; done.
  - rewrite getZ_app_r by (rewrite lenZ_sub by lia; lia); rewrite lenZ_sub by lia; rewrite getZ_sub by lia; f_equal; lia.
Qed.

Lemma get_pages_all (m : list Z) (d : device) (b n : Z) :
  0 <= n -> lenZ m = PAGE_SIZE * n -> (forall j, 0 <= j < n -> page d (b + j) = sub m (PAGE_SIZE * j) PAGE_SIZE) ->
  get_pages (Z.to_nat n) (sec b) d = m.
Proof.
  intros Hn Hl Hp; pose proof (get_pages_sub (Z.to_nat n) m d b 0) as E; rewrite Z.add_0_r in E; rewrite E; rewrite ?Z2Nat.id by lia.
  - rewrite Z.mul_0_r; apply sub_all; lia.
  - intros j Hj; apply Hp; lia.
  - lia.
  - lia.
Qed.

(** ** The bitmaps *)

(** Chunks inside an area of [size] blocks, aligned and without overlap. *)
Record placed_in (size : Z) (m : list Z) : Prop := {
  pi_in : forall c, is_chunk m c -> 0 <= place m c /\ place m c + blocks g (fst c) <= size;
  pi_align : forall c, is_chunk m c -> place m c mod blocks g (fst c) = 0;
  pi_apart : forall c d, is_chunk m c -> is_chunk m d -> c <> d ->
    place m c + blocks g (fst c) <= place m d \/ place m d + blocks g (fst d) <= place m c
}.

Lemma set_places_spec (n : nat) (m bm : list Z) (size ino k : Z) :
  base_ok m -> placed_in size m -> size < 2 ^ 31 -> size <= 8 * lenZ bm -> special ino -> 0 <= k -> k + Z.of_nat n = cnt m ino ->
  exists bm', set_places n m (off m ino + BASE_RECORD * k) (blocks g ino) bm = Ok bm' /\ lenZ bm' = lenZ bm
  /\ forall b, bit bm' b = true <-> bit bm b = true \/ exists i, k <= i < cnt m ino /\ covers g m (ino, i) b.
Proof using Hg.
  intros Hm Hp Hs31 Hs8 Hs; revert k bm Hs8; induction n as [|n IH]; intros k bm Hs8 Hk Hn; cbn [set_places].
  { exists bm; split; [done|]; split; [done|]; intros b; split; [by left|]; intros [?|(i & Hi & _)]; [done|lia]. }
  assert (is_chunk m (ino, k)) as Hc by (split; cbn; [done|lia]); pose proof (place_ok m Hm _ Hc) as Er; cbn [fst snd] in Er; rewrite Er; cbn [mbind run_bind].
  destruct (pi_in _ _ Hp _ Hc) as [H1 H2]; cbn [fst] in H2; pose proof (blocks_range g Hg ino); rewrite u32_small by lia.
  destruct (bitmap_put_ok true bm (place m (ino, k)) (blocks g ino)) as (bm1 & E1 & L1 & B1); [lia|lia|lia|].
  unfold bitmap_set; rewrite E1; cbn [mbind run_bind]; replace (off m ino + BASE_RECORD * k + BASE_RECORD) with (off m ino + BASE_RECORD * (k + 1)) by lia.
  destruct (IH (k + 1) bm1) as (bm' & E' & L' & B'); [lia|lia|lia|]; exists bm'; split; [done|]; split; [lia|].
  intros b; rewrite B', B1; split.
  - intros [Hb|(i & Hi & Hcv)]; [|right; exists i; split; [lia|done]].
    destruct (Z.leb_spec (place m (ino, k)) b), (Z.ltb_spec b (place m (ino, k) + blocks g ino)); cbn [andb] in Hb; auto.
    right; exists k; split; [lia|]; unfold covers, at_place; cbn [fst]; lia.
  - intros [Hb|(i & Hi & Hcv)]; [left; rewrite Hb; by destruct (_ && _)|]; destruct (Z.eq_dec i k) as [->|N]; [left|right; exists i; split; [lia|done]].
    unfold covers, at_place in Hcv; cbn [fst] in Hcv; rewrite (proj2 (Z.leb_le _ _)), (proj2 (Z.ltb_lt _ _)) by lia; done.
Qed.

Lemma set_files_spec (inos m bm : list Z) (size : Z) :
  base_ok m -> placed_in size m -> size < 2 ^ 31 -> size <= 8 * lenZ bm -> Forall special inos ->
  exists bm', set_files g inos m bm = Ok bm' /\ lenZ bm' = lenZ bm
  /\ forall b, bit bm' b = true <-> bit bm b = true \/ exists c, fst c ∈ inos /\ is_chunk m c /\ covers g m c b.
Proof using Hg.
  intros Hm Hp Hs31 Hs8 Hi; revert bm Hs8; induction Hi as [|ino inos Hs Hi IH]; intros bm Hs8; cbn [set_files].
  { exists bm; split; [done|]; split; [done|]; intros b; split; [by left|]; intros [?|(c & ?%elem_of_nil & _)]; done. }
  rewrite (get_table_ok m Hm) by done; cbn [mbind run_bind]; destruct (bs_area _ Hm _ Hs) as (H1 & H2 & H3); unfold BASE_TABLE_SIZE in H1.
  rewrite (proj2 (Z.eqb_neq _ _)) by lia; rewrite (last_index_ok m Hm) by done; cbn [mbind run_bind]; rewrite shiftl_blocks.
  destruct (set_places_spec (Z.to_nat (cnt m ino - 1 + 1)) m bm size ino 0) as (bm1 & E1 & L1 & B1); try done; try lia.
  rewrite Z.mul_0_r, Z.add_0_r in E1; rewrite E1; cbn [mbind run_bind].
  destruct (IH bm1) as (bm' & E' & L' & B'); [lia|]; exists bm'; split; [done|]; split; [lia|]; intros b; rewrite B', B1; split.
  - intros [[Hb|(i & Hii & Hcv)]|(c & Hin & Hc & Hcv)]; [by left| |]; right.
    + exists (ino, i); split; [apply elem_of_cons; by left|]; split; [split; [done|cbn; lia]|done].
    + exists c; split; [apply elem_of_cons; by right|done].
  - intros [Hb|(c & [Hin|Hin]%elem_of_cons & Hc & Hcv)]; [auto| |right; eauto].
    left; right; destruct c as [x i]; cbn in Hin; subst x; exists i; split; [apply Hc|done].
Qed.

(** The bitmaps of a mount describe a transaction in which nothing has moved. *)
Lemma build_bitmaps_spec (m : list Z) (size : Z) :
  base_ok m -> placed_in size m -> 0 <= size < 2 ^ 31 ->
  let zero := replicate (Z.to_nat (words size)) 0 in
  exists s, build_snapshot_bitmaps g m (Maps zero zero zero 0 size 0 0) = Ok s /\ bitmap_size_in_bits s = size
  /\ snap_ok g (fun b => exists c, is_chunk m c /\ covers g m c b) s m.
Proof using Hg.
  clear Hd crc32; intros Hm Hp Hs zero; pose proof (words_fit size ltac:(lia)) as Hw; pose proof (words_nonneg size ltac:(lia)) as Hw0.
  assert (lenZ zero = words size) as Lz by (unfold zero, lenZ; rewrite length_replicate; lia).
  assert (forall b, bit zero b = false) as Hz.
  { intros b; unfold bit; destruct (getZ _ _) as [x|] eqn:E; [|done]; apply getZ_elem, elem_of_replicate in E as [-> _]; apply Z.bits_0. }
  unfold build_snapshot_bitmaps; cbn [snapshot_bitmap next_snapshot_bitmap bitmap_size_in_bits moved_iblock cow_blocks hint_btree hint_bitmaps].
  destruct (set_files_spec special_files m zero size) as (a & Ea & La & Ba); try done; try lia.
  { repeat constructor; unfold VDFS4_FSFILE, VDFS4_LSFILE, VDFS4_CAT_TREE_INO, VDFS4_XATTR_TREE_INO; lia. }
  rewrite Ea; cbn [mbind run_bind]; unfold bitmap_copy; rewrite u32_small by lia; rewrite slice_sub by lia; rewrite sub_all by lia; cbn [mbind run_bind].
  rewrite blit_whole by lia; cbn [mbind run_bind]; eexists; split; [reflexivity|]; split; [done|].
  assert (forall b, bit a b = true <-> exists c, is_chunk m c /\ covers g m c b) as Ha.
  { intros b; rewrite Ba, Hz; split; [intros [?|(c & _ & Hc)]; [done|eauto]|]; intros (c & Hc & Hcv); right; exists c; split; [|done].
    destruct Hc as [[H1 H2] _]; unfold special_files, VDFS4_FSFILE, VDFS4_LSFILE, VDFS4_CAT_TREE_INO, VDFS4_XATTR_TREE_INO in *.
    assert (fst c = 2 \/ fst c = 3 \/ fst c = 4 \/ fst c = 5 \/ fst c = 6) as Hf by lia; set_solver. }
  destruct Hp as [P1 P2 P3]; split; cbn; auto.
  - split; cbn; auto; lia.
  - intros b Hb; rewrite Ha; tauto.
  - intros c b Hc Hcv; by rewrite !Hz.
  - intros c b Hc _ Hcv; eauto.
Qed.

(** ** The chain of extended tables *)

(** The tables [es] from block [b] on, applied to the table [m] with sync count [s],
    give [mc]. *)
Inductive chain (d : device) (mount : Z) : Z -> Z -> list Z -> list (list Z) -> list Z -> Prop :=
| chain_nil (b s : Z) (m : list Z) :
    base_ok m -> get64 m MOUNT_COUNT = mount -> get32 m SYNC_COUNT = s -> chain d mount b s m [] m
| chain_cons (b s co : Z) (m e m' mc : list Z) (L : moves) (es : list (list Z)) :
    base_ok m -> get64 m MOUNT_COUNT = mount -> get32 m SYNC_COUNT = s -> page d b = e ->
    sealed crc32 VDFS4_SNAPSHOT_EXTENDED_TABLE co mount (s + 1) e -> ext_rep e L ->
    Forall (fun x => is_chunk m (fst x) /\ 0 <= snd x < 2 ^ 64) L -> parse_extended_table m e = Ok m' ->
    chain d mount (b + 1) (s + 1) m' es mc -> chain d mount b s m (e :: es) mc.

Lemma chain_head (d : device) (mount b s : Z) (m mc : list Z) (es : list (list Z)) :
  chain d mount b s m es mc -> base_ok m /\ get64 m MOUNT_COUNT = mount /\ get32 m SYNC_COUNT = s.
Proof. by destruct 1. Qed.

(** The last table of the chain. *)
Lemma chain_last (d : device) (mount b s : Z) (m mc : list Z) (es : list (list Z)) :
  chain d mount b s m es mc ->
  base_ok mc /\ get64 mc MOUNT_COUNT = mount /\ get32 mc SYNC_COUNT = s + lenZ es /\ same_shape m mc /\ lenZ mc = lenZ m.
Proof.
  induction 1 as [b s m H1 H2 H3|b s co m e m' mc L es H1 H2 H3 H4 H5 H6 H7 H8 H9 (I1 & I2 & I3 & I4 & I5)].
  - split; [done|]; split; [done|]; split; [change (lenZ []) with 0; lia|]; done.
  - destruct (parse_extended_spec L e m H6 H1 H7) as (m1 & E & B1 & S1 & L1 & _); rewrite H8 in E; injection E as <-.
    split; [done|]; split; [done|]; rewrite lenZ_cons; split; [lia|]; split; [by eapply shape_trans|lia].
Qed.

(** A longer chain. *)
Lemma chain_snoc (d : device) (mount b s co : Z) (m e mc mc' : list Z) (L : moves) (es : list (list Z)) :
  chain d mount b s m es mc -> page d (b + lenZ es) = e -> sealed crc32 VDFS4_SNAPSHOT_EXTENDED_TABLE co mount (s + lenZ es + 1) e -> ext_rep e L ->
  Forall (fun x => is_chunk mc (fst x) /\ 0 <= snd x < 2 ^ 64) L -> parse_extended_table mc e = Ok mc' ->
  chain d mount b s m (es ++ [e]) mc'.
Proof.
  induction 1 as [b s m H1 H2 H3|b s co0 m e0 m' mc L0 es H1 H2 H3 H4 H5 H6 H7 H8 H9 IH]; cbn [app]; intros Hp Hse Hex Hch Hpa.
  - change (lenZ []) with 0 in *; rewrite Z.add_0_r in *; destruct (parse_extended_spec L e m Hex H1 Hch) as (m1 & E & B1 & _ & _ & M1 & Y1 & _).
    rewrite Hpa in E; injection E as <-; pose proof (se_mount _ _ _ _ _ _ Hse); pose proof (se_sync _ _ _ _ _ _ Hse).
    eapply chain_cons; eauto; apply chain_nil; auto; congruence.
  - rewrite lenZ_cons in *; eapply chain_cons; eauto; apply IH; auto.
    + rewrite <- Hp; f_equal; lia.
    + replace (s + 1 + lenZ es + 1) with (s + (1 + lenZ es) + 1) by lia; done.
Qed.

(** The chain looks only at its own blocks. *)
Lemma chain_pages (d d' : device) (mount b s : Z) (m mc : list Z) (es : list (list Z)) :
  chain d mount b s m es mc -> (forall x, b <= x < b + lenZ es -> page d' x = page d x) -> chain d' mount b s m es mc.
Proof.
  induction 1 as [b s m H1 H2 H3|b s co0 m e0 m' mc L0 es H1 H2 H3 H4 H5 H6 H7 H8 H9 IH]; intros Hp; [by apply chain_nil|].
  rewrite lenZ_cons in Hp; pose proof (lenZ_nonneg es); eapply chain_cons; eauto; [rewrite Hp by lia; done|]; apply IH; intros x Hx; apply Hp; lia.
Qed.

Lemma table_read_page (d : device) (b : Z) :
  answers d = [] -> 0 <= b <= tables_length g -> table_read g PAGE_SIZE b d = Ok (Val (page d b), u64 (b + 1), d).
Proof using Hd.
  intros Ha Hb; unfold table_read; rewrite sector_ok by done; change (u32 (DIV_ROUND_UP PAGE_SIZE PAGE_SIZE)) with 1; cbn [Z.eqb Pos.eqb].
  unfold answer; rewrite Ha; change (Z.to_nat 1) with 1%nat; cbn [Z.eqb get_pages]; by rewrite app_nil_r.
Qed.

Lemma load_extended_spec (d : device) (mount b s : Z) (m mc : list Z) (es : list (list Z)) (n : nat) (e0 : list Z) (count : Z) :
  chain d mount b s m es mc -> answers d = [] -> 0 <= b -> b + Z.of_nat n <= tables_length g -> (length es <= n)%nat -> 0 <= mount < 2 ^ 32 -> 0 <= s -> s + Z.of_nat n + 1 < 2 ^ 32 ->
  0 <= count -> count + Z.of_nat n < 256 ->
  ((length es < n)%nat -> exists v, validate_extended_table crc32 (page d (b + lenZ es)) = Ok v /\ 0 <= v <= version mount (s + lenZ es)) ->
  exists e', load_extended g crc32 n m e0 (version mount s) b count d = Ok (Val (mc, e', b + lenZ es, count + lenZ es), d).
Proof using Hd.
  intros Hc; revert n e0 count; induction Hc as [b s m H1 H2 H3|b s co m e m' mc L es H1 H2 H3 H4 H5 H6 H7 H8 H9 IH];
    intros n e0 count Ha Hb Hbn Hn Hm Hs Hsn Hc0 Hc1 Hstop.
  - change (lenZ []) with 0 in *; rewrite !Z.add_0_r in *; destruct n as [|n]; [by exists e0|]; cbn [load_extended].
    rewrite table_read_page by (done || lia); cbn [mbind run_bind].
    destruct Hstop as (v & Ev & Hv); [cbn; lia|]; rewrite Ev; cbn [mbind run_bind].
    destruct (version_fields mount s) as [-> ->]; [lia|lia|]; rewrite (older_stops v mount s) by lia; eauto.
  - rewrite lenZ_cons in *; destruct n as [|n]; [cbn in Hn; lia|]; cbn [load_extended length] in *; rewrite table_read_page by (done || lia); cbn [mbind run_bind].
    rewrite H4, (validate_ext_ok crc32 e co mount (s + 1) H5); cbn [mbind run_bind].
    destruct (version_fields mount s) as [-> ->]; [lia|lia|]; destruct (version_fields mount (s + 1)) as [-> ->]; [lia|lia|].
    rewrite (u32_small (s + 1)), !Z.eqb_refl by lia; cbn [negb orb]; rewrite H8; cbn [mbind run_bind].
    destruct (chain_head _ _ _ _ _ _ _ H9) as (B' & M' & Y'); pose proof (bs_total _ B') as Ht; pose proof (total_header _ B') as Hh; unfold CRC32_SIZE, BASE_TABLE_SIZE, BASE_RECORD in *.
    rewrite snapshot_version_ok by (try lia; apply (bs_bytes _ B')); cbn [mbind run_bind]; rewrite M', Y', u32_small by lia.
    destruct Hd as [_ K2 _ _ K5 _]; rewrite (u64_small (b + 1)) by lia; unfold u8; rewrite (Z.mod_small (count + 1)) by lia.
    destruct (IH n e (count + 1)) as (e' & E'); try done; try lia.
    { intros Hlt; destruct Hstop as (v & Ev & Hv); [lia|]; exists v; replace (b + 1 + lenZ es) with (b + (1 + lenZ es)) by lia; split; [done|].
      replace (s + 1 + lenZ es) with (s + (1 + lenZ es)) by lia; done. }
    exists e'; rewrite E'; f_equal; f_equal; f_equal; f_equal; [f_equal|]; lia.
Qed.

End Load.
