(* ===== verification/SnapshotCommit.v ===== *)
(** The commit of the translation tables (vdfs4_update_translation_tables of
    src/linux/fs/vdfs4/snapshot.c) on a device whose writes may fail: the tables
    that a mount loads are the old ones or the new ones. *)

From Stdlib Require Import ZArith Lia Bool List.
From stdpp Require Import base list gmap.
From S2P Require Import Prelude Bytes Bitmap FindBit Buffer Snapshot SnapshotDisk SnapshotRep SnapshotCow SnapshotTable SnapshotStep SnapshotSeal SnapshotLoad.

Open Scope Z_scope.

Section Commit.
Context {area : ZeroArea} (g : geom) (Hg : geom_ok g) (Hd : disk_ok g) (crc32 : list Z -> Z) (Hcrc : forall l, 0 <= crc32 l < 2 ^ 32).

#[local] Abbreviation page := (page g).
#[local] Abbreviation half := (half g).
#[local] Abbreviation chain := (chain g crc32).
#[local] Abbreviation sealed := (sealed crc32).

(** ** Loading *)

(** The device holds the base table [mb] in the half that starts at [h] and the
    extended tables [es], which together give [mc]. *)
Record loadable (d : device) (h mount s0 : Z) (mb : list Z) (es : list (list Z)) (mc : list Z) : Prop := {
  ld_half : h = 0 \/ h = half;
  ld_len : lenZ mb = PAGE_SIZE * np mb;
  ld_seal : sealed VDFS4_SNAPSHOT_BASE_TABLE (total mb) mount s0 mb;
  ld_room : np mb + VDFS4_SNAPSHOT_EXT_TABLES < half;
  ld_pages : forall j, 0 <= j < np mb -> page d (h + j) = sub mb (PAGE_SIZE * j) PAGE_SIZE;
  ld_count : lenZ es <= VDFS4_SNAPSHOT_EXT_TABLES;
  ld_chain : chain d mount (h + np mb) s0 mb es mc;
  ld_end : lenZ es < VDFS4_SNAPSHOT_EXT_TABLES ->
    exists v, validate_extended_table crc32 (page d (h + np mb + lenZ es)) = Ok v /\ 0 <= v <= version mount (s0 + lenZ es);
  ld_other : let p := page d (half - h) in lenZ p = PAGE_SIZE /\ Forall is_byte p
    /\ (sub p 0 4 <> VDFS4_SNAPSHOT_BASE_TABLE \/ version (u32 (get64 p MOUNT_COUNT)) (get32 p SYNC_COUNT) < version mount s0);
  ld_sync : s0 + 10 < 2 ^ 32;
  ld_pos : 0 < version mount s0
}.

Lemma np_pos (m : list Z) : base_ok m -> 1 <= np m /\ total m + 4 <= PAGE_SIZE * np m < total m + 4 + PAGE_SIZE.
Proof.
  intros Hm; pose proof (total_header m Hm); unfold np, CRC32_SIZE; unfold BASE_TABLE_SIZE, BASE_RECORD in *.
  pose proof (round_up (total m + 4) ltac:(lia)); lia.
Qed.

(** The header of a page that starts with a table. *)
Lemma version_at (d : device) (b : Z) :
  answers d = [] -> 0 <= b <= tables_length g -> lenZ (page d b) = PAGE_SIZE -> Forall is_byte (page d b) ->
  get_table_version g b d = Ok (Val (if bool_decide (sub (page d b) 0 4 = VDFS4_SNAPSHOT_BASE_TABLE)
    then (version (u32 (get64 (page d b) MOUNT_COUNT)) (get32 (page d b) SYNC_COUNT), u64 (get64 (page d b) CHECKSUM_OFFSET + CRC32_SIZE)) else (0, 0)), d).
Proof using Hd.
  intros Ha Hb Hl Bp; unfold get_table_version; rewrite (sector_ok g Hd) by done; unfold answer; rewrite Ha; cbn [Z.eqb negb].
  change (page_at d (sec g b)) with (page d b); unfold PAGE_SIZE in Hl; rewrite signature_ok by lia; cbn [mbind run_bind].
  destruct (bool_decide _) eqn:E; cbn [negb]; [|done]; rewrite snapshot_version_ok by (done || lia); cbn [mbind run_bind].
  rewrite rd64_ok by (unfold CHECKSUM_OFFSET; lia); done.
Qed.

Lemma get_sub_head (m : list Z) (i n : Z) : 0 <= i -> i + n <= 4096 -> 4096 <= lenZ m -> 0 <= n -> sub (sub m 0 4096) i n = sub m i n.
Proof. intros; rewrite sub_sub by lia; done. Qed.

(** The first page of the active table. *)
Lemma active_head (d : device) (h mount s0 : Z) (mb mc : list Z) (es : list (list Z)) :
  loadable d h mount s0 mb es mc ->
  lenZ (page d h) = PAGE_SIZE /\ Forall is_byte (page d h) /\ sub (page d h) 0 4 = VDFS4_SNAPSHOT_BASE_TABLE
  /\ get64 (page d h) MOUNT_COUNT = mount /\ get32 (page d h) SYNC_COUNT = s0 /\ get64 (page d h) CHECKSUM_OFFSET = total mb.
Proof.
  intros [_ Hl [S1 S2 S3 S4 S5 S6 S7 S8] _ Hp _ Hc _ _ _ _]; destruct (chain_head _ _ _ _ _ _ _ _ _ Hc) as (Hb & _ & _); destruct (np_pos mb Hb) as [Hn1 Hn2].
  specialize (Hp 0 ltac:(lia)); rewrite Z.add_0_r, Z.mul_0_r in Hp; rewrite Hp; unfold PAGE_SIZE in *.
  split; [apply lenZ_sub; lia|]; split; [by apply Forall_sub|]; unfold MOUNT_COUNT, SYNC_COUNT, CHECKSUM_OFFSET in *; unfold get64, get32 in *.
  rewrite !get_sub_head by lia; done.
Qed.

Lemma load_base_spec (rdonly : bool) (e copy : exsb) (d : device) (h mount s0 : Z) (mb mc : list Z) (es : list (list Z)) :
  loadable d h mount s0 mb es mc -> answers d = [] ->
  load_base_table g crc32 rdonly e copy d =
    let '(ret, e, copy, d) := restore_exsb g rdonly (version mount s0) e copy d in
    if negb (ret =? 0) then Ok (Err ret, e, copy, d) else Ok (Val (mb, version mount s0, h + np mb), e, copy, d).
Proof using Hd.
  intros Hld Ha; pose proof Hld as [Hh Hl Hs Hr Hp Hcn Hc Hend (Ho1 & Ho2 & Ho3) Hsy Hpos]; pose proof (half_range g Hd) as [Hh0 Hh2].
  destruct (active_head _ _ _ _ _ _ _ Hld) as (A1 & A2 & A3 & A4 & A5 & A6); destruct (chain_head _ _ _ _ _ _ _ _ _ Hc) as (Hb & _ & _).
  destruct (np_pos mb Hb) as [Hn1 Hn2]; pose proof (bs_total _ Hb) as Hbt; pose proof (se_range _ _ _ _ _ _ Hs) as (R1 & R2 & R3); unfold VDFS4_SNAPSHOT_EXT_TABLES in *.
  assert (bool_decide (sub (page d h) 0 4 = VDFS4_SNAPSHOT_BASE_TABLE) = true) as Dh by (by apply bool_decide_true).
  assert (u64 (total mb + CRC32_SIZE) = total mb + 4) as Eu by (unfold CRC32_SIZE; apply u64_small; lia).
  set (x := half - h) in *; set (vo := if bool_decide (sub (page d x) 0 4 = VDFS4_SNAPSHOT_BASE_TABLE)
    then (version (u32 (get64 (page d x) MOUNT_COUNT)) (get32 (page d x) SYNC_COUNT), u64 (get64 (page d x) CHECKSUM_OFFSET + CRC32_SIZE)) else (0, 0)).
  assert (fst vo < version mount s0) as Hvo by (unfold vo; destruct (bool_decide (sub (page d x) 0 4 = VDFS4_SNAPSHOT_BASE_TABLE)) eqn:Eb; cbn [fst]; [|done]; destruct Ho3 as [Ho3|Ho3]; [apply bool_decide_eq_true in Eb; by destruct Ho3|done]).
  pose proof (version_at d h Ha ltac:(destruct Hh; lia) A1 A2) as Vh; rewrite Dh, A4, A5, A6, (u32_small mount), Eu in Vh by lia.
  pose proof (version_at d x Ha ltac:(subst x; destruct Hh; lia) Ho1 Ho2) as Vx; fold vo in Vx.
  assert (forall v1 s1 v2 s2, (if v2 <? v1 then v1 = version mount s0 /\ s1 = total mb + 4 /\ h = 0 else v2 = version mount s0 /\ s2 = total mb + 4 /\ h = half) ->
    read_basetable g crc32 v1 s1 v2 s2 false d = Ok (Val (Some (mb, version mount s0, h + np mb)), d)) as Hread.
  { intros v1 s1 v2 s2 Hv; unfold read_basetable; fold half.
    assert ((if xorb (v2 <? v1) false then v1 else v2) = version mount s0) as -> by (destruct (v2 <? v1); cbn [xorb]; tauto).
    assert ((if xorb (v2 <? v1) false then s1 else s2) = total mb + 4) as -> by (destruct (v2 <? v1); cbn [xorb]; tauto).
    assert ((if xorb (v2 <? v1) false then 0 else half) = h) as -> by (destruct (v2 <? v1); cbn [xorb]; destruct Hv as (_ & _ & ->); done).
    pose proof (total_header mb Hb) as Hth; unfold BASE_TABLE_SIZE, BASE_RECORD in Hth.
    rewrite !(proj2 (Z.eqb_neq _ _)) by lia; cbn [orb]; unfold answer at 1; rewrite Ha; cbn [Z.eqb negb]; unfold table_read.
    rewrite (sector_ok g Hd) by (destruct Hh; lia); change (DIV_ROUND_UP (total mb + 4) PAGE_SIZE) with (np mb); unfold PAGE_SIZE in *.
    rewrite (u32_small (np mb)), (proj2 (Z.eqb_neq _ _)) by lia; unfold answer; rewrite Ha; cbn [Z.eqb mbind run_bind].
    rewrite (get_pages_all g mb d h (np mb)) by (done || lia); rewrite (validate_base_ok crc32 g mb (total mb) mount s0 (dk_sign g Hd) Hs); cbn [mbind run_bind].
    rewrite (proj2 (Z.eqb_neq _ _)) by lia; destruct Hd as [_ K2 _ _ K5 _]; rewrite u64_small by (destruct Hh; lia); done. }
  unfold load_base_table; fold half; destruct Hh as [Hh|Hh].
  - subst h; replace x with half in * by (subst x; lia); rewrite Vh; cbn [mbind run_bind]; rewrite Vx; cbn [mbind run_bind]; destruct vo as [v2 s2]; cbn [fst] in Hvo.
    rewrite Hread by (rewrite (proj2 (Z.ltb_lt _ _)) by done; done); cbn [mbind run_bind]; done.
  - assert (x = 0) as Hx0 by (subst x; lia); rewrite Hx0 in *; rewrite Vx; cbn [mbind run_bind]; destruct vo as [v1 s1]; cbn [fst] in Hvo; rewrite <- Hh, Vh; cbn [mbind run_bind].
    rewrite Hread by (rewrite (proj2 (Z.ltb_ge _ _)) by lia; done); cbn [mbind run_bind]; done.
Qed.

(** A mount of a device that holds [mc]. *)
(** The superblock that a mount goes on with: the second one when only it belongs to
    the base table. *)
Definition chosen (version : Z) (e copy : exsb) : exsb :=
  if exsb_version e =? exsb_version copy then e else if version =? exsb_version copy then copy else e.

Lemma restore_spec (rdonly : bool) (v : Z) (e copy : exsb) (d : device) :
  answers d = [] -> 19 <= Z.shiftr (bdev_nr_bytes g) SECTOR_SIZE_SHIFT ->
  exists e' copy' d', restore_exsb g rdonly v e copy d = (0, e', copy', d') /\ meta e' = meta (chosen v e copy) /\ meta_tbc e' = meta_tbc (chosen v e copy)
  /\ disk d' = disk d /\ answers d' = [].
Proof.
  intros Ha Hs; unfold restore_exsb, chosen, vdfs4_sync_exsb, answer, VDFS4_1ST_EXSB_ADDR, VDFS4_2ND_EXSB_ADDR; change SECTORS_PER_PAGE with 8; rewrite Ha.
  destruct (exsb_version e =? exsb_version copy); [by eexists _, _, _|]; destruct (v =? exsb_version copy); cbn [negb]; destruct rdonly; [by eexists _, _, _| |by eexists _, _, _|].
  all: rewrite (proj2 (Z.ltb_ge _ _)) by lia; by eexists _, _, _.
Qed.

Lemma restore_same (rdonly : bool) (v : Z) (e copy : exsb) (d : device) : exsb_version e = exsb_version copy -> restore_exsb g rdonly v e copy d = (0, e, copy, d).
Proof. intros He; unfold restore_exsb; by rewrite He, Z.eqb_refl. Qed.

(** A mount, with the superblocks that [restore_exsb] has left. *)
Lemma build_restored (rdonly : bool) (e copy e1 copy1 : exsb) (d d1 : device) (h mount s0 : Z) (mb mc : list Z) (es : list (list Z)) :
  loadable d h mount s0 mb es mc -> answers d = [] -> restore_exsb g rdonly (version mount s0) e copy d = (0, e1, copy1, d1) -> disk d1 = disk d -> answers d1 = [] ->
  placed_in g (meta_tbc e1) mc -> 0 <= meta_tbc e1 < 2 ^ 31 ->
  exists s, vdfs4_build_snapshot_manager g crc32 rdonly e copy d
    = Ok (Val (s, Tables mc (replicate (Z.to_nat PAGE_SIZE) 0) (h + np mb + lenZ es) 0 0 false (lenZ es)), e1, copy1, d1)
  /\ bitmap_size_in_bits s = meta_tbc e1 /\ snap_ok g (fun b => exists c, is_chunk mc c /\ covers g mc c b) s mc.
Proof using Hd Hg.
  intros Hld Ha Er Ed1 Ha1 Hpl Hsz; unfold vdfs4_build_snapshot_manager; rewrite (load_base_spec rdonly e copy d h mount s0 mb mc es Hld Ha), Er; cbn [mbind run_bind Z.eqb negb].
  assert (forall x, page d1 x = page d x) as Hpg by (intros x; unfold SnapshotLoad.page, page_at; by rewrite Ed1).
  pose proof Hld as [Hh Hl Hs Hr Hp Hcn Hc Hend Ho Hsy Hpos]; pose proof (half_range g Hd) as [Hh0 Hh2]; pose proof (se_range _ _ _ _ _ _ Hs) as (R1 & R2 & R3).
  apply (chain_pages g crc32 d d1) in Hc; [|done]; destruct (chain_head _ _ _ _ _ _ _ _ _ Hc) as (Hb & _ & _); destruct (np_pos mb Hb) as [Hn1 Hn2]; pose proof (lenZ_nonneg es).
  destruct (chain_last _ _ _ _ _ _ _ _ _ Hc) as (Hbc & _); unfold VDFS4_SNAPSHOT_EXT_TABLES in *; change (Z.to_nat 8) with 8%nat.
  destruct (load_extended_spec g Hd crc32 d1 mount (h + np mb) s0 mb mc es 8 (replicate (Z.to_nat PAGE_SIZE) 0) 0 Hc Ha1) as (e' & E); try lia.
  { unfold lenZ in Hcn; lia. } { intros Hlt; rewrite Hpg; apply Hend; unfold lenZ; lia. }
  rewrite E; cbn [mbind run_bind]; destruct (build_bitmaps_spec g Hg mc (meta_tbc e1) Hbc Hpl Hsz) as (s & Es & Hsz' & Hok); rewrite Es; cbn [mbind run_bind].
  exists s; rewrite Z.add_0_l; done.
Qed.

Lemma build_manager_spec (rdonly : bool) (e copy : exsb) (d : device) (h mount s0 : Z) (mb mc : list Z) (es : list (list Z)) :
  loadable d h mount s0 mb es mc -> answers d = [] -> exsb_version e = exsb_version copy -> placed_in g (meta_tbc e) mc -> 0 <= meta_tbc e < 2 ^ 31 ->
  exists s, vdfs4_build_snapshot_manager g crc32 rdonly e copy d
    = Ok (Val (s, Tables mc (replicate (Z.to_nat PAGE_SIZE) 0) (h + np mb + lenZ es) 0 0 false (lenZ es)), e, copy, d)
  /\ bitmap_size_in_bits s = meta_tbc e /\ snap_ok g (fun b => exists c, is_chunk mc c /\ covers g mc c b) s mc.
Proof using Hd Hg. intros Hld Ha He; apply (build_restored rdonly e copy e copy d d h mount s0 mb mc es Hld Ha); [by apply restore_same|done|done]. Qed.

(** ** Writing *)

Lemma put_pages_hit (n : nat) (buf : list Z) (off s j : Z) (D : gmap Z (list Z)) :
  0 <= j < Z.of_nat n -> put_pages n buf off s D !! (s + 8 * j) = Some (sub buf (off + PAGE_SIZE * j) PAGE_SIZE).
Proof.
  revert off s j D; induction n as [|n IH]; intros off s j D Hj; [lia|]; cbn [put_pages]; change SECTORS_PER_PAGE with 8.
  assert (forall n off s D t, t < s -> put_pages n buf off s D !! t = D !! t) as Hlow.
  { clear; induction n as [|n IH]; intros off s D t Ht; [done|]; cbn [put_pages]; change SECTORS_PER_PAGE with 8; rewrite IH by lia; by rewrite lookup_insert_ne by lia. }
  destruct (Z.eq_dec j 0) as [->|N].
  - rewrite !Z.mul_0_r, !Z.add_0_r, Hlow by lia; by rewrite lookup_insert_eq.
  - replace (s + 8 * j) with (s + 8 + 8 * (j - 1)) by lia; rewrite IH by lia; f_equal; f_equal; unfold PAGE_SIZE; lia.
Qed.

Lemma put_pages_miss (n : nat) (buf : list Z) (off s t : Z) (D : gmap Z (list Z)) :
  (forall j, 0 <= j < Z.of_nat n -> t <> s + 8 * j) -> put_pages n buf off s D !! t = D !! t.
Proof.
  revert off s D; induction n as [|n IH]; intros off s D Ht; [done|]; cbn [put_pages]; change SECTORS_PER_PAGE with 8; rewrite IH.
  - rewrite lookup_insert_ne; [done|]; specialize (Ht 0 ltac:(lia)); lia.
  - intros j Hj; specialize (Ht (j + 1) ltac:(lia)); lia.
Qed.

(** Each page of [b .. b+n) is as before or the page of the buffer; others are as
    before. *)
Record torn (buf : list Z) (off b n : Z) (d d' : device) : Prop := {
  to_in : forall j, 0 <= j < n -> page d' (b + j) = page d (b + j) \/ page d' (b + j) = sub buf (off + PAGE_SIZE * j) PAGE_SIZE;
  to_out : forall x, ~ b <= x < b + n -> page d' x = page d x;
  to_exsb : exsb_disk d' = exsb_disk d
}.

Lemma torn_trans (buf : list Z) (off b n : Z) (d1 d2 d3 : device) : torn buf off b n d1 d2 -> torn buf off b n d2 d3 -> torn buf off b n d1 d3.
Proof.
  intros [I1 O1 X1] [I2 O2 X2]; split; [| |congruence].
  - intros j Hj; destruct (I2 j Hj) as [->| ->]; [by apply I1|by right].
  - intros x Hx; rewrite O2, O1 by done; done.
Qed.

Lemma torn_refl (buf : list Z) (off b n : Z) (d : device) : torn buf off b n d d.
Proof. split; auto. Qed.

Lemma pages_answers (d : device) (l : list (Z * nat)) (x : Z) : page (Device (disk d) (exsb_disk d) l) x = page d x.
Proof. done. Qed.

Lemma table_write_spec (buf : list Z) (off size b : Z) (d : device) :
  let n := DIV_ROUND_UP size PAGE_SIZE in
  0 < size < 2 ^ 32 -> 0 <= off -> off + PAGE_SIZE * n <= lenZ buf -> 0 <= b -> b + n <= tables_length g ->
  exists ret b' d', table_write g buf off size b d = Ok (ret, b', d') /\ torn buf off b n d d'
  /\ (ret = 0 -> b' = b + n /\ forall j, 0 <= j < n -> page d' (b + j) = sub buf (off + PAGE_SIZE * j) PAGE_SIZE)
  /\ (answers d = [] -> ret = 0 /\ answers d' = []).
Proof using Hd.
  intros n Hs Ho Hl Hb Hbn; destruct (round_up size ltac:(lia)) as [Hn0 Hn1]; fold n in Hn0, Hn1; unfold table_write; fold n.
  rewrite (u32_small n) by (unfold PAGE_SIZE in Hn1; lia); rewrite (sector_ok g Hd) by lia; unfold bug_on; rewrite (proj2 (Z.ltb_ge _ _)) by lia; cbn [mbind run_bind].
  rewrite (proj2 (Z.eqb_neq _ _)) by lia; destruct (answer d) as [[e k] d1] eqn:Ea.
  assert (disk d1 = disk d) as Ed by (unfold answer in Ea; destruct (answers d); by inversion Ea).
  set (cnt := if e =? 0 then Z.to_nat n else Nat.min k (Z.to_nat n)).
  assert (Z.of_nat cnt <= n) as Hcnt by (unfold cnt; destruct (e =? 0); lia).
  assert (forall x, page (Device (put_pages cnt buf off (sec g b) (disk d1)) (exsb_disk d1) (answers d1)) x
    = match put_pages cnt buf off (sec g b) (disk d) !! sec g x with Some p => p | None => replicate (Z.to_nat PAGE_SIZE) 0 end) as Hpg by (intros x; by rewrite <- Ed).
  assert (forall j, 0 <= j < Z.of_nat cnt -> page (Device (put_pages cnt buf off (sec g b) (disk d1)) (exsb_disk d1) (answers d1)) (b + j) = sub buf (off + PAGE_SIZE * j) PAGE_SIZE) as Hhit.
  { intros j Hj; rewrite Hpg; replace (sec g (b + j)) with (sec g b + 8 * j) by (unfold sec; lia); by rewrite put_pages_hit. }
  assert (forall x, ~ b <= x < b + Z.of_nat cnt -> page (Device (put_pages cnt buf off (sec g b) (disk d1)) (exsb_disk d1) (answers d1)) x = page d x) as Hmiss.
  { intros x Hx; rewrite Hpg, put_pages_miss; [done|]; intros j Hj; unfold sec; lia. }
  eexists e, _, _; split; [reflexivity|]; split; [split|split].
  - intros j Hj; destruct (Z.ltb_spec j (Z.of_nat cnt)); [right; apply Hhit; lia|left; apply Hmiss; lia].
  - intros x Hx; apply Hmiss; lia.
  - unfold answer in Ea; destruct (answers d); by inversion Ea.
  - intros ->; cbn [Z.eqb] in cnt |- *; destruct Hd as [_ K2 _ _ K5 _]; rewrite u64_small by lia; split; [done|]; intros j Hj; apply Hhit; subst cnt; lia.
  - unfold answer in Ea; intros Han; rewrite Han in Ea; injection Ea as <- <- <-; done.
Qed.

Lemma write_retry_spec (retry : nat) (buf : list Z) (off size b : Z) (d : device) :
  let n := DIV_ROUND_UP size PAGE_SIZE in
  0 < size < 2 ^ 32 -> 0 <= off -> off + PAGE_SIZE * n <= lenZ buf -> 0 <= b -> b + n <= tables_length g ->
  exists ret b' r d', write_retry g retry buf off size b d = Ok (ret, b', r, d') /\ torn buf off b n d d'
  /\ (ret = 0 -> b' = b + n /\ forall j, 0 <= j < n -> page d' (b + j) = sub buf (off + PAGE_SIZE * j) PAGE_SIZE)
  /\ (answers d = [] -> ret = 0 /\ answers d' = []).
Proof using Hd.
  intros n Hs Ho Hl Hb Hbn; revert d; induction retry as [|retry IH]; intros d; cbn [write_retry];
    destruct (table_write_spec buf off size b d Hs Ho Hl Hb Hbn) as (ret & b' & d' & E & Ht & H0 & Hq); rewrite E; cbn [mbind run_bind].
  - destruct (Z.eqb_spec ret 0) as [->|N]; eexists _, _, _, _; split; try reflexivity; auto.
  - destruct (Z.eqb_spec ret 0) as [->|N]; [eexists _, _, _, _; split; [reflexivity|auto]|].
    destruct (IH d') as (ret2 & b2 & r2 & d2 & E2 & Ht2 & H2 & Hq2); eexists _, _, _, _; split; [exact E2|]; split; [by eapply torn_trans|]; split; [done|]; intros Ha; destruct (Hq Ha); done.
Qed.

End Commit.
