(* ===== verification/SnapshotAtomic.v ===== *)
(** A commit is atomic: whatever the device does, the tables it holds afterwards
    are those of the last commit or those of this one
    (vdfs4_update_translation_tables of src/linux/fs/vdfs4/snapshot.c). *)

From Stdlib Require Import ZArith Lia Bool List.
From stdpp Require Import base list gmap.
From S2P Require Import Prelude Bytes Bitmap FindBit Buffer Snapshot SnapshotDisk SnapshotRep SnapshotCow SnapshotTable SnapshotStep SnapshotSeal SnapshotLoad SnapshotCommit.

Open Scope Z_scope.

Section Atomic.
Context {area : ZeroArea} (g : geom) (Hg : geom_ok g) (Hd : disk_ok g) (crc32 : list Z -> Z) (Hcrc : forall l, 0 <= crc32 l < 2 ^ 32).

#[local] Abbreviation page := (page g).
#[local] Abbreviation half := (half g).
#[local] Abbreviation loadable := (loadable g crc32).
#[local] Abbreviation torn := (torn g).

(** The tables in memory between two commits: the device holds the last one
    committed, [mc], and no table in the halves is newer. [nmount] is the mount
    counter the next tables get. *)
Record synced (d : device) (h mount s0 : Z) (mb : list Z) (es : list (list Z)) (mc : list Z) (t : tables) (nmount : Z) : Prop := {
  sy_load : loadable d h mount s0 mb es mc;
  sy_base : base_ok (base_t t);
  sy_len : lenZ (base_t t) = PAGE_SIZE * np (base_t t);
  sy_np : np mb <= np (base_t t);
  sy_room : np (base_t t) + VDFS4_SNAPSHOT_EXT_TABLES < half;
  sy_tab : tab_ok mc t;
  sy_ext : lenZ (extended_table t) = PAGE_SIZE;
  sy_mount : 0 <= nmount < 2 ^ 32;
  sy_sync : 0 <= sync_count t;
  sy_new : version mount (s0 + lenZ es) < version nmount (sync_count t);
  sy_iblock : iblock t = h + np mb + lenZ es;
  sy_count : exteneded_table_count t = lenZ es;
  sy_next : use_base_table t = false -> nmount = mount /\ sync_count t = s0 + lenZ es + 1;
  sy_clean : forall x b, x = 0 \/ x = half -> x + np mb <= b < x + half ->
    exists v, validate_extended_table crc32 (page d b) = Ok v /\ 0 <= v <= version mount (s0 + lenZ es)
}.

(** The device holds a table with the places of [t]; a base table that was asked for
    has the version of this commit. *)
Definition recovers (d : device) (t : tables) (nmount : Z) : Prop :=
  exists h mount s0 mb es mc, loadable d h mount s0 mb es mc /\ same_shape (base_t t) mc /\ (forall c, is_chunk (base_t t) c -> place mc c = place (base_t t) c)
  /\ (use_base_table t = true -> mount = nmount /\ s0 = sync_count t).

Lemma loadable_frame (d d' : device) (h mount s0 : Z) (mb mc : list Z) (es : list (list Z)) :
  loadable d h mount s0 mb es mc -> (forall x, h <= x < h + half -> page d' x = page d x) -> page d' (half - h) = page d (half - h) ->
  loadable d' h mount s0 mb es mc.
Proof.
  intros [Hh Hl Hs Hr Hp Hcn Hc Hend Ho Hsy Hpos] Hpg Hoth; destruct (chain_head _ _ _ _ _ _ _ _ _ Hc) as (Hb & _ & _); destruct (np_pos mb Hb) as [Hn1 _].
  pose proof (lenZ_nonneg es); unfold VDFS4_SNAPSHOT_EXT_TABLES in *; split; auto; unfold VDFS4_SNAPSHOT_EXT_TABLES.
  - intros j Hj; rewrite Hpg by lia; auto.
  - eapply chain_pages; [exact Hc|]; intros x Hx; apply Hpg; lia.
  - intros Hlt; rewrite Hpg by lia; auto.
  - rewrite Hoth; done.
Qed.

(** The first page that a commit of the base table has to write last. *)
Lemma base_written (d d' : device) (h mount s0 nmount sync : Z) (mb mc m' : list Z) (es : list (list Z)) :
  loadable d h mount s0 mb es mc ->
  (forall b, half - h + np mb <= b < half - h + half -> exists v, validate_extended_table crc32 (page d b) = Ok v /\ 0 <= v <= version mount (s0 + lenZ es)) ->
  base_ok m' -> lenZ m' = PAGE_SIZE * np m' -> np mb <= np m' -> np m' + VDFS4_SNAPSHOT_EXT_TABLES < half ->
  sealed crc32 VDFS4_SNAPSHOT_BASE_TABLE (total m') nmount sync m' -> version mount (s0 + lenZ es) < version nmount sync -> sync + 11 < 2 ^ 32 ->
  (forall j, 0 <= j < np m' -> page d' (half - h + j) = sub m' (PAGE_SIZE * j) PAGE_SIZE) ->
  (forall x, ~ half - h <= x < half - h + np m' -> page d' x = page d x) ->
  loadable d' (half - h) nmount sync m' [] m'.
Proof.
  intros Hld Hcl Hb' Hl' Hnp Hr' Hs' Hv Hsy' Hpg Hout; pose proof Hld as [Hh Hl Hs Hr Hp Hcn Hc Hend Ho Hsy Hpos].
  destruct (np_pos m' Hb') as [Hn1 _]; pose proof (lenZ_nonneg es); pose proof (se_range _ _ _ _ _ _ Hs') as (R1 & R2 & R3); pose proof (se_range _ _ _ _ _ _ Hs) as (R4 & R5 & R6).
  destruct (active_head g crc32 _ _ _ _ _ _ _ Hld) as (A1 & A2 & A3 & A4 & A5 & A6); unfold VDFS4_SNAPSHOT_EXT_TABLES in *.
  split; auto; unfold VDFS4_SNAPSHOT_EXT_TABLES; change (lenZ []) with 0 in *.
  - destruct Hh as [->| ->]; [right|left]; lia.
  - lia.
  - apply chain_nil; [done|apply (se_mount _ _ _ _ _ _ Hs')|apply (se_sync _ _ _ _ _ _ Hs')].
  - intros _; rewrite Z.add_0_r, Hout by lia; destruct (Hcl (half - h + np m')) as (v & Ev & Hv2); [lia|]; exists v; split; [done|]; rewrite Z.add_0_r; lia.
  - replace (half - (half - h)) with h by lia; cbn zeta; rewrite Hout by (destruct Hh; lia); split; [done|]; split; [done|]; right.
    rewrite A4, A5, u32_small by lia; unfold version in *; lia.
  - lia.
  - unfold version in *; lia.
Qed.

(** What a commit has done. *)
Definition wrote_table (d : device) (t : tables) (nmount : Z) (r : run (Z * tables * device)) (h mount s0 : Z) (mb : list Z) (es : list (list Z)) (mc : list Z) : Prop :=
  exists ret t' d', r = Ok (ret, t', d') /\ (loadable d' h mount s0 mb es mc \/ recovers d' t nmount)
  /\ exsb_disk d' = exsb_disk d /\ (forall x, ~ 0 <= x <= tables_length g -> page d' x = page d x)
  /\ (answers d = [] -> ret = 0) /\ (ret = 0 -> recovers d' t nmount /\ sync_count t' = sync_count t /\ exists h' mount' s0' mb' es' mc', same_shape (base_t t) (base_t t') /\ (forall c, is_chunk (base_t t) c -> place (base_t t') c = place (base_t t) c)
      /\ same_shape (base_t t) mc' /\ (forall c, is_chunk (base_t t) c -> place mc' c = place (base_t t) c)
      /\ synced d' h' mount' s0' mb' es' mc' (Tables (base_t t') (extended_table t') (iblock t') (sync_count t' + 1) (dirty_pages_count t') (use_base_table t') (exteneded_table_count t')) nmount).

Section Tables.
Context (d : device) (h mount s0 : Z) (mb : list Z) (es : list (list Z)) (mc : list Z) (t : tables) (nmount : Z).
Context (Hsy : synced d h mount s0 mb es mc t nmount) (Hsmall : sync_count t + 11 < 2 ^ 32).

Lemma other_half : (if half <=? iblock t then 0 else half) = half - h.
Proof using Hsy Hd.
  pose proof (ld_half _ _ _ _ _ _ _ _ _ (sy_load _ _ _ _ _ _ _ _ _ Hsy)) as Hh; pose proof (ld_room _ _ _ _ _ _ _ _ _ (sy_load _ _ _ _ _ _ _ _ _ Hsy)) as Hr.
  pose proof (ld_count _ _ _ _ _ _ _ _ _ (sy_load _ _ _ _ _ _ _ _ _ Hsy)) as Hc; destruct (chain_head _ _ _ _ _ _ _ _ _ (ld_chain _ _ _ _ _ _ _ _ _ (sy_load _ _ _ _ _ _ _ _ _ Hsy))) as (Hb & _).
  destruct (np_pos mb Hb) as [Hn1 _]; pose proof (lenZ_nonneg es); rewrite (sy_iblock _ _ _ _ _ _ _ _ _ Hsy); unfold VDFS4_SNAPSHOT_EXT_TABLES in *.
  destruct (Z.leb_spec half (h + np mb + lenZ es)); destruct Hh; lia.
Qed.

(** The commit of the base table. *)
Lemma commit_base :
  (VDFS4_SNAPSHOT_TABLES_COUNT <=? exteneded_table_count t) || use_base_table t = true ->
  wrote_table d t nmount (vdfs4_update_translation_tables g crc32 nmount t d) h mount s0 mb es mc.
Proof using Hsy Hd Hcrc Hsmall.
  intros Hbase; pose proof Hsy as [Hld Hb Hl Hnp Hr Htab Hle Hm Hsn Hnew Hib Hcnt Hnx Hcl]; pose proof (half_range g Hd) as [Hh0 Hh2].
  pose proof (ld_half _ _ _ _ _ _ _ _ _ Hld) as Hh; pose proof (ld_room _ _ _ _ _ _ _ _ _ Hld) as Hrb; destruct (np_pos _ Hb) as [Hn1 Hn2]; pose proof (bs_total _ Hb) as Hbt; pose proof (lenZ_nonneg es) as Hes.
  unfold vdfs4_update_translation_tables; rewrite Hbase; fold half; rewrite other_half; set (o := half - h) in *.
  destruct (fill_base_spec crc32 Hcrc (base_t t) nmount (sync_count t) Hb Hm ltac:(lia)) as (m' & Ef & Hs' & Hb' & Hsh & Hl' & Hpl); rewrite Ef; cbn [mbind run_bind].
  assert (total m' = total (base_t t)) as Et.
  { unfold total; unfold same_shape, special, VDFS4_FSFILE, VDFS4_LSFILE, VDFS4_CAT_TREE_INO, VDFS4_XATTR_TREE_INO in Hsh.
    rewrite (proj2 (Hsh 2 ltac:(lia))), (proj2 (Hsh 3 ltac:(lia))), (proj2 (Hsh 4 ltac:(lia))), (proj2 (Hsh 5 ltac:(lia))), (proj2 (Hsh 6 ltac:(lia))); done. }
  assert (np m' = np (base_t t)) as En by (unfold np; by rewrite Et).
  rewrite <- Et in Hs'; pose proof (se_range _ _ _ _ _ _ Hs') as (R1 & _); pose proof (total_header _ Hb') as Hth.
  unfold VDFS4_SNAPSHOT_EXT_TABLES, CRC32_SIZE, BASE_TABLE_SIZE, BASE_RECORD in *; rewrite rd64_ok by (unfold CHECKSUM_OFFSET; lia); cbn [mbind run_bind].
  rewrite (se_co _ _ _ _ _ _ Hs'), (u64_small (total m' + 4)) by lia; rewrite andb_false_r, andb_true_r; cbn [bug_on mbind run_bind].
  assert (0 <= o /\ o + half <= tables_length g) as Ho by (subst o; destruct Hh; lia).
  set (tail := (PAGE_SIZE <? total m' + 4)).
  assert (exists ret s_ib retry d1, (if tail then write_retry g 3 m' PAGE_SIZE (total m' + 4 - PAGE_SIZE) (o +64 1) d else Ok (0, 0, 3%nat, d)) = Ok (ret, s_ib, retry, d1)
    /\ (forall x, ~ o + 1 <= x < o + np m' -> page d1 x = page d x) /\ exsb_disk d1 = exsb_disk d /\ (answers d = [] -> ret = 0 /\ answers d1 = [])
    /\ (ret = 0 -> (s_ib = if tail then o + np m' else 0) /\ forall j, 1 <= j < np m' -> page d1 (o + j) = sub m' (PAGE_SIZE * j) PAGE_SIZE)) as (ret & s_ib & retry & d1 & E1 & Hout1 & Hx1 & Hq1 & Hin1).
  { unfold PAGE_SIZE in *; subst tail; destruct (Z.ltb_spec 4096 (total m' + 4)) as [Hbig|Hsm].
    - assert (DIV_ROUND_UP (total m' + 4 - 4096) 4096 = np m' - 1) as Edr.
      { unfold np, CRC32_SIZE, PAGE_SIZE, DIV_ROUND_UP; replace (total m' + 4 - 4096 + 4096 - 1) with (total m' + 4 + 4096 - 1 + (-1) * 4096) by lia; rewrite Z.div_add by lia; lia. }
      rewrite (u64_small (o + 1)) by (destruct Hd as [_ K2 _ _ K5 _]; lia).
      destruct (write_retry_spec g Hd 3 m' 4096 (total m' + 4 - 4096) (o + 1) d) as (ret & b' & r & d1 & E & [Ti To Tx] & H0 & Hq); unfold PAGE_SIZE; rewrite ?Edr; try lia.
      unfold PAGE_SIZE in *; rewrite Edr in *; exists ret, b', r, d1; split; [exact E|]; split; [intros x Hx; apply To; lia|]; split; [done|]; split; [done|]; intros E0; destruct (H0 E0) as [Hb'' Hp]; split; [lia|].
      intros j Hj; specialize (Hp (j - 1) ltac:(lia)); replace (o + 1 + (j - 1)) with (o + j) in Hp by lia; rewrite Hp; f_equal; lia.
    - assert (np m' = 1) as E1 by lia; exists 0, 0, 3%nat, d; split; [done|]; split; [done|]; split; [done|]; split; [done|]; intros _; split; [done|]; intros j Hj; lia. }
  rewrite E1; cbn [mbind run_bind].
  assert (loadable d1 h mount s0 mb es mc) as Hld1.
  { eapply loadable_frame; [exact Hld| |]; [intros x Hx|]; apply Hout1; subst o; destruct Hh; lia. }
  destruct (Z.eqb_spec ret 0) as [->|Nr]; cbn [negb].
  2: { eexists _, _, _; split; [reflexivity|]; split; [by left|]; split; [done|]; split; [intros x Hx; apply Hout1; lia|]; split; [intros Ha; by apply Hq1|done]. }
  destruct (Hin1 eq_refl) as [Esib Hin]; clear E1.
  destruct (write_retry_spec g Hd retry m' 0 PAGE_SIZE o d1) as (ret & b' & r & d2 & E2 & [Ti2 To2 Tx2] & H02 & Hq2); change (DIV_ROUND_UP PAGE_SIZE PAGE_SIZE) with 1 in *; unfold PAGE_SIZE in *; try lia.
  rewrite E2; cbn [mbind run_bind].
  assert (forall x, ~ o <= x < o + np m' -> page d2 x = page d x) as Hout2 by (intros x Hx; rewrite To2, Hout1 by lia; done).
  assert (page d2 o = sub m' 0 4096 -> loadable d2 o nmount (sync_count t) m' [] m') as Hnewld.
  { intros Hp0; eapply (base_written d d2 h mount s0 nmount (sync_count t) mb mc m' es); eauto; unfold PAGE_SIZE, VDFS4_SNAPSHOT_EXT_TABLES; rewrite ?En; fold o; try lia.
    - intros b Hbb; apply (Hcl o); [subst o; destruct Hh as [->| ->]; [right|left]; lia|lia].
    - intros j Hj; destruct (Z.eq_dec j 0) as [->|]; [by rewrite Z.add_0_r, Z.mul_0_r|]; rewrite To2 by lia; apply Hin; lia. }
  assert (loadable d2 o nmount (sync_count t) m' [] m' -> recovers d2 t nmount) as Hrec by (intros Hnl; exists o, nmount, (sync_count t), m', [], m'; done).
  assert (loadable d2 h mount s0 mb es mc \/ recovers d2 t nmount) as Hor.
  { destruct (Ti2 0 ltac:(lia)) as [E0|E0]; rewrite Z.add_0_r in E0.
    - left; eapply loadable_frame; [exact Hld1| |]; [intros x Hx; apply To2; subst o; destruct Hh; lia|done].
    - right; apply Hrec, Hnewld; done. }
  destruct (Z.eqb_spec ret 0) as [->|Nr2]; cbn [negb]; [|eexists _, _, _; split; [reflexivity|]; split; [done|]; split; [congruence|]; split; [intros x Hx; apply Hout2; lia|]; split; [intros Ha; apply Hq2, Hq1; done|done]].
  destruct (H02 eq_refl) as [Eb' Hp0]; specialize (Hp0 0 ltac:(lia)); rewrite Z.add_0_r in Hp0; cbn [extended_table base_t].
  rewrite blit_whole by (rewrite Hle; reflexivity); cbn [mbind run_bind]; eexists _, _, _; split; [reflexivity|]; split; [done|]; split; [cbn; congruence|]; split; [intros x Hx; apply Hout2; lia|]; split; [done|].
  intros _; split; [apply Hrec, Hnewld; done|]; split; [done|]; cbn; exists o, nmount, (sync_count t), m', [], m'; do 4 (split; [done|]).
  split; cbn; auto; unfold VDFS4_SNAPSHOT_EXT_TABLES; change (lenZ []) with 0; rewrite ?En; try lia.
  - rewrite Hl', Hl; done.
  - intros _; split; [done|]; exists []; split; [apply ext_zero|]; split; [done|]; intros c Hc; done.
  - unfold version; lia.
  - unfold tail in Esib; rewrite Esib; destruct (Z.ltb_spec 4096 (total m' + 4)); [rewrite (proj2 (Z.eqb_neq _ _)) by lia; lia|]; cbn [Z.eqb]; lia.
  - intros x b Hx Hbb; rewrite Hout2; [destruct (Hcl x b Hx) as (v & Ev & Hv); [lia|]; exists v; split; [done|]; rewrite Z.add_0_r; lia|].
    subst o; destruct Hx as [->| ->], Hh as [->| ->]; lia.
Qed.

Lemma shape_sym (m m' : list Z) : same_shape m m' -> same_shape m' m.
Proof. intros H ino Hs; destruct (H ino Hs); done. Qed.

(** One more extended table on the device. *)
Lemma ext_written (d' : device) (e' mc' : list Z) (L : moves) :
  use_base_table t = false -> lenZ es < VDFS4_SNAPSHOT_EXT_TABLES -> ext_rep e' L ->
  sealed crc32 VDFS4_SNAPSHOT_EXTENDED_TABLE (EXT_TABLE_SIZE + EXT_RECORD * lenZ L) nmount (sync_count t) e' ->
  Forall (fun x => is_chunk mc (fst x) /\ 0 <= snd x < 2 ^ 64) L -> parse_extended_table mc e' = Ok mc' ->
  page d' (iblock t) = e' -> (forall x, x <> iblock t -> page d' x = page d x) ->
  loadable d' h mount s0 mb (es ++ [e']) mc'
  /\ forall x b, x = 0 \/ x = half -> x + np mb <= b < x + half ->
       exists v, validate_extended_table crc32 (page d' b) = Ok v /\ 0 <= v <= version mount (s0 + lenZ es + 1).
Proof using Hsy Hd.
  intros Hub Hes He Hse HL Hpa Hpx Hpo; pose proof Hsy as [Hld _ _ _ _ _ _ _ _ _ Hib _ Hnx Hcl]; destruct (Hnx Hub) as [-> Hsn]; pose proof (half_range g Hd) as [Hh0 Hh2].
  pose proof Hld as [Hh Hl Hs Hr Hp Hcn Hc Hend Ho Hsy0 Hpos]; destruct (chain_head _ _ _ _ _ _ _ _ _ Hc) as (Hb & _ & _); destruct (np_pos mb Hb) as [Hn1 _].
  pose proof (lenZ_nonneg es); unfold VDFS4_SNAPSHOT_EXT_TABLES in *; rewrite Hib in Hpx, Hpo.
  assert (forall x b, x = 0 \/ x = half -> x + np mb <= b < x + half ->
       exists v, validate_extended_table crc32 (page d' b) = Ok v /\ 0 <= v <= version mount (s0 + lenZ es + 1)) as Hcl'.
  { intros x b Hx Hbx; destruct (Z.eq_dec b (h + np mb + lenZ es)) as [->|N].
    - pose proof (se_range _ _ _ _ _ _ Hse); rewrite Hpx, (validate_ext_ok crc32 e' _ _ _ Hse), Hsn; eexists; split; [reflexivity|]; unfold version; lia.
    - rewrite Hpo by done; destruct (Hcl x b Hx Hbx) as (v & Ev & Hv); exists v; split; [done|]; unfold version in *; lia. }
  split; [|done]; split; auto; unfold VDFS4_SNAPSHOT_EXT_TABLES; rewrite ?lenZ_app; change (lenZ [e']) with 1; try lia.
  - intros j Hj; rewrite Hpo by lia; auto.
  - apply (chain_snoc g crc32 d' mount (h + np mb) s0 (EXT_TABLE_SIZE + EXT_RECORD * lenZ L) mb e' mc mc' L es); auto; [|rewrite <- Hsn; exact Hse].
    eapply chain_pages; [exact Hc|]; intros x Hx; apply Hpo; lia.
  - intros Hlt; destruct (Hcl' h (h + np mb + (lenZ es + 1)) Hh ltac:(lia)) as (v & Ev & Hv); exists v; split; [done|]; rewrite Z.add_assoc; done.
  - rewrite Hpo by (destruct Hh; lia); done.
Qed.

(** The commit of an extended table. *)
Lemma commit_ext :
  (VDFS4_SNAPSHOT_TABLES_COUNT <=? exteneded_table_count t) || use_base_table t = false ->
  wrote_table d t nmount (vdfs4_update_translation_tables g crc32 nmount t d) h mount s0 mb es mc.
Proof using Hsy Hd Hcrc Hsmall.
  intros Hbase; pose proof Hsy as [Hld Hb Hl Hnp Hr Htab Hle Hm Hsn Hnew Hib Hcnt Hnx Hcl]; pose proof (half_range g Hd) as [Hh0 Hh2].
  pose proof Hbase as Hbase'; apply orb_false_iff in Hbase' as [Hc8%Z.leb_gt Hub]; destruct (Hnx Hub) as [Em Esn]; destruct (Htab Hub) as (Hsh & L & HL & Hch & Hrep).
  pose proof (ld_half _ _ _ _ _ _ _ _ _ Hld) as Hh; pose proof (ld_room _ _ _ _ _ _ _ _ _ Hld) as Hrb; destruct (chain_head _ _ _ _ _ _ _ _ _ (ld_chain _ _ _ _ _ _ _ _ _ Hld)) as (Hbb & _ & _).
  destruct (np_pos mb Hbb) as [Hn1 _]; pose proof (lenZ_nonneg es) as Hes; destruct (chain_last _ _ _ _ _ _ _ _ _ (ld_chain _ _ _ _ _ _ _ _ _ Hld)) as (Hbc & _).
  unfold vdfs4_update_translation_tables; rewrite Hbase; destruct (fill_ext_spec crc32 Hcrc (extended_table t) L nmount (sync_count t) HL Hm ltac:(lia)) as (e' & Ef & Hse & He').
  rewrite Ef; cbn [mbind run_bind]; pose proof (ex_len _ _ He') as Le; pose proof (ex_fit _ _ He') as Hfit; pose proof (lenZ_nonneg L).
  unfold VDFS4_SNAPSHOT_TABLES_COUNT, VDFS4_SNAPSHOT_EXT_TABLES, PAGE_SIZE, CRC32_SIZE, EXT_TABLE_SIZE, EXT_RECORD in *; rewrite rd64_ok by (unfold CHECKSUM_OFFSET; lia); cbn [mbind run_bind].
  rewrite (se_co _ _ _ _ _ _ Hse), u64_small, (proj2 (Z.ltb_ge _ _)) by lia; cbn [andb negb bug_on mbind run_bind Z.eqb].
  destruct (write_retry_spec g Hd 3 e' 0 4096 (iblock t) d) as (ret & b' & r & d2 & E2 & [Ti To Tx] & H0 & Hq2); change (DIV_ROUND_UP 4096 PAGE_SIZE) with 1 in *; unfold PAGE_SIZE; try (destruct Hh; lia).
  rewrite E2; cbn [mbind run_bind]; destruct (parse_extended_spec L e' mc He' Hbc Hch) as (mc' & Epa & Bc' & Sc' & _ & _ & _ & Pc').
  assert (forall x, x <> iblock t -> page d2 x = page d x) as Hpo by (intros x Hx; apply To; lia).
  assert (page d2 (iblock t) = e' -> loadable d2 h mount s0 mb (es ++ [e']) mc' /\ forall x b, x = 0 \/ x = half -> x + np mb <= b < x + half ->
       exists v, validate_extended_table crc32 (page d2 b) = Ok v /\ 0 <= v <= version mount (s0 + lenZ es + 1)) as Hw.
  { intros Hp; apply (ext_written d2 e' mc' L); auto; unfold VDFS4_SNAPSHOT_EXT_TABLES; lia. }
  assert (forall c, is_chunk (base_t t) c -> place mc' c = place (base_t t) c) as Hpl.
  { intros c Hc; apply (same_chunk mc (base_t t)) in Hc; [|done]; rewrite Pc', Hrep by done; done. }
  assert (same_shape (base_t t) mc') as Hsh' by (eapply shape_trans; [by apply shape_sym|done]).
  assert (loadable d2 h mount s0 mb es mc \/ recovers d2 t nmount) as Hor.
  { destruct (Ti 0 ltac:(lia)) as [E0|E0]; rewrite Z.add_0_r in E0.
    - left; assert (forall x, page d2 x = page d x) as Hall by (intros x; destruct (Z.eq_dec x (iblock t)) as [->|]; auto); eapply loadable_frame; [exact Hld| |]; auto.
    - right; rewrite sub_all in E0 by done; destruct (Hw E0) as [Hw1 _]; exists h, mount, s0, mb, (es ++ [e']), mc'; split; [done|]; split; [done|]; split; [done|congruence]. }
  destruct (Z.eqb_spec ret 0) as [->|Nr2]; cbn [negb]; [|eexists _, _, _; split; [reflexivity|]; split; [done|]; split; [done|]; split; [intros x Hx; apply Hpo; destruct Hh; lia|]; split; [intros Ha; by apply Hq2|done]].
  destruct (H0 eq_refl) as [Eb' Hp0]; specialize (Hp0 0 ltac:(lia)); rewrite Z.add_0_r, sub_all in Hp0 by done; destruct (Hw Hp0) as [Hw1 Hw2]; cbn [extended_table base_t].
  rewrite blit_whole by (rewrite Le; reflexivity); cbn [mbind run_bind]; eexists _, _, _; split; [reflexivity|]; split; [done|]; split; [done|]; split; [intros x Hx; apply Hpo; destruct Hh; lia|]; split; [done|].
  intros _; split; [exists h, mount, s0, mb, (es ++ [e']), mc'; split; [done|]; split; [done|]; split; [done|congruence]|]; split; [done|]; cbn.
  exists h, mount, s0, mb, (es ++ [e']), mc'; do 4 (split; [done|]).
  assert (u8 (exteneded_table_count t + 1) = lenZ es + 1) as -> by (unfold u8; rewrite Z.mod_small; lia).
  split; cbn; auto; unfold VDFS4_SNAPSHOT_EXT_TABLES; rewrite ?lenZ_app; change (lenZ [e']) with 1; try lia; try done.
  - intros _; split; [by apply shape_sym|]; exists []; split; [apply ext_zero|]; split; [done|]; intros c Hc; cbn; symmetry; apply Hpl; by apply (same_chunk (base_t t) mc').
  - unfold version; lia.
  - intros x b Hx Hbx; rewrite Z.add_assoc; apply (Hw2 x); done.
Qed.

(** A commit, with whatever table it writes. *)
Lemma commit_tables_spec : wrote_table d t nmount (vdfs4_update_translation_tables g crc32 nmount t d) h mount s0 mb es mc.
Proof using Hsy Hd Hcrc Hsmall.
  destruct ((VDFS4_SNAPSHOT_TABLES_COUNT <=? exteneded_table_count t) || use_base_table t) eqn:E; [by apply commit_base|by apply commit_ext].
Qed.

End Tables.

End Atomic.
