(* ===== verification/SnapshotTheorems.v ===== *)
(** The properties of the translation tables of the metadata area
    (src/linux/fs/vdfs4/snapshot.c): copy-on-write, the atomic commit and the mount
    after it, and the count of free blocks. *)

From Stdlib Require Import ZArith Lia Bool List.
From stdpp Require Import base list gmap.
From S2P Require Import Prelude Bytes Bitmap Count FindBit Buffer Snapshot SnapshotDisk SnapshotRep SnapshotCow SnapshotTable SnapshotStep SnapshotSeal SnapshotLoad SnapshotCommit SnapshotAtomic.

Open Scope Z_scope.

(** ** Deciding the conditions on a table *)

Definition chunks (m : list Z) : list chunk := flat_map (fun ino => map (fun i => (ino, i)) (seqZ 0 (cnt m ino))) special_files.

Definition byteb (b : Z) : bool := (0 <=? b) && (b <? 256).

Definition base_okb (m : list Z) : bool :=
  forallb byteb m && (total m + CRC32_SIZE <=? lenZ m) && (lenZ m <? 2 ^ 32)
  && forallb (fun ino => (BASE_TABLE_SIZE <=? off m ino) && (off m ino + BASE_RECORD * cnt m ino <=? total m) && (1 <=? cnt m ino)) special_files
  && forallb (fun i => forallb (fun j => (i =? j) || (off m i + BASE_RECORD * cnt m i <=? off m j) || (off m j + BASE_RECORD * cnt m j <=? off m i)) special_files) special_files.

Definition placed_inb (g : geom) (size : Z) (m : list Z) : bool :=
  forallb (fun c => (0 <=? place m c) && (place m c + blocks g (fst c) <=? size) && (place m c mod blocks g (fst c) =? 0)) (chunks m)
  && forallb (fun c => forallb (fun d => bool_decide (c = d) || (place m c + blocks g (fst c) <=? place m d) || (place m d + blocks g (fst d) <=? place m c)) (chunks m)) (chunks m).

Lemma special_in (ino : Z) : special ino -> In ino special_files.
Proof.
  unfold special, special_files, VDFS4_FSFILE, VDFS4_LSFILE, VDFS4_CAT_TREE_INO, VDFS4_XATTR_TREE_INO; intros [H1 H2]; cbn; lia.
Qed.

Lemma chunks_in (m : list Z) (c : chunk) : is_chunk m c -> In c (chunks m).
Proof.
  intros [Hs Hi]; apply in_flat_map; exists (fst c); split; [by apply special_in|]; apply in_map_iff; exists (snd c); split; [by destruct c|].
  apply list_elem_of_In, elem_of_seqZ; lia.
Qed.

Lemma base_okb_ok (m : list Z) : base_okb m = true -> base_ok m.
Proof.
  unfold base_okb; rewrite !andb_true_iff, !forallb_forall; intros [[[[H1 H2%Z.leb_le] H3%Z.ltb_lt] H4] H5]; split.
  - apply Forall_forall; intros b Hb%list_elem_of_In; specialize (H1 b Hb); unfold byteb in H1; rewrite andb_true_iff in H1; unfold is_byte; lia.
  - lia.
  - intros ino Hs; specialize (H4 ino (special_in _ Hs)); rewrite !andb_true_iff in H4; lia.
  - intros i j Hi Hj N; specialize (H5 i (special_in _ Hi)); rewrite forallb_forall in H5; specialize (H5 j (special_in _ Hj)); rewrite !orb_true_iff in H5; lia.
Qed.

Lemma placed_inb_ok (g : geom) (size : Z) (m : list Z) : placed_inb g size m = true -> placed_in g size m.
Proof.
  unfold placed_inb; rewrite andb_true_iff, !forallb_forall; intros [H1 H2]; split.
  - intros c Hc; specialize (H1 c (chunks_in _ _ Hc)); rewrite !andb_true_iff in H1; lia.
  - intros c Hc; specialize (H1 c (chunks_in _ _ Hc)); rewrite !andb_true_iff in H1; lia.
  - intros c d Hc Hd N; specialize (H2 c (chunks_in _ _ Hc)); rewrite forallb_forall in H2; specialize (H2 d (chunks_in _ _ Hd)).
    rewrite !orb_true_iff, bool_decide_eq_true in H2; destruct H2 as [[H2|H2]|H2]; [done|left; lia|right; lia].
Qed.

(** ** Copy-on-write *)

Section Theorems.
Context {area : ZeroArea} {Harea : ZeroAreaLaws}.

(** C6: Before a chunk of metadata is changed, [vdfs4_add_chunk_no_lock] gives it a
    place that holds no block of the committed snapshot and none of any chunk; it
    does so once in a transaction, and only when no aligned free area is left the
    chunk stays where it is. No other chunk moves, the bitmaps keep describing the
    table, and the extended table records the move. *)
Theorem add_chunk_cow (g : geom) (C : Z -> Prop) (mc : list Z) (s : maps) (t : tables) (ino page : Z) :
  let c := (ino, get_table_index g ino page) in
  geom_ok g -> snap_ok g C s (base_t t) -> tab_ok mc t -> lenZ (extended_table t) = PAGE_SIZE -> is_chunk (base_t t) c ->
  exists s' t', vdfs4_add_chunk_no_lock g s t ino page = Ok (s', t')
  /\ snap_ok g C s' (base_t t') /\ tab_ok mc t' /\ same_shape (base_t t) (base_t t')
  /\ (forall d, is_chunk (base_t t) d -> d <> c -> place (base_t t') d = place (base_t t) d)
  /\ bit (moved_iblock s') (place (base_t t') c) = true
  /\ ((bit (moved_iblock s) (place (base_t t) c) = true /\ s' = s /\ t' = t)
      \/ (forall b, covers g (base_t t') c b -> ~ C b /\ forall d, is_chunk (base_t t) d -> ~ covers g (base_t t) d b)
      \/ (place (base_t t') c = place (base_t t) c /\ no_room g s ino)).
Proof using Harea.
  intros c Hg Hs Ht Hl Hc; destruct (add_chunk_spec g Hg C mc s t ino page Hs Ht Hl Hc) as (s' & t' & E & [A1 A2 A3 A4 A5 A6 _ _]).
  exists s', t'; split; [exact E|]; do 5 (split; [done|]); exact A6.
Qed.

(** ** The commit *)

(** What a mount of the device gives: a table with the places of [m] and the
    bitmaps for it. *)
Definition mounts (g : geom) (crc32 : list Z -> Z) (tbc : Z) (d : device) (m : list Z) : Prop :=
  forall rdonly e copy, meta_tbc e = tbc -> exsb_version e = exsb_version copy ->
  exists s t, vdfs4_build_snapshot_manager g crc32 rdonly e copy (Device (disk d) (exsb_disk d) []) = Ok (Val (s, t), e, copy, Device (disk d) (exsb_disk d) [])
  /\ same_shape m (base_t t) /\ (forall c, is_chunk m c -> place (base_t t) c = place m c)
  /\ snap_ok g (fun b => exists c, is_chunk m c /\ covers g m c b) s (base_t t).

Lemma placed_same (g : geom) (tbc : Z) (m m' : list Z) :
  placed_in g tbc m -> same_shape m m' -> (forall c, is_chunk m c -> place m' c = place m c) -> placed_in g tbc m'.
Proof.
  intros [P1 P2 P3] Hsh Hpl; split.
  - intros c Hc; apply (same_chunk m m') in Hc; [|done]; rewrite Hpl by done; auto.
  - intros c Hc; apply (same_chunk m m') in Hc; [|done]; rewrite Hpl by done; auto.
  - intros c d Hc Hd N; apply (same_chunk m m') in Hc, Hd; [|done|done]; rewrite !Hpl by done; auto.
Qed.

Lemma snap_ok_ext (g : geom) (C C' : Z -> Prop) (s : maps) (m : list Z) : (forall b, C b <-> C' b) -> snap_ok g C s m -> snap_ok g C' s m.
Proof.
  intros HC [Hb Hsz Hin Hal Hap Hnx Hsn Hmv Hold]; split; auto.
  - intros b Hbr; rewrite <- HC; auto.
  - intros c b Hc Hm Hcv; apply HC; eauto.
Qed.

Lemma loadable_mounts (g : geom) (crc32 : list Z -> Z) (tbc : Z) (d : device) (h mount s0 : Z) (mb mc m : list Z) (es : list (list Z)) :
  geom_ok g -> disk_ok g -> 0 <= tbc < 2 ^ 31 -> placed_in g tbc m ->
  loadable g crc32 d h mount s0 mb es mc -> same_shape m mc -> (forall c, is_chunk m c -> place mc c = place m c) -> mounts g crc32 tbc d m.
Proof.
  intros Hg Hd Ht Hp Hld Hsh Hpl rdonly e copy <- He; set (d0 := Device (disk d) (exsb_disk d) []).
  assert (loadable g crc32 d0 h mount s0 mb es mc) as Hld0 by (eapply loadable_frame; [exact Hld| |]; done).
  destruct (build_manager_spec g Hg Hd crc32 rdonly e copy d0 h mount s0 mb mc es Hld0 eq_refl He (placed_same _ _ _ _ Hp Hsh Hpl) Ht) as (s & E & Hsz & Hs).
  eexists s, _; split; [exact E|]; split; [done|]; split; [done|]; eapply snap_ok_ext; [|exact Hs]; intros b; cbn.
  split; intros (c & Hc & Hcv); exists c.
  - apply (same_chunk m mc) in Hc; [|done]; unfold covers in *; rewrite Hpl in Hcv by done; done.
  - split; [by apply (same_chunk m mc)|]; unfold covers in *; by rewrite Hpl.
Qed.

(** C5: The commit of the translation tables is atomic. Whatever the device answers
    to the writes, of which any page may be lost, a mount afterwards loads the
    tables of the last commit or those of this one; when the commit reports success
    it loads those of this one, and the driver can go on to the next transaction. *)
Theorem commit_atomic (g : geom) (crc32 : list Z -> Z) (tbc : Z) (d : device) (h mount s0 : Z) (mb : list Z) (es : list (list Z)) (mc : list Z) (t : tables) (nmount : Z) :
  geom_ok g -> disk_ok g -> (forall l, 0 <= crc32 l < 2 ^ 32) -> 0 <= tbc < 2 ^ 31 -> placed_in g tbc mc -> placed_in g tbc (base_t t) ->
  synced g crc32 d h mount s0 mb es mc t nmount -> sync_count t + 11 < 2 ^ 32 ->
  exists ret t' d', vdfs4_update_translation_tables g crc32 nmount t d = Ok (ret, t', d')
  /\ (mounts g crc32 tbc d' mc \/ mounts g crc32 tbc d' (base_t t))
  /\ (ret = 0 -> mounts g crc32 tbc d' (base_t t) /\ exists h' mount' s0' mb' es' mc', synced g crc32 d' h' mount' s0' mb' es' mc'
        (Tables (base_t t') (extended_table t') (iblock t') (sync_count t' + 1) (dirty_pages_count t') (use_base_table t') (exteneded_table_count t')) nmount).
Proof using Harea.
  intros Hg Hd Hcrc Htb Hp Hp' Hsy Hsm; destruct (commit_tables_spec g Hd crc32 Hcrc d h mount s0 mb es mc t nmount Hsy Hsm) as (ret & t' & d' & E & Hor & _ & _ & _ & H0).
  exists ret, t', d'; split; [exact E|]; split.
  - destruct Hor as [Hld|(h' & mt' & s0' & mb' & es' & mc' & Hld & Hsh & Hpl & _)].
    + left; by eapply loadable_mounts.
    + right; by eapply loadable_mounts.
  - intros ->; destruct (H0 eq_refl) as (_ & _ & h' & mt' & s0' & mb' & es' & mc' & _ & _ & Hsh & Hpl & Hsy'); split; [|eauto 10].
    eapply loadable_mounts; eauto; apply (sy_load _ _ _ _ _ _ _ _ _ _ _ Hsy').
Qed.

End Theorems.

(** ** Free blocks *)

(** Whether there are [n] clear bits in a row from [p] on. *)
Definition clear_run (m : list Z) (size n p : Z) : Prop :=
  exists q, p <= q /\ q + n <= size /\ forall i, q <= i < q + n -> bit m i = false.

Section Free.
Context `{Hfind : FindBitLaws}.

Lemma free_loop_spec (fuel : nat) (m : list Z) (size n p free : Z) (found : bool) :
  0 <= p <= size -> size <= 8 * lenZ m -> size - p <= Z.of_nat fuel -> 1 <= n -> (p < size -> bit m p = false) ->
  0 <= free -> free + (size - p) < 2 ^ 64 ->
  exists found', free_blocks_loop fuel m size n p free found = Ok (free + count (fun b => negb (bit m b)) p (size - p), found')
  /\ (found' = true <-> found = true \/ clear_run m size n p).
Proof using Hfind.
  revert p free found; induction fuel as [|fuel IH]; intros p free found Hp Hl Hf Hn Hc H0 H1; cbn [free_blocks_loop]; destruct (Z.ltb_spec p size) as [Hlt|Hge]; try lia.
  1, 3: exists found; replace (size - p) with 0 by lia; rewrite (count_all _ p 0 true) by lia; split; [f_equal; f_equal; lia|]; split; [by left|];
    intros [?|(q & ? & ? & _)]; [done|lia].
  destruct (find_next_bit_spec m size p Hp Hl) as (N1 & N2 & N3); set (a := find_next_bit m size p) in *; rewrite (proj2 (Z.ltb_ge size a)) by lia.
  assert (p < a) as Hpa by (destruct (Z.eq_dec a p) as [E|]; [rewrite E in N3; rewrite Hc in N3 by lia; specialize (N3 Hlt); done|lia]).
  destruct (find_next_zero_bit_spec m size a ltac:(lia) Hl) as (Z1 & Z2 & Z3); set (z := find_next_zero_bit m size a) in *.
  rewrite u64_small by lia; destruct (IH z (free + (a - p)) (found || (n <=? a - p))) as (found' & E & Hfd); try lia; try done; rewrite E; exists found'; split.
  - f_equal; f_equal; replace (size - p) with ((a - p) + ((z - a) + (size - z))) by lia; rewrite !count_split by lia.
    rewrite (count_all _ p (a - p) true) by (try lia; intros x Hx; rewrite N2 by lia; done).
    replace (p + (a - p)) with a by lia; rewrite (count_all _ a (z - a) false) by (try lia; intros x Hx; rewrite Z2 by lia; done).
    replace (a + (z - a)) with z by lia; lia.
  - rewrite Hfd, orb_true_iff; split.
    + intros [[Hfo|Hr]|(q & Q1 & Q2 & Q3)]; [by left| |]; right; [exists p|exists q]; split; [lia| |lia|]; split; [lia| |done|done].
      intros i Hi; rewrite N2 by lia; done.
    + intros [Hfo|(q & Q1 & Q2 & Q3)]; [by left; left|]; destruct (Z.le_gt_cases (q + n) a); [left; right; apply Z.leb_le; lia|].
      right; exists q; split; [|done]; destruct (Z.le_gt_cases z q); [done|]; exfalso; set (x := Z.max q a).
      assert (a < z) by (destruct (Z.eq_dec a z) as [E2|]; [rewrite <- E2 in Z3; specialize (N3 ltac:(lia)); specialize (Z3 ltac:(lia)); congruence|lia]).
      assert (bit m x = false) as E1 by (apply Q3; lia); rewrite Z2 in E1 by lia; done.
Qed.

(** [free_blocks_in_bitmap_contig_check] ends and counts the clear bits below
    the size, and says whether there is a run of the length asked for. *)
Theorem free_blocks_correct (m : list Z) (size contig : Z) :
  0 <= size <= 8 * lenZ m -> size < 2 ^ 64 -> 1 <= contig ->
  exists found, free_blocks_in_bitmap_contig_check m size contig = Ok (count (fun b => negb (bit m b)) 0 size, found)
  /\ (found = true <-> clear_run m size contig 0).
Proof using Hfind.
  intros Hs Hs64 Hn; unfold free_blocks_in_bitmap_contig_check; destruct (find_next_zero_bit_spec m size 0 ltac:(lia) ltac:(lia)) as (Z1 & Z2 & Z3).
  set (z := find_next_zero_bit m size 0) in *; destruct (free_loop_spec (Z.to_nat size) m size contig z 0 false) as (f & E & Hf); try lia; [done|].
  exists f; rewrite E; split.
  - f_equal; f_equal; replace size with (z + (size - z)) at 2 by lia; rewrite count_split by lia.
    rewrite (count_all _ 0 z false) by (try lia; intros x Hx; rewrite Z2 by lia; done); done.
  - rewrite Hf; split; [intros [?|(q & Q1 & Q2)]; [done|]|intros (q & Q1 & Q2 & Q3); right]; exists q; split; try done; [lia|].
    destruct (Z.le_gt_cases z q); [done|]; assert (bit m q = false) as E1 by (apply Q3; lia); rewrite Z2 in E1 by lia; done.
Qed.

End Free.

(** ** A volume *)

(** Five special files of one chunk each, in a metadata area of 64 blocks with
    nodes of four; the tables area has 32 blocks from block 100 on. *)
Section Volume.
Import PlainArea PlainFind.

Definition g0 : geom := Geom 2 0 12 14 (2 ^ 30) 100 32 true 0.
Definition sum32 (l : list Z) : Z := foldr Z.add 0 l mod 2 ^ 32.
Definition zero_page : list Z := replicate (Z.to_nat PAGE_SIZE) 0.

Definition raw0 : list Z :=
  let header := replicate 64 0 ++ flat_map (le_bytes 8) [104; 120; 136; 152; 168] in
  let records := flat_map (fun p => le_bytes 8 p ++ replicate 8 0) [0; 12; 4; 13; 8] in
  header ++ records ++ replicate (Z.to_nat (PAGE_SIZE - 184)) 0.

Definition table0 : list Z := match fill_descriptor_and_calculate_crc sum32 true 1 1 raw0 with Ok m => m | _ => [] end.
Definition exsb0 : exsb := Exsb 1 1 [(200, 64)] 64.
Definition device0 (l : list (Z * nat)) : device := Device {[800 := table0]} (exsb0, exsb0) l.
Definition tables0 : tables := Tables table0 zero_page 1 2 0 false 0.
Definition maps0 : maps :=
  let zero := replicate (Z.to_nat (words 64)) 0 in
  match build_snapshot_bitmaps g0 table0 (Maps zero zero zero 0 64 0 0) with Ok s => s | _ => Maps [] [] [] 0 0 0 0 end.

Lemma geom0_ok : geom_ok g0.
Proof. split; unfold PAGE_SHIFT; cbn; lia. Qed.

Lemma disk0_ok : disk_ok g0.
Proof. split; try reflexivity; vm_compute; discriminate. Qed.

Lemma sum32_range (l : list Z) : 0 <= sum32 l < 2 ^ 32.
Proof. apply Z.mod_pos_bound; lia. Qed.

Lemma table0_ok : base_ok table0.
Proof. apply base_okb_ok; vm_compute; reflexivity. Qed.

Lemma placed0 : placed_in g0 64 table0.
Proof. apply placed_inb_ok; vm_compute; reflexivity. Qed.

Lemma sealed0 : sealed sum32 VDFS4_SNAPSHOT_BASE_TABLE (total table0) 1 1 table0.
Proof.
  destruct (fill_base_spec sum32 sum32_range raw0 1 1) as (m & E & Hs & _); [apply base_okb_ok; vm_compute; reflexivity|lia|lia|].
  replace (total table0) with (total raw0) by (vm_compute; reflexivity).
  assert (table0 = m) as -> by (unfold table0; by rewrite E); done.
Qed.

Definition snapshot0 (b : Z) : Prop := exists c, is_chunk table0 c /\ covers g0 table0 c b.

Lemma snap0 : snap_ok g0 snapshot0 maps0 table0.
Proof.
  destruct (build_bitmaps_spec g0 geom0_ok table0 64 table0_ok placed0 ltac:(lia)) as (s & E & _ & Hs); unfold maps0; by rewrite E.
Qed.

Lemma tab0 : tab_ok table0 tables0.
Proof. intros _; split; [done|]; exists []; split; [apply ext_zero|]; split; [done|]; intros c Hc; done. Qed.

Lemma chunk0 : is_chunk table0 (2, 0).
Proof. split; cbn; [unfold special, VDFS4_FSFILE, VDFS4_LSFILE, VDFS4_CAT_TREE_INO, VDFS4_XATTR_TREE_INO; lia|]; replace (cnt table0 2) with 1 by (vm_compute; reflexivity); lia. Qed.

Lemma page0_ne (l : list (Z * nat)) (b : Z) : b <> 0 -> page g0 (device0 l) b = zero_page.
Proof. intros Hb; unfold page, page_at, device0, sec; cbn [disk]; rewrite lookup_singleton_ne; [done|]; cbn [tables_begin g0]; lia. Qed.

Lemma zero_stops : validate_extended_table sum32 zero_page = Ok 0.
Proof. vm_compute; reflexivity. Qed.

Lemma np0 : np table0 = 1.
Proof. vm_compute; reflexivity. Qed.

Lemma loadable0 (l : list (Z * nat)) : loadable g0 sum32 (device0 l) 0 1 1 table0 [] table0.
Proof.
  assert (half g0 = 16) as Eh by reflexivity; split; rewrite ?np0, ?Eh; change (lenZ []) with 0; unfold VDFS4_SNAPSHOT_EXT_TABLES; try lia.
  - vm_compute; reflexivity.
  - apply sealed0.
  - intros j Hj; assert (j = 0) as -> by lia; unfold page, page_at; cbn [disk device0]; change (sec g0 (0 + 0)) with 800; rewrite lookup_singleton_eq; vm_compute; reflexivity.
  - apply chain_nil; [apply table0_ok|vm_compute; reflexivity|vm_compute; reflexivity].
  - intros _; exists 0; rewrite page0_ne by lia; split; [apply zero_stops|]; unfold version; lia.
  - rewrite page0_ne by lia; split; [vm_compute; reflexivity|]; split; [apply Forall_replicate; unfold is_byte; lia|]; left; vm_compute; discriminate.
  - unfold version; lia.
Qed.

Lemma synced0 (l : list (Z * nat)) : synced g0 sum32 (device0 l) 0 1 1 table0 [] table0 tables0 1.
Proof.
  assert (half g0 = 16) as Eh by reflexivity; split; cbn [base_t extended_table sync_count use_base_table exteneded_table_count iblock tables0]; rewrite ?np0, ?Eh; change (lenZ []) with 0; unfold VDFS4_SNAPSHOT_EXT_TABLES; try lia.
  - apply loadable0.
  - apply table0_ok.
  - vm_compute; reflexivity.
  - apply tab0.
  - reflexivity.
  - unfold version; lia.
  - intros x b Hx Hb; exists 0; rewrite page0_ne by lia; split; [apply zero_stops|]; unfold version; lia.
Qed.

Lemma add_chunk_cow_witness :
  exists s t, vdfs4_add_chunk_no_lock g0 maps0 tables0 2 1 = Ok (s, t) /\ place (base_t t) (2, 0) = 16 /\ snap_ok g0 snapshot0 s (base_t t).
Proof.
  destruct (add_chunk_cow g0 snapshot0 table0 maps0 tables0 2 1 geom0_ok snap0 tab0 eq_refl chunk0) as (s & t & E & Hs & _).
  exists s, t; split; [exact E|]; split; [|exact Hs].
  apply (f_equal (fun r => match r with Ok (_, t) => place (base_t t) (2, 0) | _ => 0 end)) in E; rewrite <- E; vm_compute; reflexivity.
Defined.

(** The first write fails after no page, the second with a page, the third succeeds. *)
Lemma commit_atomic_witness :
  exists t d, vdfs4_update_translation_tables g0 sum32 1 tables0 (device0 [(-5, 0%nat); (-5, 1%nat)]) = Ok (0, t, d) /\ mounts g0 sum32 64 d table0.
Proof.
  destruct (commit_atomic g0 sum32 64 (device0 [(-5, 0%nat); (-5, 1%nat)]) 0 1 1 table0 [] table0 tables0 1 geom0_ok disk0_ok sum32_range ltac:(lia) placed0 placed0 (synced0 _) ltac:(cbn; lia))
    as (ret & t & d & E & _ & H0).
  assert (ret = 0) as ->; [|exists t, d; split; [exact E|apply H0; reflexivity]].
  apply (f_equal (fun r => match r with Ok (x, _, _) => x | _ => 1 end)) in E; rewrite <- E; vm_compute; reflexivity.
Defined.

Lemma free_blocks_correct_witness :
  free_blocks_in_bitmap_contig_check (snapshot_bitmap maps0) 64 8 = Ok (50, true) /\ clear_run (snapshot_bitmap maps0) 64 8 0.
Proof.
  destruct (free_blocks_correct (snapshot_bitmap maps0) 64 8) as (f & E & Hf); [vm_compute; split; discriminate|lia|lia|].
  assert (free_blocks_in_bitmap_contig_check (snapshot_bitmap maps0) 64 8 = Ok (50, true)) as E2 by (vm_compute; reflexivity).
  split; [exact E2|]; rewrite E2 in E; generalize dependent (count (fun b => negb (bit (snapshot_bitmap maps0) b)) 0 64).
  intros k E; injection E as _ E; apply Hf; symmetry; exact E.
Defined.

End Volume.
