(* ===== verification/RuntimeExtents.v ===== *)
(** Runtime extents: the delayed-allocation block list of an inode,
    src/linux/fs/vdfs4/extents.c (vdfs4_runtime_extent_add, _del, _exists,
    _count and vdfs4_truncate_runtime_blocks).

    The kernel list is a [list] of entries in list order. [covers] is the set of
    logical blocks an inode has reserved; the theorems state each operation as
    an operation on that set, and what each does to the order of the list. *)

From Stdlib Require Import ZArith Lia Bool List.
From stdpp Require Import base list sets.
From S2P Require Import Prelude.

Open Scope Z_scope.

(** struct vdfs4_runtime_extent_info *)
Record rext : Type := Rext { r_iblock : Z; r_hint : Z; r_count : Z }.

#[export] Instance rext_eq_dec : EqDecision rext.
Proof. solve_decision. Defined.

(** [entry->iblock + entry->block_count] in sector_t arithmetic *)
Definition r_end (e : rext) : Z := r_iblock e +64 r_count e.

(** [vdfs4_runtime_extent_add]; [mem] tells whether kzalloc succeeds. *)
Fixpoint vdfs4_runtime_extent_add (mem : bool) (iblock hint : Z) (l : list rext)
    : Z * list rext :=
  match l with
  | [] => if mem then (0, [Rext iblock hint 1]) else (- ENOMEM, [])
  | entry :: next =>
      if r_end entry =? iblock then
        let entry := Rext (r_iblock entry) (r_hint entry) (r_count entry +32 1) in
        match next with
        | next_entry :: rest =>
            if r_end entry =? r_iblock next_entry then
              (0, Rext (r_iblock entry) (r_hint next_entry)
                       (r_count next_entry +32 r_count entry) :: rest)
            else (0, entry :: next)
        | [] => (0, entry :: next)
        end
      else if r_iblock entry =? iblock +64 1 then
        (0, Rext (r_iblock entry -64 1) (r_hint entry) (r_count entry +32 1) :: next)
      else if (r_iblock entry <=? iblock) && (iblock <? r_end entry) then (- EEXIST, l)
      else if iblock <? r_iblock entry then
        if mem then (0, Rext iblock hint 1 :: l) else (- ENOMEM, l)
      else
        let '(ret, next) := vdfs4_runtime_extent_add mem iblock hint next in
        (ret, entry :: next)
  end.

(** [vdfs4_runtime_extent_del] *)
Fixpoint vdfs4_runtime_extent_del (mem : bool) (iblock : Z) (l : list rext) : Z * list rext :=
  match l with
  | [] => (- EINVAL, [])
  | entry :: next =>
      if r_iblock entry =? iblock then
        let entry := Rext (r_iblock entry +64 1) (r_hint entry) (r_count entry -32 1) in
        if r_count entry =? 0 then (0, next) else (0, entry :: next)
      else if r_end entry =? iblock +64 1 then
        (0, Rext (r_iblock entry) (r_hint entry) (r_count entry -32 1) :: next)
      else if (r_iblock entry <=? iblock) && (iblock <? r_end entry) then
        if mem then
          let new_iblock := iblock +64 1 in
          let new := Rext new_iblock 0 (u32 (r_iblock entry - new_iblock) +32 r_count entry) in
          (0, new :: Rext (r_iblock entry) (r_hint entry)
                          (r_count entry -32 (r_count new +32 1)) :: next)
        else (- ENOMEM, l)
      else
        let '(ret, next) := vdfs4_runtime_extent_del mem iblock next in (ret, entry :: next)
  end.

(** [vdfs4_truncate_runtime_blocks]: total of freed blocks and the list left. *)
Fixpoint vdfs4_truncate_runtime_blocks (new_size total : Z) (l : list rext) : Z * list rext :=
  match l with
  | [] => (total, [])
  | entry :: next =>
      if new_size <=? r_iblock entry then
        vdfs4_truncate_runtime_blocks new_size (total +64 r_count entry) next
      else if new_size <=? r_end entry then
        let trunc_size := u32 (new_size - r_iblock entry) in
        let '(t, next) :=
          vdfs4_truncate_runtime_blocks new_size (total +64 (r_count entry -32 trunc_size)) next in
        (t, Rext (r_iblock entry) (r_hint entry) trunc_size :: next)
      else
        let '(t, next) := vdfs4_truncate_runtime_blocks new_size total next in (t, entry :: next)
  end.

(** [vdfs4_runtime_extent_exists] *)
Fixpoint vdfs4_runtime_extent_exists (iblock : Z) (l : list rext) : Z :=
  match l with
  | [] => 0
  | entry :: next =>
      if (r_iblock entry <=? iblock) && (iblock <? r_end entry) then 1
      else vdfs4_runtime_extent_exists iblock next
  end.

(** [vdfs4_runtime_extent_count] *)
Definition vdfs4_runtime_extent_count (l : list rext) : Z :=
  foldl (fun count e => count +32 r_count e) 0 l.

(** ** Specification *)

(** Block [b] is in entry [e]. *)
Definition in_ext (b : Z) (e : rext) : Prop := r_iblock e <= b < r_iblock e + r_count e.

#[export] Instance in_ext_dec (b : Z) (e : rext) : Decision (in_ext b e).
Proof. unfold in_ext; apply _. Defined.

(** The set of reserved blocks. *)
Definition covers (l : list rext) (b : Z) : Prop := Exists (in_ext b) l.

#[export] Instance covers_dec (l : list rext) (b : Z) : Decision (covers l b).
Proof. unfold covers; apply _. Defined.

(** Number of blocks, unbounded. *)
Fixpoint total (l : list rext) : Z :=
  match l with [] => 0 | e :: l => r_count e + total l end.

(** An entry of a file: not empty, and inside the 32-bit block range that
    VDFS4 files have. *)
Definition ext_ok (e : rext) : Prop :=
  0 < r_count e /\ 0 <= r_iblock e /\ r_iblock e + r_count e < 2 ^ 32.

(** No two entries share a block. *)
Definition disjoint_from (e : rext) (l : list rext) : Prop :=
  Forall (fun f => r_iblock e + r_count e <= r_iblock f
                   \/ r_iblock f + r_count f <= r_iblock e) l.

Fixpoint disjoint (l : list rext) : Prop :=
  match l with [] => True | e :: l => disjoint_from e l /\ disjoint l end.

(** Entries in increasing order, with a gap between neighbours. *)
Fixpoint ordered (l : list rext) : Prop :=
  match l with
  | [] => True
  | e :: l => Forall (fun f => r_iblock e + r_count e < r_iblock f) l /\ ordered l
  end.

Definition wf (l : list rext) : Prop := Forall ext_ok l /\ ordered l.

Lemma rt_covers_nil (b : Z) : covers [] b <-> False.
Proof. unfold covers; by rewrite Exists_nil. Qed.

Lemma rt_covers_cons (e : rext) (l : list rext) (b : Z) :
  covers (e :: l) b <-> in_ext b e \/ covers l b.
Proof. unfold covers; by rewrite Exists_cons. Qed.

#[export] Hint Rewrite rt_covers_nil rt_covers_cons : vdfs.

Lemma r_end_ok (e : rext) : ext_ok e -> r_end e = r_iblock e + r_count e.
Proof. intros (? & ? & ?); unfold r_end; apply u64_small; lia. Qed.

Lemma above (x b : Z) (l : list rext) :
  Forall (fun f => x < r_iblock f) l -> covers l b -> x < b.
Proof.
  unfold covers; rewrite Forall_forall, Exists_exists.
  intros Hlt (f & Hf & Hb); specialize (Hlt f Hf); unfold in_ext in Hb; lia.
Qed.

Lemma above_trans (x y : Z) (l : list rext) :
  x <= y -> Forall (fun f => y < r_iblock f) l -> Forall (fun f => x < r_iblock f) l.
Proof. intros Hxy H; eapply Forall_impl; [exact H|]; cbn; intros; lia. Qed.

Lemma ordered_disjoint (l : list rext) : ordered l -> disjoint l.
Proof.
  induction l as [|e l IH]; cbn; [done|]; intros [H Hl]; split; [|auto].
  eapply Forall_impl; [exact H|]; cbn; intros; lia.
Qed.

(** ** Lookup and count *)

Lemma exists_spec (b : Z) (l : list rext) :
  Forall ext_ok l ->
  vdfs4_runtime_extent_exists b l = if decide (covers l b) then 1 else 0.
Proof.
  induction 1 as [|e l He Hl IH]; [done|]; cbn [vdfs4_runtime_extent_exists].
  rewrite r_end_ok, IH by done.
  assert (((r_iblock e <=? b) && (b <? r_iblock e + r_count e)) = true <-> in_ext b e) as Hin
    by (unfold in_ext; rewrite andb_true_iff, Z.leb_le, Z.ltb_lt; done).
  destruct (_ && _), (decide (covers l b)), (decide (covers (e :: l) b)) as [K|K];
    rewrite rt_covers_cons in K; naive_solver.
Qed.

Lemma total_nonneg (l : list rext) : Forall ext_ok l -> 0 <= total l.
Proof. induction 1 as [|e l (? & _) Hl IH]; cbn; lia. Qed.

Lemma count_spec (l : list rext) :
  Forall ext_ok l -> total l < 2 ^ 32 -> vdfs4_runtime_extent_count l = total l.
Proof.
  intros Hl Ht; unfold vdfs4_runtime_extent_count.
  enough (forall c, 0 <= c -> c + total l < 2 ^ 32 ->
    foldl (fun count e => count +32 r_count e) c l = c + total l) as H by (rewrite H; lia).
  clear Ht; induction Hl as [|e l (He & _) Hl IH]; intros c Hc Hlt; cbn in *; [lia|].
  pose proof (total_nonneg l Hl); rewrite u32_small by lia; rewrite IH; lia.
Qed.

(** An ordered list of 32-bit blocks has fewer than 2^32 of them. *)
Lemma total_bound (l : list rext) (x : Z) :
  wf l -> 0 <= x < 2 ^ 32 -> Forall (fun f => x <= r_iblock f) l -> total l <= 2 ^ 32 - 1 - x.
Proof.
  intros [Hok Ho]; revert x; induction Hok as [|e l (H1 & H2 & H3) Hl IH]; intros x Hx Hf; cbn in *; [lia|].
  destruct Ho as [Hlt Ho]; rewrite Forall_cons in Hf; destruct Hf as [Hf _].
  pose proof (IH Ho (r_iblock e + r_count e)) as K.
  assert (Forall (fun f => r_iblock e + r_count e <= r_iblock f) l)
    by (eapply Forall_impl; [exact Hlt|]; cbn; intros; lia).
  specialize (K ltac:(lia) ltac:(done)); lia.
Qed.

(** ** Insertion *)

Definition block_ok (b : Z) : Prop := 0 <= b /\ b + 1 < 2 ^ 32.

(** Result of an insertion that succeeds. *)
Definition added (b : Z) (l l' : list rext) : Prop :=
  wf l' /\ total l' = total l + 1
  /\ (forall x, covers l' x <-> covers l x \/ x = b)
  /\ forall y, y < b -> Forall (fun f => y < r_iblock f) l -> Forall (fun f => y < r_iblock f) l'.

(** Sets of blocks that differ only in explicit ranges. *)
Ltac rx_covers :=
  intros ?x; rewrite ?rt_covers_cons; unfold in_ext; cbn;
  match goal with
  | |- context [covers ?l ?x] =>
      destruct (decide (covers l x)) as [?C|?C]; [tauto|];
      cut (forall C : Prop, ~ C -> C <-> False); [intros ?F; rewrite !(F _ C); lia|tauto]
  end.

Ltac rx_solve := unfold ext_ok, in_ext in *; cbn in *; repeat split; auto; try lia.

(** The new block extends the first entry upwards. *)
Lemma added_extend (e : rext) (l : list rext) :
  wf (e :: l) -> block_ok (r_iblock e + r_count e) ->
  Forall (fun f => r_iblock e + r_count e + 1 < r_iblock f) l ->
  added (r_iblock e + r_count e) (e :: l) (Rext (r_iblock e) (r_hint e) (r_count e +32 1) :: l).
Proof.
  intros [Hok [Hgt Ho]] Hb Hgap; rewrite Forall_cons in Hok; destruct Hok as [He Hl].
  unfold ext_ok, block_ok in *; unwrap.
  split; [split; [constructor; [rx_solve|done]|cbn; split; [|done]]|].
  { eapply Forall_impl; [exact Hgap|]; cbn; intros; lia. }
  split; [cbn; lia|]; split.
  - rx_covers.
  - intros y Hy; rewrite !Forall_cons; cbn; auto.
Qed.

(** The new block joins the first two entries. *)
Lemma rt_added_join (e n : rext) (l : list rext) :
  wf (e :: n :: l) -> r_iblock e + r_count e + 1 = r_iblock n ->
  added (r_iblock e + r_count e) (e :: n :: l)
    (Rext (r_iblock e) (r_hint n) (r_count n +32 (r_count e +32 1)) :: l).
Proof.
  intros [Hok [Hgt [Hgt2 Ho]]] Hadj; rewrite !Forall_cons in Hok; destruct Hok as (He & Hn & Hl).
  unfold ext_ok in *; unwrap.
  split; [split; [constructor; [rx_solve|done]|cbn; split; [|done]]|].
  { eapply Forall_impl; [exact Hgt2|]; cbn; intros; lia. }
  split; [cbn; lia|]; split.
  - rx_covers.
  - intros y Hy; rewrite !Forall_cons; cbn; naive_solver.
Qed.

(** The new block extends the first entry downwards. *)
Lemma added_front (e : rext) (l : list rext) (b : Z) :
  wf (e :: l) -> block_ok b -> r_iblock e = b + 1 ->
  added b (e :: l) (Rext (r_iblock e -64 1) (r_hint e) (r_count e +32 1) :: l).
Proof.
  intros [Hok [Hgt Ho]] Hb Hadj; rewrite Forall_cons in Hok; destruct Hok as [He Hl].
  unfold ext_ok, block_ok in *; unwrap.
  split; [split; [constructor; [rx_solve|done]|cbn; split; [|done]]|].
  { eapply Forall_impl; [exact Hgt|]; cbn; intros; lia. }
  split; [cbn; lia|]; split.
  - rx_covers.
  - intros y Hy; rewrite !Forall_cons; cbn; intros [? ?]; split; [lia|done].
Qed.

(** A new entry in front. *)
Lemma added_new (l : list rext) (b hint : Z) :
  wf l -> block_ok b -> Forall (fun f => b + 1 < r_iblock f) l ->
  added b l (Rext b hint 1 :: l).
Proof.
  intros [Hok Ho] Hb Hgt; unfold block_ok in *.
  split; [split; [constructor; [rx_solve|done]|cbn; split; [|done]]|].
  { eapply Forall_impl; [exact Hgt|]; cbn; intros; lia. }
  split; [cbn; lia|]; split.
  - rx_covers.
  - intros y Hy; rewrite !Forall_cons; cbn; auto.
Qed.

(** An insertion in the tail is one in the list. *)
Lemma added_cons (e : rext) (l l' : list rext) (b : Z) :
  wf (e :: l) -> r_iblock e + r_count e < b -> added b l l' -> added b (e :: l) (e :: l').
Proof.
  intros [Hok [Hgt Ho]] Hb ([Hok' Ho'] & Ht & Hc & Hl); rewrite Forall_cons in Hok; destruct Hok as [He _].
  split; [split; [by constructor|cbn; split; [by apply Hl|done]]|].
  split; [cbn; lia|]; split.
  - intros x; rewrite !rt_covers_cons, Hc; naive_solver.
  - intros y Hy; rewrite !Forall_cons; naive_solver.
Qed.

Lemma add_spec (mem : bool) (b hint : Z) (l : list rext) :
  wf l -> block_ok b ->
  let '(ret, l') := vdfs4_runtime_extent_add mem b hint l in
  (covers l b /\ ret = - EEXIST /\ l' = l)
  \/ (~ covers l b /\ mem = false /\ ret = - ENOMEM /\ l' = l)
  \/ (~ covers l b /\ ret = 0 /\ added b l l').
Proof.
  intros Hwf Hb; induction l as [|e l IH].
  { assert (~ covers [] b) by (by intros ?%rt_covers_nil).
    destruct mem; [right; right|by right; left].
    split; [done|split; [done|by apply added_new]]. }
  pose proof Hwf as [Hok [Hgt Ho]]; rewrite Forall_cons in Hok; destruct Hok as [He Hl].
  assert (wf l) as Hwl by done; specialize (IH Hwl).
  pose proof He as (E1 & E2 & E3); unfold block_ok in Hb.
  assert (~ in_ext b e -> b <= r_iblock e + r_count e -> ~ covers (e :: l) b) as Hnc.
  { intros Hi Hle; rewrite rt_covers_cons; intros [?|Hc]; [done|].
    pose proof (above _ b l Hgt Hc); lia. }
  cbn [vdfs4_runtime_extent_add]; rewrite r_end_ok by done.
  destruct (Z.eqb_spec (r_iblock e + r_count e) b) as [<-|N1].
  { assert (~ covers (e :: l) (r_iblock e + r_count e)) as C by (apply Hnc; unfold in_ext; lia).
    destruct l as [|n l].
    { right; right; split; [done|split; [done|by apply added_extend]]. }
    rewrite Forall_cons in Hgt, Hl; destruct Hgt as [Hn Hgt], Hl as [Hnok Hl].
    rewrite r_end_ok by (unfold ext_ok in *; cbn; unwrap; lia); cbn [r_iblock r_count].
    destruct (Z.eqb_spec (r_iblock e + (r_count e +32 1)) (r_iblock n)) as [Ej|Nj];
      right; right; (split; [done|]); (split; [done|]); unfold ext_ok in Hnok.
    + rewrite u32_small in Ej by lia; apply rt_added_join; [done|lia].
    + rewrite u32_small in Nj by lia; apply added_extend; [done|done|].
      destruct Ho as [Ho _]; constructor; [lia|]; eapply Forall_impl; [exact Ho|]; cbn; intros; lia. }
  rewrite (u64_small (b + 1)) by lia.
  destruct (Z.eqb_spec (r_iblock e) (b + 1)) as [E|N2].
  { right; right; split; [apply Hnc; unfold in_ext; lia|]; split; [done|by apply added_front]. }
  destruct (Z.leb_spec (r_iblock e) b), (Z.ltb_spec b (r_iblock e + r_count e)); cbn [andb].
  { left; split; [rewrite rt_covers_cons; left; unfold in_ext; lia|done]. }
  { destruct (Z.ltb_spec b (r_iblock e)); [lia|].
    destruct (vdfs4_runtime_extent_add mem b hint l) as [ret l'].
    rewrite rt_covers_cons; unfold in_ext at 1 2 3.
    destruct IH as [(C & -> & ->)|[(C & -> & -> & ->)|(C & -> & A)]].
    - left; auto.
    - right; left; repeat split; auto; intros [?|?]; [lia|done].
    - right; right; split; [intros [?|?]; [lia|done]|split; [done|apply added_cons; [done|lia|done]]]. }
  all: destruct (Z.ltb_spec b (r_iblock e)); try lia.
  all: assert (~ covers (e :: l) b) as C by (apply Hnc; unfold in_ext; lia).
  all: destruct mem; [right; right|by right; left].
  all: split; [done|]; split; [done|]; apply added_new; [done|done|].
  all: constructor; [lia|]; eapply above_trans; [|exact Hgt]; lia.
Qed.

(** ** Deletion

    Deleting keeps the entries disjoint, not ordered: the upper half of a split
    entry is linked in front of the lower half. *)

Definition deleted (b : Z) (l l' : list rext) : Prop :=
  Forall ext_ok l' /\ disjoint l' /\ total l' = total l - 1
  /\ (forall x, covers l' x <-> covers l x /\ x <> b)
  /\ forall e, disjoint_from e l -> disjoint_from e l'.

Lemma disjoint_from_in (e : rext) (l : list rext) (b : Z) :
  in_ext b e -> disjoint_from e l -> ~ covers l b.
Proof.
  unfold disjoint_from, covers, in_ext; rewrite Forall_forall, Exists_exists.
  intros He Hd (f & Hf & Hb); specialize (Hd f Hf); lia.
Qed.

Lemma disjoint_from_shrink (e e' : rext) (l : list rext) :
  r_iblock e <= r_iblock e' -> r_iblock e' + r_count e' <= r_iblock e + r_count e ->
  disjoint_from e l -> disjoint_from e' l.
Proof. intros ? ? H; eapply Forall_impl; [exact H|]; cbn; intros; lia. Qed.

(** The shape of every deletion that works on the first entry: the entry is
    replaced by parts of it. *)
Lemma deleted_parts (e : rext) (l parts : list rext) (b : Z) :
  Forall ext_ok (e :: l) -> disjoint (e :: l) -> in_ext b e ->
  Forall ext_ok parts -> disjoint parts -> total parts = r_count e - 1 ->
  (forall x, covers parts x <-> in_ext x e /\ x <> b) ->
  Forall (fun p => r_iblock e <= r_iblock p /\ r_iblock p + r_count p <= r_iblock e + r_count e) parts ->
  deleted b (e :: l) (parts ++ l).
Proof.
  rewrite Forall_cons; cbn; intros [He Hl] [Hd Hdl] Hin Hp Hdp Ht Hc Hsub.
  split; [by apply Forall_app|]; split; [|split; [|split]].
  - clear Ht Hc; induction parts as [|p ps IH]; [done|]; cbn in *.
    rewrite Forall_cons in Hp, Hsub; destruct Hsub as [Hsp Hsub], Hp, Hdp; split; [|auto].
    apply Forall_app; split; [done|]; eapply disjoint_from_shrink; [..|exact Hd]; lia.
  - transitivity (total parts + total l); [clear|cbn; lia].
    induction parts; cbn; lia.
  - intros x; unfold covers; rewrite Exists_app; change (Exists (in_ext x) ?k) with (covers k x).
    rewrite Hc, rt_covers_cons; pose proof (disjoint_from_in e l b Hin Hd).
    split; [intros [[? ?]|?]; [tauto|split; [tauto|congruence]]|tauto].
  - intros f; unfold disjoint_from; rewrite Forall_cons, Forall_app; intros [Hf Hfl]; split; [|done].
    rewrite Forall_forall in Hsub, Hp |- *; intros p Hpin.
    specialize (Hsub p Hpin); specialize (Hp p Hpin); unfold ext_ok in Hp; lia.
Qed.

Lemma deleted_cons (e : rext) (l l' : list rext) (b : Z) :
  ext_ok e -> disjoint (e :: l) -> ~ in_ext b e -> deleted b l l' -> deleted b (e :: l) (e :: l').
Proof.
  intros He [Hd Hdl] Hb (Hok & Hdj & Ht & Hc & Hf).
  split; [by constructor|]; split; [split; auto|]; split; [cbn; lia|]; split.
  - intros x; rewrite !rt_covers_cons, Hc; split; [intros [?|[? ?]]; split; auto; congruence|tauto].
  - intros f; unfold disjoint_from; rewrite !Forall_cons; naive_solver.
Qed.

(** Closes the side conditions of [deleted_parts] for an explicit list of
    parts. *)
Ltac rx_parts :=
  first
    [ intros x; rewrite ?rt_covers_cons, rt_covers_nil; unfold in_ext; cbn; lia
    | cbn; lia
    | repeat (constructor; unfold ext_ok, disjoint_from; cbn; try lia) ].

Lemma del_spec (mem : bool) (b : Z) (l : list rext) :
  Forall ext_ok l -> disjoint l -> block_ok b ->
  let '(ret, l') := vdfs4_runtime_extent_del mem b l in
  (~ covers l b /\ ret = - EINVAL /\ l' = l)
  \/ (covers l b /\ mem = false /\ ret = - ENOMEM /\ l' = l)
  \/ (covers l b /\ ret = 0 /\ deleted b l l').
Proof.
  intros Hok Hd Hb; induction l as [|e l IH].
  { left; split; [by intros ?%rt_covers_nil|done]. }
  pose proof Hok as Hok0; rewrite Forall_cons in Hok; destruct Hok as [He Hl].
  specialize (IH Hl (proj2 Hd)); pose proof He as (E1 & E2 & E3); unfold block_ok in Hb.
  pose proof (deleted_parts e l) as HP.
  cbn [vdfs4_runtime_extent_del]; rewrite r_end_ok by done.
  assert (in_ext b e -> covers (e :: l) b) as Hcov by (rewrite rt_covers_cons; tauto).
  destruct (Z.eqb_spec (r_iblock e) b) as [<-|N1].
  { assert (in_ext (r_iblock e) e) by (unfold in_ext; lia); cbn [r_count].
    unwrap; destruct (Z.eqb_spec (r_count e - 1) 0); right; right; (split; [auto|split; [done|]]).
    - apply (HP []); auto; try (cbn; lia).
      intros x; rewrite rt_covers_nil; unfold in_ext; lia.
    - eapply (HP [_]); auto; rx_parts. }
  unwrap; destruct (Z.eqb_spec (r_iblock e + r_count e) (b + 1)) as [N2|N2].
  { assert (in_ext b e) by (unfold in_ext; lia).
    right; right; split; [auto|split; [done|]]; eapply (HP [_]); auto; rx_parts. }
  destruct (Z.leb_spec (r_iblock e) b), (Z.ltb_spec b (r_iblock e + r_count e)); cbn [andb].
  1: { assert (in_ext b e) by (unfold in_ext; lia).
    destruct mem; [right; right|right; left; auto].
    split; [auto|split; [done|]]; cbn [r_count r_iblock].
    replace (u32 (r_iblock e - (b + 1)) +32 r_count e) with (r_iblock e + r_count e - (b + 1)).
    2: { unfold u32; rewrite Zplus_mod_idemp_l; rewrite Z.mod_small; lia. }
    unwrap; eapply (HP [_; _]); auto; rx_parts. }
  all: assert (~ in_ext b e) as Hn by (unfold in_ext; lia).
  all: destruct (vdfs4_runtime_extent_del mem b l) as [ret l']; rewrite rt_covers_cons.
  all: destruct IH as [(C & -> & ->)|[(C & -> & -> & ->)|(C & -> & A)]]; [tauto|tauto|].
  all: right; right; split; [tauto|split; [done|by apply deleted_cons]].
Qed.

(** ** Truncation *)

Lemma truncate_total (n t : Z) (l : list rext) :
  Forall ext_ok l -> 0 <= t -> t + total l < 2 ^ 64 -> 0 <= n < 2 ^ 32 ->
  let '(t', l') := vdfs4_truncate_runtime_blocks n t l in
  t' + total l' = t + total l
  /\ Forall ext_ok l'
  /\ (forall x, covers l' x <-> covers l x /\ x < n)
  /\ (forall y, Forall (fun f => y < r_iblock f) l -> Forall (fun f => y < r_iblock f) l')
  /\ (ordered l -> ordered l').
Proof.
  intros Hok; revert t; induction Hok as [|e l (E1 & E2 & E3) Hl IH]; intros t Ht Hlt Hn.
  { split; [done|]; split; [done|]; split; [|done].
    intros x; pose proof (rt_covers_nil x); tauto. }
  pose proof (total_nonneg l Hl); cbn [total] in Hlt.
  cbn [vdfs4_truncate_runtime_blocks]; rewrite r_end_ok by done.
  destruct (Z.leb_spec n (r_iblock e)); [|destruct (Z.leb_spec n (r_iblock e + r_count e))].
  - unwrap; specialize (IH (t + r_count e) ltac:(lia) ltac:(lia) Hn).
    destruct (vdfs4_truncate_runtime_blocks _ _ _) as [t' l']; destruct IH as (It & Io & Ic & Iy & Ior).
    split; [cbn; lia|]; split; [done|]; split; [|split].
    + intros x; rewrite Ic, rt_covers_cons; unfold in_ext; split; [tauto|].
      intros [[?|?] ?]; [lia|tauto].
    + intros y; rewrite Forall_cons; intros [_ ?]; auto.
    + intros [_ ?]; auto.
  - unwrap; specialize (IH (t + (r_count e - (n - r_iblock e))) ltac:(lia) ltac:(lia) Hn).
    destruct (vdfs4_truncate_runtime_blocks _ _ _) as [t' l']; destruct IH as (It & Io & Ic & Iy & Ior).
    split; [cbn; lia|]; split; [constructor; [unfold ext_ok; cbn; lia|done]|]; split; [|split].
    + intros x; rewrite !rt_covers_cons, Ic; unfold in_ext; cbn.
      destruct (decide (covers l x)); [split; [intros [?|?]; [split; [tauto|lia]|tauto]|tauto]|].
      split; [intros [?|?]; [split; [left|]; lia|tauto]|intros [[?|?] ?]; [left; lia|tauto]].
    + intros y; rewrite !Forall_cons; naive_solver.
    + cbn; intros [Hg Ho]; split; [|auto]; apply Iy; eapply above_trans; [|exact Hg]; lia.
  - specialize (IH t Ht ltac:(lia) Hn).
    destruct (vdfs4_truncate_runtime_blocks _ _ _) as [t' l']; destruct IH as (It & Io & Ic & Iy & Ior).
    split; [cbn; lia|]; split; [by constructor|]; split; [|split].
    + intros x; rewrite !rt_covers_cons, Ic; unfold in_ext; split; [|tauto].
      intros [?|?]; [split; [tauto|lia]|tauto].
    + intros y; rewrite !Forall_cons; naive_solver.
    + cbn; intros [Hg Ho]; split; auto.
Qed.

(** ** Properties *)

(** C30: On an ordered list of entries vdfs4_runtime_extent_add of a block returns
    -EEXIST exactly when the block is reserved, leaving the list alone; otherwise,
    memory permitting, it returns 0, the reserved set grows by exactly that block
    and the list stays ordered with no two adjacent entries; without memory a
    failing call changes nothing. *)
Theorem runtime_extent_add_correct (mem : bool) (b hint : Z) (l : list rext) :
  wf l -> block_ok b ->
  let '(ret, l') := vdfs4_runtime_extent_add mem b hint l in
  (ret = - EEXIST <-> covers l b)
  /\ (ret <> 0 -> l' = l)
  /\ (mem = true -> ret = - EEXIST \/ ret = 0)
  /\ (ret = 0 -> wf l' /\ (forall x, covers l' x <-> covers l x \/ x = b)
                 /\ vdfs4_runtime_extent_count l' = vdfs4_runtime_extent_count l + 1).
Proof.
  intros Hwf Hb; pose proof (add_spec mem b hint l Hwf Hb) as S.
  destruct (vdfs4_runtime_extent_add mem b hint l) as [ret l'].
  assert (forall k, wf k -> vdfs4_runtime_extent_count k = total k) as Hcnt.
  { intros k Hk; apply count_spec; [apply Hk|].
    pose proof (total_bound k 0 Hk ltac:(lia)) as Tb.
    enough (Forall (fun f => 0 <= r_iblock f) k) by (specialize (Tb ltac:(done)); lia).
    eapply Forall_impl; [apply Hk|]; unfold ext_ok; cbn; intros; lia. }
  destruct S as [(C & -> & ->)|[(C & -> & -> & ->)|(C & -> & W & T & Hc & _)]].
  - repeat split; auto; intros; unfold EEXIST in *; lia.
  - repeat split; intros; unfold EEXIST, ENOMEM in *; try done; lia.
  - split; [split; [unfold EEXIST; lia|done]|]; split; [lia|]; split; [auto|].
    intros _; split; [done|]; split; [done|]; rewrite !Hcnt by done; done.
Qed.

Lemma runtime_extent_add_correct_witness :
  vdfs4_runtime_extent_add true 4 7 [Rext 0 7 4; Rext 5 9 2] = (0, [Rext 0 9 7])
  /\ vdfs4_runtime_extent_count [Rext 0 9 7] = vdfs4_runtime_extent_count [Rext 0 7 4; Rext 5 9 2] + 1.
Proof.
  assert (wf [Rext 0 7 4; Rext 5 9 2]) as Hwf
    by (split; repeat constructor; cbn; lia).
  split; [reflexivity|].
  pose proof (runtime_extent_add_correct true 4 7 [Rext 0 7 4; Rext 5 9 2] Hwf
    ltac:(unfold block_ok; lia)) as (_ & _ & _ & H).
  apply H; reflexivity.
Defined.

(** On any disjoint list of entries vdfs4_runtime_extent_del returns -EINVAL
    exactly when the block is not reserved; otherwise, memory permitting, it
    returns 0 and the reserved set loses exactly that block, the entries staying
    disjoint and non-empty, as vdfs4_runtime_extent_exists then reports for
    every block. *)
Theorem runtime_extent_del_correct (mem : bool) (b : Z) (l : list rext) :
  Forall ext_ok l -> disjoint l -> block_ok b ->
  let '(ret, l') := vdfs4_runtime_extent_del mem b l in
  (ret = - EINVAL <-> ~ covers l b)
  /\ (ret <> 0 -> l' = l)
  /\ (mem = true -> covers l b -> ret = 0)
  /\ (ret = 0 -> Forall ext_ok l' /\ disjoint l' /\ total l' = total l - 1
      /\ forall x, vdfs4_runtime_extent_exists x l'
           = if decide (x = b) then 0 else vdfs4_runtime_extent_exists x l).
Proof.
  intros Hok Hd Hb; pose proof (del_spec mem b l Hok Hd Hb) as S.
  destruct (vdfs4_runtime_extent_del mem b l) as [ret l'].
  destruct S as [(C & -> & ->)|[(C & -> & -> & ->)|(C & -> & K & D & T & Hc & _)]].
  - repeat split; auto; intros; try done; unfold EINVAL in *; lia.
  - repeat split; intros; unfold EINVAL, ENOMEM in *; try done; lia.
  - split; [split; [unfold EINVAL; lia|done]|]; split; [lia|]; split; [auto|].
    intros _; split; [done|]; split; [done|]; split; [done|]; intros x; rewrite !exists_spec by done.
    specialize (Hc x); destruct (decide (x = b)), (decide (covers l' x)), (decide (covers l x)); tauto.
Qed.

Lemma runtime_extent_del_correct_witness :
  vdfs4_runtime_extent_del true 5 [Rext 0 7 10] = (0, [Rext 6 0 4; Rext 0 7 5])
  /\ vdfs4_runtime_extent_exists 5 [Rext 6 0 4; Rext 0 7 5] = 0.
Proof.
  split; [reflexivity|].
  pose proof (runtime_extent_del_correct true 5 [Rext 0 7 10]) as H.
  specialize (H ltac:(repeat constructor; cbn; lia) ltac:(repeat constructor)
    ltac:(unfold block_ok; lia)).
  destruct H as (_ & _ & _ & H); destruct (H eq_refl) as (_ & _ & _ & E); apply (E 5).
Defined.

(** vdfs4_truncate_runtime_blocks keeps exactly the reserved blocks below the
    new size, keeps the list ordered, and returns the number of blocks it
    dropped. *)
Theorem truncate_runtime_blocks_correct (n : Z) (l : list rext) :
  wf l -> 0 <= n < 2 ^ 32 ->
  let '(freed, l') := vdfs4_truncate_runtime_blocks n 0 l in
  wf l' /\ freed = total l - total l'
  /\ forall x, covers l' x <-> covers l x /\ x < n.
Proof.
  intros [Hok Ho] Hn; pose proof (truncate_total n 0 l Hok ltac:(lia)) as T.
  assert (total l <= 2 ^ 32 - 1 - 0) as Tb.
  { apply (total_bound l 0); [done|lia|]; eapply Forall_impl; [exact Hok|].
    unfold ext_ok; cbn; intros; lia. }
  specialize (T ltac:(lia) Hn); destruct (vdfs4_truncate_runtime_blocks n 0 l) as [t l'].
  destruct T as (? & ? & ? & _ & ?); repeat split; auto; try lia; naive_solver.
Qed.

Lemma truncate_runtime_blocks_correct_witness :
  vdfs4_truncate_runtime_blocks 6 0 [Rext 0 7 4; Rext 5 9 2; Rext 9 0 1] = (2, [Rext 0 7 4; Rext 5 9 1])
  /\ 2 = total [Rext 0 7 4; Rext 5 9 2; Rext 9 0 1] - total [Rext 0 7 4; Rext 5 9 1].
Proof.
  split; [reflexivity|].
  pose proof (truncate_runtime_blocks_correct 6 [Rext 0 7 4; Rext 5 9 2; Rext 9 0 1]) as H.
  specialize (H ltac:(split; repeat constructor; cbn; lia) ltac:(lia)).
  apply H.
Defined.

(** Deleting a block from the inside of an entry leaves a list that is no
    longer ordered, and on it vdfs4_runtime_extent_add reserves again every block
    of the lower half: it returns 0 where the block is reserved already, and the
    entries overlap. *)
Theorem runtime_extent_del_then_add_duplicates (s n hint b y : Z) :
  0 <= s -> s < b -> b + 1 < s + n -> s + n < 2 ^ 32 -> s <= y < b ->
  exists l l', vdfs4_runtime_extent_del true b [Rext s hint n] = (0, l)
  /\ ~ ordered l /\ covers l y
  /\ vdfs4_runtime_extent_add true y 0 l = (0, l') /\ ~ disjoint l'.
Proof.
  intros Hs Hb Hn Hlim Hy; cbn; unfold r_end; cbn; unwrap.
  rewrite (proj2 (Z.eqb_neq s b)), (proj2 (Z.eqb_neq (s + n) (b + 1))) by lia.
  rewrite (proj2 (Z.leb_le s b)), (proj2 (Z.ltb_lt b (s + n))) by lia; cbn [andb].
  replace (u32 (s - (b + 1)) +32 n) with (s + n - (b + 1)).
  2: { unfold u32; rewrite Zplus_mod_idemp_l, Z.mod_small; lia. }
  eexists _, _; split; [reflexivity|]; split; [|split; [|split]].
  - intros [H _]; inversion H; cbn in *; lia.
  - rewrite !rt_covers_cons; right; left; unfold in_ext; cbn; unwrap; lia.
  - cbn; unfold r_end; cbn; unwrap.
    rewrite (proj2 (Z.eqb_neq _ y)), (proj2 (Z.eqb_neq (b + 1) (y + 1))),
      (proj2 (Z.leb_gt (b + 1) y)), (proj2 (Z.ltb_lt y (b + 1))) by lia; reflexivity.
  - intros [H _]; unfold disjoint_from in H; rewrite !Forall_cons in H; cbn in H; unwrap; lia.
Qed.

Lemma runtime_extent_del_then_add_duplicates_witness :
  exists l l', vdfs4_runtime_extent_del true 5 [Rext 0 0 10] = (0, l)
  /\ ~ ordered l /\ covers l 3
  /\ vdfs4_runtime_extent_add true 3 0 l = (0, l') /\ ~ disjoint l'.
Proof. apply (runtime_extent_del_then_add_duplicates 0 10 0 5 3); lia. Defined.
