(* ===== verification/Ranges.v ===== *)
(** Ordered lists of block ranges.

    Both free-space managers keep free extents in increasing order with a gap
    between neighbours. Such a list is determined by the set of blocks it covers
    ([gapped_unique]), so the components that use it are specified by sets of
    blocks; this file has the lists, the sets, and how local edits of the list
    act on the set. *)

From Stdlib Require Import ZArith Lia Bool List.
From stdpp Require Import base list sets.
From S2P Require Import Prelude.

Open Scope Z_scope.

(** A run of blocks: [__u64 start] and [__u32 length] of struct fsm_node. *)
Record range : Type := Range { start : Z; len : Z }.

#[export] Instance range_eq_dec : EqDecision range.
Proof. solve_decision. Defined.

#[export] Instance range_inhabited : Inhabited range := populate (Range 0 0).

(** First block after the range. *)
Definition stop (r : range) : Z := start r + len r.

Definition in_range (x : Z) (r : range) : Prop := start r <= x < stop r.

#[export] Instance in_range_dec (x : Z) (r : range) : Decision (in_range x r).
Proof. unfold in_range; apply _. Defined.

(** The set of blocks of a list of ranges. *)
Definition covers (L : list range) (x : Z) : Prop := Exists (in_range x) L.

#[export] Instance covers_dec (L : list range) (x : Z) : Decision (covers L x).
Proof. unfold covers; apply _. Defined.

Definition total (L : list range) : Z := foldr (fun r t => len r + t) 0 L.

(** A range that ends before another begins, and does not touch it. *)
Definition before (a b : range) : Prop := stop a < start b.

Definition nonempty (r : range) : Prop := 0 < len r.

(** Increasing ranges with gaps. *)
Fixpoint gapped (L : list range) : Prop :=
  match L with
  | [] => True
  | r :: L => nonempty r /\ Forall (before r) L /\ gapped L
  end.

(** Ranges inside the blocks [lo, hi). *)
Definition within (lo hi : Z) (L : list range) : Prop :=
  Forall (fun r => lo <= start r /\ stop r <= hi) L.

(** No block of [s, s+n) is in the list. *)
Definition avoids (s n : Z) (L : list range) : Prop :=
  Forall (fun r => stop r <= s \/ s + n <= start r) L.

(** ** Sets *)

Lemma covers_nil (x : Z) : covers [] x <-> False.
Proof. unfold covers; apply Exists_nil. Qed.

Lemma covers_cons (r : range) (L : list range) (x : Z) :
  covers (r :: L) x <-> in_range x r \/ covers L x.
Proof. unfold covers; by rewrite Exists_cons. Qed.

Lemma covers_app (L K : list range) (x : Z) : covers (L ++ K) x <-> covers L x \/ covers K x.
Proof. unfold covers; by rewrite Exists_app. Qed.

Lemma covers_elem (L : list range) (x : Z) : covers L x <-> exists r, r ∈ L /\ in_range x r.
Proof. unfold covers; apply Exists_exists. Qed.

Lemma covers_perm (L K : list range) (x : Z) : L ≡ₚ K -> covers L x <-> covers K x.
Proof. intros HLK; rewrite !covers_elem; by setoid_rewrite HLK. Qed.

Lemma total_app (L K : list range) : total (L ++ K) = total L + total K.
Proof. induction L; cbn; [done|]; unfold total in *; lia. Qed.

Lemma total_cons (r : range) (L : list range) : total (r :: L) = len r + total L.
Proof. done. Qed.

Lemma total_perm (L K : list range) : L ≡ₚ K -> total L = total K.
Proof. induction 1; cbn; unfold total in *; lia. Qed.

#[export] Hint Rewrite covers_nil covers_cons covers_app total_app total_cons : ranges.

(** Reads [Forall] over an appended list. *)
Ltac split_forall :=
  repeat match goal with
  | H : Forall _ (_ :: _) |- _ => rewrite Forall_cons in H; destruct H
  | H : Forall _ (_ ++ _) |- _ => rewrite Forall_app in H; destruct H
  | H : within _ _ (_ :: _) |- _ => unfold within in H; rewrite Forall_cons in H; destruct H
  | H : within _ _ (_ ++ _) |- _ => unfold within in H; rewrite Forall_app in H; destruct H
  | H : avoids _ _ (_ :: _) |- _ => unfold avoids in H; rewrite Forall_cons in H; destruct H
  | H : avoids _ _ (_ ++ _) |- _ => unfold avoids in H; rewrite Forall_app in H; destruct H
  | |- Forall _ (_ :: _) => apply Forall_cons; split
  | |- Forall _ (_ ++ _) => apply Forall_app; split
  end.

(** Weakens a [Forall] by arithmetic on its elements. *)
Ltac forall_lia H :=
  eapply Forall_impl; [exact H|];
  unfold before, in_range, stop, nonempty in *; cbn in *; intros; lia.

(** ** Ordered lists *)

Lemma gapped_cons (r : range) (L : list range) :
  gapped (r :: L) <-> nonempty r /\ Forall (before r) L /\ gapped L.
Proof. done. Qed.

Lemma gapped_app (L K : list range) :
  gapped (L ++ K) <-> gapped L /\ gapped K /\ Forall (fun a => Forall (before a) K) L.
Proof.
  induction L as [|r L IH]; cbn; [rewrite Forall_nil; tauto|].
  rewrite IH, Forall_app, Forall_cons; tauto.
Qed.

Lemma gapped_nonempty (L : list range) : gapped L -> Forall nonempty L.
Proof. induction L as [|r L IH]; cbn; [done|]; intros (? & _ & ?); auto. Qed.

Lemma gapped_total_nonneg (L : list range) : gapped L -> 0 <= total L.
Proof.
  induction L as [|r L IH]; [done|]; rewrite total_cons.
  intros (Hr & _ & HL); specialize (IH HL); unfold nonempty in Hr; lia.
Qed.

(** Everything in the tail of an ordered list is beyond its head. *)
Lemma before_covers (a : range) (L : list range) (x : Z) :
  Forall (before a) L -> covers L x -> stop a < x.
Proof.
  rewrite Forall_forall, covers_elem; intros Hb (r & Hr & Hx).
  specialize (Hb r Hr); unfold before, in_range in *; lia.
Qed.

Lemma gapped_unique_head (a b : range) (L K : list range) :
  gapped (a :: L) -> gapped (b :: K) ->
  (forall x, covers (a :: L) x <-> covers (b :: K) x) -> start a <= start b /\ stop a <= stop b.
Proof.
  intros (Ha & HaL & _) (Hb & HbK & _) Hc; unfold nonempty in *.
  assert (forall x, covers (b :: K) x -> start a <= x) as Hmin.
  { intros x Hx; rewrite <- Hc, covers_cons in Hx; unfold in_range, stop in *.
    destruct Hx as [?|?%(before_covers _ _ _ HaL)]; unfold stop in *; lia. }
  assert (covers (b :: K) (start b)) as Hsb by (rewrite covers_cons; unfold in_range, stop; lia).
  assert (start a <= start b) as H1 by auto; split; [done|].
  destruct (Z.leb_spec (stop a) (stop b)) as [|Hlt]; [done|].
  assert (covers (b :: K) (stop b)) as Hx.
  { rewrite <- Hc, covers_cons; left; unfold in_range, stop in *; lia. }
  rewrite covers_cons in Hx; unfold in_range in Hx.
  destruct Hx as [?|?%(before_covers _ _ _ HbK)]; lia.
Qed.

(** An ordered list with gaps is determined by the blocks it covers. *)
Lemma gapped_unique (L K : list range) :
  gapped L -> gapped K -> (forall x, covers L x <-> covers K x) -> L = K.
Proof.
  revert K; induction L as [|a L IH]; intros [|b K] HL HK Hc; [done| | |].
  - destruct HK as (Hb & _); exfalso; apply (covers_nil (start b)), Hc, covers_cons.
    unfold in_range, stop, nonempty in *; lia.
  - destruct HL as (Hb & _); exfalso; apply (covers_nil (start a)), Hc, covers_cons.
    unfold in_range, stop, nonempty in *; lia.
  - destruct (gapped_unique_head a b L K HL HK Hc) as [H1 H2].
    destruct (gapped_unique_head b a K L HK HL (fun x => iff_sym (Hc x))) as [H3 H4].
    assert (a = b) as -> by (destruct a, b; unfold stop in *; cbn in *; f_equal; lia).
    destruct HL as (_ & HbL & HL), HK as (_ & HbK & HK); f_equal; apply IH; [done..|].
    intros x; specialize (Hc x); rewrite !covers_cons in Hc.
    destruct (decide (in_range x b)) as [Hx|Hx]; [|tauto].
    split; intros Hin; [apply (before_covers _ _ _ HbL) in Hin|apply (before_covers _ _ _ HbK) in Hin];
      unfold in_range in Hx; lia.
Qed.

(** A range that covers no block of the list. *)
Lemma avoids_covers (s n : Z) (L : list range) :
  Forall nonempty L -> 0 < n -> avoids s n L <-> (forall x, s <= x < s + n -> ~ covers L x).
Proof.
  intros Hne Hn; induction Hne as [|r L Hr Hne IH].
  { split; [intros _ x _; by intros ?%covers_nil|by constructor]. }
  unfold avoids in *; rewrite Forall_cons, IH; unfold nonempty in Hr; split.
  - intros [? H] x Hx; rewrite covers_cons; unfold in_range, stop in *; intros [?|?]; [lia|by eapply H].
  - intros H; split; [|intros x Hx Hc; apply (H x Hx); rewrite covers_cons; tauto].
    destruct (Z.leb_spec (stop r) s); [auto|]; destruct (Z.leb_spec (s + n) (start r)); [auto|].
    exfalso; apply (H (Z.max s (start r))); [|rewrite covers_cons; left]; unfold in_range, stop in *; lia.
Qed.

(** A list without a zero-length range has no more blocks than its span. *)
Lemma total_within (lo hi : Z) (L : list range) :
  gapped L -> within lo hi L -> lo <= hi -> total L <= hi - lo.
Proof.
  revert lo; induction L as [|r L IH]; intros lo HL HW Hle; cbn; [lia|].
  destruct HL as (Hr & Hb & HL); split_forall; unfold nonempty, stop in *.
  fold (total L); enough (total L <= hi - (start r + len r)) by lia.
  apply IH; [done| |lia].
  rewrite Forall_forall in Hb; unfold within in *; rewrite Forall_forall in *; intros k Hk.
  specialize (Hb k Hk); specialize (H0 k Hk); unfold before, stop in *; lia.
Qed.

Lemma within_covers (lo hi : Z) (L : list range) :
  Forall nonempty L -> within lo hi L <-> (forall x, covers L x -> lo <= x < hi).
Proof.
  intros Hne; unfold within; rewrite Forall_forall; split.
  - intros HW x; rewrite covers_elem; intros (r & Hr & Hx).
    specialize (HW r Hr); unfold in_range in Hx; lia.
  - intros HC r Hr; rewrite Forall_forall in Hne; specialize (Hne r Hr); unfold nonempty in Hne.
    assert (forall x, in_range x r -> lo <= x < hi) as Hx by (intros; apply HC, covers_elem; eauto).
    pose proof (Hx (start r)) as H1; pose proof (Hx (stop r - 1)) as H2.
    unfold in_range, stop in *; lia.
Qed.

(** ** Adding and removing a range of blocks *)

Definition added (s n : Z) (L L' : list range) : Prop :=
  gapped L' /\ total L' = total L + n
  /\ forall x, covers L' x <-> covers L x \/ s <= x < s + n.

Definition removed (s n : Z) (L L' : list range) : Prop :=
  gapped L' /\ total L' = total L - n
  /\ forall x, covers L' x <-> covers L x /\ ~ s <= x < s + n.

(** The ranges [M] and the new blocks become the one range [q]. *)
Lemma added_replace (A M B : list range) (q : range) (s n : Z) :
  gapped (A ++ M ++ B) -> nonempty q ->
  Forall (fun a => stop a < start q) A -> Forall (fun b => stop q < start b) B ->
  len q = total M + n -> (forall x, in_range x q <-> covers M x \/ s <= x < s + n) ->
  added s n (A ++ M ++ B) (A ++ q :: B).
Proof.
  intros HG Hq HA HB Ht Hc; rewrite !gapped_app in HG; destruct HG as (GA & (_ & GB & _) & HAB).
  split; [|split].
  - rewrite gapped_app, gapped_cons; split; [done|]; split; [split; [done|split; [|done]]|].
    + forall_lia HB.
    + rewrite Forall_forall in HA, HAB |- *; intros a Ha; specialize (HA a Ha); specialize (HAB a Ha).
      split_forall; done.
  - rewrite !total_app, total_cons; lia.
  - intros x; rewrite !covers_app, covers_cons, Hc; tauto.
Qed.

(** The range [r] leaves the ranges [M]. *)
Lemma removed_replace (A M B : list range) (r : range) (s n : Z) :
  gapped (A ++ r :: B) -> gapped M ->
  Forall (fun m => start r <= start m /\ stop m <= stop r) M ->
  total M = len r - n -> start r <= s -> s + n <= stop r ->
  (forall x, covers M x <-> in_range x r /\ ~ s <= x < s + n) ->
  removed s n (A ++ r :: B) (A ++ M ++ B).
Proof.
  intros HG HM Hsub Ht Hs Hn Hc; rewrite gapped_app, gapped_cons in HG.
  destruct HG as (GA & (Hr & HrB & GB) & HAB); split; [|split].
  - rewrite !gapped_app; split; [done|]; split; [split; [done|split; [done|]]|].
    + eapply Forall_impl; [exact Hsub|]; cbn; intros m Hm; forall_lia HrB.
    + eapply Forall_impl; [exact HAB|]; cbn; intros a Ha; split_forall; [|done].
      eapply Forall_impl; [exact Hsub|]; unfold before, stop in *; cbn; intros; lia.
  - rewrite !total_app, total_cons; lia.
  - intros x; rewrite !covers_app, covers_cons, Hc.
    assert (s <= x < s + n -> ~ covers A x /\ ~ covers B x) as Hout; [|tauto].
    intros Hx; split; [|intros HB%(before_covers _ _ _ HrB); unfold stop in *; lia].
    rewrite covers_elem; intros (a & Ha & Hxa); rewrite Forall_forall in HAB.
    specialize (HAB a Ha); split_forall; unfold before, in_range, stop in *; lia.
Qed.

(** In an ordered list that ends by [s] only the last range can touch [s]. *)
Lemma gapped_last_touch (A : list range) (s : Z) :
  gapped A -> Forall (fun a => stop a <= s) A ->
  match last A with Some r => stop r <> s | None => True end ->
  Forall (fun a => stop a < s) A.
Proof.
  destruct A as [|r A _] using rev_ind; [constructor|].
  rewrite last_snoc, gapped_app; cbn; intros (_ & (Hr & _) & HA) Hle Hne; split_forall; [|lia|done].
  eapply Forall_impl; [exact HA|]; cbn; intros a Ha; split_forall.
  unfold before, nonempty, stop in *; lia.
Qed.

Lemma gapped_head_touch (B : list range) (s : Z) :
  gapped B -> Forall (fun b => s <= start b) B ->
  match head B with Some r => s <> start r | None => True end ->
  Forall (fun b => s < start b) B.
Proof.
  destruct B as [|r B]; [constructor|]; cbn; intros (Hr & HB & _) Hle Hne; split_forall; [lia|].
  unfold nonempty in Hr; eapply Forall_impl; [exact HB|]; unfold before, stop; cbn; intros; lia.
Qed.

(** The ranges around a member of an ordered list. *)
Lemma gapped_split (A B : list range) (r : range) :
  gapped (A ++ r :: B) ->
  gapped A /\ gapped B /\ nonempty r /\ Forall (fun a => stop a < start r) A
  /\ Forall (fun b => stop r < start b) B.
Proof.
  rewrite gapped_app, gapped_cons; intros (GA & (Hr & HrB & GB) & HAB); repeat split; auto.
  eapply Forall_impl; [exact HAB|]; cbn; intros a Ha; split_forall; done.
Qed.

(** The block after a range is not covered. *)
Lemma gapped_stop (A B : list range) (r : range) : gapped (A ++ r :: B) -> ~ covers (A ++ r :: B) (stop r).
Proof.
  intros HG; destruct (gapped_split _ _ _ HG) as (_ & _ & Hr & HA & HB); unfold nonempty in Hr.
  rewrite covers_app, covers_cons; unfold in_range; intros [Hx|[Hx|Hx]]; [|lia|].
  - apply covers_elem in Hx as (a & Ha & Hx); rewrite Forall_forall in HA; specialize (HA a Ha).
    unfold in_range, stop in *; lia.
  - apply covers_elem in Hx as (c & Hc & Hx); rewrite Forall_forall in HB; specialize (HB c Hc).
    unfold in_range, stop in *; lia.
Qed.

(** A run of covered blocks lies in one range. *)
Lemma gapped_run (L : list range) (r : range) (s n : Z) :
  gapped L -> r ∈ L -> in_range s r -> 0 < n -> (forall x, s <= x < s + n -> covers L x) -> s + n <= stop r.
Proof.
  intros HG (A & B & ->)%list_elem_of_split Hs Hn Hc.
  destruct (Z.leb_spec (s + n) (stop r)); [done|]; exfalso.
  apply (gapped_stop A B r HG), Hc; unfold in_range in Hs; lia.
Qed.

(** ** Disjoint ranges in any order *)

Fixpoint apart (L : list range) : Prop :=
  match L with
  | [] => True
  | r :: L => avoids (start r) (len r) L /\ apart L
  end.

Lemma gapped_apart (L : list range) : gapped L -> apart L.
Proof.
  induction L as [|r L IH]; [done|]; intros (Hr & Hb & HL); split; [|auto].
  unfold avoids; unfold nonempty in Hr; forall_lia Hb.
Qed.

Lemma avoids_perm (s n : Z) (L K : list range) : L ≡ₚ K -> avoids s n L -> avoids s n K.
Proof. unfold avoids; by intros ->. Qed.

Lemma apart_perm (L K : list range) : L ≡ₚ K -> apart L -> apart K.
Proof.
  induction 1 as [|r L K HLK IH|a b L|L K M HLK IH1 HKM IH2]; cbn; auto.
  - intros [Hav Hap]; split; [by eapply avoids_perm|auto].
  - unfold avoids; rewrite !Forall_cons; unfold stop; intros [[Hab HaL] [HbL HL]]; intuition lia.
Qed.

Lemma apart_app (A B : list range) :
  Forall nonempty A -> Forall nonempty B -> apart A -> apart B ->
  (forall x, covers A x -> covers B x -> False) -> apart (A ++ B).
Proof.
  intros HA HB; induction HA as [|a A Ha HA IH]; [done|]; cbn; intros [Hav HpA] HpB Hdis; split.
  - apply Forall_app; split; [done|].
    apply avoids_covers; [done|done|]; intros x Hx Hc; apply (Hdis x); [|done].
    apply covers_cons; left; unfold in_range, stop; lia.
  - apply IH; auto; intros x Hx; apply Hdis, covers_cons; auto.
Qed.
