(* ===== verification/Rbtree.v ===== *)
(** The kernel's red-black trees as the free-space manager uses them.

    The driver walks [rb_left] and [rb_right] itself and links new nodes through
    a [struct rb_node **] pointer, so the shape of a tree and the link slots are
    modelled; rebalancing, erasure and in-order traversal belong to the kernel
    library, and are the operations of the interface [Rbtree] with the laws
    [RbtreeLaws]. Tree nodes are object identities ([positive]); what a node
    holds is in the heap of its owner. *)

From Stdlib Require Import ZArith Lia Bool List.
From stdpp Require Import base list gmap.
From S2P Require Import Prelude.

(** struct rb_root and the children of its nodes *)
Inductive rbt : Type :=
| Leaf
| Node (rb_left : rbt) (n : positive) (rb_right : rbt).

Fixpoint inorder (t : rbt) : list positive :=
  match t with
  | Leaf => []
  | Node l n r => inorder l ++ n :: inorder r
  end.

(** A [struct rb_node **]: the root pointer or a child pointer of a node. *)
Inductive slot : Type :=
| Root
| LeftOf (n : positive)
| RightOf (n : positive).

(** [rb_link_node(new, parent, p)]: stores the new, childless node in the slot. *)
Fixpoint set_child (left : bool) (m new : positive) (t : rbt) : rbt :=
  match t with
  | Leaf => Leaf
  | Node l n r =>
      if decide (n = m) then
        if left then Node (Node Leaf new Leaf) n r else Node l n (Node Leaf new Leaf)
      else Node (set_child left m new l) n (set_child left m new r)
  end.

Definition rb_link_node (new : positive) (p : slot) (t : rbt) : rbt :=
  match p with
  | Root => Node Leaf new Leaf
  | LeftOf m => set_child true m new t
  | RightOf m => set_child false m new t
  end.

(** The subtree of node [m]. *)
Fixpoint subtree (m : positive) (t : rbt) : option rbt :=
  match t with
  | Leaf => None
  | Node l n r =>
      if decide (n = m) then Some t
      else match subtree m l with Some s => Some s | None => subtree m r end
  end.

(** [node->rb_right] *)
Definition right_child (m : positive) (t : rbt) : rbt :=
  match subtree m t with Some (Node _ _ r) => r | _ => Leaf end.

(** ** Interface to the kernel library (lib/rbtree.c) *)

Class Rbtree : Type := {
  rb_insert_color : positive -> rbt -> rbt;
  rb_erase : positive -> rbt -> rbt;
  rb_next : positive -> rbt -> option positive;
  rb_prev : positive -> rbt -> option positive;
  rb_first : rbt -> option positive
}.

(** Documented behaviour: rebalancing keeps the order of the nodes, erasing takes
    out one node, and the iterators follow the order. *)
Class RbtreeLaws `{Rbtree} : Prop := {
  rb_insert_color_inorder (n : positive) (t : rbt) :
    inorder (rb_insert_color n t) = inorder t;
  rb_erase_inorder (n : positive) (t : rbt) (A B : list positive) :
    NoDup (inorder t) -> inorder t = A ++ n :: B -> inorder (rb_erase n t) = A ++ B;
  rb_next_inorder (n : positive) (t : rbt) (A B : list positive) :
    NoDup (inorder t) -> inorder t = A ++ n :: B -> rb_next n t = head B;
  rb_prev_inorder (n : positive) (t : rbt) (A B : list positive) :
    NoDup (inorder t) -> inorder t = A ++ n :: B -> rb_prev n t = last A;
  rb_first_inorder (t : rbt) : rb_first t = head (inorder t)
}.

(** ** Linking *)

Lemma set_child_other (left : bool) (m new : positive) (t : rbt) :
  m ∉ inorder t -> set_child left m new t = t.
Proof.
  induction t as [|l IHl n r IHr]; cbn; [done|]; intros Hm.
  rewrite elem_of_app, elem_of_cons in Hm.
  rewrite decide_False by (intros ->; tauto); rewrite IHl, IHr by tauto; done.
Qed.

Lemma set_child_in_left (left : bool) (m new n : positive) (l r : rbt) :
  NoDup (inorder (Node l n r)) -> m ∈ inorder l ->
  set_child left m new (Node l n r) = Node (set_child left m new l) n r.
Proof.
  cbn; intros Hnd Hm; apply NoDup_app in Hnd; destruct Hnd as (_ & Hd & _).
  specialize (Hd m Hm); rewrite elem_of_cons in Hd.
  rewrite decide_False by (intros ->; tauto); rewrite (set_child_other _ _ _ r) by tauto; done.
Qed.

Lemma set_child_in_right (left : bool) (m new n : positive) (l r : rbt) :
  NoDup (inorder (Node l n r)) -> m ∈ inorder r ->
  set_child left m new (Node l n r) = Node l n (set_child left m new r).
Proof.
  cbn; intros Hnd Hm; apply NoDup_app in Hnd; destruct Hnd as (_ & Hd & Hr).
  apply NoDup_cons in Hr; destruct Hr as [Hn _].
  rewrite decide_False by (intros ->; tauto).
  rewrite (set_child_other _ _ _ l); [done|].
  intros Hl; apply (Hd m Hl); rewrite elem_of_cons; tauto.
Qed.

(** Linking left of the first node of a tree, whose left child is free. *)
Lemma link_before_first (m new : positive) (t : rbt) (B : list positive) :
  NoDup (inorder t) -> inorder t = m :: B -> inorder (set_child true m new t) = new :: m :: B.
Proof.
  revert B; induction t as [|l IHl n r IHr]; intros B Hnd E; [done|].
  destruct l as [|ll ln lr].
  - cbn in E; injection E as <- <-; cbn; by rewrite decide_True.
  - assert (exists B', inorder (Node ll ln lr) = m :: B' /\ B = B' ++ n :: inorder r) as (B' & El & ->).
    { change (inorder (Node (Node ll ln lr) n r)) with (inorder (Node ll ln lr) ++ n :: inorder r) in E.
      destruct (inorder (Node ll ln lr)) as [|k K] eqn:EK.
      - cbn in EK; by destruct (inorder ll).
      - injection E as -> <-; eauto. }
    rewrite set_child_in_left; [|done|rewrite El; apply elem_of_cons; auto].
    change (inorder (Node ?a n r)) with (inorder a ++ n :: inorder r).
    rewrite (IHl B'); [done| |done].
    apply NoDup_app in Hnd; apply Hnd.
Qed.

Lemma nodup_split {A : Type} (m : A) (l1 l2 k1 k2 : list A) :
  NoDup (l1 ++ m :: l2) -> l1 ++ m :: l2 = k1 ++ m :: k2 -> l1 = k1 /\ l2 = k2.
Proof.
  intros Hnd E; pose proof Hnd as Hnd2; rewrite E in Hnd2.
  apply NoDup_app in Hnd as (_ & Hd & _), Hnd2 as (_ & Hd2 & _).
  destruct (not_elem_of_app_cons_inv_l m m l1 l2 k1 k2) as (-> & _ & ->); auto.
  - intros Hm; apply (Hd2 m Hm), elem_of_cons; auto.
  - intros Hm; apply (Hd m Hm), elem_of_cons; auto.
Qed.

(** A node of [Node l n r] is in the left part, the root or the right part. *)
Lemma node_split (l r : rbt) (n m : positive) (A B : list positive) :
  NoDup (inorder (Node l n r)) -> inorder (Node l n r) = A ++ m :: B ->
  (n = m /\ A = inorder l /\ B = inorder r)
  \/ (exists B1, n <> m /\ inorder l = A ++ m :: B1 /\ B = B1 ++ n :: inorder r)
  \/ (exists A2, n <> m /\ m ∉ inorder l /\ inorder r = A2 ++ m :: B /\ A = inorder l ++ n :: A2).
Proof.
  cbn [inorder]; intros Hnd E; destruct (decide (n = m)) as [->|Hne].
  { left; destruct (nodup_split _ _ _ _ _ Hnd E) as [-> ->]; done. }
  right; assert (m ∈ inorder l ++ n :: inorder r) as Hm.
  { rewrite E, elem_of_app, elem_of_cons; auto. }
  rewrite elem_of_app, elem_of_cons in Hm; destruct Hm as [Hm|[->|Hm]]; [left|done|right].
  - apply list_elem_of_split in Hm as (A' & B1 & El); rewrite El in E, Hnd |- *.
    rewrite <- app_assoc in E, Hnd; cbn in E, Hnd.
    destruct (nodup_split _ _ _ _ _ Hnd E) as [-> <-]; eauto.
  - apply list_elem_of_split in Hm as (A2 & B' & Er); rewrite Er in E, Hnd |- *.
    assert (m ∉ inorder l) as Hl.
    { apply NoDup_app in Hnd as (_ & Hd & _); intros Hl; apply (Hd m Hl).
      rewrite elem_of_cons, elem_of_app, elem_of_cons; auto. }
    change (n :: A2 ++ m :: B') with ((n :: A2) ++ m :: B') in E, Hnd.
    rewrite app_assoc in E, Hnd.
    destruct (nodup_split _ _ _ _ _ Hnd E) as [<- <-]; eauto 6.
Qed.

Lemma subtree_None (m : positive) (t : rbt) : m ∉ inorder t -> subtree m t = None.
Proof.
  induction t as [|l IHl n r IHr]; cbn; [done|].
  rewrite elem_of_app, elem_of_cons; intros Hm; rewrite decide_False by (intros ->; tauto).
  rewrite IHl, IHr by tauto; done.
Qed.

Lemma subtree_is_Some (m : positive) (t : rbt) :
  m ∈ inorder t -> exists l r, subtree m t = Some (Node l m r).
Proof.
  induction t as [|l IHl n r IHr]; cbn; [by rewrite elem_of_nil|].
  rewrite elem_of_app, elem_of_cons; intros Hm; destruct (decide (n = m)) as [->|]; [eauto|].
  destruct Hm as [Hm|[->|Hm]]; [|done|].
  - destruct (IHl Hm) as (? & ? & ->); eauto.
  - destruct (subtree m l) as [s|] eqn:E; [|auto].
    destruct (decide (m ∈ inorder l)) as [Hl|Hl]; [destruct (IHl Hl) as (? & ? & ?); naive_solver|].
    by rewrite subtree_None in E.
Qed.

Lemma NoDup_children (l r : rbt) (n : positive) :
  NoDup (inorder (Node l n r)) -> NoDup (inorder l) /\ NoDup (inorder r).
Proof.
  cbn; intros Hnd; apply NoDup_app in Hnd as (? & _ & Hr); apply NoDup_cons in Hr; naive_solver.
Qed.

(** Where a successor of [m] goes: right of [m] when that slot is free, else left
    of the next node. *)
Lemma link_after (m new : positive) (t : rbt) (A B : list positive) :
  NoDup (inorder t) -> inorder t = A ++ m :: B ->
  match right_child m t with
  | Leaf => inorder (set_child false m new t) = A ++ m :: new :: B
  | _ => exists k B', B = k :: B' /\ inorder (set_child true k new t) = A ++ m :: new :: B
  end.
Proof.
  unfold right_child; revert A B; induction t as [|l IHl n r IHr]; intros A B Hnd E; [by destruct A|].
  destruct (NoDup_children _ _ _ Hnd) as [Hl Hr].
  destruct (node_split _ _ _ _ _ _ Hnd E) as [(-> & -> & ->)|[(B1 & Hne & El & ->)|(A2 & Hne & Hm & Er & ->)]].
  - cbn [subtree]; rewrite decide_True by done; destruct r as [|rl rn rr].
    { cbn; by rewrite decide_True. }
    destruct (inorder (Node rl rn rr)) as [|k K] eqn:EK; [cbn in EK; by destruct (inorder rl)|].
    exists k, K; split; [done|]; rewrite set_child_in_right; [|done|rewrite EK; apply elem_of_cons; auto].
    cbn [inorder]; rewrite (link_before_first k new _ K); [done|by rewrite EK|done].
  - cbn [subtree]; rewrite decide_False by done.
    destruct (subtree_is_Some m l) as (sl & sr & Es); [rewrite El, elem_of_app, elem_of_cons; auto|].
    specialize (IHl A B1 Hl El); rewrite Es in IHl |- *; destruct sr.
    + rewrite set_child_in_left; [|done|rewrite El, elem_of_app, elem_of_cons; auto].
      cbn [inorder]; rewrite IHl, <- app_assoc; done.
    + destruct IHl as (k & B' & -> & Ek); exists k, (B' ++ n :: inorder r); split; [done|].
      rewrite set_child_in_left; [|done|rewrite El, elem_of_app, !elem_of_cons; auto].
      cbn [inorder]; rewrite Ek, <- app_assoc; done.
  - cbn [subtree]; rewrite decide_False, subtree_None by done.
    destruct (subtree_is_Some m r) as (sl & sr & Es); [rewrite Er, elem_of_app, elem_of_cons; auto|].
    specialize (IHr A2 B Hr Er); rewrite Es in IHr |- *; destruct sr.
    + rewrite set_child_in_right; [|done|rewrite Er, elem_of_app, elem_of_cons; auto].
      cbn [inorder]; rewrite IHr, <- app_assoc; done.
    + destruct IHr as (k & B' & -> & Ek); exists k, B'; split; [done|].
      rewrite set_child_in_right; [|done|rewrite Er, elem_of_app, !elem_of_cons; auto].
      cbn [inorder]; rewrite Ek, <- app_assoc; done.
Qed.

(** ** A reference instance

    An unbalanced search tree: what the interface asks for can be met. *)

Module Plain.

(** The right tree below the last node of the left one. *)
Fixpoint join (l r : rbt) : rbt :=
  match l with
  | Leaf => r
  | Node ll n lr => Node ll n (join lr r)
  end.

Fixpoint erase (n : positive) (t : rbt) : rbt :=
  match t with
  | Leaf => Leaf
  | Node l m r => if decide (m = n) then join l r else Node (erase n l) m (erase n r)
  end.

Fixpoint next_in (n : positive) (l : list positive) : option positive :=
  match l with
  | [] => None
  | m :: k => if decide (m = n) then head k else next_in n k
  end.

#[export] Instance plain_rbtree : Rbtree := {
  rb_insert_color := fun _ t => t;
  rb_erase := erase;
  rb_next := fun n t => next_in n (inorder t);
  rb_prev := fun n t => next_in n (reverse (inorder t));
  rb_first := fun t => head (inorder t)
}.

Lemma join_inorder (l r : rbt) : inorder (join l r) = inorder l ++ inorder r.
Proof. induction l as [|ll _ n lr IH]; cbn; [done|]; rewrite IH, <- app_assoc; done. Qed.

Lemma erase_other (n : positive) (t : rbt) : n ∉ inorder t -> erase n t = t.
Proof.
  induction t as [|l IHl m r IHr]; cbn; [done|].
  rewrite elem_of_app, elem_of_cons; intros Hn; rewrite decide_False by (intros ->; tauto).
  rewrite IHl, IHr by tauto; done.
Qed.

Lemma erase_inorder (n : positive) (t : rbt) (A B : list positive) :
  NoDup (inorder t) -> inorder t = A ++ n :: B -> inorder (erase n t) = A ++ B.
Proof.
  revert A B; induction t as [|l IHl m r IHr]; intros A B Hnd E; [by destruct A|].
  destruct (NoDup_children _ _ _ Hnd) as [Hl Hr]; cbn [erase].
  destruct (node_split _ _ _ _ _ _ Hnd E) as [(-> & -> & ->)|[(B1 & Hne & El & ->)|(A2 & Hne & Hm & Er & ->)]].
  - rewrite decide_True by done; apply join_inorder.
  - rewrite decide_False by done; cbn [inorder]; rewrite (IHl A B1), erase_other, <- app_assoc; auto.
    cbn in Hnd; apply NoDup_app in Hnd as (_ & Hd & _); intros Hr2.
    apply (Hd n); [rewrite El, elem_of_app, elem_of_cons|rewrite elem_of_cons]; auto.
  - rewrite decide_False by done; cbn [inorder]; rewrite (IHr A2 B), erase_other, <- app_assoc; auto.
Qed.

Lemma next_in_app (n : positive) (A B : list positive) :
  NoDup (A ++ n :: B) -> next_in n (A ++ n :: B) = head B.
Proof.
  induction A as [|m A IH]; cbn; intros Hnd; [by rewrite decide_True|].
  apply NoDup_cons in Hnd as [Hm Hnd]; rewrite decide_False; [auto|].
  intros ->; apply Hm; rewrite elem_of_app, elem_of_cons; auto.
Qed.

#[export] Instance plain_rbtree_laws : RbtreeLaws.
Proof.
  split; cbn; [done|exact erase_inorder| | |done].
  - intros n t A B Hnd E; rewrite E in Hnd |- *; by apply next_in_app.
  - intros n t A B Hnd E; rewrite E in Hnd |- *.
    assert (reverse (A ++ n :: B) = reverse B ++ n :: reverse A) as Er
      by (rewrite reverse_app, reverse_cons, <- app_assoc; done).
    rewrite Er, next_in_app, head_reverse; [done|]; rewrite <- Er, reverse_Permutation; done.
Qed.

End Plain.
