(* ===== verification/FsmTree.v ===== *)
(** The trees of the driver's free-space manager, src/linux/fs/vdfs4/fsm.c.

    A [struct fsm_node] is an object of the heap (its start and length), linked
    in one red-black tree and in one list: [free_area] with the lists [free_list]
    hashed by order, or [next_free_area] with [next_free_list]. Trees and lists
    hold node identities, as the intrusive links of the source do. This file has
    the state, the tree and list operations, their invariant [fsm_ok], and the
    theorems that read each operation as an operation on sets of blocks. *)

From Stdlib Require Import ZArith Lia Bool List.
From stdpp Require Import base list gmap sets.
From S2P Require Import Prelude Ranges Rbtree.

Open Scope Z_scope.

Definition VDFS4_FSM_MAX_ORDER : Z := 16.
Definition VDFS4_FSM_MAX_FREE_NODES : Z := 20480.

(** ** State

    struct vdfs4_fsm_info with the fields of struct vdfs4_sb_info it changes.
    [heap] holds the nodes; [allocs] the outcomes of the coming node
    allocations (an empty list: they succeed); [dirty] the bitmap pages handed to
    vdfs4_add_chunk_bitmap; [rdonly] the MS_RDONLY flag that vdfs4_fatal_error
    sets. *)
Record fsm_info : Type := Fsm {
  heap : gmap positive range;
  allocs : list bool;
  free_area : rbt;
  free_list : list (list positive);
  next_free_area : rbt;
  next_free_list : list positive;
  free_area_nodes : Z;
  next_free_nodes : Z;
  next_free_blocks : Z;
  untracked_blocks : Z;
  untracked_next_free : Z;
  data : list Z;
  free_blocks_count : Z;
  reserved_blocks_count : Z;
  erase_blocks_counters : list Z;
  rdonly : bool;
  dirty : list Z
}.

Definition set_heap (v : gmap positive range) (f : fsm_info) : fsm_info :=
  Fsm v (allocs f) (free_area f) (free_list f) (next_free_area f) (next_free_list f)
    (free_area_nodes f) (next_free_nodes f) (next_free_blocks f)
    (untracked_blocks f) (untracked_next_free f) (data f) (free_blocks_count f)
    (reserved_blocks_count f) (erase_blocks_counters f) (rdonly f) (dirty f).
Definition set_allocs (v : list bool) (f : fsm_info) : fsm_info :=
  Fsm (heap f) v (free_area f) (free_list f) (next_free_area f) (next_free_list f)
    (free_area_nodes f) (next_free_nodes f) (next_free_blocks f)
    (untracked_blocks f) (untracked_next_free f) (data f) (free_blocks_count f)
    (reserved_blocks_count f) (erase_blocks_counters f) (rdonly f) (dirty f).
Definition set_free_area (v : rbt) (f : fsm_info) : fsm_info :=
  Fsm (heap f) (allocs f) v (free_list f) (next_free_area f) (next_free_list f)
    (free_area_nodes f) (next_free_nodes f) (next_free_blocks f)
    (untracked_blocks f) (untracked_next_free f) (data f) (free_blocks_count f)
    (reserved_blocks_count f) (erase_blocks_counters f) (rdonly f) (dirty f).
Definition set_free_list (v : list (list positive)) (f : fsm_info) : fsm_info :=
  Fsm (heap f) (allocs f) (free_area f) v (next_free_area f) (next_free_list f)
    (free_area_nodes f) (next_free_nodes f) (next_free_blocks f)
    (untracked_blocks f) (untracked_next_free f) (data f) (free_blocks_count f)
    (reserved_blocks_count f) (erase_blocks_counters f) (rdonly f) (dirty f).
Definition set_next_free_area (v : rbt) (f : fsm_info) : fsm_info :=
  Fsm (heap f) (allocs f) (free_area f) (free_list f) v (next_free_list f)
    (free_area_nodes f) (next_free_nodes f) (next_free_blocks f)
    (untracked_blocks f) (untracked_next_free f) (data f) (free_blocks_count f)
    (reserved_blocks_count f) (erase_blocks_counters f) (rdonly f) (dirty f).
Definition set_next_free_list (v : list positive) (f : fsm_info) : fsm_info :=
  Fsm (heap f) (allocs f) (free_area f) (free_list f) (next_free_area f) v
    (free_area_nodes f) (next_free_nodes f) (next_free_blocks f)
    (untracked_blocks f) (untracked_next_free f) (data f) (free_blocks_count f)
    (reserved_blocks_count f) (erase_blocks_counters f) (rdonly f) (dirty f).
Definition set_free_area_nodes (v : Z) (f : fsm_info) : fsm_info :=
  Fsm (heap f) (allocs f) (free_area f) (free_list f) (next_free_area f)
    (next_free_list f) v (next_free_nodes f) (next_free_blocks f)
    (untracked_blocks f) (untracked_next_free f) (data f) (free_blocks_count f)
    (reserved_blocks_count f) (erase_blocks_counters f) (rdonly f) (dirty f).
Definition set_next_free_nodes (v : Z) (f : fsm_info) : fsm_info :=
  Fsm (heap f) (allocs f) (free_area f) (free_list f) (next_free_area f)
    (next_free_list f) (free_area_nodes f) v (next_free_blocks f)
    (untracked_blocks f) (untracked_next_free f) (data f) (free_blocks_count f)
    (reserved_blocks_count f) (erase_blocks_counters f) (rdonly f) (dirty f).
Definition set_next_free_blocks (v : Z) (f : fsm_info) : fsm_info :=
  Fsm (heap f) (allocs f) (free_area f) (free_list f) (next_free_area f)
    (next_free_list f) (free_area_nodes f) (next_free_nodes f) v
    (untracked_blocks f) (untracked_next_free f) (data f) (free_blocks_count f)
    (reserved_blocks_count f) (erase_blocks_counters f) (rdonly f) (dirty f).
Definition set_untracked_blocks (v : Z) (f : fsm_info) : fsm_info :=
  Fsm (heap f) (allocs f) (free_area f) (free_list f) (next_free_area f)
    (next_free_list f) (free_area_nodes f) (next_free_nodes f)
    (next_free_blocks f) v (untracked_next_free f) (data f)
    (free_blocks_count f) (reserved_blocks_count f) (erase_blocks_counters f)
    (rdonly f) (dirty f).
Definition set_untracked_next_free (v : Z) (f : fsm_info) : fsm_info :=
  Fsm (heap f) (allocs f) (free_area f) (free_list f) (next_free_area f)
    (next_free_list f) (free_area_nodes f) (next_free_nodes f)
    (next_free_blocks f) (untracked_blocks f) v (data f) (free_blocks_count f)
    (reserved_blocks_count f) (erase_blocks_counters f) (rdonly f) (dirty f).
Definition set_data (v : list Z) (f : fsm_info) : fsm_info :=
  Fsm (heap f) (allocs f) (free_area f) (free_list f) (next_free_area f)
    (next_free_list f) (free_area_nodes f) (next_free_nodes f)
    (next_free_blocks f) (untracked_blocks f) (untracked_next_free f) v
    (free_blocks_count f) (reserved_blocks_count f) (erase_blocks_counters f)
    (rdonly f) (dirty f).
Definition set_free_blocks_count (v : Z) (f : fsm_info) : fsm_info :=
  Fsm (heap f) (allocs f) (free_area f) (free_list f) (next_free_area f)
    (next_free_list f) (free_area_nodes f) (next_free_nodes f)
    (next_free_blocks f) (untracked_blocks f) (untracked_next_free f) (data f) v
    (reserved_blocks_count f) (erase_blocks_counters f) (rdonly f) (dirty f).
Definition set_reserved_blocks_count (v : Z) (f : fsm_info) : fsm_info :=
  Fsm (heap f) (allocs f) (free_area f) (free_list f) (next_free_area f)
    (next_free_list f) (free_area_nodes f) (next_free_nodes f)
    (next_free_blocks f) (untracked_blocks f) (untracked_next_free f) (data f)
    (free_blocks_count f) v (erase_blocks_counters f) (rdonly f) (dirty f).
Definition set_erase_blocks_counters (v : list Z) (f : fsm_info) : fsm_info :=
  Fsm (heap f) (allocs f) (free_area f) (free_list f) (next_free_area f)
    (next_free_list f) (free_area_nodes f) (next_free_nodes f)
    (next_free_blocks f) (untracked_blocks f) (untracked_next_free f) (data f)
    (free_blocks_count f) (reserved_blocks_count f) v (rdonly f) (dirty f).
Definition set_rdonly (v : bool) (f : fsm_info) : fsm_info :=
  Fsm (heap f) (allocs f) (free_area f) (free_list f) (next_free_area f)
    (next_free_list f) (free_area_nodes f) (next_free_nodes f)
    (next_free_blocks f) (untracked_blocks f) (untracked_next_free f) (data f)
    (free_blocks_count f) (reserved_blocks_count f) (erase_blocks_counters f) v
    (dirty f).
Definition set_dirty (v : list Z) (f : fsm_info) : fsm_info :=
  Fsm (heap f) (allocs f) (free_area f) (free_list f) (next_free_area f)
    (next_free_list f) (free_area_nodes f) (next_free_nodes f)
    (next_free_blocks f) (untracked_blocks f) (untracked_next_free f) (data f)
    (free_blocks_count f) (reserved_blocks_count f) (erase_blocks_counters f)
    (rdonly f) v.

(** The node with identity [n]; using a freed node is a fault. *)
Definition node_at (n : positive) (h : gmap positive range) : run range :=
  match h !! n with Some r => Ok r | None => Fault end.

(** [node->start + node->length] *)
Definition node_end (r : range) : Z := start r +64 len r.

(** [vdfs4_fatal_error], without CONFIG_VDFS4_PANIC_ON_ERROR *)
Definition vdfs4_fatal_error (f : fsm_info) : fsm_info := set_rdonly true f.

Definition fsm_intersects (node : range) (s l : Z) : bool :=
  ((start node <=? s) && (s <? node_end node))
  || ((start node <? s +64 l) && (s +64 l <=? node_end node)).

(** [fsm_alloc_node]: the content of a new node is not initialised. *)
Definition fsm_alloc_node (f : fsm_info) : option positive * fsm_info :=
  match allocs f with
  | false :: rest => (None, set_allocs rest f)
  | rest =>
      let n := fresh (dom (heap f)) in
      (Some n, set_allocs (tail rest) (set_heap (<[n := Range 0 0]> (heap f)) f))
  end.

Definition fsm_free_node (n : positive) (f : fsm_info) : fsm_info :=
  set_heap (delete n (heap f)) f.

Definition fsm_init_tree (f : fsm_info) : fsm_info :=
  set_free_list (repeat [] (Z.to_nat (VDFS4_FSM_MAX_ORDER + 1)))
    (set_free_area Leaf (set_free_area_nodes 0 f)).

Definition fsm_init_next_tree (f : fsm_info) : fsm_info :=
  set_next_free_list [] (set_next_free_area Leaf (set_next_free_nodes 0 (set_next_free_blocks 0 f))).

Definition fsm_free_node_list (l : list positive) (f : fsm_info) : fsm_info :=
  foldl (fun f n => fsm_free_node n f) f l.

Definition fsm_free_tree (f : fsm_info) : fsm_info :=
  foldl (fun f l => fsm_free_node_list l f) f (free_list f).

Definition fsm_free_next_tree (f : fsm_info) : fsm_info :=
  fsm_free_node_list (next_free_list f) f.

(** [fsm_max_length] *)
Definition fsm_max_length (node : range) (s : Z) : Z := len node +32 u32 (start node - s).

(** [fsm_order]; __fls of zero is undefined. *)
Definition fsm_order (length : Z) : run Z :=
  if length =? 0 then Fault else Ok (Z.min (Z.log2 length) VDFS4_FSM_MAX_ORDER).

Definition fsm_hash (n : positive) (f : fsm_info) : run fsm_info :=
  r ← node_at n (heap f);
  o ← fsm_order (len r);
  Ok (set_free_list (alter (fun l => l ++ [n]) (Z.to_nat o) (free_list f)) f).

(** [list_del(&node->list)] *)
Definition list_del (n : positive) (l : list positive) : list positive := filter (.≠ n) l.
#[global] Arguments list_del : simpl never.

Definition fsm_unhash (n : positive) (f : fsm_info) : fsm_info :=
  set_free_list (map (list_del n) (free_list f)) f.

Section Trees.
Context `{Rbtree}.

Definition fsm_drop (n : positive) (f : fsm_info) : fsm_info :=
  fsm_free_node n
    (set_free_area_nodes (free_area_nodes f -32 1) (set_free_area (rb_erase n (free_area f)) f)).

(** [rb_insert_after] *)
Definition rb_insert_after (new node : positive) (t : rbt) : rbt :=
  match right_child node t with
  | Leaf => rb_insert_color new (rb_link_node new (RightOf node) t)
  | _ =>
      match rb_next node t with
      | Some parent => rb_insert_color new (rb_link_node new (LeftOf parent) t)
      | None => t
      end
  end.

(** [fsm_front_merge] on the tree that holds the node *)
Definition fsm_front_merge (t : rbt) (node : positive) (length : Z) (h : gmap positive range)
    : run (option positive * gmap positive range) :=
  r ← node_at node h;
  let r := Range (start r -64 length) (len r +32 length) in
  let h := <[node := r]> h in
  match rb_prev node t with
  | Some prev =>
      p ← node_at prev h;
      if node_end p =? start r then
        Ok (Some prev, <[node := Range (start r -64 len p) (len r +32 len p)]> h)
      else Ok (None, h)
  | None => Ok (None, h)
  end.

(** [fsm_back_merge] *)
Definition fsm_back_merge (t : rbt) (node : positive) (length : Z) (h : gmap positive range)
    : run (option positive * gmap positive range) :=
  r ← node_at node h;
  let r := Range (start r) (len r +32 length) in
  let h := <[node := r]> h in
  match rb_next node t with
  | Some next =>
      q ← node_at next h;
      if node_end r =? start q then
        Ok (Some next, <[node := Range (start r) (len r +32 len q)]> h)
      else Ok (None, h)
  | None => Ok (None, h)
  end.

(** Outcome of the descent loop that fsm_add_free_space and
    fsm_commit_free_space share: a node that intersects the range, a node the
    range is in front of or behind, or the free slot for a new node. *)
Inductive place : Type :=
| Intersects (cur : positive)
| InFront (cur : positive)
| Behind (cur : positive)
| Slot (p : slot).

(** The loop [while ( *p)]; the test for an intersection takes a 32-bit length. *)
Fixpoint fsm_descend (h : gmap positive range) (s length : Z) (p : slot) (t : rbt) : run place :=
  match t with
  | Leaf => Ok (Slot p)
  | Node l c r =>
      cur ← node_at c h;
      if fsm_intersects cur s (u32 length) then Ok (Intersects c)
      else if s +64 length =? start cur then Ok (InFront c)
      else if node_end cur =? s then Ok (Behind c)
      else if s <? start cur then fsm_descend h s length (LeftOf c) l
      else fsm_descend h s length (RightOf c) r
  end.

(** [fsm_add_free_space] *)
Definition fsm_add_merged (length : Z) (dh : option positive * gmap positive range) (f : fsm_info)
    : fsm_info :=
  let '(drop, h) := dh in
  let f := set_next_free_blocks (next_free_blocks f + length) (set_heap h f) in
  match drop with
  | Some d =>
      fsm_free_node d
        (set_next_free_nodes (next_free_nodes f -32 1)
           (set_next_free_area (rb_erase d (next_free_area f))
              (set_next_free_list (list_del d (next_free_list f)) f)))
  | None => f
  end.

Definition fsm_add_free_space (s length : Z) (f : fsm_info) : run fsm_info :=
  w ← fsm_descend (heap f) s length Root (next_free_area f);
  match w with
  | Intersects _ => Ok (vdfs4_fatal_error f)
  | InFront cur =>
      dh ← fsm_front_merge (next_free_area f) cur (u32 length) (heap f);
      Ok (fsm_add_merged length dh f)
  | Behind cur =>
      dh ← fsm_back_merge (next_free_area f) cur (u32 length) (heap f);
      Ok (fsm_add_merged length dh f)
  | Slot p =>
      let f := set_next_free_blocks (next_free_blocks f + length) f in
      match fsm_alloc_node f with
      | (None, f) => Ok (set_untracked_next_free (untracked_next_free f + length) f)
      | (Some node, f) =>
          let f := set_heap (<[node := Range s (u32 length)]> (heap f)) f in
          let f := set_next_free_area
                     (rb_insert_color node (rb_link_node node p (next_free_area f))) f in
          let f := set_next_free_list (next_free_list f ++ [node]) f in
          Ok (set_next_free_nodes (next_free_nodes f +32 1) f)
      end
  end.

(** [fsm_append_free_space] *)
Definition fsm_append_free_space (last : option positive) (s length : Z) (f : fsm_info)
    : run (option positive * fsm_info) :=
  let f := set_free_blocks_count (free_blocks_count f +64 length) f in
  lr ← match last with
       | Some n => r ← node_at n (heap f); Ok (Some (n, r))
       | None => Ok None
       end;
  let append :=
    let '(node, f) :=
      if free_area_nodes f <? VDFS4_FSM_MAX_FREE_NODES then fsm_alloc_node f else (None, f) in
    match node with
    | None => Ok (last, set_untracked_blocks (untracked_blocks f + length) f)
    | Some node =>
        let f := set_heap (<[node := Range s (u32 length)]> (heap f)) f in
        f ← match last with
            | Some n =>
                f ← fsm_hash n f;
                Ok (set_free_area (rb_link_node node (RightOf n) (free_area f)) f)
            | None => Ok (set_free_area (rb_link_node node Root (free_area f)) f)
            end;
        let f := set_free_area (rb_insert_color node (free_area f)) f in
        Ok (Some node, set_free_area_nodes (free_area_nodes f +32 1) f)
    end in
  match lr with
  | Some (n, r) =>
      if node_end r =? s then
        Ok (last, set_heap (<[n := Range (start r) (len r +32 u32 length)]> (heap f)) f)
      else append
  | None => append
  end.

(** One iteration of the loop of [fsm_commit_free_space]. *)
Definition fsm_commit_merged (cur node : positive) (dh : option positive * gmap positive range)
    (f : fsm_info) : run fsm_info :=
  let '(drop, h) := dh in
  let f := set_heap h f in
  let f := match drop with Some d => fsm_drop d (fsm_unhash d f) | None => f end in
  f ← fsm_hash cur f;
  Ok (fsm_free_node node f).

Definition fsm_commit_node (node : positive) (f : fsm_info) : run fsm_info :=
  nd ← node_at node (heap f);
  let f := set_free_blocks_count (free_blocks_count f +64 len nd) f in
  w ← fsm_descend (heap f) (start nd) (len nd) Root (free_area f);
  match w with
  | Intersects _ =>
      let f := vdfs4_fatal_error f in
      let f := set_free_blocks_count (free_blocks_count f -64 len nd) f in
      let f := set_untracked_blocks (untracked_blocks f + len nd) f in
      Ok (fsm_free_node node f)
  | InFront cur =>
      let f := fsm_unhash cur f in
      dh ← fsm_front_merge (free_area f) cur (len nd) (heap f);
      fsm_commit_merged cur node dh f
  | Behind cur =>
      let f := fsm_unhash cur f in
      dh ← fsm_back_merge (free_area f) cur (len nd) (heap f);
      fsm_commit_merged cur node dh f
  | Slot p =>
      if free_area_nodes f <? VDFS4_FSM_MAX_FREE_NODES then
        let f := set_free_area (rb_insert_color node (rb_link_node node p (free_area f))) f in
        fsm_hash node (set_free_area_nodes (free_area_nodes f +32 1) f)
      else
        Ok (fsm_free_node node (set_untracked_blocks (untracked_blocks f + len nd) f))
  end.

Fixpoint fsm_commit_loop (l : list positive) (f : fsm_info) : run fsm_info :=
  match l with
  | [] => Ok f
  | node :: l => f ← fsm_commit_node node f; fsm_commit_loop l f
  end.

(** [fsm_find_node] *)
Fixpoint fsm_find_node (h : gmap positive range) (s : Z) (t : rbt) : run (option positive) :=
  match t with
  | Leaf => Ok None
  | Node l c r =>
      node ← node_at c h;
      if (start node <=? s) && (s <? node_end node) then Ok (Some c)
      else if s <? start node then fsm_find_node h s l
      else fsm_find_node h s r
  end.

(** [list_empty(fsm->free_list + order)] and the list itself *)
Definition order_list (order : Z) (f : fsm_info) : list positive :=
  default [] (getZ (free_list f) order).

(** The two loops of [fsm_choose_node]. *)
Fixpoint choose_up (fuel : nat) (order : Z) (f : fsm_info) : Z :=
  match fuel with
  | O => order
  | S fuel =>
      if bool_decide (order_list order f = []) && (order <? VDFS4_FSM_MAX_ORDER)
      then choose_up fuel (order + 1) f else order
  end.

Fixpoint choose_down (fuel : nat) (order : Z) (f : fsm_info) : Z :=
  match fuel with
  | O => order
  | S fuel =>
      if bool_decide (order_list order f = []) && (0 <? order)
      then choose_down fuel (order - 1) f else order
  end.

Definition fsm_choose_node (length : Z) (f : fsm_info) : run (option positive) :=
  order ← fsm_order length;
  let order := choose_up (Z.to_nat VDFS4_FSM_MAX_ORDER) order f in
  let order := choose_down (Z.to_nat VDFS4_FSM_MAX_ORDER) order f in
  Ok (head (order_list order f)).

(** [fsm_allocate_from_node] *)
Definition fsm_allocate_from_node (n : positive) (s length : Z) (f : fsm_info) : run fsm_info :=
  node ← node_at n (heap f);
  let max_length := fsm_max_length node s in
  bug_on ((s <? start node) || (node_end node <=? s) || (max_length <? length));;
  let f := fsm_unhash n f in
  f ← (if length =? max_length then
         Ok (set_heap (<[n := Range (start node) (len node -32 length)]> (heap f)) f)
       else if s =? start node then
         Ok (set_heap (<[n := Range (start node +64 length) (len node -32 length)]> (heap f)) f)
       else
         let '(tl, f) :=
           if free_area_nodes f <? VDFS4_FSM_MAX_FREE_NODES then fsm_alloc_node f else (None, f) in
         f ← match tl with
             | None => Ok (set_untracked_blocks (untracked_blocks f + (max_length - length)) f)
             | Some tl =>
                 let f := set_heap (<[tl := Range (s +64 length) (max_length -32 length)]> (heap f)) f in
                 let f := set_free_area (rb_insert_after tl n (free_area f)) f in
                 fsm_hash tl (set_free_area_nodes (free_area_nodes f +32 1) f)
             end;
         Ok (set_heap (<[n := Range (start node) (len node -32 max_length)]> (heap f)) f));
  node ← node_at n (heap f);
  if len node =? 0 then Ok (fsm_drop n f) else fsm_hash n f.

(** [fsm_get_longest_node]: the loop from fsm_first along fsm_next, which makes as many
    turns as the tree has nodes. *)
Fixpoint longest_loop (fuel : nat) (node : option positive) (best : positive) (f : fsm_info)
    : run positive :=
  match fuel, node with
  | _, None => Ok best
  | O, Some _ => Fault
  | S fuel, Some n =>
      r ← node_at n (heap f);
      b ← node_at best (heap f);
      longest_loop fuel (rb_next n (free_area f)) (if len b <? len r then n else best) f
  end.

Definition fsm_get_longest_node (f : fsm_info) : run (option positive) :=
  match rb_first (free_area f) with
  | None => Ok None
  | Some n =>
      b ← longest_loop (length (inorder (free_area f))) (Some n) n f;
      Ok (Some b)
  end.

(** ** Self check (CONFIG_VDFS4_DEBUG)

    The links of a node that is in a tree and a list are never the self links
    that list_empty and RB_EMPTY_NODE look for, so those two tests are left
    out. *)

(** [fsm_check_node] *)
Definition fsm_check_node (node : range) (prev : option range) : Z :=
  if len node =? 0 then -1
  else match prev with
  | Some prev =>
      if start node <=? node_end prev then -1
      else if fsm_intersects prev (start node) (len node) then -1
      else 0
  | None => 0
  end.

(** The loop over a tree: number of blocks and of nodes. *)
Fixpoint verify_tree (fuel : nat) (h : gmap positive range) (t : rbt) (prev : option range)
    (node : option positive) (blocks nodes : Z) : run (Z * Z) :=
  match fuel, node with
  | _, None => Ok (blocks, nodes)
  | O, Some _ => Fault
  | S fuel, Some n =>
      r ← node_at n h;
      bug_on (negb (fsm_check_node r prev =? 0));;
      verify_tree fuel h t (Some r) (rb_next n t) (blocks + len r) (nodes + 1)
  end.

(** The loop over the list of one order. *)
Fixpoint verify_list (h : gmap positive range) (order : Z) (l : list positive) (blocks nodes : Z)
    : run (Z * Z) :=
  match l with
  | [] => Ok (blocks, nodes)
  | n :: l =>
      r ← node_at n h;
      o ← fsm_order (len r);
      bug_on (negb (o =? order));;
      verify_list h order l (blocks + len r) (nodes + 1)
  end.

Fixpoint verify_lists (h : gmap positive range) (order : Z) (ls : list (list positive)) (blocks nodes : Z)
    : run (Z * Z) :=
  match ls with
  | [] => Ok (blocks, nodes)
  | l :: ls =>
      '(blocks, nodes) ← verify_list h order l blocks nodes;
      verify_lists h (order + 1) ls blocks nodes
  end.

(** [fsm_verify_state] *)
Definition fsm_verify_state (debug : bool) (f : fsm_info) : run unit :=
  if negb debug then Ok tt
  else
    '(blocks, nodes) ← verify_tree (length (inorder (next_free_area f))) (heap f) (next_free_area f)
                         None (rb_first (next_free_area f)) 0 0;
    bug_on (negb (blocks =? next_free_blocks f - untracked_next_free f));;
    bug_on (negb (nodes =? next_free_nodes f));;
    verify_tree (length (inorder (free_area f))) (heap f) (free_area f)
      None (rb_first (free_area f)) 0 0;;
    '(blocks, nodes) ← verify_lists (heap f) 0 (free_list f) 0 0;
    bug_on (negb (blocks =? (free_blocks_count f +64 reserved_blocks_count f) - untracked_blocks f));;
    bug_on (negb (nodes =? free_area_nodes f)).

(** [fsm_commit_free_space] *)
Definition fsm_commit_free_space (debug : bool) (f : fsm_info) : run fsm_info :=
  fsm_verify_state debug f;;
  f ← fsm_commit_loop (next_free_list f) f;
  let f :=
    if untracked_next_free f =? 0 then f
    else
      let f := set_free_blocks_count (free_blocks_count f +64 untracked_next_free f) f in
      let f := set_untracked_blocks (untracked_blocks f + untracked_next_free f) f in
      set_untracked_next_free 0 f in
  let f := fsm_init_next_tree f in
  fsm_verify_state debug f;;
  Ok f.

End Trees.

(** ** The heap and the nodes of a tree *)

(** The nodes [ids] hold the ranges [L]. *)
Definition holds (h : gmap positive range) (ids : list positive) (L : list range) : Prop :=
  Forall2 (fun n r => h !! n = Some r) ids L.

Lemma holds_app (h : gmap positive range) (A B : list positive) (L : list range) :
  holds h (A ++ B) L <-> exists LA LB, L = LA ++ LB /\ holds h A LA /\ holds h B LB.
Proof.
  unfold holds; split.
  - intros (LA & LB & ? & ? & ?)%Forall2_app_inv_l; eauto.
  - intros (LA & LB & -> & ? & ?); by apply Forall2_app.
Qed.

Lemma holds_cons (h : gmap positive range) (n : positive) (A : list positive) (L : list range) :
  holds h (n :: A) L <-> exists r LA, L = r :: LA /\ h !! n = Some r /\ holds h A LA.
Proof.
  unfold holds; split.
  - intros (r & LA & ? & ? & ->)%Forall2_cons_inv_l; eauto.
  - intros (r & LA & -> & ? & ?); by constructor.
Qed.

Lemma holds_app_2 (h : gmap positive range) (A B : list positive) (LA LB : list range) :
  holds h A LA -> holds h B LB -> holds h (A ++ B) (LA ++ LB).
Proof. apply Forall2_app. Qed.

Lemma holds_cons_2 (h : gmap positive range) (n : positive) (r : range) (A : list positive)
    (L : list range) :
  h !! n = Some r -> holds h A L -> holds h (n :: A) (r :: L).
Proof. by constructor. Qed.

Lemma holds_nil (h : gmap positive range) : holds h [] [].
Proof. constructor. Qed.

#[local] Hint Resolve holds_app_2 holds_cons_2 holds_nil : core.

Lemma holds_insert (h : gmap positive range) (n : positive) (r : range) (A : list positive) (L : list range) :
  n ∉ A -> holds h A L -> holds (<[n := r]> h) A L.
Proof.
  intros Hn HA; induction HA as [|m q A L Hm HA IH]; constructor; rewrite elem_of_cons in Hn.
  - rewrite lookup_insert_ne; [done|naive_solver].
  - apply IH; tauto.
Qed.

Lemma holds_delete (h : gmap positive range) (n : positive) (A : list positive) (L : list range) :
  n ∉ A -> holds h A L -> holds (delete n h) A L.
Proof.
  intros Hn HA; induction HA as [|m q A L Hm HA IH]; constructor; rewrite elem_of_cons in Hn.
  - rewrite lookup_delete_ne; [done|naive_solver].
  - apply IH; tauto.
Qed.

Lemma holds_elem (h : gmap positive range) (n : positive) (A : list positive) (L : list range) :
  holds h A L -> n ∈ A -> exists r, r ∈ L /\ h !! n = Some r.
Proof.
  unfold holds; intros HA (i & Hi)%list_elem_of_lookup_1.
  destruct (Forall2_lookup_l _ _ _ _ _ HA Hi) as (r & Hr & ?).
  exists r; split; [by eapply list_elem_of_lookup_2|done].
Qed.

Lemma node_at_ok (h : gmap positive range) (n : positive) (r : range) :
  h !! n = Some r -> node_at n h = Ok r.
Proof. unfold node_at; by intros ->. Qed.

(** ** Splitting at a node *)

Lemma list_del_notin (d : positive) (A : list positive) : d ∉ A -> list_del d A = A.
Proof.
  unfold list_del; induction A as [|x A IH]; [done|]; rewrite elem_of_cons; intros Hd.
  rewrite filter_cons_True by naive_solver; f_equal; tauto.
Qed.

Lemma list_del_split (d : positive) (A B : list positive) :
  NoDup (A ++ d :: B) -> list_del d (A ++ d :: B) = A ++ B.
Proof.
  intros Hnd; apply NoDup_app in Hnd as (_ & Hd & Hr); apply NoDup_cons in Hr as [HdB _].
  unfold list_del; rewrite filter_app, filter_cons_False by naive_solver.
  fold (list_del d A) (list_del d B); rewrite !list_del_notin; [done..|].
  intros Hx; apply (Hd d Hx), elem_of_cons; auto.
Qed.

Lemma list_del_elem (d x : positive) (A : list positive) : x ∈ list_del d A <-> x <> d /\ x ∈ A.
Proof. unfold list_del; by rewrite list_elem_of_filter. Qed.

Lemma list_del_nodup (d : positive) (A : list positive) : NoDup A -> NoDup (list_del d A).
Proof. apply NoDup_filter. Qed.

Lemma NoDup_drop (d : positive) (A B : list positive) : NoDup (A ++ d :: B) -> NoDup (A ++ B).
Proof. intros Hnd; rewrite <- (list_del_split d A B Hnd); by apply list_del_nodup. Qed.

Section TreeSpecs.
Context `{RbtreeLaws}.

Lemma rb_erase_list_del (d : positive) (t : rbt) :
  NoDup (inorder t) -> d ∈ inorder t -> inorder (rb_erase d t) = list_del d (inorder t).
Proof.
  intros Hnd (A & B & E)%list_elem_of_split; rewrite (rb_erase_inorder d t A B Hnd E), E.
  rewrite list_del_split; [done|by rewrite <- E].
Qed.

(** The range is clear of every node. *)
Lemma fsm_intersects_false (r : range) (s n : Z) :
  nonempty r -> 0 <= start r -> stop r < 2 ^ 32 -> 0 <= s -> 0 < n -> s + n < 2 ^ 32 ->
  stop r <= s \/ s + n <= start r -> fsm_intersects r s n = false.
Proof.
  unfold fsm_intersects, node_end, stop, nonempty; intros; unwrap.
  apply orb_false_iff; rewrite !andb_false_iff, !Z.leb_gt, !Z.ltb_ge; lia.
Qed.

Definition slot_in (p : slot) (ids : list positive) : Prop :=
  match p with Root => False | LeftOf m | RightOf m => m ∈ ids end.

Lemma rb_link_in_left (new : positive) (p : slot) (l r : rbt) (c : positive) :
  NoDup (inorder (Node l c r)) -> slot_in p (inorder l) ->
  rb_link_node new p (Node l c r) = Node (rb_link_node new p l) c r.
Proof. destruct p; cbn [slot_in rb_link_node]; [done| |]; apply set_child_in_left. Qed.

Lemma rb_link_in_right (new : positive) (p : slot) (l r : rbt) (c : positive) :
  NoDup (inorder (Node l c r)) -> slot_in p (inorder r) ->
  rb_link_node new p (Node l c r) = Node l c (rb_link_node new p r).
Proof. destruct p; cbn [slot_in rb_link_node]; [done| |]; apply set_child_in_right. Qed.

(** What the descent finds for a range clear of the tree. *)
Definition placed (h : gmap positive range) (s n : Z) (t : rbt) (L : list range) (w : place) : Prop :=
  match w with
  | Intersects _ => False
  | InFront c =>
      exists A B LA r LB, inorder t = A ++ c :: B /\ L = LA ++ r :: LB /\ start r = s + n
      /\ holds h A LA /\ h !! c = Some r /\ holds h B LB
  | Behind c =>
      exists A B LA r LB, inorder t = A ++ c :: B /\ L = LA ++ r :: LB /\ stop r = s
      /\ holds h A LA /\ h !! c = Some r /\ holds h B LB
  | Slot p =>
      exists A B LA LB, inorder t = A ++ B /\ L = LA ++ LB
      /\ holds h A LA /\ holds h B LB
      /\ Forall (fun a => stop a < s) LA /\ Forall (fun b => s + n < start b) LB
      /\ forall new, inorder (rb_link_node new p t) = A ++ new :: B
  end.

Lemma placed_left (h : gmap positive range) (s n : Z) (l r : rbt) (c : positive)
    (LA LB : list range) (rc : range) (w : place) :
  NoDup (inorder (Node l c r)) -> h !! c = Some rc -> holds h (inorder r) LB ->
  Forall (fun b => s + n < start b) (rc :: LB) ->
  match w with Slot p => slot_in p (inorder l) | _ => True end ->
  placed h s n l LA w -> placed h s n (Node l c r) (LA ++ rc :: LB) w.
Proof.
  intros Hnd Hc Hr HB; destruct w as [k|k|k|p]; cbn [placed inorder]; [done| | |].
  1,2: intros _ (A & B & KA & q & KB & El & -> & Hq & HA & Hk & HKB).
  1,2: exists A, (B ++ c :: inorder r), KA, q, (KB ++ rc :: LB); rewrite El, <- !app_assoc.
  1,2: do 5 (split; [done|]); auto 6.
  intros Hp (A & B & KA & KB & El & -> & HA & HKB & HF1 & HF2 & Hl).
  exists A, (B ++ c :: inorder r), KA, (KB ++ rc :: LB); rewrite El, <- !app_assoc.
  do 3 (split; [done|]); split; [auto 6|].
  split; [done|]; split; [by apply Forall_app|]; intros new.
  rewrite rb_link_in_left by done; cbn [inorder]; rewrite Hl, <- app_assoc; done.
Qed.

Lemma placed_right (h : gmap positive range) (s n : Z) (l r : rbt) (c : positive)
    (LA LB : list range) (rc : range) (w : place) :
  NoDup (inorder (Node l c r)) -> h !! c = Some rc -> holds h (inorder l) LA ->
  Forall (fun a => stop a < s) LA -> stop rc < s ->
  match w with Slot p => slot_in p (inorder r) | _ => True end ->
  placed h s n r LB w -> placed h s n (Node l c r) (LA ++ rc :: LB) w.
Proof.
  intros Hnd Hc Hl HA Hrc; destruct w as [k|k|k|p]; cbn [placed inorder]; [done| | |].
  1,2: intros _ (A & B & KA & q & KB & Er & -> & Hq & HKA & Hk & HKB).
  1,2: exists (inorder l ++ c :: A), B, (LA ++ rc :: KA), q, KB; rewrite Er, <- !app_assoc.
  1,2: do 3 (split; [done|]); split; [auto 6|done].
  intros Hp (A & B & KA & KB & Er & -> & HKA & HKB & HF1 & HF2 & Hln).
  exists (inorder l ++ c :: A), B, (LA ++ rc :: KA), KB; rewrite Er, <- !app_assoc.
  do 2 (split; [done|]); split; [auto 6|].
  split; [done|]; split; [split_forall; done|]; split; [done|]; intros new.
  rewrite rb_link_in_right by done; cbn [inorder]; rewrite Hln, <- app_assoc; done.
Qed.

Lemma descend_spec (h : gmap positive range) (s n : Z) (t : rbt) (L : list range) (p : slot) :
  holds h (inorder t) L -> NoDup (inorder t) -> gapped L -> within 0 (2 ^ 32 - 1) L ->
  0 <= s -> 0 < n -> s + n < 2 ^ 32 -> avoids s n L ->
  (t = Leaf /\ fsm_descend h s n p t = Ok (Slot p))
  \/ exists w, fsm_descend h s n p t = Ok w /\ placed h s n t L w
     /\ match w with Slot p => slot_in p (inorder t) | _ => True end.
Proof.
  intros HL Hnd HG HW Hs Hn Hlim HAv; revert p L HL HG HW HAv.
  induction t as [|l IHl c r IHr]; intros p L HL HG HW HAv; [by left|right].
  destruct (NoDup_children _ _ _ Hnd) as [Hndl Hndr].
  cbn [inorder] in HL; rewrite holds_app in HL; destruct HL as (LA & LB' & -> & HA & HB).
  rewrite holds_cons in HB; destruct HB as (rc & LB & -> & Hc & HB).
  destruct (gapped_split _ _ _ HG) as (GA & GB & Hne & HltA & HltB).
  pose proof HAv as HAv0; split_forall; unfold stop, nonempty in *.
  cbn [fsm_descend]; rewrite (node_at_ok _ _ _ Hc); cbn [mbind run_bind].
  rewrite (u32_small n) by lia.
  rewrite (fsm_intersects_false rc s n) by (unfold stop, nonempty; lia).
  unfold node_end; unwrap.
  destruct (Z.eqb_spec (s + n) (start rc)) as [E1|N1].
  { exists (InFront c); split; [done|]; split; [|done].
    exists (inorder l), (inorder r), LA, rc, LB; unfold stop; naive_solver. }
  destruct (Z.eqb_spec (start rc + len rc) s) as [E2|N2].
  { exists (Behind c); split; [done|]; split; [|done].
    exists (inorder l), (inorder r), LA, rc, LB; unfold stop; naive_solver. }
  destruct (Z.ltb_spec s (start rc)) as [Hlt|Hge].
  - assert (Forall (fun b => s + n < start b) (rc :: LB)) as HF.
    { constructor; [lia|]; eapply Forall_impl; [exact HltB|]; cbn; intros; lia. }
    destruct (IHl Hndl (LeftOf c) LA) as [[-> E]|(w & E & Hw & Hp)]; auto.
    + rewrite E; exists (Slot (LeftOf c)); split; [done|]; split; [|cbn; set_solver].
      exists [], (c :: inorder r), [], (rc :: LB); inversion HA; subst.
      do 2 (split; [done|]); split; [constructor|]; split; [rewrite holds_cons; eauto|].
      split; [constructor|]; split; [done|]; intros new; cbn; by rewrite decide_True.
    + rewrite E; exists w; split; [done|]; split; [by apply placed_left|].
      destruct w as [| | |[]]; cbn in *; set_solver.
  - assert (Forall (fun a => stop a < s) LA) as HF.
    { eapply Forall_impl; [exact HltA|]; unfold stop; cbn; intros; lia. }
    destruct (IHr Hndr (RightOf c) LB) as [[-> E]|(w & E & Hw & Hp)]; auto.
    + rewrite E; exists (Slot (RightOf c)); split; [done|]; split; [|cbn; set_solver].
      exists (inorder l ++ [c]), [], (LA ++ [rc]), []; inversion HB; subst.
      rewrite !app_nil_r; do 2 (split; [done|]).
      split; [auto 6|].
      split; [constructor|]; split; [split_forall; [done|unfold stop; lia|done]|].
      split; [constructor|]; intros new; cbn; rewrite decide_True, <- app_assoc; done.
    + rewrite E; exists w; split; [done|]; split; [apply placed_right; auto; unfold stop; lia|].
      destruct w as [| | |[]]; cbn in *; set_solver.
Qed.

(** From the root pointer. *)
Lemma descend_root (h : gmap positive range) (s n : Z) (t : rbt) (L : list range) :
  holds h (inorder t) L -> NoDup (inorder t) -> gapped L -> within 0 (2 ^ 32 - 1) L ->
  0 <= s -> 0 < n -> s + n < 2 ^ 32 -> avoids s n L ->
  exists w, fsm_descend h s n Root t = Ok w /\ placed h s n t L w.
Proof.
  intros HL; intros; destruct (descend_spec h s n t L Root) as [[-> E]|(w & E & Hw & _)]; eauto.
  exists (Slot Root); split; [exact E|]; inversion HL; subst; exists [], [], [], [].
  do 2 (split; [done|]); repeat split; auto.
Qed.

(** What a merge of [s, s+n) into node [c] leaves: the node to drop, if two nodes
    became one, and the heap. *)
Definition merged (t : rbt) (c : positive) (s n : Z) (L : list range) (h : gmap positive range)
    (res : option positive * gmap positive range) : Prop :=
  exists r L', res.2 = <[c := r]> h /\ c ∈ inorder t
  /\ match res.1 with Some d => d ∈ inorder t /\ d <> c | None => True end
  /\ holds res.2 (match res.1 with Some d => list_del d (inorder t) | None => inorder t end) L'
  /\ added s n L L'.

(** Two neighbouring nodes become the node [c] with range [q]. *)
Lemma holds_replace (h : gmap positive range) (A B : list positive) (c : positive) (q : range)
    (LA LB : list range) :
  NoDup (A ++ c :: B) -> holds h A LA -> holds h B LB ->
  holds (<[c := q]> h) (A ++ c :: B) (LA ++ q :: LB).
Proof.
  intros Hnd HA HB; apply NoDup_app in Hnd as (_ & Hd & Hr); apply NoDup_cons in Hr as [HcB _].
  apply holds_app_2; [|apply holds_cons_2; [apply lookup_insert_eq|]]; apply holds_insert; auto.
  intros Hc; apply (Hd c Hc), elem_of_cons; auto.
Qed.

Lemma avoids_below (s n : Z) (r : range) (A : list range) :
  Forall nonempty A -> Forall (fun a => stop a < start r) A -> start r <= s + n ->
  avoids s n A -> Forall (fun a => stop a <= s) A.
Proof.
  unfold avoids; rewrite !Forall_forall; intros Hne HA Hr Hav a Ha.
  specialize (Hne a Ha); specialize (HA a Ha); specialize (Hav a Ha).
  unfold nonempty, stop in *; lia.
Qed.

Lemma avoids_above (s n : Z) (r : range) (B : list range) :
  Forall nonempty B -> Forall (fun b => stop r < start b) B -> s <= stop r ->
  avoids s n B -> Forall (fun b => s + n <= start b) B.
Proof.
  unfold avoids; rewrite !Forall_forall; intros Hne HA Hr Hav a Ha.
  specialize (Hne a Ha); specialize (HA a Ha); specialize (Hav a Ha).
  unfold nonempty, stop in *; lia.
Qed.

Lemma added_join (LA LB : list range) (a b : range) (s n : Z) :
  gapped (LA ++ a :: b :: LB) -> stop a = s -> start b = s + n -> 0 < n ->
  added s n (LA ++ a :: b :: LB) (LA ++ Range (start a) (len a + n + len b) :: LB).
Proof.
  intros HG Ha Hb Hn; assert (gapped ((LA ++ [a]) ++ b :: LB)) as HG2
    by (rewrite <- app_assoc; done).
  destruct (gapped_split _ _ _ HG) as (_ & _ & Hne & HltA & _).
  destruct (gapped_split _ _ _ HG2) as (_ & _ & Hneb & _ & HltB).
  unfold nonempty, stop in *; apply (added_replace LA [a; b] LB); auto; unfold nonempty, stop; cbn.
  - lia.
  - eapply Forall_impl; [exact HltB|]; cbn; intros; lia.
  - lia.
  - intros x; rewrite !covers_cons, covers_nil; unfold in_range, stop; cbn; lia.
Qed.

Ltac merge_bounds :=
  split_forall; unfold stop, nonempty in *; cbn in *.

Lemma front_merge_spec (t : rbt) (c : positive) (s n : Z) (L : list range) (h : gmap positive range) :
  NoDup (inorder t) -> gapped L -> within 0 (2 ^ 32 - 1) L ->
  0 <= s -> 0 < n -> s + n < 2 ^ 32 -> avoids s n L -> placed h s n t L (InFront c) ->
  exists res, fsm_front_merge t c n h = Ok res /\ merged t c s n L h res.
Proof.
  intros Hnd HG HW Hs Hn Hlim HAv (A & B & LA & r & LB & Et & -> & Hr & HA & Hc & HB).
  destruct (gapped_split _ _ _ HG) as (GA & GB & Hne & HltA & HltB).
  assert (Forall (fun a => stop a <= s) LA) as HleA.
  { apply avoids_below with n r; auto using gapped_nonempty; [lia|by split_forall]. }
  assert (c ∈ inorder t) as Hin by (rewrite Et, elem_of_app, elem_of_cons; auto).
  unfold fsm_front_merge; rewrite (node_at_ok _ _ _ Hc), (rb_prev_inorder c t A B Hnd Et).
  cbn [mbind run_bind].
  assert (start r -64 n = s) as -> by (unfold nonempty in Hne; merge_bounds; unwrap; lia).
  assert (len r +32 n = len r + n) as -> by (merge_bounds; unwrap; lia).
  assert (match last LA with Some q => stop q <> s | None => True end ->
    merged t c s n (LA ++ r :: LB) h (None, <[c := Range s (len r + n)]> h)) as Hno.
  { intros Hlast; pose proof (gapped_last_touch LA s GA HleA Hlast) as HltS.
    exists (Range s (len r + n)), (LA ++ Range s (len r + n) :: LB); repeat (split; [done|]); cbn; split.
    - rewrite Et in Hnd |- *; by apply holds_replace.
    - apply (added_replace LA [r] LB); auto; unfold nonempty in *; cbn; [lia| |lia|].
      + eapply Forall_impl; [exact HltB|]; unfold stop; cbn; intros; lia.
      + intros x; rewrite covers_cons, covers_nil; unfold in_range, stop; cbn; lia. }
  destruct A as [|d A _] using rev_ind.
  { inversion HA; subst; eexists; split; [reflexivity|]; by apply Hno. }
  rewrite last_snoc; rewrite holds_app in HA; destruct HA as (LA' & Ld & -> & HA & Hd).
  rewrite holds_cons in Hd; destruct Hd as (rd & ? & -> & Hd & Hnil); inversion Hnil; subst; clear Hnil.
  rewrite last_snoc in Hno; rewrite <- app_assoc in Et, HG; cbn in Et, HG.
  destruct (gapped_split _ _ _ HG) as (_ & _ & Hned & _).
  assert (d <> c /\ c ∉ A ++ d :: B /\ d ∉ A ++ c :: B) as (Hdc & HcAB & HdAB).
  { rewrite Et in Hnd; apply NoDup_app in Hnd as (HA1 & HA2 & HA3).
    rewrite !NoDup_cons in HA3; set_solver. }
  rewrite (node_at_ok _ d rd) by (by rewrite lookup_insert_ne).
  cbn [mbind run_bind]; assert (node_end rd = stop rd) as ->.
  { unfold node_end, stop; merge_bounds; unwrap; lia. }
  cbn [start]; destruct (Z.eqb_spec (stop rd) s) as [Es|Ns]; [|eauto].
  eexists; split; [reflexivity|]; rewrite insert_insert_eq; cbn [start len].
  exists (Range (start rd) (len rd + n + len r)), (LA' ++ Range (start rd) (len rd + n + len r) :: LB).
  assert (Range (s -64 len rd) (len r + n +32 len rd) = Range (start rd) (len rd + n + len r)) as ->.
  { merge_bounds; unwrap; f_equal; lia. }
  cbn; split; [done|]; split; [done|]; split; [split; [rewrite Et; set_solver|done]|]; split.
  - rewrite Et in Hnd |- *; rewrite list_del_split by done.
    apply holds_replace; auto.
    by apply NoDup_drop in Hnd.
  - rewrite <- app_assoc; cbn; apply added_join; auto.
Qed.

Lemma back_merge_spec (t : rbt) (c : positive) (s n : Z) (L : list range) (h : gmap positive range) :
  NoDup (inorder t) -> gapped L -> within 0 (2 ^ 32 - 1) L ->
  0 <= s -> 0 < n -> s + n < 2 ^ 32 -> avoids s n L -> placed h s n t L (Behind c) ->
  exists res, fsm_back_merge t c n h = Ok res /\ merged t c s n L h res.
Proof.
  intros Hnd HG HW Hs Hn Hlim HAv (A & B & LA & r & LB & Et & -> & Hr & HA & Hc & HB).
  destruct (gapped_split _ _ _ HG) as (GA & GB & Hne & HltA & HltB).
  assert (Forall (fun b => s + n <= start b) LB) as HleB.
  { apply avoids_above with r; auto using gapped_nonempty; [lia|by split_forall]. }
  assert (c ∈ inorder t) as Hin by (rewrite Et, elem_of_app, elem_of_cons; auto).
  unfold fsm_back_merge; rewrite (node_at_ok _ _ _ Hc), (rb_next_inorder c t A B Hnd Et).
  cbn [mbind run_bind].
  assert (len r +32 n = len r + n) as -> by (merge_bounds; unwrap; lia).
  assert (match head LB with Some q => s + n <> start q | None => True end ->
    merged t c s n (LA ++ r :: LB) h (None, <[c := Range (start r) (len r + n)]> h)) as Hno.
  { intros Hhead; pose proof (gapped_head_touch LB (s + n) GB HleB Hhead) as HltS.
    exists (Range (start r) (len r + n)), (LA ++ Range (start r) (len r + n) :: LB).
    repeat (split; [done|]); cbn; split.
    - rewrite Et in Hnd |- *; by apply holds_replace.
    - unfold nonempty, stop in *; apply (added_replace LA [r] LB); auto; unfold nonempty, stop in *; cbn; [lia| |lia|].
      + eapply Forall_impl; [exact HltS|]; cbn; intros; lia.
      + intros x; rewrite covers_cons, covers_nil; unfold in_range, stop; cbn; lia. }
  destruct B as [|d B].
  { inversion HB; subst; eexists; split; [reflexivity|]; by apply Hno. }
  rewrite holds_cons in HB; destruct HB as (rd & LB' & -> & Hd & HB); cbn [head] in Hno |- *.
  assert (d <> c) as Hdc.
  { rewrite Et in Hnd; apply NoDup_app in Hnd as (_ & _ & HA3); rewrite !NoDup_cons in HA3; set_solver. }
  rewrite (node_at_ok _ d rd) by (by rewrite lookup_insert_ne).
  cbn [mbind run_bind]; assert (node_end (Range (start r) (len r + n)) = s + n) as ->.
  { unfold node_end; merge_bounds; unwrap; lia. }
  cbn [start len]; destruct (Z.eqb_spec (s + n) (start rd)) as [Es|Ns]; [|eauto].
  eexists; split; [reflexivity|]; rewrite insert_insert_eq.
  exists (Range (start r) (len r + n + len rd)), (LA ++ Range (start r) (len r + n + len rd) :: LB').
  assert (len r + n +32 len rd = len r + n + len rd) as ->.
  { destruct GB as (Hned & _); merge_bounds; unwrap; lia. }
  cbn; split; [done|]; split; [done|]; split; [split; [rewrite Et; set_solver|done]|]; split.
  - rewrite Et in Hnd |- *; change (A ++ c :: d :: B) with (A ++ [c] ++ d :: B) in Hnd |- *.
    rewrite app_assoc in Hnd |- *; rewrite list_del_split by done; apply NoDup_drop in Hnd.
    rewrite <- app_assoc in Hnd |- *; by apply holds_replace.
  - apply added_join; auto.
Qed.

(** The merge that follows a descent. *)
Lemma merge_spec (t : rbt) (s n : Z) (L : list range) (h : gmap positive range) (w : place) :
  NoDup (inorder t) -> gapped L -> within 0 (2 ^ 32 - 1) L ->
  0 <= s -> 0 < n -> s + n < 2 ^ 32 -> avoids s n L -> placed h s n t L w ->
  match w with
  | InFront c => exists res, fsm_front_merge t c n h = Ok res /\ merged t c s n L h res
  | Behind c => exists res, fsm_back_merge t c n h = Ok res /\ merged t c s n L h res
  | _ => True
  end.
Proof. intros; destruct w; auto; [by apply front_merge_spec|by apply back_merge_spec]. Qed.

(** Linking a new node in the slot found. *)
Lemma slot_spec (t : rbt) (s n : Z) (L : list range) (h : gmap positive range) (p : slot)
    (new : positive) :
  gapped L -> 0 < n -> placed h s n t L (Slot p) -> new ∉ inorder t ->
  exists A B L', inorder t = A ++ B
  /\ inorder (rb_insert_color new (rb_link_node new p t)) = A ++ new :: B
  /\ holds (<[new := Range s n]> h) (A ++ new :: B) L' /\ added s n L L'.
Proof.
  intros HG Hn (A & B & LA & LB & Et & -> & HA & HB & HF1 & HF2 & Hl) Hnew.
  exists A, B, (LA ++ Range s n :: LB); split; [done|].
  rewrite Et, elem_of_app in Hnew.
  split; [rewrite rb_insert_color_inorder; apply Hl|]; split.
  - apply holds_app_2; [|apply holds_cons_2; [apply lookup_insert_eq|]]; apply holds_insert; tauto.
  - apply (added_replace LA [] LB); auto; unfold nonempty; cbn; auto; try lia.
    intros x; rewrite covers_nil; unfold in_range, stop; cbn; lia.
Qed.

End TreeSpecs.
