(* ===== verification/FsmSpace.v ===== *)
(** The invariant of the free-space manager and the operations on its two areas,
    src/linux/fs/vdfs4/fsm.c (fsm_add_free_space, fsm_commit_free_space,
    fsm_allocate_from_node, fsm_find_node, fsm_choose_node).

    [fsm_ok vol f fa na] says that the heap, trees, hash lists and counters of
    [f] are consistent and that the free area holds the ranges [fa] and the
    next-free area the ranges [na]. *)

From Stdlib Require Import ZArith Lia Bool List.
From stdpp Require Import base list gmap sets.
From S2P Require Import Prelude Ranges Rbtree FsmTree.

Open Scope Z_scope.

(** ** The hash lists *)

(** The lists hold exactly the nodes [ids], each in the list of its order. *)
Definition hashed (h : gmap positive range) (lists : list (list positive)) (ids : list positive) : Prop :=
  length lists = 17%nat /\ concat lists ≡ₚ ids
  /\ forall i l n, lists !! i = Some l -> n ∈ l ->
     exists r, h !! n = Some r /\ fsm_order (len r) = Ok (Z.of_nat i).

Lemma fsm_order_ok (x : Z) : 0 < x -> exists o, fsm_order x = Ok o /\ 0 <= o <= 16.
Proof.
  intros Hx; unfold fsm_order, VDFS4_FSM_MAX_ORDER; rewrite (proj2 (Z.eqb_neq x 0)) by lia.
  eexists; split; [reflexivity|]; pose proof (Z.log2_nonneg x); lia.
Qed.

Lemma concat_alter_snoc (i : nat) (n : positive) (lists : list (list positive)) :
  (i < length lists)%nat -> concat (alter (fun l => l ++ [n]) i lists) ≡ₚ n :: concat lists.
Proof.
  revert i; induction lists as [|l lists IH]; intros [|i] Hi; cbn in *; try lia.
  - rewrite <- app_assoc; cbn; by rewrite Permutation_middle.
  - rewrite IH by lia; by rewrite Permutation_middle.
Qed.

Lemma hashed_ext (h h' : gmap positive range) (lists : list (list positive)) (ids : list positive) :
  (forall n, n ∈ ids -> h' !! n = h !! n) -> hashed h lists ids -> hashed h' lists ids.
Proof.
  intros Hext (Hlen & Hp & Ho); split; [done|]; split; [done|]; intros i l n Hl Hn.
  rewrite Hext; [by eapply Ho|].
  rewrite <- Hp; apply list_elem_of_In, in_concat; exists l.
  split; [apply list_elem_of_In; by eapply list_elem_of_lookup_2|by apply list_elem_of_In].
Qed.

Lemma hashed_insert (h : gmap positive range) (lists : list (list positive)) (ids : list positive)
    (n : positive) (r : range) :
  n ∉ ids -> hashed h lists ids -> hashed (<[n := r]> h) lists ids.
Proof. intros Hn; apply hashed_ext; intros m Hm; apply lookup_insert_ne; naive_solver. Qed.

Lemma hashed_delete (h : gmap positive range) (lists : list (list positive)) (ids : list positive)
    (n : positive) :
  n ∉ ids -> hashed h lists ids -> hashed (delete n h) lists ids.
Proof. intros Hn; apply hashed_ext; intros m Hm; apply lookup_delete_ne; naive_solver. Qed.

Lemma hashed_perm (h : gmap positive range) (lists : list (list positive)) (ids ids' : list positive) :
  ids ≡ₚ ids' -> hashed h lists ids -> hashed h lists ids'.
Proof. intros Hp (? & Hq & ?); repeat split; auto; by rewrite Hq. Qed.

Lemma hash_spec (f : fsm_info) (n : positive) (r : range) (ids : list positive) :
  hashed (heap f) (free_list f) ids -> heap f !! n = Some r -> 0 < len r ->
  exists ls, fsm_hash n f = Ok (set_free_list ls f) /\ hashed (heap f) ls (n :: ids).
Proof.
  intros (Hlen & Hp & Ho) Hn Hr; destruct (fsm_order_ok (len r) Hr) as (o & Eo & Hb).
  unfold fsm_hash; rewrite (node_at_ok _ _ _ Hn); cbn [mbind run_bind]; rewrite Eo.
  eexists; split; [reflexivity|]; split; [by rewrite length_alter|]; split.
  { rewrite concat_alter_snoc by lia; by rewrite Hp. }
  intros i l m Hl Hm; destruct (decide (i = Z.to_nat o)) as [->|Hne].
  - rewrite list_lookup_alter_eq in Hl; destruct (free_list f !! Z.to_nat o) as [k|] eqn:E; [|done].
    cbn in Hl; injection Hl as <-; rewrite elem_of_app, list_elem_of_singleton in Hm.
    destruct Hm as [Hm| ->]; [by eapply Ho|]; exists r; rewrite Eo, Z2Nat.id by lia; done.
  - rewrite list_lookup_alter_ne in Hl by done; by eapply Ho.
Qed.

Lemma list_del_concat (n : positive) (lists : list (list positive)) :
  concat (map (list_del n) lists) = list_del n (concat lists).
Proof. induction lists as [|l lists IH]; cbn; [done|]; unfold list_del in *; by rewrite filter_app, IH. Qed.

Lemma list_del_perm (n : positive) (A B : list positive) : A ≡ₚ B -> list_del n A ≡ₚ list_del n B.
Proof. unfold list_del; by intros ->. Qed.

Lemma unhash_spec (h : gmap positive range) (lists : list (list positive)) (ids : list positive)
    (n : positive) :
  hashed h lists ids -> hashed h (map (list_del n) lists) (list_del n ids).
Proof.
  intros (Hlen & Hp & Ho); split; [by rewrite length_map|]; split.
  { rewrite list_del_concat; by apply list_del_perm. }
  intros i l m Hl Hm; rewrite list_lookup_fmap in Hl.
  destruct (lists !! i) as [k|] eqn:E; [|done]; cbn in Hl; injection Hl as <-.
  apply list_del_elem in Hm as [_ Hm]; by eapply Ho.
Qed.

Lemma list_del_cons_perm (n : positive) (ids : list positive) :
  NoDup ids -> n ∈ ids -> n :: list_del n ids ≡ₚ ids.
Proof.
  intros Hnd (A & B & ->)%list_elem_of_split; rewrite list_del_split by done.
  by rewrite Permutation_middle.
Qed.

(** ** The invariant *)

(** The free area, beside the nodes [others] of the heap. *)
Record area_ok (vol : Z) (f : fsm_info) (fa : list range) (others : list positive) : Prop := {
  ao_nodup : NoDup (inorder (free_area f) ++ others);
  ao_dom : forall n, is_Some (heap f !! n) -> n ∈ inorder (free_area f) ++ others;
  ao_holds : holds (heap f) (inorder (free_area f)) fa;
  ao_gapped : gapped fa;
  ao_within : within 0 vol fa;
  ao_hashed : hashed (heap f) (free_list f) (inorder (free_area f));
  ao_nodes : free_area_nodes f = lenZ fa;
  ao_max : lenZ fa <= VDFS4_FSM_MAX_FREE_NODES
}.

(** The next-free area. *)
Record next_ok (vol : Z) (f : fsm_info) (na : list range) : Prop := {
  no_holds : holds (heap f) (inorder (next_free_area f)) na;
  no_gapped : gapped na;
  no_within : within 0 vol na;
  no_list : next_free_list f ≡ₚ inorder (next_free_area f);
  no_nodes : next_free_nodes f = lenZ na;
  no_blocks : next_free_blocks f = total na + untracked_next_free f
}.

(** Every free block is counted once. *)
Record counts_ok (vol : Z) (f : fsm_info) (fa na : list range) : Prop := {
  co_free : free_blocks_count f + reserved_blocks_count f = total fa + untracked_blocks f;
  co_nonneg : 0 <= free_blocks_count f /\ 0 <= reserved_blocks_count f
              /\ 0 <= untracked_blocks f /\ 0 <= untracked_next_free f;
  co_vol : total fa + untracked_blocks f + total na + untracked_next_free f <= vol
}.

Record fsm_ok (vol : Z) (f : fsm_info) (fa na : list range) : Prop := {
  fo_vol : 0 <= vol < 2 ^ 32;
  fo_area : area_ok vol f fa (inorder (next_free_area f));
  fo_next : next_ok vol f na;
  fo_disj : forall x, covers fa x -> covers na x -> False;
  fo_counts : counts_ok vol f fa na
}.

(** The nodes that the heap has beside those of the trees are none. *)
Lemma fresh_notin (vol : Z) (f : fsm_info) (fa : list range) (others : list positive) :
  area_ok vol f fa others -> forall ids, ids = inorder (free_area f) ++ others ->
  (forall n, n ∈ others -> is_Some (heap f !! n)) -> fresh (dom (heap f)) ∉ ids.
Proof.
  intros Hok ids -> Hoth Hin; apply (is_fresh (dom (heap f))), elem_of_dom.
  rewrite elem_of_app in Hin; destruct Hin as [Hin|Hin]; [|auto].
  destruct (holds_elem _ _ _ _ (ao_holds _ _ _ _ Hok) Hin) as (r & _ & ->); eauto.
Qed.

Lemma holds_is_Some (h : gmap positive range) (ids : list positive) (L : list range) (n : positive) :
  holds h ids L -> n ∈ ids -> is_Some (h !! n).
Proof. intros HL Hn; destruct (holds_elem _ _ _ _ HL Hn) as (r & _ & ->); eauto. Qed.

Lemma holds_lenZ (h : gmap positive range) (ids : list positive) (L : list range) :
  holds h ids L -> lenZ L = lenZ ids.
Proof. intros HL; unfold lenZ; by rewrite (Forall2_length _ _ _ HL). Qed.

(** A block range that is in neither area. *)
Definition unused (s n : Z) (fa na : list range) : Prop :=
  forall x, s <= x < s + n -> ~ covers fa x /\ ~ covers na x.

Lemma added_within (vol s n : Z) (L L' : list range) :
  gapped L -> within 0 vol L -> 0 <= s -> s + n <= vol -> added s n L L' -> within 0 vol L'.
Proof.
  intros HG HW Hs Hn (HG' & _ & Hc); apply within_covers; [by apply gapped_nonempty|].
  rewrite (within_covers 0 vol L) in HW by (by apply gapped_nonempty).
  intros x; rewrite Hc; intros [?|?]; [auto|lia].
Qed.

Lemma removed_within (vol s n : Z) (L L' : list range) :
  gapped L -> within 0 vol L -> removed s n L L' -> within 0 vol L'.
Proof.
  intros HG HW (HG' & _ & Hc); apply within_covers; [by apply gapped_nonempty|].
  rewrite (within_covers 0 vol L) in HW by (by apply gapped_nonempty).
  intros x; rewrite Hc; intros [? _]; auto.
Qed.

Lemma within_mono (lo hi hi' : Z) (L : list range) : hi <= hi' -> within lo hi L -> within lo hi' L.
Proof. intros Hle HW; eapply Forall_impl; [exact HW|]; cbn; intros; lia. Qed.

(** At most one range per block: node counts stay in 32 bits. *)
Lemma gapped_count (L : list range) : gapped L -> lenZ L <= total L.
Proof.
  induction L as [|r L IH]; [done|]; intros (Hr & _ & HL); specialize (IH HL).
  rewrite lenZ_cons, total_cons; unfold nonempty in Hr; lia.
Qed.

Lemma NoDup_app_del (A B : list positive) (d : positive) : NoDup (A ++ B) -> NoDup (A ++ list_del d B).
Proof.
  rewrite !NoDup_app; intros (HA & Hd & HB); split; [done|]; split; [|by apply list_del_nodup].
  intros x Hx; rewrite list_del_elem; naive_solver.
Qed.

Lemma lenZ_list_del (d : positive) (A : list positive) :
  NoDup A -> d ∈ A -> lenZ (list_del d A) = lenZ A - 1.
Proof.
  intros Hnd Hd; unfold lenZ; rewrite <- (Permutation_length (list_del_cons_perm d A Hnd Hd)); cbn; lia.
Qed.

(** ** Freeing: the next-free area *)

Section Next.
Context `{RbtreeLaws}.
Context (vol : Z).

(** The free area does not see changes to the nodes and tree of the next-free
    area. *)
Lemma area_ok_frame (f f' : fsm_info) (fa : list range) (others others' : list positive) :
  area_ok vol f fa others ->
  free_area f' = free_area f -> free_list f' = free_list f -> free_area_nodes f' = free_area_nodes f ->
  (forall n, n ∈ inorder (free_area f) -> heap f' !! n = heap f !! n) ->
  NoDup (inorder (free_area f) ++ others') ->
  (forall n, is_Some (heap f' !! n) -> n ∈ inorder (free_area f) ++ others') ->
  area_ok vol f' fa others'.
Proof.
  intros [] Et El En Hh Hnd Hdom; split; rewrite ?Et, ?El, ?En; auto.
  - unfold holds in *; apply Forall2_same_length_lookup_2.
    { by eapply Forall2_length. }
    intros i x y Hx Hy; rewrite Hh by (by eapply list_elem_of_lookup_2).
    exact (Forall2_lookup_lr _ _ _ i x y ao_holds0 Hx Hy).
  - by eapply hashed_ext.
Qed.

(** Bounds that the invariant gives for a freed range. *)
Definition freeable (s n : Z) (f : fsm_info) (fa na : list range) : Prop :=
  0 <= s /\ 0 < n /\ s + n <= vol /\ unused s n fa na
  /\ total fa + untracked_blocks f + total na + untracked_next_free f + n <= vol.

Lemma freeable_avoids (s n : Z) (f : fsm_info) (fa na : list range) :
  fsm_ok vol f fa na -> freeable s n f fa na -> avoids s n na /\ avoids s n fa.
Proof.
  intros Hok (? & ? & ? & Hu & _); split; apply avoids_covers; auto.
  - apply gapped_nonempty, (no_gapped _ _ _ (fo_next _ _ _ _ Hok)).
  - intros x Hx; apply (Hu x Hx).
  - apply gapped_nonempty, (ao_gapped _ _ _ _ (fo_area _ _ _ _ Hok)).
  - intros x Hx; apply (Hu x Hx).
Qed.

Lemma added_disj (s n : Z) (fa na na' : list range) :
  (forall x, covers fa x -> covers na x -> False) -> unused s n fa na -> added s n na na' ->
  forall x, covers fa x -> covers na' x -> False.
Proof. intros Hd Hu (_ & _ & Hc) x Hf; rewrite Hc; intros [?|Hx]; [eauto|exact (proj1 (Hu x Hx) Hf)]. Qed.

Lemma add_merged_ok (f : fsm_info) (fa na : list range) (s n : Z) (c : positive)
    (res : option positive * gmap positive range) :
  fsm_ok vol f fa na -> freeable s n f fa na ->
  merged (next_free_area f) c s n na (heap f) res ->
  exists na', added s n na na' /\ fsm_ok vol (fsm_add_merged n res f) fa na'.
Proof.
  intros Hok Hfr (r & na' & Eh & Hc & Hd & Hh & Hadd); exists na'; split; [done|].
  destruct Hok as [Hvol Harea Hnext Hdisj Hcnt]; pose proof Hadd as (HG' & Ht & _).
  assert (NoDup (inorder (free_area f) ++ inorder (next_free_area f))) as Hnd by apply Harea.
  pose proof Hnd as Hnd0; apply NoDup_app in Hnd0 as (_ & Hsep & HndN).
  assert (within 0 vol na') as HW'.
  { eapply added_within; [..|exact Hadd]; [apply Hnext|apply Hnext|apply Hfr|apply Hfr]. }
  assert (counts_ok vol f fa na -> forall f', free_blocks_count f' = free_blocks_count f ->
    reserved_blocks_count f' = reserved_blocks_count f -> untracked_blocks f' = untracked_blocks f ->
    untracked_next_free f' = untracked_next_free f -> counts_ok vol f' fa na') as Hcnt'.
  { intros [] f' E1 E2 E3 E4; split; rewrite ?E1, ?E2, ?E3, ?E4; auto; destruct Hfr as (_ & _ & _ & _ & Hfr); lia. }
  destruct res as [[d|] h']; cbn [fst snd] in Eh, Hd, Hh; subst h'; unfold fsm_add_merged.
  - destruct Hd as [Hdin Hdc].
    assert (inorder (rb_erase d (next_free_area f)) = list_del d (inorder (next_free_area f))) as Er
      by (by apply rb_erase_list_del).
    split; [done| | |by eapply added_disj; eauto; apply Hfr|by apply Hcnt'].
    + eapply area_ok_frame; [exact Harea|done|done|done|..]; cbn.
      * intros m Hm; rewrite lookup_delete_ne, lookup_insert_ne; [done|..]; intros ->; by eapply Hsep.
      * rewrite Er; by apply NoDup_app_del.
      * intros m [q Hq]; rewrite lookup_delete_Some in Hq; destruct Hq as [Hmd Hq].
        rewrite Er, elem_of_app, list_del_elem; destruct (decide (m = c)) as [->|]; [auto|].
        rewrite lookup_insert_ne in Hq by done; pose proof (ao_dom _ _ _ _ Harea m ltac:(eauto)) as Hm.
        rewrite elem_of_app in Hm; naive_solver.
    + destruct Hnext; split; cbn; auto.
      * rewrite Er; apply holds_delete; [rewrite list_del_elem; tauto|done].
      * rewrite Er; by apply list_del_perm.
      * apply holds_lenZ in Hh; rewrite lenZ_list_del in Hh by done.
        apply holds_lenZ in no_holds0; pose proof (gapped_count na no_gapped0).
        pose proof (total_within 0 vol na no_gapped0 no_within0 ltac:(lia)).
        pose proof (lenZ_nonneg na'); rewrite no_nodes0, u32_small; lia.
      * lia.
  - split; [done| | |by eapply added_disj; eauto; apply Hfr|by apply Hcnt'].
    + eapply area_ok_frame; [exact Harea|done|done|done|..]; cbn; [|done|].
      * intros m Hm; rewrite lookup_insert_ne; [done|]; intros ->; by eapply Hsep.
      * intros m [q Hq]; destruct (decide (m = c)) as [->|]; [rewrite elem_of_app; auto|].
        rewrite lookup_insert_ne in Hq by done; apply (ao_dom _ _ _ _ Harea m); eauto.
    + destruct Hnext; split; cbn; auto; [|lia].
      apply holds_lenZ in Hh, no_holds0; lia.
Qed.

(** A node allocation that succeeds gives a node of no tree. *)
Lemma alloc_node_spec (f : fsm_info) :
  (exists rest, fsm_alloc_node f = (None, set_allocs rest f))
  \/ exists rest, fsm_alloc_node f =
       (Some (fresh (dom (heap f))),
        set_allocs rest (set_heap (<[fresh (dom (heap f)) := Range 0 0]> (heap f)) f)).
Proof. unfold fsm_alloc_node; destruct (allocs f) as [|[] rest]; eauto. Qed.

Lemma next_is_Some (f : fsm_info) (na : list range) (n : positive) :
  next_ok vol f na -> n ∈ inorder (next_free_area f) -> is_Some (heap f !! n).
Proof. intros []; by eapply holds_is_Some. Qed.

(** What fsm_add_free_space leaves alone. *)
Definition same_free (f f' : fsm_info) : Prop :=
  rdonly f' = rdonly f /\ data f' = data f /\ free_blocks_count f' = free_blocks_count f
  /\ reserved_blocks_count f' = reserved_blocks_count f /\ untracked_blocks f' = untracked_blocks f
  /\ erase_blocks_counters f' = erase_blocks_counters f /\ dirty f' = dirty f.

Lemma add_free_space_spec (f : fsm_info) (fa na : list range) (s n : Z) :
  fsm_ok vol f fa na -> freeable s n f fa na ->
  exists f', fsm_add_free_space s n f = Ok f' /\ same_free f f'
  /\ ((exists na', added s n na na' /\ fsm_ok vol f' fa na' /\ untracked_next_free f' = untracked_next_free f)
      \/ (head (allocs f) = Some false /\ fsm_ok vol f' fa na
          /\ untracked_next_free f' = untracked_next_free f + n)).
Proof.
  intros Hok Hfr; pose proof (freeable_avoids s n f fa na Hok Hfr) as [Hav _].
  pose proof Hok as [Hvol Harea Hnext Hdisj Hcnt]; pose proof Hfr as (Hs & Hn & Hlim & Hun & Hroom).
  assert (NoDup (inorder (next_free_area f))) as Hnd.
  { pose proof (ao_nodup _ _ _ _ Harea) as Hnd; apply NoDup_app in Hnd; apply Hnd. }
  assert (within 0 (2 ^ 32 - 1) na) as HW by (eapply within_mono; [|apply Hnext]; lia).
  destruct (descend_root (heap f) s n (next_free_area f) na) as (w & Ew & Hw);
    [apply Hnext|done|apply Hnext|done|lia..|done|].
  pose proof (merge_spec (next_free_area f) s n na (heap f) w Hnd (no_gapped _ _ _ Hnext) HW
    Hs Hn ltac:(lia) Hav Hw) as Hm.
  unfold fsm_add_free_space; rewrite Ew; cbn [mbind run_bind]; rewrite ?(u32_small n) by lia.
  destruct w as [c|c|c|p]; [done| | |].
  1,2: destruct Hm as (res & Em & Hm); rewrite Em; eexists; split; [reflexivity|].
  1,2: destruct (add_merged_ok f fa na s n c res Hok Hfr Hm) as (na' & Hadd & Hok').
  1,2: split; [by destruct res as [[]]|left; exists na'; split; [done|split; [done|by destruct res as [[]]]]].
  set (f1 := set_next_free_blocks (next_free_blocks f + n) f).
  destruct (alloc_node_spec f1) as [[rest E]|[rest E]].
  { rewrite E; eexists; split; [reflexivity|]; split; [done|]; right.
    split; [|split; [|done]].
    { unfold fsm_alloc_node in E; cbn in E; destruct (allocs f) as [|[]]; try done. }
    split; [done|by eapply area_ok_frame; eauto; destruct Harea| |done|].
    - destruct Hnext; split; cbn; auto; lia.
    - destruct Hcnt; split; cbn; auto; lia. }
  rewrite E; set (new := fresh (dom (heap f1))) in *.
  assert (new ∉ inorder (free_area f) ++ inorder (next_free_area f)) as Hfresh.
  { apply (fresh_notin vol f fa (inorder (next_free_area f))); auto; eauto using next_is_Some. }
  assert (new ∉ inorder (free_area f) /\ new ∉ inorder (next_free_area f)) as [Hf1 Hf2] by set_solver.
  destruct (slot_spec (next_free_area f) s n na (heap f) p new) as (A & B & na' & Et & El & Hh & Hadd);
    [apply Hnext|lia|done|done|].
  eexists; split; [reflexivity|]; split; [done|]; left; exists na'; split; [done|]; split; [|done].
  pose proof Hadd as (HG' & Ht & _).
  split; [done| | |by eapply added_disj|].
  - eapply area_ok_frame; [exact Harea|done|done|done|..]; cbn.
    + intros m Hm2; rewrite insert_insert_eq, lookup_insert_ne; [done|]; intros ->; done.
    + cbn; rewrite El; rewrite Et in Hfresh.
      pose proof (ao_nodup _ _ _ _ Harea) as Hnd2; rewrite Et in Hnd2.
      change (A ++ new :: B) with (A ++ [new] ++ B).
      rewrite (Permutation_app_swap_app A [new] B), (Permutation_app_swap_app _ [new]).
      cbn; constructor; done.
    + intros m [q Hq]; rewrite insert_insert_eq in Hq; rewrite El.
      destruct (decide (m = new)) as [->|]; [set_solver|].
      rewrite lookup_insert_ne in Hq by done.
      pose proof (ao_dom _ _ _ _ Harea m ltac:(eauto)) as Hm2; rewrite Et in Hm2; set_solver.
  - destruct Hnext; split; cbn; auto.
    + rewrite El, insert_insert_eq; done.
    + eapply added_within; [..|exact Hadd]; auto.
    + rewrite El, no_list0, Et; rewrite (Permutation_app_comm _ [new]); cbn; by rewrite Permutation_middle.
    + apply holds_lenZ in Hh, no_holds0; rewrite Et in no_holds0; autorewrite with vdfs in Hh, no_holds0.
      assert (within 0 vol na') as HW' by (eapply added_within; [..|exact Hadd]; auto).
      pose proof (gapped_count na' HG'); pose proof (total_within 0 vol na' HG' HW' ltac:(lia)).
      pose proof (lenZ_nonneg na); rewrite no_nodes0, u32_small; lia.
    + lia.
  - destruct Hcnt; split; cbn; auto; lia.
Qed.

End Next.

(** ** Committing: from the next-free area to the free area *)

Lemma list_del_comm (c d : positive) (A : list positive) :
  list_del c (list_del d A) = list_del d (list_del c A).
Proof. unfold list_del; rewrite !list_filter_filter; apply list_filter_iff; tauto. Qed.

(** The fields a step on the free area leaves alone. *)
Definition same_next (f f' : fsm_info) : Prop :=
  next_free_area f' = next_free_area f /\ next_free_list f' = next_free_list f
  /\ next_free_nodes f' = next_free_nodes f /\ next_free_blocks f' = next_free_blocks f
  /\ untracked_next_free f' = untracked_next_free f /\ data f' = data f
  /\ reserved_blocks_count f' = reserved_blocks_count f
  /\ erase_blocks_counters f' = erase_blocks_counters f
  /\ dirty f' = dirty f.

Lemma same_next_trans (f g k : fsm_info) : same_next f g -> same_next g k -> same_next f k.
Proof. unfold same_next; intuition congruence. Qed.

Section Commit.
Context `{RbtreeLaws}.
Context (vol : Z) (Hvol : 0 <= vol < 2 ^ 32).

(** Dropping the node [d] of a merge. *)
Lemma drop_merged (f : fsm_info) (d : positive) (ids : list positive) :
  inorder (free_area f) = ids -> NoDup ids -> d ∈ ids ->
  inorder (free_area (fsm_drop d (fsm_unhash d f))) = list_del d ids.
Proof. intros <- Hnd Hd; cbn; by apply rb_erase_list_del. Qed.

Lemma commit_merged_spec (f : fsm_info) (fa fa' : list range) (c node : positive) (l : list positive)
    (r : range) (drop : option positive) :
  area_ok vol f fa (node :: l) -> c ∈ inorder (free_area f) ->
  match drop with Some d => d ∈ inorder (free_area f) /\ d <> c | None => True end ->
  holds (<[c := r]> (heap f))
    (match drop with Some d => list_del d (inorder (free_area f)) | None => inorder (free_area f) end) fa' ->
  gapped fa' -> within 0 vol fa' ->
  exists f', fsm_commit_merged c node (drop, <[c := r]> (heap f)) (fsm_unhash c f) = Ok f'
  /\ area_ok vol f' fa' l /\ same_next f f' /\ free_blocks_count f' = free_blocks_count f
  /\ untracked_blocks f' = untracked_blocks f /\ rdonly f' = rdonly f
  /\ (forall m, m ∈ l -> heap f' !! m = heap f !! m).
Proof.
  intros Ha Hc Hd Hh HG HW; pose proof Ha as [Hnd Hdom Hho Hga Hwi Hha Hno Hmax].
  set (ids := inorder (free_area f)) in *.
  apply NoDup_app in Hnd as (Hnd & Hsep & Hndl); apply NoDup_cons in Hndl as [Hnl Hndl].
  set (ids' := match drop with Some d => list_del d ids | None => ids end) in *.
  assert (c ∈ ids' /\ NoDup ids' /\ (forall m, m ∈ ids' -> m ∈ ids)) as (Hc' & Hnd' & Hsub).
  { subst ids'; destruct drop as [d|]; [|done].
    split; [rewrite list_del_elem; naive_solver|]; split; [by apply list_del_nodup|].
    intros m; rewrite list_del_elem; tauto. }
  set (g := match drop with
    | Some d => fsm_drop d (fsm_unhash d (set_heap (<[c := r]> (heap f)) (fsm_unhash c f)))
    | None => set_heap (<[c := r]> (heap f)) (fsm_unhash c f) end).
  assert (inorder (free_area g) = ids') as Eg.
  { subst g ids'; destruct drop as [d|]; [|done]; apply drop_merged; [done|done|apply Hd]. }
  assert (heap g !! c = Some r) as Hgc.
  { subst g; destruct drop as [d|]; cbn; [rewrite lookup_delete_ne by naive_solver|]; apply lookup_insert_eq. }
  assert (hashed (heap g) (free_list g) (list_del c ids')) as Hhg.
  { pose proof (unhash_spec _ _ _ c Hha) as Hu; apply (hashed_insert _ _ _ c r) in Hu;
      [|rewrite list_del_elem; tauto].
    subst g ids'; destruct drop as [d|]; [|done]; cbn.
    rewrite list_del_comm; apply hashed_delete; [rewrite list_del_elem; tauto|by apply unhash_spec]. }
  assert (0 < len r) as Hr.
  { destruct (holds_elem _ _ _ _ Hh Hc') as (q & Hq & Eq); rewrite lookup_insert_eq in Eq.
    injection Eq as <-; pose proof (gapped_nonempty _ HG) as Hne; rewrite Forall_forall in Hne; by apply Hne. }
  destruct (hash_spec g c r _ Hhg Hgc Hr) as (ls & El & Hls).
  assert (forall m, m <> c -> heap g !! m = match drop with Some d => delete d (heap f) !! m | None => heap f !! m end)
    as Hgm by (intros m Hm; subst g; destruct drop; cbn; [|by rewrite lookup_insert_ne];
      rewrite delete_insert_ne, lookup_insert_ne; naive_solver).
  assert (node ∉ ids) as Hnode by (intros Hin; apply (Hsep node Hin), elem_of_cons; auto).
  unfold fsm_commit_merged; fold g; rewrite El; eexists; split; [reflexivity|].
  split; [split|]; cbn; auto.
  - rewrite Eg, NoDup_app; split; [done|]; split; [|done]; intros m Hm; specialize (Hsep m (Hsub m Hm)).
    rewrite elem_of_cons in Hsep; tauto.
  - intros m [q Hq]; rewrite lookup_delete_Some in Hq; destruct Hq as [Hmn Hq].
    rewrite Eg, elem_of_app; destruct (decide (m = c)) as [->|Hmc]; [auto|].
    rewrite Hgm in Hq by done; subst ids'; destruct drop as [d|].
    + rewrite lookup_delete_Some in Hq; destruct Hq as [Hmd Hq].
      pose proof (Hdom m ltac:(eauto)) as Hm; rewrite elem_of_app, elem_of_cons in Hm.
      rewrite list_del_elem; naive_solver.
    + pose proof (Hdom m ltac:(eauto)) as Hm; rewrite elem_of_app, elem_of_cons in Hm; naive_solver.
  - rewrite Eg; apply holds_delete; [naive_solver|].
    subst g ids'; destruct drop as [d|]; [|done]; cbn; apply holds_delete; [|done].
    rewrite list_del_elem; tauto.
  - rewrite Eg; apply hashed_delete; [naive_solver|].
    eapply hashed_perm; [|exact Hls]; by apply list_del_cons_perm.
  - apply holds_lenZ in Hh; rewrite Hh; apply holds_lenZ in Hho.
    pose proof (lenZ_nonneg (list_del c ids)).
    subst g ids'; destruct drop as [d|]; cbn; [|lia].
    rewrite lenZ_list_del in Hh |- * by naive_solver; pose proof (lenZ_nonneg fa'); rewrite Hno.
    rewrite u32_small; unfold VDFS4_FSM_MAX_FREE_NODES in *; lia.
  - apply holds_lenZ in Hh, Hho; subst ids'; destruct drop as [d|]; [|lia].
    rewrite lenZ_list_del in Hh by naive_solver; lia.
  - subst g; split; [by destruct drop|]; repeat (split; [by destruct drop|]); intros m Hm.
    assert (m ∉ ids) by (intros Hi; apply (Hsep m Hi), elem_of_cons; auto).
    rewrite lookup_delete_ne by naive_solver; rewrite Hgm by naive_solver.
    destruct drop as [d|]; [|done]; rewrite lookup_delete_ne; [done|naive_solver].
Qed.

Lemma commit_node_spec (f : fsm_info) (fa : list range) (node : positive) (nd : range)
    (l : list positive) :
  area_ok vol f fa (node :: l) -> heap f !! node = Some nd -> nonempty nd ->
  0 <= start nd -> stop nd <= vol -> avoids (start nd) (len nd) fa ->
  0 <= free_blocks_count f < 2 ^ 63 ->
  exists f' fa', fsm_commit_node node f = Ok f' /\ area_ok vol f' fa' l /\ same_next f f'
  /\ free_blocks_count f' = free_blocks_count f + len nd /\ rdonly f' = rdonly f
  /\ (forall m, m ∈ l -> heap f' !! m = heap f !! m)
  /\ ((added (start nd) (len nd) fa fa' /\ untracked_blocks f' = untracked_blocks f)
      \/ (fa' = fa /\ lenZ fa = VDFS4_FSM_MAX_FREE_NODES
          /\ untracked_blocks f' = untracked_blocks f + len nd)).
Proof.
  intros Ha Hnd Hne Hs Hlim Hav Hfb; pose proof Ha as [Hndup Hdom Hho Hga Hwi Hha Hno Hmax].
  unfold nonempty, stop in *.
  pose proof Hndup as Hndup0; apply NoDup_app in Hndup0 as (Hnd1 & Hsep & Hndl).
  apply NoDup_cons in Hndl as [Hnl Hndl].
  assert (node ∉ inorder (free_area f)) as Hnode
    by (intros Hin; apply (Hsep node Hin), elem_of_cons; auto).
  assert (within 0 (2 ^ 32 - 1) fa) as HW by (eapply within_mono; [|exact Hwi]; lia).
  destruct (descend_root (heap f) (start nd) (len nd) (free_area f) fa) as (w & Ew & Hw);
    [done..|lia|done|].
  pose proof (merge_spec (free_area f) (start nd) (len nd) fa (heap f) w Hnd1 Hga HW
    Hs Hne ltac:(lia) Hav Hw) as Hm.
  set (f0 := set_free_blocks_count (free_blocks_count f +64 len nd) f).
  assert (free_blocks_count f0 = free_blocks_count f + len nd) as Ef0 by (cbn; apply u64_small; lia).
  assert (area_ok vol f0 fa (node :: l)) as Ha0 by (split; done).
  unfold fsm_commit_node; rewrite (node_at_ok _ _ _ Hnd); cbn [mbind run_bind]; fold f0.
  change (heap f0) with (heap f); change (free_area f0) with (free_area f); rewrite Ew; cbn [mbind run_bind].
  destruct w as [c|c|c|p]; [done| | |].
  1,2: destruct Hm as ([drop h'] & Em & (r & fa' & Eh & Hc & Hd & Hh & Hadd));
       cbn [fst snd] in Eh, Hd, Hh; subst h'.
  1,2: change (free_area (fsm_unhash c f0)) with (free_area f);
       change (heap (fsm_unhash c f0)) with (heap f); rewrite Em; cbn [mbind run_bind].
  1,2: edestruct (commit_merged_spec f0 fa fa' c node l r drop)
         as (f' & Ef & Haf & Hsame & Hfb' & Hun' & Hro & Hm'); eauto;
         [apply Hadd|eapply added_within; eauto; lia|].
  1,2: exists f', fa'; split; [exact Ef|]; split; [done|]; split; [done|]; split; [by rewrite Hfb'|].
  1,2: split; [done|]; split; [done|]; left; split; done.
  change (free_area_nodes f0) with (free_area_nodes f); rewrite Hno.
  destruct (Z.ltb_spec (lenZ fa) VDFS4_FSM_MAX_FREE_NODES) as [Hroom|Hfull].
  - destruct (slot_spec (free_area f) (start nd) (len nd) fa (heap f) p node)
      as (A & B & fa' & Et & El & Hh & Hadd); [done|done|done|done|].
    assert (<[node := Range (start nd) (len nd)]> (heap f) = heap f) as Eins
      by (apply insert_id; rewrite Hnd; by destruct nd).
    rewrite Eins in Hh.
    set (g := set_free_area_nodes _ _).
    destruct (hash_spec g node nd (inorder (free_area f))) as (ls & Els & Hls); [done|done|done|].
    rewrite Els; eexists _, fa'; split; [reflexivity|].
    pose proof Hh as Hlen; apply holds_lenZ in Hlen; apply holds_lenZ in Hho.
    rewrite Et in Hho; autorewrite with vdfs in Hlen, Hho.
    split; [|repeat (split; [done|]); left; split; done].
    split; cbn; rewrite ?El; auto.
    + rewrite <- app_assoc; cbn; rewrite Et, <- app_assoc in Hndup.
      rewrite (Permutation_middle B l node); done.
    + intros m Hm2; specialize (Hdom m Hm2); rewrite Et in Hdom; set_solver.
    + apply Hadd.
    + eapply added_within; eauto.
    + eapply hashed_perm; [|exact Hls]; rewrite Et; by rewrite Permutation_middle.
    + pose proof (lenZ_nonneg fa); rewrite u32_small; unfold VDFS4_FSM_MAX_FREE_NODES in *; lia.
    + lia.
  - eexists _, fa; split; [reflexivity|].
    split; [|repeat (split; [done|]); split; [|right; split; [done|split; [lia|done]]]].
    + split; cbn; auto.
      * rewrite NoDup_app; split; [done|]; split; [|done]; intros m Hm2 Hml.
        apply (Hsep m Hm2), elem_of_cons; auto.
      * intros m [q Hq]; rewrite lookup_delete_Some in Hq; destruct Hq as [Hmn Hq].
        specialize (Hdom m ltac:(eauto)); set_solver.
      * by apply holds_delete.
      * by apply hashed_delete.
    + intros m Hm2; cbn; rewrite lookup_delete_ne; [done|]; intros ->; done.
Qed.

(** The whole list: the blocks of the nodes move to the free area, except those
    of nodes for which there was no room, which are counted as untracked. *)
Lemma commit_loop_spec (l : list positive) (L : list range) (f : fsm_info) (fa : list range) :
  area_ok vol f fa l -> holds (heap f) l L -> Forall nonempty L -> within 0 vol L -> apart L ->
  (forall x, covers fa x -> covers L x -> False) ->
  0 <= free_blocks_count f -> free_blocks_count f + total L < 2 ^ 63 ->
  exists f' fa', fsm_commit_loop l f = Ok f' /\ area_ok vol f' fa' [] /\ same_next f f'
  /\ free_blocks_count f' = free_blocks_count f + total L /\ rdonly f' = rdonly f
  /\ total fa' + untracked_blocks f' = total fa + untracked_blocks f + total L
  /\ untracked_blocks f <= untracked_blocks f'
  /\ (forall x, covers fa x -> covers fa' x)
  /\ (forall x, covers fa' x -> covers fa x \/ covers L x)
  /\ (untracked_blocks f' = untracked_blocks f -> forall x, covers L x -> covers fa' x).
Proof.
  revert L f fa; induction l as [|n l IH]; intros L f fa Ha Hh Hne HW Hap Hdis Hfb Hlim.
  { inversion Hh; subst; exists f, fa; split; [done|]; split; [done|].
    split; [by repeat split|]; split; [cbn; lia|]; split; [done|]; split; [cbn; lia|].
    split; [lia|]; split; [auto|]; split; [auto|]; by intros _ x ?%covers_nil. }
  rewrite holds_cons in Hh; destruct Hh as (nd & K & -> & Hnd & Hh).
  rewrite total_cons in Hlim; destruct Hap as [Hav Hap].
  rewrite Forall_cons in Hne; destruct Hne as [Hne HneK].
  unfold within in HW; rewrite Forall_cons in HW; destruct HW as [[Hs Hst] HW].
  assert (0 <= total K) as HtK.
  { clear -HneK; induction HneK as [|k K Hk HneK IH]; [done|]; rewrite total_cons; unfold nonempty in Hk; lia. }
  assert (avoids (start nd) (len nd) fa) as Hav'.
  { apply avoids_covers; [by apply gapped_nonempty, Ha|done|]; intros x Hx Hf.
    apply (Hdis x Hf), covers_cons; left; unfold in_range, stop; lia. }
  unfold nonempty in Hne.
  destruct (commit_node_spec f fa n nd l Ha Hnd Hne Hs Hst Hav' ltac:(lia))
    as (f1 & fa1 & E1 & Ha1 & Hsame & Hfb1 & Hro1 & Hh1 & Hcase).
  assert (holds (heap f1) l K) as HhK.
  { unfold holds in *; apply Forall2_same_length_lookup_2; [by eapply Forall2_length|].
    intros i a b Hi Hb; rewrite Hh1 by (by eapply list_elem_of_lookup_2).
    exact (Forall2_lookup_lr _ _ _ i a b Hh Hi Hb). }
  assert (forall x, covers fa1 x -> covers fa x \/ in_range x nd) as Hsub1.
  { intros x; destruct Hcase as [[(_ & _ & Hc) _]|[-> _]]; [rewrite Hc; unfold in_range, stop|]; tauto. }
  assert (forall x, in_range x nd -> ~ covers K x) as HndK.
  { rewrite avoids_covers in Hav by done; intros x Hx; by apply Hav. }
  destruct (IH K f1 fa1) as (f2 & fa2 & E2 & Ha2 & Hsame2 & Hfb2 & Hro2 & Ht2 & Hu2 & Hi2 & Hsub2 & Hall2); auto.
  { intros x Hx HxK; destruct (Hsub1 x Hx) as [?|?]; [apply (Hdis x); [done|apply covers_cons; auto]|by eapply HndK]. }
  { lia. } { lia. }
  assert (total fa1 + untracked_blocks f1 = total fa + untracked_blocks f + len nd) as Ht1
    by (destruct Hcase as [[(_ & Ht & _) ->]|(-> & _ & ->)]; lia).
  assert (untracked_blocks f <= untracked_blocks f1) as Hu1
    by (destruct Hcase as [[_ ->]|(_ & _ & ->)]; lia).
  assert (forall x, covers fa x -> covers fa1 x) as Hi1.
  { intros x Hx; destruct Hcase as [[(_ & _ & Hc) _]|[-> _]]; [rewrite Hc|]; tauto. }
  exists f2, fa2; cbn [fsm_commit_loop]; rewrite E1; cbn [mbind run_bind]; rewrite total_cons.
  split; [done|]; split; [done|]; split; [by eapply same_next_trans|].
  split; [lia|]; split; [congruence|]; split; [lia|]; split; [lia|]; split; [auto|]; split.
  - intros x Hx; rewrite covers_cons; destruct (Hsub2 x Hx) as [Hx1|?]; [|tauto].
    destruct (Hsub1 x Hx1); tauto.
  - intros Eu x; rewrite covers_cons; intros [Hx|Hx]; [|apply Hall2; [lia|done]].
    apply Hi2; destruct Hcase as [[(_ & _ & Hc) _]|(_ & _ & Hu)]; [|lia].
    apply Hc; right; unfold in_range, stop in Hx; lia.
Qed.

(** The self check accepts every state that satisfies the invariant. *)
Lemma verify_tree_spec (h : gmap positive range) (t : rbt) (L : list range) :
  holds h (inorder t) L -> NoDup (inorder t) -> gapped L -> within 0 vol L ->
  verify_tree (length (inorder t)) h t None (rb_first t) 0 0 = Ok (total L, lenZ L).
Proof.
  intros Hh Hnd HG HW; rewrite rb_first_inorder.
  enough (forall A B LB prev b k, inorder t = A ++ B -> holds h B LB -> gapped LB -> within 0 vol LB ->
    match prev with Some p => 0 <= start p /\ nonempty p /\ stop p < 2 ^ 32 /\ Forall (before p) LB | None => True end ->
    verify_tree (length B) h t prev (head B) b k = Ok (b + total LB, k + lenZ LB)) as HB
    by (rewrite (HB [] (inorder t) L); auto).
  clear Hh HG HW; intros A B; revert A; induction B as [|n B IH]; intros A LB prev b k Et Hh HG HW Hprev.
  { inversion Hh; subst; cbn; unfold lenZ; cbn; by rewrite !Z.add_0_r. }
  rewrite holds_cons in Hh; destruct Hh as (r & K & -> & Hn & Hh).
  destruct HG as (Hr & Hb & HG); unfold within in HW; rewrite Forall_cons in HW; destruct HW as [[Hs Hst] HW].
  cbn [length head verify_tree]; rewrite (node_at_ok _ _ _ Hn), (rb_next_inorder n t A B Hnd Et).
  cbn [mbind run_bind]; assert (fsm_check_node r prev = 0) as ->.
  { unfold fsm_check_node; unfold nonempty, stop in *; rewrite (proj2 (Z.eqb_neq (len r) 0)) by lia.
    destruct prev as [p|]; [|done]; destruct Hprev as (Hp & Hpn & Hps & Hpb).
    rewrite Forall_cons in Hpb; destruct Hpb as [Hpb _]; unfold before, stop in Hpb; cbn.
    rewrite (fsm_intersects_false p) by (unfold nonempty, stop; lia).
    unfold node_end; unwrap; rewrite (proj2 (Z.leb_gt _ _)) by lia; done. }
  cbn [Z.eqb negb bug_on mbind run_bind]; rewrite (IH (A ++ [n]) K); auto.
  - rewrite total_cons, lenZ_cons; f_equal; f_equal; lia.
  - by rewrite <- app_assoc.
  - repeat split; auto; lia.
Qed.

Lemma verify_list_spec (h : gmap positive range) (o : Z) (l : list positive) (L : list range) (b k : Z) :
  holds h l L -> Forall (fun r => fsm_order (len r) = Ok o) L ->
  verify_list h o l b k = Ok (b + total L, k + lenZ L).
Proof.
  intros Hh; revert b k; induction Hh as [|n r l L Hn Hh IH]; intros b k HF.
  { cbn; unfold lenZ; cbn; by rewrite !Z.add_0_r. }
  rewrite Forall_cons in HF; destruct HF as [Ho HF]; cbn [verify_list]; rewrite (node_at_ok _ _ _ Hn).
  cbn [mbind run_bind]; rewrite Ho; cbn [mbind run_bind]; rewrite Z.eqb_refl.
  cbn [negb bug_on mbind run_bind]; rewrite IH by done; rewrite total_cons, lenZ_cons; f_equal; f_equal; lia.
Qed.

Lemma verify_lists_spec (h : gmap positive range) (ls : list (list positive)) (o : nat) (b k : Z) :
  (forall i l n, ls !! i = Some l -> n ∈ l ->
     exists r, h !! n = Some r /\ fsm_order (len r) = Ok (Z.of_nat (o + i))) ->
  exists L, holds h (concat ls) L /\ verify_lists h (Z.of_nat o) ls b k = Ok (b + total L, k + lenZ L).
Proof.
  revert o b k; induction ls as [|l ls IH]; intros o b k Ho.
  { exists []; split; [constructor|]; cbn; unfold lenZ; cbn; by rewrite !Z.add_0_r. }
  assert (exists K, holds h l K /\ Forall (fun r => fsm_order (len r) = Ok (Z.of_nat o)) K) as (K & HK & HF).
  { assert (forall n, n ∈ l -> exists r, h !! n = Some r /\ fsm_order (len r) = Ok (Z.of_nat o)) as Hl.
    { intros n Hn; destruct (Ho 0%nat l n eq_refl Hn) as (r & ? & ?); rewrite Nat.add_0_r in *; eauto. }
    clear -Hl; induction l as [|n l IH]; [exists []; repeat constructor|].
    destruct IH as (K & HK & HF); [intros; apply Hl, elem_of_cons; auto|].
    destruct (Hl n) as (r & ? & ?); [apply elem_of_cons; auto|].
    exists (r :: K); split; [by constructor|by constructor]. }
  destruct (IH (S o) (b + total K) (k + lenZ K)) as (L & HL & E).
  { intros i m n Hm Hn; destruct (Ho (S i) m n Hm Hn) as (r & ? & Er); exists r; split; [done|].
    rewrite Er; f_equal; lia. }
  exists (K ++ L); split; [by apply Forall2_app|]; cbn [verify_lists].
  rewrite (verify_list_spec h _ l K) by done; cbn [mbind run_bind].
  replace (Z.of_nat o + 1) with (Z.of_nat (S o)) by lia; rewrite E, total_app, lenZ_app.
  f_equal; f_equal; lia.
Qed.

End Commit.

Lemma holds_perm (h : gmap positive range) (A B : list positive) (L : list range) :
  A ≡ₚ B -> holds h A L -> exists K, L ≡ₚ K /\ holds h B K.
Proof.
  intros HAB; revert L; induction HAB as [|n A B HAB IH|a b A|A B C _ IH1 _ IH2]; intros L HL.
  - exists L; inversion HL; subst; split; [done|constructor].
  - rewrite holds_cons in HL; destruct HL as (r & K & -> & Hn & HK).
    destruct (IH K HK) as (K' & HP & HK'); exists (r :: K'); split; [by constructor|by constructor].
  - rewrite holds_cons in HL; destruct HL as (r & K & -> & Hn & HK).
    rewrite holds_cons in HK; destruct HK as (q & K' & -> & Hm & HK').
    exists (q :: r :: K'); split; [constructor|by repeat constructor].
  - destruct (IH1 L HL) as (K & HP & HK); destruct (IH2 K HK) as (K' & HP' & HK').
    exists K'; split; [by rewrite HP|done].
Qed.

Lemma holds_inj (h : gmap positive range) (A : list positive) (L K : list range) :
  holds h A L -> holds h A K -> L = K.
Proof.
  intros HL; revert K; induction HL as [|n r A L Hn HL IH]; intros K HK; inversion HK; subst; [done|].
  f_equal; [congruence|auto].
Qed.

Section Operations.
Context `{RbtreeLaws}.
Context (vol : Z).

Lemma verify_state_spec (debug : bool) (f : fsm_info) (fa na : list range) :
  fsm_ok vol f fa na -> fsm_verify_state debug f = Ok tt.
Proof.
  intros [Hvol Ha Hn _ Hc]; destruct debug; [|done]; unfold fsm_verify_state; cbn [negb].
  pose proof (ao_nodup _ _ _ _ Ha) as Hnd; apply NoDup_app in Hnd as (Hnd1 & _ & Hnd2).
  destruct Hn; rewrite (verify_tree_spec vol Hvol _ _ na no_holds0 Hnd2 no_gapped0 no_within0); cbn [mbind run_bind].
  rewrite (proj2 (Z.eqb_eq (total na) _)) by lia; cbn [negb bug_on mbind run_bind].
  rewrite (proj2 (Z.eqb_eq (lenZ na) _)) by lia; cbn [negb bug_on mbind run_bind]; destruct Ha.
  rewrite (verify_tree_spec vol Hvol _ _ fa ao_holds0 Hnd1 ao_gapped0 ao_within0); cbn [mbind run_bind].
  destruct ao_hashed0 as (_ & Hp & Ho).
  destruct (verify_lists_spec (heap f) (free_list f) 0 0 0 Ho) as (L & HL & E).
  destruct (holds_perm _ _ _ _ Hp HL) as (K & HLK & HK).
  rewrite (holds_inj _ _ _ _ HK ao_holds0) in HLK.
  change 0 with (Z.of_nat 0) at 1; rewrite E; cbn [mbind run_bind]; rewrite (total_perm _ _ HLK), !Z.add_0_l.
  destruct Hc as [Hfree Hnn Hv].
  pose proof (gapped_total_nonneg _ ao_gapped0); pose proof (gapped_total_nonneg _ no_gapped0).
  unfold lenZ; rewrite (Permutation_length HLK); fold (lenZ fa).
  rewrite u64_small by lia.
  rewrite (proj2 (Z.eqb_eq (total fa) _)) by lia; cbn [negb bug_on mbind run_bind].
  rewrite (proj2 (Z.eqb_eq (lenZ fa) _)) by lia; done.
Qed.

Lemma commit_free_space_spec (debug : bool) (f : fsm_info) (fa na : list range) :
  fsm_ok vol f fa na ->
  exists f' fa', fsm_commit_free_space debug f = Ok f' /\ fsm_ok vol f' fa' []
  /\ free_blocks_count f' = free_blocks_count f + next_free_blocks f
  /\ reserved_blocks_count f' = reserved_blocks_count f
  /\ data f' = data f /\ rdonly f' = rdonly f
  /\ erase_blocks_counters f' = erase_blocks_counters f /\ dirty f' = dirty f
  /\ (forall x, covers fa x -> covers fa' x)
  /\ (forall x, covers fa' x -> covers fa x \/ covers na x)
  /\ untracked_blocks f + untracked_next_free f <= untracked_blocks f'
  /\ (untracked_blocks f' = untracked_blocks f + untracked_next_free f ->
      forall x, covers na x -> covers fa' x).
Proof.
  intros Hok; pose proof Hok as [Hvol Ha Hn Hdis Hc]; pose proof Hn as [Hh HG HW Hp Hnodes Hblocks].
  pose proof (gapped_total_nonneg na HG) as Htn; pose proof (gapped_total_nonneg fa (ao_gapped _ _ _ _ Ha)).
  destruct Hc as [Hfree Hnn Hv].
  unfold fsm_commit_free_space; rewrite (verify_state_spec debug f fa na Hok); cbn [mbind run_bind].
  destruct (holds_perm _ _ (next_free_list f) _ ltac:(by symmetry) Hh) as (K & HnK & HK).
  assert (area_ok vol f fa (next_free_list f)) as Ha'.
  { destruct Ha; split; auto; [by rewrite Hp|]; intros m Hm; rewrite Hp; auto. }
  destruct (commit_loop_spec vol Hvol (next_free_list f) K f fa)
    as (f1 & fa' & E & Ha1 & Hsame & Hfb & Hro & Ht & Hu & Hi & Hsub & Hall); auto.
  { rewrite <- HnK; by apply gapped_nonempty. }
  { unfold within; by rewrite <- HnK. }
  { eapply apart_perm; [exact HnK|by apply gapped_apart]. }
  { intros x Hx; rewrite <- (covers_perm _ _ x HnK); by apply Hdis. }
  { lia. } { rewrite <- (total_perm _ _ HnK); lia. }
  rewrite <- (total_perm _ _ HnK) in Hfb, Ht.
  rewrite E; cbn [mbind run_bind]; set (f2 := fsm_init_next_tree _).
  destruct Hsame as (Sa & Sl & Sn & Sb & Su & Sd & Sr & Se & Sy).
  assert (free_blocks_count f2 = free_blocks_count f + next_free_blocks f
    /\ untracked_blocks f2 = untracked_blocks f1 + untracked_next_free f
    /\ untracked_next_free f2 = 0) as (Ff2 & Fu2 & Fn2).
  { subst f2; destruct (Z.eqb_spec (untracked_next_free f1) 0); cbn; rewrite ?u64_small; lia. }
  assert (heap f2 = heap f1 /\ free_area f2 = free_area f1 /\ free_list f2 = free_list f1
    /\ free_area_nodes f2 = free_area_nodes f1 /\ reserved_blocks_count f2 = reserved_blocks_count f1
    /\ data f2 = data f1 /\ rdonly f2 = rdonly f1 /\ dirty f2 = dirty f1
    /\ erase_blocks_counters f2 = erase_blocks_counters f1) as (Fh & Fa & Fl & Fn & Fr & Fd & Fo & Fy & Fe)
    by (subst f2; by destruct (Z.eqb_spec (untracked_next_free f1) 0)).
  assert (next_free_area f2 = Leaf /\ next_free_list f2 = [] /\ next_free_nodes f2 = 0
    /\ next_free_blocks f2 = 0) as (Fna & Fnl & Fnn & Fnb) by done.
  assert (fsm_ok vol f2 fa' []) as Hok2.
  { split; [done| | | |].
    - rewrite Fna; destruct Ha1; split; rewrite ?Fh, ?Fa, ?Fl, ?Fn; auto.
    - split; rewrite ?Fna, ?Fnl, ?Fnn, ?Fnb, ?Fn2; cbn; auto; constructor.
    - intros x _ ?%covers_nil; done.
    - split; rewrite ?Ff2, ?Fu2, ?Fn2, ?Fr, ?Sr; cbn; lia. }
  rewrite (verify_state_spec debug f2 fa' [] Hok2); exists f2, fa'.
  split; [done|]; split; [done|]; split; [done|]; split; [congruence|].
  split; [congruence|]; split; [congruence|]; split; [congruence|]; split; [congruence|].
  split; [auto|]; split; [intros x Hx; rewrite (covers_perm _ _ x HnK); auto|].
  split; [lia|]; intros Eu x Hx; apply Hall; [lia|by rewrite <- (covers_perm _ _ x HnK)].
Qed.

(** ** Looking for space *)

Lemma find_node_spec (h : gmap positive range) (s : Z) (t : rbt) (L : list range) :
  0 <= vol < 2 ^ 32 -> holds h (inorder t) L -> gapped L -> within 0 vol L ->
  exists o, fsm_find_node h s t = Ok o
  /\ match o with
     | Some n => exists r, n ∈ inorder t /\ h !! n = Some r /\ in_range s r
     | None => ~ covers L s
     end.
Proof.
  intros Hvol; revert L; induction t as [|l IHl c r IHr]; intros L HL HG HW.
  { inversion HL; subst; exists None; split; [done|]; by intros ?%covers_nil. }
  cbn [inorder] in HL; rewrite holds_app in HL; destruct HL as (LA & LB' & -> & HA & HB).
  rewrite holds_cons in HB; destruct HB as (rc & LB & -> & Hc & HB).
  destruct (gapped_split _ _ _ HG) as (GA & GB & Hne & HltA & HltB); split_forall.
  cbn [fsm_find_node]; rewrite (node_at_ok _ _ _ Hc); cbn [mbind run_bind].
  unfold node_end; unfold stop, nonempty in *; rewrite u64_small by lia.
  destruct (Z.leb_spec (start rc) s), (Z.ltb_spec s (start rc + len rc)); cbn [andb].
  { exists (Some c); split; [done|]; exists rc; unfold in_range, stop.
    cbn [inorder]; rewrite elem_of_app, elem_of_cons; auto. }
  all: destruct (Z.ltb_spec s (start rc)); try lia.
  1: destruct (IHr LB) as (o & E & Ho); auto.
  2: destruct (IHl LA) as (o & E & Ho); auto.
  all: exists o; split; [done|]; destruct o as [n|];
    [destruct Ho as (q & ? & ? & ?); exists q; cbn [inorder]; rewrite elem_of_app, elem_of_cons; auto|].
  all: rewrite covers_app, covers_cons; unfold in_range, stop.
  - intros [Hx|[?|?]]; [|lia|done]; apply covers_elem in Hx as (a & Ha & Hx).
    rewrite Forall_forall in HltA; specialize (HltA a Ha); unfold in_range, stop in Hx; lia.
  - intros [?|[?|Hx]]; [done|lia|]; apply covers_elem in Hx as (b & Hb & Hx).
    rewrite Forall_forall in HltB; specialize (HltB b Hb); unfold in_range, stop in Hx; lia.
Qed.

Lemma choose_up_spec (f : fsm_info) (k : nat) (o : Z) :
  0 <= o <= 16 -> 16 - o <= Z.of_nat k ->
  o <= choose_up k o f <= 16
  /\ (order_list (choose_up k o f) f = [] -> choose_up k o f = 16)
  /\ forall i, o <= i < choose_up k o f -> order_list i f = [].
Proof.
  revert o; induction k as [|k IH]; intros o Ho Hk; cbn [choose_up].
  { repeat split; try lia; intros; lia. }
  unfold VDFS4_FSM_MAX_ORDER; destruct (decide (order_list o f = [])) as [E|E].
  - rewrite bool_decide_eq_true_2 by done; destruct (Z.ltb_spec o 16); cbn [andb].
    + destruct (IH (o + 1)) as (I1 & I2 & I3); [lia..|]; split; [lia|]; split; [done|].
      intros i Hi; destruct (decide (i = o)) as [->|]; [done|apply I3; lia].
    + repeat split; try lia; intros; lia.
  - rewrite bool_decide_eq_false_2 by done; cbn [andb]; split; [lia|]; split; [done|intros; lia].
Qed.

Lemma choose_down_spec (f : fsm_info) (k : nat) (o : Z) :
  0 <= o <= 16 -> o <= Z.of_nat k ->
  0 <= choose_down k o f <= o
  /\ (order_list (choose_down k o f) f = [] -> forall i, 0 <= i <= o -> order_list i f = []).
Proof.
  revert o; induction k as [|k IH]; intros o Ho Hk; cbn [choose_down].
  { split; [lia|]; intros E i Hi; replace i with o by lia; done. }
  destruct (decide (order_list o f = [])) as [E|E].
  - rewrite bool_decide_eq_true_2 by done; destruct (Z.ltb_spec 0 o); cbn [andb].
    + destruct (IH (o - 1)) as (I1 & I2); [lia..|]; split; [lia|]; intros E2 i Hi.
      destruct (decide (i = o)) as [->|]; [done|apply I2; [done|lia]].
    + split; [lia|]; intros _ i Hi; replace i with o by lia; done.
  - rewrite bool_decide_eq_false_2 by done; cbn [andb]; split; [lia|done].
Qed.

Lemma order_list_elem (h : gmap positive range) (f : fsm_info) (ids : list positive) (o : Z) (n : positive) :
  hashed h (free_list f) ids -> n ∈ order_list o f -> n ∈ ids.
Proof.
  intros (_ & Hp & _); unfold order_list; destruct (getZ (free_list f) o) as [l|] eqn:E; [|by intros ?%elem_of_nil].
  cbn; intros Hn; rewrite <- Hp; apply list_elem_of_In, in_concat; exists l.
  split; [apply list_elem_of_In; by eapply getZ_elem|by apply list_elem_of_In].
Qed.

Lemma order_lists_empty (f : fsm_info) (h : gmap positive range) (ids : list positive) :
  hashed h (free_list f) ids -> (forall i, 0 <= i <= 16 -> order_list i f = []) -> ids = [].
Proof.
  intros (Hlen & Hp & _) He; apply Permutation_nil; rewrite <- Hp.
  destruct (concat (free_list f)) as [|n K] eqn:E; [done|exfalso].
  assert (n ∈ concat (free_list f)) as Hn by (rewrite E; apply elem_of_cons; auto).
  apply list_elem_of_In, in_concat in Hn as (l & Hl & Hn); apply list_elem_of_In in Hl, Hn.
  apply list_elem_of_lookup_1 in Hl as (i & Hi); pose proof (lookup_lt_Some _ _ _ Hi).
  specialize (He (Z.of_nat i) ltac:(lia)); unfold order_list, getZ in He.
  destruct (Z.ltb_spec (Z.of_nat i) 0); [lia|]; rewrite Nat2Z.id, Hi in He; cbn in He; subst; set_solver.
Qed.

(** fsm_choose_node finds a node whenever the free area has one. *)
Lemma choose_node_spec (f : fsm_info) (fa : list range) (others : list positive) (length : Z) :
  area_ok vol f fa others -> 0 < length ->
  exists o, fsm_choose_node length f = Ok o
  /\ match o with Some n => n ∈ inorder (free_area f) | None => fa = [] end.
Proof.
  intros Ha Hl; pose proof (ao_hashed _ _ _ _ Ha) as Hh.
  destruct (fsm_order_ok length Hl) as (o & Eo & Ho).
  unfold fsm_choose_node; rewrite Eo; cbn [mbind run_bind]; eexists; split; [reflexivity|].
  destruct (choose_up_spec f (Z.to_nat VDFS4_FSM_MAX_ORDER) o) as (U1 & U2 & U3);
    [lia|unfold VDFS4_FSM_MAX_ORDER; lia|].
  set (u := choose_up _ o f) in *.
  destruct (choose_down_spec f (Z.to_nat VDFS4_FSM_MAX_ORDER) u) as (D1 & D2);
    [lia|unfold VDFS4_FSM_MAX_ORDER; lia|].
  set (d := choose_down _ u f) in *.
  destruct (order_list d f) as [|n k] eqn:E; cbn.
  - assert (u = 16) as Eu by (apply U2, D2; [done|lia]).
    pose proof (order_lists_empty _ _ _ Hh) as Hnil.
    pose proof (ao_holds _ _ _ _ Ha) as Hhold; rewrite Hnil in Hhold; [by inversion Hhold|].
    intros i Hi; apply D2; [done|lia].
  - eapply order_list_elem; [exact Hh|]; rewrite E; apply elem_of_cons; auto.
Qed.

(** ** Allocating from a node *)

(** The free area while node [n] is out of the hash lists and its range is
    being changed. *)
Record area_hole (f : fsm_info) (A B : list positive) (n : positive) (LA LB : list range)
    (others : list positive) : Prop := {
  ah_inorder : inorder (free_area f) = A ++ n :: B;
  ah_nodup : NoDup ((A ++ n :: B) ++ others);
  ah_dom : forall m, is_Some (heap f !! m) -> m ∈ (A ++ n :: B) ++ others;
  ah_some : is_Some (heap f !! n);
  ah_left : holds (heap f) A LA;
  ah_right : holds (heap f) B LB;
  ah_hashed : hashed (heap f) (free_list f) (A ++ B);
  ah_nodes : free_area_nodes f = lenZ LA + 1 + lenZ LB;
  ah_max : lenZ LA + 1 + lenZ LB <= VDFS4_FSM_MAX_FREE_NODES
}.

Lemma hole_nodup (A B : list positive) (n : positive) (others : list positive) :
  NoDup ((A ++ n :: B) ++ others) ->
  NoDup (A ++ n :: B) /\ n ∉ A /\ n ∉ B /\ n ∉ others /\ NoDup ((A ++ B) ++ others).
Proof.
  intros Hnd; pose proof Hnd as Hnd2; rewrite <- app_assoc in Hnd2; cbn in Hnd2.
  assert (n ∉ A ++ B ++ others) as Hn.
  { rewrite <- (Permutation_middle A (B ++ others) n), NoDup_cons in Hnd2; apply Hnd2. }
  apply NoDup_drop in Hnd2; rewrite app_assoc in Hnd2; apply NoDup_app in Hnd; set_solver.
Qed.

Lemma hole_open (f : fsm_info) (fa : list range) (others : list positive) (n : positive) (r : range) :
  area_ok vol f fa others -> n ∈ inorder (free_area f) -> heap f !! n = Some r ->
  exists A B LA LB, fa = LA ++ r :: LB /\ area_hole (fsm_unhash n f) A B n LA LB others.
Proof.
  intros [] (A & B & E)%list_elem_of_split Hn; pose proof ao_holds0 as Hh.
  rewrite E, holds_app in Hh; destruct Hh as (LA & LB' & -> & HA & HB).
  rewrite holds_cons in HB; destruct HB as (r' & LB & -> & Hn' & HB).
  assert (r' = r) as -> by congruence; exists A, B, LA, LB; split; [done|].
  rewrite E in *; destruct (hole_nodup _ _ _ _ ao_nodup0) as (Hnd & _).
  autorewrite with vdfs in *; split; cbn; eauto; [|lia..].
  rewrite <- (list_del_split n A B Hnd); by apply unhash_spec.
Qed.

(** The range of the node changes. *)
Lemma hole_set (f : fsm_info) (A B : list positive) (n : positive) (LA LB : list range)
    (others : list positive) (q : range) :
  area_hole f A B n LA LB others ->
  area_hole (set_heap (<[n := q]> (heap f)) f) A B n LA LB others.
Proof.
  intros []; destruct (hole_nodup _ _ _ _ ah_nodup0) as (_ & HnA & HnB & _); split; cbn; auto.
  - intros m; destruct (decide (m = n)) as [->|]; [set_solver|]; rewrite lookup_insert_ne by done; auto.
  - rewrite lookup_insert_eq; eauto.
  - by apply holds_insert.
  - by apply holds_insert.
  - apply hashed_insert; [set_solver|done].
Qed.

Lemma area_ok_of_parts (f : fsm_info) (ids : list positive) (L : list range) (others : list positive) :
  inorder (free_area f) = ids -> NoDup (ids ++ others) ->
  (forall m, is_Some (heap f !! m) -> m ∈ ids ++ others) -> holds (heap f) ids L ->
  hashed (heap f) (free_list f) ids -> free_area_nodes f = lenZ L -> lenZ L <= VDFS4_FSM_MAX_FREE_NODES ->
  gapped L -> within 0 vol L -> area_ok vol f L others.
Proof. intros <-; by split. Qed.

(** The node goes back into its hash list, or out of the tree when its range is
    empty. *)
Lemma hole_close (f : fsm_info) (A B : list positive) (n : positive) (LA LB : list range)
    (others : list positive) (q : range) :
  area_hole f A B n LA LB others -> heap f !! n = Some q -> 0 <= len q ->
  let L := LA ++ (if len q =? 0 then [] else [q]) ++ LB in
  gapped L -> within 0 vol L ->
  exists f', (if len q =? 0 then Ok (fsm_drop n f) else fsm_hash n f) = Ok f'
  /\ area_ok vol f' L others /\ same_next f f' /\ free_blocks_count f' = free_blocks_count f
  /\ untracked_blocks f' = untracked_blocks f /\ rdonly f' = rdonly f
  /\ (forall m, m ∈ others -> heap f' !! m = heap f !! m).
Proof.
  intros [] Hn Hq L; subst L; destruct (hole_nodup _ _ _ _ ah_nodup0) as (Hnd & HnA & HnB & Hno & Hnd').
  pose proof (lenZ_nonneg LA); pose proof (lenZ_nonneg LB).
  destruct (Z.eqb_spec (len q) 0) as [Ez|Nz]; cbn [app]; intros HG HW.
  - eexists; split; [reflexivity|]; split.
    + apply (area_ok_of_parts _ (A ++ B)); cbn; auto.
      * by apply rb_erase_inorder; [rewrite ah_inorder0|].
      * intros m [k Hk]; rewrite lookup_delete_Some in Hk; destruct Hk as [Hmn Hk].
        specialize (ah_dom0 m ltac:(eauto)); set_solver.
      * apply holds_delete; [set_solver|by apply holds_app_2].
      * apply hashed_delete; [set_solver|done].
      * rewrite lenZ_app, ah_nodes0, u32_small; unfold VDFS4_FSM_MAX_FREE_NODES in *; lia.
      * rewrite lenZ_app; lia.
    + split; [by repeat split|]; do 3 (split; [done|]); intros m Hm; cbn.
      rewrite lookup_delete_ne; [done|]; intros ->; done.
  - destruct (hash_spec f n q (A ++ B)) as (ls & E & Hls); [done|done|lia|].
    rewrite E; eexists; split; [reflexivity|]; split; [|by repeat split].
    apply (area_ok_of_parts _ (A ++ n :: B)); cbn; auto; try (autorewrite with vdfs; lia).
    { apply holds_app_2; [done|by apply holds_cons_2]. }
    eapply hashed_perm; [|exact Hls]; by rewrite Permutation_middle.
Qed.

Lemma rb_insert_after_inorder (new n : positive) (t : rbt) (A B : list positive) :
  NoDup (inorder t) -> inorder t = A ++ n :: B ->
  inorder (rb_insert_after new n t) = A ++ n :: new :: B.
Proof.
  intros Hnd E; pose proof (link_after n new t A B Hnd E) as HL; unfold rb_insert_after.
  destruct (right_child n t); [by rewrite rb_insert_color_inorder|].
  destruct HL as (k & B' & -> & HL); rewrite (rb_next_inorder n t A (k :: B') Hnd E); cbn [head].
  by rewrite rb_insert_color_inorder.
Qed.

(** A new node behind the node of the hole. *)
Lemma hole_tail (f : fsm_info) (A B : list positive) (n new : positive) (LA LB : list range)
    (others : list positive) (t : range) :
  area_hole f A B n LA LB others -> new ∉ (A ++ n :: B) ++ others -> 0 < len t ->
  free_area_nodes f < VDFS4_FSM_MAX_FREE_NODES ->
  let g := set_free_area_nodes (free_area_nodes f +32 1)
             (set_free_area (rb_insert_after new n (free_area f)) (set_heap (<[new := t]> (heap f)) f)) in
  exists ls, fsm_hash new g = Ok (set_free_list ls g)
  /\ area_hole (set_free_list ls g) A (new :: B) n LA (t :: LB) others.
Proof.
  intros [] Hnew Ht Hroom g; destruct (hole_nodup _ _ _ _ ah_nodup0) as (Hnd & HnA & HnB & Hno & Hnd').
  assert (new ∉ A /\ new <> n /\ new ∉ B /\ new ∉ others) as (H1 & H2 & H3 & H4) by set_solver.
  destruct (hash_spec g new t (A ++ B)) as (ls & E & Hls);
    [apply hashed_insert; [set_solver|done]|apply lookup_insert_eq|done|].
  exists ls; split; [done|]; pose proof (lenZ_nonneg LA); pose proof (lenZ_nonneg LB).
  split; cbn; auto.
  - by apply rb_insert_after_inorder; [rewrite ah_inorder0|].
  - rewrite <- app_assoc; cbn; rewrite <- app_assoc in ah_nodup0; cbn in ah_nodup0.
    rewrite (Permutation_swap new n (B ++ others)), <- (Permutation_middle A (n :: B ++ others) new).
    constructor; [set_solver|done].
  - intros m; destruct (decide (m = new)) as [->|]; [set_solver|].
    rewrite lookup_insert_ne by done; intros Hm; specialize (ah_dom0 m Hm); set_solver.
  - by rewrite lookup_insert_ne.
  - by apply holds_insert.
  - apply holds_cons_2; [apply lookup_insert_eq|by apply holds_insert].
  - eapply hashed_perm; [|exact Hls]; by rewrite Permutation_middle.
  - rewrite lenZ_cons, ah_nodes0, u32_small; unfold VDFS4_FSM_MAX_FREE_NODES in *; lia.
  - rewrite lenZ_cons; lia.
Qed.

(** What an allocation of [s, s+len) from a node may do to the free area: take
    the range out, or, when the blocks behind it get no node of their own, take
    those out as well and count them as untracked. *)
Definition taken (s n : Z) (f f' : fsm_info) (fa fa' : list range) : Prop :=
  exists lost, 0 <= lost /\ removed s (n + lost) fa fa'
  /\ untracked_blocks f' = untracked_blocks f + lost
  /\ (forall x, s + n <= x < s + n + lost -> covers fa x)
  /\ (lost = 0 \/ ~ covers fa (s + n + lost)).

Lemma remove_part (LA LB : list range) (r : range) (s n : Z) (M : list range) :
  gapped (LA ++ r :: LB) -> within 0 vol (LA ++ r :: LB) -> start r <= s -> 0 < n -> s + n <= stop r ->
  M = (if s - start r =? 0 then [] else [Range (start r) (s - start r)])
      ++ (if stop r - (s + n) =? 0 then [] else [Range (s + n) (stop r - (s + n))]) ->
  removed s n (LA ++ r :: LB) (LA ++ M ++ LB)
  /\ gapped (LA ++ M ++ LB) /\ within 0 vol (LA ++ M ++ LB).
Proof.
  intros HG HW Hs Hn Hlim ->; destruct (gapped_split _ _ _ HG) as (_ & _ & Hr & _).
  unfold nonempty, stop in *.
  assert (removed s n (LA ++ r :: LB) (LA ++ ((if s - start r =? 0 then [] else [Range (start r) (s - start r)])
    ++ (if start r + len r - (s + n) =? 0 then [] else [Range (s + n) (start r + len r - (s + n))])) ++ LB))
    as Hrem; [|split; [done|]; split; [apply Hrem|by eapply removed_within]].
  apply removed_replace; unfold stop; auto.
  all: destruct (Z.eqb_spec (s - start r) 0), (Z.eqb_spec (start r + len r - (s + n)) 0).
  all: try (cbn; lia).
  all: try (intros x; cbn [app]; rewrite ?covers_cons, covers_nil; unfold in_range, stop; cbn; lia).
  all: cbn; repeat rewrite Forall_cons; repeat rewrite Forall_nil; unfold before, nonempty, stop; cbn; lia.
Qed.

Lemma max_length_ok (r : range) (s : Z) :
  0 <= start r -> start r <= s < stop r -> stop r < 2 ^ 32 -> fsm_max_length r s = stop r - s.
Proof.
  unfold fsm_max_length, stop, u32; intros; rewrite Zplus_mod_idemp_r, Z.mod_small; lia.
Qed.

Section FromNode.
Context (f : fsm_info) (fa : list range) (others : list positive) (n : positive) (r : range) (s length : Z).
Hypothesis Hvol : 0 <= vol < 2 ^ 32.
Hypothesis Ha : area_ok vol f fa others.
Hypothesis Hoth : forall m, m ∈ others -> is_Some (heap f !! m).
Hypothesis Hn : n ∈ inorder (free_area f).
Hypothesis Hr : heap f !! n = Some r.
Hypothesis Hs : start r <= s.
Hypothesis Hl : 0 < length.
Hypothesis Hlim : s + length <= stop r.

(** What every step of the allocation leaves alone. *)
Definition framed (g : fsm_info) : Prop :=
  same_next f g /\ free_blocks_count g = free_blocks_count f /\ rdonly g = rdonly f
  /\ (forall m, m ∈ others -> heap g !! m = heap f !! m).

Definition allocated (f' : fsm_info) (fa' : list range) : Prop :=
  area_ok vol f' fa' others /\ taken s length f f' fa fa' /\ framed f'.

(** Writing the range [q] to the node and closing the hole. *)
Lemma allocated_close (g : fsm_info) (A B : list positive) (LA LB : list range) (q : range) (lost : Z) :
  area_hole g A B n LA LB others -> framed g -> 0 <= len q ->
  0 <= lost -> untracked_blocks g = untracked_blocks f + lost ->
  (forall x, s + length <= x < s + length + lost -> covers fa x) ->
  (lost = 0 \/ ~ covers fa (s + length + lost)) ->
  removed s (length + lost) fa (LA ++ (if len q =? 0 then [] else [q]) ++ LB) ->
  let g' := set_heap (<[n := q]> (heap g)) g in
  exists f' fa',
    (node ← node_at n (heap g'); if len node =? 0 then Ok (fsm_drop n g') else fsm_hash n g') = Ok f'
    /\ allocated f' fa'.
Proof.
  intros Hhole (Hsame & Hfb & Hro & Hho) Hq0 Hl0 Hu Hlost Hend Hrem g'.
  pose proof (hole_nodup _ _ _ _ (ah_nodup _ _ _ _ _ _ _ Hhole)) as (_ & _ & _ & Hno & _).
  destruct (hole_close g' A B n LA LB others q) as (f' & E & Ha' & Hs' & Hf' & Hu' & Hr' & Hh').
  { by apply hole_set. } { apply lookup_insert_eq. } { done. } { apply Hrem. }
  { eapply removed_within; [..|exact Hrem]; apply Ha. }
  assert (node_at n (heap g') = Ok q) as Eq by (apply node_at_ok, lookup_insert_eq); rewrite Eq.
  cbn [mbind run_bind]; eexists f', _; split; [exact E|]; split; [exact Ha'|]; split.
  { exists lost; split; [done|]; split; [exact Hrem|]; split; [by rewrite Hu'|]; split; [done|done]. }
  split; [eapply same_next_trans; [exact Hsame|exact Hs']|]; split; [by rewrite Hf'|]; split; [by rewrite Hr'|].
  intros m Hm; rewrite Hh' by done; cbn; rewrite lookup_insert_ne; [auto|]; intros ->; done.
Qed.

Lemma node_bounds : 0 <= start r /\ stop r <= vol /\ 0 < len r.
Proof.
  destruct (holds_elem _ _ _ _ (ao_holds _ _ _ _ Ha) Hn) as (q & Hq & Eq).
  assert (q = r) as -> by congruence.
  pose proof (ao_within _ _ _ _ Ha) as HW; unfold within in HW; rewrite Forall_forall in HW.
  pose proof (gapped_nonempty _ (ao_gapped _ _ _ _ Ha)) as Hne; rewrite Forall_forall in Hne.
  specialize (HW r Hq); specialize (Hne r Hq); unfold nonempty in Hne; tauto.
Qed.

(** The blocks left of and behind the allocation. *)
Lemma removed_sides (LA LB : list range) (m : Z) :
  fa = LA ++ r :: LB -> length <= m -> s + m <= stop r ->
  removed s m fa (LA ++ ((if s - start r =? 0 then [] else [Range (start r) (s - start r)])
      ++ (if stop r - (s + m) =? 0 then [] else [Range (s + m) (stop r - (s + m))])) ++ LB).
Proof.
  intros E Hm Hm2; rewrite E; eapply remove_part; [..|reflexivity]; try lia; rewrite <- E; apply Ha.
Qed.

Lemma allocate_from_node_spec :
  exists f' fa', fsm_allocate_from_node n s length f = Ok f' /\ allocated f' fa'.
Proof.
  pose proof node_bounds as (Hr0 & Hr1 & Hrn).
  unfold fsm_allocate_from_node; rewrite (node_at_ok _ _ _ Hr); cbn [mbind run_bind].
  rewrite max_length_ok by lia; unfold node_end; rewrite (u64_small (start r + len r)) by (unfold stop in *; lia).
  fold (stop r); rewrite (proj2 (Z.ltb_ge s (start r))), (proj2 (Z.leb_gt (stop r) s)),
    (proj2 (Z.ltb_ge (stop r - s) length)) by lia; cbn [orb bug_on mbind run_bind].
  destruct (hole_open f fa others n r Ha Hn Hr) as (A & B & LA & LB & Efa & Hhole).
  set (g := fsm_unhash n f) in *.
  assert (framed g) as Hg by (by repeat split).
  pose proof (removed_sides LA LB) as Hsides.
  destruct (Z.eqb_spec length (stop r - s)) as [Emax|Nmax].
  { eapply (allocated_close g A B LA LB _ 0); [done|done|cbn|lia|cbn; lia|intros; lia|by left|];
      rewrite (u32_small (len r - length)) by (unfold stop in *; lia); [unfold stop in *; lia|].
    specialize (Hsides length Efa ltac:(lia) Hlim).
    rewrite (proj2 (Z.eqb_eq (stop r - (s + length)) 0)), app_nil_r in Hsides by lia.
    replace (s - start r) with (len r - length) in Hsides by (unfold stop in *; lia).
    by rewrite Z.add_0_r. }
  destruct (Z.eqb_spec s (start r)) as [Est|Nst].
  { eapply (allocated_close g A B LA LB _ 0); [done|done|cbn|lia|cbn; lia|intros; lia|by left|];
      rewrite (u32_small (len r - length)) by (unfold stop in *; lia); [unfold stop in *; lia|].
    specialize (Hsides length Efa ltac:(lia) Hlim).
    rewrite (proj2 (Z.eqb_eq (s - start r) 0)) in Hsides by lia; cbn [app] in Hsides.
    rewrite u64_small by (unfold stop in *; lia); rewrite <- Est, Z.add_0_r; cbn [len].
    replace (stop r - (s + length)) with (len r - length) in Hsides by (unfold stop in *; lia); done. }
  rewrite (u32_small (len r - (stop r - s))) by (unfold stop in *; lia).
  assert (len r - (stop r - s) = s - start r) as -> by (unfold stop; lia).
  assert (exists rest, (if free_area_nodes g <? VDFS4_FSM_MAX_FREE_NODES then fsm_alloc_node g else (None, g))
      = (None, set_allocs rest g)
    \/ (free_area_nodes g < VDFS4_FSM_MAX_FREE_NODES
        /\ (if free_area_nodes g <? VDFS4_FSM_MAX_FREE_NODES then fsm_alloc_node g else (None, g)) =
           (Some (fresh (dom (heap f))), set_allocs rest (set_heap (<[fresh (dom (heap f)) := Range 0 0]> (heap f)) g))))
    as (rest & Ealloc).
  { destruct (Z.ltb_spec (free_area_nodes g) VDFS4_FSM_MAX_FREE_NODES).
    - destruct (alloc_node_spec g) as [[rest E]|[rest E]]; exists rest; rewrite E; auto.
    - exists (allocs g); left; by destruct g. }
  destruct Ealloc as [E|[Hroom E]]; rewrite E; cbn [mbind run_bind].
  - set (g1 := set_untracked_blocks _ _).
    assert (area_hole g1 A B n LA LB others) as Hhole1 by (destruct Hhole; by split).
    eapply (allocated_close g1 A B LA LB _ (stop r - s - length)); [done|by repeat split|cbn; lia|lia|cbn; lia| | |].
    + intros x Hx; rewrite Efa, covers_app, covers_cons; right; left; unfold in_range; lia.
    + right; replace (s + length + (stop r - s - length)) with (stop r) by lia; rewrite Efa.
      apply gapped_stop; rewrite <- Efa; apply Ha.
    + specialize (Hsides (stop r - s) Efa ltac:(lia) ltac:(lia)).
      rewrite (proj2 (Z.eqb_eq (stop r - (s + (stop r - s))) 0)), app_nil_r in Hsides by lia.
      replace (length + (stop r - s - length)) with (stop r - s) by lia; done.
  - set (new := fresh (dom (heap f))) in *.
    assert (new ∉ inorder (free_area f) ++ others) as Hfresh by (by eapply fresh_notin).
    assert (inorder (free_area f) = A ++ n :: B) as Ein by apply (ah_inorder _ _ _ _ _ _ _ Hhole).
    rewrite (u64_small (s + length)) by (unfold stop in *; lia).
    rewrite (u32_small (stop r - s - length)) by (unfold stop in *; lia).
    assert (area_hole (set_allocs rest g) A B n LA LB others) as Hhole0 by (destruct Hhole; by split).
    destruct (hole_tail (set_allocs rest g) A B n new LA LB others (Range (s + length) (stop r - s - length)))
      as (ls & Els & Hhole1); [done|by rewrite <- Ein|cbn; lia|done|].
    match type of Els with fsm_hash _ ?x = _ => set (g1 := x) in * end.
    match goal with |- context [fsm_hash new ?x] =>
      assert (x = g1) as -> by (subst g1; unfold set_heap; cbn; by rewrite insert_insert_eq) end.
    rewrite Els; cbn [mbind run_bind].
    eapply (allocated_close (set_free_list ls g1) A (new :: B) LA _ _ 0); [exact Hhole1| |cbn; lia|lia|cbn; lia|intros; lia|by left|].
    + split; [by repeat split|]; split; [done|]; split; [done|]; intros m Hm; cbn.
      rewrite lookup_insert_ne; [done|]; set_solver.
    + specialize (Hsides length Efa ltac:(lia) Hlim); rewrite Z.add_0_r; cbn [len].
      rewrite (proj2 (Z.eqb_neq (s - start r) 0)) in Hsides |- * by lia.
      rewrite (proj2 (Z.eqb_neq (stop r - (s + length)) 0)) in Hsides by lia.
      replace (stop r - s - length) with (stop r - (s + length)) by lia; done.
Qed.

End FromNode.

End Operations.
