(* ===== verification/Fsm.v ===== *)
(** The driver's free-space manager over its bitmap,
    src/linux/fs/vdfs4/fsm.c: building and rebuilding the trees from the bitmap,
    allocation (vdfs4_fsm_get_free_block), freeing (fsm_free_block_chunk), the
    commit (vdfs4_commit_free_space) and the erase-block counters behind the
    delayed discard.

    The kernel's find_next_bit and find_next_zero_bit are the interface
    [FindBit]; the block device's discard is the argument [discard]. *)

From Stdlib Require Import ZArith Lia Bool List.
From stdpp Require Import base list gmap sets.
From S2P Require Import Prelude Bitmap FindBit Ranges Rbtree FsmTree FsmSpace.

Open Scope Z_scope.

Definition FSM_BMP_MAGIC_LEN : Z := 12.
Definition VDFS4_DELAYED_DISCARD_MAGIC : Z := 0xDEEDDCAD.
Definition VDFS4_FSM_ALLOC_DELAYED : Z := 1.
Definition VDFS4_FSM_ALLOC_ALIGNED : Z := 2.
Definition VDFS4_FSM_FREE_UNUSED : Z := 16.
Definition VDFS4_FSM_FREE_RESERVE : Z := 32.
Definition EOPNOTSUPP : Z := 95.
Definition PAGE_SHIFT : Z := 12.

(** The volume parameters of struct vdfs4_sb_info and struct vdfs4_fsm_info that
    the manager reads. *)
Record sb_info : Type := SbInfo {
  volume_blocks_count : Z;
  block_size : Z;
  block_size_shift : Z;
  log_super_page_size : Z;
  log_block_size : Z;
  erase_block_size_in_blocks : Z;
  log_erase_block_size_in_blocks : Z;
  log_sectors_per_block : Z;
  page_count : Z;
  mount_finished : bool
}.

(** VDFS4_BIT_BLKSIZE(block_size, FSM_BMP_MAGIC_LEN) *)
Definition VDFS4_BIT_BLKSIZE (x magic_len : Z) : Z := Z.shiftl (x - (magic_len + CRC_SIZE)) 3.

(** ** Erase-block counters *)

(** The loop of [fsm_inc_erase_blocks_counters] from block [b]. *)
Fixpoint inc_counters (sbi : sb_info) (n : nat) (b : Z) (c : list Z) : run (list Z) :=
  match n with
  | O => Ok c
  | S n =>
      let e := Z.shiftr b (log_erase_block_size_in_blocks sbi) in
      v ← match getZ c e with Some v => Ok v | None => Fault end;
      if v =? VDFS4_DELAYED_DISCARD_MAGIC then inc_counters sbi n (b +64 1) (setZ c e 1)
      else
        let v := v +32 1 in
        bug_on (erase_block_size_in_blocks sbi <? v);;
        inc_counters sbi n (b +64 1) (setZ c e v)
  end.

(** The loop of [fsm_dec_erase_blocks_counters]. *)
Fixpoint dec_counters (sbi : sb_info) (n : nat) (b : Z) (c : list Z) : run (list Z) :=
  match n with
  | O => Ok c
  | S n =>
      let e := Z.shiftr b (log_erase_block_size_in_blocks sbi) in
      v ← match getZ c e with Some v => Ok v | None => Fault end;
      let v := v -32 1 in
      if v =? 0 then dec_counters sbi n (b +64 1) (setZ c e VDFS4_DELAYED_DISCARD_MAGIC)
      else
        bug_on (erase_block_size_in_blocks sbi <? v);;
        dec_counters sbi n (b +64 1) (setZ c e v)
  end.

Definition fsm_inc_erase_blocks_counters (sbi : sb_info) (block_offset length : Z) (f : fsm_info)
    : run fsm_info :=
  c ← inc_counters sbi (Z.to_nat length) block_offset (erase_blocks_counters f);
  Ok (set_erase_blocks_counters c f).

Definition fsm_dec_erase_blocks_counters (sbi : sb_info) (block_offset length : Z) (f : fsm_info)
    : run fsm_info :=
  c ← dec_counters sbi (Z.to_nat length) block_offset (erase_blocks_counters f);
  Ok (set_erase_blocks_counters c f).

(** The loop of [fsm_delayed_discard]: counters and the discards issued. *)
Fixpoint discard_loop (sbi : sb_info) (discard : Z -> Z -> Z) (i : Z) (c : list Z)
    (log : list (Z * Z)) : run (list Z * list (Z * Z)) :=
  match c with
  | [] => Ok ([], log)
  | v :: c =>
      if negb (v =? VDFS4_DELAYED_DISCARD_MAGIC) then
        '(c, log) ← discard_loop sbi discard (i + 1) c log;
        Ok (v :: c, log)
      else
        let sects := u64 (Z.shiftl (erase_block_size_in_blocks sbi) (log_sectors_per_block sbi)) in
        let last_sector := u64 (Z.shiftl (volume_blocks_count sbi) (log_sectors_per_block sbi)) in
        let sector := u64 (i * sects) in
        let nr_sects := Z.min sects (last_sector -64 sector) in
        let err := discard sector nr_sects in
        bug_on (negb (err =? 0) && negb (err =? - EOPNOTSUPP));;
        '(c, log) ← discard_loop sbi discard (i + 1) c (log ++ [(sector, nr_sects)]);
        Ok (0 :: c, log)
  end.

Definition fsm_delayed_discard (sbi : sb_info) (discard : Z -> Z -> Z) (f : fsm_info)
    : run (fsm_info * list (Z * Z)) :=
  '(c, log) ← discard_loop sbi discard 0 (erase_blocks_counters f) [];
  Ok (set_erase_blocks_counters c f, log).

(** ** Pages of the bitmap *)

(** The first and last page index that get_free_block and free_block_chunk
    compute for a chunk. *)
Definition page_of (sbi : sb_info) (b : Z) : Z :=
  Z.shiftr (u32 (b / VDFS4_BIT_BLKSIZE (block_size sbi) FSM_BMP_MAGIC_LEN))
    (PAGE_SHIFT - block_size_shift sbi).

(** fsm->page_count as [vdfs4_fsm_build_management] computes it. *)
Definition fsm_page_count (sbi : sb_info) : Z :=
  let per := (Z.shiftl 1 PAGE_SHIFT - FSM_BMP_MAGIC_LEN - CRC_SIZE) * 8 in
  u32 ((volume_blocks_count sbi + per - 1) / per).

(** The loop over fsm->pages[index], an array of [page_count] pointers. *)
Fixpoint mark_pages (sbi : sb_info) (n : nat) (index : Z) (f : fsm_info) : run fsm_info :=
  match n with
  | O => Ok f
  | S n =>
      if (0 <=? index) && (index <? page_count sbi)
      then mark_pages sbi n (index + 1) (set_dirty (dirty f ++ [index]) f)
      else Fault
  end.

Definition mark_chunk (sbi : sb_info) (first last : Z) (f : fsm_info) : run fsm_info :=
  mark_pages sbi (Z.to_nat (last - first + 1)) first f.

Section Manager.
Context `{Rbtree} `{FindBit}.
Context (debug : bool) (sbi : sb_info).

(** ** Building the tree from the bitmap *)

(** The loop of [fsm_build_tree]; [block] is the offset of the bitmap block, and
    every turn moves [data_start] forward. *)
Fixpoint build_loop (fuel : nat) (block_start data_start block size : Z) (last : option positive)
    (f : fsm_info) : run (option positive * fsm_info) :=
  if volume_blocks_count sbi <=? block_start then Ok (last, f)
  else
    match fuel with
    | O => Fault
    | S fuel =>
        let size := Z.min size (volume_blocks_count sbi - block_start) in
        let m := drop (Z.to_nat block) (data f) in
        let free_start := block_start + find_next_zero_bit m size (data_start - block_start) in
        let data_start := block_start + find_next_bit m size (free_start - block_start) in
        let '(block_start, block) :=
          if data_start =? block_start + size then (block_start + size, block + block_size sbi)
          else (block_start, block) in
        '(last, f) ← (if free_start <? data_start
                      then fsm_append_free_space last free_start (data_start - free_start) f
                      else Ok (last, f));
        build_loop fuel block_start data_start block size last f
    end.

Definition fsm_build_tree (f : fsm_info) : run fsm_info :=
  '(last, f) ← build_loop (Z.to_nat (volume_blocks_count sbi)) 0 0 FSM_BMP_MAGIC_LEN
                 (8 * (block_size sbi - (FSM_BMP_MAGIC_LEN + CRC_SIZE))) None f;
  match last with
  | Some n => fsm_hash n f
  | None => Ok f
  end.

(** The loop of [fsm_init_erase_blocks_counters]. *)
Fixpoint init_counters_loop (fuel : nat) (block_start data_start block size : Z) (f : fsm_info)
    : run fsm_info :=
  if volume_blocks_count sbi <=? block_start then Ok f
  else
    match fuel with
    | O => Fault
    | S fuel =>
        let size := Z.min size (volume_blocks_count sbi - block_start) in
        let m := drop (Z.to_nat block) (data f) in
        let free_start := block_start + find_next_zero_bit m size (data_start - block_start) in
        f ← fsm_inc_erase_blocks_counters sbi data_start (u32 (free_start - data_start)) f;
        let data_start := block_start + find_next_bit m size (free_start - block_start) in
        let '(block_start, block) :=
          if data_start =? block_start + size then (block_start + size, block + block_size sbi)
          else (block_start, block) in
        init_counters_loop fuel block_start data_start block size f
    end.

Definition fsm_init_erase_blocks_counters (f : fsm_info) : run fsm_info :=
  let f := set_erase_blocks_counters (map (fun _ => 0) (erase_blocks_counters f)) f in
  init_counters_loop (Z.to_nat (volume_blocks_count sbi)) 0 0 FSM_BMP_MAGIC_LEN
    (8 * (block_size sbi - (FSM_BMP_MAGIC_LEN + CRC_SIZE))) f.

(** [fsm_cut_next_free] *)
Fixpoint cut_loop (l : list positive) (f : fsm_info) : run fsm_info :=
  match l with
  | [] => Ok f
  | n :: l =>
      next ← node_at n (heap f);
      node ← fsm_find_node (heap f) (start next) (free_area f);
      f ← match node with
          | None =>
              bug_on (untracked_blocks f <? len next);;
              Ok (set_untracked_blocks (untracked_blocks f - len next) f)
          | Some k =>
              r ← node_at k (heap f);
              bug_on (fsm_max_length r (start next) <? len next);;
              fsm_allocate_from_node k (start next) (len next) f
          end;
      cut_loop l f
  end.

Definition fsm_cut_next_free (f : fsm_info) : run fsm_info := cut_loop (next_free_list f) f.

(** [fsm_rebuild_tree] *)
Definition fsm_rebuild_tree (f : fsm_info) : run fsm_info :=
  if negb (untracked_next_free f =? 0) && (reserved_blocks_count f =? 0) then Ok f
  else
    let f :=
      if untracked_next_free f =? 0 then f
      else set_untracked_next_free 0
             (set_next_free_blocks (next_free_blocks f - untracked_next_free f) f) in
    let f := fsm_init_tree (fsm_free_tree f) in
    let f := set_free_blocks_count 0 (set_untracked_blocks 0 f) in
    f ← fsm_build_tree f;
    let f := set_free_blocks_count (free_blocks_count f -64 next_free_blocks f) f in
    let f := set_free_blocks_count (free_blocks_count f -64 reserved_blocks_count f) f in
    f ← fsm_cut_next_free f;
    fsm_verify_state debug f;;
    Ok f.

(** ** Allocation *)

(** [fsm_allocate_space] from the label [again]: the node of the hint with the
    start and the length it offers; *)
Definition hint_node (s min_length : Z) (f : fsm_info) : run (option (positive * Z * Z)) :=
  if s =? 0 then Ok None
  else
    node ← fsm_find_node (heap f) s (free_area f);
    match node with
    | None => Ok None
    | Some n =>
        r ← node_at n (heap f);
        let max_length := fsm_max_length r s in
        Ok (if min_length <=? max_length then Some (n, s, max_length) else None)
    end.

(** else any node of a suitable order; *)
Definition any_node (min_length length : Z) (f : fsm_info) : run (option (positive * Z * Z)) :=
  node ← fsm_choose_node length f;
  match node with
  | None => Ok None
  | Some n =>
      r ← node_at n (heap f);
      let max_length := len r in
      Ok (if max_length <? min_length then None else Some (n, u32 (start r), max_length))
  end.

(** up to the label [nospace]: the first block and the length allocated, if
    any. *)
Definition allocate_try (s min_length length : Z) (f : fsm_info)
    : run (option (Z * Z) * fsm_info) :=
  hit ← hint_node s min_length f;
  choice ← match hit with
           | Some c => Ok (Some c)
           | None => any_node min_length length f
           end;
  match choice with
  | Some (n, s, max_length) =>
      let length := Z.min length max_length in
      f ← fsm_allocate_from_node n s length f;
      Ok (Some (s, length), f)
  | None => Ok (None, f)
  end.

(** [fsm_allocate_space]: block (0: none), the length in [*length], and state. *)
Definition fsm_allocate_space (s min_length length : Z) (f : fsm_info) : run (Z * Z * fsm_info) :=
  '(got, f) ← allocate_try s min_length length f;
  match got with
  | Some (b, l) => Ok (b, l, f)
  | None =>
      if untracked_blocks f =? 0 then fsm_verify_state debug f;; Ok (0, length, f)
      else
        f ← fsm_rebuild_tree f;
        '(got, f) ← allocate_try s min_length length f;
        match got with
        | Some (b, l) => Ok (b, l, f)
        | None => fsm_verify_state debug f;; Ok (0, length, f)
        end
  end.

Definition round_down (x y : Z) : Z := Z.land x (Z.lnot (y - 1)).
Definition ALIGN (x a : Z) : Z := Z.land (x + (a - 1)) (Z.lnot (a - 1)).

(** The branch of [vdfs4_fsm_get_free_block] for VDFS4_FSM_ALLOC_ALIGNED. *)
Definition get_free_aligned (block_offset length_in_blocks min_blk_count : Z) (f : fsm_info)
    : run (Z * Z * fsm_info) :=
  let per := u32 (Z.shiftl 1 (log_super_page_size sbi - log_block_size sbi)) in
  let optimal_length := length_in_blocks +32 per in
  let minimal_length := min_blk_count +32 per in
  bug_on (negb (Z.land length_in_blocks (per - 1) =? 0));;
  '(b, length, f) ← fsm_allocate_space (u32 block_offset) optimal_length optimal_length f;
  let finish := fun b length length_in_blocks f =>
    bug_on ((length <? minimal_length) || (optimal_length <? length));;
    let f := set_untracked_blocks (untracked_blocks f + per) f in
    Ok (u64 (ALIGN b per), length_in_blocks, f) in
  if negb (b =? 0) then finish b length length_in_blocks f
  else
    longest ← fsm_get_longest_node f;
    match longest with
    | None => Ok (0, length_in_blocks, f)
    | Some n =>
        r ← node_at n (heap f);
        let length := round_down (len r) per in
        let length := if optimal_length <? length then optimal_length else length in
        if length <? minimal_length +32 per then Ok (0, length_in_blocks, f)
        else
          f ← fsm_allocate_from_node n (start r) length f;
          finish (start r) length (length -32 per) f
    end.

(** The end of [vdfs4_fsm_get_free_block]: counters, bitmap and pages of an
    allocated chunk. *)
Definition get_free_commit (block_offset length fsm_flags : Z) (f : fsm_info) : run fsm_info :=
  let f :=
    if Z.land fsm_flags VDFS4_FSM_ALLOC_DELAYED =? 0
    then set_free_blocks_count (free_blocks_count f -64 length) f
    else set_reserved_blocks_count (reserved_blocks_count f -64 length) f in
  bug_on (volume_blocks_count sbi <? block_offset +64 length);;
  '(m, ret) ← vdfs4_set_bits (data f) (u32 block_offset) length FSM_BMP_MAGIC_LEN (block_size sbi);
  bug_on (negb (ret =? 0));;
  f ← fsm_inc_erase_blocks_counters sbi block_offset length (set_data m f);
  mark_chunk sbi (page_of sbi block_offset) (page_of sbi (block_offset +64 length)) f.

(** [vdfs4_fsm_get_free_block]: the block (0: none), [*length_in_blocks] and the
    state. *)
Definition vdfs4_fsm_get_free_block (block_offset length_in_blocks min_blk_count fsm_flags : Z)
    (f : fsm_info) : run (Z * Z * fsm_info) :=
  let block_offset :=
    if volume_blocks_count sbi <=? block_offset +64 length_in_blocks then 0 else block_offset in
  if (free_blocks_count f <? length_in_blocks) && (Z.land fsm_flags VDFS4_FSM_ALLOC_DELAYED =? 0)
  then Ok (0, length_in_blocks, f)
  else
    '(b, length, f) ←
      (if Z.land fsm_flags VDFS4_FSM_ALLOC_ALIGNED =? 0
       then fsm_allocate_space (u32 block_offset) 1 length_in_blocks f
       else get_free_aligned block_offset length_in_blocks min_blk_count f);
    if b =? 0 then Ok (0, length, f)
    else
      f ← get_free_commit b length fsm_flags f;
      Ok (b, length, f).

(** ** Freeing *)

(** [fsm_free_block_chunk]; the result is always 0. *)
Definition fsm_free_block_chunk (block_offset length_in_blocks fsm_flags : Z) (f : fsm_info)
    : run fsm_info :=
  let first := page_of sbi block_offset in
  let last := page_of sbi (block_offset +64 length_in_blocks) in
  if volume_blocks_count sbi <? block_offset +64 length_in_blocks then
    if mount_finished sbi then Bug else Ok f
  else
    '(m, err) ← vdfs4_clear_bits (data f) (u32 block_offset) length_in_blocks FSM_BMP_MAGIC_LEN
                  (block_size sbi);
    let f := set_data m f in
    f ← (if negb (err =? 0) then Ok f
         else
           let f :=
             if negb (Z.land fsm_flags VDFS4_FSM_FREE_RESERVE =? 0)
             then set_reserved_blocks_count (reserved_blocks_count f +64 length_in_blocks) f
             else if negb (Z.land fsm_flags VDFS4_FSM_FREE_UNUSED =? 0)
             then set_free_blocks_count (free_blocks_count f +64 length_in_blocks) f
             else f in
           f ← (if negb (Z.land fsm_flags VDFS4_FSM_FREE_UNUSED =? 0)
                then Ok (set_untracked_blocks (untracked_blocks f + length_in_blocks) f)
                else fsm_add_free_space block_offset length_in_blocks f);
           fsm_dec_erase_blocks_counters sbi block_offset length_in_blocks f);
    mark_chunk sbi first last f.

(** [vdfs4_fsm_put_free_block] *)
Definition vdfs4_fsm_put_free_block (offset length_in_blocks fsm_flags : Z) (f : fsm_info)
    : run fsm_info :=
  fsm_free_block_chunk offset length_in_blocks fsm_flags f.

(** [vdfs4_fsm_discard_preallocation]: the fork's preallocation fields and the
    state. *)
Definition vdfs4_fsm_discard_preallocation (prealloc_start_block prealloc_block_count : Z)
    (f : fsm_info) : run (Z * Z * fsm_info) :=
  if negb (prealloc_start_block =? 0) && negb (prealloc_block_count =? 0) then
    f ← fsm_add_free_space prealloc_start_block prealloc_block_count f;
    Ok (0, 0, f)
  else Ok (prealloc_start_block, prealloc_block_count, f).

(** [vdfs4_commit_free_space] *)
Definition vdfs4_commit_free_space (discard : Z -> Z -> Z) (f : fsm_info)
    : run (fsm_info * list (Z * Z)) :=
  f ← fsm_commit_free_space debug f;
  fsm_delayed_discard sbi discard f.

(** The part of [vdfs4_fsm_build_management] that sets up the trees and counters
    once the bitmap pages are mapped. *)
Definition vdfs4_fsm_build_trees (f : fsm_info) : run fsm_info :=
  f ← fsm_build_tree (fsm_init_next_tree (fsm_init_tree f));
  f ← fsm_init_erase_blocks_counters f;
  fsm_verify_state debug f;;
  Ok f.

End Manager.
