(* ===== verification/FsmCounters.v ===== *)
(** The erase-block counters of the free-space manager: each counter is the
    number of used blocks of its erase block, a zero that waits for a discard
    being stored as VDFS4_DELAYED_DISCARD_MAGIC
    (fsm_inc_erase_blocks_counters, fsm_dec_erase_blocks_counters and
    fsm_delayed_discard of src/linux/fs/vdfs4/fsm.c). *)

From Stdlib Require Import ZArith Lia Bool List.
From stdpp Require Import base list.
From S2P Require Import Prelude Bitmap Count Fsm.

Open Scope Z_scope.

(** ** The counters *)

Section Counters.
Context (sbi : sb_info).

(** The value of a counter. *)
Definition counter_value (v : Z) : Z := if v =? VDFS4_DELAYED_DISCARD_MAGIC then 0 else v.

(** Erase blocks are powers of two, and a full one is below the magic. *)
Definition erase_geometry : Prop :=
  0 <= log_erase_block_size_in_blocks sbi <= 31
  /\ erase_block_size_in_blocks sbi = 2 ^ log_erase_block_size_in_blocks sbi.

(** Every counter is the number of used blocks of its erase block. *)
Definition counters_ok (U : Z -> bool) (c : list Z) : Prop :=
  forall e v, getZ c e = Some v ->
    counter_value v = count U (e * erase_block_size_in_blocks sbi) (erase_block_size_in_blocks sbi).

Lemma counters_ok_ext (U V : Z -> bool) (c : list Z) :
  (forall x, U x = V x) -> counters_ok U c -> counters_ok V c.
Proof.
  intros HUV Hc e v Hv; rewrite (Hc e v Hv); apply count_ext; auto.
Qed.

Lemma erase_block_of (b : Z) :
  erase_geometry -> 0 <= b ->
  let e := Z.shiftr b (log_erase_block_size_in_blocks sbi) in
  0 <= e /\ e * erase_block_size_in_blocks sbi <= b < (e + 1) * erase_block_size_in_blocks sbi.
Proof.
  intros [Hk ->] Hb; cbn; rewrite Z.shiftr_div_pow2 by lia.
  pose proof (Z.pow_pos_nonneg 2 (log_erase_block_size_in_blocks sbi) ltac:(lia) ltac:(lia)).
  pose proof (Z.div_mod b (2 ^ log_erase_block_size_in_blocks sbi) ltac:(lia)).
  pose proof (Z.mod_pos_bound b (2 ^ log_erase_block_size_in_blocks sbi) ltac:(lia)).
  split; [apply Z.div_pos; lia|nia].
Qed.

Lemma erase_size_bound : erase_geometry -> 0 < erase_block_size_in_blocks sbi < VDFS4_DELAYED_DISCARD_MAGIC.
Proof.
  intros [Hk ->]; split; [apply Z.pow_pos_nonneg; lia|].
  apply Z.le_lt_trans with (2 ^ 31); [apply Z.pow_le_mono_r; lia|].
  unfold VDFS4_DELAYED_DISCARD_MAGIC; lia.
Qed.

(** The erase blocks other than that of [b] keep their counts. *)
Lemma counters_upd (U : Z -> bool) (b : Z) (v : bool) (c : list Z) (old new : Z) :
  erase_geometry -> 0 <= b -> U b = negb v -> counters_ok U c ->
  let e := Z.shiftr b (log_erase_block_size_in_blocks sbi) in
  getZ c e = Some old -> counter_value new = counter_value old + (if v then 1 else -1) ->
  counters_ok (upd U b 1 v) (setZ c e new).
Proof.
  intros Hg Hb HU Hc e He Hnew e' w Hw; pose proof (erase_size_bound Hg).
  pose proof (erase_block_of b Hg Hb) as (He0 & He1); fold e in He0, He1.
  rewrite count_upd by (done || lia).
  destruct (decide (e' = e)) as [->|Hne].
  - rewrite getZ_setZ_eq in Hw by (by eapply getZ_bounds); injection Hw as <-.
    rewrite <- (Hc e old He), (proj2 (Z.leb_le _ _)), (proj2 (Z.ltb_lt _ _)) by nia; cbn; lia.
  - rewrite getZ_setZ_ne in Hw by done; rewrite (Hc e' w Hw).
    destruct (Z.leb_spec (e' * erase_block_size_in_blocks sbi) b),
      (Z.ltb_spec b (e' * erase_block_size_in_blocks sbi + erase_block_size_in_blocks sbi)); cbn; try lia.
    exfalso; apply Hne; nia.
Qed.

(** All blocks of the run have a counter. *)
Definition has_counters (c : list Z) (b n : Z) : Prop :=
  forall x, b <= x < b + n -> Z.shiftr x (log_erase_block_size_in_blocks sbi) < lenZ c.

Lemma count_part (U : Z -> bool) (b : Z) :
  erase_geometry -> 0 <= b ->
  let e := Z.shiftr b (log_erase_block_size_in_blocks sbi) in
  (U b = false -> count U (e * erase_block_size_in_blocks sbi) (erase_block_size_in_blocks sbi)
                  < erase_block_size_in_blocks sbi)
  /\ (U b = true -> 0 < count U (e * erase_block_size_in_blocks sbi) (erase_block_size_in_blocks sbi)).
Proof.
  intros Hg Hb e; pose proof (erase_block_of b Hg Hb) as (He0 & He1); fold e in He0, He1.
  pose proof (erase_size_bound Hg) as Hs.
  set (lo := e * erase_block_size_in_blocks sbi) in *; set (n := erase_block_size_in_blocks sbi) in *.
  assert (count U lo n = count U lo (b - lo) + ((if U b then 1 else 0) + count U (b + 1) (n - 1 - (b - lo)))) as E.
  { replace n with ((b - lo) + (1 + (n - 1 - (b - lo)))) at 1 by lia.
    rewrite !count_split by lia; replace (lo + (b - lo)) with b by lia; by rewrite count_one. }
  pose proof (count_range U lo (b - lo) ltac:(lia)).
  pose proof (count_range U (b + 1) (n - 1 - (b - lo)) ltac:(lia)).
  split; intros HU; rewrite HU in E; lia.
Qed.

Lemma inc_counters_spec (n : nat) (b : Z) (U : Z -> bool) (c : list Z) :
  erase_geometry -> 0 <= b -> b + Z.of_nat n < 2 ^ 63 ->
  (forall x, b <= x < b + Z.of_nat n -> U x = false) -> has_counters c b (Z.of_nat n) -> counters_ok U c ->
  exists c', inc_counters sbi n b c = Ok c' /\ lenZ c' = lenZ c
  /\ counters_ok (upd U b (Z.of_nat n) true) c'.
Proof.
  intros Hg; revert b U c; induction n as [|n IH]; intros b U c Hb Hlim HU Hhas Hc.
  { exists c; split; [done|]; split; [done|]; eapply counters_ok_ext; [|exact Hc].
    intros x; unfold upd; destruct (Z.leb_spec b x), (Z.ltb_spec x (b + Z.of_nat 0)); cbn; auto; lia. }
  cbn [inc_counters]; set (e := Z.shiftr b _).
  pose proof (erase_block_of b Hg Hb) as (He0 & _); fold e in He0.
  assert (e < lenZ c) as He1 by (apply Hhas; lia).
  destruct (getZ_is_Some c e ltac:(lia)) as [v Hv]; rewrite Hv; cbn [mbind run_bind].
  pose proof (proj1 (count_part U b Hg Hb) (HU b ltac:(lia))) as Hlt; fold e in Hlt.
  rewrite <- (Hc e v Hv) in Hlt; pose proof (erase_size_bound Hg) as Hs.
  assert (0 <= counter_value v) as Hv0.
  { rewrite (Hc e v Hv); apply count_range; lia. }
  rewrite (u64_small (b + 1)) by lia.
  assert (forall w, counter_value w = counter_value v + 1 ->
    exists c', inc_counters sbi n (b + 1) (setZ c e w) = Ok c' /\ lenZ c' = lenZ c
      /\ counters_ok (upd U b (Z.of_nat (S n)) true) c') as Hstep.
  { intros w Hw; destruct (IH (b + 1) (upd U b 1 true) (setZ c e w)) as (c' & E & Hlen & Hc'); [lia|lia| | | |].
    - intros x Hx; unfold upd; destruct (Z.leb_spec b x), (Z.ltb_spec x (b + 1)); cbn; try lia; apply HU; lia.
    - intros x Hx; rewrite lenZ_setZ; apply Hhas; lia.
    - by eapply counters_upd; eauto; apply HU; lia.
    - exists c'; split; [done|]; split; [by rewrite Hlen, lenZ_setZ|].
      eapply counters_ok_ext; [|exact Hc']; intros x; rewrite upd_step by lia; f_equal; lia. }
  unfold counter_value in Hlt, Hv0, Hstep; destruct (Z.eqb_spec v VDFS4_DELAYED_DISCARD_MAGIC) as [->|Hne].
  - apply Hstep; rewrite (proj2 (Z.eqb_neq 1 _)) by (unfold VDFS4_DELAYED_DISCARD_MAGIC; lia); lia.
  - unfold VDFS4_DELAYED_DISCARD_MAGIC in *; rewrite (u32_small (v + 1)) by lia.
    rewrite (proj2 (Z.ltb_ge _ _)) by lia; cbn [bug_on mbind run_bind]; apply Hstep.
    rewrite (proj2 (Z.eqb_neq (v + 1) _)) by lia; done.
Qed.

Lemma dec_counters_spec (n : nat) (b : Z) (U : Z -> bool) (c : list Z) :
  erase_geometry -> 0 <= b -> b + Z.of_nat n < 2 ^ 63 ->
  (forall x, b <= x < b + Z.of_nat n -> U x = true) -> has_counters c b (Z.of_nat n) -> counters_ok U c ->
  exists c', dec_counters sbi n b c = Ok c' /\ lenZ c' = lenZ c
  /\ counters_ok (upd U b (Z.of_nat n) false) c'.
Proof.
  intros Hg; revert b U c; induction n as [|n IH]; intros b U c Hb Hlim HU Hhas Hc.
  { exists c; split; [done|]; split; [done|]; eapply counters_ok_ext; [|exact Hc].
    intros x; unfold upd; destruct (Z.leb_spec b x), (Z.ltb_spec x (b + Z.of_nat 0)); cbn; auto; lia. }
  cbn [dec_counters]; set (e := Z.shiftr b _).
  pose proof (erase_block_of b Hg Hb) as (He0 & _); fold e in He0.
  assert (e < lenZ c) as He1 by (apply Hhas; lia).
  destruct (getZ_is_Some c e ltac:(lia)) as [v Hv]; rewrite Hv; cbn [mbind run_bind].
  pose proof (proj2 (count_part U b Hg Hb) (HU b ltac:(lia))) as Hlt; fold e in Hlt.
  pose proof (erase_size_bound Hg) as Hs.
  assert (counter_value v <= erase_block_size_in_blocks sbi) as Hv0.
  { rewrite (Hc e v Hv); apply count_range; lia. }
  rewrite <- (Hc e v Hv) in Hlt; rewrite (u64_small (b + 1)) by lia.
  assert (forall w, counter_value w = counter_value v + -1 ->
    exists c', dec_counters sbi n (b + 1) (setZ c e w) = Ok c' /\ lenZ c' = lenZ c
      /\ counters_ok (upd U b (Z.of_nat (S n)) false) c') as Hstep.
  { intros w Hw; destruct (IH (b + 1) (upd U b 1 false) (setZ c e w)) as (c' & E & Hlen & Hc'); [lia|lia| | | |].
    - intros x Hx; unfold upd; destruct (Z.leb_spec b x), (Z.ltb_spec x (b + 1)); cbn; try lia; apply HU; lia.
    - intros x Hx; rewrite lenZ_setZ; apply Hhas; lia.
    - by eapply counters_upd; eauto; apply HU; lia.
    - exists c'; split; [done|]; split; [by rewrite Hlen, lenZ_setZ|].
      eapply counters_ok_ext; [|exact Hc']; intros x; rewrite upd_step by lia; f_equal; lia. }
  unfold counter_value in Hlt, Hv0, Hstep; destruct (Z.eqb_spec v VDFS4_DELAYED_DISCARD_MAGIC) as [->|Hne]; [lia|].
  unfold VDFS4_DELAYED_DISCARD_MAGIC in *; rewrite (u32_small (v - 1)) by lia.
  destruct (Z.eqb_spec (v - 1) 0) as [Ez|Nz].
  - apply Hstep; rewrite Z.eqb_refl; lia.
  - rewrite (proj2 (Z.ltb_ge _ _)) by lia; cbn [bug_on mbind run_bind]; apply Hstep.
    rewrite (proj2 (Z.eqb_neq (v - 1) _)) by lia; lia.
Qed.

(** ** Discards *)

(** Clearing the magic leaves the values alone. *)
Definition settled (c : list Z) : list Z :=
  map (fun v => if v =? VDFS4_DELAYED_DISCARD_MAGIC then 0 else v) c.

(** The request for erase block [e]. *)
Definition discard_of (e : Z) : Z * Z :=
  let sects := u64 (Z.shiftl (erase_block_size_in_blocks sbi) (log_sectors_per_block sbi)) in
  let last_sector := u64 (Z.shiftl (volume_blocks_count sbi) (log_sectors_per_block sbi)) in
  (u64 (e * sects), Z.min sects (last_sector -64 u64 (e * sects))).

(** The erase blocks with the magic, from index [i]. *)
Fixpoint magic_blocks (i : Z) (c : list Z) : list Z :=
  match c with
  | [] => []
  | v :: c => if v =? VDFS4_DELAYED_DISCARD_MAGIC then i :: magic_blocks (i + 1) c
              else magic_blocks (i + 1) c
  end.

Lemma discard_loop_spec (discard : Z -> Z -> Z) (c : list Z) (i : Z) (log : list (Z * Z)) :
  (forall s n, discard s n = 0 \/ discard s n = - EOPNOTSUPP) ->
  discard_loop sbi discard i c log = Ok (settled c, log ++ map discard_of (magic_blocks i c)).
Proof.
  intros Hd; revert i log; induction c as [|v c IH]; intros i log.
  { cbn; by rewrite app_nil_r. }
  cbn [discard_loop settled map magic_blocks]; fold (settled c).
  destruct (Z.eqb_spec v VDFS4_DELAYED_DISCARD_MAGIC) as [->|Hne]; cbn [negb].
  - match goal with |- context [discard ?a ?b] => destruct (Hd a b) as [E|E]; rewrite E end;
      cbn [Z.eqb negb andb bug_on mbind run_bind EOPNOTSUPP Z.opp Pos.eqb];
      rewrite IH; cbn [mbind run_bind]; rewrite <- app_assoc; done.
  - rewrite IH; done.
Qed.

Lemma magic_blocks_elem (c : list Z) (i e : Z) :
  e ∈ magic_blocks i c -> i <= e /\ getZ c (e - i) = Some VDFS4_DELAYED_DISCARD_MAGIC.
Proof.
  revert i; induction c as [|v c IH]; intros i; cbn; [by intros ?%elem_of_nil|].
  assert (e ∈ magic_blocks (i + 1) c -> i <= e /\ getZ (v :: c) (e - i) = Some VDFS4_DELAYED_DISCARD_MAGIC) as Ht.
  { intros (Hle & Hget)%IH; split; [lia|].
    replace (e - i) with (e - (i + 1) + 1) by lia; rewrite getZ_cons by lia; done. }
  destruct (Z.eqb_spec v VDFS4_DELAYED_DISCARD_MAGIC) as [->|Hne]; [|done].
  rewrite elem_of_cons; intros [->|He]; [|auto]; rewrite Z.sub_diag; split; [lia|done].
Qed.

Lemma settled_ok (U : Z -> bool) (c : list Z) : counters_ok U c -> counters_ok U (settled c).
Proof.
  intros Hc e v Hv; unfold getZ, settled in Hv; destruct (e <? 0) eqn:El; [done|].
  rewrite list_lookup_fmap in Hv; destruct (c !! Z.to_nat e) as [w|] eqn:Ew; [|done].
  cbn in Hv; injection Hv as <-; rewrite <- (Hc e w) by (unfold getZ; by rewrite El).
  unfold counter_value; destruct (Z.eqb_spec w VDFS4_DELAYED_DISCARD_MAGIC) as [->|Hne]; [done|].
  by rewrite (proj2 (Z.eqb_neq w _)).
Qed.

End Counters.
