(* ===== verification/FsmBuild.v ===== *)
(** Building the free area from the bitmap (fsm_append_free_space,
    fsm_build_tree, fsm_init_erase_blocks_counters of
    src/linux/fs/vdfs4/fsm.c): the loop over the bitmap blocks ends, and the free
    area it leaves is made of the clear bits of the bitmap. *)

From Stdlib Require Import ZArith Lia Bool List.
From stdpp Require Import base list gmap sets.
From S2P Require Import Prelude Bitmap Count FindBit Ranges Rbtree FsmTree FsmSpace Fsm FsmCounters.

Open Scope Z_scope.

(** ** Appending a range *)

Section Append.
Context `{RbtreeLaws}.

(** The free area while it is built: the last node is not hashed yet. *)
Record building (f : fsm_info) (L : list range) (last : option positive) (others : list positive)
    : Prop := {
  bu_nodup : NoDup (inorder (free_area f) ++ others);
  bu_dom : forall n, is_Some (heap f !! n) -> n ∈ inorder (free_area f) ++ others;
  bu_some : forall n, n ∈ others -> is_Some (heap f !! n);
  bu_holds : holds (heap f) (inorder (free_area f)) L;
  bu_gapped : gapped L;
  bu_nodes : free_area_nodes f = lenZ L;
  bu_max : lenZ L <= VDFS4_FSM_MAX_FREE_NODES;
  bu_last : match last with
            | None => free_area f = Leaf
            | Some n => exists ids, inorder (free_area f) = ids ++ [n]
            end;
  bu_hashed : hashed (heap f) (free_list f)
                (match last with None => [] | Some n => list_del n (inorder (free_area f)) end)
}.

(** What an append leaves alone. *)
Definition kept (f f' : fsm_info) (others : list positive) : Prop :=
  same_next f f' /\ rdonly f' = rdonly f /\ (forall m, m ∈ others -> heap f' !! m = heap f !! m)
  /\ (allocs f = [] -> allocs f' = []).

Lemma kept_refl (f : fsm_info) (others : list positive) : kept f f others.
Proof. repeat split; auto. Qed.

Lemma kept_trans (f g k : fsm_info) (others : list positive) : kept f g others -> kept g k others -> kept f k others.
Proof.
  intros (S1 & R1 & H1 & A1) (S2 & R2 & H2 & A2).
  split; [by eapply same_next_trans|]; split; [congruence|]; split; [|auto].
  intros m Hm; rewrite H2, H1 by done; done.
Qed.

Definition appended (s n : Z) (f f' : fsm_info) (L L' : list range) : Prop :=
  (added s n L L' /\ untracked_blocks f' = untracked_blocks f
   /\ (lenZ L < VDFS4_FSM_MAX_FREE_NODES \/ Exists (fun r => stop r = s) L))
  \/ (L' = L /\ untracked_blocks f' = untracked_blocks f + n
      /\ (allocs f = [] -> lenZ L = VDFS4_FSM_MAX_FREE_NODES)
      /\ Forall (fun r => stop r < s) L).

(** The new blocks continue the last node. *)
Lemma append_extend (f : fsm_info) (L : list range) (n : positive) (r : range) (ids : list positive)
    (others : list positive) (m : Z) :
  building f (L ++ [r]) (Some n) others -> inorder (free_area f) = ids ++ [n] -> heap f !! n = Some r ->
  holds (heap f) ids L -> 0 < m ->
  let q := Range (start r) (len r + m) in
  let f' := set_heap (<[n := q]> (heap f)) f in
  building f' (L ++ [q]) (Some n) others /\ added (stop r) m (L ++ [r]) (L ++ [q]) /\ kept f f' others.
Proof.
  intros [] Ein Hr Hids Hm q f'; destruct (gapped_split L [] r bu_gapped0) as (_ & _ & Hne & HL & _).
  assert (added (stop r) m (L ++ [r]) (L ++ [q])) as Hadd.
  { apply (added_replace L [r] []); auto; unfold nonempty, stop in *; cbn; [lia|lia|].
    intros x; rewrite covers_cons, covers_nil; unfold in_range, stop; cbn; lia. }
  pose proof bu_nodup0 as Hnd; apply NoDup_app in Hnd as (Hnd & Hsep & _).
  assert (n ∈ inorder (free_area f)) as Hn by (rewrite Ein, elem_of_app, list_elem_of_singleton; auto).
  split; [|split; [done|]].
  - rewrite lenZ_app in *; split; cbn; auto.
    + intros k; destruct (decide (k = n)) as [->|]; [rewrite elem_of_app; auto|].
      rewrite lookup_insert_ne by done; auto.
    + intros k Hk; rewrite lookup_insert_ne; [auto|]; intros ->; by eapply Hsep.
    + rewrite Ein in Hnd |- *; apply holds_replace; [done|done|apply holds_nil].
    + apply Hadd.
    + rewrite lenZ_app; exact bu_nodes0.
    + rewrite lenZ_app; exact bu_max0.
    + apply hashed_insert; [rewrite list_del_elem; tauto|done].
  - split; [by repeat split|]; split; [done|]; split; [|done]; intros k Hk; cbn.
    rewrite lookup_insert_ne; [done|]; intros ->; by eapply Hsep.
Qed.

(** The tree after linking a new last node. *)
Lemma link_last_inorder (t : rbt) (last : option positive) (new : positive) (ids : list positive) :
  NoDup (inorder t) ->
  match last with None => t = Leaf | Some n => inorder t = ids ++ [n] end ->
  inorder (rb_insert_color new (rb_link_node new (match last with Some n => RightOf n | None => Root end) t))
  = inorder t ++ [new].
Proof.
  intros Hnd Hl; rewrite rb_insert_color_inorder; destruct last as [n|]; [|by subst].
  pose proof (link_after n new t ids [] Hnd Hl) as HL; cbn [rb_link_node].
  destruct (right_child n t); [rewrite HL, Hl, <- app_assoc; done|].
  by destruct HL as (k & B' & ? & _).
Qed.

(** A new last node. *)
Lemma append_node (f : fsm_info) (L : list range) (last : option positive) (new : positive)
    (others : list positive) (s m : Z) :
  building f L last others -> new ∉ inorder (free_area f) ++ others -> 0 < m ->
  Forall (fun r => stop r < s) L -> lenZ L < VDFS4_FSM_MAX_FREE_NODES ->
  let f1 := set_heap (<[new := Range s m]> (heap f)) f in
  exists f2, match last with
             | Some n => f ← fsm_hash n f1;
                         Ok (set_free_area (rb_link_node new (RightOf n) (free_area f)) f)
             | None => Ok (set_free_area (rb_link_node new Root (free_area f1)) f1)
             end = Ok f2
  /\ let f' := set_free_area_nodes (free_area_nodes f2 +32 1)
                 (set_free_area (rb_insert_color new (free_area f2)) f2) in
     building f' (L ++ [Range s m]) (Some new) others /\ added s m L (L ++ [Range s m])
     /\ kept f f' others /\ free_blocks_count f' = free_blocks_count f
     /\ untracked_blocks f' = untracked_blocks f.
Proof.
  intros [] Hnew Hm Hlt Hroom f1; rewrite elem_of_app in Hnew.
  pose proof bu_nodup0 as Hnd; apply NoDup_app in Hnd as (Hnd & Hsep & Hndo).
  assert (exists ls, match last with
             | Some n => f ← fsm_hash n f1;
                         Ok (set_free_area (rb_link_node new (RightOf n) (free_area f)) f)
             | None => Ok (set_free_area (rb_link_node new Root (free_area f1)) f1)
             end = Ok (set_free_area (rb_link_node new (match last with Some n => RightOf n | None => Root end)
                        (free_area f)) (set_free_list ls f1))
     /\ hashed (heap f1) ls (inorder (free_area f))) as (ls & E & Hls).
  { destruct last as [n|].
    - destruct bu_last0 as (ids & Ein).
      assert (n ∈ inorder (free_area f)) as Hn by (rewrite Ein, elem_of_app, list_elem_of_singleton; auto).
      destruct (holds_elem _ _ _ _ bu_holds0 Hn) as (r & Hr & Hnr).
      pose proof (gapped_nonempty _ bu_gapped0) as Hne; rewrite Forall_forall in Hne; specialize (Hne r Hr).
      destruct (hash_spec f1 n r (list_del n (inorder (free_area f)))) as (ls & E & Hls); [| |done|].
      + apply hashed_insert; [rewrite list_del_elem; tauto|done].
      + cbn; rewrite lookup_insert_ne; [done|]; intros ->; tauto.
      + rewrite E; exists ls; split; [done|]; eapply hashed_perm; [by apply list_del_cons_perm|done].
    - exists (free_list f); split; [by destruct f|].
      apply hashed_insert; [tauto|]; by rewrite bu_last0. }
  rewrite E; eexists; split; [reflexivity|]; cbn zeta.
  assert (inorder (rb_insert_color new (rb_link_node new (match last with Some n => RightOf n | None => Root end)
    (free_area f))) = inorder (free_area f) ++ [new]) as Et.
  { destruct last as [n|]; [destruct bu_last0 as (ids & Ein); by apply (link_last_inorder _ (Some n) new ids)|].
    by apply (link_last_inorder _ None new []). }
  assert (added s m L (L ++ [Range s m])) as Hadd.
  { replace L with (L ++ [] ++ []) at 1 by (by rewrite !app_nil_r).
    apply (added_replace L [] []); cbn; rewrite ?app_nil_r; auto.
    intros x; rewrite covers_nil; unfold in_range, stop; cbn; lia. }
  pose proof (lenZ_nonneg L) as Hpos.
  split; [|split; [done|]].
  - split; cbn; rewrite ?Et; auto.
    + rewrite <- app_assoc; cbn; rewrite NoDup_app; split; [done|]; split.
      * intros x Hx; rewrite elem_of_cons; intros [->|?]; [tauto|by eapply Hsep].
      * constructor; tauto.
    + intros k; destruct (decide (k = new)) as [->|]; [set_solver|].
      rewrite lookup_insert_ne by done; intros Hk; specialize (bu_dom0 k Hk); set_solver.
    + intros k Hk; rewrite lookup_insert_ne; [auto|]; intros ->; tauto.
    + apply holds_app_2; [apply holds_insert; tauto|apply holds_cons_2; [apply lookup_insert_eq|apply holds_nil]].
    + apply Hadd.
    + rewrite lenZ_app, bu_nodes0, u32_small; unfold VDFS4_FSM_MAX_FREE_NODES, lenZ in *; cbn; lia.
    + rewrite lenZ_app; unfold lenZ in *; cbn; lia.
    + eauto.
    + rewrite list_del_split, app_nil_r; [done|].
      rewrite NoDup_app; split; [done|]; split; [|constructor; [by intros ?%elem_of_nil|constructor]].
      intros x Hx; rewrite list_elem_of_singleton; intros ->; tauto.
  - split; [|done]; split; [by repeat split|]; split; [done|]; split; [|done]; intros k Hk; cbn.
    rewrite lookup_insert_ne; [done|]; intros ->; tauto.
Qed.

Lemma building_last (f : fsm_info) (L : list range) (n : positive) (others : list positive) :
  building f L (Some n) others ->
  exists ids K r, inorder (free_area f) = ids ++ [n] /\ L = K ++ [r]
  /\ heap f !! n = Some r /\ holds (heap f) ids K.
Proof.
  intros []; destruct bu_last0 as (ids & E); rewrite E, holds_app in bu_holds0.
  destruct bu_holds0 as (K & Lr & -> & HK & Hr); rewrite holds_cons in Hr.
  destruct Hr as (r & ? & -> & Hr & Hnil); inversion Hnil; subst; eauto 8.
Qed.

Lemma append_spec (f : fsm_info) (L : list range) (last : option positive) (others : list positive)
    (s n : Z) :
  building f L last others -> Forall (fun r => 0 <= start r /\ stop r <= s) L ->
  0 < n -> 0 <= s -> s + n < 2 ^ 32 -> 0 <= free_blocks_count f < 2 ^ 63 ->
  exists last' f' L', fsm_append_free_space last s n f = Ok (last', f')
  /\ building f' L' last' others /\ kept f f' others
  /\ free_blocks_count f' = free_blocks_count f + n /\ appended s n f f' L L'.
Proof.
  intros Hb HL Hn Hs Hlim Hfb; unfold fsm_append_free_space.
  set (f0 := set_free_blocks_count (free_blocks_count f +64 n) f).
  assert (free_blocks_count f0 = free_blocks_count f + n) as Ef0 by (cbn; apply u64_small; lia).
  assert (building f0 L last others) as Hb0 by (destruct Hb; by split).
  assert (kept f f0 others) as Hk0 by (by repeat split).
  rewrite (u32_small n) by lia.
  assert (Forall (fun r => stop r < s) L ->
    exists last' f' L',
    (let '(node, g) := if free_area_nodes f0 <? VDFS4_FSM_MAX_FREE_NODES then fsm_alloc_node f0 else (None, f0) in
     match node with
     | None => Ok (last, set_untracked_blocks (untracked_blocks g + n) g)
     | Some node =>
        let g := set_heap (<[node := Range s n]> (heap g)) g in
        g ← match last with
            | Some k => g ← fsm_hash k g; Ok (set_free_area (rb_link_node node (RightOf k) (free_area g)) g)
            | None => Ok (set_free_area (rb_link_node node Root (free_area g)) g)
            end;
        let g := set_free_area (rb_insert_color node (free_area g)) g in
        Ok (Some node, set_free_area_nodes (free_area_nodes g +32 1) g)
     end) = Ok (last', f')
    /\ building f' L' last' others /\ kept f f' others
    /\ free_blocks_count f' = free_blocks_count f + n /\ appended s n f f' L L') as Hnew.
  { intros Hlt; pose proof (bu_nodes _ _ _ _ Hb0) as Enod; rewrite Enod.
    destruct (Z.ltb_spec (lenZ L) VDFS4_FSM_MAX_FREE_NODES) as [Hroom|Hfull].
    2: { exists last, (set_untracked_blocks (untracked_blocks f0 + n) f0), L; split; [done|].
      split; [destruct Hb0; by split|]; split; [done|]; split; [done|]; right.
      pose proof (bu_max _ _ _ _ Hb); split; [done|]; split; [done|]; split; [lia|done]. }
    destruct (alloc_node_spec f0) as [[rest E]|[rest E]]; rewrite E.
    { exists last, (set_untracked_blocks (untracked_blocks f0 + n) (set_allocs rest f0)), L; split; [done|].
      assert (allocs f <> []) as Hne by (unfold fsm_alloc_node in E; cbn in E; by destruct (allocs f)).
      split; [destruct Hb0; by split|]; split; [by repeat split|]; split; [done|]; right.
      split; [done|]; split; [done|]; split; [done|done]. }
    set (new := fresh (dom (heap f0))) in *; cbn [heap set_allocs set_heap]; rewrite insert_insert_eq.
    assert (new ∉ inorder (free_area f0) ++ others) as Hfresh.
    { intros Hin; apply (is_fresh (dom (heap f0))), elem_of_dom; fold new.
      rewrite elem_of_app in Hin; destruct Hin as [Hin|Hin]; [|by apply (bu_some _ _ _ _ Hb0)].
      by eapply holds_is_Some; [apply (bu_holds _ _ _ _ Hb0)|]. }
    destruct (append_node (set_allocs rest f0) L last new others s n) as (f2 & E2 & Hb2 & Hadd & Hk & Hfb2 & Hu2);
      [destruct Hb0; by split|done|done|done|done|].
    cbn [set_allocs set_heap heap] in E2; cbn [set_allocs set_heap heap].
    match goal with |- context [mbind ?k ?x] => assert (x = Ok f2) as -> by exact E2 end.
    cbn [mbind run_bind]; eexists _, _, _; split; [reflexivity|]; split; [exact Hb2|]; split.
    - eapply kept_trans; [exact Hk0|]; eapply kept_trans; [|exact Hk].
      assert (allocs f0 = [] -> rest = []) as Hrest
        by (unfold fsm_alloc_node in E; destruct (allocs f0) as [|[]]; intros; injection E; done).
      repeat split; auto.
    - split; [exact (eq_trans Hfb2 Ef0)|left; split; [done|split; [exact Hu2|auto]]]. }
  destruct last as [k|]; cbn [mbind run_bind]; [|apply Hnew].
  2: { pose proof (bu_holds _ _ _ _ Hb) as Hh; rewrite (bu_last _ _ _ _ Hb) in Hh; by inversion Hh. }
  destruct (building_last f0 L k others Hb0) as (ids & K & r & Ein & -> & Hr & HK).
  rewrite (node_at_ok _ _ _ Hr); cbn [mbind run_bind].
  destruct (gapped_split K [] r (bu_gapped _ _ _ _ Hb)) as (_ & _ & Hne & HKlt & _).
  rewrite Forall_app, Forall_cons in HL; destruct HL as (HLK & (Hr0 & Hr1) & _).
  unfold nonempty in Hne; assert (node_end r = stop r) as ->
    by (unfold node_end, stop in *; apply u64_small; lia).
  destruct (Z.eqb_spec (stop r) s) as [Es|Ns].
  - rewrite (u32_small (len r + n)) by (unfold stop in *; lia).
    destruct (append_extend f0 K k r ids others n Hb0 Ein Hr HK Hn) as (Hb' & Hadd & Hk).
    eexists _, _, _; split; [reflexivity|]; split; [exact Hb'|]; split; [by eapply kept_trans|].
    split; [done|]; left; rewrite <- Es; split; [done|]; split; [done|]; right.
    apply Exists_app; right; by constructor.
  - apply Hnew; split_forall; [|lia|constructor].
    eapply Forall_impl; [exact HKlt|]; unfold stop in *; cbn; intros; lia.
Qed.

End Append.

(** ** The bitmap as a set of blocks *)

(** Block [x] is in use. *)
Definition used (sbi : sb_info) (m : list Z) (x : Z) : bool :=
  bit m (phys (block_size sbi) FSM_BMP_MAGIC_LEN CRC_SIZE x).

Definition clear (sbi : sb_info) (m : list Z) (x : Z) : bool := negb (used sbi m x).

(** The bitmap has [nb] blocks, enough for the volume. *)
Record bitmap_ok (sbi : sb_info) (m : list Z) (nb : Z) : Prop := {
  bo_geo : geometry m (block_size sbi) FSM_BMP_MAGIC_LEN CRC_SIZE nb;
  bo_vol : 0 < volume_blocks_count sbi < 2 ^ 32;
  bo_fit : volume_blocks_count sbi <= nb * datablock_size (block_size sbi) FSM_BMP_MAGIC_LEN CRC_SIZE
}.

Lemma bit_drop (m : list Z) (k i : Z) : 0 <= k -> 0 <= i -> bit (drop (Z.to_nat k) m) i = bit m (8 * k + i).
Proof.
  intros Hk Hi; unfold bit; replace (8 * k + i) with (i + k * 8) by lia.
  rewrite Z.div_add, Z.mod_add by lia; pose proof (Z.div_pos i 8 Hi ltac:(lia)).
  unfold getZ; rewrite (proj2 (Z.ltb_ge (i / 8) 0)), (proj2 (Z.ltb_ge (i / 8 + k) 0)) by lia.
  rewrite lookup_drop; replace (Z.to_nat k + Z.to_nat (i / 8))%nat with (Z.to_nat (i / 8 + k)) by lia; done.
Qed.

Section Build.
Context `{RbtreeLaws} `{FindBitLaws}.
Context (sbi : sb_info) (m : list Z) (nb : Z) (Hbm : bitmap_ok sbi m nb).

#[local] Abbreviation vol := (volume_blocks_count sbi).
#[local] Abbreviation D := (datablock_size (block_size sbi) FSM_BMP_MAGIC_LEN CRC_SIZE).

(** Bits of one bitmap block, as the loop sees it. *)
Lemma block_bit (k i : Z) :
  0 <= k -> 0 <= i < D ->
  bit (drop (Z.to_nat (FSM_BMP_MAGIC_LEN + k * block_size sbi)) m) i = used sbi m (k * D + i).
Proof.
  intros Hk Hi; destruct Hbm as [G _ _]; pose proof G as [G1 G2 G3 G4 G5 G6 G7]; unfold used.
  rewrite (phys_in_block m _ _ _ nb G k i Hi), bit_drop by nia; f_equal; lia.
Qed.

(** One turn of the loop: from [data_start = p] to the run of clear blocks
    [fs, p'). *)
Lemma scan_step (k p size : Z) :
  0 <= k -> k * D <= p < k * D + size -> size <= D -> k * D + size <= vol ->
  let mk := drop (Z.to_nat (FSM_BMP_MAGIC_LEN + k * block_size sbi)) m in
  let fs := k * D + find_next_zero_bit mk size (p - k * D) in
  let p' := k * D + find_next_bit mk size (fs - k * D) in
  p <= fs <= p' /\ p < p' <= k * D + size
  /\ (forall x, p <= x < fs -> used sbi m x = true)
  /\ (forall x, fs <= x < p' -> used sbi m x = false).
Proof.
  intros Hk Hp Hsize Hvol; cbn zeta; destruct Hbm as [G Hv Hfit].
  pose proof G as [G1 G2 G3 G4 G5 G6 G7]; pose proof (D_pos m _ _ _ nb G) as HD.
  assert (k < nb) as Hknb by nia.
  set (mk := drop _ m).
  assert (size <= 8 * lenZ mk) as Hlen.
  { unfold mk, lenZ; rewrite length_drop; fold (lenZ m).
    assert (D = 8 * (block_size sbi - FSM_BMP_MAGIC_LEN - CRC_SIZE)) as ED by apply (D_eq (block_size sbi)).
    unfold lenZ in G5; unfold CRC_SIZE, FSM_BMP_MAGIC_LEN in *; nia. }
  destruct (find_next_zero_bit_spec mk size (p - k * D) ltac:(lia) Hlen) as (Z1 & Z2 & Z3).
  set (r := find_next_zero_bit mk size (p - k * D)) in *.
  replace (k * D + r - k * D) with r by lia.
  destruct (find_next_bit_spec mk size r ltac:(lia) Hlen) as (S1 & S2 & S3).
  set (r' := find_next_bit mk size r) in *.
  assert (forall i, 0 <= i < size -> bit mk i = used sbi m (k * D + i)) as Hb by (intros; apply block_bit; lia).
  split; [lia|]; split; [|split].
  - split; [|lia]; destruct (Z.ltb_spec p (k * D + r)); [lia|].
    assert (r = p - k * D) as Er by lia.
    destruct (Z.ltb_spec p (k * D + r')); [lia|]; exfalso; assert (r' = r) as E by lia.
    specialize (Z3 ltac:(lia)); specialize (S3 ltac:(lia)); rewrite E in S3; congruence.
  - intros x Hx; replace x with (k * D + (x - k * D)) by lia; rewrite <- Hb by lia; apply (Z2 (x - k * D)); lia.
  - intros x Hx; replace x with (k * D + (x - k * D)) by lia; rewrite <- Hb by lia; apply (S2 (x - k * D)); lia.
Qed.

(** The count of clear blocks over one turn. *)
Lemma count_turn (p fs p' : Z) :
  0 <= p <= fs -> fs <= p' ->
  (forall x, p <= x < fs -> used sbi m x = true) -> (forall x, fs <= x < p' -> used sbi m x = false) ->
  count (clear sbi m) 0 p' = count (clear sbi m) 0 p + (p' - fs).
Proof.
  intros Hp Hfs Hu Hc; replace p' with (p + ((fs - p) + (p' - fs))) at 1 by lia.
  rewrite !count_split by lia; rewrite !Z.add_0_l.
  rewrite (count_all _ p (fs - p) false), (count_all _ (p + (fs - p)) (p' - fs) true); try lia.
  - intros x Hx; unfold clear; rewrite Hc by lia; done.
  - intros x Hx; unfold clear; rewrite Hu by lia; done.
Qed.

(** Without memory failures the free area takes in every clear block up to a
    point, which does not split a run of clear blocks; past that point there was
    no node left. *)
Definition cutoff (L : list range) (p P : Z) : Prop :=
  0 <= P <= p /\ (forall x, covers L x <-> 0 <= x < P /\ used sbi m x = false)
  /\ (P = p \/ (P < p /\ lenZ L = VDFS4_FSM_MAX_FREE_NODES /\ (P = 0 \/ used sbi m (P - 1) = true)
                 /\ Forall (fun r => stop r < P) L)).

(** The free area after the blocks below [p] have been looked at. *)
Record built (f0 f : fsm_info) (L : list range) (p : Z) : Prop := {
  bt_sub : forall x, covers L x -> 0 <= x < p /\ used sbi m x = false;
  bt_total : total L + untracked_blocks f = untracked_blocks f0 + count (clear sbi m) 0 p;
  bt_free : free_blocks_count f = free_blocks_count f0 + count (clear sbi m) 0 p;
  bt_mono : untracked_blocks f0 <= untracked_blocks f;
  bt_all : untracked_blocks f = untracked_blocks f0 ->
           forall x, 0 <= x < p -> used sbi m x = false -> covers L x;
  bt_cut : allocs f0 = [] -> exists P, cutoff L p P
}.

Lemma built_start (f : fsm_info) : built f f [] 0.
Proof.
  assert (count (clear sbi m) 0 0 = 0) as E by done.
  split; rewrite ?E; cbn; try lia.
  - by intros x ?%covers_nil.
  - intros _; exists 0; split; [lia|]; split; [|auto]; intros x; rewrite covers_nil; lia.
Qed.

(** A turn that finds only used blocks. *)
Lemma built_skip (f0 f : fsm_info) (L : list range) (p p' : Z) :
  built f0 f L p -> 0 <= p <= p' -> (forall x, p <= x < p' -> used sbi m x = true) -> built f0 f L p'.
Proof.
  intros [] Hp Hu.
  assert (count (clear sbi m) 0 p' = count (clear sbi m) 0 p) as Ec
    by (rewrite (count_turn p p' p') by (lia || done || (intros; lia)); lia).
  assert (forall x, 0 <= x < p' -> used sbi m x = false -> 0 <= x < p) as Hlow.
  { intros x Hx Hf; destruct (Z.ltb_spec x p); [lia|]; rewrite Hu in Hf by lia; done. }
  split; rewrite ?Ec; try (done || lia).
  - intros x Hx; destruct (bt_sub0 x Hx); split; [lia|done].
  - intros E x Hx Hf; apply bt_all0; auto.
  - intros Ha; destruct (bt_cut0 Ha) as (P & HP & HC & HE).
    destruct HE as [->|(? & ? & ? & ?)]; [exists p'|exists P; split; [lia|]; split; [done|]; right; repeat split; auto; lia].
    split; [lia|]; split; [|auto]; intros x; rewrite HC; split; [intros [? ?]; split; [lia|done]|].
    intros [? ?]; split; [by apply Hlow|done].
Qed.

Lemma cutoff_append (f f' : fsm_info) (L L' : list range) (p fs p' P : Z) :
  cutoff L p P -> allocs f = [] -> 0 <= p <= fs -> fs < p' ->
  (forall x, p <= x < fs -> used sbi m x = true) -> (forall x, fs <= x < p' -> used sbi m x = false) ->
  appended fs (p' - fs) f f' L L' -> exists P', cutoff L' p' P'.
Proof.
  intros (HP & HC & HE) Ha Hp Hfs Hu Hc [(Hadd & _ & Hroom)|(-> & _ & Hfull & Hlt)].
  - destruct Hadd as (_ & _ & Hcov); destruct HE as [->|(Hlt & Hmax & _ & Hst)].
    + exists p'; split; [lia|]; split; [|auto]; intros x; rewrite Hcov, HC; split.
      * intros [[? ?]|?]; [split; [lia|done]|split; [lia|apply Hc; lia]].
      * intros [Hx Hf]; destruct (Z.ltb_spec x p); [left; split; [lia|done]|].
        destruct (Z.ltb_spec x fs); [rewrite Hu in Hf by lia; done|right; lia].
    + exfalso; destruct Hroom as [?|Hex]; [lia|].
      apply Exists_exists in Hex as (r & Hr & Er); rewrite Forall_forall in Hst; specialize (Hst r Hr).
      cbn in Hst; lia.
  - destruct HE as [->|(Hlt' & Hmax & HPu & Hst)].
    2: { exists P; split; [lia|]; split; [done|]; right; repeat split; auto; lia. }
    exists fs; split; [lia|]; split.
    + intros x; rewrite HC; split; [intros [? ?]; split; [lia|done]|].
      intros [Hx Hf]; split; [|done]; destruct (Z.ltb_spec x p); [lia|]; rewrite Hu in Hf by lia; done.
    + right; split; [lia|]; split; [auto|]; split; [|done].
      destruct (decide (fs = 0)) as [->|Hne]; [auto|right].
      destruct (Z.ltb_spec p fs); [apply Hu; lia|]; assert (fs = p) as -> by lia.
      destruct (used sbi m (p - 1)) eqn:Eu; [done|exfalso].
      assert (covers L (p - 1)) as Hcv by (apply HC; split; [lia|done]).
      apply covers_elem in Hcv as (r & Hr & Hx); rewrite Forall_forall in Hlt; specialize (Hlt r Hr).
      unfold in_range in Hx; cbn in Hlt; lia.
Qed.

Lemma built_append (f0 f f' : fsm_info) (L L' : list range) (p fs p' : Z) :
  built f0 f L p -> (allocs f0 = [] -> allocs f = []) -> 0 <= p <= fs -> fs < p' ->
  (forall x, p <= x < fs -> used sbi m x = true) -> (forall x, fs <= x < p' -> used sbi m x = false) ->
  free_blocks_count f' = free_blocks_count f + (p' - fs) ->
  appended fs (p' - fs) f f' L L' -> built f0 f' L' p'.
Proof.
  intros [] Ha Hp Hfs Hu Hc Hfree Happ.
  pose proof (count_turn p fs p' Hp ltac:(lia) Hu Hc) as Ec.
  assert (exists P', allocs f0 = [] -> cutoff L' p' P') as (P' & HP').
  { destruct (decide (allocs f0 = [])) as [E|E]; [|by exists 0].
    destruct (bt_cut0 E) as (P & HC).
    destruct (cutoff_append f f' L L' p fs p' P HC (Ha E) Hp Hfs Hu Hc Happ) as (P' & ?); eauto. }
  destruct Happ as [((_ & Ht & Hcov) & Hun & _)|(-> & Hun & _ & _)]; split; eauto; try lia.
  - intros x; rewrite Hcov; intros [Hx|Hx]; [destruct (bt_sub0 x Hx); split; [lia|done]|].
    split; [lia|apply Hc; lia].
  - rewrite Hun; intros E x Hx Hf; rewrite Hcov; destruct (Z.ltb_spec x p); [left; apply bt_all0; auto; lia|].
    destruct (Z.ltb_spec x fs); [rewrite Hu in Hf by lia; done|right; lia].
  - intros x Hx; destruct (bt_sub0 x Hx); split; [lia|done].
Qed.

(** Where the loop stands: inside bitmap block [k], or at the end. *)
Definition at_block (bst p block size : Z) : Prop :=
  (bst = vol /\ p = vol)
  \/ exists k, 0 <= k /\ bst = k * D /\ block = FSM_BMP_MAGIC_LEN + k * block_size sbi
     /\ (size = D \/ bst + size = vol) /\ size <= D /\ bst <= p < bst + Z.min size (vol - bst).

Lemma at_block_next (k p' size : Z) :
  0 <= k -> (size = D \/ k * D + size = vol) -> size <= D -> k * D < vol ->
  let size' := Z.min size (vol - k * D) in
  let block := FSM_BMP_MAGIC_LEN + k * block_size sbi in
  k * D < p' <= k * D + size' ->
  at_block (if p' =? k * D + size' then k * D + size' else k * D) p'
    (if p' =? k * D + size' then block + block_size sbi else block) size'.
Proof.
  intros Hk Hsize Hle Hlt size' block Hp'.
  assert (size' = Z.min size (vol - k * D)) as Es by done; clearbody size'; pose proof (D_pos m _ _ _ nb (bo_geo _ _ _ Hbm)) as HD.
  destruct (Z.eqb_spec p' (k * D + size')) as [->|Hne].
  - destruct (decide (k * D + size' = vol)) as [E|E]; [left; done|right]; exists (k + 1).
    assert (size' = D) as ED by lia; rewrite ED in *; subst block; rewrite !Z.mul_add_distr_r, !Z.mul_1_l.
    repeat split; auto; lia.
  - right; exists k; repeat split; auto; lia.
Qed.

Lemma build_loop_spec (fuel : nat) (f0 f : fsm_info) (L : list range) (last : option positive)
    (others : list positive) (bst p block size : Z) :
  data f = m -> building f L last others -> built f0 f L p -> kept f0 f others ->
  at_block bst p block size -> 0 <= p -> vol - p <= Z.of_nat fuel ->
  0 <= free_blocks_count f0 -> free_blocks_count f0 + vol < 2 ^ 63 ->
  exists last' f' L', build_loop sbi fuel bst p block size last f = Ok (last', f')
  /\ building f' L' last' others /\ built f0 f' L' vol /\ kept f0 f' others.
Proof.
  revert f L last bst p block size; induction fuel as [|fuel IH];
    intros f L last bst p block size Hd Hbu Hbt Hke Hat Hp Hfuel Hf0 Hlim; cbn [build_loop].
  { destruct Hat as [[-> ->]|(k & _ & _ & _ & _ & _ & Hlt)]; [|lia].
    rewrite Z.leb_refl; eauto 8. }
  destruct Hat as [[-> ->]|(k & Hk & -> & -> & Hsize & HsD & Hlt)].
  { rewrite Z.leb_refl; eauto 8. }
  rewrite (proj2 (Z.leb_gt vol (k * D))) by lia; rewrite Hd.
  set (size' := Z.min size (vol - k * D)) in *.
  destruct (scan_step k p size') as (T1 & T2 & T3 & T4); [lia..|].
  set (mk := drop _ m) in *.
  set (fs := k * D + find_next_zero_bit mk size' (p - k * D)) in *.
  set (p' := k * D + find_next_bit mk size' (fs - k * D)) in *.
  pose proof (at_block_next k p' size Hk Hsize HsD ltac:(lia) ltac:(fold size'; lia)) as Hat'; fold size' in Hat'.
  assert (exists last1 f1 L1,
    (if fs <? p' then fsm_append_free_space last fs (p' - fs) f else Ok (last, f)) = Ok (last1, f1)
    /\ building f1 L1 last1 others /\ built f0 f1 L1 p' /\ kept f0 f1 others) as (last1 & f1 & L1 & E1 & Hbu1 & Hbt1 & Hke1).
  { destruct (Z.ltb_spec fs p') as [Hfs|Hfs].
    - destruct (append_spec f L last others fs (p' - fs)) as (last1 & f1 & L1 & E1 & Hbu1 & Hke1 & Hfr1 & Happ); auto.
      + pose proof (within_covers 0 p L (gapped_nonempty _ (bu_gapped _ _ _ _ Hbu))) as HW.
        assert (within 0 p L) as HWp by (apply HW; intros x Hx; by apply (bt_sub _ _ _ _ Hbt)).
        eapply Forall_impl; [exact HWp|]; cbn; intros; lia.
      + lia.
      + lia.
      + destruct Hbm as [_ Hv _]; lia.
      + rewrite (bt_free _ _ _ _ Hbt); pose proof (count_range (clear sbi m) 0 p Hp); lia.
      + exists last1, f1, L1; split; [done|]; split; [done|]; split; [|by eapply kept_trans].
        eapply built_append; eauto; [apply Hke|lia].
    - exists last, f, L; split; [done|]; split; [done|]; split; [|done].
      eapply built_skip; eauto; [lia|]; intros x Hx; apply T3; lia. }
  assert (data f1 = m) as Hd1.
  { destruct Hke as ((_ & _ & _ & _ & _ & E & _) & _), Hke1 as ((_ & _ & _ & _ & _ & E' & _) & _); congruence. }
  revert Hat'; destruct (Z.eqb_spec p' (k * D + size')) as [Ep|Np]; intros Hat'; rewrite E1;
    cbn [mbind run_bind]; apply (IH f1 L1); auto; lia.
Qed.

(** fsm_build_tree on an empty free area, the nodes [others] of the heap being
    those of the next-free area. *)
Lemma build_tree_spec (f : fsm_info) (others : list positive) :
  data f = m -> free_area f = Leaf -> free_area_nodes f = 0 -> free_list f = repeat [] 17 ->
  NoDup others -> (forall n, is_Some (heap f !! n) <-> n ∈ others) ->
  0 <= free_blocks_count f -> free_blocks_count f + vol < 2 ^ 63 ->
  exists f' fa, fsm_build_tree sbi f = Ok f' /\ area_ok vol f' fa others /\ built f f' fa vol
  /\ kept f f' others.
Proof.
  intros Hd Hleaf Hnodes Hlists Hnd Hdom Hf0 Hlim; pose proof Hbm as [G Hv Hfit].
  pose proof (D_pos m _ _ _ nb G) as HD.
  assert (building f [] None others) as Hbu.
  { split; rewrite ?Hleaf, ?Hnodes; cbn; auto; try (intros n Hn; by apply Hdom); try done.
    - constructor.
    - rewrite Hlists; split; [done|]; split; [done|]; intros i l n Hl Hn.
      apply list_elem_of_lookup_2 in Hl; apply list_elem_of_In, repeat_spec in Hl; subst; by apply elem_of_nil in Hn. }
  assert (8 * (block_size sbi - (FSM_BMP_MAGIC_LEN + CRC_SIZE)) = D) as ED
    by (rewrite (D_eq (block_size sbi)); lia).
  unfold fsm_build_tree; rewrite ED.
  destruct (build_loop_spec (Z.to_nat vol) f f [] None others 0 0 FSM_BMP_MAGIC_LEN D)
    as (last & f' & fa & E & Hbu' & Hbt & Hke); auto using built_start, kept_refl; try lia.
  { right; exists 0; repeat split; auto; lia. }
  rewrite E; cbn [mbind run_bind].
  assert (within 0 vol fa) as HW.
  { apply within_covers; [apply gapped_nonempty, (bu_gapped _ _ _ _ Hbu')|].
    intros x Hx; by apply (bt_sub _ _ _ _ Hbt). }
  destruct last as [n|].
  - destruct (building_last _ _ _ _ Hbu') as (ids & K & r & Ein & -> & Hr & HK).
    destruct (gapped_split K [] r (bu_gapped _ _ _ _ Hbu')) as (_ & _ & Hne & _).
    destruct Hbu'; destruct (hash_spec f' n r _ bu_hashed0 Hr Hne) as (ls & -> & Hls).
    exists (set_free_list ls f'), (K ++ [r]); split; [done|]; split; [|split; [|done]].
    + split; cbn; auto; eapply hashed_perm; [|exact Hls]; apply list_del_cons_perm.
      * by apply NoDup_app in bu_nodup0 as (? & _).
      * rewrite Ein, elem_of_app, list_elem_of_singleton; auto.
    + destruct Hbt; split; auto.
  - exists f', fa; split; [done|]; split; [|done]; destruct Hbu'; split; auto.
    by rewrite bu_last0 in *.
Qed.

(** ** The erase-block counters at mount *)

(** The used blocks below [p]. *)
Definition used_below (p x : Z) : bool := (0 <=? x) && (x <? p) && used sbi m x.

Lemma used_below_turn (p fs p' x : Z) :
  0 <= p <= fs -> fs <= p' ->
  (forall y, p <= y < fs -> used sbi m y = true) -> (forall y, fs <= y < p' -> used sbi m y = false) ->
  upd (used_below p) p (fs - p) true x = used_below p' x.
Proof.
  intros Hp Hfs Hu Hc; unfold upd, used_below.
  destruct (Z.leb_spec p x), (Z.ltb_spec x (p + (fs - p))), (Z.leb_spec 0 x), (Z.ltb_spec x p), (Z.ltb_spec x p');
    cbn [andb]; try lia; try done.
  - symmetry; apply Hu; lia.
  - symmetry; apply Hc; lia.
Qed.

Lemma init_counters_loop_spec (fuel : nat) (f : fsm_info) (bst p block size : Z) :
  erase_geometry sbi -> data f = m -> at_block bst p block size -> 0 <= p <= vol ->
  vol - p <= Z.of_nat fuel ->
  has_counters sbi (erase_blocks_counters f) 0 vol ->
  counters_ok sbi (used_below p) (erase_blocks_counters f) ->
  exists c, init_counters_loop sbi fuel bst p block size f = Ok (set_erase_blocks_counters c f)
  /\ lenZ c = lenZ (erase_blocks_counters f) /\ counters_ok sbi (used_below vol) c.
Proof.
  intros Hg; revert f bst p block size; induction fuel as [|fuel IH];
    intros f bst p block size Hd Hat Hp Hfuel Hhas Hc; cbn [init_counters_loop].
  { destruct Hat as [[-> ->]|(k & _ & _ & _ & _ & _ & Hlt)]; [|lia].
    rewrite Z.leb_refl; exists (erase_blocks_counters f); by destruct f. }
  destruct Hat as [[-> ->]|(k & Hk & -> & -> & Hsize & HsD & Hlt)].
  { rewrite Z.leb_refl; exists (erase_blocks_counters f); by destruct f. }
  rewrite (proj2 (Z.leb_gt vol (k * D))) by lia; rewrite Hd.
  set (size' := Z.min size (vol - k * D)) in *.
  destruct (scan_step k p size') as (T1 & T2 & T3 & T4); [lia..|].
  set (mk := drop _ m) in *.
  set (fs := k * D + find_next_zero_bit mk size' (p - k * D)) in *.
  set (p' := k * D + find_next_bit mk size' (fs - k * D)) in *.
  pose proof (at_block_next k p' size Hk Hsize HsD ltac:(lia) ltac:(fold size'; lia)) as Hat'; fold size' in Hat'.
  destruct Hbm as [_ Hv _]; unfold fsm_inc_erase_blocks_counters; rewrite u32_small by lia.
  destruct (inc_counters_spec sbi (Z.to_nat (fs - p)) p (used_below p) (erase_blocks_counters f) Hg)
    as (c & E & Hlen & Hc'); [lia|lia| | |done|].
  { intros x Hx; unfold used_below; rewrite (proj2 (Z.ltb_ge x p)), andb_false_r by lia; done. }
  { intros x Hx; apply Hhas; lia. }
  rewrite E; cbn [mbind run_bind].
  assert (counters_ok sbi (used_below p') c) as Hcp.
  { eapply counters_ok_ext; [|exact Hc']; intros x; rewrite Z2Nat.id by lia; apply used_below_turn; auto; lia. }
  assert (has_counters sbi c 0 vol) as Hhas' by (intros x Hx; rewrite Hlen; auto).
  revert Hat'; destruct (Z.eqb_spec p' (k * D + size')) as [Ep|Np]; intros Hat'.
  - destruct (IH (set_erase_blocks_counters c f) _ _ _ _ Hd Hat' ltac:(lia) ltac:(lia) Hhas' Hcp)
      as (c2 & E2 & Hl2 & Hc2); exists c2; rewrite <- Hlen; eauto.
  - destruct (IH (set_erase_blocks_counters c f) _ _ _ _ Hd Hat' ltac:(lia) ltac:(lia) Hhas' Hcp)
      as (c2 & E2 & Hl2 & Hc2); exists c2; rewrite <- Hlen; eauto.
Qed.

Lemma init_counters_spec (f : fsm_info) :
  erase_geometry sbi -> data f = m -> has_counters sbi (erase_blocks_counters f) 0 vol ->
  exists c, fsm_init_erase_blocks_counters sbi f = Ok (set_erase_blocks_counters c f)
  /\ lenZ c = lenZ (erase_blocks_counters f) /\ counters_ok sbi (used_below vol) c.
Proof.
  intros Hg Hd Hhas; pose proof Hbm as [G Hv Hfit]; pose proof (D_pos m _ _ _ nb G) as HD.
  unfold fsm_init_erase_blocks_counters.
  assert (8 * (block_size sbi - (FSM_BMP_MAGIC_LEN + CRC_SIZE)) = D) as ->
    by (rewrite (D_eq (block_size sbi)); lia).
  set (z := map (fun _ => 0) (erase_blocks_counters f)).
  assert (lenZ z = lenZ (erase_blocks_counters f)) as Hlz by (unfold lenZ, z; by rewrite length_map).
  destruct (init_counters_loop_spec (Z.to_nat vol) (set_erase_blocks_counters z f) 0 0 FSM_BMP_MAGIC_LEN D)
    as (c & E & Hlen & Hc); auto; try lia.
  - right; exists 0; repeat split; auto; lia.
  - intros x Hx; cbn; rewrite Hlz; auto.
  - intros e v Hv'; cbn in Hv'; assert (v = 0) as ->.
    { apply getZ_elem in Hv'; unfold z in Hv'; apply list_elem_of_fmap in Hv' as (? & -> & _); done. }
    rewrite (count_all _ _ _ false); [done|pose proof (erase_size_bound sbi Hg); lia|].
    intros x _; unfold used_below; destruct (Z.leb_spec 0 x), (Z.ltb_spec x 0); cbn; done || lia.
  - exists c; split; [exact E|]; split; [by rewrite Hlen|done].
Qed.

End Build.
