(* ===== verification/FsmAlloc.v ===== *)
(** Allocation and freeing through the bitmap (vdfs4_fsm_get_free_block,
    vdfs4_fsm_put_free_block, vdfs4_commit_free_space of
    src/linux/fs/vdfs4/fsm.c).

    [fsm_inv] ties the trees and counters of the manager to its bitmap: every
    block the trees call free has a clear bit, every clear bit is counted once,
    and every erase-block counter is the number of set bits of its erase block.
    The theorems show that the operations never stop the system, keep the
    invariant, and allocate exactly blocks that were free. *)

From Stdlib Require Import ZArith Lia Bool List.
From stdpp Require Import base list gmap sets.
From S2P Require Import Prelude Bitmap Count FindBit Ranges Rbtree FsmTree FsmSpace Fsm FsmCounters FsmBuild.

Open Scope Z_scope.

(** ** Counting over runs *)

Lemma count_upd_run (U : Z -> bool) (lo N b n : Z) (v : bool) :
  lo <= b -> 0 <= n -> b + n <= lo + N -> (forall x, b <= x < b + n -> U x = negb v) ->
  count (upd U b n v) lo N = count U lo N + (if v then n else - n).
Proof.
  intros Hb Hn HN HU; replace N with ((b - lo) + (n + (lo + N - (b + n)))) by lia.
  rewrite !count_split by lia; replace (lo + (b - lo)) with b by lia.
  rewrite (count_ext (upd U b n v) U lo), (count_ext (upd U b n v) U (b + n)).
  - rewrite (count_all (upd U b n v) b n v), (count_all U b n (negb v)) by (done || (intros x Hx; unfold upd;
      rewrite (proj2 (Z.leb_le b x)), (proj2 (Z.ltb_lt x (b + n))) by lia; done)).
    destruct v; cbn; lia.
  - intros x Hx; unfold upd; destruct (Z.leb_spec b x), (Z.ltb_spec x (b + n)); cbn; auto; lia.
  - intros x Hx; unfold upd; destruct (Z.leb_spec b x), (Z.ltb_spec x (b + n)); cbn; auto; lia.
Qed.

Lemma upd_in (U : Z -> bool) (b n : Z) (v : bool) (x : Z) : b <= x < b + n -> upd U b n v x = v.
Proof. intros; unfold upd; rewrite (proj2 (Z.leb_le b x)), (proj2 (Z.ltb_lt x (b + n))) by lia; done. Qed.

Lemma upd_out (U : Z -> bool) (b n : Z) (v : bool) (x : Z) : ~ b <= x < b + n -> upd U b n v x = U x.
Proof. intros; unfold upd; destruct (Z.leb_spec b x), (Z.ltb_spec x (b + n)); cbn; auto; lia. Qed.

(** ** The bitmap updates as set updates *)

Section Bits.
Context (sbi : sb_info) (m : list Z) (nb : Z) (Hbm : bitmap_ok sbi m nb).
Context (b n : Z) (Hb : 0 <= b) (Hn : 0 < n) (Hlim : b + n <= volume_blocks_count sbi).

#[local] Abbreviation bs := (block_size sbi).
#[local] Abbreviation js := (map (phys bs FSM_BMP_MAGIC_LEN CRC_SIZE) (seqZ b n)).

Lemma js_range : Forall (Bitmap.in_range m) js.
Proof using Hbm Hb Hlim.
  destruct Hbm as [G Hv Hfit]; eapply map_phys_range; eauto; lia.
Qed.

Lemma js_nodup : NoDup js.
Proof using Hbm. destruct Hbm as [G _ _]; by eapply map_phys_NoDup. Qed.

Lemma used_put_bits (v : bool) (x : Z) : used sbi (put_bits m js v) x = upd (used sbi m) b n v x.
Proof using Hbm Hb Hlim.
  unfold used at 1; rewrite bit_put_bits by exact js_range.
  destruct (decide (b <= x < b + n)) as [Hx|Hx].
  - rewrite upd_in, decide_True by (done || apply elem_of_map_phys; eauto); done.
  - rewrite upd_out by done; rewrite decide_False; [done|].
    rewrite elem_of_map_phys; intros (i & Hi & E); apply Hx.
    destruct Hbm as [G _ _]; apply (phys_inj m _ _ _ nb G) in E; congruence.
Qed.

Lemma bitmap_ok_put_bits (v : bool) : bitmap_ok sbi (put_bits m js v) nb.
Proof using Hbm. destruct Hbm as [G Hv Hfit]; split; auto; by apply geometry_put_bits. Qed.

Lemma set_bits_used :
  (forall x, b <= x < b + n -> used sbi m x = false) ->
  vdfs4_set_bits m b n FSM_BMP_MAGIC_LEN bs = Ok (put_bits m js true, 0).
Proof using Hbm Hb Hn Hlim.
  intros Hu; destruct Hbm as [G Hv Hfit].
  rewrite (vdfs4_set_bits_run m bs FSM_BMP_MAGIC_LEN nb b n G) by lia.
  destruct (set_until_spec js m js_nodup js_range) as (m' & r & -> & H1 & _).
  destruct H1 as [-> ->]; [|done]; apply Forall_map_phys; exact Hu.
Qed.

Lemma clear_bits_used :
  vdfs4_clear_bits m b n FSM_BMP_MAGIC_LEN bs
  = Ok (put_bits m js false,
        if decide (Forall (fun j => bit m j = true) js) then 0 else - EFAULT).
Proof using Hbm Hb Hn Hlim.
  destruct Hbm as [G Hv Hfit].
  rewrite (vdfs4_clear_bits_run m bs FSM_BMP_MAGIC_LEN nb b n G) by lia.
  rewrite clear_all_spec by (apply js_nodup || apply js_range); done.
Qed.

Lemma all_used : Forall (fun j => bit m j = true) js <-> forall x, b <= x < b + n -> used sbi m x = true.
Proof. apply Forall_map_phys. Qed.

Lemma count_clear_put (v : bool) :
  (forall x, b <= x < b + n -> used sbi m x = negb v) ->
  count (clear sbi (put_bits m js v)) 0 (volume_blocks_count sbi)
  = count (clear sbi m) 0 (volume_blocks_count sbi) + (if v then - n else n).
Proof using Hbm Hb Hn Hlim.
  intros Hu; rewrite (count_ext _ (upd (clear sbi m) b n (negb v))).
  - rewrite count_upd_run; [by destruct v|lia..|].
    intros x Hx; unfold clear; rewrite Hu by done; by destruct v.
  - intros x _; unfold clear at 1; rewrite used_put_bits; unfold upd; by destruct (_ && _).
Qed.

Lemma used_below_put (v : bool) (x : Z) :
  used_below sbi (put_bits m js v) (volume_blocks_count sbi) x
  = upd (used_below sbi m (volume_blocks_count sbi)) b n v x.
Proof using Hbm Hb Hlim.
  unfold used_below at 1; rewrite used_put_bits; destruct (decide (b <= x < b + n)).
  - rewrite !upd_in by done; rewrite (proj2 (Z.leb_le 0 x)), (proj2 (Z.ltb_lt x _)) by lia; done.
  - rewrite !upd_out by done; done.
Qed.

End Bits.

(** ** The invariant *)

Record fsm_inv (sbi : sb_info) (nb : Z) (f : fsm_info) (fa na : list range) : Prop := {
  fi_ok : fsm_ok (volume_blocks_count sbi) f fa na;
  fi_bitmap : bitmap_ok sbi (data f) nb;
  fi_clear : forall x, covers fa x \/ covers na x -> used sbi (data f) x = false;
  fi_count : total fa + untracked_blocks f + total na + untracked_next_free f
             = count (clear sbi (data f)) 0 (volume_blocks_count sbi);
  fi_zero : used sbi (data f) 0 = true;
  fi_erase : erase_geometry sbi;
  fi_counters : counters_ok sbi (used_below sbi (data f) (volume_blocks_count sbi)) (erase_blocks_counters f);
  fi_has : has_counters sbi (erase_blocks_counters f) 0 (volume_blocks_count sbi);
  fi_shift : 0 <= block_size_shift sbi <= PAGE_SHIFT;
  fi_pages : page_of sbi (volume_blocks_count sbi) < page_count sbi
}.

(** Pages of a chunk inside the volume are pages of the bitmap. *)
Lemma mark_pages_ok (sbi : sb_info) (n : nat) (i : Z) (f : fsm_info) :
  0 <= i -> i + Z.of_nat n <= page_count sbi ->
  mark_pages sbi n i f = Ok (set_dirty (dirty f ++ seqZ i (Z.of_nat n)) f).
Proof.
  revert i f; induction n as [|n IH]; intros i f Hi Hn; cbn [mark_pages].
  { cbn; rewrite app_nil_r; by destruct f. }
  rewrite (proj2 (Z.leb_le 0 i)), (proj2 (Z.ltb_lt i _)) by lia; cbn [andb].
  rewrite IH by lia; rewrite seqZ_S; cbn; by rewrite <- app_assoc.
Qed.

Lemma page_of_mono (sbi : sb_info) (m : list Z) (nb x y : Z) :
  bitmap_ok sbi m nb -> 0 <= block_size_shift sbi <= PAGE_SHIFT -> 0 <= x <= y -> y < 2 ^ 32 ->
  0 <= page_of sbi x <= page_of sbi y.
Proof.
  intros [G _ _] Hsh Hx Hy; unfold page_of; fold (datablock_size (block_size sbi) FSM_BMP_MAGIC_LEN CRC_SIZE).
  pose proof (D_pos m _ _ _ nb G) as HD.
  change (VDFS4_BIT_BLKSIZE (block_size sbi) FSM_BMP_MAGIC_LEN)
    with (datablock_size (block_size sbi) FSM_BMP_MAGIC_LEN CRC_SIZE).
  set (d := datablock_size _ _ _) in *.
  pose proof (Z.div_pos x d ltac:(lia) HD); pose proof (Z.div_le_mono x y d HD ltac:(lia)).
  assert (y / d <= y) by (apply Z.div_le_upper_bound; nia).
  rewrite !u32_small, !Z.shiftr_div_pow2 by lia.
  pose proof (Z.pow_pos_nonneg 2 (PAGE_SHIFT - block_size_shift sbi) ltac:(lia) ltac:(lia)).
  split; [apply Z.div_pos; lia|apply Z.div_le_mono; lia].
Qed.

Lemma mark_chunk_ok (sbi : sb_info) (nb : Z) (f g : fsm_info) (fa na : list range) (b n : Z) :
  fsm_inv sbi nb f fa na -> 0 <= b -> 0 <= n -> b + n <= volume_blocks_count sbi ->
  exists dirt, mark_chunk sbi (page_of sbi b) (page_of sbi (b + n)) g = Ok (set_dirty dirt g).
Proof.
  intros Hi Hb Hn Hlim; pose proof (bo_vol _ _ _ (fi_bitmap _ _ _ _ _ Hi)).
  pose proof (page_of_mono sbi _ nb b (b + n) (fi_bitmap _ _ _ _ _ Hi) (fi_shift _ _ _ _ _ Hi) ltac:(lia) ltac:(lia)).
  pose proof (page_of_mono sbi _ nb (b + n) (volume_blocks_count sbi) (fi_bitmap _ _ _ _ _ Hi) (fi_shift _ _ _ _ _ Hi)
    ltac:(lia) ltac:(lia)).
  pose proof (fi_pages _ _ _ _ _ Hi).
  unfold mark_chunk; rewrite mark_pages_ok by lia; eauto.
Qed.

(** ** Taking a chunk out of the free area *)

(** [f1] is [f] with the blocks [b, b+l), and perhaps further blocks that are
    then untracked, out of the free area; the free counter is as before. *)
Record chunk (vol : Z) (f f1 : fsm_info) (fa fa1 : list range) (b l : Z) : Prop := {
  ch_area : area_ok vol f1 fa1 (inorder (next_free_area f));
  ch_same : same_next f f1;
  ch_free : free_blocks_count f1 = free_blocks_count f;
  ch_ro : rdonly f1 = rdonly f;
  ch_heap : forall n, n ∈ inorder (next_free_area f) -> heap f1 !! n = heap f !! n;
  ch_sub : forall x, covers fa1 x -> covers fa x /\ ~ b <= x < b + l;
  ch_in : forall x, b <= x < b + l -> covers fa x;
  ch_total : total fa1 + untracked_blocks f1 + l = total fa + untracked_blocks f;
  ch_mono : untracked_blocks f <= untracked_blocks f1;
  ch_len : 0 < l
}.

Lemma next_ok_heap (vol : Z) (f f' : fsm_info) (na : list range) :
  next_ok vol f na -> same_next f f' ->
  (forall n, n ∈ inorder (next_free_area f) -> heap f' !! n = heap f !! n) -> next_ok vol f' na.
Proof.
  intros [Hho HG HW Hl Hno Hbl] (Ea & El & En & Eb & Eu & _) Hh.
  split; rewrite ?Ea, ?El, ?En, ?Eb, ?Eu; auto.
  unfold holds in *; apply Forall2_same_length_lookup_2; [by eapply Forall2_length|].
  intros i a c Ha Hc; rewrite Hh by (by eapply list_elem_of_lookup_2).
  exact (Forall2_lookup_lr _ _ _ i a c Hho Ha Hc).
Qed.

Section Alloc.
Context `{RbtreeLaws} `{FindBitLaws}.
Context (debug : bool) (sbi : sb_info) (nb : Z).

#[local] Abbreviation vol := (volume_blocks_count sbi).

Lemma in_range_covers (fa : list range) (h : gmap positive range) (ids : list positive)
    (n : positive) (r : range) (x : Z) :
  holds h ids fa -> n ∈ ids -> h !! n = Some r -> in_range x r -> covers fa x.
Proof.
  intros Hh Hn Hr Hx; destruct (holds_elem _ _ _ _ Hh Hn) as (q & Hq & Eq).
  apply covers_elem; exists q; split; [done|]; congruence.
Qed.

(** An allocation from a node takes a chunk. *)
Lemma from_node_chunk (f : fsm_info) (fa na : list range) (n : positive) (r : range) (s l : Z) :
  fsm_ok vol f fa na -> n ∈ inorder (free_area f) -> heap f !! n = Some r ->
  start r <= s -> 0 < l -> s + l <= stop r ->
  exists f1 fa1, fsm_allocate_from_node n s l f = Ok f1 /\ chunk vol f f1 fa fa1 s l.
Proof.
  intros Hok Hn Hr Hs Hl Hlim; pose proof Hok as [Hvol Ha Hnx _ _].
  destruct (allocate_from_node_spec vol f fa (inorder (next_free_area f)) n r s l)
    as (f1 & fa1 & E & Ha1 & (lost & Hl0 & Hrem & Hun & Hlost & _) & Hsame & Hfb & Hro & Hh); auto.
  { intros m Hm; by eapply next_is_Some. }
  exists f1, fa1; split; [done|]; destruct Hrem as (_ & Ht & Hc).
  split; auto; try lia.
  - intros x; rewrite Hc; intros [? ?]; split; [done|lia].
  - intros x Hx; eapply in_range_covers; [apply (ao_holds _ _ _ _ Ha)|exact Hn|exact Hr|].
    unfold in_range; lia.
Qed.

(** What allocate_try answers. *)
Definition try_result (f : fsm_info) (fa : list range) (min_length length : Z)
    (got : option (Z * Z)) (f1 : fsm_info) : Prop :=
  match got with
  | None => f1 = f
  | Some (b, l) => exists fa1, chunk vol f f1 fa fa1 b l /\ min_length <= l <= length
  end.

Lemma node_in_area (f : fsm_info) (fa : list range) (others : list positive) (n : positive) :
  area_ok vol f fa others -> n ∈ inorder (free_area f) ->
  exists r, heap f !! n = Some r /\ 0 <= start r /\ 0 < len r /\ stop r <= vol.
Proof.
  intros Ha Hn; destruct (holds_elem _ _ _ _ (ao_holds _ _ _ _ Ha) Hn) as (r & Hr & Er).
  exists r; split; [done|]; pose proof (ao_within _ _ _ _ Ha) as HW; unfold within in HW.
  pose proof (gapped_nonempty _ (ao_gapped _ _ _ _ Ha)) as Hne.
  rewrite Forall_forall in HW, Hne; specialize (HW r Hr); specialize (Hne r Hr); unfold nonempty in Hne; lia.
Qed.

(** A node of the free area and the part of it from [b] on. *)
Definition offer (f : fsm_info) (min_length : Z) (c : option (positive * Z * Z)) : Prop :=
  match c with
  | None => True
  | Some (n, b, k) =>
      exists r, n ∈ inorder (free_area f) /\ heap f !! n = Some r /\ start r <= b
      /\ k = stop r - b /\ min_length <= k
  end.

Lemma hint_node_spec (f : fsm_info) (fa na : list range) (s min_length : Z) :
  fsm_ok vol f fa na -> exists c, hint_node s min_length f = Ok c /\ offer f min_length c.
Proof.
  intros [Hvol Ha _ _ _]; unfold hint_node; destruct (Z.eqb_spec s 0); [by exists None|].
  destruct (find_node_spec vol (heap f) s (free_area f) fa) as (o & Eo & Ho); [done|apply Ha..|].
  rewrite Eo; cbn [mbind run_bind]; destruct o as [n0|]; [|by exists None].
  destruct Ho as (r & Hn & Hr & Hin); rewrite (node_at_ok _ _ _ Hr); cbn [mbind run_bind].
  destruct (node_in_area f fa _ n0 Ha Hn) as (r' & Hr' & Hr0 & _ & Hr1).
  assert (r' = r) as -> by congruence; unfold in_range in Hin.
  rewrite max_length_ok by lia; destruct (Z.leb_spec min_length (stop r - s)); eexists; split; try done.
  exists r; repeat split; auto; lia.
Qed.

Lemma any_node_spec (f : fsm_info) (fa na : list range) (min_length length : Z) :
  fsm_ok vol f fa na -> 0 < length ->
  exists c, any_node min_length length f = Ok c /\ offer f min_length c
  /\ (c = None -> min_length = 1 -> fa = []).
Proof.
  intros [Hvol Ha _ _ _] Hl; unfold any_node.
  destruct (choose_node_spec vol f fa (inorder (next_free_area f)) length Ha Hl) as (o & Eo & Ho).
  rewrite Eo; cbn [mbind run_bind]; destruct o as [n0|]; [|by exists None].
  destruct (node_in_area f fa _ n0 Ha Ho) as (r & Hr & Hr0 & Hrl & Hr1).
  rewrite (node_at_ok _ _ _ Hr); cbn [mbind run_bind]; unfold stop in *.
  destruct (Z.ltb_spec (len r) min_length); eexists; (split; [reflexivity|]); (split; [|intros; try done; lia]); [done|].
  rewrite u32_small by lia; exists r; repeat split; auto; unfold stop; lia.
Qed.

Lemma allocate_try_spec (f : fsm_info) (fa na : list range) (s min_length length : Z) :
  fsm_ok vol f fa na -> 0 < min_length <= length ->
  exists got f1, allocate_try s min_length length f = Ok (got, f1)
  /\ try_result f fa min_length length got f1
  /\ (got = None -> min_length = 1 -> fa = []).
Proof.
  intros Hok Hl; unfold allocate_try.
  destruct (hint_node_spec f fa na s min_length Hok) as (hit & Eh & Hhit); rewrite Eh; cbn [mbind run_bind].
  assert (exists c, match hit with Some c => Ok (Some c) | None => any_node min_length length f end = Ok c
    /\ offer f min_length c /\ (c = None -> min_length = 1 -> fa = [])) as (c & Ec & Hc & Hnone).
  { destruct hit as [c|]; [by eexists|]; eapply any_node_spec; eauto; lia. }
  rewrite Ec; cbn [mbind run_bind]; destruct c as [[[n0 b] k]|]; [|exists None, f; split; [done|split; [done|intros _ Hm; by apply Hnone]]].
  destruct Hc as (r & Hn & Hr & Hb & -> & Hmin).
  destruct (from_node_chunk f fa na n0 r b (Z.min length (stop r - b)) Hok Hn Hr Hb) as (f1 & fa1 & E & Hchk); [lia..|].
  rewrite E; eexists _, _; split; [reflexivity|]; split; [|done]; exists fa1; split; [done|lia].
Qed.

Lemma covers_bounds (f : fsm_info) (fa : list range) (others : list positive) (x : Z) :
  area_ok vol f fa others -> covers fa x -> 0 <= x < vol.
Proof.
  intros Ha; apply within_covers; [apply gapped_nonempty|]; apply Ha.
Qed.

Lemma chunk_bounds (f f1 : fsm_info) (fa fa1 na : list range) (b l : Z) :
  fsm_ok vol f fa na -> chunk vol f f1 fa fa1 b l -> 0 <= b /\ b + l <= vol.
Proof.
  intros [_ Ha _ _ _] Hc; pose proof (ch_len _ _ _ _ _ _ _ Hc).
  pose proof (covers_bounds f fa _ b Ha (ch_in _ _ _ _ _ _ _ Hc b ltac:(lia))).
  pose proof (covers_bounds f fa _ (b + l - 1) Ha (ch_in _ _ _ _ _ _ _ Hc (b + l - 1) ltac:(lia))); lia.
Qed.

(** The counters after the chunk was charged to free or reserved space. *)
Definition charged (fsm_flags l : Z) (f f' : fsm_info) : Prop :=
  if Z.land fsm_flags VDFS4_FSM_ALLOC_DELAYED =? 0
  then free_blocks_count f' = free_blocks_count f - l
       /\ reserved_blocks_count f' = reserved_blocks_count f
  else reserved_blocks_count f' = reserved_blocks_count f - l
       /\ free_blocks_count f' = free_blocks_count f.

Definition affordable (fsm_flags l : Z) (f : fsm_info) : Prop :=
  if Z.land fsm_flags VDFS4_FSM_ALLOC_DELAYED =? 0
  then l <= free_blocks_count f else l <= reserved_blocks_count f.

(** What area_ok says does not depend on counters, bitmap and pages. *)
Lemma area_ok_same (v : Z) (f f' : fsm_info) (fa : list range) (others : list positive) :
  heap f' = heap f -> free_area f' = free_area f -> free_list f' = free_list f ->
  free_area_nodes f' = free_area_nodes f -> area_ok v f fa others -> area_ok v f' fa others.
Proof. intros Eh Et El En []; split; rewrite ?Eh, ?Et, ?El, ?En; done. Qed.

Lemma next_ok_same (v : Z) (f f' : fsm_info) (na : list range) :
  heap f' = heap f -> next_free_area f' = next_free_area f -> next_free_list f' = next_free_list f ->
  next_free_nodes f' = next_free_nodes f -> next_free_blocks f' = next_free_blocks f ->
  untracked_next_free f' = untracked_next_free f -> next_ok v f na -> next_ok v f' na.
Proof. intros Eh Et El En Eb Eu []; split; rewrite ?Eh, ?Et, ?El, ?En, ?Eb, ?Eu; done. Qed.

Lemma get_free_commit_spec (f f1 : fsm_info) (fa fa1 na : list range) (b l fsm_flags : Z) :
  fsm_inv sbi nb f fa na -> chunk vol f f1 fa fa1 b l -> affordable fsm_flags l f ->
  exists f2, get_free_commit sbi b l fsm_flags f1 = Ok f2 /\ fsm_inv sbi nb f2 fa1 na
  /\ (forall x, used sbi (data f2) x = upd (used sbi (data f)) b l true x)
  /\ charged fsm_flags l f f2 /\ rdonly f2 = rdonly f.
Proof.
  intros Hi Hc Haf; pose proof Hi as [Hok Hbm Hcl Hcnt Hz Her Hco Hhas Hsh Hpg].
  pose proof (chunk_bounds f f1 fa fa1 na b l Hok Hc) as [Hb Hlim]; pose proof (bo_vol _ _ _ Hbm) as Hv.
  pose proof Hc as [Ca Cs Cf Cr Ch Csub Cin Ct Cm Cl].
  pose proof Cs as (Sa & Sl & Sn & Sb & Su & Sd & Sr & Se & Sy).
  destruct Hok as [Hvol Ha Hnx Hdis [Hfr Hnn Hco2]].
  pose proof (gapped_total_nonneg na (no_gapped _ _ _ Hnx)).
  assert (forall x, b <= x < b + l -> used sbi (data f) x = false) as Hused by (intros x Hx; apply Hcl; auto).
  unfold get_free_commit; set (g := if Z.land fsm_flags VDFS4_FSM_ALLOC_DELAYED =? 0 then _ else _).
  assert (charged fsm_flags l f g /\ rdonly g = rdonly f1 /\ data g = data f1
    /\ erase_blocks_counters g = erase_blocks_counters f1 /\ heap g = heap f1 /\ free_area g = free_area f1
    /\ free_list g = free_list f1 /\ free_area_nodes g = free_area_nodes f1
    /\ untracked_blocks g = untracked_blocks f1 /\ same_next f1 (set_reserved_blocks_count (reserved_blocks_count f1) g))
    as (Gc & Gr & Gd & Ge & Gh & Ga & Gl & Gn & Gu & Gs).
  { unfold charged; unfold affordable in Haf; subst g; destruct (Z.land fsm_flags VDFS4_FSM_ALLOC_DELAYED =? 0); cbn;
      (split; [rewrite Cf, ?Sr, u64_small; lia|]); repeat (split; [done|]); by destruct f1. }
  rewrite (u64_small (b + l)), (proj2 (Z.ltb_ge _ _)), (u32_small b), Gd, Sd by lia.
  cbn [bug_on mbind run_bind]; rewrite (set_bits_used sbi (data f) nb Hbm b l Hb Cl Hlim Hused).
  cbn [mbind run_bind]; rewrite Z.eqb_refl; cbn [negb bug_on mbind run_bind].
  set (m' := put_bits _ _ _); unfold fsm_inc_erase_blocks_counters; cbn [erase_blocks_counters set_data].
  rewrite Ge, Se.
  destruct (inc_counters_spec sbi (Z.to_nat l) b (used_below sbi (data f) vol) (erase_blocks_counters f) Her Hb)
    as (c & Ec & Hlc & Hc'); [lia| | |exact Hco|].
  { intros x Hx; unfold used_below; rewrite Hused by lia; by rewrite andb_false_r. }
  { intros x Hx; apply Hhas; lia. }
  rewrite Ec; cbn [mbind run_bind].
  destruct (mark_chunk_ok sbi nb f (set_erase_blocks_counters c (set_data m' g)) fa na b l Hi Hb ltac:(lia) Hlim)
    as (dirt & Ed); rewrite Ed; eexists; split; [reflexivity|].
  set (f2 := set_dirty _ _).
  assert (forall x, used sbi (data f2) x = upd (used sbi (data f)) b l true x) as Hu2
    by (intros x; apply (used_put_bits sbi (data f) nb Hbm b l Hb Hlim)).
  destruct Gs as (Na & Nl & Nn & Nb & Nu & _).
  split; [|split; [exact Hu2|]; split; [exact Gc|exact (eq_trans Gr Cr)]].
  assert (area_ok vol f2 fa1 (inorder (next_free_area f))) as Ha2 by (by eapply area_ok_same; [..|exact Ca]).
  split; auto.
  - split; [done| | | |].
    + cbn in Na; cbn; rewrite Na, Sa; exact Ha2.
    + eapply (next_ok_same vol f1); cbn in *; auto; eapply next_ok_heap; eauto.
    + intros x Hx; apply Hdis; by apply Csub.
    + unfold charged in Gc; unfold affordable in Haf; cbn in Nu, Sr |- *.
      split; cbn; rewrite ?Gu, ?Nu, ?Su;
        destruct (Z.land fsm_flags VDFS4_FSM_ALLOC_DELAYED =? 0); destruct Gc as [G1 G2]; rewrite ?G1, ?G2; lia.
  - by apply bitmap_ok_put_bits.
  - intros x Hx; rewrite Hu2, upd_out.
    + apply Hcl; destruct Hx as [Hx|Hx]; [left; by apply Csub|by right].
    + intros Hin; destruct Hx as [Hx|Hx]; [by destruct (Csub x Hx)|].
      apply (Hdis x); [by apply Cin|done].
  - cbn; cbn in Nu; rewrite Gu, Nu, Su; unfold m'.
    rewrite (count_clear_put sbi (data f) nb Hbm b l Hb Cl Hlim true Hused); lia.
  - rewrite Hu2, upd_out; [done|]; intros Hin.
    rewrite (Hused 0 Hin) in Hz; done.
  - cbn; eapply counters_ok_ext; [|exact Hc']; intros x; rewrite Z2Nat.id by lia; symmetry.
    apply (used_below_put sbi (data f) nb Hbm b l Hb Hlim).
  - cbn; intros x Hx; rewrite Hlc; auto.
Qed.

(** ** Freeing a chunk *)

(** The flags callers use: a chunk that goes back to the reserve was never
    linked. *)
Definition free_flags_ok (fsm_flags : Z) : Prop :=
  Z.land fsm_flags VDFS4_FSM_FREE_RESERVE <> 0 -> Z.land fsm_flags VDFS4_FSM_FREE_UNUSED <> 0.

(** The free area and its counter after freeing [n] blocks: blocks never linked
    are free at once, the others wait for the commit. *)
Definition released (fsm_flags b n : Z) (f f' : fsm_info) (na na' : list range) : Prop :=
  if Z.land fsm_flags VDFS4_FSM_FREE_UNUSED =? 0 then
    free_blocks_count f' = free_blocks_count f /\ reserved_blocks_count f' = reserved_blocks_count f
    /\ ((added b n na na' /\ untracked_next_free f' = untracked_next_free f)
        \/ (head (allocs f) = Some false /\ na' = na
            /\ untracked_next_free f' = untracked_next_free f + n))
  else
    na' = na /\ untracked_blocks f' = untracked_blocks f + n
    /\ if Z.land fsm_flags VDFS4_FSM_FREE_RESERVE =? 0
       then free_blocks_count f' = free_blocks_count f + n
            /\ reserved_blocks_count f' = reserved_blocks_count f
       else free_blocks_count f' = free_blocks_count f
            /\ reserved_blocks_count f' = reserved_blocks_count f + n.

Lemma fsm_ok_same (v : Z) (f f' : fsm_info) (fa na : list range) :
  heap f' = heap f -> free_area f' = free_area f -> free_list f' = free_list f ->
  free_area_nodes f' = free_area_nodes f ->
  next_free_area f' = next_free_area f -> next_free_list f' = next_free_list f ->
  next_free_nodes f' = next_free_nodes f -> next_free_blocks f' = next_free_blocks f ->
  untracked_next_free f' = untracked_next_free f -> counts_ok v f' fa na ->
  fsm_ok v f fa na -> fsm_ok v f' fa na.
Proof.
  intros E1 E2 E3 E4 E5 E6 E7 E8 E9 Hc [Hv Ha Hn Hd _]; split; auto.
  - rewrite E5; by eapply area_ok_same; [..|exact Ha].
  - by eapply next_ok_same; [..|exact Hn].
Qed.

(** The part of fsm_free_block_chunk between the bitmap and the counters. *)
Lemma release_spec (f : fsm_info) (fa na : list range) (b n fsm_flags : Z) :
  fsm_ok vol f fa na -> freeable vol b n f fa na -> free_flags_ok fsm_flags ->
  let g := if negb (Z.land fsm_flags VDFS4_FSM_FREE_RESERVE =? 0)
           then set_reserved_blocks_count (reserved_blocks_count f +64 n) f
           else if negb (Z.land fsm_flags VDFS4_FSM_FREE_UNUSED =? 0)
           then set_free_blocks_count (free_blocks_count f +64 n) f
           else f in
  exists f' na',
    (if negb (Z.land fsm_flags VDFS4_FSM_FREE_UNUSED =? 0)
     then Ok (set_untracked_blocks (untracked_blocks g + n) g)
     else fsm_add_free_space b n g) = Ok f'
    /\ fsm_ok vol f' fa na' /\ released fsm_flags b n f f' na na'
    /\ data f' = data f /\ erase_blocks_counters f' = erase_blocks_counters f /\ rdonly f' = rdonly f
    /\ (forall x, covers na' x -> covers na x \/ b <= x < b + n)
    /\ total fa + untracked_blocks f' + total na' + untracked_next_free f'
       = total fa + untracked_blocks f + total na + untracked_next_free f + n.
Proof.
  intros Hok Hfr Hfl g; unfold released, free_flags_ok in *.
  destruct (Z.eqb_spec (Z.land fsm_flags VDFS4_FSM_FREE_UNUSED) 0) as [EU|NU]; cbn [negb] in g |- *.
  - destruct (Z.eqb_spec (Z.land fsm_flags VDFS4_FSM_FREE_RESERVE) 0) as [ER|NR]; [|by exfalso; apply Hfl].
    cbn [negb] in g; subst g.
    destruct (add_free_space_spec vol f fa na b n Hok Hfr) as (f' & E & (Sr & Sd & Sf & Sv & Su & Se & Sy) & Hcase).
    destruct Hcase as [(na' & Hadd & Hok' & Hun)|(Hal & Hok' & Hun)].
    + exists f', na'; split; [done|]; split; [done|]; split; [tauto|]; do 3 (split; [done|]).
      destruct Hadd as (_ & Ht & Hc); split; [intros x; rewrite Hc; tauto|lia].
    + exists f', na; split; [done|]; split; [done|]; split; [tauto|]; do 3 (split; [done|]).
      split; [auto|lia].
  - pose proof Hok as [Hvol Ha Hnx _ [Hfree Hnn Hcv]]; destruct Hfr as (_ & Hn & _ & _ & Hroom).
    pose proof (gapped_total_nonneg na (no_gapped _ _ _ Hnx)).
    destruct (Z.eqb_spec (Z.land fsm_flags VDFS4_FSM_FREE_RESERVE) 0) as [ER|NR]; cbn [negb] in g;
      subst g; eexists _, na; (split; [reflexivity|]);
      (split; [eapply fsm_ok_same; [..|exact Hok]; auto; split; cbn; rewrite ?u64_small; lia|]);
      (split; [cbn; rewrite u64_small by lia; auto|]); do 3 (split; [done|]); (split; [auto|cbn; lia]).
Qed.

Lemma free_block_chunk_spec (f : fsm_info) (fa na : list range) (b n fsm_flags : Z) :
  fsm_inv sbi nb f fa na -> 0 < b -> 0 < n -> b + n <= vol -> free_flags_ok fsm_flags ->
  (forall x, b <= x < b + n -> used sbi (data f) x = true) ->
  exists f' na', fsm_free_block_chunk sbi b n fsm_flags f = Ok f'
  /\ fsm_inv sbi nb f' fa na' /\ released fsm_flags b n f f' na na'
  /\ (forall x, used sbi (data f') x = upd (used sbi (data f)) b n false x) /\ rdonly f' = rdonly f.
Proof.
  intros Hi Hb Hn Hlim Hfl Hused; pose proof Hi as [Hok Hbm Hcl Hcnt Hz Her Hco Hhas Hsh Hpg].
  pose proof (bo_vol _ _ _ Hbm) as Hv; assert (0 <= b) as Hb0 by lia.
  unfold fsm_free_block_chunk; rewrite (u64_small (b + n)), (proj2 (Z.ltb_ge vol (b + n))), (u32_small b) by lia.
  rewrite (clear_bits_used sbi (data f) nb Hbm b n Hb0 Hn Hlim); cbn [mbind run_bind].
  rewrite decide_True by (by apply all_used); cbn [Z.eqb negb].
  set (m' := put_bits _ _ _); set (f1 := set_data m' f).
  assert (fsm_ok vol f1 fa na) as Hok1
    by (eapply fsm_ok_same; [..|exact Hok]; try done; destruct Hok as [_ _ _ _ [? ? ?]]; by split).
  pose proof (count_clear_put sbi (data f) nb Hbm b n Hb0 Hn Hlim false Hused) as Hcc; fold m' in Hcc.
  change (if false then - n else n) with n in Hcc.
  pose proof (count_range (clear sbi m') 0 vol ltac:(lia)) as Hcr.
  assert (freeable vol b n f1 fa na) as Hfr.
  { split; [lia|]; split; [lia|]; split; [lia|]; split; [|cbn; lia].
    intros x Hx; specialize (Hused x Hx); split; intros Hc; rewrite Hcl in Hused by auto; done. }
  destruct (release_spec f1 fa na b n fsm_flags Hok1 Hfr Hfl)
    as (f2 & na' & E2 & Hok2 & Hrel & Hd2 & He2 & Hr2 & Hsub & Ht2).
  cbn zeta in E2; rewrite E2; cbn [mbind run_bind]; unfold fsm_dec_erase_blocks_counters; rewrite He2; cbn [erase_blocks_counters set_data f1].
  destruct (dec_counters_spec sbi (Z.to_nat n) b (used_below sbi (data f) vol) (erase_blocks_counters f) Her Hb0)
    as (c & Ec & Hlc & Hc'); [lia| | |exact Hco|].
  { intros x Hx; unfold used_below; rewrite Hused by lia.
    rewrite (proj2 (Z.leb_le 0 x)), (proj2 (Z.ltb_lt x vol)) by lia; done. }
  { intros x Hx; apply Hhas; lia. }
  rewrite Ec; cbn [mbind run_bind].
  destruct (mark_chunk_ok sbi nb f (set_erase_blocks_counters c f2) fa na b n Hi Hb0 ltac:(lia) Hlim) as (dirt & ->).
  eexists _, na'; split; [reflexivity|]; set (f3 := set_dirty _ _).
  assert (data f3 = m') as Ed3 by exact Hd2.
  assert (forall x, used sbi (data f3) x = upd (used sbi (data f)) b n false x) as Hu3
    by (intros x; rewrite Ed3; apply (used_put_bits sbi (data f) nb Hbm b n Hb0 Hlim)).
  split; [|split; [exact Hrel|]; split; [exact Hu3|exact Hr2]].
  split; auto.
  - eapply fsm_ok_same; [..|exact Hok2]; try done; destruct Hok2 as [_ _ _ _ [? ? ?]]; by split.
  - rewrite Ed3; by apply bitmap_ok_put_bits.
  - intros x Hx; rewrite Hu3; unfold upd; destruct ((b <=? x) && (x <? b + n)) eqn:Ex; [done|].
    apply Hcl; destruct Hx as [Hx|Hx]; [auto|]; destruct (Hsub x Hx) as [?|?]; [auto|].
    rewrite (proj2 (Z.leb_le b x)), (proj2 (Z.ltb_lt x (b + n))) in Ex by lia; done.
  - rewrite Ed3; cbn; cbn in Ht2; lia.
  - rewrite Hu3, upd_out; [done|lia].
  - rewrite Ed3; eapply counters_ok_ext; [|exact Hc']; intros x; rewrite Z2Nat.id by lia; symmetry.
    apply (used_below_put sbi (data f) nb Hbm b n Hb0 Hlim).
  - cbn; intros x Hx; rewrite Hlc; auto.
Qed.

End Alloc.
