(* ===== verification/FsmRebuild.v ===== *)
(** Rebuilding the free area from the bitmap (fsm_rebuild_tree and
    fsm_cut_next_free of src/linux/fs/vdfs4/fsm.c), with which an allocation that
    found no space takes untracked blocks back into the tree. *)

From Stdlib Require Import ZArith Lia Bool List.
From stdpp Require Import base list gmap sets.
From S2P Require Import Prelude Bitmap Count FindBit Ranges Rbtree FsmTree FsmSpace Fsm FsmCounters FsmBuild FsmAlloc.

Open Scope Z_scope.

(** Disjoint ranges of members of a set have no more blocks than the set. *)
Lemma total_le_count (U : Z -> bool) (N : Z) (L : list range) :
  0 <= N -> Forall nonempty L -> apart L -> (forall x, covers L x -> 0 <= x < N /\ U x = true) ->
  total L <= count U 0 N.
Proof.
  intros HN Hne; revert U; induction Hne as [|r L Hr Hne IH]; intros U Hap Hc.
  { cbn; apply count_range; lia. }
  destruct Hap as [Hav Hap]; rewrite total_cons; unfold nonempty in Hr.
  assert (forall x, in_range x r -> 0 <= x < N /\ U x = true) as Hrin
    by (intros x Hx; apply Hc, covers_cons; auto).
  pose proof (Hrin (start r) ltac:(unfold in_range, stop; lia)) as [H1 _].
  pose proof (Hrin (stop r - 1) ltac:(unfold in_range, stop; lia)) as [H2 _]; unfold stop in H2.
  assert (count (upd U (start r) (len r) false) 0 N = count U 0 N - len r) as E.
  { rewrite count_upd_run; [lia|lia..|]; intros x Hx; apply Hrin; unfold in_range, stop; lia. }
  enough (total L <= count (upd U (start r) (len r) false) 0 N) by lia.
  apply IH; [done|]; intros x Hx; split; [by apply Hc, covers_cons; auto|].
  rewrite upd_out; [by apply Hc, covers_cons; auto|]; intros Hin.
  rewrite avoids_covers in Hav by done; by apply (Hav x).
Qed.

(** ** Emptying the free area *)

Lemma free_node_list_heap (l : list positive) (f : fsm_info) :
  exists h, fsm_free_node_list l f = set_heap h f
  /\ forall n, h !! n = if decide (n ∈ l) then None else heap f !! n.
Proof.
  unfold fsm_free_node_list; revert f; induction l as [|k l IH]; intros f; cbn.
  { exists (heap f); split; [by destruct f|]; intros n; rewrite decide_False; [done|by intros ?%elem_of_nil]. }
  destruct (IH (fsm_free_node k f)) as (h & E & Hh); exists h; split; [by rewrite E|]; intros n; rewrite Hh; cbn.
  destruct (decide (n ∈ l)), (decide (n ∈ k :: l)) as [Hin|Hout]; rewrite ?elem_of_cons in *; try tauto.
  - rewrite lookup_delete_None; naive_solver.
  - rewrite lookup_delete_ne; [done|]; naive_solver.
Qed.

Lemma free_tree_heap (f : fsm_info) :
  exists h, fsm_free_tree f = set_heap h f
  /\ forall n, h !! n = if decide (n ∈ concat (free_list f)) then None else heap f !! n.
Proof.
  unfold fsm_free_tree; generalize (free_list f) as ls; intros ls; revert f.
  induction ls as [|l ls IH]; intros f; cbn.
  { exists (heap f); split; [by destruct f|]; intros n; rewrite decide_False; [done|by intros ?%elem_of_nil]. }
  destruct (free_node_list_heap l f) as (h1 & -> & Hh1).
  destruct (IH (set_heap h1 f)) as (h & E & Hh); exists h; split; [by rewrite E|]; intros n; rewrite Hh; cbn.
  rewrite Hh1; destruct (decide (n ∈ concat ls)), (decide (n ∈ l)), (decide (n ∈ l ++ concat ls)) as [Hin|Hin];
    rewrite ?elem_of_app in *; tauto.
Qed.

Section Rebuild.
Context `{RbtreeLaws} `{FindBitLaws}.
Context (debug : bool) (sbi : sb_info) (nb : Z).
Context (m : list Z) (Hbm : bitmap_ok sbi m nb).

#[local] Abbreviation vol := (volume_blocks_count sbi).

(** ** Cutting the next-free ranges out *)

(** The free area, with the next-free ranges [Q] cut out and [K] still to come. *)
Record cutting (f : fsm_info) (fa Q K : list range) (others : list positive) : Prop := {
  cu_area : area_ok vol f fa others;
  cu_clear : forall x, covers fa x -> used sbi m x = false /\ ~ covers Q x;
  cu_whole : Forall (fun r => (forall x, in_range x r -> covers fa x) \/ (forall x, in_range x r -> ~ covers fa x)) K;
  cu_total : total fa + untracked_blocks f + total Q = count (clear sbi m) 0 vol;
  cu_mono : 0 <= untracked_blocks f
}.

(** The facts about the next-free ranges that do not change. *)
Definition next_ranges (L : list range) : Prop :=
  Forall nonempty L /\ apart L /\ forall x, covers L x -> 0 <= x < vol /\ used sbi m x = false.

Lemma next_ranges_sub (Q K : list range) (r : range) :
  next_ranges (Q ++ r :: K) -> Forall nonempty (Q ++ [r]) /\ apart (Q ++ [r]) /\ next_ranges ((Q ++ [r]) ++ K).
Proof.
  intros (Hne & Hap & Hc).
  assert (forall A B, apart (A ++ B) -> apart A) as Hsub.
  { induction A as [|a A IH]; [done|]; intros B; cbn; intros [Hav HA]; split; [|eauto].
    unfold avoids in *; by apply Forall_app in Hav as [? _]. }
  split; [split_forall; auto; constructor|].
  split; [eapply (Hsub _ K); rewrite <- app_assoc; exact Hap|].
  unfold next_ranges; rewrite <- app_assoc; done.
Qed.

(** Enough untracked blocks for a range the tree does not have. *)
Lemma untracked_enough (f : fsm_info) (fa Q K : list range) (r : range) (others : list positive) :
  cutting f fa Q (r :: K) others -> next_ranges (Q ++ r :: K) -> (forall x, in_range x r -> ~ covers fa x) ->
  len r <= untracked_blocks f.
Proof.
  intros [Ha Hcl _ Ht _] Hn Hout; destruct (next_ranges_sub Q K r Hn) as (Hne & Hap & _).
  pose proof Hn as (_ & _ & Hc); destruct Hbm as [_ Hv _].
  assert (total (fa ++ Q ++ [r]) <= count (clear sbi m) 0 vol) as Hle.
  { apply total_le_count; [lia| | |].
    - apply Forall_app; split; [apply gapped_nonempty, Ha|done].
    - apply apart_app; auto; [apply gapped_nonempty, Ha|apply gapped_apart, Ha|].
      intros x Hx; rewrite covers_app, covers_cons, covers_nil; intros [HQ|[Hr|[]]].
      + by apply (Hcl x Hx).
      + by apply (Hout x).
    - intros x; rewrite covers_app; intros [Hx|Hx].
      + split; [eapply covers_bounds; eauto|]; unfold clear; by rewrite (proj1 (Hcl x Hx)).
      + unfold clear; destruct (Hc x) as [? ->]; [|done].
        rewrite covers_app, covers_cons in *; rewrite covers_nil in Hx; tauto. }
  rewrite !total_app, total_cons in Hle; cbn in Hle; lia.
Qed.

(** A whole range either keeps its blocks or loses them all when a run at [s] is
    taken out up to a gap. *)
Lemma whole_removed (fa fa' : list range) (q : range) (s n lost : Z) :
  gapped fa -> nonempty q -> 0 < n -> 0 <= lost -> removed s (n + lost) fa fa' ->
  (lost = 0 \/ ~ covers fa (s + n + lost)) ->
  (forall x, s <= x < s + n -> ~ in_range x q) ->
  (forall x, in_range x q -> covers fa x) \/ (forall x, in_range x q -> ~ covers fa x) ->
  (forall x, in_range x q -> covers fa' x) \/ (forall x, in_range x q -> ~ covers fa' x).
Proof.
  intros HG Hq Hn Hl (_ & _ & Hc) Hend Hav [Hall|Hnone].
  2: { right; intros x Hx; rewrite Hc; intros [Hf _]; by apply (Hnone x). }
  unfold nonempty in Hq; unfold in_range, stop in *.
  assert (start q + len q <= s \/ s + n <= start q) as Hside.
  { pose proof (Hav (start q)); pose proof (Hav s); lia. }
  destruct (Z.leb_spec (s + n + lost) (start q)) as [Hbeyond|Hin].
  - left; intros x Hx; rewrite Hc; split; [by apply Hall|lia].
  - destruct Hside as [Hside|Hside]; [left; intros x Hx; rewrite Hc; split; [by apply Hall|lia]|].
    right; intros x Hx; rewrite Hc; intros [_ Hx2]; apply Hx2; split; [lia|].
    destruct (Z.ltb_spec x (s + (n + lost))); [done|exfalso].
    destruct Hend as [->|Hend]; [lia|]; apply Hend, Hall; lia.
Qed.

(** One turn of fsm_cut_next_free. *)
Lemma cut_turn (f : fsm_info) (fa Q K : list range) (others : list positive) (n : positive) (r : range)
    (l : list positive) :
  cutting f fa Q (r :: K) others -> next_ranges (Q ++ r :: K) -> heap f !! n = Some r ->
  (forall k, k ∈ others -> is_Some (heap f !! k)) ->
  exists f1 fa1, cut_loop (n :: l) f = cut_loop l f1
  /\ cutting f1 fa1 (Q ++ [r]) K others /\ same_next f f1 /\ free_blocks_count f1 = free_blocks_count f
  /\ rdonly f1 = rdonly f /\ (forall k, k ∈ others -> heap f1 !! k = heap f !! k).
Proof.
  intros Hcut Hn Hr Hoth; pose proof Hcut as [Ha Hcl Hw Ht Hm]; pose proof Hn as (Hne & Hap & Hc).
  assert (nonempty r) as Hrn by (rewrite Forall_app, Forall_cons in Hne; tauto).
  destruct Hbm as [_ Hv _]; unfold nonempty in Hrn.
  assert (0 <= start r /\ stop r <= vol) as [Hr0 Hr1].
  { pose proof (Hc (start r)) as C1; pose proof (Hc (stop r - 1)) as C2.
    rewrite covers_app, covers_cons in C1, C2; unfold in_range, stop in *; lia. }
  rewrite Forall_cons in Hw; destruct Hw as [Hwr HwK].
  cbn [cut_loop]; rewrite (node_at_ok _ _ _ Hr); cbn [mbind run_bind].
  destruct (find_node_spec vol (heap f) (start r) (free_area f) fa) as (o & Eo & Ho); [lia|apply Ha..|].
  rewrite Eo; cbn [mbind run_bind]; destruct o as [k|].
  - destruct Ho as (q & Hk & Hq & Hin).
    assert (forall x, in_range x r -> covers fa x) as Hall.
    { destruct Hwr as [?|Hnone]; [done|exfalso]; apply (Hnone (start r)); [unfold in_range, stop; lia|].
      eapply in_range_covers; eauto; apply Ha. }
    destruct (holds_elem _ _ _ _ (ao_holds _ _ _ _ Ha) Hk) as (q' & Hq' & Eq'); assert (q' = q) as -> by congruence.
    pose proof (gapped_run fa q (start r) (len r) (ao_gapped _ _ _ _ Ha) Hq' Hin Hrn
      ltac:(intros x Hx; apply Hall; unfold in_range, stop; lia)) as Hfit.
    destruct (node_in_area sbi f fa others k Ha Hk) as (q2 & Hq2 & Hq0 & _ & Hq1); assert (q2 = q) as -> by congruence.
    unfold in_range in Hin; rewrite (node_at_ok _ _ _ Hq); cbn [mbind run_bind].
    rewrite max_length_ok by lia; rewrite (proj2 (Z.ltb_ge _ _)) by lia; cbn [bug_on mbind run_bind].
    destruct (allocate_from_node_spec vol f fa others k q (start r) (len r))
      as (f1 & fa1 & E & Ha1 & (lost & Hl0 & Hrem & Hun & Hlost & Hend) & Hsame & Hfb & Hro & Hh); auto; [lia..|].
    rewrite E; cbn [mbind run_bind]; exists f1, fa1; split; [done|]; split; [|done].
    pose proof Hrem as (_ & Ht1 & Hc1); split; auto; [| | |lia].
    + intros x; rewrite Hc1, covers_app, covers_cons, covers_nil; intros [Hx Hx2].
      destruct (Hcl x Hx); split; [done|]; intros [?|[?|[]]]; [done|]; unfold in_range, stop in *; lia.
    + destruct (next_ranges_sub Q K r Hn) as (_ & _ & (HneK & _ & _)); rewrite !Forall_app in HneK.
      rewrite Forall_forall in HwK |- *; intros q3 Hq3.
      assert (nonempty q3) as Hq3n by (destruct HneK as [_ HK]; rewrite Forall_forall in HK; auto).
      eapply whole_removed; [apply Ha|exact Hq3n|exact Hrn|exact Hl0|exact Hrem|done| |auto].
      intros x Hx Hx3; assert (apart (r :: K)) as [Hav _].
      { clear -Hap; induction Q as [|? ? IH]; [done|]; destruct Hap; auto. }
      unfold avoids in Hav; rewrite Forall_forall in Hav; specialize (Hav q3 Hq3).
      unfold in_range, stop in *; lia.
    + rewrite total_app, total_cons; cbn; lia.
  - assert (forall x, in_range x r -> ~ covers fa x) as Hnone.
    { destruct Hwr as [Hall|?]; [|done]; exfalso; apply Ho, Hall; unfold in_range, stop; lia. }
    pose proof (untracked_enough f fa Q K r others Hcut Hn Hnone) as Henough.
    rewrite (proj2 (Z.ltb_ge _ _)) by lia; cbn [bug_on mbind run_bind].
    eexists _, fa; split; [reflexivity|]; split; [|by repeat split]; split; cbn; auto; [| | |lia].
    + by eapply area_ok_same; [..|exact Ha].
    + intros x Hx; destruct (Hcl x Hx); split; [done|].
      rewrite covers_app, covers_cons, covers_nil; intros [?|[?|[]]]; [done|by apply (Hnone x)].
    + rewrite total_app, total_cons; cbn; lia.
Qed.

Lemma cut_loop_spec (l : list positive) (f : fsm_info) (fa Q K : list range) (others : list positive) :
  holds (heap f) l K -> (forall k, k ∈ l -> k ∈ others) -> (forall k, k ∈ others -> is_Some (heap f !! k)) ->
  cutting f fa Q K others -> next_ranges (Q ++ K) ->
  exists f' fa', cut_loop l f = Ok f' /\ cutting f' fa' (Q ++ K) [] others /\ same_next f f'
  /\ free_blocks_count f' = free_blocks_count f /\ rdonly f' = rdonly f
  /\ (forall k, k ∈ others -> heap f' !! k = heap f !! k).
Proof.
  revert f fa Q K; induction l as [|n l IH]; intros f fa Q K Hh Hsub Hoth Hcut Hn.
  { inversion Hh; subst; exists f, fa; rewrite app_nil_r; split; [done|]; by repeat split; try apply Hcut. }
  rewrite holds_cons in Hh; destruct Hh as (r & K' & -> & Hr & Hh).
  destruct (cut_turn f fa Q K' others n r l Hcut Hn Hr Hoth) as (f1 & fa1 & E & Hcut1 & S1 & F1 & R1 & H1').
  destruct (next_ranges_sub Q K' r Hn) as (_ & _ & Hn').
  destruct (IH f1 fa1 (Q ++ [r]) K') as (f2 & fa2 & E2 & Hcut2 & S2 & F2 & R2 & H2'); auto.
  - unfold holds in *; apply Forall2_same_length_lookup_2; [by eapply Forall2_length|].
    intros i a b Hi Hb; rewrite H1' by (apply Hsub, elem_of_cons; right; by eapply list_elem_of_lookup_2).
    exact (Forall2_lookup_lr _ _ _ i a b Hh Hi Hb).
  - intros k Hk; apply Hsub, elem_of_cons; auto.
  - intros k Hk; rewrite H1' by done; auto.
  - exists f2, fa2; rewrite E; split; [done|]; rewrite <- app_assoc in Hcut2; split; [done|].
    split; [by eapply same_next_trans|]; split; [congruence|]; split; [congruence|].
    intros k Hk; rewrite H2', H1' by done; done.
Qed.

(** The ranges of an area that was built without memory failures are whole: a
    run of clear blocks is in it or not. *)
Lemma cutoff_whole (fa : list range) (P : Z) (r : range) :
  cutoff sbi m fa vol P -> nonempty r -> (forall x, in_range x r -> 0 <= x < vol /\ used sbi m x = false) ->
  (forall x, in_range x r -> covers fa x) \/ (forall x, in_range x r -> ~ covers fa x).
Proof.
  intros (HP & HC & HE) Hr Hc; unfold nonempty in Hr.
  destruct (Z.ltb_spec (start r) P) as [Hlt|Hge].
  - left; intros x Hx; apply HC; destruct (Hc x Hx) as [Hx0 Hu]; split; [split; [lia|]|done].
    pose proof (Hc (start r) ltac:(unfold in_range, stop; lia)) as [Hs0 _].
    destruct HE as [->|(_ & _ & [->|Hu2] & _)]; [lia|lia|].
    destruct (Z.ltb_spec x P); [done|exfalso].
    destruct (Hc (P - 1)) as [_ Hu3]; [unfold in_range in *; lia|congruence].
  - right; intros x Hx Hcov; apply HC in Hcov as [? _]; unfold in_range in Hx; lia.
Qed.

(** An area built without memory failures is empty only if no block is clear. *)
Lemma cutoff_nothing (P : Z) (f1 : fsm_info) :
  cutoff sbi m [] vol P -> 0 <= vol -> total [] + untracked_blocks f1 = 0 + count (clear sbi m) 0 vol -> untracked_blocks f1 = 0.
Proof.
  intros (HP & HC & [->|(_ & Hl & _)]) Hv Ht; [|done]; cbn in Ht; enough (count (clear sbi m) 0 vol = 0) by lia.
  apply (count_all _ _ _ false); [done|]; intros x Hx; unfold clear; destruct (used sbi m x) eqn:E; [done|exfalso]; apply (covers_nil x), HC; split; [lia|done].
Qed.

End Rebuild.

Section Space.
Context `{RbtreeLaws} `{FindBitLaws}.
Context (debug : bool) (sbi : sb_info) (nb : Z).

#[local] Abbreviation vol := (volume_blocks_count sbi).

Lemma next_ranges_next (f : fsm_info) (fa na K : list range) :
  fsm_inv sbi nb f fa na -> na ≡ₚ K -> next_ranges sbi (data f) K.
Proof.
  intros Hi HK; destruct (fi_ok _ _ _ _ _ Hi) as [_ _ [_ HG HW _ _ _] _ _].
  split; [rewrite <- HK; by apply gapped_nonempty|]; split; [by eapply apart_perm; [exact HK|apply gapped_apart]|].
  intros x; rewrite <- (covers_perm _ _ x HK); intros Hx; split; [|by apply (fi_clear _ _ _ _ _ Hi); right].
  revert x Hx; apply within_covers; [by apply gapped_nonempty|done].
Qed.

(** The state with an empty free area that the rebuild starts from. *)
Lemma emptied_spec (f : fsm_info) (fa na : list range) :
  fsm_ok vol f fa na ->
  let g := fsm_init_tree (fsm_free_tree f) in
  free_area g = Leaf /\ free_area_nodes g = 0 /\ free_list g = repeat [] 17
  /\ (forall n, is_Some (heap g !! n) <-> n ∈ inorder (next_free_area f))
  /\ (forall n, n ∈ inorder (next_free_area f) -> heap g !! n = heap f !! n)
  /\ same_next f g /\ rdonly g = rdonly f /\ allocs g = allocs f.
Proof.
  intros [_ Ha Hnx _ _]; destruct (free_tree_heap f) as (h & -> & Hh); cbn zeta.
  pose proof (ao_hashed _ _ _ _ Ha) as (_ & Hp & _).
  pose proof (ao_nodup _ _ _ _ Ha) as Hnd; apply NoDup_app in Hnd as (_ & Hsep & _).
  assert (forall n, n ∈ inorder (next_free_area f) -> h !! n = heap f !! n) as Hnext.
  { intros n Hn; rewrite Hh, decide_False; [done|]; rewrite Hp; intros Hin; by apply (Hsep n Hin). }
  repeat (split; [done|]); split; [|split; [exact Hnext|by repeat split]].
  intros n; cbn; split.
  - rewrite Hh; destruct (decide (n ∈ concat (free_list f))) as [Hin|Hin]; [by intros []|]; intros Hs.
    pose proof (ao_dom _ _ _ _ Ha n Hs) as Hd; rewrite elem_of_app in Hd; rewrite Hp in Hin; tauto.
  - intros Hn; rewrite Hnext by done; by eapply next_is_Some.
Qed.

(** The parts of the state a rebuild does not touch. *)
Definition rebuilt (f f' : fsm_info) : Prop :=
  data f' = data f /\ reserved_blocks_count f' = reserved_blocks_count f
  /\ erase_blocks_counters f' = erase_blocks_counters f /\ dirty f' = dirty f /\ rdonly f' = rdonly f
  /\ free_blocks_count f' + untracked_next_free f' = free_blocks_count f + untracked_next_free f
  /\ untracked_next_free f' <= untracked_next_free f
  /\ next_free_area f' = next_free_area f /\ next_free_list f' = next_free_list f.

(** The rebuild proper, on a state whose next-free blocks are all tracked. *)
Lemma rebuild_core (f : fsm_info) (fa na : list range) :
  fsm_inv sbi nb f fa na -> allocs f = [] -> untracked_next_free f = 0 ->
  exists f' fa',
    (let f := fsm_init_tree (fsm_free_tree f) in
     let f := set_free_blocks_count 0 (set_untracked_blocks 0 f) in
     f ← fsm_build_tree sbi f;
     let f := set_free_blocks_count (free_blocks_count f -64 next_free_blocks f) f in
     let f := set_free_blocks_count (free_blocks_count f -64 reserved_blocks_count f) f in
     f ← fsm_cut_next_free f;
     fsm_verify_state debug f;;
     Ok f) = Ok f'
  /\ fsm_inv sbi nb f' fa' na /\ rebuilt f f' /\ (na = [] -> fa' = [] -> untracked_blocks f' = 0).
Proof.
  intros Hi Hal Hun; pose proof Hi as [Hok Hbm Hcl Hcnt Hz Her Hco Hhas Hsh Hpg].
  pose proof (bo_vol _ _ _ Hbm) as Hv; pose proof Hok as [Hvol Ha Hnx Hdis [Hfr Hnn Hcv]].
  pose proof Hnx as [Nh NG NW Nl Nn Nb].
  pose proof (emptied_spec f fa na Hok) as (E1 & E2 & E3 & E4 & E5 & E6 & E7 & E8); cbn zeta.
  set (g := set_free_blocks_count 0 (set_untracked_blocks 0 (fsm_init_tree (fsm_free_tree f)))).
  destruct E6 as (Sa & Sl & Sn & Sb & Su & Sd & Sr & Se & Sy).
  assert (NoDup (inorder (next_free_area f))) as Hnd.
  { pose proof (ao_nodup _ _ _ _ Ha) as Hnd; apply NoDup_app in Hnd; apply Hnd. }
  destruct (build_tree_spec sbi (data f) nb Hbm g (inorder (next_free_area f)))
    as (f1 & fa1 & B1 & Ha1 & Hbt & Hke); auto; [cbn; lia..|].
  rewrite B1; cbn [mbind run_bind]; destruct Hke as (Hs1 & Hr1 & Hh1 & _).
  pose proof Hs1 as (Ta & Tl & Tn & Tb & Tu & Td & Tr & Te & Ty).
  destruct Hbt as [Bsub Btot Bfree Bmono _ Bcut]; cbn in Btot, Bfree, Bmono.
  set (zeros := count (clear sbi (data f)) 0 vol) in *.
  pose proof (gapped_total_nonneg na NG) as Htn; pose proof (gapped_total_nonneg fa (ao_gapped _ _ _ _ Ha)) as Htf.
  set (f2 := set_free_blocks_count (free_blocks_count f1 -64 next_free_blocks f1) f1).
  set (f3 := set_free_blocks_count (free_blocks_count f2 -64 reserved_blocks_count f2) f2).
  assert (free_blocks_count f3 = free_blocks_count f) as Ef3.
  { assert (next_free_blocks f1 = total na) as En
      by (rewrite Tb; transitivity (next_free_blocks f); [exact Sb|lia]).
    assert (reserved_blocks_count f1 = reserved_blocks_count f) as Erv by (rewrite Tr; exact Sr).
    subst f3 f2; cbn; rewrite En, Erv, Bfree.
    rewrite (u64_small (0 + zeros - total na)), u64_small; lia. }
  destruct (holds_perm _ _ (next_free_list f) _ ltac:(by symmetry) Nh) as (K & HnK & HK).
  pose proof (next_ranges_next f fa na K Hi HnK) as HnR.
  assert (next_free_list f3 = next_free_list f) as El3 by exact (eq_trans Tl Sl).
  assert (forall k, k ∈ inorder (next_free_area f) -> heap f3 !! k = heap f !! k) as Hh3.
  { intros k Hk; transitivity (heap g !! k); [by apply Hh1|by apply E5]. }
  assert (cutting sbi (data f) f3 fa1 [] K (inorder (next_free_area f))) as Hcut.
  { destruct (Bcut (eq_trans E8 Hal)) as (P & HP); split.
    - by eapply area_ok_same; [..|exact Ha1].
    - intros x Hx; split; [by apply Bsub|by intros ?%covers_nil].
    - destruct HnR as (Hne & _ & HcK); rewrite Forall_forall in Hne |- *; intros r Hr.
      eapply cutoff_whole; eauto; intros x Hx; apply HcK, covers_elem; eauto.
    - cbn; lia.
    - cbn; lia. }
  destruct (cut_loop_spec sbi nb (data f) Hbm (next_free_list f) f3 fa1 [] K (inorder (next_free_area f)))
    as (f4 & fa4 & C4 & Hcut4 & S4 & F4 & R4 & H4); auto.
  { unfold holds in *; apply Forall2_same_length_lookup_2; [by eapply Forall2_length|].
    intros i a b Hia Hb; rewrite Hh3 by (rewrite <- Nl; by eapply list_elem_of_lookup_2).
    exact (Forall2_lookup_lr _ _ _ i a b HK Hia Hb). }
  { intros k; by rewrite Nl. }
  { intros k Hk; rewrite Hh3 by done; by eapply next_is_Some. }
  unfold fsm_cut_next_free; rewrite El3, C4; cbn [mbind run_bind].
  destruct Hcut4 as [Ca Cc _ Ct Cm]; cbn [app] in Cc, Ct; rewrite <- (total_perm _ _ HnK) in Ct.
  pose proof S4 as (Ua & Ul & Un & Ub & Uu & Ud & Ur & Ue & Uy).
  assert (data f4 = data f /\ reserved_blocks_count f4 = reserved_blocks_count f
    /\ erase_blocks_counters f4 = erase_blocks_counters f /\ dirty f4 = dirty f /\ rdonly f4 = rdonly f
    /\ untracked_next_free f4 = 0 /\ next_free_area f4 = next_free_area f
    /\ next_free_list f4 = next_free_list f /\ free_blocks_count f4 = free_blocks_count f)
    as (Vd & Vr & Ve & Vy & Vo & Vu & Va & Vl & Vf).
  { split; [exact (eq_trans Ud (eq_trans Td Sd))|]; split; [exact (eq_trans Ur (eq_trans Tr Sr))|].
    split; [exact (eq_trans Ue (eq_trans Te Se))|]; split; [exact (eq_trans Uy (eq_trans Ty Sy))|].
    split; [exact (eq_trans R4 (eq_trans Hr1 E7))|].
    split; [exact (eq_trans Uu (eq_trans Tu (eq_trans Su Hun)))|].
    split; [exact (eq_trans Ua (eq_trans Ta Sa))|]; split; [exact (eq_trans Ul (eq_trans Tl Sl))|].
    exact (eq_trans F4 Ef3). }
  assert (fsm_ok vol f4 fa4 na) as Hok4.
  { split; [done|by rewrite Va| | |].
    - eapply (next_ok_heap vol f); [done| |].
      + split; [done|]; split; [done|]; split; [exact (eq_trans Un (eq_trans Tn Sn))|].
        split; [exact (eq_trans Ub (eq_trans Tb Sb))|]; split; [by rewrite Vu|]; done.
      + intros k Hk; rewrite H4 by done; auto.
    - intros x Hx Hnx2; apply (Cc x Hx); by rewrite <- (covers_perm _ _ x HnK).
    - split; rewrite ?Vf, ?Vr, ?Vu; lia. }
  rewrite (verify_state_spec vol debug f4 fa4 na Hok4); exists f4, fa4; split; [done|]; split.
  - split; rewrite ?Vd, ?Ve, ?Vu; auto; [|lia].
    intros x [Hx|Hx]; [by apply Cc|apply Hcl; auto].
  - split; [repeat split; auto; lia|].
    intros -> ->; destruct (Bcut (eq_trans E8 Hal)) as (P & HP).
    assert (next_free_list f = []) as En by (apply length_zero_iff_nil; rewrite Nl; by rewrite (Forall2_length _ _ _ Nh)).
    rewrite En in C4; injection C4 as <-.
    assert (fa1 = []) as ->; [|apply (cutoff_nothing sbi (data f) P f1 HP); [lia|exact Btot]].
    pose proof (Forall2_length _ _ _ (ao_holds _ _ _ _ Ca)) as L4; pose proof (Forall2_length _ _ _ (ao_holds _ _ _ _ Ha1)) as L1.
    cbn in L4; apply length_zero_iff_nil; by rewrite <- L1.
Qed.

(** Emptying the free area does not read the counters. *)
Lemma free_tree_counts (a b : Z) (f : fsm_info) :
  set_free_blocks_count 0 (set_untracked_blocks 0
    (fsm_init_tree (fsm_free_tree (set_free_blocks_count a (set_untracked_blocks b f)))))
  = set_free_blocks_count 0 (set_untracked_blocks 0 (fsm_init_tree (fsm_free_tree f))).
Proof.
  assert (forall l f, fsm_free_node_list l (set_free_blocks_count a (set_untracked_blocks b f))
    = set_free_blocks_count a (set_untracked_blocks b (fsm_free_node_list l f))) as Hl.
  { unfold fsm_free_node_list; induction l as [|n l IH]; intros g; [done|]; cbn [foldl]; by rewrite <- IH. }
  unfold fsm_free_tree; cbn [free_list set_free_blocks_count set_untracked_blocks].
  generalize (free_list f) as ls; intros ls; revert f; induction ls as [|l ls IH]; intros f; [done|].
  cbn [foldl]; rewrite Hl; apply IH.
Qed.

Lemma rebuilt_refl (f : fsm_info) : rebuilt f f.
Proof. repeat split; lia. Qed.

Lemma rebuild_tree_spec (f : fsm_info) (fa na : list range) :
  fsm_inv sbi nb f fa na -> allocs f = [] ->
  exists f' fa', fsm_rebuild_tree debug sbi f = Ok f' /\ fsm_inv sbi nb f' fa' na /\ rebuilt f f'
  /\ (na = [] -> untracked_next_free f = 0 -> fa' = [] -> untracked_blocks f' = 0).
Proof.
  intros Hi Hal; unfold fsm_rebuild_tree.
  destruct (Z.eqb_spec (untracked_next_free f) 0) as [Eu|Nu]; cbn [negb andb].
  { destruct (rebuild_core f fa na Hi Hal Eu) as (f' & fa' & E & Hi' & Hr & Hn); exists f', fa'; auto. }
  destruct (Z.eqb_spec (reserved_blocks_count f) 0) as [Er|Nr].
  { exists f, fa; split; [done|]; split; [done|]; split; [apply rebuilt_refl|done]. }
  pose proof Hi as [Hok Hbm Hcl Hcnt Hz Her Hco Hhas Hsh Hpg].
  pose proof Hok as [Hvol Ha Hnx Hdis [Hfr Hnn Hcv]].
  set (u := untracked_next_free f) in *.
  set (g := set_untracked_next_free 0 (set_next_free_blocks (next_free_blocks f - u) f)).
  set (k := set_free_blocks_count (free_blocks_count f + u) (set_untracked_blocks (untracked_blocks f + u) g)).
  assert (fsm_inv sbi nb k fa na) as Hik.
  { split; auto; [|cbn; lia]; split; [done| | |done|].
    - by eapply area_ok_same; [..|exact Ha].
    - destruct Hnx as [Nh NG NW Nl Nn Nb]; split; cbn; auto; lia.
    - split; cbn; lia. }
  destruct (rebuild_core k fa na Hik Hal eq_refl) as (f' & fa' & E & Hi' & (Rd & Rr & Re & Ry & Ro & Rf & Ru & Ra & Rl) & _).
  cbn zeta in E; unfold k in E at 1; rewrite free_tree_counts in E.
  exists f', fa'; split; [exact E|]; split; [done|]; cbn in Rf, Ru.
  pose proof (co_nonneg _ _ _ _ (fo_counts _ _ _ _ (fi_ok _ _ _ _ _ Hi'))).
  split; [repeat split; auto; fold u; lia|done].
Qed.

(** ** fsm_allocate_space *)

(** No chunk and perhaps a rebuilt free area, or a chunk of the free area. *)
Definition space_result (f : fsm_info) (fa na : list range) (min_length length : Z) (b l : Z)
    (f1 : fsm_info) : Prop :=
  (b = 0 /\ l = length /\ (min_length = 1 -> fa = [])
   /\ (min_length = 1 -> na = [] -> untracked_next_free f = 0 -> free_blocks_count f + reserved_blocks_count f = 0)
   /\ exists fa1, fsm_inv sbi nb f1 fa1 na /\ rebuilt f f1)
  \/ (b <> 0 /\ min_length <= l <= length
      /\ exists f0 fa0 fa1, fsm_inv sbi nb f0 fa0 na /\ rebuilt f f0 /\ chunk vol f0 f1 fa0 fa1 b l).

Lemma chunk_nonzero (f f1 : fsm_info) (fa fa1 na : list range) (b l : Z) :
  fsm_inv sbi nb f fa na -> chunk vol f f1 fa fa1 b l -> b <> 0.
Proof.
  intros Hi Hc ->; pose proof (fi_zero _ _ _ _ _ Hi) as Hz; pose proof (ch_len _ _ _ _ _ _ _ Hc).
  rewrite (fi_clear _ _ _ _ _ Hi) in Hz; [done|]; left; apply (ch_in _ _ _ _ _ _ _ Hc); lia.
Qed.

Lemma allocate_space_spec (f : fsm_info) (fa na : list range) (s min_length length : Z) :
  fsm_inv sbi nb f fa na -> allocs f = [] -> 0 < min_length <= length ->
  exists b l f1, fsm_allocate_space debug sbi s min_length length f = Ok (b, l, f1)
  /\ space_result f fa na min_length length b l f1.
Proof.
  intros Hi Hal Hl; unfold fsm_allocate_space.
  destruct (allocate_try_spec sbi f fa na s min_length length (fi_ok _ _ _ _ _ Hi) Hl)
    as (got & f1 & E & Ht & Hnone); rewrite E; cbn [mbind run_bind].
  destruct got as [[b l]|].
  { destruct Ht as (fa1 & Hc & Hlen); exists b, l, f1; split; [done|right].
    split; [by eapply chunk_nonzero|]; split; [done|]; exists f, fa, fa1; split; [done|].
    split; [apply rebuilt_refl|done]. }
  cbn in Ht; subst f1; destruct (Z.eqb_spec (untracked_blocks f) 0).
  { rewrite (verify_state_spec vol debug f fa na (fi_ok _ _ _ _ _ Hi)).
    exists 0, length, f; split; [done|left]; split; [done|]; split; [done|]; split; [auto|]; split.
    { intros Hm _ _; rewrite (co_free _ _ _ _ (fo_counts _ _ _ _ (fi_ok _ _ _ _ _ Hi))), (Hnone eq_refl Hm); cbn; lia. }
    exists fa; split; [done|apply rebuilt_refl]. }
  destruct (rebuild_tree_spec f fa na Hi Hal) as (f2 & fa2 & E2 & Hi2 & Hr2 & Hun); rewrite E2; cbn [mbind run_bind].
  destruct (allocate_try_spec sbi f2 fa2 na s min_length length (fi_ok _ _ _ _ _ Hi2) Hl)
    as (got & f3 & E3 & Ht & Hnone2); rewrite E3; cbn [mbind run_bind].
  destruct got as [[b l]|].
  { destruct Ht as (fa1 & Hc & Hlen); exists b, l, f3; split; [done|right].
    split; [by eapply chunk_nonzero|]; split; [done|]; exists f2, fa2, fa1; done. }
  cbn in Ht; subst f3; rewrite (verify_state_spec vol debug f2 fa2 na (fi_ok _ _ _ _ _ Hi2)).
  exists 0, length, f2; split; [done|left]; split; [done|]; split; [done|]; split; [auto|]; split; [|eauto].
  intros Hm Hn Hu; specialize (Hnone2 eq_refl Hm); destruct Hr2 as (_ & Rr & _ & _ & _ & Rf & Ru & _).
  pose proof (fi_ok _ _ _ _ _ Hi2) as Ok2; pose proof (co_free _ _ _ _ (fo_counts _ _ _ _ Ok2)) as C2; pose proof (co_nonneg _ _ _ _ (fo_counts _ _ _ _ Ok2)).
  rewrite Hnone2, (Hun Hn Hu Hnone2) in C2; cbn in C2; lia.
Qed.

End Space.
