(* ===== verification/FsmTheorems.v ===== *)
(** The operations of the free-space manager as its callers see them, and the
    theorems about src/linux/fs/vdfs4/fsm.c. *)

From Stdlib Require Import ZArith Lia Bool List.
From stdpp Require Import base list gmap sets.
From S2P Require Import Prelude Bitmap Count FindBit Ranges Rbtree FsmTree FsmSpace Fsm FsmCounters FsmBuild FsmAlloc FsmRebuild.

Open Scope Z_scope.

Section Theorems.
Context `{RbtreeLaws} `{FindBitLaws}.
Context (debug : bool) (sbi : sb_info) (nb : Z).

#[local] Abbreviation vol := (volume_blocks_count sbi).

(** ** The longest node *)

Lemma longest_loop_spec (f : fsm_info) (fa : list range) (others A B : list positive) (best : positive) (rb : range) :
  area_ok vol f fa others -> inorder (free_area f) = A ++ B ->
  best ∈ inorder (free_area f) -> heap f !! best = Some rb ->
  exists n r, longest_loop (length B) (head B) best f = Ok n
  /\ n ∈ inorder (free_area f) /\ heap f !! n = Some r /\ len rb <= len r
  /\ forall k q, k ∈ B -> heap f !! k = Some q -> len q <= len r.
Proof.
  intros Ha; revert A best rb; induction B as [|n B IH]; intros A best rb E Hb Hrb.
  { exists best, rb; cbn; split; [done|]; split; [done|]; split; [done|]; split; [lia|].
    by intros k q ?%elem_of_nil. }
  assert (n ∈ inorder (free_area f)) as Hn by (rewrite E, elem_of_app, elem_of_cons; auto).
  destruct (node_in_area sbi f fa others n Ha Hn) as (r & Hr & _).
  pose proof (ao_nodup _ _ _ _ Ha) as Hnd; apply NoDup_app in Hnd as (Hnd & _ & _).
  cbn [length head longest_loop]; rewrite (node_at_ok _ _ _ Hr), (node_at_ok _ _ _ Hrb).
  cbn [mbind run_bind]; rewrite (rb_next_inorder n (free_area f) A B Hnd E).
  destruct (Z.ltb_spec (len rb) (len r)).
  - destruct (IH (A ++ [n]) n r) as (k & q & E2 & Hk & Hq & Hle & Hmax); [by rewrite <- app_assoc|done|done|].
    exists k, q; repeat split; auto; [lia|]; intros j p; rewrite elem_of_cons; intros [->|Hj] Hp; [|eauto].
    assert (p = r) as -> by congruence; lia.
  - destruct (IH (A ++ [n]) best rb) as (k & q & E2 & Hk & Hq & Hle & Hmax); [by rewrite <- app_assoc|done|done|].
    exists k, q; repeat split; auto; intros j p; rewrite elem_of_cons; intros [->|Hj] Hp; [|eauto].
    assert (p = r) as -> by congruence; lia.
Qed.

Lemma longest_node_spec (f : fsm_info) (fa : list range) (others : list positive) :
  area_ok vol f fa others ->
  exists o, fsm_get_longest_node f = Ok o
  /\ match o with
     | Some n => exists r, n ∈ inorder (free_area f) /\ heap f !! n = Some r /\ Forall (fun q => len q <= len r) fa
     | None => fa = []
     end.
Proof.
  intros Ha; unfold fsm_get_longest_node; rewrite rb_first_inorder.
  destruct (inorder (free_area f)) as [|n B] eqn:E; cbn [head].
  { exists None; split; [done|]; pose proof (ao_holds _ _ _ _ Ha) as Hh; rewrite E in Hh; by inversion Hh. }
  assert (n ∈ inorder (free_area f)) as Hn by (rewrite E, elem_of_cons; auto).
  destruct (node_in_area sbi f fa others n Ha Hn) as (r & Hr & _).
  destruct (longest_loop_spec f fa others [] (n :: B) n r Ha E Hn Hr) as (k & q & E2 & Hk & Hq & _ & Hmax).
  cbn [head] in E2; rewrite E2; exists (Some k); split; [done|]; exists q; rewrite <- E; split; [done|]; split; [done|].
  rewrite <- E in Hmax; pose proof (ao_holds _ _ _ _ Ha) as Hh; apply Forall_forall; intros p Hp.
  apply list_elem_of_lookup_1 in Hp as (i & Hi).
  destruct (Forall2_lookup_r _ _ _ _ _ Hh Hi) as (j & Hj & Ej).
  eapply Hmax; [|exact Ej]; by eapply list_elem_of_lookup_2.
Qed.

(** ** Aligned allocation *)

Lemma align_up (b per : Z) :
  0 <= b -> (exists k, 0 <= k /\ per = 2 ^ k) -> b <= ALIGN b per < b + per /\ ALIGN b per mod per = 0.
Proof.
  intros Hb (k & Hk & ->); unfold ALIGN.
  replace (Z.land (b + (2 ^ k - 1)) (Z.lnot (2 ^ k - 1))) with ((b + (2 ^ k - 1)) - (b + (2 ^ k - 1)) mod 2 ^ k).
  2: { rewrite <- Z.ldiff_land; change (2 ^ k - 1) with (Z.pred (2 ^ k)); rewrite <- Z.ones_equiv.
    rewrite <- (Z.land_ones (b + Z.ones k) k Hk) at 1.
    pose proof (Z.sub_nocarry_ldiff (b + Z.ones k) (Z.land (b + Z.ones k) (Z.ones k))) as E.
    rewrite E; [|apply Z.bits_inj'; intros i Hi; rewrite Z.ldiff_spec, Z.land_spec, Z.testbit_0_l;
      by destruct (Z.testbit (b + Z.ones k) i), (Z.testbit (Z.ones k) i)].
    apply Z.bits_inj'; intros i Hi; rewrite !Z.ldiff_spec, Z.land_spec.
    by destruct (Z.testbit (b + Z.ones k) i), (Z.testbit (Z.ones k) i). }
  pose proof (Z.pow_pos_nonneg 2 k ltac:(lia) Hk) as Hp.
  pose proof (Z.mod_pos_bound (b + (2 ^ k - 1)) (2 ^ k) Hp); split; [lia|].
  rewrite Zminus_mod_idemp_r, Z.sub_diag; apply Z.mod_0_l; lia.
Qed.

Lemma round_down_le (x per : Z) :
  0 <= x -> (exists k, 0 <= k /\ per = 2 ^ k) -> 0 <= round_down x per <= x.
Proof.
  intros Hx (k & Hk & ->); unfold round_down; rewrite <- Z.ldiff_land.
  split; [apply Z.ldiff_nonneg; auto|].
  pose proof (Z.sub_nocarry_ldiff x (Z.land x (2 ^ k - 1))) as E.
  assert (Z.ldiff (Z.land x (2 ^ k - 1)) x = 0) as E0.
  { apply Z.bits_inj'; intros i Hi; rewrite Z.ldiff_spec, Z.land_spec, Z.testbit_0_l.
    by destruct (Z.testbit x i), (Z.testbit (2 ^ k - 1) i). }
  assert (Z.ldiff x (2 ^ k - 1) = Z.ldiff x (Z.land x (2 ^ k - 1))) as E1.
  { apply Z.bits_inj'; intros i Hi; rewrite !Z.ldiff_spec, Z.land_spec.
    by destruct (Z.testbit x i), (Z.testbit (2 ^ k - 1) i). }
  rewrite E1, <- (E E0); pose proof (Z.land_nonneg x (2 ^ k - 1)) as [_ Hland]; specialize (Hland (or_introl Hx)); lia.
Qed.

(** The inner blocks of a chunk, its other blocks becoming untracked. *)
Lemma chunk_inner (f f1 : fsm_info) (fa fa1 : list range) (b l b' l' per : Z) :
  chunk vol f f1 fa fa1 b l -> l = l' + per -> 0 <= per -> 0 < l' -> b <= b' -> b' + l' <= b + l ->
  chunk vol f (set_untracked_blocks (untracked_blocks f1 + per) f1) fa fa1 b' l'.
Proof.
  intros [Ca Cs Cf Cr Ch Csub Cin Ct Cm Cl] -> Hp Hl Hb Hb'; split; cbn; auto; try lia.
  - by eapply area_ok_same; [..|exact Ca].
  - intros x Hx; destruct (Csub x Hx); split; [done|lia].
  - intros x Hx; apply Cin; lia.
Qed.

(** Superpage size in blocks. *)
Definition per_superpage : Z := u32 (Z.shiftl 1 (log_super_page_size sbi - log_block_size sbi)).

Lemma per_superpage_pow :
  0 <= log_super_page_size sbi - log_block_size sbi < 32 ->
  per_superpage = 2 ^ (log_super_page_size sbi - log_block_size sbi) /\ 0 < per_superpage < 2 ^ 32.
Proof.
  intros Hk; unfold per_superpage; rewrite Z.shiftl_mul_pow2, Z.mul_1_l by lia.
  pose proof (Z.pow_pos_nonneg 2 (log_super_page_size sbi - log_block_size sbi) ltac:(lia) ltac:(lia)).
  pose proof (Z.pow_lt_mono_r 2 (log_super_page_size sbi - log_block_size sbi) 32 ltac:(lia) ltac:(lia) ltac:(lia)).
  rewrite u32_small by lia; lia.
Qed.

(** A chunk for the caller, or none. *)
Definition chunk_result (f : fsm_info) (fa na : list range) (min_length length : Z) (b l : Z)
    (f1 : fsm_info) : Prop :=
  (b = 0 /\ exists fa1, fsm_inv sbi nb f1 fa1 na /\ rebuilt f f1)
  \/ (b <> 0 /\ min_length <= l <= length
      /\ exists f0 fa0 fa1, fsm_inv sbi nb f0 fa0 na /\ rebuilt f f0 /\ chunk vol f0 f1 fa0 fa1 b l).

Lemma get_free_aligned_spec (f : fsm_info) (fa na : list range) (block_offset length min_blk : Z) :
  fsm_inv sbi nb f fa na -> allocs f = [] ->
  0 <= log_super_page_size sbi - log_block_size sbi < 32 ->
  0 < min_blk <= length -> length + 2 * per_superpage < 2 ^ 32 -> Z.land length (per_superpage - 1) = 0 ->
  exists b l f1, get_free_aligned debug sbi block_offset length min_blk f = Ok (b, l, f1)
  /\ chunk_result f fa na min_blk length b l f1 /\ b mod per_superpage = 0.
Proof.
  intros Hi Hal Hk Hmin Hlim Hmul; destruct (per_superpage_pow Hk) as [Epow Hper].
  assert (exists k, 0 <= k /\ per_superpage = 2 ^ k) as Hpow by (eexists; split; [|exact Epow]; lia).
  pose proof (bo_vol _ _ _ (fi_bitmap _ _ _ _ _ Hi)) as Hv.
  unfold get_free_aligned; fold per_superpage; rewrite Hmul; cbn [Z.eqb negb bug_on mbind run_bind].
  rewrite (u32_small (length + per_superpage)), (u32_small (min_blk + per_superpage)) by lia.
  destruct (allocate_space_spec debug sbi nb f fa na (u32 block_offset) (length + per_superpage) (length + per_superpage)
    Hi Hal ltac:(lia)) as (b & l & f1 & E & Hres); rewrite E; cbn [mbind run_bind].
  assert (forall f0 fa0 fa1 g b l, fsm_inv sbi nb f0 fa0 na -> rebuilt f f0 -> chunk vol f0 g fa0 fa1 b l ->
    min_blk + per_superpage <= l -> l <= length + per_superpage ->
    exists c k g', (bug_on ((l <? min_blk + per_superpage) || (length + per_superpage <? l));;
      Ok (u64 (ALIGN b per_superpage), l - per_superpage,
          set_untracked_blocks (untracked_blocks g + per_superpage) g)) = Ok (c, k, g')
    /\ chunk_result f fa na min_blk length c k g' /\ c mod per_superpage = 0) as Hfin.
  { intros f0 fa0 fa1 g b' l' Hi0 Hr0 Hc0 Hlo Hhi.
    pose proof (chunk_bounds sbi f0 g fa0 fa1 na b' l' (fi_ok _ _ _ _ _ Hi0) Hc0) as [Hb0 Hb1].
    rewrite (proj2 (Z.ltb_ge l' _)), (proj2 (Z.ltb_ge _ l')) by lia; cbn [orb bug_on mbind run_bind].
    destruct (align_up b' per_superpage Hb0 Hpow) as [Hal1 Hal2]; rewrite u64_small by lia.
    assert (chunk vol f0 (set_untracked_blocks (untracked_blocks g + per_superpage) g) fa0 fa1
      (ALIGN b' per_superpage) (l' - per_superpage)) as Hc1 by (eapply chunk_inner; [exact Hc0|lia..]).
    eexists _, _, _; split; [reflexivity|]; split; [right|done].
    split; [by eapply chunk_nonzero|]; split; [lia|]; eauto 8. }
  destruct Hres as [(-> & -> & _ & _ & fa1 & Hi1 & Hr1)|(Hb & Hl & f0 & fa0 & fa1 & Hi0 & Hr0 & Hc0)].
  2: { rewrite (proj2 (Z.eqb_neq b 0)) by done; cbn [negb]; assert (l = length + per_superpage) as -> by lia.
    destruct (Hfin f0 fa0 fa1 f1 b (length + per_superpage) Hi0 Hr0 Hc0) as (c & k & g & Eg & Hg); [lia..|].
    replace (length + per_superpage - per_superpage) with length in Eg by lia; eauto. }
  cbn [Z.eqb negb]; assert (0 mod per_superpage = 0) as Hz by (apply Z.mod_0_l; lia).
  pose proof (fo_area _ _ _ _ (fi_ok _ _ _ _ _ Hi1)) as Ha1.
  destruct (longest_node_spec f1 fa1 _ Ha1) as (o & Eo & Ho); rewrite Eo; cbn [mbind run_bind].
  destruct o as [n|].
  2: { eexists _, _, _; split; [reflexivity|]; split; [left|done]; eauto. }
  destruct Ho as (r & Hn & Hr & _); rewrite (node_at_ok _ _ _ Hr); cbn [mbind run_bind].
  destruct (node_in_area sbi f1 fa1 _ n Ha1 Hn) as (r' & Hr' & Hs & Hlr & Hst); assert (r' = r) as -> by congruence.
  pose proof (round_down_le (len r) per_superpage ltac:(lia) Hpow) as Hrd.
  set (l1 := if length + per_superpage <? round_down (len r) per_superpage then length + per_superpage
             else round_down (len r) per_superpage).
  assert (0 <= l1 <= len r /\ l1 <= length + per_superpage) as [Hl1 Hl2]
    by (subst l1; destruct (Z.ltb_spec (length + per_superpage) (round_down (len r) per_superpage)); lia).
  rewrite (u32_small (min_blk + per_superpage + per_superpage)) by lia.
  destruct (Z.ltb_spec l1 (min_blk + per_superpage + per_superpage)).
  { eexists _, _, _; split; [reflexivity|]; split; [left|done]; eauto. }
  destruct (from_node_chunk sbi f1 fa1 na n r (start r) l1 (fi_ok _ _ _ _ _ Hi1) Hn Hr) as (g & fa2 & Eg & Hcg);
    [lia|lia|unfold stop; lia|].
  rewrite Eg; cbn [mbind run_bind]; rewrite (u32_small (l1 - per_superpage)) by lia.
  apply (Hfin f1 fa1 fa2); auto; lia.
Qed.

(** ** vdfs4_fsm_get_free_block *)

Lemma settled_next (f : fsm_info) (fa na : list range) :
  fsm_inv sbi nb f fa na -> next_free_blocks f = 0 -> na = [] /\ untracked_next_free f = 0.
Proof.
  intros Hi Hn; pose proof (fi_ok _ _ _ _ _ Hi) as [_ _ [_ HG _ _ _ Nb] _ [_ Hnn _]].
  pose proof (gapped_total_nonneg na HG); split; [|lia]; destruct na as [|r na]; [done|exfalso].
  destruct HG as (Hr & _ & HG); pose proof (gapped_total_nonneg na HG); rewrite total_cons in Nb; unfold nonempty in Hr; lia.
Qed.

(** What the caller must respect: blocks of a delayed allocation were reserved,
    aligned lengths are whole superpages. *)
Definition request_ok (f : fsm_info) (block_offset length min_blk fsm_flags : Z) : Prop :=
  0 <= block_offset < 2 ^ 32 /\ 0 < length < 2 ^ 32
  /\ (Z.land fsm_flags VDFS4_FSM_ALLOC_DELAYED <> 0 -> length <= reserved_blocks_count f)
  /\ (Z.land fsm_flags VDFS4_FSM_ALLOC_ALIGNED <> 0 ->
      0 <= log_super_page_size sbi - log_block_size sbi < 32 /\ 0 < min_blk <= length
      /\ length + 2 * per_superpage < 2 ^ 32 /\ Z.land length (per_superpage - 1) = 0).

(** The answer: no block, and the bitmap is as it was; or blocks that were clear
    and are now set, and no other change of the bitmap. *)
Definition granted (f : fsm_info) (na : list range) (length fsm_flags b l : Z) (f' : fsm_info) : Prop :=
  exists fa', fsm_inv sbi nb f' fa' na /\ untracked_next_free f' <= untracked_next_free f
  /\ ((b = 0 /\ data f' = data f /\ reserved_blocks_count f' = reserved_blocks_count f)
      \/ (0 < b /\ 0 < l <= length /\ b + l <= vol
          /\ (forall x, b <= x < b + l -> used sbi (data f) x = false)
          /\ (forall x, used sbi (data f') x = upd (used sbi (data f)) b l true x)
          /\ free_blocks_count f' + reserved_blocks_count f' + untracked_next_free f' + l
             = free_blocks_count f + reserved_blocks_count f + untracked_next_free f
          /\ (Z.land fsm_flags VDFS4_FSM_ALLOC_ALIGNED <> 0 -> b mod per_superpage = 0)
          /\ reserved_blocks_count f' = reserved_blocks_count f - (if Z.land fsm_flags VDFS4_FSM_ALLOC_DELAYED =? 0 then 0 else l))).

Lemma get_free_block_spec (f : fsm_info) (fa na : list range) (block_offset length min_blk fsm_flags : Z) :
  fsm_inv sbi nb f fa na -> allocs f = [] -> request_ok f block_offset length min_blk fsm_flags ->
  exists b l f', vdfs4_fsm_get_free_block debug sbi block_offset length min_blk fsm_flags f = Ok (b, l, f')
  /\ granted f na length fsm_flags b l f'
  /\ (b = 0 -> Z.land fsm_flags VDFS4_FSM_ALLOC_ALIGNED = 0 -> length <= free_blocks_count f -> fa = [])
  /\ (b = 0 -> Z.land fsm_flags VDFS4_FSM_ALLOC_ALIGNED = 0 -> next_free_blocks f = 0 ->
      (Z.land fsm_flags VDFS4_FSM_ALLOC_DELAYED = 0 -> length <= free_blocks_count f) -> free_blocks_count f + reserved_blocks_count f = 0).
Proof.
  intros Hi Hal (Hoff & Hlen & Hdel & Hali); unfold vdfs4_fsm_get_free_block, granted.
  set (hint := if vol <=? block_offset +64 length then 0 else block_offset).
  destruct ((free_blocks_count f <? length) && (Z.land fsm_flags VDFS4_FSM_ALLOC_DELAYED =? 0)) eqn:Eshort.
  { exists 0, length, f; split; [done|]; split; [exists fa; split; [done|]; split; [lia|]; auto|]; bools; split; intros; lia. }
  assert (length <= free_blocks_count f \/ Z.land fsm_flags VDFS4_FSM_ALLOC_DELAYED <> 0) as Henough.
  { apply andb_false_iff in Eshort; rewrite Z.ltb_ge, Z.eqb_neq in Eshort; done. }
  assert (exists b l f1,
    (if Z.land fsm_flags VDFS4_FSM_ALLOC_ALIGNED =? 0 then fsm_allocate_space debug sbi (u32 hint) 1 length f
     else get_free_aligned debug sbi hint length min_blk f) = Ok (b, l, f1)
    /\ chunk_result f fa na 1 length b l f1
    /\ (Z.land fsm_flags VDFS4_FSM_ALLOC_ALIGNED <> 0 -> b mod per_superpage = 0)
    /\ (b = 0 -> Z.land fsm_flags VDFS4_FSM_ALLOC_ALIGNED = 0 ->
        fa = [] /\ (na = [] -> untracked_next_free f = 0 -> free_blocks_count f + reserved_blocks_count f = 0)))
    as (b & l & f1 & E & Hres & Hmod & Hnone).
  { destruct (Z.eqb_spec (Z.land fsm_flags VDFS4_FSM_ALLOC_ALIGNED) 0) as [Ea|Na].
    - destruct (allocate_space_spec debug sbi nb f fa na (u32 hint) 1 length Hi Hal ltac:(lia)) as (b & l & f1 & E & Hres).
      exists b, l, f1; split; [done|]; destruct Hres as [(-> & -> & Hfa & Hnil & Hx)|(Hb & Hl & Hx)].
      + split; [by left|]; split; [done|auto].
      + split; [by right|]; split; [done|done].
    - destruct (Hali Na) as (Hk & Hmin & Hlim & Hmul).
      destruct (get_free_aligned_spec f fa na hint length min_blk Hi Hal Hk Hmin Hlim Hmul)
        as (b & l & f1 & E & Hres & Hm).
      exists b, l, f1; split; [done|]; split; [|split; [done|done]].
      destruct Hres as [?|(? & ? & ?)]; [by left|right; split; [done|split; [lia|done]]]. }
  rewrite E; cbn [mbind run_bind]; destruct Hres as [(-> & fa1 & Hi1 & Hr1)|(Hb & Hl & f0 & fa0 & fa1 & Hi0 & Hr0 & Hc0)].
  { exists 0, l, f1; split; [done|]; split; [|split].
    - exists fa1; split; [done|]; split; [apply Hr1|left; split; [done|split; apply Hr1]].
    - intros _ Ha _; by apply Hnone.
    - intros _ Ha Hnx _; destruct (settled_next f fa na Hi Hnx) as [Ena Eu]; by apply Hnone. }
  rewrite (proj2 (Z.eqb_neq b 0)) by done; destruct Hr0 as (Rd & Rr & Re & Ry & Ro & Rf & Ru & Ra & Rl).
  assert (affordable fsm_flags l f0) as Haf.
  { unfold affordable; pose proof (co_nonneg _ _ _ _ (fo_counts _ _ _ _ (fi_ok _ _ _ _ _ Hi0))).
    destruct (Z.eqb_spec (Z.land fsm_flags VDFS4_FSM_ALLOC_DELAYED) 0) as [Ed|Nd]; [|specialize (Hdel Nd); lia].
    destruct Henough; [lia|done]. }
  destruct (get_free_commit_spec sbi nb f0 f1 fa0 fa1 na b l fsm_flags Hi0 Hc0 Haf) as (f2 & E2 & Hi2 & Hu2 & Hch & _).
  pose proof (chunk_bounds sbi f0 f1 fa0 fa1 na b l (fi_ok _ _ _ _ _ Hi0) Hc0) as [Hb0 Hb1].
  rewrite E2; cbn [mbind run_bind]; exists b, l, f2; split; [done|]; split; [|lia].
  assert (untracked_next_free f2 = untracked_next_free f0) as Eun.
  { pose proof (no_blocks _ _ _ (fo_next _ _ _ _ (fi_ok _ _ _ _ _ Hi2))) as N2.
    pose proof (fi_count _ _ _ _ _ Hi2) as C2; pose proof (fi_count _ _ _ _ _ Hi0) as C0.
    pose proof (co_free _ _ _ _ (fo_counts _ _ _ _ (fi_ok _ _ _ _ _ Hi2))).
    pose proof (co_free _ _ _ _ (fo_counts _ _ _ _ (fi_ok _ _ _ _ _ Hi0))).
    rewrite (count_ext _ (upd (clear sbi (data f0)) b l false)) in C2.
    2: { intros x _; unfold clear at 1; rewrite Hu2; unfold upd, clear. destruct ((b <=? x) && (x <? b + l)); done. }
    rewrite count_upd_run in C2; [|lia|lia|lia|].
    2: { intros x Hx; unfold clear; rewrite (fi_clear _ _ _ _ _ Hi0); [done|left; by apply (ch_in _ _ _ _ _ _ _ Hc0)]. }
    unfold charged in Hch; destruct (Z.land fsm_flags VDFS4_FSM_ALLOC_DELAYED =? 0); lia. }
  exists fa1; split; [done|]; split; [lia|]; right; rewrite Rd in Hu2; split; [lia|]; split; [lia|]; split; [done|]; split.
  { intros x Hx; rewrite <- Rd; apply (fi_clear _ _ _ _ _ Hi0); left; by apply (ch_in _ _ _ _ _ _ _ Hc0). }
  split; [done|]; split; [|split; [done|unfold charged in Hch; destruct (Z.land fsm_flags VDFS4_FSM_ALLOC_DELAYED =? 0); lia]].
  rewrite Eun.
  unfold charged in Hch; destruct (Z.land fsm_flags VDFS4_FSM_ALLOC_DELAYED =? 0); lia.
Qed.

(** ** Mounting *)

(** The state of the manager before its trees are built: nothing allocated, all
    counters zero. *)
Definition blank (f : fsm_info) : Prop :=
  heap f = ∅ /\ free_blocks_count f = 0 /\ reserved_blocks_count f = 0
  /\ untracked_blocks f = 0 /\ untracked_next_free f = 0.

(** The parameters of a volume with this bitmap. *)
Record volume_ok (f : fsm_info) : Prop := {
  vo_bitmap : bitmap_ok sbi (data f) nb;
  vo_zero : used sbi (data f) 0 = true;
  vo_erase : erase_geometry sbi;
  vo_has : has_counters sbi (erase_blocks_counters f) 0 vol;
  vo_shift : 0 <= block_size_shift sbi <= PAGE_SHIFT;
  vo_pages : page_of sbi vol < page_count sbi
}.

Lemma build_trees_spec (f : fsm_info) :
  blank f -> volume_ok f ->
  exists f' fa, vdfs4_fsm_build_trees debug sbi f = Ok f' /\ fsm_inv sbi nb f' fa []
  /\ data f' = data f /\ reserved_blocks_count f' = 0
  /\ free_blocks_count f' = count (clear sbi (data f)) 0 vol
  /\ (allocs f = [] -> exists P, cutoff sbi (data f) fa vol P) /\ (allocs f = [] -> allocs f' = []).
Proof.
  intros (Bh & Bf & Br & Bu & Bn) [Hbm Hz Her Hhas Hsh Hpg]; pose proof (bo_vol _ _ _ Hbm) as Hv.
  unfold vdfs4_fsm_build_trees; set (g := fsm_init_next_tree (fsm_init_tree f)).
  destruct (build_tree_spec sbi (data f) nb Hbm g []) as (f1 & fa & E1 & Ha & Hbt & Hke);
    auto; try (cbn; lia); [constructor| |].
  { intros n; cbn; rewrite Bh, lookup_empty; split; [by intros []|by intros ?%elem_of_nil]. }
  rewrite E1; cbn [mbind run_bind]; destruct Hke as (Hs1 & Hr1 & _ & Hal1).
  pose proof Hs1 as (Ta & Tl & Tn & Tb & Tu & Td & Tr & Te & Ty); cbn in Ta, Tl, Tn, Tb, Tu, Td, Tr, Te.
  destruct (init_counters_spec sbi (data f) nb Hbm f1 Her Td) as (c & Ec & Hlc & Hc); [by rewrite Te|].
  rewrite Ec; cbn [mbind run_bind]; set (f2 := set_erase_blocks_counters c f1).
  destruct Hbt as [Bsub Btot Bfree Bmono _ Bcut]; cbn in Btot, Bfree, Bmono, Bcut.
  pose proof (count_range (clear sbi (data f)) 0 vol ltac:(lia)) as Hcr.
  assert (fsm_ok vol f2 fa []) as Hok.
  { split; [lia| | | |].
    - cbn; rewrite Ta; by eapply area_ok_same; [..|exact Ha].
    - split; cbn; rewrite ?Ta, ?Tl, ?Tn, ?Tb, ?Tu; cbn; auto; try constructor; lia.
    - by intros x _ ?%covers_nil.
    - split; cbn; rewrite ?Tr, ?Tu; lia. }
  rewrite (verify_state_spec vol debug f2 fa [] Hok); exists f2, fa; split; [done|].
  split; [|split; [exact Td|]; split; [by cbn; rewrite Tr|]; split; [cbn; lia|]; split; [exact Bcut|exact Hal1]].
  split; auto; cbn; rewrite ?Td, ?Tu; auto.
  - intros x [Hx|Hx]; [by apply Bsub|by apply covers_nil in Hx].
  - cbn; lia.
  - intros x Hx; rewrite Hlc, Te; auto.
Qed.

(** ** The commit *)

(** Every discard is for an erase block with no used block. *)
Definition discards_unused (m : list Z) (log : list (Z * Z)) : Prop :=
  Forall (fun d => exists e, d = discard_of sbi e
    /\ forall x, e * erase_block_size_in_blocks sbi <= x < (e + 1) * erase_block_size_in_blocks sbi ->
       x < vol -> used sbi m x = false) log.

Lemma commit_spec (discard : Z -> Z -> Z) (f : fsm_info) (fa na : list range) :
  fsm_inv sbi nb f fa na -> (forall s n, discard s n = 0 \/ discard s n = - EOPNOTSUPP) ->
  exists f' fa' log, vdfs4_commit_free_space debug sbi discard f = Ok (f', log)
  /\ fsm_inv sbi nb f' fa' [] /\ data f' = data f
  /\ free_blocks_count f' = free_blocks_count f + next_free_blocks f
  /\ reserved_blocks_count f' = reserved_blocks_count f /\ next_free_blocks f' = 0
  /\ (forall x, covers fa x -> covers fa' x)
  /\ (untracked_blocks f' = untracked_blocks f + untracked_next_free f -> forall x, covers na x -> covers fa' x)
  /\ discards_unused (data f) log
  /\ Forall (fun v => v <> VDFS4_DELAYED_DISCARD_MAGIC) (erase_blocks_counters f').
Proof.
  intros Hi Hd; pose proof Hi as [Hok Hbm Hcl Hcnt Hz Her Hco Hhas Hsh Hpg].
  destruct (commit_free_space_spec vol debug f fa na Hok)
    as (f1 & fa1 & E & Hok1 & Ff & Fr & Fd & Fo & Fe & Fy & Fin & Fsub & Fu & Fall).
  unfold vdfs4_commit_free_space, fsm_delayed_discard; rewrite E; cbn [mbind run_bind].
  rewrite Fe, (discard_loop_spec sbi discard (erase_blocks_counters f) 0 [] Hd); cbn [mbind run_bind app].
  eexists _, fa1, _; split; [reflexivity|]; set (f2 := set_erase_blocks_counters _ f1).
  pose proof (no_blocks _ _ _ (fo_next _ _ _ _ Hok1)) as Nb1; pose proof (no_blocks _ _ _ (fo_next _ _ _ _ Hok)) as Nb0.
  pose proof (co_free _ _ _ _ (fo_counts _ _ _ _ Hok1)) as C1; pose proof (co_free _ _ _ _ (fo_counts _ _ _ _ Hok)) as C0.
  pose proof (co_nonneg _ _ _ _ (fo_counts _ _ _ _ Hok1)) as P1.
  assert (fsm_ok vol f2 fa1 []) as Hok2
    by (eapply fsm_ok_same; [..|exact Hok1]; try done; destruct Hok1 as [_ _ _ _ [? ? ?]]; by split).
  assert (untracked_next_free f1 = 0) as Un1.
  { pose proof E as E'; unfold fsm_commit_free_space in E'.
    rewrite (verify_state_spec vol debug f fa na Hok) in E'; cbn [mbind run_bind] in E'.
    destruct (fsm_commit_loop (next_free_list f) f) as [g| |]; cbn [mbind run_bind] in E'; try discriminate.
    destruct (Z.eqb_spec (untracked_next_free g) 0) as [Eg|Ng];
      destruct (fsm_verify_state debug _); cbn [mbind run_bind] in E'; try discriminate; injection E' as <-; done. }
  cbn in Nb1; split.
  - split; auto; cbn; rewrite ?Fd; auto.
    + intros x [Hx|Hx]; [|by apply covers_nil in Hx]; apply Hcl; destruct (Fsub x Hx); auto.
    + change (total []) with 0; lia.
    + by apply settled_ok.
    + intros x Hx; unfold settled, lenZ; rewrite length_map; by apply Hhas.
  - split; [done|]; split; [done|]; split; [done|]; split; [cbn; lia|]; split; [done|]; split; [done|]; split.
    + apply Forall_map, Forall_forall; intros e He; cbn; exists e; split; [done|].
      apply magic_blocks_elem in He as (He0 & Hget); rewrite Z.sub_0_r in Hget.
      intros x Hx Hxv; pose proof (erase_size_bound sbi Her) as Hsz.
      pose proof (Hco e _ Hget) as Hcount; unfold counter_value in Hcount; rewrite Z.eqb_refl in Hcount.
      destruct (used sbi (data f) x) eqn:Eu; [exfalso|done].
      assert (used_below sbi (data f) vol x = true) as Hub.
      { unfold used_below; rewrite (proj2 (Z.leb_le 0 x)), (proj2 (Z.ltb_lt x vol)) by nia; done. }
      pose proof (proj2 (count_part sbi (used_below sbi (data f) vol) x Her ltac:(nia)) Hub) as Hpos.
      assert (Z.shiftr x (log_erase_block_size_in_blocks sbi) = e) as Es.
      { pose proof (erase_block_of sbi x Her ltac:(nia)) as (_ & Hb); nia. }
      rewrite Es in Hpos; lia.
    + cbn; unfold settled; apply Forall_map, Forall_forall; intros v _; cbn.
      destruct (Z.eqb_spec v VDFS4_DELAYED_DISCARD_MAGIC); [unfold VDFS4_DELAYED_DISCARD_MAGIC; lia|done].
Qed.

End Theorems.

(** ** The pages of a chunk *)

Lemma mark_pages_past (sbi : sb_info) (n : nat) (i : Z) (f : fsm_info) :
  page_count sbi < i + Z.of_nat n -> (0 < n)%nat -> mark_pages sbi n i f = Fault.
Proof.
  revert i f; induction n as [|n IH]; intros i f Hn Hp; [lia|]; cbn [mark_pages].
  destruct (Z.leb_spec 0 i), (Z.ltb_spec i (page_count sbi)); try done; cbn [andb]; apply IH; lia.
Qed.

(** ** A small volume

    40 blocks of which blocks 0 and 5 are used, in a bitmap of two 20-byte blocks with 32
    bits each; erase blocks of 8 blocks. *)

Definition small_sbi : sb_info := SbInfo 40 20 12 14 12 8 3 3 2 true.

Definition small_blank : fsm_info :=
  Fsm ∅ [] Leaf [] Leaf [] 0 0 0 0 0 (replicate 12 0 ++ [33] ++ replicate 27 0) 0 0 (replicate 6 0) false [].

Lemma small_volume : volume_ok small_sbi 2 small_blank.
Proof.
  split; [split; [split|..]|..]; try (vm_compute; repeat split; discriminate || reflexivity).
  intros x Hx; cbn; rewrite Z.shiftr_div_pow2 by lia; change (2 ^ 3) with 8; unfold lenZ; cbn.
  apply Z.div_lt_upper_bound; cbn in Hx; lia.
Qed.

Lemma small_state :
  exists f fa, @vdfs4_fsm_build_trees Plain.plain_rbtree PlainFind.plain_find true small_sbi small_blank = Ok f
  /\ fsm_inv small_sbi 2 f fa [] /\ allocs f = [] /\ data f = data small_blank
  /\ free_blocks_count f = 38 /\ reserved_blocks_count f = 0 /\ fa <> [].
Proof.
  destruct (@build_trees_spec _ Plain.plain_rbtree_laws _ PlainFind.plain_find_laws true small_sbi 2 small_blank)
    as (f & fa & E & Hi & Hd & Hr & Hf & _ & Ha); [by repeat split|exact small_volume|].
  exists f, fa; split; [exact E|]; split; [exact Hi|]; split; [by apply Ha|]; split; [exact Hd|]; split.
  { rewrite Hf; vm_compute; reflexivity. }
  split; [exact Hr|]; intros ->; pose proof (ao_holds _ _ _ _ (fo_area _ _ _ _ (fi_ok _ _ _ _ _ Hi))) as Hh.
  assert (match @vdfs4_fsm_build_trees Plain.plain_rbtree PlainFind.plain_find true small_sbi small_blank with
          | Ok g => length (inorder (free_area g)) = 2%nat | _ => False end) as Hn by (vm_compute; reflexivity).
  rewrite E in Hn; apply Forall2_length in Hh; rewrite Hn in Hh; discriminate.
Qed.

(** ** Properties *)

(** C27: Building the manager at mount ends, and gives a consistent manager: trees,
    hash lists and counters agree with each other and with the bitmap, the free
    count is the number of clear bits, and with memory available the free area is
    every clear block, or, when the node limit is reached, every clear block
    below a point that splits no run of clear blocks. *)
Theorem fsm_build_correct `{RbtreeLaws} `{FindBitLaws} (debug : bool) (sbi : sb_info) (nb : Z) (f : fsm_info) :
  blank f -> volume_ok sbi nb f ->
  exists f' fa, vdfs4_fsm_build_trees debug sbi f = Ok f' /\ fsm_inv sbi nb f' fa []
  /\ data f' = data f
  /\ free_blocks_count f' = count (clear sbi (data f)) 0 (volume_blocks_count sbi)
  /\ (allocs f = [] -> exists P, cutoff sbi (data f) fa (volume_blocks_count sbi) P).
Proof.
  intros Hb Hv; destruct (build_trees_spec debug sbi nb f Hb Hv) as (f' & fa & E & Hi & Hd & _ & Hf & Hc & _).
  exists f', fa; auto.
Qed.

Lemma fsm_build_correct_witness :
  exists f fa, @vdfs4_fsm_build_trees Plain.plain_rbtree PlainFind.plain_find true small_sbi small_blank = Ok f
  /\ fsm_inv small_sbi 2 f fa [].
Proof.
  destruct (@fsm_build_correct _ Plain.plain_rbtree_laws _ PlainFind.plain_find_laws true small_sbi 2 small_blank)
    as (f & fa & E & Hi & _); [by repeat split|exact small_volume|].
  exists f, fa; split; [exact E|exact Hi].
Defined.

(** C24: When memory for the nodes of its trees does not lack ([allocs f = []]; see
    [rebuild_without_memory]), vdfs4_fsm_get_free_block does not stop the system on a
    consistent manager,
    keeps it consistent, and either grants no block and leaves the bitmap alone,
    or grants at most the length asked for, inside the volume, of blocks whose
    bits were clear and are now set, with no other bit changed, the counts
    reduced by exactly that length and, for an aligned request, on a superpage
    boundary. A plain request that can be paid for fails only if the free area is
    empty, and when no freed block waits for a commit a request, delayed or paid
    for, fails only if there is no free block at all. *)
Theorem get_free_block_correct `{RbtreeLaws} `{FindBitLaws} (debug : bool) (sbi : sb_info) (nb : Z)
    (f : fsm_info) (fa na : list range) (block_offset length min_blk fsm_flags : Z) :
  fsm_inv sbi nb f fa na -> allocs f = [] -> request_ok sbi f block_offset length min_blk fsm_flags ->
  exists b l f', vdfs4_fsm_get_free_block debug sbi block_offset length min_blk fsm_flags f = Ok (b, l, f')
  /\ granted sbi nb f na length fsm_flags b l f'
  /\ (b = 0 -> Z.land fsm_flags VDFS4_FSM_ALLOC_ALIGNED = 0 -> length <= free_blocks_count f -> fa = [])
  /\ (b = 0 -> Z.land fsm_flags VDFS4_FSM_ALLOC_ALIGNED = 0 -> next_free_blocks f = 0 ->
      (Z.land fsm_flags VDFS4_FSM_ALLOC_DELAYED = 0 -> length <= free_blocks_count f) -> free_blocks_count f + reserved_blocks_count f = 0).
Proof. apply get_free_block_spec. Qed.

Lemma get_free_block_correct_witness :
  exists f b l f', @vdfs4_fsm_get_free_block Plain.plain_rbtree PlainFind.plain_find true small_sbi 5 8 8 2 f
                   = Ok (b, l, f')
  /\ granted small_sbi 2 f [] 8 2 b l f'.
Proof.
  destruct small_state as (f & fa & _ & Hi & Ha & _ & Hf & Hr & _).
  destruct (@get_free_block_correct _ Plain.plain_rbtree_laws _ PlainFind.plain_find_laws true small_sbi 2 f fa []
    5 8 8 2 Hi Ha) as (b & l & f' & E & Hg & _).
  { split; [lia|]; split; [lia|]; split; [by cbn|]; intros _; vm_compute; repeat split; discriminate || reflexivity. }
  exists f, b, l, f'; split; [exact E|exact Hg].
Defined.

(** C25: vdfs4_fsm_put_free_block of blocks that are in use never stops the
    system and keeps the manager consistent: exactly their bits are cleared;
    blocks never linked to a file count as free (or reserved) space at once,
    others join the next-free area, not the free area, until the commit. *)
Theorem put_free_block_correct `{RbtreeLaws} (sbi : sb_info) (nb : Z) (f : fsm_info)
    (fa na : list range) (b n fsm_flags : Z) :
  fsm_inv sbi nb f fa na -> 0 < b -> 0 < n -> b + n <= volume_blocks_count sbi -> free_flags_ok fsm_flags ->
  (forall x, b <= x < b + n -> used sbi (data f) x = true) ->
  exists f' na', vdfs4_fsm_put_free_block sbi b n fsm_flags f = Ok f'
  /\ fsm_inv sbi nb f' fa na' /\ released fsm_flags b n f f' na na'
  /\ (forall x, used sbi (data f') x = upd (used sbi (data f)) b n false x).
Proof.
  intros Hi Hb Hn Hl Hf Hu.
  destruct (free_block_chunk_spec sbi nb f fa na b n fsm_flags Hi Hb Hn Hl Hf Hu)
    as (f' & na' & E & Hi' & Hr & Hu' & _); exists f', na'; auto.
Qed.

Lemma put_free_block_correct_witness :
  exists f f', @vdfs4_fsm_put_free_block Plain.plain_rbtree small_sbi 5 1 0 f = Ok f'
  /\ used small_sbi (data f) 5 = true /\ used small_sbi (data f') 5 = false.
Proof.
  destruct small_state as (f & fa & _ & Hi & _ & Hd & _).
  assert (forall x, 5 <= x < 5 + 1 -> used small_sbi (data f) x = true) as Hu
    by (intros x Hx; rewrite Hd; replace x with 5 by lia; vm_compute; reflexivity).
  destruct (@put_free_block_correct _ Plain.plain_rbtree_laws small_sbi 2 f fa [] 5 1 0 Hi)
    as (f' & na' & E & _ & _ & Hx); [lia|lia|cbn; lia|by intros []|exact Hu|].
  exists f, f'; split; [exact E|]; split; [apply Hu; lia|]; by rewrite Hx.
Defined.

(** C26: The commit ends with all freed blocks counted as free and the next-free
    area empty; what was free stays free, every tracked freed range is in the
    free area unless the node limit left it untracked, no bit changes, and every
    discard sent to the device is for an erase block without a used block. *)
Theorem commit_free_space_correct `{RbtreeLaws} (debug : bool) (sbi : sb_info) (nb : Z)
    (discard : Z -> Z -> Z) (f : fsm_info) (fa na : list range) :
  fsm_inv sbi nb f fa na -> (forall s n, discard s n = 0 \/ discard s n = - EOPNOTSUPP) ->
  exists f' fa' log, vdfs4_commit_free_space debug sbi discard f = Ok (f', log)
  /\ fsm_inv sbi nb f' fa' [] /\ data f' = data f
  /\ free_blocks_count f' = free_blocks_count f + next_free_blocks f
  /\ reserved_blocks_count f' = reserved_blocks_count f /\ next_free_blocks f' = 0
  /\ (forall x, covers fa x -> covers fa' x)
  /\ (untracked_blocks f' = untracked_blocks f + untracked_next_free f -> forall x, covers na x -> covers fa' x)
  /\ discards_unused sbi (data f) log
  /\ Forall (fun v => v <> VDFS4_DELAYED_DISCARD_MAGIC) (erase_blocks_counters f').
Proof. apply commit_spec. Qed.

Lemma commit_free_space_correct_witness :
  exists f f' log, @vdfs4_commit_free_space Plain.plain_rbtree true small_sbi (fun _ _ => 0) f = Ok (f', log)
  /\ next_free_blocks f' = 0 /\ discards_unused small_sbi (data f) log.
Proof.
  destruct small_state as (f & fa & _ & Hi & _ & _ & Hf & _).
  destruct (@commit_free_space_correct _ Plain.plain_rbtree_laws true small_sbi 2 (fun _ _ => 0) f fa [] Hi)
    as (f' & fa' & log & E & _ & _ & _ & _ & Hn & _ & _ & Hdis & _); [by left|].
  exists f, f', log; split; [exact E|]; split; [exact Hn|exact Hdis].
Defined.

(** Allocating blocks, freeing them as file data and committing restores the
    bitmap and the counts: every block has the use it had before, and nothing is
    left waiting for a commit. *)
Theorem get_put_commit_roundtrip `{RbtreeLaws} `{FindBitLaws} (debug : bool) (sbi : sb_info) (nb : Z)
    (discard : Z -> Z -> Z) (f : fsm_info) (fa : list range) (block_offset length : Z) :
  fsm_inv sbi nb f fa [] -> allocs f = [] -> fa <> [] ->
  0 <= block_offset < 2 ^ 32 -> 0 < length <= free_blocks_count f ->
  length < 2 ^ 32 -> (forall s n, discard s n = 0 \/ discard s n = - EOPNOTSUPP) ->
  exists b l f1 f2 f3 log,
    vdfs4_fsm_get_free_block debug sbi block_offset length 1 0 f = Ok (b, l, f1)
    /\ 0 < b /\ 0 < l <= length
    /\ vdfs4_fsm_put_free_block sbi b l 0 f1 = Ok f2
    /\ vdfs4_commit_free_space debug sbi discard f2 = Ok (f3, log)
    /\ (forall x, used sbi (data f3) x = used sbi (data f) x)
    /\ free_blocks_count f3 + reserved_blocks_count f3 = free_blocks_count f + reserved_blocks_count f + untracked_next_free f
    /\ next_free_blocks f3 = 0 /\ exists fa', fsm_inv sbi nb f3 fa' [].
Proof.
  intros Hi Hal Hne Hoff Hlen Hw Hd.
  destruct (get_free_block_spec debug sbi nb f fa [] block_offset length 1 0 Hi Hal)
    as (b & l & f1 & E1 & (fa1 & Hi1 & _ & Hg) & Hnone & _).
  { split; [done|]; split; [lia|]; split; by intros []. }
  destruct Hg as [[-> _]|(Hb & Hl & Hlim & Hcl & Hset & Hcnt & _)]; [by exfalso; apply Hne, Hnone; [..|lia]|].
  destruct (free_block_chunk_spec sbi nb f1 fa1 [] b l 0 Hi1 Hb ltac:(lia) Hlim)
    as (f2 & na & E2 & Hi2 & Hrel & Hclr & _); [by intros []|by intros x Hx; rewrite Hset, upd_in|].
  destruct (commit_spec debug sbi nb discard f2 fa1 na Hi2 Hd)
    as (f3 & fa3 & log & E3 & Hi3 & Hd3 & Hf3 & Hr3 & Hn3 & _).
  exists b, l, f1, f2, f3, log; do 5 (split; [done|]); split.
  { intros x; rewrite Hd3, Hclr; unfold upd; destruct ((b <=? x) && (x <? b + l)) eqn:Ex.
    - bools; symmetry; apply Hcl; lia.
    - rewrite Hset; unfold upd; by rewrite Ex. }
  split; [|split; [done|by exists fa3]].
  unfold released in Hrel; cbn in Hrel; destruct Hrel as (Rf & Rr & Rcase).
  pose proof (no_blocks _ _ _ (fo_next _ _ _ _ (fi_ok _ _ _ _ _ Hi2))) as N2.
  destruct Rcase as [((_ & Ht & _) & Ru)|(_ & -> & Ru)].
  all: change (total []) with 0 in *; lia.
Qed.

Lemma get_put_commit_roundtrip_witness :
  exists f b l f1 f2 f3 log,
    @vdfs4_fsm_get_free_block Plain.plain_rbtree PlainFind.plain_find true small_sbi 10 4 1 0 f = Ok (b, l, f1)
    /\ @vdfs4_fsm_put_free_block Plain.plain_rbtree small_sbi b l 0 f1 = Ok f2
    /\ @vdfs4_commit_free_space Plain.plain_rbtree true small_sbi (fun _ _ => 0) f2 = Ok (f3, log)
    /\ (forall x, used small_sbi (data f3) x = used small_sbi (data f) x).
Proof.
  destruct small_state as (f & fa & _ & Hi & Ha & _ & Hf & Hr & Hne).
  destruct (@get_put_commit_roundtrip _ Plain.plain_rbtree_laws _ PlainFind.plain_find_laws true small_sbi 2
    (fun _ _ => 0) f fa 10 4 Hi Ha Hne) as (b & l & f1 & f2 & f3 & log & E1 & _ & _ & E2 & E3 & Hx & _);
    [lia|lia|lia|by left|].
  exists f, b, l, f1, f2, f3, log; split; [exact E1|]; split; [exact E2|]; split; [exact E3|exact Hx].
Defined.

(** C28: On a consistent manager the debug verification of the trees, hash lists
    and counters never stops the system. When memory for the nodes does not lack
    ([allocs f = []]), rebuilding the tree from the bitmap trips no check,
    ends and keeps the manager consistent, the next-free area, the bitmap, the
    erase counters and the sum of free and freed blocks included. *)
Theorem rebuild_tree_correct `{RbtreeLaws} `{FindBitLaws} (debug : bool) (sbi : sb_info) (nb : Z)
    (f : fsm_info) (fa na : list range) :
  fsm_inv sbi nb f fa na -> allocs f = [] ->
  fsm_verify_state debug f = Ok tt
  /\ exists f' fa', fsm_rebuild_tree debug sbi f = Ok f' /\ fsm_inv sbi nb f' fa' na /\ rebuilt f f'
     /\ fsm_verify_state debug f' = Ok tt.
Proof.
  intros Hi Ha; split; [exact (verify_state_spec _ debug f fa na (fi_ok _ _ _ _ _ Hi))|].
  destruct (rebuild_tree_spec debug sbi nb f fa na Hi Ha) as (f' & fa' & E & Hi' & Hr & _).
  exists f', fa'; do 3 (split; [done|]); exact (verify_state_spec _ debug f' fa' na (fi_ok _ _ _ _ _ Hi')).
Qed.

(** What lack of memory does to a rebuild: 34 blocks are granted, 9 of them, across the
    end of a bitmap block, are freed and wait for the commit; the second node of the
    rebuilt tree cannot be allocated, so the front of the freed range is off the tree
    and its rest is in it, which fsm_cut_next_free takes for corruption. *)
Definition freed_across (l : list bool) : run fsm_info :=
  f ← @vdfs4_fsm_build_trees Plain.plain_rbtree PlainFind.plain_find true small_sbi small_blank;
  '(b, n, f) ← @vdfs4_fsm_get_free_block Plain.plain_rbtree PlainFind.plain_find true small_sbi 6 34 34 0 f;
  f ← @vdfs4_fsm_put_free_block Plain.plain_rbtree small_sbi 28 9 0 f;
  Ok (set_allocs l f).

Example rebuild_without_memory :
  (f ← freed_across []; @fsm_rebuild_tree Plain.plain_rbtree PlainFind.plain_find true small_sbi f) <> Bug
  /\ (f ← freed_across [true; false]; @fsm_rebuild_tree Plain.plain_rbtree PlainFind.plain_find true small_sbi f) = Bug.
Proof. split; [vm_compute; discriminate|vm_compute; reflexivity]. Qed.

Lemma rebuild_tree_correct_witness :
  exists f f', @fsm_rebuild_tree Plain.plain_rbtree PlainFind.plain_find true small_sbi f = Ok f' /\ rebuilt f f'.
Proof.
  destruct small_state as (f & fa & _ & Hi & Ha & _).
  destruct (@rebuild_tree_correct _ Plain.plain_rbtree_laws _ PlainFind.plain_find_laws true small_sbi 2 f fa [] Hi Ha)
    as (_ & f' & fa' & E & _ & Hr & _).
  exists f, f'; split; [exact E|exact Hr].
Defined.

(** Freeing a range of the volume with a block that is already clear is
    tolerated: the call returns, every bit of the range is cleared, but no block
    of the range is accounted: the areas and all counters stay as they were. *)
Theorem put_clear_block_skipped `{Rbtree} (sbi : sb_info) (nb : Z) (f : fsm_info) (fa na : list range)
    (b n fsm_flags k : Z) :
  fsm_inv sbi nb f fa na -> 0 < b -> 0 < n -> b + n <= volume_blocks_count sbi ->
  b <= k < b + n -> used sbi (data f) k = false ->
  exists m dirt, vdfs4_fsm_put_free_block sbi b n fsm_flags f = Ok (set_dirty dirt (set_data m f))
  /\ (forall x, used sbi m x = upd (used sbi (data f)) b n false x).
Proof.
  intros Hi Hb Hn Hlim Hk Hu; pose proof (fi_bitmap _ _ _ _ _ Hi) as Hbm.
  pose proof (bo_vol _ _ _ Hbm) as Hv; assert (0 <= b) as Hb0 by lia.
  unfold vdfs4_fsm_put_free_block, fsm_free_block_chunk.
  rewrite (u64_small (b + n)), (proj2 (Z.ltb_ge _ (b + n))), (u32_small b) by lia.
  rewrite (clear_bits_used sbi (data f) nb Hbm b n Hb0 Hn Hlim); cbn [mbind run_bind].
  rewrite decide_False by (rewrite (Forall_map_phys (fun j => bit (data f) j = true)); intros Ha;
    specialize (Ha k Hk); unfold used in Hu; congruence).
  change (negb (- EFAULT =? 0)) with true; cbn [mbind run_bind].
  destruct (mark_chunk_ok sbi nb f (set_data (put_bits (data f) (map (phys (block_size sbi) FSM_BMP_MAGIC_LEN CRC_SIZE)
    (seqZ b n)) false) f) fa na b n Hi Hb0 ltac:(lia) Hlim) as (dirt & ->).
  eexists _, dirt; split; [reflexivity|].
  intros x; apply (used_put_bits sbi (data f) nb Hbm b n Hb0 Hlim).
Qed.

Lemma put_clear_block_skipped_witness :
  exists f m dirt, @vdfs4_fsm_put_free_block Plain.plain_rbtree small_sbi 5 2 0 f = Ok (set_dirty dirt (set_data m f))
  /\ used small_sbi (data f) 5 = true /\ used small_sbi m 5 = false.
Proof.
  destruct small_state as (f & fa & _ & Hi & _ & Hd & _).
  destruct (@put_clear_block_skipped Plain.plain_rbtree small_sbi 2 f fa [] 5 2 0 6 Hi) as (m & dirt & E & Hx);
    [lia|lia|cbn; lia|lia|rewrite Hd; vm_compute; reflexivity|].
  exists f, m, dirt; split; [exact E|]; split; [rewrite Hd; vm_compute; reflexivity|]; by rewrite Hx.
Defined.

(** C29: fsm->pages has DIV_ROUND_UP(volume_blocks_count, bits per page) entries.
    On a volume of whole bitmap pages of 4096-byte blocks, the loop over the
    pages of a chunk that ends at the end of the volume runs one entry past the
    array; on any other volume of such blocks it stays inside. *)
Theorem last_chunk_pages (sbi : sb_info) (f : fsm_info) (b n : Z) :
  block_size sbi = 4096 -> block_size_shift sbi = 12 ->
  0 < volume_blocks_count sbi < 2 ^ 32 -> page_count sbi = fsm_page_count sbi ->
  0 <= b -> 0 < n -> b + n = volume_blocks_count sbi ->
  mark_chunk sbi (page_of sbi b) (page_of sbi (b + n)) f = Fault
  <-> volume_blocks_count sbi mod 32640 = 0.
Proof.
  intros Hbs Hsh Hv Hpc Hb Hn He; rewrite He; unfold mark_chunk, page_of, fsm_page_count in *.
  rewrite Hbs, Hsh; change (VDFS4_BIT_BLKSIZE 4096 FSM_BMP_MAGIC_LEN) with 32640; cbn [Z.sub Z.opp Z.add].
  change (PAGE_SHIFT - 12) with 0; rewrite !Z.shiftr_0_r.
  assert (0 <= b / 32640 <= volume_blocks_count sbi / 32640 /\ volume_blocks_count sbi / 32640 < 2 ^ 32) as [Hd Hd'].
  { split; [split; [apply Z.div_pos; lia|apply Z.div_le_mono; lia]|apply Z.div_lt_upper_bound; lia]. }
  rewrite !u32_small by lia; change ((Z.shiftl 1 PAGE_SHIFT - FSM_BMP_MAGIC_LEN - CRC_SIZE) * 8) with 32640 in Hpc.
  assert (page_count sbi = volume_blocks_count sbi / 32640 + (if volume_blocks_count sbi mod 32640 =? 0 then 0 else 1)) as Epc.
  { pose proof (Z.div_mod (volume_blocks_count sbi) 32640 ltac:(lia)) as Hdm.
    pose proof (Z.mod_pos_bound (volume_blocks_count sbi) 32640 ltac:(lia)).
    rewrite Hpc, u32_small.
    - destruct (Z.eqb_spec (volume_blocks_count sbi mod 32640) 0).
      + symmetry; apply Z.div_unique with 32639; lia.
      + symmetry; apply Z.div_unique with (volume_blocks_count sbi mod 32640 - 1); lia.
    - split; [apply Z.div_pos; lia|apply Z.div_lt_upper_bound; lia]. }
  destruct (Z.eqb_spec (volume_blocks_count sbi mod 32640) 0) as [Hm|Hm]; split; try done.
  - intros _; apply mark_pages_past; lia.
  - rewrite mark_pages_ok by lia; discriminate.
Qed.

Lemma last_chunk_pages_witness :
  let sbi := SbInfo 32640 4096 12 14 12 8 3 3 1 true in
  mark_chunk sbi (page_of sbi 32639) (page_of sbi (32639 + 1)) small_blank = Fault.
Proof. apply (last_chunk_pages _ small_blank 32639 1); try reflexivity; cbn; lia. Defined.
