(* ===== verification/FileSpace.v ===== *)
(** The free-space manager as the block map of files sees it: what a request for
    blocks, the return of blocks, a reservation and a commit promise, over the
    operations of src/linux/fs/vdfs4/fsm.c. *)

From Stdlib Require Import ZArith Lia Bool List.
From stdpp Require Import base list gmap sets.
From S2P Require Import Prelude Bitmap Count FindBit Ranges Rbtree FsmTree FsmSpace Fsm FsmCounters FsmBuild FsmAlloc FsmRebuild FsmTheorems.

Open Scope Z_scope.

(** ** Memory is never short

    With the empty list of outcomes every node allocation succeeds; the operations
    leave it empty. *)

Ltac run_step H :=
  match type of H with
  | Ok _ = Ok _ => injection H as H; subst
  | Fault = Ok _ => discriminate H
  | Bug = Ok _ => discriminate H
  | mbind _ ?m = Ok _ => let E := fresh "E" in destruct m eqn:E; cbn [mbind run_bind] in H
  | run_bind _ ?m = Ok _ => let E := fresh "E" in destruct m eqn:E; cbn [mbind run_bind] in H
  | (if ?b then _ else _) = Ok _ => let E := fresh "E" in destruct b eqn:E
  | match ?x with _ => _ end = Ok _ => let E := fresh "E" in destruct x eqn:E
  end.

Ltac run_all H := repeat (cbn [mbind run_bind] in H; run_step H).
Ltac run_deep := repeat match goal with X : _ = Ok _ |- _ => progress run_all X end.

Section Quiet.
Context `{Rbtree} `{FindBit} (debug : bool) (sbi : sb_info).

Lemma alloc_quiet (f f' : fsm_info) (n : option positive) : allocs f = [] -> fsm_alloc_node f = (n, f') -> allocs f' = [].
Proof. unfold fsm_alloc_node; intros ->; by intros [= <- <-]. Qed.

Lemma hash_quiet (n : positive) (f f' : fsm_info) : fsm_hash n f = Ok f' -> allocs f' = allocs f.
Proof. unfold fsm_hash; intros E; run_all E; done. Qed.

Lemma alloc_if_quiet (b : bool) (f f' : fsm_info) (n : option positive) :
  (if b then fsm_alloc_node f else (None, f)) = (n, f') -> allocs f = [] -> allocs f' = [].
Proof. destruct b; [intros; by eapply alloc_quiet|by intros [= <- <-]]. Qed.

Ltac quiet :=
  repeat match goal with
  | X : (if _ then fsm_alloc_node _ else _) = _ |- _ => apply alloc_if_quiet in X; [|cbn; congruence]
  | X : fsm_alloc_node _ = _ |- _ => apply alloc_quiet in X; [|cbn; congruence]
  | X : fsm_hash _ _ = Ok _ |- _ => apply hash_quiet in X
  end; cbn in *; congruence.

Lemma append_quiet (last last' : option positive) (s length : Z) (f f' : fsm_info) :
  allocs f = [] -> fsm_append_free_space last s length f = Ok (last', f') -> allocs f' = [].
Proof. intros Ha E; unfold fsm_append_free_space in E; run_deep; quiet. Qed.

Lemma build_loop_quiet (fuel : nat) (bs ds b sz : Z) (last last' : option positive) (f f' : fsm_info) :
  allocs f = [] -> build_loop sbi fuel bs ds b sz last f = Ok (last', f') -> allocs f' = [].
Proof.
  revert bs ds b sz last f; induction fuel as [|fuel IH]; intros bs ds b sz last f Ha E; cbn [build_loop] in E; destruct (_ <=? bs); try discriminate E; try (by injection E as _ <-).
  set (p := if _ =? _ then _ else _) in E; destruct p as [bs' b'].
  destruct (_ <? _); cbn [mbind run_bind] in E; [|by apply IH in E].
  destruct (fsm_append_free_space _ _ _ _) as [[l1 f1]| |] eqn:Ep; cbn [mbind run_bind] in E; try discriminate E; apply append_quiet in Ep; [|done]; by apply IH in E.
Qed.

Lemma from_node_quiet (n : positive) (s length : Z) (f f' : fsm_info) :
  allocs f = [] -> fsm_allocate_from_node n s length f = Ok f' -> allocs f' = [].
Proof.
  intros Ha E; unfold fsm_allocate_from_node in E; run_deep; quiet.
Qed.

Lemma cut_loop_quiet (l : list positive) (f f' : fsm_info) : allocs f = [] -> cut_loop l f = Ok f' -> allocs f' = [].
Proof.
  revert f; induction l as [|n l IH]; intros f Ha E; cbn [cut_loop] in E; [by injection E as <-|].
  destruct (node_at n (heap f)) as [next| |]; cbn [mbind run_bind] in E; try discriminate E; destruct (fsm_find_node _ _ _) as [node| |]; cbn [mbind run_bind] in E; try discriminate E.
  match type of E with mbind _ ?m = _ => destruct m as [f1| |] eqn:E1 end; cbn [mbind run_bind] in E; try discriminate E; apply IH in E; [done|].
  destruct node; run_deep; [by eapply from_node_quiet|done].
Qed.

Lemma free_list_quiet (l : list positive) (f : fsm_info) : allocs (fsm_free_node_list l f) = allocs f.
Proof. unfold fsm_free_node_list; revert f; induction l as [|n l IH]; intros f; [done|]; cbn [foldl]; by rewrite IH. Qed.

Lemma free_tree_quiet (f : fsm_info) : allocs (fsm_free_tree f) = allocs f.
Proof.
  unfold fsm_free_tree; generalize (free_list f); intros l; revert f; induction l as [|a l IH]; intros f; [done|]; cbn [foldl]; rewrite IH; apply free_list_quiet.
Qed.

Lemma build_tree_quiet (f f' : fsm_info) : allocs f = [] -> fsm_build_tree sbi f = Ok f' -> allocs f' = [].
Proof.
  intros Ha E; unfold fsm_build_tree in E; destruct (build_loop _ _ _ _ _ _ _ _) as [[last f1]| |] eqn:E1; cbn [mbind run_bind] in E; try discriminate E; apply build_loop_quiet in E1; [|done].
  destruct last; [apply hash_quiet in E; congruence|by injection E as <-].
Qed.

Lemma rebuild_quiet (f f' : fsm_info) : allocs f = [] -> fsm_rebuild_tree debug sbi f = Ok f' -> allocs f' = [].
Proof.
  intros Ha E; unfold fsm_rebuild_tree in E; destruct (_ && _); [by injection E as <-|].
  match type of E with mbind _ ?m = _ => destruct m as [f1| |] eqn:E1 end; cbn [mbind run_bind] in E; try discriminate E; apply build_tree_quiet in E1.
  2: { unfold fsm_init_tree; cbn [allocs set_free_blocks_count set_untracked_blocks set_free_list set_free_area set_free_area_nodes]; rewrite free_tree_quiet; by destruct (_ =? 0). }
  unfold fsm_cut_next_free in E; destruct (cut_loop _ _) as [f2| |] eqn:E2; cbn [mbind run_bind] in E; try discriminate E; apply cut_loop_quiet in E2; [|done].
  destruct (fsm_verify_state debug f2); cbn [mbind run_bind] in E; try discriminate E; by injection E as <-.
Qed.

Lemma try_quiet (s min length : Z) (f f' : fsm_info) (got : option (Z * Z)) : allocs f = [] -> allocate_try s min length f = Ok (got, f') -> allocs f' = [].
Proof.
  intros Ha E; unfold allocate_try in E; destruct (hint_node s min f) as [hit| |]; cbn [mbind run_bind] in E; try discriminate E.
  match type of E with mbind _ ?m = _ => destruct m as [[[[n s1] ml]|]| |] eqn:E1 end; cbn [mbind run_bind] in E; try discriminate E; [|by injection E as _ <-].
  destruct (fsm_allocate_from_node n s1 (Z.min length ml) f) as [f1| |] eqn:E2; cbn [mbind run_bind] in E; try discriminate E; injection E as _ <-; by eapply from_node_quiet.
Qed.

Lemma allocate_quiet (s min length b l : Z) (f f' : fsm_info) : allocs f = [] -> fsm_allocate_space debug sbi s min length f = Ok (b, l, f') -> allocs f' = [].
Proof.
  intros Ha E; unfold fsm_allocate_space in E; destruct (allocate_try s min length f) as [[got f1]| |] eqn:E1; cbn [mbind run_bind] in E; try discriminate E; apply try_quiet in E1; [|done].
  destruct got as [[b1 l1]|]; [by injection E as _ _ <-|]; destruct (_ =? 0); [destruct (fsm_verify_state debug f1); cbn [mbind run_bind] in E; try discriminate E; by injection E as _ _ <-|].
  destruct (fsm_rebuild_tree debug sbi f1) as [f2| |] eqn:E2; cbn [mbind run_bind] in E; try discriminate E; apply rebuild_quiet in E2; [|done].
  destruct (allocate_try s min length f2) as [[got f3]| |] eqn:E3; cbn [mbind run_bind] in E; try discriminate E; apply try_quiet in E3; [|done].
  destruct got as [[b1 l1]|]; [by injection E as _ _ <-|]; destruct (fsm_verify_state debug f3); cbn [mbind run_bind] in E; try discriminate E; by injection E as _ _ <-.
Qed.

Lemma mark_quiet (n : nat) (i : Z) (f f' : fsm_info) : mark_pages sbi n i f = Ok f' -> allocs f' = allocs f.
Proof. revert i f; induction n as [|n IH]; intros i f E; cbn [mark_pages] in E; [by injection E as <-|]; destruct (_ && _); [|done]; by apply IH in E. Qed.

Lemma get_free_quiet (off length min flags b l : Z) (f f' : fsm_info) :
  allocs f = [] -> Z.land flags VDFS4_FSM_ALLOC_ALIGNED = 0 -> vdfs4_fsm_get_free_block debug sbi off length min flags f = Ok (b, l, f') -> allocs f' = [].
Proof.
  intros Ha Hal E; unfold vdfs4_fsm_get_free_block in E; destruct (_ && _); [by injection E as _ _ <-|]; rewrite Hal in E; cbn [Z.eqb] in E.
  destruct (fsm_allocate_space _ _ _ _ _ _) as [[[b1 l1] f1]| |] eqn:E1; cbn [mbind run_bind] in E; try discriminate E; apply allocate_quiet in E1; [|done].
  destruct (b1 =? 0); [by injection E as _ _ <-|]; destruct (get_free_commit sbi b1 l1 flags f1) as [f2| |] eqn:E2; cbn [mbind run_bind] in E; try discriminate E; injection E as _ _ <-.
  unfold get_free_commit, fsm_inc_erase_blocks_counters, mark_chunk in E2; run_deep; repeat match goal with X : mark_pages _ _ _ _ = Ok _ |- _ => apply mark_quiet in X end.
  all: repeat match goal with X : allocs _ = _ |- _ => progress cbn in X | X : context [if ?b then _ else _] |- _ => destruct b end; congruence.
Qed.

Lemma put_free_quiet (b n flags : Z) (f f' : fsm_info) : allocs f = [] -> fsm_free_block_chunk sbi b n flags f = Ok f' -> allocs f' = [].
Proof.
  intros Ha E; unfold fsm_free_block_chunk, fsm_dec_erase_blocks_counters, fsm_add_free_space, mark_chunk in E; run_deep.
  all: repeat match goal with
       | X : mark_pages _ _ _ _ = Ok _ |- _ => apply mark_quiet in X
       | X : fsm_alloc_node _ = _ |- _ => apply alloc_quiet in X; [|cbn; repeat match goal with |- context [if ?b then _ else _] => destruct b end; done]
       end.
  all: unfold fsm_add_merged in *; repeat match goal with X : context [let '(_, _) := ?p in _] |- _ => destruct p as [[|] ?] end; cbn in *;
       repeat match goal with X : context [if ?b then _ else _] |- _ => destruct b; cbn in * end; try congruence.
Qed.

Lemma commit_node_quiet (n : positive) (f f' : fsm_info) : fsm_commit_node n f = Ok f' -> allocs f' = allocs f.
Proof.
  intros E; unfold fsm_commit_node, fsm_commit_merged in E; run_deep.
  all: repeat match goal with X : fsm_hash _ _ = Ok _ |- _ => apply hash_quiet in X end; try match goal with o : option positive |- _ => destruct o end; cbn in *; congruence.
Qed.

Lemma commit_loop_quiet (l : list positive) (f f' : fsm_info) : fsm_commit_loop l f = Ok f' -> allocs f' = allocs f.
Proof.
  revert f; induction l as [|n l IH]; intros f E; cbn [fsm_commit_loop] in E; [by injection E as <-|].
  run_step E; try discriminate E; match goal with X : fsm_commit_node _ _ = Ok _ |- _ => apply commit_node_quiet in X; rewrite <- X end; by apply IH.
Qed.

Lemma commit_quiet (discard : Z -> Z -> Z) (f f' : fsm_info) (log : list (Z * Z)) :
  vdfs4_commit_free_space debug sbi discard f = Ok (f', log) -> allocs f' = allocs f.
Proof.
  intros E; unfold vdfs4_commit_free_space, fsm_commit_free_space, fsm_delayed_discard in E; run_deep.
  all: match goal with X : fsm_commit_loop _ _ = Ok _ |- _ => apply commit_loop_quiet in X end; repeat match goal with X : context [if ?b then _ else _] |- _ => destruct b end; cbn in *; congruence.
Qed.

End Quiet.

(** ** What the block map of a file relies on *)

Section Space.
Context `{RbtreeLaws} `{FindBitLaws} (debug : bool) (sbi : sb_info) (nb : Z).

#[local] Abbreviation vol := (volume_blocks_count sbi).

(** A consistent manager with memory for its nodes: no allocation of a node fails. *)
Definition space_ok (f : fsm_info) : Prop := allocs f = [] /\ exists fa na, fsm_inv sbi nb f fa na.

(** Block [x] is in use. *)
Definition taken (f : fsm_info) (x : Z) : Prop := used sbi (data f) x = true.

(** Blocks of the volume, not the first. *)
Definition in_volume (b n : Z) : Prop := 0 < b /\ 0 < n /\ b + n <= vol.

Definition FLAG_OK (flags : Z) : Prop := flags = 0 \/ flags = VDFS4_FSM_ALLOC_DELAYED.

(** A request that is not aligned gets blocks that were clear, or none. *)
Lemma get_space (f : fsm_info) (off length min flags : Z) :
  space_ok f -> 0 <= off < 2 ^ 32 -> 0 < length < 2 ^ 32 -> FLAG_OK flags -> (flags <> 0 -> length <= reserved_blocks_count f) ->
  exists b l f', vdfs4_fsm_get_free_block debug sbi off length min flags f = Ok (b, l, f') /\ space_ok f'
  /\ (next_free_blocks f = 0 -> next_free_blocks f' = 0)
  /\ ((b = 0 /\ data f' = data f /\ reserved_blocks_count f' = reserved_blocks_count f
       /\ (next_free_blocks f = 0 -> (flags = 0 -> length <= free_blocks_count f) -> free_blocks_count f + reserved_blocks_count f = 0))
      \/ (in_volume b l /\ l <= length /\ (forall x, b <= x < b + l -> ~ taken f x)
          /\ (forall x, taken f' x <-> taken f x \/ b <= x < b + l)
          /\ reserved_blocks_count f' = reserved_blocks_count f - (if flags =? 0 then 0 else l))).
Proof.
  intros (Ha & fa & na & Hi) Ho Hl Hf Hr; assert (Z.land flags VDFS4_FSM_ALLOC_ALIGNED = 0) as Hal by (by destruct Hf as [->| ->]).
  assert (Z.land flags VDFS4_FSM_ALLOC_DELAYED = flags) as Hd by (by destruct Hf as [->| ->]).
  destruct (get_free_block_spec debug sbi nb f fa na off length min flags Hi Ha) as (b & l & f' & E & (fa' & Hi' & Hu & Hc) & _ & Hno).
  { split; [done|]; split; [done|]; rewrite Hal, Hd; split; [done|by intros []]. }
  exists b, l, f'; split; [done|]; split; [split; [by eapply get_free_quiet|by exists fa', na]|]; split.
  { intros Hn; destruct (settled_next sbi nb f fa na Hi Hn) as [-> Hz]; pose proof (fi_ok _ _ _ _ _ Hi') as [_ _ Nx _ [_ Nn _]].
    pose proof (no_blocks _ _ _ Nx) as Nb; cbn in Nb; lia. }
  rewrite Hd in Hc, Hno; destruct Hc as [(-> & Ed & Er)|(Hb & Hl' & Hv & Hcl & Hset & _ & _ & Er)]; [left|right].
  { split; [done|]; split; [done|]; split; [done|]; intros Hn Hp; by apply Hno. }
  split; [by split; [|lia]|]; split; [lia|]; split; [intros x Hx Ht; unfold taken in Ht; by rewrite Hcl in Ht|]; split; [|done].
  intros x; unfold taken; rewrite Hset; unfold upd; destruct (Z.leb_spec b x), (Z.ltb_spec x (b + l)); cbn [andb]; intuition lia.
Qed.

(** Blocks in use are given back. *)
Lemma put_space (f : fsm_info) (b n flags : Z) :
  space_ok f -> in_volume b n -> (forall x, b <= x < b + n -> taken f x) -> free_flags_ok flags ->
  exists f', vdfs4_fsm_put_free_block sbi b n flags f = Ok f' /\ space_ok f'
  /\ (forall x, taken f' x <-> taken f x /\ ~ b <= x < b + n)
  /\ reserved_blocks_count f' = reserved_blocks_count f
       + (if Z.land flags VDFS4_FSM_FREE_UNUSED =? 0 then 0 else if Z.land flags VDFS4_FSM_FREE_RESERVE =? 0 then 0 else n).
Proof.
  intros (Ha & fa & na & Hi) (Hb & Hn & Hv) Ht Hf.
  destruct (free_block_chunk_spec sbi nb f fa na b n flags Hi Hb Hn Hv Hf Ht) as (f' & na' & E & Hi' & Hr & Hu & _).
  exists f'; split; [done|]; split; [split; [by eapply put_free_quiet|by exists fa, na']|]; split.
  - intros x; unfold taken; rewrite Hu; unfold upd; destruct (Z.leb_spec b x), (Z.ltb_spec x (b + n)); cbn [andb]; intuition (done || lia).
  - unfold released in Hr; destruct (_ =? 0); [destruct Hr as (_ & -> & _); lia|]; destruct Hr as (_ & _ & Hr); destruct (_ =? 0); destruct Hr as [_ ->]; lia.
Qed.

(** Moving blocks between the free and the reserved count. *)
Lemma move_space (f : fsm_info) (n : Z) :
  space_ok f -> - free_blocks_count f <= n <= reserved_blocks_count f ->
  let f' := set_reserved_blocks_count (reserved_blocks_count f - n) (set_free_blocks_count (free_blocks_count f + n) f) in
  space_ok f' /\ (forall x, taken f' x <-> taken f x).
Proof.
  intros (Ha & fa & na & Hi) Hn f'; split; [|done]; split; [done|]; exists fa, na; destruct Hi as [Hok]; split; auto.
  eapply fsm_ok_same; [..|exact Hok]; try done; destruct Hok as [_ _ _ _ [C1 C2 C3]]; split; cbn; lia.
Qed.

(** A commit takes no block and makes the freed ones available. *)
Lemma commit_space (discard : Z -> Z -> Z) (f : fsm_info) :
  space_ok f -> (forall s n, discard s n = 0 \/ discard s n = - EOPNOTSUPP) ->
  exists f' log, vdfs4_commit_free_space debug sbi discard f = Ok (f', log) /\ space_ok f'
  /\ (forall x, taken f' x <-> taken f x) /\ reserved_blocks_count f' = reserved_blocks_count f /\ next_free_blocks f' = 0.
Proof.
  intros (Ha & fa & na & Hi) Hd; destruct (commit_spec debug sbi nb discard f fa na Hi Hd) as (f' & fa' & log & E & Hi' & Ed & _ & Er & En & _).
  exists f', log; split; [done|]; split; [split; [by rewrite (commit_quiet _ _ _ _ _ _ E)|by exists fa', []]|].
  split; [intros x; unfold taken; by rewrite Ed|done].
Qed.

Lemma space_bounds (f : fsm_info) : space_ok f -> 0 <= free_blocks_count f /\ 0 <= reserved_blocks_count f
  /\ free_blocks_count f + reserved_blocks_count f <= vol < 2 ^ 32.
Proof.
  intros (_ & fa & na & Hi); pose proof (fi_ok _ _ _ _ _ Hi) as [Hv _ Nx _ [C1 C2 C3]]; pose proof (gapped_total_nonneg na (no_gapped _ _ _ Nx)); lia.
Qed.

End Space.
