(* ===== verification/FileMap.v ===== *)
(** The block map of a file, src/linux/fs/vdfs4: the extents in the fork of the
    inode and in the extents overflow tree (extents.c), the translation of
    logical into physical blocks, delayed and direct allocation (inode.c) and
    truncation (file.c).

    The functions run on the inode, the free-space manager of fsm.c and the
    extents tree. The B-tree under the extents tree is the interface [ExtTree],
    the metadata area (vdfs4_is_enospc, vdfs4_check_meta_space and the delayed
    commit) the interface [MetaArea]. Locks are not modelled: the functions run
    one at a time. *)

From Stdlib Require Import ZArith Lia Bool List.
From stdpp Require Import base list gmap sets.
From S2P Require Import Prelude RuntimeExtents FindBit Rbtree FsmTree Fsm.

Open Scope Z_scope.

Definition EPERM : Z := 1.
Definition VDFS4_EXTENTS_COUNT_IN_FORK : Z := 9.
Definition VDFS4_1ST_FILE_INO : Z := 9.
Definition IBLOCK_MAX_NUMBER : Z := 0xFFFFFFFE.
(** [~((sector_t) 0xffff)] *)
Definition VDFS4_INVALID_BLOCK : Z := 2 ^ 64 - 1 - 0xffff.

(** struct vdfs4_extent_info *)
Record extent_info : Type := Extent { first_block : Z; e_iblock : Z; block_count : Z }.

(** A record of the extents tree: struct vdfs4_exttree_lrecord. *)
Record exttree_record : Type := Xrec { x_object_id : Z; x_iblock : Z; x_begin : Z; x_length : Z }.

(** The kinds of inode the functions tell apart. *)
Inductive imode : Type := S_IFREG | S_IFLNK | S_IFCHR | S_IFBLK | S_IFOTHER.

#[export] Instance extent_eq_dec : EqDecision extent_info.
Proof. solve_decision. Defined.
#[export] Instance xrec_eq_dec : EqDecision exttree_record.
Proof. solve_decision. Defined.
#[export] Instance imode_eq_dec : EqDecision imode.
Proof. solve_decision. Defined.

(** struct vdfs4_inode_info with its fork and the VFS inode. [i_bytes] is the
    byte count that inode_add_bytes and inode_sub_bytes keep. *)
Record inode_info : Type := Inode {
  i_ino : Z;
  i_mode : imode;
  i_size : Z;
  total_block_count : Z;
  extents : list extent_info;
  used_extents : Z;
  runtime_extents : list rext;
  i_bytes : Z;
  i_dirty : bool
}.

Definition set_i_size (v : Z) (i : inode_info) : inode_info :=
  Inode (i_ino i) (i_mode i) v (total_block_count i) (extents i) (used_extents i) (runtime_extents i) (i_bytes i) (i_dirty i).
Definition set_extents (v : list extent_info) (i : inode_info) : inode_info :=
  Inode (i_ino i) (i_mode i) (i_size i) (total_block_count i) v (used_extents i) (runtime_extents i) (i_bytes i) (i_dirty i).
Definition set_used_extents (v : Z) (i : inode_info) : inode_info :=
  Inode (i_ino i) (i_mode i) (i_size i) (total_block_count i) (extents i) v (runtime_extents i) (i_bytes i) (i_dirty i).
Definition set_runtime_extents (v : list rext) (i : inode_info) : inode_info :=
  Inode (i_ino i) (i_mode i) (i_size i) (total_block_count i) (extents i) (used_extents i) v (i_bytes i) (i_dirty i).
Definition set_i_dirty (v : bool) (i : inode_info) : inode_info :=
  Inode (i_ino i) (i_mode i) (i_size i) (total_block_count i) (extents i) (used_extents i) (runtime_extents i) (i_bytes i) v.

(** [fork->total_block_count += n] and inode_add_bytes(inode, blocksize * n) *)
Definition add_blocks (blocksize n : Z) (i : inode_info) : inode_info :=
  Inode (i_ino i) (i_mode i) (i_size i) (total_block_count i +32 n) (extents i) (used_extents i) (runtime_extents i)
    (i_bytes i +64 blocksize * n) (i_dirty i).

(** [fork->total_block_count -= n] and inode_sub_bytes(inode, blocksize * n) *)
Definition sub_blocks (blocksize n : Z) (i : inode_info) : inode_info :=
  Inode (i_ino i) (i_mode i) (i_size i) (total_block_count i -32 n) (extents i) (used_extents i) (runtime_extents i)
    (i_bytes i -64 blocksize * n) (i_dirty i).

(** struct buffer_head *)
Record buffer_head : Type := Bh { b_size : Z; b_blocknr : Z; bh_mapped : bool; bh_new : bool; bh_delay : bool }.

(** ** The B-tree and the metadata area *)

(** The operations of src/linux/fs/vdfs4/btree.c that the extents tree uses:
    vdfs4_btree_find, _insert, _remove, and the store of a new length through the
    record that a search returned. *)
Class ExtTree (T : Type) : Type := {
  btree_find : Z * Z -> T -> res exttree_record * T;
  btree_insert : exttree_record -> T -> Z * T;
  btree_remove : Z * Z -> T -> Z * T;
  set_length : Z * Z -> Z -> T -> T
}.

(** What the file functions use of the metadata area: vdfs4_is_enospc,
    vdfs4_check_meta_space, and the delayed commit they flush. *)
Class MetaArea (M : Type) : Type := {
  vdfs4_is_enospc : Z -> M -> bool;
  vdfs4_check_meta_space : M -> fsm_info -> run (Z * M * fsm_info);
  flush_delayed_commit : M -> fsm_info -> run (M * fsm_info)
}.

(** The state: [answers] are the outcomes of the kernel's allocators and of the
    zeroing of blocks, in order; once they are used up all succeed with 0. *)
Record world (T M : Type) : Type := World {
  inode : inode_info;
  fsm : fsm_info;
  tree : T;
  area : M;
  answers : list Z
}.
Arguments World {T M}.
Arguments inode {T M}.
Arguments fsm {T M}.
Arguments tree {T M}.
Arguments area {T M}.
Arguments answers {T M}.

Section Ops.
Context {T M : Type}.

Definition io (A : Type) : Type := world T M -> run (A * world T M).

(** The result [a] with the state as it is. *)
Definition ret {A : Type} (a : A) : io A := fun w => Ok (a, w).
#[global] Instance io_bind : MBind io := fun A B f m w =>
  match m w with Ok (a, w) => f a w | Bug => Bug | Fault => Fault end.

Definition set_inode (i : inode_info) (w : world T M) : world T M := World i (fsm w) (tree w) (area w) (answers w).
Definition set_fsm (f : fsm_info) (w : world T M) : world T M := World (inode w) f (tree w) (area w) (answers w).
Definition set_tree (t : T) (w : world T M) : world T M := World (inode w) (fsm w) t (area w) (answers w).

Definition get_inode : io inode_info := fun w => Ok (inode w, w).
Definition on_inode (f : inode_info -> inode_info) : io unit := fun w => Ok (tt, set_inode (f (inode w)) w).
Definition get_fsm : io fsm_info := fun w => Ok (fsm w, w).
Definition on_tree {A : Type} (f : T -> A * T) : io A := fun w => let '(a, t) := f (tree w) in Ok (a, set_tree t w).
Definition put_fsm (m : fsm_info -> run fsm_info) : io unit := fun w => f ← m (fsm w); Ok (tt, set_fsm f w).
Definition ask : io Z := fun w => Ok (default 0 (head (answers w)), World (inode w) (fsm w) (tree w) (area w) (tail (answers w))).
Definition io_bug {A : Type} : io A := fun _ => Bug.
Definition io_fault {A : Type} : io A := fun _ => Fault.
Definition bug_if (b : bool) : io unit := if b then io_bug else ret tt.

(** [fork->extents[pos]]; an index outside the array is a fault. *)
Definition extent_at (pos : Z) : io extent_info :=
  i ← get_inode; match getZ (extents i) pos with Some e => ret e | None => io_fault end.

Definition put_extent (pos : Z) (e : extent_info) : io unit :=
  i ← get_inode;
  match getZ (extents i) pos with Some _ => on_inode (set_extents (setZ (extents i) pos e)) | None => io_fault end.

Definition zero_extent : extent_info := Extent 0 0 0.

Context `{ExtTree T} `{MetaArea M} `{Rbtree} `{FindBit}.
Context (debug : bool) (sbi : sb_info) (bdev_blocks : Z).

(** ** The extents tree, extents.c *)

(** [vdfs4_get_exttree_key]: 0, or -ENOMEM *)
Definition vdfs4_get_exttree_key : io Z := no ← ask; ret (if no =? 0 then 0 else - ENOMEM).

Definition vdfs4_exttree_find_record_nonstrict (object_id iblock : Z) : io (res exttree_record) :=
  err ← vdfs4_get_exttree_key;
  if negb (err =? 0) then ret (Err err) else on_tree (btree_find (object_id, iblock)).

Definition vdfs4_exttree_find_record_strict_obj (object_id iblock : Z) : io (res exttree_record) :=
  record ← vdfs4_exttree_find_record_nonstrict object_id iblock;
  match record with
  | Err e => ret (Err e)
  | Val r => ret (if x_object_id r =? object_id then Val r else Err (- ENOENT))
  end.

Definition vdfs4_find_last_extent (object_id : Z) : io (res exttree_record) :=
  vdfs4_exttree_find_record_strict_obj object_id IBLOCK_MAX_NUMBER.

Definition vdfs4_exttree_remove (object_id iblock : Z) : io Z :=
  err ← vdfs4_get_exttree_key;
  if negb (err =? 0) then ret err else on_tree (btree_remove (object_id, iblock)).

(** [vdfs4_exttree_add], reached with force_insert = 1 *)
Definition vdfs4_exttree_add (object_id : Z) (e : extent_info) : io Z :=
  no ← ask;
  if negb (no =? 0) then ret (- ENOMEM)
  else on_tree (btree_insert (Xrec object_id (e_iblock e) (first_block e) (block_count e))).

Definition vdfs4_extree_insert_extent (object_id : Z) (e : extent_info) : io Z := vdfs4_exttree_add object_id e.

(** [vdfs4_exttree_get_extent]: the code and [*result] *)
Definition vdfs4_exttree_get_extent (iblock : Z) : io (Z * extent_info) :=
  i ← get_inode;
  record ← vdfs4_exttree_find_record_strict_obj (i_ino i) iblock;
  match record with
  | Err e => ret (e, zero_extent)
  | Val r =>
      let first_iblock := x_iblock r in
      let last_iblock := first_iblock +64 x_length r in
      ret (if (first_iblock <=? iblock) && (iblock <=? last_iblock) then 0 else - ENOENT,
            Extent (x_begin r) (x_iblock r) (x_length r))
  end.

(** ** Lookup, inode.c *)

(** [last_iblock = e.iblock + e.block_count - 1] and the test against it *)
Definition in_extent (iblock : Z) (e : extent_info) : bool :=
  (e_iblock e <=? iblock) && (iblock <=? (e_iblock e +64 block_count e) -64 1).

(** The loop over the extents of the fork from [pos], [n] of them. *)
Fixpoint fork_find (iblock : Z) (n : nat) (pos : Z) : io (option extent_info) :=
  match n with
  | O => ret None
  | S n =>
      e ← extent_at pos;
      if in_extent iblock e then ret (Some e) else fork_find iblock n (pos + 1)
  end.

(** From the label [not_found]: the result and [*hint_block]. *)
Definition extent_not_found (iblock : Z) (result : extent_info) : Z * extent_info * Z :=
  (0, Extent 0 (e_iblock result) (block_count result),
   if iblock =? e_iblock result +64 block_count result then first_block result +64 block_count result else 0).

(** [vdfs4_get_iblock_extent]: the code, [*result] and [*hint_block]. *)
Definition vdfs4_get_iblock_extent (iblock : Z) (result : extent_info) (hint_block : Z) : io (Z * extent_info * Z) :=
  i ← get_inode;
  if (total_block_count i =? 0) || (used_extents i =? 0) then ret (0, result, hint_block)
  else
    found ← fork_find iblock (Z.to_nat (used_extents i)) 0;
    match found with
    | Some e => ret (0, e, hint_block)
    | None =>
        if used_extents i <? VDFS4_EXTENTS_COUNT_IN_FORK then
          result ← extent_at (used_extents i - 1);
          ret (extent_not_found iblock result)
        else
          '(err, result) ← vdfs4_exttree_get_extent iblock;
          if negb (err =? 0) && negb (err =? - ENOENT) then ret (err, result, hint_block)
          else if first_block result =? 0 then
            result ← extent_at (VDFS4_EXTENTS_COUNT_IN_FORK - 1);
            ret (extent_not_found iblock result)
          else if in_extent iblock result then ret (0, result, hint_block)
          else ret (extent_not_found iblock result)
    end.

(** ** Adding an extent *)

(** The result of blkdev_issue_zeroout. *)
Definition vdfs4_zeroout_blocks (e : extent_info) : io Z := ask.

(** The loop that finds the place of a logical block in the fork. *)
Fixpoint find_place (iblock : Z) (n : nat) (pos : Z) : io Z :=
  match n with
  | O => ret pos
  | S n =>
      e ← extent_at pos;
      if iblock <? e_iblock e then ret pos else find_place iblock n (pos + 1)
  end.

(** The loop that shifts extents of the fork to the right: [n] turns, from
    [count] down. *)
Fixpoint shift_extents (n : nat) (count : Z) : io unit :=
  match n with
  | O => ret tt
  | S n => e ← extent_at (count - 1); put_extent count e;; shift_extents n (count - 1)
  end.

(** From the label [update_on_disk_layout]. *)
Definition update_on_disk_layout (e : extent_info) (update_bnode : bool) : io Z :=
  on_inode (add_blocks (block_size sbi) (block_count e));;
  (if update_bnode then on_inode (set_i_dirty true) else ret tt);;
  ret 0.

(** From the label [insert_in_fork]: 0 to go on to the layout, or an error. *)
Definition insert_in_fork (pos : Z) (e : extent_info) : io Z :=
  i ← get_inode;
  free ← (if pos <? VDFS4_EXTENTS_COUNT_IN_FORK then p ← extent_at pos; ret (first_block p =? 0) else ret false);
  if free : bool then
    put_extent pos e;;
    on_inode (set_used_extents (used_extents i +32 1));;
    ret 0
  else if pos =? VDFS4_EXTENTS_COUNT_IN_FORK then vdfs4_extree_insert_extent (i_ino i) e
  else
    err ← (if used_extents i =? VDFS4_EXTENTS_COUNT_IN_FORK then
             last ← extent_at (VDFS4_EXTENTS_COUNT_IN_FORK - 1);
             vdfs4_extree_insert_extent (i_ino i) last
           else on_inode (set_used_extents (used_extents i +32 1));; ret 0);
    if negb (err =? 0) then ret err
    else
      i ← get_inode;
      shift_extents (Z.to_nat (used_extents i - 1 - pos)) (used_extents i - 1);;
      put_extent pos e;;
      ret 0.

(** [insert_extent] *)
Definition insert_extent (e : extent_info) (update_bnode do_erase : bool) : io Z :=
  err ← (if do_erase then vdfs4_zeroout_blocks e else ret 0);
  if negb (err =? 0) then ret err
  else
    i ← get_inode;
    if used_extents i =? 0 then
      on_inode (set_used_extents (used_extents i +32 1));;
      put_extent 0 e;;
      update_on_disk_layout e update_bnode
    else
      first ← extent_at 0;
      if e_iblock e <? e_iblock first then
        err ← insert_in_fork 0 e;
        if negb (err =? 0) then ret err else update_on_disk_layout e update_bnode
      else
        place ← find_place (e_iblock e) (Z.to_nat (used_extents i)) 0;
        let pos := place - 1 in
        p ← extent_at pos;
        let last_iblock := (e_iblock p +64 block_count p) -64 1 in
        let last_extent_block := (first_block p +64 block_count p) -64 1 in
        if (last_iblock +64 1 =? e_iblock e) && (last_extent_block +64 1 =? first_block e) then
          put_extent pos (Extent (first_block p) (e_iblock p) (block_count p +32 block_count e));;
          update_on_disk_layout e update_bnode
        else
          err ← insert_in_fork (pos + 1) e;
          if negb (err =? 0) then ret err else update_on_disk_layout e update_bnode.

(** ** Reserved blocks *)

Definition vdfs4_free_reserved_space (n : Z) : io unit :=
  if n =? 0 then ret tt
  else
    put_fsm (fun f =>
      bug_on (reserved_blocks_count f <? n);;
      Ok (set_free_blocks_count (free_blocks_count f +64 n) (set_reserved_blocks_count (reserved_blocks_count f -64 n) f))).

Definition vdfs4_reserve_space (n : Z) : io Z :=
  f ← get_fsm;
  if n <=? free_blocks_count f then
    put_fsm (fun f => Ok (set_reserved_blocks_count (reserved_blocks_count f +64 n)
                            (set_free_blocks_count (free_blocks_count f -64 n) f)));;
    ret 0
  else ret (- ENOSPC).

(** ** Translation of logical blocks *)

(** kzalloc in the runtime extents *)
Definition runtime_add (iblock hint : Z) : io Z :=
  no ← ask; i ← get_inode;
  let '(err, l) := vdfs4_runtime_extent_add (no =? 0) iblock hint (runtime_extents i) in
  on_inode (set_runtime_extents l);; ret err.

Definition runtime_del (iblock : Z) : io Z :=
  no ← ask; i ← get_inode;
  let '(err, l) := vdfs4_runtime_extent_del (no =? 0) iblock (runtime_extents i) in
  on_inode (set_runtime_extents l);; ret err.

Definition get_free_block (offset length min fsm_flags : Z) : io (Z * Z) := fun w =>
  '(b, l, f) ← vdfs4_fsm_get_free_block debug sbi offset length min fsm_flags (fsm w); Ok ((b, l), set_fsm f w).

Definition put_free_block (b n fsm_flags : Z) : io unit := put_fsm (vdfs4_fsm_put_free_block sbi b n fsm_flags).

Definition check_meta_space : io Z := fun w =>
  '(err, m, f) ← vdfs4_check_meta_space (area w) (fsm w); Ok (err, World (inode w) f (tree w) m (answers w)).

(** From the label [done] up to the buffer head: the physical block and the
    number of blocks, or -EFAULT. *)
Definition translate (iblock : Z) (e : extent_info) : io (res (Z * Z)) :=
  let res_block := first_block e +64 (iblock -64 e_iblock e) in
  let max_blocks := block_count e -32 u32 (iblock - e_iblock e) in
  bug_if (first_block e +64 block_count e <? res_block);;
  if bdev_blocks <? res_block then
    if mount_finished sbi then io_bug else ret (Err (- EFAULT))
  else ret (Val (res_block, max_blocks)).

Definition bh_blocks (bh : buffer_head) : Z := u32 (Z.shiftr (b_size bh) (block_size_shift sbi)).

(** [vdfs4_get_block_prep_da] *)
Definition vdfs4_get_block_prep_da (iblock : Z) (bh : buffer_head) (create : bool) : io (Z * buffer_head) :=
  bug_if (negb create);;
  '(err, extent, hint) ← vdfs4_get_iblock_extent iblock zero_extent 0;
  if negb (err =? 0) then ret (err, bh)
  else if negb (first_block extent =? 0) then
    t ← translate iblock extent;
    match t with
    | Err e => ret (e, bh)
    | Val (res_block, max_blocks) =>
        ret (0, Bh (block_size sbi * Z.min max_blocks (bh_blocks bh)) res_block true false (bh_delay bh))
    end
  else if bh_delay bh then ret (0, bh)
  else
    err ← check_meta_space;
    if negb (err =? 0) then ret (err, bh)
    else
      let map_only := Bh (b_size bh) VDFS4_INVALID_BLOCK true true true in
      i ← get_inode;
      if bool_decide (i_mode i = S_IFLNK) && negb (vdfs4_runtime_extent_exists iblock (runtime_extents i) =? 0)
      then ret (0, map_only)
      else
        err ← vdfs4_reserve_space 1;
        if negb (err =? 0) then ret (err, bh)
        else
          err ← runtime_add iblock hint;
          if negb (err =? 0) then vdfs4_free_reserved_space 1;; ret (err, bh)
          else ret (0, map_only).

(** The end of [vdfs4_get_int_block]: a delayed allocation that fails stops the
    writing. *)
Definition int_block_exit (err : Z) (bh : buffer_head) (create : bool) (fsm_flags : Z) : io (Z * buffer_head) :=
  (if negb (err =? 0) && create && negb (Z.land fsm_flags VDFS4_FSM_ALLOC_DELAYED =? 0)
   then put_fsm (fun f => Ok (vdfs4_fatal_error f)) else ret tt);;
  ret (err, bh).

(** From the label [done]. *)
Definition int_block_done (iblock : Z) (e : extent_info) (bh : buffer_head) (create alloc : bool) (fsm_flags : Z)
    : io (Z * buffer_head) :=
  t ← translate iblock e;
  match t with
  | Err err => int_block_exit err bh create fsm_flags
  | Val (res_block, max_blocks) =>
      ret (0, Bh (block_size sbi * Z.min max_blocks (bh_blocks bh)) res_block true alloc false)
  end.

(** [vdfs4_get_int_block] *)
Definition vdfs4_get_int_block (iblock : Z) (bh : buffer_head) (create : bool) (fsm_flags : Z) : io (Z * buffer_head) :=
  let delayed := negb (Z.land fsm_flags VDFS4_FSM_ALLOC_DELAYED =? 0) in
  '(err, extent, hint) ← vdfs4_get_iblock_extent iblock zero_extent 0;
  if negb (err =? 0) then int_block_exit err bh create fsm_flags
  else if negb (first_block extent =? 0) then int_block_done iblock extent bh create false fsm_flags
  else if negb create then ret (0, bh)
  else
    i ← get_inode;
    bug_if (if delayed then vdfs4_runtime_extent_exists iblock (runtime_extents i) =? 0 else bh_delay bh);;
    '(b, l) ← get_free_block hint 1 1 fsm_flags;
    if b =? 0 then int_block_exit (- ENOSPC) bh create fsm_flags
    else
      let extent := Extent b iblock l in
      err ← insert_extent extent true false;
      if negb (err =? 0) then
        let fsm_flags := Z.lor fsm_flags VDFS4_FSM_FREE_UNUSED in
        let fsm_flags := if delayed then Z.lor fsm_flags VDFS4_FSM_FREE_RESERVE else fsm_flags in
        let bh := if delayed then Bh (b_size bh) (b_blocknr bh) false (bh_new bh) (bh_delay bh) else bh in
        put_free_block b l fsm_flags;;
        int_block_exit err bh create fsm_flags
      else
        (if delayed then err ← runtime_del iblock; bug_if (negb (err =? 0)) else ret tt);;
        int_block_done iblock extent bh create true fsm_flags.

Definition vdfs4_get_block (iblock : Z) (bh : buffer_head) (create : bool) : io (Z * buffer_head) :=
  vdfs4_get_int_block iblock bh create 0.

Definition vdfs4_get_block_da (iblock : Z) (bh : buffer_head) (create : bool) : io (Z * buffer_head) :=
  vdfs4_get_int_block iblock bh create VDFS4_FSM_ALLOC_DELAYED.

(** ** Allocation of the reserved blocks *)

(** [vdfs4_allocate_space] from the label [again], for one entry of the list:
    the code and what is left of the entry. Every turn allocates a block at
    least. *)
Fixpoint allocate_entry (fuel : nat) (do_erase : bool) (entry : rext) : io (Z * rext) :=
  match fuel with
  | O => io_fault
  | S fuel =>
      '(b, count) ← get_free_block (r_hint entry) (r_count entry) (r_count entry) VDFS4_FSM_ALLOC_DELAYED;
      if b =? 0 then io_bug
      else
        err ← insert_extent (Extent b (r_iblock entry) count) false do_erase;
        if negb (err =? 0) then
          put_free_block b count (Z.lor VDFS4_FSM_FREE_UNUSED VDFS4_FSM_FREE_RESERVE);;
          ret (err, entry)
        else
          let entry := Rext (r_iblock entry +64 count) (r_hint entry) (r_count entry -32 count) in
          on_inode (fun i => set_runtime_extents (entry :: tail (runtime_extents i)) i);;
          if negb (r_count entry =? 0) then allocate_entry fuel do_erase entry else ret (0, entry)
  end.

(** The loop over the list; a finished entry is unlinked. *)
Fixpoint allocate_entries (do_erase : bool) (l : list rext) : io Z :=
  match l with
  | [] => ret 0
  | entry :: next =>
      '(err, entry) ← allocate_entry (S (Z.to_nat (r_count entry))) do_erase entry;
      if negb (err =? 0) then ret err
      else on_inode (set_runtime_extents next);; allocate_entries do_erase next
  end.

Definition vdfs4_allocate_space (do_erase : bool) : io Z :=
  i ← get_inode;
  err ← allocate_entries do_erase (runtime_extents i);
  (if err =? 0 then on_inode (set_i_dirty true) else ret tt);;
  ret err.

(** ** Truncation, file.c *)

(** Transactions are stopped, the delayed commit is run and a new one started. *)
Definition flush_commit : io unit := fun w =>
  '(m, f) ← flush_delayed_commit (area w) (fsm w); Ok (tt, World (inode w) f (tree w) m (answers w)).

(** [truncate_exttree]; every turn of the loop takes one unit of fuel. *)
Fixpoint truncate_exttree (fuel : nat) (new_size : Z) : io Z :=
  match fuel with
  | O => io_fault
  | S fuel =>
      i ← get_inode;
      full ← (fun w => Ok (vdfs4_is_enospc 25 (area w), w));
      (if full : bool then flush_commit else ret tt);;
      record ← vdfs4_find_last_extent (i_ino i);
      match record with
      | Err e => ret (if e =? - ENOENT then 0 else e)
      | Val r =>
          if new_size <=? x_iblock r then
            put_free_block (x_begin r) (x_length r) 0;;
            on_inode (sub_blocks (block_size sbi) (x_length r));;
            vdfs4_exttree_remove (i_ino i) (x_iblock r);;
            truncate_exttree fuel new_size
          else if new_size <? x_iblock r +64 x_length r then
            let delta := u32 (x_iblock r + x_length r - new_size) in
            put_free_block (x_begin r + x_length r - delta) delta 0;;
            on_tree (fun t => (tt, set_length (i_ino i, x_iblock r) (x_length r -32 delta) t));;
            on_inode (sub_blocks (block_size sbi) delta);;
            ret 0
          else ret 0
      end
  end.

(** The loop of [truncate_fork] over the extents of the fork from the last: the
    index of the extent it ends with. *)
Fixpoint truncate_fork_loop (i : nat) (new_size : Z) (extent : Z) : io Z :=
  match i with
  | O => ret extent
  | S i =>
      let extent := Z.of_nat i in
      e ← extent_at extent;
      if new_size <=? e_iblock e then
        put_free_block (first_block e) (block_count e) 0;;
        on_inode (sub_blocks (block_size sbi) (block_count e));;
        on_inode (fun n => set_used_extents (used_extents n -32 1) n);;
        put_extent extent zero_extent;;
        truncate_fork_loop i new_size extent
      else ret extent
  end.

(** [truncate_fork] *)
Definition truncate_fork (new_size : Z) : io Z :=
  i ← get_inode;
  if used_extents i =? 0 then ret 0
  else
    last ← extent_at (used_extents i - 1);
    if e_iblock last +64 block_count last <=? new_size then ret 0
    else
      pos ← truncate_fork_loop (Z.to_nat (used_extents i)) new_size 0;
      e ← extent_at pos;
      if new_size <? e_iblock e +64 block_count e then
        let count := (e_iblock e +64 block_count e) -64 new_size in
        let cut_from_block := (first_block e +64 new_size) -64 e_iblock e in
        put_free_block cut_from_block (u32 count) 0;;
        put_extent pos (Extent (first_block e) (e_iblock e) (block_count e -32 u32 count));;
        on_inode (sub_blocks (block_size sbi) (u32 count));;
        ret 0
      else ret 0.

(** [vdfs4_truncate_blocks] *)
Definition vdfs4_truncate_blocks (fuel : nat) (new_size : Z) : io Z :=
  i ← get_inode;
  if i_ino i <? VDFS4_1ST_FILE_INO then io_bug
  else if negb (bool_decide (i_mode i = S_IFREG) || bool_decide (i_mode i = S_IFLNK)) then ret (- EPERM)
  else
    let new_size_iblocks := Z.shiftr (u64 (new_size + block_size sbi - 1)) (block_size_shift sbi) in
    let '(freed, l) := vdfs4_truncate_runtime_blocks new_size_iblocks 0 (runtime_extents i) in
    on_inode (set_runtime_extents l);;
    vdfs4_free_reserved_space freed;;
    err ← (if used_extents i =? VDFS4_EXTENTS_COUNT_IN_FORK then truncate_exttree fuel new_size_iblocks else ret 0);
    if negb (err =? 0) then ret err else truncate_fork new_size_iblocks.

End Ops.
