(* ===== verification/FileRep.v ===== *)
(** The block map that the extents of a file stand for: lists of extents up to
    their order, what the extents tree promises, and the invariant of a file. *)

From Stdlib Require Import ZArith Lia Bool List.
From stdpp Require Import base list gmap sets sorting.
From S2P Require Import Prelude RuntimeExtents Bitmap Count FindBit Rbtree FsmTree FsmSpace Fsm FsmAlloc FileSpace FileMap.

Open Scope Z_scope.

(** ** Lists of extents *)

Definition e_end (e : extent_info) : Z := e_iblock e + block_count e.

(** A whole extent: blocks of the volume, logical blocks of 32 bits. *)
Definition ext_wf (vol : Z) (e : extent_info) : Prop :=
  0 < block_count e /\ 0 < first_block e /\ first_block e + block_count e <= vol /\ 0 <= e_iblock e /\ e_end e < 2 ^ 32.

(** Two extents share no logical and no physical block. *)
Definition sep (a b : extent_info) : Prop :=
  (e_end a <= e_iblock b \/ e_end b <= e_iblock a)
  /\ (first_block a + block_count a <= first_block b \/ first_block b + block_count b <= first_block a).

Fixpoint all_sep (E : list extent_info) : Prop :=
  match E with [] => True | e :: E => Forall (sep e) E /\ all_sep E end.

Definition iblock_lt (a b : extent_info) : Prop := e_iblock a < e_iblock b.

Definition holds_block (i : Z) (e : extent_info) : Prop := e_iblock e <= i < e_end e.

(** Logical block [i] is at the physical block [b]. *)
Definition maps (E : list extent_info) (i b : Z) : Prop :=
  exists e, e ∈ E /\ holds_block i e /\ b = first_block e + (i - e_iblock e).

Definition mapped (E : list extent_info) (i : Z) : Prop := exists e, e ∈ E /\ holds_block i e.

(** Physical block [x] belongs to the extents. *)
Definition owns (E : list extent_info) (x : Z) : Prop :=
  exists e, e ∈ E /\ first_block e <= x < first_block e + block_count e.

Fixpoint etotal (E : list extent_info) : Z := match E with [] => 0 | e :: E => block_count e + etotal E end.

Lemma sep_sym (a b : extent_info) : sep a b -> sep b a.
Proof. unfold sep; lia. Qed.

#[export] Instance all_sep_perm : Proper ((≡ₚ) ==> iff) all_sep.
Proof.
  assert (forall E K, E ≡ₚ K -> all_sep E -> all_sep K) as Himp; [|by intros E K P; split; apply Himp].
  induction 1 as [|e E K P IH|a b E|E K L _ IH1 _ IH2]; cbn; [done| | |auto].
  - intros [Hf HE]; split; [by rewrite <- P|auto].
  - rewrite !Forall_cons; intros ((? & ?) & ? & ?); repeat split; auto; by apply sep_sym.
Qed.

#[export] Instance maps_perm : Proper ((≡ₚ) ==> (=) ==> (=) ==> iff) maps.
Proof. intros E K P i ? <- b ? <-; unfold maps; by setoid_rewrite P. Qed.

#[export] Instance mapped_perm : Proper ((≡ₚ) ==> (=) ==> iff) mapped.
Proof. intros E K P i ? <-; unfold mapped; by setoid_rewrite P. Qed.

#[export] Instance owns_perm : Proper ((≡ₚ) ==> (=) ==> iff) owns.
Proof. intros E K P i ? <-; unfold owns; by setoid_rewrite P. Qed.

#[export] Instance etotal_perm : Proper ((≡ₚ) ==> (=)) etotal.
Proof. intros E K P; induction P; cbn; lia. Qed.

Lemma mapped_maps (E : list extent_info) (i : Z) : mapped E i <-> exists b, maps E i b.
Proof. split; [intros (e & He & Hi); by exists (first_block e + (i - e_iblock e)), e|intros (b & e & He & Hi & _); by exists e]. Qed.

Lemma maps_cons (e : extent_info) (E : list extent_info) (i b : Z) :
  maps (e :: E) i b <-> (holds_block i e /\ b = first_block e + (i - e_iblock e)) \/ maps E i b.
Proof.
  unfold maps; split; [intros (q & [->|Hq]%elem_of_cons & Hi & Hb); [by left|by right; exists q]|].
  intros [[Hi Hb]|(q & Hq & Hi & Hb)]; [by exists e; rewrite elem_of_cons; auto|by exists q; rewrite elem_of_cons; auto].
Qed.

Lemma mapped_cons (e : extent_info) (E : list extent_info) (i : Z) : mapped (e :: E) i <-> holds_block i e \/ mapped E i.
Proof.
  unfold mapped; split; [intros (q & [->|Hq]%elem_of_cons & Hi); [by left|by right; exists q]|].
  intros [Hi|(q & Hq & Hi)]; [by exists e; rewrite elem_of_cons; auto|by exists q; rewrite elem_of_cons; auto].
Qed.

Lemma owns_cons (e : extent_info) (E : list extent_info) (x : Z) :
  owns (e :: E) x <-> first_block e <= x < first_block e + block_count e \/ owns E x.
Proof.
  unfold owns; split; [intros (q & [->|Hq]%elem_of_cons & Hi); [by left|by right; exists q]|].
  intros [Hi|(q & Hq & Hi)]; [by exists e; rewrite elem_of_cons; auto|by exists q; rewrite elem_of_cons; auto].
Qed.

Lemma maps_nil (i b : Z) : maps [] i b <-> False.
Proof. split; [by intros (e & ?%elem_of_nil & _)|done]. Qed.

Lemma owns_nil (x : Z) : owns [] x <-> False.
Proof. split; [by intros (e & ?%elem_of_nil & _)|done]. Qed.

Lemma mapped_nil (i : Z) : mapped [] i <-> False.
Proof. split; [by intros (e & ?%elem_of_nil & _)|done]. Qed.

#[export] Hint Rewrite maps_nil maps_cons mapped_nil mapped_cons owns_nil owns_cons : vdfs.

(** Extents that share no block map every logical block once. *)
Lemma maps_fun (E : list extent_info) (i b c : Z) : all_sep E -> maps E i b -> maps E i c -> b = c.
Proof.
  induction E as [|e E IH]; [by intros _ ?%maps_nil|]; intros [Hf HE]; rewrite !maps_cons, Forall_forall in *.
  assert (holds_block i e -> maps E i b -> False) as No1 by (intros Hi (q & Hq & Hi' & _); specialize (Hf q Hq); unfold sep, holds_block, e_end in *; lia).
  assert (holds_block i e -> maps E i c -> False) as No2 by (intros Hi (q & Hq & Hi' & _); specialize (Hf q Hq); unfold sep, holds_block, e_end in *; lia).
  intros [[Hi ->]|Hb] [[Hi' ->]|Hc]; [done|by destruct No2|by destruct No1|auto].
Qed.

Lemma all_sep_elem (E : list extent_info) (a b : extent_info) : all_sep E -> a ∈ E -> b ∈ E -> a = b \/ sep a b.
Proof.
  induction E as [|e E IH]; [by intros _ ?%elem_of_nil|]; intros [Hf HE]; rewrite Forall_forall in Hf.
  intros [->|Ha]%elem_of_cons [->|Hb]%elem_of_cons; auto; right; by apply sep_sym, Hf.
Qed.

(** A block of a new extent is in none of the others. *)
Lemma sep_new (e : extent_info) (E : list extent_info) (vol : Z) :
  Forall (ext_wf vol) E -> 0 < block_count e -> (forall i, holds_block i e -> ~ mapped E i) ->
  (forall x, first_block e <= x < first_block e + block_count e -> ~ owns E x) -> Forall (sep e) E.
Proof.
  intros Hwf Hc Hl Hp; apply Forall_forall; intros q Hq; rewrite Forall_forall in Hwf; destruct (Hwf q Hq) as (Wc & _).
  unfold sep; split.
  - destruct (Z.leb_spec (e_end e) (e_iblock q)); [by left|]; destruct (Z.leb_spec (e_end q) (e_iblock e)); [by right|exfalso].
    apply (Hl (Z.max (e_iblock e) (e_iblock q))); [unfold holds_block, e_end in *; lia|]; exists q; unfold holds_block, e_end in *; split; [done|lia].
  - destruct (Z.leb_spec (first_block e + block_count e) (first_block q)); [by left|]; destruct (Z.leb_spec (first_block q + block_count q) (first_block e)); [by right|exfalso].
    apply (Hp (Z.max (first_block e) (first_block q))); [lia|]; exists q; split; [done|lia].
Qed.

Lemma etotal_app (E K : list extent_info) : etotal (E ++ K) = etotal E + etotal K.
Proof. induction E; cbn; lia. Qed.

Lemma etotal_nonneg (vol : Z) (E : list extent_info) : Forall (ext_wf vol) E -> 0 <= etotal E.
Proof. induction 1 as [|e E (? & _) _ IH]; cbn; lia. Qed.

(** Extents that share no block have no more blocks than the volume. *)
Lemma etotal_vol (vol : Z) (E : list extent_info) : 0 <= vol -> Forall (ext_wf vol) E -> all_sep E -> etotal E <= vol.
Proof.
  intros Hv Hwf Hs; set (owned := foldr (fun e U => upd U (first_block e) (block_count e) true) (fun _ => false)).
  enough (count (owned E) 0 vol = etotal E /\ forall x, owned E x = true -> owns E x) as [<- _] by (by apply count_range).
  induction E as [|e E IH]; [split; [by apply (count_all _ _ _ false)|done]|]; cbn in Hs |- *; rewrite Forall_cons in Hwf.
  destruct Hwf as [(W1 & W2 & W3 & W4 & W5) Hwf], Hs as [Hf Hs]; destruct (IH Hwf Hs) as [IHc IHo]; split.
  - rewrite count_upd_run; [cbn; lia|lia|lia|lia|]; intros x Hx; destruct (owned E x) eqn:Eo; [|done]; apply IHo in Eo as (q & Hq & Hx').
    rewrite Forall_forall in Hf; specialize (Hf q Hq); unfold sep in Hf; lia.
  - intros x; rewrite owns_cons; unfold upd; destruct (Z.leb_spec (first_block e) x), (Z.ltb_spec x (first_block e + block_count e)); cbn [andb]; auto.
Qed.

(** ** The overflow extents of an inode *)

(** The records of the extents tree by key, (object id, logical block), with the
    first physical block and the length. *)
Abbreviation xmap := (gmap (Z * Z) (Z * Z)).

Definition x_key (r : exttree_record) : Z * Z := (x_object_id r, x_iblock r).
Definition x_val (r : exttree_record) : Z * Z := (x_begin r, x_length r).

(** The order of vdfs4_exttree_cmpfn. *)
Definition kle (a b : Z * Z) : Prop := a.1 < b.1 \/ a.1 = b.1 /\ a.2 <= b.2.

(** The record with the greatest key not above [k]. *)
Definition is_floor (k : Z * Z) (m : xmap) (r : exttree_record) : Prop :=
  m !! x_key r = Some (x_val r) /\ kle (x_key r) k /\ forall q, is_Some (m !! q) -> kle q k -> kle q (x_key r).

Definition no_floor (k : Z * Z) (m : xmap) : Prop := forall q, is_Some (m !! q) -> ~ kle q k.

Definition to_extent (p : (Z * Z) * (Z * Z)) : extent_info := Extent p.2.1 p.1.2 p.2.2.

Definition overflow (ino : Z) (m : xmap) : list extent_info :=
  to_extent <$> base.filter (fun p => p.1.1 = ino) (map_to_list m).

Lemma overflow_elem (ino : Z) (m : xmap) (e : extent_info) :
  e ∈ overflow ino m <-> m !! (ino, e_iblock e) = Some (first_block e, block_count e).
Proof.
  unfold overflow; rewrite list_elem_of_fmap; split.
  - intros ([[a b] [c d]] & -> & Hf); apply list_elem_of_filter in Hf as [<- Hf]; by apply elem_of_map_to_list in Hf.
  - intros Hm; exists ((ino, e_iblock e), (first_block e, block_count e)); split; [by destruct e|].
    apply list_elem_of_filter; split; [done|by apply elem_of_map_to_list].
Qed.

Lemma overflow_insert (ino : Z) (m : xmap) (e : extent_info) :
  m !! (ino, e_iblock e) = None -> overflow ino (<[(ino, e_iblock e) := (first_block e, block_count e)]> m) ≡ₚ e :: overflow ino m.
Proof.
  intros Hn; unfold overflow; rewrite (map_to_list_insert m _ _ Hn), filter_cons_True by done; by destruct e.
Qed.

Lemma overflow_delete (ino : Z) (m : xmap) (e : extent_info) :
  e ∈ overflow ino m -> overflow ino m ≡ₚ e :: overflow ino (delete (ino, e_iblock e) m).
Proof.
  intros He; apply overflow_elem in He; unfold overflow; rewrite <- (map_to_list_delete m _ _ He), filter_cons_True by done; by destruct e.
Qed.

(** ** What the extents tree promises

    [tree_ok] is the tree's own invariant and [view] its records; a [steady] tree
    has memory, space and a device that do not fail. The tree has a record below
    those of every file, so that a search always has a floor. *)
Class ExtTreeLaws (T : Type) `{ExtTree T} : Type := {
  tree_ok : T -> Prop;
  view : T -> xmap;
  steady : T -> Prop;
  find_law (k : Z * Z) (t : T) : tree_ok t ->
    let '(r, t') := btree_find k t in
    tree_ok t' /\ view t' = view t /\ (steady t -> steady t')
    /\ match r with
       | Val r => is_floor k (view t) r
       | Err e => e < 0 /\ (e = - ENOENT -> no_floor k (view t)) /\ (steady t -> e = - ENOENT)
       end;
  insert_law (r : exttree_record) (t : T) : tree_ok t ->
    let '(e, t') := btree_insert r t in
    tree_ok t' /\ (steady t -> steady t')
    /\ ((e = 0 /\ view t !! x_key r = None /\ view t' = <[x_key r := x_val r]> (view t))
        \/ (e < 0 /\ view t' = view t /\ (steady t -> is_Some (view t !! x_key r) \/ no_floor (x_key r) (view t))));
  remove_law (k : Z * Z) (t : T) : tree_ok t ->
    let '(e, t') := btree_remove k t in
    tree_ok t' /\ (steady t -> steady t')
    /\ ((e = 0 /\ view t' = delete k (view t)) \/ (e < 0 /\ view t' = view t /\ (steady t -> view t !! k = None)));
  length_law (k : Z * Z) (b n l : Z) (t : T) : tree_ok t -> view t !! k = Some (b, n) ->
    tree_ok (set_length k l t) /\ (steady t -> steady (set_length k l t)) /\ view (set_length k l t) = <[k := (b, l)]> (view t)
}.

(** What the metadata area promises: neither the commit nor the growth of the
    area gives back a block that is in use or touches the reserved count. *)
Class MetaAreaLaws (M : Type) `{MetaArea M} (sbi : sb_info) (nb : Z) : Prop := {
  flush_law (m : M) (f : fsm_info) : space_ok sbi nb f ->
    exists m' f', flush_delayed_commit m f = Ok (m', f') /\ space_ok sbi nb f' /\ (forall x, taken sbi f' x <-> taken sbi f x)
    /\ reserved_blocks_count f' = reserved_blocks_count f;
  meta_space_law (m : M) (f : fsm_info) : space_ok sbi nb f ->
    exists m' f', vdfs4_check_meta_space m f = Ok (0, m', f') /\ space_ok sbi nb f' /\ (forall x, taken sbi f x -> taken sbi f' x)
    /\ reserved_blocks_count f' = reserved_blocks_count f
}.

(** ** The invariant of a file *)

Section File.
Context {T M : Type} `{ExtTreeLaws T}.
Context (sbi : sb_info) (nb : Z).

#[local] Abbreviation vol := (volume_blocks_count sbi).

(** The places of the extents of an inode: [F] in its fork, in order and from the
    first slot on, the others in the tree, after those of the fork. *)
Record file_shape (i : inode_info) (m : xmap) (F : list extent_info) : Prop := {
  fs_slots : extents i = F ++ replicate (Z.to_nat (VDFS4_EXTENTS_COUNT_IN_FORK - used_extents i)) zero_extent;
  fs_used : lenZ F = used_extents i;
  fs_max : used_extents i <= VDFS4_EXTENTS_COUNT_IN_FORK;
  fs_sorted : StronglySorted iblock_lt F;
  fs_before : forall a b, a ∈ F -> b ∈ overflow (i_ino i) m -> e_iblock a < e_iblock b;
  fs_full : used_extents i < VDFS4_EXTENTS_COUNT_IN_FORK -> overflow (i_ino i) m = []
}.

(** Extents that are whole, share no block and are counted. *)
Record file_ok (i : inode_info) (m : xmap) (F : list extent_info) : Prop := {
  fk_shape : file_shape i m F;
  fk_wf : Forall (ext_wf vol) (F ++ overflow (i_ino i) m);
  fk_sep : all_sep (F ++ overflow (i_ino i) m);
  fk_total : total_block_count i = etotal (F ++ overflow (i_ino i) m);
  fk_bytes : i_bytes i = block_size sbi * etotal (F ++ overflow (i_ino i) m)
}.

(** The delayed blocks: not mapped yet. *)
Definition runtime_ok (i : inode_info) (E : list extent_info) : Prop :=
  Forall ext_ok (runtime_extents i) /\ disjoint (runtime_extents i)
  /\ Forall (fun r => 0 <= r_hint r < 2 ^ 32) (runtime_extents i)
  /\ forall x, covers (runtime_extents i) x -> ~ mapped E x.

(** The extents of the inode of [w]. *)
Definition exts (w : world T M) (F : list extent_info) : list extent_info := F ++ overflow (i_ino (inode w)) (view (tree w)).

Definition block_size_ok : Prop := 0 < block_size sbi < 2 ^ 31.

(** A file on a consistent volume: its blocks are in use, its delayed blocks
    reserved, and the tree has a record below its own. *)
Record world_ok (w : world T M) (F : list extent_info) : Prop := {
  wk_space : space_ok sbi nb (fsm w);
  wk_tree : tree_ok (tree w);
  wk_base : exists k, is_Some (view (tree w) !! k) /\ k.1 < i_ino (inode w);
  wk_size : block_size_ok;
  wk_file : file_ok (inode w) (view (tree w)) F;
  wk_taken : forall x, owns (exts w F) x -> taken sbi (fsm w) x;
  wk_runtime : runtime_ok (inode w) (exts w F);
  wk_reserved : total (runtime_extents (inode w)) <= reserved_blocks_count (fsm w)
}.

(** Memory for the nodes of the free-space manager does not lack. [world_ok] includes
    it; [world_sound] says the rest. *)
Definition nodes_available (w : world T M) : Prop := allocs (fsm w) = [].

Definition world_sound (w : world T M) (F : list extent_info) : Prop := world_ok (set_fsm (set_allocs [] (fsm w)) w) F.

Lemma sound_ok (w : world T M) (F : list extent_info) : nodes_available w -> world_sound w F -> world_ok w F.
Proof.
  unfold nodes_available, world_sound; intros Hn; assert (set_fsm (set_allocs [] (fsm w)) w = w) as ->; [|done].
  destruct w as [i f t a l]; cbn in *; unfold set_fsm; cbn; f_equal; destruct f; cbn in *; by rewrite Hn.
Qed.

(** Memory, tree and device do not fail, the nodes of the free-space manager apart. *)
Definition calm (w : world T M) : Prop := answers w = [] /\ steady (tree w).

(** Only the environment's state has moved. *)
Definition framed (w w' : world T M) : Prop :=
  inode w' = inode w /\ fsm w' = fsm w /\ area w' = area w /\ tree_ok (tree w') /\ view (tree w') = view (tree w) /\ (calm w -> calm w').

Lemma framed_refl (w : world T M) : tree_ok (tree w) -> framed w w.
Proof. unfold framed; auto 10. Qed.

Lemma framed_trans (w w1 w2 : world T M) : framed w w1 -> framed w1 w2 -> framed w w2.
Proof. intros (? & ? & ? & ? & ? & ?) (? & ? & ? & ? & ? & ?); unfold framed; split_and!; try congruence; auto. Qed.

Lemma framed_ok (w w' : world T M) (F : list extent_info) : framed w w' -> world_ok w F -> world_ok w' F.
Proof.
  intros (Ei & Ef & _ & Ht & Ev & _) [? ? ? ? ? ? ? ?]; split; unfold exts in *; rewrite ?Ei, ?Ef, ?Ev; auto.
Qed.

Lemma exts_framed (w w' : world T M) (F : list extent_info) : framed w w' -> exts w' F = exts w F.
Proof. intros (Ei & _ & _ & _ & Ev & _); unfold exts; by rewrite Ei, Ev. Qed.

End File.
