(* ===== verification/FileLookup.v ===== *)
(** Looking a logical block up: the fork, then the extents tree
    (src/linux/fs/vdfs4/inode.c, vdfs4_get_iblock_extent, and the searches of
    extents.c). *)

From Stdlib Require Import ZArith Lia Bool List.
From stdpp Require Import base list gmap sets sorting.
From S2P Require Import Prelude RuntimeExtents Bitmap FindBit Rbtree FsmTree FsmSpace Fsm FileSpace FileMap FileRep.

Open Scope Z_scope.

(** ** Steps of the monad *)

Lemma io_bind_ok {T M A B : Type} (m : io (T := T) (M := M) A) (k : A -> io B) (w w' : world T M) (a : A) :
  m w = Ok (a, w') -> (m ≫= k) w = k a w'.
Proof. intros E; unfold mbind, io_bind; by rewrite E. Qed.

(** Runs the first action of a sequence by its equation. *)
Ltac io E := rewrite (io_bind_ok _ _ _ _ _ E); cbn beta iota.
(** Runs the actions that read or write the state. *)
Ltac io_run := repeat (rewrite (io_bind_ok _ _ _ _ _ eq_refl); cbn beta iota).

Section Lookup.
Context {T M : Type} `{ExtTreeLaws T} `{MetaArea M}.
Context (sbi : sb_info) (nb : Z).

#[local] Abbreviation vol := (volume_blocks_count sbi).
#[local] Abbreviation world := (world T M).

Lemma ask_ok (w : world) : exists a w', ask w = Ok (a, w') /\ inode w' = inode w /\ fsm w' = fsm w /\ area w' = area w /\ tree w' = tree w
  /\ (answers w = [] -> a = 0 /\ answers w' = []).
Proof. eexists _, _; split; [reflexivity|]; cbn; split_and!; auto; by intros ->. Qed.

Lemma key_ok (w : world) : tree_ok (tree w) ->
  exists e w', vdfs4_get_exttree_key w = Ok (e, w') /\ framed w w' /\ (e = 0 \/ e = - ENOMEM /\ ~ calm w).
Proof.
  intros Ht; unfold vdfs4_get_exttree_key; destruct (ask_ok w) as (a & w' & E & Ei & Ef & Ea & Et & Hq); io E.
  eexists _, _; split; [reflexivity|]; split.
  - unfold framed, calm; rewrite Et; split_and!; auto; intros [Hn Hs]; split; [by apply Hq|done].
  - destruct (Z.eqb_spec a 0); [by left|right; split; [done|]; intros [Hn _]; by destruct (Hq Hn)].
Qed.

(** ** The extents tree *)

Lemma on_tree_framed {A : Type} (g : T -> A * T) (w : world) (a : A) (t : T) :
  g (tree w) = (a, t) -> on_tree g w = Ok (a, set_tree t w).
Proof. intros E; unfold on_tree; by rewrite E. Qed.

Definition found_record (obj ib : Z) (w : world) (r : res exttree_record) : Prop :=
  match r with
  | Val r => x_object_id r = obj /\ is_floor (obj, ib) (view (tree w)) r
  | Err e => e < 0 /\ (e = - ENOENT -> forall b, is_Some (view (tree w) !! (obj, b)) -> ib < b) /\ (calm w -> e = - ENOENT)
  end.

Lemma find_strict_ok (obj ib : Z) (w : world) : tree_ok (tree w) ->
  exists r w', vdfs4_exttree_find_record_strict_obj obj ib w = Ok (r, w') /\ framed w w' /\ found_record obj ib w r.
Proof.
  intros Ht; unfold vdfs4_exttree_find_record_strict_obj, vdfs4_exttree_find_record_nonstrict.
  destruct (key_ok w Ht) as (e & w1 & E1 & Fr1 & He); pose proof Fr1 as (_ & _ & _ & Ht1 & Ev1 & Hq1).
  pose proof (find_law (obj, ib) (tree w1) Ht1) as HF; destruct (btree_find (obj, ib) (tree w1)) as [r t'] eqn:Ef; destruct HF as (Ht2 & Ev2 & Hs2 & Hr).
  assert (e <> 0 -> ((vdfs4_get_exttree_key ≫= fun err => if negb (err =? 0) then ret (Err err) else on_tree (btree_find (obj, ib))) w) = Ok (Err e, w1)) as Efail.
  { intros Hn; io E1; by rewrite (proj2 (Z.eqb_neq e 0)). }
  destruct He as [->|[-> Hnc]].
  2: { io (Efail ltac:(done)); eexists _, _; split; [reflexivity|]; split; [done|]; by repeat split. }
  assert ((vdfs4_get_exttree_key ≫= fun err => if negb (err =? 0) then ret (Err err) else on_tree (btree_find (obj, ib))) w = Ok (r, set_tree t' w1)) as E2.
  { io E1; cbn [Z.eqb negb]; by apply on_tree_framed. }
  io E2; assert (framed w (set_tree t' w1)) as Fr2.
  { eapply framed_trans; [exact Fr1|]; unfold framed, calm; cbn; split_and!; auto; intros [? ?]; auto. }
  destruct r as [e|r]; cbn beta iota.
  { eexists _, _; split; [reflexivity|]; split; [done|]; destruct Hr as (He & Hno & Hst); split; [done|]; rewrite <- Ev1; split.
    - intros -> b Hb; specialize (Hno eq_refl _ Hb); unfold kle in Hno; cbn in Hno; lia.
    - intros Hc; apply Hst, Hq1, Hc. }
  eexists _, _; split; [reflexivity|]; split; [done|]; rewrite Ev1 in Hr; destruct Hr as (Hin & Hle & Hmax).
  destruct (Z.eqb_spec (x_object_id r) obj) as [Ho|No]; [done|]; split; [done|]; split; [|done]; intros _ b Hb.
  destruct (Z.ltb_spec ib b); [done|exfalso]; specialize (Hmax _ Hb ltac:(right; cbn; lia)); unfold kle, x_key in *; cbn in *; lia.
Qed.

(** ** The fork *)

Lemma in_extent_spec (v ib : Z) (e : extent_info) : ext_wf v e -> in_extent ib e = true <-> holds_block ib e.
Proof.
  intros (W1 & W2 & W3 & W4 & W5); unfold in_extent, holds_block, e_end in *; rewrite (u64_small (e_iblock e + block_count e)), u64_small by lia.
  rewrite andb_true_iff, Z.leb_le, Z.leb_le; lia.
Qed.

Lemma extent_at_ok (w : world) (pos : Z) (e : extent_info) : getZ (extents (inode w)) pos = Some e -> extent_at pos w = Ok (e, w).
Proof. intros E; unfold extent_at; io_run; by rewrite E. Qed.

Lemma slot_used (i : inode_info) (m : xmap) (F A B : list extent_info) (e : extent_info) :
  file_shape i m F -> F = A ++ e :: B -> getZ (extents i) (lenZ A) = Some e.
Proof.
  intros [Hs _ _ _ _ _] ->; rewrite Hs, <- app_assoc; unfold getZ, lenZ; destruct (Z.ltb_spec (Z.of_nat (length A)) 0); [lia|].
  rewrite Nat2Z.id; by apply list_lookup_middle.
Qed.

Lemma fork_find_ok (w : world) (m : xmap) (F : list extent_info) (ib : Z) : file_ok sbi (inode w) m F ->
  forall B A, F = A ++ B -> exists o, fork_find ib (length B) (lenZ A) w = Ok (o, w)
  /\ match o with Some e => e ∈ F /\ holds_block ib e | None => ~ mapped B ib end.
Proof.
  intros Hk; pose proof (fk_wf _ _ _ _ Hk) as Hwf; apply Forall_app in Hwf as [Hwf _]; induction B as [|e B IH]; intros A EF.
  { exists None; split; [done|]; by intros ?%mapped_nil. }
  cbn [fork_find length]; io (extent_at_ok w _ _ (slot_used _ _ _ _ _ _ (fk_shape _ _ _ _ Hk) EF)).
  assert (e ∈ F) as Hin by (rewrite EF, elem_of_app, elem_of_cons; auto); rewrite Forall_forall in Hwf; pose proof (in_extent_spec _ ib e (Hwf e Hin)) as Hi.
  destruct (in_extent ib e).
  { exists (Some e); split; [done|]; split; [done|by apply Hi]. }
  destruct (IH (A ++ [e])) as (o & E & Ho); [by rewrite <- app_assoc|]; replace (lenZ (A ++ [e])) with (lenZ A + 1) in E by (unfold lenZ; rewrite length_app; cbn; lia).
  exists o; split; [done|]; destruct o; [done|]; rewrite mapped_cons; intros [?|?]; [|done]; assert (false = true) by (by apply Hi); done.
Qed.

(** ** vdfs4_get_iblock_extent *)

(** The extent of the block, or none and a hint: the block behind the file's last
    one when that is the block before. *)
Definition lookup_answer (E : list extent_info) (ib : Z) (r : extent_info) (h : Z) : Prop :=
  (r ∈ E /\ holds_block ib r) \/ (first_block r = 0 /\ ~ mapped E ib /\ 0 <= h < 2 ^ 32 /\ (h = 0 \/ maps E (ib - 1) (h - 1))).

Lemma not_found_ok (E : list extent_info) (ib : Z) (e : extent_info) :
  vol < 2 ^ 32 -> ext_wf vol e -> e ∈ E -> ~ mapped E ib -> exists r h, extent_not_found ib e = (0, r, h) /\ lookup_answer E ib r h.
Proof.
  intros Hv (W1 & W2 & W3 & W4 & W5) Hin Hm; unfold extent_not_found, e_end in *; eexists _, _; split; [reflexivity|]; right; split; [done|]; split; [done|].
  rewrite !u64_small by lia; destruct (Z.eqb_spec ib (e_iblock e + block_count e)) as [->|]; [|by split; [lia|left]].
  split; [lia|]; right; exists e; unfold holds_block, e_end; split; [done|lia].
Qed.

Lemma floor_mapped (ino ib : Z) (m : xmap) (r : exttree_record) (e : extent_info) (v : Z) :
  is_floor (ino, ib) m r -> x_object_id r = ino -> Forall (ext_wf v) (overflow ino m) -> all_sep (overflow ino m) ->
  e ∈ overflow ino m -> holds_block ib e -> e = Extent (x_begin r) (x_iblock r) (x_length r).
Proof.
  intros (Hin & Hle & Hmax) Ho Hwf Hs He Hi; set (q := Extent _ _ _); assert (q ∈ overflow ino m) as Hq by (apply overflow_elem; by rewrite <- Ho).
  pose proof He as He'; apply overflow_elem in He'; specialize (Hmax (ino, e_iblock e) ltac:(by rewrite He')).
  unfold holds_block, e_end in Hi; specialize (Hmax ltac:(right; cbn; lia)); rewrite Forall_forall in Hwf; destruct (Hwf q Hq) as (Wq & _).
  destruct (all_sep_elem _ e q Hs He Hq) as [|Hsep]; [done|exfalso]; unfold kle, x_key in *; cbn in *; subst q; unfold sep, e_end in Hsep; cbn in *; lia.
Qed.

Lemma elem_not_mapped (E K : list extent_info) (ib : Z) : ~ mapped E ib -> ~ mapped K ib -> ~ mapped (E ++ K) ib.
Proof. intros HE HK (e & [He|He]%elem_of_app & Hi); [by apply HE; exists e|by apply HK; exists e]. Qed.

Lemma last_slot (i : inode_info) (m : xmap) (F : list extent_info) : file_shape i m F -> used_extents i <> 0 ->
  exists A e, F = A ++ [e] /\ getZ (extents i) (used_extents i - 1) = Some e.
Proof.
  intros Hk Hu; pose proof (fs_used _ _ _ Hk) as Hl; destruct F as [|e F _] using rev_ind; [by rewrite <- Hl in Hu|].
  exists F, e; split; [done|]; rewrite <- Hl; unfold lenZ; rewrite length_app; cbn.
  replace (Z.of_nat (length F + 1) - 1) with (lenZ F) by (unfold lenZ; lia); by eapply slot_used.
Qed.

Lemma tree_extent_ok (w : world) (F : list extent_info) (ib : Z) : world_ok sbi nb w F -> 0 <= ib ->
  exists e r w', vdfs4_exttree_get_extent ib w = Ok ((e, r), w') /\ framed w w'
  /\ ((e < 0 /\ e <> - ENOENT /\ ~ calm w)
      \/ ((e = 0 \/ e = - ENOENT)
          /\ ((first_block r = 0 /\ ~ mapped (overflow (i_ino (inode w)) (view (tree w))) ib)
              \/ (r ∈ overflow (i_ino (inode w)) (view (tree w)) /\ (mapped (overflow (i_ino (inode w)) (view (tree w))) ib -> holds_block ib r))))).
Proof.
  intros Hw Hib; pose proof (wk_tree _ _ _ _ Hw) as Ht; pose proof (wk_file _ _ _ _ Hw) as Hk; set (ino := i_ino (inode w)); unfold vdfs4_exttree_get_extent; io_run.
  destruct (find_strict_ok ino ib w Ht) as (o & w1 & E1 & Fr & Ho); io E1.
  pose proof (fk_wf _ _ _ _ Hk) as Hwf; apply Forall_app in Hwf as [_ Hwf]; pose proof (fk_sep _ _ _ _ Hk) as Hs.
  assert (all_sep (overflow ino (view (tree w)))) as Hso by (clear -Hs; induction F as [|a F IH]; [done|]; apply IH, Hs).
  destruct o as [e|r]; eexists _, _, _; (split; [reflexivity|]); (split; [done|]).
  - destruct Ho as (He & Hno & Hc); destruct (Z.eq_dec e (- ENOENT)) as [->|Hne]; [right; split; [by right|]|left; split_and!; auto].
    left; split; [done|]; intros (q & Hq & Hi); apply overflow_elem in Hq; specialize (Hno eq_refl (e_iblock q) ltac:(by rewrite Hq)); unfold holds_block in Hi; lia.
  - destruct Ho as [Ho Hf]; right; split; [destruct (_ && _); auto|]; right; split; [apply overflow_elem; cbn; rewrite <- Ho; apply Hf|].
    intros (q & Hq & Hi); by rewrite <- (floor_mapped ino ib _ r q vol Hf Ho Hwf Hso Hq Hi).
Qed.

Lemma get_extent_ok (w : world) (F : list extent_info) (ib : Z) : world_ok sbi nb w F -> 0 <= ib ->
  exists e r h w', vdfs4_get_iblock_extent ib zero_extent 0 w = Ok ((e, r, h), w') /\ framed w w'
  /\ ((e < 0 /\ ~ calm w) \/ (e = 0 /\ lookup_answer (exts w F) ib r h)).
Proof.
  intros Hw Hib; pose proof (wk_file _ _ _ _ Hw) as Hk; pose proof (wk_tree _ _ _ _ Hw) as Ht; destruct (space_bounds sbi nb _ (wk_space _ _ _ _ Hw)) as (_ & _ & _ & Hv).
  pose proof (fk_wf _ _ _ _ Hk) as Hwf; pose proof (etotal_nonneg _ _ Hwf) as Hnn; unfold vdfs4_get_iblock_extent; io_run; set (i := inode w) in *.
  assert (used_extents i = 0 -> F = []) as Hnil by (intros E; pose proof (fs_used _ _ _ (fk_shape _ _ _ _ Hk)) as E'; apply length_zero_iff_nil; unfold lenZ in E'; lia).
  destruct (Z.eqb_spec (used_extents i) 0) as [Eu|Nu].
  { rewrite orb_true_r; cbn beta iota; eexists _, _, _, _; split; [reflexivity|]; split; [by apply framed_refl|right; split; [done|right]].
    split; [done|]; split; [|split; [lia|by left]]; unfold exts; fold i; rewrite (Hnil Eu), (fs_full _ _ _ (fk_shape _ _ _ _ Hk)) by (by rewrite Eu); by intros ?%mapped_nil. }
  destruct (last_slot _ _ _ (fk_shape _ _ _ _ Hk) Nu) as (A & last & EF & Elast); assert (last ∈ F) as Hlast by (rewrite EF, elem_of_app, elem_of_cons; auto).
  assert (last ∈ exts w F) as Hle by (unfold exts; rewrite elem_of_app; auto); pose proof (proj1 (Forall_forall _ _) Hwf) as Hwf'; pose proof (Hwf' _ Hle) as Wlast.
  assert (0 < etotal (exts w F)) as Hpos.
  { unfold exts; fold i; rewrite EF, !etotal_app; rewrite EF, <- app_assoc, !Forall_app in Hwf; destruct Hwf as (W1 & W2 & W3).
    apply etotal_nonneg in W1, W3; cbn; destruct Wlast; lia. }
  rewrite (proj2 (Z.eqb_neq (total_block_count i) 0)) by (unfold exts in Hpos; fold i in Hpos; rewrite (fk_total _ _ _ _ Hk); lia); cbn [orb].
  destruct (fork_find_ok w _ F ib Hk F [] eq_refl) as (o & E1 & Ho).
  replace (Z.to_nat (used_extents i)) with (length F) by (rewrite <- (fs_used _ _ _ (fk_shape _ _ _ _ Hk)); unfold lenZ; lia); io E1.
  destruct o as [e|].
  { eexists _, _, _, _; split; [reflexivity|]; split; [by apply framed_refl|right; split; [done|left]]; destruct Ho; split; [unfold exts; rewrite elem_of_app; auto|done]. }
  destruct (Z.ltb_spec (used_extents i) VDFS4_EXTENTS_COUNT_IN_FORK) as [Hlt|Hge].
  { io (extent_at_ok w _ _ Elast); destruct (not_found_ok (exts w F) ib last Hv Wlast Hle) as (r & h & E & HA).
    - unfold exts; fold i; apply elem_not_mapped; [done|]; rewrite (fs_full _ _ _ (fk_shape _ _ _ _ Hk) Hlt); by intros ?%mapped_nil.
    - unfold ret; rewrite E; eexists _, _, _, _; split; [reflexivity|]; split; [by apply framed_refl|by right]. }
  pose proof (fs_max _ _ _ (fk_shape _ _ _ _ Hk)) as Hmax; fold i in Hmax; assert (used_extents i = VDFS4_EXTENTS_COUNT_IN_FORK) as Eu9 by lia.
  destruct (tree_extent_ok w F ib Hw Hib) as (e & r & w1 & E2 & Fr & Hcase); io E2.
  destruct Hcase as [(He & Hne & Hc)|(He & Hcase)].
  { rewrite (proj2 (Z.eqb_neq e 0)), (proj2 (Z.eqb_neq e (- ENOENT))) by (lia || done); cbn [negb andb]; eexists _, _, _, _; split; [reflexivity|]; split; [done|by left]. }
  replace (negb (e =? 0) && negb (e =? - ENOENT)) with false by (by destruct He as [->| ->]).
  destruct Hcase as [(Hz & Hno)|(Hin & Hyes)].
  { rewrite Hz; cbn [Z.eqb]; rewrite Eu9 in Elast; pose proof Fr as (Fi & _).
    io (extent_at_ok w1 (VDFS4_EXTENTS_COUNT_IN_FORK - 1) last ltac:(rewrite Fi; exact Elast)).
    destruct (not_found_ok (exts w F) ib last Hv Wlast Hle) as (r' & h & E & HA); [by apply elem_not_mapped|].
    unfold ret; rewrite E; eexists _, _, _, _; split; [reflexivity|]; split; [done|by right]. }
  assert (r ∈ exts w F) as Hre by (unfold exts; rewrite elem_of_app; auto); pose proof (Hwf' _ Hre) as Wr; pose proof (in_extent_spec _ ib _ Wr) as Hir.
  rewrite (proj2 (Z.eqb_neq (first_block r) 0)) by (destruct Wr; lia).
  destruct (in_extent ib r); [eexists _, _, _, _; split; [reflexivity|]; split; [done|right; split; [done|left; split; [done|by apply Hir]]]|].
  destruct (not_found_ok (exts w F) ib r Hv Wr Hre) as (r' & h & E & HA).
  - apply elem_not_mapped; [done|]; intros Hm; assert (false = true) by (by apply Hir, Hyes); done.
  - unfold ret; rewrite E; eexists _, _, _, _; split; [reflexivity|]; split; [done|by right].
Qed.

End Lookup.
