(* ===== verification/FileInsert.v ===== *)
(** Adding an extent to a file: insert_extent of src/linux/fs/vdfs4/inode.c. *)

From Stdlib Require Import ZArith Lia Bool List.
From stdpp Require Import base list gmap sets sorting.
From S2P Require Import Prelude RuntimeExtents Bitmap FindBit Rbtree FsmTree FsmSpace Fsm FileSpace FileMap FileRep FileLookup.

Open Scope Z_scope.

Section Insert.
Context {T M : Type} `{ExtTreeLaws T} `{MetaArea M}.
Context (sbi : sb_info).

#[local] Abbreviation vol := (volume_blocks_count sbi).
#[local] Abbreviation world := (world T M).

(** ** Slots *)

Lemma put_extent_ok (w : world) (A B : list extent_info) (a e : extent_info) :
  extents (inode w) = A ++ a :: B -> put_extent (lenZ A) e w = Ok (tt, set_inode (set_extents (A ++ e :: B) (inode w)) w).
Proof.
  intros E; unfold put_extent; io_run; rewrite E; unfold getZ, setZ, lenZ; destruct (Z.ltb_spec (Z.of_nat (length A)) 0); [lia|].
  by rewrite Nat2Z.id, list_lookup_middle, insert_app_r_alt, Nat.sub_diag.
Qed.

Lemma slot_ok (w : world) (A B : list extent_info) (a : extent_info) :
  extents (inode w) = A ++ a :: B -> extent_at (lenZ A) w = Ok (a, w).
Proof.
  intros E; apply extent_at_ok; rewrite E; unfold getZ, lenZ; destruct (Z.ltb_spec (Z.of_nat (length A)) 0); [lia|].
  by rewrite Nat2Z.id, list_lookup_middle.
Qed.

Lemma lenZ_snoc (A : list extent_info) (a : extent_info) : lenZ (A ++ [a]) = lenZ A + 1.
Proof. unfold lenZ; rewrite length_app; cbn; lia. Qed.

Lemma shift_ok (A B : list extent_info) : forall (R : list extent_info) (z : extent_info) (w : world),
  extents (inode w) = A ++ B ++ z :: R ->
  exists x, shift_extents (length B) (lenZ (A ++ B)) w = Ok (tt, set_inode (set_extents (A ++ x :: B ++ R) (inode w)) w).
Proof.
  induction B as [|b B IH] using rev_ind; intros R z w E.
  { exists z; cbn in E |- *; unfold ret; f_equal; f_equal; destruct w as [i ? ? ? ?], i; cbn in *; unfold set_inode, set_extents; cbn; by subst. }
  rewrite length_app, Nat.add_1_r; cbn [shift_extents].
  assert (extents (inode w) = (A ++ B) ++ b :: z :: R) as E1 by (by rewrite E, <- !app_assoc).
  replace (lenZ (A ++ B ++ [b]) - 1) with (lenZ (A ++ B)) by (rewrite app_assoc, lenZ_snoc; lia); io (slot_ok w _ _ _ E1).
  assert (extents (inode w) = (A ++ B ++ [b]) ++ z :: R) as E2 by (by rewrite E, <- !app_assoc); io (put_extent_ok w _ _ _ b E2).
  destruct (IH (b :: R) b (set_inode (set_extents ((A ++ B ++ [b]) ++ b :: R) (inode w)) w)) as (x & Ex); [cbn; by rewrite <- !app_assoc|].
  exists x; rewrite Ex, <- (app_assoc B [b] R); reflexivity.
Qed.

Lemma find_place_ok (w : world) (m : xmap) (ib : Z) : forall B A, file_shape (inode w) m (A ++ B) ->
  exists C D, B = C ++ D /\ find_place ib (length B) (lenZ A) w = Ok (lenZ (A ++ C), w)
  /\ Forall (fun q => e_iblock q <= ib) C /\ match D with d :: _ => ib < e_iblock d | [] => True end.
Proof.
  induction B as [|b B IH]; intros A Hs; [exists [], []; cbn; rewrite app_nil_r; by repeat split|].
  cbn [find_place length]; io (extent_at_ok w _ _ (slot_used _ _ _ _ _ _ Hs eq_refl)); destruct (Z.ltb_spec ib (e_iblock b)).
  { exists [], (b :: B); split; [done|]; split; [by rewrite app_nil_r|]; by split. }
  destruct (IH (A ++ [b])) as (C & D & -> & E & HC & HD); [by rewrite <- app_assoc|]; rewrite lenZ_snoc in E.
  exists (b :: C), D; split; [done|]; rewrite E, <- app_assoc; split; [done|]; split; [by constructor|done].
Qed.

(** ** The places after an insertion *)

Lemma sorted_insert (A B : list extent_info) (e : extent_info) :
  StronglySorted iblock_lt (A ++ B) -> (forall a, a ∈ A -> e_iblock a < e_iblock e) -> (forall b, b ∈ B -> e_iblock e < e_iblock b) ->
  StronglySorted iblock_lt (A ++ e :: B).
Proof.
  intros Hs HA HB; rewrite StronglySorted_app in *; destruct Hs as (Hab & HsA & HsB); split_and!; auto.
  - intros a b Ha [->|Hb]%elem_of_cons; [by apply HA|auto].
  - constructor; [done|]; by apply Forall_forall.
Qed.

(** The rest of the state is as it was. *)
Definition same_file (i i' : inode_info) : Prop :=
  i_ino i' = i_ino i /\ i_mode i' = i_mode i /\ i_size i' = i_size i /\ runtime_extents i' = runtime_extents i.

Definition same_counts (i i' : inode_info) : Prop := total_block_count i' = total_block_count i /\ i_bytes i' = i_bytes i.

(** Everything but the inode and the tree. *)
Definition kept (w w' : world) : Prop :=
  fsm w' = fsm w /\ area w' = area w /\ tree_ok (tree w') /\ (calm w -> calm w')
  /\ (forall k, is_Some (view (tree w) !! k) -> is_Some (view (tree w') !! k)).

(** The record that makes a search of the tree always succeed. *)
Definition based (w : world) : Prop := exists k, is_Some (view (tree w) !! k) /\ k.1 < i_ino (inode w).

Lemma tree_add_ok (w : world) (e : extent_info) : tree_ok (tree w) -> based w -> view (tree w) !! (i_ino (inode w), e_iblock e) = None ->
  exists err w', vdfs4_extree_insert_extent (i_ino (inode w)) e w = Ok (err, w') /\ inode w' = inode w /\ kept w w'
  /\ ((err < 0 /\ ~ calm w /\ view (tree w') = view (tree w))
      \/ (err = 0 /\ overflow (i_ino (inode w)) (view (tree w')) ≡ₚ e :: overflow (i_ino (inode w)) (view (tree w)))).
Proof.
  intros Ht (k & Hk & Hlt) Hn; unfold vdfs4_extree_insert_extent, vdfs4_exttree_add, kept; destruct (ask_ok w) as (a & w1 & E1 & Ei & Ef & Ea & Et & Hq); io E1.
  destruct (Z.eqb_spec a 0) as [->|Na]; cbn [negb].
  2: { eexists _, _; split; [reflexivity|]; rewrite ?Et, ?Ei; split_and!; auto; [intros [Hc ?]; split; [by apply Hq|by rewrite Et]|].
    left; split; [done|]; split; [|done]; intros [Hc _]; by destruct (Hq Hc). }
  set (r := Xrec _ _ _ _); pose proof (insert_law r (tree w1) ltac:(by rewrite Et)) as HI; destruct (btree_insert r (tree w1)) as [err t'] eqn:Eb; destruct HI as (Ht' & Hst & Hcase).
  rewrite (on_tree_framed _ _ _ _ Eb); eexists _, _; split; [reflexivity|]; cbn; rewrite Et in *.
  split; [done|]; split.
  { split_and!; auto; [intros [Hc ?]; split; [by apply Hq|auto]|]; intros q Hs; destruct Hcase as [(_ & _ & ->)|(_ & -> & _)]; [|done].
    rewrite lookup_insert_is_Some'; auto. }
  destruct Hcase as [(-> & _ & ->)|(He & -> & Hno)]; [right; split; [done|]; by apply overflow_insert|left; split; [done|]; split; [|done]].
  intros [Hc Hs]; destruct (Hno Hs) as [Hx|Hx]; [unfold x_key in Hx; cbn in Hx; rewrite Hn in Hx; by destruct Hx|].
  apply (Hx k Hk); left; cbn; lia.
Qed.

Lemma shift_put_ok (w : world) (A B R : list extent_info) (z e : extent_info) : extents (inode w) = A ++ B ++ z :: R ->
  (shift_extents (length B) (lenZ (A ++ B));; put_extent (lenZ A) e;; ret 0) w = Ok (0, set_inode (set_extents (A ++ e :: B ++ R) (inode w)) w).
Proof.
  intros E; destruct (shift_ok A B R z w E) as (x & Ex); io Ex.
  by rewrite (io_bind_ok _ _ _ _ _ (put_extent_ok (set_inode (set_extents (A ++ x :: B ++ R) (inode w)) w) A (B ++ R) x e eq_refl)).
Qed.

(** An extent goes into the fork with room for it. *)
Lemma shape_room (i i' : inode_info) (m : xmap) (A B R : list extent_info) (e : extent_info) :
  file_shape i m (A ++ B) -> used_extents i < VDFS4_EXTENTS_COUNT_IN_FORK -> i_ino i' = i_ino i -> used_extents i' = used_extents i + 1 ->
  extents i = (A ++ B) ++ zero_extent :: R -> extents i' = A ++ e :: B ++ R ->
  (forall a, a ∈ A -> e_iblock a < e_iblock e) -> (forall b, b ∈ B -> e_iblock e < e_iblock b) -> file_shape i' m (A ++ e :: B).
Proof.
  intros [Hs Hu Hm Hso Hb Hf] Hlt Ei Eu Ee Ee' HA HB; rewrite Hs in Ee; apply app_inv_head in Ee; split; rewrite ?Ei, ?Eu, ?Hf by done.
  - rewrite Ee', <- app_assoc; cbn; do 3 f_equal; replace (Z.to_nat (_ - used_extents i)) with (S (Z.to_nat (VDFS4_EXTENTS_COUNT_IN_FORK - (used_extents i + 1)))) in Ee by lia.
    cbn in Ee; congruence.
  - unfold lenZ in *; rewrite length_app in *; cbn; lia.
  - lia.
  - by apply sorted_insert.
  - by intros a b _ ?%elem_of_nil.
  - done.
Qed.

(** The last extent of a full fork moves to the tree. *)
Lemma shape_push (i i' : inode_info) (m m' : xmap) (A B : list extent_info) (l e : extent_info) :
  file_shape i m (A ++ B ++ [l]) -> used_extents i = VDFS4_EXTENTS_COUNT_IN_FORK -> i_ino i' = i_ino i -> used_extents i' = used_extents i ->
  extents i' = A ++ e :: B -> overflow (i_ino i) m' ≡ₚ l :: overflow (i_ino i) m ->
  (forall a, a ∈ A -> e_iblock a < e_iblock e) -> (forall b, b ∈ B ++ [l] -> e_iblock e < e_iblock b) -> file_shape i' m' (A ++ e :: B).
Proof.
  intros [Hs Hu Hm Hso Hb Hf] H9 Ei Eu Ee Ho HA HB; assert (forall a, a ∈ A ++ B -> e_iblock a < e_iblock l) as Hl.
  { intros a Ha; rewrite app_assoc in Hso; apply StronglySorted_app in Hso as (Hx & _ & _); apply Hx; [done|by apply list_elem_of_singleton]. }
  assert (e_iblock e < e_iblock l) as Hel by (apply HB; rewrite elem_of_app, list_elem_of_singleton; auto).
  split; rewrite ?Ei, ?Eu.
  - rewrite Ee, H9, Z.sub_diag; cbn; by rewrite app_nil_r.
  - rewrite <- Hu; unfold lenZ; rewrite !length_app; cbn; lia.
  - lia.
  - apply sorted_insert; [rewrite app_assoc in Hso; apply StronglySorted_app in Hso as (_ & Hso & _); exact Hso|done|intros b Hb'; apply HB; rewrite elem_of_app; auto].
  - intros a b Ha; rewrite Ho; assert (e_iblock a <= e_iblock l /\ forall c, c ∈ overflow (i_ino i) m -> e_iblock a < e_iblock c) as [H1' H2'].
    + assert (a = e \/ a ∈ A ++ B) as [->|Ha'] by (rewrite elem_of_app, elem_of_cons in Ha; rewrite elem_of_app; tauto).
      * split; [lia|]; intros c Hc; assert (e_iblock l < e_iblock c); [|lia]; apply Hb; [rewrite !elem_of_app, list_elem_of_singleton; auto|done].
      * split; [by apply Z.lt_le_incl, Hl|]; intros c Hc; apply Hb; [rewrite app_assoc, elem_of_app; auto|done].
    + intros [->|Hc]%elem_of_cons; [|auto]; assert (a = e \/ a ∈ A ++ B) as [->|Ha'] by (rewrite elem_of_app, elem_of_cons in Ha; rewrite elem_of_app; tauto); auto.
  - lia.
Qed.

(** The outcome of [insert_in_fork]: an error of the environment and no change,
    or one extent more. *)
Definition inserted (w w' : world) (F : list extent_info) (e : extent_info) (err : Z) : Prop :=
  (err < 0 /\ ~ calm w /\ inode w' = inode w /\ view (tree w') = view (tree w))
  \/ (err = 0 /\ exists F', file_shape (inode w') (view (tree w')) F' /\ exts w' F' ≡ₚ e :: exts w F).

(** 3a: the last extent of the full fork is pushed out. *)
Lemma push_out_ok (w : world) (A B : list extent_info) (l e : extent_info) :
  tree_ok (tree w) -> based w -> file_shape (inode w) (view (tree w)) (A ++ B ++ [l]) -> used_extents (inode w) = VDFS4_EXTENTS_COUNT_IN_FORK ->
  (forall a, a ∈ A -> e_iblock a < e_iblock e) -> (forall b, b ∈ B ++ [l] -> e_iblock e < e_iblock b) ->
  exists err w', (err ← (last ← extent_at (VDFS4_EXTENTS_COUNT_IN_FORK - 1); vdfs4_extree_insert_extent (i_ino (inode w)) last);
    if negb (err =? 0) then ret err
    else
      i ← get_inode;
      shift_extents (Z.to_nat (used_extents i - 1 - lenZ A)) (used_extents i - 1);;
      put_extent (lenZ A) e;;
      ret 0) w = Ok (err, w')
  /\ kept w w' /\ same_file (inode w) (inode w') /\ same_counts (inode w) (inode w') /\ i_dirty (inode w') = i_dirty (inode w)
  /\ inserted w w' (A ++ B ++ [l]) e err.
Proof.
  intros Ht Hbase Hsh H9 HA HB; pose proof Hsh as [Hs Hu Hm Hso Hbf Hf]; rewrite H9, Z.sub_diag in Hs; cbn in Hs; rewrite app_nil_r, app_assoc in Hs.
  assert (lenZ (A ++ B) = 8) as E8 by (rewrite H9, app_assoc, lenZ_snoc in Hu; unfold VDFS4_EXTENTS_COUNT_IN_FORK in Hu; lia).
  assert (view (tree w) !! (i_ino (inode w), e_iblock l) = None) as Hn.
  { destruct (view (tree w) !! _) as [[x n]|] eqn:Ex; [exfalso|done].
    assert (e_iblock l < e_iblock (Extent x (e_iblock l) n)) as Hx; [|cbn in Hx; lia].
    apply Hbf; [rewrite !elem_of_app, list_elem_of_singleton; auto|by apply overflow_elem]. }
  destruct (tree_add_ok w l Ht Hbase Hn) as (err & w1 & E1 & Ei & Hk & Hcase); pose proof Hk as (Kf & Ka & Kt & Kc & Kv).
  assert (extent_at (VDFS4_EXTENTS_COUNT_IN_FORK - 1) w = Ok (l, w)) as El by (change (VDFS4_EXTENTS_COUNT_IN_FORK - 1) with 8; rewrite <- E8; exact (slot_ok w _ _ _ Hs)).
  rewrite (io_bind_ok _ _ w w1 err) by (by io El); cbn beta iota.
  destruct Hcase as [(He & Hc & Ev)|(-> & Hov)].
  { rewrite (proj2 (Z.eqb_neq err 0)) by lia; eexists _, _; split; [reflexivity|]; rewrite Ei; by repeat (split; [done|]); left. }
  cbn [Z.eqb negb]; io_run; rewrite Ei, H9; change (VDFS4_EXTENTS_COUNT_IN_FORK - 1) with 8.
  replace (Z.to_nat (8 - lenZ A)) with (length B) by (unfold lenZ in *; rewrite length_app in E8; lia); rewrite <- E8.
  rewrite (shift_put_ok w1 A B [] l e ltac:(by rewrite Ei, Hs, <- app_assoc)); eexists _, _; split; [reflexivity|]; rewrite app_nil_r; cbn; rewrite Ei.
  split; [done|]; do 3 (split; [done|]); right; split; [done|]; exists (A ++ e :: B); split.
  - cbn; rewrite ?Ei; eapply (shape_push (inode w)); eauto.
  - unfold exts; cbn; rewrite Hov, <- !app_assoc; cbn; symmetry; apply Permutation_middle.
Qed.

Lemma in_fork_ok (w : world) (A B : list extent_info) (e : extent_info) :
  tree_ok (tree w) -> based w -> file_shape (inode w) (view (tree w)) (A ++ B) -> Forall (fun q => 0 < first_block q) (A ++ B) ->
  (forall a, a ∈ A -> e_iblock a < e_iblock e) -> (forall b, b ∈ B -> e_iblock e < e_iblock b) ->
  view (tree w) !! (i_ino (inode w), e_iblock e) = None ->
  exists err w', insert_in_fork (lenZ A) e w = Ok (err, w') /\ kept w w' /\ same_file (inode w) (inode w') /\ same_counts (inode w) (inode w')
  /\ i_dirty (inode w') = i_dirty (inode w) /\ inserted w w' (A ++ B) e err.
Proof.
  intros Ht Hbase Hsh Hp HA HB Hn; unfold insert_in_fork; io_run; pose proof Hsh as [Hs Hu Hm Hso Hbf Hf]; set (i := inode w) in *.
  assert (kept w w) as Hkw by (unfold kept; auto 10); assert (lenZ (A ++ B) = lenZ A + lenZ B) as Elen by (unfold lenZ; rewrite length_app; lia).
  assert (used_extents i < VDFS4_EXTENTS_COUNT_IN_FORK -> exists R, extents i = (A ++ B) ++ zero_extent :: R) as Hroom.
  { intros Hlt; eexists; rewrite Hs; f_equal; replace (Z.to_nat (_ - _)) with (S (Z.to_nat (VDFS4_EXTENTS_COUNT_IN_FORK - (used_extents i + 1)))) by lia; reflexivity. }
  destruct B as [|b B _] using rev_ind.
  - rewrite app_nil_r in *; change (lenZ []) with 0 in Elen; destruct (Z.ltb_spec (lenZ A) VDFS4_EXTENTS_COUNT_IN_FORK) as [Hlt|Hge].
    + destruct Hroom as (R & ER); [lia|].
      rewrite (io_bind_ok _ _ w w true) by (unfold i in ER; by io (slot_ok w _ _ _ ER)); cbn beta iota; unfold i in ER; io (put_extent_ok w _ _ _ e ER); io_run.
      eexists _, _; split; [reflexivity|]; cbn; split; [done|]; split; [done|]; split; [done|]; split; [done|]; right; split; [done|].
      exists (A ++ [e]); split; [eapply (shape_room i _ _ A [] R); rewrite ?app_nil_r; auto; cbn; try lia; fold i; apply u32_small; pose proof (lenZ_nonneg A); unfold VDFS4_EXTENTS_COUNT_IN_FORK in *; lia|].
      unfold exts; cbn; rewrite <- app_assoc; cbn; symmetry; apply Permutation_middle.
    + rewrite (io_bind_ok _ _ w w false) by done; cbn beta iota; rewrite (proj2 (Z.eqb_eq (lenZ A) _)) by lia.
      destruct (tree_add_ok w e Ht Hbase Hn) as (err & w' & E & Ei & Hk & Hcase); exists err, w'; split; [done|]; rewrite Ei; split; [done|]; do 3 (split; [done|]).
      destruct Hcase as [(He & Hc & Ev)|(-> & Hov)]; [by left|right; split; [done|]]; exists A; rewrite Ei; fold i in Hov; split.
      * split; fold i; auto; [|lia]; intros a c Ha; rewrite Hov; intros [->|Hc]%elem_of_cons; auto.
      * unfold exts; rewrite Ei; fold i; rewrite Hov; symmetry; apply Permutation_middle.
  - clear Hkw; assert (lenZ A < used_extents i) as Hlt by (rewrite <- Hu, Elen, lenZ_snoc; pose proof (lenZ_nonneg B); lia).
    assert (lenZ A < VDFS4_EXTENTS_COUNT_IN_FORK) as Hlt9 by lia; rewrite (proj2 (Z.ltb_lt _ _) Hlt9).
    assert (exists c C, B ++ [b] = c :: C) as (c & C & EB) by (destruct B; cbn; eauto).
    assert (extent_at (lenZ A) w = Ok (c, w)) as Ec by (apply extent_at_ok; eapply (slot_used _ _ _ A C c Hsh); by rewrite EB).
    assert (0 < first_block c) as Hpc by (rewrite Forall_forall in Hp; apply Hp; rewrite EB, elem_of_app, elem_of_cons; auto).
    rewrite (io_bind_ok _ _ w w false) by (io Ec; unfold ret; by rewrite (proj2 (Z.eqb_neq (first_block c) 0)) by lia); cbn beta iota.
    rewrite (proj2 (Z.eqb_neq (lenZ A) _)) by lia; destruct (Z.eqb_spec (used_extents i) VDFS4_EXTENTS_COUNT_IN_FORK) as [E9|N9].
    + by apply push_out_ok.
    + destruct Hroom as (R & ER); [lia|]; set (w1 := set_inode (set_used_extents (used_extents i +32 1) i) w).
      rewrite (io_bind_ok _ _ w w1 0) by done; cbn [Z.eqb negb]; io_run; cbn [inode w1 set_inode used_extents set_used_extents].
      rewrite u32_small by (pose proof (lenZ_nonneg A); unfold VDFS4_EXTENTS_COUNT_IN_FORK in *; lia); rewrite Z.add_simpl_r.
      replace (Z.to_nat (used_extents i - lenZ A)) with (length (B ++ [b])) by (unfold lenZ in *; lia); rewrite <- Hu.
      rewrite (shift_put_ok w1 A (B ++ [b]) R zero_extent e); [|cbn; by rewrite ER, <- app_assoc]; eexists _, _; split; [reflexivity|].
      split; [unfold kept; cbn; auto 10|]; do 3 (split; [done|]); right; split; [done|]; exists (A ++ e :: B ++ [b]); split.
      * eapply (shape_room i _ _ A (B ++ [b]) R); eauto; [lia|]; cbn; apply u32_small; pose proof (lenZ_nonneg A); unfold VDFS4_EXTENTS_COUNT_IN_FORK in *; lia.
      * unfold exts; cbn; rewrite <- app_assoc; cbn; by rewrite <- Permutation_middle, <- !app_assoc.
Qed.

(** ** insert_extent *)

(** [E'] maps and owns what [E] does, and the extent [e]. *)
Definition grows (E : list extent_info) (e : extent_info) (E' : list extent_info) : Prop :=
  (forall i b, maps E' i b <-> maps E i b \/ (holds_block i e /\ b = first_block e + (i - e_iblock e)))
  /\ (forall x, owns E' x <-> owns E x \/ first_block e <= x < first_block e + block_count e)
  /\ etotal E' = etotal E + block_count e.

(** An extent for blocks of the volume and of the file that are not taken. *)
Definition fresh_extent (E : list extent_info) (e : extent_info) : Prop :=
  ext_wf vol e /\ (forall i, holds_block i e -> ~ mapped E i) /\ (forall x, first_block e <= x < first_block e + block_count e -> ~ owns E x).

Definition sound (E : list extent_info) : Prop := Forall (ext_wf vol) E /\ all_sep E.

Lemma sound_perm (E E' : list extent_info) : E ≡ₚ E' -> sound E' <-> sound E.
Proof.
  intros P; unfold sound; pose proof (all_sep_perm _ _ P) as Ha; split; intros [Hw Hs]; (split; [|tauto]); [exact (Permutation_Forall (symmetry P) Hw)|exact (Permutation_Forall P Hw)].
Qed.

Lemma grow_perm (E E' : list extent_info) (e : extent_info) :
  sound E -> fresh_extent E e -> E' ≡ₚ e :: E -> sound E' /\ grows E e E'.
Proof.
  intros [Hw Hs] (We & Hl & Hp) P; split; [apply (sound_perm _ _ P); split; [by constructor|cbn; split; [|done]]|].
  - eapply sep_new; eauto; by destruct We.
  - split_and!; [intros i b; rewrite (maps_perm _ _ P i i eq_refl b b eq_refl), maps_cons; tauto| |rewrite (etotal_perm _ _ P); cbn; lia].
    intros x; rewrite (owns_perm _ _ P x x eq_refl), owns_cons; tauto.
Qed.

(** An extent behind another, in both numberings, becomes part of it. *)
Lemma grow_merge (A B : list extent_info) (p e : extent_info) :
  sound (A ++ p :: B) -> fresh_extent (A ++ p :: B) e -> e_end p = e_iblock e -> first_block p + block_count p = first_block e ->
  let p' := Extent (first_block p) (e_iblock p) (block_count p + block_count e) in
  sound (A ++ p' :: B) /\ grows (A ++ p :: B) e (A ++ p' :: B).
Proof.
  intros Hsound (We & Hl & Hp) El Ep p'; pose proof (fun q => Permutation_middle A B q) as P; rewrite (sound_perm _ _ (P p)) in Hsound.
  rewrite (sound_perm _ _ (P p')); unfold sound, grows; cbn [all_sep etotal] in *; rewrite !Forall_cons in *; destruct Hsound as [Hw Hs]; rewrite Forall_cons in Hw.
  destruct Hw as [Wp Hw], Hs as [Hsp Hs]; assert (Forall (sep e) (A ++ B)) as Hse.
  { eapply sep_new; eauto; [by destruct We|intros i Hi Hm; apply (Hl i Hi)|intros x Hx Hm; apply (Hp x Hx)].
    - apply (mapped_perm _ _ (P p) i i eq_refl), mapped_cons; auto.
    - apply (owns_perm _ _ (P p) x x eq_refl), owns_cons; auto. }
  unfold ext_wf, e_end in *; cbn; split; [split; [split; [lia|done]|split; [|done]]|].
  - rewrite Forall_forall in *; intros q Hq; specialize (Hse q Hq); specialize (Hsp q Hq); specialize (Hw q Hq); unfold sep, e_end in *; cbn; lia.
  - split_and!; [| |rewrite !etotal_app; cbn; lia].
    + intros i b; rewrite <- !(maps_perm _ _ (P _) i i eq_refl b b eq_refl), !maps_cons; unfold holds_block, e_end; cbn; intuition lia.
    + intros x; rewrite <- !(owns_perm _ _ (P _) x x eq_refl), !owns_cons; cbn; intuition lia.
Qed.

Lemma account_ok (i i' : inode_info) (m : xmap) (E E' F' : list extent_info) (n : Z) :
  0 <= vol < 2 ^ 32 -> block_size_ok sbi -> total_block_count i = etotal E -> i_bytes i = block_size sbi * etotal E -> same_counts i i' ->
  file_shape i' m F' -> E' = F' ++ overflow (i_ino i') m -> sound E' -> etotal E' = etotal E + n -> file_ok sbi (add_blocks (block_size sbi) n i') m F'.
Proof.
  intros Hv [Hb1 Hb2] Et Eb [Ct Cb] Hsh EE [Hw Hs] En; pose proof (etotal_vol vol E' ltac:(lia) Hw Hs) as Hmax; pose proof (etotal_nonneg _ _ Hw) as Hnn; subst E'.
  split; auto; cbn [total_block_count i_bytes i_ino add_blocks]; rewrite ?Ct, ?Cb, ?Et, ?Eb.
  - destruct Hsh; by split.
  - rewrite <- En; apply u32_small; lia.
  - rewrite <- Z.mul_add_distr_l, <- En; apply u64_small; nia.
Qed.

(** The outcome of [insert_extent]. *)
Definition extended (w w' : world) (F : list extent_info) (e : extent_info) (err : Z) : Prop :=
  (err <> 0 /\ ~ calm w /\ inode w' = inode w /\ view (tree w') = view (tree w))
  \/ (err = 0 /\ exists F', file_ok sbi (inode w') (view (tree w')) F' /\ grows (exts w F) e (exts w' F')).

(** The last step: the counts of blocks and bytes. *)
Lemma layout_ok (w w' : world) (F F' : list extent_info) (e : extent_info) (u : bool) :
  0 <= vol < 2 ^ 32 -> block_size_ok sbi -> file_ok sbi (inode w) (view (tree w)) F -> kept w w' ->
  same_file (inode w) (inode w') -> same_counts (inode w) (inode w') -> i_dirty (inode w') = i_dirty (inode w) ->
  file_shape (inode w') (view (tree w')) F' -> sound (exts w' F') -> grows (exts w F) e (exts w' F') ->
  exists w'', update_on_disk_layout sbi e u w' = Ok (0, w'') /\ kept w w'' /\ same_file (inode w) (inode w'')
  /\ i_dirty (inode w'') = u || i_dirty (inode w) /\ extended w w'' F e 0.
Proof.
  intros Hv Hb [Hsh Hwf Hs Ht Hby] Hk Hsf Hsc Hd Hsh' Hso Hg; unfold update_on_disk_layout; io_run.
  assert (forall v, exists F'', file_ok sbi (set_i_dirty v (add_blocks (block_size sbi) (block_count e) (inode w'))) (view (tree w')) F''
    /\ grows (exts w F) e (F'' ++ overflow (i_ino (inode w')) (view (tree w')))) as Hfin.
  { intros v; exists F'; split; [|exact Hg]; destruct Hg as (_ & _ & Htot).
    destruct (account_ok (inode w) (inode w') (view (tree w')) _ _ F' (block_count e) Hv Hb Ht Hby Hsc Hsh' eq_refl Hso Htot) as [[? ? ? ? ? ?] ? ? ? ?]; by split. }
  destruct u; io_run; eexists; (split; [reflexivity|]); (split; [exact Hk|]); (split; [exact Hsf|]); (split; [done|]); right; (split; [done|]); [apply Hfin|].
  destruct (Hfin (i_dirty (inode w'))) as (F'' & Hok & Hgr); exists F''; split; [|exact Hgr]; cbn; by destruct (inode w').
Qed.

(** A volume on which extents can be added to the file. *)
Record insertable (w : world) (F : list extent_info) : Prop := {
  in_vol : 0 <= vol < 2 ^ 32;
  in_size : block_size_ok sbi;
  in_tree : tree_ok (tree w);
  in_based : based w;
  in_file : file_ok sbi (inode w) (view (tree w)) F
}.

(** What [insert_extent] gives. *)
Definition insert_result (w : world) (F : list extent_info) (e : extent_info) (u : bool) (r : run (Z * world)) : Prop :=
  exists err w', r = Ok (err, w') /\ kept w w' /\ same_file (inode w) (inode w')
  /\ i_dirty (inode w') = ((err =? 0) && u) || i_dirty (inode w) /\ extended w w' F e err.

(** An extent at its place among those of the fork, or in the tree. *)
Lemma insert_at_ok (w : world) (A B : list extent_info) (e : extent_info) (u : bool) :
  insertable w (A ++ B) -> fresh_extent (exts w (A ++ B)) e -> (forall a, a ∈ A -> e_iblock a < e_iblock e) -> (forall b, b ∈ B -> e_iblock e < e_iblock b) ->
  insert_result w (A ++ B) e u ((err ← insert_in_fork (lenZ A) e; if negb (err =? 0) then ret err else update_on_disk_layout sbi e u) w).
Proof.
  intros [Hv Hb Ht Hba Hk] Hfr HA HB; pose proof Hk as [Hsh Hwf Hse _ _]; pose proof Hfr as (We & Hl & Hp).
  assert (view (tree w) !! (i_ino (inode w), e_iblock e) = None) as Hn.
  { destruct (view (tree w) !! _) as [[x n]|] eqn:Ex; [exfalso|done]; set (q := Extent x (e_iblock e) n).
    assert (q ∈ exts w (A ++ B)) as Hq by (unfold exts; apply elem_of_app; right; by apply overflow_elem).
    rewrite Forall_forall in Hwf; destruct (Hwf q Hq) as (Wq & _); apply (Hl (e_iblock e)); [destruct We; unfold holds_block, e_end; lia|].
    exists q; split; [done|]; unfold holds_block, e_end; cbn in *; lia. }
  assert (Forall (fun q => 0 < first_block q) (A ++ B)) as Hpos by (apply Forall_app in Hwf as [Hwf _]; eapply Forall_impl; [exact Hwf|]; by intros q (_ & ? & _)).
  destruct (in_fork_ok w A B e Ht Hba Hsh Hpos HA HB Hn) as (err & w1 & E1 & Hk1 & Hsf & Hsc & Hd & Hcase); io E1.
  destruct Hcase as [(He & Hc & Ei & Ev)|(-> & F' & Hsh' & P)]; cbn [Z.eqb negb].
  { rewrite (proj2 (Z.eqb_neq err 0)) by lia; exists err, w1; split; [done|]; split; [done|]; split; [done|].
    rewrite (proj2 (Z.eqb_neq err 0)) by lia; split; [by rewrite Ei|]; left; split; [lia|done]. }
  destruct (grow_perm (exts w (A ++ B)) (exts w1 F') e ltac:(done) Hfr P) as [Hso Hg].
  destruct (layout_ok w w1 (A ++ B) F' e u Hv Hb Hk Hk1 Hsf Hsc Hd Hsh' Hso Hg) as (w2 & E2 & Hk2 & Hsf2 & Hd2 & Hx); exists 0, w2; by split_and!.
Qed.

(** An extent that continues an extent of the fork. *)
Lemma merge_at_ok (w : world) (A B : list extent_info) (p e : extent_info) (u : bool) :
  insertable w (A ++ p :: B) -> fresh_extent (exts w (A ++ p :: B)) e -> e_end p = e_iblock e -> first_block p + block_count p = first_block e ->
  insert_result w (A ++ p :: B) e u
    ((put_extent (lenZ A) (Extent (first_block p) (e_iblock p) (block_count p +32 block_count e));; update_on_disk_layout sbi e u) w).
Proof.
  intros [Hv Hb Ht Hba Hk] Hfr El Ep; pose proof Hk as [Hsh Hwf Hse _ _]; pose proof Hsh as [Hs Hu Hm Hso Hbf Hf]; pose proof Hfr as (We & _).
  assert (ext_wf vol p) as Wp by (rewrite Forall_forall in Hwf; apply Hwf; rewrite !elem_of_app, elem_of_cons; auto).
  assert (block_count p +32 block_count e = block_count p + block_count e) as -> by (apply u32_small; unfold ext_wf in *; lia).
  set (p' := Extent _ _ _); assert (extents (inode w) = A ++ p :: (B ++ replicate (Z.to_nat (VDFS4_EXTENTS_COUNT_IN_FORK - used_extents (inode w))) zero_extent)) as Es
    by (rewrite Hs, <- app_assoc; done); io (put_extent_ok w _ _ _ p' Es); set (w1 := set_inode _ w).
  assert (exts w (A ++ p :: B) = A ++ p :: (B ++ overflow (i_ino (inode w)) (view (tree w)))) as Ex by (unfold exts; by rewrite <- app_assoc).
  assert (exts w1 (A ++ p' :: B) = A ++ p' :: (B ++ overflow (i_ino (inode w)) (view (tree w)))) as Ex1 by (unfold exts; cbn; by rewrite <- app_assoc).
  assert (sound (exts w (A ++ p :: B))) as Hsound by done.
  rewrite Ex in Hfr, Hsound; destruct (grow_merge A _ p e Hsound Hfr El Ep) as [Hso1 Hg]; fold p' in Hso1, Hg; rewrite <- Ex1 in Hso1, Hg; rewrite <- Ex in Hg.
  assert (file_shape (inode w1) (view (tree w1)) (A ++ p' :: B)) as Hsh1.
  { split; cbn; auto.
    - by rewrite <- app_assoc.
    - rewrite <- Hu; unfold lenZ; rewrite !length_app; done.
    - clear -Hso; rewrite StronglySorted_app in *; destruct Hso as (H1 & H2 & H3); split_and!; auto.
      + intros a b Ha [->|Hin]%elem_of_cons; [exact (H1 a p Ha ltac:(apply elem_of_cons; auto))|apply H1; [done|apply elem_of_cons; auto]].
      + inversion H3; subst; constructor; [done|]; by eapply Forall_impl.
    - intros a b [Ha|[->|Ha]%elem_of_cons]%elem_of_app Hin; [|apply (Hbf p)|]; auto; try (apply Hbf; auto); rewrite ?elem_of_app, ?elem_of_cons; auto. }
  assert (kept w w1) as Hk1 by (unfold kept; cbn; auto 10).
  destruct (layout_ok w w1 (A ++ p :: B) (A ++ p' :: B) e u Hv Hb Hk Hk1 ltac:(done) ltac:(done) eq_refl Hsh1 Hso1 Hg) as (w2 & E2 & Hk2 & Hsf2 & Hd2 & Hx).
  exists 0, w2; by split_and!.
Qed.

Lemma insertable_ask (w w1 : world) (F : list extent_info) :
  inode w1 = inode w -> tree w1 = tree w -> insertable w F -> insertable w1 F.
Proof. intros Ei Et [? ? ? ? ?]; split; unfold based in *; rewrite ?Ei, ?Et; auto. Qed.

(** The extents of a sorted fork around a logical block that none of them holds. *)
Lemma around (A B : list extent_info) (E : list extent_info) (e : extent_info) :
  StronglySorted iblock_lt (A ++ B) -> (forall q, q ∈ A ++ B -> q ∈ E /\ ext_wf vol q) -> fresh_extent E e ->
  Forall (fun q => e_iblock q <= e_iblock e) A -> match B with d :: _ => e_iblock e < e_iblock d | [] => True end ->
  (forall a, a ∈ A -> e_iblock a < e_iblock e) /\ (forall b, b ∈ B -> e_iblock e < e_iblock b).
Proof.
  intros Hs Hin (We & Hl & _) HA HB; split.
  - intros a Ha; rewrite Forall_forall in HA; specialize (HA a Ha); destruct (Hin a) as [Hae Wa]; [apply elem_of_app; auto|].
    destruct (Z.eq_dec (e_iblock a) (e_iblock e)) as [Eq|]; [exfalso|lia]; apply (Hl (e_iblock e)); [destruct We; unfold holds_block, e_end; lia|].
    exists a; split; [done|]; destruct Wa; unfold holds_block, e_end; lia.
  - intros b Hb; destruct B as [|d B]; [by apply elem_of_nil in Hb|]; apply elem_of_cons in Hb as [->|Hb]; [done|].
    apply StronglySorted_app in Hs as (_ & _ & Hs); inversion Hs as [|? ? _ Hd]; subst; rewrite Forall_forall in Hd; specialize (Hd b Hb); unfold iblock_lt in Hd; lia.
Qed.

(** [insert_extent] without the zeroing of the blocks. *)
Lemma insert_noerase_ok (w : world) (F : list extent_info) (e : extent_info) (u : bool) :
  insertable w F -> fresh_extent (exts w F) e -> insert_result w F e u (insert_extent sbi e u false w).
Proof.
  intros Hin Hfr; pose proof Hin as [Hv Hb Ht Hba Hk]; pose proof Hk as [Hsh Hwf Hse _ _]; pose proof Hsh as [Hs Hu Hm Hso Hbf Hf].
  assert (forall q, q ∈ F -> q ∈ exts w F /\ ext_wf vol q) as HF by (intros q Hq; rewrite Forall_forall in Hwf; split; [|apply Hwf]; apply elem_of_app; auto).
  unfold insert_extent; rewrite (io_bind_ok _ _ w w 0) by done; cbn [Z.eqb negb]; io_run.
  destruct (Z.eqb_spec (used_extents (inode w)) 0) as [E0|N0].
  { assert (F = []) as -> by (apply length_zero_iff_nil; unfold lenZ in Hu; lia); pose proof (Hf ltac:(by rewrite E0)) as Hov.
    set (w1 := set_inode (set_used_extents (used_extents (inode w) +32 1) (inode w)) w).
    assert (exists R, extents (inode w) = [] ++ zero_extent :: R) as (R & ER) by (rewrite Hs, E0; cbn; eauto).
    io_run; fold w1; rewrite (io_bind_ok _ _ _ _ _ (put_extent_ok w1 [] R zero_extent e ER)); set (w2 := set_inode _ w1).
    assert (file_shape (inode w2) (view (tree w2)) ([] ++ e :: [])) as Hsh2.
    { apply (shape_room (inode w) (inode w2) _ [] [] R e Hsh); [by rewrite E0|done|cbn; by rewrite E0|done|done|by intros ? ?%elem_of_nil|by intros ? ?%elem_of_nil]. }
    assert (exts w2 [e] ≡ₚ e :: exts w []) as P by done; destruct (grow_perm _ _ e ltac:(done) Hfr P) as [Hso2 Hg].
    assert (kept w w2) as Hk2 by (unfold kept; cbn; auto 10).
    destruct (layout_ok w w2 [] [e] e u Hv Hb Hk Hk2 ltac:(done) ltac:(done) eq_refl Hsh2 Hso2 Hg) as (w3 & E3 & Hk3 & Hsf3 & Hd3 & Hx); exists 0, w3; by split_and!. }
  destruct F as [|f0 F]; [by rewrite <- Hu in N0|]; io (slot_ok w [] _ f0 Hs).
  destruct (Z.ltb_spec (e_iblock e) (e_iblock f0)) as [Hlt|Hge].
  { change 0 with (lenZ (@nil extent_info)); destruct (around [] (f0 :: F) (exts w (f0 :: F)) e) as [HA HB]; auto; by apply (insert_at_ok w [] (f0 :: F)). }
  replace (Z.to_nat (used_extents (inode w))) with (length (f0 :: F)) by (rewrite <- Hu; unfold lenZ; lia).
  destruct (find_place_ok w _ (e_iblock e) (f0 :: F) [] Hsh) as (C & D & EF & E1 & HC & HD); change (lenZ []) with 0 in E1; io E1; cbn [app].
  destruct C as [|p C _] using rev_ind; [cbn in EF; subst D; lia|]; rewrite <- app_assoc in EF; cbn [app] in EF; rewrite lenZ_snoc, Z.add_simpl_r.
  clear Hge; remember (f0 :: F) as G eqn:EG; clear EG; subst G.
  assert (extents (inode w) = C ++ p :: (D ++ replicate (Z.to_nat (VDFS4_EXTENTS_COUNT_IN_FORK - used_extents (inode w))) zero_extent)) as Es by (rewrite Hs, <- app_assoc; done).
  io (slot_ok w C _ p Es); destruct (HF p) as [_ Wp]; [rewrite elem_of_app, elem_of_cons; auto|]; pose proof Wp as (P1 & P2 & P3 & P4 & P5); pose proof Hfr as ((Q1 & Q2 & Q3 & Q4 & Q5) & _); unfold e_end in *.
  rewrite (u64_small (e_iblock p + block_count p)), (u64_small (first_block p + block_count p)), (u64_small (_ - 1)), (u64_small (_ - 1)), !Z.sub_add by lia.
  rewrite !u64_small by lia; destruct (Z.eqb_spec (e_iblock p + block_count p) (e_iblock e)), (Z.eqb_spec (first_block p + block_count p) (first_block e)); cbn [andb];
    [by apply merge_at_ok|..].
  all: replace (lenZ C + 1) with (lenZ (C ++ [p])) by apply lenZ_snoc; assert (C ++ p :: D = (C ++ [p]) ++ D) as Ecd by (by rewrite <- app_assoc); rewrite Ecd in *;
    destruct (around (C ++ [p]) D (exts w ((C ++ [p]) ++ D)) e) as [HA HB]; auto; by apply insert_at_ok.
Qed.

Lemma insert_extent_ok (w : world) (F : list extent_info) (e : extent_info) (u er : bool) :
  insertable w F -> fresh_extent (exts w F) e -> insert_result w F e u (insert_extent sbi e u er w).
Proof.
  intros Hin Hfr; destruct er; [|by apply insert_noerase_ok]; destruct (ask_ok w) as (a & w1 & E1 & Ei & Ef & Ea & Et & Hq).
  assert (kept w w1) as Hk1 by (unfold kept, calm; rewrite Et; split_and!; auto; [apply Hin|intros [? ?]; split; [by apply Hq|done]]).
  destruct (Z.eq_dec a 0) as [->|Na].
  2: { unfold insert_extent, vdfs4_zeroout_blocks; io E1; rewrite (proj2 (Z.eqb_neq a 0)) by done; exists a, w1; split; [done|]; split; [done|]; rewrite Ei, (proj2 (Z.eqb_neq a 0)) by done.
    split; [done|]; split; [done|]; left; rewrite Et; split; [done|]; split; [|done]; intros [Hc _]; by destruct (Hq Hc). }
  destruct (insert_noerase_ok w1 F e u (insertable_ask w w1 F Ei Et Hin)) as (err & w2 & E2 & Hk2 & Hsf & Hd & Hx); [unfold exts; by rewrite Ei, Et|].
  exists err, w2; unfold insert_extent, vdfs4_zeroout_blocks in *; io E1; rewrite (io_bind_ok _ _ w1 w1 0) in E2 by done; split; [exact E2|].
  destruct Hk1 as (K1 & K2 & K3 & K4 & K5), Hk2 as (L1 & L2 & L3 & L4 & L5); rewrite Ei in Hsf, Hd; split; [unfold kept; split_and!; try congruence; auto|].
  split; [done|]; split; [done|]; destruct Hx as [(He & Hc & Ei2 & Ev2)|(-> & F' & Hk' & Hg)]; [left|right]; split; auto.
  - split; [intros Hcw; by apply Hc, K4|]; rewrite Ei2, Ev2, Ei, Et; done.
  - exists F'; split; [done|]; unfold exts in Hg at 1; by rewrite Ei, Et in Hg.
Qed.

End Insert.
