(* ===== verification/FileAlloc.v ===== *)
(** Translating and allocating the blocks of a file: vdfs4_get_int_block,
    vdfs4_get_block_prep_da and vdfs4_allocate_space of
    src/linux/fs/vdfs4/inode.c. *)

From Stdlib Require Import ZArith Lia Bool List.
From stdpp Require Import base list gmap sets sorting.
From S2P Require Import Prelude RuntimeExtents Bitmap FindBit Rbtree FsmTree FsmSpace Fsm FsmAlloc FsmTheorems FileSpace FileMap FileRep FileLookup FileInsert.

Open Scope Z_scope.

(** ** The list of delayed blocks *)

Definition hints_ok (l : list rext) : Prop := Forall (fun r => 0 <= r_hint r < 2 ^ 32) l.

Lemma del_hints (mem : bool) (b : Z) (l : list rext) : hints_ok l -> hints_ok (vdfs4_runtime_extent_del mem b l).2.
Proof.
  induction 1 as [|r l Hr Hl IH]; cbn; [constructor|].
  repeat match goal with |- context [if ?b then _ else _] => destruct b end; cbn; try done; try (by constructor); try (constructor; [cbn; lia|by constructor]).
  all: destruct (vdfs4_runtime_extent_del mem b l); by constructor.
Qed.

Lemma add_hints (mem : bool) (b h : Z) (l : list rext) : 0 <= h < 2 ^ 32 -> hints_ok l -> hints_ok (vdfs4_runtime_extent_add mem b h l).2.
Proof.
  intros Hh; induction 1 as [|r l Hr Hl IH]; cbn; [destruct mem; cbn; [by apply Forall_singleton|constructor]|].
  destruct (r_end r =? b).
  { destruct l as [|n l]; cbn; [by apply Forall_singleton|]; inversion Hl; subst; destruct (_ =? r_iblock n); cbn; constructor; auto. }
  repeat match goal with |- context [if ?b then _ else _] => destruct b end; cbn; try (by constructor); try (constructor; auto; by constructor).
  all: destruct (vdfs4_runtime_extent_add mem b h l); by constructor.
Qed.

Lemma truncate_hints (n t : Z) (l : list rext) : hints_ok l -> hints_ok (vdfs4_truncate_runtime_blocks n t l).2.
Proof.
  intros Hl; revert t; induction Hl as [|r l Hr Hl IH]; intros t; cbn; [constructor|].
  destruct (n <=? r_iblock r); [apply IH|]; destruct (n <=? r_end r);
    match goal with |- context [vdfs4_truncate_runtime_blocks n ?t l] => specialize (IH t); destruct (vdfs4_truncate_runtime_blocks n t l) end; by constructor.
Qed.

Lemma covers_total (l : list rext) (x : Z) : Forall ext_ok l -> covers l x -> 0 < total l.
Proof.
  induction 1 as [|r l Hr Hl IH]; [by intros ?%rt_covers_nil|]; pose proof (total_nonneg l Hl); rewrite rt_covers_cons; destruct Hr as (? & _); cbn.
  intros [_|Hc]; [lia|]; specialize (IH Hc); lia.
Qed.

Section Alloc.
Context {T M : Type} `{ExtTreeLaws T} `{MetaArea M} `{RbtreeLaws} `{FindBitLaws}.
Context (debug : bool) (sbi : sb_info) (nb bdev_blocks : Z) (Hmeta : MetaAreaLaws M sbi nb) (Hdev : volume_blocks_count sbi <= bdev_blocks).

#[local] Abbreviation vol := (volume_blocks_count sbi).
#[local] Abbreviation world := (world T M).

(** ** Small steps *)

Lemma translate_ok (w : world) (ib : Z) (e : extent_info) : vol < 2 ^ 32 -> ext_wf vol e -> holds_block ib e ->
  translate sbi bdev_blocks ib e w = Ok (Val (first_block e + (ib - e_iblock e), block_count e - (ib - e_iblock e)), w).
Proof.
  intros Hv (W1 & W2 & W3 & W4 & W5) [L1 L2]; unfold translate, e_end in *; rewrite (u64_small (ib - e_iblock e)), (u32_small (ib - e_iblock e)) by lia.
  rewrite !u64_small, u32_small by lia; rewrite (proj2 (Z.ltb_ge (first_block e + block_count e) _)) by lia; cbn [bug_if]; io_run.
  by rewrite (proj2 (Z.ltb_ge bdev_blocks _)) by lia.
Qed.

Lemma fatal_ok (f : fsm_info) : space_ok sbi nb f -> space_ok sbi nb (vdfs4_fatal_error f).
Proof.
  intros (Ha & fa & na & [Hok]); split; [done|]; exists fa, na; split; auto; eapply fsm_ok_same; [..|exact Hok]; try done; by destruct Hok as [_ _ _ _ [? ? ?]].
Qed.

Lemma world_insertable (w : world) (F : list extent_info) : world_ok sbi nb w F -> insertable sbi w F.
Proof. intros [Hs Ht Hb Hz Hf _ _ _]; pose proof (space_bounds sbi nb _ Hs); split; auto; lia. Qed.

(** The free-space manager has moved, the blocks in use still are. *)
Lemma world_same (w w' : world) (F : list extent_info) : world_ok sbi nb w F -> inode w' = inode w -> tree w' = tree w -> space_ok sbi nb (fsm w') ->
  (forall x, taken sbi (fsm w) x -> taken sbi (fsm w') x) -> reserved_blocks_count (fsm w') = reserved_blocks_count (fsm w) -> world_ok sbi nb w' F.
Proof. intros [W1 W2 W3 W4 W5 W6 W7 W8] Ei Et Hs Ht Hr; split; unfold exts in *; rewrite ?Ei, ?Et, ?Hr; auto. Qed.

Lemma world_fsm (w : world) (f : fsm_info) (F : list extent_info) : world_ok sbi nb w F -> space_ok sbi nb f ->
  (forall x, taken sbi f x <-> taken sbi (fsm w) x) -> reserved_blocks_count f = reserved_blocks_count (fsm w) -> world_ok sbi nb (set_fsm f w) F.
Proof. intros Hw Hs Ht Hr; apply (world_same w); auto; intros x; apply Ht. Qed.

(** ** Blocks from the free-space manager *)

Definition flagged (flags n : Z) (f : fsm_info) : Prop := FLAG_OK flags /\ (flags <> 0 -> n <= reserved_blocks_count f).

(** What a request for [n] blocks gives: none, or blocks that nobody used. *)
Definition grant (f f1 : fsm_info) (n flags b l : Z) : Prop :=
  space_ok sbi nb f1 /\ (next_free_blocks f = 0 -> next_free_blocks f1 = 0)
  /\ ((b = 0 /\ data f1 = data f /\ reserved_blocks_count f1 = reserved_blocks_count f
       /\ (next_free_blocks f = 0 -> (flags = 0 -> n <= free_blocks_count f) -> free_blocks_count f + reserved_blocks_count f = 0))
      \/ (in_volume sbi b l /\ l <= n /\ (forall x, b <= x < b + l -> ~ taken sbi f x)
          /\ (forall x, taken sbi f1 x <-> taken sbi f x \/ b <= x < b + l)
          /\ reserved_blocks_count f1 = reserved_blocks_count f - (if flags =? 0 then 0 else l))).

Lemma alloc_block_ok (w : world) (hint n min flags : Z) : space_ok sbi nb (fsm w) -> 0 <= hint < 2 ^ 32 -> 0 < n < 2 ^ 32 -> flagged flags n (fsm w) ->
  exists b l f1, get_free_block debug sbi hint n min flags w = Ok ((b, l), set_fsm f1 w) /\ grant (fsm w) f1 n flags b l.
Proof.
  intros Hs Hh Hn [Hf Hr]; destruct (get_space debug sbi nb (fsm w) hint n min flags Hs Hh Hn Hf Hr) as (b & l & f1 & E & Hs1 & Hx & Hc).
  exists b, l, f1; split; [|by split]; unfold get_free_block; by rewrite E.
Qed.

Lemma put_block_ok (w : world) (b n fl : Z) (f : fsm_info) :
  vdfs4_fsm_put_free_block sbi b n fl (fsm w) = Ok f -> put_free_block sbi b n fl w = Ok (tt, set_fsm f w).
Proof. intros E; unfold put_free_block, put_fsm; by rewrite E. Qed.

(** New blocks make a fresh extent of the file. *)
Lemma granted_fresh (w : world) (F : list extent_info) (b l ib : Z) :
  world_ok sbi nb w F -> in_volume sbi b l -> (forall x, b <= x < b + l -> ~ taken sbi (fsm w) x) ->
  0 <= ib -> ib + l < 2 ^ 32 -> (forall i, ib <= i < ib + l -> ~ mapped (exts w F) i) -> fresh_extent sbi (exts w F) (Extent b ib l).
Proof.
  intros Hw (V1 & V2 & V3) Hno Hib Hlim Hm; split; [unfold ext_wf, e_end; cbn; lia|]; split; cbn.
  - intros i Hi; apply Hm; unfold holds_block, e_end in Hi; cbn in Hi; lia.
  - intros x Hx Ho; by apply (Hno x Hx), (wk_taken _ _ _ _ Hw).
Qed.

(** A file that has grown by an extent, with fewer delayed blocks. *)
Lemma grown_world (w w3 : world) (F F3 : list extent_info) (e : extent_info) :
  world_ok sbi nb w F -> space_ok sbi nb (fsm w3) -> tree_ok (tree w3) -> (forall k, is_Some (view (tree w) !! k) -> is_Some (view (tree w3) !! k)) ->
  i_ino (inode w3) = i_ino (inode w) -> file_ok sbi (inode w3) (view (tree w3)) F3 -> grows (exts w F) e (exts w3 F3) ->
  (forall x, taken sbi (fsm w3) x <-> taken sbi (fsm w) x \/ first_block e <= x < first_block e + block_count e) ->
  Forall ext_ok (runtime_extents (inode w3)) -> disjoint (runtime_extents (inode w3)) -> hints_ok (runtime_extents (inode w3)) ->
  (forall x, covers (runtime_extents (inode w3)) x -> covers (runtime_extents (inode w)) x /\ ~ holds_block x e) ->
  total (runtime_extents (inode w3)) <= reserved_blocks_count (fsm w3) -> world_ok sbi nb w3 F3.
Proof.
  intros [Hs Ht Hb Hz Hf Hta Hrt Hre] Hs3 Ht3 Hv3 Ei Hf3 (Gm & Go & _) Htk Hok Hdj Hh Hco Hto; split; auto.
  - destruct Hb as (k & Hk & Hlt); exists k; rewrite Ei; auto.
  - intros x Hx; apply Go in Hx as [Hx|Hx]; apply Htk; auto.
  - split_and!; auto; intros x Hx; destruct (Hco x Hx) as [Hx1 Hx2]; rewrite mapped_maps; intros (b & [Hm|[Hh' _]]%Gm); [|done].
    destruct Hrt as (_ & _ & _ & Hrt); apply (Hrt x Hx1), mapped_maps; eauto.
Qed.

(** ** vdfs4_get_int_block *)

(** The buffer head shows [ib] at its place, and no more blocks than follow it. *)
Definition shown (E : list extent_info) (ib : Z) (bh bh' : buffer_head) : Prop :=
  bh_mapped bh' = true
  /\ exists k, 0 < k /\ b_size bh' = block_size sbi * Z.min k (bh_blocks sbi bh) /\ forall j, 0 <= j < k -> maps E (ib + j) (b_blocknr bh' + j).

(** The block was there, or it is a block nobody used and now the file's. *)
Definition placed (w w' : world) (F : list extent_info) (ib : Z) (bh' : buffer_head) : Prop :=
  if bh_new bh' then
    ~ mapped (exts w F) ib /\ ~ taken sbi (fsm w) (b_blocknr bh')
    /\ (forall x, taken sbi (fsm w') x <-> taken sbi (fsm w) x \/ x = b_blocknr bh')
    /\ (forall x, covers (runtime_extents (inode w')) x <-> covers (runtime_extents (inode w)) x /\ x <> ib)
  else framed w w'.

(** An error leaves the file and the blocks in use as they were. *)
Definition unchanged (w w' : world) (F : list extent_info) : Prop :=
  world_ok sbi nb w' F /\ inode w' = inode w /\ view (tree w') = view (tree w) /\ (forall x, taken sbi (fsm w') x <-> taken sbi (fsm w) x)
  /\ reserved_blocks_count (fsm w') = reserved_blocks_count (fsm w).

Definition int_result (w : world) (F : list extent_info) (ib : Z) (bh : buffer_head) (flags : Z) (r : run (Z * buffer_head * world)) : Prop :=
  match r with
  | Ok (err, bh', w') =>
      (err = 0 /\ exists F', world_ok sbi nb w' F' /\ shown (exts w' F') ib bh bh' /\ bh_delay bh' = false /\ placed w w' F ib bh'
        /\ forall i c, i <> ib -> maps (exts w' F') i c <-> maps (exts w F) i c)
      \/ (err <> 0 /\ unchanged w w' F /\ (calm w -> err = - ENOSPC))
  | Bug => flags <> 0 /\ ~ calm w
  | Fault => False
  end.

Lemma unchanged_framed (w w1 w' : world) (F : list extent_info) : framed w w1 -> unchanged w1 w' F -> unchanged w w' F.
Proof. intros (Ei & Ef & _ & _ & Ev & _) (Hw & E1 & E2 & E3 & E4); unfold unchanged; split_and!; try congruence; auto; intros x; by rewrite E3, Ef. Qed.

Lemma exit_ok (w : world) (F : list extent_info) (err flags : Z) (bh : buffer_head) : world_ok sbi nb w F -> err <> 0 ->
  exists w', int_block_exit err bh true flags w = Ok ((err, bh), w') /\ unchanged w w' F.
Proof.
  intros Hw He; unfold int_block_exit; rewrite (proj2 (Z.eqb_neq err 0)) by done; cbn [negb andb].
  destruct (Z.land flags VDFS4_FSM_ALLOC_DELAYED =? 0); cbn [negb]; io_run; eexists; (split; [reflexivity|]).
  { unfold unchanged; by split_and!. }
  unfold unchanged; split_and!; try done; destruct Hw; split; try done; cbn; by apply fatal_ok.
Qed.

Lemma done_ok (w : world) (F : list extent_info) (e : extent_info) (ib flags : Z) (bh : buffer_head) (alloc : bool) :
  world_ok sbi nb w F -> ext_wf vol e -> (forall i, holds_block i e -> maps (exts w F) i (first_block e + (i - e_iblock e))) -> holds_block ib e ->
  exists bh', int_block_done sbi bdev_blocks ib e bh true alloc flags w = Ok ((0, bh'), w) /\ shown (exts w F) ib bh bh'
  /\ bh_delay bh' = false /\ bh_new bh' = alloc /\ b_blocknr bh' = first_block e + (ib - e_iblock e).
Proof.
  intros Hw We Hm Hi; destruct (space_bounds sbi nb _ (wk_space _ _ _ _ Hw)) as (_ & _ & _ & Hv).
  unfold int_block_done; io (translate_ok w ib e Hv We Hi); eexists; split; [reflexivity|]; cbn; split; [|done].
  split; [done|]; eexists; split; [|split; [reflexivity|]]; unfold holds_block, e_end in *; [lia|].
  intros j Hj; cbn; replace (first_block e + (ib - e_iblock e) + j) with (first_block e + (ib + j - e_iblock e)) by lia; apply Hm; lia.
Qed.

(** The requests [vdfs4_get_int_block] is made for: a delayed block has been
    reserved, another has not. *)
Definition request_fits (w : world) (F : list extent_info) (ib : Z) (bh : buffer_head) (flags : Z) : Prop :=
  FLAG_OK flags /\ if flags =? 0 then bh_delay bh = false /\ ~ covers (runtime_extents (inode w)) ib
                   else mapped (exts w F) ib \/ covers (runtime_extents (inode w)) ib.

(** The block is given back when the extent cannot be added. *)
Lemma give_back_ok (w w2 : world) (F : list extent_info) (f1 : fsm_info) (b l ib flags : Z) (err : Z) (bh : buffer_head) :
  world_ok sbi nb w F -> grant (fsm w) f1 1 flags b l -> b <> 0 -> FLAG_OK flags -> err <> 0 ->
  fsm w2 = f1 -> area w2 = area w -> tree_ok (tree w2) -> inode w2 = inode w -> view (tree w2) = view (tree w) ->
  exists fl w3, fl = (if negb (Z.land flags VDFS4_FSM_ALLOC_DELAYED =? 0) then Z.lor (Z.lor flags VDFS4_FSM_FREE_UNUSED) VDFS4_FSM_FREE_RESERVE else Z.lor flags VDFS4_FSM_FREE_UNUSED)
  /\ (put_free_block sbi b l fl;; int_block_exit err bh true fl) w2 = Ok ((err, bh), w3) /\ unchanged w w3 F.
Proof.
  intros Hw (Hs1 & _ & Hg) Hb Hf He Ef Ea Ht Ei Ev; destruct Hg as [[-> _]|(Hin & _ & Hno & Htk & Hr)]; [done|]; subst f1.
  eexists; set (fl := if negb _ then _ else _); destruct (put_space sbi nb (fsm w2) b l fl Hs1 Hin) as (f3 & E3 & Hs3 & Htk3 & Hr3).
  { intros x Hx; apply Htk; auto. }
  { subst fl; destruct Hf as [-> | ->]; by vm_compute. }
  assert (unchanged w (set_fsm f3 w2) F) as Hu.
  { assert (forall x, taken sbi f3 x <-> taken sbi (fsm w) x) as Hx.
    { intros x; rewrite Htk3, Htk; split; [tauto|]; intros Hx; split; [auto|]; intros Hbx; by apply (Hno x Hbx). }
    assert (reserved_blocks_count f3 = reserved_blocks_count (fsm w)) as Hrr by (rewrite Hr3, Hr; enough ((if Z.land fl VDFS4_FSM_FREE_UNUSED =? 0 then 0 else if Z.land fl VDFS4_FSM_FREE_RESERVE =? 0 then 0 else l) = if flags =? 0 then 0 else l) by lia;
        subst fl; by destruct Hf as [-> | ->]).
    split_and!; auto; destruct Hw; split; unfold exts in *; cbn; rewrite ?Ei, ?Ev; auto; [intros x Hxo; apply Hx; auto|by rewrite Hrr]. }
  destruct (exit_ok (set_fsm f3 w2) F err fl bh (proj1 Hu) He) as (w3 & E4 & Hu3).
  exists w3; split; [reflexivity|]; split; [io (put_block_ok w2 _ _ _ _ E3); exact E4|].
  destruct Hu as (_ & U1 & U2 & U3 & U4), Hu3 as (V0 & V1 & V2 & V3 & V4); unfold unchanged; split_and!; try congruence; auto; intros x; by rewrite V3, U3.
Qed.

Lemma runtime_del_ok (w : world) (ib : Z) : let l := runtime_extents (inode w) in
  Forall ext_ok l -> disjoint l -> hints_ok l -> block_ok ib -> covers l ib ->
  exists err l' w', runtime_del ib w = Ok (err, w') /\ inode w' = set_runtime_extents l' (inode w) /\ fsm w' = fsm w /\ tree w' = tree w /\ hints_ok l'
  /\ ((err = 0 /\ deleted ib l l') \/ (err <> 0 /\ ~ calm w)).
Proof.
  intros l Hok Hd Hh Hb Hc; unfold runtime_del; destruct (ask_ok w) as (a & w1 & E1 & Ei & Ef & Ea & Et & Hq); io E1; io_run; rewrite Ei; fold l.
  pose proof (del_spec (a =? 0) ib l Hok Hd Hb) as Hdel; pose proof (del_hints (a =? 0) ib l Hh) as Hhd; destruct (vdfs4_runtime_extent_del (a =? 0) ib l) as [err l'] eqn:El; io_run.
  exists err, l', (set_inode (set_runtime_extents l' (inode w1)) w1); split; [done|]; cbn; rewrite Ei; do 4 (split; [done|]).
  destruct Hdel as [(? & _)|[(_ & Hm & -> & _)|(_ & -> & Hx)]]; [done|right; split; [done|]|by left].
  intros [Hans _]; destruct (Hq Hans) as [-> _]; done.
Qed.

(** The file with the new extent once the block is off the list of delayed
    ones. *)
Lemma new_world (w w1 w2 w3 : world) (F F2 : list extent_info) (f1 : fsm_info) (b l ib flags : Z) (rt : list rext) :
  world_ok sbi nb w F -> grant (fsm w) f1 1 flags b l -> b <> 0 -> FLAG_OK flags -> fsm w2 = f1 -> kept w1 w2 -> tree w1 = tree w ->
  same_file (inode w) (inode w2) -> file_ok sbi (inode w2) (view (tree w2)) F2 -> grows (exts w F) (Extent b ib l) (exts w2 F2) ->
  inode w3 = set_runtime_extents rt (inode w2) -> fsm w3 = fsm w2 -> tree w3 = tree w2 ->
  Forall ext_ok rt -> disjoint rt -> hints_ok rt -> (forall x, covers rt x <-> covers (runtime_extents (inode w)) x /\ x <> ib) ->
  total rt = total (runtime_extents (inode w)) - (if flags =? 0 then 0 else 1) -> world_ok sbi nb w3 F2.
Proof.
  intros Hw (Hs1 & _ & Hg) Hb Hf Ef2 (_ & _ & Kt & _ & Kv) Et1 (S1 & S2 & S3 & S4) Hk Hgr Ei Ef Et Hok Hd Hh Hc Hto; destruct Hg as [[-> _]|((_ & Hl & _) & Hl1 & _ & Htk & Hr)]; [done|].
  assert (l = 1) as -> by lia; eapply (grown_world w w3 F F2 (Extent b ib 1)); eauto; rewrite ?Ei, ?Ef, ?Et, ?Ef2; auto.
  - intros k Hk'; apply Kv; by rewrite Et1.
  - destruct Hk as [[? ? ? ? ? ?] ? ? ? ?]; by split.
  - unfold exts; rewrite Ei, Et; exact Hgr.
  - intros x Hx; apply Hc in Hx as [Hx Hne]; split; [done|]; unfold holds_block, e_end; cbn; lia.
  - cbn; rewrite Hto, Hr; pose proof (wk_reserved _ _ _ _ Hw); destruct (flags =? 0); lia.
Qed.

(** From the allocation on, for a block the file does not have. *)
Definition new_block (ib hint : Z) (bh : buffer_head) (flags : Z) : io (T := T) (M := M) (Z * buffer_head) :=
  let delayed := negb (Z.land flags VDFS4_FSM_ALLOC_DELAYED =? 0) in
  '(b, l) ← get_free_block debug sbi hint 1 1 flags;
  if b =? 0 then int_block_exit (- ENOSPC) bh true flags
  else
    let extent := Extent b ib l in
    err ← insert_extent sbi extent true false;
    if negb (err =? 0) then
      let flags := Z.lor flags VDFS4_FSM_FREE_UNUSED in
      let flags := if delayed then Z.lor flags VDFS4_FSM_FREE_RESERVE else flags in
      let bh := if delayed then Bh (b_size bh) (b_blocknr bh) false (bh_new bh) (bh_delay bh) else bh in
      put_free_block sbi b l flags;;
      int_block_exit err bh true flags
    else
      (if delayed then err ← runtime_del ib; bug_if (negb (err =? 0)) else ret tt);;
      int_block_done sbi bdev_blocks ib extent bh true true flags.

Lemma new_block_ok (w : world) (F : list extent_info) (ib hint : Z) (bh : buffer_head) (flags : Z) :
  world_ok sbi nb w F -> block_ok ib -> 0 <= hint < 2 ^ 32 -> ~ mapped (exts w F) ib -> FLAG_OK flags ->
  (if flags =? 0 then ~ covers (runtime_extents (inode w)) ib else covers (runtime_extents (inode w)) ib) ->
  int_result w F ib bh flags (new_block ib hint bh flags w).
Proof.
  intros Hw Hib Hh Hnm Hf Hrt; pose proof (wk_runtime _ _ _ _ Hw) as (R1 & R2 & R3 & R4); pose proof (wk_space _ _ _ _ Hw) as Hs; unfold block_ok in Hib.
  assert (flagged flags 1 (fsm w)) as Hfl.
  { split; [done|]; intros Hn; rewrite (proj2 (Z.eqb_neq flags 0)) in Hrt by done; pose proof (covers_total _ _ R1 Hrt); pose proof (wk_reserved _ _ _ _ Hw); lia. }
  unfold new_block; destruct (alloc_block_ok w hint 1 1 flags Hs Hh ltac:(lia) Hfl) as (b & l & f1 & E1 & Hg); io E1.
  destruct (Z.eqb_spec b 0) as [->|Hb].
  { destruct Hg as (Hs1 & _ & [(_ & Ed & Er & _)|((? & _) & _)]); [|lia]; destruct (exit_ok (set_fsm f1 w) F (- ENOSPC) flags bh) as (w' & E2 & Hu); [|done|].
    { apply world_fsm; auto; intros x; unfold taken; by rewrite Ed. }
    rewrite E2; right; split; [done|]; split; [|done]; destruct Hu as (U0 & U1 & U2 & U3 & U4); unfold unchanged; split_and!; auto; [|by rewrite U4].
    intros x; rewrite U3; unfold taken; cbn; by rewrite Ed. }
  pose proof Hg as (Hs1 & _ & [[-> _]|(Hin & Hl1 & Hno & Htk & Hr)]); [done|]; assert (l = 1) as -> by (destruct Hin as (_ & ? & _); lia).
  set (w1 := set_fsm f1 w); pose proof (granted_fresh w F b 1 ib Hw Hin Hno ltac:(lia) ltac:(lia)) as Hfr; specialize (Hfr ltac:(intros i Hi; by replace i with ib by lia)).
  assert (insertable sbi w1 F) as Hins by (by destruct (world_insertable w F Hw); split).
  destruct (insert_extent_ok sbi w1 F (Extent b ib 1) true false Hins Hfr) as (err & w2 & E2 & Hk & Hsf & _ & Hx); io E2; pose proof Hk as (Kf & Ka & Kt & Kc & Kv).
  destruct Hx as [(He & Hnc & Ei & Ev)|(-> & F2 & Hk2 & Hgr)].
  { rewrite (proj2 (Z.eqb_neq err 0)) by done; cbn [negb].
    destruct (give_back_ok w w2 F f1 b 1 ib flags err (if negb (Z.land flags VDFS4_FSM_ALLOC_DELAYED =? 0) then Bh (b_size bh) (b_blocknr bh) false (bh_new bh) (bh_delay bh) else bh))
      as (fl & w3 & -> & E3 & Hu); auto; cbn zeta; rewrite E3; right; split; [done|]; split; [done|]; intros Hc; by destruct Hnc. }
  cbn [Z.eqb negb]; assert (forall w3 rt, inode w3 = set_runtime_extents rt (inode w2) -> fsm w3 = fsm w2 -> tree w3 = tree w2 ->
    Forall ext_ok rt -> disjoint rt -> hints_ok rt -> (forall x, covers rt x <-> covers (runtime_extents (inode w)) x /\ x <> ib) ->
    total rt = total (runtime_extents (inode w)) - (if flags =? 0 then 0 else 1) ->
    int_result w F ib bh flags (int_block_done sbi bdev_blocks ib (Extent b ib 1) bh true true flags w3)) as Hfin.
  { intros w3 rt Ei Ef Et Q1 Q2 Q3 Q4 Q5.
    pose proof (new_world w w1 w2 w3 F F2 f1 b 1 ib flags rt Hw Hg Hb Hf Kf Hk eq_refl Hsf Hk2 Hgr Ei Ef Et Q1 Q2 Q3 Q4 Q5) as Hw3.
    assert (exts w3 F2 = exts w2 F2) as Eex by (unfold exts; by rewrite Ei, Et); pose proof Hgr as (Gm & Go & _).
    destruct (done_ok w3 F2 (Extent b ib 1) ib flags bh true Hw3) as (bh' & E3 & Hsh & Hdl & Hnew & Hblk).
    { apply Hfr. }
    { intros i Hi; rewrite Eex; apply Gm; right; split; [done|]; done. }
    { unfold holds_block, e_end; cbn; lia. }
    rewrite E3; left; split; [done|]; exists F2; split; [done|]; split; [done|]; split; [done|]; cbn in Hblk; rewrite Z.sub_diag, Z.add_0_r in Hblk; split.
    - unfold placed; rewrite Hnew, Hblk; split; [done|]; split; [apply Hno; lia|]; split; [|by rewrite Ei].
      intros x; rewrite Ef, Kf; cbn; rewrite Htk; split; (intros [?|?]; [by left|right; lia]).
    - intros i c Hne; rewrite Eex, Gm; unfold holds_block, e_end; cbn; split; [intros [?|?]; [done|lia]|by left]. }
  destruct Hsf as (S1 & S2 & S3 & S4); cbn in S4; destruct Hf as [-> | ->]; cbn in Hrt;
    [change (negb (Z.land 0 VDFS4_FSM_ALLOC_DELAYED =? 0)) with false|change (negb (Z.land VDFS4_FSM_ALLOC_DELAYED VDFS4_FSM_ALLOC_DELAYED =? 0)) with true]; cbn beta iota zeta.
  { io_run; apply (Hfin w2 (runtime_extents (inode w))); auto; [rewrite <- S4; by destruct (inode w2)| |cbn; lia]; intros x; split; [|tauto]; intros Hx; split; [done|by intros ->]. }
  destruct (runtime_del_ok w2 ib) as (err & l' & w3 & E3 & Ei & Ef & Et & Hh' & Hcase); [by rewrite S4|by rewrite S4|by rewrite S4|unfold block_ok; lia|by rewrite S4|].
  rewrite S4 in Hcase; destruct Hcase as [(-> & D1 & D2 & D3 & D4 & _)|(He & Hnc)].
  - rewrite (io_bind_ok _ _ w2 w3 tt) by (by io E3); apply (Hfin w3 l'); auto.
  - unfold mbind, io_bind; rewrite E3; cbn beta iota; rewrite (proj2 (Z.eqb_neq err 0)) by done; cbn; split; [done|]; intros Hc; apply Hnc, Kc, Hc.
Qed.

Lemma int_result_framed (w w1 : world) (F : list extent_info) (ib : Z) (bh : buffer_head) (flags : Z) (r : run (Z * buffer_head * world)) :
  framed w w1 -> int_result w1 F ib bh flags r -> int_result w F ib bh flags r.
Proof.
  intros Hfr; pose proof Hfr as (Ei & Ef & Ea & Ht & Ev & Hc); pose proof (exts_framed w w1 F Hfr) as Ex; destruct r as [[[err bh'] w']| |]; cbn; [|tauto|done].
  intros [(-> & F' & Hw & Hs & Hdl & Hp & Hm)|(He & Hu & Hn)]; [left|right; split; [done|]; split; [by eapply unchanged_framed|auto]].
  split; [done|]; exists F'; rewrite Ex in Hm; split_and!; auto; unfold placed in *; rewrite Ex, Ef, Ei in Hp; destruct (bh_new bh'); [done|by eapply framed_trans].
Qed.

Lemma int_block_ok (w : world) (F : list extent_info) (ib : Z) (bh : buffer_head) (flags : Z) :
  world_ok sbi nb w F -> block_ok ib -> request_fits w F ib bh flags -> int_result w F ib bh flags (vdfs4_get_int_block debug sbi bdev_blocks ib bh true flags w).
Proof.
  intros Hw Hib [Hf Hreq]; destruct (get_extent_ok sbi nb w F ib Hw ltac:(unfold block_ok in Hib; lia)) as (e & r & h & w1 & E1 & Hfr & Hcase).
  pose proof (framed_ok sbi nb w w1 F Hfr Hw) as Hw1; pose proof (exts_framed w w1 F Hfr) as Ex; pose proof Hfr as (Ei & _).
  unfold vdfs4_get_int_block; io E1; destruct Hcase as [[He Hc]|[-> Ha]].
  { rewrite (proj2 (Z.eqb_neq e 0)) by lia; cbn [negb]; destruct (exit_ok w1 F e flags bh Hw1 ltac:(lia)) as (w' & -> & Hu).
    right; split; [lia|]; split; [by eapply unchanged_framed|done]. }
  apply (int_result_framed w w1); [done|]; cbn [Z.eqb negb]; rewrite <- Ex in Ha; destruct Ha as [[Hin Hi]|(Hz & Hnm & Hh & _)].
  - pose proof (fk_wf _ _ _ _ (wk_file _ _ _ _ Hw1)) as Hwf; rewrite Forall_forall in Hwf; pose proof (Hwf r Hin) as Wr.
    rewrite (proj2 (Z.eqb_neq (first_block r) 0)) by (destruct Wr; lia); cbn [negb].
    destruct (done_ok w1 F r ib flags bh false Hw1 Wr) as (bh' & -> & Hsh & Hdl & Hnew & _); [|done|].
    { intros i Hi'; by exists r. }
    left; split; [done|]; exists F; split_and!; auto; unfold placed; rewrite Hnew; apply framed_refl, Hw1.
  - rewrite Hz; cbn [Z.eqb negb]; io_run; rewrite Ei.
    assert (bug_if (if negb (Z.land flags VDFS4_FSM_ALLOC_DELAYED =? 0) then vdfs4_runtime_extent_exists ib (runtime_extents (inode w)) =? 0 else bh_delay bh) w1 = Ok (tt, w1)
      /\ (if flags =? 0 then ~ covers (runtime_extents (inode w1)) ib else covers (runtime_extents (inode w1)) ib)) as [Eb Hrt].
    { rewrite Ei; destruct Hf as [-> | ->]; cbn in Hreq |- *; [by destruct Hreq as [-> ?]|]; rewrite <- Ex in Hreq; destruct Hreq as [|Hcv]; [done|].
      rewrite exists_spec by apply (wk_runtime _ _ _ _ Hw); by rewrite decide_True. }
    io Eb; exact (new_block_ok w1 F ib h bh flags Hw1 Hib Hh Hnm Hf Hrt).
Qed.

(** ** vdfs4_get_block_prep_da *)

Lemma reserve_ok (w : world) (n : Z) : space_ok sbi nb (fsm w) -> 0 <= n ->
  (vdfs4_reserve_space n w = Ok (- ENOSPC, w) /\ free_blocks_count (fsm w) < n)
  \/ exists f1, vdfs4_reserve_space n w = Ok (0, set_fsm f1 w) /\ space_ok sbi nb f1 /\ (forall x, taken sbi f1 x <-> taken sbi (fsm w) x)
     /\ reserved_blocks_count f1 = reserved_blocks_count (fsm w) + n.
Proof.
  intros Hs Hn; pose proof (space_bounds sbi nb _ Hs) as (B1 & B2 & B3 & B4); unfold vdfs4_reserve_space; io_run.
  destruct (Z.leb_spec n (free_blocks_count (fsm w))); [right|left; split; [done|lia]]; io_run.
  destruct (move_space sbi nb (fsm w) (- n) Hs ltac:(lia)) as [Hs1 Ht1]; eexists; split; [reflexivity|].
  rewrite (u64_small (reserved_blocks_count _ + n)), (u64_small (_ - n)) by lia; rewrite Z.sub_opp_r in Hs1; split; [exact Hs1|done].
Qed.

Lemma free_reserved_ok (w : world) (n : Z) : space_ok sbi nb (fsm w) -> 0 <= n <= reserved_blocks_count (fsm w) ->
  exists f1, vdfs4_free_reserved_space n w = Ok (tt, set_fsm f1 w) /\ space_ok sbi nb f1 /\ (forall x, taken sbi f1 x <-> taken sbi (fsm w) x)
  /\ reserved_blocks_count f1 = reserved_blocks_count (fsm w) - n.
Proof.
  intros Hs Hn; pose proof (space_bounds sbi nb _ Hs) as (B1 & B2 & B3 & B4); unfold vdfs4_free_reserved_space; destruct (Z.eqb_spec n 0) as [->|Hne].
  { exists (fsm w); rewrite Z.sub_0_r; split; [by destruct w|done]. }
  unfold put_fsm; rewrite (proj2 (Z.ltb_ge _ n)) by lia; cbn [bug_on mbind run_bind]; destruct (move_space sbi nb (fsm w) n Hs ltac:(lia)) as [Hs1 Ht1].
  eexists; split; [reflexivity|]; rewrite (u64_small (reserved_blocks_count _ - n)), (u64_small (_ + n)) by lia; split; [exact Hs1|done].
Qed.

(** The file is as it was; the metadata area may have grown. *)
Definition survives (w w' : world) (F : list extent_info) : Prop :=
  world_ok sbi nb w' F /\ i_ino (inode w') = i_ino (inode w) /\ view (tree w') = view (tree w) /\ (forall x, taken sbi (fsm w) x -> taken sbi (fsm w') x).

(** A mapped block is shown; another is reserved, once, and marked as delayed. *)
Definition prep_result (w : world) (F : list extent_info) (ib : Z) (bh : buffer_head) (r : run (Z * buffer_head * world)) : Prop :=
  match r with
  | Ok (err, bh', w') =>
      survives w w' F
      /\ ((err <> 0 /\ bh' = bh /\ inode w' = inode w /\ reserved_blocks_count (fsm w') = reserved_blocks_count (fsm w)
           /\ (calm w -> (err = - ENOSPC \/ err = - EEXIST /\ covers (runtime_extents (inode w)) ib)))
          \/ (err = 0 /\ mapped (exts w F) ib /\ shown (exts w F) ib bh bh' /\ bh_new bh' = false /\ framed w w')
          \/ (err = 0 /\ ~ mapped (exts w F) ib /\ inode w' = inode w /\ reserved_blocks_count (fsm w') = reserved_blocks_count (fsm w)
              /\ (bh_delay bh = true /\ bh' = bh \/ i_mode (inode w) = S_IFLNK /\ covers (runtime_extents (inode w)) ib /\ bh_delay bh' = true))
          \/ (err = 0 /\ ~ mapped (exts w F) ib /\ bh_delay bh' = true /\ bh_new bh' = true /\ b_blocknr bh' = VDFS4_INVALID_BLOCK
              /\ ~ covers (runtime_extents (inode w)) ib /\ wf (runtime_extents (inode w'))
              /\ (forall x, covers (runtime_extents (inode w')) x <-> covers (runtime_extents (inode w)) x \/ x = ib)
              /\ reserved_blocks_count (fsm w') = reserved_blocks_count (fsm w) + 1))
  | _ => False
  end.

Lemma runtime_add_ok (w : world) (ib h : Z) : wf (runtime_extents (inode w)) -> block_ok ib ->
  exists err l w', runtime_add ib h w = Ok (err, w') /\ inode w' = set_runtime_extents l (inode w) /\ fsm w' = fsm w /\ tree w' = tree w /\ area w' = area w
  /\ (0 <= h < 2 ^ 32 -> hints_ok (runtime_extents (inode w)) -> hints_ok l)
  /\ ((err <> 0 /\ l = runtime_extents (inode w) /\ (calm w -> err = - EEXIST /\ covers (runtime_extents (inode w)) ib))
      \/ (err = 0 /\ ~ covers (runtime_extents (inode w)) ib /\ added ib (runtime_extents (inode w)) l)).
Proof.
  intros Hwf Hb; unfold runtime_add; destruct (ask_ok w) as (a & w1 & E1 & Ei & Ef & Ea & Et & Hq); io E1; io_run; rewrite Ei.
  pose proof (add_spec (a =? 0) ib h _ Hwf Hb) as Hadd; pose proof (add_hints (a =? 0) ib h (runtime_extents (inode w))) as Hhd.
  destruct (vdfs4_runtime_extent_add (a =? 0) ib h (runtime_extents (inode w))) as [err l] eqn:El; io_run.
  exists err, l, (set_inode (set_runtime_extents l (inode w1)) w1); split; [done|]; cbn; rewrite Ei; do 4 (split; [done|]); split; [done|].
  destruct Hadd as [(Hc & -> & ->)|[(_ & Hm & -> & ->)|(Hn & -> & Hx)]]; [left; split; [done|auto]|left; split; [done|]|by right].
  split; [done|]; intros [Hans _]; destruct (Hq Hans) as [-> _]; done.
Qed.

Lemma set_runtime_same (i : inode_info) : set_runtime_extents (runtime_extents i) i = i.
Proof. by destruct i. Qed.

(** A new delayed block of the file. *)
Lemma delayed_world (w w' : world) (F : list extent_info) (ib : Z) (l : list rext) : world_ok sbi nb w F -> ~ mapped (exts w F) ib ->
  added ib (runtime_extents (inode w)) l -> hints_ok l -> inode w' = set_runtime_extents l (inode w) -> tree w' = tree w ->
  space_ok sbi nb (fsm w') -> (forall x, taken sbi (fsm w) x -> taken sbi (fsm w') x) ->
  reserved_blocks_count (fsm w') = reserved_blocks_count (fsm w) + 1 -> world_ok sbi nb w' F.
Proof.
  intros [W1 W2 W3 W4 W5 W6 W7 W8] Hn (Hwf & Hto & Hc & _) Hh Ei Et Hs Htk Hr; split; unfold exts in *; rewrite ?Ei, ?Et; cbn; auto.
  - destruct W5 as [[? ? ? ? ? ?] ? ? ? ?]; by split.
  - destruct Hwf as [Hok Ho], W7 as (_ & _ & _ & W7); split_and!; cbn; auto; [by apply ordered_disjoint|]; intros x [Hx| ->]%Hc; auto.
  - lia.
Qed.

(** From the check of the metadata space on. *)
Definition delay_block (ib hint : Z) (bh : buffer_head) : io (T := T) (M := M) (Z * buffer_head) :=
  err ← vdfs4_reserve_space 1;
  if negb (err =? 0) then ret (err, bh)
  else
    err ← runtime_add ib hint;
    if negb (err =? 0) then vdfs4_free_reserved_space 1;; ret (err, bh)
    else ret (0, Bh (b_size bh) VDFS4_INVALID_BLOCK true true true).

Lemma delay_ok (w : world) (F : list extent_info) (ib hint : Z) (bh : buffer_head) :
  world_ok sbi nb w F -> wf (runtime_extents (inode w)) -> block_ok ib -> ~ mapped (exts w F) ib -> 0 <= hint < 2 ^ 32 ->
  prep_result w F ib bh (delay_block ib hint bh w).
Proof.
  intros Hw Hwf Hib Hnm Hh; pose proof (wk_space _ _ _ _ Hw) as Hs; unfold delay_block; assert (survives w w F) as Hsv by (unfold survives; auto).
  destruct (reserve_ok w 1 Hs ltac:(lia)) as [[E1 _]|(f1 & E1 & Hs1 & Ht1 & Hr1)]; io E1.
  { split; [done|]; left; split_and!; auto. }
  cbn [Z.eqb negb]; set (w1 := set_fsm f1 w); destruct (runtime_add_ok w1 ib hint Hwf Hib) as (err & l & w2 & E2 & Ei2 & Ef2 & Et2 & Ea2 & Hhl & Hcase); io E2; cbn in Ei2, Ef2, Et2, Hhl, Hcase.
  destruct (wk_runtime _ _ _ _ Hw) as (R1 & R2 & R3 & R4); destruct Hcase as [(He & -> & Hc)|(-> & Hnc & Hadd)].
  - rewrite (proj2 (Z.eqb_neq err 0)) by done; rewrite set_runtime_same in Ei2; pose proof (space_bounds sbi nb _ Hs) as (_ & ? & _).
    destruct (free_reserved_ok w2 1) as (f3 & E3 & Hs3 & Ht3 & Hr3); rewrite ?Ef2; [done|lia|]; cbn [negb]; io E3.
    rewrite Ef2 in Ht3, Hr3; assert (forall x, taken sbi f3 x <-> taken sbi (fsm w) x) as Ht by (intros x; by rewrite Ht3, Ht1).
    assert (reserved_blocks_count f3 = reserved_blocks_count (fsm w)) as Hr by lia.
    assert (world_ok sbi nb (set_fsm f3 w2) F) as Hw3 by (apply (world_same w); auto; intros x; apply Ht).
    split; [split_and!; auto; cbn; [by rewrite Ei2|by rewrite Et2|intros x; apply Ht]|]; left; split_and!; auto.
  - cbn [Z.eqb negb]; assert (world_ok sbi nb w2 F) as Hw2 by (apply (delayed_world w w2 F ib l); auto; rewrite ?Ef2; auto; intros x; by rewrite Ht1).
    split; [split_and!; auto; rewrite ?Ei2, ?Et2, ?Ef2; auto; intros x; by rewrite Ht1|]; right; right; right; rewrite Ei2, Ef2; destruct Hadd as (A1 & A2 & A3 & _); split_and!; auto.
Qed.

Lemma prep_moved (w w2 : world) (F : list extent_info) (ib : Z) (bh : buffer_head) (r : run (Z * buffer_head * world)) :
  inode w2 = inode w -> view (tree w2) = view (tree w) -> (forall x, taken sbi (fsm w) x -> taken sbi (fsm w2) x) ->
  reserved_blocks_count (fsm w2) = reserved_blocks_count (fsm w) -> (calm w -> calm w2) -> ~ mapped (exts w F) ib ->
  prep_result w2 F ib bh r -> prep_result w F ib bh r.
Proof.
  intros Ei Ev Ht Hr Hc Hn; assert (exts w2 F = exts w F) as Ex by (unfold exts; by rewrite Ei, Ev); destruct r as [[[err bh'] w']| |]; cbn; [|done|done].
  rewrite Ex, Ei, Hr; intros [(S1 & S2 & S3 & S4) Hcase]; split; [unfold survives; split_and!; try congruence; auto|].
  destruct Hcase as [(? & ? & ? & ? & Hx)|[(_ & ? & _)|Hcase]]; [left; split_and!; auto|done|by right; right].
Qed.

Lemma prep_ok (w : world) (F : list extent_info) (ib : Z) (bh : buffer_head) :
  world_ok sbi nb w F -> wf (runtime_extents (inode w)) -> block_ok ib -> prep_result w F ib bh (vdfs4_get_block_prep_da sbi bdev_blocks ib bh true w).
Proof.
  intros Hw Hwf Hib; destruct (get_extent_ok sbi nb w F ib Hw ltac:(unfold block_ok in Hib; lia)) as (e & r & h & w1 & E1 & Hfr & Hcase).
  pose proof (framed_ok sbi nb w w1 F Hfr Hw) as Hw1; pose proof (exts_framed w w1 F Hfr) as Ex; pose proof Hfr as (Ei & Ef & Ea & Ht1 & Ev & Hc1).
  assert (survives w w1 F) as Hsv by (unfold survives; rewrite Ei, Ef; auto); unfold vdfs4_get_block_prep_da; cbn [negb bug_if]; io_run; io E1; destruct Hcase as [[He Hc]|[-> Ha]].
  { rewrite (proj2 (Z.eqb_neq e 0)) by lia; cbn [negb]; split; [done|]; left; rewrite Ei, Ef; split_and!; auto; [lia|]; by intros. }
  cbn [Z.eqb negb]; destruct Ha as [[Hin Hi]|(Hz & Hnm & Hh & _)].
  - pose proof (fk_wf _ _ _ _ (wk_file _ _ _ _ Hw)) as Hwf'; rewrite Forall_forall in Hwf'; pose proof (Hwf' r Hin) as Wr; destruct (space_bounds sbi nb _ (wk_space _ _ _ _ Hw)) as (_ & _ & _ & Hv).
    rewrite (proj2 (Z.eqb_neq (first_block r) 0)) by (destruct Wr; lia); cbn [negb]; io (translate_ok w1 ib r Hv Wr Hi); split; [done|]; right; left; split; [done|]; split; [by exists r|]; split; [|done].
    split; [done|]; eexists; split; [|split; [reflexivity|]]; unfold holds_block, e_end in Hi; [lia|]; intros j Hj; exists r; cbn; unfold holds_block, e_end; split; [done|lia].
  - rewrite Hz; cbn [Z.eqb negb]; destruct (bh_delay bh) eqn:Ed.
    { split; [done|]; right; right; left; rewrite Ei, Ef; split_and!; auto. }
    destruct (meta_space_law (area w1) (fsm w1) (wk_space _ _ _ _ Hw1)) as (m' & f' & E2 & Hs2 & Ht2 & Hr2); set (w2 := World (inode w1) f' (tree w1) m' (answers w1)).
    rewrite (io_bind_ok _ _ w1 w2 0) by (unfold check_meta_space; by rewrite E2); cbn [Z.eqb negb]; io_run.
    rewrite Ef in Ht2, Hr2; apply (prep_moved w w2); auto.
    assert (world_ok sbi nb w2 F) as Hw2 by (apply (world_same w1); auto; cbn; by rewrite Ef).
    assert (exts w2 F = exts w F) as Ex2 by (unfold exts; cbn; by rewrite Ei, Ev); cbn [inode w2]; rewrite Ei.
    rewrite (exists_spec ib) by apply (wk_runtime _ _ _ _ Hw).
    destruct (bool_decide_reflect (i_mode (inode w) = S_IFLNK)), (decide (covers (runtime_extents (inode w)) ib)) as [Hcv|Hcv]; cbn [Z.eqb negb andb].
    { split; [unfold survives; auto|]; right; right; left; rewrite Ex2; cbn [inode w2]; rewrite Ei; split_and!; auto. }
    all: apply (delay_ok w2); auto; [cbn; by rewrite Ei|by rewrite Ex2].
Qed.

End Alloc.
