(* ===== verification/FileFlush.v ===== *)
(** Allocating the reserved blocks of a file: vdfs4_allocate_space of
    src/linux/fs/vdfs4/inode.c. *)

From Stdlib Require Import ZArith Lia Bool List.
From stdpp Require Import base list gmap sets sorting.
From S2P Require Import Prelude RuntimeExtents Bitmap FindBit Rbtree FsmTree FsmSpace Fsm FsmAlloc FsmTheorems FileSpace FileMap FileRep FileLookup FileInsert FileAlloc.

Open Scope Z_scope.

Section Flush.
Context {T M : Type} `{ExtTreeLaws T} `{MetaArea M} `{RbtreeLaws} `{FindBitLaws}.
Context (debug : bool) (sbi : sb_info) (nb : Z).

#[local] Abbreviation vol := (volume_blocks_count sbi).
#[local] Abbreviation world := (world T M).

Definition with_rt (l : list rext) (w : world) : world := set_inode (set_runtime_extents l (inode w)) w.

(** The entry after [l] of its blocks have been allocated. *)
Definition shrink (l : Z) (r : rext) : rext := Rext (r_iblock r + l) (r_hint r) (r_count r - l).

(** The list with the entry, or without it once it is empty. *)
Definition left_over (r : rext) (rest : list rext) : list rext := if r_count r =? 0 then rest else r :: rest.

(** What was the file's stays the file's. *)
Record advanced (w w' : world) (F F' : list extent_info) : Prop := {
  ad_maps : forall i b, maps (exts w F) i b -> maps (exts w' F') i b;
  ad_taken : forall x, taken sbi (fsm w) x -> taken sbi (fsm w') x;
  ad_file : i_ino (inode w') = i_ino (inode w) /\ i_mode (inode w') = i_mode (inode w) /\ i_size (inode w') = i_size (inode w)
}.

Lemma advanced_trans (w w1 w2 : world) (F F1 F2 : list extent_info) : advanced w w1 F F1 -> advanced w1 w2 F1 F2 -> advanced w w2 F F2.
Proof. intros [A1 A2 (A3 & A4 & A5)] [B1 B2 (B3 & B4 & B5)]; split; auto; split_and!; congruence. Qed.

Lemma advanced_refl (w : world) (F : list extent_info) : advanced w w F F.
Proof. by split. Qed.

(** One turn: no block, an extent that cannot be added and its blocks given back,
    or some blocks of the entry become the file's. *)
Inductive turn (w : world) (F : list extent_info) (entry : rext) (rest : list rext) (er : bool) : Prop :=
| turn_none (l : Z) (w1 : world) :
    get_free_block debug sbi (r_hint entry) (r_count entry) (r_count entry) VDFS4_FSM_ALLOC_DELAYED w = Ok ((0, l), w1) ->
    next_free_blocks (fsm w) <> 0 -> turn w F entry rest er
| turn_error (b l err : Z) (w1 w2 w3 : world) :
    get_free_block debug sbi (r_hint entry) (r_count entry) (r_count entry) VDFS4_FSM_ALLOC_DELAYED w = Ok ((b, l), w1) -> b <> 0 ->
    insert_extent sbi (Extent b (r_iblock entry) l) false er w1 = Ok (err, w2) -> err <> 0 -> ~ calm w ->
    put_free_block sbi b l (Z.lor VDFS4_FSM_FREE_UNUSED VDFS4_FSM_FREE_RESERVE) w2 = Ok (tt, w3) ->
    world_ok sbi nb w3 F -> inode w3 = inode w -> exts w3 F = exts w F -> advanced w w3 F F -> turn w F entry rest er
| turn_some (b l : Z) (w1 w2 : world) (F2 : list extent_info) :
    get_free_block debug sbi (r_hint entry) (r_count entry) (r_count entry) VDFS4_FSM_ALLOC_DELAYED w = Ok ((b, l), w1) -> b <> 0 ->
    insert_extent sbi (Extent b (r_iblock entry) l) false er w1 = Ok (0, w2) -> 0 < l <= r_count entry ->
    world_ok sbi nb (with_rt (left_over (shrink l entry) rest) w2) F2 -> grows (exts w F) (Extent b (r_iblock entry) l) (exts w2 F2) ->
    runtime_extents (inode w2) = runtime_extents (inode w) -> advanced w w2 F F2 ->
    (calm w -> calm w2) -> (next_free_blocks (fsm w) = 0 -> next_free_blocks (fsm w2) = 0) -> turn w F entry rest er.

Lemma shrink_covers (l : Z) (r : rext) (rest : list rext) (x : Z) : 0 < l <= r_count r ->
  covers (left_over (shrink l r) rest) x -> covers rest x \/ r_iblock r + l <= x < r_iblock r + r_count r.
Proof.
  intros Hl; unfold left_over; destruct (Z.eqb_spec (r_count (shrink l r)) 0); [by left|]; rewrite rt_covers_cons; intros [Hx|Hx]; [right|by left].
  unfold in_ext in Hx; cbn in Hx; lia.
Qed.

Lemma left_over_ok (l : Z) (r : rext) (rest : list rext) : 0 < l <= r_count r -> Forall ext_ok (r :: rest) -> disjoint (r :: rest) -> hints_ok (r :: rest) ->
  Forall ext_ok (left_over (shrink l r) rest) /\ disjoint (left_over (shrink l r) rest) /\ hints_ok (left_over (shrink l r) rest)
  /\ total (left_over (shrink l r) rest) = total (r :: rest) - l.
Proof.
  unfold hints_ok; intros Hl Hok [Hd Hdr] Hh; inversion Hok as [|? ? (O1 & O2 & O3) Hok']; inversion Hh; subst; unfold left_over; destruct (Z.eqb_spec (r_count (shrink l r)) 0) as [E|E]; cbn in E |- *.
  { split_and!; auto; lia. }
  split_and!; [constructor; [unfold ext_ok; cbn; lia|done]|eapply disjoint_from_shrink; [..|exact Hd]; cbn; lia|done|by constructor|lia].
Qed.

Lemma turn_ok (w : world) (F : list extent_info) (entry : rext) (rest : list rext) (er : bool) :
  world_ok sbi nb w F -> runtime_extents (inode w) = entry :: rest -> turn w F entry rest er.
Proof.
  intros Hw Hrt; pose proof (wk_runtime _ _ _ _ Hw) as (R1 & R2 & R3 & R4); pose proof (wk_reserved _ _ _ _ Hw) as Hres; rewrite Hrt in *.
  inversion R1 as [|? ? (O1 & O2 & O3) R1']; inversion R3 as [|? ? Hh _]; subst; pose proof (total_nonneg rest R1') as Htn; cbn in Hres; pose proof (wk_space _ _ _ _ Hw) as Hs.
  destruct (alloc_block_ok debug sbi nb w (r_hint entry) (r_count entry) (r_count entry) VDFS4_FSM_ALLOC_DELAYED Hs Hh ltac:(lia)) as (b & l & f1 & E1 & Hg).
  { split; [by right|lia]. }
  pose proof Hg as (Hs1 & Hn1 & [(-> & _ & _ & Hno)|(Hin & Hl & Hcl & Htk & Hr)]).
  { eapply turn_none; [exact E1|]; intros Hz; specialize (Hno Hz ltac:(done)); pose proof (space_bounds sbi nb _ Hs); lia. }
  assert (0 < l <= r_count entry) as Hl' by (destruct Hin as (_ & ? & _); lia); set (w1 := set_fsm f1 w) in *.
  assert (fresh_extent sbi (exts w F) (Extent b (r_iblock entry) l)) as Hfr.
  { apply (granted_fresh sbi nb w); auto; [lia|]; intros i Hi; apply R4, rt_covers_cons; left; unfold in_ext; lia. }
  assert (insertable sbi w1 F) as Hins by (by destruct (world_insertable sbi nb w F Hw); split).
  destruct (insert_extent_ok sbi w1 F (Extent b (r_iblock entry) l) false er Hins Hfr) as (err & w2 & E2 & Hk & Hsf & _ & Hx); pose proof Hk as (Kf & Ka & Kt & Kc & Kv).
  destruct Hin as (V1 & V2 & V3); change (if VDFS4_FSM_ALLOC_DELAYED =? 0 then 0 else l) with l in Hr; destruct Hx as [(He & Hnc & Ei & Ev)|(-> & F2 & Hk2 & Hgr)].
  - destruct (put_space sbi nb (fsm w2) b l (Z.lor VDFS4_FSM_FREE_UNUSED VDFS4_FSM_FREE_RESERVE)) as (f3 & E3 & Hs3 & Ht3 & Hr3); rewrite ?Kf; auto; [by repeat split|intros x Hx; apply Htk; auto|by vm_compute|].
    assert (forall x, taken sbi f3 x <-> taken sbi (fsm w) x) as Ht.
    { intros x; rewrite Ht3, Kf; cbn; rewrite Htk; split; [tauto|]; intros Hx; split; [auto|]; intros Hbx; by apply (Hcl x Hbx). }
    assert (reserved_blocks_count f3 = reserved_blocks_count (fsm w)) as Hrr.
    { change (reserved_blocks_count f3 = reserved_blocks_count (fsm w2) + l) in Hr3; rewrite Hr3, Kf; cbn; lia. }
    assert (exts (set_fsm f3 w2) F = exts w F) as Ex by (unfold exts; cbn; by rewrite Ei, Ev).
    eapply turn_error; [exact E1|lia|exact E2|done|done|exact (put_block_ok sbi w2 _ _ _ _ E3)| |by cbn; rewrite Ei|exact Ex|].
    + destruct Hw as [W1 W2 W3 W4 W5 W6 W7 W8]; split; rewrite ?Ex; cbn; rewrite ?Ei, ?Ev, ?Hrr; cbn; auto; intros x Hx; apply Ht; auto.
    + split; [by rewrite Ex|intros x; apply Ht|cbn; by rewrite Ei].
  - destruct (left_over_ok l entry rest Hl' R1 R2 R3) as (L1 & L2 & L3 & L4); destruct Hsf as (S1 & S2 & S3 & S4); pose proof Hgr as (Gm & _).
    eapply (turn_some w F entry rest er b l w1 w2 F2); [exact E1|lia|exact E2|exact Hl'| |exact Hgr|exact S4| |exact Kc|by rewrite Kf].
    + apply (grown_world sbi nb w (with_rt (left_over (shrink l entry) rest) w2) F F2 (Extent b (r_iblock entry) l)); auto; cbn; rewrite ?Kf; auto.
      * destruct Hk2 as [[? ? ? ? ? ?] ? ? ? ?]; by split.
      * rewrite Hrt; intros x Hx; apply (shrink_covers l entry rest x Hl') in Hx as [Hx|Hx]; rewrite rt_covers_cons; unfold holds_block, e_end, in_ext; cbn.
        -- split; [by right|]; intros Hh'; destruct R2 as [Hd _]; apply (disjoint_from_in entry rest x) in Hd; [done|unfold in_ext; lia].
        -- split; [left; lia|lia].
      * cbn; rewrite L4, Hr; cbn; lia.
    + split; [intros i c Hm; apply Gm; auto|intros x Hx; rewrite Kf; cbn; apply Htk; auto|done].
Qed.

(** ** The loops *)

(** The outcome for one entry: all its blocks are the file's, or the environment
    failed and some of its last blocks are left. *)
Definition entry_result (w : world) (F : list extent_info) (entry : rext) (rest : list rext) (r : run (Z * rext * world)) : Prop :=
  match r with
  | Ok (err, e', w') =>
      exists F', advanced w w' F F'
      /\ (forall i, mapped (exts w' F') i <-> mapped (exts w F) i \/ (in_ext i entry /\ ~ (err <> 0 /\ in_ext i e')))
      /\ (err <> 0 -> world_ok sbi nb w' F' /\ runtime_extents (inode w') = e' :: rest /\ ~ calm w /\ forall i, in_ext i e' -> in_ext i entry)
      /\ (err = 0 -> world_ok sbi nb (with_rt rest w') F' /\ (calm w -> calm w') /\ (next_free_blocks (fsm w) = 0 -> next_free_blocks (fsm w') = 0))
  | Bug => next_free_blocks (fsm w) <> 0
  | Fault => False
  end.

Lemma grows_mapped (E E' : list extent_info) (e : extent_info) (i : Z) : grows E e E' -> mapped E' i <-> mapped E i \/ holds_block i e.
Proof.
  intros (Gm & _); rewrite !mapped_maps; split; [intros (b & [Hm|[Hh _]]%Gm); eauto|].
  intros [(b & Hm)|Hh]; [exists b; apply Gm; auto|eexists; apply Gm; eauto].
Qed.

Lemma entry_ok (er : bool) (rest : list rext) : forall (fuel : nat) (entry : rext) (w : world) (F : list extent_info),
  world_ok sbi nb w F -> runtime_extents (inode w) = entry :: rest -> r_count entry <= Z.of_nat fuel ->
  entry_result w F entry rest (allocate_entry debug sbi fuel er entry w).
Proof.
  induction fuel as [|fuel IH]; intros entry w F Hw Hrt Hfuel; pose proof (wk_runtime _ _ _ _ Hw) as (R1 & _); rewrite Hrt in R1; inversion R1 as [|? ? (O1 & O2 & O3) _]; subst; [lia|].
  cbn [allocate_entry]; destruct (turn_ok w F entry rest er Hw Hrt) as [l w1 E1 Hn|b l err w1 w2 w3 E1 Hb E2 He Hnc E3 Hw3 Ei Ex Had|b l w1 w2 F2 E1 Hb E2 Hl Hw2 Hgr Hrt2 Had Hc Hnx]; io E1.
  - done.
  - rewrite (proj2 (Z.eqb_neq b 0)) by done; io E2; rewrite (proj2 (Z.eqb_neq err 0)) by done; cbn [negb]; io E3; exists F; split; [done|].
    rewrite Ex, Ei; split; [intros i; tauto|]; split; [done|]; by intros ->.
  - rewrite (proj2 (Z.eqb_neq b 0)) by done; io E2; cbn [Z.eqb negb]; rewrite u64_small, u32_small by lia; fold (shrink l entry); io_run; rewrite Hrt2, Hrt; cbn [tail].
    fold (with_rt (shrink l entry :: rest) w2).
    unfold left_over in Hw2; destruct (Z.eqb_spec (r_count (shrink l entry)) 0) as [E0|N0]; cbn [negb].
    + exists F2; split; [by destruct Had; split|]; split; [|split; [done|intros _; split_and!; auto]].
      intros i; change (exts (with_rt (shrink l entry :: rest) w2) F2) with (exts w2 F2); rewrite (grows_mapped _ _ _ i Hgr); cbn in E0; unfold holds_block, e_end, in_ext; cbn.
      replace l with (r_count entry) by lia; tauto.
    + set (w' := with_rt _ w2) in *; assert (entry_result w' F2 (shrink l entry) rest (allocate_entry debug sbi fuel er (shrink l entry) w')) as Hr by (apply IH; [done|done|cbn; lia]).
      destruct (allocate_entry debug sbi fuel er (shrink l entry) w') as [[[err e'] w'']| |]; cbn in Hr |- *; [|auto|done].
      destruct Hr as (F' & Had' & Hm & Hf & Hs); exists F'; split; [apply (advanced_trans w w' w'' F F2 F'); [by destruct Had; split|exact Had']|]; split.
      * intros i; rewrite Hm; change (exts w' F2) with (exts w2 F2); rewrite (grows_mapped _ _ _ i Hgr); unfold holds_block, e_end, in_ext; cbn.
        destruct (Z.eq_dec err 0) as [->|He]; [|destruct (Hf He) as (_ & _ & _ & Hsub); specialize (Hsub i); unfold in_ext in Hsub; cbn in Hsub]; intuition lia.
      * split; [|intros E0'; destruct (Hs E0') as (? & ? & ?); split_and!; auto]; intros He; destruct (Hf He) as (? & ? & Hncl & Hsub); split_and!; auto.
        intros i Hi; specialize (Hsub i Hi); unfold in_ext in *; cbn in *; lia.
Qed.

(** The outcome for the list: the delayed blocks that are left are not mapped,
    all others are. *)
Definition flush_result (w : world) (F : list extent_info) (r : run (Z * world)) : Prop :=
  match r with
  | Ok (err, w') =>
      exists F', world_ok sbi nb w' F' /\ advanced w w' F F'
      /\ (forall i, mapped (exts w' F') i <-> mapped (exts w F) i \/ (covers (runtime_extents (inode w)) i /\ ~ covers (runtime_extents (inode w')) i))
      /\ (forall i, covers (runtime_extents (inode w')) i -> covers (runtime_extents (inode w)) i)
      /\ (err = 0 -> runtime_extents (inode w') = []) /\ (err <> 0 -> ~ calm w)
  | Bug => next_free_blocks (fsm w) <> 0
  | Fault => False
  end.

Lemma entries_ok (er : bool) (l : list rext) : forall (w : world) (F : list extent_info),
  world_ok sbi nb w F -> runtime_extents (inode w) = l -> flush_result w F (allocate_entries debug sbi er l w).
Proof.
  induction l as [|entry rest IH]; intros w F Hw Hrt; cbn [allocate_entries].
  { cbn; exists F; split; [done|]; split; [apply advanced_refl|]; rewrite Hrt; split_and!; try done; intros i; rewrite rt_covers_nil; tauto. }
  pose proof (entry_ok er rest (S (Z.to_nat (r_count entry))) entry w F Hw Hrt ltac:(lia)) as He; pose proof (wk_runtime _ _ _ _ Hw) as (_ & R2 & _); rewrite Hrt in R2; destruct R2 as [Hd _].
  unfold mbind at 1, io_bind at 1; destruct (allocate_entry debug sbi _ er entry w) as [[[err e'] w']| |]; cbn beta iota in He |- *; [|done|done].
  destruct He as (F' & Had & Hm & Hf & Hs); destruct (Z.eqb_spec err 0) as [->|Ne]; cbn [negb].
  - destruct (Hs eq_refl) as (Hw' & Hc & Hn); io_run; fold (with_rt rest w'); pose proof (IH (with_rt rest w') F' Hw' eq_refl) as Hr.
    destruct (allocate_entries debug sbi er rest (with_rt rest w')) as [[err w'']| |]; cbn in Hr |- *; [|auto|done].
    destruct Hr as (F'' & Hw'' & Had' & Hm' & Hsub & Hz & Hnz); exists F''; split; [done|]; split.
    { apply (advanced_trans w (with_rt rest w') w'' F F' F''); [by destruct Had; split|done]. }
    rewrite Hrt; split; [|split; [intros i Hi; apply rt_covers_cons; auto|split; [done|intros He Hcw; apply (Hnz He), Hc, Hcw]]].
    intros i; rewrite Hm'; change (exts (with_rt rest w') F') with (exts w' F'); rewrite Hm, rt_covers_cons; split.
    + intros [[?|[Hi _]]|[? ?]]; auto; right; split; [by left|]; intros Hx; by apply (disjoint_from_in entry rest i Hi Hd), Hsub.
    + intros [?|[[Hi|?] ?]]; auto; left; right; split; [done|]; by intros [].
  - destruct (Hf Ne) as (Hw' & Hrt' & Hnc & Hsub); cbn; exists F'; split; [done|]; split; [done|]; rewrite Hrt, Hrt'; split_and!; auto; [| |done].
    + intros i; rewrite Hm, !rt_covers_cons; split; [intros [?|[Hi Hx]]; auto; right; split; [by left|]; intros [?|?]; [by apply Hx|by apply (disjoint_from_in entry rest i Hi Hd)]|].
      intros [?|[[Hi|?] Hx]]; auto; [right; split; [done|]; intros [_ ?]; auto|by destruct Hx; right].
    + intros i; rewrite !rt_covers_cons; intros [?|?]; auto.
Qed.

Lemma allocate_space_ok (w : world) (F : list extent_info) (er : bool) : world_ok sbi nb w F -> flush_result w F (vdfs4_allocate_space debug sbi er w).
Proof.
  intros Hw; unfold vdfs4_allocate_space; io_run; pose proof (entries_ok er _ w F Hw eq_refl) as Hr; unfold mbind at 1, io_bind at 1.
  destruct (allocate_entries debug sbi er (runtime_extents (inode w)) w) as [[err w']| |]; cbn beta iota in Hr |- *; [|done|done].
  destruct (Z.eqb_spec err 0) as [->|Ne]; io_run; [|exact Hr]; destruct Hr as (F' & [W1 W2 W3 W4 W5 W6 W7 W8] & [A1 A2 A3] & Hrest); exists F'; split; [|split; [by split|exact Hrest]].
  split; auto; destruct W5 as [[? ? ? ? ? ?] ? ? ? ?]; by split.
Qed.

End Flush.
