(* ===== verification/FileTrunc.v ===== *)
(** Truncating a file: truncate_exttree, truncate_fork and vdfs4_truncate_blocks
    of src/linux/fs/vdfs4/file.c. *)

From Stdlib Require Import ZArith Lia Bool List.
From stdpp Require Import base list gmap sets sorting.
From S2P Require Import Prelude RuntimeExtents Bitmap FindBit Rbtree FsmTree FsmSpace Fsm FsmAlloc FsmTheorems FileSpace FileMap FileRep FileLookup FileInsert FileAlloc.

Open Scope Z_scope.

(** ** The first blocks of an extent *)

Definition keep (k : Z) (e : extent_info) : list extent_info := if k =? 0 then [] else [Extent (first_block e) (e_iblock e) k].

Lemma owns_maps (E : list extent_info) (x : Z) : owns E x <-> exists i, maps E i x.
Proof.
  split; [intros (e & He & Hx)|intros (i & e & He & Hi & ->)].
  - exists (e_iblock e + (x - first_block e)), e; unfold holds_block, e_end; split; [done|lia].
  - exists e; split; [done|]; unfold holds_block, e_end in Hi; lia.
Qed.

Lemma keep_maps (k : Z) (e : extent_info) (i b : Z) : 0 <= k < block_count e ->
  maps (keep k e) i b <-> (holds_block i e /\ b = first_block e + (i - e_iblock e)) /\ ~ (e_iblock e + k <= i < e_end e).
Proof.
  intros Hk; unfold keep; destruct (Z.eqb_spec k 0) as [->|]; rewrite ?maps_cons, maps_nil; unfold holds_block, e_end; cbn; lia.
Qed.

(** ** The delayed blocks *)

Lemma truncate_disjoint (n t : Z) (l : list rext) : Forall ext_ok l -> disjoint l -> 0 <= n < 2 ^ 32 ->
  disjoint (vdfs4_truncate_runtime_blocks n t l).2 /\ forall e, disjoint_from e l -> disjoint_from e (vdfs4_truncate_runtime_blocks n t l).2.
Proof.
  intros Hok Hd Hn; revert t; induction Hok as [|r l (O1 & O2 & O3) Hl IH]; intros t; [done|]; destruct Hd as [Hr Hd]; cbn [vdfs4_truncate_runtime_blocks].
  destruct (Z.leb_spec n (r_iblock r)).
  { destruct (IH Hd (t +64 r_count r)) as [I1 I2]; split; [done|]; intros e He; apply I2; unfold disjoint_from in He; rewrite Forall_cons in He; apply He. }
  rewrite (r_end_ok r) by (by split_and!); destruct (Z.leb_spec n (r_iblock r + r_count r)).
  - destruct (IH Hd (t +64 (r_count r -32 u32 (n - r_iblock r)))) as [I1 I2]; destruct (vdfs4_truncate_runtime_blocks n _ l) as [t' l']; cbn in *; rewrite (u32_small (n - r_iblock r)) by lia; split.
    + split; [|done]; eapply disjoint_from_shrink; [..|apply I2; exact Hr]; cbn; lia.
    + intros e He; unfold disjoint_from in *; rewrite Forall_cons in *; destruct He as [He1 He2]; split; [cbn; lia|by apply I2].
  - destruct (IH Hd t) as [I1 I2]; destruct (vdfs4_truncate_runtime_blocks n t l) as [t' l']; cbn in *; split; [split; [by apply I2|done]|].
    intros e He; unfold disjoint_from in *; rewrite Forall_cons in *; destruct He as [He1 He2]; split; [done|by apply I2].
Qed.

Lemma truncate_le (n t : Z) (l : list rext) : Forall ext_ok l -> 0 <= n < 2 ^ 32 -> total (vdfs4_truncate_runtime_blocks n t l).2 <= total l.
Proof.
  intros Hok Hn; revert t; induction Hok as [|r l (O1 & O2 & O3) Hl IH]; intros t; [done|]; cbn [vdfs4_truncate_runtime_blocks total].
  destruct (Z.leb_spec n (r_iblock r)); [specialize (IH (t +64 r_count r)); lia|]; rewrite (r_end_ok r) by (by split_and!); destruct (Z.leb_spec n (r_iblock r + r_count r)).
  - specialize (IH (t +64 (r_count r -32 u32 (n - r_iblock r)))); destruct (vdfs4_truncate_runtime_blocks n _ l); cbn in *; rewrite u32_small; lia.
  - specialize (IH t); destruct (vdfs4_truncate_runtime_blocks n t l); cbn in *; lia.
Qed.

Section Cut.
Context (sbi : sb_info).

Lemma cut_ok (E E' R : list extent_info) (e : extent_info) (k : Z) :
  E ≡ₚ e :: R -> E' ≡ₚ keep k e ++ R -> sound sbi E -> 0 <= k < block_count e ->
  sound sbi E' /\ etotal E' = etotal E - (block_count e - k)
  /\ (forall i b, maps E' i b <-> maps E i b /\ ~ (e_iblock e + k <= i < e_end e))
  /\ (forall x, owns E' x <-> owns E x /\ ~ (first_block e + k <= x < first_block e + block_count e)).
Proof.
  intros P P' Hs Hk; rewrite (sound_perm sbi _ _ (symmetry P)) in Hs; destruct Hs as [Hw [Hf Hs]]; rewrite Forall_cons in Hw; destruct Hw as [We Hw].
  rewrite Forall_forall in Hf; assert (sound sbi (keep k e ++ R)) as Hs'.
  { unfold keep; destruct (Z.eqb_spec k 0) as [->|]; [done|]; destruct We as (W1 & W2 & W3 & W4 & W5); unfold e_end in W5; split; cbn.
    - constructor; [unfold ext_wf, e_end; cbn; lia|done].
    - split; [|done]; apply Forall_forall; intros q Hq; specialize (Hf q Hq); unfold sep, e_end in *; cbn; lia. }
  assert (forall i b, maps R i b -> ~ (e_iblock e <= i < e_end e)) as Hno.
  { intros i b (q & Hq & Hi & _); specialize (Hf q Hq); unfold sep, holds_block, e_end in *; lia. }
  assert (forall i b, maps E' i b <-> maps E i b /\ ~ (e_iblock e + k <= i < e_end e)) as Hm.
  { intros i b; rewrite (maps_perm _ _ P' i i eq_refl b b eq_refl), (maps_perm _ _ P i i eq_refl b b eq_refl), maps_cons; pose proof (keep_maps k e i b Hk) as Hkm; specialize (Hno i b).
    assert (maps (keep k e ++ R) i b <-> maps (keep k e) i b \/ maps R i b) as ->; [|unfold holds_block, e_end in *; intuition lia].
    unfold maps; setoid_rewrite elem_of_app; naive_solver. }
  split; [by rewrite (sound_perm sbi _ _ (symmetry P'))|]; split; [rewrite (etotal_perm _ _ P'), (etotal_perm _ _ P), etotal_app; unfold keep; destruct (Z.eqb_spec k 0); cbn; lia|].
  split; [done|]; intros x; rewrite (owns_perm _ _ P' x x eq_refl), (owns_perm _ _ P x x eq_refl), owns_cons.
  assert (owns (keep k e ++ R) x <-> owns (keep k e) x \/ owns R x) as -> by (unfold owns; setoid_rewrite elem_of_app; naive_solver).
  assert (owns R x -> ~ (first_block e <= x < first_block e + block_count e)) as Hno' by (intros (q & Hq & Hx); specialize (Hf q Hq); unfold sep in Hf; lia).
  unfold keep; destruct (Z.eqb_spec k 0) as [->|]; rewrite ?owns_cons, owns_nil; cbn; intuition lia.
Qed.

End Cut.

Section Trunc.
Context {T M : Type} `{ExtTreeLaws T} `{MetaArea M} `{RbtreeLaws}.
Context (sbi : sb_info) (nb : Z) (Hmeta : MetaAreaLaws M sbi nb).

#[local] Abbreviation vol := (volume_blocks_count sbi).
#[local] Abbreviation world := (world T M).

(** ** What truncation may do

    Only logical blocks from [n] on are lost, and exactly the physical blocks
    that are not the file's any more are given back. *)
Record trimmed (n : Z) (w w' : world) (F F' : list extent_info) : Prop := {
  tr_maps : forall i b, maps (exts w' F') i b -> maps (exts w F) i b;
  tr_keep : forall i b, maps (exts w F) i b -> i < n -> maps (exts w' F') i b;
  tr_taken : forall x, taken sbi (fsm w') x <-> taken sbi (fsm w) x /\ (owns (exts w F) x -> owns (exts w' F') x);
  tr_file : same_file (inode w) (inode w');
  tr_reserved : reserved_blocks_count (fsm w') = reserved_blocks_count (fsm w);
  tr_calm : calm w -> calm w'
}.

Lemma trimmed_owns (n : Z) (w w' : world) (F F' : list extent_info) (x : Z) : trimmed n w w' F F' -> owns (exts w' F') x -> owns (exts w F) x.
Proof. intros [Hm _ _ _ _ _]; rewrite !owns_maps; intros (i & Hi); eauto. Qed.

Lemma trimmed_trans (n : Z) (w w1 w2 : world) (F F1 F2 : list extent_info) : trimmed n w w1 F F1 -> trimmed n w1 w2 F1 F2 -> trimmed n w w2 F F2.
Proof.
  intros T1 T2; pose proof (trimmed_owns n w w1 F F1) as O1; pose proof (trimmed_owns n w1 w2 F1 F2) as O2.
  pose proof T1 as [A1 A2 A3 (A4 & A5 & A6 & A7) A8 A9]; pose proof T2 as [B1 B2 B3 (B4 & B5 & B6 & B7) B8 B9]; split; auto; [|by unfold same_file; split_and!; congruence|congruence].
  intros x; rewrite B3, A3; specialize (O1 x T1); specialize (O2 x T2); tauto.
Qed.

Lemma trimmed_refl (n : Z) (w : world) (F : list extent_info) : trimmed n w w F F.
Proof. split; auto; [intros x; tauto|done]. Qed.

(** Blocks of an extent are given back. *)
Lemma release_ok (w : world) (F R : list extent_info) (e : extent_info) (k : Z) :
  world_ok sbi nb w F -> exts w F ≡ₚ e :: R -> 0 <= k < block_count e ->
  exists f', put_free_block sbi (first_block e + k) (block_count e - k) 0 w = Ok (tt, set_fsm f' w) /\ space_ok sbi nb f'
  /\ (forall x, taken sbi f' x <-> taken sbi (fsm w) x /\ ~ first_block e + k <= x < first_block e + block_count e)
  /\ reserved_blocks_count f' = reserved_blocks_count (fsm w).
Proof.
  intros Hw P Hk; assert (e ∈ exts w F) as He by (rewrite P; apply elem_of_cons; auto); pose proof (fk_wf _ _ _ _ (wk_file _ _ _ _ Hw)) as Hwf; rewrite Forall_forall in Hwf.
  destruct (Hwf e He) as (W1 & W2 & W3 & W4 & W5); destruct (put_space sbi nb (fsm w) (first_block e + k) (block_count e - k) 0) as (f' & E & Hs & Ht & Hr).
  - apply Hw.
  - unfold in_volume; lia.
  - intros x Hx; apply (wk_taken _ _ _ _ Hw); exists e; split; [done|lia].
  - by intros [].
  - exists f'; split; [exact (put_block_ok sbi w _ _ _ _ E)|]; split; [done|]; split; [intros x; rewrite Ht; replace (first_block e + k + (block_count e - k)) with (first_block e + block_count e) by lia; done|].
    change (reserved_blocks_count f' = reserved_blocks_count (fsm w) + 0) in Hr; lia.
Qed.

(** The state after an extent has been cut to [k] blocks. *)
Lemma cut_world (n : Z) (w w' : world) (F F' R : list extent_info) (e : extent_info) (k : Z) :
  world_ok sbi nb w F -> exts w F ≡ₚ e :: R -> exts w' F' ≡ₚ keep k e ++ R -> 0 <= k < block_count e -> n <= e_iblock e + k ->
  space_ok sbi nb (fsm w') -> (forall x, taken sbi (fsm w') x <-> taken sbi (fsm w) x /\ ~ first_block e + k <= x < first_block e + block_count e) ->
  reserved_blocks_count (fsm w') = reserved_blocks_count (fsm w) -> file_shape (inode w') (view (tree w')) F' ->
  total_block_count (inode w') = total_block_count (inode w) -32 (block_count e - k) ->
  i_bytes (inode w') = i_bytes (inode w) -64 block_size sbi * (block_count e - k) ->
  same_file (inode w) (inode w') -> tree_ok (tree w') -> based w' -> (calm w -> calm w') -> world_ok sbi nb w' F' /\ trimmed n w w' F F'.
Proof.
  intros Hw P P' Hk Hn Hs Ht Hr Hsh Etot Eby Hsf Hto Hba Hc; pose proof Hw as [W1 W2 W3 W4 W5 W6 W7 W8]; pose proof W5 as [_ Hwf Hse Et Eb].
  destruct (cut_ok sbi (exts w F) (exts w' F') R e k P P' ltac:(done) Hk) as ([Hwf' Hse'] & Htot & Hm & Ho).
  pose proof (space_bounds sbi nb _ W1) as Hb; pose proof (etotal_vol vol _ ltac:(lia) Hwf Hse) as Hmax; pose proof (etotal_nonneg _ _ Hwf') as Hnn'; pose proof W4 as [Z1 Z2].
  pose proof Hsf as (S1 & S2 & S3 & S4); change (F ++ overflow (i_ino (inode w)) (view (tree w))) with (exts w F) in *.
  split; [split; auto|split; auto].
  - split; auto; change (F' ++ overflow (i_ino (inode w')) (view (tree w'))) with (exts w' F').
    + rewrite Etot, Et, u32_small; lia.
    + rewrite Eby, Eb, <- Z.mul_sub_distr_l, <- Htot; apply u64_small; nia.
  - intros x Hx; apply Ho in Hx as [Hx Hnx]; apply Ht; auto.
  - destruct W7 as (R1 & R2 & R3 & R4); unfold runtime_ok; rewrite S4; split_and!; auto; intros x Hx; rewrite mapped_maps; intros (b & [Hb' _]%Hm); apply (R4 x Hx), mapped_maps; eauto.
  - by rewrite S4, Hr.
  - intros i b Hx; apply Hm in Hx as [Hx _]; exact Hx.
  - intros i b Hx Hlt; apply Hm; split; [done|lia].
  - intros x; rewrite Ht, Ho; split; [tauto|]; intros [Hx Himp]; split; [done|]; intros Hin; destruct Himp as [_ Hno]; [|done].
    assert (owns (exts w F) x); [|done]; exists e; split; [rewrite P; apply elem_of_cons; auto|lia].
Qed.

(** ** The extents tree *)

Definition same_place (w w' : world) : Prop := used_extents (inode w') = used_extents (inode w).

Lemma flush_ok (w : world) (F : list extent_info) (n : Z) (b : bool) : world_ok sbi nb w F ->
  exists w', (if b then flush_commit else ret tt) w = Ok (tt, w') /\ inode w' = inode w /\ tree w' = tree w /\ answers w' = answers w
  /\ world_ok sbi nb w' F /\ trimmed n w w' F F.
Proof.
  intros Hw; destruct b; [|exists w; split_and!; auto; apply trimmed_refl].
  destruct (flush_law (area w) (fsm w) (wk_space _ _ _ _ Hw)) as (m' & f' & E & Hs & Ht & Hr); exists (World (inode w) f' (tree w) m' (answers w)); split; [unfold flush_commit; by rewrite E|].
  do 3 (split; [done|]); split; [by apply (world_same sbi nb w); auto; intros x; apply Ht|]; split; auto; cbn; [|done]; intros x; rewrite Ht; unfold exts; cbn; tauto.
Qed.

(** The last record of the inode. *)
Lemma last_record_ok (w : world) (F : list extent_info) : world_ok sbi nb w F -> calm w ->
  exists r w', vdfs4_find_last_extent (i_ino (inode w)) w = Ok (r, w') /\ framed w w'
  /\ match r with
     | Err e => e = - ENOENT /\ overflow (i_ino (inode w)) (view (tree w)) = []
     | Val r => x_object_id r = i_ino (inode w) /\ Extent (x_begin r) (x_iblock r) (x_length r) ∈ overflow (i_ino (inode w)) (view (tree w))
                /\ forall q, q ∈ overflow (i_ino (inode w)) (view (tree w)) -> e_iblock q <= x_iblock r
     end.
Proof.
  intros Hw Hc; destruct (find_strict_ok (i_ino (inode w)) IBLOCK_MAX_NUMBER w (wk_tree _ _ _ _ Hw)) as (r & w' & E & Hfr & Hr); exists r, w'; split; [done|]; split; [done|].
  pose proof (fk_wf _ _ _ _ (wk_file _ _ _ _ Hw)) as Hwf; apply Forall_app in Hwf as [_ Hwf]; rewrite Forall_forall in Hwf; destruct r as [e|r].
  - destruct Hr as (_ & Hno & Hst); split; [auto|]; specialize (Hno (Hst Hc)); destruct (overflow _ _) as [|q L] eqn:Eo; [done|exfalso].
    assert (q ∈ overflow (i_ino (inode w)) (view (tree w))) as Hq by (rewrite Eo; apply elem_of_cons; auto); rewrite <- Eo in Hwf; destruct (Hwf q Hq) as (W1 & _ & _ & _ & W5).
    apply overflow_elem in Hq; specialize (Hno (e_iblock q) ltac:(by rewrite Hq)); unfold IBLOCK_MAX_NUMBER, e_end in *; lia.
  - destruct Hr as (Ho & Hin & _ & Hmax); split; [done|]; split; [apply overflow_elem; cbn; rewrite <- Ho; exact Hin|]; intros q Hq; destruct (Hwf q Hq) as (W1 & _ & _ & _ & W5).
    apply overflow_elem in Hq; specialize (Hmax (i_ino (inode w), e_iblock q) ltac:(by rewrite Hq) ltac:(right; unfold IBLOCK_MAX_NUMBER, e_end in *; cbn; lia)).
    unfold kle, x_key in Hmax; cbn in Hmax; lia.
Qed.

Lemma remove_ok (w : world) (ib : Z) : tree_ok (tree w) -> calm w -> is_Some (view (tree w) !! (i_ino (inode w), ib)) ->
  exists w', vdfs4_exttree_remove (i_ino (inode w)) ib w = Ok (0, w') /\ inode w' = inode w /\ fsm w' = fsm w /\ area w' = area w /\ tree_ok (tree w')
  /\ view (tree w') = delete (i_ino (inode w), ib) (view (tree w)) /\ calm w'.
Proof.
  intros Ht Hc Hin; unfold vdfs4_exttree_remove; destruct (key_ok w Ht) as (e & w1 & E1 & (Ei & Ef & Ea & Ht1 & Ev & Hc1) & He); io E1; destruct He as [->|[_ He]]; [|done]; cbn [Z.eqb negb].
  pose proof (remove_law (i_ino (inode w), ib) (tree w1) Ht1) as HR; destruct (btree_remove (i_ino (inode w), ib) (tree w1)) as [e t'] eqn:Er; destruct HR as (Ht2 & Hs & Hcase).
  destruct (Hc1 Hc) as [Ha1 Hs1]; rewrite (on_tree_framed _ _ _ _ Er); exists (set_tree t' w1); destruct Hcase as [(-> & Ev2)|(_ & _ & Hno)].
  - cbn; split; [done|]; rewrite Ev2, Ev; split_and!; auto; split; auto.
  - rewrite Ev in Hno; rewrite (Hno Hs1) in Hin; by destruct Hin.
Qed.

Lemma shape_less (i i' : inode_info) (m m' : xmap) (F : list extent_info) : file_shape i m F -> used_extents i = VDFS4_EXTENTS_COUNT_IN_FORK ->
  i_ino i' = i_ino i -> used_extents i' = used_extents i -> extents i' = extents i ->
  (forall q, q ∈ overflow (i_ino i) m' -> exists p, p ∈ overflow (i_ino i) m /\ e_iblock p = e_iblock q) -> file_shape i' m' F.
Proof.
  intros [S1 S2 S3 S4 S5 S6] H9 Ei Eu Ee Hq; split; rewrite ?Ei, ?Eu, ?Ee; auto; [|lia].
  intros a b Ha Hb; destruct (Hq b Hb) as (p & Hp & <-); auto.
Qed.

Lemma overflow_shorten (ino : Z) (m : xmap) (e : extent_info) (k : Z) : e ∈ overflow ino m ->
  overflow ino (<[(ino, e_iblock e) := (first_block e, k)]> m) ≡ₚ Extent (first_block e) (e_iblock e) k :: overflow ino (delete (ino, e_iblock e) m).
Proof.
  intros He; rewrite <- insert_delete_eq; apply (overflow_insert ino (delete (ino, e_iblock e) m) (Extent (first_block e) (e_iblock e) k)), lookup_delete_eq.
Qed.

Lemma delete_elem (ino ib : Z) (m : xmap) (q : extent_info) : q ∈ overflow ino (delete (ino, ib) m) -> q ∈ overflow ino m.
Proof. rewrite !overflow_elem; intros Hq; by apply lookup_delete_Some in Hq as [_ ?]. Qed.

(** The whole last extent goes. *)
Lemma drop_last_ok (n : Z) (w : world) (F : list extent_info) (e : extent_info) : world_ok sbi nb w F -> calm w -> used_extents (inode w) = VDFS4_EXTENTS_COUNT_IN_FORK ->
  e ∈ overflow (i_ino (inode w)) (view (tree w)) -> n <= e_iblock e ->
  exists w', (put_free_block sbi (first_block e) (block_count e) 0;; on_inode (sub_blocks (block_size sbi) (block_count e));; vdfs4_exttree_remove (i_ino (inode w)) (e_iblock e)) w
    = Ok (0, w') /\ world_ok sbi nb w' F /\ trimmed n w w' F F /\ calm w' /\ same_place w w'
  /\ view (tree w') = delete (i_ino (inode w), e_iblock e) (view (tree w)).
Proof.
  intros Hw Hc H9 He Hn; set (m' := delete (i_ino (inode w), e_iblock e) (view (tree w))); pose proof (overflow_delete _ _ _ He) as P0.
  assert (exts w F ≡ₚ e :: (F ++ overflow (i_ino (inode w)) m')) as P by (unfold exts; rewrite P0; symmetry; apply Permutation_middle).
  pose proof (fk_wf _ _ _ _ (wk_file _ _ _ _ Hw)) as Hwf; apply Forall_app in Hwf as [_ Hwf]; rewrite Forall_forall in Hwf; destruct (Hwf e He) as (Hcnt & _).
  destruct (release_ok w F _ e 0 Hw P ltac:(lia)) as (f' & E1 & Hs & Ht & Hr); rewrite Z.add_0_r, Z.sub_0_r in E1; io E1; io_run.
  set (w2 := set_inode _ _); apply overflow_elem in He as Hv.
  destruct (remove_ok w2 (e_iblock e)) as (w3 & E3 & Ei & Ef & Ea & Ht3 & Ev & Hc3); [apply Hw|exact Hc|by cbn; rewrite Hv|].
  change (i_ino (inode w2)) with (i_ino (inode w)) in *; rewrite E3; exists w3; split; [done|]; change (view (tree w2)) with (view (tree w)) in Ev; fold m' in Ev.
  destruct (cut_world n w w3 F F (F ++ overflow (i_ino (inode w)) m') e 0) as [Hw3 Htr]; auto; rewrite ?Ei, ?Ef, ?Ev; cbn; auto; try lia.
  - unfold exts; rewrite Ei, Ev; cbn; done.
  - eapply (shape_less (inode w) _ (view (tree w))); auto; [apply Hw|]; cbn; intros q Hq; exists q; split; [by eapply delete_elem|done].
  - by rewrite Z.sub_0_r.
  - by rewrite Z.sub_0_r.
  - done.
  - destruct (wk_base _ _ _ _ Hw) as (k & Hk & Hlt); exists k; rewrite Ei, Ev; cbn; split; [|done]; unfold m'; rewrite lookup_delete_ne; [done|]; intros <-; cbn in Hlt; lia.
  - split; [done|]; split; [done|]; split; [done|]; split; [|done]; unfold same_place; by rewrite Ei.
Qed.

(** The last extent is cut. *)
Lemma shorten_last_ok (n : Z) (w : world) (F : list extent_info) (e : extent_info) : world_ok sbi nb w F -> calm w -> used_extents (inode w) = VDFS4_EXTENTS_COUNT_IN_FORK ->
  e ∈ overflow (i_ino (inode w)) (view (tree w)) -> e_iblock e < n < e_end e ->
  exists w', (put_free_block sbi (first_block e + (n - e_iblock e)) (block_count e - (n - e_iblock e)) 0;;
      on_tree (fun t => (tt, set_length (i_ino (inode w), e_iblock e) (n - e_iblock e) t));;
      on_inode (sub_blocks (block_size sbi) (block_count e - (n - e_iblock e)));; ret 0) w = Ok (0, w')
  /\ world_ok sbi nb w' F /\ trimmed n w w' F F /\ calm w' /\ same_place w w'
  /\ overflow (i_ino (inode w)) (view (tree w')) ≡ₚ Extent (first_block e) (e_iblock e) (n - e_iblock e) :: overflow (i_ino (inode w)) (delete (i_ino (inode w), e_iblock e) (view (tree w))).
Proof.
  intros Hw Hc H9 He Hn; unfold e_end in Hn; set (k := n - e_iblock e); set (R := overflow (i_ino (inode w)) (delete (i_ino (inode w), e_iblock e) (view (tree w)))).
  pose proof (overflow_delete _ _ _ He) as P0; fold R in P0; pose proof (overflow_shorten _ _ _ k He) as P1; fold R in P1.
  assert (exts w F ≡ₚ e :: (F ++ R)) as P by (unfold exts; rewrite P0; symmetry; apply Permutation_middle).
  destruct (release_ok w F _ e k Hw P ltac:(lia)) as (f' & E1 & Hs & Ht & Hr); io E1; io_run; apply overflow_elem in He as Hv.
  destruct (length_law (i_ino (inode w), e_iblock e) _ _ k (tree w) (wk_tree _ _ _ _ Hw) Hv) as (Ht3 & Hst & Ev).
  eexists; split; [reflexivity|]; set (w3 := set_inode _ _); change (view (tree w3)) with (view (set_length (i_ino (inode w), e_iblock e) k (tree w))); rewrite Ev.
  destruct (cut_world n w w3 F F (F ++ R) e k) as [Hw3 Htr]; auto; try done; cbn; rewrite ?Ev; try lia.
  - unfold exts, keep; cbn; rewrite Ev, (proj2 (Z.eqb_neq k 0)) by lia; rewrite P1; cbn [app]; symmetry; apply Permutation_middle.
  - eapply (shape_less (inode w) _ (view (tree w))); auto; [exact (fk_shape _ _ _ _ (wk_file _ _ _ _ Hw))|]; cbn; intros q; rewrite P1; intros [->|Hq]%elem_of_cons; [by exists e|].
    exists q; split; [by eapply delete_elem|done].
  - destruct (wk_base _ _ _ _ Hw) as (q & Hq & Hlt); exists q; cbn; rewrite Ev; split; [|done]; rewrite lookup_insert_is_Some'; auto.
  - intros [Ha Hst']; split; [done|]; cbn; auto.
  - destruct Hc as [Ha Hs']; split; [done|]; split; [done|]; split; [split; [done|cbn; auto]|]; split; [done|done].
Qed.

Lemma seq_ok {A B C D : Type} (a : io A) (b : io B) (c : io C) (d : io D) (w w' : world) (x : C) :
  (a;; b;; c) w = Ok (x, w') -> (a;; b;; c;; d) w = d w'.
Proof.
  unfold mbind, io_bind; destruct (a w) as [[y w1]| |]; [|done|done]; destruct (b w1) as [[z w2]| |]; [|done|done]; by intros ->.
Qed.

(** Every extent of the tree ends below [n]. *)
Definition tree_below (n : Z) (w : world) : Prop := forall q, q ∈ overflow (i_ino (inode w)) (view (tree w)) -> e_end q <= n.

Lemma others_below (w : world) (F : list extent_info) (e q : extent_info) : world_ok sbi nb w F -> e ∈ overflow (i_ino (inode w)) (view (tree w)) ->
  q ∈ overflow (i_ino (inode w)) (view (tree w)) -> e_iblock q <= e_iblock e -> q = e \/ e_end q <= e_iblock e.
Proof.
  intros Hw He Hq Hle; pose proof (wk_file _ _ _ _ Hw) as [_ Hwf Hse _ _]; rewrite Forall_forall in Hwf; destruct (Hwf e) as (W1 & _); [apply elem_of_app; auto|]; destruct (Hwf q) as (W2 & _); [apply elem_of_app; auto|].
  destruct (all_sep_elem _ q e Hse) as [->|[Hs _]]; [apply elem_of_app; auto|apply elem_of_app; auto|by left|right]; unfold e_end in *; lia.
Qed.

Lemma truncate_exttree_ok (n : Z) : 0 <= n < 2 ^ 32 -> forall (fuel : nat) (w : world) (F : list extent_info),
  world_ok sbi nb w F -> calm w -> used_extents (inode w) = VDFS4_EXTENTS_COUNT_IN_FORK -> (length (overflow (i_ino (inode w)) (view (tree w))) < fuel)%nat ->
  exists w', truncate_exttree sbi fuel n w = Ok (0, w') /\ world_ok sbi nb w' F /\ trimmed n w w' F F /\ calm w' /\ same_place w w' /\ tree_below n w'.
Proof.
  intros Hn; induction fuel as [|fuel IH]; intros w F Hw Hc H9 Hfuel; [lia|]; cbn [truncate_exttree]; io_run.
  destruct (flush_ok w F n (vdfs4_is_enospc 25 (area w)) Hw) as (w1 & E1 & Ei1 & Et1 & Ea1 & Hw1 & Tr1); io E1.
  assert (calm w1) as Hc1 by (apply (tr_calm _ _ _ _ _ Tr1), Hc).
  destruct (last_record_ok w1 F Hw1 Hc1) as (r & w2 & E2 & Hfr & Hr); rewrite Ei1 in E2; io E2.
  pose proof (framed_ok sbi nb w1 w2 F Hfr Hw1) as Hw2; pose proof (exts_framed w1 w2 F Hfr) as Ex; pose proof Hfr as (Ei2 & Ef2 & _ & _ & Ev2 & Hc2).
  assert (trimmed n w w2 F F) as Tr2.
  { eapply trimmed_trans; [exact Tr1|]; split; rewrite ?Ex, ?Ef2, ?Ei2; auto; [intros x; tauto|done]. }
  rewrite <- Ei2, <- Ev2 in Hr; assert (inode w2 = inode w) as Ei by congruence; destruct r as [e|r].
  { destruct Hr as [-> Ho]; exists w2; split; [done|]; split; [done|]; split; [done|]; split; [auto|]; split; [unfold same_place; by rewrite Ei|]; intros q; rewrite Ho; by intros ?%elem_of_nil. }
  destruct Hr as (Ho & Hin & Hmax); set (e := Extent _ _ _) in *; assert (used_extents (inode w2) = VDFS4_EXTENTS_COUNT_IN_FORK) as H92 by congruence.
  pose proof (wk_file _ _ _ _ Hw2) as [_ Hwf _ _ _]; rewrite Forall_forall in Hwf; destruct (Hwf e) as (W1 & W2 & W3 & W4 & W5); [apply elem_of_app; auto|]; cbn in W1, W2, W3, W4; unfold e_end in W5; cbn in W5.
  destruct (space_bounds sbi nb _ (wk_space _ _ _ _ Hw2)) as (_ & _ & _ & Hv).
  destruct (Z.leb_spec n (x_iblock r)).
  - destruct (drop_last_ok n w2 F e Hw2 (Hc2 Hc1) H92 Hin ltac:(done)) as (w3 & E3 & Hw3 & Tr3 & Hc3 & Hp3 & Ev3); rewrite Ei in E3; cbn in E3.
    rewrite (seq_ok _ _ _ _ _ _ _ E3); pose proof (tr_file _ _ _ _ _ Tr3) as (S1 & _); destruct (IH w3 F Hw3 Hc3) as (w4 & E4 & Hw4 & Tr4 & Hc4 & Hp4 & Hb4).
    + rewrite Hp3; congruence.
    + rewrite S1, Ev3; assert (overflow (i_ino (inode w)) (view (tree w)) = overflow (i_ino (inode w2)) (view (tree w2))) as Eo by (by rewrite Ei, Ev2, Et1).
      rewrite Eo, (Permutation_length (overflow_delete _ _ _ Hin)) in Hfuel; cbn [length] in Hfuel; lia.
    + exists w4; split; [done|]; split; [done|]; split; [eapply trimmed_trans; [exact Tr2|]; by eapply trimmed_trans|]; split; [done|]; split; [|done]; unfold same_place in *; congruence.
  - rewrite (u64_small (x_iblock r + x_length r)) by lia; destruct (Z.ltb_spec n (x_iblock r + x_length r)) as [Hlt|Hge].
    + assert (u32 (x_iblock r + x_length r - n) = x_length r - (n - x_iblock r)) as -> by (rewrite u32_small; lia).
      replace (x_begin r + x_length r - (x_length r - (n - x_iblock r))) with (x_begin r + (n - x_iblock r)) by lia.
      replace (x_length r -32 (x_length r - (n - x_iblock r))) with (n - x_iblock r) by (rewrite u32_small; lia).
      destruct (shorten_last_ok n w2 F e Hw2 (Hc2 Hc1) H92 Hin) as (w3 & E3 & Hw3 & Tr3 & Hc3 & Hp3 & Ev3); [unfold e_end; cbn; lia|]; rewrite Ei in E3; cbn in E3.
      exists w3; split; [exact E3|]; split; [done|]; split; [by eapply trimmed_trans|]; split; [done|]; split; [unfold same_place in *; congruence|].
      intros q; pose proof (tr_file _ _ _ _ _ Tr3) as (S1 & _); rewrite S1, Ev3; intros [->|Hq]%elem_of_cons; [unfold e_end; cbn; lia|].
      assert (q <> e) as Hne by (intros ->; apply overflow_elem in Hq; by rewrite lookup_delete_eq in Hq).
      apply delete_elem in Hq; destruct (others_below w2 F e q Hw2 Hin Hq (Hmax q Hq)) as [|Hle]; [done|]; change (e_iblock e) with (x_iblock r) in Hle; lia.
    + exists w2; split; [done|]; split; [done|]; split; [done|]; split; [auto|]; split; [unfold same_place; by rewrite Ei|]; intros q Hq.
      destruct (others_below w2 F e q Hw2 Hin Hq (Hmax q Hq)) as [->|Hle]; [unfold e_end; cbn; lia|]; change (e_iblock e) with (x_iblock r) in Hle; lia.
Qed.

(** ** The fork *)

(** The last extent of a fork whose inode has no others, cut to [k] blocks. *)
Lemma cut_slot_ok (n k : Z) (w : world) (A : list extent_info) (e : extent_info) (w' : world) (f' : fsm_info) :
  world_ok sbi nb w (A ++ [e]) -> overflow (i_ino (inode w)) (view (tree w)) = [] -> 0 <= k < block_count e -> n <= e_iblock e + k ->
  space_ok sbi nb f' -> (forall x, taken sbi f' x <-> taken sbi (fsm w) x /\ ~ first_block e + k <= x < first_block e + block_count e) ->
  reserved_blocks_count f' = reserved_blocks_count (fsm w) -> fsm w' = f' -> tree w' = tree w -> answers w' = answers w ->
  total_block_count (inode w') = total_block_count (inode w) -32 (block_count e - k) ->
  i_bytes (inode w') = i_bytes (inode w) -64 block_size sbi * (block_count e - k) -> same_file (inode w) (inode w') ->
  used_extents (inode w') = lenZ (A ++ keep k e) ->
  extents (inode w') = (A ++ keep k e) ++ replicate (Z.to_nat (VDFS4_EXTENTS_COUNT_IN_FORK - lenZ (A ++ keep k e))) zero_extent ->
  world_ok sbi nb w' (A ++ keep k e) /\ trimmed n w w' (A ++ [e]) (A ++ keep k e) /\ overflow (i_ino (inode w')) (view (tree w')) = [].
Proof.
  intros Hw Hov Hk Hn Hs Ht Hr Ef Et Ea Etot Eby Hsf Eu Ee; pose proof (fk_shape _ _ _ _ (wk_file _ _ _ _ Hw)) as [S1 S2 S3 S4 S5 S6]; pose proof Hsf as (Ei & _).
  assert (overflow (i_ino (inode w')) (view (tree w')) = []) as Hov' by (by rewrite Ei, Et).
  assert (lenZ (A ++ keep k e) <= lenZ (A ++ [e])) as Hlen by (unfold keep, lenZ; rewrite !length_app; destruct (k =? 0); cbn; lia).
  destruct (cut_world n w w' (A ++ [e]) (A ++ keep k e) A e k) as [Hw' Htr]; auto; rewrite ?Ef, ?Et; auto.
  - unfold exts; rewrite Hov, app_nil_r; symmetry; apply Permutation_cons_append.
  - unfold exts; rewrite Hov', app_nil_r; apply Permutation_app_comm.
  - split; [by rewrite Eu|done|lia| | |rewrite Ei; auto].
    + unfold keep; destruct (k =? 0); [rewrite app_nil_r; by apply StronglySorted_app in S4 as (_ & S4 & _)|].
      apply StronglySorted_app in S4 as (X1 & X2 & X3); apply StronglySorted_app; split_and!; auto; [|by repeat constructor].
      intros a b Ha ->%list_elem_of_singleton; apply (X1 a e Ha), list_elem_of_singleton; done.
    + intros a b _; rewrite Ei, Hov; by intros ?%elem_of_nil.
  - apply Hw.
  - destruct (wk_base _ _ _ _ Hw) as (q & Hq & Hlt); exists q; by rewrite Ei, Et.
  - intros [Hc Hst]; split; [by rewrite Ea|by rewrite Et].
Qed.

(** The fork after the extents from [n] on are gone, and the slot the loop ended
    with. *)
Definition fork_cut (n : Z) (w : world) (F' : list extent_info) (pos : Z) : Prop :=
  (F' = [] /\ pos = 0 /\ getZ (extents (inode w)) 0 = Some zero_extent) \/ exists A e, F' = A ++ [e] /\ pos = lenZ A /\ e_iblock e < n.

Lemma fork_loop_ok (n : Z) (F : list extent_info) : 0 <= n -> forall (w : world) (x : Z), world_ok sbi nb w F -> F <> [] ->
  overflow (i_ino (inode w)) (view (tree w)) = [] ->
  exists F' pos w', truncate_fork_loop sbi (length F) n x w = Ok (pos, w') /\ world_ok sbi nb w' F' /\ trimmed n w w' F F'
  /\ overflow (i_ino (inode w')) (view (tree w')) = [] /\ fork_cut n w' F' pos.
Proof.
  intros Hn; induction F as [|e A IH] using rev_ind; [done|]; intros w x Hw _ Hov; rewrite length_app, Nat.add_1_r; cbn [truncate_fork_loop].
  pose proof (fk_shape _ _ _ _ (wk_file _ _ _ _ Hw)) as Hsh; pose proof Hsh as [S1 S2 S3 _ _ _]; change (Z.of_nat (length A)) with (lenZ A).
  pose proof (slot_used _ _ _ A [] e Hsh eq_refl) as Hslot; io (extent_at_ok w _ _ Hslot).
  destruct (Z.leb_spec n (e_iblock e)) as [Hge|Hlt].
  2: { exists (A ++ [e]), (lenZ A), w; split; [done|]; split; [done|]; split; [apply trimmed_refl|]; split; [done|]; right; eauto. }
  pose proof (fk_wf _ _ _ _ (wk_file _ _ _ _ Hw)) as Hwf; rewrite Forall_forall in Hwf; destruct (Hwf e) as (W1 & _); [rewrite !elem_of_app, list_elem_of_singleton; auto|].
  destruct (release_ok w (A ++ [e]) A e 0 Hw) as (f' & E1 & Hs & Ht & Hr); [unfold exts; rewrite Hov, app_nil_r; symmetry; apply Permutation_cons_append|lia|].
  rewrite Z.add_0_r, Z.sub_0_r in E1; io E1; io_run; set (w1 := set_inode _ (set_inode _ _)); rewrite lenZ_snoc in S2.
  assert (used_extents (inode w1) = lenZ A) as Eu1 by (cbn; rewrite <- S2; pose proof (lenZ_nonneg A); rewrite u32_small; unfold VDFS4_EXTENTS_COUNT_IN_FORK in S3; lia).
  assert (extents (inode w1) = A ++ e :: replicate (Z.to_nat (VDFS4_EXTENTS_COUNT_IN_FORK - used_extents (inode w))) zero_extent) as Es by (cbn; by rewrite S1, <- app_assoc).
  io (put_extent_ok w1 _ _ _ zero_extent Es); set (w2 := set_inode _ w1).
  assert (extents (inode w2) = A ++ replicate (Z.to_nat (VDFS4_EXTENTS_COUNT_IN_FORK - lenZ A)) zero_extent) as Es2.
  { cbn [inode w2 set_inode extents set_extents]; f_equal; rewrite <- S2; replace (Z.to_nat (VDFS4_EXTENTS_COUNT_IN_FORK - lenZ A)) with (S (Z.to_nat (VDFS4_EXTENTS_COUNT_IN_FORK - (lenZ A + 1)))) by lia; done. }
  destruct (cut_slot_ok n 0 w A e w2 f' Hw Hov) as (Hw2 & Tr2 & Hov2); auto; try lia; try done; rewrite ?Z.sub_0_r; try done; try (by change (keep 0 e) with (@nil extent_info); rewrite app_nil_r).
  change (keep 0 e) with (@nil extent_info) in *; rewrite app_nil_r in *; destruct A as [|a A].
  { exists [], 0, w2; split; [done|]; split; [done|]; split; [done|]; split; [done|]; left; split; [done|]; split; [done|]; rewrite Es2; done. }
  destruct (IH w2 (lenZ (a :: A)) Hw2 ltac:(done) Hov2) as (F' & pos & w3 & E3 & Hw3 & Tr3 & Hov3 & Hcut); exists F', pos, w3; split; [done|]; split; [done|]; split; [by eapply trimmed_trans|done].
Qed.

Definition all_below (n : Z) (w : world) (F : list extent_info) : Prop := forall i, mapped (exts w F) i -> i < n.

(** Extents before the last one of the fork end before it starts. *)
Lemma fork_below (w : world) (A : list extent_info) (e : extent_info) (n : Z) : world_ok sbi nb w (A ++ [e]) -> tree_below n w -> e_end e <= n -> all_below n w (A ++ [e]).
Proof.
  intros Hw Htb He i (q & [Hq|Hq]%elem_of_app & Hi); [|specialize (Htb q Hq); unfold holds_block in Hi; lia]; pose proof (wk_file _ _ _ _ Hw) as [[_ _ _ S4 _ _] Hwf Hse _ _].
  apply elem_of_app in Hq as [Hq|Hq]; [|apply list_elem_of_singleton in Hq as ->; unfold holds_block in Hi; lia].
  apply StronglySorted_app in S4 as (X1 & _ & _); specialize (X1 q e Hq ltac:(by apply list_elem_of_singleton)); unfold iblock_lt in X1.
  rewrite Forall_forall in Hwf; destruct (Hwf e) as (W1 & _); [rewrite !elem_of_app, list_elem_of_singleton; auto|]; destruct (Hwf q) as (W2 & _); [rewrite !elem_of_app; auto|].
  destruct (all_sep_elem _ q e Hse) as [->|[Hs _]]; [rewrite !elem_of_app; auto|rewrite !elem_of_app, list_elem_of_singleton; auto|lia|]; unfold holds_block, e_end in *; lia.
Qed.

Lemma cut_fork_ok (n k : Z) (w : world) (B : list extent_info) (q : extent_info) : world_ok sbi nb w (B ++ [q]) -> overflow (i_ino (inode w)) (view (tree w)) = [] ->
  k = n - e_iblock q -> 0 < k < block_count q ->
  exists w', (put_free_block sbi (first_block q + k) (block_count q - k) 0;; put_extent (lenZ B) (Extent (first_block q) (e_iblock q) k);;
    on_inode (sub_blocks (block_size sbi) (block_count q - k));; ret 0) w = Ok (0, w')
  /\ world_ok sbi nb w' (B ++ keep k q) /\ trimmed n w w' (B ++ [q]) (B ++ keep k q) /\ overflow (i_ino (inode w')) (view (tree w')) = [].
Proof.
  intros Hw Hov -> Hk; set (k := n - e_iblock q) in *; pose proof (fk_shape _ _ _ _ (wk_file _ _ _ _ Hw)) as [S1 S2 S3 _ _ _].
  destruct (release_ok w (B ++ [q]) B q k Hw) as (f' & E1 & Hs & Ht & Hr); [unfold exts; rewrite Hov, app_nil_r; symmetry; apply Permutation_cons_append|lia|].
  io E1; assert (extents (inode (set_fsm f' w)) = B ++ q :: replicate (Z.to_nat (VDFS4_EXTENTS_COUNT_IN_FORK - used_extents (inode w))) zero_extent) as Es by (cbn; by rewrite S1, <- app_assoc).
  assert (keep k q = [Extent (first_block q) (e_iblock q) k]) as Ek by (unfold keep; by rewrite (proj2 (Z.eqb_neq k 0)) by lia).
  io (put_extent_ok (set_fsm f' w) _ _ _ (Extent (first_block q) (e_iblock q) k) Es); io_run; eexists; split; [reflexivity|].
  apply (cut_slot_ok n k w B q _ f' Hw Hov); auto; try lia; try done; rewrite Ek, ?lenZ_snoc, <- ?app_assoc; cbn; [rewrite <- S2; apply lenZ_snoc|].
  by rewrite <- S2, lenZ_snoc.
Qed.

Lemma truncate_fork_ok (n : Z) (w : world) (F : list extent_info) : 0 <= n < 2 ^ 32 -> world_ok sbi nb w F -> tree_below n w ->
  exists F' w', truncate_fork sbi n w = Ok (0, w') /\ world_ok sbi nb w' F' /\ trimmed n w w' F F' /\ all_below n w' F'.
Proof.
  intros Hn Hw Htb; unfold truncate_fork; io_run; pose proof (wk_file _ _ _ _ Hw) as [Hsh Hwf Hse _ _]; pose proof Hsh as [S1 S2 S3 S4 S5 S6].
  destruct (Z.eqb_spec (used_extents (inode w)) 0) as [E0|N0].
  { exists F, w; split; [done|]; split; [done|]; split; [apply trimmed_refl|]; intros i (q & Hq & _); exfalso; assert (F = []) as -> by (apply length_zero_iff_nil; unfold lenZ in S2; lia).
    unfold exts in Hq; rewrite S6 in Hq by (by rewrite E0); by apply elem_of_nil in Hq. }
  destruct (last_slot _ _ _ Hsh N0) as (A & e & -> & Elast); io (extent_at_ok w _ _ Elast); rewrite Forall_forall in Hwf.
  destruct (Hwf e) as (W1 & W2 & W3 & W4 & W5); [rewrite !elem_of_app, list_elem_of_singleton; auto|]; unfold e_end in W5; rewrite (u64_small (e_iblock e + block_count e)) by lia.
  destruct (Z.leb_spec (e_iblock e + block_count e) n) as [Hle|Hgt].
  { exists (A ++ [e]), w; split; [done|]; split; [done|]; split; [apply trimmed_refl|by apply fork_below]. }
  assert (overflow (i_ino (inode w)) (view (tree w)) = []) as Hov.
  { destruct (overflow _ _) as [|q L] eqn:Eo; [done|exfalso]; assert (q ∈ overflow (i_ino (inode w)) (view (tree w))) as Hq by (rewrite Eo; apply elem_of_cons; auto).
    rewrite <- Eo in *; specialize (Htb q Hq); specialize (S5 e q ltac:(rewrite elem_of_app, list_elem_of_singleton; auto) Hq); destruct (Hwf q) as (V1 & _); [rewrite elem_of_app; auto|].
    destruct (all_sep_elem _ e q Hse) as [->|[Hs _]]; [rewrite !elem_of_app, list_elem_of_singleton; auto|rewrite !elem_of_app; auto|lia|]; unfold e_end in *; lia. }
  replace (Z.to_nat (used_extents (inode w))) with (length (A ++ [e])) by (rewrite <- S2; unfold lenZ; lia).
  destruct (fork_loop_ok n (A ++ [e]) ltac:(lia) w 0 Hw ltac:(by destruct A) Hov) as (F' & pos & w' & E1 & Hw' & Tr & Hov' & Hcut); io E1; clear - Hw' Tr Hov' Hcut Hn H3.
  destruct Hcut as [(-> & -> & Hz)|(B & q & -> & -> & Hq)].
  { io (extent_at_ok w' _ _ Hz); cbn [e_iblock block_count zero_extent]; rewrite u64_small, (proj2 (Z.ltb_ge n _)) by lia; exists [], w'; split; [done|]; split; [done|]; split; [done|].
    intros i; unfold exts; rewrite Hov'; by intros ?%mapped_nil. }
  pose proof (wk_file _ _ _ _ Hw') as [Hsh Hwf _ _ _]; io (extent_at_ok w' _ _ (slot_used _ _ _ B [] q Hsh eq_refl)); rewrite Forall_forall in Hwf.
  destruct (Hwf q) as (W1 & W2 & W3 & W4 & W5); [rewrite !elem_of_app, list_elem_of_singleton; auto|]; unfold e_end in W5; rewrite (u64_small (e_iblock q + block_count q)) by lia.
  destruct (space_bounds sbi nb _ (wk_space _ _ _ _ Hw')) as (_ & _ & _ & Hv).
  assert (tree_below n w') as Htb' by (intros p; rewrite Hov'; by intros ?%elem_of_nil).
  destruct (Z.ltb_spec n (e_iblock q + block_count q)) as [Hlt|Hge].
  2: { exists (B ++ [q]), w'; split; [done|]; split; [done|]; split; [done|by apply fork_below]. }
  rewrite (u64_small (_ - n)), (u64_small (first_block q + n)), (u64_small (_ - e_iblock q)), u32_small by lia; set (k := n - e_iblock q).
  replace (first_block q + n - e_iblock q) with (first_block q + k) by lia; replace (e_iblock q + block_count q - n) with (block_count q - k) by lia.
  replace (block_count q -32 (block_count q - k)) with k by (rewrite u32_small; lia).
  destruct (cut_fork_ok n k w' B q Hw' Hov' eq_refl ltac:(lia)) as (w2 & E2 & Hw2 & Tr2 & Hov2); exists (B ++ keep k q), w2; split; [done|]; split; [done|]; split; [by eapply trimmed_trans|].
  unfold keep in *; rewrite (proj2 (Z.eqb_neq k 0)) in * by lia; apply fork_below; [done|intros p; rewrite Hov2; by intros ?%elem_of_nil|unfold e_end; cbn; lia].
Qed.

(** ** vdfs4_truncate_blocks *)

(** The size in blocks. *)
Definition blocks_of (size : Z) : Z := (size + block_size sbi - 1) / block_size sbi.

Lemma drop_delayed_ok (n : Z) (w : world) (F : list extent_info) : world_ok sbi nb w F -> 0 <= n < 2 ^ 32 ->
  let '(freed, l) := vdfs4_truncate_runtime_blocks n 0 (runtime_extents (inode w)) in
  exists w', (on_inode (set_runtime_extents l);; vdfs4_free_reserved_space freed) w = Ok (tt, w') /\ world_ok sbi nb w' F
  /\ inode w' = set_runtime_extents l (inode w) /\ tree w' = tree w /\ answers w' = answers w /\ (forall x, taken sbi (fsm w') x <-> taken sbi (fsm w) x)
  /\ (forall x, covers l x <-> covers (runtime_extents (inode w)) x /\ x < n)
  /\ reserved_blocks_count (fsm w') - total l = reserved_blocks_count (fsm w) - total (runtime_extents (inode w)).
Proof.
  intros Hw Hn; destruct (wk_runtime _ _ _ _ Hw) as (R1 & R2 & R3 & R4); pose proof (wk_reserved _ _ _ _ Hw) as Hres; pose proof (wk_space _ _ _ _ Hw) as Hs.
  pose proof (space_bounds sbi nb _ Hs) as (B1 & B2 & B3 & B4); pose proof (total_nonneg _ R1) as Htn.
  pose proof (truncate_total n 0 (runtime_extents (inode w)) R1 ltac:(lia) ltac:(lia) Hn) as Ht; destruct (truncate_disjoint n 0 _ R1 R2 Hn) as [Hd _]; pose proof (truncate_hints n 0 _ R3) as Hh; pose proof (truncate_le n 0 _ R1 Hn) as Hle.
  destruct (vdfs4_truncate_runtime_blocks n 0 (runtime_extents (inode w))) as [freed l]; cbn in Hd, Hh, Hle; destruct Ht as (T1 & T2 & T3 & _); pose proof (total_nonneg l T2).
  io_run; destruct (free_reserved_ok sbi nb (set_inode (set_runtime_extents l (inode w)) w) freed Hs ltac:(cbn; lia)) as (f1 & E1 & Hs1 & Ht1 & Hr1); rewrite E1; cbn in Hr1.
  eexists; split; [reflexivity|]; split; [|split_and!; auto; cbn; lia]; destruct Hw as [W1 W2 W3 W4 W5 W6 W7 W8]; split; unfold exts in *; cbn; auto; [|intros x Hx; apply Ht1; auto| |lia].
  - destruct W5 as [[? ? ? ? ? ?] ? ? ? ?]; by split.
  - unfold runtime_ok; cbn; split_and!; auto; intros x Hx; apply T3 in Hx as [Hx _]; auto.
Qed.

(** What is left of the file. *)
Record truncated (n : Z) (w w' : world) (F F' : list extent_info) : Prop := {
  tc_maps : forall i b, maps (exts w' F') i b <-> maps (exts w F) i b /\ i < n;
  tc_taken : forall x, taken sbi (fsm w') x <-> taken sbi (fsm w) x /\ (owns (exts w F) x -> owns (exts w' F') x);
  tc_delayed : forall x, covers (runtime_extents (inode w')) x <-> covers (runtime_extents (inode w)) x /\ x < n;
  tc_reserved : reserved_blocks_count (fsm w') - total (runtime_extents (inode w')) = reserved_blocks_count (fsm w) - total (runtime_extents (inode w))
}.

Lemma truncate_blocks_ok (fuel : nat) (size : Z) (w : world) (F : list extent_info) :
  world_ok sbi nb w F -> calm w -> VDFS4_1ST_FILE_INO <= i_ino (inode w) -> i_mode (inode w) = S_IFREG \/ i_mode (inode w) = S_IFLNK ->
  0 <= block_size_shift sbi -> block_size sbi = 2 ^ block_size_shift sbi -> 0 <= size -> size + block_size sbi < 2 ^ 63 -> blocks_of size < 2 ^ 32 ->
  (length (overflow (i_ino (inode w)) (view (tree w))) < fuel)%nat ->
  exists F' w', vdfs4_truncate_blocks sbi fuel size w = Ok (0, w') /\ world_ok sbi nb w' F' /\ truncated (blocks_of size) w w' F F'.
Proof.
  intros Hw Hc Hino Hmode Hsh0 Hbs Hsz Hlim Hn32 Hfuel; unfold vdfs4_truncate_blocks; io_run; rewrite (proj2 (Z.ltb_ge (i_ino (inode w)) _)) by lia.
  replace (bool_decide (i_mode (inode w) = S_IFREG) || bool_decide (i_mode (inode w) = S_IFLNK)) with true by (by destruct Hmode as [-> | ->]); cbn [negb].
  pose proof (wk_size _ _ _ _ Hw) as [Hb1 Hb2]; rewrite u64_small, Z.shiftr_div_pow2, <- Hbs by lia; change ((size + block_size sbi - 1) / block_size sbi) with (blocks_of size).
  assert (0 <= blocks_of size) as Hn0 by (apply Z.div_pos; lia); set (n := blocks_of size) in *; pose proof (drop_delayed_ok n w F Hw ltac:(lia)) as Hdd.
  destruct (vdfs4_truncate_runtime_blocks n 0 (runtime_extents (inode w))) as [freed l]; destruct Hdd as (w1 & E1 & Hw1 & Ei1 & Et1 & Ea1 & Ht1 & Hcv & Hr1).
  io_run; rewrite (io_bind_ok _ _ _ w1 tt) by exact E1; assert (calm w1) as Hc1 by (destruct Hc; split; [by rewrite Ea1|by rewrite Et1]).
  assert (exts w1 F = exts w F) as Ex1 by (unfold exts; by rewrite Ei1, Et1).
  assert (exists w2, (if used_extents (inode w) =? VDFS4_EXTENTS_COUNT_IN_FORK then truncate_exttree sbi fuel n else ret 0) w1 = Ok (0, w2)
    /\ world_ok sbi nb w2 F /\ trimmed n w1 w2 F F /\ tree_below n w2) as (w2 & E2 & Hw2 & Tr2 & Htb2).
  { destruct (Z.eqb_spec (used_extents (inode w)) VDFS4_EXTENTS_COUNT_IN_FORK) as [E9|N9].
    - destruct (truncate_exttree_ok n ltac:(lia) fuel w1 F Hw1 Hc1) as (w2 & ? & ? & ? & _ & _ & ?); [by rewrite Ei1|by rewrite Ei1, Et1|eauto 10].
    - exists w1; split; [done|]; split; [done|]; split; [apply trimmed_refl|]; pose proof (fk_shape _ _ _ _ (wk_file _ _ _ _ Hw1)) as [_ _ S3 _ _ S6]; rewrite Ei1 in S3, S6; cbn in S3, S6.
      intros q; rewrite Ei1; cbn; rewrite S6 by lia; by intros ?%elem_of_nil. }
  io E2; cbn [Z.eqb negb]; destruct (truncate_fork_ok n w2 F ltac:(lia) Hw2 Htb2) as (F' & w3 & E3 & Hw3 & Tr3 & Hab); exists F', w3; split; [done|]; split; [done|].
  pose proof (trimmed_trans n w1 w2 w3 F F F' Tr2 Tr3) as [T1 T2 T3 (_ & _ & _ & T4) T5 _]; rewrite Ex1 in *; split.
  - intros i b; split; [intros Hm; split; [auto|apply Hab, mapped_maps; eauto]|intros [? ?]; auto].
  - intros x; by rewrite T3, Ht1.
  - intros x; rewrite T4, Ei1; cbn; apply Hcv.
  - rewrite T4, T5, Ei1; cbn; exact Hr1.
Qed.

End Trunc.
