(* ===== verification/FilePlain.v ===== *)
(** An extents tree and a metadata area that keep the promises the block map of
    files relies on, and a small file on a small volume. *)

From Stdlib Require Import ZArith Lia Bool List.
From stdpp Require Import base list gmap sets sorting.
From S2P Require Import Prelude RuntimeExtents Bitmap Count FindBit Rbtree FsmTree FsmSpace Fsm FsmCounters FsmBuild FsmAlloc FsmRebuild FsmTheorems FileSpace FileMap FileRep.

Open Scope Z_scope.

(** ** A map as the tree

    [fails] tells of each operation whether the environment lets it fail. *)
Module PlainTree.

Record plain : Type := Plain { recs : xmap; fails : list bool }.

#[global] Instance kle_dec (a b : Z * Z) : Decision (kle a b).
Proof. unfold kle; apply _. Defined.

Definition failing (t : plain) : bool := default false (head (fails t)).
Definition next (t : plain) : plain := Plain (recs t) (tail (fails t)).

(** The greatest key of a list of records not above [k]. *)
Fixpoint floor_in (k : Z * Z) (l : list ((Z * Z) * (Z * Z))) : option ((Z * Z) * (Z * Z)) :=
  match l with
  | [] => None
  | p :: l =>
      if decide (kle p.1 k) then
        match floor_in k l with
        | Some q => if decide (kle p.1 q.1) then Some q else Some p
        | None => Some p
        end
      else floor_in k l
  end.

Definition to_rec (p : (Z * Z) * (Z * Z)) : exttree_record := Xrec p.1.1 p.1.2 p.2.1 p.2.2.

Definition find (k : Z * Z) (t : plain) : res exttree_record * plain :=
  (if failing t then Err (- EIO)
   else match floor_in k (map_to_list (recs t)) with Some p => Val (to_rec p) | None => Err (- ENOENT) end, next t).

Definition insert (r : exttree_record) (t : plain) : Z * plain :=
  if failing t then (- ENOSPC, next t)
  else
    match recs t !! x_key r with
    | Some _ => (- EEXIST, next t)
    | None =>
        match floor_in (x_key r) (map_to_list (recs t)) with
        | None => (- ENOENT, next t)
        | Some _ => (0, Plain (<[x_key r := x_val r]> (recs t)) (tail (fails t)))
        end
    end.

Definition remove (k : Z * Z) (t : plain) : Z * plain :=
  if failing t then (- ENOMEM, next t)
  else match recs t !! k with Some _ => (0, Plain (delete k (recs t)) (tail (fails t))) | None => (- ENOENT, next t) end.

Definition relength (k : Z * Z) (l : Z) (t : plain) : plain :=
  match recs t !! k with Some (b, _) => Plain (<[k := (b, l)]> (recs t)) (fails t) | None => t end.

#[global] Instance plain_tree : ExtTree plain := {| btree_find := find; btree_insert := insert; btree_remove := remove; set_length := relength |}.

Lemma kle_trans (a b c : Z * Z) : kle a b -> kle b c -> kle a c.
Proof. unfold kle; lia. Qed.

Lemma kle_total (a b : Z * Z) : ~ kle a b -> kle b a.
Proof. unfold kle; lia. Qed.

Lemma floor_in_spec (k : Z * Z) (l : list ((Z * Z) * (Z * Z))) :
  match floor_in k l with
  | Some p => p ∈ l /\ kle p.1 k /\ forall q, q ∈ l -> kle q.1 k -> kle q.1 p.1
  | None => forall q, q ∈ l -> ~ kle q.1 k
  end.
Proof.
  induction l as [|p l IH]; cbn; [by intros q ?%elem_of_nil|]; destruct (decide (kle p.1 k)) as [Hp|Hp].
  - destruct (floor_in k l) as [q|].
    + destruct IH as (Hq & Hle & Hmax); destruct (decide (kle p.1 q.1)) as [Hpq|Hpq]; rewrite elem_of_cons; split; auto; split; auto; intros x; rewrite elem_of_cons; intros [->|Hx] Hk; auto.
      * unfold kle; lia.
      * eapply kle_trans; [by apply Hmax|by apply kle_total].
    + split; [apply elem_of_cons; auto|]; split; [done|]; intros x; rewrite elem_of_cons; intros [->|Hx] Hk; [unfold kle; lia|by destruct (IH x)].
  - destruct (floor_in k l) as [q|].
    + destruct IH as (Hq & Hle & Hmax); split; [apply elem_of_cons; auto|]; split; [done|]; intros x; rewrite elem_of_cons; intros [->|Hx]; [done|auto].
    + intros x; rewrite elem_of_cons; intros [->|Hx]; [done|auto].
Qed.

Lemma floor_map (k : Z * Z) (m : xmap) :
  match floor_in k (map_to_list m) with Some p => is_floor k m (to_rec p) | None => no_floor k m end.
Proof.
  pose proof (floor_in_spec k (map_to_list m)) as Hs; destruct (floor_in k (map_to_list m)) as [[[a b] [c d]]|].
  - destruct Hs as (Hin & Hle & Hmax); apply elem_of_map_to_list in Hin; split; [done|]; split; [done|]; intros q [v Hv] Hq; by apply (Hmax (q, v)); [apply elem_of_map_to_list|].
  - intros q [v Hv] Hq; by apply (Hs (q, v)); [apply elem_of_map_to_list|].
Qed.

#[global] Instance plain_tree_laws : ExtTreeLaws plain.
Proof.
  refine {| tree_ok := fun _ => True; view := recs; steady := fun t => fails t = [] |}; cbn; unfold find, insert, remove, relength, failing, next.
  - intros k t _; split; [done|]; split; [done|]; split; [by intros ->|]; pose proof (floor_map k (recs t)) as Hf; destruct (fails t) as [|[|] fs]; cbn;
      try (destruct (floor_in k (map_to_list (recs t))); [exact Hf|split_and!; auto; done]); split_and!; done.
  - intros r t _; pose proof (floor_map (x_key r) (recs t)) as Hf; destruct (fails t) as [|[|] fs] eqn:Ef; cbn.
    2: { split; [done|]; split; [done|]; right; done. }
    all: destruct (recs t !! x_key r) eqn:Ek; [split; [done|]; split; [done|]; right; split_and!; eauto; done|].
    all: destruct (floor_in (x_key r) (map_to_list (recs t))); (split; [done|]); (split; [done|]); [by left|right; split_and!; auto; done].
  - intros k t _; destruct (fails t) as [|[|] fs] eqn:Ef; cbn.
    2: { split; [done|]; split; [done|]; right; done. }
    all: destruct (recs t !! k) eqn:Ek; (split; [done|]); (split; [done|]); [by left|right; split_and!; auto; done].
  - intros k b n l t _ Hk; rewrite Hk; done.
Defined.

End PlainTree.

(** ** A metadata area

    Its state are the answers of vdfs4_is_enospc; the delayed commit is that of
    the free-space manager, on a device without discard. *)
Module PlainArea.

Section Area.
Context `{RbtreeLaws} (debug : bool) (sbi : sb_info) (nb : Z).

Definition flush (m : list bool) (f : fsm_info) : run (list bool * fsm_info) :=
  '(f, _) ← vdfs4_commit_free_space debug sbi (fun _ _ => - EOPNOTSUPP) f; Ok (tail m, f).

#[local] Instance plain_area : MetaArea (list bool) :=
  {| vdfs4_is_enospc := fun _ m => default false (head m); vdfs4_check_meta_space := fun m f => Ok (0, m, f); flush_delayed_commit := flush |}.

#[local] Instance plain_area_laws : MetaAreaLaws (list bool) sbi nb.
Proof.
  split; intros m f Hs.
  - destruct (commit_space debug sbi nb (fun _ _ => - EOPNOTSUPP) f Hs ltac:(by right)) as (f' & log & E & Hs' & Ht & Hr & _); exists (tail m), f'; split; [|done]; cbn; unfold flush; by rewrite E.
  - exists m, f; split; [done|]; auto.
Qed.

End Area.

End PlainArea.

(** ** A file on a small volume

    40 blocks, of which block 0, the ten extents of the file and nothing else are
    in use: nine extents of one block at the even blocks 2 to 18 in the fork, one
    of two blocks at 20 in the tree; logical blocks 20 and 21 are reserved. *)

Definition map_sbi : sb_info := SbInfo 40 32 5 7 5 8 3 3 2 true.

Definition map_blank : fsm_info :=
  Fsm ∅ [] Leaf [] Leaf [] 0 0 0 0 0 (replicate 12 0 ++ [85; 85; 53] ++ replicate 17 0) 0 0 (replicate 6 0) false [].

Lemma map_volume : volume_ok map_sbi 1 map_blank.
Proof.
  split; [split; [split|..]|..]; try (vm_compute; repeat split; discriminate || reflexivity).
  intros x Hx; cbn; rewrite Z.shiftr_div_pow2 by lia; change (2 ^ 3) with 8; unfold lenZ; cbn.
  apply Z.div_lt_upper_bound; cbn in Hx; lia.
Qed.

Definition fork9 : list extent_info := map (fun i => Extent (2 + 2 * i) i 1) (seqZ 0 9).

Definition map_inode : inode_info := Inode 9 S_IFREG 352 11 fork9 9 [Rext 20 0 2] 352 false.

Definition map_recs : xmap := {[(0, 0) := (0, 0); (9, 9) := (20, 2)]}.

Definition map_tree : PlainTree.plain := PlainTree.Plain map_recs [].

Definition map_world (f : fsm_info) : world PlainTree.plain (list bool) := World map_inode f map_tree [] [].

(** Two blocks reserved. *)
Definition reserve2 (f : fsm_info) : fsm_info := set_reserved_blocks_count 2 (set_free_blocks_count 26 f).

Lemma map_space :
  exists f, @vdfs4_fsm_build_trees Plain.plain_rbtree PlainFind.plain_find true map_sbi map_blank = Ok f
  /\ space_ok map_sbi 1 (reserve2 f) /\ data f = data map_blank /\ next_free_blocks f = 0 /\ reserved_blocks_count f = 0.
Proof.
  destruct (@build_trees_spec _ Plain.plain_rbtree_laws _ PlainFind.plain_find_laws true map_sbi 1 map_blank)
    as (f & fa & E & Hi & Hd & Hr & Hf & _ & Ha); [by repeat split|exact map_volume|].
  assert (free_blocks_count f = 28) as Hf28 by (rewrite Hf; vm_compute; reflexivity).
  exists f; split; [exact E|]; assert (space_ok map_sbi 1 f) as Hs by (split; [by apply Ha|by exists fa, []]).
  destruct (move_space map_sbi 1 f (- 2) Hs) as [Hs' _]; [rewrite Hr, Hf28; lia|]; rewrite Hr, Hf28 in Hs'; split; [exact Hs'|]; split; [exact Hd|]; split; [|exact Hr].
  pose proof (fo_next _ _ _ _ (fi_ok _ _ _ _ _ Hi)) as Nx; assert (match @vdfs4_fsm_build_trees Plain.plain_rbtree PlainFind.plain_find true map_sbi map_blank with
    | Ok g => next_free_blocks g = 0 | _ => False end) as Hn by (vm_compute; reflexivity).
  by rewrite E in Hn.
Qed.

#[local] Instance sep_dec (a b : extent_info) : Decision (sep a b).
Proof. unfold sep; apply _. Defined.

#[local] Instance all_sep_dec (E : list extent_info) : Decision (all_sep E).
Proof. induction E as [|e E IH]; cbn; apply _. Defined.

Lemma map_overflow : overflow 9 map_recs = [Extent 20 9 2].
Proof. vm_compute; reflexivity. Qed.

Lemma map_world_ok (f : fsm_info) : space_ok map_sbi 1 (reserve2 f) -> data f = data map_blank -> world_ok map_sbi 1 (map_world (reserve2 f)) fork9.
Proof.
  intros Hs Hd; assert (exts (map_world (reserve2 f)) fork9 = fork9 ++ [Extent 20 9 2]) as Ex by (unfold exts; cbn [inode map_world i_ino map_inode tree view PlainTree.plain_tree_laws PlainTree.recs map_tree]; by rewrite map_overflow).
  split; auto.
  - exact I.
  - exists (0, 0); split; [vm_compute; eauto|done].
  - done.
  - split; cbn [inode map_world i_ino map_inode tree view PlainTree.plain_tree_laws PlainTree.recs map_tree]; rewrite ?map_overflow.
    + split; cbn [inode map_world i_ino map_inode tree view PlainTree.plain_tree_laws PlainTree.recs map_tree used_extents extents]; rewrite ?map_overflow; try done.
      * repeat constructor.
      * intros a b Ha ->%list_elem_of_singleton; cbn; unfold fork9 in Ha; apply list_elem_of_fmap in Ha as (i & -> & Hi%elem_of_seqZ); cbn; lia.
    + repeat constructor; done.
    + apply (bool_decide_unpack _); vm_compute; exact I.
    + reflexivity.
    + reflexivity.
  - rewrite Ex; intros x (e & He & Hx); revert x Hx; revert e He.
    assert (Forall (fun e => forall x, first_block e <= x < first_block e + block_count e -> taken map_sbi (fsm (map_world (reserve2 f))) x) (fork9 ++ [Extent 20 9 2])) as HF; [|exact (proj1 (Forall_forall _ _) HF)].
    assert (forall x, used map_sbi (data map_blank) x = true -> taken map_sbi (fsm (map_world (reserve2 f))) x) as Ht
      by (intros x Hx; unfold taken; cbn [fsm map_world reserve2 set_reserved_blocks_count set_free_blocks_count data]; by rewrite Hd).
    apply Forall_forall; intros e [He|He]%elem_of_app x Hx; apply Ht.
    + unfold fork9 in He; apply list_elem_of_fmap in He as (i & -> & Hi%elem_of_seqZ); cbn in Hx; replace x with (2 + 2 * i) by lia.
      assert (forallb (fun i => used map_sbi (data map_blank) (2 + 2 * i)) (seqZ 0 9) = true) as HF by (vm_compute; reflexivity).
      rewrite forallb_forall in HF; apply HF; apply list_elem_of_In, elem_of_seqZ; lia.
    + apply list_elem_of_singleton in He as ->; cbn in Hx; assert (x = 20 \/ x = 21) as [-> | ->] by lia; vm_compute; reflexivity.
  - rewrite Ex; split; [apply Forall_singleton; unfold ext_ok; cbn; lia|]; split; [split; [constructor|done]|]; split; [apply Forall_singleton; cbn; lia|].
    intros x Hx; cbn in Hx; rewrite rt_covers_cons, rt_covers_nil in Hx; destruct Hx as [Hx|[]]; unfold in_ext in Hx; cbn in Hx; intros (e & [He|He]%elem_of_app & Hi).
    + unfold fork9 in He; apply list_elem_of_fmap in He as (i & -> & Hin%elem_of_seqZ); unfold holds_block, e_end in Hi; cbn in Hi; lia.
    + apply list_elem_of_singleton in He as ->; unfold holds_block, e_end in Hi; cbn in Hi; lia.
  - cbn; lia.
Qed.
