(* ===== verification/FileTheorems.v ===== *)
(** The theorems about the block map of files. *)

From Stdlib Require Import ZArith Lia Bool List.
From stdpp Require Import base list gmap sets sorting.
From S2P Require Import Prelude RuntimeExtents Bitmap Count FindBit Rbtree FsmTree FsmSpace Fsm FsmCounters FsmBuild FsmAlloc FsmRebuild FsmTheorems FileSpace FileMap FileRep FileLookup FileInsert FileAlloc FileFlush FileTrunc FilePlain.

Open Scope Z_scope.

(** ** A removal that fails

    truncate_exttree frees the blocks of the last extent, then removes its
    record, and does not look at the result. *)

Section Fault.
Context {T M : Type} `{ExtTreeLaws T} `{MetaArea M} `{RbtreeLaws}.
Context (sbi : sb_info) (nb : Z).

#[local] Abbreviation vol := (volume_blocks_count sbi).
#[local] Abbreviation world := (world T M).

(** The search and the removal, each after the allocation of its key. *)
Lemma search_answer (w : world) (e : extent_info) : tree_ok (tree w) -> steady (tree w) -> default 0 (head (answers w)) = 0 ->
  overflow (i_ino (inode w)) (view (tree w)) = [e] -> e_iblock e <= IBLOCK_MAX_NUMBER ->
  exists t, vdfs4_find_last_extent (i_ino (inode w)) w = Ok (Val (Xrec (i_ino (inode w)) (e_iblock e) (first_block e) (block_count e)), World (inode w) (fsm w) t (area w) (tail (answers w)))
  /\ tree_ok t /\ steady t /\ view t = view (tree w).
Proof.
  intros Ht Hst Ha Ho Hle; unfold vdfs4_find_last_extent, vdfs4_exttree_find_record_strict_obj, vdfs4_exttree_find_record_nonstrict, vdfs4_get_exttree_key.
  assert (ask w = Ok (0, World (inode w) (fsm w) (tree w) (area w) (tail (answers w)))) as E1 by (unfold ask; by rewrite Ha).
  pose proof (find_law (i_ino (inode w), IBLOCK_MAX_NUMBER) (tree w) Ht) as HF; destruct (btree_find (i_ino (inode w), IBLOCK_MAX_NUMBER) (tree w)) as [r t] eqn:Ef.
  destruct HF as (Ht' & Ev & Hs & Hr); exists t; split; [|auto].
  assert (view (tree w) !! (i_ino (inode w), e_iblock e) = Some (first_block e, block_count e)) as Hin by (apply overflow_elem; rewrite Ho; by apply list_elem_of_singleton).
  assert (r = Val (Xrec (i_ino (inode w)) (e_iblock e) (first_block e) (block_count e))) as ->.
  { destruct r as [c|r]; [exfalso; destruct Hr as (_ & Hno & Hc); apply (Hno (Hc Hst) (i_ino (inode w), e_iblock e)); [by rewrite Hin|right; cbn; lia]|].
    destruct Hr as (Hl & Hk & Hmax); specialize (Hmax (i_ino (inode w), e_iblock e) ltac:(by rewrite Hin) ltac:(right; cbn; lia)); unfold kle, x_key in *; cbn in *.
    assert (Extent (x_begin r) (x_iblock r) (x_length r) ∈ overflow (i_ino (inode w)) (view (tree w))) as Hx by (apply overflow_elem; cbn; replace (i_ino (inode w)) with (x_object_id r) by lia; exact Hl).
    rewrite Ho in Hx; apply list_elem_of_singleton in Hx; subst e; destruct r; cbn in *; f_equal; f_equal; lia. }
  unfold mbind, io_bind; rewrite E1; cbn; unfold on_tree; cbn; rewrite Ef; cbn; by rewrite Z.eqb_refl.
Qed.

(** Blocks that are clear already are freed without a trace. *)
Lemma put_clear_ok (f : fsm_info) (b n : Z) : space_ok sbi nb f -> in_volume sbi b n -> ~ taken sbi f b ->
  exists f', vdfs4_fsm_put_free_block sbi b n 0 f = Ok f' /\ forall x, taken sbi f' x <-> taken sbi f x /\ ~ b <= x < b + n.
Proof.
  intros (_ & fa & na & Hi) (V1 & V2 & V3) Hb; destruct (put_clear_block_skipped sbi nb f fa na b n 0 b Hi V1 V2 V3) as (m & dirt & E & Hu); [lia|unfold taken in Hb; by destruct (used sbi (data f) b)|].
  eexists; split; [exact E|]; intros x; unfold taken; cbn; rewrite Hu; unfold upd; destruct (Z.leb_spec b x), (Z.ltb_spec x (b + n)); cbn [andb]; intuition lia.
Qed.

(** An inode without overflow extents: the loop ends. *)
Lemma search_none (fuel : nat) (n : Z) (w : world) : tree_ok (tree w) -> calm w -> (forall m : M, vdfs4_is_enospc 25 m = false) ->
  overflow (i_ino (inode w)) (view (tree w)) = [] -> exists w', truncate_exttree sbi (S fuel) n w = Ok (0, w') /\ inode w' = inode w /\ view (tree w') = view (tree w) /\ fsm w' = fsm w.
Proof.
  intros Ht Hc Hfull Ho; cbn [truncate_exttree]; io_run; rewrite Hfull; io_run.
  destruct (find_strict_ok (i_ino (inode w)) IBLOCK_MAX_NUMBER w Ht) as (r & w' & E & (Ei & Ef & _ & _ & Ev & _) & Hr); unfold vdfs4_find_last_extent; io E; exists w'; destruct r as [e|r].
  - destruct Hr as (_ & _ & He); by rewrite (He Hc).
  - exfalso; destruct Hr as (Hid & Hl & _); assert (Extent (x_begin r) (x_iblock r) (x_length r) ∈ overflow (i_ino (inode w)) (view (tree w))) as Hx by (apply overflow_elem; cbn; rewrite <- Hid; exact Hl).
    rewrite Ho in Hx; by apply elem_of_nil in Hx.
Qed.

(** The blocks in use, those of [e] apart. *)
Definition without (e : extent_info) (f f' : fsm_info) : Prop := forall x, taken sbi f' x <-> taken sbi f x /\ ~ first_block e <= x < first_block e + block_count e.

(** The first turn: the blocks are freed and subtracted, the record stays. *)
Lemma removal_fails (fuel : nat) (n : Z) (w : world) (F : list extent_info) (e : extent_info) :
  world_ok sbi nb w F -> overflow (i_ino (inode w)) (view (tree w)) = [e] -> n <= e_iblock e -> steady (tree w) ->
  answers w = [0; 1] -> (forall m : M, vdfs4_is_enospc 25 m = false) ->
  exists w1, truncate_exttree sbi (S fuel) n w = truncate_exttree sbi fuel n w1 /\ calm w1 /\ tree_ok (tree w1) /\ view (tree w1) = view (tree w)
  /\ space_ok sbi nb (fsm w1) /\ without e (fsm w) (fsm w1) /\ inode w1 = sub_blocks (block_size sbi) (block_count e) (inode w).
Proof.
  intros Hw Ho Hn Hst Ha Hfull; pose proof (wk_file _ _ _ _ Hw) as [_ Hwf _ _ _]; rewrite Ho in Hwf; apply Forall_app in Hwf as [_ Hwf]; rewrite Forall_singleton in Hwf; destruct Hwf as (W1 & W2 & W3 & W4 & W5).
  assert (e_iblock e <= IBLOCK_MAX_NUMBER) as Hib by (unfold IBLOCK_MAX_NUMBER, e_end in *; lia).
  cbn [truncate_exttree]; io_run; rewrite Hfull; io_run; destruct (search_answer w e (wk_tree _ _ _ _ Hw) Hst ltac:(by rewrite Ha) Ho Hib) as (t1 & E1 & Ht1 & Hs1 & Ev1); io E1; rewrite Ha in *.
  cbn [x_iblock x_begin x_length]; rewrite (proj2 (Z.leb_le n (e_iblock e)) Hn); set (w1 := World _ _ _ _ _).
  assert (world_ok sbi nb w1 F) as Hw1 by (apply (framed_ok sbi nb w); [|done]; split_and!; auto; intros [Hx _]; rewrite Ha in Hx; done).
  destruct (release_ok sbi nb w1 F F e 0 Hw1) as (f1 & E2 & Hsp & Htk & _); [unfold exts; cbn; rewrite Ev1, Ho; symmetry; apply Permutation_cons_append|lia|]; rewrite Z.add_0_r, Z.sub_0_r in E2; io E2; io_run.
  set (w2 := World (sub_blocks (block_size sbi) (block_count e) (inode w)) f1 t1 (area w) []); rewrite (io_bind_ok _ _ _ w2 (- ENOMEM)) by done; exists w2.
  split; [done|]; split; [by split|]; do 3 (split; [done|]); split; [|done]; intros x; specialize (Htk x); rewrite Z.add_0_r in Htk; exact Htk.
Qed.

(** The next turn: the record is found again, its blocks are freed and subtracted again,
    and it is removed. *)
Lemma removed_again (n : Z) (w : world) (e : extent_info) :
  tree_ok (tree w) -> calm w -> space_ok sbi nb (fsm w) -> overflow (i_ino (inode w)) (view (tree w)) = [e] -> n <= e_iblock e -> e_iblock e <= IBLOCK_MAX_NUMBER ->
  in_volume sbi (first_block e) (block_count e) -> ~ taken sbi (fsm w) (first_block e) -> (forall m : M, vdfs4_is_enospc 25 m = false) ->
  exists w', truncate_exttree sbi 2 n w = Ok (0, w') /\ overflow (i_ino (inode w')) (view (tree w')) = [] /\ without e (fsm w) (fsm w')
  /\ inode w' = sub_blocks (block_size sbi) (block_count e) (inode w).
Proof.
  intros Ht [Ha Hst] Hsp Ho Hn Hib Hv Htk Hfull.
  cbn [truncate_exttree]; io_run; rewrite Hfull; io_run; destruct (search_answer w e Ht Hst ltac:(by rewrite Ha) Ho Hib) as (t2 & E3 & Ht2 & Hs2 & Ev2); io E3; rewrite Ha in *.
  cbn [x_iblock x_begin x_length]; rewrite (proj2 (Z.leb_le n (e_iblock e)) Hn); destruct (put_clear_ok (fsm w) (first_block e) (block_count e) Hsp Hv Htk) as (f3 & E4 & Htk3).
  io (put_block_ok sbi (World (inode w) (fsm w) t2 (area w) []) _ _ _ _ E4); io_run; set (w3 := set_inode _ _).
  assert (e ∈ overflow (i_ino (inode w)) (view (tree w))) as He by (rewrite Ho; by apply list_elem_of_singleton).
  assert (is_Some (view (tree w3) !! (i_ino (inode w3), e_iblock e))) as Hin by (cbn; rewrite Ev2; apply overflow_elem in He; rewrite He; eauto).
  destruct (remove_ok w3 (e_iblock e) Ht2 ltac:(by split) Hin) as (w4 & E5 & Ei4 & Ef4 & _ & Ht4 & Ev4 & Hc4); change (i_ino (inode w)) with (i_ino (inode w3)); io E5.
  assert (overflow (i_ino (inode w4)) (view (tree w4)) = []) as Ho4.
  { rewrite Ei4, Ev4; cbn; rewrite Ev2; pose proof (Permutation_length (overflow_delete _ _ _ He)) as Hl; rewrite Ho in Hl; cbn in Hl; by apply length_zero_iff_nil; lia. }
  destruct (search_none 0 n w4 Ht4 Hc4 Hfull Ho4) as (w5 & E6 & Ei5 & Ev5 & Ef5); exists w5; split; [exact E6|]; rewrite Ei5, Ev5, Ef5; split; [done|]; rewrite Ei4, Ef4; split; [exact Htk3|done].
Qed.

Lemma removal_lost (n : Z) (w : world) (F : list extent_info) (e : extent_info) :
  world_ok sbi nb w F -> overflow (i_ino (inode w)) (view (tree w)) = [e] -> n <= e_iblock e -> steady (tree w) ->
  answers w = [0; 1] -> (forall m : M, vdfs4_is_enospc 25 m = false) ->
  exists w1 w', truncate_exttree sbi 3 n w = truncate_exttree sbi 2 n w1
  /\ overflow (i_ino (inode w1)) (view (tree w1)) = [e] /\ without e (fsm w) (fsm w1) /\ total_block_count (inode w1) = u32 (etotal F)
  /\ truncate_exttree sbi 2 n w1 = Ok (0, w')
  /\ overflow (i_ino (inode w')) (view (tree w')) = [] /\ without e (fsm w) (fsm w') /\ extents (inode w') = extents (inode w)
  /\ total_block_count (inode w') = u32 (etotal F - block_count e).
Proof.
  intros Hw Ho Hn Hst Ha Hfull; destruct (removal_fails 2 n w F e Hw Ho Hn Hst Ha Hfull) as (w1 & E1 & Hc1 & Ht1 & Ev1 & Hs1 & Hu1 & Ei1).
  pose proof (wk_file _ _ _ _ Hw) as [_ Hwf _ Htot _]; rewrite Ho in Hwf, Htot; apply Forall_app in Hwf as [_ Hwf]; rewrite Forall_singleton in Hwf; destruct Hwf as (W1 & W2 & W3 & W4 & W5).
  assert (e_iblock e <= IBLOCK_MAX_NUMBER) as Hib by (unfold IBLOCK_MAX_NUMBER, e_end in *; lia).
  assert (overflow (i_ino (inode w1)) (view (tree w1)) = [e]) as Ho1 by (rewrite Ev1, Ei1; exact Ho).
  destruct (removed_again n w1 e Ht1 Hc1 Hs1 Ho1 Hn Hib) as (w' & E2 & Ho2 & Hu2 & Ei2); [unfold in_volume; lia|intros Hx; apply Hu1 in Hx as [_ Hx]; lia|done|].
  exists w1, w'; split; [exact E1|]; split; [exact Ho1|]; split; [exact Hu1|]; rewrite Ei2, Ei1; split; [|split; [exact E2|]].
  - cbn; rewrite Htot, etotal_app; cbn; f_equal; lia.
  - split; [by rewrite Ei2, Ei1 in Ho2|]; split; [intros x; pose proof (Hu2 x); pose proof (Hu1 x); tauto|]; split; [done|].
    cbn; rewrite Htot, etotal_app; cbn; unfold u32; rewrite Zminus_mod_idemp_l; f_equal; lia.
Qed.

End Fault.

(** ** The theorems *)

Section Map.
Context {T M : Type} `{ExtTreeLaws T} `{MetaArea M} `{RbtreeLaws} `{FindBitLaws}.
Context (debug : bool) (sbi : sb_info) (nb bdev_blocks : Z).

#[local] Abbreviation world := (world T M).

(** C20: A lookup does not change the file. Without an error it returns the
    extent that holds the logical block if there is one, in the fork or in the
    tree; for a block that is not mapped it returns an extent with first block 0
    and, as a hint, the physical block after that of the previous logical block,
    or 0. It fails only if memory or the tree does. *)
Theorem iblock_extent_correct (w : world) (F : list extent_info) (ib : Z) : world_ok sbi nb w F -> 0 <= ib ->
  exists e r h w', vdfs4_get_iblock_extent ib zero_extent 0 w = Ok ((e, r, h), w') /\ framed w w'
  /\ ((e < 0 /\ ~ calm w) \/ (e = 0 /\ lookup_answer (exts w F) ib r h)).
Proof. apply get_extent_ok. Qed.



(** C19: Preparing a delayed write shows a block that is mapped, and otherwise
    reserves one block of the volume and adds the logical block to the runtime
    extents of the inode, which stay sorted and merged. When it fails, the
    reservation is given back; it fails only for lack of space, for a block that
    is delayed already, or for lack of memory. The map of the file is the same in
    all cases. *)
Theorem get_block_prep_da_correct (Hmeta : MetaAreaLaws M sbi nb) (w : world) (F : list extent_info) (ib : Z) (bh : buffer_head) :
  volume_blocks_count sbi <= bdev_blocks -> world_ok sbi nb w F -> wf (runtime_extents (inode w)) -> block_ok ib ->
  prep_result sbi nb w F ib bh (vdfs4_get_block_prep_da sbi bdev_blocks ib bh true w).
Proof. intros Hdev; by apply prep_ok. Qed.


(** C15: Truncation to [size] bytes, with no failure of memory, tree or device,
    ends with code 0; the file maps exactly the blocks below the new end that it
    mapped before, in the same places, the others are no longer in use, delayed
    blocks past the end are dropped and their reservations given back, and the
    file and the volume stay consistent. One turn of the loop for every extent in
    the tree and one more are enough. *)
Theorem truncate_blocks_correct (Hmeta : MetaAreaLaws M sbi nb) (fuel : nat) (size : Z) (w : world) (F : list extent_info) :
  world_ok sbi nb w F -> calm w -> VDFS4_1ST_FILE_INO <= i_ino (inode w) -> i_mode (inode w) = S_IFREG \/ i_mode (inode w) = S_IFLNK ->
  0 <= block_size_shift sbi -> block_size sbi = 2 ^ block_size_shift sbi -> 0 <= size -> size + block_size sbi < 2 ^ 63 -> blocks_of sbi size < 2 ^ 32 ->
  (length (overflow (i_ino (inode w)) (view (tree w))) < fuel)%nat ->
  exists F' w', vdfs4_truncate_blocks sbi fuel size w = Ok (0, w') /\ world_ok sbi nb w' F' /\ truncated sbi (blocks_of sbi size) w w' F F'.
Proof. by apply truncate_blocks_ok. Qed.

(** C39: The result of the removal of an extent from the tree is not looked at. Take a
    file with one extent in the tree, past the new end, in a metadata area with room,
    and let memory for the key of the removal lack. After the first turn of truncate_exttree the blocks of the extent
    are no longer in use and are subtracted from the count of the file while its record
    stays in the tree: it names blocks that anyone may be given. The next turn finds the
    record, frees the blocks again and subtracts them once more; now it is removed, the
    code is 0, and the file counts fewer blocks than its extents have. *)
Theorem truncate_removal_lost (n : Z) (w : world) (F : list extent_info) (e : extent_info) :
  world_ok sbi nb w F -> overflow (i_ino (inode w)) (view (tree w)) = [e] -> n <= e_iblock e -> steady (tree w) ->
  answers w = [0; 1] -> (forall m : M, vdfs4_is_enospc 25 m = false) ->
  exists w1 w', truncate_exttree sbi 3 n w = truncate_exttree sbi 2 n w1
  /\ overflow (i_ino (inode w1)) (view (tree w1)) = [e] /\ without sbi e (fsm w) (fsm w1) /\ total_block_count (inode w1) = u32 (etotal F)
  /\ truncate_exttree sbi 2 n w1 = Ok (0, w')
  /\ overflow (i_ino (inode w')) (view (tree w')) = [] /\ without sbi e (fsm w) (fsm w') /\ extents (inode w') = extents (inode w)
  /\ total_block_count (inode w') = u32 (etotal F - block_count e).
Proof. apply (removal_lost sbi nb). Qed.

End Map.

(** ** Witnesses

    The file of FilePlain on its volume of 40 blocks. *)

Section Witness.

#[local] Existing Instances Plain.plain_rbtree PlainFind.plain_find PlainTree.plain_tree.
#[local] Existing Instances Plain.plain_rbtree_laws PlainFind.plain_find_laws PlainTree.plain_tree_laws.
#[local] Instance area_here : MetaArea (list bool) := PlainArea.plain_area true map_sbi.

Lemma area_keeps : MetaAreaLaws (list bool) map_sbi 1.
Proof. exact (PlainArea.plain_area_laws true map_sbi 1). Qed.

(** The small file with its volume. *)
Definition stage (w : world PlainTree.plain (list bool)) : Prop :=
  exists f, w = map_world (reserve2 f) /\ next_free_blocks (fsm w) = 0 /\ (forall x, taken map_sbi (fsm w) x <-> used map_sbi (data map_blank) x = true).

Lemma stage_set : exists w, stage w /\ world_ok map_sbi 1 w fork9.
Proof.
  destruct map_space as (f & _ & Hs & Hd & Hn & _); exists (map_world (reserve2 f)); split; [|by apply map_world_ok].
  exists f; split; [done|]; split; [exact Hn|]; intros x; unfold taken; cbn [fsm map_world reserve2 set_reserved_blocks_count set_free_blocks_count data]; by rewrite Hd.
Qed.



(** Block 10 is the second of the extent in the tree. *)
Lemma iblock_extent_witness : exists w, stage w /\ exists e r h w', vdfs4_get_iblock_extent 10 zero_extent 0 w = Ok ((e, r, h), w') /\ framed w w'
  /\ ((e < 0 /\ ~ calm w) \/ (e = 0 /\ lookup_answer (exts w fork9) 10 r h)).
Proof. destruct stage_set as (w & Hst & Hw); exists w; split; [exact Hst|]; apply (iblock_extent_correct map_sbi 1); [exact Hw|lia]. Defined.



Lemma get_block_prep_da_witness : exists w, stage w /\
  prep_result map_sbi 1 w fork9 22 (Bh 32 0 false false false) (vdfs4_get_block_prep_da map_sbi 40 22 (Bh 32 0 false false false) true w).
Proof.
  destruct stage_set as (w & Hst & Hw); exists w; split; [exact Hst|]; apply (get_block_prep_da_correct map_sbi 1 40 area_keeps); [cbn; lia|exact Hw| |unfold block_ok; lia].
  destruct Hst as (f & -> & _); cbn; split; [apply Forall_singleton; unfold ext_ok; cbn; lia|repeat constructor].
Defined.


(** Down to 70 bytes, three blocks. *)
Lemma truncate_blocks_witness : exists w, stage w /\
  exists F' w', vdfs4_truncate_blocks map_sbi 2 70 w = Ok (0, w') /\ world_ok map_sbi 1 w' F' /\ truncated map_sbi (blocks_of map_sbi 70) w w' fork9 F'.
Proof.
  destruct stage_set as (w & Hst & Hw); exists w; split; [exact Hst|]; apply (truncate_blocks_correct map_sbi 1 area_keeps); [exact Hw|..]; try (vm_compute; discriminate || reflexivity).
  all: destruct Hst as (f & -> & _); cbn [inode map_world i_ino i_mode map_inode tree view PlainTree.plain_tree_laws PlainTree.recs map_tree]; rewrite ?map_overflow; unfold VDFS4_1ST_FILE_INO; auto; try (cbn; lia); split; done.
Defined.

(** A metadata area that always has room. *)
#[local] Instance roomy : MetaArea unit :=
  {| vdfs4_is_enospc := fun _ _ => false; vdfs4_check_meta_space := fun m f => Ok (0, m, f); flush_delayed_commit := fun m f => Ok (m, f) |}.

(** Eleven blocks, the two in the tree taken off twice. *)
Lemma truncate_removal_lost_witness : exists (w : world PlainTree.plain unit) w', world_ok map_sbi 1 w fork9 /\ total_block_count (inode w) = 11 /\ answers w = [0; 1]
  /\ truncate_exttree map_sbi 3 9 w = Ok (0, w') /\ extents (inode w') = fork9 /\ total_block_count (inode w') = 7.
Proof.
  destruct stage_set as (w & (f & -> & _) & Hw); set (v := World map_inode (reserve2 f) map_tree tt [0; 1] : world PlainTree.plain unit).
  assert (world_ok map_sbi 1 v fork9) as Hv by (destruct Hw; by split).
  destruct (truncate_removal_lost map_sbi 1 9 v fork9 (Extent 20 9 2) Hv) as (w1 & w' & E & _ & _ & _ & E' & _ & _ & Ee & Et); [exact map_overflow|cbn; lia|done|done|done|].
  exists v, w'; split; [exact Hv|]; split; [done|]; split; [done|]; split; [rewrite E; exact E'|]; split; [exact Ee|exact Et].
Defined.

End Witness.
