(* ===== verification/InodeRec.v ===== *)
(** The record of an inode in the catalog tree, src/linux/fs/vdfs4: the common
    part (cattree-helper.c, inode.c) and the fork with the extents or the inline
    data of a file (extents.c).

    The record is a list of bytes. The fork of the inode in memory shares its
    bytes with the inline data, so both are one list of bytes as well; [long] has
    64 bits. *)

From Stdlib Require Import ZArith Lia Bool List.
From stdpp Require Import base list.
From S2P Require Import Prelude Bytes Buffer RuntimeExtents FindBit Rbtree FsmTree Fsm FileMap.

Open Scope Z_scope.

(** ** Layout *)

(** Offsets in struct vdfs4_fork, and its size. *)
Definition FORK_SIZE : Z := 232.
Definition FORK_DATA : Z := 16.
Definition VDFS4_INLINE_DATA_MAX_SIZE : Z := 200.
Definition VDFS4_COMP_INLINE_DATA_MAX_SIZE : Z := 196.

(** Size of struct vdfs4_catalog_folder_record, where the fork of a file begins. *)
Definition FOLDER_RECORD_SIZE : Z := 80.

(** Size of the union of fork, inline data and compressed inline data in struct
    vdfs4_inode_info. *)
Definition STORE_SIZE : Z := 208.

Definition VDFS4_CATALOG_FOLDER_RECORD : Z := 1.
Definition VDFS4_CATALOG_FILE_RECORD : Z := 2.

(** Bits of the flags of an inode. *)
Definition VDFS4_IMMUTABLE : Z := 2.
Definition HARD_LINK : Z := 10.
Definition VDFS4_COMPRESSED_FILE : Z := 13.
Definition VDFS4_AUTH_FILE : Z := 15.
Definition VDFS4_INLINE_DATA_FILE : Z := 19.
Definition VDFS4_COMP_INLINE_DATA_FILE : Z := 20.

Definition S_IMMUTABLE : Z := 8.
Definition S_ISSOCK (m : Z) : bool := Z.land m 0xF000 =? 0xC000.
Definition S_ISLNK (m : Z) : bool := Z.land m 0xF000 =? 0xA000.
Definition S_ISREG (m : Z) : bool := Z.land m 0xF000 =? 0x8000.
Definition S_ISBLK (m : Z) : bool := Z.land m 0xF000 =? 0x6000.
Definition S_ISDIR (m : Z) : bool := Z.land m 0xF000 =? 0x4000.
Definition S_ISCHR (m : Z) : bool := Z.land m 0xF000 =? 0x2000.
Definition S_ISFIFO (m : Z) : bool := Z.land m 0xF000 =? 0x1000.

(** Two's complement reading of a 64-bit pattern (loff_t, long). *)
Definition s64 (x : Z) : Z := (x + 2 ^ 63) mod 2 ^ 64 - 2 ^ 63.

(** A sequence of stores into fields: offset, width in bytes, value. *)
Fixpoint assign (l : list (Z * nat * Z)) (m : list Z) : run (list Z) :=
  match l with
  | [] => Ok m
  | (o, w, v) :: l => m ← blit m o (le_bytes w v); assign l m
  end.

(** ** Inodes *)

(** struct timespec64 *)
Record timespec64 : Type := Ts { tv_sec : Z; tv_nsec : Z }.

(** struct vdfs4_timespec at offset [o] *)
Definition vdfs4_encode_time (o : Z) (ts : timespec64) : list (Z * nat * Z) :=
  [(o, 4%nat, u32 (tv_sec ts)); (o + 4, 4%nat, u32 (Z.shiftr (u64 (tv_sec ts)) 32)); (o + 8, 4%nat, u32 (tv_nsec ts))].

Definition vdfs4_decode_time (seconds seconds_high nanoseconds : Z) : timespec64 :=
  Ts (s64 (seconds +64 Z.shiftl seconds_high 32)) nanoseconds.

Inductive iops : Type :=
| no_inode_operations
| vdfs4_symlink_inode_operations
| vdfs4_fast_symlink_inode_operations
| vdfs4_file_inode_operations
| vdfs4_dir_inode_operations
| vdfs4_special_inode_operations.

Inductive aops : Type :=
| no_aops
| vdfs4_aops
| vdfs4_inline_data_aops
| vdfs4_comp_inline_data_aops.

(** struct inode and struct vdfs4_inode_info. [v_store] are the bytes of the
    union, [v_link] tells that i_link points to the inline data, [v_fbc] is
    fbc->comp_size. *)
Record vnode : Type := Vnode {
  v_flags : Z;
  v_i_flags : Z;
  v_mode : Z;
  v_uid : Z;
  v_gid : Z;
  v_nlink : Z;
  v_generation : Z;
  v_next_orphan_id : Z;
  v_mtime : timespec64;
  v_atime : timespec64;
  v_ctime : timespec64;
  v_size : Z;
  v_rdev : Z;
  v_blocks : Z;
  v_link : bool;
  v_store : list Z;
  v_op : iops;
  v_a_ops : aops;
  v_fbc : option Z
}.

Definition set_v_flags (x : Z) (v : vnode) : vnode :=
  Vnode x (v_i_flags v) (v_mode v) (v_uid v) (v_gid v) (v_nlink v) (v_generation v) (v_next_orphan_id v) (v_mtime v) (v_atime v) (v_ctime v)
    (v_size v) (v_rdev v) (v_blocks v) (v_link v) (v_store v) (v_op v) (v_a_ops v) (v_fbc v).
Definition set_v_i_flags (x : Z) (v : vnode) : vnode :=
  Vnode (v_flags v) x (v_mode v) (v_uid v) (v_gid v) (v_nlink v) (v_generation v) (v_next_orphan_id v) (v_mtime v) (v_atime v) (v_ctime v)
    (v_size v) (v_rdev v) (v_blocks v) (v_link v) (v_store v) (v_op v) (v_a_ops v) (v_fbc v).
Definition set_v_size (x : Z) (v : vnode) : vnode :=
  Vnode (v_flags v) (v_i_flags v) (v_mode v) (v_uid v) (v_gid v) (v_nlink v) (v_generation v) (v_next_orphan_id v) (v_mtime v) (v_atime v) (v_ctime v)
    x (v_rdev v) (v_blocks v) (v_link v) (v_store v) (v_op v) (v_a_ops v) (v_fbc v).
Definition set_v_rdev (x : Z) (v : vnode) : vnode :=
  Vnode (v_flags v) (v_i_flags v) (v_mode v) (v_uid v) (v_gid v) (v_nlink v) (v_generation v) (v_next_orphan_id v) (v_mtime v) (v_atime v) (v_ctime v)
    (v_size v) x (v_blocks v) (v_link v) (v_store v) (v_op v) (v_a_ops v) (v_fbc v).
Definition set_v_blocks (x : Z) (v : vnode) : vnode :=
  Vnode (v_flags v) (v_i_flags v) (v_mode v) (v_uid v) (v_gid v) (v_nlink v) (v_generation v) (v_next_orphan_id v) (v_mtime v) (v_atime v) (v_ctime v)
    (v_size v) (v_rdev v) x (v_link v) (v_store v) (v_op v) (v_a_ops v) (v_fbc v).
Definition set_v_store (link : bool) (x : list Z) (v : vnode) : vnode :=
  Vnode (v_flags v) (v_i_flags v) (v_mode v) (v_uid v) (v_gid v) (v_nlink v) (v_generation v) (v_next_orphan_id v) (v_mtime v) (v_atime v) (v_ctime v)
    (v_size v) (v_rdev v) (v_blocks v) link x (v_op v) (v_a_ops v) (v_fbc v).
Definition set_v_ops (op : iops) (a : aops) (v : vnode) : vnode :=
  Vnode (v_flags v) (v_i_flags v) (v_mode v) (v_uid v) (v_gid v) (v_nlink v) (v_generation v) (v_next_orphan_id v) (v_mtime v) (v_atime v) (v_ctime v)
    (v_size v) (v_rdev v) (v_blocks v) (v_link v) (v_store v) op a (v_fbc v).
(** The fields that both kinds of record have. *)
Definition set_v_common (mode uid gid nlink generation orphan : Z) (mtime atime ctime : timespec64) (v : vnode) : vnode :=
  Vnode (v_flags v) (v_i_flags v) mode uid gid nlink generation orphan mtime atime ctime
    (v_size v) (v_rdev v) (v_blocks v) (v_link v) (v_store v) (v_op v) (v_a_ops v) (v_fbc v).

Definition is_vdfs4_inode_flag_set (flag : Z) (v : vnode) : bool := Z.testbit (v_flags v) flag.
Definition clear_vdfs4_inode_flag (flag : Z) (v : vnode) : vnode := set_v_flags (Z.clearbit (v_flags v) flag) v.
Definition vdfs4_is_inline_data_inode : vnode -> bool := is_vdfs4_inode_flag_set VDFS4_INLINE_DATA_FILE.
Definition vdfs4_is_comp_inline_data_inode : vnode -> bool := is_vdfs4_inode_flag_set VDFS4_COMP_INLINE_DATA_FILE.
Definition vdfs4_is_fast_symlink_inode : vnode -> bool := v_link.

Definition vdfs4_get_vfs_inode_flags (v : vnode) : vnode :=
  let cleared := Z.clearbit (v_flags v) VDFS4_IMMUTABLE in
  set_v_flags (if negb (Z.land (v_i_flags v) S_IMMUTABLE =? 0) then Z.setbit cleared VDFS4_IMMUTABLE else cleared) v.

Definition vdfs4_set_vfs_inode_flags (v : vnode) : vnode :=
  let cleared := Z.ldiff (v_i_flags v) S_IMMUTABLE in
  set_v_i_flags (if Z.testbit (v_flags v) VDFS4_IMMUTABLE then Z.lor cleared S_IMMUTABLE else cleared) v.

(** ** The fork in memory: struct vdfs4_fork_info at the start of the union *)

Definition rfork_total (store : list Z) : run Z := rd32 store 0.
Definition rfork_used (store : list Z) : run Z := rd32 store 196.

(** [ifork->extents[i]]; an index outside the array is a fault. *)
Definition rfork_extent (store : list Z) (i : Z) : run extent_info :=
  if i <? VDFS4_EXTENTS_COUNT_IN_FORK then
    first ← rd64 store (16 + 20 * i); iblock ← rd64 store (24 + 20 * i); count ← rd32 store (32 + 20 * i);
    Ok (Extent first iblock count)
  else Fault.

(** ** Reading a fork *)

(** [vdfs4_lfork_to_rfork] from extent [i] on, with [n] to go and [used] counted. *)
Fixpoint lfork_to_rfork (n : nat) (i used : Z) (lfork store : list Z) : run (list Z) :=
  match n with
  | O => assign [(196, 4%nat, used)] store
  | S n =>
      begin ← rd64 lfork (FORK_DATA + 24 * i); length ← rd64 lfork (FORK_DATA + 24 * i + 8); iblock ← rd64 lfork (FORK_DATA + 24 * i + 16);
      store ← assign [(16 + 20 * i, 8%nat, begin); (32 + 20 * i, 4%nat, u32 length); (24 + 20 * i, 8%nat, iblock)] store;
      lfork_to_rfork n (i + 1) (if negb (begin =? 0) then used +32 1 else used) lfork store
  end.

Definition vdfs4_lfork_to_rfork (lfork store : list Z) : run (list Z) :=
  store ← assign [(196, 4%nat, 0)] store;
  lfork_to_rfork (Z.to_nat VDFS4_EXTENTS_COUNT_IN_FORK) 0 0 lfork store.

Definition is_inline_data_fork_valid (fork : list Z) : run bool :=
  size ← rd64 fork 0; Ok (negb (VDFS4_INLINE_DATA_MAX_SIZE <? s64 size)).

Inductive compr_type : Type := VDFS4_COMPR_ZLIB | VDFS4_COMPR_LZO | VDFS4_COMPR_GZIP | VDFS4_COMPR_ZSTD.

(** None is -EINVAL; the magics are Lzo, Zip, Gzp and Zst. *)
Definition vdfs4_get_comprtype_by_magic (magic : list Z) : option compr_type :=
  if bool_decide (magic = [76; 122; 111]) then Some VDFS4_COMPR_LZO
  else if bool_decide (magic = [90; 105; 112]) then Some VDFS4_COMPR_ZLIB
  else if bool_decide (magic = [71; 122; 112]) then Some VDFS4_COMPR_GZIP
  else if bool_decide (magic = [90; 115; 116]) then Some VDFS4_COMPR_ZSTD
  else None.

Definition is_comp_inline_data_fork_valid (fork : list Z) : run bool :=
  comp_size ← slice fork (FORK_DATA + 3) 1; magic ← slice fork FORK_DATA 3;
  Ok (negb (VDFS4_COMP_INLINE_DATA_MAX_SIZE <? le_value comp_size)
      && match vdfs4_get_comprtype_by_magic magic with Some _ => true | None => false end).

(** [is_regular_fork_valid] from extent [ext] on, with [n] to go. *)
Fixpoint regular_fork_valid (n : nat) (ext volume : Z) (fork : list Z) : run bool :=
  match n with
  | O => Ok true
  | S n =>
      begin ← rd64 fork (FORK_DATA + 24 * ext); length ← rd64 fork (FORK_DATA + 24 * ext + 8);
      if volume <? begin +64 length then Ok false else regular_fork_valid n (ext + 1) volume fork
  end.

Definition is_regular_fork_valid (volume : Z) (fork : list Z) : run bool :=
  regular_fork_valid (Z.to_nat VDFS4_EXTENTS_COUNT_IN_FORK) 0 volume fork.

(** [is_fork_valid]; None is NULL. *)
Definition is_fork_valid (sbi : sb_info) (v : vnode) (fork : option (list Z)) : run bool :=
  match fork with
  | None => Ok false
  | Some fork =>
      total ← rd64 fork 8;
      if volume_blocks_count sbi <? total then Ok false
      else if vdfs4_is_inline_data_inode v then is_inline_data_fork_valid fork
      else if vdfs4_is_comp_inline_data_inode v then is_comp_inline_data_fork_valid fork
      else is_regular_fork_valid (volume_blocks_count sbi) fork
  end.

Definition vdfs4_fill_ifork (lfork : list Z) (v : vnode) : run vnode :=
  total ← rd64 lfork 8;
  store ← assign [(0, 4%nat, u32 total); (4, 4%nat, 0); (8, 8%nat, 0)] (v_store v);
  store ← vdfs4_lfork_to_rfork lfork store;
  Ok (set_v_store (v_link v) store v).

Definition zeros (n : Z) : list Z := replicate (Z.to_nat n) 0.

(** [vdfs4_fill_inline_data]; memcpy takes the size as a size_t. *)
Definition vdfs4_fill_inline_data (lfork : list Z) (v : vnode) : run vnode :=
  bytes ← rd64 lfork 0;
  let size := s64 bytes in
  store ← blit (v_store v) 0 (zeros VDFS4_INLINE_DATA_MAX_SIZE);
  data ← slice (take 216 lfork) FORK_DATA (u64 size);
  store ← blit store 0 data;
  Ok (set_v_store (if S_ISLNK (v_mode v) && (size <? VDFS4_INLINE_DATA_MAX_SIZE) then true else v_link v) store v).

Section Record.
(** The addresses of the decompressors (vdfs4_get_decomp_fn). *)
Context (vdfs4_get_decomp_fn : option compr_type -> Z).
Context (sbi : sb_info).

Definition vdfs4_fill_comp_inline_data (lfork : list Z) (v : vnode) : run vnode :=
  magic ← slice lfork FORK_DATA 3; comp_size ← slice lfork (FORK_DATA + 3) 1;
  store ← blit (v_store v) 0 (zeros STORE_SIZE);
  store ← assign [(0, 8%nat, vdfs4_get_decomp_fn (vdfs4_get_comprtype_by_magic magic)); (8, 4%nat, le_value comp_size)] store;
  data ← slice lfork (FORK_DATA + 4) VDFS4_COMP_INLINE_DATA_MAX_SIZE;
  store ← blit store 12 data;
  Ok (set_v_store (v_link v) store v).

(** [vdfs4_parse_fork]: the code and the inode *)
Definition vdfs4_parse_fork (lfork : option (list Z)) (v : vnode) : run (Z * vnode) :=
  valid ← is_fork_valid sbi v lfork;
  match lfork with
  | Some lfork =>
      if negb valid then Ok (- EINVAL, v)
      else
        size ← rd64 lfork 0; blocks ← rd64 lfork 8;
        let v := set_v_blocks (u64 (Z.shiftl blocks (block_size_shift sbi - 9))) v in
        let v := if S_ISCHR (v_mode v) || S_ISBLK (v_mode v) then set_v_size 0 (set_v_rdev (u32 size) v) else set_v_size (s64 size) v in
        v ← (if vdfs4_is_inline_data_inode v then vdfs4_fill_inline_data lfork v
             else if vdfs4_is_comp_inline_data_inode v then vdfs4_fill_comp_inline_data lfork v
             else vdfs4_fill_ifork lfork v);
        Ok (0, v)
  | None => Ok (- EINVAL, v)
  end.

(** ** Writing a fork *)

(** The loop of [vdfs4_form_fork] from extent [i] on; the tenth turn faults. *)
Fixpoint form_extents (n : nat) (i used : Z) (store lfork : list Z) : run (list Z) :=
  if i <? used then
    match n with
    | O => Fault
    | S n =>
        e ← rfork_extent store i;
        lfork ← assign [(FORK_DATA + 24 * i, 8%nat, first_block e); (FORK_DATA + 24 * i + 8, 8%nat, block_count e); (FORK_DATA + 24 * i + 16, 8%nat, e_iblock e)] lfork;
        form_extents n (i + 1) used store lfork
    end
  else Ok lfork.

(** [vdfs4_form_fork]: the new bytes of the fork, all of which are written. *)
Definition vdfs4_form_fork (v : vnode) : run (list Z) :=
  let lfork := zeros FORK_SIZE in
  if S_ISCHR (v_mode v) || S_ISBLK (v_mode v) then assign [(0, 8%nat, v_rdev v)] lfork
  else
    size ← (if is_vdfs4_inode_flag_set VDFS4_COMPRESSED_FILE v
            then match v_fbc v with Some comp_size => Ok comp_size | None => Fault end else Ok (v_size v));
    total ← rfork_total (v_store v);
    lfork ← assign [(0, 8%nat, size); (8, 8%nat, total)] lfork;
    used ← rfork_used (v_store v);
    form_extents (Z.to_nat VDFS4_EXTENTS_COUNT_IN_FORK) 0 used (v_store v) lfork.

(** ** The whole record *)

Definition common_fields (v : vnode) : list (Z * nat * Z) :=
  [(0, 4%nat, v_flags v); (32, 2%nat, v_mode v); (36, 4%nat, v_uid v); (40, 4%nat, v_gid v);
   (8, 8%nat, if S_ISCHR (v_mode v) || S_ISBLK (v_mode v) then v_rdev v else v_size v); (16, 8%nat, v_nlink v)]
  ++ vdfs4_encode_time 44 (v_ctime v) ++ vdfs4_encode_time 68 (v_atime v) ++ vdfs4_encode_time 56 (v_mtime v)
  ++ [(4, 4%nat, v_generation v); (24, 8%nat, v_next_orphan_id v)].

(** [vdfs4_fill_cattree_value]: the value area and the inode *)
Definition vdfs4_fill_cattree_value (v : vnode) (value_area : list Z) : run (list Z * vnode) :=
  let v := vdfs4_get_vfs_inode_flags v in
  area ← assign (common_fields v) value_area;
  if S_ISLNK (v_mode v) || S_ISREG (v_mode v) then
    fork ← vdfs4_form_fork v;
    area ← blit area FOLDER_RECORD_SIZE fork;
    Ok (area, v)
  else Ok (area, v).

Definition rd_time (m : list Z) (o : Z) : run timespec64 :=
  s ← rd32 m o; h ← rd32 m (o + 4); n ← rd32 m (o + 8); Ok (vdfs4_decode_time s h n).

(** The operations on the pages of a link or a file. *)
Definition data_aops (v : vnode) : aops :=
  if vdfs4_is_inline_data_inode v then vdfs4_inline_data_aops
  else if vdfs4_is_comp_inline_data_inode v then vdfs4_comp_inline_data_aops else vdfs4_aops.

(** [vdfs4_fill_inode]: the code and the inode *)
Definition vdfs4_fill_inode (folder_val : list Z) (v : vnode) : run (Z * vnode) :=
  flags ← rd32 folder_val 0;
  let v := clear_vdfs4_inode_flag VDFS4_AUTH_FILE (set_v_flags flags v) in
  let v := vdfs4_set_vfs_inode_flags v in
  mode ← rd16 folder_val 32; uid ← rd32 folder_val 36; gid ← rd32 folder_val 40; links ← rd64 folder_val 16;
  generation ← rd32 folder_val 4; orphan ← rd64 folder_val 24;
  mtime ← rd_time folder_val 56; atime ← rd_time folder_val 68; ctime ← rd_time folder_val 44;
  items ← rd64 folder_val 8;
  let v := set_v_common mode uid gid (u32 links) generation orphan mtime atime ctime v in
  if S_ISLNK mode then Ok (0, set_v_ops vdfs4_symlink_inode_operations (data_aops v) v)
  else if S_ISREG mode then Ok (0, set_v_ops vdfs4_file_inode_operations (data_aops v) v)
  else if S_ISDIR mode then Ok (0, set_v_ops vdfs4_dir_inode_operations (v_a_ops v) (set_v_size (s64 items) v))
  else if S_ISCHR mode || S_ISBLK mode || S_ISFIFO mode || S_ISSOCK mode then
    let v := if S_ISCHR mode || S_ISBLK mode then set_v_rdev (u32 items) v else v in
    Ok (0, set_v_ops vdfs4_special_inode_operations vdfs4_aops v)
  else Ok (- EINVAL, v).

(** [vdfs4_get_inode_from_record] from the kind of the record to the count of
    links, on a new inode and with hard links followed. *)
Definition inode_from_record (record_type : Z) (val : list Z) (v : vnode) : run (Z * vnode) :=
  if negb ((record_type =? VDFS4_CATALOG_FILE_RECORD) || (record_type =? VDFS4_CATALOG_FOLDER_RECORD)) then
    if mount_finished sbi then Bug else Ok (- EFAULT, v)
  else
    '(err, v) ← vdfs4_fill_inode val v;
    if negb (err =? 0) then Ok (err, v)
    else
      '(err, v) ← (if (record_type =? VDFS4_CATALOG_FILE_RECORD) && (S_ISLNK (v_mode v) || S_ISREG (v_mode v)) then
                     fork ← slice val FOLDER_RECORD_SIZE FORK_SIZE;
                     vdfs4_parse_fork (Some fork) v
                   else Ok (0, v));
      if negb (err =? 0) then Ok (err, v)
      else
        let v := if (record_type =? VDFS4_CATALOG_FILE_RECORD) && (S_ISLNK (v_mode v) || S_ISREG (v_mode v))
                    && vdfs4_is_inline_data_inode v && vdfs4_is_fast_symlink_inode v
                 then set_v_ops vdfs4_fast_symlink_inode_operations (v_a_ops v) v else v in
        if (1 <? v_nlink v) && negb (is_vdfs4_inode_flag_set HARD_LINK v) then Ok (- EFAULT, v) else Ok (0, v).

End Record.
