(* ===== verification/InodeTheorems.v ===== *)
(** The theorems about the records of inodes. *)

From Stdlib Require Import ZArith Lia Bool List.
From stdpp Require Import base list gmap sets sorting.
From S2P Require Import Prelude Bytes Buffer RuntimeExtents FindBit Rbtree FsmTree Fsm FileMap FileRep InodeRec.

Open Scope Z_scope.

(** ** Sequences of stores *)

Definition apart (o n : Z) (f : Z * nat * Z) : Prop := o + n <= f.1.1 \/ f.1.1 + Z.of_nat f.1.2 <= o.
Definition inside (n : Z) (f : Z * nat * Z) : Prop := 0 <= f.1.1 /\ f.1.1 + Z.of_nat f.1.2 <= n.

(** [m'] is [m] with the stores done. *)
Record stored (l : list (Z * nat * Z)) (m m' : list Z) : Prop := {
  st_len : lenZ m' = lenZ m;
  st_byte : Forall is_byte m -> Forall is_byte m';
  st_out : forall o n, 0 <= o -> 0 <= n -> o + n <= lenZ m -> Forall (apart o n) l -> sub m' o n = sub m o n;
  st_in : forall k o w v, l !! k = Some (o, w, v) -> Forall (apart o (Z.of_nat w)) (drop (S k) l) -> sub m' o (Z.of_nat w) = le_bytes w v
}.

Lemma assign_ok (l : list (Z * nat * Z)) (m : list Z) : Forall (inside (lenZ m)) l -> exists m', assign l m = Ok m' /\ stored l m m'.
Proof.
  revert m; induction l as [|[[o w] v] l IH]; intros m Hin; [exists m; split; [done|]; by split|].
  apply Forall_cons in Hin as [[Ho Hw] Hin]; cbn in Ho, Hw; cbn [assign]; pose proof (lenZ_le_bytes w v) as Hl.
  rewrite blit_upd by lia; cbn; pose proof (lenZ_upd_at m o (le_bytes w v) ltac:(lia) ltac:(lia)) as Hu.
  destruct (IH (upd_at m o (le_bytes w v))) as (m' & E & [S1 S2 S3 S4]); [by rewrite Hu|]; exists m'; split; [exact E|]; split.
  - lia.
  - intros Hm; apply S2, Forall_upd_at; [done|apply le_bytes_byte].
  - intros q n Hq Hn Hqn Ha; apply Forall_cons in Ha as [Ha Hl']; unfold apart in Ha; cbn in Ha; rewrite S3 by (auto; lia); apply sub_upd_out; lia.
  - intros [|k] q n x Hk Ha; cbn in Hk, Ha; [|by apply (S4 k)]; injection Hk as <- <- <-; rewrite S3 by (rewrite ?drop_0 in Ha; auto; lia).
    rewrite <- Hl, sub_upd_in by lia; replace (o - o) with 0 by lia; by apply sub_all.
Qed.

Lemma le_value_mod (n : nat) (x : Z) : le_value (le_bytes n x) = x mod 256 ^ Z.of_nat n.
Proof.
  revert x; induction n as [|n IH]; intros x; [cbn; symmetry; apply Z.mod_1_r|].
  cbn [le_bytes le_value]; rewrite IH, Nat2Z.inj_succ, Z.pow_succ_r by lia; symmetry; apply Z.rem_mul_r; lia.
Qed.

Section Stored.
Context (l : list (Z * nat * Z)) (m m' : list Z) (Hs : stored l m m').

Lemma stored64 (k : nat) (o v : Z) : l !! k = Some (o, 8%nat, v) -> Forall (apart o 8) (drop (S k) l) -> get64 m' o = u64 v.
Proof. intros Hk Ha; unfold get64; change 8 with (Z.of_nat 8); by rewrite (st_in _ _ _ Hs k o 8 v Hk Ha), le_value_mod. Qed.

Lemma stored32 (k : nat) (o v : Z) : l !! k = Some (o, 4%nat, v) -> Forall (apart o 4) (drop (S k) l) -> get32 m' o = u32 v.
Proof. intros Hk Ha; unfold get32; change 4 with (Z.of_nat 4); by rewrite (st_in _ _ _ Hs k o 4 v Hk Ha), le_value_mod. Qed.

Lemma stored16 (k : nat) (o v : Z) : l !! k = Some (o, 2%nat, v) -> Forall (apart o 2) (drop (S k) l) -> get16 m' o = u16 v.
Proof. intros Hk Ha; unfold get16; change 2 with (Z.of_nat 2); by rewrite (st_in _ _ _ Hs k o 2 v Hk Ha), le_value_mod. Qed.

End Stored.

(** Fields of a literal list of stores are in range or apart. *)
Ltac fields := repeat first [apply Forall_cons_2 | apply Forall_nil_2]; unfold inside, apart; cbn [fst snd]; lia.

(** ** The extents of a fork *)

(** Extent [j] of the fork in memory and on disk. *)
Definition mem_extent (store : list Z) (j : Z) : extent_info := Extent (get64 store (16 + 20 * j)) (get64 store (24 + 20 * j)) (get32 store (32 + 20 * j)).
Definition disk_extent (lfork : list Z) (j : Z) : extent_info :=
  Extent (get64 lfork (FORK_DATA + 24 * j)) (get64 lfork (FORK_DATA + 24 * j + 16)) (get64 lfork (FORK_DATA + 24 * j + 8)).

(** The length is kept in 32 bits. *)
Definition narrow (e : extent_info) : extent_info := Extent (first_block e) (e_iblock e) (u32 (block_count e)).

Lemma rfork_extent_ok (store : list Z) (j : Z) : lenZ store = STORE_SIZE -> 0 <= j < VDFS4_EXTENTS_COUNT_IN_FORK -> rfork_extent store j = Ok (mem_extent store j).
Proof.
  unfold STORE_SIZE, VDFS4_EXTENTS_COUNT_IN_FORK; intros Hl Hj; unfold rfork_extent, VDFS4_EXTENTS_COUNT_IN_FORK; rewrite (proj2 (Z.ltb_lt j 9)) by lia.
  rewrite !rd64_ok, rd32_ok by lia; done.
Qed.

Lemma mem_extent_sub (m m' : list Z) (j : Z) : 0 <= j -> 36 + 20 * j <= lenZ m -> lenZ m' = lenZ m -> sub m' (16 + 20 * j) 20 = sub m (16 + 20 * j) 20 -> mem_extent m' j = mem_extent m j.
Proof.
  intros Hj Hl El E; unfold mem_extent, get64, get32.
  assert (forall o n, 0 <= o -> 0 <= n -> o + n <= 20 -> sub m' (16 + 20 * j + o) n = sub m (16 + 20 * j + o) n) as H
    by (intros o n Ho Hn Hon; rewrite <- (sub_sub m' (16 + 20 * j) 20), <- (sub_sub m (16 + 20 * j) 20) by lia; by rewrite E).
  pose proof (H 0 8 ltac:(lia) ltac:(lia) ltac:(lia)) as H0; pose proof (H 8 8 ltac:(lia) ltac:(lia) ltac:(lia)) as H8; pose proof (H 16 4 ltac:(lia) ltac:(lia) ltac:(lia)) as H16.
  replace (16 + 20 * j + 0) with (16 + 20 * j) in H0 by lia; replace (16 + 20 * j + 8) with (24 + 20 * j) in H8 by lia; replace (16 + 20 * j + 16) with (32 + 20 * j) in H16 by lia.
  by rewrite H0, H8, H16.
Qed.

Lemma disk_extent_sub (m m' : list Z) (j : Z) : 0 <= j -> FORK_DATA + 24 * j + 24 <= lenZ m -> lenZ m' = lenZ m ->
  sub m' (FORK_DATA + 24 * j) 24 = sub m (FORK_DATA + 24 * j) 24 -> disk_extent m' j = disk_extent m j.
Proof.
  unfold FORK_DATA; intros Hj Hl El E; unfold disk_extent, get64, FORK_DATA.
  assert (forall o n, 0 <= o -> 0 <= n -> o + n <= 24 -> sub m' (16 + 24 * j + o) n = sub m (16 + 24 * j + o) n) as H
    by (intros o n Ho Hn Hon; rewrite <- (sub_sub m' (16 + 24 * j) 24), <- (sub_sub m (16 + 24 * j) 24) by lia; by rewrite E).
  rewrite (H 16 8), (H 8 8) by lia; specialize (H 0 8 ltac:(lia) ltac:(lia) ltac:(lia)); rewrite Z.add_0_r in H; by rewrite H.
Qed.

Definition ext_small (e : extent_info) : Prop := 0 <= first_block e < 2 ^ 64 /\ 0 <= e_iblock e < 2 ^ 64 /\ 0 <= block_count e < 2 ^ 32.

Lemma mem_extent_small (store : list Z) (j : Z) : Forall is_byte store -> lenZ store = STORE_SIZE -> 0 <= j < VDFS4_EXTENTS_COUNT_IN_FORK -> ext_small (mem_extent store j).
Proof.
  unfold STORE_SIZE, VDFS4_EXTENTS_COUNT_IN_FORK; intros Hb Hl Hj; unfold ext_small, mem_extent; cbn.
  split; [apply get64_range; auto; lia|]; split; [apply get64_range|apply get32_range]; auto; lia.
Qed.

(** The loop that writes the extents: [L] is the fork with those from [i] on
    written and all other bytes as they were. *)
Lemma form_extents_ok (n : nat) (i used : Z) (store lfork : list Z) :
  lenZ store = STORE_SIZE -> Forall is_byte store -> lenZ lfork = FORK_SIZE -> 0 <= i -> i + Z.of_nat n = VDFS4_EXTENTS_COUNT_IN_FORK -> used <= VDFS4_EXTENTS_COUNT_IN_FORK ->
  exists L, form_extents n i used store lfork = Ok L /\ lenZ L = FORK_SIZE /\ (Forall is_byte lfork -> Forall is_byte L)
  /\ (forall o k, 0 <= o -> 0 <= k -> o + k <= FORK_SIZE -> o + k <= FORK_DATA + 24 * i \/ FORK_DATA + 24 * Z.max i used <= o -> sub L o k = sub lfork o k)
  /\ forall j, i <= j < used -> disk_extent L j = mem_extent store j.
Proof.
  revert i lfork; induction n as [|n IH]; intros i lfork Hs Hb Hl Hi Hn Hu; unfold VDFS4_EXTENTS_COUNT_IN_FORK, FORK_SIZE, FORK_DATA in *; cbn [form_extents];
    (destruct (Z.ltb_spec i used) as [Hlt|Hge]; [try lia|exists lfork; split_and!; auto; lia]).
  rewrite rfork_extent_ok by (auto; unfold VDFS4_EXTENTS_COUNT_IN_FORK; lia); cbn [mbind run_bind]; set (e := mem_extent store i).
  set (l := [(FORK_DATA + 24 * i, 8%nat, first_block e); (FORK_DATA + 24 * i + 8, 8%nat, block_count e); (FORK_DATA + 24 * i + 16, 8%nat, e_iblock e)]).
  destruct (assign_ok l lfork) as (L1 & E1 & S1); [unfold l, FORK_DATA; fields|]; pose proof (st_len _ _ _ S1) as Hl1; rewrite E1; cbn [mbind run_bind].
  destruct (IH (i + 1) L1) as (L & E & HL & Hby & Hout & Hin); [done|done|lia|lia|lia|lia|]; exists L; split; [exact E|]; split; [exact HL|]; split; [intros Hf; by apply Hby, (st_byte _ _ _ S1)|]; split.
  - intros o k Ho Hk Hok Hd; rewrite Hout by lia; apply (st_out _ _ _ S1); try lia; unfold l, FORK_DATA; fields.
  - intros j Hj; destruct (decide (j = i)) as [->|]; [|apply Hin; lia].
    rewrite (disk_extent_sub L1 L) by (unfold FORK_DATA in *; try lia; apply Hout; lia); destruct (mem_extent_small store i Hb Hs) as (X1 & X2 & X3); [unfold VDFS4_EXTENTS_COUNT_IN_FORK; lia|].
    unfold disk_extent; rewrite (stored64 _ _ _ S1 0 (FORK_DATA + 24 * i) (first_block e)), (stored64 _ _ _ S1 1 (FORK_DATA + 24 * i + 8) (block_count e)), (stored64 _ _ _ S1 2 (FORK_DATA + 24 * i + 16) (e_iblock e)) by (done || (unfold l, FORK_DATA; cbn [drop]; fields)).
    fold e; rewrite !u64_small by (fold e in X1, X2, X3; lia); by destruct e.
Qed.

(** More extents than the fork has room for. *)
Lemma form_extents_fault (n : nat) (i used : Z) (store lfork : list Z) :
  lenZ store = STORE_SIZE -> lenZ lfork = FORK_SIZE -> 0 <= i -> i + Z.of_nat n = VDFS4_EXTENTS_COUNT_IN_FORK -> VDFS4_EXTENTS_COUNT_IN_FORK < used ->
  form_extents n i used store lfork = Fault.
Proof.
  revert i lfork; induction n as [|n IH]; intros i lfork Hs Hl Hi Hn Hu; unfold VDFS4_EXTENTS_COUNT_IN_FORK, FORK_SIZE in *; cbn [form_extents]; rewrite (proj2 (Z.ltb_lt i used)) by lia; [done|].
  rewrite rfork_extent_ok by (auto; unfold VDFS4_EXTENTS_COUNT_IN_FORK; lia); cbn [mbind run_bind]; set (e := mem_extent store i).
  destruct (assign_ok [(FORK_DATA + 24 * i, 8%nat, first_block e); (FORK_DATA + 24 * i + 8, 8%nat, block_count e); (FORK_DATA + 24 * i + 16, 8%nat, e_iblock e)] lfork) as (L1 & E1 & S1); [unfold FORK_DATA; fields|].
  rewrite E1; cbn [mbind run_bind]; apply IH; auto; pose proof (st_len _ _ _ S1); lia.
Qed.

(** The number of extents from [i] on, [n] of them, that are not blank. *)
Fixpoint nonblank (n : nat) (i : Z) (lfork : list Z) : Z :=
  match n with O => 0 | S n => (if first_block (disk_extent lfork i) =? 0 then 0 else 1) + nonblank n (i + 1) lfork end.

Lemma nonblank_prefix (n : nat) (i used : Z) (lfork : list Z) : (forall j, i <= j < used -> first_block (disk_extent lfork j) <> 0) ->
  (forall j, Z.max i used <= j < i + Z.of_nat n -> first_block (disk_extent lfork j) = 0) -> used <= i + Z.of_nat n -> nonblank n i lfork = Z.max 0 (used - i).
Proof.
  revert i; induction n as [|n IH]; intros i Hin Hout Hu; [cbn; lia|]; cbn [nonblank]; rewrite (IH (i + 1)) by (auto; intros; first [apply Hin; lia|apply Hout; lia|lia]).
  destruct (Z.ltb_spec i used) as [Hlt|Hge]; [rewrite (proj2 (Z.eqb_neq _ _) (Hin i ltac:(lia))); lia|rewrite (proj2 (Z.eqb_eq _ _) (Hout i ltac:(lia))); lia].
Qed.

(** The loop that reads the extents. *)
Lemma lfork_to_rfork_ok (n : nat) (i used : Z) (lfork store : list Z) :
  lenZ store = STORE_SIZE -> lenZ lfork = FORK_SIZE -> Forall is_byte lfork -> 0 <= i -> i + Z.of_nat n = VDFS4_EXTENTS_COUNT_IN_FORK -> 0 <= used <= i ->
  exists S, lfork_to_rfork n i used lfork store = Ok S /\ lenZ S = STORE_SIZE /\ (Forall is_byte store -> Forall is_byte S)
  /\ (forall o k, 0 <= o -> 0 <= k -> o + k <= 16 + 20 * i -> sub S o k = sub store o k)
  /\ (forall j, i <= j < VDFS4_EXTENTS_COUNT_IN_FORK -> mem_extent S j = narrow (disk_extent lfork j))
  /\ get32 S 196 = used + nonblank n i lfork.
Proof.
  revert i used store; induction n as [|n IH]; intros i used store Hs Hl Hb Hi Hn Hu; unfold VDFS4_EXTENTS_COUNT_IN_FORK, FORK_SIZE, STORE_SIZE in *; cbn [lfork_to_rfork].
  - destruct (assign_ok [(196, 4%nat, used)] store) as (S & E & St); [fields|]; exists S; split; [exact E|]; split; [by rewrite (st_len _ _ _ St)|]; split; [apply (st_byte _ _ _ St)|].
    split; [intros o k Ho Hk Hok; apply (st_out _ _ _ St); try lia; fields|]; split; [lia|]; rewrite (stored32 _ _ _ St 0 196 used) by (done || (cbn [drop]; fields)); cbn; rewrite u32_small; lia.
  - unfold FORK_DATA; rewrite !rd64_ok by lia; cbn [mbind run_bind]; set (b := get64 lfork (16 + 24 * i)); set (c := get64 lfork (16 + 24 * i + 8)); set (ib := get64 lfork (16 + 24 * i + 16)).
    set (l := [(16 + 20 * i, 8%nat, b); (32 + 20 * i, 4%nat, u32 c); (24 + 20 * i, 8%nat, ib)]); destruct (assign_ok l store) as (S1 & E1 & St); [unfold l; fields|]; pose proof (st_len _ _ _ St) as Hl1; rewrite E1; cbn [mbind run_bind].
    assert (0 <= u32 c < 2 ^ 32) as Hc by (apply Z.mod_pos_bound; lia).
    assert ((if negb (b =? 0) then used +32 1 else used) = used + if b =? 0 then 0 else 1) as -> by (destruct (b =? 0); cbn; [|rewrite u32_small]; lia).
    destruct (IH (i + 1) (used + if b =? 0 then 0 else 1) S1) as (S & E & HS & Hby & Hout & Hin & Hcnt); [lia|done|done|lia|lia|destruct (b =? 0); lia|].
    exists S; split; [exact E|]; split; [exact HS|]; split; [intros Hf; by apply Hby, (st_byte _ _ _ St)|]; split; [|split].
    + intros o k Ho Hk Hok; rewrite Hout by lia; apply (st_out _ _ _ St); try lia; unfold l; fields.
    + intros j Hj; destruct (decide (j = i)) as [->|]; [|apply Hin; lia]; rewrite (mem_extent_sub S1 S) by (try lia; apply Hout; lia).
      unfold mem_extent, disk_extent, narrow, FORK_DATA; cbn [first_block e_iblock block_count]; rewrite (stored64 _ _ _ St 0 (16 + 20 * i) b), (stored64 _ _ _ St 2 (24 + 20 * i) ib), (stored32 _ _ _ St 1 (32 + 20 * i) (u32 c)) by (done || (unfold l; cbn [drop]; fields)).
      fold b c ib; rewrite (u32_small (u32 c)) by lia; by rewrite !u64_small by (apply get64_range; auto; lia).
    + cbn [nonblank]; unfold disk_extent at 1, FORK_DATA; cbn [first_block]; fold b; lia.
Qed.

Lemma regular_valid_ok (n : nat) (i volume : Z) (lfork : list Z) : lenZ lfork = FORK_SIZE -> 0 <= i -> i + Z.of_nat n = VDFS4_EXTENTS_COUNT_IN_FORK ->
  exists r, regular_fork_valid n i volume lfork = Ok r
  /\ (r = true <-> forall j, i <= j < VDFS4_EXTENTS_COUNT_IN_FORK -> first_block (disk_extent lfork j) +64 block_count (disk_extent lfork j) <= volume).
Proof.
  unfold VDFS4_EXTENTS_COUNT_IN_FORK, FORK_SIZE; unfold disk_extent, FORK_DATA; cbn [first_block block_count]; revert i; induction n as [|n IH]; intros i Hl Hi Hn; cbn [regular_fork_valid]; [exists true; split; [done|]; split; [lia|done]|].
  unfold FORK_DATA; rewrite !rd64_ok by lia; cbn [mbind run_bind]; destruct (Z.ltb_spec volume (u64 (get64 lfork (16 + 24 * i) + get64 lfork (16 + 24 * i + 8)))) as [Hlt|Hge].
  - exists false; split; [done|]; split; [done|]; intros Ha; specialize (Ha i); lia.
  - destruct (IH (i + 1)) as (r & E & Hr); [done|lia|lia|]; exists r; split; [exact E|]; rewrite Hr; split; intros Ha j Hj; [|apply Ha; lia]; destruct (decide (j = i)) as [->|]; [lia|apply Ha; lia].
Qed.

(** ** Forks of regular files *)

(** The fork in memory is that of the inode [i]. *)
Definition fork_is (i : inode_info) (v : vnode) : Prop :=
  lenZ (v_store v) = STORE_SIZE /\ Forall is_byte (v_store v) /\ get32 (v_store v) 0 = total_block_count i /\ get32 (v_store v) 196 = used_extents i
  /\ (forall j, 0 <= j < VDFS4_EXTENTS_COUNT_IN_FORK -> getZ (extents i) j = Some (mem_extent (v_store v) j)).

(** A regular file or a symbolic link with its data in blocks, none of it in the
    record. *)
Definition plain_file (v : vnode) : Prop :=
  (S_ISREG (v_mode v) = true \/ S_ISLNK (v_mode v) = true) /\ vdfs4_is_inline_data_inode v = false /\ vdfs4_is_comp_inline_data_inode v = false.

Lemma mode_kinds (m : Z) : S_ISREG m = true \/ S_ISLNK m = true -> S_ISCHR m = false /\ S_ISBLK m = false /\ S_ISDIR m = false.
Proof. unfold S_ISREG, S_ISLNK, S_ISCHR, S_ISBLK, S_ISDIR; intros [->%Z.eqb_eq | ->%Z.eqb_eq]; auto. Qed.

Lemma le_value_zeros (n : nat) : le_value (replicate n 0) = 0.
Proof. induction n as [|n IH]; cbn; lia. Qed.

Lemma sub_zeros (n o k : Z) : 0 <= o -> 0 <= k -> o + k <= n -> sub (zeros n) o k = replicate (Z.to_nat k) 0.
Proof. intros; unfold sub, zeros; rewrite drop_replicate, take_replicate; f_equal; lia. Qed.

Lemma lenZ_zeros (n : Z) : 0 <= n -> lenZ (zeros n) = n.
Proof. intros; unfold lenZ, zeros; rewrite length_replicate; lia. Qed.

Lemma zeros_byte (n : Z) : Forall is_byte (zeros n).
Proof. apply Forall_replicate; unfold is_byte; lia. Qed.

Lemma disk_extent_blank (L : list Z) (j : Z) : sub L (FORK_DATA + 24 * j) 24 = replicate 24 0 -> lenZ L = FORK_SIZE -> 0 <= j < VDFS4_EXTENTS_COUNT_IN_FORK -> disk_extent L j = zero_extent.
Proof.
  unfold FORK_DATA, VDFS4_EXTENTS_COUNT_IN_FORK, FORK_SIZE; intros E Hl Hj; rewrite (disk_extent_sub (zeros 232) L) by (rewrite ?lenZ_zeros by lia; unfold FORK_DATA; try lia; by rewrite E, sub_zeros by lia).
  unfold disk_extent, get64, FORK_DATA; rewrite !sub_zeros, !le_value_zeros by lia; done.
Qed.

Section Fork.
Context (sbi : sb_info) (i : inode_info) (m : xmap) (F : list extent_info) (Hfile : file_ok sbi i m F).
Context (Hvol : 0 <= volume_blocks_count sbi < 2 ^ 32).

(** The extents of a consistent file, slot by slot. *)
Lemma file_slot (j : Z) : 0 <= j < VDFS4_EXTENTS_COUNT_IN_FORK ->
  if j <? used_extents i then exists e, getZ (extents i) j = Some e /\ ext_wf (volume_blocks_count sbi) e else getZ (extents i) j = Some zero_extent.
Proof.
  intros Hj; destruct Hfile as [[Hs Hu Hm _ _ _] Hwf _ _ _]; rewrite Hs; destruct (Z.ltb_spec j (used_extents i)) as [Hlt|Hge].
  - rewrite getZ_app_l by lia; destruct (getZ_is_Some F j) as (e & He); [lia|]; exists e; split; [exact He|]; apply Forall_app in Hwf as [Hwf _].
    rewrite Forall_forall in Hwf; apply Hwf; eapply getZ_elem; exact He.
  - rewrite getZ_app_r by lia; rewrite Hu; unfold getZ; destruct (Z.ltb_spec (j - used_extents i) 0); [lia|]; apply lookup_replicate_2; unfold VDFS4_EXTENTS_COUNT_IN_FORK in *; lia.
Qed.

(** What is written of the fork. *)
Record forked (v : vnode) (L : list Z) : Prop := {
  fd_len : lenZ L = FORK_SIZE;
  fd_byte : Forall is_byte L;
  fd_size : get64 L 0 = u64 (v_size v);
  fd_total : get64 L 8 = total_block_count i;
  fd_extents : forall j, 0 <= j < VDFS4_EXTENTS_COUNT_IN_FORK -> getZ (extents i) j = Some (disk_extent L j)
}.

Lemma total_small : 0 <= total_block_count i <= volume_blocks_count sbi.
Proof. destruct Hfile as [_ Hwf Hsep -> _]; split; [by eapply etotal_nonneg|apply etotal_vol; auto; lia]. Qed.

Lemma form_fork_ok (v : vnode) : fork_is i v -> plain_file v -> is_vdfs4_inode_flag_set VDFS4_COMPRESSED_FILE v = false ->
  exists L, vdfs4_form_fork v = Ok L /\ forked v L.
Proof.
  intros (Hl & Hb & Ht & Hu & He) (Hk & _) Hc; destruct (mode_kinds _ Hk) as (K1 & K2 & _); unfold vdfs4_form_fork; rewrite K1, K2, Hc; cbn [orb mbind run_bind].
  pose proof (fs_max _ _ _ (fk_shape _ _ _ _ Hfile)) as Hm; pose proof (fs_used _ _ _ (fk_shape _ _ _ _ Hfile)) as Hn; pose proof (lenZ_nonneg F); unfold STORE_SIZE in Hl; pose proof total_small as Htot.
  unfold rfork_total, rfork_used; rewrite !rd32_ok by lia; cbn [mbind run_bind]; rewrite Ht, Hu.
  set (l := [(0, 8%nat, v_size v); (8, 8%nat, total_block_count i)]); destruct (assign_ok l (zeros FORK_SIZE)) as (L1 & E1 & St); [unfold l; rewrite lenZ_zeros by done; unfold FORK_SIZE; fields|].
  rewrite E1; cbn [mbind run_bind]; pose proof (st_len _ _ _ St) as Hl1; rewrite lenZ_zeros in Hl1 by done.
  destruct (form_extents_ok (Z.to_nat VDFS4_EXTENTS_COUNT_IN_FORK) 0 (used_extents i) (v_store v) L1) as (L & E & HL & Hby & Hout & Hin); [done|done|done|done|done|done|].
  exists L; split; [exact E|]; unfold FORK_SIZE, FORK_DATA, VDFS4_EXTENTS_COUNT_IN_FORK in *; split.
  - exact HL.
  - apply Hby, (st_byte _ _ _ St), zeros_byte.
  - unfold get64; rewrite Hout by lia; apply (stored64 _ _ _ St 0 0); [done|unfold l; cbn [drop]; fields].
  - unfold get64; rewrite Hout by lia; fold (get64 L1 8); rewrite (stored64 _ _ _ St 1 8 (total_block_count i)) by (done || (unfold l; cbn [drop]; fields)); apply u64_small; lia.
  - intros j Hj; rewrite (He j Hj); f_equal; pose proof (file_slot j Hj) as Hs; destruct (Z.ltb_spec j (used_extents i)); [symmetry; apply Hin; lia|].
    rewrite (He j Hj) in Hs; apply (inj Some) in Hs as ->; symmetry; apply disk_extent_blank; [|done|done]; unfold FORK_DATA, VDFS4_EXTENTS_COUNT_IN_FORK in *; rewrite Hout by lia; rewrite (st_out _ _ _ St) by (rewrite ?lenZ_zeros by lia; try lia; unfold l; fields).
    by rewrite sub_zeros by lia.
Qed.

(** Such a fork is valid and is read back as it was. *)
Lemma forked_valid (v v0 : vnode) (L : list Z) : forked v L -> plain_file v0 -> is_fork_valid sbi v0 (Some L) = Ok true.
Proof.
  intros [Hl Hb Hs Ht He] (_ & P1 & P2); unfold FORK_SIZE in Hl; unfold is_fork_valid; rewrite rd64_ok by lia; cbn [mbind run_bind]; rewrite Ht, P1, P2; pose proof total_small as Htot.
  rewrite (proj2 (Z.ltb_ge _ _)) by lia; destruct (regular_valid_ok (Z.to_nat VDFS4_EXTENTS_COUNT_IN_FORK) 0 (volume_blocks_count sbi) L) as (r & E & Hr); [done|done|done|].
  unfold is_regular_fork_valid; rewrite E; f_equal; apply Hr; intros j Hj; pose proof (file_slot j Hj) as Hx; rewrite (He j Hj) in Hx.
  destruct (j <? used_extents i); [destruct Hx as (e & ->%(inj Some) & W1 & W2 & W3 & _)|apply (inj Some) in Hx as ->; cbn]; rewrite u64_small; lia.
Qed.

Lemma forked_count (v : vnode) (L : list Z) : forked v L -> nonblank (Z.to_nat VDFS4_EXTENTS_COUNT_IN_FORK) 0 L = used_extents i.
Proof.
  intros [_ _ _ _ He]; pose proof (fs_max _ _ _ (fk_shape _ _ _ _ Hfile)) as Hm; pose proof (fs_used _ _ _ (fk_shape _ _ _ _ Hfile)) as Hn; pose proof (lenZ_nonneg F); unfold VDFS4_EXTENTS_COUNT_IN_FORK in *.
  rewrite (nonblank_prefix _ 0 (used_extents i)); [lia|..|lia]; intros j Hj; pose proof (file_slot j ltac:(unfold VDFS4_EXTENTS_COUNT_IN_FORK; lia)) as Hx; rewrite (He j) in Hx by lia.
  - rewrite (proj2 (Z.ltb_lt j (used_extents i))) in Hx by lia; destruct Hx as (e & ->%(inj Some) & W1 & W2 & _); lia.
  - rewrite (proj2 (Z.ltb_ge j (used_extents i))) in Hx by lia; by apply (inj Some) in Hx as ->.
Qed.

Lemma parse_fork_ok (fn : option compr_type -> Z) (v v0 : vnode) (L : list Z) :
  forked v L -> plain_file v0 -> lenZ (v_store v0) = STORE_SIZE -> Forall is_byte (v_store v0) -> - 2 ^ 63 <= v_size v < 2 ^ 63 ->
  exists S, vdfs4_parse_fork fn sbi (Some L) v0
            = Ok (0, set_v_store (v_link v0) S (set_v_size (v_size v) (set_v_blocks (u64 (Z.shiftl (total_block_count i) (block_size_shift sbi - 9))) v0)))
  /\ fork_is i (set_v_store (v_link v0) S v0).
Proof.
  intros HL Hp Hs0 Hb0 Hz; pose proof HL as [Hl Hb Hs Ht He]; pose proof Hp as (Hk & P1 & P2); destruct (mode_kinds _ Hk) as (K1 & K2 & _); pose proof total_small as Htot; unfold FORK_SIZE in Hl.
  unfold vdfs4_parse_fork; rewrite (forked_valid v v0 L HL Hp); cbn [mbind run_bind negb]; rewrite !rd64_ok by lia; cbn [mbind run_bind]; rewrite Hs, Ht.
  change (v_mode (set_v_blocks _ v0)) with (v_mode v0); rewrite K1, K2; cbn [orb]; unfold vdfs4_is_inline_data_inode, vdfs4_is_comp_inline_data_inode, is_vdfs4_inode_flag_set in *; cbn [v_flags set_v_size set_v_blocks]; rewrite P1, P2.
  unfold vdfs4_fill_ifork; rewrite rd64_ok by lia; cbn [mbind run_bind]; rewrite Ht; cbn [v_store set_v_size set_v_blocks]; unfold STORE_SIZE in Hs0.
  set (l := [(0, 4%nat, u32 (total_block_count i)); (4, 4%nat, 0); (8, 8%nat, 0)]); destruct (assign_ok l (v_store v0)) as (S1 & E1 & St1); [unfold l; fields|]; pose proof (st_len _ _ _ St1) as L1; rewrite E1; cbn [mbind run_bind].
  unfold vdfs4_lfork_to_rfork; destruct (assign_ok [(196, 4%nat, 0)] S1) as (S2 & E2 & St2); [fields|]; pose proof (st_len _ _ _ St2) as L2; rewrite E2; cbn [mbind run_bind].
  destruct (lfork_to_rfork_ok (Z.to_nat VDFS4_EXTENTS_COUNT_IN_FORK) 0 0 L S2) as (S & E & HS & Hby & Hout & Hin & Hcnt); [unfold STORE_SIZE; lia|done|done|done|done|lia|]; rewrite E; cbn [mbind run_bind].
  exists S; split; [f_equal; f_equal; cbn [v_link set_v_size set_v_blocks]; f_equal; f_equal; unfold s64, u64; rewrite Zplus_mod_idemp_l, Z.mod_small by lia; lia|]; unfold fork_is; cbn [v_store set_v_store].
  split; [exact HS|]; split; [by apply Hby, (st_byte _ _ _ St2), (st_byte _ _ _ St1)|]; split; [|split; [rewrite Hcnt, (forked_count v L HL); lia|]].
  - unfold get32; rewrite Hout by lia; rewrite (st_out _ _ _ St2) by (try lia; fields); fold (get32 S1 0); rewrite (stored32 _ _ _ St1 0 0 (u32 (total_block_count i))) by (done || (unfold l; cbn [drop]; fields)); by rewrite !u32_small by (rewrite ?u32_small; lia).
  - intros j Hj; rewrite (He j Hj), (Hin j Hj); f_equal; pose proof (file_slot j Hj) as Hx; rewrite (He j Hj) in Hx; unfold narrow; destruct (j <? used_extents i); [destruct Hx as (e & ->%(inj Some) & W1 & W2 & W3 & _)|apply (inj Some) in Hx as ->; done].
    rewrite u32_small by lia; by destruct e.
Qed.

End Fork.

(** ** The common part of a record *)

Definition time_ok (ts : timespec64) : Prop := - 2 ^ 63 <= tv_sec ts < 2 ^ 63 /\ 0 <= tv_nsec ts < 2 ^ 32.

Lemma time_back (ts : timespec64) : time_ok ts ->
  vdfs4_decode_time (u32 (u32 (tv_sec ts))) (u32 (u32 (Z.shiftr (u64 (tv_sec ts)) 32))) (u32 (u32 (tv_nsec ts))) = ts.
Proof.
  intros [Hs Hn]; destruct ts as [s n]; cbn in *; unfold vdfs4_decode_time; f_equal; [|by rewrite !u32_small by (rewrite ?u32_small; lia)].
  set (q := u64 s); assert (0 <= q < 2 ^ 64) as Hq by (apply Z.mod_pos_bound; lia); rewrite Z.shiftr_div_pow2, Z.shiftl_mul_pow2 by lia.
  assert (0 <= q / 2 ^ 32 < 2 ^ 32) as Hd by (split; [apply Z.div_pos; lia|apply Z.div_lt_upper_bound; lia]).
  assert (u32 s = q mod 2 ^ 32) as E by (unfold q, u32, u64; change (2 ^ 64) with (2 ^ 32 * 2 ^ 32); rewrite Z.rem_mul_r by lia; rewrite Z.mul_comm, Z.mod_add by lia; by rewrite Z.mod_mod by lia).
  assert (0 <= u32 s < 2 ^ 32) as Hu by (apply Z.mod_pos_bound; lia); rewrite (u32_small (q / 2 ^ 32)), (u32_small (q / 2 ^ 32)), (u32_small (u32 s)) by lia.
  assert (u32 s + q / 2 ^ 32 * 2 ^ 32 = q) as -> by (rewrite E; pose proof (Z.div_mod q (2 ^ 32)); lia).
  unfold u64 at 1; unfold s64, q, u64; rewrite Z.mod_mod, Zplus_mod_idemp_l, Z.mod_small by lia; lia.
Qed.

(** The attributes fit their types. *)
Record attrs_ok (v : vnode) : Prop := {
  at_flags : 0 <= v_flags v < 2 ^ 32;
  at_mode : 0 <= v_mode v < 2 ^ 16;
  at_ids : 0 <= v_uid v < 2 ^ 32 /\ 0 <= v_gid v < 2 ^ 32;
  at_nlink : 0 <= v_nlink v < 2 ^ 32;
  at_generation : 0 <= v_generation v < 2 ^ 32;
  at_orphan : 0 <= v_next_orphan_id v < 2 ^ 64;
  at_times : time_ok (v_mtime v) /\ time_ok (v_atime v) /\ time_ok (v_ctime v);
  at_size : - 2 ^ 63 <= v_size v < 2 ^ 63;
  at_rdev : 0 <= v_rdev v < 2 ^ 32
}.

(** The attributes of [v] are those of [w]; the flag of an authenticated file is
    not kept, and the immutable flag is that of the VFS inode. *)
Record same_attrs (v w : vnode) : Prop := {
  sa_flags : v_flags w = Z.clearbit (v_flags (vdfs4_get_vfs_inode_flags v)) VDFS4_AUTH_FILE;
  sa_immutable : Z.land (v_i_flags w) S_IMMUTABLE = Z.land (v_i_flags v) S_IMMUTABLE;
  sa_mode : v_mode w = v_mode v;
  sa_ids : v_uid w = v_uid v /\ v_gid w = v_gid v;
  sa_nlink : v_nlink w = v_nlink v;
  sa_generation : v_generation w = v_generation v;
  sa_orphan : v_next_orphan_id w = v_next_orphan_id v;
  sa_times : v_mtime w = v_mtime v /\ v_atime w = v_atime v /\ v_ctime w = v_ctime v
}.

(** The inode that is filled from the common part of the record of [v]. *)
Definition filled (v v0 : vnode) : vnode :=
  let flags := Z.clearbit (v_flags (vdfs4_get_vfs_inode_flags v)) VDFS4_AUTH_FILE in
  set_v_common (v_mode v) (v_uid v) (v_gid v) (v_nlink v) (v_generation v) (v_next_orphan_id v) (v_mtime v) (v_atime v) (v_ctime v)
    (vdfs4_set_vfs_inode_flags (set_v_flags flags v0)).

(** The last stage of [vdfs4_fill_inode], by the kind of the inode. *)
Definition by_kind (items : Z) (v : vnode) : run (Z * vnode) :=
  let mode := v_mode v in
  if S_ISLNK mode then Ok (0, set_v_ops vdfs4_symlink_inode_operations (data_aops v) v)
  else if S_ISREG mode then Ok (0, set_v_ops vdfs4_file_inode_operations (data_aops v) v)
  else if S_ISDIR mode then Ok (0, set_v_ops vdfs4_dir_inode_operations (v_a_ops v) (set_v_size (s64 items) v))
  else if S_ISCHR mode || S_ISBLK mode || S_ISFIFO mode || S_ISSOCK mode then
    Ok (0, set_v_ops vdfs4_special_inode_operations vdfs4_aops (if S_ISCHR mode || S_ISBLK mode then set_v_rdev (u32 items) v else v))
  else Ok (- EINVAL, v).

Definition items_of (v : vnode) : Z := if S_ISCHR (v_mode v) || S_ISBLK (v_mode v) then v_rdev v else u64 (v_size v).

Lemma flags_small (v : vnode) : 0 <= v_flags v < 2 ^ 32 -> 0 <= v_flags (vdfs4_get_vfs_inode_flags v) < 2 ^ 32.
Proof.
  intros Hf; assert (forall x, 0 <= x -> (forall k, 32 <= k -> Z.testbit x k = false) -> 0 <= x < 2 ^ 32) as Hb.
  { intros x Hx Hk; split; [done|]; destruct (Z.ltb_spec x (2 ^ 32)); [done|]; assert (32 <= Z.log2 x) as Hlog by (apply Z.log2_le_pow2; lia).
    specialize (Hk (Z.log2 x) Hlog); rewrite Z.bit_log2 in Hk by lia; done. }
  assert (forall k, 32 <= k -> Z.testbit (v_flags v) k = false) as Hh by (intros k Hk; destruct (decide (v_flags v = 0)) as [->|]; [apply Z.bits_0|apply Z.bits_above_log2; [lia|]; apply (Z.lt_le_trans _ 32); [apply Z.log2_lt_pow2; lia|lia]]).
  unfold vdfs4_get_vfs_inode_flags, VDFS4_IMMUTABLE; cbn [v_flags set_v_flags]; assert (0 <= Z.clearbit (v_flags v) 2) as Hc by (unfold Z.clearbit; apply Z.ldiff_nonneg; lia).
  destruct (Z.land (v_i_flags v) S_IMMUTABLE =? 0); cbn [negb]; (apply Hb; [|intros k Hk]).
  - done.
  - rewrite Z.clearbit_neq by lia; auto.
  - unfold Z.setbit; apply Z.lor_nonneg; split; [done|by vm_compute].
  - rewrite Z.setbit_neq, Z.clearbit_neq by lia; auto.
Qed.

Lemma rd_time_ok (A : list Z) (o : Z) : 0 <= o -> o + 12 <= lenZ A -> rd_time A o = Ok (vdfs4_decode_time (get32 A o) (get32 A (o + 4)) (get32 A (o + 8))).
Proof. intros; unfold rd_time; rewrite !rd32_ok by lia; done. Qed.

(** Reading the common part back. *)
Lemma fill_inode_ok (v v0 : vnode) (A0 A B : list Z) : attrs_ok v -> FOLDER_RECORD_SIZE <= lenZ A0 -> stored (common_fields (vdfs4_get_vfs_inode_flags v)) A0 A ->
  lenZ B = lenZ A0 -> (forall o n, 0 <= o -> 0 <= n -> o + n <= FOLDER_RECORD_SIZE -> sub B o n = sub A o n) ->
  vdfs4_fill_inode B v0 = by_kind (items_of v) (filled v v0).
Proof.
  unfold FOLDER_RECORD_SIZE; intros [A1 A2 [A3 A4] A5 A6 A7 (A8 & A9 & A10) A11 A12] Hl St Hlb Hsub; set (v1 := vdfs4_get_vfs_inode_flags v) in *.
  assert (forall o, 0 <= o -> o + 8 <= 80 -> get64 B o = get64 A o) as G64 by (intros o Ho Hn; unfold get64; by rewrite Hsub by lia).
  assert (forall o, 0 <= o -> o + 4 <= 80 -> get32 B o = get32 A o) as G32 by (intros o Ho Hn; unfold get32; by rewrite Hsub by lia).
  assert (forall o, 0 <= o -> o + 2 <= 80 -> get16 B o = get16 A o) as G16 by (intros o Ho Hn; unfold get16; by rewrite Hsub by lia).
  pose proof (flags_small v A1) as F1; fold v1 in F1; unfold vdfs4_fill_inode; rewrite !rd32_ok, !rd64_ok, rd16_ok, !rd_time_ok by lia; cbn [mbind run_bind Z.add Pos.add Pos.succ].
  rewrite !G32, !G64, G16 by lia; unfold common_fields, vdfs4_encode_time in St; cbn [app] in St.
  rewrite (stored32 _ _ _ St 0 _ _ eq_refl ltac:(fields)), (stored16 _ _ _ St 1 _ _ eq_refl ltac:(fields)), (stored32 _ _ _ St 2 _ _ eq_refl ltac:(fields)), (stored32 _ _ _ St 3 _ _ eq_refl ltac:(fields)),
    (stored64 _ _ _ St 4 _ _ eq_refl ltac:(fields)), (stored64 _ _ _ St 5 _ _ eq_refl ltac:(fields)), (stored32 _ _ _ St 15 _ _ eq_refl ltac:(fields)), (stored64 _ _ _ St 16 _ _ eq_refl ltac:(fields)).
  rewrite (stored32 _ _ _ St 6 _ _ eq_refl ltac:(fields)), (stored32 _ _ _ St 7 _ _ eq_refl ltac:(fields)), (stored32 _ _ _ St 8 _ _ eq_refl ltac:(fields)), (stored32 _ _ _ St 9 _ _ eq_refl ltac:(fields)),
    (stored32 _ _ _ St 10 _ _ eq_refl ltac:(fields)), (stored32 _ _ _ St 11 _ _ eq_refl ltac:(fields)), (stored32 _ _ _ St 12 _ _ eq_refl ltac:(fields)), (stored32 _ _ _ St 13 _ _ eq_refl ltac:(fields)), (stored32 _ _ _ St 14 _ _ eq_refl ltac:(fields)).
  change (v_mode v1) with (v_mode v); change (v_uid v1) with (v_uid v); change (v_gid v1) with (v_gid v); change (v_nlink v1) with (v_nlink v); change (v_generation v1) with (v_generation v).
  change (v_next_orphan_id v1) with (v_next_orphan_id v); change (v_mtime v1) with (v_mtime v); change (v_atime v1) with (v_atime v); change (v_ctime v1) with (v_ctime v); change (v_rdev v1) with (v_rdev v); change (v_size v1) with (v_size v).
  rewrite !time_back, (u64_small (v_nlink v)), (u64_small (v_next_orphan_id v)), (u32_small (v_flags v1)), (u32_small (v_uid v)), (u32_small (v_gid v)), (u32_small (v_nlink v)), (u32_small (v_generation v)), (u16_small (v_mode v)) by (auto; lia).
  assert (u64 (if S_ISCHR (v_mode v) || S_ISBLK (v_mode v) then v_rdev v else v_size v) = items_of v) as -> by (unfold items_of; destruct (S_ISCHR (v_mode v) || S_ISBLK (v_mode v)); [apply u64_small; lia|done]).
  reflexivity.
Qed.

Lemma filled_attrs (v v0 : vnode) : same_attrs v (filled v v0).
Proof.
  split; auto; cbn [filled set_v_common vdfs4_set_vfs_inode_flags set_v_i_flags set_v_flags v_i_flags v_flags vdfs4_get_vfs_inode_flags]; rewrite Z.clearbit_neq by done.
  assert (forall x, Z.land (Z.ldiff x S_IMMUTABLE) S_IMMUTABLE = 0) as H0 by (intros x; apply Z.bits_inj'; intros k _; rewrite Z.land_spec, Z.ldiff_spec, Z.bits_0; by destruct (Z.testbit x k), (Z.testbit S_IMMUTABLE k)).
  assert (forall x, Z.land x S_IMMUTABLE = if Z.testbit x 3 then S_IMMUTABLE else 0) as Hl.
  { intros x; change S_IMMUTABLE with (2 ^ 3) at 1; apply Z.bits_inj'; intros k Hk; rewrite Z.land_spec, Z.pow2_bits_eqb by lia; destruct (Z.eqb_spec 3 k) as [<-|Hne]; [by destruct (Z.testbit x 3)|].
    rewrite andb_false_r; destruct (Z.testbit x 3); [|by rewrite Z.bits_0]; change S_IMMUTABLE with (2 ^ 3); by rewrite Z.pow2_bits_false by lia. }
  destruct (Z.eqb_spec (Z.land (v_i_flags v) S_IMMUTABLE) 0) as [E|E]; cbn [negb]; rewrite ?Z.setbit_eq, ?Z.clearbit_eq by done; [by rewrite E|].
  rewrite Z.land_lor_distr_l, H0, Z.lor_0_l, (Hl (v_i_flags v)); rewrite Hl in E; by destruct (Z.testbit (v_i_flags v) 3).
Qed.

(** ** The theorems *)

Lemma get_flags_bit (v : vnode) (k : Z) : 0 <= k -> k <> VDFS4_IMMUTABLE -> is_vdfs4_inode_flag_set k (vdfs4_get_vfs_inode_flags v) = is_vdfs4_inode_flag_set k v.
Proof.
  intros Hk Hn; unfold is_vdfs4_inode_flag_set, vdfs4_get_vfs_inode_flags; cbn [v_flags set_v_flags]; destruct (negb _); [rewrite Z.setbit_neq by (unfold VDFS4_IMMUTABLE in *; lia)|]; by rewrite Z.clearbit_neq by (unfold VDFS4_IMMUTABLE in *; lia).
Qed.

Lemma filled_bit (v v0 : vnode) (k : Z) : 0 <= k -> k <> VDFS4_IMMUTABLE -> k <> VDFS4_AUTH_FILE -> is_vdfs4_inode_flag_set k (filled v v0) = is_vdfs4_inode_flag_set k v.
Proof.
  intros Hk H1 H2; rewrite <- (get_flags_bit v k) by done; unfold is_vdfs4_inode_flag_set, filled; cbn [v_flags set_v_common vdfs4_set_vfs_inode_flags set_v_i_flags set_v_flags].
  by rewrite Z.clearbit_neq by (unfold VDFS4_AUTH_FILE in *; lia).
Qed.

Section Record.
Context (fn : option compr_type -> Z) (sbi : sb_info).

(** The count of links that the reader accepts. *)
Definition links_ok (v : vnode) : Prop := v_nlink v <= 1 \/ is_vdfs4_inode_flag_set HARD_LINK v = true.

Lemma links_pass (v w : vnode) : links_ok v -> v_nlink w = v_nlink v -> is_vdfs4_inode_flag_set HARD_LINK w = is_vdfs4_inode_flag_set HARD_LINK v ->
  (1 <? v_nlink w) && negb (is_vdfs4_inode_flag_set HARD_LINK w) = false.
Proof. intros [Hn|Hh] En Eh; [rewrite En, (proj2 (Z.ltb_ge _ _)) by lia; done|rewrite Eh, Hh; apply andb_false_r]. Qed.

(** C21: A regular file or a symbolic link that keeps its data in blocks, without
    inline data, and is not a compressed file ([plain_file] and the flag
    VDFS4_COMPRESSED_FILE), and whose record is
    written to the catalog and read into a new inode has the attributes, times,
    size, block count and extents it had; the fork that is written passes the
    checks of the reader. Two flags are not kept: that of an authenticated file is
    cleared, and the immutable flag is taken from the VFS inode. (Of inline data the
    write destroys the content, [inline_data_overwritten]; of a compressed file it
    stores the compressed size.) *)
Theorem file_record_roundtrip (i : inode_info) (m : xmap) (F : list extent_info) (v v0 : vnode) (A0 : list Z) :
  file_ok sbi i m F -> 0 <= volume_blocks_count sbi < 2 ^ 32 -> 9 <= block_size_shift sbi -> fork_is i v -> plain_file v -> is_vdfs4_inode_flag_set VDFS4_COMPRESSED_FILE v = false ->
  attrs_ok v -> links_ok v -> lenZ A0 = FOLDER_RECORD_SIZE + FORK_SIZE -> lenZ (v_store v0) = STORE_SIZE -> Forall is_byte (v_store v0) ->
  exists A v1 v2, vdfs4_fill_cattree_value v A0 = Ok (A, v1) /\ inode_from_record fn sbi VDFS4_CATALOG_FILE_RECORD A v0 = Ok (0, v2)
  /\ same_attrs v v2 /\ fork_is i v2 /\ v_size v2 = v_size v /\ v_blocks v2 = u64 (Z.shiftl (total_block_count i) (block_size_shift sbi - 9)) /\ v_a_ops v2 = vdfs4_aops.
Proof.
  intros Hfile Hvol _ Hfork Hplain Hcomp Hat Hlinks HA Hs0 Hb0; pose proof Hplain as (Hk & P1 & P2); set (v1 := vdfs4_get_vfs_inode_flags v).
  assert (plain_file v1) as Hp1 by (split; [exact Hk|]; unfold vdfs4_is_inline_data_inode, vdfs4_is_comp_inline_data_inode in *; unfold v1; by rewrite !get_flags_bit).
  destruct (assign_ok (common_fields v1) A0) as (A & E1 & St); [rewrite HA; unfold common_fields, vdfs4_encode_time, FOLDER_RECORD_SIZE, FORK_SIZE; cbn [app]; fields|].
  destruct (form_fork_ok sbi i m F Hfile Hvol v1 Hfork Hp1) as (L & E2 & HL); [unfold v1; by rewrite get_flags_bit|]; pose proof (fd_len _ _ _ HL) as HlL; pose proof (st_len _ _ _ St) as HlA.
  unfold FOLDER_RECORD_SIZE, FORK_SIZE in *; exists (upd_at A 80 L), v1; assert (lenZ (upd_at A 80 L) = 312) as HlB by (rewrite lenZ_upd_at; lia).
  assert (S_ISLNK (v_mode v) || S_ISREG (v_mode v) = true) as Hkb by (destruct Hk as [-> | ->]; auto using orb_true_r).
  assert (sub (upd_at A 80 L) 80 232 = L) as HsL by (rewrite sub_upd_in by lia; apply sub_all; done).
  assert (plain_file (filled v v0)) as Hpf by (split; [exact Hk|]; unfold vdfs4_is_inline_data_inode, vdfs4_is_comp_inline_data_inode in *; by rewrite !filled_bit).
  pose proof (fill_inode_ok v v0 A0 A (upd_at A 80 L) Hat ltac:(unfold FOLDER_RECORD_SIZE; lia) St ltac:(lia)) as Ef; unfold FOLDER_RECORD_SIZE in Ef; specialize (Ef ltac:(intros o n Ho Hn Hon; apply sub_upd_out; lia)).
  set (w := set_v_ops (if S_ISLNK (v_mode v) then vdfs4_symlink_inode_operations else vdfs4_file_inode_operations) vdfs4_aops (filled v v0)).
  assert (by_kind (items_of v) (filled v v0) = Ok (0, w)) as Ek.
  { unfold by_kind, data_aops; change (v_mode (filled v v0)) with (v_mode v); destruct Hpf as (_ & -> & ->); unfold w; destruct (S_ISLNK (v_mode v)) eqn:EL; [done|]; destruct Hk as [-> | Hx]; [done|done]. }
  destruct (parse_fork_ok sbi i m F Hfile Hvol fn v1 w L HL) as (S & Ep & HfS); [exact Hpf|done|done|apply (at_size _ Hat)|].
  exists (set_v_store (v_link w) S (set_v_size (v_size v1) (set_v_blocks (u64 (Z.shiftl (total_block_count i) (block_size_shift sbi - 9))) w))); split; [|split].
  - unfold vdfs4_fill_cattree_value; fold v1; rewrite E1; cbn [mbind run_bind]; change (v_mode v1) with (v_mode v); rewrite Hkb, E2; cbn [mbind run_bind]; by rewrite blit_upd by (unfold FOLDER_RECORD_SIZE; lia).
  - unfold inode_from_record; cbn [Z.eqb VDFS4_CATALOG_FILE_RECORD VDFS4_CATALOG_FOLDER_RECORD Pos.eqb orb negb andb]; rewrite Ef, Ek; cbn [mbind run_bind negb Z.eqb]; change (v_mode w) with (v_mode v); rewrite Hkb.
    unfold FOLDER_RECORD_SIZE, FORK_SIZE; rewrite slice_sub, HsL by lia; cbn [mbind run_bind]; rewrite Ep; cbn [mbind run_bind negb Z.eqb].
    set (v2 := set_v_store _ _ _); change (v_mode v2) with (v_mode v); rewrite Hkb; assert (vdfs4_is_inline_data_inode v2 = false) as -> by (destruct Hpf as (_ & Hx & _); exact Hx); cbn [andb].
    rewrite (links_pass v v2 Hlinks) by (auto; exact (filled_bit v v0 HARD_LINK ltac:(done) ltac:(done) ltac:(done))); done.
  - split; [destruct (filled_attrs v v0); by split|]; split; [exact HfS|]; done.
Qed.

(** A directory, a device, a FIFO or a socket whose record is written to the
    catalog and read into a new inode has the attributes and times it had, a
    directory its number of entries, a device its number. *)
Theorem folder_record_roundtrip (v v0 : vnode) (A0 : list Z) :
  attrs_ok v -> links_ok v -> (S_ISDIR (v_mode v) || S_ISCHR (v_mode v) || S_ISBLK (v_mode v) || S_ISFIFO (v_mode v) || S_ISSOCK (v_mode v)) = true ->
  FOLDER_RECORD_SIZE <= lenZ A0 ->
  exists A v1 v2, vdfs4_fill_cattree_value v A0 = Ok (A, v1) /\ inode_from_record fn sbi VDFS4_CATALOG_FOLDER_RECORD A v0 = Ok (0, v2)
  /\ same_attrs v v2 /\ (S_ISDIR (v_mode v) = true -> v_size v2 = v_size v) /\ (S_ISCHR (v_mode v) || S_ISBLK (v_mode v) = true -> v_rdev v2 = v_rdev v).
Proof.
  intros Hat Hlinks Hkind HA; set (v1 := vdfs4_get_vfs_inode_flags v).
  destruct (assign_ok (common_fields v1) A0) as (A & E1 & St); [unfold common_fields, vdfs4_encode_time, FOLDER_RECORD_SIZE in *; cbn [app]; fields|].
  assert (S_ISLNK (v_mode v) = false /\ S_ISREG (v_mode v) = false) as [K1 K2] by (unfold S_ISDIR, S_ISCHR, S_ISBLK, S_ISFIFO, S_ISSOCK, S_ISLNK, S_ISREG in *; split; apply Z.eqb_neq; intros Hx; rewrite Hx in Hkind; done).
  assert (v_a_ops (filled v v0) = v_a_ops v0) as Hao by done.
  pose proof (fill_inode_ok v v0 A0 A A Hat HA St (st_len _ _ _ St) ltac:(done)) as Ef; unfold by_kind in Ef; change (v_mode (filled v v0)) with (v_mode v) in Ef; rewrite K1, K2 in Ef.
  exists A, v1; unfold vdfs4_fill_cattree_value; fold v1; rewrite E1; cbn [mbind run_bind]; change (v_mode v1) with (v_mode v); rewrite K1, K2; cbn [orb].
  assert (forall w, vdfs4_fill_inode A v0 = Ok (0, w) -> v_nlink w = v_nlink v -> is_vdfs4_inode_flag_set HARD_LINK w = is_vdfs4_inode_flag_set HARD_LINK v ->
    inode_from_record fn sbi VDFS4_CATALOG_FOLDER_RECORD A v0 = Ok (0, w)) as Hgo.
  { intros w Ew En Eh; unfold inode_from_record; cbn [Z.eqb VDFS4_CATALOG_FILE_RECORD VDFS4_CATALOG_FOLDER_RECORD Pos.eqb orb negb andb]; rewrite Ew; cbn [mbind run_bind negb Z.eqb andb]; by rewrite (links_pass v w). }
  pose proof (filled_bit v v0 HARD_LINK ltac:(done) ltac:(done) ltac:(done)) as Hhl; pose proof (at_size _ Hat) as Hsz; pose proof (at_rdev _ Hat) as Hrd.
  destruct (S_ISDIR (v_mode v)) eqn:ED.
  - eexists; split; [done|]; split; [apply Hgo; [exact Ef|done|exact Hhl]|]; split; [destruct (filled_attrs v v0); by split|]; unfold items_of, S_ISDIR, S_ISCHR, S_ISBLK in *; apply Z.eqb_eq in ED; rewrite ED; cbn.
    split; [intros _; unfold s64, u64; rewrite Zplus_mod_idemp_l, Z.mod_small by lia; lia|done].
  - rewrite orb_false_l in Hkind; rewrite Hkind in Ef; eexists; split; [done|]; split; [apply Hgo; [exact Ef|..]; destruct (S_ISCHR (v_mode v) || S_ISBLK (v_mode v)); done || exact Hhl|].
    unfold items_of; destruct (S_ISCHR (v_mode v) || S_ISBLK (v_mode v)) eqn:EC; (split; [destruct (filled_attrs v v0); by split|]; split; [done|]; intros Hx; try done; cbn; apply u32_small; lia).
Qed.

(** C38: A fork with extents is valid exactly when the sum of first block and
    length of each of its nine extents, taken modulo 2^64, is not above the
    number of blocks of the volume: an extent far outside the volume whose end
    wraps around is accepted. *)
Theorem regular_fork_valid_correct (L : list Z) : lenZ L = FORK_SIZE -> exists r, is_regular_fork_valid (volume_blocks_count sbi) L = Ok r
  /\ (r = true <-> forall j, 0 <= j < VDFS4_EXTENTS_COUNT_IN_FORK -> first_block (disk_extent L j) +64 block_count (disk_extent L j) <= volume_blocks_count sbi).
Proof. intros HL; by apply regular_valid_ok. Qed.

(** ** Inline data *)

(** An inode with its data in the record. *)
Definition inline_file (v : vnode) : Prop :=
  (S_ISREG (v_mode v) = true \/ S_ISLNK (v_mode v) = true) /\ vdfs4_is_inline_data_inode v = true.

(** The bytes after the checks of an inline fork whose signed size is [size]. *)
Lemma inline_parse (L : list Z) (v : vnode) : inline_file v -> lenZ L = FORK_SIZE -> Forall is_byte L -> lenZ (v_store v) = STORE_SIZE ->
  get64 L 8 <= volume_blocks_count sbi -> s64 (get64 L 0) <= VDFS4_INLINE_DATA_MAX_SIZE ->
  vdfs4_parse_fork fn sbi (Some L) v
  = let w := set_v_size (s64 (get64 L 0)) (set_v_blocks (u64 (Z.shiftl (get64 L 8) (block_size_shift sbi - 9))) v) in
    data ← slice (take 216 L) FORK_DATA (get64 L 0);
    store ← blit (upd_at (v_store v) 0 (zeros VDFS4_INLINE_DATA_MAX_SIZE)) 0 data;
    Ok (0, set_v_store (if S_ISLNK (v_mode v) && (s64 (get64 L 0) <? VDFS4_INLINE_DATA_MAX_SIZE) then true else v_link v) store w).
Proof.
  intros [Hk Hi] HL Hb Hs Ht Hz; destruct (mode_kinds _ Hk) as (K1 & K2 & _); unfold FORK_SIZE, STORE_SIZE in *; pose proof (get64_range L 0 Hb ltac:(lia) ltac:(lia)) as Hr.
  unfold vdfs4_parse_fork, is_fork_valid; rewrite rd64_ok by lia; cbn [mbind run_bind]; rewrite (proj2 (Z.ltb_ge _ _)), Hi by lia; unfold is_inline_data_fork_valid; rewrite !rd64_ok by lia; cbn [mbind run_bind].
  rewrite (proj2 (Z.ltb_ge _ _)) by lia; cbn [negb mbind run_bind]; change (v_mode (set_v_blocks _ v)) with (v_mode v); rewrite K1, K2; cbn [orb].
  assert (forall x y, vdfs4_is_inline_data_inode (set_v_size x (set_v_blocks y v)) = true) as Hi' by (intros; exact Hi); rewrite Hi'; unfold vdfs4_fill_inline_data; rewrite rd64_ok by lia; cbn [mbind run_bind].
  cbn [v_store v_mode v_link set_v_size set_v_blocks]; rewrite blit_upd by (rewrite ?lenZ_zeros by done; unfold VDFS4_INLINE_DATA_MAX_SIZE; lia); cbn [mbind run_bind].
  assert (u64 (s64 (get64 L 0)) = get64 L 0) as ->; [unfold u64, s64; rewrite Zminus_mod_idemp_l; replace (get64 L 0 + 2 ^ 63 - 2 ^ 63) with (get64 L 0) by lia; apply Z.mod_small; lia|].
  destruct (slice (take 216 L) FORK_DATA (get64 L 0)) as [d| |]; [|done|done]; cbn [mbind run_bind]; by destruct (blit _ 0 d).
Qed.

(** A valid inline fork is read byte by byte, and the rest of the space for
    inline data is zero. A symbolic link gets its text as fast link exactly when
    a terminating zero is left. *)
Theorem inline_fork_read (L : list Z) (v : vnode) : inline_file v -> lenZ L = FORK_SIZE -> Forall is_byte L -> lenZ (v_store v) = STORE_SIZE ->
  get64 L 8 <= volume_blocks_count sbi -> get64 L 0 <= VDFS4_INLINE_DATA_MAX_SIZE -> v_link v = false ->
  exists v', vdfs4_parse_fork fn sbi (Some L) v = Ok (0, v') /\ v_size v' = get64 L 0
  /\ sub (v_store v') 0 (get64 L 0) = sub L FORK_DATA (get64 L 0)
  /\ sub (v_store v') (get64 L 0) (VDFS4_INLINE_DATA_MAX_SIZE - get64 L 0) = zeros (VDFS4_INLINE_DATA_MAX_SIZE - get64 L 0)
  /\ (v_link v' = true <-> S_ISLNK (v_mode v) = true /\ get64 L 0 < VDFS4_INLINE_DATA_MAX_SIZE).
Proof.
  intros Hf HL Hb Hs Ht Hz Hlk; pose proof HL as HL'; unfold FORK_SIZE in HL'; pose proof (get64_range L 0 Hb ltac:(lia) ltac:(lia)) as Hr; set (n := get64 L 0) in *.
  assert (s64 n = n) as Es by (unfold s64, VDFS4_INLINE_DATA_MAX_SIZE in *; rewrite Z.mod_small by lia; lia).
  rewrite inline_parse by (auto; fold n; lia); fold n; rewrite Es; unfold FORK_DATA, VDFS4_INLINE_DATA_MAX_SIZE, STORE_SIZE in *; assert (lenZ (take 216 L) = 216) as Ht216 by (change 216%nat with (Z.to_nat 216); apply lenZ_take; lia).
  rewrite slice_sub by lia; cbn [mbind run_bind]; assert (sub (take 216 L) 16 n = sub L 16 n) as -> by (apply sub_ext; try lia; intros k Hk; unfold getZ; destruct (Z.ltb_spec (16 + k) 0); [done|apply lookup_take_lt; lia]).
  assert (lenZ (sub L 16 n) = n) as Hn by (apply lenZ_sub; lia); assert (lenZ (upd_at (v_store v) 0 (zeros 200)) = 208) as Hu by (rewrite lenZ_upd_at; rewrite ?lenZ_zeros by lia; lia).
  rewrite blit_upd by lia; cbn [mbind run_bind]; eexists; split; [reflexivity|]; cbn [v_size v_store v_link v_mode set_v_store set_v_size set_v_blocks]; split; [done|]; split; [|split].
  - rewrite sub_upd_in by lia; apply sub_all; lia.
  - rewrite sub_upd_out, sub_upd_in, sub_zeros by (rewrite ?lenZ_zeros by lia; lia); done.
  - rewrite Hlk; destruct (S_ISLNK (v_mode v)), (Z.ltb_spec n 200); cbn; split; intros; try done; try lia; destruct_and?; done || lia.
Qed.

(** The size of inline data is compared as a signed number: a record whose
    size has its top bit set passes the check, and the copy of the inline data
    then runs past its source. *)
Theorem inline_size_unchecked (L : list Z) (v : vnode) : inline_file v -> lenZ L = FORK_SIZE -> Forall is_byte L -> lenZ (v_store v) = STORE_SIZE ->
  get64 L 8 <= volume_blocks_count sbi -> 2 ^ 63 <= get64 L 0 ->
  is_fork_valid sbi v (Some L) = Ok true /\ vdfs4_parse_fork fn sbi (Some L) v = Fault.
Proof.
  intros Hf HL Hb Hs Ht Hz; pose proof HL as HL'; unfold FORK_SIZE in HL'; pose proof (get64_range L 0 Hb ltac:(lia) ltac:(lia)) as Hr.
  assert (s64 (get64 L 0) <= VDFS4_INLINE_DATA_MAX_SIZE) as Hz' by (unfold s64, VDFS4_INLINE_DATA_MAX_SIZE; pose proof (Z.mod_eq (get64 L 0 + 2 ^ 63) (2 ^ 64) ltac:(lia)) as E; pose proof (Z.div_le_lower_bound (get64 L 0 + 2 ^ 63) (2 ^ 64) 1); lia).
  split.
  - destruct Hf as [_ Hi]; unfold is_fork_valid; rewrite rd64_ok by lia; cbn [mbind run_bind]; rewrite (proj2 (Z.ltb_ge _ _)), Hi by lia; unfold is_inline_data_fork_valid; rewrite rd64_ok by lia; cbn [mbind run_bind]; by rewrite (proj2 (Z.ltb_ge _ _)) by lia.
  - rewrite inline_parse by auto; assert (slice (take 216 L) FORK_DATA (get64 L 0) = Fault) as ->; [|done]; unfold slice, FORK_DATA.
    assert (lenZ (take 216 L) = 216) as -> by (change 216%nat with (Z.to_nat 216); apply lenZ_take; lia); cases; done || (bools; lia).
Qed.

(** The inode of a file with inline data keeps its data where other files
    keep their fork, and the writer takes it for a fork: the record that is
    written has zeros in place of the data when the data ends before the word of
    the used extents, and the write runs past the record when that word is above
    the number of extents. *)
Theorem inline_data_overwritten (v : vnode) (A0 : list Z) : inline_file v -> is_vdfs4_inode_flag_set VDFS4_COMPRESSED_FILE v = false ->
  lenZ (v_store v) = STORE_SIZE -> Forall is_byte (v_store v) -> lenZ A0 = FOLDER_RECORD_SIZE + FORK_SIZE ->
  (get32 (v_store v) 196 = 0 -> exists A v1, vdfs4_fill_cattree_value v A0 = Ok (A, v1)
    /\ sub A (FOLDER_RECORD_SIZE + FORK_DATA) VDFS4_INLINE_DATA_MAX_SIZE = zeros VDFS4_INLINE_DATA_MAX_SIZE
    /\ get64 A (FOLDER_RECORD_SIZE + 8) = get32 (v_store v) 0)
  /\ (VDFS4_EXTENTS_COUNT_IN_FORK < get32 (v_store v) 196 -> vdfs4_fill_cattree_value v A0 = Fault).
Proof.
  intros [Hk Hi] Hcomp Hs Hb HA; set (v1 := vdfs4_get_vfs_inode_flags v); destruct (mode_kinds _ Hk) as (K1 & K2 & _); unfold STORE_SIZE, FOLDER_RECORD_SIZE, FORK_SIZE, FORK_DATA, VDFS4_INLINE_DATA_MAX_SIZE, VDFS4_EXTENTS_COUNT_IN_FORK in *.
  assert (S_ISLNK (v_mode v) || S_ISREG (v_mode v) = true) as Hkb by (destruct Hk as [-> | ->]; auto using orb_true_r).
  destruct (assign_ok (common_fields v1) A0) as (A & E1 & St); [rewrite HA; unfold common_fields, vdfs4_encode_time; cbn [app]; fields|]; pose proof (st_len _ _ _ St) as HlA.
  set (l := [(0, 8%nat, v_size v); (8, 8%nat, get32 (v_store v) 0)]); destruct (assign_ok l (zeros 232)) as (L & E2 & St2); [unfold l; rewrite lenZ_zeros by done; fields|]; pose proof (st_len _ _ _ St2) as HlL; rewrite lenZ_zeros in HlL by lia.
  assert (vdfs4_form_fork v1 = form_extents 9 0 (get32 (v_store v) 196) (v_store v) L) as Ef.
  { unfold vdfs4_form_fork; change (v_mode v1) with (v_mode v); rewrite K1, K2; cbn [orb]; unfold v1; rewrite get_flags_bit, Hcomp by done; cbn [mbind run_bind]; unfold rfork_total, rfork_used; change (v_store (vdfs4_get_vfs_inode_flags v)) with (v_store v).
    rewrite !rd32_ok by lia; cbn [mbind run_bind]; unfold FORK_SIZE; change (v_size (vdfs4_get_vfs_inode_flags v)) with (v_size v); fold l; by rewrite E2. }
  unfold vdfs4_fill_cattree_value; fold v1; rewrite E1; cbn [mbind run_bind]; change (v_mode v1) with (v_mode v); rewrite Hkb, Ef; split.
  - intros ->; cbn [form_extents Z.ltb Z.compare mbind run_bind]; unfold FOLDER_RECORD_SIZE; rewrite blit_upd by lia; cbn [mbind run_bind]; exists (upd_at A 80 L), v1; split; [done|]; split.
    + rewrite sub_upd_in by lia; cbn [Z.sub Z.add Z.opp Z.pos_sub Pos.add]; rewrite (st_out _ _ _ St2) by (rewrite ?lenZ_zeros by lia; try lia; unfold l; fields); by rewrite sub_zeros by lia.
    + unfold get64; rewrite sub_upd_in by lia; change (80 + 8 - 80) with 8; fold (get64 L 8); rewrite (stored64 _ _ _ St2 1 8 (get32 (v_store v) 0)) by (done || (unfold l; cbn [drop]; fields)); pose proof (get32_range (v_store v) 0 Hb ltac:(lia) ltac:(lia)); apply u64_small; lia.
  - intros Hu; by rewrite (form_extents_fault 9 0 _ (v_store v) L) by (unfold STORE_SIZE, FORK_SIZE, VDFS4_EXTENTS_COUNT_IN_FORK; done || lia).
Qed.

End Record.

(** ** Witnesses *)

Definition rec_sbi : sb_info := SbInfo 40 4096 12 7 5 8 3 3 2 true.

(** A file of three blocks in one extent. *)
Definition rec_inode : inode_info := Inode 9 S_IFREG 9000 3 (Extent 5 0 3 :: replicate 8 zero_extent) 1 [] 12288 false.

Definition rec_store : list Z := le_bytes 4 3 ++ zeros 12 ++ le_bytes 8 5 ++ le_bytes 8 0 ++ le_bytes 4 3 ++ zeros 160 ++ le_bytes 4 1 ++ zeros 8.

Definition new_vnode : vnode := Vnode 0 0 0 0 0 0 0 0 (Ts 0 0) (Ts 0 0) (Ts 0 0) 0 0 0 false (zeros STORE_SIZE) no_inode_operations no_aops None.

Definition rec_vnode (mode flags : Z) (store : list Z) : vnode :=
  Vnode flags S_IMMUTABLE mode 1000 100 1 7 0 (Ts 1700000000 5) (Ts (- 1) 999999999) (Ts 5000000000 0) 9000 0x801 0 false store no_inode_operations no_aops None.

Lemma rec_attrs (mode flags : Z) (store : list Z) : 0 <= mode < 2 ^ 16 -> 0 <= flags < 2 ^ 32 -> attrs_ok (rec_vnode mode flags store).
Proof. intros Hm Hf; split; unfold rec_vnode, time_ok; cbn [v_flags v_mode v_uid v_gid v_nlink v_generation v_next_orphan_id v_mtime v_atime v_ctime v_size v_rdev tv_sec tv_nsec]; repeat split; lia. Qed.

Lemma file_record_roundtrip_witness : exists A v1 v2, vdfs4_fill_cattree_value (rec_vnode 0x81A4 0 rec_store) (zeros 312) = Ok (A, v1)
  /\ inode_from_record (fun _ => 0) rec_sbi VDFS4_CATALOG_FILE_RECORD A new_vnode = Ok (0, v2) /\ fork_is rec_inode v2 /\ v_atime v2 = Ts (- 1) 999999999.
Proof.
  assert (overflow 9 ∅ = []) as Ho by done.
  destruct (file_record_roundtrip (fun _ => 0) rec_sbi rec_inode ∅ [Extent 5 0 3] (rec_vnode 0x81A4 0 rec_store) new_vnode (zeros 312)) as (A & v1 & v2 & E1 & E2 & Ha & Hf & _).
  - split; cbn [i_ino rec_inode]; rewrite ?Ho; cbn.
    + split; cbn [i_ino rec_inode extents used_extents]; rewrite ?Ho; try done; [repeat constructor|intros a b _ Hb; by apply elem_of_nil in Hb].
    + apply Forall_singleton; repeat split; cbn; lia.
    + by repeat constructor.
    + done.
    + done.
  - cbn; lia.
  - cbn; lia.
  - split; [done|]; split; [apply (bool_decide_unpack _); by vm_compute|]; split; [done|]; split; [done|]; intros j Hj; unfold VDFS4_EXTENTS_COUNT_IN_FORK in Hj.
    assert (j = 0 \/ j = 1 \/ j = 2 \/ j = 3 \/ j = 4 \/ j = 5 \/ j = 6 \/ j = 7 \/ j = 8) as Hjs by lia; repeat destruct Hjs as [-> | Hjs]; subst; by vm_compute.
  - split; [by left|done].
  - done.
  - apply rec_attrs; lia.
  - left; cbn; lia.
  - done.
  - done.
  - apply zeros_byte.
  - exists A, v1, v2; split; [exact E1|]; split; [exact E2|]; split; [exact Hf|]; exact (proj1 (proj2 (sa_times _ _ Ha))).
Defined.

(** A block device. *)
Lemma folder_record_roundtrip_witness : exists A v1 v2, vdfs4_fill_cattree_value (rec_vnode 0x61A4 0 []) (zeros 80) = Ok (A, v1)
  /\ inode_from_record (fun _ => 0) rec_sbi VDFS4_CATALOG_FOLDER_RECORD A new_vnode = Ok (0, v2) /\ v_rdev v2 = 0x801.
Proof.
  destruct (folder_record_roundtrip (fun _ => 0) rec_sbi (rec_vnode 0x61A4 0 []) new_vnode (zeros 80)) as (A & v1 & v2 & E1 & E2 & _ & _ & Hd); [apply rec_attrs; lia|left; cbn; lia|done|done|].
  exists A, v1, v2; split; [exact E1|]; split; [exact E2|]; by apply Hd.
Defined.

(** An extent at block 2^64 - 8. *)
Lemma regular_fork_valid_correct_witness :
  is_regular_fork_valid (volume_blocks_count rec_sbi) (zeros 16 ++ le_bytes 8 (2 ^ 64 - 8) ++ le_bytes 8 10 ++ zeros 200) = Ok true.
Proof.
  destruct (regular_fork_valid_correct rec_sbi (zeros 16 ++ le_bytes 8 (2 ^ 64 - 8) ++ le_bytes 8 10 ++ zeros 200) ltac:(done)) as (r & E & Hr); rewrite E; f_equal; apply Hr; intros j Hj; unfold VDFS4_EXTENTS_COUNT_IN_FORK in Hj.
  assert (j = 0 \/ j = 1 \/ j = 2 \/ j = 3 \/ j = 4 \/ j = 5 \/ j = 6 \/ j = 7 \/ j = 8) as Hjs by lia; repeat destruct Hjs as [-> | Hjs]; subst; by vm_compute.
Defined.

(** A symbolic link to abc. *)
Lemma inline_fork_read_witness : exists v', vdfs4_parse_fork (fun _ => 0) rec_sbi (Some (le_bytes 8 3 ++ zeros 8 ++ [97; 98; 99] ++ zeros 213)) (rec_vnode 0xA1FF (2 ^ 19) (zeros 208)) = Ok (0, v')
  /\ sub (v_store v') 0 3 = [97; 98; 99] /\ v_link v' = true.
Proof.
  destruct (inline_fork_read (fun _ => 0) rec_sbi (le_bytes 8 3 ++ zeros 8 ++ [97; 98; 99] ++ zeros 213) (rec_vnode 0xA1FF (2 ^ 19) (zeros 208))) as (v' & E & _ & Hd & _ & Hl); try done.
  - split; [by right|done].
  - apply (bool_decide_unpack _); by vm_compute.
  - exists v'; split; [exact E|]; split; [exact Hd|]; by apply Hl.
Defined.

Lemma inline_size_unchecked_witness : vdfs4_parse_fork (fun _ => 0) rec_sbi (Some (replicate 8 255 ++ zeros 224)) (rec_vnode 0x81A4 (2 ^ 19) (zeros 208)) = Fault.
Proof.
  apply inline_size_unchecked; try done; [split; [by left|done]|apply (bool_decide_unpack _); by vm_compute].
Defined.

(** The three bytes abc are lost. *)
Lemma inline_data_overwritten_witness : exists A v1, vdfs4_fill_cattree_value (rec_vnode 0x81A4 (2 ^ 19) ([97; 98; 99] ++ zeros 205)) (zeros 312) = Ok (A, v1) /\ sub A 96 200 = zeros 200.
Proof.
  destruct (inline_data_overwritten (rec_vnode 0x81A4 (2 ^ 19) ([97; 98; 99] ++ zeros 205)) (zeros 312)) as [Hz _]; try done; [split; [by left|done]|apply (bool_decide_unpack _); by vm_compute|].
  destruct (Hz ltac:(vm_compute; reflexivity)) as (A & v1 & E & Hs & _); exists A, v1; split; [exact E|exact Hs].
Defined.
