(* ===== verification/Orphan.v ===== *)
(** Files without a name, src/linux/fs/vdfs4/orphan.c with the operations that use
    it: unlinking (inode.c), eviction of inodes (super.c) and their recovery at
    mount.

    A file whose last name is removed while it is open is an orphan: its record
    stays in the catalog until the inode is evicted. The orphans form a list,
    sbi->orphan_inodes in memory and the fields next_orphan_id of the records on the
    volume, which starts at the root directory and ends with 0.

    An inode is shown with the fields these operations read and write, and the
    catalog as the map from inode numbers to the bodies of their records, whose
    bytes are the subject of InodeRec, with the set of hard-link references. What
    the calls into other parts answer (a search in the catalog, the removal of
    attributes, the truncation, the pages of the inode bitmap) is read from
    [answers]; the empty list stands for calls that succeed. The marks that tell the
    VFS to write an inode later, times and locks are left out. *)

From Stdlib Require Import ZArith Lia Bool List.
From stdpp Require Import base list gmap sets.
From S2P Require Import Prelude.

Open Scope Z_scope.

Definition VDFS4_ROOT_INO : Z := 1.
Definition VDFS4_LINK_MAX : Z := 65000.
Definition FINAL_ORPHAN_ID : Z := 2 ^ 64 - 1.

(** The types S_ISREG, S_ISLNK and S_ISDIR tell apart. *)
Inductive kind : Type := Reg | Lnk | Dir | Special.

#[export] Instance kind_eq_dec : EqDecision kind.
Proof. solve_decision. Defined.

(** struct inode and struct vdfs4_inode_info. [runtime] is the number of blocks the
    runtime extents of the inode reserve. *)
Record vinode : Type := Vinode {
  i_nlink : Z;
  i_kind : kind;
  hard_link : bool;
  orphan_inode : bool;
  next_orphan_id : Z;
  i_size : Z;
  runtime : Z
}.

(** struct vdfs4_catalog_folder_record *)
Record body : Type := Body {
  links_count : Z;
  b_kind : kind;
  b_hard : bool;
  b_orphan : bool;
  b_next : Z;
  total_items : Z
}.

(** [vdfs4_fill_cattree_value] and [vdfs4_fill_inode] on these fields. *)
Definition body_of (v : vinode) : body :=
  Body (i_nlink v) (i_kind v) (hard_link v) (orphan_inode v) (next_orphan_id v) (i_size v).
Definition inode_of (b : body) : vinode :=
  Vinode (links_count b) (b_kind b) (b_hard b) (b_orphan b) (b_next b) (total_items b) 0.

Definition set_nlink (x : Z) (v : vinode) : vinode :=
  Vinode x (i_kind v) (hard_link v) (orphan_inode v) (next_orphan_id v) (i_size v) (runtime v).
Definition set_orphan (x : bool) (v : vinode) : vinode :=
  Vinode (i_nlink v) (i_kind v) (hard_link v) x (next_orphan_id v) (i_size v) (runtime v).
Definition set_next (x : Z) (v : vinode) : vinode :=
  Vinode (i_nlink v) (i_kind v) (hard_link v) (orphan_inode v) x (i_size v) (runtime v).
Definition set_size (x : Z) (v : vinode) : vinode :=
  Vinode (i_nlink v) (i_kind v) (hard_link v) (orphan_inode v) (next_orphan_id v) x (runtime v).
Definition set_runtime (x : Z) (v : vinode) : vinode :=
  Vinode (i_nlink v) (i_kind v) (hard_link v) (orphan_inode v) (next_orphan_id v) (i_size v) x.

(** The volume: [order] is the list sbi->orphan_inodes, in which [None] is an inode
    whose memory was freed while it was on the list; [cache] the inodes in memory;
    [refs] the hard-link references by directory, name and number; [numbers] the
    set bits of the inode bitmap; [reserved] the blocks reserved by delayed
    allocation. *)
Record osb : Type := Osb {
  order : list (option Z);
  cache : gmap Z vinode;
  records : gmap Z body;
  refs : gset (Z * list Z * Z);
  numbers : gset Z;
  reserved : Z;
  files_count : Z;
  folders_count : Z;
  rdonly : bool;
  answers : list Z
}.

Definition set_order (x : list (option Z)) (s : osb) : osb :=
  Osb x (cache s) (records s) (refs s) (numbers s) (reserved s) (files_count s) (folders_count s) (rdonly s) (answers s).
Definition set_cache (x : gmap Z vinode) (s : osb) : osb :=
  Osb (order s) x (records s) (refs s) (numbers s) (reserved s) (files_count s) (folders_count s) (rdonly s) (answers s).
Definition set_records (x : gmap Z body) (s : osb) : osb :=
  Osb (order s) (cache s) x (refs s) (numbers s) (reserved s) (files_count s) (folders_count s) (rdonly s) (answers s).
Definition set_refs (x : gset (Z * list Z * Z)) (s : osb) : osb :=
  Osb (order s) (cache s) (records s) x (numbers s) (reserved s) (files_count s) (folders_count s) (rdonly s) (answers s).
Definition set_numbers (x : gset Z) (s : osb) : osb :=
  Osb (order s) (cache s) (records s) (refs s) x (reserved s) (files_count s) (folders_count s) (rdonly s) (answers s).
Definition set_reserved (x : Z) (s : osb) : osb :=
  Osb (order s) (cache s) (records s) (refs s) (numbers s) x (files_count s) (folders_count s) (rdonly s) (answers s).
Definition set_counts (files folders : Z) (s : osb) : osb :=
  Osb (order s) (cache s) (records s) (refs s) (numbers s) (reserved s) files folders (rdonly s) (answers s).
Definition set_rdonly (x : bool) (s : osb) : osb :=
  Osb (order s) (cache s) (records s) (refs s) (numbers s) (reserved s) (files_count s) (folders_count s) x (answers s).
Definition set_answers (x : list Z) (s : osb) : osb :=
  Osb (order s) (cache s) (records s) (refs s) (numbers s) (reserved s) (files_count s) (folders_count s) (rdonly s) x.

Definition om (A : Type) : Type := osb -> run (A * osb).

#[export] Instance om_ret : MRet om := fun A a s => Ok (a, s).
#[export] Instance om_bind : MBind om := fun A B f m s =>
  match m s with Ok (a, s) => f a s | Bug => Bug | Fault => Fault end.

Definition olift {A : Type} (m : run A) : om A := fun s => a ← m; Ok (a, s).
Definition oget {A : Type} (f : osb -> A) : om A := fun s => Ok (f s, s).
Definition oput (f : osb -> osb) : om unit := fun s => Ok (tt, f s).

(** The answer of a call into another part. *)
Definition ask : om Z := fun s =>
  match answers s with [] => Ok (0, s) | e :: es => Ok (e, set_answers es s) end.

(** An inode in memory, and a store into it. *)
Definition inode (ino : Z) : om vinode := fun s =>
  match cache s !! ino with Some v => Ok (v, s) | None => Fault end.
Definition modify (ino : Z) (f : vinode -> vinode) : om unit :=
  v ← inode ino; oput (fun s => set_cache (<[ino := f v]> (cache s)) s).

(** [vdfs4_fatal_error] *)
Definition fatal_error : om unit := oput (set_rdonly true).

(** [__vdfs4_write_inode] *)
Definition vdfs4_write_inode_nolock (ino : Z) : om Z :=
  v ← inode ino;
  e ← ask;
  bodies ← oget records;
  let err := if negb (e =? 0) then e else match bodies !! ino with None => - ENOENT | Some _ => 0 end in
  if negb (err =? 0) then fatal_error;; mret err
  else oput (set_records (<[ino := body_of v]> bodies));; mret 0.

(** ** The orphan list *)

(** The entries in front of [ino] and behind it; [None] when it is not on the
    list. *)
Fixpoint split_at (ino : Z) (l : list (option Z)) : option (list (option Z) * list (option Z)) :=
  match l with
  | [] => None
  | x :: l =>
      if decide (x = Some ino) then Some ([], l)
      else match split_at ino l with None => None | Some (A, B) => Some (x :: A, B) end
  end.

(** An entry that the code writes to is there. *)
Definition alive (x : option (option Z)) : bool := match x with Some None => false | _ => true end.

(** list_add_tail writes into the last entry of the list. *)
Definition list_add_tail (ino : Z) : om unit :=
  l ← oget order;
  match split_at ino l with
  | Some _ => olift Fault
  | None => if alive (last l) then oput (set_order (l ++ [Some ino])) else olift Fault
  end.

(** list_del_init writes into the entries next to [ino]. *)
Definition list_del_init (ino : Z) : om unit :=
  l ← oget order;
  match split_at ino l with
  | None => mret tt
  | Some (A, B) => if alive (last A) && alive (head B) then oput (set_order (A ++ B)) else olift Fault
  end.

(** [prev_orphan] *)
Definition prev_orphan (ino : Z) : om Z :=
  l ← oget order;
  match split_at ino l with
  | None => olift Bug
  | Some (A, _) =>
      match last A with
      | None => olift Bug
      | Some None => olift Fault
      | Some (Some prev) => mret prev
      end
  end.

(** [vdfs4_add_to_orphan] *)
Definition vdfs4_add_to_orphan (ino : Z) : om Z :=
  modify ino (set_orphan true);;
  modify ino (set_next 0);;
  list_add_tail ino;;
  prev ← prev_orphan ino;
  p ← inode prev;
  olift (bug_on (negb (next_orphan_id p =? 0)));;
  modify prev (set_next ino);;
  ret ← vdfs4_write_inode_nolock prev;
  if negb (ret =? 0) then
    list_del_init ino;;
    modify prev (set_next 0);;
    modify ino (set_orphan false);;
    mret ret
  else mret 0.

(** [vdfs4_del_from_orphan] *)
Definition vdfs4_del_from_orphan (ino : Z) : om unit :=
  l ← oget order;
  match split_at ino l with
  | None => mret tt
  | Some _ =>
      prev ← prev_orphan ino;
      p ← inode prev;
      olift (bug_on (negb (next_orphan_id p =? ino)));;
      v ← inode ino;
      modify prev (set_next (next_orphan_id v));;
      ret ← vdfs4_write_inode_nolock prev;
      (if negb (ret =? 0) then fatal_error else mret tt);;
      modify ino (set_orphan false);;
      modify ino (set_next FINAL_ORPHAN_ID);;
      list_del_init ino
  end.

(** ** Unlinking *)

(** [vdfs4_cattree_remove] for the reference of a hard link and for the record of
    an inode, which goes with its ilink. *)
Definition remove_reference (dir : Z) (name : list Z) (ino : Z) : om Z :=
  e ← ask;
  r ← oget refs;
  if negb (e =? 0) then mret e
  else if decide ((dir, name, ino) ∈ r) then oput (set_refs (r ∖ {[(dir, name, ino)]}));; mret 0
  else mret (- ENOENT).

Definition remove_record (ino : Z) : om Z :=
  e ← ask;
  bodies ← oget records;
  if negb (e =? 0) then mret e
  else match bodies !! ino with
       | None => mret (- ENOENT)
       | Some _ => oput (set_records (delete ino bodies));; mret 0
       end.

(** The end of [vdfs4_unlink] after the label keep: the number of entries of the
    directory. *)
Definition unlink_keep (dir : Z) : om Z :=
  modify dir (fun d => if negb (i_size d =? 0) then set_size (i_size d - 1) d else d);; mret 0.

(** [vdfs4_unlink] after the reference of a hard link is removed; [nlink] links are
    left. *)
Definition unlink_dropped (dir ino nlink : Z) : om Z :=
  if negb (nlink =? 0) then unlink_keep dir
  else
    ret ← vdfs4_add_to_orphan ino;
    if negb (ret =? 0) then modify ino (set_nlink (nlink + 1));; mret ret
    else
      ret ← vdfs4_write_inode_nolock ino;
      if negb (ret =? 0) then fatal_error;; modify ino (set_nlink (nlink + 1));; mret ret
      else unlink_keep dir.

(** [vdfs4_unlink] without the times it sets. *)
Definition vdfs4_unlink (dir : Z) (name : list Z) (ino : Z) : om Z :=
  v ← inode ino;
  if i_nlink v =? 0 then mret (- EFAULT)
  else
    let nlink := i_nlink v - 1 in
    modify ino (set_nlink nlink);;
    olift (bug_on (VDFS4_LINK_MAX <? nlink));;
    ret ← (if hard_link v then remove_reference dir name ino
           else if negb (nlink =? 0) then mret (- EFAULT) else mret 0);
    if negb (ret =? 0) then modify ino (set_nlink (nlink + 1));; mret ret
    else unlink_dropped dir ino nlink.

(** ** Eviction *)

(** [vdfs4_free_inode_n] for one number. *)
Definition vdfs4_free_inode_n (ino : Z) : om Z :=
  e ← ask;
  if negb (e =? 0) then mret e
  else
    bm ← oget numbers;
    if decide (ino ∈ bm) then oput (set_numbers (bm ∖ {[ino]}));; mret 0 else olift Bug.

Definition has_blocks (k : kind) : bool := match k with Reg | Lnk => true | _ => false end.

(** The part of [vdfs4_evict_inode] inside its transaction. *)
Definition evict_delete (ino : Z) : om unit :=
  error ← ask;
  if negb (error =? 0) then fatal_error
  else
    v ← inode ino;
    error ← (if has_blocks (i_kind v) then ask else mret 0);
    if negb (error =? 0) then fatal_error
    else
      (if has_blocks (i_kind v) then modify ino (set_size 0) else mret tt);;
      error ← remove_record ino;
      if negb (error =? 0) then fatal_error
      else
        vdfs4_del_from_orphan ino;;
        vdfs4_free_inode_n ino;;
        oput (fun s => if decide (i_kind v = Dir) then set_counts (files_count s) (folders_count s - 1) s
                       else set_counts (files_count s - 1) (folders_count s) s).

(** The memory of an inode is freed after its eviction; an entry of the orphan list
    that it still has is left behind. *)
Definition free_inode (ino : Z) : om unit :=
  oput (fun s =>
    set_cache (delete ino (cache s))
      (match split_at ino (order s) with
       | None => s
       | Some (A, B) => set_order (A ++ None :: B) s
       end)).

(** [vdfs4_evict_inode] of an inode of the catalog, without its pages. *)
Definition vdfs4_evict_inode (ino : Z) : om unit :=
  v ← inode ino;
  (if has_blocks (i_kind v) then
     oput (fun s => set_reserved (reserved s - runtime v) s);; modify ino (set_runtime 0)
   else mret tt);;
  (if i_nlink v =? 0 then evict_delete ino else mret tt);;
  free_inode ino.

(** ** After a mount *)

(** [vdfs4_iget]: the number and whether the inode was in memory before. *)
Definition vdfs4_iget (ino : Z) : om (res bool) :=
  c ← oget cache;
  match c !! ino with
  | Some _ => mret (Val true)
  | None =>
      e ← ask;
      bodies ← oget records;
      if negb (e =? 0) then mret (Err e)
      else match bodies !! ino with
           | None => mret (Err (- ENOENT))
           | Some b => oput (set_cache (<[ino := inode_of b]> c));; mret (Val false)
           end
  end.

(** The loop of [vdfs4_process_orphan_inodes]. Every turn that ends without an error
    removes a record of the catalog or is followed by a fault. *)
Fixpoint orphan_loop (fuel : nat) : om Z :=
  root ← inode VDFS4_ROOT_INO;
  let ino := next_orphan_id root in
  if ino =? 0 then mret 0
  else
    match fuel with
    | O => olift Fault
    | S fuel =>
        r ← vdfs4_iget ino;
        match r with
        | Err _ => mret (- EINVAL)
        | Val held =>
            v ← inode ino;
            if negb (i_nlink v =? 0) || negb (orphan_inode v) then fatal_error;; mret (- EINVAL)
            else
              list_add_tail ino;;
              (if held : bool then mret tt else vdfs4_evict_inode ino);;
              orphan_loop fuel
        end
    end.

(** [vdfs4_process_orphan_inodes] *)
Definition vdfs4_process_orphan_inodes : om Z :=
  n ← oget (fun s => base.size (records s)); orphan_loop (S n).

(** The part of [vdfs4_fill_super] that fetches the root directory (its record is
    found by name), puts it on the orphan list and removes the orphans. *)
Definition mount_orphans : om Z :=
  oput (fun s => set_cache ∅ (set_order [] s));;
  root ← vdfs4_iget VDFS4_ROOT_INO;
  match root with
  | Err e => mret e
  | Val _ =>
      list_add_tail VDFS4_ROOT_INO;;
      vdfs4_process_orphan_inodes
  end.
