(* ===== verification/OrphanTheorems.v ===== *)
(** What the orphan list promises: whatever was unlinked and not yet removed when
    the system stopped is removed at the next mount, and nothing else
    (src/linux/fs/vdfs4/orphan.c). *)

From Stdlib Require Import ZArith Lia Bool List.
From stdpp Require Import base list gmap sets relations.
From S2P Require Import Prelude Orphan.

Open Scope Z_scope.

#[local] Abbreviation ROOT := VDFS4_ROOT_INO.

(** ** Running the actions *)

Lemma om_bind_ok {A B : Type} (m : om A) (f : A -> om B) (s s' : osb) (a : A) :
  m s = Ok (a, s') -> (m ≫= f) s = f a s'.
Proof. intros E; unfold mbind, om_bind; by rewrite E. Qed.

Ltac ostep H := rewrite (om_bind_ok _ _ _ _ _ H); cbn beta iota.

Lemma inode_ok (ino : Z) (v : vinode) (s : osb) : cache s !! ino = Some v -> inode ino s = Ok (v, s).
Proof. unfold inode; by intros ->. Qed.

Lemma modify_ok (ino : Z) (f : vinode -> vinode) (v : vinode) (s : osb) :
  cache s !! ino = Some v -> modify ino f s = Ok (tt, set_cache (<[ino := f v]> (cache s)) s).
Proof. intros H; unfold modify; by ostep (inode_ok ino v s H). Qed.

Lemma answer_ok (s : osb) : answers s = [] -> ask s = Ok (0, s).
Proof. unfold ask; by intros ->. Qed.

Lemma oget_ok {A : Type} (f : osb -> A) (s : osb) : oget f s = Ok (f s, s).
Proof. done. Qed.

Lemma oput_ok (f : osb -> osb) (s : osb) : oput f s = Ok (tt, f s).
Proof. done. Qed.

Lemma olift_ok {A : Type} (m : run A) (a : A) (s : osb) : m = Ok a -> olift m s = Ok (a, s).
Proof. by intros ->. Qed.

Lemma write_ok (ino : Z) (v : vinode) (b : body) (s : osb) :
  cache s !! ino = Some v -> records s !! ino = Some b -> answers s = [] ->
  vdfs4_write_inode_nolock ino s = Ok (0, set_records (<[ino := body_of v]> (records s)) s).
Proof.
  intros Hv Hb Ha; unfold vdfs4_write_inode_nolock; ostep (inode_ok ino v s Hv); ostep (answer_ok s Ha); ostep (oget_ok records s); by rewrite Hb.
Qed.

(** ** The list *)

Lemma split_at_mid (x : Z) (A B : list Z) :
  x ∉ A -> split_at x (map Some (A ++ x :: B)) = Some (map Some A, map Some B).
Proof.
  induction A as [|a A IH]; cbn; intros Hx; [by rewrite decide_True|]; apply not_elem_of_cons in Hx as [Hne Hx].
  rewrite decide_False by congruence; by rewrite IH.
Qed.

Lemma split_at_none (x : Z) (l : list Z) : x ∉ l -> split_at x (map Some l) = None.
Proof.
  induction l as [|a l IH]; cbn; intros Hx; [done|]; apply not_elem_of_cons in Hx as [Hne Hx].
  rewrite decide_False by congruence; by rewrite IH.
Qed.

Lemma last_alive (l : list Z) : alive (last (map Some l)) = true.
Proof. change (map Some l) with (Some <$> l); rewrite fmap_last; by destruct (last l). Qed.

Lemma head_alive (l : list Z) : alive (head (map Some l)) = true.
Proof. by destruct l. Qed.

(** The next entry of a list, 0 behind the last one. *)
Fixpoint next_of (l : list Z) (x : Z) : Z :=
  match l with
  | [] => 0
  | a :: l => if a =? x then hd 0 l else next_of l x
  end.

Lemma next_of_mid (x : Z) (A B : list Z) : x ∉ A -> next_of (A ++ x :: B) x = hd 0 B.
Proof.
  induction A as [|a A IH]; cbn; intros Hx; [by rewrite Z.eqb_refl|]; apply not_elem_of_cons in Hx as [Hne Hx].
  rewrite (proj2 (Z.eqb_neq _ _)) by congruence; auto.
Qed.

Lemma next_of_app (x : Z) (A B C : list Z) : x ∈ A -> last A <> Some x -> next_of (A ++ B) x = next_of (A ++ C) x.
Proof.
  induction A as [|a A IH]; cbn [app next_of]; intros Hx Hl; [by apply elem_of_nil in Hx|].
  destruct (Z.eqb_spec a x) as [->|Hne]; [destruct A; [done|done]|]; apply elem_of_cons in Hx as [->|Hx]; [done|].
  apply IH; [done|]; intros E; apply Hl; rewrite last_cons, E; done.
Qed.

Lemma next_of_skip (x : Z) (A B : list Z) : x ∉ A -> next_of (A ++ B) x = next_of B x.
Proof.
  induction A as [|a A IH]; cbn; intros Hx; [done|]; apply not_elem_of_cons in Hx as [Hne Hx].
  rewrite (proj2 (Z.eqb_neq _ _)) by congruence; auto.
Qed.

(** ** Adding and deleting *)

Lemma add_orphan_spec (s : osb) (A : list Z) (p ino : Z) (v pv : vinode) (b : body) :
  order s = map Some (A ++ [p]) -> ino ∉ A ++ [p] -> cache s !! ino = Some v -> cache s !! p = Some pv -> next_orphan_id pv = 0 ->
  records s !! p = Some b -> answers s = [] ->
  vdfs4_add_to_orphan ino s
  = Ok (0, set_records (<[p := body_of (set_next ino pv)]> (records s))
             (set_order (map Some (A ++ [p; ino]))
                (set_cache (<[p := set_next ino pv]> (<[ino := set_next 0 (set_orphan true v)]> (cache s))) s))).
Proof.
  intros Ho Hi Hv Hp Hn Hb Ha; assert (p <> ino) as Hpi by set_solver; unfold vdfs4_add_to_orphan.
  ostep (modify_ok ino (set_orphan true) v s Hv); set (s1 := set_cache _ s).
  assert (cache s1 !! ino = Some (set_orphan true v)) as Hv1 by apply lookup_insert_eq; ostep (modify_ok ino (set_next 0) _ s1 Hv1).
  set (s2 := set_cache _ s1); assert (list_add_tail ino s2 = Ok (tt, set_order (map Some (A ++ [p; ino])) s2)) as E1.
  { unfold list_add_tail; ostep (oget_ok order s2); cbn [order s2 s1 set_cache]; rewrite Ho, split_at_none, last_alive by done.
    rewrite oput_ok; do 3 f_equal; change [Some ino] with (map Some [ino]); by rewrite <- map_app, <- app_assoc. }
  ostep E1; set (s3 := set_order _ s2); assert (prev_orphan ino s3 = Ok (p, s3)) as E2.
  { unfold prev_orphan; ostep (oget_ok order s3); cbn [order s3 set_order].
    change (A ++ [p; ino]) with (A ++ [p] ++ [ino]); rewrite app_assoc, split_at_mid by done; rewrite map_app; cbn [map]; by rewrite last_snoc. }
  ostep E2; assert (cache s3 !! p = Some pv) as Hp3 by (cbn; by rewrite !lookup_insert_ne by done).
  ostep (inode_ok p pv s3 Hp3); rewrite Hn; ostep (olift_ok (bug_on (negb (0 =? 0))) tt s3 eq_refl); ostep (modify_ok p (set_next ino) pv s3 Hp3).
  set (s4 := set_cache _ s3); assert (cache s4 !! p = Some (set_next ino pv)) as Hp4 by apply lookup_insert_eq.
  ostep (write_ok p (set_next ino pv) b s4 Hp4 Hb Ha); do 2 f_equal; unfold s4, s3, s2, s1; destruct s; cbn; f_equal; by rewrite insert_insert_eq.
Qed.

Lemma del_orphan_spec (s : osb) (A B : list Z) (p ino : Z) (v pv : vinode) (b : body) :
  order s = map Some (A ++ p :: ino :: B) -> ino ∉ A ++ [p] -> cache s !! ino = Some v -> cache s !! p = Some pv -> next_orphan_id pv = ino ->
  records s !! p = Some b -> answers s = [] ->
  vdfs4_del_from_orphan ino s
  = Ok (tt, set_order (map Some (A ++ p :: B))
              (set_cache (<[ino := set_next FINAL_ORPHAN_ID (set_orphan false v)]> (<[p := set_next (next_orphan_id v) pv]> (cache s)))
                 (set_records (<[p := body_of (set_next (next_orphan_id v) pv)]> (records s)) s))).
Proof.
  intros Ho Hi Hv Hp Hn Hb Ha; assert (p <> ino) as Hpi by set_solver; unfold vdfs4_del_from_orphan.
  assert (A ++ p :: ino :: B = (A ++ [p]) ++ ino :: B) as EL by (by rewrite <- app_assoc); rewrite EL in Ho.
  ostep (oget_ok order s); rewrite Ho, split_at_mid by done; assert (prev_orphan ino s = Ok (p, s)) as E1.
  { unfold prev_orphan; ostep (oget_ok order s); rewrite Ho, split_at_mid by done; rewrite map_app; cbn [map]; by rewrite last_snoc. }
  ostep E1; ostep (inode_ok p pv s Hp); rewrite Hn, Z.eqb_refl; ostep (olift_ok (bug_on (negb true)) tt s eq_refl); ostep (inode_ok ino v s Hv).
  ostep (modify_ok p (set_next (next_orphan_id v)) pv s Hp); set (s1 := set_cache _ s).
  assert (cache s1 !! p = Some (set_next (next_orphan_id v) pv)) as Hp1 by apply lookup_insert_eq.
  ostep (write_ok p _ b s1 Hp1 Hb Ha); change (negb (0 =? 0)) with false; cbn iota; set (s2 := set_records _ s1).
  rewrite (om_bind_ok (mret tt) _ s2 s2 tt eq_refl); assert (cache s2 !! ino = Some v) as Hv2 by (cbn; by rewrite lookup_insert_ne by done).
  ostep (modify_ok ino (set_orphan false) v s2 Hv2); set (s3 := set_cache _ s2); assert (cache s3 !! ino = Some (set_orphan false v)) as Hv3 by apply lookup_insert_eq.
  ostep (modify_ok ino (set_next FINAL_ORPHAN_ID) _ s3 Hv3); set (s4 := set_cache _ s3); unfold list_del_init; ostep (oget_ok order s4).
  change (order s4) with (order s); rewrite Ho, split_at_mid, last_alive, head_alive by done; cbn [andb]; rewrite oput_ok; do 2 f_equal.
  unfold s4, s3, s2, s1; destruct s; cbn; f_equal; [by rewrite <- map_app, <- app_assoc|by rewrite insert_insert_eq].
Qed.

#[local] Arguments next_of : simpl never.

(** ** The invariant *)

(** The orphans are [l]: the list in memory, the inodes and the records on the
    volume agree on their order; the orphans are the inodes without a link. No call to
    the catalog or for memory is going to fail; [orphans_are] says the same of a volume
    whatever its calls are going to answer, and the theorem asks for [calls_answered]
    apart from it. *)
Record consistent (s : osb) (l : list Z) : Prop := {
  co_order : order s = map Some (ROOT :: l);
  co_nodup : NoDup (ROOT :: l);
  co_cached : forall x, x ∈ ROOT :: l -> is_Some (cache s !! x);
  co_next : forall x v, cache s !! x = Some v -> x ∈ ROOT :: l -> next_orphan_id v = next_of (ROOT :: l) x;
  co_inode : forall x v, cache s !! x = Some v ->
    (orphan_inode v = true <-> x ∈ l) /\ (i_nlink v = 0 <-> x ∈ l) /\ is_Some (records s !! x);
  co_body : forall x b, records s !! x = Some b -> (b_orphan b = true <-> x ∈ l) /\ (links_count b = 0 <-> x ∈ l);
  co_written : forall x b, records s !! x = Some b -> x ∈ ROOT :: l -> b_next b = next_of (ROOT :: l) x;
  co_numbers : forall x b, records s !! x = Some b -> x <> 0 /\ x ∈ numbers s;
  co_answers : answers s = []
}.

Definition orphans_are (s : osb) (l : list Z) : Prop := consistent (set_answers [] s) l.

(** No call fails. *)
Definition calls_answered (s : osb) : Prop := answers s = [].

(** A store into an inode that is neither about the list nor removes its last
    link. *)
Lemma consistent_inode (s : osb) (l : list Z) (x : Z) (v v' : vinode) :
  consistent s l -> cache s !! x = Some v -> orphan_inode v' = orphan_inode v -> next_orphan_id v' = next_orphan_id v ->
  (i_nlink v' = 0 <-> i_nlink v = 0) -> consistent (set_cache (<[x := v']> (cache s)) s) l.
Proof.
  intros [C1 C2 C3 C4 C5 C6 C7 C8 C9] Hx Eo En El; split; cbn; auto.
  - intros y Hy; destruct (decide (x = y)) as [->|]; [rewrite lookup_insert_eq; eauto|rewrite lookup_insert_ne by done; auto].
  - intros y w; destruct (decide (x = y)) as [->|]; [rewrite lookup_insert_eq; intros [= <-]; rewrite En; eauto|rewrite lookup_insert_ne by done; eauto].
  - intros y w; destruct (decide (x = y)) as [->|]; [rewrite lookup_insert_eq; intros [= <-]|rewrite lookup_insert_ne by done; eauto].
    destruct (C5 y v Hx) as (H1 & H2 & H3); rewrite Eo, El; auto.
Qed.

Lemma consistent_refs (s : osb) (l : list Z) (r : gset (Z * list Z * Z)) : consistent s l -> consistent (set_refs r s) l.
Proof. intros [C1 C2 C3 C4 C5 C6 C7 C8 C9]; by split. Qed.

(** The end of an unlink. *)
Lemma keep_spec (dir : Z) (s : osb) (l : list Z) :
  consistent s l -> is_Some (cache s !! dir) -> exists s', unlink_keep dir s = Ok (0, s') /\ consistent s' l.
Proof.
  intros C (d & Ed); unfold unlink_keep.
  ostep (modify_ok dir (fun d => if negb (i_size d =? 0) then set_size (i_size d - 1) d else d) d s Ed); eexists; split; [reflexivity|].
  eapply consistent_inode; [exact C|exact Ed|..]; by destruct (negb _).
Qed.

(** Writing an inode leaves the orphans as they are. *)
Lemma write_consistent (s : osb) (l : list Z) (x : Z) (v : vinode) :
  consistent s l -> cache s !! x = Some v -> consistent (set_records (<[x := body_of v]> (records s)) s) l.
Proof.
  intros C Hx; pose proof C as [C1 C2 C3 C4 C5 C6 C7 C8 C9]; destruct (C5 x v Hx) as (H1 & H2 & (b & Hb)); split; cbn; auto.
  - intros y w Hy; destruct (C5 y w Hy) as (G1 & G2 & G3); split; [done|]; split; [done|].
    destruct (decide (x = y)) as [->|]; [rewrite lookup_insert_eq; eauto|by rewrite lookup_insert_ne by done].
  - intros y w; destruct (decide (x = y)) as [->|]; [rewrite lookup_insert_eq; intros [= <-]; done|rewrite lookup_insert_ne by done; eauto].
  - intros y w; destruct (decide (x = y)) as [->|]; [rewrite lookup_insert_eq; intros [= <-]; cbn; eauto|rewrite lookup_insert_ne by done; eauto].
  - intros y w; destruct (decide (x = y)) as [->|]; [intros _; eauto|rewrite lookup_insert_ne by done; eauto].
Qed.

(** A new last entry. *)
Lemma next_of_snoc (L : list Z) (p ino x : Z) :
  NoDup (L ++ [p; ino]) -> x ∈ L ++ [p; ino] ->
  next_of (L ++ [p; ino]) x = if x =? p then ino else if x =? ino then 0 else next_of (L ++ [p]) x.
Proof.
  intros Hnd Hx; assert (p ∉ L /\ ino ∉ L ++ [p]) as [Hp Hi].
  { change (L ++ [p; ino]) with (L ++ [p] ++ [ino]) in Hnd; rewrite app_assoc in Hnd; apply NoDup_app in Hnd as (Hnd & Hd & _).
    apply NoDup_app in Hnd as (_ & Hd' & _); set_solver. }
  destruct (Z.eqb_spec x p) as [->|Hxp]; [by rewrite next_of_mid|]; destruct (Z.eqb_spec x ino) as [->|Hxi].
  - change (L ++ [p; ino]) with (L ++ [p] ++ [ino]); rewrite app_assoc; by rewrite next_of_mid.
  - change [p; ino] with ([p] ++ [ino]); rewrite app_assoc, (next_of_app x (L ++ [p]) [ino] []), app_nil_r; [done|set_solver|].
    rewrite last_snoc; congruence.
Qed.

(** The state after the last link of an inode is removed. *)
Lemma orphaned (s s' : osb) (l A : list Z) (p ino : Z) (v pv : vinode) :
  consistent s l -> ROOT :: l = A ++ [p] -> cache s !! ino = Some v -> cache s !! p = Some pv -> ino ∉ ROOT :: l ->
  (let v' := set_next 0 (set_orphan true (set_nlink 0 v)) in let pv' := set_next ino pv in
   order s' = map Some (A ++ [p; ino]) /\ cache s' = <[p := pv']> (<[ino := v']> (cache s))
   /\ records s' = <[ino := body_of v']> (<[p := body_of pv']> (records s)) /\ numbers s' = numbers s /\ answers s' = []) ->
  consistent s' (l ++ [ino]).
Proof.
  intros [C1 C2 C3 C4 C5 C6 C7 C8 C9] EL Hv Hp Hi (Eo & Ec & Er & En & Ea).
  assert (ROOT :: l ++ [ino] = A ++ [p; ino]) as EL' by (change (ROOT :: l ++ [ino]) with ((ROOT :: l) ++ [ino]); by rewrite EL, <- app_assoc).
  assert (p <> ino) as Hpi by (rewrite EL in Hi; set_solver).
  assert (NoDup (A ++ [p; ino])) as Hnd.
  { change (A ++ [p; ino]) with (A ++ [p] ++ [ino]); rewrite app_assoc, <- EL; apply NoDup_app; split; [done|]; split; [set_solver|apply NoDup_singleton]. }
  destruct (C5 ino v Hv) as (_ & _ & (bi & Hbi)); destruct (C5 p pv Hp) as (P1 & P2 & (bp & Hbp)).
  assert (p ∈ l <-> p ∈ l ++ [ino]) as Hpl by set_solver.
  assert (forall x, x <> p -> x <> ino -> x ∈ ROOT :: l ++ [ino] -> x ∈ ROOT :: l /\ next_of (A ++ [p; ino]) x = next_of (ROOT :: l) x) as Hother.
  { intros x Hxp Hxi Hx; split; [set_solver|]; rewrite EL' in Hx; rewrite next_of_snoc by done; rewrite EL.
    rewrite (proj2 (Z.eqb_neq x p)), (proj2 (Z.eqb_neq x ino)) by done; done. }
  split; rewrite ?EL', ?Eo, ?Ec, ?Er, ?En, ?Ea; auto.
  - intros x Hx; destruct (decide (p = x)) as [->|]; [rewrite lookup_insert_eq; eauto|rewrite lookup_insert_ne by done].
    destruct (decide (ino = x)) as [->|]; [rewrite lookup_insert_eq; eauto|rewrite lookup_insert_ne by done]; apply C3; rewrite EL; set_solver.
  - intros x w Hw Hx; rewrite next_of_snoc by done; destruct (Z.eqb_spec x p) as [->|]; [rewrite lookup_insert_eq in Hw; by injection Hw as <-|].
    rewrite lookup_insert_ne in Hw by done; destruct (Z.eqb_spec x ino) as [->|]; [rewrite lookup_insert_eq in Hw; by injection Hw as <-|].
    rewrite lookup_insert_ne in Hw by done; rewrite <- EL; apply C4; [done|rewrite EL; set_solver].
  - intros x w; destruct (decide (p = x)) as [->|]; [rewrite lookup_insert_eq; intros [= <-]|rewrite (lookup_insert_ne _ p) by done].
    + rewrite <- Hpl; split; [done|]; split; [done|]; rewrite lookup_insert_ne by done; rewrite lookup_insert_eq; eauto.
    + destruct (decide (ino = x)) as [->|].
      * rewrite lookup_insert_eq; intros [= <-]; cbn; rewrite lookup_insert_eq; split; [set_solver|]; split; [set_solver|eauto].
      * rewrite lookup_insert_ne by done; intros Hw; destruct (C5 x w Hw) as (H1 & H2 & H3); rewrite !(lookup_insert_ne _ ino), (lookup_insert_ne _ p) by done.
        split; [rewrite H1; set_solver|]; split; [rewrite H2; set_solver|done].
  - intros x w; destruct (decide (ino = x)) as [->|]; [rewrite lookup_insert_eq; intros [= <-]; cbn; split; set_solver|rewrite lookup_insert_ne by done].
    destruct (decide (p = x)) as [->|].
    + rewrite lookup_insert_eq; intros [= <-]; cbn; rewrite P1, P2; split; done.
    + rewrite lookup_insert_ne by done; intros Hw; destruct (C6 x w Hw) as [H1 H2]; split; [rewrite H1; set_solver|rewrite H2; set_solver].
  - intros x w Hw Hx; destruct (decide (ino = x)) as [->|]; [rewrite lookup_insert_eq in Hw; injection Hw as <-|rewrite lookup_insert_ne in Hw by done].
    + rewrite next_of_snoc by done; rewrite (proj2 (Z.eqb_neq x p)), Z.eqb_refl by done; done.
    + destruct (decide (p = x)) as [->|]; [rewrite lookup_insert_eq in Hw; injection Hw as <-; rewrite next_of_snoc, Z.eqb_refl by done; done|].
      rewrite lookup_insert_ne in Hw by done; destruct (Hother x) as [Hx' ->]; [done|done|by rewrite EL'|]; by apply C7.
  - intros x w; destruct (decide (ino = x)) as [->|]; [intros _; eauto|rewrite lookup_insert_ne by done].
    destruct (decide (p = x)) as [->|]; [intros _; eauto|rewrite lookup_insert_ne by done; eauto].
Qed.

(** ** Unlinking *)

(** Adding an inode with no link left, and writing it. *)
Lemma unlink_last (s : osb) (l : list Z) (ino : Z) (v : vinode) :
  consistent s l -> cache s !! ino = Some v -> ino <> ROOT -> ino ∉ l ->
  exists s2 s3, vdfs4_add_to_orphan ino (set_cache (<[ino := set_nlink 0 v]> (cache s)) s) = Ok (0, s2)
  /\ vdfs4_write_inode_nolock ino s2 = Ok (0, s3) /\ consistent s3 (l ++ [ino]) /\ (forall x, is_Some (cache s !! x) -> is_Some (cache s3 !! x)).
Proof.
  intros C Hv Hr Hl; pose proof C as [C1 C2 C3 C4 C5 C6 C7 C8 C9]; assert (ino ∉ ROOT :: l) as Hi by (apply not_elem_of_cons; auto).
  destruct (exists_last (l := ROOT :: l) ltac:(done)) as (A & p & EL); destruct (C3 p) as (pv & Hp); [rewrite EL; set_solver|].
  assert (p <> ino) as Hpi by (rewrite EL in Hi; set_solver); destruct (C5 p pv Hp) as (_ & _ & (bp & Hbp)); destruct (C5 ino v Hv) as (_ & _ & (bi & Hbi)).
  assert (p ∉ A) as HpA by (rewrite EL in C2; apply NoDup_app in C2 as (_ & Hd & _); intros Hin; apply (Hd p Hin); set_solver).
  assert (next_orphan_id pv = 0) as Hn by (rewrite (C4 p pv Hp) by (rewrite EL; set_solver); rewrite EL; by rewrite next_of_mid).
  set (s1 := set_cache _ s); assert (cache s1 !! ino = Some (set_nlink 0 v)) as Hv1 by apply lookup_insert_eq.
  assert (cache s1 !! p = Some pv) as Hp1 by (cbn; by rewrite lookup_insert_ne by done).
  rewrite EL in C1, Hi; rewrite (add_orphan_spec s1 A p ino (set_nlink 0 v) pv bp C1 Hi Hv1 Hp1 Hn Hbp C9).
  eexists _, _; split; [reflexivity|]; split; [|split].
  - apply (write_ok ino (set_next 0 (set_orphan true (set_nlink 0 v))) bi); [cbn; rewrite lookup_insert_ne by done; apply lookup_insert_eq| |done].
    cbn; by rewrite lookup_insert_ne by done.
  - eapply orphaned; [exact C|exact EL|exact Hv|exact Hp|by rewrite EL|]; cbn; rewrite insert_insert_eq; done.
  - intros x Hx; cbn; rewrite !lookup_insert_is_Some'; auto.
Qed.

(** A link less, and the references that are left. *)
#[local] Abbreviation dropped ino v r s := (set_refs r (set_cache (<[ino := set_nlink (i_nlink v - 1) v]> (cache s)) s)).

Section Unlink.
Context (s : osb) (l : list Z) (dir ino : Z) (v : vinode).
Context (C : consistent s l) (Hv : cache s !! ino = Some v) (Hr : ino <> ROOT) (Hd : is_Some (cache s !! dir)) (Hn : i_nlink v <> 0).

Lemma dropped_spec (r : gset (Z * list Z * Z)) :
  exists s', unlink_dropped dir ino (i_nlink v - 1) (dropped ino v r s) = Ok (0, s') /\ consistent s' (if (i_nlink v =? 1) then l ++ [ino] else l).
Proof using All.
  assert (consistent (set_refs r s) l) as Cr by (by apply consistent_refs); unfold unlink_dropped.
  assert (ino ∉ l) as Hl by (intros Hin; apply Hn; by apply (co_inode _ _ C ino v Hv)).
  destruct (Z.eqb_spec (i_nlink v) 1) as [E1|Ne].
  - destruct (unlink_last (set_refs r s) l ino v Cr Hv Hr Hl) as (s3 & s4 & E3 & E4 & C4 & D4).
    replace (i_nlink v - 1) with 0 by lia; cbn [Z.eqb negb].
    change (dropped ino v r s) with (set_cache (<[ino:=set_nlink (i_nlink v - 1) v]> (cache (set_refs r s))) (set_refs r s)).
    replace (i_nlink v - 1) with 0 by lia; ostep E3; cbn [Z.eqb negb]; ostep E4; cbn [Z.eqb negb]; apply keep_spec; auto.
  - rewrite (proj2 (Z.eqb_neq (i_nlink v - 1) 0)) by lia; cbn [negb]; apply keep_spec.
    + apply (consistent_inode (set_refs r s) l ino v (set_nlink (i_nlink v - 1) v) Cr Hv); [done|done|cbn; lia].
    + cbn; rewrite lookup_insert_is_Some'; auto.
Qed.

(** The link comes back after an error. *)
Lemma undropped (e : Z) :
  exists s', (modify ino (set_nlink (i_nlink v - 1 + 1));; mret e) (dropped ino v (refs s) s) = Ok (e, s') /\ s' = s.
Proof using All.
  assert (cache (dropped ino v (refs s) s) !! ino = Some (set_nlink (i_nlink v - 1) v)) as Hv1 by apply lookup_insert_eq.
  ostep (modify_ok ino (set_nlink (i_nlink v - 1 + 1)) _ _ Hv1); eexists; split; [reflexivity|].
  replace (i_nlink v - 1 + 1) with (i_nlink v) by lia; replace (set_nlink (i_nlink v) (set_nlink (i_nlink v - 1) v)) with v by (by destruct v).
  destruct s; unfold set_refs, set_cache; cbn in *; by rewrite insert_insert_eq, insert_id.
Qed.

End Unlink.

(** The code [vdfs4_unlink] returns. *)
Definition unlink_code (s : osb) (dir : Z) (name : list Z) (ino : Z) (v : vinode) : Z :=
  if i_nlink v =? 0 then - EFAULT
  else if hard_link v then (if decide ((dir, name, ino) ∈ refs s) then 0 else - ENOENT)
  else if i_nlink v =? 1 then 0 else - EFAULT.

Lemma unlink_spec (s : osb) (l : list Z) (dir ino : Z) (name : list Z) (v : vinode) :
  consistent s l -> cache s !! ino = Some v -> ino <> ROOT -> is_Some (cache s !! dir) -> i_nlink v <= VDFS4_LINK_MAX ->
  exists s', let e := unlink_code s dir name ino v in
    vdfs4_unlink dir name ino s = Ok (e, s') /\ consistent s' (if (e =? 0) && (i_nlink v =? 1) then l ++ [ino] else l).
Proof.
  intros C Hv Hr Hd Hmax; unfold vdfs4_unlink, unlink_code; cbn zeta; ostep (inode_ok ino v s Hv).
  destruct (Z.eqb_spec (i_nlink v) 0) as [|Hn]; [by exists s|]; ostep (modify_ok ino (set_nlink (i_nlink v - 1)) v s Hv).
  rewrite (proj2 (Z.ltb_ge _ _)) by lia; set (s1 := set_cache _ s); ostep (olift_ok (bug_on false) tt s1 eq_refl).
  assert (s1 = dropped ino v (refs s) s) as Es1 by (by destruct s); assert (answers s1 = []) as Ha1 by apply (co_answers _ _ C).
  destruct (hard_link v).
  - destruct (decide ((dir, name, ino) ∈ refs s)) as [Hin|Hout].
    + assert (remove_reference dir name ino s1 = Ok (0, set_refs (refs s ∖ {[(dir, name, ino)]}) s1)) as E
        by (unfold remove_reference; ostep (answer_ok s1 Ha1); ostep (oget_ok refs s1); cbn [Z.eqb negb]; by rewrite decide_True by done).
      ostep E; cbn [Z.eqb negb andb]; by apply dropped_spec.
    + assert (remove_reference dir name ino s1 = Ok (- ENOENT, s1)) as E
        by (unfold remove_reference; ostep (answer_ok s1 Ha1); ostep (oget_ok refs s1); cbn [Z.eqb negb]; by rewrite decide_False by done).
      ostep E; rewrite Es1; destruct (undropped s l dir ino v C Hv Hr Hd Hn (- ENOENT)) as (s' & E' & ->); exists s; split; [exact E'|done].
  - destruct (Z.eqb_spec (i_nlink v) 1) as [E1|Ne].
    + rewrite (proj2 (Z.eqb_eq (i_nlink v - 1) 0)) by lia; cbn [negb]; rewrite (om_bind_ok (mret 0) _ s1 s1 0 eq_refl); cbn [Z.eqb negb andb]; rewrite Es1.
      destruct (dropped_spec s l dir ino v C Hv Hr Hd Hn (refs s)) as (s' & E & C'); rewrite E1 in C' at 1; by exists s'.
    + rewrite (proj2 (Z.eqb_neq (i_nlink v - 1) 0)) by lia; cbn [negb]; rewrite (om_bind_ok (mret (- EFAULT)) _ s1 s1 (- EFAULT) eq_refl); rewrite Es1.
      destruct (undropped s l dir ino v C Hv Hr Hd Hn (- EFAULT)) as (s' & E' & ->); exists s; split; [exact E'|done].
Qed.

(** ** Eviction *)

Lemma remove_record_ok (x : Z) (b : body) (s : osb) :
  records s !! x = Some b -> answers s = [] -> remove_record x s = Ok (0, set_records (delete x (records s)) s).
Proof. intros Hb Ha; unfold remove_record; ostep (answer_ok s Ha); ostep (oget_ok records s); cbn [Z.eqb negb]; by rewrite Hb. Qed.

Lemma free_number_ok (x : Z) (s : osb) :
  x ∈ numbers s -> answers s = [] -> vdfs4_free_inode_n x s = Ok (0, set_numbers (numbers s ∖ {[x]}) s).
Proof. intros Hx Ha; unfold vdfs4_free_inode_n; ostep (answer_ok s Ha); cbn [Z.eqb negb]; ostep (oget_ok numbers s); by rewrite decide_True. Qed.

(** The deletion of the orphan [x] behind [p]. *)
Lemma evict_delete_run (s : osb) (A B : list Z) (p x : Z) (v pv : vinode) (bp bx : body) :
  order s = map Some (A ++ p :: x :: B) -> x ∉ A ++ [p] -> cache s !! x = Some v -> cache s !! p = Some pv -> next_orphan_id pv = x ->
  records s !! p = Some bp -> records s !! x = Some bx -> x ∈ numbers s -> answers s = [] ->
  exists s', evict_delete x s = Ok (tt, s') /\ order s' = map Some (A ++ p :: B)
  /\ delete x (cache s') = delete x (<[p := set_next (next_orphan_id v) pv]> (cache s))
  /\ records s' = <[p := body_of (set_next (next_orphan_id v) pv)]> (delete x (records s)) /\ numbers s' = numbers s ∖ {[x]}
  /\ answers s' = [] /\ rdonly s' = rdonly s.
Proof.
  intros Ho Hx Hv Hp Hn Hbp Hbx Hnum Ha; assert (p <> x) as Hpx by set_solver; unfold evict_delete; ostep (answer_ok s Ha); cbn [Z.eqb negb]; ostep (inode_ok x v s Hv).
  assert ((if has_blocks (i_kind v) then ask else mret 0) s = Ok (0, s)) as E1 by (destruct (has_blocks _); [by apply answer_ok|done]); ostep E1; cbn [Z.eqb negb].
  set (v1 := if has_blocks (i_kind v) then set_size 0 v else v); set (s1 := set_cache (<[x := v1]> (cache s)) s).
  assert ((if has_blocks (i_kind v) then modify x (set_size 0) else mret tt) s = Ok (tt, s1)) as E2.
  { unfold s1, v1; destruct (has_blocks _); [by apply modify_ok|]; rewrite insert_id by done; by destruct s. }
  ostep E2; ostep (remove_record_ok x bx s1 Hbx Ha); cbn [Z.eqb negb]; set (s2 := set_records _ s1).
  assert (cache s2 !! x = Some v1) as Hv2 by apply lookup_insert_eq; assert (cache s2 !! p = Some pv) as Hp2 by (cbn; by rewrite lookup_insert_ne by done).
  assert (records s2 !! p = Some bp) as Hbp2 by (cbn; by rewrite lookup_delete_ne by done).
  ostep (del_orphan_spec s2 A B p x v1 pv bp Ho Hx Hv2 Hp2 Hn Hbp2 Ha); set (s3 := set_order _ _).
  ostep (free_number_ok x s3 Hnum Ha); set (s4 := set_numbers _ s3); rewrite oput_ok; eexists; split; [reflexivity|].
  assert (next_orphan_id v1 = next_orphan_id v) as En by (unfold v1; by destruct (has_blocks _)).
  destruct (decide (i_kind v = Dir)); unfold s4, s3, s2, s1; cbn; rewrite En, !delete_insert_eq, (insert_insert_ne _ p x) by done;
    rewrite delete_insert_eq; done.
Qed.

Lemma evict_run (s : osb) (A B : list Z) (p x : Z) (v pv : vinode) (bp bx : body) :
  order s = map Some (A ++ p :: x :: B) -> NoDup (A ++ p :: x :: B) -> cache s !! x = Some v -> cache s !! p = Some pv -> next_orphan_id pv = x ->
  i_nlink v = 0 -> records s !! p = Some bp -> records s !! x = Some bx -> x ∈ numbers s -> answers s = [] ->
  exists s', vdfs4_evict_inode x s = Ok (tt, s') /\ order s' = map Some (A ++ p :: B)
  /\ cache s' = delete x (<[p := set_next (next_orphan_id v) pv]> (cache s))
  /\ records s' = <[p := body_of (set_next (next_orphan_id v) pv)]> (delete x (records s)) /\ numbers s' = numbers s ∖ {[x]}
  /\ answers s' = [] /\ rdonly s' = rdonly s.
Proof.
  intros Ho Hnd Hv Hp Hn Hl Hbp Hbx Hnum Ha; assert (x ∉ A ++ [p] /\ x ∉ A ++ p :: B) as [Hx Hx'].
  { change (A ++ p :: x :: B) with (A ++ [p] ++ x :: B) in Hnd; rewrite app_assoc in Hnd; apply NoDup_app in Hnd as (_ & Hd & Hnd).
    apply NoDup_cons in Hnd as [HB _]; split; set_solver. }
  assert (p <> x) as Hpx by set_solver; unfold vdfs4_evict_inode; ostep (inode_ok x v s Hv).
  assert (exists s1 v1, (if has_blocks (i_kind v) then oput (fun s => set_reserved (reserved s - runtime v) s);; modify x (set_runtime 0) else mret tt) s = Ok (tt, s1)
    /\ next_orphan_id v1 = next_orphan_id v /\ cache s1 = <[x := v1]> (cache s) /\ order s1 = order s /\ records s1 = records s /\ numbers s1 = numbers s
    /\ answers s1 = answers s /\ rdonly s1 = rdonly s) as (s1 & v1 & E1 & En & Ec & Eo & Er & Enum & Ea & Ero).
  { destruct (has_blocks _); [|exists s, v; rewrite insert_id by done; done].
    eexists _, (set_runtime 0 v); split; [ostep (oput_ok (fun s => set_reserved (reserved s - runtime v) s) s); by apply modify_ok|done]. }
  ostep E1; rewrite Hl; cbn [Z.eqb].
  assert (cache s1 !! x = Some v1) as Hv1 by (rewrite Ec; apply lookup_insert_eq); assert (cache s1 !! p = Some pv) as Hp1 by (rewrite Ec, lookup_insert_ne; done).
  destruct (evict_delete_run s1 A B p x v1 pv bp bx) as (s2 & E2 & Eo2 & Ec2 & Er2 & En2 & Ea2 & Ero2); rewrite ?Eo, ?Er, ?Enum, ?Ea; auto.
  ostep E2; unfold free_inode; rewrite oput_ok, Eo2, split_at_none by done; eexists; split; [reflexivity|]; cbn.
  split; [done|]; split; [rewrite Ec2, Ec, (insert_insert_ne _ p x), delete_insert_eq, En by done; done|]; rewrite Er2, En2, Er, Enum, En, Ero2; done.
Qed.

(** A list without one of its entries. *)
Lemma next_of_without (A B : list Z) (p x y : Z) :
  NoDup (A ++ p :: x :: B) -> y <> x -> next_of (A ++ p :: B) y = if y =? p then hd 0 B else next_of (A ++ p :: x :: B) y.
Proof.
  intros Hnd Hy; apply NoDup_app in Hnd as (_ & Hd & Hnd); assert (p ∉ A) as Hp by (intros H; apply (Hd p H); set_solver).
  destruct (Z.eqb_spec y p) as [->|Hyp]; [by rewrite next_of_mid|]; destruct (decide (y ∈ A)) as [HyA|HyA].
  - change (p :: B) with ([p] ++ B); change (p :: x :: B) with ([p] ++ x :: B); rewrite !app_assoc.
    apply next_of_app; [set_solver|]; rewrite last_snoc; congruence.
  - rewrite !next_of_skip by done; unfold next_of at 1 2; rewrite (proj2 (Z.eqb_neq p y)) by done; fold next_of.
    change (next_of B y = (if x =? y then hd 0 B else next_of B y)); by rewrite (proj2 (Z.eqb_neq x y)) by done.
Qed.

Lemma evict_consistent (s : osb) (l1 l2 : list Z) (x : Z) (v : vinode) :
  consistent s (l1 ++ x :: l2) -> cache s !! x = Some v ->
  exists s', vdfs4_evict_inode x s = Ok (tt, s') /\ consistent s' (l1 ++ l2) /\ records s' !! x = None /\ x ∉ numbers s'.
Proof.
  intros C Hv; pose proof C as [C1 C2 C3 C4 C5 C6 C7 C8 C9]; destruct (exists_last (l := ROOT :: l1) ltac:(done)) as (A & p & EL).
  assert (ROOT :: l1 ++ x :: l2 = A ++ p :: x :: l2) as E1 by (change (ROOT :: l1 ++ x :: l2) with ((ROOT :: l1) ++ x :: l2); by rewrite EL, <- app_assoc).
  assert (ROOT :: l1 ++ l2 = A ++ p :: l2) as E2 by (change (ROOT :: l1 ++ l2) with ((ROOT :: l1) ++ l2); by rewrite EL, <- app_assoc).
  rewrite E1 in C1, C2, C3, C4, C7; destruct (C3 p) as (pv & Hp); [set_solver|].
  destruct (C5 x v Hv) as (_ & Hl & (bx & Hbx)); destruct (C5 p pv Hp) as (_ & _ & (bp & Hbp)).
  assert (p ∉ A /\ x ∉ A ++ [p] /\ p <> x /\ x ∉ l2) as (HpA & HxA & Hpx & Hx2).
  { pose proof C2 as Hnd; change (A ++ p :: x :: l2) with (A ++ [p] ++ x :: l2) in Hnd; rewrite app_assoc in Hnd; apply NoDup_app in Hnd as (Hnd & Hd & Hnd').
    apply NoDup_cons in Hnd' as [HB _]; apply NoDup_app in Hnd as (_ & Hd' & _); repeat split; set_solver. }
  assert (next_orphan_id pv = x) as Hn by (rewrite (C4 p pv Hp) by set_solver; by rewrite next_of_mid).
  assert (next_orphan_id v = hd 0 l2) as Hnv.
  { rewrite (C4 x v Hv) by set_solver; change (A ++ p :: x :: l2) with (A ++ [p] ++ x :: l2); rewrite app_assoc; by rewrite next_of_mid. }
  destruct (evict_run s A l2 p x v pv bp bx C1 C2 Hv Hp Hn) as (s' & E & Eo & Ec & Er & Enum & Ea & _); auto; [apply Hl; set_solver|by eapply C8|].
  exists s'; split; [done|]; rewrite Er, Enum, Hnv; split; [|split; [rewrite lookup_insert_ne by done; apply lookup_delete_eq|set_solver]].
  assert (forall y, y <> x -> y ∈ l1 ++ x :: l2 <-> y ∈ l1 ++ l2) as Hmem by set_solver.
  split; rewrite ?E2, ?Eo, ?Ec, ?Er, ?Enum, ?Hnv; auto.
  - apply NoDup_app in C2 as (H1 & H2 & H3); apply NoDup_cons in H3 as [H3 H4]; apply NoDup_cons in H4 as [H4 H5]; apply NoDup_app; split; [done|].
    split; [intros y Hy; specialize (H2 y Hy); set_solver|apply NoDup_cons; set_solver].
  - intros y Hy; assert (y <> x) by set_solver; rewrite lookup_delete_ne by done; rewrite lookup_insert_is_Some'; right; apply C3; set_solver.
  - intros y w Hw Hy; assert (y <> x) as Hyx by (intros ->; by rewrite lookup_delete_eq in Hw); rewrite lookup_delete_ne in Hw by done.
    rewrite (next_of_without A l2 p x y C2 Hyx); destruct (Z.eqb_spec y p) as [->|Hyp]; [rewrite lookup_insert_eq in Hw; by injection Hw as <-|].
    rewrite lookup_insert_ne in Hw by done; apply C4; [done|set_solver].
  - intros y w Hw; assert (y <> x) as Hyx by (intros ->; by rewrite lookup_delete_eq in Hw); rewrite lookup_delete_ne in Hw by done.
    rewrite lookup_insert_is_Some', lookup_delete_ne by done; destruct (decide (p = y)) as [->|Hyp].
    + rewrite lookup_insert_eq in Hw; injection Hw as <-; destruct (C5 y pv Hp) as (H1 & H2 & H3); rewrite <- Hmem by done; auto.
    + rewrite lookup_insert_ne in Hw by done; destruct (C5 y w Hw) as (H1 & H2 & H3); rewrite <- Hmem by done; auto.
  - intros y w Hw; destruct (decide (p = y)) as [->|Hyp].
    + rewrite lookup_insert_eq in Hw; injection Hw as <-; destruct (C5 y pv Hp) as (H1 & H2 & _); rewrite <- Hmem by done; auto.
    + rewrite lookup_insert_ne in Hw by done; assert (y <> x) as Hyx by (intros ->; by rewrite lookup_delete_eq in Hw); rewrite lookup_delete_ne in Hw by done.
      rewrite <- Hmem by done; eauto.
  - intros y w Hw Hy; assert (y <> x) as Hyx by set_solver; rewrite (next_of_without A l2 p x y C2 Hyx); destruct (Z.eqb_spec y p) as [->|Hyp].
    + rewrite lookup_insert_eq in Hw; by injection Hw as <-.
    + rewrite lookup_insert_ne, lookup_delete_ne in Hw by done; apply C7; [done|set_solver].
  - intros y w Hw; assert (y <> x) as Hyx by (intros ->; rewrite lookup_insert_ne, lookup_delete_eq in Hw by done; done).
    destruct (decide (p = y)) as [->|Hyp]; [destruct (C8 y bp Hbp); set_solver|].
    rewrite lookup_insert_ne, lookup_delete_ne in Hw by done; destruct (C8 y w Hw); set_solver.
Qed.

(** An inode that has links, or that is not an orphan, only leaves the memory. *)
Lemma evict_linked (s : osb) (l : list Z) (x : Z) (v : vinode) :
  consistent s l -> cache s !! x = Some v -> x ∉ ROOT :: l ->
  exists s', vdfs4_evict_inode x s = Ok (tt, s') /\ consistent s' l /\ records s' = records s.
Proof.
  intros C Hv Hx; pose proof C as [C1 C2 C3 C4 C5 C6 C7 C8 C9]; unfold vdfs4_evict_inode; ostep (inode_ok x v s Hv).
  assert (exists s1 v1, (if has_blocks (i_kind v) then oput (fun s => set_reserved (reserved s - runtime v) s);; modify x (set_runtime 0) else mret tt) s = Ok (tt, s1)
    /\ cache s1 = <[x := v1]> (cache s) /\ order s1 = order s /\ records s1 = records s /\ numbers s1 = numbers s /\ answers s1 = answers s)
    as (s1 & v1 & E1 & Ec & Eo & Er & En & Ea).
  { destruct (has_blocks _); [|exists s, v; rewrite insert_id by done; done].
    eexists _, (set_runtime 0 v); split; [ostep (oput_ok (fun s => set_reserved (reserved s - runtime v) s) s); by apply modify_ok|done]. }
  ostep E1; assert (i_nlink v =? 0 = false) as -> by (apply Z.eqb_neq; intros E0; apply Hx, elem_of_cons; right; by apply (C5 x v Hv)).
  rewrite (om_bind_ok (mret tt) _ s1 s1 tt eq_refl); unfold free_inode; rewrite oput_ok, Eo, C1, split_at_none by done; eexists; split; [reflexivity|].
  split; [|exact Er]; assert (forall y, delete x (cache s1) !! y = if decide (x = y) then None else cache s !! y) as Hc.
  { intros y; rewrite Ec; destruct (decide (x = y)) as [->|]; [apply lookup_delete_eq|by rewrite lookup_delete_ne, lookup_insert_ne by done]. }
  split; cbn; rewrite ?Eo, ?Er, ?En, ?Ea; auto.
  - intros y Hy; rewrite Hc, decide_False by (intros ->; done); auto.
  - intros y w; rewrite Hc; destruct (decide _); [done|eauto].
  - intros y w; rewrite Hc; destruct (decide _); [done|eauto].
Qed.

(** ** Steps of the mounted volume *)

Inductive step (s : osb) : osb -> Prop :=
| step_unlink (dir : Z) (name : list Z) (ino e : Z) (v : vinode) (s' : osb) :
    cache s !! ino = Some v -> ino <> ROOT -> is_Some (cache s !! dir) -> i_nlink v <= VDFS4_LINK_MAX ->
    vdfs4_unlink dir name ino s = Ok (e, s') -> step s s'
| step_evict (ino : Z) (s' : osb) : ino <> ROOT -> vdfs4_evict_inode ino s = Ok (tt, s') -> step s s'
| step_write (ino e : Z) (s' : osb) : vdfs4_write_inode_nolock ino s = Ok (e, s') -> step s s'
| step_iget (ino : Z) (r : res bool) (s' : osb) : ino ∈ numbers s -> vdfs4_iget ino s = Ok (r, s') -> step s s'.

Lemma iget_consistent (s s' : osb) (l : list Z) (ino : Z) (r : res bool) : consistent s l -> vdfs4_iget ino s = Ok (r, s') -> consistent s' l.
Proof.
  intros C; pose proof C as [C1 C2 C3 C4 C5 C6 C7 C8 C9]; unfold vdfs4_iget; ostep (oget_ok cache s); destruct (cache s !! ino) as [v|] eqn:Ev.
  { intros [= <- <-]; done. }
  ostep (answer_ok s C9); ostep (oget_ok records s); cbn [Z.eqb negb]; destruct (records s !! ino) as [b|] eqn:Eb; [|by intros [= <- <-]].
  ostep (oput_ok (set_cache (<[ino := inode_of b]> (cache s))) s); intros [= <- <-]; destruct (C6 ino b Eb) as [H1 H2]; split; cbn; auto.
  - intros x Hx; rewrite lookup_insert_is_Some'; auto.
  - intros x w Hw Hx; destruct (decide (ino = x)) as [->|]; [rewrite lookup_insert_eq in Hw; injection Hw as <-; by apply C7|].
    rewrite lookup_insert_ne in Hw by done; auto.
  - intros x w Hw; destruct (decide (ino = x)) as [->|]; [rewrite lookup_insert_eq in Hw; injection Hw as <-; cbn; rewrite Eb; eauto|].
    rewrite lookup_insert_ne in Hw by done; auto.
Qed.

Lemma step_consistent (s s' : osb) (l : list Z) : consistent s l -> step s s' -> exists l', consistent s' l'.
Proof.
  intros C [dir name ino e v s1 Hv Hr Hd Hm E|ino s1 Hr E|ino e s1 E|ino r s1 _ E].
  - destruct (unlink_spec s l dir ino name v C Hv Hr Hd Hm) as (s2 & E2 & C2); rewrite E in E2; injection E2 as _ <-; eauto.
  - destruct (cache s !! ino) as [v|] eqn:Hv; [|unfold vdfs4_evict_inode, inode, mbind, om_bind in E; by rewrite Hv in E].
    destruct (decide (ino ∈ l)) as [Hin|Hout].
    + apply list_elem_of_split in Hin as (l1 & l2 & ->); destruct (evict_consistent s l1 l2 ino v C Hv) as (s2 & E2 & C2 & _); rewrite E in E2; injection E2 as <-; eauto.
    + destruct (evict_linked s l ino v C Hv) as (s2 & E2 & C2 & _); [apply not_elem_of_cons; auto|]; rewrite E in E2; injection E2 as <-; eauto.
  - destruct (cache s !! ino) as [v|] eqn:Hv; [|unfold vdfs4_write_inode_nolock, inode, mbind, om_bind in E; by rewrite Hv in E].
    destruct (co_inode _ _ C ino v Hv) as (_ & _ & (b & Hb)); rewrite (write_ok ino v b s Hv Hb (co_answers _ _ C)) in E; injection E as _ <-.
    exists l; by apply write_consistent.
  - exists l; by eapply iget_consistent.
Qed.

(** ** Recovery *)

(** The chain of records [l] behind the root directory, read by [orphan_loop]. *)
Lemma orphan_loop_spec (l : list Z) (fuel : nat) (s : osb) (rv : vinode) (rb : body) :
  order s = [Some ROOT] -> cache s = {[ROOT := rv]} -> next_orphan_id rv = hd 0 l -> records s !! ROOT = Some rb -> body_of rv = rb ->
  NoDup (ROOT :: l) -> 0 ∉ l -> answers s = [] -> (length l <= fuel)%nat ->
  (forall x, x ∈ l -> x ∈ numbers s /\ exists b, records s !! x = Some b /\ links_count b = 0 /\ b_orphan b = true /\ b_next b = next_of l x) ->
  exists s', orphan_loop fuel s = Ok (0, s') /\ order s' = [Some ROOT] /\ numbers s' = numbers s ∖ list_to_set l /\ rdonly s' = rdonly s
  /\ (forall x, records s' !! x = if decide (x ∈ l) then None else if decide (x = ROOT) then Some (body_of (set_next 0 rv)) else records s !! x).
Proof.
  revert fuel s rv rb; induction l as [|y l IH]; intros fuel s rv rb Ho Hc Hn Hrb Eb Hnd H0 Ha Hf Hl; destruct fuel as [|fuel]; try (cbn in Hf; lia);
    cbn [orphan_loop]; assert (cache s !! ROOT = Some rv) as Hrv by (rewrite Hc; apply lookup_singleton_eq); ostep (inode_ok ROOT rv s Hrv); rewrite Hn; cbn [hd].
  1, 2: exists s; split; [done|]; split; [done|]; split; [cbn; set_solver|]; split; [done|]; intros x; rewrite decide_False by (by apply not_elem_of_nil);
    destruct (decide (x = ROOT)) as [->|]; [|done]; rewrite Hrb, <- Eb; cbn in Hn; rewrite <- Hn; by destruct rv.
  assert (y <> 0 /\ y <> ROOT /\ ROOT ∉ l /\ y ∉ l /\ NoDup l /\ 0 ∉ l) as (Hy0 & Hyr & Hrl & Hyl & Hndl & H0l).
  { apply NoDup_cons in Hnd as [H1 H2]; apply NoDup_cons in H2 as [H2 H3]; repeat split; try done; set_solver. }
  rewrite (proj2 (Z.eqb_neq y 0)) by done; destruct (Hl y) as (Hyn & b & Hb & Hbl & Hbo & Hbn); [set_solver|].
  set (s1 := set_cache (<[y := inode_of b]> (cache s)) s).
  assert (vdfs4_iget y s = Ok (Val false, s1)) as E1.
  { assert (cache s !! y = None) as Hyc by (rewrite Hc; by apply lookup_singleton_ne).
    unfold vdfs4_iget; ostep (oget_ok cache s); rewrite Hyc; ostep (answer_ok s Ha); ostep (oget_ok records s); cbn [Z.eqb negb].
    by rewrite Hb. }
  ostep E1; assert (cache s1 !! y = Some (inode_of b)) as Hy1 by apply lookup_insert_eq; ostep (inode_ok y _ s1 Hy1); cbn [i_nlink orphan_inode inode_of].
  rewrite Hbl, Hbo; cbn [Z.eqb negb orb]; set (s2 := set_order (map Some [ROOT; y]) s1).
  assert (list_add_tail y s1 = Ok (tt, s2)) as E2.
  { unfold list_add_tail; ostep (oget_ok order s1); change (order s1) with (order s); rewrite Ho; change [Some ROOT] with (map Some [ROOT]).
    rewrite split_at_none by set_solver; done. }
  ostep E2; assert (cache s2 !! ROOT = Some rv) as Hr2 by (cbn; rewrite lookup_insert_ne by done; rewrite Hc; apply lookup_singleton_eq).
  destruct (evict_run s2 [] [] ROOT y (inode_of b) rv rb b) as (s3 & E3 & Eo & Ec & Er & En & Ea & Ero); auto.
  { cbn; apply NoDup_cons; split; [set_solver|apply NoDup_singleton]. }
  ostep E3; cbn [inode_of next_orphan_id] in Ec, Er; assert (b_next b = hd 0 l) as Hbn' by (rewrite Hbn; unfold next_of; by rewrite Z.eqb_refl); rewrite Hbn' in Ec, Er.
  set (rv3 := set_next (hd 0 l) rv); destruct (IH fuel s3 rv3 (body_of rv3)) as (s' & E' & Eo' & En' & Ero' & Er'); auto.
  - rewrite Ec; unfold s2, s1; cbn [cache set_order set_cache]; rewrite Hc; apply map_eq; intros z; destruct (decide (z = y)) as [->|]; [rewrite lookup_delete_eq, lookup_singleton_ne; done|].
    rewrite lookup_delete_ne by done; destruct (decide (z = ROOT)) as [->|]; [by rewrite lookup_insert_eq, lookup_singleton_eq|].
    by rewrite lookup_insert_ne, lookup_insert_ne, !lookup_singleton_ne by done.
  - rewrite Er; apply lookup_insert_eq.
  - apply NoDup_cons; done.
  - cbn in Hf; lia.
  - intros x Hx; assert (x <> y /\ x <> ROOT) as [Hxy Hxr] by set_solver; destruct (Hl x) as (Hxn & bx & Hbx & H1 & H2 & H3); [set_solver|].
    split; [rewrite En; set_solver|]; exists bx; rewrite Er, lookup_insert_ne, lookup_delete_ne by done; split; [done|]; split; [done|]; split; [done|].
    rewrite H3; unfold next_of at 1; by rewrite (proj2 (Z.eqb_neq y x)) by done.
  - exists s'; split; [done|]; split; [done|]; split; [rewrite En', En; cbn; set_solver|]; split; [by rewrite Ero', Ero|]; intros x; rewrite Er'.
    destruct (decide (x ∈ l)); [rewrite decide_True by set_solver; done|]; destruct (decide (x = ROOT)) as [->|Hxr].
    + rewrite decide_False by (apply not_elem_of_cons; split; [done|done]); by destruct rv.
    + rewrite Er, lookup_insert_ne by done; destruct (decide (x = y)) as [->|Hxy]; [rewrite decide_True by set_solver; apply lookup_delete_eq|].
      rewrite lookup_delete_ne by done; by rewrite decide_False by (apply not_elem_of_cons; split; done).
Qed.

Lemma body_inode (b : body) : body_of (inode_of b) = b.
Proof. by destruct b. Qed.

(** The mount up to the loop. *)
Lemma mount_start (s : osb) (rb : body) (e : Z) (es : list Z) :
  records s !! ROOT = Some rb -> answers s = [] /\ e = 0 /\ es = [] \/ answers s = e :: es /\ e = 0 ->
  mount_orphans s = orphan_loop (S (base.size (records s)))
    (set_answers es (set_order [Some ROOT] (set_cache {[ROOT := inode_of rb]} s))).
Proof.
  intros Hrb Ha; unfold mount_orphans; ostep (oput_ok (fun s => set_cache ∅ (set_order [] s)) s); set (s1 := set_cache ∅ _).
  assert (vdfs4_iget ROOT s1 = Ok (Val false, set_answers es (set_cache {[ROOT := inode_of rb]} s1))) as E1.
  { unfold vdfs4_iget; ostep (oget_ok cache s1); cbn [cache s1 set_cache]; rewrite lookup_empty.
    destruct Ha as [(Ha & -> & ->)|(Ha & ->)].
    - ostep (answer_ok s1 Ha); ostep (oget_ok records s1); cbn [Z.eqb negb records s1 set_cache set_order]; rewrite Hrb.
      assert (set_answers [] s1 = s1) as Es by (unfold s1, set_answers; destruct s; cbn in Ha |- *; by rewrite Ha); ostep (oput_ok (set_cache {[ROOT := inode_of rb]}) s1).
      change (set_answers [] (set_cache {[ROOT := inode_of rb]} s1)) with (set_cache {[ROOT := inode_of rb]} (set_answers [] s1)); by rewrite Es.
    - assert (ask s1 = Ok (0, set_answers es s1)) as E by (unfold ask; change (answers s1) with (answers s); by rewrite Ha).
      ostep E; ostep (oget_ok records (set_answers es s1)); cbn [Z.eqb negb records s1 set_cache set_order set_answers]; by rewrite Hrb. }
  ostep E1; set (s2 := set_answers es _); assert (list_add_tail ROOT s2 = Ok (tt, set_order [Some ROOT] s2)) as E2 by done.
  ostep E2; unfold vdfs4_process_orphan_inodes; ostep (oget_ok (fun s => base.size (records s)) (set_order [Some ROOT] s2)); done.
Qed.

Lemma mount_recovers (s : osb) (l : list Z) :
  consistent s l ->
  exists s', mount_orphans s = Ok (0, s') /\ order s' = [Some ROOT] /\ rdonly s' = rdonly s /\ numbers s' = numbers s ∖ list_to_set l
  /\ (forall x, records s' !! x = match records s !! x with
        | None => None
        | Some b => if b_orphan b then None else Some (if decide (x = ROOT) then body_of (set_next 0 (inode_of b)) else b)
        end).
Proof.
  intros [C1 C2 C3 C4 C5 C6 C7 C8 C9]; destruct (C3 ROOT) as (rv & Hrv); [set_solver|]; destruct (C5 ROOT rv Hrv) as (_ & _ & (rb & Hrb)).
  assert (forall x, x ∈ l -> exists b, records s !! x = Some b) as Hrec by (intros x Hx; destruct (C3 x) as (v & Hv); [set_solver|]; by apply (C5 x v Hv)).
  assert (ROOT ∉ l /\ NoDup l) as [Hr Hnd] by (by apply NoDup_cons in C2).
  assert (length l <= base.size (records s))%nat as Hsz.
  { assert (list_to_set (C := gset Z) l ⊆ dom (records s)) as Hsub
      by (intros x; rewrite elem_of_list_to_set; intros Hx; destruct (Hrec x Hx) as (b & Hb); apply elem_of_dom; eauto).
    apply subseteq_size in Hsub; by rewrite size_list_to_set, size_dom in Hsub. }
  rewrite (mount_start s rb 0 [] Hrb ltac:(by left)).
  destruct (orphan_loop_spec l (S (base.size (records s))) (set_answers [] (set_order [Some ROOT] (set_cache {[ROOT := inode_of rb]} s))) (inode_of rb) rb)
    as (s' & E & Eo & En & Ero & Er); try done.
  - cbn; rewrite (C7 ROOT rb Hrb) by set_solver; unfold next_of; by rewrite Z.eqb_refl.
  - apply body_inode.
  - intros H0; destruct (Hrec 0 H0) as (b & Hb); by destruct (C8 0 b Hb).
  - lia.
  - intros x Hx; destruct (Hrec x Hx) as (b & Hb); destruct (C6 x b Hb) as [H1 H2]; split; [by apply (C8 x b Hb)|]; exists b; split; [done|].
    split; [by apply H2|]; split; [by apply H1|]; rewrite (C7 x b Hb) by set_solver; unfold next_of at 1; rewrite (proj2 (Z.eqb_neq ROOT x)) by (intros <-; done); done.
  - exists s'; split; [done|]; split; [done|]; split; [done|]; split; [done|]; intros x; rewrite Er; cbn [records set_answers set_order set_cache].
    destruct (records s !! x) as [b|] eqn:Hb.
    + destruct (C6 x b Hb) as [H1 _]; destruct (decide (x ∈ l)) as [Hx|Hx]; [by rewrite (proj2 H1 Hx)|].
      destruct (b_orphan b); [by destruct Hx; apply H1|]; destruct (decide (x = ROOT)) as [->|]; [|done]; rewrite Hrb in Hb; by injection Hb as <-.
    + destruct (decide (x ∈ l)) as [Hx|Hx]; [done|]; destruct (decide (x = ROOT)) as [->|]; [congruence|done].
Qed.

(** ** What the orphan list promises *)

(** C9: Let no call to the catalog, for memory or to the device fail, neither while
    the volume is in use nor at the mount ([calls_answered]). Then, whatever sequence
    of unlinks, evictions, fetches and writes of inodes ran on
    a mounted volume, a mount of the catalog as it then was ends with 0, removes
    the record and frees the number of exactly those inodes that had lost their
    last name and were not yet removed, and leaves every other record alone but
    the entry point in the root directory, which is cleared. ([orphan_left_behind]
    below shows what a failing call does.) *)
Theorem orphans_recovered (s0 s : osb) (l0 : list Z) :
  calls_answered s0 -> orphans_are s0 l0 -> rtc step s0 s ->
  exists s', mount_orphans s = Ok (0, s') /\ order s' = [Some ROOT] /\ rdonly s' = rdonly s
  /\ (forall x, records s' !! x = match records s !! x with
        | None => None
        | Some b => if b_orphan b then None else Some (if decide (x = ROOT) then body_of (set_next 0 (inode_of b)) else b)
        end)
  /\ (forall x, x ∈ numbers s' <-> x ∈ numbers s /\ ~ exists b, records s !! x = Some b /\ b_orphan b = true)
  /\ (forall x b, records s !! x = Some b -> b_orphan b = true <-> links_count b = 0).
Proof.
  intros Ha C0 Hst; assert (set_answers [] s0 = s0) as Es by (unfold calls_answered in Ha; destruct s0; cbn in Ha |- *; by rewrite Ha); unfold orphans_are in C0; rewrite Es in C0.
  assert (exists l, consistent s l) as (l & C).
  { clear -C0 Hst; revert l0 C0; induction Hst as [s|s1 s2 s3 H12 _ IH]; intros l0 C0; [by exists l0|]; destruct (step_consistent s1 s2 l0 C0 H12) as (l1 & C1); eauto. }
  destruct (mount_recovers s l C) as (s' & E & Eo & Ero & En & Er); exists s'; do 4 (split; [done|]); split.
  - intros x; rewrite En, elem_of_difference, elem_of_list_to_set; apply and_iff_compat_l; split.
    + intros Hx (b & Hb & Ho); apply Hx; by apply (proj1 (co_body _ _ C x b Hb)).
    + intros Hx Hin; destruct (co_cached _ _ C x) as (v & Hv); [set_solver|]; destruct (co_inode _ _ C x v Hv) as (_ & _ & (b & Hb)).
      apply Hx; exists b; split; [done|]; by apply (proj1 (co_body _ _ C x b Hb)).
  - intros x b Hb; destruct (co_body _ _ C x b Hb) as [H1 H2]; by rewrite H1, H2.
Qed.

(** An orphan whose attributes cannot be removed at mount: the eviction frees the
    inode while it is on the orphan list, the entry point still names it, and the
    next turn of the loop writes into the freed entry. *)
Theorem orphan_left_behind (s : osb) (rb b : body) (e : Z) :
  records s !! ROOT = Some rb -> b_next rb <> 0 -> b_next rb <> ROOT -> records s !! b_next rb = Some b -> links_count b = 0 -> b_orphan b = true ->
  e <> 0 -> answers s = [0; 0; e; 0] ->
  mount_orphans s = Fault.
Proof.
  intros Hrb Hy0 Hyr Hb Hl Ho He Ha; set (y := b_next rb) in *; rewrite (mount_start s rb 0 [0; e; 0] Hrb ltac:(by right)).
  assert (exists n, base.size (records s) = S n) as (n & ->).
  { destruct (base.size (records s)) eqn:E; [|eauto]; apply map_size_empty_iff in E; rewrite E in Hrb; by rewrite lookup_empty in Hrb. }
  cbn [orphan_loop]; set (s1 := set_answers _ _); assert (cache s1 !! ROOT = Some (inode_of rb)) as Hr1 by apply lookup_singleton_eq.
  ostep (inode_ok ROOT _ s1 Hr1); change (next_orphan_id (inode_of rb)) with y; rewrite (proj2 (Z.eqb_neq y 0)) by done.
  set (s2 := set_cache (<[y := inode_of b]> {[ROOT := inode_of rb]}) (set_answers [e; 0] s1)).
  assert (vdfs4_iget y s1 = Ok (Val false, s2)) as E1.
  { assert (cache s1 !! y = None) as Hyc by (by apply lookup_singleton_ne); unfold vdfs4_iget; ostep (oget_ok cache s1); rewrite Hyc.
    assert (ask s1 = Ok (0, set_answers [e; 0] s1)) as Ea by done; ostep Ea; ostep (oget_ok records (set_answers [e; 0] s1)); cbn [Z.eqb negb].
    change (records (set_answers [e; 0] s1)) with (records s); by rewrite Hb. }
  ostep E1; assert (cache s2 !! y = Some (inode_of b)) as Hy2 by apply lookup_insert_eq; ostep (inode_ok y _ s2 Hy2); cbn [i_nlink orphan_inode inode_of].
  rewrite Hl, Ho; cbn [Z.eqb negb orb]; assert (list_add_tail y s2 = Ok (tt, set_order [Some ROOT; Some y] s2)) as E2.
  { unfold list_add_tail; ostep (oget_ok order s2); change (order s2) with (map Some [ROOT]); rewrite split_at_none by set_solver; done. }
  ostep E2; set (s3 := set_order _ s2).
  assert (exists s4, vdfs4_evict_inode y s3 = Ok (tt, s4) /\ order s4 = [Some ROOT; None] /\ cache s4 = {[ROOT := inode_of rb]} /\ records s4 = records s /\ answers s4 = [0])
    as (s4 & E4 & Eo4 & Ec4 & Er4 & Ea4).
  { unfold vdfs4_evict_inode; ostep (inode_ok y _ s3 Hy2); cbn [inode_of i_kind i_nlink runtime]; rewrite Hl; cbn [Z.eqb].
    assert (exists s5 v5, (if has_blocks (b_kind b) then oput (fun s => set_reserved (reserved s - 0) s);; modify y (set_runtime 0) else mret tt) s3 = Ok (tt, s5)
      /\ order s5 = [Some ROOT; Some y] /\ cache s5 = <[y := v5]> {[ROOT := inode_of rb]} /\ records s5 = records s /\ answers s5 = [e; 0]) as (s5 & v5 & E5 & Eo & Ec & Er & Ea).
    { destruct (has_blocks _); [|by exists s3, (inode_of b)]; eexists _, _; split; [ostep (oput_ok (fun s => set_reserved (reserved s - 0) s) s3); by apply modify_ok|].
      cbn; by rewrite insert_insert_eq. }
    ostep E5; assert (evict_delete y s5 = Ok (tt, set_rdonly true (set_answers [0] s5))) as E6.
    { unfold evict_delete; assert (ask s5 = Ok (e, set_answers [0] s5)) as Eask by (unfold ask; by rewrite Ea); ostep Eask.
      by rewrite (proj2 (Z.eqb_neq e 0)) by done. }
    ostep E6; unfold free_inode; rewrite oput_ok; eexists; split; [reflexivity|]; cbn [order set_rdonly set_answers set_cache].
    rewrite Eo; change [Some ROOT; Some y] with (map Some ([ROOT] ++ y :: [])); rewrite split_at_mid by set_solver; cbn; split; [done|]; split; [|done].
    rewrite Ec; rewrite delete_insert_eq; change (delete y ({[ROOT := inode_of rb]} : gmap Z vinode) = {[ROOT := inode_of rb]}); apply delete_id; by apply lookup_singleton_ne. }
  ostep E4; assert (cache s4 !! ROOT = Some (inode_of rb)) as Hr4 by (rewrite Ec4; apply lookup_singleton_eq).
  ostep (inode_ok ROOT _ s4 Hr4); change (next_orphan_id (inode_of rb)) with y; rewrite (proj2 (Z.eqb_neq y 0)) by done.
  set (s5 := set_cache (<[y := inode_of b]> {[ROOT := inode_of rb]}) (set_answers [] s4)).
  assert (vdfs4_iget y s4 = Ok (Val false, s5)) as E5.
  { assert (cache s4 !! y = None) as Hyc by (rewrite Ec4; by apply lookup_singleton_ne); unfold vdfs4_iget; ostep (oget_ok cache s4); rewrite Hyc.
    assert (ask s4 = Ok (0, set_answers [] s4)) as Eask by (unfold ask; by rewrite Ea4); ostep Eask; ostep (oget_ok records (set_answers [] s4)); cbn [Z.eqb negb].
    change (records (set_answers [] s4)) with (records s4); rewrite Er4, Hb; ostep (oput_ok (set_cache (<[y := inode_of b]> (cache s4))) (set_answers [] s4)); by rewrite Ec4. }
  ostep E5; assert (cache s5 !! y = Some (inode_of b)) as Hy5 by apply lookup_insert_eq; ostep (inode_ok y _ s5 Hy5); cbn [i_nlink orphan_inode inode_of].
  rewrite Hl, Ho; cbn [Z.eqb negb orb].
  assert (list_add_tail y s5 = Fault) as E6.
  { unfold list_add_tail; ostep (oget_ok order s5); change (order s5) with (order s4); rewrite Eo4; cbn [split_at]; rewrite !decide_False by congruence; done. }
  unfold mbind, om_bind; by rewrite E6.
Qed.

(** ** A small volume *)

Definition root_body (next : Z) : body := Body 2 Dir false false next 2.
Definition file_body (nlink : Z) (orphan : bool) (next : Z) : body := Body nlink Reg false orphan next 0.

(** The root directory, an orphan that is still open, and a file. *)
Definition volume : osb :=
  Osb [Some 1; Some 10] {[1 := inode_of (root_body 10); 10 := inode_of (file_body 0 true 0); 12 := inode_of (file_body 1 false (2 ^ 64 - 1))]}
    {[1 := root_body 10; 10 := file_body 0 true 0; 12 := file_body 1 false (2 ^ 64 - 1)]} ∅ {[1; 10; 12]} 0 2 1 false [].

Lemma three {A : Type} (P : Z -> A -> Prop) (a b c : A) :
  P 1 a -> P 10 b -> P 12 c -> forall x v, ({[1 := a; 10 := b; 12 := c]} : gmap Z A) !! x = Some v -> P x v.
Proof. intros Ha Hb Hc x v; rewrite !lookup_insert_Some, lookup_singleton_Some; naive_solver. Qed.

Lemma volume_consistent : consistent volume [10].
Proof.
  assert (1 ∉ [10]) as N1 by set_solver; assert (12 ∉ [10]) as N12 by set_solver; assert (10 ∈ [10]) as I10 by set_solver.
  split; [done| | | | | | | |done]; cbn [volume cache records numbers].
  - apply NoDup_cons; split; [done|apply NoDup_singleton].
  - intros x [->| ->%list_elem_of_singleton]%elem_of_cons; [by eexists|by eexists].
  - apply (three (fun x v => x ∈ [ROOT; 10] -> next_orphan_id v = next_of [ROOT; 10] x)); [done|done|set_solver].
  - apply (three (fun x v => (orphan_inode v = true <-> x ∈ [10]) /\ (i_nlink v = 0 <-> x ∈ [10]) /\ is_Some (records volume !! x)));
      (split; [done|]; split; [done|by eexists]).
  - apply (three (fun x b => (b_orphan b = true <-> x ∈ [10]) /\ (links_count b = 0 <-> x ∈ [10]))); (split; done).
  - apply (three (fun x b => x ∈ [ROOT; 10] -> b_next b = next_of [ROOT; 10] x)); [done|done|set_solver].
  - apply (three (fun x _ => x <> 0 /\ x ∈ ({[1; 10; 12]} : gset Z))); (split; [done|set_solver]).
Qed.

(** The file is unlinked while it is open, and the system stops. *)
Lemma orphans_recovered_witness :
  exists s s', vdfs4_unlink 1 [] 12 volume = Ok (0, s) /\ mount_orphans s = Ok (0, s') /\ records s' !! 10 = None /\ records s' !! 12 = None
  /\ records s' !! 1 = Some (Body 2 Dir false false 0 2).
Proof.
  assert (exists s, vdfs4_unlink 1 [] 12 volume = Ok (0, s)) as (s & E) by (eexists; vm_compute; reflexivity).
  destruct (orphans_recovered volume s [10] eq_refl volume_consistent) as (s' & E' & _ & _ & Hr & _).
  { apply rtc_once, (step_unlink volume 1 [] 12 0 (inode_of (file_body 1 false (2 ^ 64 - 1)))); [done|done|by eexists|by vm_compute|exact E]. }
  exists s, s'; split; [exact E|]; split; [exact E'|]; rewrite !Hr; vm_compute in E; injection E as <-; split; [done|]; split; [done|done].
Defined.
