(* ===== verification/ToolsSpace.v ===== *)
(** The space manager of the tools, src/vdfs-tools/lib/space_manager.c: the
    sorted list of free chunks, the signed bitmap of used blocks, and the
    conversions between blocks of the volume and of the metadata area.

    An item of the list, struct space_manager_item, is a range of blocks; the items
    are told apart by their place in the list. *)

From Stdlib Require Import ZArith Lia Bool List.
From stdpp Require Import base list.
From S2P Require Import Prelude Bytes Buffer Ranges Bitmap Crc32.

Open Scope Z_scope.

Definition ADDR_ANY : Z := 0.
Definition FSM_BMP_MAGIC : list Z := [102; 115; 109; 98].
(** Magic and version. *)
Definition FSM_MAGIC_LEN : Z := 12.
Definition VDFS4_META_BTREE_EXTENTS : Z := 96.

(** struct space_manager_info and the fields of struct vdfs4_sb_info it is used
    with: [read_only_image] and [limited_size] are flags of service_flags. *)
Record tools_sbi : Type := ToolsSbi {
  t_block_size : Z;
  min_volume_size : Z;
  max_volume_size : Z;
  vdfs4_start_block : Z;
  read_only_image : bool;
  limited_size : bool;
  bits_count : Z;
  first_free_address : Z;
  space_manager_list : list range;
  sm_buffer : list Z;
  t_free_blocks_count : Z;
  metadata_size : Z
}.

Definition set_list (l : list range) (s : tools_sbi) : tools_sbi :=
  ToolsSbi (t_block_size s) (min_volume_size s) (max_volume_size s) (vdfs4_start_block s) (read_only_image s) (limited_size s) (bits_count s)
    (first_free_address s) l (sm_buffer s) (t_free_blocks_count s) (metadata_size s).
Definition set_buffer (m : list Z) (s : tools_sbi) : tools_sbi :=
  ToolsSbi (t_block_size s) (min_volume_size s) (max_volume_size s) (vdfs4_start_block s) (read_only_image s) (limited_size s) (bits_count s)
    (first_free_address s) (space_manager_list s) m (t_free_blocks_count s) (metadata_size s).
Definition set_first_free (a : Z) (s : tools_sbi) : tools_sbi :=
  ToolsSbi (t_block_size s) (min_volume_size s) (max_volume_size s) (vdfs4_start_block s) (read_only_image s) (limited_size s) (bits_count s)
    a (space_manager_list s) (sm_buffer s) (t_free_blocks_count s) (metadata_size s).
Definition set_free_count (n : Z) (s : tools_sbi) : tools_sbi :=
  ToolsSbi (t_block_size s) (min_volume_size s) (max_volume_size s) (vdfs4_start_block s) (read_only_image s) (limited_size s) (bits_count s)
    (first_free_address s) (space_manager_list s) (sm_buffer s) n (metadata_size s).
Definition set_bits_count (n : Z) (s : tools_sbi) : tools_sbi :=
  ToolsSbi (t_block_size s) (min_volume_size s) (max_volume_size s) (vdfs4_start_block s) (read_only_image s) (limited_size s) n
    (first_free_address s) (space_manager_list s) (sm_buffer s) (t_free_blocks_count s) (metadata_size s).
Definition set_metadata_size (n : Z) (s : tools_sbi) : tools_sbi :=
  ToolsSbi (t_block_size s) (min_volume_size s) (max_volume_size s) (vdfs4_start_block s) (read_only_image s) (limited_size s) (bits_count s)
    (first_free_address s) (space_manager_list s) (sm_buffer s) (t_free_blocks_count s) n.

Definition byte_to_block (bytes block_size : Z) : Z :=
  let in_blocks := bytes / block_size in if negb (bytes mod block_size =? 0) then in_blocks + 1 else in_blocks.

Definition block_to_byte (blocks block_size : Z) : Z := u64 (blocks * block_size).

(** ** The list of free chunks *)

(** The walk of [put_space_manager_list_sorted] from the item [x] on, whose
    offset is not above that of [item]. *)
Fixpoint put_after (item x : range) (next : list range) : list range :=
  match next with
  | [] => [x; item]
  | y :: next' => if start item <? start y then x :: item :: y :: next' else x :: put_after item y next'
  end.

Definition put_space_manager_list_sorted (offset length : Z) (list : list range) : Datatypes.list range :=
  let item := Range offset (u32 length) in
  match list with
  | [] => [item]
  | x :: next => if offset <? start x then item :: x :: next else put_after item x next
  end.

(** [shrink_list_item] of the item between [pre] and [post]; an empty item is
    removed. *)
Definition shrink_list_item (pre : list range) (item : range) (post : list range) (length : Z) : list range :=
  let item := Range (start item) (len item -32 length) in
  if len item =? 0 then pre ++ post else pre ++ item :: post.

(** The loop of [get_free_space], behind the items [pre]: the address and the
    list, None when no item serves. *)
Fixpoint find_chunk (offset length : Z) (pre list : list range) : option (Z * Datatypes.list range) :=
  match list with
  | [] => None
  | item :: post =>
      if offset =? ADDR_ANY then
        if length <=? len item
        then Some (start item, shrink_list_item pre (Range (start item +64 length) (len item)) post length)
        else find_chunk offset length (pre ++ [item]) post
      else if (start item <=? offset) && (offset +64 length <=? start item +64 len item) then
        Some (offset,
          if offset =? start item
          then shrink_list_item pre (Range (start item +64 length) (len item)) post length
          else if offset +64 length =? start item +64 len item then shrink_list_item pre item post length
          else
            put_space_manager_list_sorted (offset +64 length) (len item - length - u32 (offset - start item))
              (put_space_manager_list_sorted (start item) (offset - start item) (pre ++ post)))
      else find_chunk offset length (pre ++ [item]) post
  end.

(** ** The bitmap *)

Definition fsm_magic : list Z := FSM_BMP_MAGIC ++ le_bytes 8 1.

(** The loop of [sign_sm_buffer] over [n] blocks from block [cur] on; the buffer
    is at address [a]. *)
Fixpoint sign_blocks (a : Z) (magic : list Z) (block_size : Z) (n : nat) (cur : Z) (m : list Z) : run (list Z) :=
  match n with
  | O => Ok m
  | S n =>
      block ← slice m (cur * block_size) block_size;
      '(block, _) ← util_update_crc (a + cur * block_size) block block_size (Some magic) (lenZ magic);
      m ← blit m (cur * block_size) block;
      sign_blocks a magic block_size n (cur + 1) m
  end.

Definition sign_sm_buffer (a : Z) (s : tools_sbi) : run tools_sbi :=
  m ← sign_blocks a fsm_magic (t_block_size s) (Z.to_nat (lenZ (sm_buffer s) / t_block_size s)) 0 (sm_buffer s);
  Ok (set_buffer m s).

(** [init_sm_buffer] on a new buffer of [size] bytes *)
Definition init_sm_buffer (a size : Z) (s : tools_sbi) : run tools_sbi :=
  sign_sm_buffer a (set_buffer (replicate (Z.to_nat size) 0) s).

Definition fsm_set_bits (addr num : Z) (s : tools_sbi) : run (Z * tools_sbi) :=
  '(m, err) ← util_sign_set_bits (sm_buffer s) (lenZ (sm_buffer s)) addr num (t_block_size s) FSM_MAGIC_LEN CRC32_SIZE;
  Ok (err, set_buffer m s).

(** ** Allocation *)

(** [get_free_space]: the address or a negative number. The result of
    fsm_set_bits is not used. *)
Definition get_free_space (offset length : Z) (s : tools_sbi) : run (Z * tools_sbi) :=
  if read_only_image s then
    let first := first_free_address s in
    let used_size := block_to_byte (first +64 length) (t_block_size s) in
    if limited_size s && (min_volume_size s <? used_size) then Ok (- ENOSPC, s)
    else if negb (offset =? ADDR_ANY) && negb (offset =? first) then Ok (- 1, s)
    else Ok (first, set_first_free (first +64 length) s)
  else
    match find_chunk offset length [] (space_manager_list s) with
    | None => Ok (- ENOSPC, s)
    | Some (addr, l) =>
        '(_, s) ← fsm_set_bits addr length (set_list l s);
        Ok (addr, set_free_count (t_free_blocks_count s -32 length) s)
    end.

(** [allocate_space]: the code and, with code 0, the first block *)
Definition allocate_space (block_offset block_count : Z) (s : tools_sbi) : run (Z * Z * tools_sbi) :=
  '(addr, s) ← get_free_space block_offset block_count s;
  if addr <? 0 then Ok (- ENOSPC, 0, s) else Ok (0, addr, s).

(** The size of the buffer, in [init_space_manager]. *)
Definition sm_buffer_size (bits block_size : Z) : Z :=
  let sign_crc_len := CRC32_SIZE + FSM_MAGIC_LEN in
  let size := Z.shiftr (bits + 7) 3 in
  let size := size + sign_crc_len * ((size + (block_size - sign_crc_len) - 1) / (block_size - sign_crc_len)) in
  Z.land (size + block_size - 1) (u32 (Z.lnot (block_size - 1))).

(** [init_space_manager]; [memory] is the address malloc returns, None is NULL.
    The size kept with the buffer has 32 bits. *)
Definition init_space_manager (memory : option Z) (s : tools_sbi) : run (Z * tools_sbi) :=
  if read_only_image s then Ok (0, s)
  else
    let s := set_bits_count ((max_volume_size s -64 vdfs4_start_block s) / t_block_size s) s in
    let size := sm_buffer_size (bits_count s) (t_block_size s) in
    let s := set_list (put_space_manager_list_sorted 0 (bits_count s) (space_manager_list s)) s in
    match memory with
    | None => Ok (- ENOMEM, s)
    | Some a =>
        s ← init_sm_buffer a (u32 size) s;
        let s := set_free_count (u32 (bits_count s)) s in
        Ok (0, set_metadata_size (u32 (metadata_size s + byte_to_block size (t_block_size s))) s)
    end.

(** ** Blocks of the metadata area

    The extents of the area are pairs of first block and length. *)

(** [iblock_to_mblock_for_conversion] over the extents that are left. *)
Fixpoint iblock_to_mblock_for_conversion (extents : list (Z * Z)) (meta_area total iblock : Z) : Z :=
  match extents with
  | [] => 0
  | (offset, length) :: extents =>
      if length =? 0 then 0
      else
        let total := total +64 length in
        let meta_area := meta_area +64 u64 (u32 (length - 1) + offset) in
        if (iblock <=? meta_area) && (offset <=? iblock) then total -64 (offset + length - iblock)
        else iblock_to_mblock_for_conversion extents meta_area total iblock
  end.

(** [metablock_to_iblock] *)
Fixpoint metablock_to_iblock (extents : list (Z * Z)) (total metablock : Z) : Z :=
  match extents with
  | [] => 0
  | (offset, length) :: extents =>
      let total := total +64 length in
      if metablock <? total then (offset + length) -64 (total - metablock) else metablock_to_iblock extents total metablock
  end.

(** [iblock_to_metablock], whose result is an int. *)
Fixpoint iblock_to_metablock (extents : list (Z * Z)) (meta_area total iblock : Z) : Z :=
  match extents with
  | [] => - 1
  | (offset, length) :: extents =>
      let total := total +64 length in
      let meta_area := meta_area +64 u64 (u32 (length - 1) + offset) in
      if (iblock <=? meta_area) && (offset <=? iblock) && (iblock <? length +64 offset) then s32 (u32 (total -64 (offset + length - iblock)))
      else iblock_to_metablock extents meta_area total iblock
  end.
