(* ===== verification/ToolsTheorems.v ===== *)
(** The theorems about the space manager of the tools. *)

From Stdlib Require Import ZArith Lia Bool List.
From stdpp Require Import base list.
From S2P Require Import Prelude Bytes Buffer Bitmap Crc32 Ranges ToolsSpace.

Open Scope Z_scope.

(** ** The list of free chunks *)

Lemma put_after_ok (o l : Z) (x : range) (A B : list range) : Forall (fun a => start a <= o) A -> Forall (fun b => o < start b) B ->
  put_after (Range o l) x (A ++ B) = x :: A ++ Range o l :: B.
Proof.
  revert x; induction A as [|y A IH]; intros x HA HB; cbn [app put_after start].
  - destruct B as [|y B]; [done|]; apply Forall_cons in HB as [Hy _]; cbn; by rewrite (proj2 (Z.ltb_lt o (start y)) Hy).
  - apply Forall_cons in HA as [Hy HA]; rewrite (proj2 (Z.ltb_ge o (start y)) Hy); by rewrite IH.
Qed.

Lemma put_sorted_ok (o l : Z) (A B : list range) : Forall (fun a => start a <= o) A -> Forall (fun b => o < start b) B ->
  put_space_manager_list_sorted o l (A ++ B) = A ++ Range o (u32 l) :: B.
Proof.
  intros HA HB; unfold put_space_manager_list_sorted; destruct A as [|x A]; cbn [app].
  - destruct B as [|x B]; [done|]; apply Forall_cons in HB as [Hx _]; by rewrite (proj2 (Z.ltb_lt o (start x)) Hx).
  - apply Forall_cons in HA as [Hx HA]; rewrite (proj2 (Z.ltb_ge o (start x)) Hx); by apply put_after_ok.
Qed.

(** The item [r] gives the blocks from [addr] on. *)
Definition serves (offset length addr : Z) (r : range) : Prop :=
  start r <= addr /\ addr + length <= stop r /\ (if offset =? ADDR_ANY then addr = start r else addr = offset).

Definition useless (offset length : Z) (r : range) : Prop :=
  if offset =? ADDR_ANY then len r < length else ~ (start r <= offset /\ offset + length <= stop r).

Lemma find_chunk_ok (offset length hi : Z) (L pre : list range) : gapped (pre ++ L) -> within 0 hi (pre ++ L) -> hi < 2 ^ 32 -> 0 <= offset < 2 ^ 63 -> 0 < length < 2 ^ 32 ->
  match find_chunk offset length pre L with
  | None => Forall (useless offset length) L
  | Some (addr, L') => exists A r B, L = A ++ r :: B /\ Forall (useless offset length) A /\ serves offset length addr r /\ removed addr length (pre ++ L) L'
  end.
Proof.
  revert pre; induction L as [|r L IH]; intros pre HG HW Hhi Ho Hlen; cbn [find_chunk]; [done|].
  assert (0 <= start r /\ stop r <= hi /\ 0 < len r) as (R1 & R2 & R3) by (destruct (gapped_split _ _ _ HG) as (_ & _ & Hr & _); split_forall; unfold nonempty in Hr; lia).
  assert (useless offset length r -> match find_chunk offset length (pre ++ [r]) L with
    | None => Forall (useless offset length) (r :: L)
    | Some (addr, L') => exists A q B, r :: L = A ++ q :: B /\ Forall (useless offset length) A /\ serves offset length addr q /\ removed addr length (pre ++ r :: L) L' end) as Hnext.
  { intros Hu; specialize (IH (pre ++ [r])); rewrite <- !app_assoc in IH; cbn [app] in IH; specialize (IH HG HW Hhi Ho Hlen); destruct (find_chunk offset length (pre ++ [r]) L) as [[addr L']|]; [|by constructor].
    destruct IH as (A & q & B & -> & HA & Hq & Hrem); exists (r :: A), q, B; split; [done|]; split; [by constructor|done]. }
  destruct (gapped_split _ _ _ HG) as (Gp & GL & Hne & Hpre & Hpost); unfold stop in R2.
  assert (forall addr M, serves offset length addr r -> gapped M -> Forall (fun m => start r <= start m /\ stop m <= stop r) M -> total M = len r - length ->
    (forall x, covers M x <-> in_range x r /\ ~ addr <= x < addr + length) -> exists A q B, r :: L = A ++ q :: B /\ Forall (useless offset length) A /\ serves offset length addr q
    /\ removed addr length (pre ++ r :: L) (pre ++ M ++ L)) as Hdone.
  { intros addr M (S1 & S2 & S3) HM Hsub Ht Hc; exists [], r, L; split; [done|]; split; [done|]; split; [done|]; by apply removed_replace. }
  (** what is left of an item that gives its first blocks *)
  assert (forall addr, addr = start r -> serves offset length addr r -> exists A q B, r :: L = A ++ q :: B /\ Forall (useless offset length) A /\ serves offset length addr q
    /\ removed addr length (pre ++ r :: L) (shrink_list_item pre (Range (start r +64 length) (len r)) L length)) as Hfirst.
  { intros addr Ea Hs; pose proof Hs as (S1 & S2 & _); unfold stop in S2; unfold shrink_list_item; cbn [start len]; rewrite u64_small, u32_small by lia; destruct (Z.eqb_spec (len r - length) 0) as [E0|E0].
    - apply (Hdone addr [] Hs); [done|done|cbn; lia|]; intros x; rewrite covers_nil; unfold in_range, stop; lia.
    - apply (Hdone addr [Range (start r + length) (len r - length)] Hs); [cbn; unfold nonempty; cbn; split; [lia|done]|apply Forall_singleton; unfold stop; cbn; lia|cbn; lia|].
      intros x; rewrite covers_cons, covers_nil; unfold in_range, stop; cbn; lia. }
  destruct (Z.eqb_spec offset ADDR_ANY) as [Eo|Eo].
  - destruct (Z.leb_spec length (len r)); [|apply Hnext; unfold useless; rewrite (proj2 (Z.eqb_eq _ _) Eo); lia].
    apply Hfirst; [done|]; unfold serves, stop; rewrite (proj2 (Z.eqb_eq _ _) Eo); lia.
  - rewrite (u64_small (offset + length)), (u64_small (start r + len r)) by lia.
    destruct (Z.leb_spec (start r) offset) as [H1|H1]; cbn [andb]; [|apply Hnext; unfold useless; rewrite (proj2 (Z.eqb_neq _ _) Eo); lia].
    destruct (Z.leb_spec (offset + length) (start r + len r)) as [H2|H2]; [|apply Hnext; unfold useless, stop; rewrite (proj2 (Z.eqb_neq _ _) Eo); lia].
    assert (serves offset length offset r) as Hs by (unfold serves, stop; rewrite (proj2 (Z.eqb_neq _ _) Eo); lia).
    destruct (Z.eqb_spec offset (start r)) as [E1|E1]; [by apply Hfirst|]; destruct (Z.eqb_spec (offset + length) (start r + len r)) as [E2|E2].
    + unfold shrink_list_item; cbn [start len]; rewrite u32_small by lia; rewrite (proj2 (Z.eqb_neq _ _)) by lia.
      apply (Hdone offset [Range (start r) (len r - length)] Hs); [cbn; unfold nonempty; cbn; split; [lia|done]|apply Forall_singleton; unfold stop; cbn; lia|cbn; lia|].
      intros x; rewrite covers_cons, covers_nil; unfold in_range, stop; cbn; lia.
    + rewrite (u32_small (offset - start r)) by lia; unfold stop in Hpre, Hpost.
      assert (Forall (fun a => start a <= start r) pre) as P1 by (apply gapped_nonempty in Gp; eapply Forall_impl; [exact (proj2 (Forall_and _ _) (conj Hpre Gp))|]; unfold nonempty; cbn; intros; lia).
      rewrite (put_sorted_ok (start r)) by (auto; forall_lia Hpost); rewrite (u32_small (offset - start r)) by lia; rewrite (cons_middle (Range (start r) (offset - start r)) pre L), (app_assoc pre [_]), put_sorted_ok.
      * rewrite <- (app_assoc pre [_]); cbn [app]; rewrite !u32_small by lia.
        apply (Hdone offset [Range (start r) (offset - start r); Range (offset + length) (len r - length - (offset - start r))] Hs).
        -- cbn; unfold nonempty, before, stop; cbn; split; [lia|]; split; [apply Forall_singleton; cbn; lia|]; split; [lia|done].
        -- unfold stop; split_forall; cbn; lia || done.
        -- cbn; lia.
        -- intros x; rewrite !covers_cons, covers_nil; unfold in_range, stop; cbn; lia.
      * apply Forall_app; split; [eapply Forall_impl; [exact P1|]; cbn; intros; lia|apply Forall_singleton; cbn; lia].
      * eapply Forall_impl; [exact Hpost|]; cbn; intros; lia.
Qed.

(** ** The manager *)

(** The block is used according to the bitmap. *)
Definition used_block (s : tools_sbi) (x : Z) : Prop := bit (sm_buffer s) (phys (t_block_size s) FSM_MAGIC_LEN CRC32_SIZE x) = true.

(** The list has the maximal runs of unused blocks of the bitmap in order, and
    the count is the number of them. *)
Record sm_ok (nb : Z) (s : tools_sbi) : Prop := {
  so_rw : read_only_image s = false;
  so_geo : geometry (sm_buffer s) (t_block_size s) FSM_MAGIC_LEN CRC32_SIZE nb;
  so_room : bits_count s <= nb * datablock_size (t_block_size s) FSM_MAGIC_LEN CRC32_SIZE;
  so_bits : 0 <= bits_count s < 2 ^ 32;
  so_list : gapped (space_manager_list s);
  so_within : within 0 (bits_count s) (space_manager_list s);
  so_map : forall x, 0 <= x < bits_count s -> used_block s x <-> ~ covers (space_manager_list s) x;
  so_count : t_free_blocks_count s = total (space_manager_list s)
}.

(** The blocks [a, a+n) of the volume are unused. *)
Definition free_run (s : tools_sbi) (a n : Z) : Prop := forall x, a <= x < a + n -> 0 <= x < bits_count s /\ ~ used_block s x.

Lemma free_covers (nb : Z) (s : tools_sbi) (a n : Z) : sm_ok nb s -> free_run s a n <-> forall x, a <= x < a + n -> covers (space_manager_list s) x.
Proof.
  intros [_ _ _ _ Hg Hw Hm _]; unfold free_run; split; intros H x Hx.
  - destruct (H x Hx) as [Hb Hu]; destruct (decide (covers (space_manager_list s) x)) as [|Hn]; [done|]; by destruct Hu; apply Hm.
  - specialize (H x Hx); assert (0 <= x < bits_count s) as Hb by (apply (proj1 (within_covers 0 (bits_count s) _ (gapped_nonempty _ Hg)) Hw); done); split; [done|]; rewrite Hm by done; by intros Hn.
Qed.

(** Taking a free run out of list and bitmap keeps the manager. *)
Lemma take_run (nb a n : Z) (s : tools_sbi) (L' : list range) : sm_ok nb s -> 0 < n < 2 ^ 32 -> free_run s a n -> removed a n (space_manager_list s) L' ->
  exists s', fsm_set_bits a n (set_list L' s) = Ok (0, s') /\ sm_ok nb (set_free_count (t_free_blocks_count s' -32 n) s')
  /\ (forall x, 0 <= x < bits_count s -> used_block s' x <-> used_block s x \/ a <= x < a + n)
  /\ space_manager_list s' = L'.
Proof.
  intros Hok Hn Hrun (R1 & R2 & R3); pose proof Hok as [Hrw Hgeo Hroom Hbits Hg Hw Hm Hc].
  assert (0 <= a /\ a + n <= bits_count s) as [Ha Hb] by (destruct (Hrun a ltac:(lia)), (Hrun (a + n - 1) ltac:(lia)); lia).
  destruct (util_sign_set_bits_correct (sm_buffer s) (t_block_size s) FSM_MAGIC_LEN CRC32_SIZE nb a n Hgeo Ha ltac:(lia) ltac:(lia)) as (m & E & Hl & Hin & Hout).
  unfold fsm_set_bits; cbn [sm_buffer set_list t_block_size]; rewrite E; cbn [mbind run_bind]; eexists; split; [reflexivity|].
  assert (forall x, 0 <= x < bits_count s -> used_block (set_buffer m (set_list L' s)) x <-> used_block s x \/ a <= x < a + n) as Hu.
  { intros x Hx; unfold used_block; cbn [sm_buffer set_buffer t_block_size set_list]; destruct (decide (a <= x < a + n)) as [Hi|Hi]; [rewrite Hin by done; tauto|].
    rewrite Hout; [tauto|]; intros k Hk Ep; apply (phys_inj _ _ _ _ _ Hgeo) in Ep; lia. }
  split; [|split; [exact Hu|done]]; split; cbn [read_only_image sm_buffer t_block_size bits_count space_manager_list t_free_blocks_count set_free_count set_buffer set_list]; auto.
  - by apply (geometry_len (sm_buffer s)).
  - apply (within_covers _ _ _ (gapped_nonempty _ R1)); intros x Hx; apply R3 in Hx as [Hx _]; exact (proj1 (within_covers _ _ _ (gapped_nonempty _ Hg)) Hw x Hx).
  - intros x Hx; rewrite R3; unfold used_block in *; cbn [sm_buffer t_block_size set_free_count set_buffer set_list] in *; rewrite Hu by done; rewrite Hm by done.
    destruct (decide (covers (space_manager_list s) x)), (decide (a <= x < a + n)); tauto.
  - rewrite R2, Hc; apply u32_small; pose proof (gapped_total_nonneg _ R1); pose proof (total_within 0 (bits_count s) _ Hg Hw); lia.
Qed.

Lemma useless_run (nb offset length : Z) (s : tools_sbi) (r : range) (a : Z) : sm_ok nb s -> 0 < length -> r ∈ space_manager_list s -> useless offset length r ->
  free_run s a length -> (offset = ADDR_ANY \/ a = offset) -> ~ in_range a r.
Proof.
  intros Hok Hl Hr Hu Hrun Ho Hi; rewrite (free_covers nb s a length Hok) in Hrun; pose proof (gapped_run _ r a length (so_list _ _ Hok) Hr Hi Hl Hrun) as He.
  unfold useless, in_range, stop in *; destruct (Z.eqb_spec offset ADDR_ANY); [lia|]; destruct Ho; [done|lia].
Qed.

Lemma tools_allocate_ok (nb offset length : Z) (s : tools_sbi) : sm_ok nb s -> 0 <= offset < 2 ^ 63 -> 0 < length < 2 ^ 32 ->
  exists err a s', allocate_space offset length s = Ok (err, a, s') /\ sm_ok nb s'
  /\ ((err = 0 /\ free_run s a length /\ (offset = ADDR_ANY \/ a = offset) /\ (offset = ADDR_ANY -> forall c, free_run s c length -> a <= c)
       /\ (forall x, 0 <= x < bits_count s -> used_block s' x <-> used_block s x \/ a <= x < a + length)
       /\ t_free_blocks_count s' = t_free_blocks_count s - length)
      \/ (err = - ENOSPC /\ s' = s /\ forall c, (offset = ADDR_ANY \/ c = offset) -> ~ free_run s c length)).
Proof.
  intros Hok Ho Hl; pose proof Hok as [Hrw _ _ Hbits Hg Hw _ Hc]; unfold allocate_space, get_free_space; rewrite Hrw.
  pose proof (find_chunk_ok offset length (bits_count s) (space_manager_list s) [] Hg Hw ltac:(lia) Ho Hl) as HF; destruct (find_chunk offset length [] (space_manager_list s)) as [[a L']|].
  - destruct HF as (A & r & B & El & HA & (S1 & S2 & S3) & Hrem); cbn [app] in Hrem.
    assert (free_run s a length) as Hrun by (apply (free_covers nb s a length Hok); intros x Hx; rewrite El, covers_app, covers_cons; right; left; unfold in_range, stop in *; lia).
    assert (0 <= a) as Ha by (destruct (Hrun a ltac:(lia)); lia).
    destruct (take_run nb a length s L' Hok Hl Hrun Hrem) as (s' & E & Hok' & Hu & Hb); rewrite E; cbn [mbind run_bind]; rewrite (proj2 (Z.ltb_ge a 0)) by lia.
    exists 0, a, (set_free_count (t_free_blocks_count s' -32 length) s'); split; [done|]; split; [exact Hok'|]; left; split; [done|]; split; [exact Hrun|]; split; [destruct (Z.eqb_spec offset ADDR_ANY); auto|]; split; [|split; [exact Hu|]].
    + intros Eo c Hcrun; rewrite (proj2 (Z.eqb_eq _ _) Eo) in S3; subst a; destruct (proj1 (covers_elem _ _) (proj1 (free_covers nb s c length Hok) Hcrun c ltac:(lia))) as (q & Hq & Hi).
      rewrite El in Hq; apply elem_of_app in Hq as [Hq|[->|Hq]%elem_of_cons]; [exfalso|unfold in_range in Hi; lia|].
      * apply (useless_run nb offset length s q c Hok ltac:(lia)); auto; [rewrite El; apply elem_of_app; by left|by apply (proj1 (Forall_forall _ _) HA)].
      * rewrite El in Hg; destruct (gapped_split _ _ _ Hg) as (_ & _ & Hne & _ & HB); rewrite Forall_forall in HB; specialize (HB q Hq); unfold in_range, stop, nonempty in *; lia.
    + rewrite (so_count _ _ Hok'), Hc; cbn [space_manager_list set_free_count]; rewrite Hb; exact (proj1 (proj2 Hrem)).
  - exists (- ENOSPC), 0, s; split; [done|]; split; [done|]; right; split; [done|]; split; [done|]; intros c Hco Hrun.
    destruct (proj1 (covers_elem _ _) (proj1 (free_covers nb s c length Hok) Hrun c ltac:(lia))) as (q & Hq & Hi); apply (useless_run nb offset length s q c Hok ltac:(lia) Hq (proj1 (Forall_forall _ _) HF q Hq) Hrun Hco Hi).
Qed.

(** C14: Allocation of [length] blocks at an offset, or anywhere, keeps list,
    bitmap and count in step: with code 0 the blocks were unused, are used now,
    and no other block changes; anywhere means the lowest place where they fit.
    The code is -ENOSPC, and nothing changes, exactly when the blocks at the
    offset are not all unused or no place has room. *)
Theorem tools_allocate_correct (nb offset length : Z) (s : tools_sbi) : sm_ok nb s -> 0 <= offset < 2 ^ 63 -> 0 < length < 2 ^ 32 ->
  exists err a s', allocate_space offset length s = Ok (err, a, s') /\ sm_ok nb s'
  /\ ((err = 0 /\ free_run s a length /\ (offset = ADDR_ANY \/ a = offset) /\ (offset = ADDR_ANY -> forall c, free_run s c length -> a <= c)
       /\ (forall x, 0 <= x < bits_count s -> used_block s' x <-> used_block s x \/ a <= x < a + length)
       /\ t_free_blocks_count s' = t_free_blocks_count s - length)
      \/ (err = - ENOSPC /\ s' = s /\ forall c, (offset = ADDR_ANY \/ c = offset) -> ~ free_run s c length)).
Proof. apply tools_allocate_ok. Qed.

(** ** Signing *)

(** Block [j] of the buffer is signed. *)
Definition signed (a bs : Z) (m : list Z) (j : Z) : Prop := util_validate_crc (a + j * bs) (sub m (j * bs) bs) bs FSM_MAGIC_LEN = Ok 0.

Lemma fsm_magic_ok : Forall is_byte fsm_magic /\ lenZ fsm_magic = FSM_MAGIC_LEN.
Proof. split; [apply (bool_decide_unpack _); by vm_compute|done]. Qed.

Lemma blit_byte (m d m' : list Z) (o : Z) : blit m o d = Ok m' -> Forall is_byte m -> Forall is_byte d -> Forall is_byte m'.
Proof. unfold blit; destruct (_ && _); [|done]; intros [= <-] Hm Hd; rewrite !Forall_app; auto using Forall_take, Forall_drop. Qed.

Lemma slice_byte (m d : list Z) (o n : Z) : slice m o n = Ok d -> Forall is_byte m -> Forall is_byte d.
Proof. unfold slice; destruct (_ && _); [|done]; intros [= <-] Hm; auto using Forall_take, Forall_drop. Qed.

Lemma update_crc_byte (a size ml crc : Z) (m mg m' : list Z) : util_update_crc a m size (Some mg) ml = Ok (m', crc) -> Forall is_byte m -> Forall is_byte mg -> Forall is_byte m'.
Proof.
  unfold util_update_crc; intros E Hm Hg; destruct (bug_on _) as [[]| |]; [|done|done]; cbn [mbind run_bind] in E; destruct (slice mg 0 ml) as [d| |] eqn:E1; [|done|done]; cbn [mbind run_bind] in E.
  destruct (blit m 0 d) as [m1| |] eqn:E2; [|done|done]; cbn [mbind run_bind] in E; destruct (slice m1 ml _) as [d1| |] eqn:E3; [|done|done]; cbn [mbind run_bind] in E.
  destruct (blit m1 _ _) as [m2| |] eqn:E4; [|done|done]; cbn [mbind run_bind] in E; injection E as <- _.
  apply (blit_byte _ _ _ _ E4); [apply (blit_byte _ _ _ _ E2); [done|by apply (slice_byte _ _ _ _ E1)]|apply le_bytes_byte].
Qed.

(** The loop signs the blocks from [cur] on and leaves their data and the other
    blocks as they are. *)
Lemma sign_blocks_ok (a bs : Z) (n : nat) (cur : Z) (m mg : list Z) : Forall is_byte mg -> lenZ mg = FSM_MAGIC_LEN -> FSM_MAGIC_LEN + CRC32_SIZE <= bs < 2 ^ 31 -> Forall is_byte m -> 0 <= cur -> (cur + Z.of_nat n) * bs <= lenZ m ->
  exists m', sign_blocks a mg bs n cur m = Ok m' /\ lenZ m' = lenZ m /\ Forall is_byte m'
  /\ (forall j, cur <= j < cur + Z.of_nat n -> signed a bs m' j /\ forall i, FSM_MAGIC_LEN <= i < bs - CRC32_SIZE -> getZ m' (j * bs + i) = getZ m (j * bs + i))
  /\ (forall i, i < cur * bs \/ (cur + Z.of_nat n) * bs <= i -> getZ m' i = getZ m i).
Proof.
  intros Hmg Hml Hbs; revert cur m; induction n as [|n IH]; intros cur m Hb Hc Hl; [exists m; split; [done|]; split; [done|]; split; [done|]; split; [lia|done]|].
  cbn [sign_blocks]; unfold FSM_MAGIC_LEN, CRC32_SIZE in *; assert (0 <= cur * bs /\ cur * bs + bs <= lenZ m) as [C1 C2] by nia; rewrite slice_sub by lia; cbn [mbind run_bind].
  destruct (update_validate_ok (a + cur * bs) bs 12 (sub m (cur * bs) bs) mg) as (b & crc & E & Hv & Hlb & Htk & Hd); [by apply Forall_sub|by apply lenZ_sub; lia|lia|unfold CRC32_SIZE; lia|by rewrite Hml|].
  assert (Forall is_byte b) as Hbb by (apply (update_crc_byte _ _ _ _ _ _ _ E); [by apply Forall_sub|done]).
  rewrite Hml; unfold FSM_MAGIC_LEN; rewrite E; cbn [mbind run_bind]; rewrite blit_upd by lia; cbn [mbind run_bind].
  assert (lenZ (upd_at m (cur * bs) b) = lenZ m) as Hlu by (apply lenZ_upd_at; lia).
  destruct (IH (cur + 1) (upd_at m (cur * bs) b)) as (m' & E' & Hl' & Hb' & Hin & Hout); [by apply Forall_upd_at|lia|nia|]; exists m'; split; [exact E'|]; split; [lia|]; split; [done|].
  assert (forall i, 0 <= i < bs -> getZ m' (cur * bs + i) = getZ b i) as Hcur.
  { intros i Hi; rewrite Hout by nia; rewrite getZ_upd_at by lia; destruct (Z.leb_spec (cur * bs) (cur * bs + i)), (Z.ltb_spec (cur * bs + i) (cur * bs + lenZ b)); try lia; cbn [andb]; f_equal; lia. }
  split.
  - intros j Hj; destruct (decide (j = cur)) as [->|].
    + split; [unfold signed, FSM_MAGIC_LEN|].
      * assert (sub m' (cur * bs) bs = b) as ->; [|done]; rewrite <- (sub_all b bs Hlb); apply sub_ext; try lia; intros i Hi; by apply Hcur.
      * intros i Hi; rewrite Hcur, Hd by (unfold CRC32_SIZE; lia); apply getZ_sub; lia.
    + destruct (Hin j ltac:(lia)) as [Hs Hdd]; split; [done|]; intros i Hi; rewrite Hdd by lia; rewrite getZ_upd_at by lia; destruct (Z.ltb_spec (j * bs + i) (cur * bs + lenZ b)); [nia|by rewrite andb_false_r].
  - intros i Hi; rewrite Hout by nia; rewrite getZ_upd_at by lia; destruct (Z.leb_spec (cur * bs) i), (Z.ltb_spec i (cur * bs + lenZ b)); cbn [andb]; done || nia.
Qed.

(** ** A new manager *)

(** The mask of [init_space_manager] rounds down to whole blocks. *)
Lemma align_down (x k : Z) : 0 <= x < 2 ^ 32 -> 0 <= k -> Z.land x (u32 (Z.lnot (2 ^ k - 1))) = x / 2 ^ k * 2 ^ k.
Proof.
  intros Hx Hk; unfold u32; rewrite <- Z.land_ones by lia; rewrite (Z.land_comm _ (Z.ones 32)), Z.land_assoc, Z.land_ones by lia; rewrite Z.mod_small by lia.
  rewrite <- Z.ldiff_land; replace (2 ^ k - 1) with (Z.ones k) by (rewrite Z.ones_equiv; lia); rewrite Z.ldiff_ones_r by lia; by rewrite Z.shiftl_mul_pow2, Z.shiftr_div_pow2 by lia.
Qed.

(** The buffer has whole blocks, and their data has room for the bits. *)
Lemma sm_buffer_size_ok (bits k : Z) : 4 < k < 28 -> 0 <= bits < 2 ^ 32 ->
  let bs := 2 ^ k in exists nb, 0 <= nb /\ sm_buffer_size bits bs = nb * bs /\ bits <= nb * (8 * (bs - 16)).
Proof.
  intros Hk Hb bs; assert (32 <= bs < 2 ^ 28) as Hbs by (unfold bs; split; [change 32 with (2 ^ 5); apply Z.pow_le_mono_r; lia|apply Z.pow_lt_mono_r; lia]).
  unfold sm_buffer_size, CRC32_SIZE, FSM_MAGIC_LEN; change (4 + 12) with 16; rewrite Z.shiftr_div_pow2 by lia; change (2 ^ 3) with 8.
  assert (0 <= (bits + 7) / 8 < 2 ^ 30 /\ bits <= (bits + 7) / 8 * 8) as [B1 B2] by (pose proof (Z.div_mod (bits + 7) 8 ltac:(lia)); pose proof (Z.mod_pos_bound (bits + 7) 8 ltac:(lia)); lia).
  set (by_ := (bits + 7) / 8) in *; set (c := (by_ + (bs - 16) - 1) / (bs - 16)).
  assert (0 <= c <= by_ /\ by_ <= c * (bs - 16) /\ (c - 1) * (bs - 16) < by_ + (if by_ =? 0 then 1 else 0)) as (C1 & C2 & C3).
  { pose proof (Z.div_mod (by_ + (bs - 16) - 1) (bs - 16) ltac:(lia)) as D; pose proof (Z.mod_pos_bound (by_ + (bs - 16) - 1) (bs - 16) ltac:(lia)) as M; fold c in D; destruct (Z.eqb_spec by_ 0); nia. }
  assert (16 * c <= by_ + 16) as C4 by (destruct (Z.eqb_spec by_ 0); nia).
  assert (forall x y, 0 < y -> x <= x / y * y + (y - 1) /\ x / y * y <= x) as Hd by (intros x y Hy; pose proof (Z.div_mod x y ltac:(lia)); pose proof (Z.mod_pos_bound x y Hy); lia).
  unfold bs; rewrite align_down by (fold bs; lia); fold bs; set (x := by_ + 16 * c + bs - 1); destruct (Hd x bs ltac:(lia)) as [D1 D2]; exists (x / bs).
  split; [apply Z.div_pos; lia|]; split; [done|].
  assert (c <= x / bs) as Hc by (apply Z.div_le_lower_bound; [lia|]; unfold x; destruct (Z.eqb_spec by_ 0); nia); nia.
Qed.

Lemma lenZ_zero_bytes (n : Z) : 0 <= n -> lenZ (replicate (Z.to_nat n) 0) = n.
Proof. intros; unfold lenZ; rewrite length_replicate; lia. Qed.

Lemma bit_zeros (n j : Z) : bit (replicate (Z.to_nat n) 0) j = false.
Proof.
  unfold bit; destruct (getZ _ (j / 8)) as [b|] eqn:E; [|done]; apply getZ_elem in E; apply elem_of_replicate in E as [-> _]; apply Z.testbit_0_l.
Qed.

(** Signing whole blocks leaves the bits of the bitmap as they are. *)
Lemma signed_bits (m m' : list Z) (bs nb x : Z) : geometry m bs FSM_MAGIC_LEN CRC32_SIZE nb -> 0 <= x < nb * datablock_size bs FSM_MAGIC_LEN CRC32_SIZE ->
  (forall j, 0 <= j < nb -> forall i, FSM_MAGIC_LEN <= i < bs - CRC32_SIZE -> getZ m' (j * bs + i) = getZ m (j * bs + i)) ->
  bit m' (phys bs FSM_MAGIC_LEN CRC32_SIZE x) = bit m (phys bs FSM_MAGIC_LEN CRC32_SIZE x).
Proof.
  intros [_ _ G1 _ _ _ _]; unfold datablock_size, phys, bit, FSM_MAGIC_LEN, CRC32_SIZE, datablock_size in *; cbv zeta; rewrite Z.shiftl_mul_pow2 by lia; set (D := (bs - (12 + 4)) * 2 ^ 3); intros Hx H.
  assert (0 < D) as HD by (unfold D; lia); pose proof (Z.div_mod x D ltac:(lia)); pose proof (Z.mod_pos_bound x D HD) as Hm.
  assert (0 <= x / D < nb) as Hq by (split; [apply Z.div_pos; lia|apply Z.div_lt_upper_bound; nia]).
  assert ((8 * (x / D * bs + 12) + x mod D) / 8 = x / D * bs + (12 + x mod D / 8)) as -> by (rewrite (Z.mul_comm 8), Z.div_add_l by lia; lia).
  assert (0 <= x mod D / 8 < bs - 16) as Hi by (split; [apply Z.div_pos; lia|apply Z.div_lt_upper_bound; unfold D in *; lia]).
  rewrite H by lia; done.
Qed.

(** The number of bits of the volume. *)
Definition volume_bits (s : tools_sbi) : Z := (max_volume_size s - vdfs4_start_block s) / t_block_size s.

Lemma init_space_manager_ok (k a : Z) (s : tools_sbi) : 4 < k < 28 -> t_block_size s = 2 ^ k -> read_only_image s = false -> space_manager_list s = [] ->
  0 <= vdfs4_start_block s <= max_volume_size s -> max_volume_size s < 2 ^ 64 -> 0 < volume_bits s < 2 ^ 32 -> sm_buffer_size (volume_bits s) (2 ^ k) < 2 ^ 31 ->
  exists nb s', init_space_manager (Some a) s = Ok (0, s') /\ sm_ok nb s' /\ bits_count s' = volume_bits s
  /\ free_run s' 0 (bits_count s') /\ (forall j, 0 <= j < nb -> signed a (2 ^ k) (sm_buffer s') j) /\ metadata_size s' = u32 (metadata_size s + nb).
Proof.
  intros Hk Ebs Hrw El H0 Hv Hbits Hsz; unfold init_space_manager; rewrite Hrw; cbn [bits_count set_bits_count t_block_size space_manager_list set_list].
  rewrite u64_small by lia; unfold volume_bits in *; rewrite Ebs, El in *; set (bits := (max_volume_size s - vdfs4_start_block s) / 2 ^ k) in *.
  assert (32 <= 2 ^ k < 2 ^ 28) as Hbs by (split; [change 32 with (2 ^ 5); apply Z.pow_le_mono_r; lia|apply Z.pow_lt_mono_r; lia]).
  destruct (sm_buffer_size_ok bits k Hk ltac:(lia)) as (nb & Hnb & Es & Hroom); rewrite Es in *; set (bs := 2 ^ k) in *; rewrite u32_small by nia.
  assert (0 <= nb * bs) as Hnn by nia; unfold init_sm_buffer, sign_sm_buffer; cbn [sm_buffer set_buffer t_block_size set_list set_bits_count]; rewrite lenZ_zero_bytes by done; rewrite Ebs; fold bs; rewrite Z.div_mul by lia.
  destruct (sign_blocks_ok a bs (Z.to_nat nb) 0 (replicate (Z.to_nat (nb * bs)) 0) fsm_magic (proj1 fsm_magic_ok) (proj2 fsm_magic_ok)) as (m & E & Hl & _ & Hin & _); [unfold FSM_MAGIC_LEN, CRC32_SIZE; lia|by apply Forall_replicate|lia|rewrite lenZ_zero_bytes; nia|].
  rewrite E; cbn [mbind run_bind]; rewrite lenZ_zero_bytes in Hl by done; rewrite Z2Nat.id in Hin by lia; exists nb; eexists; split; [reflexivity|].
  assert (geometry m bs FSM_MAGIC_LEN CRC32_SIZE nb) as Hgeo by (constructor; unfold FSM_MAGIC_LEN, CRC32_SIZE; lia).
  assert (datablock_size bs FSM_MAGIC_LEN CRC32_SIZE = 8 * (bs - 16)) as Ed by (unfold datablock_size, FSM_MAGIC_LEN, CRC32_SIZE; rewrite Z.shiftl_mul_pow2 by lia; lia).
  assert (forall x, 0 <= x < bits -> bit m (phys bs FSM_MAGIC_LEN CRC32_SIZE x) = false) as Hfree.
  { intros x Hx; rewrite (signed_bits (replicate (Z.to_nat (nb * bs)) 0) m bs nb x); [apply bit_zeros| |rewrite Ed; lia|intros j Hj; apply (proj2 (Hin j ltac:(lia)))].
    constructor; unfold FSM_MAGIC_LEN, CRC32_SIZE; rewrite ?lenZ_zero_bytes by done; lia. }
  assert (put_space_manager_list_sorted 0 bits [] = [Range 0 bits]) as -> by (unfold put_space_manager_list_sorted; by rewrite u32_small by lia).
  assert (forall x, 0 <= x < bits -> ~ ~ covers [Range 0 bits] x) as Hcov by (intros x Hx Hn; apply Hn, covers_cons; left; unfold in_range, stop; cbn; lia).
  cbn [bits_count set_buffer set_list set_bits_count]; rewrite (u32_small bits) by lia; split; [|split; [done|split; [|split; [intros j Hj; apply (Hin j ltac:(lia))|]]]].
  - split; cbn [read_only_image sm_buffer t_block_size bits_count space_manager_list t_free_blocks_count set_free_count set_buffer set_list set_metadata_size set_bits_count]; rewrite ?Ebs, ?Ed; auto; try lia.
    + repeat split; [unfold nonempty; cbn; lia|by constructor].
    + repeat constructor; cbn; unfold stop; cbn; lia.
    + intros x Hx; unfold used_block; cbn [sm_buffer t_block_size set_free_count set_buffer set_list set_metadata_size set_bits_count]; rewrite Ebs, Hfree by done; split; [done|]; intros Hn; by destruct (Hcov x Hx).
    + cbn; lia.
  - intros x Hx; split; [exact Hx|]; unfold used_block; cbn [sm_buffer t_block_size set_free_count set_buffer set_list set_metadata_size set_bits_count]; rewrite Ebs, Hfree; [done|exact Hx].
  - cbn [metadata_size set_metadata_size set_free_count set_buffer set_list set_bits_count t_block_size]; rewrite Ebs; unfold byte_to_block; by rewrite Z.div_mul, Z.mod_mul by lia.
Qed.

(** On a volume with blocks of a power of two in size, a new manager has one
    chunk with all the blocks: list, bitmap and count are in step, every block
    is unused, each block of the bitmap carries its magic and checksum, and the
    metadata grows by the blocks of the bitmap. Without memory the code is
    -ENOMEM. *)
Theorem init_space_manager_correct (k a : Z) (s : tools_sbi) : 4 < k < 28 -> t_block_size s = 2 ^ k -> read_only_image s = false -> space_manager_list s = [] ->
  0 <= vdfs4_start_block s <= max_volume_size s -> max_volume_size s < 2 ^ 64 -> 0 < volume_bits s < 2 ^ 32 -> sm_buffer_size (volume_bits s) (2 ^ k) < 2 ^ 31 ->
  (exists s', init_space_manager None s = Ok (- ENOMEM, s'))
  /\ exists nb s', init_space_manager (Some a) s = Ok (0, s') /\ sm_ok nb s' /\ bits_count s' = volume_bits s
  /\ free_run s' 0 (bits_count s') /\ (forall j, 0 <= j < nb -> signed a (2 ^ k) (sm_buffer s') j) /\ metadata_size s' = u32 (metadata_size s + nb).
Proof.
  intros ? ? Hrw ? ? ? ? ?; split; [|by apply init_space_manager_ok]; unfold init_space_manager; rewrite Hrw; eexists; reflexivity.
Qed.

(** ** Blocks of the metadata area *)

Definition extents_total (extents : list (Z * Z)) : Z := foldr (fun e t => snd e + t) 0 extents.
(** None of the extents has the block [x]. *)
Definition outside_extents (x : Z) (extents : list (Z * Z)) : Prop := Forall (fun e => ~ fst e <= x < fst e + snd e) extents.
Definition extent_ok (e : Z * Z) : Prop := 0 <= fst e /\ 0 <= snd e < 2 ^ 32 /\ fst e + snd e < 2 ^ 48.

(** Extents of an area: their count fits the superblock, no two share a block. *)
Record area_extents (extents : list (Z * Z)) : Prop := {
  ae_count : lenZ extents <= VDFS4_META_BTREE_EXTENTS;
  ae_each : Forall extent_ok extents;
  ae_total : extents_total extents < 2 ^ 31;
  ae_apart : forall pre e post x, extents = pre ++ e :: post -> fst e <= x < fst e + snd e -> outside_extents x pre
}.

Lemma extents_total_app (A B : list (Z * Z)) : extents_total (A ++ B) = extents_total A + extents_total B.
Proof. induction A as [|e A IH]; cbn; [done|]; fold (extents_total (A ++ B)) (extents_total A); lia. Qed.

Lemma extents_total_nonneg (extents : list (Z * Z)) : Forall extent_ok extents -> 0 <= extents_total extents.
Proof. induction 1 as [|e l (_ & H & _) _ IH]; cbn; [lia|]; fold (extents_total l); lia. Qed.

Lemma s32_small (x : Z) : 0 <= x < 2 ^ 31 -> s32 x = x.
Proof. intros; unfold s32; rewrite Z.mod_small; lia. Qed.

(** A block of the area lies in one of the extents. *)
Lemma extents_split (extents : list (Z * Z)) (m : Z) : 0 <= m < extents_total extents ->
  exists pre e post, extents = pre ++ e :: post /\ 0 <= m - extents_total pre < snd e.
Proof.
  revert m; induction extents as [|e extents IH]; intros m Hm; cbn [extents_total foldr] in *; [lia|]; fold (extents_total extents) in *; destruct (Z.ltb_spec m (snd e)).
  - exists [], e, extents; cbn; split; [done|lia].
  - destruct (IH (m - snd e) ltac:(lia)) as (pre & q & post & -> & Hp); exists (e :: pre), q, post; cbn; fold (extents_total pre); split; [done|lia].
Qed.

Lemma metablock_place (pre post : list (Z * Z)) (e : Z * Z) (t k : Z) : Forall extent_ok (pre ++ e :: post) -> 0 <= t -> t + extents_total (pre ++ e :: post) < 2 ^ 31 ->
  0 <= k < snd e -> metablock_to_iblock (pre ++ e :: post) t (t + extents_total pre + k) = fst e + k.
Proof.
  revert t; induction pre as [|[o l] pre IH]; intros t HF Ht Hb Hk; cbn [app metablock_to_iblock] in *.
  - destruct e as [o l]; apply Forall_cons in HF as [(H1 & H2 & H3) HF]; cbn [fst snd extents_total foldr] in *; fold (extents_total post) in *; pose proof (extents_total_nonneg _ HF).
    rewrite (u64_small (t + l)) by lia; destruct (Z.ltb_spec (t + 0 + k) (t + l)); [|lia]; rewrite u64_small; lia.
  - apply Forall_cons in HF as [(H1 & H2 & H3) HF]; cbn [fst snd extents_total foldr] in *; fold (extents_total pre) in *; fold (extents_total (pre ++ e :: post)) in *.
    pose proof (extents_total_nonneg _ HF); pose proof (extents_total_nonneg _ (proj1 (proj1 (Forall_app _ _ _) HF))); rewrite (u64_small (t + l)) by lia.
    destruct (Z.ltb_spec (t + (l + extents_total pre) + k) (t + l)); [lia|]; rewrite <- (IH (t + l)); auto; [f_equal; lia|lia|lia].
Qed.

Lemma iblock_place (pre post : list (Z * Z)) (e : Z * Z) (a t x : Z) : Forall extent_ok (pre ++ e :: post) -> 0 <= t -> t + extents_total (pre ++ e :: post) < 2 ^ 31 ->
  0 <= a -> a + (lenZ pre + 1) * 2 ^ 49 < 2 ^ 64 -> fst e <= x < fst e + snd e -> outside_extents x pre ->
  iblock_to_metablock (pre ++ e :: post) a t x = t + extents_total pre + (x - fst e).
Proof.
  revert a t; induction pre as [|[o l] pre IH]; intros a t HF Ht Hb Ha Hc Hx Hout; cbn [app iblock_to_metablock] in *.
  - destruct e as [o l]; apply Forall_cons in HF as [(H1 & H2 & H3) HF]; cbn [fst snd extents_total foldr] in *; fold (extents_total post) in *; pose proof (extents_total_nonneg _ HF); unfold lenZ in Hc; cbn in Hc.
    rewrite (u32_small (l - 1)), (u64_small (l - 1 + o)), (u64_small (t + l)), (u64_small (a + _)), (u64_small (l + o)) by lia.
    destruct (Z.leb_spec x (a + (l - 1 + o))), (Z.leb_spec o x), (Z.ltb_spec x (l + o)); try lia; cbn [andb]; rewrite u64_small, u32_small, s32_small by lia; lia.
  - apply Forall_cons in HF as [(H1 & H2 & H3) HF]; apply Forall_cons in Hout as [Ho Hout]; cbn [fst snd extents_total foldr] in *; fold (extents_total pre) in *; fold (extents_total (pre ++ e :: post)) in *.
    assert (0 <= u32 (l - 1) < 2 ^ 32) as Hu by (unfold u32; apply Z.mod_pos_bound; lia); rewrite lenZ_cons in Hc; pose proof (lenZ_nonneg pre); pose proof (extents_total_nonneg _ HF).
    rewrite (u64_small (u32 _ + o)), (u64_small (t + l)), (u64_small (a + _)), (u64_small (l + o)) by lia.
    destruct (Z.leb_spec o x), (Z.ltb_spec x (l + o)); try lia; rewrite ?andb_false_r; cbn [andb]; rewrite IH; try lia; auto.
Qed.

(** The two conversions between blocks of the volume and blocks of the
    metadata area are inverse: every block of the area has a place in one of the
    extents, and it is found again from there; a block of an extent is the place
    of its block of the area. *)
Theorem metablock_roundtrip (extents : list (Z * Z)) : area_extents extents ->
  (forall m, 0 <= m < extents_total extents ->
     ~ outside_extents (metablock_to_iblock extents 0 m) extents /\ iblock_to_metablock extents 0 0 (metablock_to_iblock extents 0 m) = m)
  /\ (forall x, 0 <= x -> ~ outside_extents x extents -> metablock_to_iblock extents 0 (iblock_to_metablock extents 0 0 x) = x).
Proof.
  intros [Hc He Ht Hap]; unfold VDFS4_META_BTREE_EXTENTS in Hc.
  assert (forall pre e post x, extents = pre ++ e :: post -> fst e <= x < fst e + snd e -> iblock_to_metablock extents 0 0 x = extents_total pre + (x - fst e)
    /\ metablock_to_iblock extents 0 (extents_total pre + (x - fst e)) = x) as Hi.
  { intros pre e post x E Hx; pose proof (Hap pre e post x E Hx) as Ho; subst extents; rewrite lenZ_app, lenZ_cons in Hc; pose proof (lenZ_nonneg post); split.
    - rewrite iblock_place; auto; lia.
    - rewrite <- (Z.add_0_l (extents_total pre)); rewrite metablock_place; auto; lia. }
  split.
  - intros m Hm; destruct (extents_split extents m Hm) as (pre & e & post & E & Hp); destruct (Hi pre e post (fst e + (m - extents_total pre)) E ltac:(lia)) as [H1 H2].
    replace (extents_total pre + (fst e + (m - extents_total pre) - fst e)) with m in * by lia; rewrite H2; split; [|exact H1].
    intros Ho; rewrite E in Ho; apply Forall_app in Ho as [_ Ho]; apply Forall_cons in Ho as [Ho _]; lia.
  - intros x Hx Hin; apply not_Forall_Exists in Hin; [|intros ?; apply _]; apply Exists_exists in Hin as (e & Hel & Hn); cbn beta in Hn; apply list_elem_of_split in Hel as (pre & post & E).
    assert (fst e <= x < fst e + snd e) as Hxe by (destruct (decide (fst e <= x < fst e + snd e)); [done|by destruct Hn]); destruct (Hi pre e post x E Hxe) as [-> H2]; exact H2.
Qed.

(** The conversion that fills the tables of a converted image adds the ends
    of all the extents so far before it compares: a block of the third extent
    that lies below that sum is taken for a block behind the second one. *)
Theorem conversion_misplaces (o1 l1 o2 l2 o3 l3 : Z) : 0 <= o1 -> 0 < l1 -> 0 <= o2 -> 0 < l2 -> 0 < l3 < 2 ^ 31 -> o1 + l1 + o2 + l2 < 2 ^ 31 ->
  o1 + l1 <= o2 -> o2 + l2 < o3 -> o3 + 2 <= o1 + l1 + o2 + l2 ->
  iblock_to_mblock_for_conversion [(o1, l1); (o2, l2); (o3, l3)] 0 0 o3 = l1 + l2 + (o3 - (o2 + l2))
  /\ metablock_to_iblock [(o1, l1); (o2, l2); (o3, l3)] 0 (l1 + l2) = o3.
Proof.
  intros; cbn [iblock_to_mblock_for_conversion metablock_to_iblock]; rewrite !(proj2 (Z.eqb_neq _ 0)) by lia.
  rewrite !(u32_small (_ - 1)), !(u64_small (_ - 1 + _)), !(u64_small (0 + _)), !(u64_small (0 + _ + _)), !(u64_small (0 + _ + _ + _)) by lia.
  destruct (Z.leb_spec o3 (0 + (l1 - 1 + o1))), (Z.leb_spec o3 (0 + (l1 - 1 + o1) + (l2 - 1 + o2))), (Z.leb_spec o2 o3), (Z.ltb_spec (l1 + l2) (0 + l1)), (Z.ltb_spec (l1 + l2) (0 + l1 + l2)),
    (Z.ltb_spec (l1 + l2) (0 + l1 + l2 + l3)); cbn [andb]; try lia; rewrite !u64_small; lia.
Qed.

(** ** Witnesses *)

(** A volume of 100 blocks of 32 bytes *)
Definition volume0 : tools_sbi := ToolsSbi 32 3200 3200 0 false false 0 0 [] [] 0 0.

Lemma init_space_manager_correct_witness : exists nb s', init_space_manager (Some 4096) volume0 = Ok (0, s') /\ sm_ok nb s' /\ bits_count s' = 100 /\ metadata_size s' = u32 (0 + nb).
Proof.
  destruct (init_space_manager_correct 5 4096 volume0) as [_ (nb & s' & E & Hok & Hb & _ & _ & Hm)]; [lia|reflexivity|reflexivity|reflexivity|by vm_compute|by vm_compute|by vm_compute|by vm_compute|].
  exists nb, s'; auto.
Defined.

Lemma tools_allocate_correct_witness : exists s err a s', init_space_manager (Some 4096) volume0 = Ok (0, s) /\ allocate_space 7 5 s = Ok (err, a, s').
Proof.
  destruct (init_space_manager_ok 5 4096 volume0) as (nb & s & E & Hok & _); [lia|reflexivity|reflexivity|reflexivity|by vm_compute|by vm_compute|by vm_compute|by vm_compute|].
  destruct (tools_allocate_correct nb 7 5 s Hok ltac:(lia) ltac:(lia)) as (err & a & s' & Ea & _); exists s, err, a, s'; auto.
Defined.

(** An area of three extents *)
Definition area0 : list (Z * Z) := [(100, 8); (200, 16); (50, 4)].

Lemma metablock_roundtrip_witness : iblock_to_metablock area0 0 0 (metablock_to_iblock area0 0 25) = 25 /\ metablock_to_iblock area0 0 (iblock_to_metablock area0 0 0 203) = 203.
Proof.
  destruct (metablock_roundtrip area0) as [H1 H2].
  - split; [by vm_compute|repeat constructor; cbn; lia|by vm_compute|].
    intros pre e post x E Hx; destruct pre as [|p1 [|p2 [|p3 pre]]]; injection E; intros; subst; repeat constructor; cbn in *; try lia; by destruct pre.
  - split; [apply H1; by vm_compute|apply H2; [lia|]]; intros Ho; apply Forall_cons in Ho as [_ Ho]; apply Forall_cons in Ho as [Ho _]; cbn in Ho; lia.
Defined.

Lemma conversion_misplaces_witness : iblock_to_mblock_for_conversion [(10, 5); (20, 5); (30, 5)] 0 0 30 = 15 /\ metablock_to_iblock [(10, 5); (20, 5); (30, 5)] 0 10 = 30.
Proof. apply (conversion_misplaces 10 5 20 5 30 5); lia. Defined.
