(* ===== verification/ToolsIds.v ===== *)
(** Inode numbers of a new image: src/vdfs-tools/lib/inode-id.c, the list of
    hard links of src/vdfs-tools/lib/hlink.c, and the numbering of the files in
    insert_metadata and insert_record of src/vdfs-tools/mkfs/mkfs.c; with the
    theorems about them. *)

From Stdlib Require Import ZArith Lia Bool List.
From stdpp Require Import base list sorting.
From S2P Require Import Prelude Bytes Buffer Bitmap Crc32 ToolsSpace ToolsTheorems.

Open Scope Z_scope.

(** ** Inode numbers *)

Definition INODE_BITMAP_MAGIC : list Z := [105; 110; 111; 98].
Definition INODE_BITMAP_MAGIC_LEN : Z := 12.
Definition VDFS4_1ST_FILE_INO : Z := 9.

(** The fields of struct vdfs4_sb_info the file works on. *)
Record ids : Type := Ids {
  ids_block_size : Z;
  ids_read_only : bool;
  last_allocated_inode_number : Z;
  inode_bitmap : list Z;
  ids_metadata_size : Z
}.

Definition set_last (n : Z) (s : ids) : ids := Ids (ids_block_size s) (ids_read_only s) n (inode_bitmap s) (ids_metadata_size s).
Definition set_inode_bitmap (m : list Z) (s : ids) : ids := Ids (ids_block_size s) (ids_read_only s) (last_allocated_inode_number s) m (ids_metadata_size s).

Definition init_inode_id_alloc (s : ids) : ids := set_last (VDFS4_1ST_FILE_INO - 1) s.

Definition get_free_inode_n (count : Z) (s : ids) : Z * ids :=
  (last_allocated_inode_number s +64 1, set_last (u64 (last_allocated_inode_number s + count)) s).

Definition test_and_clear_inode_n (ino_n : Z) (s : ids) : run (Z * ids) :=
  let m := inode_bitmap s in
  ret ← util_sign_test_bit m (lenZ m) ino_n (ids_block_size s) INODE_BITMAP_MAGIC_LEN CRC32_SIZE;
  '(m, _) ← util_sign_clear_bits m (lenZ m) ino_n 1 (ids_block_size s) INODE_BITMAP_MAGIC_LEN CRC32_SIZE;
  Ok (ret, set_last (ino_n -64 1) (set_inode_bitmap m s)).

Definition inode_bitmap_count_crc (a : Z) (s : ids) : run ids :=
  m ← sign_blocks a (INODE_BITMAP_MAGIC ++ le_bytes 8 1) (ids_block_size s) (Z.to_nat (lenZ (inode_bitmap s) / ids_block_size s)) 0 (inode_bitmap s);
  Ok (set_inode_bitmap m s).

Definition get_inode_bitmap_size (s : ids) : Z :=
  let bitmap_bytes_per_block := ids_block_size s - INODE_BITMAP_MAGIC_LEN - CRC32_SIZE in
  let bitmap_bytes_needed := Z.shiftr (Z.land (u64 (last_allocated_inode_number s + 1 + 8 - 1)) (u64 (Z.lnot (8 - 1)))) 3 in
  let blocks_needed := bitmap_bytes_needed / bitmap_bytes_per_block in
  let blocks_needed := if negb (bitmap_bytes_needed mod bitmap_bytes_per_block =? 0) then blocks_needed + 1 else blocks_needed in
  block_to_byte blocks_needed (ids_block_size s).

(** [fill_inode_bitmap]; [memory] is the address malloc returns, None is NULL. *)
Definition fill_inode_bitmap (memory : option Z) (s : ids) : run (Z * ids) :=
  let inode_bitmap_size := get_inode_bitmap_size s in
  if ids_read_only s then Ok (0, s)
  else
    match memory with
    | None => Ok (- ENOMEM, s)
    | Some a =>
        let size := u32 (ids_metadata_size s + byte_to_block inode_bitmap_size (ids_block_size s)) in
        '(m, ret) ← util_sign_set_bits (replicate (Z.to_nat inode_bitmap_size) 0) inode_bitmap_size 0 (u32 (last_allocated_inode_number s + 1)) (ids_block_size s)
          INODE_BITMAP_MAGIC_LEN CRC32_SIZE;
        let s := Ids (ids_block_size s) (ids_read_only s) (last_allocated_inode_number s) m size in
        if negb (ret =? 0) then Ok (ret, s) else s ← inode_bitmap_count_crc a s; Ok (0, s)
    end.

(** ** Hard links *)

Definition VDFS4_FULL_PATH_LEN : Z := 1023.

(** struct hlink_list_item without its link; the list in the superblock begins
    with an item of zeros. *)
Record hlink : Type := Hlink {
  ino_n : Z;
  new_ino_n : Z;
  links : Z;
  hl_name : list Z
}.

Definition hl_list_item_init (ino : Z) (name : list Z) (new_ino : Z) : hlink :=
  let zeros := replicate (Z.to_nat VDFS4_FULL_PATH_LEN) 0 in
  Hlink ino new_ino 1 (if lenZ name <=? VDFS4_FULL_PATH_LEN then name ++ drop (length name) zeros else zeros).

(** [hl_list_insert] behind an item whose successors are [next]. *)
Fixpoint hl_list_insert (next : list hlink) (new : hlink) : list hlink :=
  match next with
  | [] => [new]
  | y :: next' => if new_ino_n new <? new_ino_n y then new :: y :: next' else y :: hl_list_insert next' new
  end.

(** [hl_list_item_find]: the item with those before and behind it. *)
Fixpoint hl_list_item_find (list : list hlink) (object_id : Z) : option (Datatypes.list hlink * hlink * Datatypes.list hlink) :=
  match list with
  | [] => None
  | x :: list =>
      if ino_n x =? object_id then Some ([], x, list)
      else match hl_list_item_find list object_id with Some (pre, y, post) => Some (x :: pre, y, post) | None => None end
  end.

(** The numbers and the list of links, head first. *)
Record numbering : Type := Numbering { nb_ids : ids; hlinks_list : hlink * list hlink }.

(** The number of a file that is not a directory: [obj_id] is the new number,
    insert_record looks up the source inode of a file with several links. *)
Definition record_number (st_ino st_nlink : Z) (path : list Z) (obj_id : Z) (s : numbering) : run (Z * numbering) :=
  let '(head, list) := hlinks_list s in
  if 1 <? st_nlink then
    match hl_list_item_find (head :: list) st_ino with
    | Some (pre, item, post) =>
        let item := Hlink (ino_n item) (new_ino_n item) (u32 (links item + 1)) (hl_name item) in
        '(_, i) ← test_and_clear_inode_n obj_id (nb_ids s);
        Ok (new_ino_n item, Numbering i (match pre with [] => (item, post) | h :: pre => (h, pre ++ item :: post) end))
    | None => Ok (obj_id, Numbering (nb_ids s) (head, hl_list_insert list (hl_list_item_init st_ino path obj_id)))
    end
  else Ok (obj_id, s).

(** An entry of a directory as lstat describes it, in the order of insert_metadata;
    the code does not look at [st_dev]. *)
Record dirent : Type := Dirent { st_dev : Z; st_ino : Z; st_nlink : Z; is_dir : bool; d_path : list Z }.

Definition number_entry (e : dirent) (s : numbering) : run (Z * numbering) :=
  let '(obj_id, i) := get_free_inode_n 1 (nb_ids s) in
  let s := Numbering i (hlinks_list s) in
  if is_dir e then Ok (obj_id, s) else record_number (st_ino e) (st_nlink e) (d_path e) obj_id s.

Fixpoint number_entries (entries : list dirent) (s : numbering) : run (list Z * numbering) :=
  match entries with
  | [] => Ok ([], s)
  | e :: entries =>
      '(n, s) ← number_entry e s;
      '(ns, s) ← number_entries entries s;
      Ok (n :: ns, s)
  end.

(** ** The bitmap of a new image *)

Definition inode_used (s : ids) (x : Z) : Prop := bit (inode_bitmap s) (phys (ids_block_size s) INODE_BITMAP_MAGIC_LEN CRC32_SIZE x) = true.

(** The blocks of the bitmap hold the numbers. *)
Lemma inode_bitmap_size_ok (s : ids) : 16 < ids_block_size s < 2 ^ 28 -> 0 <= last_allocated_inode_number s < 2 ^ 31 ->
  exists nb, 0 <= nb /\ get_inode_bitmap_size s = nb * ids_block_size s /\ last_allocated_inode_number s + 1 <= nb * (8 * (ids_block_size s - 16)).
Proof.
  intros Hb Hl; unfold get_inode_bitmap_size, INODE_BITMAP_MAGIC_LEN, CRC32_SIZE; set (n := last_allocated_inode_number s + 1); set (bs := ids_block_size s) in *; replace (bs - 12 - 4) with (bs - 16) by lia.
  rewrite (u64_small (n + 8 - 1)) by lia; assert (Z.shiftr (Z.land (n + 8 - 1) (u64 (Z.lnot (8 - 1)))) 3 = (n + 7) / 8) as ->.
  { rewrite Z.shiftr_div_pow2 by lia; change (2 ^ 3) with 8; replace (Z.land (n + 8 - 1) (u64 (Z.lnot (8 - 1)))) with ((n + 7) / 8 * 8); [apply Z.div_mul; lia|].
    assert (u64 (Z.lnot (8 - 1)) = Z.lor (u32 (Z.lnot (2 ^ 3 - 1))) (Z.shiftl (Z.ones 32) 32)) as -> by reflexivity; rewrite Z.land_lor_distr_r, align_down by lia.
    replace (Z.land (n + 8 - 1) (Z.shiftl (Z.ones 32) 32)) with 0; [rewrite Z.lor_0_r; change (2 ^ 3) with 8; do 2 f_equal; lia|].
    symmetry; apply Z.bits_inj'; intros i Hi; rewrite Z.land_spec, Z.bits_0; destruct (Z.ltb_spec i 32); [rewrite Z.shiftl_spec_low by lia; apply andb_false_r|].
    rewrite (Z.bits_above_log2 (n + 8 - 1)); [done|lia|]; apply Z.log2_lt_pow2; [lia|]; apply (Z.lt_le_trans _ (2 ^ 32)); [lia|apply Z.pow_le_mono_r; lia]. }
  set (q := (n + 7) / 8); assert (0 <= q < 2 ^ 29 /\ n <= 8 * q) as [Hq Hn] by (pose proof (Z.div_mod (n + 7) 8 ltac:(lia)); pose proof (Z.mod_pos_bound (n + 7) 8 ltac:(lia)); lia).
  pose proof (Z.div_mod q (bs - 16) ltac:(lia)) as D; pose proof (Z.mod_pos_bound q (bs - 16) ltac:(lia)) as M; assert (0 <= q / (bs - 16) <= q) as Hd by (split; [apply Z.div_pos; lia|apply Z.div_le_upper_bound; nia]).
  exists (if negb (q mod (bs - 16) =? 0) then q / (bs - 16) + 1 else q / (bs - 16)); unfold block_to_byte.
  destruct (Z.eqb_spec (q mod (bs - 16)) 0); cbn [negb]; (split; [lia|split; [apply u64_small; nia|nia]]).
Qed.

(** The bitmap of the inode numbers of a new image marks exactly the numbers
    up to the last one that was given out, in signed blocks; the metadata grows
    by these blocks. *)
Theorem fill_inode_bitmap_correct (a : Z) (s : ids) : ids_read_only s = false -> 16 < ids_block_size s < 2 ^ 28 -> 0 <= last_allocated_inode_number s < 2 ^ 31 ->
  get_inode_bitmap_size s < 2 ^ 31 ->
  exists nb s', fill_inode_bitmap (Some a) s = Ok (0, s') /\ lenZ (inode_bitmap s') = nb * ids_block_size s /\ last_allocated_inode_number s' = last_allocated_inode_number s
  /\ last_allocated_inode_number s + 1 <= nb * datablock_size (ids_block_size s) INODE_BITMAP_MAGIC_LEN CRC32_SIZE
  /\ (forall x, 0 <= x < nb * datablock_size (ids_block_size s) INODE_BITMAP_MAGIC_LEN CRC32_SIZE -> inode_used s' x <-> x <= last_allocated_inode_number s)
  /\ (forall j, 0 <= j < nb -> signed a (ids_block_size s) (inode_bitmap s') j)
  /\ ids_metadata_size s' = u32 (ids_metadata_size s + nb).
Proof.
  intros Hro Hb Hl Hsz; destruct (inode_bitmap_size_ok s Hb Hl) as (nb & Hnb & Es & Hroom); unfold fill_inode_bitmap; rewrite Hro, Es in *; set (bs := ids_block_size s) in *; set (last := last_allocated_inode_number s) in *.
  assert (0 <= nb * bs) as Hnn by nia; set (m0 := replicate (Z.to_nat (nb * bs)) 0); assert (lenZ m0 = nb * bs) as L0 by (by apply lenZ_zero_bytes).
  assert (geometry m0 bs INODE_BITMAP_MAGIC_LEN CRC32_SIZE nb) as G0 by (constructor; unfold INODE_BITMAP_MAGIC_LEN, CRC32_SIZE; lia).
  assert (datablock_size bs INODE_BITMAP_MAGIC_LEN CRC32_SIZE = 8 * (bs - 16)) as Ed by (unfold datablock_size, INODE_BITMAP_MAGIC_LEN, CRC32_SIZE; rewrite Z.shiftl_mul_pow2 by lia; lia).
  rewrite (u32_small (last + 1)) by lia; assert (exists m1, util_sign_set_bits m0 (nb * bs) 0 (last + 1) bs INODE_BITMAP_MAGIC_LEN CRC32_SIZE = Ok (m1, 0) /\ lenZ m1 = nb * bs /\ Forall is_byte m1
    /\ forall x, 0 <= x < nb * (8 * (bs - 16)) -> bit m1 (phys bs INODE_BITMAP_MAGIC_LEN CRC32_SIZE x) = true <-> x <= last) as (m1 & E1 & L1 & B1 & U1).
  { replace (util_sign_set_bits m0 (nb * bs)) with (util_sign_set_bits m0 (lenZ m0)) by (by rewrite L0); unfold util_sign_set_bits; rewrite (sign_bits_run util_set_bits true bs INODE_BITMAP_MAGIC_LEN CRC32_SIZE nb) by (rewrite ?Ed; done || lia); eexists; split; [done|].
    split; [by rewrite lenZ_put_bits|]; split; [apply put_bits_bytes; by apply Forall_replicate|]; intros x Hx.
    rewrite bit_put_bits by (apply (map_phys_range m0 bs INODE_BITMAP_MAGIC_LEN CRC32_SIZE nb); [done|lia|rewrite Ed; lia]); case_decide as Hd.
    - apply elem_of_map_phys in Hd as (i & Hi & Ep); apply (phys_inj _ _ _ _ _ G0) in Ep; split; [lia|done].
    - unfold m0; rewrite bit_zeros; split; [done|]; intros Hx'; destruct Hd; apply elem_of_map_phys; exists x; split; [lia|done]. }
  cbn [mbind run_bind]; rewrite E1; cbn [mbind run_bind Z.eqb negb]; unfold inode_bitmap_count_crc; cbn [inode_bitmap ids_block_size]; fold bs; rewrite L1, Z.div_mul by lia.
  destruct (sign_blocks_ok a bs (Z.to_nat nb) 0 m1 (INODE_BITMAP_MAGIC ++ le_bytes 8 1)) as (m & E & Hlm & _ & Hin & _); [apply (bool_decide_unpack _); by vm_compute|done|unfold FSM_MAGIC_LEN, CRC32_SIZE; lia|done|lia|rewrite L1; nia|].
  rewrite E; cbn [mbind run_bind]; rewrite Z2Nat.id in Hin by lia; exists nb; eexists; split; [reflexivity|]; cbn [inode_bitmap set_inode_bitmap last_allocated_inode_number ids_metadata_size ids_block_size]; rewrite Ed.
  split; [lia|]; split; [done|]; split; [lia|]; split; [|split; [intros j Hj; apply (Hin j ltac:(lia))|]].
  - intros x Hx; unfold inode_used; cbn [inode_bitmap set_inode_bitmap ids_block_size]; fold bs; rewrite <- U1 by done; change INODE_BITMAP_MAGIC_LEN with FSM_MAGIC_LEN.
    rewrite (signed_bits m1 m bs nb x); [done|apply (geometry_len m0); [congruence|done]|change FSM_MAGIC_LEN with INODE_BITMAP_MAGIC_LEN; by rewrite Ed|intros j Hj; apply (Hin j ltac:(lia))].
  - fold bs; unfold byte_to_block; by rewrite Z.div_mul, Z.mod_mul by lia.
Qed.

(** ** Hard links share their number *)

(** The number given to a source inode. *)
Fixpoint number_of (l : list hlink) (x : Z) : option Z :=
  match l with [] => None | i :: l => if ino_n i =? x then Some (new_ino_n i) else number_of l x end.

Definition all_links (s : numbering) : list hlink := fst (hlinks_list s) :: snd (hlinks_list s).

Lemma find_some (l pre post : list hlink) (y : hlink) (x : Z) : hl_list_item_find l x = Some (pre, y, post) -> l = pre ++ y :: post /\ number_of l x = Some (new_ino_n y).
Proof.
  revert pre; induction l as [|i l IH]; intros pre; cbn [hl_list_item_find number_of]; [done|]; destruct (ino_n i =? x); [by intros [= <- <- <-]|].
  destruct (hl_list_item_find l x) as [[[p z] q]|]; [|done]; intros [= <- <- <-]; destruct (IH p eq_refl) as [-> E]; auto.
Qed.

Lemma find_none (l : list hlink) (x : Z) : hl_list_item_find l x = None -> number_of l x = None.
Proof. induction l as [|i l IH]; cbn [hl_list_item_find number_of]; [done|]; destruct (ino_n i =? x); [done|]; destruct (hl_list_item_find l x) as [[[p z] q]|]; [done|auto]. Qed.

(** A counted link leaves the numbers as they are. *)
Lemma number_count (pre post : list hlink) (y : hlink) (n x : Z) : number_of (pre ++ Hlink (ino_n y) (new_ino_n y) n (hl_name y) :: post) x = number_of (pre ++ y :: post) x.
Proof. induction pre as [|i pre IH]; cbn [app number_of]; [done|]; by rewrite IH. Qed.

Lemma number_insert (l : list hlink) (new : hlink) (x : Z) : number_of l (ino_n new) = None ->
  number_of (hl_list_insert l new) x = if ino_n new =? x then Some (new_ino_n new) else number_of l x.
Proof.
  induction l as [|y l IH]; cbn [hl_list_insert number_of]; [done|]; destruct (ino_n y =? ino_n new) eqn:Ey; [done|]; intros Hn; destruct (new_ino_n new <? new_ino_n y); cbn [number_of]; [done|].
  rewrite (IH Hn); destruct (Z.eqb_spec (ino_n y) x) as [<-|]; [|done]; by rewrite Z.eqb_sym, Ey.
Qed.

(** The list stays in the order of the new numbers. *)
Lemma hl_insert_sorted (l : list hlink) (new : hlink) : StronglySorted (fun a b => new_ino_n a <= new_ino_n b) l -> StronglySorted (fun a b => new_ino_n a <= new_ino_n b) (hl_list_insert l new).
Proof.
  induction 1 as [|y l Hl IH Hy]; cbn [hl_list_insert]; [repeat constructor|]; destruct (Z.ltb_spec (new_ino_n new) (new_ino_n y)).
  - constructor; [by constructor|]; constructor; [lia|]; eapply Forall_impl; [exact Hy|]; cbn beta; intros z Hz; lia.
  - constructor; [done|]; clear IH Hl; induction Hy as [|z l Hz Hy IH]; cbn [hl_list_insert]; [repeat constructor; lia|]; destruct (_ <? _); repeat constructor; auto; lia.
Qed.

(** The state of the numbering: the bitmap is not built yet, each source inode
    has a number of its own up to the last one. *)
Record numbers_ok (s : numbering) : Prop := {
  no_bitmap : inode_bitmap (nb_ids s) = [];
  no_block : 16 < ids_block_size (nb_ids s) < 2 ^ 28;
  no_last : 0 <= last_allocated_inode_number (nb_ids s);
  no_upto : forall x n, x <> 0 -> number_of (all_links s) x = Some n -> n <= last_allocated_inode_number (nb_ids s);
  no_inj : forall x y n, x <> 0 -> y <> 0 -> number_of (all_links s) x = Some n -> number_of (all_links s) y = Some n -> x = y
}.

(** Without a bitmap giving back a number only steps back. *)
Lemma give_back (n : Z) (s : ids) : inode_bitmap s = [] -> 16 < ids_block_size s < 2 ^ 28 -> 0 < n < 2 ^ 32 -> exists ret, test_and_clear_inode_n n s = Ok (ret, set_last (n - 1) s).
Proof.
  intros Em Hb Hn; unfold test_and_clear_inode_n; rewrite Em; change (lenZ (@nil Z)) with 0.
  set (bs := ids_block_size s) in *; assert (0 <= Z.shiftr n 3 / (bs - (12 + 4))) as Hq by (apply Z.div_pos; [apply Z.shiftr_nonneg; lia|lia]).
  assert (0 < datablock_size bs 12 4) as HD by (unfold datablock_size; rewrite Z.shiftl_mul_pow2 by lia; lia).
  assert (forall x, 0 <= x -> 0 - 4 < Z.shiftr n 3 / (bs - (12 + 4)) * bs + 12 + Z.shiftr x 3) as Hge by (intros x Hx; pose proof (proj2 (Z.shiftr_nonneg x 3) Hx); nia).
  pose proof (Z.mod_pos_bound n _ HD) as Hm; unfold INODE_BITMAP_MAGIC_LEN, CRC32_SIZE; unfold util_sign_test_bit; rewrite (proj2 (Z.ltb_lt (0 - 4) _)); [|apply Hge; lia].
  cbn [mbind run_bind]; unfold util_sign_clear_bits, sign_bits; cbn [Z.eqb]; replace (n + 1 - 1) with n by lia; rewrite (u64_small n) by lia.
  replace (Z.to_nat _) with 1%nat by lia; cbn [sign_bits_loop]; rewrite Z.eqb_refl; assert (0 <= u32 (datablock_size bs 12 4 - n mod datablock_size bs 12 4)) as Hu by (unfold u32; apply Z.mod_pos_bound; lia).
  destruct (1 <? _); cbn [mbind run_bind]; (rewrite (proj2 (Z.ltb_lt (0 - 4) _)); [|apply Hge; lia]); cbn [mbind run_bind].
  all: exists (- EINVAL); rewrite u64_small by lia; unfold set_last, set_inode_bitmap; cbn; by rewrite Em.
Qed.

(** A file whose links share a number. *)
Definition shares (e : dirent) : bool := negb (is_dir e) && (1 <? st_nlink e).

Definition last_number (s : numbering) : Z := last_allocated_inode_number (nb_ids s).

Lemma number_step (e : dirent) (s : numbering) : numbers_ok s -> st_ino e <> 0 -> last_number s + 1 < 2 ^ 31 ->
  exists n s', number_entry e s = Ok (n, s') /\ numbers_ok s'
  /\ ((shares e = false /\ n = last_number s + 1 /\ last_number s' = last_number s + 1 /\ forall x, number_of (all_links s') x = number_of (all_links s) x)
      \/ (shares e = true /\ number_of (all_links s) (st_ino e) = Some n /\ last_number s' = last_number s /\ forall x, number_of (all_links s') x = number_of (all_links s) x)
      \/ (shares e = true /\ number_of (all_links s) (st_ino e) = None /\ n = last_number s + 1 /\ last_number s' = last_number s + 1
          /\ forall x, number_of (all_links s') x = if st_ino e =? x then Some n else number_of (all_links s) x)).
Proof.
  intros [N1 N2 N3 N4 N5] He Hl; unfold last_number, number_entry, get_free_inode_n, shares in *; set (last := last_allocated_inode_number (nb_ids s)) in *; rewrite !(u64_small (last + 1)) by lia; set (s1 := Numbering (set_last (last + 1) (nb_ids s)) (hlinks_list s)).
  assert (numbers_ok s1) as Hok1 by (split; cbn; fold last; auto; [lia|]; intros x n Hx E; specialize (N4 x n Hx E); lia).
  destruct (is_dir e); cbn [negb andb]; [exists (last + 1), s1; split; [done|]; split; [done|]; left; auto|]; unfold record_number; cbn [hlinks_list s1]; destruct (hlinks_list s) as [head l] eqn:Eh.
  destruct (1 <? st_nlink e); [|exists (last + 1), s1; split; [done|]; split; [done|]; left; unfold all_links; rewrite Eh; auto].
  assert (all_links s = head :: l) as Eal by (unfold all_links; by rewrite Eh); destruct (hl_list_item_find (head :: l) (st_ino e)) as [[[pre item] post]|] eqn:Ef.
  - destruct (find_some _ _ _ _ _ Ef) as [El En]; destruct (give_back (last + 1) (nb_ids s1) N1 N2 ltac:(lia)) as (ret & Eg); rewrite Eg; cbn [mbind run_bind]; replace (last + 1 - 1) with last by lia.
    set (item' := Hlink _ _ _ _); set (s2 := Numbering _ _); exists (new_ino_n item), s2; split; [done|].
    assert (forall x, number_of (all_links s2) x = number_of (all_links s) x) as Hsame.
    { intros x; rewrite Eal, El, <- (number_count pre post item (u32 (links item + 1))); unfold all_links, s2; by destruct pre. }
    assert (last_allocated_inode_number (nb_ids s2) = last) as Hlast by done; rewrite <- Eal in En; split; [|right; left; split_and!; done].
    split; [done|done|by rewrite Hlast|rewrite Hlast; intros x n; rewrite Hsame; apply N4|intros x y n; rewrite !Hsame; apply N5].
  - apply find_none in Ef; set (new := hl_list_item_init _ _ _); set (s2 := Numbering _ _); exists (last + 1), s2; split; [done|].
    assert (forall x, number_of (all_links s2) x = if st_ino e =? x then Some (last + 1) else number_of (all_links s) x) as Hnew.
    { intros x; rewrite Eal; unfold all_links, s2; cbn [hlinks_list fst snd number_of] in Ef |- *; destruct (ino_n head =? st_ino e) eqn:Eh0; [done|]; rewrite (number_insert l new x Ef); cbn [ino_n new_ino_n new hl_list_item_init].
      destruct (Z.eqb_spec (ino_n head) x) as [<-|]; [by rewrite Z.eqb_sym, Eh0|done]. }
    assert (last_allocated_inode_number (nb_ids s2) = last + 1) as Hlast by done; rewrite <- Eal in Ef; split; [|right; right; split_and!; done].
    split; [done|done|lia| |].
    + rewrite Hlast; intros x n Hx; rewrite Hnew; destruct (st_ino e =? x); [intros [= <-]; lia|]; intros E; specialize (N4 x n Hx E); lia.
    + intros x y n Hx Hy; rewrite !Hnew; destruct (Z.eqb_spec (st_ino e) x), (Z.eqb_spec (st_ino e) y); try congruence; [| |by apply N5].
      * intros [= <-] E; specialize (N4 y _ Hy E); lia.
      * intros E [= <-]; specialize (N4 x _ Hx E); lia.
Qed.

(** Two entries that are numbered as links of one file. *)
Definition numbered_alike (d e : dirent) : Prop := shares d = true /\ shares e = true /\ st_ino d = st_ino e.

Lemma number_entries_ok (es : list dirent) (s : numbering) : numbers_ok s -> Forall (fun e => st_ino e <> 0) es -> last_number s + lenZ es < 2 ^ 31 ->
  exists ns s', number_entries es s = Ok (ns, s') /\ numbers_ok s' /\ (length ns = length es /\ last_number s <= last_number s' /\ forall m, last_number s < m -> m ∈ ns <-> m <= last_number s')
  /\ (forall i e n, es !! i = Some e -> ns !! i = Some n ->
       (last_number s < n \/ (shares e = true /\ number_of (all_links s) (st_ino e) = Some n)) /\ (shares e = true -> forall k, number_of (all_links s) (st_ino e) = Some k -> n = k))
  /\ (forall i j d e n k, es !! i = Some d -> es !! j = Some e -> ns !! i = Some n -> ns !! j = Some k -> n = k <-> i = j \/ numbered_alike d e).
Proof.
  revert s; induction es as [|e es IH]; intros s Hok HF Hl; cbn [number_entries].
  { exists [], s; split; [done|]; split; [done|]; split; [split_and!; [done|lia|intros m Hm; rewrite elem_of_nil; lia]|]; split; intros i; intros *; rewrite lookup_nil; done. }
  apply Forall_cons in HF as [He HF]; rewrite lenZ_cons in Hl; pose proof (lenZ_nonneg es); destruct (number_step e s Hok He ltac:(lia)) as (n0 & s1 & E1 & Hok1 & Hstep); rewrite E1; cbn [mbind run_bind].
  assert (last_number s <= last_number s1 <= last_number s + 1) as Hmono by (destruct Hstep as [(_ & _ & -> & _)|[(_ & _ & -> & _)|(_ & _ & _ & -> & _)]]; lia).
  destruct (IH s1 Hok1 HF ltac:(lia)) as (ns & s' & E & Hok' & (Hlen & Hge & Hgap) & Hone & Htwo); rewrite E; cbn [mbind run_bind]; exists (n0 :: ns), s'; split; [done|]; split; [done|]; split.
  { split_and!; [cbn; congruence|lia|]; intros m Hm; rewrite elem_of_cons; pose proof (no_upto _ Hok) as N4; destruct (decide (last_number s1 < m)) as [Hm1|Hm1].
    - rewrite <- (Hgap m Hm1); split; [|auto]; intros [->|]; [|done]; exfalso; destruct Hstep as [(_ & -> & ? & _)|[(_ & Hn & ? & _)|(_ & _ & -> & ? & _)]]; try lia; specialize (N4 _ _ He Hn); unfold last_number in *; lia.
    - split; [lia|]; intros _; left; destruct Hstep as [(_ & -> & ? & _)|[(_ & _ & ? & _)|(_ & _ & -> & ? & _)]]; lia. }
  (** the first entry against a later one *)
  assert (forall j d k, es !! j = Some d -> ns !! j = Some k -> n0 = k <-> numbered_alike e d) as Hcross.
  { intros j d k Hd Hk; destruct (Hone j d k Hd Hk) as [Hk1 Hk2]; pose proof (proj1 (Forall_lookup _ _) HF j d Hd) as Hd0; cbn beta in Hd0; destruct Hok as [_ _ _ N4 N5]; fold (last_number s) in N4; unfold numbered_alike.
    destruct Hstep as [(Hs & -> & Hl1 & Hsame)|[(Hs & Hn & Hl1 & Hsame)|(Hs & Hn & -> & Hl1 & Hnew)]].
    - split; [|intros (Hs' & _); congruence]; intros <-; destruct Hk1 as [|(_ & Hk1)]; [lia|]; rewrite Hsame in Hk1; specialize (N4 _ _ Hd0 Hk1); lia.
    - pose proof (N4 _ _ He Hn) as Hle; split.
      + intros <-; destruct Hk1 as [|(Hsd & Hk1)]; [lia|]; rewrite Hsame in Hk1; split_and!; auto; by apply (N5 _ _ n0).
      + intros (_ & Hsd & Ei); symmetry; apply (Hk2 Hsd); rewrite Hsame, <- Ei; exact Hn.
    - split.
      + intros <-; destruct Hk1 as [|(Hsd & Hk1)]; [lia|]; rewrite Hnew in Hk1; destruct (Z.eqb_spec (st_ino e) (st_ino d)); [auto|]; specialize (N4 _ _ Hd0 Hk1); lia.
      + intros (_ & Hsd & Ei); symmetry; apply (Hk2 Hsd); rewrite Hnew, Ei, Z.eqb_refl; done. }
  split.
  - intros [|i] d n Hd Hn; cbn in Hd, Hn.
    + injection Hd as <-; injection Hn as <-; destruct Hstep as [(Hs & -> & _)|[(Hs & Hn & _)|(Hs & Hn & -> & _)]]; rewrite ?Hn; split; auto; try lia; try congruence.
    + destruct (Hone i d n Hd Hn) as [H1 H2]; destruct Hstep as [(Hs & -> & Hl1 & Hsame)|[(Hs & Hn0 & Hl1 & Hsame)|(Hs & Hn0 & -> & Hl1 & Hnew)]].
      * rewrite Hsame in H1, H2; split; [destruct H1; [left; lia|auto]|done].
      * rewrite Hsame in H1, H2; split; [destruct H1; [left; lia|auto]|done].
      * rewrite Hnew in H1, H2; destruct (Z.eqb_spec (st_ino e) (st_ino d)) as [Ei|]; [|split; [destruct H1; [left; lia|auto]|done]].
        rewrite <- Ei, Hn0; split; [|done]; left; destruct H1 as [|[_ [= <-]]]; lia.
  - intros [|i] [|j] d d' n k Hd Hd' Hn Hk; cbn in Hd, Hd', Hn, Hk.
    + split; [auto|]; congruence.
    + injection Hd as <-; injection Hn as <-; rewrite (Hcross j d' k Hd' Hk); split; [auto|by intros [?|?]].
    + injection Hd' as <-; injection Hk as <-; pose proof (Hcross i d n Hd Hn) as Hc; unfold numbered_alike in *; split; [intros ->; right; destruct Hc as [Hc _]; destruct (Hc eq_refl) as (? & ? & ?); auto|].
      intros [?|(? & ? & ?)]; [done|]; symmetry; apply Hc; auto.
    + rewrite (Htwo i j d d' n k Hd Hd' Hn Hk); split; (intros [?|?]; [left; congruence|by right]).
Qed.

(** Two names of one file: lstat tells files apart by device and inode number. *)
Definition same_file (d e : dirent) : Prop := st_dev d = st_dev e /\ st_ino d = st_ino e.

(** The entries of a tree of files: a number of an inode is not 0, and an inode with two
    names is not a directory and counts more than one link. *)
Record source_tree (es : list dirent) : Prop := {
  st_nonzero : Forall (fun e => st_ino e <> 0) es;
  st_links : forall i j d e, es !! i = Some d -> es !! j = Some e -> i <> j -> same_file d e -> is_dir d = false /\ 1 < st_nlink d
}.

Definition one_device (es : list dirent) : Prop := forall d e, d ∈ es -> e ∈ es -> st_dev d = st_dev e.

Lemma alike_same (es : list dirent) (i j : nat) (d e : dirent) :
  source_tree es -> one_device es -> es !! i = Some d -> es !! j = Some e -> i = j \/ numbered_alike d e <-> i = j \/ same_file d e.
Proof.
  intros [_ Hl] H1 Hi Hj; destruct (decide (i = j)) as [|N]; [by split; left|]; unfold numbered_alike, shares; split; (intros [|H]; [done|right]).
  - destruct H as (_ & _ & E); split; [apply H1; by eapply list_elem_of_lookup_2|done].
  - destruct (Hl i j d e Hi Hj N H) as [D1 L1]; assert (same_file e d) as H' by (destruct H; by split); destruct (Hl j i e d Hj Hi ltac:(congruence) H') as [D2 L2].
    rewrite D1, D2, !(proj2 (Z.ltb_lt _ _)) by done; split; [done|]; split; [done|apply H].
Qed.

(** C13: While the metadata of a tree of files on one device is collected, two entries
    get the same inode number exactly when they are names of one source file, that is
    have the device and inode number of it: every
    directory and every file of one link has a number of its own, and all the
    links of a file have the number of the first one. The number that was taken
    for a further link is given back: the new numbers have no gap. (Over several
    devices files are mixed up: [links_across_devices].) *)
Theorem hard_links_share_numbers (es : list dirent) (s : numbering) : numbers_ok s -> source_tree es -> one_device es -> last_number s + lenZ es < 2 ^ 31 ->
  exists ns s', number_entries es s = Ok (ns, s') /\ length ns = length es
  /\ (forall i j d e n k, es !! i = Some d -> es !! j = Some e -> ns !! i = Some n -> ns !! j = Some k -> n = k <-> i = j \/ same_file d e)
  /\ (forall m, last_number s < m -> m ∈ ns <-> m <= last_number s').
Proof.
  intros Hok HT H1 Hl; destruct (number_entries_ok es s Hok (st_nonzero _ HT) Hl) as (ns & s' & E & _ & (Hn & _ & H2) & _ & H3); exists ns, s'; split; [done|]; split; [done|]; split; [|done].
  intros i j d e n k Hi Hj Hni Hnk; rewrite <- (alike_same es i j d e HT H1 Hi Hj); by apply H3.
Qed.

(** ** Witnesses *)

Definition ids0 : ids := init_inode_id_alloc (Ids 4096 false 0 [] 0).

Lemma fill_inode_bitmap_correct_witness : exists nb s', fill_inode_bitmap (Some 8192) ids0 = Ok (0, s') /\ lenZ (inode_bitmap s') = nb * 4096 /\ (forall j, 0 <= j < nb -> signed 8192 4096 (inode_bitmap s') j).
Proof.
  destruct (fill_inode_bitmap_correct 8192 ids0) as (nb & s' & E & Hl & _ & _ & _ & Hs & _); [done|by vm_compute|by vm_compute|by vm_compute|]; exists nb, s'; auto.
Defined.

Definition numbering0 : numbering := Numbering ids0 (Hlink 0 0 0 (replicate 1023 0), []).

(** A directory, a file with two links and another file between them *)
Definition entries0 : list dirent := [Dirent 1 70 2 true [97]; Dirent 1 71 2 false [98]; Dirent 1 72 1 false [99]; Dirent 1 71 2 false [100]].

Lemma entries0_tree : source_tree entries0.
Proof.
  split; [repeat constructor; done|]; intros [|[|[|[|i]]]] [|[|[|[|j]]]] d e Hi Hj N; cbn in Hi, Hj; try done; injection Hi as <-; injection Hj as <-; intros [_ E]; cbn in E; done.
Qed.

Lemma numbering0_ok : numbers_ok numbering0.
Proof.
  split; [done|by vm_compute|by vm_compute| |]; intros x; intros *; unfold all_links; cbn [numbering0 hlinks_list fst snd number_of ino_n new_ino_n]; destruct (Z.eqb_spec 0 x) as [<-|]; intros; done.
Qed.

Lemma hard_links_share_numbers_witness : exists ns s', number_entries entries0 numbering0 = Ok (ns, s') /\ length ns = 4%nat /\ (forall m, 8 < m -> m ∈ ns <-> m <= last_number s').
Proof.
  destruct (hard_links_share_numbers entries0 numbering0 numbering0_ok entries0_tree) as (ns & s' & E & Hl & _ & Hg); [|by vm_compute|exists ns, s'; auto].
  intros d e Hd He; assert (forall x, x ∈ entries0 -> st_dev x = 1) as H by (apply Forall_forall; repeat constructor); by rewrite (H d Hd), (H e He).
Defined.

(** The entries of two mounted file systems: files that have nothing in common but the
    number of their inodes get one number, so one of them is lost in the image. *)
Example links_across_devices :
  exists s', number_entries [Dirent 1 71 2 false [97]; Dirent 2 71 2 false [98]] numbering0 = Ok ([9; 9], s').
Proof. eexists; vm_compute; reflexivity. Qed.
