(* ===== verification/ToolsPlace.v ===== *)
(** The metadata area of a new image: the tables of the tools,
    src/vdfs-tools/lib/snapshot.c, the placement of the special files on the
    volume, src/vdfs-tools/lib/space_manager.c, and the writing of the trees,
    src/vdfs-tools/lib/flush_metadata.c. The driver reads the tables with the
    functions of Snapshot and compares the checksums of the nodes with
    [__get_checksum_for_bnode] of src/linux/fs/vdfs4/bnode.c.

    Base table and hash table are byte buffers whose length is the size kept with
    them; a size that leaves 32 bits is outside the model. *)

From Stdlib Require Import ZArith Lia Bool List.
From stdpp Require Import base list.
From S2P Require Import Prelude Bytes Bitmap FindBit Buffer Ranges Snapshot Crc32 ToolsSpace.

Open Scope Z_scope.

Definition VDFS4_META_HASHTABLE : list Z := [77; 101; 72; 115].
(** struct vdfs4_meta_hashtable *)
Definition HASH_SIZE : Z := 8.
Definition HASH_OFFSETS : Z := 16.
Definition HASHTABLE_SIZE : Z := 56.
Definition VDFS4_SNAPSHOT_INO : Z := 7.

(** What struct vdfs4_sb_info of the tools keeps of the metadata: the space
    manager, the buffers of the two tables, and the first extents of the metadata
    and of the tables as first block and length. *)
Record image : Type := Image {
  space : tools_sbi;
  super_page_size : Z;
  base_table : list Z;
  hashtable : list Z;
  metadata_extent : Z * Z;
  tables_extent : Z * Z;
  meta_blocks : Z;
  preallocation_len : Z
}.

Definition set_space (t : tools_sbi) (s : image) : image :=
  Image t (super_page_size s) (base_table s) (hashtable s) (metadata_extent s) (tables_extent s) (meta_blocks s) (preallocation_len s).
Definition set_base (m : list Z) (s : image) : image :=
  Image (space s) (super_page_size s) m (hashtable s) (metadata_extent s) (tables_extent s) (meta_blocks s) (preallocation_len s).
Definition set_hash (m : list Z) (s : image) : image :=
  Image (space s) (super_page_size s) (base_table s) m (metadata_extent s) (tables_extent s) (meta_blocks s) (preallocation_len s).
Definition set_meta (e : Z * Z) (n : Z) (s : image) : image :=
  Image (space s) (super_page_size s) (base_table s) (hashtable s) e (tables_extent s) n (preallocation_len s).
Definition set_tables (e : Z * Z) (s : image) : image :=
  Image (space s) (super_page_size s) (base_table s) (hashtable s) (metadata_extent s) e (meta_blocks s) (preallocation_len s).

(** ** The tables *)

(** [init_snapshot]; [memory] is whether calloc succeeds. *)
Definition init_snapshot (memory : bool) (s : image) : Z * image :=
  if memory then (0, set_base (VDFS4_SNAPSHOT_BASE_TABLE ++ replicate (Z.to_nat (BASE_TABLE_SIZE - 4)) 0) s) else (- ENOMEM, s).

Definition init_hashtable (memory : bool) (s : image) : Z * image :=
  if memory then (0, set_hash (VDFS4_META_HASHTABLE ++ replicate (Z.to_nat (HASHTABLE_SIZE - 4)) 0) s) else (- ENOMEM, s).

(** realloc to [n] more bytes and memset of these *)
Definition grow (m : list Z) (n : Z) : run (list Z) := if lenZ m + n <? 2 ^ 32 then Ok (m ++ replicate (Z.to_nat n) 0) else Fault.

(** Element [idx] of an array of one 64-bit number for each special file. *)
Definition put_field (m : list Z) (array idx v : Z) : run (list Z) :=
  if (0 <=? idx) && (idx <=? VDFS4_LSFILE - VDFS4_FSFILE) then wr64 m (array + 8 * idx) v else Fault.

(** ** Placement *)

(** struct vdfs4_subsystem_data, for a tree with the result of get_bnodes_count. *)
Record subsystem : Type := Subsystem {
  sub_system_id : Z;
  sub_buffer_size : Z;
  sub_bnodes : Z;
  sub_extent : Z * Z
}.

(** [get_bnodes_count]: the loop over the bitmap of the head node from bit [i]
    down. *)
Fixpoint bnodes_loop (bitmap : list Z) (i : nat) : run Z :=
  match i with
  | O => Ok 0
  | S j =>
      b ← rd bitmap (Z.of_nat i / 8);
      if Z.testbit b (Z.of_nat i mod 8) then Ok (Z.of_nat i + 1) else bnodes_loop bitmap j
  end.

Definition get_bnodes_count (bitmap : list Z) (allocated_bnodes_count : Z) : run Z := bnodes_loop bitmap (Z.to_nat (allocated_bnodes_count - 1)).

(** [is_tree] of the tools stops at a number it does not know. *)
Definition tools_is_tree (object_type : Z) : run bool :=
  if is_tree object_type then Ok true
  else if (object_type =? VDFS4_SPACE_BITMAP_INO) || (object_type =? VDFS4_FREE_INODE_BITMAP_INO) then Ok false
  else if object_type =? 0 then Ok false
  else Bug.

Definition pages_blocks (s : image) : Z := super_page_size s / t_block_size (space s).

Definition get_iblock_size (s : image) (type : Z) : run Z := tree ← tools_is_tree type; Ok (if (tree : bool) then pages_blocks s else 1).

(** The loop that fills the records of the table, from [count] on; [rec] is the
    place of the record. *)
Fixpoint fill_records (n : nat) (m : list Z) (rec base count iblock_size : Z) : run (list Z) :=
  match n with
  | O => Ok m
  | S n =>
      m ← wr64 m rec (base + count * iblock_size);
      m ← wr32 m (rec + REC_MOUNT) 0;
      m ← wr32 m (rec + REC_SYNC) 1;
      fill_records n m (rec + BASE_RECORD) base (count + 1) iblock_size
  end.

(** The extent a subsystem is put at the end of. *)
Definition extent_of (sub : subsystem) (s : image) : Z * Z :=
  if sub_system_id sub =? VDFS4_SNAPSHOT_INO then tables_extent s
  else if VDFS4_LSFILE <? sub_system_id sub then sub_extent sub else metadata_extent s.

(** The size of the hash table with the entries of the subsystem. *)
Definition new_hash_size (id size iblock_count : Z) : Z :=
  if id =? VDFS4_SPACE_BITMAP_INO then size + iblock_count
  else if id =? VDFS4_FREE_INODE_BITMAP_INO then (size + iblock_count + CRC32_SIZE - 1) / CRC32_SIZE * CRC32_SIZE
  else size + iblock_count * CRC32_SIZE.

(** The part from the label alloc on: the space, the records and the extent.
    [table] is the place of the first record. *)
Definition place_alloc (sub : subsystem) (table size_in_blocks iblock_count iblock_size : Z) (s : image) : run (Z * subsystem * image) :=
  let id := sub_system_id sub in
  let '(first_block, block_count) := extent_of sub s in
  tree ← tools_is_tree id;
  let r := pages_blocks s in
  let offset := if (tree : bool) then u32 (Z.land (u32 (block_count + r - 1)) (u32 (Z.lnot (r - 1))) - block_count) else 0 in
  '(ret, start_block, t) ← allocate_space (first_block +64 block_count) (u32 (size_in_blocks + offset)) (space s);
  let s := set_space t s in
  if negb (ret =? 0) then Ok (ret, sub, s)
  else
    first_block ← (if first_block =? 0 then Ok start_block else bug_on (negb (first_block +64 block_count =? start_block));; Ok first_block);
    let extent := (first_block, u32 (block_count + (size_in_blocks + offset))) in
    if id <=? VDFS4_LSFILE then
      (* the extent is the first one of the metadata *)
      m ← fill_records (Z.to_nat iblock_count) (base_table s) table (start_block -64 first_block +64 offset) 0 iblock_size;
      m ← put_field m LAST_PAGE_INDEX (id - VDFS4_FSFILE) (u32 (iblock_count - 1));
      Ok (0, sub, set_meta extent (meta_blocks s + (size_in_blocks + offset)) (set_base m s))
    else if id =? VDFS4_SNAPSHOT_INO then Ok (0, sub, set_tables extent s)
    else Ok (0, Subsystem id (sub_buffer_size sub) (sub_bnodes sub) extent, s).

(** [place_on_volume_subsystem]; [memory] is whether the two calls of realloc
    succeed. *)
Definition place_on_volume_subsystem (memory : bool * bool) (sub : subsystem) (s : image) : run (Z * subsystem * image) :=
  let id := sub_system_id sub in
  tree ← tools_is_tree id;
  let size_in_blocks := u32 (if (tree : bool) then sub_bnodes sub * pages_blocks s else byte_to_block (sub_buffer_size sub) (t_block_size (space s))) in
  iblock_size ← get_iblock_size s id;
  let iblock_count := size_in_blocks / iblock_size in
  if VDFS4_LSFILE <? id then place_alloc sub 0 size_in_blocks iblock_count iblock_size s
  else if negb (fst memory) then Ok (- ENOMEM, sub, s)
  else
    let buffer_size := lenZ (base_table s) in
    let buffer_size2 := lenZ (hashtable s) in
    m ← grow (base_table s) (BASE_RECORD * iblock_count);
    m ← put_field m TABLE_OFFSETS (id - VDFS4_FSFILE) buffer_size;
    let s := set_base m s in
    if negb (snd memory) then Ok (- ENOMEM, sub, s)
    else
      let new_size2 := new_hash_size id buffer_size2 iblock_count in
      h ← grow (hashtable s) (new_size2 - buffer_size2);
      h ← put_field h HASH_OFFSETS (id - VDFS4_FSFILE) buffer_size2;
      h ← wr64 h HASH_SIZE new_size2;
      place_alloc sub buffer_size size_in_blocks iblock_count iblock_size (set_hash h s).

(** [place_on_volume_preallocation] *)
Definition place_on_volume_preallocation (s : image) : run (Z * image) :=
  let '(first_block, block_count) := metadata_extent s in
  '(ret, addr, t) ← allocate_space (first_block +64 block_count) (preallocation_len s) (space s);
  let s := set_space t s in
  if negb (ret =? 0) then Ok (ret, s)
  else
    bug_on (negb (addr =? first_block +64 block_count));;
    Ok (ret, set_meta (first_block, u32 (block_count + preallocation_len s)) (meta_blocks s) s).

(** ** Writing the trees *)

(** The loop of [flush_subsystem_tree] from node [i] on: [nodes] are the buffers
    with their addresses, [table] the place of the records of the tree, [start]
    the block of the volume the metadata area begins with. The result has the code,
    the nodes as they are written, and the blocks they are written to. An empty
    list of answers is that all writes succeed. *)
Fixpoint flush_nodes (nodes : list (Z * list Z)) (table i start node_size : Z) (m hash : list Z) (answers : list Z) : run (Z * list Z * list (Z * list Z)) :=
  match nodes with
  | [] => Ok (0, hash, [])
  | (a, data) :: nodes =>
      meta_iblock ← rd64 m (table + BASE_RECORD * i);
      data ← wr64 data 4 1;
      '(data, crc) ← util_update_crc a data node_size None 0;
      hash ← wr32 hash (HASHTABLE_SIZE + meta_iblock) crc;
      let ret := hd 0 answers in
      if negb (ret =? 0) then Ok (ret, hash, [(start + meta_iblock, data)])
      else
        '(ret, hash, done) ← flush_nodes nodes table (i + 1) start node_size m hash (tl answers);
        Ok (ret, hash, (start + meta_iblock, data) :: done)
  end.

Definition flush_subsystem_tree (id : Z) (nodes : list (Z * list Z)) (answers : list Z) (s : image) : run (Z * list (Z * list Z) * image) :=
  table ← vdfs4_get_table (base_table s) id;
  '(ret, hash, done) ← flush_nodes nodes table 0 (fst (metadata_extent s) + vdfs4_start_block (space s)) (super_page_size s) (base_table s) (hashtable s) answers;
  Ok (ret, done, set_hash hash s).

(** ** The driver *)

(** [vdfs4_get_meta_hashtable]: the place of the first entry of a tree. *)
Definition vdfs4_get_meta_hashtable (hash : list Z) (ino : Z) : run Z := o ← sf_field HASH_OFFSETS hash ino; Ok (u32 o).

(** [__get_checksum_for_bnode] of the node at [index] of the tree [ino]: whether
    the checksum [crc_on_bnode] of the node is to be trusted. *)
Definition get_checksum_for_bnode (do_not_check_sign orig_ro : bool) (raw_meta_hashtable : option (list Z)) (ino index crc_on_bnode : Z) : run bool :=
  if do_not_check_sign then Ok true
  else if negb orig_ro then Ok true
  else
    match raw_meta_hashtable with
    | None => Ok true
    | Some hash =>
        bug_on (negb (is_tree ino));;
        table ← vdfs4_get_meta_hashtable hash ino;
        entry ← rd32 hash (table + CRC32_SIZE * index);
        Ok (crc_on_bnode =? entry)
    end.
