(* ===== verification/ToolsPlaceTheorems.v ===== *)
(** The theorems about the metadata area of a new image: what the tools place is
    what the driver finds. *)

From Stdlib Require Import ZArith Lia Bool List.
From stdpp Require Import base list.
From S2P Require Import Prelude Bytes Bitmap FindBit Buffer Ranges Snapshot Crc32 ToolsSpace ToolsTheorems ToolsPlace.

Open Scope Z_scope.

(** ** Buffers *)

Lemma get64_ext (m m' : list Z) (i : Z) : 0 <= i -> i + 8 <= lenZ m -> i + 8 <= lenZ m' -> (forall j, i <= j < i + 8 -> getZ m' j = getZ m j) -> get64 m' i = get64 m i.
Proof. intros H1 H2 H3 H; unfold get64; f_equal; apply sub_ext; try lia; intros j Hj; apply H; lia. Qed.

Lemma get32_ext (m m' : list Z) (i : Z) : 0 <= i -> i + 4 <= lenZ m -> i + 4 <= lenZ m' -> (forall j, i <= j < i + 4 -> getZ m' j = getZ m j) -> get32 m' i = get32 m i.
Proof. intros H1 H2 H3 H; unfold get32; f_equal; apply sub_ext; try lia; intros j Hj; apply H; lia. Qed.

Lemma getZ_upd_out (m v : list Z) (a i : Z) : 0 <= a -> a + lenZ v <= lenZ m -> i < a \/ a + lenZ v <= i -> getZ (upd_at m a v) i = getZ m i.
Proof. intros H1 H2 H3; rewrite getZ_upd_at by lia; destruct (Z.leb_spec a i), (Z.ltb_spec i (a + lenZ v)); cbn [andb]; done || lia. Qed.

Lemma grow_ok (m : list Z) (n : Z) : 0 <= n -> lenZ m + n < 2 ^ 32 ->
  exists m', grow m n = Ok m' /\ lenZ m' = lenZ m + n /\ forall i, i < lenZ m -> getZ m' i = getZ m i.
Proof.
  intros Hn Hb; unfold grow; rewrite (proj2 (Z.ltb_lt _ _) Hb); eexists; split; [done|]; split; [rewrite lenZ_app, lenZ_zero_bytes by done; lia|].
  intros i Hi; destruct (Z.ltb_spec i 0); [rewrite !getZ_None by lia; done|]; by apply getZ_app_l.
Qed.

Lemma put_field_ok (m : list Z) (array idx v : Z) : 0 <= array -> 0 <= idx <= 4 -> array + 40 <= lenZ m -> 0 <= v < 2 ^ 64 ->
  exists m', put_field m array idx v = Ok m' /\ lenZ m' = lenZ m /\ get64 m' (array + 8 * idx) = v
  /\ forall i, i < array + 8 * idx \/ array + 8 * idx + 8 <= i -> getZ m' i = getZ m i.
Proof.
  intros Ha Hi Hl Hv; unfold put_field, VDFS4_LSFILE, VDFS4_FSFILE, VDFS4_XATTR_TREE_INO, VDFS4_CAT_TREE_INO; destruct (Z.leb_spec 0 idx), (Z.leb_spec idx (6 - 2)); try lia; cbn [andb].
  rewrite wr64_ok by lia; eexists; split; [done|]; assert (lenZ (le_bytes 8 v) = 8) as H8 by (by rewrite lenZ_le_bytes).
  split; [apply lenZ_upd_at; lia|]; split; [apply get64_wr; lia|]; intros i Hi'; apply getZ_upd_out; lia.
Qed.

(** One record, and all the records of a table. *)
Definition record_is (m : list Z) (rec v : Z) : Prop := get64 m rec = v /\ get32 m (rec + REC_SYNC) = 1 /\ get32 m (rec + REC_MOUNT) = 0.

Lemma record_ext (m m' : list Z) (rec v : Z) : record_is m rec v -> 0 <= rec -> rec + BASE_RECORD <= lenZ m -> rec + BASE_RECORD <= lenZ m' ->
  (forall j, rec <= j < rec + BASE_RECORD -> getZ m' j = getZ m j) -> record_is m' rec v.
Proof.
  unfold BASE_RECORD, record_is, REC_SYNC, REC_MOUNT; intros (R1 & R2 & R3) H0 H1 H2 H; rewrite (get64_ext m m'), (get32_ext m m' (rec + 8)), (get32_ext m m' (rec + 12)); try lia; auto; intros j Hj; apply H; lia.
Qed.

Lemma fill_records_ok (n : nat) (m : list Z) (rec base count r : Z) : 0 <= rec -> rec + BASE_RECORD * Z.of_nat n <= lenZ m -> 0 <= base -> 0 <= count -> 0 <= r ->
  base + (count + Z.of_nat n) * r < 2 ^ 64 ->
  exists m', fill_records n m rec base count r = Ok m' /\ lenZ m' = lenZ m
  /\ (forall i, 0 <= i < Z.of_nat n -> record_is m' (rec + BASE_RECORD * i) (base + (count + i) * r))
  /\ forall i, i < rec \/ rec + BASE_RECORD * Z.of_nat n <= i -> getZ m' i = getZ m i.
Proof.
  unfold BASE_RECORD; revert m rec count; induction n as [|n IH]; intros m rec count Hr Hl Hb Hc Hs Hv; [exists m; split; [done|]; split; [done|]; split; [lia|done]|].
  cbn [fill_records]; rewrite wr64_ok by lia; cbn [mbind run_bind]; set (m1 := upd_at m rec _); assert (lenZ m1 = lenZ m) as L1 by (apply lenZ_upd_at; rewrite ?lenZ_le_bytes; lia).
  unfold REC_MOUNT, REC_SYNC; rewrite wr32_ok by lia; cbn [mbind run_bind]; set (m2 := upd_at m1 _ _); assert (lenZ m2 = lenZ m) as L2 by (unfold m2; rewrite lenZ_upd_at; rewrite ?lenZ_le_bytes; lia).
  rewrite wr32_ok by lia; cbn [mbind run_bind]; set (m3 := upd_at m2 _ _); assert (lenZ m3 = lenZ m) as L3 by (unfold m3; rewrite lenZ_upd_at; rewrite ?lenZ_le_bytes; lia).
  assert (record_is m3 rec (base + count * r)) as Hrec.
  { assert (lenZ (le_bytes 4 1) = 4 /\ lenZ (le_bytes 4 0) = 4) as [E1 E2] by (by rewrite !lenZ_le_bytes); unfold record_is, REC_SYNC, REC_MOUNT, m3; split; [|split].
    - rewrite get64_upd_out by lia; unfold m2; rewrite get64_upd_out by lia; unfold m1; apply get64_wr; try lia; nia.
    - rewrite get32_wr by lia; done.
    - rewrite get32_upd_out by lia; unfold m2; rewrite get32_wr by lia; done. }
  assert (forall i, i < rec \/ rec + 16 <= i -> getZ m3 i = getZ m i) as Hout.
  { intros i Hi; unfold m3; rewrite getZ_upd_out by (rewrite ?lenZ_le_bytes; lia); unfold m2; rewrite getZ_upd_out by (rewrite ?lenZ_le_bytes; lia); unfold m1; apply getZ_upd_out; rewrite ?lenZ_le_bytes; lia. }
  destruct (IH m3 (rec + 16) (count + 1)) as (m' & E & Hl' & Hin & Hun); try lia; exists m'; split; [exact E|]; split; [lia|]; split.
  - intros i Hi; destruct (decide (i = 0)) as [->|].
    + replace (rec + 16 * 0) with rec by lia; replace (count + 0) with count by lia; apply (record_ext m3); auto; unfold BASE_RECORD; try lia; intros j Hj; apply Hun; lia.
    + replace (rec + 16 * i) with (rec + 16 + 16 * (i - 1)) by lia; replace (count + i) with (count + 1 + (i - 1)) by lia; apply Hin; lia.
  - intros i Hi; rewrite Hun by lia; apply Hout; lia.
Qed.

(** ** Space *)

(** The allocator of a read-only image, which hands out blocks in order, or the
    manager of a volume; block 0 is taken. *)
Definition ready (t : tools_sbi) : Prop :=
  if read_only_image t then 0 < first_free_address t < 2 ^ 40 /\ t_block_size t < 2 ^ 20
  else (exists nb, sm_ok nb t) /\ 0 < bits_count t /\ used_block t 0.

(** From [t] to [t'] exactly the blocks [a, a+n) are taken. *)
Definition taken (t t' : tools_sbi) (a n : Z) : Prop :=
  read_only_image t' = read_only_image t /\ bits_count t' = bits_count t /\ t_block_size t' = t_block_size t /\ vdfs4_start_block t' = vdfs4_start_block t
  /\ if read_only_image t then a = first_free_address t /\ first_free_address t' = a + n
     else free_run t a n /\ forall x, 0 <= x < bits_count t -> used_block t' x <-> used_block t x \/ a <= x < a + n.

Lemma allocate_fields (offset n err a : Z) (t t' : tools_sbi) : allocate_space offset n t = Ok (err, a, t') ->
  read_only_image t' = read_only_image t /\ bits_count t' = bits_count t /\ t_block_size t' = t_block_size t /\ vdfs4_start_block t' = vdfs4_start_block t.
Proof.
  unfold allocate_space, get_free_space; destruct (read_only_image t) eqn:Hro.
  - destruct (limited_size t && _); [by intros [= <- <- <-]|]; destruct (negb (offset =? ADDR_ANY) && _); [by intros [= <- <- <-]|]; cbn [mbind run_bind].
    destruct (_ <? 0); intros [= <- <- <-]; done.
  - destruct (find_chunk _ _ _ _) as [[b L]|]; [|by intros [= <- <- <-]]; unfold fsm_set_bits; destruct (util_sign_set_bits _ _ _ _ _ _ _) as [[m e]| |]; [|done|done]; cbn [mbind run_bind].
    destruct (b <? 0); intros [= <- <- <-]; done.
Qed.

Lemma allocate_ready (offset n : Z) (t : tools_sbi) : ready t -> 0 <= offset < 2 ^ 63 -> 0 < n < 2 ^ 32 -> (read_only_image t = true -> first_free_address t + n < 2 ^ 40) ->
  exists err a t', allocate_space offset n t = Ok (err, a, t')
  /\ ((err = 0 /\ ready t' /\ 0 < a /\ (offset = 0 \/ a = offset) /\ taken t t' a n) \/ (err = - ENOSPC /\ t' = t)).
Proof.
  intros Hr Ho Hn Hroom; unfold ready in Hr; destruct (read_only_image t) eqn:Hro.
  - unfold allocate_space, get_free_space; rewrite Hro; specialize (Hroom eq_refl); rewrite (u64_small (first_free_address t + n)) by lia; destruct (limited_size t && _); [exists (- ENOSPC), 0, t; auto|].
    destruct (negb (offset =? ADDR_ANY) && negb (offset =? first_free_address t)) eqn:Eo; [exists (- ENOSPC), 0, t; auto|]; cbn [mbind run_bind]; rewrite (proj2 (Z.ltb_ge (first_free_address t) 0)) by lia.
    exists 0, (first_free_address t), (set_first_free (first_free_address t + n) t); split; [done|]; left.
    assert (offset = 0 \/ first_free_address t = offset) by (unfold ADDR_ANY in Eo; destruct (Z.eqb_spec offset 0); [auto|]; destruct (Z.eqb_spec offset (first_free_address t)); [auto|done]).
    unfold ready, taken; cbn [read_only_image set_first_free first_free_address bits_count t_block_size vdfs4_start_block]; rewrite Hro; repeat split; auto; lia.
  - destruct Hr as ((nb & Hok) & Hb & H0); destruct (tools_allocate_ok nb offset n t Hok Ho Hn) as (err & a & t' & E & Hok' & HH); exists err, a, t'; split; [done|].
    destruct (allocate_fields _ _ _ _ _ _ E) as (F1 & F2 & F3 & F4); destruct HH as [(-> & Hrun & Hoff & _ & Hu & _)|(-> & -> & _)]; [left|by right]; split; [done|].
    assert (0 < a) as Ha by (destruct (Hrun a ltac:(lia)) as [? Hna]; assert (a <> 0) by (intros ->; done); lia).
    split; [|split; [done|split; [done|]]].
    + unfold ready; rewrite F1, Hro; split; [by exists nb|]; rewrite F2; split; [done|]; apply Hu; [lia|by left].
    + unfold taken; rewrite F1, F2, F3, F4, Hro; split_and!; try done.
Qed.

Lemma taken_bound (t t' : tools_sbi) (a n : Z) : ready t -> taken t t' a n -> 0 < n -> a < 2 ^ 40.
Proof.
  unfold ready, taken; intros Hr (_ & _ & _ & _ & H) Hn; destruct (read_only_image t); [lia|]; destruct H as [Hf _], Hr as ((nb & Hok) & _); destruct (Hf a ltac:(lia)); pose proof (so_bits _ _ Hok); lia.
Qed.

(** ** What is placed *)

(** A special file: [p_count] chunks of [p_blocks] blocks from block [p_first] of
    the area on, with the places of its records and of its hashes. *)
Record placed : Type := Placed { p_ino : Z; p_first : Z; p_count : Z; p_blocks : Z; p_table : Z; p_hash : Z }.

Definition p_stop (p : placed) : Z := p_first p + p_count p * p_blocks p.

(** The tables describe the file. *)
Record entry_ok (base hash : list Z) (p : placed) : Prop := {
  en_ino : VDFS4_FSFILE <= p_ino p <= VDFS4_LSFILE;
  en_count : 0 < p_count p < 2 ^ 32;
  en_table : BASE_TABLE_SIZE <= p_table p /\ p_table p + BASE_RECORD * p_count p <= lenZ base;
  en_offset : get64 base (TABLE_OFFSETS + 8 * (p_ino p - VDFS4_FSFILE)) = p_table p;
  en_last : get64 base (LAST_PAGE_INDEX + 8 * (p_ino p - VDFS4_FSFILE)) = p_count p - 1;
  en_records : forall i, 0 <= i < p_count p -> record_is base (p_table p + BASE_RECORD * i) (p_first p + i * p_blocks p);
  en_hash : HASHTABLE_SIZE <= p_hash p /\ p_hash p + (if is_tree (p_ino p) then CRC32_SIZE * p_count p else 0) <= lenZ hash;
  en_hash_offset : get64 hash (HASH_OFFSETS + 8 * (p_ino p - VDFS4_FSFILE)) = p_hash p
}.

(** The files lie one behind the other, the nodes of a tree of [r] blocks at
    multiples of [r]. *)
Fixpoint laid (r from : Z) (L : list placed) (to : Z) : Prop :=
  match L with
  | [] => from = to
  | p :: L => from <= p_first p < from + r /\ (if is_tree (p_ino p) then p_blocks p = r /\ p_first p mod r = 0 else p_blocks p = 1 /\ p_first p = from)
              /\ laid r (p_stop p) L to
  end.

(** The nodes of the trees. *)
Definition nodes_of (L : list placed) : Z := foldr (fun p n => p_count p + n) 0 L.
Definition trees (L : list placed) : Prop := Forall (fun p => is_tree (p_ino p) = true) L.

Record image_ok (s : image) (L : list placed) : Prop := {
  im_ready : ready (space s);
  im_pages : exists q, 0 <= q < 20 /\ pages_blocks s = 2 ^ q;
  im_base : BASE_TABLE_SIZE <= lenZ (base_table s) < 2 ^ 32;
  im_hash : HASHTABLE_SIZE <= lenZ (hashtable s) < 2 ^ 32;
  im_entries : Forall (entry_ok (base_table s) (hashtable s)) L;
  im_nodup : NoDup (p_ino <$> L);
  im_extent : 0 <= fst (metadata_extent s) < 2 ^ 40 /\ 0 <= snd (metadata_extent s) < 2 ^ 32 /\ (fst (metadata_extent s) = 0 -> snd (metadata_extent s) = 0);
  im_laid : laid (pages_blocks s) 0 L (snd (metadata_extent s));
  im_trees : trees L -> lenZ (hashtable s) = HASHTABLE_SIZE + CRC32_SIZE * nodes_of L
    /\ forall pre p post, L = pre ++ p :: post -> p_hash p = HASHTABLE_SIZE + CRC32_SIZE * nodes_of pre
}.

(** Placing the file [id] leaves the entries of the other files as they are. *)
Lemma entry_frame (id : Z) (base base' hash hash' : list Z) (p : placed) : entry_ok base hash p -> p_ino p <> id -> VDFS4_FSFILE <= id <= VDFS4_LSFILE ->
  lenZ base <= lenZ base' -> lenZ hash <= lenZ hash' -> HASHTABLE_SIZE <= lenZ hash ->
  (forall i, i < lenZ base -> ~ LAST_PAGE_INDEX + 8 * (id - VDFS4_FSFILE) <= i < LAST_PAGE_INDEX + 8 * (id - VDFS4_FSFILE) + 8 ->
     ~ TABLE_OFFSETS + 8 * (id - VDFS4_FSFILE) <= i < TABLE_OFFSETS + 8 * (id - VDFS4_FSFILE) + 8 -> getZ base' i = getZ base i) ->
  (forall i, HASH_OFFSETS <= i < lenZ hash -> ~ HASH_OFFSETS + 8 * (id - VDFS4_FSFILE) <= i < HASH_OFFSETS + 8 * (id - VDFS4_FSFILE) + 8 -> getZ hash' i = getZ hash i) ->
  entry_ok base' hash' p.
Proof.
  unfold VDFS4_FSFILE, VDFS4_LSFILE, VDFS4_CAT_TREE_INO, VDFS4_XATTR_TREE_INO, LAST_PAGE_INDEX, TABLE_OFFSETS, HASH_OFFSETS, HASHTABLE_SIZE.
  intros [E1 E2 E3 E4 E5 E6 E7 E8] Hne Hid Hb Hh Hh0 Fb Fh; unfold VDFS4_FSFILE, VDFS4_LSFILE, VDFS4_CAT_TREE_INO, VDFS4_XATTR_TREE_INO, BASE_TABLE_SIZE, BASE_RECORD, LAST_PAGE_INDEX, TABLE_OFFSETS, HASH_OFFSETS, HASHTABLE_SIZE in *.
  split; unfold VDFS4_FSFILE, VDFS4_LSFILE, VDFS4_CAT_TREE_INO, VDFS4_XATTR_TREE_INO, BASE_TABLE_SIZE, BASE_RECORD, LAST_PAGE_INDEX, TABLE_OFFSETS, HASH_OFFSETS, HASHTABLE_SIZE; auto; try lia.
  - rewrite (get64_ext base base'); auto; try lia; intros j Hj; apply Fb; lia.
  - rewrite (get64_ext base base'); auto; try lia; intros j Hj; apply Fb; lia.
  - intros i Hi; apply (record_ext base); auto; unfold BASE_RECORD; try lia; intros j Hj; apply Fb; lia.
  - rewrite (get64_ext hash hash'); auto; try lia; intros j Hj; apply Fh; lia.
Qed.

Lemma laid_app (r a b : Z) (L : list placed) (p : placed) : laid r a L b -> b <= p_first p < b + r ->
  (if is_tree (p_ino p) then p_blocks p = r /\ p_first p mod r = 0 else p_blocks p = 1 /\ p_first p = b) -> laid r a (L ++ [p]) (p_stop p).
Proof.
  revert a; induction L as [|q L IH]; intros a HL Hf Hk; cbn [laid app] in *; [subst a; auto|].
  destruct HL as (H1 & H2 & H3); auto.
Qed.

Lemma nodes_app (L K : list placed) : nodes_of (L ++ K) = nodes_of L + nodes_of K.
Proof. induction L as [|p L IH]; cbn; [done|]; fold (nodes_of (L ++ K)) (nodes_of L); lia. Qed.

Lemma tools_is_tree_ok (id : Z) : VDFS4_FSFILE <= id <= VDFS4_LSFILE -> tools_is_tree id = Ok (is_tree id).
Proof.
  unfold VDFS4_FSFILE, VDFS4_LSFILE, VDFS4_CAT_TREE_INO, VDFS4_XATTR_TREE_INO, tools_is_tree, is_tree, VDFS4_SPACE_BITMAP_INO, VDFS4_FREE_INODE_BITMAP_INO, VDFS4_CAT_TREE_INO, VDFS4_EXTENTS_TREE_INO, VDFS4_XATTR_TREE_INO; intros H.
  assert (id = 2 \/ id = 3 \/ id = 4 \/ id = 5 \/ id = 6) as [->|[->|[->|[->| ->]]]] by lia; done.
Qed.

(** The chunks of a subsystem and their size in blocks. *)
Definition chunks (s : image) (sub : subsystem) : Z :=
  if is_tree (sub_system_id sub) then sub_bnodes sub else byte_to_block (sub_buffer_size sub) (t_block_size (space s)).
Definition chunk_blocks (s : image) (sub : subsystem) : Z := if is_tree (sub_system_id sub) then pages_blocks s else 1.

(** The first block of the area at or behind [count] where a chunk can begin. *)
Definition place_at (s : image) (sub : subsystem) : Z :=
  let count := snd (metadata_extent s) in
  if is_tree (sub_system_id sub) then (count + pages_blocks s - 1) / pages_blocks s * pages_blocks s else count.

Lemma place_at_ok (s : image) (sub : subsystem) : 0 < pages_blocks s -> 0 <= snd (metadata_extent s) ->
  snd (metadata_extent s) <= place_at s sub < snd (metadata_extent s) + pages_blocks s
  /\ (if is_tree (sub_system_id sub) then place_at s sub mod pages_blocks s = 0 else place_at s sub = snd (metadata_extent s)).
Proof.
  intros Hr Hc; unfold place_at; destruct (is_tree _); [|lia]; set (c := snd (metadata_extent s)) in *; set (r := pages_blocks s) in *.
  pose proof (Z.div_mod (c + r - 1) r ltac:(lia)); pose proof (Z.mod_pos_bound (c + r - 1) r Hr); split; [lia|apply Z.mod_mul; lia].
Qed.

(** The space, the records and the extent of a file of the metadata. *)
Lemma place_alloc_ok (s : image) (sub : subsystem) (table n r : Z) : let id := sub_system_id sub in VDFS4_FSFILE <= id <= VDFS4_LSFILE ->
  ready (space s) -> (exists q, 0 <= q < 20 /\ pages_blocks s = 2 ^ q) -> r = chunk_blocks s sub -> 0 < n -> n * r < 2 ^ 31 ->
  0 <= fst (metadata_extent s) < 2 ^ 40 -> 0 <= snd (metadata_extent s) -> (fst (metadata_extent s) = 0 -> snd (metadata_extent s) = 0) -> place_at s sub + n * r < 2 ^ 32 ->
  (read_only_image (space s) = true -> first_free_address (space s) + (place_at s sub + n * r - snd (metadata_extent s)) < 2 ^ 40) ->
  BASE_TABLE_SIZE <= table -> table + BASE_RECORD * n <= lenZ (base_table s) ->
  exists code s', place_alloc sub table (n * r) n r s = Ok (code, sub, s')
  /\ ((code = 0 /\ ready (space s') /\ super_page_size s' = super_page_size s /\ hashtable s' = hashtable s /\ lenZ (base_table s') = lenZ (base_table s)
       /\ 0 < fst (metadata_extent s') < 2 ^ 40 /\ (fst (metadata_extent s) <> 0 -> fst (metadata_extent s') = fst (metadata_extent s)) /\ snd (metadata_extent s') = place_at s sub + n * r
       /\ taken (space s) (space s') (fst (metadata_extent s') + snd (metadata_extent s)) (place_at s sub + n * r - snd (metadata_extent s))
       /\ get64 (base_table s') (LAST_PAGE_INDEX + 8 * (id - VDFS4_FSFILE)) = n - 1
       /\ (forall i, 0 <= i < n -> record_is (base_table s') (table + BASE_RECORD * i) (place_at s sub + i * r))
       /\ (forall i, i < table -> ~ LAST_PAGE_INDEX + 8 * (id - VDFS4_FSFILE) <= i < LAST_PAGE_INDEX + 8 * (id - VDFS4_FSFILE) + 8 -> getZ (base_table s') i = getZ (base_table s) i))
      \/ (code = - ENOSPC /\ s' = s)).
Proof.
  intros id Hid Hr (q & Hq & Er) -> Hn Hnr Hf Hc Hz Hb Hroom Ht Hl; set (r := chunk_blocks s sub) in *; set (P := place_at s sub) in *; destruct (metadata_extent s) as [f c] eqn:Ee; cbn [fst snd] in *.
  assert (1 <= pages_blocks s < 2 ^ 20) as Hp by (rewrite Er; split; [pose proof (Z.pow_pos_nonneg 2 q ltac:(lia) ltac:(lia)); lia|apply Z.pow_lt_mono_r; lia]).
  pose proof (place_at_ok s sub ltac:(lia)) as HP; rewrite Ee in HP; cbn [snd] in HP; specialize (HP Hc); fold P in HP; destruct HP as [HP1 HP2].
  assert (1 <= r) as Hr1 by (unfold r, chunk_blocks; destruct (is_tree _); lia).
  unfold place_alloc; fold id; assert (extent_of sub s = (f, c)) as ->.
  { unfold extent_of; fold id; unfold VDFS4_LSFILE, VDFS4_FSFILE, VDFS4_SNAPSHOT_INO, VDFS4_XATTR_TREE_INO, VDFS4_CAT_TREE_INO in *; rewrite (proj2 (Z.eqb_neq id 7)), (proj2 (Z.ltb_ge 6 id)) by lia; done. }
  rewrite tools_is_tree_ok by done; cbn [mbind run_bind].
  assert (is_tree id = true -> r = pages_blocks s) as Hrp by (unfold r, chunk_blocks; fold id; by intros ->); assert (r <= n * r) as Hrn by nia.
  assert ((if is_tree id then u32 (Z.land (u32 (c + pages_blocks s - 1)) (u32 (Z.lnot (pages_blocks s - 1))) - c) else 0) = P - c) as ->.
  { unfold P, place_at in *; fold id in HP2, HP1, Hb |- *; rewrite Ee in *; cbn [snd] in *; destruct (is_tree id); [specialize (Hrp eq_refl)|lia].
    rewrite (u32_small (c + _ - 1)) by lia; rewrite Er, align_down by (rewrite <- ?Er; lia); rewrite <- Er; apply u32_small; lia. }
  rewrite (u64_small (f + c)) by lia; rewrite (u32_small (n * r + (P - c))) by nia; replace (n * r + (P - c)) with (P + n * r - c) by lia.
  destruct (allocate_ready (f + c) (P + n * r - c) (space s) Hr ltac:(lia) ltac:(nia) Hroom) as (err & a & t & E & Hout); rewrite E; cbn [mbind run_bind].
  destruct Hout as [(-> & Hrt & Ha & Hoff & Htk)|(-> & ->)]; [|exists (- ENOSPC), s; split; [by destruct s|by right]]; cbn [Z.eqb negb].
  set (f' := if f =? 0 then a else f); assert (f' + c = a /\ 0 < f' < 2 ^ 40 /\ (f <> 0 -> f' = f)) as (Ef & Hf' & Hff).
  { pose proof (taken_bound _ _ _ _ Hr Htk ltac:(nia)); unfold f'; destruct (Z.eqb_spec f 0); [specialize (Hz ltac:(done))|]; lia. }
  assert ((if f =? 0 then Ok a else bug_on (negb (f + c =? a));; Ok f) = Ok f') as -> by (unfold f' in *; destruct (f =? 0); [done|]; by rewrite (proj2 (Z.eqb_eq (f + c) a)) by lia).
  cbn [mbind run_bind base_table set_space]; rewrite (proj2 (Z.leb_le id VDFS4_LSFILE)) by lia; rewrite (u64_small (a - f')) by lia; rewrite (u64_small (a - f' + (P - c))) by lia.
  unfold BASE_TABLE_SIZE in Ht; destruct (fill_records_ok (Z.to_nat n) (base_table s) table (a - f' + (P - c)) 0 r) as (m1 & E1 & L1 & R1 & U1); rewrite ?Z2Nat.id by lia; try (unfold BASE_RECORD in *; nia).
  rewrite Z2Nat.id in R1, U1 by lia; rewrite E1; cbn [mbind run_bind]; rewrite (u32_small (n - 1)) by nia; rewrite (u32_small (c + _)) by lia.
  assert (0 <= id - VDFS4_FSFILE <= 4) as Hix by (unfold VDFS4_LSFILE, VDFS4_FSFILE, VDFS4_XATTR_TREE_INO, VDFS4_CAT_TREE_INO in *; lia).
  destruct (put_field_ok m1 LAST_PAGE_INDEX (id - VDFS4_FSFILE) (n - 1)) as (m2 & E2 & L2 & R2 & U2); [done|done|unfold LAST_PAGE_INDEX, BASE_RECORD in *; lia|nia|]; rewrite E2; cbn [mbind run_bind].
  eexists 0, _; split; [reflexivity|]; left; cbn [space super_page_size hashtable base_table metadata_extent set_meta set_base set_space fst snd]; rewrite Ef.
  unfold LAST_PAGE_INDEX, BASE_RECORD in *; split_and!; auto; try lia.
  - intros i Hi; replace (P + i * r) with (a - f' + (P - c) + (0 + i) * r) by lia; apply (record_ext m1); unfold BASE_RECORD; [by apply R1|lia|lia|lia|]; intros j Hj; apply U2; lia.
  - intros i Hi Hx; rewrite U2 by lia; apply U1; lia.
Qed.

(** One more entry, behind the others. *)
Lemma image_extend (s s' : image) (L : list placed) (p : placed) : image_ok s L -> p_ino p ∉ (p_ino <$> L) -> ready (space s') -> pages_blocks s' = pages_blocks s ->
  entry_ok (base_table s') (hashtable s') p -> lenZ (base_table s) <= lenZ (base_table s') < 2 ^ 32 -> lenZ (hashtable s) <= lenZ (hashtable s') < 2 ^ 32 ->
  (forall i, i < lenZ (base_table s) -> ~ LAST_PAGE_INDEX + 8 * (p_ino p - VDFS4_FSFILE) <= i < LAST_PAGE_INDEX + 8 * (p_ino p - VDFS4_FSFILE) + 8 ->
     ~ TABLE_OFFSETS + 8 * (p_ino p - VDFS4_FSFILE) <= i < TABLE_OFFSETS + 8 * (p_ino p - VDFS4_FSFILE) + 8 -> getZ (base_table s') i = getZ (base_table s) i) ->
  (forall i, HASH_OFFSETS <= i < lenZ (hashtable s) -> ~ HASH_OFFSETS + 8 * (p_ino p - VDFS4_FSFILE) <= i < HASH_OFFSETS + 8 * (p_ino p - VDFS4_FSFILE) + 8 -> getZ (hashtable s') i = getZ (hashtable s) i) ->
  0 < fst (metadata_extent s') < 2 ^ 40 -> 0 <= snd (metadata_extent s') < 2 ^ 32 -> snd (metadata_extent s') = p_stop p ->
  snd (metadata_extent s) <= p_first p < snd (metadata_extent s) + pages_blocks s ->
  (if is_tree (p_ino p) then p_blocks p = pages_blocks s /\ p_first p mod pages_blocks s = 0 else p_blocks p = 1 /\ p_first p = snd (metadata_extent s)) ->
  p_hash p = lenZ (hashtable s) -> (is_tree (p_ino p) = true -> lenZ (hashtable s') = lenZ (hashtable s) + CRC32_SIZE * p_count p) -> image_ok s' (L ++ [p]).
Proof.
  intros [I1 I2 I3 I4 I5 I6 I7 I8 I9] Hnew Hr Hpg He Hb Hh Fb Fh Hf Hs Es Hp Hk Hph Hlh; split; auto; try lia.
  - by rewrite Hpg.
  - apply Forall_app; split; [|by apply Forall_singleton]; apply Forall_forall; intros e Hel; apply (entry_frame (p_ino p) (base_table s) (base_table s') (hashtable s) (hashtable s')); auto; try lia.
    + by apply (proj1 (Forall_forall _ _) I5).
    + intros E; apply Hnew; rewrite <- E; by apply list_elem_of_fmap_2.
    + exact (en_ino _ _ _ He).
  - rewrite fmap_app; apply NoDup_app; split; [done|]; split; [|apply NoDup_singleton]; intros x Hx E; apply list_elem_of_singleton in E; subst x; by destruct Hnew.
  - rewrite Hpg, Es; by apply (laid_app _ _ (snd (metadata_extent s))).
  - intros Ht; apply Forall_app in Ht as [Ht Htp]; apply Forall_cons in Htp as [Htr _]; destruct (I9 Ht) as [J1 J2]; split; [rewrite (Hlh Htr); rewrite J1, nodes_app; cbn [nodes_of foldr]; unfold CRC32_SIZE; lia|].
    intros pre e post E; destruct post as [|y post _] using rev_ind.
    + apply app_inj_tail in E as [<- <-]; rewrite Hph; exact J1.
    + rewrite app_comm_cons, app_assoc in E; apply app_inj_tail in E as [-> _]; by apply (J2 pre e post).
Qed.

Lemma new_hash_size_ok (id size n : Z) : VDFS4_FSFILE <= id <= VDFS4_LSFILE -> 0 <= size -> 0 < n ->
  size <= new_hash_size id size n < size + CRC32_SIZE * (n + 1) /\ (is_tree id = true -> new_hash_size id size n = size + CRC32_SIZE * n).
Proof.
  intros Hid Hs Hn; unfold new_hash_size, is_tree, VDFS4_FSFILE, VDFS4_LSFILE, VDFS4_SPACE_BITMAP_INO, VDFS4_FREE_INODE_BITMAP_INO, VDFS4_CAT_TREE_INO, VDFS4_EXTENTS_TREE_INO, VDFS4_XATTR_TREE_INO, CRC32_SIZE in *.
  pose proof (Z.div_mod (size + n + 4 - 1) 4 ltac:(lia)); pose proof (Z.mod_pos_bound (size + n + 4 - 1) 4 ltac:(lia)).
  destruct (Z.eqb_spec id 3) as [->|]; [cbn; split; [lia|done]|]; destruct (Z.eqb_spec id 5) as [->|]; [cbn -[Z.div Z.mul]; split; [lia|done]|]; split; lia.
Qed.

(** The hash table with room for the [n] entries of the file [id]. *)
Lemma hash_steps_ok (h : list Z) (id n : Z) : VDFS4_FSFILE <= id <= VDFS4_LSFILE -> 0 < n -> HASHTABLE_SIZE <= lenZ h -> lenZ h + CRC32_SIZE * (n + 1) < 2 ^ 32 ->
  exists h1 h2 h3, let size := new_hash_size id (lenZ h) n in grow h (size - lenZ h) = Ok h1 /\ put_field h1 HASH_OFFSETS (id - VDFS4_FSFILE) (lenZ h) = Ok h2 /\ wr64 h2 HASH_SIZE size = Ok h3
  /\ lenZ h3 = size /\ get64 h3 (HASH_OFFSETS + 8 * (id - VDFS4_FSFILE)) = lenZ h
  /\ (forall i, HASH_OFFSETS <= i < lenZ h -> ~ HASH_OFFSETS + 8 * (id - VDFS4_FSFILE) <= i < HASH_OFFSETS + 8 * (id - VDFS4_FSFILE) + 8 -> getZ h3 i = getZ h i).
Proof.
  intros Hid Hn Hl Hb; destruct (new_hash_size_ok id (lenZ h) n Hid (lenZ_nonneg _) Hn) as [Hs _]; set (size := new_hash_size id (lenZ h) n) in *; unfold HASHTABLE_SIZE, HASH_SIZE, HASH_OFFSETS in *.
  assert (0 <= id - VDFS4_FSFILE <= 4) as Hix by (unfold VDFS4_LSFILE, VDFS4_FSFILE, VDFS4_XATTR_TREE_INO, VDFS4_CAT_TREE_INO in *; lia).
  destruct (grow_ok h (size - lenZ h)) as (h1 & E1 & L1 & U1); [lia|lia|]; destruct (put_field_ok h1 16 (id - VDFS4_FSFILE) (lenZ h)) as (h2 & E2 & L2 & R2 & U2); [done|done|lia|lia|].
  exists h1, h2, (upd_at h2 8 (le_bytes 8 size)); cbv zeta; assert (lenZ (le_bytes 8 size) = 8) as H8 by (by rewrite lenZ_le_bytes).
  split; [done|]; split; [done|]; split; [apply wr64_ok; lia|]; split; [rewrite lenZ_upd_at; lia|]; split.
  - rewrite get64_upd_out by lia; exact R2.
  - intros i Hi Hx; rewrite getZ_upd_out by lia; rewrite U2 by lia; apply U1; lia.
Qed.

Lemma place_ok_subsystem (s : image) (L : list placed) (sub : subsystem) : let n := chunks s sub in let r := chunk_blocks s sub in
  image_ok s L -> VDFS4_FSFILE <= sub_system_id sub <= VDFS4_LSFILE -> sub_system_id sub ∉ (p_ino <$> L) -> 0 < n -> n * r < 2 ^ 31 -> place_at s sub + n * r < 2 ^ 32 ->
  (read_only_image (space s) = true -> first_free_address (space s) + (place_at s sub + n * r - snd (metadata_extent s)) < 2 ^ 40) ->
  lenZ (base_table s) + BASE_RECORD * n < 2 ^ 32 -> lenZ (hashtable s) + CRC32_SIZE * (n + 1) < 2 ^ 32 ->
  exists code s', place_on_volume_subsystem (true, true) sub s = Ok (code, sub, s')
  /\ ((code = 0 /\ exists p, p_ino p = sub_system_id sub /\ p_count p = n /\ p_first p = place_at s sub /\ image_ok s' (L ++ [p])
       /\ (fst (metadata_extent s) <> 0 -> fst (metadata_extent s') = fst (metadata_extent s)) /\ snd (metadata_extent s') = p_stop p
       /\ taken (space s) (space s') (fst (metadata_extent s') + snd (metadata_extent s)) (p_stop p - snd (metadata_extent s)))
      \/ (code = - ENOSPC /\ space s' = space s /\ metadata_extent s' = metadata_extent s)).
Proof.
  intros n r Hok Hid Hnew Hn Hnr Hb Hroom Hlb Hlh; pose proof Hok as [I1 (q & Hq & Er) I3 I4 I5 I6 I7 I8 I9]; set (id := sub_system_id sub) in *.
  assert (1 <= pages_blocks s < 2 ^ 20) as Hp by (rewrite Er; split; [pose proof (Z.pow_pos_nonneg 2 q ltac:(lia) ltac:(lia)); lia|apply Z.pow_lt_mono_r; lia]).
  unfold place_on_volume_subsystem, get_iblock_size; fold id; rewrite tools_is_tree_ok by done; cbn [mbind run_bind].
  assert ((if is_tree id then sub_bnodes sub * pages_blocks s else byte_to_block (sub_buffer_size sub) (t_block_size (space s))) = n * r) as -> by (unfold n, r, chunks, chunk_blocks; fold id; destruct (is_tree id); lia).
  assert ((if is_tree id then pages_blocks s else 1) = r) as Hrc by done; rewrite Hrc; clearbody n; assert (r = chunk_blocks s sub) as Hrc' by done; clearbody r.
  assert (1 <= r) as Hr1 by (rewrite <- Hrc; destruct (is_tree _); lia); assert (n <= n * r) as Hnn by nia; rewrite (u32_small (n * r)) by lia; rewrite Z.div_mul by lia; rewrite (proj2 (Z.ltb_ge VDFS4_LSFILE id)) by lia; cbn [fst snd negb].
  assert (0 <= id - VDFS4_FSFILE <= 4) as Hix by (unfold VDFS4_LSFILE, VDFS4_FSFILE, VDFS4_XATTR_TREE_INO, VDFS4_CAT_TREE_INO in *; lia).
  destruct (grow_ok (base_table s) (BASE_RECORD * n)) as (m1 & E1 & L1 & U1); [unfold BASE_RECORD; lia|done|]; rewrite E1; cbn [mbind run_bind].
  destruct (put_field_ok m1 TABLE_OFFSETS (id - VDFS4_FSFILE) (lenZ (base_table s))) as (m2 & E2 & L2 & R2 & U2); [done|done|unfold TABLE_OFFSETS, BASE_TABLE_SIZE, BASE_RECORD in *; lia|unfold BASE_TABLE_SIZE in *; lia|]; rewrite E2; cbn [mbind run_bind hashtable set_base].
  destruct (hash_steps_ok (hashtable s) id n Hid Hn ltac:(lia) Hlh) as (h1 & h2 & h3 & F1 & F2 & F3 & LH & RH & UH); rewrite F1; cbn [mbind run_bind]; rewrite F2; cbn [mbind run_bind]; rewrite F3; cbn [mbind run_bind].
  destruct (new_hash_size_ok id (lenZ (hashtable s)) n Hid (lenZ_nonneg _) Hn) as [Hs Hst]; set (s1 := set_hash h3 (set_base m2 s)).
  destruct (place_alloc_ok s1 sub (lenZ (base_table s)) n r Hid I1 (ex_intro _ q (conj Hq Er)) Hrc' Hn Hnr (proj1 I7) (proj1 (proj1 (proj2 I7))) (proj2 (proj2 I7)) Hb Hroom (proj1 I3)) as (code & s' & E & Hout); [unfold BASE_RECORD in *; change (base_table s1) with m2; lia|].
  rewrite E; exists code, s'; split; [done|]; destruct Hout as [(-> & O1 & O2 & O3 & O4 & O5 & O6 & O7 & O8 & O9 & O10 & O11)|(-> & ->)]; [left|by right]; split; [done|].
  change (place_at s1 sub) with (place_at s sub) in *; change (metadata_extent s1) with (metadata_extent s) in *; change (space s1) with (space s) in *; change (base_table s1) with m2 in *; change (hashtable s1) with h3 in *.
  exists (Placed id (place_at s sub) n r (lenZ (base_table s)) (lenZ (hashtable s))); unfold p_stop; cbn [p_ino p_first p_count p_blocks]; split; [done|]; split; [done|]; split; [done|]; split; [|auto].
  unfold BASE_RECORD, BASE_TABLE_SIZE, LAST_PAGE_INDEX, TABLE_OFFSETS, HASHTABLE_SIZE in *; fold id in O9, O11.
  assert (0 < pages_blocks s) as Hp0 by lia; destruct (place_at_ok s sub Hp0 (proj1 (proj1 (proj2 I7)))) as [P1 P2].
  apply (image_extend s); cbn [p_ino p_first p_count p_blocks p_table p_hash]; unfold p_stop, LAST_PAGE_INDEX, TABLE_OFFSETS; cbn [p_ino p_first p_count p_blocks]; rewrite ?O3; auto; try lia.
  - unfold pages_blocks; rewrite O2; by destruct O8 as (_ & _ & -> & _).
  - split; cbn [p_ino p_first p_count p_blocks p_table p_hash]; unfold BASE_RECORD, BASE_TABLE_SIZE, LAST_PAGE_INDEX, TABLE_OFFSETS, HASHTABLE_SIZE; auto; try lia.
    + rewrite <- R2; apply get64_ext; try lia; intros j Hj; apply O11; lia.
    + split; [lia|]; rewrite LH; destruct (is_tree id); [rewrite Hst by done|]; lia.
  - intros i Hi Ha Hc; rewrite O11, U2 by lia; apply U1; lia.
  - fold id in P2; rewrite <- Hrc; destruct (is_tree id); auto.
  - intros Ht; rewrite LH; auto.
Qed.

(** C10: Placing one more special file keeps the image consistent. With code 0
    the file lies behind the others in the metadata area, the nodes of a tree at
    multiples of the super page; its blocks, and only these, are taken from the
    free ones, and the base table and the hash table describe it beside the
    others. Otherwise the code is -ENOSPC and no block is taken. *)
Theorem place_on_volume_subsystem_correct (s : image) (L : list placed) (sub : subsystem) : let n := chunks s sub in let r := chunk_blocks s sub in
  image_ok s L -> VDFS4_FSFILE <= sub_system_id sub <= VDFS4_LSFILE -> sub_system_id sub ∉ (p_ino <$> L) -> 0 < n -> n * r < 2 ^ 31 -> place_at s sub + n * r < 2 ^ 32 ->
  (read_only_image (space s) = true -> first_free_address (space s) + (place_at s sub + n * r - snd (metadata_extent s)) < 2 ^ 40) ->
  lenZ (base_table s) + BASE_RECORD * n < 2 ^ 32 -> lenZ (hashtable s) + CRC32_SIZE * (n + 1) < 2 ^ 32 ->
  exists code s', place_on_volume_subsystem (true, true) sub s = Ok (code, sub, s')
  /\ ((code = 0 /\ exists p, p_ino p = sub_system_id sub /\ p_count p = n /\ p_first p = place_at s sub /\ image_ok s' (L ++ [p])
       /\ (fst (metadata_extent s) <> 0 -> fst (metadata_extent s') = fst (metadata_extent s)) /\ snd (metadata_extent s') = p_stop p
       /\ taken (space s) (space s') (fst (metadata_extent s') + snd (metadata_extent s)) (p_stop p - snd (metadata_extent s)))
      \/ (code = - ENOSPC /\ space s' = space s /\ metadata_extent s' = metadata_extent s)).
Proof. apply place_ok_subsystem. Qed.

(** ** The driver reads the tables *)

Lemma laid_bounds (r a b : Z) (L : list placed) : laid r a L b -> 0 < r -> Forall (fun p => 0 < p_count p) L -> a <= b /\ Forall (fun p => a <= p_first p /\ p_stop p <= b /\ 0 < p_blocks p) L.
Proof.
  revert a; induction L as [|p L IH]; intros a HL Hr Hn; cbn [laid] in HL; [subst; split; [lia|constructor]|]; destruct HL as (H1 & H2 & H3); apply Forall_cons in Hn as [Hn0 Hn].
  assert (0 < p_blocks p) as Hb by (destruct (is_tree _); lia); destruct (IH (p_stop p) H3 Hr Hn) as [Hb' HF]; assert (p_first p < p_stop p) as Hst by (unfold p_stop; nia).
  split; [lia|]; constructor; [split_and!; lia|]; eapply Forall_impl; [exact HF|]; cbn beta; intros x Hx; lia.
Qed.

(** Two files of the list lie apart. *)
Lemma laid_apart (r a b : Z) (L : list placed) (p q : placed) : laid r a L b -> 0 < r -> Forall (fun p => 0 < p_count p) L -> p ∈ L -> q ∈ L -> p <> q -> p_stop p <= p_first q \/ p_stop q <= p_first p.
Proof.
  revert a; induction L as [|x L IH]; intros a HL Hr Hn Hp Hq Hne; [by apply elem_of_nil in Hp|]; cbn [laid] in HL; destruct HL as (H1 & H2 & H3); apply Forall_cons in Hn as [_ Hn].
  destruct (laid_bounds _ _ _ _ H3 Hr Hn) as [_ HF]; rewrite Forall_forall in HF; apply elem_of_cons in Hp as [->|Hp]; apply elem_of_cons in Hq as [->|Hq]; [done| | |by apply (IH (p_stop x))].
  - left; apply (HF q Hq).
  - right; apply (HF p Hp).
Qed.

Lemma ino_inj (L : list placed) (p q : placed) : NoDup (p_ino <$> L) -> q ∈ L -> p ∈ L -> p_ino q = p_ino p -> q = p.
Proof.
  intros Hnd (i & Hi)%list_elem_of_lookup (j & Hj)%list_elem_of_lookup E; assert (i = j) as ->; [|congruence].
  apply (NoDup_lookup _ i j (p_ino p) Hnd); rewrite list_lookup_fmap; [rewrite Hi|rewrite Hj]; cbn; congruence.
Qed.

Lemma count_pos (s : image) (L : list placed) : image_ok s L -> Forall (fun p => 0 < p_count p) L.
Proof. intros Hok; eapply Forall_impl; [exact (im_entries _ _ Hok)|]; intros p Hp; pose proof (en_count _ _ _ Hp); lia. Qed.

Lemma pages_pos (s : image) (L : list placed) : image_ok s L -> 0 < pages_blocks s.
Proof. intros Hok; destruct (im_pages _ _ Hok) as (q & Hq & ->); apply Z.pow_pos_nonneg; lia. Qed.

(** Block [b] of the area belongs to chunk [k] of the file. *)
Definition in_chunk (p : placed) (k b : Z) : Prop := 0 <= k < p_count p /\ p_first p + k * p_blocks p <= b < p_first p + (k + 1) * p_blocks p.

(** C11: The driver finds in the base table of the image what the tools have
    placed: the chunk of a page of a special file is the one the file was given,
    inside the metadata area and with the version of a first transaction, a page
    behind the end is refused with -EINVAL, and no block of the area belongs to
    two chunks. *)
Theorem driver_finds_placement (g : geom) (s : image) (L : list placed) (p : placed) (page : Z) : let k := get_table_index g (p_ino p) page in
  image_ok s L -> p ∈ L -> 0 <= k ->
  (k < p_count p -> vdfs4_get_meta_iblock g (base_table s) (p_ino p) page = Ok (Val (p_first p + k * p_blocks p)) /\ vdfs4_get_page_version g (base_table s) (p_ino p) page = Ok 1)
  /\ (p_count p <= k -> vdfs4_get_meta_iblock g (base_table s) (p_ino p) page = Ok (Err (- EINVAL)))
  /\ (forall b, in_chunk p k b -> 0 <= b < snd (metadata_extent s) /\ forall q j, q ∈ L -> in_chunk q j b -> q = p /\ j = k).
Proof.
  intros k Hok Hp Hk; pose proof Hok as [I1 _ I3 I4 I5 I6 _ I8 _]; pose proof (proj1 (Forall_forall _ _) I5 p Hp) as [E1 E2 E3 E4 E5 E6 _ _].
  pose proof (pages_pos _ _ Hok) as Hr; pose proof (count_pos _ _ Hok) as Hc; destruct (laid_bounds _ _ _ _ I8 Hr Hc) as [_ HF]; rewrite Forall_forall in HF; destruct (HF p Hp) as (F1 & F2 & F3).
  assert (forall array, 0 <= array -> array + 40 <= lenZ (base_table s) -> sf_field array (base_table s) (p_ino p) = Ok (get64 (base_table s) (array + 8 * (p_ino p - VDFS4_FSFILE)))) as Hsf.
  { intros array Ha Hl; unfold sf_field; rewrite (proj2 (Z.leb_le _ _)), (proj2 (Z.leb_le (p_ino p) _)) by lia; cbn [andb]; apply rd64_ok; unfold VDFS4_LSFILE, VDFS4_FSFILE, VDFS4_XATTR_TREE_INO, VDFS4_CAT_TREE_INO in *; lia. }
  unfold BASE_TABLE_SIZE, BASE_RECORD in *; split; [|split].
  - intros Hlt; specialize (E6 k ltac:(lia)); destruct E6 as (R1 & R2 & R3); unfold REC_SYNC, REC_MOUNT in *.
    unfold vdfs4_get_meta_iblock, vdfs4_get_page_version, last_table_index, vdfs4_get_table; rewrite !Hsf by (unfold LAST_PAGE_INDEX, TABLE_OFFSETS; lia); cbn [mbind run_bind]; fold k.
    rewrite E5, E4, (proj2 (Z.ltb_ge (p_count p - 1) k)), u32_small by lia; unfold BASE_RECORD, REC_SYNC, REC_MOUNT; rewrite rd64_ok, !rd32_ok by lia; cbn [mbind run_bind]; rewrite R1, R2, R3; done.
  - intros Hge; unfold vdfs4_get_meta_iblock, last_table_index; rewrite Hsf by (unfold LAST_PAGE_INDEX; lia); cbn [mbind run_bind]; fold k; by rewrite E5, (proj2 (Z.ltb_lt (p_count p - 1) k)) by lia.
  - intros b (B1 & B2); unfold p_stop in F2; split; [nia|]; intros q j Hq (B3 & B4); destruct (HF q Hq) as (G1 & G2 & G3).
    assert (forall x y, in_chunk x y b -> 0 < p_blocks x -> p_first x <= b < p_stop x) as Hin by (unfold in_chunk, p_stop; intros x y (? & ?) ?; nia).
    destruct (decide (p_ino q = p_ino p)) as [Ei|Ei].
    + assert (q = p) as -> by (by apply (ino_inj L)); split; [done|nia].
    + exfalso; destruct (laid_apart _ _ _ _ q p I8 Hr Hc Hq Hp ltac:(by intros ->)); pose proof (Hin p k (conj B1 B2) F3); pose proof (Hin q j (conj B3 B4) G3); lia.
Qed.

(** ** The trees are written *)

Lemma le_bytes_add (n : nat) (x j : Z) : le_bytes n (x + 256 ^ Z.of_nat n * j) = le_bytes n x.
Proof.
  revert x j; induction n as [|n IH]; intros x j; [done|]; cbn [le_bytes]; rewrite Nat2Z.inj_succ, Z.pow_succ_r by lia.
  replace (256 * 256 ^ Z.of_nat n * j) with (256 ^ Z.of_nat n * j * 256) by lia; rewrite Z.mod_add, Z.div_add by lia; by rewrite IH.
Qed.

Lemma le_bytes_s32 (x : Z) : le_bytes 4 (s32 x) = le_bytes 4 x.
Proof.
  unfold s32; replace ((x + 2 ^ 31) mod 2 ^ 32 - 2 ^ 31) with (x + 256 ^ Z.of_nat 4 * (- ((x + 2 ^ 31) / 2 ^ 32))); [apply le_bytes_add|].
  change (256 ^ Z.of_nat 4) with (2 ^ 32); pose proof (Z.div_mod (x + 2 ^ 31) (2 ^ 32) ltac:(lia)); lia.
Qed.

(** A node [data'] is [data] with the version of the first transaction, and its
    checksum is right. *)
Definition sealed (a size : Z) (data data' : list Z) : Prop :=
  lenZ data' = size /\ util_validate_crc a data' size 0 = Ok 0 /\ get64 data' 4 = 1 /\ forall k, k < 4 \/ 12 <= k < size - CRC32_SIZE -> getZ data' k = getZ data k.

Lemma seal_node (a size : Z) (data : list Z) : Forall is_byte data -> lenZ data = size -> 16 <= size < 2 ^ 31 ->
  exists d1 data' crc, wr64 data 4 1 = Ok d1 /\ util_update_crc a d1 size None 0 = Ok (data', crc) /\ sealed a size data data' /\ le_value (le_bytes 4 crc) = get32 data' (size - CRC32_SIZE).
Proof.
  intros Hb Hl Hs; assert (lenZ (le_bytes 8 1) = 8) as H8 by done; set (d1 := upd_at data 4 (le_bytes 8 1)); assert (lenZ d1 = size) as L1 by (unfold d1; rewrite lenZ_upd_at; lia).
  assert (Forall is_byte d1) as Hb1 by (apply Forall_upd_at; [done|apply le_bytes_byte]).
  destruct (update_validate_ok a size 0 d1 []) as (data' & crc & E & Hv & Hl' & _ & Hk); [done|done|lia|unfold CRC32_SIZE; lia|done|]; exists d1, data', crc.
  assert (util_update_crc a d1 size None 0 = Ok (data', crc)) as E'.
  { rewrite <- E; unfold util_update_crc; destruct (bug_on _) as [[]| |]; [|done|done]; cbn [mbind run_bind]; change (slice [] 0 0) with (Ok (A := list Z) []); cbn [mbind run_bind]; assert (blit d1 0 [] = Ok d1) as -> by (rewrite blit_upd by (change (lenZ (@nil Z)) with 0; lia); done); done. }
  split; [apply wr64_ok; lia|]; split; [done|]; unfold CRC32_SIZE in *; split; [split; [done|split; [done|split]]|].
  - rewrite (get64_ext d1 data'); [|lia|lia|lia|intros j Hj; apply Hk; lia]; apply get64_wr; lia.
  - unfold CRC32_SIZE; intros k Hk'; destruct (Z.ltb_spec k 0); [rewrite (getZ_None data'), (getZ_None data) by lia; done|]; rewrite Hk by lia; apply getZ_upd_out; lia.
  - unfold util_update_crc in E'; destruct (bug_on _) as [[]| |]; [|done|done]; cbn [mbind run_bind] in E'; destruct (slice d1 0 _) as [d| |]; [|done|done]; cbn [mbind run_bind] in E'.
    unfold CRC32_SIZE in E'; rewrite blit_upd in E' by (rewrite ?lenZ_le_bytes; lia); cbn [mbind run_bind] in E'; assert (lenZ (le_bytes 4 (vdfs4_crc32 (a + 0) d)) = 4) as H4 by done.
    set (lb := le_bytes 4 (vdfs4_crc32 (a + 0) d)) in *; assert (le_bytes 4 (s32 (vdfs4_crc32 (a + 0) d)) = lb) as Elb by apply le_bytes_s32; clearbody lb; injection E' as <- <-; rewrite Elb; unfold get32.
    rewrite sub_upd_in by lia; by rewrite Z.sub_diag, sub_all.
Qed.

(** What becomes of the nodes of a tree from node [i] on, whose hashes are at
    [56 + first + 4 * j]. *)
Lemma flush_nodes_ok (nodes : list (Z * list Z)) (table i start size first : Z) (m hash : list Z) :
  Forall (fun n => Forall is_byte (snd n) /\ lenZ (snd n) = size) nodes -> 16 <= size < 2 ^ 31 -> 0 <= table -> 0 <= i -> 0 <= first ->
  table + BASE_RECORD * (i + lenZ nodes) <= lenZ m -> (forall j, i <= j < i + lenZ nodes -> get64 m (table + BASE_RECORD * j) = first + j * 4) ->
  HASHTABLE_SIZE + first + 4 * (i + lenZ nodes) <= lenZ hash ->
  exists hash' done, flush_nodes nodes table i start size m hash [] = Ok (0, hash', done) /\ lenZ hash' = lenZ hash
  /\ (forall j a data, nodes !! j = Some (a, data) -> exists data', done !! j = Some (start + (first + (i + Z.of_nat j) * 4), data') /\ sealed a size data data'
       /\ get32 hash' (HASHTABLE_SIZE + first + 4 * (i + Z.of_nat j)) = get32 data' (size - CRC32_SIZE))
  /\ (forall k, k < HASHTABLE_SIZE + first + 4 * i \/ HASHTABLE_SIZE + first + 4 * (i + lenZ nodes) <= k -> getZ hash' k = getZ hash k).
Proof.
  intros HF Hs Ht; revert i hash; unfold BASE_RECORD, HASHTABLE_SIZE, CRC32_SIZE; induction HF as [|[a data] nodes [Hb Hl] HF IH]; intros i hash Hi Hf Hlm Hrec Hlh.
  { exists hash, []; split; [done|]; split; [done|]; split; [intros j ? ? E; by rewrite lookup_nil in E|done]. }
  cbn [snd] in Hb, Hl; rewrite lenZ_cons in *; pose proof (lenZ_nonneg nodes); cbn [flush_nodes]; unfold BASE_RECORD, HASHTABLE_SIZE; rewrite rd64_ok by lia; cbn [mbind run_bind]; rewrite Hrec by lia.
  destruct (seal_node a size data Hb Hl Hs) as (d1 & data' & crc & E1 & E2 & Hseal & Ecrc); rewrite E1; cbn [mbind run_bind]; rewrite E2; cbn [mbind run_bind]; rewrite wr32_ok by lia; cbn [mbind run_bind hd tl Z.eqb negb].
  set (h1 := upd_at hash _ _); assert (lenZ (le_bytes 4 crc) = 4) as H4 by (by rewrite lenZ_le_bytes); assert (lenZ h1 = lenZ hash) as L1 by (apply lenZ_upd_at; lia).
  destruct (IH (i + 1) h1) as (hash' & done & E & Lh & Hin & Hout); [lia|lia|lia|intros j Hj; apply Hrec; lia|lia|]; rewrite E; cbn [mbind run_bind].
  exists hash', ((start + (first + i * 4), data') :: done); split; [done|]; split; [lia|]; split.
  - intros [|j] b dt Ej; cbn in Ej.
    + injection Ej as <- <-; exists data'; split; [cbn; do 2 f_equal; lia|]; split; [done|]; unfold CRC32_SIZE in Ecrc; rewrite <- Ecrc; replace (56 + first + 4 * (i + Z.of_nat 0)) with (56 + (first + i * 4)) by lia.
      rewrite (get32_ext h1 hash'); [|lia|lia|lia|intros k Hk; apply Hout; lia]; unfold get32, h1; rewrite sub_upd_in by lia; rewrite Z.sub_diag, sub_all; done.
    + destruct (Hin j b dt Ej) as (d & D1 & D2 & D3); exists d; replace (i + 1 + Z.of_nat j) with (i + Z.of_nat (S j)) in * by lia; auto.
  - intros k Hk; rewrite Hout by lia; apply getZ_upd_out; lia.
Qed.

(** The place of a tree in an image of trees only. *)
Lemma tree_place (s : image) (L pre post : list placed) (p : placed) : image_ok s L -> trees L -> L = pre ++ p :: post ->
  p_first p = pages_blocks s * nodes_of pre /\ p_blocks p = pages_blocks s /\ p_hash p = HASHTABLE_SIZE + CRC32_SIZE * nodes_of pre /\ lenZ (hashtable s) = HASHTABLE_SIZE + CRC32_SIZE * nodes_of L
  /\ 0 <= nodes_of pre /\ nodes_of L = nodes_of pre + p_count p + nodes_of post /\ 0 <= nodes_of post.
Proof.
  intros Hok Ht E; destruct (im_trees _ _ Hok Ht) as [J1 J2]; pose proof (im_laid _ _ Hok) as HL; pose proof (count_pos _ _ Hok) as Hc; pose proof (pages_pos _ _ Hok) as Hr.
  assert (forall K, Forall (fun p => 0 < p_count p) K -> 0 <= nodes_of K) as Hnn by (induction 1; cbn; [lia|]; fold (nodes_of l); lia).
  assert (forall a, a mod pages_blocks s = 0 -> laid (pages_blocks s) a L (snd (metadata_extent s)) -> p_first p = a + pages_blocks s * nodes_of pre /\ p_blocks p = pages_blocks s) as Hpl.
  { subst L; clear J1 J2 HL Hok; induction pre as [|x pre IH]; intros a Ha HL; cbn [app laid nodes_of foldr] in *; destruct HL as (H1 & H2 & H3); apply Forall_cons in Ht as [Htx Ht]; rewrite Htx in H2; destruct H2 as [H2 H2'].
    - split; [|done]; apply Z.mod_divide in Ha as [u Hu]; [|lia]; apply Z.mod_divide in H2' as [v Hv]; [|lia]; assert (u = v) by nia; lia.
    - apply Forall_cons in Hc as [_ Hc]; fold (nodes_of pre); destruct (IH Ht Hc (p_stop x)) as [-> ->]; [|done|].
      + unfold p_stop; rewrite H2; by rewrite Z.mod_add by lia.
      + split; [|done]; unfold p_stop; rewrite H2; apply Z.mod_divide in Ha as [u Hu]; [|lia]; apply Z.mod_divide in H2' as [v Hv]; [|lia]; assert (u = v) by nia; lia. }
  destruct (Hpl 0 ltac:(apply Z.mod_0_l; lia) HL) as [P1 P2]; split; [lia|]; split; [done|]; split; [by apply (J2 pre p post)|]; split; [done|].
  subst L; apply Forall_app in Hc as [Hc1 Hc2]; apply Forall_cons in Hc2 as [_ Hc2]; rewrite nodes_app; cbn [nodes_of foldr]; fold (nodes_of post); split; [by apply Hnn|]; split; [lia|by apply Hnn].
Qed.

Lemma table_of (s : image) (L : list placed) (p : placed) : image_ok s L -> p ∈ L -> vdfs4_get_table (base_table s) (p_ino p) = Ok (p_table p).
Proof.
  intros Hok Hp; pose proof (proj1 (Forall_forall _ _) (im_entries _ _ Hok) p Hp) as [E1 E2 E3 E4 _ _ _ _]; pose proof (im_base _ _ Hok); unfold vdfs4_get_table, sf_field, BASE_TABLE_SIZE, BASE_RECORD in *.
  rewrite (proj2 (Z.leb_le _ _)), (proj2 (Z.leb_le (p_ino p) _)) by lia; cbn [andb]; unfold TABLE_OFFSETS, VDFS4_LSFILE, VDFS4_FSFILE, VDFS4_XATTR_TREE_INO, VDFS4_CAT_TREE_INO in *; rewrite rd64_ok by lia; cbn [mbind run_bind]; rewrite E4, u32_small by lia; done.
Qed.

(** C12: In a read-only image whose nodes have four blocks, writing a tree puts
    each node at its place of the metadata area, sealed with its version and
    checksum, and the driver, which compares the checksum of a node with the hash
    table, trusts every node; the hashes of the other trees stay. *)
Theorem flush_tree_trusted (s : image) (L : list placed) (p : placed) (nodes : list (Z * list Z)) : image_ok s L -> trees L -> p ∈ L -> pages_blocks s = 4 ->
  Forall (fun n => Forall is_byte (snd n) /\ lenZ (snd n) = super_page_size s) nodes -> lenZ nodes = p_count p -> 16 <= super_page_size s < 2 ^ 31 ->
  exists done s', flush_subsystem_tree (p_ino p) nodes [] s = Ok (0, done, s')
  /\ (forall j a data, nodes !! j = Some (a, data) ->
       exists data', done !! j = Some (fst (metadata_extent s) + vdfs4_start_block (space s) + (p_first p + Z.of_nat j * 4), data') /\ sealed a (super_page_size s) data data'
       /\ get_checksum_for_bnode false true (Some (hashtable s')) (p_ino p) (Z.of_nat j) (get32 data' (super_page_size s - CRC32_SIZE)) = Ok true)
  /\ (forall q j, q ∈ L -> q <> p -> 0 <= j < p_count q -> get32 (hashtable s') (p_hash q + CRC32_SIZE * j) = get32 (hashtable s) (p_hash q + CRC32_SIZE * j)).
Proof.
  intros Hok Ht Hp Hr HF Hn Hs; destruct (list_elem_of_split _ _ Hp) as (pre & post & EL); destruct (tree_place s L pre post p Hok Ht EL) as (T1 & T2 & T3 & T4 & T5 & T6 & T7); rewrite Hr in T1, T2.
  pose proof (proj1 (Forall_forall _ _) (im_entries _ _ Hok) p Hp) as [E1 E2 E3 E4 E5 E6 E7 E8]; pose proof (im_hash _ _ Hok) as Hh; unfold CRC32_SIZE, BASE_TABLE_SIZE, HASHTABLE_SIZE in *.
  unfold flush_subsystem_tree; rewrite (table_of s L p Hok Hp); cbn [mbind run_bind].
  destruct (flush_nodes_ok nodes (p_table p) 0 (fst (metadata_extent s) + vdfs4_start_block (space s)) (super_page_size s) (p_first p) (base_table s) (hashtable s)) as (h & done & E & Lh & Hin & Hout);
    unfold BASE_RECORD, HASHTABLE_SIZE in *; [exact HF|exact Hs|lia|lia|lia|lia|intros j Hj; rewrite <- T2; apply (E6 j ltac:(lia))|lia|].
  rewrite E; cbn [mbind run_bind]; eexists done, _; split; [reflexivity|]; cbn [hashtable set_hash]; unfold CRC32_SIZE in *; split.
  - intros j a data Ej; destruct (Hin j a data Ej) as (data' & D1 & D2 & D3); exists data'; split; [exact D1|]; split; [done|]; apply lookup_lt_Some in Ej; assert (Z.of_nat j < p_count p) as Hj by (rewrite <- Hn; unfold lenZ; lia).
    unfold get_checksum_for_bnode, vdfs4_get_meta_hashtable, sf_field; cbn [negb]; rewrite (proj1 (Forall_forall _ _) Ht p Hp); cbn [negb bug_on mbind run_bind]; rewrite (proj2 (Z.leb_le _ _)), (proj2 (Z.leb_le (p_ino p) _)) by lia; cbn [andb].
    unfold HASH_OFFSETS, VDFS4_LSFILE, VDFS4_FSFILE, VDFS4_XATTR_TREE_INO, VDFS4_CAT_TREE_INO in *; rewrite rd64_ok by lia; cbn [mbind run_bind]; rewrite (get64_ext (hashtable s) h), E8, u32_small; try lia; [|intros k Hk; apply Hout; lia].
    unfold CRC32_SIZE; rewrite rd32_ok by lia; cbn [mbind run_bind]; replace (p_hash p + 4 * Z.of_nat j) with (56 + p_first p + 4 * (0 + Z.of_nat j)) by lia; by rewrite D3, Z.eqb_refl.
  - intros q j Hq Hne Hj; destruct (list_elem_of_split _ _ Hq) as (pre' & post' & EL'); destruct (tree_place s L pre' post' q Hok Ht EL') as (U1 & U2 & U3 & U4 & U5 & U6 & U7); rewrite Hr in U1, U2; unfold CRC32_SIZE, HASHTABLE_SIZE in *.
    pose proof (laid_apart _ _ _ _ q p (im_laid _ _ Hok) (pages_pos _ _ Hok) (count_pos _ _ Hok) Hq Hp Hne) as Hap; unfold p_stop in Hap; apply get32_ext; try lia; intros k Hk; apply Hout; rewrite U2, T2 in Hap; lia.
Qed.

(** C40: With larger nodes the hash of the last node is written behind the end
    of the hash table: writing the last tree of the image faults as soon as the
    image has two nodes. *)
Theorem flush_tree_overflow (s : image) (pre : list placed) (p : placed) (nodes : list (Z * list Z)) : image_ok s (pre ++ [p]) -> trees (pre ++ [p]) -> 4 < pages_blocks s -> 2 <= nodes_of (pre ++ [p]) ->
  Forall (fun n => Forall is_byte (snd n) /\ lenZ (snd n) = super_page_size s) nodes -> lenZ nodes = p_count p -> 16 <= super_page_size s < 2 ^ 31 ->
  flush_subsystem_tree (p_ino p) nodes [] s = Fault.
Proof.
  intros Hok Ht Hr Hn2 HF Hn Hs; assert (p ∈ pre ++ [p]) as Hp by (apply elem_of_app; right; by left); destruct (tree_place s _ pre [] p Hok Ht eq_refl) as (T1 & T2 & T3 & T4 & T5 & T6 & T7); cbn in T6.
  pose proof (proj1 (Forall_forall _ _) (im_entries _ _ Hok) p Hp) as [E1 E2 E3 E4 E5 E6 E7 E8]; unfold CRC32_SIZE, BASE_TABLE_SIZE, HASHTABLE_SIZE in *; set (r := pages_blocks s) in *.
  unfold flush_subsystem_tree; rewrite (table_of s _ p Hok Hp); cbn [mbind run_bind].
  assert (forall nodes i hash, nodes <> [] -> 0 <= i -> i + lenZ nodes = p_count p -> Forall (fun n => Forall is_byte (snd n) /\ lenZ (snd n) = super_page_size s) nodes -> lenZ hash = lenZ (hashtable s) ->
    flush_nodes nodes (p_table p) i (fst (metadata_extent s) + vdfs4_start_block (space s)) (super_page_size s) (base_table s) hash [] = Fault) as Hloop.
  { clear nodes HF Hn; induction nodes as [|[a data] nodes IH]; intros i hash Hne Hi Hc HF Hlh; [done|]; apply Forall_cons in HF as [[Hb Hl] HF]; cbn [snd] in Hb, Hl; rewrite lenZ_cons in Hc; pose proof (lenZ_nonneg nodes); cbn [flush_nodes].
    unfold BASE_RECORD in *; rewrite rd64_ok by lia; cbn [mbind run_bind]; destruct (E6 i ltac:(lia)) as [-> _]; rewrite T2; fold r.
    destruct (seal_node a (super_page_size s) data Hb Hl Hs) as (d1 & data' & crc & F1 & F2 & _ & _); rewrite F1; cbn [mbind run_bind]; rewrite F2; cbn [mbind run_bind]; unfold HASHTABLE_SIZE.
    destruct (decide (56 + (p_first p + i * r) + 4 <= lenZ hash)) as [Hin|Hout].
    - assert (0 <= p_first p /\ nodes <> []) as [H0 Hne'] by (split; [nia|]; intros ->; change (lenZ (@nil (Z * list Z))) with 0 in *; nia).
      rewrite wr32_ok by nia; cbn [mbind run_bind hd tl Z.eqb negb]; rewrite IH; auto; [lia|lia|]; rewrite lenZ_upd_at; rewrite ?lenZ_le_bytes; nia.
    - unfold wr32, blit; rewrite lenZ_le_bytes, (proj2 (Z.leb_gt (56 + (p_first p + i * r) + Z.of_nat 4) (lenZ hash))) by lia; by rewrite andb_false_r. }
  rewrite Hloop; auto; intros ->; change (lenZ (@nil (Z * list Z))) with 0 in *; lia.
Qed.

(** ** A new image *)

(** The tables of [init_snapshot] and [init_hashtable] describe an image without
    files. *)
Lemma new_image_ok (s : image) : ready (space s) -> (exists q, 0 <= q < 20 /\ pages_blocks s = 2 ^ q) -> metadata_extent s = (0, 0) ->
  image_ok (snd (init_hashtable true (snd (init_snapshot true s)))) [].
Proof.
  intros Hr Hp Em; split.
  - exact Hr.
  - exact Hp.
  - by vm_compute.
  - by vm_compute.
  - constructor.
  - constructor.
  - change (metadata_extent (snd _)) with (metadata_extent s); rewrite Em; cbn; lia.
  - change (metadata_extent (snd _)) with (metadata_extent s); by rewrite Em.
  - intros _; split; [by vm_compute|]; intros pre p post E; by destruct pre.
Qed.

(** ** Witnesses *)

(** A read-only image of blocks of 8 bytes, with a super page of [r] blocks *)
Definition image0 (r : Z) : image :=
  snd (init_hashtable true (snd (init_snapshot true (Image (ToolsSbi 8 8000 8000 0 true false 0 5 [] [] 0 0) (8 * r) [] [] (0, 0) (0, 0) 0 0)))).

Definition catalog0 : subsystem := Subsystem VDFS4_CAT_TREE_INO 0 2 (0, 0).

Lemma image0_ok (q : Z) : 0 <= q < 20 -> image_ok (image0 (2 ^ q)) [].
Proof.
  intros Hq; apply new_image_ok; [split; cbn; lia|exists q; split; [done|]; unfold pages_blocks; cbn [super_page_size space t_block_size]|done]; rewrite Z.mul_comm; apply Z.div_mul; lia.
Qed.

Lemma place_on_volume_subsystem_correct_witness : exists s', place_on_volume_subsystem (true, true) catalog0 (image0 4) = Ok (0, catalog0, s') /\ exists p, p_ino p = VDFS4_CAT_TREE_INO /\ image_ok s' [p].
Proof.
  destruct (place_on_volume_subsystem_correct (image0 4) [] catalog0) as (code & s' & E & H); [exact (image0_ok 2 ltac:(lia))|by vm_compute|apply not_elem_of_nil|by vm_compute|by vm_compute|by vm_compute|by vm_compute|by vm_compute|by vm_compute|].
  exists s'; destruct H as [(-> & p & Hp & _ & _ & Hok & _)|(-> & _)]; [split; [exact E|]; exists p; auto|vm_compute in E; discriminate E].
Defined.

(** The image with the catalog *)
Lemma image1 (q : Z) : q = 2 \/ q = 3 -> exists s' p, image_ok s' [p] /\ p_ino p = VDFS4_CAT_TREE_INO /\ p_count p = 2 /\ p_first p = 0 /\ pages_blocks s' = 2 ^ q /\ super_page_size s' = 8 * 2 ^ q.
Proof.
  intros Hq; destruct (place_ok_subsystem (image0 (2 ^ q)) [] catalog0) as (code & s' & E & H);
    [apply image0_ok; lia|by vm_compute|apply not_elem_of_nil|by destruct Hq as [-> | ->]; vm_compute ..|].
  exists s'; destruct H as [(-> & p & Hp & Hc & Hf & Hok & _)|(-> & _)].
  - exists p; split; [done|]; split; [done|]; split; [by rewrite Hc|]; destruct Hq as [-> | ->]; vm_compute in E; injection E as <-; by rewrite Hf.
  - exfalso; destruct Hq as [-> | ->]; vm_compute in E; discriminate E.
Qed.

Lemma driver_finds_placement_witness : exists s' p, image_ok s' [p] /\ vdfs4_get_meta_iblock (Geom 2 0 12 14 0 0 0 false 0) (base_table s') (p_ino p) 7 = Ok (Val (p_first p + 1 * p_blocks p)).
Proof.
  destruct (image1 2 ltac:(auto)) as (s' & p & Hok & Hi & Hc & _); exists s', p; split; [done|].
  assert (get_table_index (Geom 2 0 12 14 0 0 0 false 0) (p_ino p) 7 = 1) as Ek by (by rewrite Hi).
  destruct (driver_finds_placement (Geom 2 0 12 14 0 0 0 false 0) s' [p] p 7 Hok ltac:(by left) ltac:(rewrite Ek; lia)) as (H & _); rewrite Ek in H; by apply H; rewrite Hc.
Defined.

Definition nodes0 (r : Z) : list (Z * list Z) := replicate 2 (4096, replicate (Z.to_nat (8 * r)) 0).

Lemma nodes0_ok (r : Z) : 0 <= r -> Forall (fun n => Forall is_byte (snd n) /\ lenZ (snd n) = 8 * r) (nodes0 r).
Proof. intros Hr; apply Forall_replicate; cbn [snd]; split; [by apply Forall_replicate|apply lenZ_zero_bytes; lia]. Qed.

Lemma flush_tree_trusted_witness : exists s p done s', image_ok s [p] /\ flush_subsystem_tree (p_ino p) (nodes0 4) [] s = Ok (0, done, s').
Proof.
  destruct (image1 2 ltac:(auto)) as (s & p & Hok & Hi & Hc & _ & Hr & Hs); assert (trees [p]) as Ht by (constructor; [by rewrite Hi|constructor]).
  destruct (flush_tree_trusted s [p] p (nodes0 4) Hok Ht ltac:(by left) Hr) as (done & s' & E & _); [rewrite Hs; exact (nodes0_ok 4 ltac:(lia))|by rewrite Hc|rewrite Hs; lia|]; exists s, p, done, s'; auto.
Defined.

Lemma flush_tree_overflow_witness : exists s p, image_ok s [p] /\ pages_blocks s = 8 /\ flush_subsystem_tree (p_ino p) (nodes0 8) [] s = Fault.
Proof.
  destruct (image1 3 ltac:(auto)) as (s & p & Hok & Hi & Hc & _ & Hr & Hs); assert (trees ([] ++ [p])) as Ht by (constructor; [by rewrite Hi|constructor]); exists s, p; split; [done|]; split; [exact Hr|].
  apply (flush_tree_overflow s [] p (nodes0 8) Hok Ht); [rewrite Hr; lia|cbn; rewrite Hc; lia|rewrite Hs; exact (nodes0_ok 8 ltac:(lia))|by rewrite Hc|rewrite Hs; lia].
Defined.
