(* ===== verification/MetaWrite.v ===== *)
(** Writing the dirty metadata back and committing it,
    src/linux/fs/vdfs4/data.c (vdfs4_meta_write, get_pages_from_mapping,
    vdfs4_sign_mapping_pages, vdfs4_sync_metadata) with
    vdfs4_check_and_sign_dirty_bnodes of bnode.c and the page-cache shim of
    vdfs4.h.

    The page cache is the dirty pages of the five special files. Pages of a file
    are written in the order of their index, batch by batch; pages that follow
    each other on the volume share a request. The outcome of a request, and of the
    mapping of a node, is read from the answers of the device: [(e, k)] is a
    request that failed after [k] pages. Build without CONFIG_VDFS4_DEBUG, with
    CONFIG_VDFS4_META_SANITY_CHECK. *)

From Stdlib Require Import ZArith Lia Bool List.
From stdpp Require Import base list gmap sorting.
From S2P Require Import Prelude Bytes Bitmap FindBit Buffer Rbtree FsmTree Fsm Bnode Snapshot SnapshotDisk.

Open Scope Z_scope.

(** ** The page cache *)

(** Dirty pages by file and index; the files with a failed write (AS_EIO);
    whether an error has made the volume read-only. *)
Record cache : Type := Cache {
  dirty_pages : Z -> gmap Z (list Z);
  as_eio : Z -> bool;
  made_rdonly : bool
}.

Definition on_file {A} (f : Z -> A) (ino : Z) (x : A) : Z -> A := fun i => if i =? ino then x else f i.

Definition put_page (c : cache) (ino index : Z) (data : list Z) : cache :=
  Cache (on_file (dirty_pages c) ino (<[index := data]> (dirty_pages c ino))) (as_eio c) (made_rdonly c).
Definition clear_page_dirty (c : cache) (ino index : Z) : cache :=
  Cache (on_file (dirty_pages c) ino (delete index (dirty_pages c ino))) (as_eio c) (made_rdonly c).
Definition fatal_error (c : cache) : cache := Cache (dirty_pages c) (as_eio c) true.

(** The indices of the dirty pages of a file, in order. *)
Definition tagged (c : cache) (ino : Z) : list Z := merge_sort Z.le (map_to_list (dirty_pages c ino)).*1.

(** filemap_get_folios_tag on the tagged indices: those it returns and the index
    to go on from. PAGEVEC_SIZE is the size of a pagevec. *)
Class PageCache : Type := {
  filemap_get_folios_tag : list Z -> Z -> list Z * Z;
  PAGEVEC_SIZE : Z
}.

(** bio_add_page: whether a request for [cap] pages that holds [n] takes another. *)
Class BioAdd : Type := { bio_add_page : Z -> Z -> bool }.

(** [vdfs4_find_get_pages_range_tag] for at most [max_pages] pages, of which [acc]
    have been found; every turn of its loop finds one. *)
Fixpoint find_get_pages `{PageCache} (fuel : nat) (tags : list Z) (index max_pages : Z) (acc : list Z) : run (list Z * Z) :=
  if lenZ acc <? max_pages then
    match fuel with
    | O => Fault
    | S fuel =>
        let '(batch, index) := filemap_get_folios_tag tags index in
        match batch with
        | [] => Ok (acc, index)
        | _ =>
            let room := Z.to_nat (max_pages - lenZ acc) in
            match drop room batch with
            | rewind :: _ => Ok (acc ++ take room batch, rewind)
            | [] => find_get_pages fuel tags index max_pages (acc ++ batch)
            end
        end
    end
  else Ok (acc, index).

(** ** Places on the volume *)

(** The loop of [get_meta_block]. *)
Fixpoint get_meta_loop (extents : list (Z * Z)) (iblock first_iblock : Z) : res Z :=
  match extents with
  | [] => Err (- EINVAL)
  | (begin, length) :: extents =>
      let last_iblock := first_iblock +64 length in
      if (first_iblock <=? iblock) && (iblock <? last_iblock) then Val (begin +64 (iblock - first_iblock))
      else get_meta_loop extents iblock last_iblock
  end.

(** [get_meta_block] *)
Definition get_meta_block (e : exsb) (iblock : Z) : res Z := get_meta_loop (meta e) iblock 0.

(** A request: its first block, the number of pages it was made for, and the pages
    with the file they are of. *)
Record bio : Type := Bio { bi_block : Z; bi_vecs : Z; bi_pages : list (Z * list Z) }.

(** Pages of a request on their way to the device. *)
Fixpoint put_bio (pages : list (list Z)) (sector : Z) (d : gmap Z (list Z)) : gmap Z (list Z) :=
  match pages with
  | [] => d
  | p :: pages => put_bio pages (sector + SECTORS_PER_PAGE) (<[sector := p]> d)
  end.

Section Meta.
Context `{ZeroArea} `{FindBit} `{PageCache} `{BioAdd} (g : geom) (crc32 : list Z -> Z) (bt : btree).

Definition pages_per_node : Z := Z.shiftl 1 (log_blocks_in_leb g + block_size_shift g - PAGE_SHIFT).

(** [get_block_meta_wrapper] for VDFS4_META_READ *)
Definition get_block_meta_wrapper (m : list Z) (e : exsb) (ino page_idx : Z) : run (res Z) :=
  bug_on ((ino <? VDFS4_FSFILE) || (VDFS4_LSFILE <? ino));;
  ret ← vdfs4_get_meta_iblock g m ino page_idx;
  match ret with
  | Err x => Ok (Err x)
  | Val start_iblock =>
      let meta_iblock :=
        if is_tree ino
        then start_iblock +64 Z.shiftl (Z.land page_idx (pages_per_node - 1)) (PAGE_SHIFT - block_size_shift g)
        else start_iblock in
      match get_meta_block e meta_iblock with
      | Err _ => Bug
      | Val block => bug_on (block =? 0);; Ok (Val block)
      end
  end.

(** ** Signing *)

(** [vdfs4_generate_version] *)
Definition generate_version (mount sync : Z) : Z := Z.lor (Z.shiftl mount 32) sync.

(** [vdfs4_update_block_crc] behind the version, in [vdfs4_check_and_sign_pages]. *)
Definition check_and_sign_page (magic data : list Z) (version : Z) : run (list Z) :=
  m ← slice data 0 4;
  bug_on (negb (bool_decide (m = magic)));;
  data ← wr64 data 4 version;
  body ← slice data 12 (PAGE_SIZE - 16);
  wr32 data (PAGE_SIZE - CRC32_SIZE) (crc32 body).

(** The bytes of the node whose first page is [index]. *)
Definition node_bytes (c : cache) (ino index : Z) : list Z :=
  flat_map (fun j => match dirty_pages c ino !! j with Some p => p | None => [] end) (seqZ index pages_per_node).

Definition put_node (c : cache) (ino index : Z) (data : list Z) : cache :=
  foldl (fun c j => put_page c ino (index + j) (sub data (PAGE_SIZE * j) PAGE_SIZE)) c (seqZ 0 pages_per_node).

(** [vdfs4_meta_sanity_check_bnode] *)
Definition vdfs4_meta_sanity_check_bnode (data : list Z) (index : Z) : run (bool * bnode) :=
  id ← (if index =? 0 then Ok 0 else rd32 data NODE_ID);
  vdfs4_bnode_sanity_check bt (Bnode data id false false false).

(** The version and the checksum of a node. *)
Definition sign_node (data : list Z) (version : Z) : run (list Z) :=
  data ← wr64 data 4 version;
  body ← slice data 0 (node_size_bytes bt - VDFS4_BNODE_FIRST_OFFSET);
  wr32 data (node_size_bytes bt - VDFS4_BNODE_FIRST_OFFSET) (crc32 body).

(** [vdfs4_check_and_sign_dirty_bnodes] on the node at page [index] *)
Definition vdfs4_check_and_sign_dirty_bnodes (c : cache) (ino index version : Z) (d : device) : run (Z * cache * device) :=
  let '((e, _), d) := answer d in
  if negb (e =? 0) then Ok (- ENOMEM, c, d)
  else
    let data := node_bytes c ino index in
    '(ok, b) ← vdfs4_meta_sanity_check_bnode data index;
    if negb ok then Ok (- EFAULT, fatal_error c, d)
    else
      data ← sign_node data version;
      Ok (0, put_node c ino index data, d).

(** The mount and sync count of a chunk in the base table. *)
Definition stamp_record (m : list Z) (table table_index mount sync : Z) : run (list Z) :=
  m ← wr32 m (table + BASE_RECORD * table_index + REC_MOUNT) mount;
  wr32 m (table + BASE_RECORD * table_index + REC_SYNC) sync.

(** The loops of [vdfs4_sign_mapping_pages]. *)
Fixpoint sign_nodes (fuel : nat) (m : list Z) (c : cache) (ino table mount sync : Z) (pages : list Z) (d : device) : run (Z * list Z * cache * device) :=
  match pages with
  | [] => Ok (0, m, c, d)
  | first :: _ =>
      match fuel with
      | O => Fault
      | S fuel =>
          if lenZ pages <? pages_per_node then Ok (- EFAULT, m, c, d)
          else if negb (bool_decide (take (Z.to_nat pages_per_node) pages = seqZ first pages_per_node)) then Ok (- EFAULT, m, c, d)
          else
            '(ret, c, d) ← vdfs4_check_and_sign_dirty_bnodes c ino first (generate_version mount sync) d;
            if negb (ret =? 0) then Ok (ret, m, c, d)
            else
              m ← stamp_record m table (get_table_index g ino first) mount sync;
              sign_nodes fuel m c ino table mount sync (drop (Z.to_nat pages_per_node) pages) d
      end
  end.

Definition INODE_BITMAP_MAGIC : list Z := [105; 110; 111; 98].
Definition FSM_BMP_MAGIC : list Z := [102; 115; 109; 98].

Fixpoint sign_bitmaps (m : list Z) (c : cache) (ino table mount sync : Z) (magic : list Z) (pages : list Z) : run (list Z * cache) :=
  match pages with
  | [] => Ok (m, c)
  | index :: pages =>
      match dirty_pages c ino !! index with
      | None => Fault
      | Some data =>
          data ← check_and_sign_page magic data (generate_version mount sync);
          m ← stamp_record m table index mount sync;
          sign_bitmaps m (put_page c ino index data) ino table mount sync magic pages
      end
  end.

(** [vdfs4_sign_mapping_pages] *)
Definition vdfs4_sign_mapping_pages (m : list Z) (c : cache) (ino mount sync : Z) (pages : list Z) (d : device) : run (Z * list Z * cache * device) :=
  table ← vdfs4_get_table m ino;
  if is_tree ino then sign_nodes (length pages) m c ino table mount sync pages d
  else if (ino =? VDFS4_FREE_INODE_BITMAP_INO) || (ino =? VDFS4_SPACE_BITMAP_INO) then
    let magic := if ino =? VDFS4_FREE_INODE_BITMAP_INO then INODE_BITMAP_MAGIC else FSM_BMP_MAGIC in
    '(m, c) ← sign_bitmaps m c ino table mount sync magic pages;
    Ok (0, m, c, d)
  else Ok (- EFAULT, m, c, d).

(** ** Collecting and writing pages *)

(** [vdfs4_next_mapping] *)
Definition vdfs4_next_mapping (current_mapping : option Z) : option Z :=
  match current_mapping with
  | None => Some VDFS4_CAT_TREE_INO
  | Some ino =>
      if ino =? VDFS4_CAT_TREE_INO then Some VDFS4_SPACE_BITMAP_INO
      else if ino =? VDFS4_SPACE_BITMAP_INO then Some VDFS4_EXTENTS_TREE_INO
      else if ino =? VDFS4_EXTENTS_TREE_INO then Some VDFS4_FREE_INODE_BITMAP_INO
      else if ino =? VDFS4_FREE_INODE_BITMAP_INO then Some VDFS4_XATTR_TREE_INO
      else None
  end.

(** The number of pages asked for at a time. *)
Definition batch_size (ino : Z) : Z :=
  if is_tree ino then PAGEVEC_SIZE - PAGEVEC_SIZE mod Z.shiftl 1 (log_blocks_in_page g + log_blocks_in_leb g) else PAGEVEC_SIZE.

(** [get_pages_from_mapping]: its result, the pages, the file and the index to go
    on from, the base table and the cache. At most six turns. *)
Fixpoint get_pages_from_mapping (fuel : nat) (current_mapping : option Z) (index : Z) (m : list Z) (c : cache) (mount sync : Z) (d : device)
    : run (Z * list Z * option Z * Z * list Z * cache * device) :=
  match fuel with
  | O => Fault
  | S fuel =>
      '(ret, pages, index, m, c, d) ←
        match current_mapping with
        | None => Ok (0, [], index, m, c, d)
        | Some ino =>
            '(pages, index) ← find_get_pages (Z.to_nat (batch_size ino)) (tagged c ino) index (batch_size ino) [];
            '(ret, m, c, d) ← vdfs4_sign_mapping_pages m c ino mount sync pages d;
            Ok (ret, pages, index, m, c, d)
        end;
      if negb (ret =? 0) then Ok (ret, [], current_mapping, index, m, c, d)
      else match pages with
           | [] =>
               match vdfs4_next_mapping current_mapping with
               | None => Ok (0, [], None, 0, m, c, d)
               | Some ino => get_pages_from_mapping fuel (Some ino) 0 m c mount sync d
               end
           | _ => Ok (lenZ pages, pages, current_mapping, index, m, c, d)
           end
  end.

(** [submit_bio] and [meta_end_IO] *)
Definition submit_bio (b : bio) (c : cache) (d : device) : cache * device :=
  let '((e, k), d) := answer d in
  let n := if e =? 0 then length (bi_pages b) else Nat.min k (length (bi_pages b)) in
  let sector := Z.shiftl (bi_block b) (block_size_shift g - SECTOR_SIZE_SHIFT) in
  let d := Device (put_bio (take n (bi_pages b).*2) sector (disk d)) (exsb_disk d) (answers d) in
  (if e =? 0 then c else Cache (dirty_pages c) (fun i => as_eio c i || existsb (Z.eqb i) (bi_pages b).*1) (made_rdonly c), d).

Definition BIO_MAX_VECS : Z := 256.

(** [allocate_new_request] with [__allocate_new_bio] *)
Definition allocate_new_request (start_block size : Z) : option bio :=
  let start_sector := u64 (Z.shiftl start_block (block_size_shift g - SECTOR_SIZE_SHIFT)) in
  let bio_size := if BIO_MAX_VECS <? size then BIO_MAX_VECS else size in
  let s_count := Z.shiftr (bdev_nr_bytes g) SECTOR_SIZE_SHIFT in
  if (s_count <? start_sector) || (s_count <? start_sector +64 bio_size * SECTORS_PER_PAGE) then None
  else Some (Bio start_block bio_size []).

(** The loop that puts a page into a request, making requests until one takes it:
    a request that cannot be made is tried again without end. *)
Fixpoint add_to_bio (fuel : nat) (b : option bio) (next_block block size ino : Z) (data : list Z) (c : cache) (d : device)
    : run (bio * Z * cache * device) :=
  match fuel with
  | O => Fault
  | S fuel =>
      let taken := match b with
                   | Some r => (next_block =? block) && bio_add_page (bi_vecs r) (lenZ (bi_pages r))
                   | None => false
                   end in
      match b, taken with
      | Some r, true => Ok (Bio (bi_block r) (bi_vecs r) (bi_pages r ++ [(ino, data)]), next_block, c, d)
      | _, _ =>
          let '(c, d) := match b with Some r => submit_bio r c d | None => (c, d) end in
          add_to_bio fuel (allocate_new_request block size) block block size ino data c d
      end
  end.

(** The pages of a batch. *)
Fixpoint write_batch (pages : list Z) (ino : Z) (m : list Z) (e : exsb) (c : cache) (b : option bio) (next_block : Z) (d : device)
    : run (cache * option bio * Z * device) :=
  match pages with
  | [] => Ok (c, b, next_block, d)
  | index :: rest =>
      ret ← get_block_meta_wrapper m e ino index;
      match ret, dirty_pages c ino !! index with
      | Val block, Some data =>
          let c := clear_page_dirty c ino index in
          '(b, next_block, c, d) ← add_to_bio 3 b next_block block (lenZ pages) ino data c d;
          write_batch rest ino m e c (Some b) (next_block +64 Z.shiftl 1 (log_blocks_in_page g)) d
      | _, _ => Bug
      end
  end.

(** The loop of [vdfs4_meta_write]. *)
Fixpoint meta_write_loop (fuel : nat) (current_mapping : option Z) (index mount sync : Z) (m : list Z) (e : exsb) (c : cache) (b : option bio) (next_block : Z) (d : device)
    : run (Z * list Z * cache * option bio * device) :=
  match fuel with
  | O => Fault
  | S fuel =>
      '(ret, pages, current_mapping, index, m, c, d) ← get_pages_from_mapping 7 current_mapping index m c mount sync d;
      if ret <=? 0 then Ok (ret, m, c, b, d)
      else
        match current_mapping with
        | None => Fault
        | Some ino =>
            '(c, b, next_block, d) ← write_batch pages ino m e c b next_block d;
            meta_write_loop fuel current_mapping index mount sync m e c b next_block d
        end
  end.

(** The wait for the writes of one file, with its error and the pages that are
    still dirty. *)
Definition wait_mapping (st : Z * cache) (ino : Z) : Z * cache :=
  let '(ret, c) := st in
  let '(ret, c) := if as_eio c ino then (- EIO, fatal_error (Cache (dirty_pages c) (on_file (as_eio c) ino false) (made_rdonly c))) else (ret, c) in
  (if bool_decide (dirty_pages c ino = ∅) then ret else - EFAULT, c).

(** The number of dirty pages bounds the number of batches. *)
Definition count_dirty (c : cache) : nat := foldr (fun ino n => (size (dirty_pages c ino) + n)%nat) O special_files.

(** [vdfs4_meta_write] *)
Definition vdfs4_meta_write (mount sync : Z) (m : list Z) (e : exsb) (c : cache) (d : device) : run (Z * list Z * cache * device) :=
  '(ret, m, c, b, d) ← meta_write_loop (S (count_dirty c)) None 0 mount sync m e c None 0 d;
  let '(c, d) := match b with Some r => submit_bio r c d | None => (c, d) end in
  let '(ret, c) := foldl wait_mapping (ret, c) special_files in
  Ok (ret, m, c, d).

(** ** The commit *)

Record fs : Type := Fs {
  f_maps : maps;
  f_tables : tables;
  f_exsb : exsb;
  exsb_dirty : bool;
  f_cache : cache;
  f_fsm : fsm_info;
  f_device : device
}.

Definition set_base (m : list Z) (t : tables) : tables :=
  Tables m (extended_table t) (iblock t) (sync_count t) (dirty_pages_count t) (use_base_table t) (exteneded_table_count t).

(** [vdfs4_sync_metadata]; [stat] says that the statistics of written data have
    changed. The result has the discards that the free-space manager sent. *)
Definition vdfs4_sync_metadata `{Rbtree} (rdonly stat debug : bool) (sbi : sb_info) (discard : Z -> Z -> Z) (s : fs) : run (Z * fs * list (Z * Z)) :=
  let '(Fs mp t e dirty c f d) := s in
  if dirty_pages_count t =? 0 then Ok (0, s, [])
  else if rdonly then Ok (0, s, [])
  else
    let dirty := dirty || stat in
    let '(ret, e, t, d) :=
      if dirty then
        let '(ret, e, d) := vdfs4_sync_exsb g e (sync_count t) true d in
        (ret, e, Tables (base_t t) (extended_table t) (iblock t) (sync_count t) (dirty_pages_count t) true (exteneded_table_count t), d)
      else (0, e, t, d) in
    if negb (ret =? 0) then Ok (ret, Fs mp t e dirty (fatal_error c) f d, [])
    else
      '(ret, m, c, d) ← vdfs4_meta_write (mount_counter e) (sync_count t) (base_t t) e c d;
      let t := set_base m t in
      if negb (ret =? 0) then Ok (ret, Fs mp t e dirty c f d, [])
      else
        mp ← vdfs4_update_bitmaps false mp;
        '(ret, t, d) ← vdfs4_update_translation_tables g crc32 (mount_counter e) t d;
        if negb (ret =? 0) then Ok (ret, Fs mp t e dirty (fatal_error c) f d, [])
        else
          let '(ret, e, c, d) :=
            if dirty then
              let '(ret, e, d) := vdfs4_sync_exsb g e (sync_count t) false d in
              (ret, e, if ret =? 0 then c else fatal_error c, d)
            else (0, e, c, d) in
          '(f, log) ← vdfs4_commit_free_space debug sbi discard f;
          let t := Tables (base_t t) (extended_table t) (iblock t) (sync_count t +32 1) (dirty_pages_count t) (use_base_table t) (exteneded_table_count t) in
          Ok (ret, Fs mp t e false c f d, log).

End Meta.
