(* ===== verification/MetaRep.v ===== *)
(** Dirty pages of the special files: the page cache as an interface, and the
    batches that vdfs4_find_get_pages_range_tag of src/linux/fs/vdfs4/vdfs4.h
    returns. *)

From Stdlib Require Import ZArith Lia Bool List.
From stdpp Require Import base list gmap sorting.
From S2P Require Import Prelude Bytes Bitmap FindBit Buffer Rbtree FsmTree Fsm Bnode Snapshot SnapshotDisk SnapshotRep SnapshotCow MetaWrite.

Open Scope Z_scope.

Abbreviation sorted := (StronglySorted Z.lt).

(** ** Interfaces *)

(** Documented result of the lookup: some of the first tagged indices from [start]
    on, none only when there is none, and an index behind them and in front of the
    others. *)
Class PageCacheLaws `{PageCache} : Prop := {
  folios_tag_spec (tags : list Z) (start : Z) :
    sorted tags ->
    let R := filter (fun i => start <= i) tags in let r := filemap_get_folios_tag tags start in
    exists rest, R = fst r ++ rest /\ (fst r = [] -> R = []) /\ filter (fun i => snd r <= i) tags = rest
}.

(** A request takes as many pages as it was made for. *)
Class BioAddLaws `{BioAdd} : Prop := { bio_add_page_room (cap n : Z) : n < cap -> bio_add_page cap n = true }.

(** A reference instance with batches of [n] pages. *)
Module PlainPages.

Definition lookup_tags (n : nat) (tags : list Z) (start : Z) : list Z * Z :=
  let R := filter (fun i => start <= i) tags in
  (take n R, match last (take n R) with Some i => i + 1 | None => start end).

#[export] Instance plain_pages : PageCache := { filemap_get_folios_tag := lookup_tags 31; PAGEVEC_SIZE := 31 }.
#[export] Instance plain_bio : BioAdd := { bio_add_page := fun cap n => n <? cap }.

#[export] Instance plain_bio_laws : BioAddLaws.
Proof. split; intros cap n Hn; cbn; lia. Qed.

End PlainPages.

(** ** Sorted lists *)

Lemma sorted_app_iff (l k : list Z) : sorted (l ++ k) <-> sorted l /\ sorted k /\ forall x y, x ∈ l -> y ∈ k -> x < y.
Proof.
  induction l as [|a l IH]; cbn [app]; [split; [intros; split; [constructor|]; split; [done|]; intros x y Hx; set_solver|tauto]|].
  split.
  - intros Hs; inversion Hs as [|? ? Hs' Ha]; subst; apply IH in Hs' as (H1 & H2 & H3); rewrite Forall_app in Ha; destruct Ha as [Ha1 Ha2].
    split; [by constructor|]; split; [done|]; intros x y [->|Hx]%elem_of_cons Hy; [rewrite Forall_forall in Ha2; auto|auto].
  - intros (H1 & H2 & H3); inversion H1 as [|? ? Hs' Ha]; subst; constructor.
    + apply IH; split; [done|]; split; [done|]; intros x y Hx Hy; apply H3; [by right|done].
    + apply Forall_app; split; [done|]; apply Forall_forall; intros y Hy; apply H3; [by left|done].
Qed.

Lemma sorted_ge (tags : list Z) (start : Z) :
  sorted tags -> exists lo, tags = lo ++ filter (fun i => start <= i) tags /\ forall x, x ∈ lo -> x < start.
Proof.
  induction 1 as [|a l Hs [lo [E Hlo]] Ha]; [exists []; split; [done|]; intros x Hx; set_solver|].
  destruct (decide (start <= a)) as [H|H].
  - exists []; split; [|intros x Hx; set_solver]; cbn [app]; rewrite filter_cons, decide_True by done; f_equal; symmetry.
    assert (forall k, Forall (fun i => start <= i) k -> filter (fun i => start <= i) k = k) as Hall.
    { induction 1 as [|y k Hy _ IHk]; [done|]; by rewrite filter_cons, decide_True, IHk by done. }
    apply Hall; eapply Forall_impl; [exact Ha|]; cbn; lia.
  - exists (a :: lo); rewrite filter_cons, decide_False by done; split; [cbn; by rewrite <- E|]; intros x [->|Hx]%elem_of_cons; [lia|auto].
Qed.

Lemma sorted_same (l k : list Z) : sorted l -> sorted k -> (forall x, x ∈ l <-> x ∈ k) -> l = k.
Proof.
  intros Hl; revert k; induction Hl as [|a l Hs IH Ha]; intros k Hk E.
  - destruct k as [|b k]; [done|]; exfalso; assert (b ∈ @nil Z) by (apply E; by left); set_solver.
  - inversion Hk as [|b k' Hs' Hb Ek]; subst; [exfalso; assert (a ∈ @nil Z) by (apply E; by left); set_solver|].
    rewrite Forall_forall in Ha, Hb.
    assert (a = b) as <-.
    { assert (a ∈ b :: k') as H1 by (apply E; by left); assert (b ∈ a :: l) as H2 by (apply E; by left).
      apply elem_of_cons in H1, H2; destruct H1 as [H1|H1]; [done|]; destruct H2 as [H2|H2]; [done|]; specialize (Ha b H2); specialize (Hb a H1); lia. }
    f_equal; apply IH; [done|]; intros x; split; intros Hx.
    + assert (x ∈ a :: k') as H1 by (apply E; by right); apply elem_of_cons in H1 as [->|]; [specialize (Ha a Hx); lia|done].
    + assert (x ∈ a :: l) as H1 by (apply E; by right); apply elem_of_cons in H1 as [->|]; [specialize (Hb a Hx); lia|done].
Qed.

Lemma filter_none (l : list Z) (a : Z) : (forall x, x ∈ l -> x < a) -> filter (fun i => a <= i) l = [].
Proof.
  intros Hl; destruct (filter _ _) as [|x k] eqn:E; [done|]; assert (x ∈ filter (fun i => a <= i) l) as Hx by (rewrite E; by left).
  apply list_elem_of_filter in Hx as [H1 H2]; specialize (Hl x H2); lia.
Qed.

Lemma filter_all (l : list Z) (a : Z) : (forall x, x ∈ l -> a <= x) -> filter (fun i => a <= i) l = l.
Proof.
  induction l as [|x l IH]; intros Hl; [done|]; rewrite filter_cons, decide_True by (apply Hl; by left).
  rewrite IH; [done|]; intros y Hy; apply Hl; by right.
Qed.

#[export] Instance PlainPages_laws : @PageCacheLaws PlainPages.plain_pages.
Proof.
  split; intros tags start Hs R r; unfold r; cbn; unfold PlainPages.lookup_tags; fold R; cbn [fst snd].
  destruct (sorted_ge tags start Hs) as (lo & E & Hlo); fold R in E.
  assert (forall i, i ∈ R -> start <= i) as HR by (intros i Hi; by apply list_elem_of_filter in Hi as [? _]).
  clearbody R; subst tags; apply sorted_app_iff in Hs as (_ & HsR & Hlt); exists (drop 31 R); split; [by rewrite take_drop|].
  split; [intros H0; destruct R; [done|discriminate H0]|]; assert (R = take 31 R ++ drop 31 R) as ER by (by rewrite take_drop).
  rewrite ER in HsR; apply sorted_app_iff in HsR as (Hs1 & Hs2 & Hlt2); destruct (last (take 31 R)) as [i|] eqn:El.
  - apply last_Some in El as [k Ek]; rewrite Ek in Hs1; apply sorted_app_iff in Hs1 as (_ & _ & Hk).
    assert (start <= i) as Hi by (apply HR; rewrite ER, Ek; set_solver).
    rewrite filter_app, (filter_none lo) by (intros x Hx; specialize (Hlo x Hx); lia); rewrite ER at 1.
    rewrite filter_app, (filter_none (take 31 R)), (filter_all (drop 31 R)); [done| |].
    + intros x Hx; assert (i < x); [|lia]; apply Hlt2; [rewrite Ek; set_solver|done].
    + intros x Hx; rewrite Ek in Hx; apply elem_of_app in Hx as [Hx|Hx]; [specialize (Hk x i Hx ltac:(set_solver)); lia|]; apply list_elem_of_singleton in Hx; lia.
  - apply last_None in El; destruct R as [|a R']; [|discriminate El]; rewrite app_nil_r, (filter_none lo) by done; done.
Qed.

(** ** The batch *)

Lemma find_get_pages_spec `{Hpc : PageCacheLaws} (fuel : nat) (tags : list Z) (index max : Z) (acc : list Z) :
  sorted tags -> lenZ acc <= max -> max - lenZ acc <= Z.of_nat fuel ->
  let R := filter (fun i => index <= i) tags in
  exists index', find_get_pages fuel tags index max acc = Ok (acc ++ take (Z.to_nat (max - lenZ acc)) R, index')
  /\ (lenZ acc < max -> filter (fun i => index' <= i) tags = drop (Z.to_nat (max - lenZ acc)) R).
Proof.
  intros Hs; revert index acc; induction fuel as [|fuel IH]; intros index acc Ha Hf R; cbn [find_get_pages]; destruct (Z.ltb_spec (lenZ acc) max) as [Hlt|Hge]; try lia.
  1, 3: exists index; replace (Z.to_nat (max - lenZ acc)) with O by lia; rewrite take_0, app_nil_r; split; [done|lia].
  destruct (folios_tag_spec tags index Hs) as (rest & ER & Hnil & Hrest); fold R in ER, Hnil.
  destruct (filemap_get_folios_tag tags index) as [batch i1]; cbn [fst snd] in *; set (room := Z.to_nat (max - lenZ acc)).
  destruct batch as [|x batch].
  { rewrite Hnil by done; rewrite take_nil, drop_nil, app_nil_r; exists i1; split; [done|]; intros _; rewrite Hrest; specialize (Hnil eq_refl); rewrite Hnil in ER; cbn in ER; done. }
  assert (1 <= length (x :: batch))%nat as HB by (cbn; lia); set (B := x :: batch) in *; clearbody B; destruct (drop room B) as [|rewind more] eqn:Ed.
  - assert (length B <= room)%nat as Hlen by (pose proof (length_drop B room) as Hd; rewrite Ed in Hd; cbn [length] in Hd; lia).
    assert (lenZ (acc ++ B) = lenZ acc + Z.of_nat (length B)) as El by (unfold lenZ; rewrite length_app; lia).
    destruct (IH i1 (acc ++ B)) as (i' & E' & Hi'); [lia|lia|]; rewrite Hrest in E', Hi'; exists i'; rewrite E'.
    assert (Z.to_nat (max - lenZ (acc ++ B)) = room - length B)%nat as Er by (subst room; lia); rewrite Er in *; rewrite ER; split.
    + rewrite take_app, (take_ge B) by lia; by rewrite app_assoc.
    + intros _; rewrite drop_app, (drop_ge B) by lia; cbn [app]; destruct (Z.lt_ge_cases (lenZ (acc ++ B)) max); [by apply Hi'|].
      assert (room - length B = 0)%nat as E0 by (subst room; lia); rewrite E0, drop_0.
      assert (i' = i1) as ->; [|done].
      destruct fuel as [|fuel]; cbn [find_get_pages] in E'; rewrite (proj2 (Z.ltb_ge (lenZ (acc ++ B)) max)) in E' by lia; injection E' as _ ->; done.
  - exists rewind; assert (room < length B)%nat as Hlen by (pose proof (length_drop B room) as Hd; rewrite Ed in Hd; cbn [length] in Hd; lia).
    assert (take room R = take room B) as -> by (rewrite ER; rewrite take_app_le by lia; done); split; [done|].
    assert (drop room R = rewind :: more ++ rest) as -> by (rewrite ER, drop_app_le, Ed by lia; done); intros _.
    destruct (sorted_ge tags index Hs) as (lo & Et & Hlo); fold R in Et; rewrite Et in Hs; apply sorted_app_iff in Hs as (_ & HsR & Hlt2).
    assert (index <= rewind) as Hr.
    { assert (rewind ∈ R) as Hin by (rewrite ER; apply elem_of_app; left; rewrite <- (take_drop room B), Ed; set_solver); apply list_elem_of_filter in Hin; tauto. }
    rewrite Et, filter_app, (filter_none lo) by (intros y Hy; specialize (Hlo y Hy); lia); cbn [app].
    assert (R = take room B ++ rewind :: more ++ rest) as E2 by (rewrite ER; rewrite <- (take_drop room B) at 1; rewrite Ed, <- app_assoc; done).
    rewrite E2 in HsR; apply sorted_app_iff in HsR as (_ & HsR & Hlt3); assert (Forall (Z.lt rewind) (more ++ rest)) as Hall by (by inversion HsR); rewrite Forall_forall in Hall.
    rewrite E2, filter_app, (filter_none (take room B)) by (intros y Hy; apply Hlt3; [done|set_solver]).
    apply filter_all; intros y [->|Hy]%elem_of_cons; [lia|]; specialize (Hall y Hy); lia.
Qed.
