(* ===== verification/MetaFiles.v ===== *)
(** The dirty pages of a special file as chunks: whole nodes of a tree, single
    pages of a bitmap, in the order in which they are written
    (get_pages_from_mapping of src/linux/fs/vdfs4/data.c). *)

From Stdlib Require Import ZArith Lia Bool List.
From stdpp Require Import base list gmap sorting.
From S2P Require Import Prelude Bytes Bitmap FindBit Buffer Rbtree FsmTree Fsm Bnode Snapshot SnapshotDisk SnapshotRep SnapshotCow MetaWrite MetaRep.

Open Scope Z_scope.

(** ** The tags of a file *)

Lemma tagged_elem (c : cache) (ino i : Z) : i ∈ tagged c ino <-> is_Some (dirty_pages c ino !! i).
Proof.
  unfold tagged; rewrite merge_sort_Permutation, list_elem_of_fmap; split.
  - intros ([j p] & -> & Hj); apply elem_of_map_to_list in Hj; eauto.
  - intros [p Hp]; exists (i, p); split; [done|]; by apply elem_of_map_to_list.
Qed.

Lemma tagged_sorted (c : cache) (ino : Z) : sorted (tagged c ino).
Proof.
  assert (NoDup (tagged c ino)) as Hd by (unfold tagged; rewrite merge_sort_Permutation; apply NoDup_fst_map_to_list).
  assert (StronglySorted Z.le (tagged c ino)) as Hs by (apply StronglySorted_merge_sort; typeclasses eauto).
  revert Hd Hs; generalize (tagged c ino); induction l as [|a l IH]; intros Hd Hs; [constructor|].
  apply NoDup_cons in Hd as [Hn Hd]; inversion Hs as [|? ? Hs' Ha]; subst; constructor; [auto|].
  apply Forall_forall; intros x Hx; rewrite Forall_forall in Ha; specialize (Ha x Hx); destruct (Z.eq_dec a x) as [->|]; [done|lia].
Qed.

(** ** Pages of chunks *)

(** The pages of the chunks [N] of [u] pages each. *)
Definition pages_of (u : Z) (N : list Z) : list Z := flat_map (fun n => seqZ (u * n) u) N.

Lemma seqZ_sorted (a n : Z) : sorted (seqZ a n).
Proof.
  remember (Z.to_nat n) as k eqn:Ek; revert a n Ek; induction k as [|k IH]; intros a n Ek.
  - rewrite seqZ_nil by lia; constructor.
  - rewrite seqZ_cons by lia; constructor; [apply IH; lia|]; apply Forall_forall; intros x Hx; apply elem_of_seqZ in Hx; lia.
Qed.

Section Pages.
Context (u : Z) (Hu : 0 < u).

Lemma pages_elem (N : list Z) (i : Z) : i ∈ pages_of u N <-> i / u ∈ N.
Proof using Hu.
  unfold pages_of; rewrite list_elem_of_In, in_flat_map; pose proof (Z.div_mod i u ltac:(lia)); pose proof (Z.mod_pos_bound i u ltac:(lia)); split.
  - intros (n & Hn%list_elem_of_In & Hi%list_elem_of_In%elem_of_seqZ); assert (i / u = n) as -> by (symmetry; apply (Z.div_unique i u n (i - u * n)); lia); done.
  - intros Hn; exists (i / u); rewrite <- !list_elem_of_In; split; [done|]; apply elem_of_seqZ; lia.
Qed.

Lemma pages_app (N M : list Z) : pages_of u (N ++ M) = pages_of u N ++ pages_of u M.
Proof. apply flat_map_app. Qed.

Lemma pages_sorted (N : list Z) : sorted N -> sorted (pages_of u N).
Proof using Hu.
  induction 1 as [|a N Hs IH Ha]; [constructor|]; change (a :: N) with ([a] ++ N); rewrite pages_app; apply sorted_app_iff; split; [|split; [done|]].
  - unfold pages_of; cbn; rewrite app_nil_r; apply seqZ_sorted.
  - intros x y Hx Hy; apply pages_elem in Hx, Hy; apply list_elem_of_singleton in Hx; rewrite Forall_forall in Ha; specialize (Ha _ Hy); rewrite <- Hx in Ha.
    pose proof (Z.div_mod x u ltac:(lia)); pose proof (Z.mod_pos_bound x u ltac:(lia)); pose proof (Z.div_mod y u ltac:(lia)); pose proof (Z.mod_pos_bound y u ltac:(lia)); nia.
Qed.

Lemma pages_length (N : list Z) : length (pages_of u N) = (Z.to_nat u * length N)%nat.
Proof. induction N as [|n N IH]; [unfold pages_of; cbn; lia|]; change (n :: N) with ([n] ++ N); rewrite pages_app, length_app, IH; unfold pages_of; cbn; rewrite app_nil_r, length_seqZ; lia. Qed.

Lemma pages_take (k : nat) (N : list Z) : take (Z.to_nat u * k) (pages_of u N) = pages_of u (take k N) /\ drop (Z.to_nat u * k) (pages_of u N) = pages_of u (drop k N).
Proof.
  destruct (Nat.le_gt_cases k (length N)) as [Hk|Hk].
  - rewrite <- (take_drop k N) at 1 3; rewrite pages_app; assert (length (pages_of u (take k N)) = Z.to_nat u * k)%nat as E by (rewrite pages_length, length_take; f_equal; lia).
    rewrite take_app_length', drop_app_length' by done; done.
  - rewrite (take_ge N), (drop_ge N) by lia; assert (length (pages_of u N) <= Z.to_nat u * k)%nat by (rewrite pages_length; nia); rewrite take_ge, drop_ge by lia; done.
Qed.

End Pages.

(** ** The files *)

Section Files.
Context (g : geom) (Hg : geom_ok g).

(** Pages of a chunk. *)
Definition unit_of (ino : Z) : Z := if is_tree ino then pages_per_node g else 1.

Lemma node_pages : pages_per_node g = 2 ^ (log_blocks_in_leb g + block_size_shift g - PAGE_SHIFT).
Proof. apply Z.shiftl_1_l. Qed.

Lemma unit_pos (ino : Z) : 0 < unit_of ino.
Proof using Hg. destruct Hg as [_ _ H]; unfold unit_of; destruct (is_tree ino); [rewrite node_pages; apply Z.pow_pos_nonneg; lia|lia]. Qed.

Lemma table_index (ino i : Z) : get_table_index g ino i = i / unit_of ino.
Proof using Hg.
  destruct Hg as [_ _ H]; unfold get_table_index, unit_of; destruct (is_tree ino); [rewrite node_pages, Z.shiftr_div_pow2 by lia; done|by rewrite Z.div_1_r].
Qed.

(** The dirty pages of a file are those of the chunks [N]. *)
Record dirty_chunks (c : cache) (ino : Z) (N : list Z) : Prop := {
  dc_sorted : sorted N;
  dc_pages : forall i, is_Some (dirty_pages c ino !! i) <-> i / unit_of ino ∈ N
}.

Lemma tagged_pages (c : cache) (ino : Z) (N : list Z) : dirty_chunks c ino N -> tagged c ino = pages_of (unit_of ino) N.
Proof using Hg.
  intros [H1 H2]; apply sorted_same; [apply tagged_sorted|apply pages_sorted; [apply unit_pos|done]|].
  intros i; by rewrite tagged_elem, pages_elem, H2 by apply unit_pos.
Qed.

Lemma chunks_empty (c : cache) (ino : Z) : dirty_chunks c ino [] -> dirty_pages c ino = ∅.
Proof. intros [_ H]; apply map_empty; intros i; apply eq_None_not_Some; rewrite H; set_solver. Qed.

Context `{Hpc : PageCacheLaws}.

(** A batch is made of whole chunks. *)
Lemma batch_spec (c : cache) (ino index : Z) (N : list Z) (k : nat) :
  dirty_chunks c ino N -> (forall i, is_Some (dirty_pages c ino !! i) -> index <= i) -> batch_size g ino = unit_of ino * Z.of_nat k -> (1 <= k)%nat ->
  exists index', find_get_pages (Z.to_nat (batch_size g ino)) (tagged c ino) index (batch_size g ino) [] = Ok (pages_of (unit_of ino) (take k N), index')
  /\ forall i, i ∈ pages_of (unit_of ino) (drop k N) -> index' <= i.
Proof using Hg Hpc.
  intros Hdc Hi Hb Hk; pose proof (unit_pos ino) as Hu; destruct (find_get_pages_spec (Z.to_nat (batch_size g ino)) (tagged c ino) index (batch_size g ino) [] (tagged_sorted c ino)) as (i' & E & Hi');
    change (lenZ []) with 0 in *; [nia|nia|].
  rewrite (filter_all (tagged c ino) index) in E, Hi' by (intros x Hx; apply Hi; by apply tagged_elem); rewrite (tagged_pages c ino N Hdc) in *; exists i'; rewrite E, Z.sub_0_r.
  replace (Z.to_nat (batch_size g ino)) with (Z.to_nat (unit_of ino) * k)%nat by (rewrite Hb; nia); destruct (pages_take (unit_of ino) Hu k N) as [E1 E2]; split; [by rewrite E1|].
  intros i Hin; specialize (Hi' ltac:(nia)); rewrite Z.sub_0_r in Hi'; replace (Z.to_nat (batch_size g ino)) with (Z.to_nat (unit_of ino) * k)%nat in Hi' by (rewrite Hb; nia).
  rewrite E2 in Hi'; rewrite <- Hi' in Hin; apply list_elem_of_filter in Hin; tauto.
Qed.

End Files.
