(* ===== verification/MetaSign.v ===== *)
(** Signing the pages of a batch: the version and the checksum of nodes and bitmap
    pages, and the counts in the base table (vdfs4_sign_mapping_pages of
    src/linux/fs/vdfs4/data.c, vdfs4_check_and_sign_dirty_bnodes of bnode.c). *)

From Stdlib Require Import ZArith Lia Bool List.
From stdpp Require Import base list gmap sorting.
From S2P Require Import Prelude Bytes Bitmap FindBit Buffer Rbtree FsmTree Fsm Bnode Snapshot SnapshotDisk SnapshotRep SnapshotCow SnapshotTable MetaWrite MetaRep MetaFiles.

Open Scope Z_scope.

(** A base table in which only counts have changed. *)
Record restamped (m m' : list Z) : Prop := {
  rs_base : base_ok m';
  rs_shape : same_shape m m';
  rs_header : sub m' 0 BASE_TABLE_SIZE = sub m 0 BASE_TABLE_SIZE;
  rs_len : lenZ m' = lenZ m;
  rs_place : forall c, is_chunk m c -> place m' c = place m c
}.

Lemma restamped_refl (m : list Z) : base_ok m -> restamped m m.
Proof. intros; split; done. Qed.

Lemma restamped_trans (m1 m2 m3 : list Z) : restamped m1 m2 -> restamped m2 m3 -> restamped m1 m3.
Proof.
  intros [A1 A2 A3 A4 A5] [B1 B2 B3 B4 B5]; split; [done|by eapply shape_trans|congruence|congruence|].
  intros c Hc; rewrite B5, A5; [done|done|by apply (same_chunk m1 m2)].
Qed.

Lemma stamp_spec (m : list Z) (ino n mount sync : Z) :
  base_ok m -> is_chunk m (ino, n) -> exists m', stamp_record m (off m ino) n mount sync = Ok m' /\ restamped m m'.
Proof.
  intros Hb Hc; unfold stamp_record; destruct (write_counts m (ino, n) REC_MOUNT mount Hb Hc) as (m1 & E1 & B1 & S1 & H1 & L1 & P1); [unfold REC_MOUNT; lia|].
  cbn [fst snd] in E1; rewrite E1; cbn [mbind run_bind]; pose proof (proj2 (same_chunk m m1 _ S1) Hc) as Hc1.
  destruct (write_counts m1 (ino, n) REC_SYNC sync B1 Hc1) as (m2 & E2 & B2 & S2 & H2 & L2 & P2); [unfold REC_SYNC; lia|].
  cbn [fst snd] in E2; rewrite (proj1 (S1 ino (proj1 Hc))) in E2; rewrite E2; exists m2; split; [done|].
  apply (restamped_trans m m1 m2); split; auto.
Qed.

Section Nodes.
Context (g : geom) (Hg : geom_ok g).

Lemma put_pages_lookup (l : list Z) (c : cache) (ino index j i : Z) (data : list Z) :
  dirty_pages (foldl (fun c k => put_page c ino (index + k) (sub data (PAGE_SIZE * k) PAGE_SIZE)) c l) j !! i
  = if decide (j = ino /\ i - index ∈ l) then Some (sub data (PAGE_SIZE * (i - index)) PAGE_SIZE) else dirty_pages c j !! i.
Proof.
  revert c; induction l as [|k l IH]; intros c; cbn [foldl]; [rewrite decide_False by set_solver; done|]; rewrite IH.
  destruct (decide (j = ino /\ i - index ∈ l)) as [[-> Hin]|N]; [by rewrite decide_True by set_solver|]; unfold put_page, on_file; cbn [dirty_pages].
  destruct (Z.eqb_spec j ino) as [->|Nj]; [|by rewrite decide_False by tauto].
  destruct (Z.eq_dec i (index + k)) as [->|Ni].
  - rewrite lookup_insert_eq, decide_True; [do 2 f_equal; lia|]; split; [done|]; replace (index + k - index) with k by lia; set_solver.
  - rewrite lookup_insert_ne, decide_False; [done| |lia]; intros [_ Hin]; apply elem_of_cons in Hin as [Hin|Hin]; [lia|tauto].
Qed.

Lemma put_pages_rest (l : list Z) (c : cache) (ino index : Z) (data : list Z) :
  let c' := foldl (fun c k => put_page c ino (index + k) (sub data (PAGE_SIZE * k) PAGE_SIZE)) c l in as_eio c' = as_eio c /\ made_rdonly c' = made_rdonly c.
Proof. revert c; induction l as [|k l IH]; intros c; [done|]; cbn [foldl]; destruct (IH (put_page c ino (index + k) (sub data (PAGE_SIZE * k) PAGE_SIZE))) as [-> ->]; done. Qed.

Lemma put_node_lookup (c : cache) (ino n j i : Z) (data : list Z) :
  dirty_pages (put_node g c ino (pages_per_node g * n) data) j !! i
  = if decide (j = ino /\ i / pages_per_node g = n) then Some (sub data (PAGE_SIZE * (i mod pages_per_node g)) PAGE_SIZE) else dirty_pages c j !! i.
Proof using Hg.
  pose proof (unit_pos g Hg 2) as Hu; change (unit_of g 2) with (pages_per_node g) in Hu; unfold put_node; rewrite put_pages_lookup.
  pose proof (Z.div_mod i (pages_per_node g) ltac:(lia)) as D; pose proof (Z.mod_pos_bound i (pages_per_node g) Hu).
  destruct (decide (j = ino /\ i / pages_per_node g = n)) as [[-> E]|N].
  - rewrite decide_True by (split; [done|]; apply elem_of_seqZ; rewrite <- E; lia); do 2 f_equal; f_equal; rewrite <- E; lia.
  - rewrite decide_False; [done|]; intros [-> Hr%elem_of_seqZ]; apply N; split; [done|]; symmetry; apply (Z.div_unique i (pages_per_node g) n (i - pages_per_node g * n)); lia.
Qed.

Lemma node_bytes_ext (c c' : cache) (ino n : Z) :
  (forall i, i / pages_per_node g = n -> dirty_pages c' ino !! i = dirty_pages c ino !! i) ->
  node_bytes g c' ino (pages_per_node g * n) = node_bytes g c ino (pages_per_node g * n).
Proof using Hg.
  intros E; pose proof (unit_pos g Hg 2) as Hu; change (unit_of g 2) with (pages_per_node g) in Hu; unfold node_bytes; rewrite !flat_map_concat_map; f_equal.
  apply map_ext_in; intros i Hi%list_elem_of_In%elem_of_seqZ; rewrite E; [done|]; symmetry; apply (Z.div_unique i (pages_per_node g) n (i - pages_per_node g * n)); lia.
Qed.

End Nodes.

Section Sign.
Context {area : ZeroArea} (g : geom) (Hg : geom_ok g) (crc32 : list Z -> Z) (bt : btree) (Hbt : node_size_bytes bt = PAGE_SIZE * pages_per_node g).

(** ** The signed page *)

Definition sgn_page (data : list Z) (v : Z) : list Z :=
  let D := upd_at data 4 (le_bytes 8 v) in upd_at D 4092 (le_bytes 4 (crc32 (sub D 12 4080))).

Definition sgn_node (data : list Z) (v : Z) : list Z :=
  let D := upd_at data 4 (le_bytes 8 v) in upd_at D (node_size_bytes bt - 4) (le_bytes 4 (crc32 (sub D 0 (node_size_bytes bt - 4)))).

(** What becomes of page [i] of a file. *)
Definition signed (c : cache) (v ino i : Z) : list Z :=
  if is_tree ino
  then sub (sgn_node (node_bytes g c ino (pages_per_node g * (i / pages_per_node g))) v) (PAGE_SIZE * (i mod pages_per_node g)) PAGE_SIZE
  else match dirty_pages c ino !! i with Some p => sgn_page p v | None => [] end.

Definition magic_of (ino : Z) : list Z := if ino =? VDFS4_FREE_INODE_BITMAP_INO then INODE_BITMAP_MAGIC else FSM_BMP_MAGIC.

(** A chunk that can be signed: its pages are dirty, the check of a node ends, a
    bitmap page has its magic. *)
Record chunk_good (c : cache) (ino n : Z) : Prop := {
  cg_pages : forall i, i / unit_of g ino = n -> exists p, dirty_pages c ino !! i = Some p /\ lenZ p = PAGE_SIZE;
  cg_node : is_tree ino = true -> exists ok b, vdfs4_meta_sanity_check_bnode bt (node_bytes g c ino (pages_per_node g * n)) (pages_per_node g * n) = Ok (ok, b);
  cg_magic : is_tree ino = false -> forall p, dirty_pages c ino !! n = Some p -> sub p 0 4 = magic_of ino
}.

Lemma node_bytes_len (c : cache) (ino n : Z) :
  (forall i, i / pages_per_node g = n -> exists p, dirty_pages c ino !! i = Some p /\ lenZ p = PAGE_SIZE) ->
  lenZ (node_bytes g c ino (pages_per_node g * n)) = node_size_bytes bt.
Proof using Hg Hbt.
  intros Hp; pose proof (unit_pos g Hg 2) as Hu; change (unit_of g 2) with (pages_per_node g) in Hu; unfold node_bytes; rewrite Hbt.
  assert (forall l, (forall i, i ∈ l -> exists p, dirty_pages c ino !! i = Some p /\ lenZ p = PAGE_SIZE) ->
    lenZ (flat_map (fun j => match dirty_pages c ino !! j with Some p => p | None => [] end) l) = PAGE_SIZE * lenZ l) as Hl.
  { induction l as [|i l IH]; intros Hl; [done|]; cbn [flat_map]; destruct (Hl i ltac:(by left)) as (p & -> & Lp); rewrite lenZ_app, lenZ_cons, Lp, IH; [lia|].
    intros j Hj; apply Hl; by right. }
  rewrite Hl; [unfold lenZ; rewrite length_seqZ; lia|]; intros i Hi; apply elem_of_seqZ in Hi; apply Hp; symmetry; apply (Z.div_unique i (pages_per_node g) n (i - pages_per_node g * n)); lia.
Qed.

Lemma sign_node_ok (data : list Z) (v : Z) :
  lenZ data = node_size_bytes bt -> sign_node crc32 bt data v = Ok (sgn_node data v).
Proof using Hg Hbt.
  intros Hl; pose proof (unit_pos g Hg 2) as Hu; change (unit_of g 2) with (pages_per_node g) in Hu; unfold PAGE_SIZE in Hbt.
  unfold sign_node, sgn_node, VDFS4_BNODE_FIRST_OFFSET; rewrite wr64_ok by lia; cbn [mbind run_bind].
  assert (lenZ (upd_at data 4 (le_bytes 8 v)) = lenZ data) as L by (apply lenZ_upd_at; rewrite ?lenZ_le_bytes; lia).
  rewrite slice_sub by lia; cbn [mbind run_bind]; rewrite wr32_ok by lia; done.
Qed.

Lemma sign_page_ok (magic data : list Z) (v : Z) :
  lenZ data = PAGE_SIZE -> sub data 0 4 = magic -> check_and_sign_page crc32 magic data v = Ok (sgn_page data v).
Proof.
  unfold PAGE_SIZE; intros Hl Hm; unfold check_and_sign_page, PAGE_SIZE, CRC32_SIZE, sgn_page; rewrite slice_sub by lia; cbn [mbind run_bind]; rewrite bool_decide_true by done; cbn [negb bug_on mbind run_bind].
  rewrite wr64_ok by lia; cbn [mbind run_bind].
  assert (lenZ (upd_at data 4 (le_bytes 8 v)) = lenZ data) as L by (apply lenZ_upd_at; rewrite ?lenZ_le_bytes; lia).
  rewrite slice_sub by lia; cbn [mbind run_bind]; rewrite wr32_ok by lia; done.
Qed.

(** ** A batch *)

(** A node that passes the check in front of its write. *)
Definition sound (c : cache) (ino n : Z) : Prop :=
  is_tree ino = true -> forall ok b, vdfs4_meta_sanity_check_bnode bt (node_bytes g c ino (pages_per_node g * n)) (pages_per_node g * n) = Ok (ok, b) -> ok = true.

Lemma sound_other (c c' : cache) (ino n : Z) :
  (forall i, i / unit_of g ino = n -> dirty_pages c' ino !! i = dirty_pages c ino !! i) -> sound c ino n -> sound c' ino n.
Proof using Hg. intros E Hs Ht ok b; rewrite (node_bytes_ext g Hg c c' ino n); [by apply Hs|]; intros i Hi; apply E; unfold unit_of; by rewrite Ht. Qed.

Lemma answer_calm (d : device) : answers d = [] -> answer d = ((0, O), d).
Proof. unfold answer; by intros ->. Qed.

(** What signing the chunks [N] of a file has done. *)
Record signed_ok (m : list Z) (c : cache) (v ino : Z) (N : list Z) (d : device) (ret : Z) (m' : list Z) (c' : cache) (d' : device) : Prop := {
  si_table : restamped m m';
  si_disk : disk d' = disk d /\ exsb_disk d' = exsb_disk d;
  si_eio : as_eio c' = as_eio c;
  si_dom : forall j i, is_Some (dirty_pages c' j !! i) <-> is_Some (dirty_pages c j !! i);
  si_ret : ret <= 0;
  si_data : ret = 0 -> forall j i, dirty_pages c' j !! i = if decide (j = ino /\ i / unit_of g ino ∈ N) then Some (signed c v ino i) else dirty_pages c j !! i;
  si_calm : answers d = [] -> (forall n, n ∈ N -> sound c ino n) -> ret = 0 /\ answers d' = []
}.

Lemma chunk_good_other (c c' : cache) (ino n : Z) :
  (forall i, i / unit_of g ino = n -> dirty_pages c' ino !! i = dirty_pages c ino !! i) -> chunk_good c ino n -> chunk_good c' ino n.
Proof using Hg Hbt.
  intros E [H1 H2 H3]; split.
  - intros i Hi; rewrite E by done; auto.
  - intros Ht; rewrite (node_bytes_ext g Hg c c' ino n); [auto|]; intros i Hi; apply E; unfold unit_of; by rewrite Ht.
  - intros Ht p Hp; rewrite E in Hp; [auto|]; unfold unit_of; rewrite Ht; apply Z.div_1_r.
Qed.

Lemma signed_other (c c' : cache) (v ino i : Z) :
  (forall k, k / unit_of g ino = i / unit_of g ino -> dirty_pages c' ino !! k = dirty_pages c ino !! k) -> signed c' v ino i = signed c v ino i.
Proof using Hg Hbt.
  intros E; unfold signed, unit_of in *; destruct (is_tree ino) eqn:Et; [|by rewrite E].
  rewrite (node_bytes_ext g Hg c c'); [done|]; intros k Hk; by apply E.
Qed.

(** One chunk, then the others. *)
Lemma signed_step (m m1 m2 : list Z) (c c1 c2 : cache) (v ino n ret : Z) (N : list Z) (d d1 d2 : device) :
  n ∉ N -> restamped m m1 -> disk d1 = disk d -> exsb_disk d1 = exsb_disk d -> (answers d = [] -> answers d1 = []) -> as_eio c1 = as_eio c ->
  (forall j i, dirty_pages c1 j !! i = if decide (j = ino /\ i / unit_of g ino = n) then Some (signed c v ino i) else dirty_pages c j !! i) ->
  (forall i, i / unit_of g ino = n -> is_Some (dirty_pages c ino !! i)) ->
  signed_ok m1 c1 v ino N d1 ret m2 c2 d2 -> signed_ok m c v ino (n :: N) d ret m2 c2 d2.
Proof using Hg Hbt.
  intros Hn Hm Hd He Han Hi Hc1 Hs [S1 [S2 S2'] S3 S4 S5 S6 S7]; split; [by eapply restamped_trans|split; congruence|congruence| |done| |].
  - intros j i; rewrite S4, Hc1; destruct (decide (j = ino /\ i / unit_of g ino = n)) as [[-> Ei]|]; [|done]; split; [by auto|eauto].
  - intros E0 j i; rewrite S6 by done; destruct (decide (j = ino /\ i / unit_of g ino ∈ N)) as [[-> Hin]|N1].
    + rewrite decide_True by set_solver; f_equal; apply signed_other; intros k Hk; rewrite Hc1, decide_False; [done|]; intros [_ Ek]; apply Hn; congruence.
    + rewrite Hc1; destruct (decide (j = ino /\ i / unit_of g ino = n)) as [[-> Ei]|N2]; [by rewrite decide_True by set_solver|rewrite decide_False by set_solver; done].
  - intros Ha Hso; apply S7; [auto|]; intros x Hx; apply (sound_other c c1); [|apply Hso; by right]; intros i Hix; rewrite Hc1, decide_False; [done|]; intros [_ Ei]; apply Hn; congruence.
Qed.

Lemma signed_nil (m : list Z) (c : cache) (v ino : Z) (d : device) : base_ok m -> signed_ok m c v ino [] d 0 m c d.
Proof. intros Hb; split; auto using restamped_refl; [lia|]; intros _ j i; rewrite decide_False by set_solver; done. Qed.

(** Signing that stops. *)
Lemma signed_fail (m : list Z) (c c' : cache) (v ino ret : Z) (N : list Z) (d d' : device) :
  base_ok m -> ret < 0 -> disk d' = disk d -> exsb_disk d' = exsb_disk d -> as_eio c' = as_eio c -> dirty_pages c' = dirty_pages c ->
  (answers d = [] -> (forall n, n ∈ N -> sound c ino n) -> False) -> signed_ok m c v ino N d ret m c' d'.
Proof. intros Hb Hr H1 H2 H3 H4 H5; split; auto using restamped_refl; [|lia|lia|]; [intros j i; by rewrite H4|intros Ha Hso; by destruct (H5 Ha Hso)]. Qed.

Lemma answer_disk (d : device) (a : Z * nat) (d' : device) : answer d = (a, d') -> disk d' = disk d /\ exsb_disk d' = exsb_disk d.
Proof. unfold answer; destruct (answers d); intros E; by injection E as _ <-. Qed.

Lemma sign_nodes_spec (fuel : nat) (N : list Z) (m : list Z) (c : cache) (ino mount sync : Z) (d : device) :
  is_tree ino = true -> sorted N -> base_ok m -> (forall n, n ∈ N -> is_chunk m (ino, n) /\ chunk_good c ino n) -> (length (pages_of (pages_per_node g) N) <= fuel)%nat ->
  exists ret m' c' d', sign_nodes g crc32 bt fuel m c ino (off m ino) mount sync (pages_of (pages_per_node g) N) d = Ok (ret, m', c', d')
  /\ signed_ok m c (generate_version mount sync) ino N d ret m' c' d'.
Proof using Hg Hbt.
  intros Ht Hs; pose proof (unit_pos g Hg 2) as Hu; change (unit_of g 2) with (pages_per_node g) in Hu; assert (unit_of g ino = pages_per_node g) as Eu by (unfold unit_of; by rewrite Ht).
  revert fuel m c d; induction Hs as [|n N Hs IH Hn]; intros fuel m c d Hb Hg' Hf.
  { eexists 0, m, c, d; split; [by destruct fuel|by apply signed_nil]. }
  destruct (Hg' n ltac:(by left)) as [Hc Hgd]; pose proof Hgd as [G1 G2 _]; rewrite Eu in G1; specialize (G2 Ht) as (ok & b & Eok).
  assert (n ∉ N) as Hnn by (intros Hin; rewrite Forall_forall in Hn; specialize (Hn n Hin); lia).
  set (u := pages_per_node g) in *; assert (pages_of u (n :: N) = seqZ (u * n) u ++ pages_of u N) as Ep by done.
  assert (exists tl, pages_of u (n :: N) = u * n :: tl) as [tl Etl] by (rewrite Ep, seqZ_cons by lia; eauto).
  assert (length (seqZ (u * n) u) = Z.to_nat u) as Lu by apply length_seqZ; rewrite Ep, length_app, Lu in Hf; destruct fuel as [|fuel]; [lia|].
  cbn [sign_nodes]; fold u; rewrite Etl, <- Etl, Ep.
  rewrite (proj2 (Z.ltb_ge _ _)) by (rewrite lenZ_app; unfold lenZ; rewrite Lu; lia).
  rewrite take_app_length', drop_app_length' by done; rewrite bool_decide_true by done; cbn [negb].
  unfold vdfs4_check_and_sign_dirty_bnodes; destruct (answer d) as [[e k] d1] eqn:Ea; destruct (answer_disk _ _ _ Ea) as [Ed1 Ed2].
  destruct (Z.eqb_spec e 0) as [->|Ne]; cbn [negb].
  2: { cbn [mbind run_bind]; change (- ENOMEM =? 0) with false; cbn [negb]; eexists _, _, _, _; split; [reflexivity|]; apply signed_fail; auto; [unfold ENOMEM; lia|]; intros Ha; rewrite (answer_calm d Ha) in Ea; congruence. }
  rewrite Eok; cbn [mbind run_bind]; destruct ok; cbn [negb].
  2: { cbn [mbind run_bind]; change (- EFAULT =? 0) with false; cbn [negb]; eexists _, _, _, _; split; [reflexivity|]; apply signed_fail; auto; [unfold EFAULT; lia|]; intros _ Hso; specialize (Hso n ltac:(by left) Ht _ _ Eok); done. }
  rewrite sign_node_ok by (by apply node_bytes_len); cbn [mbind run_bind Z.eqb negb].
  rewrite (table_index g Hg), Eu, Z.mul_comm, Z.div_mul by lia; rewrite (Z.mul_comm n u).
  destruct (stamp_spec m ino n mount sync Hb Hc) as (m1 & E1 & R1); rewrite E1; cbn [mbind run_bind]; pose proof R1 as [B1 S1 _ _ _].
  set (c1 := put_node g c ino (u * n) _); rewrite <- (proj1 (S1 ino (proj1 Hc))).
  assert (forall j i, dirty_pages c1 j !! i = if decide (j = ino /\ i / unit_of g ino = n) then Some (signed c (generate_version mount sync) ino i) else dirty_pages c j !! i) as Hc1.
  { intros j i; unfold c1, u; rewrite (put_node_lookup g Hg); destruct (decide (j = ino /\ i / pages_per_node g = n)) as [[-> Ei]|N1].
    - rewrite decide_True by (by rewrite Eu); unfold signed; rewrite Ht, Ei; done.
    - rewrite decide_False; [done|]; by rewrite Eu. }
  destruct (put_pages_rest (seqZ 0 u) c ino (u * n) (sgn_node (node_bytes g c ino (u * n)) (generate_version mount sync))) as [Pe _].
  destruct (IH fuel m1 c1 d1 B1) as (ret & m' & c' & d' & E & Hsg).
  { intros x Hx; destruct (Hg' x ltac:(by right)) as [Hcx Hgx]; split; [by apply (same_chunk m m1)|]; eapply chunk_good_other; [|exact Hgx].
    intros i Hi; rewrite Hc1, decide_False; [done|]; intros [_ Ei]; congruence. }
  { lia. }
  exists ret, m', c', d'; split; [exact E|]; eapply signed_step; eauto; [intros Ha; rewrite (answer_calm d Ha) in Ea; congruence|]; intros i Hi; rewrite Eu in Hi; destruct (G1 i Hi) as (p & -> & _); eauto.
Qed.

Lemma sign_bitmaps_spec (N : list Z) (m : list Z) (c : cache) (ino mount sync : Z) (d : device) :
  is_tree ino = false -> sorted N -> base_ok m -> (forall n, n ∈ N -> is_chunk m (ino, n) /\ chunk_good c ino n) ->
  exists m' c', sign_bitmaps crc32 m c ino (off m ino) mount sync (magic_of ino) (pages_of 1 N) = Ok (m', c')
  /\ signed_ok m c (generate_version mount sync) ino N d 0 m' c' d.
Proof using Hg Hbt.
  intros Ht Hs; assert (unit_of g ino = 1) as Eu by (unfold unit_of; by rewrite Ht).
  revert m c; induction Hs as [|n N Hs IH Hn]; intros m c Hb Hg'.
  { exists m, c; split; [done|by apply signed_nil]. }
  destruct (Hg' n ltac:(by left)) as [Hc Hgd]; pose proof Hgd as [G1 _ G3]; specialize (G3 Ht); rewrite Eu in G1.
  assert (n ∉ N) as Hnn by (intros Hin; rewrite Forall_forall in Hn; specialize (Hn n Hin); lia).
  assert (pages_of 1 (n :: N) = n :: pages_of 1 N) as -> by (unfold pages_of; cbn [flat_map]; rewrite Z.mul_1_l; done).
  destruct (G1 n (Z.div_1_r n)) as (p & Ep & Lp); cbn [sign_bitmaps]; rewrite Ep, sign_page_ok by auto; cbn [mbind run_bind].
  destruct (stamp_spec m ino n mount sync Hb Hc) as (m1 & E1 & R1); rewrite E1; cbn [mbind run_bind]; pose proof R1 as [B1 S1 _ _ _].
  set (c1 := put_page c ino n _); rewrite <- (proj1 (S1 ino (proj1 Hc))).
  assert (forall j i, dirty_pages c1 j !! i = if decide (j = ino /\ i / unit_of g ino = n) then Some (signed c (generate_version mount sync) ino i) else dirty_pages c j !! i) as Hc1.
  { intros j i; unfold c1, put_page, on_file; cbn [dirty_pages]; rewrite Eu, Z.div_1_r; destruct (Z.eqb_spec j ino) as [->|]; [|by rewrite decide_False by tauto].
    destruct (Z.eq_dec i n) as [->|]; [|by rewrite lookup_insert_ne, decide_False by (lia || tauto)]; rewrite lookup_insert_eq, decide_True by done; unfold signed; by rewrite Ht, Ep. }
  destruct (IH m1 c1 B1) as (m' & c' & E & Hsg).
  { intros x Hx; destruct (Hg' x ltac:(by right)) as [Hcx Hgx]; split; [by apply (same_chunk m m1)|]; eapply chunk_good_other; [|exact Hgx].
    intros i Hi; rewrite Hc1, decide_False; [done|]; intros [_ Ei]; congruence. }
  exists m', c'; split; [exact E|]; apply (signed_step m m1 m' c c1 c' _ ino n 0 N d d d); auto; intros i Hi; rewrite Eu in Hi; destruct (G1 i Hi) as (q & -> & _); eauto.
Qed.

Lemma sign_spec (N : list Z) (m : list Z) (c : cache) (ino mount sync : Z) (d : device) :
  special ino -> sorted N -> base_ok m -> (forall n, n ∈ N -> is_chunk m (ino, n) /\ chunk_good c ino n) ->
  exists ret m' c' d', vdfs4_sign_mapping_pages g crc32 bt m c ino mount sync (pages_of (unit_of g ino) N) d = Ok (ret, m', c', d')
  /\ signed_ok m c (generate_version mount sync) ino N d ret m' c' d'.
Proof using Hg Hbt.
  intros Hsp Hs Hb Hgd; unfold vdfs4_sign_mapping_pages; rewrite (get_table_ok m Hb) by done; cbn [mbind run_bind]; unfold unit_of; destruct (is_tree ino) eqn:Et.
  - apply sign_nodes_spec; auto.
  - assert ((ino =? VDFS4_FREE_INODE_BITMAP_INO) || (ino =? VDFS4_SPACE_BITMAP_INO) = true) as ->.
    { destruct Hsp; unfold is_tree, VDFS4_FSFILE, VDFS4_LSFILE, VDFS4_CAT_TREE_INO, VDFS4_EXTENTS_TREE_INO, VDFS4_XATTR_TREE_INO, VDFS4_FREE_INODE_BITMAP_INO, VDFS4_SPACE_BITMAP_INO in *; lia. }
    fold (magic_of ino); destruct (sign_bitmaps_spec N m c ino mount sync d Et Hs Hb Hgd) as (m' & c' & E & Hsg); rewrite E; cbn [mbind run_bind]; eauto 10.
Qed.

End Sign.
