(* ===== verification/MetaBio.v ===== *)
(** Requests: pages that follow each other on the volume share one, and what the
    device holds once the requests are done does not depend on how they were cut
    (vdfs4_meta_write of src/linux/fs/vdfs4/data.c). *)

From Stdlib Require Import ZArith Lia Bool List.
From stdpp Require Import base list gmap sorting.
From S2P Require Import Prelude Bytes Bitmap FindBit Buffer Rbtree FsmTree Fsm Bnode Snapshot SnapshotDisk SnapshotRep SnapshotCow MetaWrite MetaRep MetaSign.

Open Scope Z_scope.

(** ** The pages of a request *)

Lemma put_bio_snoc (l : list (list Z)) (p : list Z) (s : Z) (D : gmap Z (list Z)) :
  put_bio (l ++ [p]) s D = <[s + 8 * lenZ l := p]> (put_bio l s D).
Proof.
  revert s D; induction l as [|q l IH]; intros s D; cbn [put_bio app]; [change (lenZ []) with 0; rewrite Z.add_0_r; done|].
  rewrite IH, lenZ_cons; change SECTORS_PER_PAGE with 8; f_equal; lia.
Qed.

Lemma put_bio_out (l : list (list Z)) (s x : Z) (D : gmap Z (list Z)) :
  (forall i, 0 <= i < lenZ l -> x <> s + 8 * i) -> put_bio l s D !! x = D !! x.
Proof.
  revert s D; induction l as [|q l IH]; intros s D Hx; cbn [put_bio]; [done|]; change SECTORS_PER_PAGE with 8; rewrite lenZ_cons in Hx; pose proof (lenZ_nonneg l).
  rewrite IH, lookup_insert_ne; [done| |].
  - specialize (Hx 0 ltac:(lia)); lia.
  - intros i Hi; specialize (Hx (i + 1) ltac:(lia)); lia.
Qed.

(** The device once the request in hand is done. *)
Definition pend (b : option bio) (D : gmap Z (list Z)) : gmap Z (list Z) :=
  match b with Some r => put_bio (bi_pages r).*2 (8 * bi_block r) D | None => D end.

Definition failed (c : cache) : Prop := exists ino, special ino /\ as_eio c ino = true.

(** A device that answers every call, and no file with a failed write. *)
Definition calm (c : cache) (d : device) : Prop := answers d = [] /\ forall ino, as_eio c ino = false.

(** The request in hand is for pages that have been taken from the cache. *)
Definition bio_ok (W : gmap Z (list Z)) (b : option bio) (next : Z) : Prop :=
  match b with
  | None => True
  | Some r => bi_pages r <> [] /\ next = bi_block r + lenZ (bi_pages r) /\ Forall (fun p => special (fst p)) (bi_pages r)
              /\ forall i, 0 <= i < lenZ (bi_pages r) -> is_Some (W !! (bi_block r + i))
  end.

(** The pages [W], by their block, have been taken from the cache, on a device that
    was [D0] before: no other block has changed, and when no request has failed the
    pages are there once the request in hand is done. *)
Record writing (D0 : gmap Z (list Z)) (E0 : exsb * exsb) (W : gmap Z (list Z)) (c : cache) (b : option bio) (next : Z) (d : device) : Prop := {
  w_exsb : exsb_disk d = E0;
  w_out : forall s, (forall x, is_Some (W !! x) -> s <> 8 * x) -> disk d !! s = D0 !! s;
  w_bio : bio_ok W b next;
  w_in : failed c \/ forall x p, W !! x = Some p -> pend b (disk d) !! (8 * x) = Some p
}.

Section Bio.
Context `{Hba : BioAddLaws} (g : geom) (Hshift : block_size_shift g = 12).

Abbreviation s_count := (Z.shiftr (bdev_nr_bytes g) SECTOR_SIZE_SHIFT).

Lemma sector_of (b : Z) : Z.shiftl b (block_size_shift g - SECTOR_SIZE_SHIFT) = 8 * b.
Proof using Hshift. rewrite Hshift; change (12 - SECTOR_SIZE_SHIFT) with 3; rewrite Z.shiftl_mul_pow2 by lia; lia. Qed.

Lemma submit_spec (D0 : gmap Z (list Z)) (E0 : exsb * exsb) (W : gmap Z (list Z)) (c : cache) (r : bio) (next next' : Z) (d : device) :
  writing D0 E0 W c (Some r) next d ->
  let '(c', d') := submit_bio g r c d in
  writing D0 E0 W c' None next' d' /\ dirty_pages c' = dirty_pages c /\ (failed c -> failed c') /\ (calm c d -> calm c' d').
Proof using Hshift.
  intros [W1 W2 (B1 & B2 & B3 & B4) W4]; unfold submit_bio; destruct (answer d) as [[e k] d1] eqn:Ea; destruct (answer_disk _ _ _ Ea) as [Ed Ee]; rewrite sector_of, Ed.
  set (n := if e =? 0 then length (bi_pages r) else Nat.min k (length (bi_pages r))); set (D' := put_bio (take n (bi_pages r).*2) (8 * bi_block r) (disk d)).
  set (c' := if e =? 0 then c else _).
  assert (forall s, (forall x, is_Some (W !! x) -> s <> 8 * x) -> D' !! s = D0 !! s) as Hout.
  { intros s Hs; unfold D'; rewrite put_bio_out; [auto|]; intros i Hi.
    replace (8 * bi_block r + 8 * i) with (8 * (bi_block r + i)) by lia; apply Hs, B4; unfold lenZ in *; rewrite length_take, length_fmap in Hi; lia. }
  split; [split; [cbn; congruence|exact Hout|done|]|split; [unfold c'; by destruct (e =? 0)|]].
  - unfold c', D', n; destruct (Z.eqb_spec e 0) as [->|Ne]; cbn [pend disk].
    + destruct W4 as [W4|W4]; [by left|]; right; rewrite take_ge by (rewrite length_fmap; lia); exact W4.
    + left; destruct (bi_pages r) as [|[ino p] l] eqn:El; [done|]; exists ino; inversion B3; subst; split; [done|]; cbn; rewrite Z.eqb_refl; by rewrite orb_true_r.
  - split; [intros (ino & Hs & He); exists ino; split; [done|]; unfold c'; destruct (e =? 0); [done|]; cbn; by rewrite He|].
    intros [Ha Hc]; rewrite (answer_calm d Ha) in Ea; injection Ea as <- <- <-; done.
Qed.

Lemma new_request (block size : Z) :
  0 <= block -> 1 <= size -> 8 * (block + size) <= s_count -> s_count < 2 ^ 60 ->
  exists cap, allocate_new_request g block size = Some (Bio block cap []) /\ 1 <= cap.
Proof using Hshift.
  intros Hb Hs Hr H60; unfold allocate_new_request; rewrite sector_of; change SECTORS_PER_PAGE with 8; set (cap := if BIO_MAX_VECS <? size then BIO_MAX_VECS else size).
  assert (1 <= cap <= size) as Hc by (unfold cap, BIO_MAX_VECS; destruct (Z.ltb_spec 256 size); lia).
  rewrite (u64_small (8 * block)), u64_small by lia; rewrite !(proj2 (Z.ltb_ge _ _)) by lia; cbn [orb]; eauto; exists cap; split; [done|lia].
Qed.

Lemma add_page_spec (D0 : gmap Z (list Z)) (E0 : exsb * exsb) (W : gmap Z (list Z)) (c : cache) (b : option bio) (next block size ino : Z) (data : list Z) (d : device) :
  writing D0 E0 W c b next d -> special ino -> W !! block = None -> 0 <= block -> 1 <= size -> 8 * (block + size) <= s_count -> s_count < 2 ^ 60 ->
  exists r c' d', add_to_bio g 3 b next block size ino data c d = Ok (r, block, c', d')
  /\ writing D0 E0 (<[block := data]> W) c' (Some r) (block + 1) d' /\ dirty_pages c' = dirty_pages c /\ (failed c -> failed c') /\ (calm c d -> calm c' d').
Proof using Hba Hshift.
  intros Hw Hsp HW Hb Hs Hr H60; destruct (new_request block size Hb Hs Hr H60) as (cap & En & Hcap).
  assert (forall c1 d1, writing D0 E0 W c1 None next d1 -> exists r, add_to_bio g 2 (allocate_new_request g block size) block block size ino data c1 d1 = Ok (r, block, c1, d1)
    /\ writing D0 E0 (<[block := data]> W) c1 (Some r) (block + 1) d1) as Hnew.
  { intros c1 d1 [N1 N2 _ N4]; rewrite En; cbn [add_to_bio bi_vecs bi_pages bi_block]; rewrite Z.eqb_refl, bio_add_page_room by (change (lenZ []) with 0; lia); cbn [andb app].
    eexists; split; [reflexivity|]; split; [done| | |].
    - intros s Hx; apply N2; intros x Hx'; apply Hx; destruct (Z.eq_dec x block) as [->|]; [rewrite lookup_insert_eq; eauto|by rewrite lookup_insert_ne].
    - cbn; split; [done|]; split; [reflexivity|]; split; [apply Forall_singleton; done|]; intros i Hi; assert (i = 0) as -> by (unfold lenZ in Hi; cbn in Hi; lia); rewrite Z.add_0_r, lookup_insert_eq; eauto.
    - destruct N4 as [N4|N4]; [by left|right]; intros x p; cbn [pend bi_pages bi_block fmap list_fmap snd put_bio] in *; destruct (Z.eq_dec x block) as [->|].
      + rewrite lookup_insert_eq; intros [= ->]; by rewrite lookup_insert_eq.
      + rewrite lookup_insert_ne by done; intros Hx; rewrite lookup_insert_ne by lia; auto. }
  destruct b as [r|].
  - change (add_to_bio g 3 (Some r) next block size ino data c d) with
      (match (next =? block) && bio_add_page (bi_vecs r) (lenZ (bi_pages r)) with
       | true => Ok (Bio (bi_block r) (bi_vecs r) (bi_pages r ++ [(ino, data)]), next, c, d)
       | false => let '(c1, d1) := submit_bio g r c d in add_to_bio g 2 (allocate_new_request g block size) block block size ino data c1 d1 end).
    destruct ((next =? block) && bio_add_page (bi_vecs r) (lenZ (bi_pages r))) eqn:Et.
    + apply andb_true_iff in Et as [Enx%Z.eqb_eq _]; subst next; pose proof Hw as [W1 W2 (B1 & B2 & B3 & B4) W4]; eexists _, c, d; split; [reflexivity|]; split; [|done].
      split; [done| | |].
      * intros s Hx; apply W2; intros x Hx'; apply Hx; destruct (Z.eq_dec x block) as [->|]; [rewrite lookup_insert_eq; eauto|by rewrite lookup_insert_ne].
      * cbn; split; [by destruct (bi_pages r)|]; rewrite lenZ_app; change (lenZ [(ino, data)]) with 1; split; [lia|]; split; [apply Forall_app; split; [done|apply Forall_singleton; done]|].
        intros i Hi; destruct (Z.eq_dec (bi_block r + i) block) as [->|]; [rewrite lookup_insert_eq; eauto|rewrite lookup_insert_ne by done; apply B4; lia].
      * destruct W4 as [W4|W4]; [by left|right]; intros x p; cbn [pend bi_pages bi_block] in *; rewrite fmap_app; cbn [fmap list_fmap snd]; rewrite put_bio_snoc.
        replace (8 * bi_block r + 8 * lenZ (bi_pages r).*2) with (8 * block) by (unfold lenZ in *; rewrite length_fmap; lia); destruct (Z.eq_dec x block) as [->|].
        -- rewrite lookup_insert_eq; intros [= ->]; by rewrite lookup_insert_eq.
        -- rewrite lookup_insert_ne by done; intros Hx; rewrite lookup_insert_ne by lia; auto.
    + pose proof (submit_spec D0 E0 W c r next next d Hw) as Hsub; destruct (submit_bio g r c d) as [c1 d1]; destruct Hsub as (H1 & H2 & H3 & H4).
      destruct (Hnew c1 d1 H1) as (r' & E & Hw'); exists r', c1, d1; split; [exact E|auto].
  - destruct (Hnew c d Hw) as (r' & E & Hw'); exists r', c, d; split; [exact E|auto].
Qed.

(** ** A batch of pages *)

Definition take_pages (blk : Z -> Z) (F : Z -> list Z) (pages : list Z) (W : gmap Z (list Z)) : gmap Z (list Z) :=
  foldl (fun W i => <[blk i := F i]> W) W pages.

Context {area : ZeroArea} {Hfind : FindBit}.

Lemma write_batch_spec (D0 : gmap Z (list Z)) (E0 : exsb * exsb) (pages : list Z) (ino : Z) (m : list Z) (e : exsb) (blk : Z -> Z) (F : Z -> list Z) :
  special ino -> log_blocks_in_page g = 0 -> s_count < 2 ^ 60 -> sorted pages ->
  (forall i, i ∈ pages -> get_block_meta_wrapper g m e ino i = Ok (Val (blk i)) /\ 0 <= blk i /\ 8 * (blk i + lenZ pages) <= s_count) ->
  (forall i j, i ∈ pages -> j ∈ pages -> blk i = blk j -> i = j) ->
  forall W c b next d, writing D0 E0 W c b next d -> (forall i, i ∈ pages -> dirty_pages c ino !! i = Some (F i) /\ W !! blk i = None) ->
  exists c' b' next' d', write_batch g pages ino m e c b next d = Ok (c', b', next', d')
  /\ writing D0 E0 (take_pages blk F pages W) c' b' next' d' /\ (failed c -> failed c') /\ (calm c d -> calm c' d')
  /\ forall j i, dirty_pages c' j !! i = if decide (j = ino /\ i ∈ pages) then None else dirty_pages c j !! i.
Proof using Hba Hshift.
  intros Hsp Hlp H60 Hs; induction Hs as [|a pages Hs IH Ha]; intros Hblk Hinj W c b next d Hw Hd; cbn [write_batch].
  { exists c, b, next, d; split; [done|]; split; [done|]; split; [done|]; split; [done|]; intros j i; rewrite decide_False by set_solver; done. }
  destruct (Hblk a ltac:(by left)) as (Eb & Hb0 & Hr); rewrite lenZ_cons in *; pose proof (lenZ_nonneg pages) as Hlp0; rewrite Eb; cbn [mbind run_bind]; destruct (Hd a ltac:(by left)) as [Ea Wa]; rewrite Ea.
  set (c1 := clear_page_dirty c ino a); assert (writing D0 E0 W c1 b next d) as Hw1 by (destruct Hw as [? ? ? W4]; split; auto).
  destruct (add_page_spec D0 E0 W c1 b next (blk a) (1 + lenZ pages) ino (F a) d Hw1 Hsp Wa Hb0 ltac:(lia) Hr H60) as (r & c2 & d2 & E2 & Hw2 & Hdp & Hfl & Hcl); rewrite E2; cbn [mbind run_bind].
  rewrite Hlp; change (Z.shiftl 1 0) with 1; rewrite u64_small by lia.
  assert (forall j i, dirty_pages c2 j !! i = if decide (j = ino /\ i = a) then None else dirty_pages c j !! i) as Hc2.
  { intros j i; rewrite Hdp; unfold c1, clear_page_dirty, on_file; cbn [dirty_pages]; destruct (Z.eqb_spec j ino) as [->|]; [|by rewrite decide_False by tauto].
    destruct (Z.eq_dec i a) as [->|]; [by rewrite lookup_delete_eq, decide_True by done|by rewrite lookup_delete_ne, decide_False by (lia || tauto)]. }
  assert (a ∉ pages) as Hna by (intros Hin; rewrite Forall_forall in Ha; specialize (Ha a Hin); lia).
  destruct (IH ltac:(intros i Hi; destruct (Hblk i ltac:(by right)) as (? & ? & ?); split; [done|lia]) ltac:(intros i j Hi Hj; apply Hinj; by right)
    (<[blk a := F a]> W) c2 (Some r) (blk a + 1) d2 Hw2) as (c' & b' & next' & d' & E & Hw' & Hf' & Hcm' & Hc').
  { intros i Hi; destruct (Hd i ltac:(by right)) as [Ei Wi]; rewrite Hc2, decide_False by (intros [_ ->]; done); split; [done|].
    rewrite lookup_insert_ne; [done|]; intros Eq; apply Hna; rewrite (Hinj a i) by (done || (by left) || (by right)); done. }
  exists c', b', next', d'; split; [exact E|]; split; [exact Hw'|]; split; [intros Hf; apply Hf', Hfl; exact Hf|]; split; [intros Hf; apply Hcm', Hcl; exact Hf|].
  intros j i; rewrite Hc'; destruct (decide (j = ino /\ i ∈ pages)) as [[-> Hin]|N]; [by rewrite decide_True by (split; [done|by right])|]; rewrite Hc2.
  destruct (decide (j = ino /\ i = a)) as [[-> ->]|N2]; [by rewrite decide_True by (split; [done|by left])|].
  rewrite decide_False; [done|]; intros [-> [->|Hin]%elem_of_cons]; [by apply N2|by apply N].
Qed.

End Bio.
