(* ===== verification/MetaLoop.v ===== *)
(** The write of all dirty pages (get_pages_from_mapping and vdfs4_meta_write of
    src/linux/fs/vdfs4/data.c): every file in turn, batch by batch. *)

From Stdlib Require Import ZArith Lia Bool List.
From stdpp Require Import base list gmap sorting.
From S2P Require Import Prelude Bytes Bitmap FindBit Buffer Rbtree FsmTree Fsm Bnode Snapshot SnapshotDisk SnapshotRep SnapshotCow SnapshotTable MetaWrite MetaRep MetaFiles MetaSign MetaBio.

Open Scope Z_scope.

Lemma special_range (ino : Z) : special ino <-> 2 <= ino <= 6.
Proof. unfold special, VDFS4_FSFILE, VDFS4_LSFILE, VDFS4_CAT_TREE_INO, VDFS4_XATTR_TREE_INO; lia. Qed.

Lemma wait_all (l : list Z) (ret ret' : Z) (c c' : cache) :
  foldl wait_mapping (ret, c) l = (ret', c') ->
  (ret <= 0 -> ret' <= 0) /\ dirty_pages c' = dirty_pages c
  /\ (ret' = 0 -> ret = 0 /\ forall ino, ino ∈ l -> as_eio c ino = false)
  /\ (ret = 0 -> (forall ino, ino ∈ l -> as_eio c ino = false /\ dirty_pages c ino = ∅) -> ret' = 0).
Proof.
  revert ret c; induction l as [|a l IH]; intros ret c; cbn [foldl].
  { intros [= <- <-]; split; [done|]; split; [done|]; split; [|done]; intros ->; split; [done|]; intros ino Hi; set_solver. }
  unfold wait_mapping at 2; destruct (as_eio c a) eqn:Ea; intros E; apply IH in E as (H1 & H2 & H3 & H4); cbn [dirty_pages] in *.
  - split; [intros _; apply H1; destruct (bool_decide _); unfold EIO, EFAULT; lia|]; split; [done|]; split.
    + intros H0; apply H3 in H0 as [H0 _]; exfalso; revert H0; destruct (bool_decide _); unfold EIO, EFAULT; lia.
    + intros _ Hall; destruct (Hall a ltac:(by left)) as [Hf _]; congruence.
  - split; [intros Hr; apply H1; destruct (bool_decide _); unfold EFAULT; lia|]; split; [done|]; split.
    + intros H0; apply H3 in H0 as [H0 H0']; split; [revert H0; destruct (bool_decide _); [done|unfold EFAULT; lia]|]; intros ino [->|Hi]%elem_of_cons; auto.
    + intros -> Hall; destruct (Hall a ltac:(by left)) as [_ He]; apply H4; [by rewrite He, bool_decide_true by done|]; intros ino Hi; apply Hall; by right.
Qed.

Section Loop.
Context {area : ZeroArea} {Hfind : FindBit} `{Hpc : PageCacheLaws} `{Hba : BioAddLaws} (g : geom) (Hg : geom_ok g) (crc32 : list Z -> Z) (bt : btree).
Context (Hbt : node_size_bytes bt = PAGE_SIZE * pages_per_node g) (Hshift : block_size_shift g = 12) (Hlp : log_blocks_in_page g = 0).
Context (H60 : Z.shiftr (bdev_nr_bytes g) SECTOR_SIZE_SHIFT < 2 ^ 60) (Hpv : pages_per_node g <= PAGEVEC_SIZE).
Context (mount sync : Z).

#[local] Abbreviation v := (generate_version mount sync).
#[local] Abbreviation unit := (unit_of g).

(** The number of chunks of a batch. *)
Definition per_batch (ino : Z) : nat := Z.to_nat (PAGEVEC_SIZE / unit ino).

Lemma batch_units (ino : Z) : batch_size g ino = unit ino * Z.of_nat (per_batch ino) /\ (1 <= per_batch ino)%nat /\ batch_size g ino <= PAGEVEC_SIZE.
Proof using Hg Hpv Hlp Hshift.
  pose proof (unit_pos g Hg ino) as Hu; pose proof (unit_pos g Hg 2) as Hu2; change (unit_of g 2) with (pages_per_node g) in Hu2.
  assert (unit ino <= PAGEVEC_SIZE) as Hle by (unfold unit_of in *; destruct (is_tree ino); lia).
  assert (1 <= PAGEVEC_SIZE / unit ino) as H1 by (apply Z.div_le_lower_bound; lia).
  assert (batch_size g ino = unit ino * (PAGEVEC_SIZE / unit ino)) as E.
  { unfold batch_size, unit_of; destruct (is_tree ino); [|by rewrite Z.div_1_r, Z.mul_1_l].
    rewrite Hlp, Z.shiftl_1_l, node_pages, Hshift; unfold PAGE_SHIFT; replace (log_blocks_in_leb g + 12 - 12) with (0 + log_blocks_in_leb g) by lia.
    destruct Hg as [[G1 _] _ _]; pose proof (Z.pow_pos_nonneg 2 (0 + log_blocks_in_leb g) ltac:(lia) ltac:(lia)); pose proof (Z.div_mod PAGEVEC_SIZE (2 ^ (0 + log_blocks_in_leb g)) ltac:(lia)); lia. }
  unfold per_batch; rewrite Z2Nat.id by lia; split; [done|]; split; [lia|]; rewrite E; pose proof (Z.mul_div_le PAGEVEC_SIZE (unit ino)); lia.
Qed.

Lemma sign_none (m : list Z) (c : cache) (ino : Z) (d : device) :
  base_ok m -> special ino -> vdfs4_sign_mapping_pages g crc32 bt m c ino mount sync [] d = Ok (0, m, c, d).
Proof.
  intros Hb Hs; unfold vdfs4_sign_mapping_pages; rewrite (get_table_ok m Hb) by done; cbn [mbind run_bind length]; destruct (is_tree ino) eqn:Et; [done|].
  assert ((ino =? VDFS4_FREE_INODE_BITMAP_INO) || (ino =? VDFS4_SPACE_BITMAP_INO) = true) as ->; [|done].
  rewrite special_range in Hs; unfold is_tree, VDFS4_CAT_TREE_INO, VDFS4_EXTENTS_TREE_INO, VDFS4_XATTR_TREE_INO, VDFS4_FREE_INODE_BITMAP_INO, VDFS4_SPACE_BITMAP_INO in Et |- *; clear -Et Hs; lia.
Qed.

(** ** The next batch *)

(** What remains to be written from a file and an index on. *)
Record todo (m : list Z) (c : cache) (N : Z -> list Z) (cur : option Z) (index : Z) : Prop := {
  td_base : base_ok m;
  td_chunks : forall ino, special ino -> dirty_chunks g c ino (N ino);
  td_good : forall ino n, special ino -> n ∈ N ino -> is_chunk m (ino, n) /\ chunk_good g bt c ino n;
  td_pos : match cur with
           | None => True
           | Some ino => special ino /\ (forall j, special j -> j < ino -> N j = []) /\ forall i, is_Some (dirty_pages c ino !! i) -> index <= i
           end
}.

Lemma dirty_nonneg (m : list Z) (c : cache) (N : Z -> list Z) (cur : option Z) (index ino i : Z) :
  todo m c N cur index -> special ino -> is_Some (dirty_pages c ino !! i) -> 0 <= i.
Proof using Hg.
  intros [_ Hch Hgd _] Hs Hi; destruct (dc_pages _ _ _ _ (Hch _ Hs) i) as [Hd1 _]; specialize (Hd1 Hi); destruct (Hgd _ _ Hs Hd1) as [[_ [Hcn _]] _]; cbn [snd] in Hcn.
  pose proof (unit_pos g Hg ino) as Hu; revert Hcn Hu; generalize (unit ino); clear; intros u Hq Hu; pose proof (Z.div_mod i u ltac:(lia)); pose proof (Z.mod_pos_bound i u ltac:(lia)); nia.
Qed.

Definition turns (cur : option Z) : Z := match cur with None => 6 | Some ino => 7 - ino end.

(** A batch that has been taken and signed. *)
Record batch (m : list Z) (c : cache) (N : Z -> list Z) (d : device) (ino : Z) (pages : list Z) (index' : Z) (m' : list Z) (c' : cache) (d' : device) : Prop := {
  ba_special : special ino;
  ba_pages : pages = pages_of (unit ino) (take (per_batch ino) (N ino));
  ba_some : pages <> [];
  ba_before : forall j, special j -> j < ino -> N j = [];
  ba_index : forall i, i ∈ pages_of (unit ino) (drop (per_batch ino) (N ino)) -> index' <= i;
  ba_signed : signed_ok g crc32 bt m c v ino (take (per_batch ino) (N ino)) d 0 m' c' d'
}.

Lemma get_pages_spec (fuel : nat) (cur : option Z) (index : Z) (m : list Z) (c : cache) (N : Z -> list Z) (d : device) :
  todo m c N cur index -> turns cur <= Z.of_nat fuel ->
  exists ret pages cur' index' m' c' d', get_pages_from_mapping g crc32 bt fuel cur index m c mount sync d = Ok (ret, pages, cur', index', m', c', d')
  /\ ((ret < 0 /\ exists ino N1, special ino /\ (forall n, n ∈ N1 -> n ∈ N ino) /\ signed_ok g crc32 bt m c v ino N1 d ret m' c' d')
      \/ (ret = 0 /\ (forall j, special j -> N j = []) /\ m' = m /\ c' = c /\ d' = d)
      \/ (exists ino, ret = lenZ pages /\ cur' = Some ino /\ batch m c N d ino pages index' m' c' d')).
Proof using Hg Hbt Hpc Hpv Hlp Hshift H60.
  revert cur index; induction fuel as [|fuel IH]; intros cur index Ht Hf.
  { exfalso; destruct Ht as [_ _ _ Hp]; destruct cur as [ino|]; cbn [turns] in Hf; [destruct Hp as [Hs _]; rewrite special_range in Hs; lia|lia]. }
  cbn [get_pages_from_mapping]; pose proof Ht as [Hb Hch Hgd Hp]; destruct cur as [ino|].
  - destruct Hp as (Hs & Hbef & Hix); destruct (batch_units ino) as (Eb & Hk & _).
    destruct (batch_spec g Hg c ino index (N ino) (per_batch ino) (Hch ino Hs) Hix Eb Hk) as (i' & Ef & Hi'); rewrite Ef; cbn [mbind run_bind].
    assert (sorted (take (per_batch ino) (N ino))) as HsN.
    { pose proof (dc_sorted _ _ _ _ (Hch ino Hs)) as HsN; rewrite <- (take_drop (per_batch ino) (N ino)) in HsN; by apply sorted_app_iff in HsN as (? & _). }
    destruct (N ino) as [|n0 N0] eqn:EN.
    + rewrite take_nil; change (pages_of (unit ino) []) with (@nil Z); rewrite sign_none by done; cbn [mbind run_bind Z.eqb negb].
      assert (todo m c N (Some (ino + 1)) 0 \/ ino = 6) as Hnext.
      { destruct (Z.eq_dec ino 6) as [->|N6]; [by right|left]; split; auto; rewrite special_range in Hs; split; [rewrite special_range; lia|].
        assert (forall j, special j -> j < ino + 1 -> N j = []) as Hb' by (intros j Hj Hlt; destruct (Z.eq_dec j ino) as [->|]; [done|apply Hbef; [done|lia]]).
        split; [done|]; intros i Hi; eapply (dirty_nonneg m c N (Some ino) index (ino + 1)); eauto; rewrite special_range; lia. }
      rewrite special_range in Hs.
      assert (vdfs4_next_mapping (Some ino) = if ino =? 6 then None else Some (ino + 1)) as ->.
      { assert (ino = 2 \/ ino = 3 \/ ino = 4 \/ ino = 5 \/ ino = 6) as [->|[->|[->|[->| ->]]]] by lia; done. }
      destruct Hnext as [Hnext| ->].
      * rewrite (proj2 (Z.eqb_neq _ _)) by (destruct Hnext as [_ _ _ (Hs1 & _)]; rewrite special_range in Hs1; lia).
        apply IH; [exact Hnext|]; cbn [turns] in *; lia.
      * cbn [Z.eqb Pos.eqb]; eexists _, _, _, _, _, _, _; split; [reflexivity|]; right; left; split; [done|]; split; [|done].
        intros j Hj; destruct (Z.eq_dec j 6) as [->|]; [done|]; apply Hbef; [done|]; rewrite special_range in Hj; lia.
    + set (N1 := take (per_batch ino) (n0 :: N0)) in *.
      destruct (sign_spec g Hg crc32 bt Hbt N1 m c ino mount sync d Hs HsN Hb) as (ret & m' & c' & d' & Es & Hsg).
      { intros n Hn; apply (Hgd ino n Hs); rewrite EN; unfold N1 in Hn; rewrite <- (take_drop (per_batch ino) (n0 :: N0)); apply elem_of_app; by left. }
      rewrite Es; cbn [mbind run_bind]; destruct (Z.eqb_spec ret 0) as [->|Nr]; cbn [negb].
      2: { eexists _, _, _, _, _, _, _; split; [reflexivity|]; left; pose proof (si_ret _ _ _ _ _ _ _ _ _ _ _ _ _ Hsg); split; [lia|]; exists ino, N1; split; [done|]; split; [|done]; intros n Hn; rewrite EN; unfold N1 in Hn; rewrite <- (take_drop (per_batch ino) (n0 :: N0)); apply elem_of_app; by left. }
      assert (pages_of (unit ino) N1 <> []) as Hne.
      { pose proof (unit_pos g Hg ino) as Hu; assert (length (pages_of (unit ino) N1) <> O) as Hl; [|intros E; by rewrite E in Hl].
        rewrite pages_length by done; unfold N1; destruct (per_batch ino); [lia|]; cbn [take length]; nia. }
      destruct (pages_of (unit ino) N1) as [|p0 ps] eqn:Epp; [done|]; rewrite <- Epp in *; eexists _, _, _, _, _, _, _; split; [reflexivity|]; right; right.
      exists ino; split; [done|]; split; [done|]; split; auto; rewrite EN; fold N1; auto.
  - cbn [mbind run_bind Z.eqb negb vdfs4_next_mapping]; apply IH; [|cbn [turns] in *; unfold VDFS4_CAT_TREE_INO; lia].
    split; auto; split; [rewrite special_range; unfold VDFS4_CAT_TREE_INO; lia|]; split; [intros j Hj Hlt; rewrite special_range in Hj; unfold VDFS4_CAT_TREE_INO in Hlt; lia|].
    intros i Hi; eapply (dirty_nonneg m c N None index); eauto; rewrite special_range; unfold VDFS4_CAT_TREE_INO; lia.
Qed.

(** ** All batches *)

Lemma writing_same (D0 : gmap Z (list Z)) (E0 : exsb * exsb) (W : gmap Z (list Z)) (c c' : cache) (b : option bio) (next : Z) (d d' : device) :
  as_eio c' = as_eio c -> disk d' = disk d -> exsb_disk d' = exsb_disk d -> writing D0 E0 W c b next d -> writing D0 E0 W c' b next d'.
Proof. clear; intros E1 E2 E3 [W1 W2 W3 W4]; split; rewrite ?E2, ?E3; auto; unfold failed; rewrite E1; done. Qed.

Section Write.
Context (m0 : list Z) (c0 : cache) (e : exsb) (N0 : Z -> list Z) (blk : Z -> Z -> Z) (D0 : gmap Z (list Z)) (E0 : exsb * exsb).

(** A page that is dirty at the start. *)
Definition dirty0 (ino i : Z) : Prop := special ino /\ is_Some (dirty_pages c0 ino !! i).

Context (Hblk : forall m ino i, restamped m0 m -> dirty0 ino i ->
  get_block_meta_wrapper g m e ino i = Ok (Val (blk ino i)) /\ 0 <= blk ino i /\ 8 * (blk ino i + PAGEVEC_SIZE) <= Z.shiftr (bdev_nr_bytes g) SECTOR_SIZE_SHIFT).
Context (Hinj : forall ino i ino' i', dirty0 ino i -> dirty0 ino' i' -> blk ino i = blk ino' i' -> ino = ino' /\ i = i').
Context (Htodo : todo m0 c0 N0 None 0).

(** The loop between two batches. *)
Record between (m : list Z) (c : cache) (N : Z -> list Z) (cur : option Z) (index : Z) (W : gmap Z (list Z)) (b : option bio) (next : Z) (d : device) : Prop := {
  be_table : restamped m0 m;
  be_todo : todo m c N cur index;
  be_same : forall ino i, special ino -> is_Some (dirty_pages c ino !! i) -> dirty_pages c ino !! i = dirty_pages c0 ino !! i;
  be_sub : forall ino n, special ino -> n ∈ N ino -> n ∈ N0 ino;
  be_writing : writing D0 E0 W c b next d;
  be_W : forall x p, W !! x = Some p <-> exists ino i, dirty0 ino i /\ dirty_pages c ino !! i = None /\ x = blk ino i /\ p = signed g crc32 bt c0 v ino i
}.

Lemma take_pages_lookup (ino : Z) (F : Z -> list Z) (pages : list Z) (W : gmap Z (list Z)) (x : Z) (p : list Z) :
  (forall i, i ∈ pages -> W !! blk ino i = None) -> (forall i j, i ∈ pages -> j ∈ pages -> blk ino i = blk ino j -> i = j) -> sorted pages ->
  take_pages (blk ino) F pages W !! x = Some p <-> W !! x = Some p \/ exists i, i ∈ pages /\ x = blk ino i /\ p = F i.
Proof.
  clear; intros HW Hi Hs; revert W HW Hi; induction Hs as [|a l Hs IH Ha]; intros W HW Hi; unfold take_pages; cbn [foldl].
  { split; [by left|]; intros [H|(i & H & _)]; [done|set_solver]. }
  assert (a ∉ l) as Hna by (intros Hin; rewrite Forall_forall in Ha; specialize (Ha a Hin); lia).
  change (foldl (fun W i => <[blk ino i := F i]> W) (<[blk ino a := F a]> W) l) with (take_pages (blk ino) F l (<[blk ino a := F a]> W)); rewrite IH.
  - destruct (Z.eq_dec x (blk ino a)) as [->|Nx].
    + rewrite lookup_insert_eq; split.
      * intros [[= <-]|(i & H1 & H2 & H3)]; right; [exists a|exists i]; split; [by left|done|by right|done].
      * intros [H|(i & [->|H1]%elem_of_cons & H2 & ->)]; [rewrite HW in H by (by left); done|by left|right; eauto].
    + rewrite lookup_insert_ne by done; split.
      * intros [H|(i & H1 & H2)]; [by left|right; exists i; split; [by right|done]].
      * intros [H|(i & [->|H1]%elem_of_cons & H2 & H3)]; [by left|done|right; eauto].
  - intros i Hin; rewrite lookup_insert_ne; [apply HW; by right|]; intros E; apply Hna; rewrite (Hi a i); [done|by left|by right|done].
  - intros i j H1 H2; apply Hi; by right.
Qed.

(** One batch written. *)
Lemma batch_step (m m' : list Z) (c c' : cache) (N : Z -> list Z) (cur : option Z) (index index' ino : Z) (W : gmap Z (list Z)) (b : option bio) (next : Z) (d d' : device) (pages : list Z) :
  between m c N cur index W b next d -> batch m c N d ino pages index' m' c' d' ->
  exists c2 b2 next2 d2 N2 W2, write_batch g pages ino m' e c' b next d' = Ok (c2, b2, next2, d2) /\ between m' c2 N2 (Some ino) index' W2 b2 next2 d2
  /\ (count_dirty c2 < count_dirty c)%nat /\ (calm c d -> (forall n, n ∈ N ino -> sound g bt c ino n) -> calm c2 d2).
Proof using Hg Hba Hshift Hlp H60 Hblk Hinj Hpv Hbt.
  intros [T1 T2 T3 T4 T5 T6] [Hs Ep Hne Hbef Hix [S1 [S2 S2'] S3 S4 _ S6 S7]]; specialize (S6 eq_refl); pose proof T2 as [Hb Hch Hgd _]; pose proof (unit_pos g Hg ino) as Hu.
  set (N1 := take (per_batch ino) (N ino)) in *; set (Nr := drop (per_batch ino) (N ino)) in *.
  pose proof (dc_sorted _ _ _ _ (Hch ino Hs)) as HsN; rewrite <- (take_drop (per_batch ino) (N ino)) in HsN; fold N1 Nr in HsN; apply sorted_app_iff in HsN as (Hs1 & Hsr & Hlt).
  assert (forall n, n ∈ N ino <-> n ∈ N1 \/ n ∈ Nr) as HN by (intros n; rewrite <- (take_drop (per_batch ino) (N ino)); apply elem_of_app).
  assert (sorted pages) as Hsp by (rewrite Ep; by apply pages_sorted); assert (forall i, i ∈ pages <-> i / unit ino ∈ N1) as Hpg by (intros i; rewrite Ep; by apply pages_elem).
  assert (forall i, i ∈ pages -> is_Some (dirty_pages c ino !! i)) as Hpd by (intros i Hi; apply (dc_pages _ _ _ _ (Hch ino Hs)), HN; left; by apply Hpg).
  assert (forall i, i ∈ pages -> dirty0 ino i) as Hp0 by (intros i Hi; split; [done|]; destruct (Hpd i Hi) as [p Hp]; rewrite <- T3 by eauto; eauto).
  pose proof (restamped_trans _ _ _ T1 S1) as T1'; pose proof (writing_same _ _ _ _ c' _ _ _ d' S3 S2 S2' T5) as Hw.
  assert (lenZ pages <= PAGEVEC_SIZE) as Hlen.
  { destruct (batch_units ino) as (Eb & _ & Hb1); unfold lenZ; rewrite Ep, pages_length by done; unfold N1; pose proof (length_take_le (N ino) (per_batch ino)); rewrite length_take; nia. }
  assert (forall i, i ∈ pages -> signed g crc32 bt c v ino i = signed g crc32 bt c0 v ino i) as Hsig.
  { intros i Hi; apply (signed_other g Hg crc32 bt Hbt c0 c); intros k Hk; apply T3; [done|]; apply (dc_pages _ _ _ _ (Hch ino Hs)), HN; left; rewrite Hk; by apply Hpg. }
  destruct (write_batch_spec g Hshift D0 E0 pages ino m' e (blk ino) (signed g crc32 bt c0 v ino) Hs Hlp H60 Hsp) with (W := W) (c := c') (b := b) (next := next) (d := d')
    as (c2 & b2 & next2 & d2 & E2 & Hw2 & _ & Hcm2 & Hc2); [| |exact Hw| |].
  { intros i Hi; destruct (Hblk m' ino i T1' (Hp0 i Hi)) as (H1 & H2 & H3); split; [done|]; split; [done|lia]. }
  { intros i j Hi Hj E; by apply (Hinj ino i ino j (Hp0 i Hi) (Hp0 j Hj) E). }
  { intros i Hi; rewrite S6, decide_True by (split; [done|]; by apply Hpg); rewrite Hsig by done; split; [done|].
    destruct (W !! blk ino i) as [p|] eqn:EW; [|done]; apply T6 in EW as (ino' & i' & D1 & D2 & D3 & _); apply (Hinj ino i ino' i' (Hp0 i Hi) D1) in D3 as [<- <-].
    destruct (Hpd i Hi) as [q Hq]; congruence. }
  assert (forall j i, dirty_pages c2 j !! i = if decide (j = ino /\ i ∈ pages) then None else dirty_pages c j !! i) as Hc.
  { intros j i; rewrite Hc2; destruct (decide (j = ino /\ i ∈ pages)) as [|Nj]; [done|]; rewrite S6, decide_False; [done|]; intros [-> Hin]; apply Nj; split; [done|by apply Hpg]. }
  exists c2, b2, next2, d2, (fun j => if decide (j = ino) then Nr else N j), (take_pages (blk ino) (signed g crc32 bt c0 v ino) pages W); split; [exact E2|].
  assert (forall n, n ∈ N1 -> n ∈ Nr -> False) as Hdis by (intros n H1 H2; specialize (Hlt n n H1 H2); lia).
  assert (forall i, is_Some (dirty_pages c2 ino !! i) <-> i / unit ino ∈ Nr) as Hrest.
  { intros i; rewrite Hc; destruct (decide (ino = ino /\ i ∈ pages)) as [[_ Hin]|Nin]; [split; [by intros [? ?]|intros Hr; exfalso; eapply Hdis; [|exact Hr]; by apply Hpg]|].
    rewrite (dc_pages _ _ _ _ (Hch ino Hs)), HN; split; [intros [Hx|Hx]; [exfalso; apply Nin; split; [done|by apply Hpg]|done]|by right]. }
  split; [split; [done| | | | |]|split].
  - split.
    + apply (rs_base _ _ S1).
    + intros j Hj; destruct (decide (j = ino)) as [->|Nj]; [by split|]; destruct (Hch j Hj) as [J1 J2]; split; [done|]; intros i; rewrite Hc, decide_False by tauto; apply J2.
    + intros j n Hj Hn; assert (n ∈ N j) as Hn' by (destruct (decide (j = ino)) as [->|]; [apply HN; by right|done]); destruct (Hgd j n Hj Hn') as [G1 G2].
      split; [apply (same_chunk m m'); [apply S1|done]|]; eapply (chunk_good_other g Hg bt Hbt c); [|exact G2]; intros i Hi; rewrite Hc, decide_False; [done|]; intros [-> Hin].
      rewrite decide_True in Hn by done; apply (Hdis n); [|done]; rewrite <- Hi; by apply Hpg.
    + split; [done|]; split; [intros j Hj Hlt'; rewrite decide_False by lia; auto|]; intros i Hi; apply Hix, pages_elem; [done|]; by apply Hrest.
  - intros j i Hj Hi; rewrite Hc in Hi |- *; destruct (decide (j = ino /\ i ∈ pages)); [by destruct Hi|by apply T3].
  - intros j n Hj Hn; apply T4; [done|]; destruct (decide (j = ino)) as [->|]; [apply HN; by right|done].
  - done.
  - intros x p; rewrite take_pages_lookup; [|intros i Hi|intros i j Hi Hj E; by apply (Hinj ino i ino j (Hp0 i Hi) (Hp0 j Hj) E)|done].
    2: { destruct (W !! blk ino i) as [q|] eqn:EW; [|done]; apply T6 in EW as (ino' & i' & D1 & D2 & D3 & _); apply (Hinj ino i ino' i' (Hp0 i Hi) D1) in D3 as [<- <-]; destruct (Hpd i Hi); congruence. }
    rewrite T6; split.
    + intros [(j & i & D1 & D2 & D3)|(i & Hi & -> & ->)]; [exists j, i|exists ino, i]; split; auto; rewrite Hc; [destruct (decide (j = ino /\ i ∈ pages)); auto|rewrite decide_True by done; auto].
    + intros (j & i & D1 & D2 & D3); rewrite Hc in D2; destruct (decide (j = ino /\ i ∈ pages)) as [[-> Hin]|]; [right|left]; eauto 10.
  - assert (forall j, size (dirty_pages c2 j) <= size (dirty_pages c j))%nat as Hle.
    { intros j; rewrite <- !size_dom; apply subseteq_size; intros i; rewrite !elem_of_dom, Hc; destruct (decide (j = ino /\ i ∈ pages)); [by intros []|done]. }
    assert (size (dirty_pages c2 ino) < size (dirty_pages c ino))%nat as Hlt'.
    { rewrite <- !size_dom; apply subset_size; destruct pages as [|i0 ps] eqn:Epp; [done|]; rewrite <- Epp in *; assert (i0 ∈ pages) as Hi0 by (rewrite Epp; by left); split.
      - intros i; rewrite !elem_of_dom, Hc; destruct (decide (ino = ino /\ i ∈ pages)); [by intros []|done].
      - intros Hsub; specialize (Hsub i0); rewrite !elem_of_dom, Hc, decide_True in Hsub by done; specialize (Hsub (Hpd i0 Hi0)); by destruct Hsub. }
    unfold count_dirty; cbn [foldr special_files]; pose proof (Hle 2); pose proof (Hle 3); pose proof (Hle 4); pose proof (Hle 5); pose proof (Hle 6).
    rewrite special_range in Hs; assert (ino = 2 \/ ino = 3 \/ ino = 4 \/ ino = 5 \/ ino = 6) as [->|[->|[->|[->| ->]]]] by lia; lia.
  - intros [Ha Hc0] Hso; apply Hcm2; split; [apply S7; [done|]; intros n Hn; apply Hso, HN; by left|]; intros j; rewrite S3; apply Hc0.
Qed.

(** The end of the loop: all dirty pages have been taken when it has found no error. *)
Record ended (ret : Z) (m : list Z) (c : cache) (W : gmap Z (list Z)) (b : option bio) (next : Z) (d : device) : Prop := {
  en_ret : ret <= 0;
  en_table : restamped m0 m;
  en_writing : writing D0 E0 W c b next d;
  en_W : forall x, is_Some (W !! x) -> exists ino i, dirty0 ino i /\ x = blk ino i;
  en_clean : ret = 0 -> forall ino, special ino -> dirty_pages c ino = ∅;
  en_all : ret = 0 -> forall ino i, dirty0 ino i -> W !! blk ino i = Some (signed g crc32 bt c0 v ino i)
}.

(** Every dirty node passes its check. *)
Definition all_sound : Prop := forall ino n, special ino -> n ∈ N0 ino -> sound g bt c0 ino n.

Lemma loop_spec (fuel : nat) (m : list Z) (c : cache) (N : Z -> list Z) (cur : option Z) (index : Z) (W : gmap Z (list Z)) (b : option bio) (next : Z) (d : device) :
  between m c N cur index W b next d -> (count_dirty c < fuel)%nat ->
  exists ret m' c' b' d' next' W', meta_write_loop g crc32 bt fuel cur index mount sync m e c b next d = Ok (ret, m', c', b', d') /\ ended ret m' c' W' b' next' d'
  /\ (calm c d -> all_sound -> ret = 0 /\ calm c' d').
Proof using Hg Hbt Hpc Hba Hpv Hlp Hshift H60 Hblk Hinj.
  revert m c N cur index W b next d; induction fuel as [|fuel IH]; intros m c N cur index W b next d Hbe Hf; [lia|]; cbn [meta_write_loop].
  pose proof Hbe as [T1 T2 T3 T4 T5 T6].
  assert (forall x, is_Some (W !! x) -> exists ino i, dirty0 ino i /\ x = blk ino i) as HW by (intros x [p Hp]; apply T6 in Hp as (ino & i & ? & _ & ? & _); eauto).
  assert (forall ino n, all_sound -> special ino -> n ∈ N ino -> sound g bt c ino n) as Hsnd.
  { intros ino n Hso Hs Hn; apply (sound_other g Hg bt c0 c); [|auto]; intros i Hi; apply T3; [done|]; apply (dc_pages _ _ _ _ (td_chunks _ _ _ _ _ T2 ino Hs)); by rewrite Hi. }
  destruct (get_pages_spec 7 cur index m c N d T2) as (ret & pages & cur' & index' & m' & c' & d' & E & [(Hr & ino & N1 & Hsi & HN1 & Hsg)|[(-> & HN & -> & -> & ->)|(ino & -> & -> & Hba')]]).
  { destruct cur as [ino|]; cbn [turns]; [destruct T2 as [_ _ _ (Hs & _)]; rewrite special_range in Hs; lia|lia]. }
  - rewrite E; cbn [mbind run_bind]; rewrite (proj2 (Z.leb_le ret 0)) by lia; exists ret, m', c', b, d', next, W; split; [done|]; destruct Hsg as [S1 [S2 S2'] S3 S4 _ _ S7].
    split; [split; [lia|by eapply restamped_trans|by eapply writing_same|done|lia|lia]|].
    intros [Ha _] Hso; destruct S7 as [-> _]; [done|intros n Hn; apply Hsnd; auto|lia].
  - rewrite E; cbn [mbind run_bind Z.leb Z.compare]; exists 0, m, c, b, d, next, W; split; [done|].
    assert (forall ino, special ino -> dirty_pages c ino = ∅) as Hcl by (intros ino Hs; apply (chunks_empty g Hg c ino); rewrite <- (HN ino Hs); apply T2; done).
    split; [|done]; split; [lia|done|done|done|done|]; intros _ ino i Hd; apply T6; exists ino, i; split; [done|]; split; [|done]; rewrite (Hcl ino (proj1 Hd)); apply lookup_empty.
  - rewrite E; cbn [mbind run_bind]; destruct (batch_step m m' c c' N cur index index' ino W b next d d' pages Hbe Hba') as (c2 & b2 & next2 & d2 & N2 & W2 & E2 & Hbe2 & Hlt & Hcm).
    rewrite (proj2 (Z.leb_gt (lenZ pages) 0)) by (destruct Hba' as [_ _ Hne _ _ _]; destruct pages; [done|]; rewrite lenZ_cons; pose proof (lenZ_nonneg pages); lia).
    rewrite E2; cbn [mbind run_bind]; destruct (IH m' c2 N2 (Some ino) index' W2 b2 next2 d2 Hbe2 ltac:(lia)) as (ret & m3 & c3 & b3 & d3 & next3 & W3 & E3 & Hen & Hlv).
    exists ret, m3, c3, b3, d3, next3, W3; split; [exact E3|]; split; [exact Hen|]; intros Hca Hso; apply Hlv; [|done]; apply Hcm; [done|]; intros n Hn; apply Hsnd; [done|apply Hba'|done].
Qed.

(** What the write of all dirty pages has done. *)
Record all_written (ret : Z) (m : list Z) (c : cache) (d : device) : Prop := {
  aw_ret : ret <= 0;
  aw_table : restamped m0 m;
  aw_exsb : exsb_disk d = E0;
  aw_other : forall s, (forall ino i, dirty0 ino i -> s <> 8 * blk ino i) -> disk d !! s = D0 !! s;
  aw_clean : ret = 0 -> forall ino, special ino -> dirty_pages c ino = ∅;
  aw_pages : ret = 0 -> forall ino i, dirty0 ino i -> disk d !! (8 * blk ino i) = Some (signed g crc32 bt c0 v ino i)
}.

Lemma meta_write_spec (d : device) :
  disk d = D0 -> exsb_disk d = E0 ->
  exists ret m c d', vdfs4_meta_write g crc32 bt mount sync m0 e c0 d = Ok (ret, m, c, d') /\ all_written ret m c d'
  /\ (calm c0 d -> all_sound -> ret = 0 /\ answers d' = []).
Proof using Hg Hbt Hpc Hba Hpv Hlp Hshift H60 Hblk Hinj Htodo.
  intros ED EE; unfold vdfs4_meta_write.
  destruct (loop_spec (S (count_dirty c0)) m0 c0 N0 None 0 ∅ None 0 d) as (ret & m & c & b & d1 & next & W & E & [R1 R2 R3 R4 R5 R6] & Hlv); [|lia|].
  { split; [apply restamped_refl, Htodo|done|done|done| |].
    - split; [done|by rewrite ED|done|]; right; intros x p; rewrite lookup_empty; done.
    - intros x p; rewrite lookup_empty; split; [done|]; intros (ino & i & [_ [q Hq]] & D2 & _); congruence. }
  rewrite E; cbn [mbind run_bind].
  assert (exists c1 d2, (match b with Some r => submit_bio g r c d1 | None => (c, d1) end) = (c1, d2) /\ writing D0 E0 W c1 None next d2 /\ dirty_pages c1 = dirty_pages c
    /\ (calm c d1 -> calm c1 d2)) as (c1 & d2 & -> & [W1 W2 _ W4] & Hdp & Hcm).
  { destruct b as [r|]; [|exists c, d1; auto]; pose proof (submit_spec g Hshift D0 E0 W c r next next d1 R3) as Hsub; destruct (submit_bio g r c d1) as [c1 d2]; destruct Hsub as (? & ? & _ & ?); eauto 10. }
  destruct (foldl wait_mapping (ret, c1) special_files) as [ret' c2] eqn:Ew; destruct (wait_all _ _ _ _ _ Ew) as (V1 & V2 & V3 & V4); specialize (V1 R1).
  exists ret', m, c2, d2; split; [done|]; split; [split; [done|done|done| | |]|].
  - intros s Hs; apply W2; intros x Hx Es; destruct (R4 x Hx) as (ino & i & Hd & ->); by apply (Hs ino i Hd).
  - intros Hr0 ino Hs; destruct (V3 Hr0) as [-> _]; rewrite V2, Hdp; auto.
  - intros Hr0 ino i Hd; destruct (V3 Hr0) as [-> Hno]; destruct W4 as [(j & Hj & Hf)|W4]; [|apply W4, R6; done].
    exfalso; rewrite (Hno j) in Hf; [done|]; rewrite special_range in Hj; clear -Hj; unfold special_files; rewrite list_elem_of_In; cbn; lia.
  - intros Hca Hso; destruct (Hlv Hca Hso) as [-> Hc']; destruct (Hcm Hc') as [Ha He]; split; [|done]; apply V4; [done|]; intros ino Hi; split; [apply He|]; rewrite Hdp; apply R5; [done|].
    rewrite special_range; unfold special_files in Hi; rewrite list_elem_of_In in Hi; cbn in Hi; lia.
Qed.

End Write.

End Loop.
