(* ===== verification/MetaPlace.v ===== *)
(** Where a page of metadata is: from its chunk in the base table through the
    extents of the metadata area to a block of the volume (get_block_meta_wrapper and
    get_meta_block of src/linux/fs/vdfs4/data.c), and what a mount reads there. *)

From Stdlib Require Import ZArith Lia Bool List.
From stdpp Require Import base list gmap sorting.
From S2P Require Import Prelude Bytes Bitmap FindBit Buffer Rbtree FsmTree Fsm Bnode Snapshot SnapshotDisk SnapshotRep SnapshotCow SnapshotTable SnapshotStep SnapshotSeal SnapshotLoad SnapshotCommit SnapshotAtomic SnapshotTheorems MetaWrite MetaRep MetaFiles MetaSign MetaBio MetaLoop.

Open Scope Z_scope.


Section Place.
Context {area : ZeroArea} {Hfind : FindBit} `{Hpc : PageCache} (g : geom) (Hg : geom_ok g) (Hshift : block_size_shift g = 12) (Hlp : log_blocks_in_page g = 0).

#[local] Abbreviation unit := (unit_of g).

(** The extents of the metadata area map its blocks one to one to blocks of the
    volume outside the tables area, with room for a batch behind each. *)
Record area_ok (e : exsb) : Prop := {
  ar_tbc : 0 <= meta_tbc e < 2 ^ 31;
  ar_block : forall x, 0 <= x < meta_tbc e -> exists b, get_meta_block e x = Val b /\ 0 < b
    /\ 8 * (b + PAGEVEC_SIZE) <= Z.shiftr (bdev_nr_bytes g) SECTOR_SIZE_SHIFT /\ (b < tables_begin g \/ tables_begin g + tables_length g < b);
  ar_inj : forall x y, 0 <= x < meta_tbc e -> 0 <= y < meta_tbc e -> get_meta_block e x = get_meta_block e y -> x = y
}.

Definition meta_page (m : list Z) (ino i : Z) : Prop := is_chunk m (ino, i / unit ino).

(** The block of the metadata area, and of the volume, that holds page [i]. *)
Definition iblk (m : list Z) (ino i : Z) : Z := place m (ino, i / unit ino) + i mod unit ino.
Definition blk (m : list Z) (e : exsb) (ino i : Z) : Z := match get_meta_block e (iblk m ino i) with Val b => b | Err _ => 0 end.

Lemma blocks_unit (ino : Z) : blocks g ino = unit ino.
Proof using Hshift Hlp.
  unfold blocks, order, unit_of; destruct (is_tree ino); [rewrite node_pages, Hshift; f_equal; unfold PAGE_SHIFT; lia|by rewrite Hlp].
Qed.

Lemma iblk_covers (m : list Z) (ino i : Z) : covers g m (ino, i / unit ino) (iblk m ino i).
Proof using Hg Hshift Hlp.
  unfold covers, at_place, iblk; cbn [fst]; rewrite blocks_unit; pose proof (Z.mod_pos_bound i (unit ino) (unit_pos g Hg ino)); lia.
Qed.

Lemma iblk_range (m : list Z) (size ino i : Z) : placed_in g size m -> meta_page m ino i -> 0 <= iblk m ino i < size.
Proof using Hg Hshift Hlp. intros Hp Hi; pose proof (iblk_covers m ino i) as Hc; destruct (pi_in _ _ _ Hp _ Hi) as [H1 H2]; unfold covers, at_place in Hc; lia. Qed.

Lemma iblk_inj (m : list Z) (size ino i ino' i' : Z) :
  placed_in g size m -> meta_page m ino i -> meta_page m ino' i' -> iblk m ino i = iblk m ino' i' -> ino = ino' /\ i = i'.
Proof using Hg Hshift Hlp.
  intros Hp Hi Hi' E; pose proof (iblk_covers m ino i) as Hc; pose proof (iblk_covers m ino' i') as Hc'; rewrite <- E in Hc'.
  destruct (decide ((ino, i / unit ino) = (ino', i' / unit ino'))) as [Eq|N]; [|destruct (pi_apart _ _ _ Hp _ _ Hi Hi' N); unfold covers, at_place in *; lia].
  injection Eq as <- Eq; split; [done|]; unfold iblk in E; rewrite Eq in E; pose proof (unit_pos g Hg ino).
  pose proof (Z.div_mod i (unit ino) ltac:(lia)); pose proof (Z.div_mod i' (unit ino) ltac:(lia)); nia.
Qed.

Lemma blk_some (m : list Z) (e : exsb) (ino i : Z) :
  area_ok e -> placed_in g (meta_tbc e) m -> meta_page m ino i ->
  get_meta_block e (iblk m ino i) = Val (blk m e ino i) /\ 0 < blk m e ino i
  /\ 8 * (blk m e ino i + PAGEVEC_SIZE) <= Z.shiftr (bdev_nr_bytes g) SECTOR_SIZE_SHIFT /\ (blk m e ino i < tables_begin g \/ tables_begin g + tables_length g < blk m e ino i).
Proof using Hg Hshift Hlp.
  intros He Hp Hi; destruct (ar_block _ He _ (iblk_range m _ ino i Hp Hi)) as (b & E & Hb); unfold blk; rewrite E; done.
Qed.

Lemma get_block_ok (m : list Z) (e : exsb) (ino i : Z) :
  base_ok m -> area_ok e -> placed_in g (meta_tbc e) m -> meta_page m ino i -> get_block_meta_wrapper g m e ino i = Ok (Val (blk m e ino i)).
Proof using Hg Hshift Hlp.
  intros Hb He Hp Hi; destruct (blk_some m e ino i He Hp Hi) as (E & B0 & _); pose proof (iblk_range m _ ino i Hp Hi) as Hr; pose proof (ar_tbc _ He) as Ht.
  pose proof Hi as [Hs Hc]; cbn [fst snd] in *; destruct Hs as [Hs1 Hs2]; unfold get_block_meta_wrapper, bug_on; rewrite !(proj2 (Z.ltb_ge _ _)) by done; cbn [orb mbind run_bind].
  unfold vdfs4_get_meta_iblock; rewrite (last_index_ok m Hb) by done; cbn [mbind run_bind]; rewrite (table_index g Hg), (proj2 (Z.ltb_ge _ _)) by lia.
  rewrite (get_table_ok m Hb) by done; cbn [mbind run_bind]; pose proof (place_ok m Hb _ Hi) as Er; cbn [fst snd] in Er; rewrite Er; cbn [mbind run_bind].
  assert ((if is_tree ino then place m (ino, i / unit ino) +64 Z.shiftl (Z.land i (pages_per_node g - 1)) (PAGE_SHIFT - block_size_shift g) else place m (ino, i / unit ino)) = iblk m ino i) as ->.
  { unfold iblk in *; revert Hr; unfold unit_of; destruct (is_tree ino); [|by rewrite Z.mod_1_r, Z.add_0_r]; rewrite Hshift; unfold PAGE_SHIFT; change (12 - 12) with 0; rewrite Z.shiftl_0_r.
    destruct Hg as [_ _ Hn]; rewrite node_pages; replace (2 ^ (log_blocks_in_leb g + block_size_shift g - PAGE_SHIFT) - 1) with (Z.ones (log_blocks_in_leb g + block_size_shift g - PAGE_SHIFT)) by (rewrite Z.ones_equiv; lia).
    rewrite Z.land_ones by lia; intros Hr; apply u64_small; lia. }
  rewrite E; cbn [mbind run_bind]; rewrite (proj2 (Z.eqb_neq _ _)) by lia; done.
Qed.

(** What is read for page [i]. *)
Definition read_meta (m : list Z) (e : exsb) (d : device) (ino i : Z) : option (list Z) :=
  match get_block_meta_wrapper g m e ino i with
  | Ok (Val b) => Some (page_at d (Z.shiftl b (block_size_shift g - SECTOR_SIZE_SHIFT)))
  | _ => None
  end.

Lemma read_meta_ok (m : list Z) (e : exsb) (d : device) (ino i : Z) :
  base_ok m -> area_ok e -> placed_in g (meta_tbc e) m -> meta_page m ino i -> read_meta m e d ino i = Some (page_at d (8 * blk m e ino i)).
Proof using Hg Hshift Hlp. intros Hb He Hp Hi; unfold read_meta; rewrite get_block_ok by done; by rewrite (sector_of g Hshift). Qed.

Lemma read_same (m : list Z) (e e' : exsb) (d : device) (ino i : Z) : meta e' = meta e -> read_meta m e' d ino i = read_meta m e d ino i.
Proof. intros E; unfold read_meta, get_block_meta_wrapper, get_meta_block; by rewrite E. Qed.

End Place.
