(* ===== verification/MetaCommit.v ===== *)
(** A transaction of metadata: what the driver keeps while it changes pages, and what
    the write of the dirty pages and of the tables leaves on the device
    (vdfs4_sync_metadata of src/linux/fs/vdfs4/data.c). *)

From Stdlib Require Import ZArith Lia Bool List.
From stdpp Require Import base list gmap sorting.
From S2P Require Import Prelude Bytes Bitmap FindBit Buffer Rbtree FsmTree Fsm Bnode Snapshot SnapshotDisk SnapshotRep SnapshotCow SnapshotTable SnapshotStep SnapshotSeal SnapshotLoad SnapshotCommit SnapshotAtomic SnapshotTheorems MetaWrite MetaRep MetaFiles MetaSign MetaBio MetaLoop MetaPlace.

Open Scope Z_scope.

(** ** Tables with other counts *)

Lemma total_shape (m m' : list Z) : same_shape m m' -> total m' = total m.
Proof.
  intros Hsh; unfold total; assert (forall ino, 2 <= ino <= 6 -> cnt m' ino = cnt m ino) as E by (intros ino Hi; apply Hsh; by rewrite special_range).
  rewrite !E by lia; done.
Qed.

Lemma placed_restamped (g : geom) (size : Z) (m m' : list Z) : restamped m m' -> placed_in g size m -> placed_in g size m'.
Proof. intros [R1 R2 R3 R4 R5] Hp; by apply (placed_same g size m m'). Qed.

Lemma snap_same (g : geom) (C : Z -> Prop) (s : maps) (m m' : list Z) :
  base_ok m' -> same_shape m m' -> (forall c, is_chunk m c -> place m' c = place m c) -> snap_ok g C s m -> snap_ok g C s m'.
Proof.
  intros R1 R2 R5 [Hb Hsz Hin Hal Hap Hnx Hsn Hmv Hold]; assert (forall c, is_chunk m' c <-> is_chunk m c) as Hc by (intros c; by apply same_chunk).
  split; auto.
  - intros c Hc1; apply Hc in Hc1; rewrite R5 by done; auto.
  - intros c Hc1; apply Hc in Hc1; rewrite R5 by done; auto.
  - intros c d Hc1 Hd1 N; apply Hc in Hc1, Hd1; rewrite !R5 by done; auto.
  - intros b Hb1; rewrite Hnx by done; split; intros (c & H1 & H2); exists c; rewrite Hc in *; unfold covers in *; rewrite R5 in * by done; done.
  - intros c b Hc1; apply Hc in Hc1; unfold covers; rewrite R5 by done; by apply Hmv.
  - intros c b Hc1; apply Hc in Hc1; unfold covers; rewrite R5 by done; by apply Hold.
Qed.

Definition ask_base (t : tables) : tables :=
  Tables (base_t t) (extended_table t) (iblock t) (sync_count t) (dirty_pages_count t) true (exteneded_table_count t).

Section Commit.
Context {area : ZeroArea} {Hfind : FindBit} `{Hpc : PageCacheLaws} `{Hba : BioAddLaws} (g : geom) (Hg : geom_ok g) (Hd : disk_ok g) (crc32 : list Z -> Z) (bt : btree).
Context (Hcrc : forall l, 0 <= crc32 l < 2 ^ 32) (Hbt : node_size_bytes bt = PAGE_SIZE * pages_per_node g) (Hlp : log_blocks_in_page g = 0).
Context (H60 : Z.shiftr (bdev_nr_bytes g) SECTOR_SIZE_SHIFT < 2 ^ 60) (H19 : 19 <= Z.shiftr (bdev_nr_bytes g) SECTOR_SIZE_SHIFT) (Hpv : pages_per_node g <= PAGEVEC_SIZE).

#[local] Abbreviation page := (page g).
#[local] Abbreviation read_meta := (read_meta g).
#[local] Abbreviation blk := (blk g).
#[local] Abbreviation iblk := (iblk g).

Lemma synced_frame (d d' : device) (h mount s0 : Z) (mb mc : list Z) (es : list (list Z)) (t : tables) (nmount : Z) :
  synced g crc32 d h mount s0 mb es mc t nmount -> (forall x, 0 <= x <= tables_length g -> page d' x = page d x) -> synced g crc32 d' h mount s0 mb es mc t nmount.
Proof using Hd.
  intros [Hld Hb Hl Hnp Hr Htab Hle Hm Hsn Hnew Hib Hcnt Hnx Hcl] Hpg; pose proof (half_range g Hd) as [Hh0 Hh2]; pose proof (ld_half _ _ _ _ _ _ _ _ _ Hld) as Hh; split; auto.
  - eapply loadable_frame; [exact Hld| |]; [intros x Hx|]; apply Hpg; destruct Hh; lia.
  - intros x b Hx Hbx; destruct (chain_head _ _ _ _ _ _ _ _ _ (ld_chain _ _ _ _ _ _ _ _ _ Hld)) as (Hbb & _); destruct (np_pos mb Hbb); rewrite Hpg by (destruct Hx; lia); eauto.
Qed.

Lemma synced_restamped (d : device) (h mount s0 : Z) (mb mc m' : list Z) (es : list (list Z)) (t : tables) (nmount : Z) :
  synced g crc32 d h mount s0 mb es mc t nmount -> restamped (base_t t) m' -> synced g crc32 d h mount s0 mb es mc (set_base m' t) nmount.
Proof.
  intros [Hld Hb Hl Hnp Hr Htab Hle Hm Hsn Hnew Hib Hcnt Hnx Hcl] [R1 R2 R3 R4 R5]; assert (np m' = np (base_t t)) as En by (unfold np; by rewrite (total_shape _ _ R2)).
  split; cbn [set_base base_t extended_table iblock sync_count use_base_table exteneded_table_count]; rewrite ?En; auto; [congruence|].
  intros Hu; destruct (Htab Hu) as (Hsh & L & H1 & H2 & H3); split; [by eapply shape_trans|]; exists L; split; [done|]; split; [done|].
  intros c Hc; cbn [base_t set_base]; rewrite R5 by (by apply (same_chunk mc (base_t t))); auto.
Qed.

Lemma synced_base (d : device) (h mount s0 : Z) (mb mc : list Z) (es : list (list Z)) (t : tables) (nmount : Z) :
  synced g crc32 d h mount s0 mb es mc t nmount -> synced g crc32 d h mount s0 mb es mc (ask_base t) nmount.
Proof. intros [Hld Hb Hl Hnp Hr Htab Hle Hm Hsn Hnew Hib Hcnt Hnx Hcl]; split; auto; done. Qed.

(** ** The mount *)

(** A mount of the device reads the pages [P] as [V]. *)
Definition mount_reads (d : device) (P : Z -> Z -> Prop) (V : Z -> Z -> option (list Z)) : Prop :=
  forall rdonly, exists s t e copy d',
    vdfs4_build_snapshot_manager g crc32 rdonly (fst (exsb_disk d)) (snd (exsb_disk d)) (Device (disk d) (exsb_disk d) []) = Ok (Val (s, t), e, copy, d')
    /\ forall ino i, (meta_page g (base_t t) ino i <-> P ino i) /\ (P ino i -> read_meta (base_t t) e d' ino i = V ino i).

Lemma mount_spec (d : device) (h mount s0 : Z) (mb mc m : list Z) (es : list (list Z)) (ex : exsb) (V : Z -> Z -> option (list Z)) :
  loadable g crc32 d h mount s0 mb es mc -> same_shape m mc -> (forall c, is_chunk m c -> place mc c = place m c) ->
  placed_in g (meta_tbc ex) m -> area_ok g ex ->
  let x := chosen (version mount s0) (fst (exsb_disk d)) (snd (exsb_disk d)) in meta x = meta ex -> meta_tbc x = meta_tbc ex ->
  (forall ino i, meta_page g m ino i -> V ino i = Some (page_at d (8 * blk m ex ino i))) -> mount_reads d (meta_page g m) V.
Proof using Hg Hd Hlp H19.
  intros Hld Hsh Hpl Hp Har x Em Et HV rdonly; set (d0 := Device (disk d) (exsb_disk d) []).
  assert (loadable g crc32 d0 h mount s0 mb es mc) as Hld0 by (eapply loadable_frame; [exact Hld| |]; done).
  destruct (restore_spec g rdonly (version mount s0) (fst (exsb_disk d)) (snd (exsb_disk d)) d0 eq_refl H19) as (e' & copy' & d' & Er & Em' & Et' & Ed & Ea); fold x in Em', Et'.
  pose proof (placed_same _ _ _ _ Hp Hsh Hpl) as Hpc'; destruct (build_restored g Hg Hd crc32 rdonly _ _ e' copy' d0 d' h mount s0 mb mc es Hld0 eq_refl Er Ed Ea) as (s & E & _ & Hs).
  { rewrite Et', Et; done. } { rewrite Et', Et; apply Har. }
  eexists s, _, e', copy', d'; split; [exact E|]; cbn [base_t]; intros ino i; split; [by apply same_chunk|]; intros Hi; rewrite (read_same g mc ex e') by congruence.
  rewrite (read_meta_ok g Hg (dk_shift g Hd) Hlp mc ex d' ino i (sn_base _ _ _ _ Hs) Har Hpc'); [|by apply (same_chunk m mc)]; rewrite HV by done; f_equal.
  unfold page_at; rewrite Ed; cbn [disk d0]; unfold MetaPlace.blk, MetaPlace.iblk; rewrite Hpl by done; done.
Qed.

(** ** A transaction *)

(** The blocks of the committed snapshot. *)
Definition held (mc : list Z) (b : Z) : Prop := exists k, is_chunk mc k /\ covers g mc k b.

(** What the write of the dirty pages relies on. The bitmaps describe the tables in
    memory, whose chunks lie in the metadata area and apart from each other; the
    dirty pages are those of the chunks [N], each a whole chunk of its file that can be
    signed. [area_ok] asks for room for a batch of pages between every block of the
    metadata area and the end of the device. *)
Record writable (C : Z -> Prop) (mp : maps) (t : tables) (e : exsb) (c : cache) (N : Z -> list Z) : Prop := {
  wr_snap : snap_ok g C mp (base_t t);
  wr_size : bitmap_size_in_bits mp = meta_tbc e;
  wr_area : area_ok g e;
  wr_dirty : forall ino, special ino -> dirty_chunks g c ino (N ino);
  wr_good : forall ino n, special ino -> n ∈ N ino -> is_chunk (base_t t) (ino, n) /\ chunk_good g bt c ino n
}.

(** The state in front of a commit: the device holds the tables of the last commit and
    two superblocks of one version, the pages can be written, the metadata area has at
    most grown, and only when the superblocks are to be written, and no chunk without
    dirty pages has moved. Nothing is said of the answers of the device. *)
Record transaction (d : device) (h mount s0 : Z) (mb : list Z) (es : list (list Z)) (mc : list Z) (mp : maps) (t : tables) (e : exsb) (dirty : bool) (c : cache) (N : Z -> list Z) : Prop := {
  tr_synced : synced g crc32 d h mount s0 mb es mc t (mount_counter e);
  tr_sync : sync_count t + 11 < 2 ^ 32;
  tr_write : writable (held mc) mp t e c N;
  tr_old : placed_in g (meta_tbc (fst (exsb_disk d))) mc;
  tr_grow : 0 <= meta_tbc (fst (exsb_disk d)) <= meta_tbc e /\ forall x, 0 <= x < meta_tbc (fst (exsb_disk d)) -> get_meta_block (fst (exsb_disk d)) x = get_meta_block e x;
  tr_clean : forall k, is_chunk (base_t t) k -> snd k ∉ N (fst k) -> is_chunk mc k /\ place (base_t t) k = place mc k;
  tr_exsb : exsb_version (fst (exsb_disk d)) = exsb_version (snd (exsb_disk d));
  tr_super : if dirty then exsb_version (fst (exsb_disk d)) <> version (mount_counter e) (sync_count t)
             else meta (fst (exsb_disk d)) = meta e /\ meta_tbc (fst (exsb_disk d)) = meta_tbc e
}.

(** Every dirty chunk has been moved away from the committed snapshot
    ([vdfs4_add_chunk_no_lock] does so unless no aligned area is free). *)
Definition moved_away (mc : list Z) (t : tables) (N : Z -> list Z) : Prop :=
  forall ino n b, special ino -> n ∈ N ino -> covers g (base_t t) (ino, n) b -> ~ held mc b.

(** The write of the second superblock in front of the commit, whose result
    [vdfs4_sync_exsb] throws away, succeeds, or the superblock has nothing new to say:
    it is not written, or the metadata area is that of the last commit. *)
Definition superblock_in_front (d : device) (e : exsb) (dirty : bool) : Prop :=
  dirty = true -> fst (fst (answer d)) = 0 \/ meta (fst (exsb_disk d)) = meta e /\ meta_tbc (fst (exsb_disk d)) = meta_tbc e.

Section Writable.
Context (C : Z -> Prop) (mp : maps) (t : tables) (e : exsb) (c : cache) (N : Z -> list Z) (W : writable C mp t e c N).

#[local] Abbreviation m := (base_t t).
#[local] Abbreviation v := (generate_version (mount_counter e) (sync_count t)).
#[local] Abbreviation Hshift := (dk_shift g Hd).

Lemma placed_now : placed_in g (meta_tbc e) m.
Proof using W. pose proof (wr_snap _ _ _ _ _ _ W) as [Hb Hsz Hin Hal Hap _ _ _ _]; rewrite (wr_size _ _ _ _ _ _ W) in Hin; by split. Qed.

(** A dirty page. *)
Lemma dirty_page (ino i : Z) : special ino -> is_Some (dirty_pages c ino !! i) <-> i / unit_of g ino ∈ N ino.
Proof using W. intros Hs; apply (dc_pages _ _ _ _ (wr_dirty _ _ _ _ _ _ W ino Hs)). Qed.

Lemma dirty_of (ino i : Z) : special ino -> is_Some (dirty_pages c ino !! i) -> meta_page g m ino i.
Proof using W. intros Hs Hi; apply dirty_page in Hi; [|done]; by apply (wr_good _ _ _ _ _ _ W). Qed.

(** Two pages of the tables in one block are one page. *)
Lemma blk_inj (ino i ino' i' : Z) : meta_page g m ino i -> meta_page g m ino' i' -> blk m e ino i = blk m e ino' i' -> ino = ino' /\ i = i'.
Proof using W Hg Hd Hlp.
  intros Hp Hp' E; pose proof (wr_area _ _ _ _ _ _ W) as Ha.
  destruct (blk_some g Hg Hshift Hlp m e ino i Ha placed_now Hp) as (B1 & _); destruct (blk_some g Hg Hshift Hlp m e ino' i' Ha placed_now Hp') as (B2 & _); rewrite <- E in B2.
  apply (iblk_inj g Hg Hshift Hlp m _ ino i ino' i' placed_now Hp Hp'), (ar_inj _ _ Ha); [apply (iblk_range g Hg Hshift Hlp), Hp; apply placed_now|apply (iblk_range g Hg Hshift Hlp), Hp'; apply placed_now|congruence].
Qed.

(** A device on which only blocks of dirty pages and of the tables differ. *)
Definition kept (d d' : device) : Prop :=
  forall b, b < tables_begin g \/ tables_begin g + tables_length g < b -> (forall ino i, special ino -> is_Some (dirty_pages c ino !! i) -> b <> blk m e ino i) ->
  page_at d' (8 * b) = page_at d (8 * b).

Lemma page_block (d1 : device) (x : Z) : page d1 x = page_at d1 (8 * (tables_begin g + x)).
Proof. done. Qed.

(** The write of the dirty pages, in front of the tables. *)
Lemma meta_stage (d1 : device) (e' : exsb) :
  meta e' = meta e ->
  exists ret m' c' d2, vdfs4_meta_write g crc32 bt (mount_counter e) (sync_count t) m e' c d1 = Ok (ret, m', c', d2)
  /\ restamped m m' /\ exsb_disk d2 = exsb_disk d1 /\ (forall x, 0 <= x <= tables_length g -> page d2 x = page d1 x) /\ kept d1 d2
  /\ (ret = 0 -> (forall ino, special ino -> dirty_pages c' ino = ∅) /\ forall ino i, special ino -> is_Some (dirty_pages c ino !! i) -> page_at d2 (8 * blk m e ino i) = signed g crc32 bt c v ino i)
  /\ (calm c d1 -> all_sound g bt c N -> ret = 0 /\ answers d2 = []).
Proof using W Hg Hd Hlp Hbt H60 Hpv Hpc Hba.
  intros Em; pose proof (wr_area _ _ _ _ _ _ W) as Ha; pose proof (wr_snap _ _ _ _ _ _ W) as Hsn.
  destruct (meta_write_spec g Hg crc32 bt Hbt Hshift Hlp H60 Hpv (mount_counter e) (sync_count t) m c e' N (blk m e) (disk d1) (exsb_disk d1)) with (d := d1)
    as (ret & m' & c' & d2 & E & [W1 W2 W3 W4 W5 W6] & Hlv); [| | |done|done|].
  - intros m1 ino i Hr [Hs Hi]; pose proof (dirty_of ino i Hs Hi) as Hp; destruct (blk_some g Hg Hshift Hlp m e ino i Ha placed_now Hp) as (_ & B1 & B2 & _); split; [|lia].
    assert (get_block_meta_wrapper g m1 e' ino i = get_block_meta_wrapper g m1 e ino i) as -> by (unfold get_block_meta_wrapper, get_meta_block; by rewrite Em).
    rewrite (get_block_ok g Hg Hshift Hlp m1 e ino i (rs_base _ _ Hr) Ha (placed_restamped g _ _ _ Hr placed_now)) by (apply (same_chunk m m1); [apply Hr|exact Hp]).
    unfold MetaPlace.blk, MetaPlace.iblk; rewrite (rs_place _ _ Hr) by exact Hp; done.
  - intros ino i ino' i' [Hs Hi] [Hs' Hi'] E; exact (blk_inj _ _ _ _ (dirty_of ino i Hs Hi) (dirty_of ino' i' Hs' Hi') E).
  - split; [apply Hsn|apply W|apply W|done].
  - exists ret, m', c', d2; split; [exact E|]; split; [done|]; split; [done|]; split; [|split; [|split; [|exact Hlv]]].
    + intros x Hx; rewrite !page_block; unfold page_at; rewrite W4; [done|]; intros ino i [Hs Hi].
      destruct (blk_some g Hg Hshift Hlp m e ino i Ha placed_now (dirty_of ino i Hs Hi)) as (_ & _ & _ & B); lia.
    + intros b _ Hb; unfold page_at; rewrite W4; [done|]; intros ino i [Hs Hi]; specialize (Hb ino i Hs Hi); lia.
    + intros Hr0; split; [by apply W5|]; intros ino i Hs Hi; unfold page_at; rewrite W6 by (done || by split); done.
Qed.

End Writable.

Section Transaction.
Context (d : device) (h mount s0 : Z) (mb : list Z) (es : list (list Z)) (mc : list Z) (mp : maps) (t : tables) (e : exsb) (dirty : bool) (c : cache) (N : Z -> list Z).
Context (T : transaction d h mount s0 mb es mc mp t e dirty c N).

#[local] Abbreviation e1 := (fst (exsb_disk d)).
#[local] Abbreviation m := (base_t t).
#[local] Abbreviation v := (generate_version (mount_counter e) (sync_count t)).
#[local] Abbreviation Hshift := (dk_shift g Hd).
#[local] Abbreviation TW := (tr_write _ _ _ _ _ _ _ _ _ _ _ _ _ T).
#[local] Abbreviation Tplaced := (placed_now _ _ _ _ _ _ TW).
#[local] Abbreviation Tarea := (wr_area _ _ _ _ _ _ TW).
#[local] Abbreviation Tdirty := (dirty_of _ _ _ _ _ _ TW).
#[local] Abbreviation kept := (kept t e c d).

(** What a mount reads when the commit has happened. *)
Definition new_page (ino i : Z) : option (list Z) :=
  match dirty_pages c ino !! i with
  | Some _ => Some (signed g crc32 bt c v ino i)
  | None => read_meta mc e1 d ino i
  end.

Lemma base_mc : base_ok mc.
Proof using T. exact (proj1 (chain_last _ _ _ _ _ _ _ _ _ (ld_chain _ _ _ _ _ _ _ _ _ (sy_load _ _ _ _ _ _ _ _ _ _ _ (tr_synced _ _ _ _ _ _ _ _ _ _ _ _ _ T))))). Qed.

Lemma area_old : area_ok g e1.
Proof using T.
  destruct Tarea as [A1 A2 A3]; destruct (tr_grow _ _ _ _ _ _ _ _ _ _ _ _ _ T) as [G1 G2]; split; [lia| |].
  - intros x Hx; rewrite G2 by done; apply A2; lia.
  - intros x y Hx Hy; rewrite !G2 by done; apply A3; lia.
Qed.

(** The dirty pages are not where the committed ones are. *)
Lemma apart (ino i ino' i' : Z) : moved_away mc t N -> meta_page g mc ino i -> special ino' -> is_Some (dirty_pages c ino' !! i') -> blk mc e1 ino i <> blk m e ino' i'.
Proof using T Hg Hd Hlp.
  intros Hmv Hi Hs Hi' E; destruct (tr_grow _ _ _ _ _ _ _ _ _ _ _ _ _ T) as [G1 G2].
  pose proof (iblk_range g Hg Hshift Hlp mc _ ino i (tr_old _ _ _ _ _ _ _ _ _ _ _ _ _ T) Hi) as Hr; pose proof (iblk_range g Hg Hshift Hlp m _ ino' i' Tplaced (Tdirty _ _ Hs Hi')) as Hr'.
  destruct (blk_some g Hg Hshift Hlp mc e1 ino i area_old (tr_old _ _ _ _ _ _ _ _ _ _ _ _ _ T) Hi) as (B1 & _); destruct (blk_some g Hg Hshift Hlp m e ino' i' Tarea Tplaced (Tdirty _ _ Hs Hi')) as (B2 & _).
  rewrite G2 in B1 by done; rewrite <- E in B2; pose proof (ar_inj _ _ Tarea (iblk mc ino i) (iblk m ino' i') ltac:(lia) Hr' (eq_trans B1 (eq_sym B2))) as Ei.
  pose proof (proj1 (dirty_page _ _ _ _ _ _ TW ino' i' Hs) Hi') as Hn; apply (Hmv ino' _ (iblk m ino' i') Hs Hn); [apply (iblk_covers g Hg Hshift Hlp)|].
  exists (ino, i / unit_of g ino); split; [done|]; rewrite <- Ei; apply (iblk_covers g Hg Hshift Hlp).
Qed.

(** A committed page that no dirty page overwrites is read as before. *)
Lemma kept_read (d' : device) (ino i : Z) :
  kept d' -> meta_page g mc ino i -> (forall ino' i', special ino' -> is_Some (dirty_pages c ino' !! i') -> blk mc e1 ino i <> blk m e ino' i') ->
  read_meta mc e1 d ino i = Some (page_at d' (8 * blk mc e1 ino i)).
Proof using T Hg Hd Hlp.
  intros Hk Hi Hap; pose proof (tr_old _ _ _ _ _ _ _ _ _ _ _ _ _ T) as Hp; rewrite (read_meta_ok g Hg Hshift Hlp) by (done || apply base_mc || apply area_old).
  destruct (blk_some g Hg Hshift Hlp mc e1 ino i area_old Hp Hi) as (_ & _ & _ & Hb); by rewrite Hk.
Qed.

(** A page that is not dirty has its place of the last commit. *)
Lemma clean_page (ino i : Z) : meta_page g m ino i -> dirty_pages c ino !! i = None -> meta_page g mc ino i /\ blk mc e1 ino i = blk m e ino i.
Proof using T Hg Hd Hlp.
  intros Hi Ep; assert (i / unit_of g ino ∉ N ino) as Hn by (intros Hn; apply (dirty_page _ _ _ _ _ _ TW) in Hn; [|apply Hi]; destruct Hn; congruence).
  destruct (tr_clean _ _ _ _ _ _ _ _ _ _ _ _ _ T _ Hi Hn) as [Hc Epl]; split; [done|].
  unfold MetaPlace.blk; assert (iblk m ino i = iblk mc ino i) as -> by (unfold MetaPlace.iblk; by rewrite Epl).
  rewrite (proj2 (tr_grow _ _ _ _ _ _ _ _ _ _ _ _ _ T)); [done|]; apply (iblk_range g Hg Hshift Hlp); [apply T|done].
Qed.

Lemma clean_read (d' : device) (ino i : Z) : kept d' -> meta_page g m ino i -> dirty_pages c ino !! i = None -> read_meta mc e1 d ino i = Some (page_at d' (8 * blk m e ino i)).
Proof using T Hg Hd Hlp.
  intros Hk Hi Ep; destruct (clean_page ino i Hi Ep) as [Hc Eb]; rewrite <- Eb; apply kept_read; [done|done|]; intros ino' i' Hs Hi' E; rewrite Eb in E.
  destruct (blk_inj _ _ _ _ _ _ TW _ _ _ _ Hi (Tdirty _ _ Hs Hi') E) as [<- <-]; destruct Hi'; congruence.
Qed.

Lemma old_mounts (d' : device) :
  moved_away mc t N -> kept d' -> loadable g crc32 d' h mount s0 mb es mc ->
  (let x := chosen (version mount s0) (fst (exsb_disk d')) (snd (exsb_disk d')) in meta x = meta e1 /\ meta_tbc x = meta_tbc e1) ->
  mount_reads d' (meta_page g mc) (read_meta mc e1 d).
Proof using T Hg Hd Hlp H19.
  intros Hmv Hk Hld [Hx1 Hx2]; apply (mount_spec d' h mount s0 mb mc mc es e1); auto using area_old; [done|apply T|]; intros ino i Hi; apply kept_read; auto using apart.
Qed.

Lemma new_mounts (d' : device) (h' mount' s0' : Z) (mb' mc' : list Z) (es' : list (list Z)) :
  kept d' -> (forall ino i, special ino -> is_Some (dirty_pages c ino !! i) -> page_at d' (8 * blk m e ino i) = signed g crc32 bt c v ino i) ->
  loadable g crc32 d' h' mount' s0' mb' es' mc' -> same_shape m mc' -> (forall k, is_chunk m k -> place mc' k = place m k) ->
  (let x := chosen (version mount' s0') (fst (exsb_disk d')) (snd (exsb_disk d')) in meta x = meta e /\ meta_tbc x = meta_tbc e) ->
  mount_reads d' (meta_page g m) new_page.
Proof using T Hg Hd Hlp H19.
  intros Hk Hnew Hld Hsh Hpl [Hx1 Hx2]; apply (mount_spec d' h' mount' s0' mb' mc' m es' e); auto; [exact Tplaced|exact Tarea|].
  intros ino i Hi; unfold new_page; destruct (dirty_pages c ino !! i) as [p|] eqn:Ep; [by rewrite Hnew by (eauto; apply Hi)|by apply clean_read].
Qed.

(** ** The superblocks *)

Definition reads_exsb (V : Z) (X : exsb * exsb) (x : exsb) : Prop := meta (chosen V (fst X) (snd X)) = meta x /\ meta_tbc (chosen V (fst X) (snd X)) = meta_tbc x.

#[local] Abbreviation new_version := (version (mount_counter e) (sync_count t)).

Lemma exsb_clean (V : Z) : reads_exsb V (exsb_disk d) e1.
Proof using T. unfold reads_exsb, chosen; rewrite (tr_exsb _ _ _ _ _ _ _ _ _ _ _ _ _ T), Z.eqb_refl; done. Qed.

(** Writing the second superblock in front of the commit, and the first one behind. *)
Lemma exsb_steps : dirty = true ->
  exists e' d1, vdfs4_sync_exsb g e (sync_count t) true d = (0, e', d1) /\ disk d1 = disk d /\ (answers d = [] -> answers d1 = [])
  /\ meta e' = meta e /\ mount_counter e' = mount_counter e
  /\ reads_exsb (version mount s0) (exsb_disk d1) e1 /\ (superblock_in_front d e dirty -> reads_exsb new_version (exsb_disk d1) e)
  /\ forall d3, exsb_disk d3 = exsb_disk d1 -> exists e2 d4, vdfs4_sync_exsb g e' (sync_count t) false d3 = (0, e2, d4) /\ disk d4 = disk d3
     /\ (superblock_in_front d e dirty -> reads_exsb new_version (exsb_disk d4) e).
Proof using T H19.
  intros Ed; pose proof (tr_super _ _ _ _ _ _ _ _ _ _ _ _ _ T) as Hsu; rewrite Ed in Hsu; rename Hsu into Hne; pose proof (tr_exsb _ _ _ _ _ _ _ _ _ _ _ _ _ T) as Hx.
  pose proof (tr_synced _ _ _ _ _ _ _ _ _ _ _ _ _ T) as Hsy; pose proof (sy_new _ _ _ _ _ _ _ _ _ _ _ Hsy) as Hnew; pose proof (sy_sync _ _ _ _ _ _ _ _ _ _ _ Hsy) as Hs0; pose proof (tr_sync _ _ _ _ _ _ _ _ _ _ _ _ _ T) as Hs1.
  pose proof (lenZ_nonneg es) as Hes; unfold vdfs4_sync_exsb, VDFS4_1ST_EXSB_ADDR, VDFS4_2ND_EXSB_ADDR; change SECTORS_PER_PAGE with 8; rewrite !(proj2 (Z.ltb_ge _ _)) by lia.
  set (e' := Exsb (mount_counter e) (sync_count t) (meta e) (meta_tbc e)); assert (exsb_version e' = new_version) as Ev by (unfold exsb_version; cbn; apply lor_version; lia).
  assert (version mount s0 <> new_version) as Hv by (unfold version in *; lia).
  destruct (answer d) as [[a k] d1] eqn:Ea; destruct (answer_disk _ _ _ Ea) as [Ed1 Ex1]; unfold superblock_in_front; rewrite Ea; cbn [fst].
  exists e', (if a =? 0 then Device (disk d1) (fst (exsb_disk d1), e') (answers d1) else d1); split; [done|]; split; [by destruct (a =? 0)|].
  split; [intros Ha; rewrite (answer_calm d Ha) in Ea; injection Ea as <- <- <-; done|]; split; [done|]; split; [done|].
  unfold reads_exsb, chosen; destruct (Z.eqb_spec a 0) as [->|Na]; cbn [exsb_disk fst snd]; rewrite ?Ex1.
  - rewrite Ev, (proj2 (Z.eqb_neq _ _ ) Hne), (proj2 (Z.eqb_neq _ _) Hv), Z.eqb_refl; split; [done|]; split; [done|]; intros d3 E3.
    destruct (answer d3) as [[b k'] d4] eqn:Eb; destruct (answer_disk _ _ _ Eb) as [Ed4 Ex4]; eexists _, _; split; [reflexivity|].
    destruct (b =? 0); cbn [exsb_disk fst snd disk]; rewrite ?Ex4, ?E3; cbn [fst snd]; (split; [done|]); [rewrite Z.eqb_refl; done|]; rewrite Ev, (proj2 (Z.eqb_neq _ _) Hne), Z.eqb_refl; done.
  - rewrite Hx, Z.eqb_refl; split; [done|]; split; [intros HS; destruct (HS Ed) as [Hor|[Hm1 Hm2]]; done|]; intros d3 E3.
    destruct (answer d3) as [[b k'] d4] eqn:Eb; destruct (answer_disk _ _ _ Eb) as [Ed4 Ex4]; eexists _, _; split; [reflexivity|].
    split; [by destruct (b =? 0)|]; intros HS; destruct (HS Ed) as [Hor|[Hm1 Hm2]]; [done|].
    destruct (b =? 0); cbn [exsb_disk fst snd disk]; rewrite ?Ex4, ?E3; [|rewrite Hx, Z.eqb_refl; done].
    change (exsb_version (Exsb (mount_counter e') (sync_count t) (meta e') (meta_tbc e'))) with (exsb_version e'); rewrite Ev, <- Hx, (proj2 (Z.eqb_neq _ _)) by done; done.
Qed.

(** ** The commit *)

(** A mount finds the new metadata area whichever tables it finds: those with the
    version of this commit, when the whole base table is written. *)
Definition reads_now (t1 : tables) (d' : device) : Prop :=
  forall mt s, (use_base_table t1 = true -> mt = mount_counter e /\ s = sync_count t) -> reads_exsb (version mt s) (exsb_disk d') e.

(** The superblocks in front of the commit, and behind it. *)
Lemma exsb_stage (F : cache -> cache) :
  exists e' t1 d1,
    (if dirty then let '(ret, e, d) := vdfs4_sync_exsb g e (sync_count t) true d in
       (ret, e, Tables (base_t t) (extended_table t) (iblock t) (sync_count t) (dirty_pages_count t) true (exteneded_table_count t), d)
     else (0, e, t, d)) = (0, e', t1, d1)
  /\ t1 = (if dirty then ask_base t else t) /\ disk d1 = disk d /\ (answers d = [] -> answers d1 = []) /\ meta e' = meta e /\ mount_counter e' = mount_counter e
  /\ reads_exsb (version mount s0) (exsb_disk d1) e1
  /\ (superblock_in_front d e dirty -> reads_now t1 d1)
  /\ forall c' d3, exsb_disk d3 = exsb_disk d1 -> exists e2 d4,
    (if dirty then let '(ret, e, d) := vdfs4_sync_exsb g e' (sync_count t) false d3 in (ret, e, if ret =? 0 then c' else F c', d) else (0, e', c', d3)) = (0, e2, c', d4)
    /\ disk d4 = disk d3 /\ (superblock_in_front d e dirty -> reads_now t1 d4).
Proof using T H19.
  assert (dirty = true \/ dirty = false) as [Ed|Ed] by (destruct dirty; auto); unfold reads_now; rewrite Ed.
  - destruct (exsb_steps Ed) as (e' & d1 & E & Hd1 & Hq & Hm & Hmc & Ho & Hn & Hl); rewrite E; rewrite Ed in Hn, Hl; exists e', (ask_base t), d1; do 7 (split; [done|]); split.
    + intros HS mt s Hu; destruct (Hu eq_refl) as [-> ->]; auto.
    + intros c' d3 E3; destruct (Hl d3 E3) as (e2 & d4 & E4 & Hd4 & Hr4); rewrite E4; exists e2, d4; split; [done|]; split; [done|]; intros HS mt s Hu; destruct (Hu eq_refl) as [-> ->]; auto.
  - pose proof (tr_super _ _ _ _ _ _ _ _ _ _ _ _ _ T) as Hsu; rewrite Ed in Hsu; destruct Hsu as [S1 S2].
    assert (forall V, reads_exsb V (exsb_disk d) e) as Hr by (intros V; destruct (exsb_clean V) as [X1 X2]; split; congruence).
    exists e, t, d; do 6 (split; [done|]); split; [apply exsb_clean|]; split; [auto|]; intros c' d3 E3; exists e, d3; rewrite E3; auto.
Qed.

(** The tables behind the pages: a mount reads the old pages or the new ones. *)
Lemma table_stage (t1 : tables) (m' : list Z) (d1 d2 : device) :
  t1 = (if dirty then ask_base t else t) -> disk d1 = disk d -> restamped m m' -> exsb_disk d2 = exsb_disk d1 ->
  (forall x, 0 <= x <= tables_length g -> page d2 x = page d1 x) -> kept d2 ->
  (forall ino i, special ino -> is_Some (dirty_pages c ino !! i) -> page_at d2 (8 * blk m e ino i) = signed g crc32 bt c v ino i) ->
  reads_exsb (version mount s0) (exsb_disk d1) e1 ->
  exists ret t3 d3, vdfs4_update_translation_tables g crc32 (mount_counter e) (set_base m' t1) d2 = Ok (ret, t3, d3) /\ exsb_disk d3 = exsb_disk d1
  /\ (moved_away mc t N -> reads_now t1 d1 -> mount_reads d3 (meta_page g mc) (read_meta mc e1 d) \/ mount_reads d3 (meta_page g m) new_page)
  /\ (answers d2 = [] -> ret = 0) /\ (ret = 0 -> (forall d4, disk d4 = disk d3 -> reads_now t1 d4 -> mount_reads d4 (meta_page g m) new_page)
      /\ sync_count t3 = sync_count t /\ base_ok (base_t t3) /\ same_shape m (base_t t3) /\ (forall k, is_chunk m k -> place (base_t t3) k = place m k) /\ exists h' mount' s0' mb' es' mc', same_shape m mc' /\ (forall k, is_chunk m k -> place mc' k = place m k)
         /\ synced g crc32 d3 h' mount' s0' mb' es' mc' (Tables (base_t t3) (extended_table t3) (iblock t3) (sync_count t3 + 1) (dirty_pages_count t3) (use_base_table t3) (exteneded_table_count t3)) (mount_counter e)).
Proof using T Hg Hd Hcrc Hlp H19.
  intros Et1 Ed1 Hr Ex2 Hpg Hk Hnew Hro; pose proof (tr_synced _ _ _ _ _ _ _ _ _ _ _ _ _ T) as Hsy; pose proof Hr as [R1 R2 R3 R4 R5].
  assert (forall d', disk d' = disk d -> synced g crc32 d' h mount s0 mb es mc (set_base m' t1) (mount_counter e)) as Hsy1.
  { intros d' Ed'; apply (synced_frame d); [|intros x _; rewrite !page_block; unfold page_at; by rewrite Ed']; apply synced_restamped; [rewrite Et1; destruct dirty; [by apply synced_base|done]|].
    rewrite Et1; destruct dirty; exact Hr. }
  assert (base_t t1 = m /\ sync_count t1 = sync_count t) as [Eb1 Es1] by (rewrite Et1; by destruct dirty).
  pose proof (synced_frame d1 d2 _ _ _ _ _ _ _ _ (Hsy1 d1 Ed1) Hpg) as Hsy2; destruct (commit_tables_spec g Hd crc32 Hcrc d2 h mount s0 mb es mc (set_base m' t1) (mount_counter e) Hsy2) as (ret & t3 & d3 & E & Hor & Ex3 & Hout & Hq & Hz).
  { cbn; rewrite Es1; apply T. }
  exists ret, t3, d3; split; [exact E|]; split; [congruence|].
  assert (forall b, b < tables_begin g \/ tables_begin g + tables_length g < b -> page_at d3 (8 * b) = page_at d2 (8 * b)) as Ho.
  { intros b Hb; specialize (Hout (b - tables_begin g) ltac:(lia)); rewrite !page_block in Hout; replace (tables_begin g + (b - tables_begin g)) with b in Hout by lia; done. }
  assert (forall d4, disk d4 = disk d3 -> kept d4) as Hk4 by (intros d4 E4 b Hb Hn; unfold page_at at 1; rewrite E4; rewrite <- Hk by done; by apply Ho).
  assert (forall d4, disk d4 = disk d3 -> recovers g crc32 d3 (set_base m' t1) (mount_counter e) ->
    reads_now t1 d4 -> mount_reads d4 (meta_page g m) new_page) as Hrec.
  { intros d4 E4 (h' & mt & s & mb' & es' & mc' & Hld & Hsh & Hpl & Hv) Hx4; cbn [set_base base_t use_base_table sync_count] in *; rewrite Es1 in Hv.
    eapply (new_mounts d4 h' mt s mb' mc' es'); auto.
    - intros ino i Hs Hi; rewrite <- Hnew by done; unfold page_at at 1; rewrite E4; apply Ho.
      destruct (blk_some g Hg Hshift Hlp m e ino i Tarea Tplaced (Tdirty ino i Hs Hi)) as (_ & _ & _ & B); done.
    - eapply loadable_frame; [exact Hld| |]; [intros x _|]; rewrite !page_block; unfold page_at; by rewrite E4.
    - by eapply shape_trans.
    - intros k Hc; rewrite Hpl, R5; [done|done|by apply (same_chunk m m')].
    - apply Hx4; intros Hu; destruct (Hv Hu); done. }
  split.
  - intros Hmv Hrn; destruct Hor as [Hld|Hre]; [left|right].
    + apply old_mounts; auto; rewrite Ex3, Ex2; done.
    + apply Hrec; [done|done|]; unfold reads_now; rewrite Ex3, Ex2; done.
  - split; [exact Hq|]; intros Hr0; destruct (Hz Hr0) as (Hre & Esc & h' & mt & s & mb' & es' & mc' & Hsh3 & Hpl3 & Hsh & Hpl & Hsy3); cbn [set_base base_t] in *.
    split; [intros d4 E4 Hx4; by apply Hrec|]; split; [cbn in Esc; congruence|]; split.
    + apply Hsy3.
    + assert (forall k, is_chunk m k -> is_chunk m' k) as Hk' by (intros k Hc; by apply (same_chunk m m')).
      split; [by eapply shape_trans|]; split; [intros k Hc; rewrite Hpl3, R5 by auto; done|]; exists h', mt, s, mb', es', mc'; split; [by eapply shape_trans|]; split; [|done].
      intros k Hc; rewrite Hpl, R5 by auto; done.
Qed.

End Transaction.

End Commit.
