(* ===== verification/MetaTheorems.v ===== *)
(** The properties of the write-back of metadata (src/linux/fs/vdfs4/data.c): the
    commit of a transaction is atomic for the pages of all special files, and the
    write of the dirty pages ends. *)

From Stdlib Require Import ZArith Lia Bool List.
From stdpp Require Import base list gmap sorting.
From S2P Require Import Prelude Bytes Bitmap FindBit Buffer Rbtree Ranges FsmTree Fsm FsmCounters FsmSpace FsmAlloc FsmTheorems Bnode Snapshot SnapshotDisk SnapshotRep SnapshotCow SnapshotTable SnapshotStep SnapshotSeal SnapshotLoad SnapshotCommit SnapshotAtomic SnapshotTheorems MetaWrite MetaRep MetaFiles MetaSign MetaBio MetaLoop MetaPlace MetaCommit.

Open Scope Z_scope.

(** A volume on which metadata can be written: nodes fit a batch, a page is a block,
    and the device holds both superblocks. *)
Record volume_ok `{PageCache} (g : geom) (crc32 : list Z -> Z) (bt : btree) : Prop := {
  vo_geom : geom_ok g;
  vo_disk : disk_ok g;
  vo_crc : forall l, 0 <= crc32 l < 2 ^ 32;
  vo_node : node_size_bytes bt = PAGE_SIZE * pages_per_node g;
  vo_page : log_blocks_in_page g = 0;
  vo_batch : pages_per_node g <= PAGEVEC_SIZE;
  vo_device : 19 <= Z.shiftr (bdev_nr_bytes g) SECTOR_SIZE_SHIFT < 2 ^ 60
}.

Section Theorems.
Context {area : ZeroArea} `{Hfind : FindBitLaws} `{Hrb : RbtreeLaws} `{Hpc : PageCacheLaws} `{Hba : BioAddLaws}.

(** The whole commit, on every device and on one that answers every call. *)
Lemma sync_spec (g : geom) (crc32 : list Z -> Z) (bt : btree) (stat debug : bool) (sbi : sb_info) (nb : Z) (discard : Z -> Z -> Z)
    (d : device) (h mount s0 : Z) (mb : list Z) (es : list (list Z)) (mc : list Z) (mp : maps) (t : tables) (e : exsb) (dirty : bool) (c : cache) (N : Z -> list Z) (f : fsm_info) (fa na : list range) :
  volume_ok g crc32 bt -> transaction g crc32 bt d h mount s0 mb es mc mp t e (dirty || stat) c N -> dirty_pages_count t <> 0 ->
  fsm_inv sbi nb f fa na -> (forall s n, discard s n = 0 \/ discard s n = - EOPNOTSUPP) ->
  let e1 := fst (exsb_disk d) in
  exists ret s' log, vdfs4_sync_metadata g crc32 bt false stat debug sbi discard (Fs mp t e dirty c f d) = Ok (ret, s', log)
  /\ (superblock_in_front d e (dirty || stat) -> moved_away g mc t N ->
      mount_reads g crc32 (f_device s') (meta_page g mc) (read_meta g mc e1 d)
      \/ mount_reads g crc32 (f_device s') (meta_page g (base_t t)) (new_page g crc32 bt d mc t e c))
  /\ (ret = 0 -> (superblock_in_front d e (dirty || stat) -> mount_reads g crc32 (f_device s') (meta_page g (base_t t)) (new_page g crc32 bt d mc t e c))
      /\ (forall ino, special ino -> dirty_pages (f_cache s') ino = ∅)
      /\ (let t' := f_tables s' in same_shape (base_t t) (base_t t') /\ snap_ok g (held g (base_t t')) (f_maps s') (base_t t')
          /\ exists h' mount' s0' mb' es' mc', synced g crc32 (f_device s') h' mount' s0' mb' es' mc' t' (mount_counter e))
      /\ exists fa', fsm_inv sbi nb (f_fsm s') fa' [])
  /\ (calm c d -> all_sound g bt c N -> ret = 0).
Proof using Hfind Hrb Hpc Hba.
  intros [Hg Hd Hcrc Hbt Hlp Hpv [H19 H60]] T Hdp Hf Hdis e1; unfold vdfs4_sync_metadata; rewrite (proj2 (Z.eqb_neq _ _) Hdp).
  destruct (exsb_stage g crc32 bt H19 _ _ _ _ _ _ _ _ _ _ _ _ _ T fatal_error) as (e' & t1 & d1 & -> & Et1 & Ed1 & Ha1 & Em & Emc & Hro & Hrn & Hl); cbn [Z.eqb negb].
  assert (base_t t1 = base_t t /\ sync_count t1 = sync_count t) as [Eb1 Es1] by (rewrite Et1; by destruct (dirty || stat)); rewrite Emc, Eb1, Es1.
  pose proof (tr_write _ _ _ _ _ _ _ _ _ _ _ _ _ _ _ _ T) as TW; destruct (meta_stage g Hg Hd crc32 bt Hbt Hlp H60 Hpv _ _ _ _ _ _ TW d1 e' Em) as (ret & m' & c' & d2 & E2 & Hr & Ex2 & Hpg & Hkd & Hz & Hcm); rewrite E2; cbn [mbind run_bind].
  assert (kept g t e c d d2) as Hk by (intros b Hb Hn; rewrite Hkd by done; unfold page_at; by rewrite Ed1); destruct (Z.eqb_spec ret 0) as [->|Nr]; cbn [negb].
  2: { eexists _, _, _; split; [reflexivity|]; split; [intros _ Hmv; left|split; [done|intros [Hc1 Hc2] Hso; apply Hcm; [split; auto|done]]]; cbn [f_device]; eapply (old_mounts g Hg Hd crc32 bt Hlp H19); eauto; [|by rewrite Ex2].
       eapply sy_load, synced_frame; [exact Hd|apply (tr_synced _ _ _ _ _ _ _ _ _ _ _ _ _ _ _ _ T)|]; intros x Hx; rewrite Hpg by done; unfold page, page_at; by rewrite Ed1. }
  destruct (Hz eq_refl) as [Hcl Hnew]; pose proof (wr_snap _ _ _ _ _ _ _ _ TW) as Hsn.
  destruct (update_bitmaps_spec g Hg false _ mp (base_t t) Hsn ltac:(done)) as (mp' & Eu & _ & _ & _ & _ & Hsn'); rewrite Eu; cbn [mbind run_bind].
  destruct (table_stage g Hg Hd crc32 bt Hcrc Hlp H19 _ _ _ _ _ _ _ _ _ _ _ _ _ T t1 m' d1 d2 Et1 Ed1 Hr Ex2 Hpg Hk Hnew Hro) as (ret & t3 & d3 & E3 & Ex3 & Hor & Hq3 & Hz3); rewrite E3; cbn [mbind run_bind].
  destruct (Z.eqb_spec ret 0) as [->|Nr]; cbn [negb]; [|eexists _, _, _; split; [reflexivity|]; split; [auto|]; split; [done|]; intros [Hc1 Hc2] Hso; apply Hq3, Hcm; [split; auto|done]].
  destruct (Hz3 eq_refl) as (Hmnt & Es3 & B3 & S3 & P3 & h' & mt & s & mb' & es' & mc' & _ & _ & Hsy3).
  rewrite Es3; destruct (Hl c' d3 Ex3) as (e2 & d4 & -> & Ed4 & Hr4); destruct (commit_spec debug sbi nb discard f fa na Hf Hdis) as (f' & fa' & log & Ef & Hf' & _); rewrite Ef; cbn [mbind run_bind].
  eexists 0, _, log; split; [reflexivity|]; cbn [f_device f_cache f_tables f_maps f_fsm]; split; [right; auto|]; split; [|done]; intros _; split; [auto|]; split; [exact Hcl|].
  split; [|eauto]; cbn [base_t]; split; [done|]; split.
  - eapply snap_ok_ext; [|apply (snap_same g _ mp' (base_t t)); [done|done|done|exact Hsn']].
    intros b; unfold held; split; intros (k & Hk1 & Hk2); exists k; rewrite (same_chunk (base_t t) (base_t t3)) in * by done; unfold covers in *; rewrite P3 in * by done; done.
  - pose proof (tr_sync _ _ _ _ _ _ _ _ _ _ _ _ _ _ _ _ T) as Hs11; pose proof (sy_sync _ _ _ _ _ _ _ _ _ _ _ (tr_synced _ _ _ _ _ _ _ _ _ _ _ _ _ _ _ _ T)) as Hs00.
    rewrite u32_small by lia; rewrite Es3 in Hsy3; exists h', mt, s, mb', es', mc'; eapply synced_frame; [exact Hd|exact Hsy3|]; intros x _; unfold page, page_at; by rewrite Ed4.
Qed.

(** C1: The commit of a transaction returns whatever the device answers, and it is
    atomic. On a volume of 4096-byte blocks with nodes that fit a batch, with the dirty
    pages whole chunks that can be signed, discards that answer 0 or -EOPNOTSUPP, and a batch of room between the metadata area and the end of the device
    ([transaction]), [vdfs4_sync_metadata] returns for every sequence of answers to the
    writes of superblocks, pages and tables. Let the write of the superblock in front of
    the commit succeed, unless the metadata area has not grown since the last commit
    ([superblock_in_front]; the driver ignores its result), and let the dirty chunks have
    been moved away from the committed snapshot ([moved_away]). Then a mount afterwards
    reads every metadata page as the last commit left it, or reads every dirty page as
    it was signed and the others as before. When the code is 0 it is the latter, also
    for chunks that could not be moved; nothing is dirty, the freed blocks have been
    given back, and the tables and bitmaps are those of the next transaction. *)
Theorem sync_metadata_atomic (g : geom) (crc32 : list Z -> Z) (bt : btree) (stat debug : bool) (sbi : sb_info) (nb : Z) (discard : Z -> Z -> Z)
    (d : device) (h mount s0 : Z) (mb : list Z) (es : list (list Z)) (mc : list Z) (mp : maps) (t : tables) (e : exsb) (dirty : bool) (c : cache) (N : Z -> list Z) (f : fsm_info) (fa na : list range) :
  volume_ok g crc32 bt -> transaction g crc32 bt d h mount s0 mb es mc mp t e (dirty || stat) c N -> dirty_pages_count t <> 0 ->
  fsm_inv sbi nb f fa na -> (forall s n, discard s n = 0 \/ discard s n = - EOPNOTSUPP) ->
  let e1 := fst (exsb_disk d) in
  exists ret s' log, vdfs4_sync_metadata g crc32 bt false stat debug sbi discard (Fs mp t e dirty c f d) = Ok (ret, s', log)
  /\ (superblock_in_front d e (dirty || stat) -> moved_away g mc t N ->
      mount_reads g crc32 (f_device s') (meta_page g mc) (read_meta g mc e1 d)
      \/ mount_reads g crc32 (f_device s') (meta_page g (base_t t)) (new_page g crc32 bt d mc t e c))
  /\ (ret = 0 -> (superblock_in_front d e (dirty || stat) -> mount_reads g crc32 (f_device s') (meta_page g (base_t t)) (new_page g crc32 bt d mc t e c))
      /\ (forall ino, special ino -> dirty_pages (f_cache s') ino = ∅)
      /\ (let t' := f_tables s' in same_shape (base_t t) (base_t t') /\ snap_ok g (held g (base_t t')) (f_maps s') (base_t t')
          /\ exists h' mount' s0' mb' es' mc', synced g crc32 (f_device s') h' mount' s0' mb' es' mc' t' (mount_counter e))
      /\ exists fa', fsm_inv sbi nb (f_fsm s') fa' []).
Proof using Hfind Hrb Hpc Hba.
  intros Hv T Hdp Hf Hdis e1; destruct (sync_spec g crc32 bt stat debug sbi nb discard d h mount s0 mb es mc mp t e dirty c N f fa na Hv T Hdp Hf Hdis) as (ret & s' & log & E & Hor & Hz & _); eauto 10.
Qed.

(** C7: The commit makes progress. On a device that answers every call, with no write
    that has failed before and dirty nodes that pass their check, [vdfs4_sync_metadata]
    returns 0, so a mount afterwards reads the new pages. *)
Theorem sync_metadata_succeeds (g : geom) (crc32 : list Z -> Z) (bt : btree) (stat debug : bool) (sbi : sb_info) (nb : Z) (discard : Z -> Z -> Z)
    (d : device) (h mount s0 : Z) (mb : list Z) (es : list (list Z)) (mc : list Z) (mp : maps) (t : tables) (e : exsb) (dirty : bool) (c : cache) (N : Z -> list Z) (f : fsm_info) (fa na : list range) :
  volume_ok g crc32 bt -> transaction g crc32 bt d h mount s0 mb es mc mp t e (dirty || stat) c N -> dirty_pages_count t <> 0 ->
  fsm_inv sbi nb f fa na -> (forall s n, discard s n = 0 \/ discard s n = - EOPNOTSUPP) -> calm c d -> all_sound g bt c N ->
  exists s' log, vdfs4_sync_metadata g crc32 bt false stat debug sbi discard (Fs mp t e dirty c f d) = Ok (0, s', log)
  /\ mount_reads g crc32 (f_device s') (meta_page g (base_t t)) (new_page g crc32 bt d mc t e c).
Proof using Hfind Hrb Hpc Hba.
  intros Hv T Hdp Hf Hdis Hc Hso; destruct (sync_spec g crc32 bt stat debug sbi nb discard d h mount s0 mb es mc mp t e dirty c N f fa na Hv T Hdp Hf Hdis) as (ret & s' & log & E & _ & Hz & Hlv).
  rewrite (Hlv Hc Hso) in *; exists s', log; split; [exact E|]; apply Hz; [done|]; intros _; left; by rewrite (answer_calm d (proj1 Hc)).
Qed.

(** C8: The write of the dirty pages ends, whatever the device answers. The hypotheses
    are those of [writable]: the bitmaps describe the tables, the dirty pages of every
    special file are whole chunks of it, with their magic where the file is a bitmap and
    with nodes whose check ends, and a batch of pages fits between any block of the
    metadata area and the end of the device (a volume of 4096-byte blocks whose nodes
    fit a batch). The write changes no block of the volume but those of the dirty pages,
    keeps the places in the base table, and returns 0 only when every dirty page is on
    the device, signed, and nothing is dirty. *)
Theorem meta_write_correct (g : geom) (crc32 : list Z -> Z) (bt : btree) (C : Z -> Prop) (mp : maps) (t : tables) (e : exsb) (c : cache) (N : Z -> list Z) (d : device) :
  volume_ok g crc32 bt -> writable g bt C mp t e c N ->
  exists ret m' c' d', vdfs4_meta_write g crc32 bt (mount_counter e) (sync_count t) (base_t t) e c d = Ok (ret, m', c', d')
  /\ restamped (base_t t) m' /\ exsb_disk d' = exsb_disk d /\ (forall x, 0 <= x <= tables_length g -> page g d' x = page g d x)
  /\ kept g t e c d d'
  /\ (ret = 0 -> (forall ino, special ino -> dirty_pages c' ino = ∅)
      /\ forall ino i, special ino -> is_Some (dirty_pages c ino !! i) ->
           page_at d' (8 * blk g (base_t t) e ino i) = signed g crc32 bt c (generate_version (mount_counter e) (sync_count t)) ino i).
Proof using Hpc Hba.
  intros [Hg Hd Hcrc Hbt Hlp Hpv [H19 H60]] W.
  destruct (meta_stage g Hg Hd crc32 bt Hbt Hlp H60 Hpv C mp t e c N W d e eq_refl) as (ret & m' & c' & d2 & E2 & Hr & Ex2 & Hpg & Hk & Hz & _); eauto 15.
Qed.

End Theorems.

(** ** A volume *)

(** The volume of the tables, with the page of the space bitmap changed. *)
Section Volume.
Import Plain PlainArea PlainFind PlainPages.

Definition btree1 : btree := Btree 16384 0 true false.

Definition step1 : maps * tables := match vdfs4_add_chunk_no_lock g0 maps0 tables0 3 0 with Ok r => r | _ => (maps0, tables0) end.
Definition page1 : list Z := FSM_BMP_MAGIC ++ replicate 4092 7.
Definition cache1 : cache := Cache (fun ino => if ino =? 3 then {[0 := page1]} else ∅) (fun _ => false) false.
Definition chunks1 (ino : Z) : list Z := if ino =? 3 then [0] else [].

Lemma volume1 : volume_ok g0 sum32 btree1.
Proof.
  split; [apply geom0_ok|apply disk0_ok|apply sum32_range|reflexivity|reflexivity|vm_compute; discriminate|].
  split; vm_compute; [discriminate|reflexivity].
Qed.

Lemma chunk1 : is_chunk table0 (3, 0).
Proof. split; [rewrite special_range; cbn; lia|]; cbn [fst snd]; replace (cnt table0 3) with 1 by (vm_compute; reflexivity); lia. Qed.

Lemma added1 : added g0 snapshot0 table0 maps0 tables0 (3, 0) (fst step1) (snd step1).
Proof. destruct (add_chunk_spec g0 geom0_ok snapshot0 table0 maps0 tables0 3 0 snap0 tab0 eq_refl chunk1) as (s & t & E & H); unfold step1; rewrite E; exact H. Qed.

Lemma synced1 (l : list (Z * nat)) : synced g0 sum32 (device0 l) 0 1 1 table0 [] table0 (snd step1) 1.
Proof.
  destruct (synced0 l) as [Hld Hb Hl Hnp Hr Htab Hle Hm Hsn Hnew Hib Hcnt Hnx Hcl]; pose proof added1 as [A1 A2 A3 A4 A5 A6 A7 (A8 & A9 & A10)].
  pose proof (sn_base _ _ _ _ A1) as B1; assert (np (base_t (snd step1)) = 1) as En by (unfold np; rewrite (total_shape _ _ A3); exact np0).
  assert (lenZ (base_t (snd step1)) = PAGE_SIZE) as El by (vm_compute; reflexivity); assert (use_base_table (snd step1) = false) as Eu by (vm_compute; reflexivity).
  change (np (base_t tables0)) with (np table0) in *; rewrite np0 in *; revert A2 A7 A8 A9 A10 B1 En El Eu; clear A1 A3 A4 A5 A6; generalize (snd step1); intros t A2 A7 A8 A9 A10 B1 En El Eu.
  split; rewrite ?A8, ?A9, ?A10, ?En, ?El, ?np0; try assumption; intros _; exact (Hnx eq_refl).
Qed.

Lemma area1 : area_ok g0 exsb0.
Proof.
  assert (forall x, 0 <= x < 64 -> get_meta_block exsb0 x = Val (200 + x)) as E.
  { intros x Hx; unfold get_meta_block, exsb0; cbn [meta get_meta_loop]; change (0 +64 64) with 64; rewrite (proj2 (Z.leb_le _ _)), (proj2 (Z.ltb_lt _ _)) by lia; cbn [andb].
    rewrite u64_small by lia; f_equal; lia. }
  change (meta_tbc exsb0) with 64; split; change (meta_tbc exsb0) with 64; [lia| |].
  - intros x Hx; rewrite E by done; eexists; split; [reflexivity|]; split; [lia|]; change (Z.shiftr (bdev_nr_bytes g0) SECTOR_SIZE_SHIFT) with 2097152.
    cbn [PAGEVEC_SIZE plain_pages]; change (tables_begin g0) with 100; change (tables_length g0) with 32; lia.
  - intros x y Hx Hy; rewrite !E by done; intros [=]; lia.
Qed.

Lemma chunks1_elem (ino n : Z) : n ∈ chunks1 ino -> ino = 3 /\ n = 0.
Proof. unfold chunks1; destruct (Z.eqb_spec ino 3); [intros ->%list_elem_of_singleton; done|intros H%elem_of_nil; done]. Qed.

Lemma dirty1 (ino : Z) : dirty_chunks g0 cache1 ino (chunks1 ino).
Proof.
  unfold chunks1; split; [destruct (ino =? 3); repeat constructor|]; intros i; cbn [dirty_pages cache1]; unfold unit_of; destruct (Z.eqb_spec ino 3) as [->|N].
  - rewrite Z.div_1_r, list_elem_of_singleton; destruct (Z.eq_dec i 0) as [->|Ni]; [rewrite lookup_singleton_eq; split; [done|eauto]|rewrite lookup_singleton_ne by done; split; [by intros []|done]].
  - rewrite lookup_empty; split; [by intros []|intros H%elem_of_nil; done].
Qed.

Lemma good1 : chunk_good g0 btree1 cache1 3 0.
Proof.
  split; [|intros Ht; discriminate Ht|].
  - intros i Hi; change (unit_of g0 3) with 1 in Hi; rewrite Z.div_1_r in Hi; subst i; exists page1; split; [reflexivity|vm_compute; reflexivity].
  - intros _ p Hp; change (dirty_pages cache1 3) with ({[0 := page1]} : gmap Z (list Z)) in Hp; rewrite lookup_singleton_eq in Hp; injection Hp as <-; reflexivity.
Qed.

Lemma writable1 : writable g0 btree1 snapshot0 (fst step1) (snd step1) exsb0 cache1 chunks1.
Proof.
  pose proof added1 as [A1 A2 A3 A4 A5 A6 A7 (A8 & A9 & A10)]; assert (is_chunk (base_t (snd step1)) (3, 0)) as Hc1 by exact (proj2 (same_chunk _ _ (3, 0) A3) chunk1).
  split; [exact A1|vm_compute; reflexivity|apply area1| |].
  - intros ino _; apply dirty1.
  - intros ino n _ Hn; apply chunks1_elem in Hn as [-> ->]; split; [exact Hc1|apply good1].
Qed.

Lemma transaction1 (l : list (Z * nat)) :
  transaction g0 sum32 btree1 (device0 l) 0 1 1 table0 [] table0 (fst step1) (snd step1) exsb0 true cache1 chunks1.
Proof.
  pose proof added1 as [A1 A2 A3 A4 A5 A6 A7 (A8 & A9 & A10)].
  split; [apply synced1| |exact writable1|apply placed0| | |reflexivity|].
  - rewrite A9; cbn; lia.
  - cbn; split; [lia|done].
  - intros k Hk Hn; pose proof (proj1 (same_chunk _ _ k A3) Hk) as Hk0; split; [exact Hk0|]; apply (A5 k Hk0); intros Ek; apply Hn; rewrite Ek; apply elem_of_cons; left; reflexivity.
  - rewrite A9; vm_compute; discriminate.
Qed.

Lemma moved1 : moved_away g0 table0 (snd step1) chunks1.
Proof.
  pose proof added1 as [A1 A2 A3 A4 A5 A6 A7 (A8 & A9 & A10)]; intros ino n b Hs Hn Hcv; apply chunks1_elem in Hn as [-> ->]; destruct A6 as [[A6 _]|[A6|[A6 _]]].
  - exfalso; revert A6; vm_compute; discriminate.
  - apply A6, Hcv.
  - exfalso; revert A6; vm_compute; discriminate.
Qed.

Lemma sync_metadata_atomic_witness :
  exists f s' log, vdfs4_sync_metadata g0 sum32 btree1 false false true small_sbi (fun _ _ => 0) (Fs (fst step1) (snd step1) exsb0 true cache1 f (device0 [(0, O); (0, O); (-5, O)])) = Ok (0, s', log)
  /\ mount_reads g0 sum32 (f_device s') (meta_page g0 (base_t (snd step1))) (new_page g0 sum32 btree1 (device0 [(0, O); (0, O); (-5, O)]) table0 (snd step1) exsb0 cache1).
Proof.
  destruct small_state as (f & fa & Ef & Hf & _).
  destruct (sync_metadata_atomic g0 sum32 btree1 false true small_sbi 2 (fun _ _ => 0)
    (device0 [(0, O); (0, O); (-5, O)]) 0 1 1 table0 [] table0 (fst step1) (snd step1) exsb0 true cache1 chunks1 f fa [] volume1 (transaction1 _) ltac:(vm_compute; discriminate) Hf ltac:(by left))
    as (ret & s' & log & E & Hor & Hz).
  assert (ret = 0) as ->; [|exists f, s', log; split; [exact E|]; destruct (Hor ltac:(left; reflexivity) moved1) as [_|H]; [apply Hz; [reflexivity|left; reflexivity]|exact H]].
  assert (match @vdfs4_fsm_build_trees Plain.plain_rbtree plain_find true small_sbi small_blank with
    | Ok f => match vdfs4_sync_metadata g0 sum32 btree1 false false true small_sbi (fun _ _ => 0) (Fs (fst step1) (snd step1) exsb0 true cache1 f (device0 [(0, O); (0, O); (-5, O)])) with Ok (x, _, _) => x | _ => 1 end
    | _ => 1 end = 0) as Hc by (vm_compute; reflexivity).
  rewrite Ef, E in Hc; exact Hc.
Defined.

Lemma sync_metadata_succeeds_witness :
  exists f s' log, vdfs4_sync_metadata g0 sum32 btree1 false false true small_sbi (fun _ _ => 0) (Fs (fst step1) (snd step1) exsb0 true cache1 f (device0 [])) = Ok (0, s', log)
  /\ mount_reads g0 sum32 (f_device s') (meta_page g0 (base_t (snd step1))) (new_page g0 sum32 btree1 (device0 []) table0 (snd step1) exsb0 cache1).
Proof.
  destruct small_state as (f & fa & Ef & Hf & _); exists f.
  apply (sync_metadata_succeeds g0 sum32 btree1 false true small_sbi 2 (fun _ _ => 0) (device0 []) 0 1 1 table0 [] table0 (fst step1) (snd step1) exsb0 true cache1 chunks1 f fa []
    volume1 (transaction1 _) ltac:(vm_compute; discriminate) Hf ltac:(by left)); [split; reflexivity|].
  intros ino n _ Hn Ht; apply chunks1_elem in Hn as [-> _]; discriminate Ht.
Defined.

Lemma meta_write_correct_witness :
  exists m' c' d', vdfs4_meta_write g0 sum32 btree1 1 2 (base_t (snd step1)) exsb0 cache1 (device0 [(-5, O)]) = Ok (-5, m', c', d')
  /\ restamped (base_t (snd step1)) m' /\ kept g0 (snd step1) exsb0 cache1 (device0 [(-5, O)]) d'.
Proof.
  destruct (meta_write_correct g0 sum32 btree1 snapshot0 (fst step1) (snd step1) exsb0 cache1 chunks1 (device0 [(-5, O)]) volume1 writable1)
    as (ret & m' & c' & d' & E & Hr & _ & _ & Hk & _).
  assert (match vdfs4_meta_write g0 sum32 btree1 1 2 (base_t (snd step1)) exsb0 cache1 (device0 [(-5, O)]) with Ok (x, _, _, _) => x | _ => 0 end = -5) as Hc by (vm_compute; reflexivity).
  change (mount_counter exsb0) with 1 in E; replace (sync_count (snd step1)) with 2 in E by (vm_compute; reflexivity); rewrite E in Hc; subst ret; exists m', c', d'; split; [exact E|]; split; [exact Hr|exact Hk].
Defined.

End Volume.
